(* ===== verification/_CoqProject ===== *)
-Q . S2P
Prelude.v
Handle.v
MemBudget.v
FpCanon.v
Arena.v
ArenaSpec.v
ArenaSafety.v
StateBuffer.v
StateBufferSpec.v
StateBufferTheorems.v
Blys.v
BlysSpec.v
Save.v
SaveTheorems.v
ElfSection.v
Elf32.v
CartLoad.v
CartLoadSpec.v
CartLoadDynamic.v
CartLoadTheorems.v
CartQueries.v
CartImages.v
Raster.v
ResourceTable.v
ResourceTheorems.v
ResourceIndex.v
RunCtx.v
Surface.v
SurfaceSpec.v
SurfaceTheorems.v
Palettes.v
TestCard.v
Ecall.v
EcallSpec.v
EcallTheorems.v
Session.v
SessionSpec.v
SessionTheorems.v
DynLink.v
DynLinkSpec.v
DynLinkSymbols.v
DynLinkLoad.v
DynLinkWalk.v
DynLinkTheorems.v
DynLinkImages.v
SessionLink.v
SessionLinkSpec.v
SessionLinkSteps.v
SessionLinkTheorems.v
SessionLinkImages.v
GdbTarget.v
GdbStub.v
GdbStubSpec.v
GdbPackets.v
GdbTheorems.v
GdbDebug.v
GdbTransport.v
GdbReload.v
GdbReloadTheorems.v
GdbImages.v
NativeState.v
GuestStubs.v
NativeSpec.v
NativeParity.v
NativeLayouts.v
NativeImages.v
NativeSave.v
NativeSaveTheorems.v
NativeSaveImages.v
NativeResource.v
NativeResourceSpec.v
NativeResourceParity.v
NativeResourceTheorems.v
NativeResourceLoad.v
NativeResourceImages.v
