(* ===== verification/Prelude.v ===== *)
(** * The Blyt runtime, verified

    Blyt is a fantasy console: a cart (an ELF32 image for RV32) runs in an emulator and
    reaches the console only through system calls.  This library models the C runtime
    under [runtime/]: the parts shared by the host and the guest ([runtime/shared/]),
    the host runtime ([runtime/host/src/libblyt/]) and the guest's stubs, and the bare-metal
    runtime under [frontends/native/], where the guest library is the whole console.  The definitions are a shallow
    embedding of the C code, all executable; a fault in the C code (an access outside a
    buffer, an overlapping [memcpy], a loop that does not end) is [None].

    ** How the program is put together

    A session holds one run context ([blyt_run_ctx_t]): the state buffers, the resource
    table, the surface registry, the palette, and the address of the accounting block in
    guest memory.  A frame runs the guest until it calls [FRAME_DONE]; every system call
    goes through [blyt_ecall_handler], which resolves tagged 32-bit handles, checks the
    phase and lock gates, and calls the component concerned.  The cart's own heap is
    the arena allocator, linked into the guest; it and the resource subsystem share one
    16 MiB budget through the accounting block.  Saves are BLYS files of the state buffers.

    ** Files

    - [Prelude]: fixed-width integers ([u8] ... [u64], [i32]), bytes, lists indexed by [Z]
      ([zget], [zset], [rd], [sub], [splice]), loops, tactics and hint databases.
    - [Handle]: [blyt_handle.h], [blyt_gen.h].  [MemBudget]: [blyt_mem_budget.h].
      [FpCanon]: [blyt_fp_canon.c], [blyt_frame_hash.c].
    - [Arena]: [blyt_arena.c]: the block headers and the free list over a byte heap.
      [ArenaSpec]: the invariant (blocks tile the arena, the free list is exactly the free
      blocks, the accounting is exact), and the contract of the four calls as an abstract
      heap.  [ArenaSafety]: any legal sequence of calls keeps it, and reads and writes
      only inside its own blocks, the copies of [realloc] and the zeros of [calloc] included.
    - [StateBuffer]: [state_buffer.c]; [StateBufferSpec], [StateBufferTheorems]: slots,
      typed fields, packed references and their generations, snapshots, initialisation.
    - [Blys]: [blyt_blys.c], writer and reader over any byte sink and source ([ByteSink],
      [ByteSource] are classes); [BlysSpec] the reference image of a file; [Save]: [save.c]
      over a map from paths to bytes, with the buffer of a [FILE] and the space left on the device;
      [SaveTheorems]: round trip, safety on any file, matching by name, and a save that a full device
      cuts and that is reported as a success.
    - [ElfSection]: [blyt_elf_section.c] and its reference reading of the section table.
    - [Elf32]: [elf32.h].  [CartLoad]: [cart_load.c]: the checks of an untrusted cart, each a
      function to [checked] (accepted, rejected with an error, or a read outside of the image),
      and the queries on an open cart.  [CartLoadSpec], [CartLoadDynamic]: the policy, in terms of
      segments, sections, libraries, symbols and manifest, with a lemma per check.  The manifest's root is read
      before the verifier's answer is looked at, as in the code.
      [CartLoadTheorems]: what an accepted cart meets, and when validation stays in the file.
      [CartQueries]: the queries.  [CartImages]: small images, and what the checks do not see.
    - [Raster]: [blyt_raster.c].
    - [ResourceTable]: [resource.c], [blyt_resource_codec.c], [blyt_resource_lifecycle.h];
      [ResourceTheorems]: eviction, transparency of residency, loading, the persistent set.
      [ResourceIndex]: the index file of a development build.
    - [RunCtx]: the run context and the budget bridge of [cart_run.c]; the class
      [GuestMemory], the interface to the emulator's memory.  [Surface]: the surface
      registry and its tier-2 locks; [SurfaceSpec] its invariant; [SurfaceTheorems] what
      creation, locking, release, destruction and the end-of-frame reap do.
    - [Palettes]: [blyt_palettes.c].  [TestCard]: [testcard.c].
    - [Ecall]: [blyt_ecall_handler] of [cart_run.c], one definition per case, over the class
      [RegFile] for the emulator's registers; [EcallSpec]: the machine invariant and one lemma
      per case; [EcallTheorems]: runs of a cart, the gates, drawing, pins.
    - [Session]: the session API of [cart_run.c]: frames ([run_frame_impl], in three parts:
      [frame_entry], [frame_loop] and [finish_frame]), host-initiated calls of guest functions,
      the reset-every-frame cycle, hooks, saves, snapshots and accessors.  [SessionSpec]: the
      invariant [session_ok] and what each operation keeps, the emulator being known by its
      contract [emu_run] only; [SessionTheorems]: the properties.
    - [DynLink]: the dynamic loader of [cart_run.c]: the library registry, symbol tables, segments,
      relocations, the walk over the needed libraries, [dynlink].  [DynLinkSpec]: relocations as the
      words they set; [DynLinkSymbols]: exports and needed names of an image; [DynLinkLoad]: segments as
      writes; [DynLinkWalk]: the load order as a relation ([chain]), and the whole link reduced to these
      ([dynlink_spec]).  [DynLinkTheorems]: the properties; [DynLinkImages]: small libraries and
      carts, witnesses, and a cart that gets past the allow-lists.
    - [SessionLink]: [session_create_impl], [blyt_session_swap_cart] and [blyt_session_reload_resources] of
      [cart_run.c], over a record [host] of what they take from the emulator and the environment.
      [SessionLinkSpec]: state buffers, resources and palette of a cart satisfy the invariants
      ([bootable] is what a cart must meet); [SessionLinkSteps]: creation and swap on top of the link;
      [SessionLinkTheorems]: the properties; [SessionLinkImages]: witnesses, and a swap that fails half-way.
    - [GdbTarget]: the operations [cart_run.c] gives to the debugger, software breakpoints over a
      memory whose writes are checked ([CheckedMemory]), and the program behind the breakpoints.
      [GdbStub]: [gdb_stub.c] over any target; [GdbStubSpec], [GdbPackets]: its invariant, a lemma per
      packet and what a packet does to the target; [GdbTheorems]: sequences of events; [GdbDebug]: the stub
      on the guest; [GdbTransport]: framing and connections ([gdb_transport_tcp.c],
      [gdb_transport_wasm.c]); [GdbReload], [GdbReloadTheorems]: the library list and its swap on a hot
      reload; [GdbImages]: a small guest under the debugger.
    - [GuestStubs]: the API functions a cart calls in the emulator ([blyt32.c], [blytcommon_emu.c]).
      [NativeState], [NativeSave]: the same API on bare metal ([blytcommon.c]): the state buffers in
      statics, the start-up parser of the cart's layouts, saves over the kernel's [read] and [write].
      [NativeSpec]: the relation [sim] between the statics and the host's state context, kept by every
      operation; [NativeParity]: calls of a cart; [NativeLayouts]: a reference FlatBuffers
      decoder and the start-up; [NativeSaveTheorems]: saves and loads; [NativeImages],
      [NativeSaveImages]: a cart with its layouts as bytes, a kernel with short transfers, witnesses.
    - [NativeResource]: the resources of [blytcommon.c]: the raw allocator, the table in statics, the budget and
      the frame boundary.  [NativeResourceSpec]: each operation is the host's under [to_host];
      [NativeResourceParity], [NativeResourceTheorems]: the resource calls of a cart on both sides;
      [NativeResourceLoad]: both start-ups; [NativeResourceImages]: witnesses.

    ** What the theorems show

    - Safety of the console: [EcallTheorems.ecall_reach_safe] composes the invariants of
      all components: a cart that runs arbitrary code and issues arbitrary calls keeps the
      registry, the table, the buffers and the save files consistent, and no call within the contract leaves its
      buffers or fails to return.  Its side conditions are the hazards that do exist: a
      line with an endpoint beyond 2^28 and a surface blitted onto itself ([call_ok]), and a resource entry
      longer than its section ([entry_ok]).
      [SessionTheorems.session_frame_safe] lifts this to whole frames, and
      [SessionLinkTheorems.session_life_safe] to whole sessions of playable carts: created, run, reloaded
      and swapped in any order.
    - The door: an accepted cart meets the loader's policy ([CartLoadTheorems.cart_open_segments],
      [cart_open_linkage], [cart_open_manifest]), and a file whose tables are honest about their place
      is validated without a read outside of it ([cart_open_stays_inside]); the hypotheses are
      needed ([CartImages.cart_open_gaps]).  The policy is what the code checks: 4-byte encodings of [ecall]
      and [ebreak], the sections named [.dynamic], imports that are not weak; [CartImages] has accepted
      carts with a compressed breakpoint and with a weak import.
    - The link: the libraries kept are a closed queue, each at its own address
      ([DynLinkTheorems.dynlink_libraries]); every bound word holds the address of the first definition of its
      symbol ([dynlink_binds]); segments are as in the file ([map_lib_segments_exact]); nothing outside of
      well-formed images is read ([dynlink_stays_inside]).  But the link does not read the sections that
      the loader checked ([DynLinkImages.dynlink_bypass]).
    - Sessions: what a created session is like ([SessionLinkTheorems.session_create_sound]), what a swap of
      the cart changes, keeps, binds and wipes ([session_swap_exact]); a swap that fails is not harmless
      ([SessionLinkImages.session_swap_not_atomic]).
    - Transparency: the reset cycle, hooks, saves, loads and snapshots of a session leave
      the CPU of the running game as it was and hand the load hook exactly the saved state.  The reset
      cycle is given on every branch, a snapshot that cannot be allocated included.
    - The debugger: no client and no order of events takes the stub outside of its tables
      ([GdbTheorems.gdb_stub_safe]); every packet is answered once, within the buffers
      ([gdb_packet_answered]); a stop is released by the client only ([gdb_stop_holds]); the breakpoint table is a
      list ([gdb_breakpoints_refine]); the documents arrive whole ([gdb_documents_transfer]).  On the guest,
      breakpoints do not change the program ([GdbDebug.gdb_debug_transparent]) and what is written reads back
      ([gdb_target_roundtrip]), unless the client sets one breakpoint twice
      ([GdbImages.gdb_duplicate_corrupts]).  A connection ends with the target running
      ([GdbTransport.gdb_connection_ends]); a hot reload replaces the cart's library and ends whatever the client does
      ([GdbReloadTheorems.gdb_reload_swap], [gdb_reload_blocking]).
    - Two consoles: the state buffers of bare metal and of the emulator, stubs, handler and
      host included, give the same values and slots, and differ in the codes of failing calls only
      ([NativeParity.native_state_parity]); they start from the same file
      ([NativeLayouts.native_startup]); saves are the same bytes while the host's device has room
      ([NativeSaveTheorems.native_save_bytes]), any file loads to the same state ([native_load_parity]), and a save
      restores the game ([native_save_restores]).  The resources answer alike while no surface is charged
      ([NativeResourceTheorems.native_resource_parity]) and are loaded alike
      ([NativeResourceLoad.native_resources_load]).  Where they differ is stated too: which buffers shared vtables lose
      ([NativeLayouts.native_lost_buffers]), truncated files
      ([NativeSaveImages.native_truncated_accepted]), long paths ([native_slot_paths]).
    - Per component, the functional behaviour on every branch (errors included), the
      round trips (handles, BLYS files, save slots, snapshots, locks), equivalence with
      a reference definition (section lookup, nearest colour), the exact arithmetic of the
      budget, and termination of the loops that are not structural (eviction, lines).

    ** Bounds and fuel

    Loops that are not structural take fuel: the eviction loop runs at most once per entry
    and once more; the free-list walk at most once per block; a line visits at most
    |dx| + |dy| + 1 points; the header skips of a BLYS file at most one chunk per byte; a decimal has
    at most 10 digits.  Spent fuel is [None], and each safety theorem proves it is not
    reached; where the C loop does not end ([Raster.raster_line_hangs],
    [SessionTheorems.session_quit_hangs]) that is a theorem.  A document of the debugger is read in at
    most as many chunks as it has bytes (8192); each phase of a pumped reload ends within
    [BLYT_RELOAD_NOTIFY_MAX_TICKS] polls, and a blocking one after 3000 sleeps.  The loops that run guest code
    take any number of slices and frames: a guest may run for ever, and the [outcome]
    [Running] is kept apart from a fault of the host and from a result.

    ** Parameters

    Code outside the repository is a parameter with stated laws: guest memory and registers
    (rv32emu; [memory_fill] writes copies of its value), its creation and reset ([host_ok]) and the run of a slice of guest code ([rv_step], constrained by [emu_run]), zstd ([zstd] in [res_env]), [malloc] failures and files ([res_env],
    [fs_env]), the FlatBuffers accessors (a decoded layout).  Witnesses instantiate them with
    concrete functions.  On bare metal the kernel is a parameter ([native_kernel]): [read] and [write] may
    transfer fewer bytes than asked for, a [write] may fail; the loops over them end
    ([write_loop_total], [read_loop_ends]).

    ** Not modelled

    The GDB, DAP and Lua-bridge branches of the frame loop and of the creation and swap of a session belong to
    other builds; of the GDB build the stub, its target operations, the framing and the library list are
    modelled, with the steps of the reader thread and of the run loop as atomic events.  Opening and closing the
    debugger's socket is left out.
    Of the bare-metal runtime the heap shims, the surfaces and the system-call filter are not modelled.
    The DAP debugger and the Lua bridge (JSON and Lua API glue), the frontends (windowing,
    audio and input), the cart's main loop in [blyt_common.c] and trace output are left out: they are glue
    over third-party code or are not visible to a cart. *)

From Stdlib Require Import ZArith Lia ZifyBool Znumtheory.
From Stdlib Require Import Ascii String.
From stdpp Require Import base tactics numbers list gmap.
Open Scope Z_scope.

(** ** Fixed-width integers

    A [w]-bit unsigned C integer is the [Z] in [0, 2^w); a C conversion or an
    arithmetic result is brought back in range by the matching wrapper. *)

Definition wrap (w z : Z) : Z := z mod 2 ^ w.
Definition u8 (z : Z) : Z := wrap 8 z.
Definition u16 (z : Z) : Z := wrap 16 z.
Definition u32 (z : Z) : Z := wrap 32 z.
Definition u64 (z : Z) : Z := wrap 64 z.

(** Two's complement reading of the low 32 bits: a C [(int32_t)] conversion,
    or an [int] result under [-fwrapv]. *)
Definition i32 (z : Z) : Z :=
  let m := u32 z in if m <? 2 ^ 31 then m else m - 2 ^ 32.

Definition is_u8 (z : Z) : Prop := 0 <= z < 2 ^ 8.
Definition is_u16 (z : Z) : Prop := 0 <= z < 2 ^ 16.
Definition is_u32 (z : Z) : Prop := 0 <= z < 2 ^ 32.
Definition is_u64 (z : Z) : Prop := 0 <= z < 2 ^ 64.
Definition is_i32 (z : Z) : Prop := - 2 ^ 31 <= z < 2 ^ 31.

(** ** Little-endian byte strings *)

Fixpoint le_bytes (n : nat) (v : Z) : list Z :=
  match n with
  | O => []
  | S n => v mod 256 :: le_bytes n (v / 256)
  end.

Fixpoint le_val (l : list Z) : Z :=
  match l with
  | [] => 0
  | b :: l => b + 256 * le_val l
  end.

Definition bytes_ok (l : list Z) : Prop := Forall is_u8 l.

(** The bytes of a string literal, without the NUL. *)
Definition text (s : string) : list Z :=
  (fun a => Z.of_N (N_of_ascii a)) <$> list_ascii_of_string s.

(** ** Slices of a byte array, indexed by [Z] offsets

    [sub l off len] is what a [memcpy] out of [l + off] reads; [splice l off new]
    is what a [memcpy] of [new] to [l + off] leaves. *)

Definition len {A} (l : list A) : Z := Z.of_nat (length l).
Definition sub {A} (l : list A) (off n : Z) : list A :=
  take (Z.to_nat n) (drop (Z.to_nat off) l).
Definition splice {A} (l : list A) (off : Z) (new : list A) : list A :=
  take (Z.to_nat off) l ++ new ++ drop (Z.to_nat off + length new) l.

(** [rd l off n] is the bounds-checked read: [None] is a read outside the array. *)
Definition rd {A} (l : list A) (off n : Z) : option (list A) :=
  if (0 <=? off) && (0 <=? n) && (off + n <=? len l) then Some (sub l off n) else None.

(** ** Arrays indexed by a C integer

    [zget] and [zset] are [a[i]] and [a[i] = x]; [None] is an access outside the
    array. *)
Definition zget {A} (l : list A) (i : Z) : option A :=
  if 0 <=? i then l !! Z.to_nat i else None.
Definition zset {A} (l : list A) (i : Z) (x : A) : option (list A) :=
  if (0 <=? i) && (i <? len l) then Some (<[Z.to_nat i := x]> l) else None.

(** [for (i = 0; i < n; i++) a[i] = f(i, a[i])]; [None] when the loop runs off the
    array or a step fails. *)
Fixpoint for_from {A} (k : nat) (i : Z) (f : Z -> A -> option A) (l : list A) : option (list A) :=
  match k, l with
  | O, _ => Some l
  | S _, [] => None
  | S k, x :: l => y ← f i x; r ← for_from k (i + 1) f l; Some (y :: r)
  end.
Definition for_each {A} (n : Z) (f : Z -> A -> option A) (l : list A) : option (list A) :=
  for_from (Z.to_nat n) 0 f l.

(** ** Automation *)

Create HintDb blyt.
Create Rewrite HintDb blyt_rw.

(** [pow_simp] turns the powers of two of the fixed widths into literals, which
    is what [lia] wants. *)
Ltac pow_simp :=
  change (2 ^ 8) with 256 in *; change (2 ^ 16) with 65536 in *;
  change (2 ^ 31) with 2147483648 in *; change (2 ^ 32) with 4294967296 in *;
  change (2 ^ 64) with 18446744073709551616 in *.

Ltac word_unfold :=
  unfold is_u8, is_u16, is_u32, is_u64, is_i32, i32, u8, u16, u32, u64, wrap in *;
  pow_simp.

(** [word] closes goals on wrapped arithmetic. *)
Ltac word := word_unfold; Z.div_mod_to_equations; lia.

(** One step of symbolic execution: split on the first test of the goal or of a
    hypothesis, remembering its outcome. *)
Ltac branch :=
  match goal with
  | |- context [if ?b then _ else _] => destruct b eqn:?
  | |- context [match ?o with Some _ => _ | None => _ end] => destruct o eqn:?
  | H : context [if ?b then _ else _] |- _ => destruct b eqn:?
  | H : context [match ?o with Some _ => _ | None => _ end] |- _ => destruct o eqn:?
  end.

(** Split on the first test of the goal. *)
Ltac cond H := match goal with |- context [if ?c then _ else _] => destruct c eqn:H end.

(** Run a computation that is known to have succeeded. *)
Ltac invert_some := repeat (branch; simplify_eq/=).

(** ** Lemmas: fixed-width integers *)

Lemma u8_id z : is_u8 z -> u8 z = z.
Proof. intros; apply Z.mod_small; done. Qed.
Lemma u16_id z : is_u16 z -> u16 z = z.
Proof. intros; apply Z.mod_small; done. Qed.
Lemma u32_id z : is_u32 z -> u32 z = z.
Proof. intros; apply Z.mod_small; done. Qed.
Lemma u64_id z : is_u64 z -> u64 z = z.
Proof. intros; apply Z.mod_small; done. Qed.
Lemma u8_range z : is_u8 (u8 z).
Proof. apply Z.mod_pos_bound; lia. Qed.
Lemma u16_range z : is_u16 (u16 z).
Proof. apply Z.mod_pos_bound; lia. Qed.
Lemma u32_range z : is_u32 (u32 z).
Proof. apply Z.mod_pos_bound; lia. Qed.
Lemma u64_range z : is_u64 (u64 z).
Proof. apply Z.mod_pos_bound; lia. Qed.
Lemma i32_range z : is_i32 (i32 z).
Proof. pose proof (u32_range z). unfold i32. case_match; word_unfold; lia. Qed.
Lemma i32_id z : is_i32 z -> i32 z = z.
Proof.
  intros H. unfold i32. destruct (Z.ltb_spec (u32 z) (2 ^ 31)); word.
Qed.
Lemma u32_i32 z : u32 (i32 z) = u32 z.
Proof. unfold i32. case_match; word. Qed.

#[export] Hint Resolve u8_range u16_range u32_range u64_range i32_range : blyt.
#[export] Hint Rewrite @length_app @length_take @length_drop @length_replicate : blyt_rw.

(** The mask idiom [v & (2^k - 1)] is a remainder, [v >> k] a quotient. *)
Lemma land_ones_mod v k m : 0 <= k -> m = 2 ^ k - 1 -> Z.land v m = v mod 2 ^ k.
Proof. intros Hk ->. rewrite <-Z.land_ones, Z.ones_equiv by lia. f_equal; lia. Qed.

Lemma shiftr_div v k : 0 <= k -> Z.shiftr v k = v / 2 ^ k.
Proof. apply Z.shiftr_div_pow2. Qed.

Lemma shiftl_mul v k : 0 <= k -> Z.shiftl v k = v * 2 ^ k.
Proof. apply Z.shiftl_mul_pow2. Qed.

(** Or-ing a field into a word whose low [k] bits are clear is an addition. *)
Lemma lor_disjoint_add hi lo k :
  0 <= k -> 0 <= lo < 2 ^ k -> Z.lor (hi * 2 ^ k) lo = hi * 2 ^ k + lo.
Proof.
  intros Hk Hlo. rewrite <-Z.shiftl_mul_pow2 by done.
  assert (Z.land (Z.shiftl hi k) lo = 0) as Hd.
  { apply Z.bits_inj'; intros i Hi. rewrite Z.land_spec, Z.bits_0.
    destruct (Z.lt_ge_cases i k).
    - rewrite Z.shiftl_spec_low by lia. done.
    - replace lo with (lo mod 2 ^ k) by (apply Z.mod_small; lia).
      rewrite Z.mod_pow2_bits_high by lia. apply andb_false_r. }
  rewrite <-Z.lxor_lor by done. rewrite Z.add_nocarry_lxor by done. done.
Qed.

(** Clearing the low [k] bits of a word rounds it down. *)
Lemma land_lnot_ones v k m :
  0 <= k -> m = 2 ^ k - 1 -> Z.land v (Z.lnot m) = v - v mod 2 ^ k.
Proof.
  intros Hk ->. replace (2 ^ k - 1) with (Z.ones k) by (rewrite Z.ones_equiv; lia).
  fold (Z.ldiff v (Z.ones k)). rewrite <-Z.ldiff_land.
  rewrite Z.ldiff_ones_r, Z.shiftl_mul_pow2, Z.shiftr_div_pow2 by done.
  pose proof (Z.div_mod v (2 ^ k)). assert (2 ^ k <> 0) by (apply Z.pow_nonzero; lia). lia.
Qed.

Lemma bool_decide_ext_case {A} (P Q : Prop) `{Decision P, Decision Q} (x y : A) :
  (P <-> Q) -> (if bool_decide P then x else y) = (if bool_decide Q then x else y).
Proof. intros HPQ. by rewrite (bool_decide_ext P Q HPQ). Qed.

(** ** Lemmas: little-endian encodings *)

Lemma length_le_bytes n v : length (le_bytes n v) = n.
Proof. revert v; induction n; intros; simpl; auto. Qed.

Lemma le_bytes_ok n v : bytes_ok (le_bytes n v).
Proof.
  revert v; induction n as [|n IH]; intros v; simpl; constructor.
  - unfold is_u8. pow_simp. apply Z.mod_pos_bound; lia.
  - apply IH.
Qed.

Lemma le_val_bytes n v : le_val (le_bytes n v) = v mod 256 ^ Z.of_nat n.
Proof.
  revert v; induction n as [|n IH]; intros v; simpl.
  { by rewrite Z.mod_1_r. }
  rewrite IH, Nat2Z.inj_succ, Z.pow_succ_r by lia.
  rewrite Z.rem_mul_r; [done|lia|]. apply Z.pow_pos_nonneg; lia.
Qed.

Lemma le_val_range l : bytes_ok l -> 0 <= le_val l < 256 ^ len l.
Proof.
  unfold len. induction 1 as [|b l Hb _ IH]; simpl; [lia|].
  rewrite Nat2Z.inj_succ, Z.pow_succ_r by lia. unfold is_u8 in Hb; pow_simp. lia.
Qed.

Lemma le_bytes_val l : bytes_ok l -> le_bytes (length l) (le_val l) = l.
Proof.
  induction 1 as [|b l Hb _ IH]; simpl; [done|].
  unfold is_u8 in Hb; pow_simp.
  replace ((b + 256 * le_val l) mod 256) with b by (Z.div_mod_to_equations; lia).
  replace ((b + 256 * le_val l) / 256) with (le_val l) by (Z.div_mod_to_equations; lia).
  by rewrite IH.
Qed.

Lemma le_val_app l1 l2 : le_val (l1 ++ l2) = le_val l1 + 256 ^ len l1 * le_val l2.
Proof.
  unfold len. induction l1 as [|b l1 IH]; simpl; [lia|].
  rewrite Nat2Z.inj_succ, Z.pow_succ_r by lia. rewrite IH. ring.
Qed.

(** ** Lemmas: slices *)

Section slices.
Context {A : Type}.
Implicit Types (l new : list A) (off n : Z).

Lemma len_cons x l : len (A:=A) (x :: l) = 1 + len l.
Proof. unfold len. cbn [length]. lia. Qed.

Lemma len_app l1 l2 : len (A:=A) (l1 ++ l2) = len l1 + len l2.
Proof. unfold len. rewrite length_app. lia. Qed.

Lemma len_nonneg l : 0 <= len l.
Proof. unfold len. lia. Qed.

Lemma length_sub l off n :
  0 <= off -> 0 <= n -> off + n <= len l -> length (sub l off n) = Z.to_nat n.
Proof. unfold sub, len. intros. rewrite length_take, length_drop. lia. Qed.

Lemma length_splice l off new :
  0 <= off -> off + len new <= len l -> length (splice l off new) = length l.
Proof.
  unfold splice, len. intros.
  rewrite !length_app, length_take, length_drop. lia.
Qed.

Lemma sub_splice_same l off new :
  0 <= off -> off + len new <= len l -> sub (splice l off new) off (len new) = new.
Proof.
  unfold sub, splice, len. intros.
  rewrite drop_app_ge by (rewrite length_take; lia).
  rewrite length_take, Nat.min_l by lia. rewrite Nat.sub_diag, drop_0.
  rewrite take_app_le by lia. rewrite take_ge; [done|lia].
Qed.

Lemma lookup_sub l off n (i : nat) :
  0 <= off -> sub l off n !! i
    = if bool_decide (Z.of_nat i < n) then l !! (Z.to_nat off + i)%nat else None.
Proof.
  intros. unfold sub. case_bool_decide.
  - rewrite lookup_take_lt by lia. by rewrite lookup_drop.
  - apply lookup_take_ge. lia.
Qed.

Lemma lookup_splice l off new (i : nat) :
  0 <= off -> off + len new <= len l ->
  splice l off new !! i
    = if bool_decide (off <= Z.of_nat i < off + len new)
      then new !! (i - Z.to_nat off)%nat else l !! i.
Proof.
  unfold splice, len. intros. case_bool_decide.
  - rewrite lookup_app_r by (rewrite length_take; lia).
    rewrite length_take, Nat.min_l by lia. rewrite lookup_app_l by lia. done.
  - destruct (decide (Z.of_nat i < off)).
    + rewrite lookup_app_l by (rewrite length_take; lia). rewrite lookup_take_lt by lia. done.
    + rewrite lookup_app_r by (rewrite length_take; lia).
      rewrite length_take, Nat.min_l by lia.
      rewrite lookup_app_r by lia. rewrite lookup_drop. f_equal; lia.
Qed.

Lemma sub_splice_disjoint l off new off' n :
  0 <= off -> off + len new <= len l -> 0 <= off' ->
  off' + n <= off \/ off + len new <= off' ->
  sub (splice l off new) off' n = sub l off' n.
Proof.
  intros. apply list_eq; intros i. rewrite !lookup_sub by lia.
  case_bool_decide; [|done]. rewrite lookup_splice by lia.
  rewrite bool_decide_false; [done|]. lia.
Qed.

Lemma rd_Some l off n : 0 <= off -> 0 <= n -> off + n <= len l -> rd l off n = Some (sub l off n).
Proof. intros. unfold rd. case_match; [done|lia]. Qed.

Lemma rd_inv l off n bs :
  rd l off n = Some bs -> 0 <= off /\ 0 <= n /\ off + n <= len l /\ bs = sub l off n.
Proof. unfold rd. case_match; intros; simplify_eq. split_and!; lia || done. Qed.

Lemma Forall_sub (P : A -> Prop) l off n : Forall P l -> Forall P (sub l off n).
Proof. intros. by apply Forall_take, Forall_drop. Qed.

Lemma Forall_splice (P : A -> Prop) l off new : Forall P l -> Forall P new -> Forall P (splice l off new).
Proof. intros. apply Forall_app; split; [by apply Forall_take|]. apply Forall_app; split; [done|by apply Forall_drop]. Qed.

Lemma sub_app_l l1 l2 off n :
  0 <= off -> off + n <= len l1 -> sub (l1 ++ l2) off n = sub l1 off n.
Proof.
  unfold sub, len. intros. destruct (decide (n <= 0)).
  { replace (Z.to_nat n) with 0%nat by lia. done. }
  rewrite drop_app_le by lia. rewrite take_app_le; [done|]. rewrite length_drop; lia.
Qed.

Lemma sub_0_all l : sub l 0 (len l) = l.
Proof. unfold sub, len. rewrite drop_0, take_ge; [done|lia]. Qed.
End slices.

(** ** Lemmas: arrays *)

Section arrays.
Context {A : Type}.
Implicit Types (l : list A) (i j n : Z) (x y : A).

Lemma zget_Some l i x : zget l i = Some x -> 0 <= i < len l /\ l !! Z.to_nat i = Some x.
Proof.
  unfold zget, len. case_match; [|done]. intros Hx. pose proof (lookup_lt_Some _ _ _ Hx). split; [lia|done].
Qed.

Lemma zget_lookup l i : 0 <= i -> zget l i = l !! Z.to_nat i.
Proof. intros. unfold zget. by rewrite (proj2 (Z.leb_le 0 i)). Qed.

Lemma zget_is_Some l i : 0 <= i < len l -> exists x, zget l i = Some x.
Proof. intros. rewrite zget_lookup by lia. apply lookup_lt_is_Some_2. unfold len in *. lia. Qed.

Lemma zset_Some l i x : 0 <= i < len l -> zset l i x = Some (<[Z.to_nat i := x]> l).
Proof. intros. unfold zset. case_match; [done|lia]. Qed.

Lemma zset_inv l i x l' : zset l i x = Some l' -> 0 <= i < len l /\ l' = <[Z.to_nat i := x]> l.
Proof. unfold zset. case_match; [|done]. intros [= <-]. split; [lia|done]. Qed.

Lemma zget_insert_eq l i x : 0 <= i < len l -> zget (<[Z.to_nat i := x]> l) i = Some x.
Proof. intros. rewrite zget_lookup by lia. apply list_lookup_insert_eq. unfold len in *; lia. Qed.

Lemma zget_insert_ne l i j x : 0 <= i -> i <> j -> zget (<[Z.to_nat i := x]> l) j = zget l j.
Proof. intros. unfold zget. case_match; [|done]. apply list_lookup_insert_ne. lia. Qed.

Lemma len_insert l (i : nat) x : len (<[i := x]> l) = len l.
Proof. unfold len. by rewrite length_insert. Qed.

Lemma list_eq_zget l1 l2 :
  len l1 = len l2 -> (forall i, 0 <= i < len l1 -> zget l1 i = zget l2 i) -> l1 = l2.
Proof.
  intros Hl H. apply list_eq_same_length with (length l1); [unfold len in *; lia|done|].
  intros i x y Hi Hx Hy. specialize (H (Z.of_nat i)). rewrite !zget_lookup, Nat2Z.id in H by lia.
  specialize (H ltac:(unfold len; lia)). congruence.
Qed.

Lemma for_from_spec k i (f : Z -> A -> option A) l :
  (k <= length l)%nat ->
  (forall (j : nat) x, (j < k)%nat -> l !! j = Some x -> is_Some (f (i + Z.of_nat j) x)) ->
  exists l', for_from k i f l = Some l' /\ length l' = length l
    /\ (forall j : nat, (j < k)%nat -> l' !! j = (x ← l !! j; f (i + Z.of_nat j) x))
    /\ (forall j : nat, (k <= j)%nat -> l' !! j = l !! j).
Proof.
  revert i l; induction k as [|k IH]; intros i l Hk Hf; simpl.
  { exists l. split_and!; [done|done|lia|done]. }
  destruct l as [|x l]; simpl in Hk; [lia|].
  destruct (Hf 0%nat x) as [y Hy]; [lia|done|]. replace (i + Z.of_nat 0) with i in Hy by lia.
  destruct (IH (i + 1) l) as (l' & Hrun & Hl & Hin & Hout); [lia| |].
  { intros j z Hj Hz. replace (i + 1 + Z.of_nat j) with (i + Z.of_nat (S j)) by lia.
    apply Hf; [lia|done]. }
  rewrite Hy, Hrun. simpl. exists (y :: l'). split_and!; [done|simpl; lia| |].
  - intros [|j] Hj; [by replace (i + Z.of_nat 0) with i by lia|].
    change (l' !! j = (x0 ← l !! j; f (i + Z.of_nat (S j)) x0)).
    rewrite Hin by lia. by replace (i + 1 + Z.of_nat j) with (i + Z.of_nat (S j)) by lia.
  - intros [|j] Hj; [lia|]. simpl. apply Hout. lia.
Qed.

Lemma for_each_spec n (f : Z -> A -> option A) l :
  0 <= n <= len l ->
  (forall i x, 0 <= i < n -> zget l i = Some x -> is_Some (f i x)) ->
  exists l', for_each n f l = Some l' /\ len l' = len l
    /\ (forall i, 0 <= i < n -> zget l' i = (x ← zget l i; f i x))
    /\ (forall i, n <= i -> zget l' i = zget l i).
Proof.
  intros Hn Hf. destruct (for_from_spec (Z.to_nat n) 0 f l) as (l' & Hrun & Hl & Hin & Hout).
  - unfold len in *. lia.
  - intros j x Hj Hx. apply Hf; [lia|]. rewrite zget_lookup by lia.
    by replace (Z.to_nat (0 + Z.of_nat j)) with j by lia.
  - exists l'. split_and!; [done|unfold len; lia| |].
    + intros i Hi. rewrite !zget_lookup by lia. rewrite Hin by lia.
      by replace (0 + Z.of_nat (Z.to_nat i)) with i by lia.
    + intros i Hi. unfold zget. case_match; [|done]. apply Hout. lia.
Qed.

Lemma for_from_inv k i (f : Z -> A -> option A) l l' :
  for_from k i f l = Some l' ->
  (k <= length l)%nat /\ length l' = length l
  /\ (forall j : nat, (j < k)%nat -> l' !! j = (x ← l !! j; f (i + Z.of_nat j) x))
  /\ (forall j : nat, (k <= j)%nat -> l' !! j = l !! j).
Proof.
  revert i l l'; induction k as [|k IH]; intros i l l'; cbn.
  { intros [= <-]. split_and!; [lia|done|lia|done]. }
  destruct l as [|x l]; [done|]. destruct (f i x) as [y|] eqn:Hy; cbn; [|done].
  destruct (for_from k (i + 1) f l) as [r|] eqn:Hr; cbn; [|done]. intros [= <-].
  destruct (IH _ _ _ Hr) as (? & ? & Hin & Hout). split_and!; [cbn; lia|cbn; lia| |].
  - intros [|j] Hj; [by cbn; rewrite Z.add_0_r, Hy|].
    change (r !! j = (x0 ← l !! j; f (i + Z.of_nat (S j)) x0)).
    rewrite Hin by lia. by replace (i + 1 + Z.of_nat j) with (i + Z.of_nat (S j)) by lia.
  - intros [|j] Hj; [lia|]. cbn. apply Hout. lia.
Qed.

Lemma for_each_inv n (f : Z -> A -> option A) l l' :
  for_each n f l = Some l' ->
  len l' = len l /\ (forall i, 0 <= i < n -> zget l' i = (x ← zget l i; f i x))
  /\ (forall i, n <= i -> zget l' i = zget l i).
Proof.
  intros (Hk & Hl & Hin & Hout)%for_from_inv. split_and!; [unfold len; lia| |].
  - intros i Hi. rewrite !zget_lookup by lia. rewrite Hin by lia.
    by replace (0 + Z.of_nat (Z.to_nat i)) with i by lia.
  - intros i Hi. unfold zget. case_match; [|done]. apply Hout. lia.
Qed.
End arrays.

(** A [memcpy] into an array, read back by index. *)
Lemma zget_splice {A} (l new : list A) off i :
  0 <= off -> off + len new <= len l ->
  zget (splice l off new) i
    = if (off <=? i) && (i <? off + len new) then zget new (i - off) else zget l i.
Proof.
  intros Ho Hl. unfold zget. destruct (0 <=? i) eqn:Ei.
  - rewrite lookup_splice by lia.
    destruct ((off <=? i) && (i <? off + len new)) eqn:E.
    + rewrite bool_decide_true by lia. rewrite (proj2 (Z.leb_le 0 (i - off))) by lia. f_equal. lia.
    + rewrite bool_decide_false by lia. done.
  - destruct (_ && _) eqn:E; [lia|done].
Qed.

Lemma len_splice {A} (l new : list A) off :
  0 <= off -> off + len new <= len l -> len (splice l off new) = len l.
Proof. intros. unfold len. rewrite length_splice; [done|lia|lia]. Qed.

Lemma len_replicate {A} n (x : A) : len (replicate n x) = Z.of_nat n.
Proof. unfold len. by rewrite length_replicate. Qed.

Lemma len_sub {A} (l : list A) off n : 0 <= off -> 0 <= n -> off + n <= len l -> len (sub l off n) = n.
Proof. intros. unfold len in *. rewrite length_sub; unfold len; lia. Qed.

Lemma zget_replicate {A} n (x : A) i : 0 <= i < Z.of_nat n -> zget (replicate n x) i = Some x.
Proof. intros. rewrite zget_lookup by lia. apply lookup_replicate_2. lia. Qed.

Lemma zget_sub {A} (l : list A) off n i :
  0 <= off -> 0 <= i < n -> zget (sub l off n) i = zget l (off + i).
Proof.
  intros. rewrite !zget_lookup, lookup_sub by lia. rewrite bool_decide_true by lia. f_equal. lia.
Qed.

Lemma zget_app_l {A} (l1 l2 : list A) i : i < len l1 -> zget (l1 ++ l2) i = zget l1 i.
Proof. intros Hi. unfold zget, len in *. case_match; [|done]. by rewrite lookup_app_l by lia. Qed.

Lemma zget_app_r {A} (l1 l2 : list A) i : len l1 <= i -> zget (l1 ++ l2) i = zget l2 (i - len l1).
Proof.
  intros Hi. pose proof (len_nonneg l1). rewrite !zget_lookup by lia. unfold len in *. rewrite lookup_app_r by lia. f_equal; lia.
Qed.

(** ** Sums over an array *)

Fixpoint zsum {A} (f : A -> Z) (l : list A) : Z :=
  match l with
  | [] => 0
  | x :: l => f x + zsum f l
  end.

Lemma zsum_insert {A} (f : A -> Z) l i x y :
  zget l i = Some x -> zsum f (<[Z.to_nat i := y]> l) = zsum f l - f x + f y.
Proof.
  intros (Hi & Hx)%zget_Some. revert Hx. generalize (Z.to_nat i). clear i Hi. intros i.
  revert i; induction l as [|z l IH]; intros [|i] Hx; [done..| |]; cbn [lookup list_lookup] in Hx.
  - injection Hx as ->. change (<[0%nat := y]> (x :: l)) with (y :: l). cbn [zsum]. lia.
  - change (<[S i := y]> (z :: l)) with (z :: <[i := y]> l). cbn [zsum]. rewrite (IH i Hx). lia.
Qed.

Lemma zsum_bound {A} (f : A -> Z) l m :
  (forall x, x ∈ l -> 0 <= f x <= m) -> 0 <= zsum f l <= m * len l.
Proof.
  unfold len. induction l as [|x l IH]; intros H; cbn [zsum length]; [lia|].
  specialize (IH (fun y Hy => H y (list_elem_of_further _ _ _ Hy))). specialize (H x (list_elem_of_here _ _)). lia.
Qed.

Lemma zsum_elem {A} (f : A -> Z) l x :
  (forall x, x ∈ l -> 0 <= f x) -> x ∈ l -> f x <= zsum f l.
Proof.
  induction l as [|y l IH]; intros H Hx; [by apply elem_of_nil in Hx|]. cbn [zsum].
  assert (0 <= zsum f l) as Hn.
  { clear -H. induction l as [|z l IH]; [done|]. cbn [zsum]. pose proof (H z ltac:(right; left)).
    assert (0 <= zsum f l); [apply IH|lia]. intros w Hw. apply H. apply elem_of_cons in Hw as [->|Hw]; [left|by do 2 right]. }
  pose proof (H y (list_elem_of_here _ _)). apply elem_of_cons in Hx as [->|Hx]; [lia|].
  assert (f x <= zsum f l); [|lia]. apply IH; [|done]. intros z Hz. apply H. by right.
Qed.

Lemma zsum_ext {A} (f g : A -> Z) l : (forall x, x ∈ l -> f x = g x) -> zsum f l = zsum g l.
Proof.
  induction l as [|x l IH]; intros H; cbn [zsum]; [done|]. rewrite (H x) by left. rewrite IH; [done|].
  intros y Hy. apply H. by right.
Qed.

Lemma zget_elem {A} (l : list A) i x : zget l i = Some x -> x ∈ l.
Proof. intros (_ & Hx)%zget_Some. by eapply list_elem_of_lookup_2. Qed.

#[export] Hint Rewrite @len_app : blyt_rw.
#[export] Hint Resolve le_bytes_ok len_nonneg : blyt.
