(* ===== verification/Handle.v ===== *)
(** * Handle: the console-wide tagged 32-bit handles

    Models [runtime/shared/blyt_handle.h] (resource constants, surface and
    lock-view handles, the screen) and [runtime/shared/blyt_gen.h] (the entity
    generation counter).  Words are [Z] in [0, 2^32); the shifts and masks are
    the ones of the header.  The theorems are the layout contract: every field
    round-trips, distinct handles never collide, and the kind tag separates the
    handle families. *)

From S2P Require Import Prelude.
From Stdlib Require Import ZArith Lia.
From stdpp Require Import base tactics.
Open Scope Z_scope.

(** ** Definitions *)

(** [enum]: first-level classifier values. *)
Definition BLYT_HANDLE_KIND_NONE : Z := 0.
Definition BLYT_HANDLE_KIND_RESOURCE : Z := 1.
Definition BLYT_HANDLE_KIND_SURFACE : Z := 2.
Definition BLYT_HANDLE_KIND_LOCKVIEW : Z := 3.

Definition BLYT_HANDLE_NONE : Z := 0.
Definition BLYT_HANDLE_KIND_SHIFT : Z := 29.

Definition BLYT_RESOURCE_ID_MASK : Z := 0x00FFFFFF.
Definition BLYT_RESOURCE_PROVENANCE_SHIFT : Z := 24.
Definition BLYT_RESOURCE_PROVENANCE_MASK : Z := 1.
Definition BLYT_RESOURCE_PROV_CART : Z := 0.
Definition BLYT_RESOURCE_PROV_RUNTIME : Z := 1.

(** [BLYT_RESOURCE_ENCODE(id, prov)]: the casts to [uint32_t] are [u32]. *)
Definition BLYT_RESOURCE_ENCODE (id prov : Z) : Z :=
  Z.lor (Z.lor (u32 (Z.shiftl BLYT_HANDLE_KIND_RESOURCE BLYT_HANDLE_KIND_SHIFT))
               (u32 (Z.shiftl (Z.land (u32 prov) BLYT_RESOURCE_PROVENANCE_MASK)
                              BLYT_RESOURCE_PROVENANCE_SHIFT)))
        (Z.land (u32 id) BLYT_RESOURCE_ID_MASK).

Definition blyt_handle_kind (h : Z) : Z := Z.shiftr h BLYT_HANDLE_KIND_SHIFT.

Definition blyt_resource_encode (id provenance : Z) : Z := BLYT_RESOURCE_ENCODE id provenance.

Definition blyt_resource_decode_id (h : Z) : Z := Z.land h BLYT_RESOURCE_ID_MASK.

Definition blyt_resource_decode_provenance (h : Z) : Z :=
  Z.land (Z.shiftr h BLYT_RESOURCE_PROVENANCE_SHIFT) BLYT_RESOURCE_PROVENANCE_MASK.

Definition blyt_handle_is_resource (h : Z) : bool :=
  blyt_handle_kind h =? BLYT_HANDLE_KIND_RESOURCE.

Definition BLYT_DYN_INDEX_MASK : Z := 0x00000FFF.
Definition BLYT_DYN_GEN_SHIFT : Z := 12.
Definition BLYT_DYN_GEN_MASK : Z := 0x0001FFFF.

(** [BLYT_DYN_ENCODE(kind, gen, index)] *)
Definition BLYT_DYN_ENCODE (kind gen index : Z) : Z :=
  Z.lor (Z.lor (u32 (Z.shiftl (u32 kind) BLYT_HANDLE_KIND_SHIFT))
               (u32 (Z.shiftl (Z.land (u32 gen) BLYT_DYN_GEN_MASK) BLYT_DYN_GEN_SHIFT)))
        (Z.land (u32 index) BLYT_DYN_INDEX_MASK).

Definition blyt_surface_encode (gen index : Z) : Z :=
  BLYT_DYN_ENCODE BLYT_HANDLE_KIND_SURFACE gen index.

Definition blyt_lockview_encode (gen index : Z) : Z :=
  BLYT_DYN_ENCODE BLYT_HANDLE_KIND_LOCKVIEW gen index.

Definition blyt_dyn_decode_index (h : Z) : Z := Z.land h BLYT_DYN_INDEX_MASK.

Definition blyt_dyn_decode_gen (h : Z) : Z :=
  Z.land (Z.shiftr h BLYT_DYN_GEN_SHIFT) BLYT_DYN_GEN_MASK.

Definition blyt_handle_is_surface (h : Z) : bool :=
  blyt_handle_kind h =? BLYT_HANDLE_KIND_SURFACE.

Definition blyt_handle_is_lockview (h : Z) : bool :=
  blyt_handle_kind h =? BLYT_HANDLE_KIND_LOCKVIEW.

Definition BLYT_SCREEN : Z := BLYT_DYN_ENCODE BLYT_HANDLE_KIND_SURFACE 0 0.

(** [blyt_gen_next] ([blyt_gen.h]): the next public generation, 65535 -> 1. *)
Definition blyt_gen_next (gen : Z) : Z :=
  u16 (if gen =? 0xFFFF then 1 else u32 (gen + 1)).

(** ** The arithmetic reading of the encodings *)

(** Field packing, most significant first: [a . b . c] with [b] of [wb] bits at
    bit [sb] and [c] of [sb] bits at bit 0. *)
Lemma pack3 a b c wb sb :
  0 <= sb -> 0 <= wb -> 0 <= b < 2 ^ wb -> 0 <= c < 2 ^ sb ->
  Z.lor (Z.lor (a * 2 ^ (sb + wb)) (b * 2 ^ sb)) c = (a * 2 ^ wb + b) * 2 ^ sb + c.
Proof.
  intros Hsb Hwb Hb Hc. rewrite Z.pow_add_r by done.
  assert (0 < 2 ^ sb) by (apply Z.pow_pos_nonneg; lia).
  replace (a * (2 ^ sb * 2 ^ wb)) with ((a * 2 ^ wb) * 2 ^ sb) by ring.
  rewrite <-!(Z.shiftl_mul_pow2 _ sb), <-Z.shiftl_lor by done.
  rewrite (lor_disjoint_add a b wb) by done.
  rewrite Z.shiftl_mul_pow2 by done. by rewrite lor_disjoint_add.
Qed.

Lemma resource_encode_val id prov :
  BLYT_RESOURCE_ENCODE id prov
  = 2 ^ 29 + (u32 prov mod 2) * 2 ^ 24 + u32 id mod 2 ^ 24.
Proof.
  unfold BLYT_RESOURCE_ENCODE, BLYT_HANDLE_KIND_RESOURCE, BLYT_HANDLE_KIND_SHIFT,
    BLYT_RESOURCE_PROVENANCE_SHIFT, BLYT_RESOURCE_PROVENANCE_MASK, BLYT_RESOURCE_ID_MASK.
  rewrite (land_ones_mod (u32 prov) 1), (land_ones_mod (u32 id) 24) by (lia || reflexivity).
  pose proof (Z.mod_pos_bound (u32 prov) (2 ^ 1) ltac:(lia)) as Hp.
  pose proof (Z.mod_pos_bound (u32 id) (2 ^ 24) ltac:(lia)) as Hi.
  rewrite !shiftl_mul by lia.
  rewrite (u32_id (1 * 2 ^ 29)) by (unfold is_u32; lia).
  rewrite (u32_id (_ * 2 ^ 24)) by (unfold is_u32; lia).
  pose proof (pack3 1 (u32 prov mod 2 ^ 1) (u32 id mod 2 ^ 24) 5 24) as H.
  change (24 + 5) with 29 in H. rewrite H by lia. change (2 ^ 1) with 2. lia.
Qed.

Lemma dyn_encode_val kind gen index :
  0 <= kind < 8 ->
  BLYT_DYN_ENCODE kind gen index
  = kind * 2 ^ 29 + (u32 gen mod 2 ^ 17) * 2 ^ 12 + u32 index mod 2 ^ 12.
Proof.
  intros Hk.
  unfold BLYT_DYN_ENCODE, BLYT_HANDLE_KIND_SHIFT, BLYT_DYN_GEN_MASK, BLYT_DYN_GEN_SHIFT,
    BLYT_DYN_INDEX_MASK.
  rewrite (u32_id kind) by (unfold is_u32; lia).
  rewrite (land_ones_mod (u32 gen) 17), (land_ones_mod (u32 index) 12) by (lia || reflexivity).
  pose proof (Z.mod_pos_bound (u32 gen) (2 ^ 17) ltac:(lia)) as Hp.
  pose proof (Z.mod_pos_bound (u32 index) (2 ^ 12) ltac:(lia)) as Hi.
  rewrite !shiftl_mul by lia.
  rewrite !u32_id by (unfold is_u32; lia).
  pose proof (pack3 kind (u32 gen mod 2 ^ 17) (u32 index mod 2 ^ 12) 17 12) as H.
  change (12 + 17) with 29 in H. rewrite H by lia. lia.
Qed.

(** Bit-field reads as quotient and remainder. *)
Lemma field_val h s m w :
  0 <= s -> 0 <= w -> m = 2 ^ w - 1 -> Z.land (Z.shiftr h s) m = (h / 2 ^ s) mod 2 ^ w.
Proof. intros. rewrite (land_ones_mod _ w) by done. by rewrite shiftr_div. Qed.

Ltac handle_unfold :=
  unfold blyt_handle_is_resource, blyt_handle_is_surface, blyt_handle_is_lockview,
    blyt_handle_kind, blyt_resource_decode_id, blyt_resource_decode_provenance,
    blyt_dyn_decode_index, blyt_dyn_decode_gen, BLYT_HANDLE_KIND_SHIFT,
    BLYT_RESOURCE_PROVENANCE_SHIFT, BLYT_RESOURCE_PROVENANCE_MASK, BLYT_RESOURCE_ID_MASK,
    BLYT_DYN_GEN_SHIFT, BLYT_DYN_GEN_MASK, BLYT_DYN_INDEX_MASK in *;
  rewrite ?(field_val _ 24 1 1), ?(field_val _ 12 0x0001FFFF 17),
    ?(land_ones_mod _ 24 0x00FFFFFF), ?(land_ones_mod _ 12 0x00000FFF), ?shiftr_div
    by (lia || reflexivity).

(** Decoding a dynamic handle: kind, generation and slot come back modulo
    their field widths. *)
Lemma dyn_decode kind gen index :
  0 <= kind < 8 ->
  let h := BLYT_DYN_ENCODE kind gen index in
  is_u32 h /\ blyt_handle_kind h = kind
  /\ blyt_dyn_decode_gen h = u32 gen mod 2 ^ 17
  /\ blyt_dyn_decode_index h = u32 index mod 2 ^ 12.
Proof.
  intros Hk h. subst h. rewrite dyn_encode_val by done. handle_unfold.
  pose proof (Z.mod_pos_bound (u32 gen) (2 ^ 17) ltac:(lia)).
  pose proof (Z.mod_pos_bound (u32 index) (2 ^ 12) ltac:(lia)).
  set (g := u32 gen mod 2 ^ 17) in *. set (i := u32 index mod 2 ^ 12) in *.
  unfold is_u32. change (2 ^ 17) with 131072 in *. change (2 ^ 12) with 4096 in *.
  change (2 ^ 29) with 536870912. split_and!; Z.div_mod_to_equations; lia.
Qed.

Lemma resource_decode id prov :
  let h := BLYT_RESOURCE_ENCODE id prov in
  is_u32 h /\ blyt_handle_kind h = BLYT_HANDLE_KIND_RESOURCE
  /\ blyt_resource_decode_provenance h = u32 prov mod 2
  /\ blyt_resource_decode_id h = u32 id mod 2 ^ 24.
Proof.
  intros h. subst h. rewrite resource_encode_val. handle_unfold.
  pose proof (Z.mod_pos_bound (u32 prov) 2 ltac:(lia)).
  pose proof (Z.mod_pos_bound (u32 id) (2 ^ 24) ltac:(lia)).
  set (p := u32 prov mod 2) in *. set (i := u32 id mod 2 ^ 24) in *.
  unfold is_u32, BLYT_HANDLE_KIND_RESOURCE.
  change (2 ^ 24) with 16777216 in *. change (2 ^ 1) with 2 in *.
  change (2 ^ 29) with 536870912. split_and!; Z.div_mod_to_equations; lia.
Qed.

Lemma surface_decode gen index :
  is_u16 gen -> 0 <= index < 4096 ->
  let h := blyt_surface_encode gen index in
  blyt_handle_is_surface h = true /\ blyt_dyn_decode_gen h = gen /\ blyt_dyn_decode_index h = index.
Proof.
  intros Hg Hi h. subst h. unfold blyt_surface_encode, blyt_handle_is_surface.
  destruct (dyn_decode BLYT_HANDLE_KIND_SURFACE gen index) as (_ & -> & -> & ->); [done|].
  rewrite (u32_id gen), (u32_id index) by (unfold is_u16, is_u32 in *; lia).
  rewrite !Z.mod_small by (unfold is_u16 in *; lia). done.
Qed.

Lemma lockview_decode gen index :
  is_u16 gen -> 0 <= index < 4096 ->
  let h := blyt_lockview_encode gen index in
  blyt_handle_is_lockview h = true /\ blyt_dyn_decode_gen h = gen /\ blyt_dyn_decode_index h = index.
Proof.
  intros Hg Hi h. subst h. unfold blyt_lockview_encode, blyt_handle_is_lockview.
  destruct (dyn_decode BLYT_HANDLE_KIND_LOCKVIEW gen index) as (_ & -> & -> & ->); [done|].
  rewrite (u32_id gen), (u32_id index) by (unfold is_u16, is_u32 in *; lia).
  rewrite !Z.mod_small by (unfold is_u16 in *; lia). done.
Qed.

Lemma surface_not_lockview h : blyt_handle_is_surface h = true -> blyt_handle_is_lockview h = false.
Proof.
  unfold blyt_handle_is_surface, blyt_handle_is_lockview.
  intros H%Z.eqb_eq. rewrite H. done.
Qed.

(** ** The generation counter *)

Definition gen_ok (g : Z) : Prop := 1 <= g <= 65535.

Lemma gen_next_val g : gen_ok g -> blyt_gen_next g = if g =? 65535 then 1 else g + 1.
Proof.
  intros Hg. unfold blyt_gen_next, gen_ok in *. case_match; [done|].
  rewrite u32_id by (unfold is_u32; lia). apply u16_id. unfold is_u16; lia.
Qed.

Lemma gen_next_ok g : gen_ok g -> gen_ok (blyt_gen_next g).
Proof. intros Hg. rewrite gen_next_val by done. unfold gen_ok in *. case_match; lia. Qed.

Lemma gen_next_u16 g : is_u16 (blyt_gen_next g).
Proof. apply u16_range. Qed.

(** After [k] bumps the counter has moved [k] places round a cycle of 65535. *)
Lemma gen_iter_val k g :
  gen_ok g -> Nat.iter k blyt_gen_next g = (g - 1 + Z.of_nat k) mod 65535 + 1.
Proof.
  intros Hg. induction k as [|k IH].
  { simpl. rewrite Z.mod_small; unfold gen_ok in *; lia. }
  rewrite Nat.iter_succ, IH, gen_next_val by (unfold gen_ok; Z.div_mod_to_equations; lia).
  unfold gen_ok in *. case_match; Z.div_mod_to_equations; lia.
Qed.

(** A generation cannot come back before 65535 bumps. *)
Lemma gen_fresh k g :
  gen_ok g -> 0 < Z.of_nat k < 65535 -> Nat.iter k blyt_gen_next g <> g.
Proof. intros Hg Hk. rewrite gen_iter_val by done. unfold gen_ok in *. Z.div_mod_to_equations; lia. Qed.

#[export] Hint Resolve gen_next_ok : blyt.

(** ** Properties *)

(** The tagged-handle layout loses nothing and confuses nothing.  A resource
    constant built from a 24-bit id and a provenance bit, a surface handle and a
    lock-view token built from a 16-bit generation and a registry slot below 4096
    all decode to exactly the fields they were built from, classify as their own
    kind and as neither of the other two, and none of them is the null handle. *)
Theorem handle_layout_contract id prov gen index :
  0 <= id < 2 ^ 24 -> 0 <= prov < 2 -> is_u16 gen -> 0 <= index < 4096 ->
  let r := blyt_resource_encode id prov in
  let s := blyt_surface_encode gen index in
  let l := blyt_lockview_encode gen index in
  (blyt_resource_decode_id r = id /\ blyt_resource_decode_provenance r = prov)
  /\ (blyt_dyn_decode_gen s = gen /\ blyt_dyn_decode_index s = index)
  /\ (blyt_dyn_decode_gen l = gen /\ blyt_dyn_decode_index l = index)
  /\ (blyt_handle_is_resource r = true /\ blyt_handle_is_surface r = false
      /\ blyt_handle_is_lockview r = false)
  /\ (blyt_handle_is_resource s = false /\ blyt_handle_is_surface s = true
      /\ blyt_handle_is_lockview s = false)
  /\ (blyt_handle_is_resource l = false /\ blyt_handle_is_surface l = false
      /\ blyt_handle_is_lockview l = true)
  /\ r <> BLYT_HANDLE_NONE /\ s <> BLYT_HANDLE_NONE /\ l <> BLYT_HANDLE_NONE.
Proof.
  intros Hid Hp Hg Hi r s l.
  destruct (resource_decode id prov) as (_ & Hrk & Hrp & Hri).
  destruct (dyn_decode BLYT_HANDLE_KIND_SURFACE gen index) as (_ & Hsk & _ & _); [done|].
  destruct (dyn_decode BLYT_HANDLE_KIND_LOCKVIEW gen index) as (_ & Hlk & _ & _); [done|].
  destruct (surface_decode gen index Hg Hi) as (_ & Hsg & Hsi).
  destruct (lockview_decode gen index Hg Hi) as (_ & Hlg & Hli).
  assert (blyt_handle_kind BLYT_HANDLE_NONE = 0) as H0 by done.
  rewrite (u32_id id), (u32_id prov), !Z.mod_small in * by (unfold is_u32; lia).
  fold (blyt_resource_encode id prov) in *. fold (blyt_surface_encode gen index) in *.
  fold (blyt_lockview_encode gen index) in *. fold r s l in Hrk, Hrp, Hri, Hsk, Hlk, Hsg, Hsi, Hlg, Hli.
  unfold blyt_handle_is_resource, blyt_handle_is_surface, blyt_handle_is_lockview.
  rewrite Hrk, Hsk, Hlk.
  split_and!; try done; intros Heq; rewrite Heq, H0 in *; discriminate.
Qed.

Lemma handle_layout_contract_witness :
  blyt_resource_decode_id (blyt_resource_encode 7 1) = 7
  /\ blyt_handle_is_surface (blyt_surface_encode 5 9) = true.
Proof.
  destruct (handle_layout_contract 7 1 5 9 ltac:(lia) ltac:(lia) ltac:(unfold is_u16; lia)
    ltac:(lia)) as ([H1 _] & _ & _ & _ & (_ & H2 & _) & _).
  split; assumption.
Defined.
