(* ===== verification/MemBudget.v ===== *)
(** * MemBudget: the unified 16 MiB working-memory budget

    Models [runtime/shared/blyt_mem_budget.h]: the accounting counters shared by
    the cart heap and the resource subsystem, and the one predicate that decides
    every allocation. *)

From S2P Require Import Prelude.
From Stdlib Require Import ZArith Lia.
From stdpp Require Import base tactics.
Open Scope Z_scope.

Definition BLYT_MEM_BUDGET_BYTES : Z := u32 (u32 (16 * 1024) * 1024).

(** [blyt_mem_accounting_t] *)
Record blyt_mem_accounting_t := MkAcct {
  guest_heap_used : Z;
  non_evictable_footprint : Z;
  resource_cache_used : Z;
  guest_heap_baseline : Z
}.

Definition set_guest_heap_used (v : Z) (a : blyt_mem_accounting_t) : blyt_mem_accounting_t :=
  MkAcct v (non_evictable_footprint a) (resource_cache_used a) (guest_heap_baseline a).

Definition blyt_mem_cart_heap (a : blyt_mem_accounting_t) : Z :=
  if guest_heap_used a >? guest_heap_baseline a
  then u32 (guest_heap_used a - guest_heap_baseline a) else 0.

(** The sum is taken in 64 bits. *)
Definition blyt_mem_alloc_fits (heap_used footprint incoming : Z) : bool :=
  u64 (u64 (heap_used + footprint) + incoming) <=? BLYT_MEM_BUDGET_BYTES.

Definition blyt_mem_cache_room (heap_used footprint : Z) : Z :=
  let used := u64 (heap_used + footprint) in
  if used >=? BLYT_MEM_BUDGET_BYTES then 0 else u32 (u64 (BLYT_MEM_BUDGET_BYTES - used)).

Definition acct_ok (a : blyt_mem_accounting_t) : Prop :=
  is_u32 (guest_heap_used a) /\ is_u32 (non_evictable_footprint a)
  /\ is_u32 (resource_cache_used a) /\ is_u32 (guest_heap_baseline a).

Lemma budget_val : BLYT_MEM_BUDGET_BYTES = 16777216.
Proof. reflexivity. Qed.

(** The 64-bit sum of three 32-bit terms is exact, so the predicate is the
    documented inequality, with no wrap-around. *)
Lemma alloc_fits_spec h f i :
  is_u32 h -> is_u32 f -> is_u32 i ->
  blyt_mem_alloc_fits h f i = true <-> h + f + i <= 16777216.
Proof.
  intros Hh Hf Hi. unfold blyt_mem_alloc_fits. rewrite budget_val.
  rewrite (u64_id (h + f)) by (unfold is_u64, is_u32 in *; lia).
  rewrite u64_id by (unfold is_u64, is_u32 in *; lia). apply Z.leb_le.
Qed.

Lemma cache_room_val h f :
  is_u32 h -> is_u32 f -> blyt_mem_cache_room h f = Z.max 0 (16777216 - (h + f)).
Proof.
  intros Hh Hf. unfold blyt_mem_cache_room. rewrite budget_val.
  rewrite (u64_id (h + f)) by (unfold is_u64, is_u32 in *; lia).
  case_match; [lia|].
  rewrite u64_id by (unfold is_u64, is_u32 in *; lia).
  rewrite u32_id by (unfold is_u32 in *; lia). lia.
Qed.

Lemma cart_heap_val a :
  acct_ok a -> blyt_mem_cart_heap a = Z.max 0 (guest_heap_used a - guest_heap_baseline a).
Proof.
  intros (H1 & _ & _ & H4). unfold blyt_mem_cart_heap. case_match; [|lia].
  rewrite u32_id by (unfold is_u32 in *; lia). lia.
Qed.

Lemma cart_heap_range a : acct_ok a -> is_u32 (blyt_mem_cart_heap a).
Proof. intros H. rewrite cart_heap_val by done. destruct H as (? & _ & _ & ?). unfold is_u32 in *. lia. Qed.

(** ** Properties *)

(** The budget predicate and the cache room agree.  For any 32-bit heap total,
    non-evictable footprint and request, the request fits exactly when the real sum
    is at most 16 MiB (no wrap-around makes a huge request fit), and exactly when it
    is no larger than the room left and the budget is not already overrun. *)
Theorem mem_budget_exact h f i :
  is_u32 h -> is_u32 f -> is_u32 i ->
  (blyt_mem_alloc_fits h f i = true <-> h + f + i <= 16 * 1024 * 1024)
  /\ (blyt_mem_alloc_fits h f i = true
      <-> i <= blyt_mem_cache_room h f /\ h + f <= BLYT_MEM_BUDGET_BYTES)
  /\ 0 <= blyt_mem_cache_room h f <= BLYT_MEM_BUDGET_BYTES.
Proof.
  intros Hh Hf Hi. rewrite alloc_fits_spec, cache_room_val, budget_val by done.
  unfold is_u32 in *. lia.
Qed.

Lemma mem_budget_exact_witness :
  blyt_mem_alloc_fits 16777000 200 16 = true <-> 16777000 + 200 + 16 <= 16 * 1024 * 1024.
Proof.
  apply (mem_budget_exact 16777000 200 16); unfold is_u32; lia.
Defined.
