(* ===== verification/FpCanon.v ===== *)
(** * FpCanon: NaN canonicalisation and the frame hash

    Models [runtime/shared/blyt_fp_canon.c] and [runtime/shared/blyt_frame_hash.c]. *)

From S2P Require Import Prelude.
From Stdlib Require Import ZArith Lia.
From stdpp Require Import base tactics list.
Open Scope Z_scope.

Definition BLYT_F32_CANONICAL_NAN : Z := 0x7FC00000.
Definition BLYT_F64_CANONICAL_NAN : Z := 0x7FF8000000000000.

Definition blyt_canon_f32 (bits : Z) : Z :=
  if (Z.land bits 0x7F800000 =? 0x7F800000) && negb (Z.land bits 0x007FFFFF =? 0)
  then BLYT_F32_CANONICAL_NAN else bits.

Definition blyt_canon_f64 (bits : Z) : Z :=
  if (Z.land bits 0x7FF0000000000000 =? 0x7FF0000000000000)
     && negb (Z.land bits 0x000FFFFFFFFFFFFF =? 0)
  then BLYT_F64_CANONICAL_NAN else bits.

(** [blyt_frame_hash]: FNV-1a over the pixels; [None] is the [NULL] buffer. *)
Definition fnv_step (h px : Z) : Z := u64 (Z.lxor h px * 0x100000001b3).
Definition blyt_frame_hash (pixels : option (list Z)) : Z :=
  match pixels with
  | None => 0xcbf29ce484222325
  | Some px => fold_left fnv_step px 0xcbf29ce484222325
  end.

(** ** Lemmas *)

Lemma canon_f32_range b : is_u32 b -> is_u32 (blyt_canon_f32 b).
Proof. intros. unfold blyt_canon_f32. case_match; [done|done]. Qed.

Lemma canon_f64_range b : is_u64 b -> is_u64 (blyt_canon_f64 b).
Proof. intros. unfold blyt_canon_f64. case_match; [done|done]. Qed.

Lemma canon_f32_idem b : blyt_canon_f32 (blyt_canon_f32 b) = blyt_canon_f32 b.
Proof. unfold blyt_canon_f32 at 2 3. case_match eqn:E; [done|]. unfold blyt_canon_f32. by rewrite E. Qed.

Lemma canon_f64_idem b : blyt_canon_f64 (blyt_canon_f64 b) = blyt_canon_f64 b.
Proof. unfold blyt_canon_f64 at 2 3. case_match eqn:E; [done|]. unfold blyt_canon_f64. by rewrite E. Qed.

#[export] Hint Resolve canon_f32_range canon_f64_range : blyt.
