(* ===== verification/Arena.v ===== *)
(** * Arena: the cart-heap allocator

    Models [runtime/shared/blyt_arena.c] (and the struct of [blyt_arena.h]): the
    first-fit allocator behind [malloc]/[free]/[realloc]/[calloc] of every cart.

    State.  A pointer is its offset from the arena base ([None] is [NULL]).  The
    block headers in the arena are the map [a_hdrs] from the offset of a header to
    its fields; the user bytes are the map [a_data].  Reading a header that was
    never written, and a [memcpy] or [memset] that leaves a block in use (or copies overlapping bytes), are undefined
    behaviour, the outer [None]; the theorems show that they do not happen, and that the list walks end within the fuel they
    are given (the number of headers ever written, plus one).

    The accounting block pointed to by [acct] is kept inside the arena record: the
    arena is the only writer of its [guest_heap_used] field. *)

From S2P Require Import Prelude MemBudget.
From Stdlib Require Import ZArith Lia Znumtheory.
From stdpp Require Import base tactics list gmap.
Open Scope Z_scope.

(** ** State *)

Definition BLYT_ARENA_NONE : Z := 0xffffffff.
Definition BLYT_ARENA_ALIGN : Z := 16.
Definition HDR_SIZE : Z := 16.
Definition BLK_NOACCT : Z := 1.

(** [blk_hdr_t] *)
Record blk_hdr_t := MkHdr { h_size : Z; h_free : Z; h_next : Z; h_pad : Z }.

(** [blyt_arena_t]; [a_base] says whether [base] is non-[NULL]. *)
Record blyt_arena_t := MkArena {
  a_base : bool;
  a_size : Z;
  a_bump : Z;
  a_free_head : Z;
  a_ready : bool;
  a_acct : option blyt_mem_accounting_t;
  a_hdrs : gmap Z blk_hdr_t;
  a_data : gmap Z Z
}.

Definition with_bump (v : Z) (a : blyt_arena_t) : blyt_arena_t :=
  MkArena (a_base a) (a_size a) v (a_free_head a) (a_ready a) (a_acct a) (a_hdrs a) (a_data a).
Definition with_free_head (v : Z) (a : blyt_arena_t) : blyt_arena_t :=
  MkArena (a_base a) (a_size a) (a_bump a) v (a_ready a) (a_acct a) (a_hdrs a) (a_data a).
Definition with_acct (v : option blyt_mem_accounting_t) (a : blyt_arena_t) : blyt_arena_t :=
  MkArena (a_base a) (a_size a) (a_bump a) (a_free_head a) (a_ready a) v (a_hdrs a) (a_data a).
Definition with_hdr (off : Z) (h : blk_hdr_t) (a : blyt_arena_t) : blyt_arena_t :=
  MkArena (a_base a) (a_size a) (a_bump a) (a_free_head a) (a_ready a) (a_acct a)
    (<[off := h]> (a_hdrs a)) (a_data a).
Definition with_data (d : gmap Z Z) (a : blyt_arena_t) : blyt_arena_t :=
  MkArena (a_base a) (a_size a) (a_bump a) (a_free_head a) (a_ready a) (a_acct a) (a_hdrs a) d.

(** ** Operations *)

Definition hdr_at (a : blyt_arena_t) (off : Z) : option blk_hdr_t := a_hdrs a !! off.

Definition align_up (n al : Z) : Z := Z.land (u32 (n + al - 1)) (u32 (Z.lnot (al - 1))).

Definition cap_allows (a : blyt_arena_t) (consumed : Z) : bool :=
  match a_acct a with
  | None => true
  | Some c => blyt_mem_alloc_fits (blyt_mem_cart_heap c) (non_evictable_footprint c) consumed
  end.

Definition acct_add (a : blyt_arena_t) (bytes : Z) : blyt_arena_t :=
  match a_acct a with
  | None => a
  | Some c => with_acct (Some (set_guest_heap_used (u32 (guest_heap_used c + bytes)) c)) a
  end.

Definition acct_sub (a : blyt_arena_t) (bytes : Z) : blyt_arena_t :=
  match a_acct a with
  | None => a
  | Some c => with_acct (Some (set_guest_heap_used (u32 (guest_heap_used c - bytes)) c)) a
  end.

(** The C code walks the free list with a pointer to the cell that holds the next
    offset: either [&a->free_head] or [&hdr->next]. *)
Inductive cell := CHead | CNext (off : Z).

Definition load_cell (a : blyt_arena_t) (c : cell) : option Z :=
  match c with
  | CHead => Some (a_free_head a)
  | CNext off => h_next <$> hdr_at a off
  end.

Definition store_cell (a : blyt_arena_t) (c : cell) (v : Z) : option blyt_arena_t :=
  match c with
  | CHead => Some (with_free_head v a)
  | CNext off => h ← hdr_at a off;
      Some (with_hdr off (MkHdr (h_size h) (h_free h) v (h_pad h)) a)
  end.

(** [fl_remove]: the result says whether [target] was on the list. *)
Fixpoint fl_remove_loop (fuel : nat) (a : blyt_arena_t) (prev : cell) (target : Z)
    : option (Z * blyt_arena_t) :=
  match fuel with
  | O => None
  | S fuel =>
      v ← load_cell a prev;
      if v =? BLYT_ARENA_NONE then Some (0, a)
      else if v =? target then
        t ← hdr_at a target;
        a1 ← store_cell a prev (h_next t);
        t1 ← hdr_at a1 target;
        Some (1, with_hdr target (MkHdr (h_size t1) 0 BLYT_ARENA_NONE (h_pad t1)) a1)
      else fl_remove_loop fuel a (CNext v) target
  end.

Definition walk_fuel (a : blyt_arena_t) : nat := S (size (a_hdrs a)).

Definition fl_remove (a : blyt_arena_t) (target : Z) : option (Z * blyt_arena_t) :=
  fl_remove_loop (walk_fuel a) a CHead target.

(** [coalesce_forward(a, h)] with [h] at offset [hoff]. *)
Definition coalesce_forward (a : blyt_arena_t) (hoff : Z) : option blyt_arena_t :=
  h ← hdr_at a hoff;
  let next_off := u32 (hoff + h_size h) in
  if next_off >=? a_bump a then Some a
  else
    nb ← hdr_at a next_off;
    if h_free nb =? 0 then Some a
    else
      '(_, a1) ← fl_remove a next_off;
      h1 ← hdr_at a1 hoff;
      nb1 ← hdr_at a1 next_off;
      Some (with_hdr hoff (MkHdr (u32 (h_size h1 + h_size nb1)) (h_free h1) (h_next h1) (h_pad h1)) a1).

Definition ensure_ready (a : blyt_arena_t) : blyt_arena_t :=
  if a_ready a then a
  else MkArena (a_base a) (a_size a) 0 BLYT_ARENA_NONE true (a_acct a) (a_hdrs a) (a_data a).

(** The body of the first-fit loop once the block [h] at [coff], reached through
    [prev], is large enough. *)
Definition take_block (a : blyt_arena_t) (prev : cell) (coff : Z) (h : blk_hdr_t)
    (need mark : Z) (noacct : bool) : option (option Z * blyt_arena_t) :=
  let rem := u32 (h_size h - need) in
  let split := rem >=? HDR_SIZE + BLYT_ARENA_ALIGN in
  let consumed := if split then need else h_size h in
  if negb noacct && negb (cap_allows a consumed) then Some (None, a)
  else
    a2 ← (if split then
            let a1 := with_hdr (u32 (coff + need)) (MkHdr rem 1 (h_next h) 0) a in
            a2 ← store_cell a1 prev (u32 (coff + need));
            h2 ← hdr_at a2 coff;
            Some (with_hdr coff (MkHdr need (h_free h2) (h_next h2) (h_pad h2)) a2)
          else store_cell a prev (h_next h));
    h3 ← hdr_at a2 coff;
    let a3 := with_hdr coff (MkHdr (h_size h3) 0 BLYT_ARENA_NONE mark) a2 in
    let a4 := if noacct then a3 else acct_add a3 (h_size h3) in
    Some (Some (coff + HDR_SIZE), a4).

(** The first-fit search: [Some None] when the list ends without a fit. *)
Fixpoint first_fit (fuel : nat) (a : blyt_arena_t) (prev : cell) (need mark : Z) (noacct : bool)
    : option (option (option Z * blyt_arena_t)) :=
  match fuel with
  | O => None
  | S fuel =>
      coff ← load_cell a prev;
      if coff =? BLYT_ARENA_NONE then Some None
      else
        h ← hdr_at a coff;
        if h_size h >=? need then
          r ← take_block a prev coff h need mark noacct; Some (Some r)
        else first_fit fuel a (CNext coff) need mark noacct
  end.

(** [arena_malloc_core]; [n] is a [size_t]. *)
Definition arena_malloc_core (a : blyt_arena_t) (n : Z) (noacct : bool)
    : option (option Z * blyt_arena_t) :=
  if negb (a_base a) || (a_size a =? 0) then Some (None, a)
  else
    let a := ensure_ready a in
    let n := if n =? 0 then 1 else n in
    let need := align_up (u32 (u32 n + HDR_SIZE)) BLYT_ARENA_ALIGN in
    let mark := if noacct then BLK_NOACCT else 0 in
    found ← first_fit (walk_fuel a) a CHead need mark noacct;
    match found with
    | Some r => Some r
    | None =>
        if a_bump a + need >? a_size a then Some (None, a)
        else if negb noacct && negb (cap_allows a need) then Some (None, a)
        else
          let off := a_bump a in
          let a1 := with_hdr off (MkHdr need 0 BLYT_ARENA_NONE mark) a in
          let a2 := with_bump (u32 (off + need)) a1 in
          let a3 := if noacct then a2 else acct_add a2 need in
          Some (Some (off + HDR_SIZE), a3)
    end.

Definition blyt_arena_malloc (a : blyt_arena_t) (n : Z) := arena_malloc_core a n false.
Definition blyt_arena_malloc_noacct (a : blyt_arena_t) (n : Z) := arena_malloc_core a n true.

Definition blyt_arena_free (a : blyt_arena_t) (p : option Z) : option blyt_arena_t :=
  match p with
  | None => Some a
  | Some p =>
      let hoff := p - HDR_SIZE in
      h ← hdr_at a hoff;
      if negb (h_free h =? 0) then Some a
      else
        let a1 := if negb (h_pad h =? BLK_NOACCT) then acct_sub a (h_size h) else a in
        let a2 := with_hdr hoff (MkHdr (h_size h) 1 (a_free_head a1) (h_pad h)) a1 in
        let a3 := with_free_head hoff a2 in
        coalesce_forward a3 hoff
  end.

(** Whether the [n] bytes at [p] lie in the bytes of the block in use that starts there. *)
Definition in_block (a : blyt_arena_t) (p n : Z) : bool :=
  match hdr_at a (p - HDR_SIZE) with
  | Some h => (h_free h =? 0) && (0 <=? n) && (n <=? h_size h - HDR_SIZE)
  | None => false
  end.

(** [memcpy(dst, src, n)] and [memset(dst, 0, n)] on the user bytes; an unwritten source byte leaves the
    destination byte unwritten. *)
Definition copy_byte (src : gmap Z Z) (from to : Z) (d : gmap Z Z) : gmap Z Z :=
  match src !! from with Some b => <[to := b]> d | None => delete to d end.
Definition copied (dst src n : Z) (d : gmap Z Z) : gmap Z Z :=
  foldr (fun i acc => copy_byte d (src + i) (dst + i) acc) d (seqZ 0 n).
Definition zeroed (dst n : Z) (d : gmap Z Z) : gmap Z Z :=
  foldr (fun i acc => <[dst + i := 0]> acc) d (seqZ 0 n).
Definition copy_bytes (dst src n : Z) (a : blyt_arena_t) : option blyt_arena_t :=
  if in_block a dst n && in_block a src n && ((dst + n <=? src) || (src + n <=? dst))
  then Some (with_data (copied dst src n (a_data a)) a) else None.
Definition zero_bytes (dst n : Z) (a : blyt_arena_t) : option blyt_arena_t :=
  if in_block a dst n then Some (with_data (zeroed dst n (a_data a)) a) else None.

Definition arena_realloc_core (a : blyt_arena_t) (p : option Z) (n : Z) (noacct : bool)
    : option (option Z * blyt_arena_t) :=
  match p with
  | None => arena_malloc_core a n noacct
  | Some p0 =>
      if n =? 0 then a1 ← blyt_arena_free a p; Some (None, a1)
      else
        h ← hdr_at a (p0 - HDR_SIZE);
        let cap := u32 (h_size h - HDR_SIZE) in
        if n <=? cap then Some (p, a)
        else
          '(q, a1) ← arena_malloc_core a n noacct;
          match q with
          | None => Some (None, a1)
          | Some q0 =>
              a2 ← copy_bytes q0 p0 cap a1;
              a3 ← blyt_arena_free a2 p;
              Some (Some q0, a3)
          end
  end.

Definition blyt_arena_realloc (a : blyt_arena_t) (p : option Z) (n : Z) :=
  arena_realloc_core a p n false.
Definition blyt_arena_realloc_noacct (a : blyt_arena_t) (p : option Z) (n : Z) :=
  arena_realloc_core a p n true.

(** [size_max] is [(size_t)-1] of the target. *)
Definition blyt_arena_calloc (size_max : Z) (a : blyt_arena_t) (nmemb sz : Z)
    : option (option Z * blyt_arena_t) :=
  if negb (sz =? 0) && (nmemb >? size_max / sz) then Some (None, a)
  else
    let total := nmemb * sz in
    '(p, a1) ← blyt_arena_malloc a total;
    match p with
    | None => Some (None, a1)
    | Some p0 => a2 ← zero_bytes p0 total a1; Some (Some p0, a2)
    end.

Definition blyt_arena_reset (a : blyt_arena_t) : blyt_arena_t :=
  MkArena (a_base a) (a_size a) 0 BLYT_ARENA_NONE false
    (set_guest_heap_used 0 <$> a_acct a) (a_hdrs a) (a_data a).

(** A fresh arena of [size] bytes, as the caller sets it up before first use. *)
Definition arena_init (size : Z) (acct : option blyt_mem_accounting_t) : blyt_arena_t :=
  MkArena true size 0 BLYT_ARENA_NONE false acct ∅ ∅.

(** ** Ghost view of a well-formed arena

    [bs] lists the blocks in address order and [fl] the free list in link order. *)

Definition ablock : Type := Z * blk_hdr_t.

Fixpoint tiles (o : Z) (bs : list ablock) (e : Z) : Prop :=
  match bs with
  | [] => o = e
  | (o', h) :: bs => o' = o /\ 32 <= h_size h /\ (16 | h_size h) /\ tiles (o + h_size h) bs e
  end.

Fixpoint fl_chain (m : gmap Z blk_hdr_t) (v : Z) (fl : list Z) : Prop :=
  match fl with
  | [] => v = BLYT_ARENA_NONE
  | o :: fl => v = o /\ exists h, m !! o = Some h /\ fl_chain m (h_next h) fl
  end.

(** A header without its link: what the ghost block list records. *)
Definition norm (h : blk_hdr_t) : blk_hdr_t := MkHdr (h_size h) (h_free h) 0 (h_pad h).

(** What a block contributes to [guest_heap_used]. *)
Definition weight (h : blk_hdr_t) : Z :=
  if (h_free h =? 0) && negb (h_pad h =? BLK_NOACCT) then h_size h else 0.

Fixpoint acct_sum (bs : list ablock) : Z :=
  match bs with
  | [] => 0
  | (_, h) :: bs => weight h + acct_sum bs
  end.

Record arena_inv (a : blyt_arena_t) (bs : list ablock) (fl : list Z) : Prop := {
  inv_base : a_base a = true;
  inv_size : 0 < a_size a < 2 ^ 32;
  inv_ready : a_ready a = true;
  inv_tiles : tiles 0 bs (a_bump a);
  inv_bump : a_bump a <= a_size a;
  inv_hdrs : forall o h, (o, h) ∈ bs -> norm <$> a_hdrs a !! o = Some h;
  inv_chain : fl_chain (a_hdrs a) (a_free_head a) fl;
  inv_nodup : NoDup fl;
  inv_free : forall o, o ∈ fl <-> exists h, (o, h) ∈ bs /\ h_free h = 1;
  inv_flag : forall o h, (o, h) ∈ bs -> h_free h = 0 \/ h_free h = 1;
  inv_acct : forall c, a_acct a = Some c -> acct_ok c /\ guest_heap_used c = acct_sum bs
}.

(** *** Tilings *)

Lemma tiles_app o l1 l2 e :
  tiles o (l1 ++ l2) e <-> exists m, tiles o l1 m /\ tiles m l2 e.
Proof.
  revert o; induction l1 as [|[o' h] l1 IH]; intros o; simpl.
  - split; [intros H; by exists o|intros (m & -> & H); done].
  - rewrite IH. split.
    + intros (-> & ? & ? & m & ? & ?). exists m. auto.
    + intros (m & (-> & ? & ? & ?) & ?). split_and!; [done..|]. eauto.
Qed.

Lemma tiles_le o bs e : tiles o bs e -> o <= e.
Proof.
  revert o; induction bs as [|[o' h] bs IH]; intros o; simpl; [lia|].
  intros (_ & Hs & _ & Ht). apply IH in Ht. lia.
Qed.

Lemma tiles_div o bs e : (16 | o) -> tiles o bs e -> (16 | e).
Proof.
  revert o; induction bs as [|[o' h] bs IH]; intros o Ho; simpl; [by intros <-|].
  intros (_ & _ & Hd & Ht). eapply IH; [|done]. by apply Z.divide_add_r.
Qed.

Lemma tiles_elem o bs e p h :
  tiles o bs e -> (p, h) ∈ bs -> o <= p /\ p + h_size h <= e /\ 32 <= h_size h /\ (16 | h_size h).
Proof.
  revert o; induction bs as [|[o' h'] bs IH]; intros o; simpl; [by intros _ H%elem_of_nil|].
  intros (-> & Hs & Hd & Ht) Hin. pose proof (tiles_le _ _ _ Ht).
  apply elem_of_cons in Hin as [[= -> ->]|Hin]; [split_and!; lia || done|].
  destruct (IH _ Ht Hin) as (? & ? & ? & ?). split_and!; lia || done.
Qed.

Lemma tiles_off_div o bs e p h : (16 | o) -> tiles o bs e -> (p, h) ∈ bs -> (16 | p).
Proof.
  revert o; induction bs as [|[o' h'] bs IH]; intros o Ho; simpl; [by intros _ H%elem_of_nil|].
  intros (-> & Hs & Hd & Ht) [[= -> ->]|Hin]%elem_of_cons; [done|].
  eapply IH; [|done|done]. by apply Z.divide_add_r.
Qed.

(** The blocks around one block of the tiling: everything before ends at or
    before it, everything after starts at or after its end. *)
Lemma tiles_split o l1 p h l2 e :
  tiles o (l1 ++ (p, h) :: l2) e ->
  tiles o l1 p /\ tiles (p + h_size h) l2 e /\ 32 <= h_size h /\ (16 | h_size h)
  /\ (forall q k, (q, k) ∈ l1 -> q + h_size k <= p)
  /\ (forall q k, (q, k) ∈ l2 -> p + h_size h <= q).
Proof.
  intros (m & H1 & H2)%tiles_app. simpl in H2. destruct H2 as (-> & Hs & Hd & H2).
  split_and!; try done.
  - intros q k Hq. by destruct (tiles_elem _ _ _ _ _ H1 Hq) as (_ & ? & _).
  - intros q k Hq. by destruct (tiles_elem _ _ _ _ _ H2 Hq) as (? & _).
Qed.

Lemma tiles_merge o l1 p h l2 e hs :
  tiles o (l1 ++ (p, h) :: l2) e -> tiles p hs (p + h_size h) ->
  tiles o (l1 ++ hs ++ l2) e.
Proof.
  intros (H1 & H2 & _)%tiles_split H3.
  apply tiles_app. exists p. split; [done|]. apply tiles_app. eauto.
Qed.

(** Two blocks of a tiling at different offsets do not overlap. *)
Lemma tiles_disjoint o bs e p h q k :
  tiles o bs e -> (p, h) ∈ bs -> (q, k) ∈ bs -> p <> q ->
  p + h_size h <= q \/ q + h_size k <= p.
Proof.
  intros Ht Hp Hq Hne. apply list_elem_of_split in Hp as (l1 & l2 & ->).
  destruct (tiles_split _ _ _ _ _ _ Ht) as (_ & _ & _ & _ & Hb & Ha).
  apply elem_of_app in Hq as [Hq|Hq]; [right; eauto|].
  apply elem_of_cons in Hq as [[= -> ->]|Hq]; [done|]. left; eauto.
Qed.

(** *** Accounting sums *)

Lemma acct_sum_app l1 l2 : acct_sum (l1 ++ l2) = acct_sum l1 + acct_sum l2.
Proof. induction l1 as [|[? ?] l1 IH]; simpl; lia. Qed.

Lemma weight_range h : 32 <= h_size h -> 0 <= weight h <= h_size h.
Proof. unfold weight. case_match; lia. Qed.

Lemma acct_sum_bound o bs e : tiles o bs e -> 0 <= acct_sum bs <= e - o.
Proof.
  revert o; induction bs as [|[p h] bs IH]; intros o; simpl; [lia|].
  intros (-> & Hs & _ & Ht). apply IH in Ht. pose proof (weight_range h Hs). lia.
Qed.

(** *** Free-list segments *)

(** The cell through which the list reaches the element after [fl1]. *)
Fixpoint cell_after (c : cell) (fl1 : list Z) : cell :=
  match fl1 with
  | [] => c
  | o :: fl1 => cell_after (CNext o) fl1
  end.

Lemma cell_after_snoc c fl1 o : cell_after c (fl1 ++ [o]) = CNext o.
Proof. revert c; induction fl1 as [|x fl1 IH]; intros c; simpl; [done|apply IH]. Qed.

Lemma chain_frame m v fl o x : fl_chain m v fl -> o ∉ fl -> fl_chain (<[o := x]> m) v fl.
Proof.
  revert v; induction fl as [|p fl IH]; intros v; simpl; [done|].
  intros (-> & h & Hh & Hc) Ho. split; [done|]. exists h.
  rewrite lookup_insert_ne by set_solver. split; [done|]. apply IH; [done|set_solver].
Qed.

(** Changing a header but not its link keeps the list. *)
Lemma chain_relink m v fl o x x' :
  fl_chain m v fl -> m !! o = Some x -> h_next x' = h_next x -> fl_chain (<[o := x']> m) v fl.
Proof.
  intros Hc Ho Hn; revert v Hc; induction fl as [|p fl IH]; intros v; simpl; [done|].
  intros (-> & h & Hh & Hc). split; [done|].
  destruct (decide (p = o)) as [->|Hne].
  - exists x'. rewrite lookup_insert_eq. split; [done|]. rewrite Hn. simplify_eq. auto.
  - exists h. rewrite lookup_insert_ne by done. auto.
Qed.

Lemma chain_lookup m v fl o : fl_chain m v fl -> o ∈ fl -> exists h, m !! o = Some h.
Proof.
  revert v; induction fl as [|p fl IH]; intros v; simpl; [by intros _ ?%elem_of_nil|].
  intros (-> & h & Hh & Hc) [->|Ho]%elem_of_cons; eauto.
Qed.

Lemma chain_length m v fl : fl_chain m v fl -> NoDup fl -> (length fl <= size m)%nat.
Proof.
  intros Hc Hnd. rewrite <-(size_dom (D:=gset Z) m).
  rewrite <-(size_list_to_set (C:=gset Z) fl) by done.
  apply subseteq_size. intros o Ho%elem_of_list_to_set.
  destruct (chain_lookup _ _ _ _ Hc Ho). apply elem_of_dom. eauto.
Qed.

(** What the walk sees through the cell after [fl1]. *)
Lemma load_cell_after a fl1 fl2 :
  fl_chain (a_hdrs a) (a_free_head a) (fl1 ++ fl2) ->
  exists v, load_cell a (cell_after CHead fl1) = Some v /\ fl_chain (a_hdrs a) v fl2.
Proof.
  enough (forall c v, load_cell a c = Some v -> fl_chain (a_hdrs a) v (fl1 ++ fl2) ->
    exists w, load_cell a (cell_after c fl1) = Some w /\ fl_chain (a_hdrs a) w fl2) as H by eauto.
  induction fl1 as [|o fl1 IH]; intros c v Hl Hc; simpl in *; [eauto|].
  destruct Hc as (-> & h & Hh & Hc). eapply (IH (CNext o)); [|done].
  simpl. unfold hdr_at. by rewrite Hh.
Qed.

(** Everything but the headers and the free-list head is kept. *)
Definition same_frame (a a' : blyt_arena_t) : Prop :=
  a_base a' = a_base a /\ a_size a' = a_size a /\ a_bump a' = a_bump a
  /\ a_ready a' = a_ready a /\ a_acct a' = a_acct a /\ a_data a' = a_data a.

Lemma chain_rewrite_tail m v fl1 x rest hx' fl3 :
  fl_chain m v (fl1 ++ x :: rest) -> NoDup (fl1 ++ x :: rest) ->
  fl_chain (<[x := hx']> m) (h_next hx') fl3 ->
  fl_chain (<[x := hx']> m) v (fl1 ++ x :: fl3).
Proof.
  revert v; induction fl1 as [|o fl1 IH]; intros v; simpl.
  - intros (-> & h & Hh & _) _ Hc. split; [done|]. exists hx'. by rewrite lookup_insert_eq.
  - intros (-> & h & Hh & Hc) Hnd Hc3. apply NoDup_cons in Hnd as [Hni Hnd].
    split; [done|]. exists h. rewrite lookup_insert_ne by set_solver. auto.
Qed.

(** Storing [v] through the cell after [fl1] makes the list [fl1 ++ fl3], where
    [fl3] is what starts at [v]. *)
Lemma store_cell_after a fl1 c fl2 v fl3 :
  fl_chain (a_hdrs a) (a_free_head a) (fl1 ++ c :: fl2) -> NoDup (fl1 ++ c :: fl2) ->
  fl_chain (a_hdrs a) v fl3 -> (forall o, o ∈ fl3 -> o ∉ fl1) ->
  exists a', store_cell a (cell_after CHead fl1) v = Some a' /\ same_frame a a'
    /\ fl_chain (a_hdrs a') (a_free_head a') (fl1 ++ fl3)
    /\ (forall o, norm <$> a_hdrs a' !! o = (norm <$> a_hdrs a !! o))
    /\ (forall o, o ∉ fl1 -> a_hdrs a' !! o = a_hdrs a !! o).
Proof.
  intros Hc Hnd Hv Hdis. destruct fl1 as [|x fl1 _] using rev_ind.
  - exists (with_free_head v a). unfold same_frame. split_and!; done.
  - rewrite <-app_assoc in Hc, Hnd; simpl in Hc, Hnd. rewrite cell_after_snoc. simpl.
    destruct (chain_lookup _ _ _ x Hc) as [hx Hx]; [set_solver|].
    unfold hdr_at. rewrite Hx; simpl.
    eexists; split; [done|]. unfold same_frame; simpl. split_and!; try done.
    + rewrite <-app_assoc; simpl. eapply chain_rewrite_tail; [done|done|].
      simpl. apply chain_frame; [done|]. set_solver.
    + intros o. destruct (decide (o = x)) as [->|]; [|by rewrite lookup_insert_ne].
      rewrite lookup_insert_eq, Hx. done.
    + intros o Ho. rewrite lookup_insert_ne; [done|set_solver].
Qed.

(** *** Arithmetic of a request *)

(** The size of the block that serves a request that does not overflow. *)
Definition need_of (n : Z) : Z := (Z.max n 1 + 16 + 15) / 16 * 16.

Lemma need_exact n :
  0 <= n <= 2 ^ 32 - 32 ->
  align_up (u32 (u32 (if n =? 0 then 1 else n) + HDR_SIZE)) BLYT_ARENA_ALIGN = need_of n
  /\ 32 <= need_of n < 2 ^ 32 /\ n + 16 <= need_of n <= Z.max n 1 + 31 /\ (16 | need_of n).
Proof.
  intros Hn. unfold HDR_SIZE, BLYT_ARENA_ALIGN.
  assert ((if n =? 0 then 1 else n) = Z.max n 1) as -> by (case_match; lia).
  rewrite (u32_id (Z.max n 1)) by (unfold is_u32; lia).
  rewrite (u32_id (_ + 16)) by (unfold is_u32; lia).
  split; [|unfold need_of; split_and!; try (Z.div_mod_to_equations; lia);
    apply Z.divide_factor_r].
  unfold align_up. rewrite (u32_id (_ + 16 - 1)) by (unfold is_u32; lia).
  change (u32 (Z.lnot (16 - 1))) with (2 ^ 32 - 16).
  set (x := Z.max n 1 + 16 + 16 - 1).
  assert (0 <= x < 2 ^ 32) by lia.
  replace (2 ^ 32 - 16) with (Z.land (Z.ones 32) (Z.lnot (Z.ones 4))) by reflexivity.
  rewrite Z.land_assoc, Z.land_ones, Z.mod_small by lia.
  rewrite (land_lnot_ones x 4) by (lia || reflexivity).
  unfold need_of, x. change (2 ^ 4) with 16. Z.div_mod_to_equations; lia.
Qed.

(** *** Replacing a run of blocks

    The workhorse of every preservation proof: the blocks [rs] that tile [c, e)
    are replaced by [hs], which tile the same range. *)
Lemma inv_replace a fl a' fl' l1 rs l2 hs c e :
  arena_inv a (l1 ++ rs ++ l2) fl ->
  tiles 0 l1 c -> tiles c rs e -> tiles c hs e -> tiles e l2 (a_bump a) ->
  a_base a' = a_base a -> a_size a' = a_size a -> a_ready a' = a_ready a ->
  a_bump a' = a_bump a ->
  (forall o k, (o, k) ∈ hs -> norm <$> a_hdrs a' !! o = Some k) ->
  (forall o, o < c \/ e <= o -> norm <$> a_hdrs a' !! o = (norm <$> a_hdrs a !! o)) ->
  fl_chain (a_hdrs a') (a_free_head a') fl' -> NoDup fl' ->
  (forall o, o ∈ fl' <-> (exists k, (o, k) ∈ hs /\ h_free k = 1)
                      \/ (o ∈ fl /\ forall k, (o, k) ∉ rs)) ->
  (forall o k, (o, k) ∈ hs -> h_free k = 0 \/ h_free k = 1) ->
  (forall c', a_acct a' = Some c' ->
     acct_ok c' /\ guest_heap_used c' = acct_sum l1 + acct_sum hs + acct_sum l2) ->
  arena_inv a' (l1 ++ hs ++ l2) fl'.
Proof.
  intros [] H1 Hrs Hhs H2 Hb Hs Hr Hbu Hin Hout Hc Hnd Hiff Hfl Hac.
  assert (forall o k, (o, k) ∈ l1 -> o < c) as L1.
  { intros o k Ho. destruct (tiles_elem _ _ _ _ _ H1 Ho) as (? & ? & ? & _). lia. }
  assert (forall o k, (o, k) ∈ l2 -> e <= o) as L2.
  { intros o k Ho. destruct (tiles_elem _ _ _ _ _ H2 Ho) as (? & ? & ? & _). lia. }
  assert (forall o k, (o, k) ∈ rs -> c <= o < e) as LR.
  { intros o k Ho. destruct (tiles_elem _ _ _ _ _ Hrs Ho) as (? & ? & ? & _). lia. }
  split; rewrite ?Hb, ?Hs, ?Hr, ?Hbu; try done.
  - apply tiles_app. exists c. split; [done|]. apply tiles_app. eauto.
  - intros o h Ho. rewrite !elem_of_app in Ho. destruct Ho as [Ho|[Ho|Ho]].
    + rewrite Hout by eauto. apply inv_hdrs0. rewrite !elem_of_app. auto.
    + auto.
    + rewrite Hout by eauto. apply inv_hdrs0. rewrite !elem_of_app. auto.
  - intros o. rewrite Hiff, inv_free0. setoid_rewrite elem_of_app. setoid_rewrite elem_of_app.
    split.
    + intros [(k & ? & ?)|[(h & [Ho|[Ho|Ho]] & Hf) Hn]]; eauto. by destruct (Hn h).
    + intros (h & [Ho|[Ho|Ho]] & Hf); [right|left; eauto|right]; (split; [eauto|]);
        intros k Hk; specialize (LR _ _ Hk); [specialize (L1 _ _ Ho)|specialize (L2 _ _ Ho)]; lia.
  - intros o h. rewrite !elem_of_app. intros [Ho|[Ho|Ho]]; eauto;
      apply (inv_flag0 o); rewrite !elem_of_app; auto.
  - intros c' Hc'. destruct (Hac c' Hc') as [? ->]. rewrite !acct_sum_app. split; [done|lia].
Qed.

Lemma norm_eta (m : gmap Z blk_hdr_t) o h :
  norm <$> m !! o = Some (norm h) -> exists nx, m !! o = Some (MkHdr (h_size h) (h_free h) nx (h_pad h)).
Proof.
  destruct (m !! o) as [[s f nx p]|]; simpl; [|done]. intros [= -> -> ->]. by exists nx.
Qed.

(** A free-list element is a block of the tiling, and not the end marker. *)
Lemma inv_fl_block a bs fl o h :
  arena_inv a bs fl -> o ∈ fl -> a_hdrs a !! o = Some h ->
  (o, norm h) ∈ bs /\ h_free h = 1 /\ o <> BLYT_ARENA_NONE.
Proof.
  intros [] Ho Hh. apply inv_free0 in Ho as (k & Hk & Hf).
  pose proof (inv_hdrs0 _ _ Hk) as E. rewrite Hh in E; simpl in E. simplify_eq.
  split_and!; [done|done|].
  destruct (tiles_elem _ _ _ _ _ inv_tiles0 Hk) as (? & ? & ? & _).
  unfold BLYT_ARENA_NONE. simpl in *. lia.
Qed.

(** *** The first-fit search *)

Lemma first_fit_spec a bs fl1 fl2 need mark noacct fuel :
  arena_inv a bs (fl1 ++ fl2) -> (length fl2 < fuel)%nat ->
  (first_fit fuel a (cell_after CHead fl1) need mark noacct = Some None
   /\ forall o h, o ∈ fl2 -> a_hdrs a !! o = Some h -> h_size h < need)
  \/ exists f1 c f2 h, fl2 = f1 ++ c :: f2 /\ a_hdrs a !! c = Some h /\ need <= h_size h
     /\ first_fit fuel a (cell_after CHead fl1) need mark noacct
        = (r ← take_block a (cell_after CHead (fl1 ++ f1)) c h need mark noacct; Some (Some r)).
Proof.
  intros Hinv. revert fl1 Hinv fuel. induction fl2 as [|c fl2 IH]; intros fl1 Hinv [|fuel] Hf;
    simpl in Hf; try lia.
  - destruct (load_cell_after a fl1 [] (inv_chain _ _ _ Hinv)) as (v & Hv & ->).
    left. split; [|by intros o h ?%elem_of_nil]. simpl. rewrite Hv; simpl. done.
  - destruct (load_cell_after a fl1 (c :: fl2) (inv_chain _ _ _ Hinv)) as (v & Hv & -> & h & Hh & _).
    destruct (inv_fl_block _ _ _ c h Hinv) as (Hb & _ & Hne); [set_solver|done|].
    simpl. rewrite Hv; simpl. apply Z.eqb_neq in Hne as ->.
    assert (hdr_at a c = Some h) as -> by done. simpl.
    destruct (h_size h >=? need) eqn:Hge.
    + right. exists [], c, fl2, h. rewrite app_nil_r. split_and!; [done|done|lia|done].
    + replace (CNext c) with (cell_after CHead (fl1 ++ [c])) by apply cell_after_snoc.
      destruct (IH (fl1 ++ [c]) ltac:(by rewrite <-app_assoc) fuel ltac:(lia))
        as [[-> Hall]|(f1 & c' & f2 & h' & -> & Hh' & Hge' & ->)].
      * left. split; [done|]. intros o k [->|Ho]%elem_of_cons Hk; [|by eauto]. simplify_eq. lia.
      * right. exists (c :: f1), c', f2, h'. rewrite <-app_assoc. done.
Qed.

(** *** Accounting steps *)

Definition charged (a : blyt_arena_t) (s : Z) : Prop :=
  forall c, a_acct a = Some c -> acct_ok c /\ guest_heap_used c = s.

Lemma acct_add_charged a s b : charged a s -> 0 <= s + b < 2 ^ 32 -> charged (acct_add a b) (s + b).
Proof.
  intros H Hb c. unfold acct_add. destruct (a_acct a) as [d|] eqn:E; simpl; [|congruence].
  intros [= <-]. destruct (H d E) as [(? & ? & ? & ?) <-].
  unfold set_guest_heap_used, acct_ok; simpl. rewrite u32_id by done. done.
Qed.

Lemma acct_sub_charged a s b : charged a s -> 0 <= s - b < 2 ^ 32 -> charged (acct_sub a b) (s - b).
Proof.
  intros H Hb c. unfold acct_sub. destruct (a_acct a) as [d|] eqn:E; simpl; [|congruence].
  intros [= <-]. destruct (H d E) as [(? & ? & ? & ?) <-].
  unfold set_guest_heap_used, acct_ok; simpl. rewrite u32_id by done. done.
Qed.

Lemma acct_add_frame a b :
  a_base (acct_add a b) = a_base a /\ a_size (acct_add a b) = a_size a
  /\ a_bump (acct_add a b) = a_bump a /\ a_ready (acct_add a b) = a_ready a
  /\ a_hdrs (acct_add a b) = a_hdrs a /\ a_free_head (acct_add a b) = a_free_head a
  /\ a_data (acct_add a b) = a_data a.
Proof. unfold acct_add. destruct (a_acct a); done. Qed.

Lemma acct_sub_frame a b :
  a_base (acct_sub a b) = a_base a /\ a_size (acct_sub a b) = a_size a
  /\ a_bump (acct_sub a b) = a_bump a /\ a_ready (acct_sub a b) = a_ready a
  /\ a_hdrs (acct_sub a b) = a_hdrs a /\ a_free_head (acct_sub a b) = a_free_head a
  /\ a_data (acct_sub a b) = a_data a.
Proof. unfold acct_sub. destruct (a_acct a); done. Qed.

(** What no allocator step changes: the user bytes, the arena size, and the
    budget terms other than the heap total. *)
Definition acct_fixed (a : blyt_arena_t) : option (Z * Z) :=
  (fun c => (non_evictable_footprint c, guest_heap_baseline c)) <$> a_acct a.
Definition frame (a a' : blyt_arena_t) : Prop :=
  a_data a' = a_data a /\ a_size a' = a_size a /\ acct_fixed a' = acct_fixed a.

Lemma acct_add_fixed a b : acct_fixed (acct_add a b) = acct_fixed a.
Proof. unfold acct_fixed, acct_add. by destruct (a_acct a) eqn:E; simpl; rewrite ?E. Qed.
Lemma acct_sub_fixed a b : acct_fixed (acct_sub a b) = acct_fixed a.
Proof. unfold acct_fixed, acct_sub. by destruct (a_acct a) eqn:E; simpl; rewrite ?E. Qed.

(** The final step of an allocation, which charges [b] unless the block is scratch. *)
Definition charge (noacct : bool) (a : blyt_arena_t) (b : Z) : blyt_arena_t :=
  if noacct then a else acct_add a b.

Lemma charge_frame noacct a b :
  a_base (charge noacct a b) = a_base a /\ a_size (charge noacct a b) = a_size a
  /\ a_bump (charge noacct a b) = a_bump a /\ a_ready (charge noacct a b) = a_ready a
  /\ a_hdrs (charge noacct a b) = a_hdrs a /\ a_free_head (charge noacct a b) = a_free_head a
  /\ a_data (charge noacct a b) = a_data a.
Proof. destruct noacct; [done|apply acct_add_frame]. Qed.

Lemma charge_fixed noacct a b : acct_fixed (charge noacct a b) = acct_fixed a.
Proof. destruct noacct; [done|apply acct_add_fixed]. Qed.

Lemma charge_charged noacct a s b :
  charged a s -> 0 <= s + b < 2 ^ 32 ->
  charged (charge noacct a b) (s + if noacct then 0 else b).
Proof. destruct noacct; intros; [by rewrite Z.add_0_r|by apply acct_add_charged]. Qed.

(** *** Taking a block from the free list *)

Definition splits (h : blk_hdr_t) (need : Z) : bool := h_size h - need >=? 32.
Definition consumed_of (h : blk_hdr_t) (need : Z) : Z :=
  if splits h need then need else h_size h.
Definition rest_of (c : Z) (h : blk_hdr_t) (need : Z) : list ablock :=
  if splits h need then [(c + need, MkHdr (h_size h - need) 1 0 0)] else [].
Definition mark_of (noacct : bool) : Z := if noacct then BLK_NOACCT else 0.

Lemma inv_tiles_at a l1 c h l2 fl :
  arena_inv a (l1 ++ (c, h) :: l2) fl ->
  tiles 0 l1 c /\ tiles c [(c, h)] (c + h_size h) /\ tiles (c + h_size h) l2 (a_bump a)
  /\ 0 <= c /\ c + h_size h <= a_bump a /\ a_bump a < 2 ^ 32 /\ 32 <= h_size h /\ (16 | h_size h).
Proof.
  intros []. destruct (tiles_split _ _ _ _ _ _ inv_tiles0) as (T1 & T2 & Hs & Hd & _).
  pose proof (tiles_le _ _ _ T1). pose proof (tiles_le _ _ _ T2).
  split_and!; simpl; auto; lia.
Qed.

(** A point strictly inside a block is the offset of no block, so of no
    free-list element. *)
Lemma inv_inside_not_fl a l1 c h l2 fl t :
  arena_inv a (l1 ++ (c, h) :: l2) fl -> c < t < c + h_size h -> t ∉ fl.
Proof.
  intros Hinv Ht (k & Hk & _)%(inv_free _ _ _ Hinv).
  destruct (tiles_split _ _ _ _ _ _ (inv_tiles _ _ _ Hinv)) as (_ & _ & _ & _ & Hb & Ha).
  destruct (tiles_elem _ _ _ _ _ (inv_tiles _ _ _ Hinv) Hk) as (_ & _ & ? & _).
  apply elem_of_app in Hk as [Hk|[[= -> ->]|Hk]%elem_of_cons]; [|lia|].
  - specialize (Hb _ _ Hk). lia.
  - specialize (Ha _ _ Hk). lia.
Qed.

Lemma chain_at m v fl1 c fl2 h :
  fl_chain m v (fl1 ++ c :: fl2) -> m !! c = Some h -> fl_chain m (h_next h) fl2.
Proof.
  revert v; induction fl1 as [|o fl1 IH]; intros v; simpl.
  - intros (-> & k & Hk & Hc) ?. by simplify_eq.
  - intros (-> & k & Hk & Hc). eauto.
Qed.

(** The effect of the split branch and of the whole-block branch, before the
    block itself is marked as used. *)
Lemma take_unlink a l1 c h l2 fl1 fl2 need :
  arena_inv a (l1 ++ (c, norm h) :: l2) (fl1 ++ c :: fl2) -> a_hdrs a !! c = Some h ->
  32 <= need <= h_size h -> (16 | need) ->
  exists a2 fl',
    (if splits h need then
       let a1 := with_hdr (u32 (c + need)) (MkHdr (h_size h - need) 1 (h_next h) 0) a in
       a2 ← store_cell a1 (cell_after CHead fl1) (u32 (c + need));
       h2 ← hdr_at a2 c;
       Some (with_hdr c (MkHdr need (h_free h2) (h_next h2) (h_pad h2)) a2)
     else store_cell a (cell_after CHead fl1) (h_next h)) = Some a2
    /\ same_frame a a2
    /\ (exists k, a_hdrs a2 !! c = Some k /\ h_size k = consumed_of h need)
    /\ fl_chain (a_hdrs a2) (a_free_head a2) fl' /\ NoDup fl' /\ (c ∉ fl')
    /\ (forall o, o ∈ fl' <-> (exists k, (o, k) ∈ rest_of c h need) \/ (o ∈ (fl1 ++ c :: fl2) /\ o <> c))
    /\ (forall o k, (o, k) ∈ rest_of c h need -> norm <$> a_hdrs a2 !! o = Some k)
    /\ (forall o, o < c \/ c + h_size h <= o -> norm <$> a_hdrs a2 !! o = (norm <$> a_hdrs a !! o)).
Proof.
  intros Hinv Hc Hneed Hd.
  destruct (inv_tiles_at _ _ _ _ _ _ Hinv) as (_ & _ & _ & ? & ? & ? & _); simpl in *.
  pose proof (inv_chain _ _ _ Hinv) as Hch. pose proof (inv_nodup _ _ _ Hinv) as Hnd.
  assert ((c ∉ fl1) /\ (c ∉ fl2) /\ NoDup fl1 /\ NoDup fl2 /\ forall o, o ∈ fl1 -> o ∉ fl2)
    as (N1 & N2 & D1 & D2 & D12).
  { apply NoDup_app in Hnd as (? & ? & [? ?]%NoDup_cons). set_solver. }
  pose proof (chain_at _ _ _ _ _ _ Hch Hc) as Hc2.
  unfold rest_of, consumed_of. destruct (splits h need) eqn:Hsp; unfold splits in Hsp.
  - rewrite u32_id by (unfold is_u32; lia). set (t := c + need). set (tl := MkHdr _ 1 _ 0).
    assert (t ∉ (fl1 ++ c :: fl2)) as Ht.
    { eapply inv_inside_not_fl; [exact Hinv|]. simpl. unfold t. lia. }
    destruct (store_cell_after (with_hdr t tl a) fl1 c fl2 t (t :: fl2))
      as (a2 & -> & Hsf & Hca2 & Hno & Hlk); simpl.
    { by apply chain_frame. } { done. }
    { split; [done|]. exists tl. rewrite lookup_insert_eq. split; [done|].
      apply chain_frame; [done|set_solver]. }
    { set_solver. }
    assert (a_hdrs a2 !! c = Some h) as Hc2'.
    { rewrite Hlk by done. simpl. rewrite lookup_insert_ne by (unfold t; lia). done. }
    unfold hdr_at; rewrite Hc2'; simpl.
    exists (with_hdr c (MkHdr need (h_free h) (h_next h) (h_pad h)) a2), (fl1 ++ t :: fl2).
    assert (c ∉ (fl1 ++ t :: fl2)).
    { assert (c <> t) by (unfold t; lia). set_solver. }
    split_and!; [done|done| | | |done| | |].
    + eexists. simpl. rewrite lookup_insert_eq. done.
    + by apply chain_frame.
    + apply NoDup_app. split_and!; [done| |apply NoDup_cons; set_solver]. set_solver.
    + intros o. assert (c <> t) by (unfold t; lia). set_solver.
    + intros o k [= -> ->]%list_elem_of_singleton. simpl.
      rewrite lookup_insert_ne by (unfold t; lia). rewrite Hno. simpl. by rewrite lookup_insert_eq.
    + intros o Ho. simpl. rewrite lookup_insert_ne by lia. rewrite Hno. simpl.
      rewrite lookup_insert_ne by (unfold t; lia). done.
  - destruct (store_cell_after a fl1 c fl2 (h_next h) fl2)
      as (a2 & Heq & Hsf & Hca2 & Hno & Hlk); [done..|set_solver|].
    exists a2, (fl1 ++ fl2). split_and!; [done|done| |done| | | | |].
    + exists h. rewrite Hlk by done. done.
    + apply NoDup_app. set_solver.
    + set_solver.
    + set_solver.
    + by intros o k ?%elem_of_nil.
    + intros o _. apply Hno.
Qed.

Lemma mark_weight noacct s : weight (MkHdr s 0 0 (mark_of noacct)) = if noacct then 0 else s.
Proof. by destruct noacct. Qed.

Lemma rest_tiles c h need :
  32 <= need <= h_size h -> (16 | need) -> (16 | h_size h) -> 32 <= h_size h ->
  tiles c ((c, MkHdr (consumed_of h need) 0 0 0) :: rest_of c h need) (c + h_size h).
Proof.
  intros ? ? ? ?. unfold consumed_of, rest_of, splits. destruct (_ >=? 32) eqn:E; simpl.
  - split_and!; try lia; [done|]. by apply Z.divide_sub_r.
  - split_and!; lia || done.
Qed.

Lemma rest_sum c h need : acct_sum (rest_of c h need) = 0.
Proof. unfold rest_of. case_match; reflexivity. Qed.

Lemma rest_free c h need o k : (o, k) ∈ rest_of c h need -> h_free k = 1 /\ o = c + need.
Proof.
  unfold rest_of. case_match; [|by intros ?%elem_of_nil].
  by intros [= -> ->]%list_elem_of_singleton.
Qed.

Lemma take_block_refused a prev c h need mark :
  cap_allows a (consumed_of h need) = false -> 32 <= need <= h_size h -> h_size h < 2 ^ 32 ->
  take_block a prev c h need mark false = Some (None, a).
Proof.
  intros Hc ? ?. unfold take_block. rewrite u32_id by (unfold is_u32; lia).
  change (HDR_SIZE + BLYT_ARENA_ALIGN) with 32. fold (splits h need) (consumed_of h need).
  by rewrite Hc.
Qed.

Lemma take_block_spec a l1 c h l2 fl1 fl2 need noacct :
  arena_inv a (l1 ++ (c, norm h) :: l2) (fl1 ++ c :: fl2) -> a_hdrs a !! c = Some h ->
  32 <= need <= h_size h -> (16 | need) ->
  noacct || cap_allows a (consumed_of h need) = true ->
  exists a' fl',
    take_block a (cell_after CHead fl1) c h need (mark_of noacct) noacct = Some (Some (c + 16), a')
    /\ arena_inv a' (l1 ++ ((c, MkHdr (consumed_of h need) 0 0 (mark_of noacct))
                             :: rest_of c h need) ++ l2) fl'
    /\ frame a a'.
Proof.
  intros Hinv Hc Hneed Hd Hcap.
  destruct (inv_tiles_at _ _ _ _ _ _ Hinv) as (T1 & Tc & T2 & ? & ? & ? & ? & ?); simpl in *.
  destruct (inv_fl_block _ _ _ c h Hinv) as (_ & Hfree & _); [set_solver|done|].
  destruct (take_unlink _ _ _ _ _ _ _ _ Hinv Hc Hneed Hd)
    as (a2 & fl' & Hrun & (F1 & F2 & F3 & F4 & F5 & F6) & (k & Hk & Hks) & Hch & Hnd & Hnc & Hiff & Hrest & Hout).
  set (a3 := with_hdr c (MkHdr (consumed_of h need) 0 BLYT_ARENA_NONE (mark_of noacct)) a2).
  exists (charge noacct a3 (consumed_of h need)), fl'. split.
  { unfold take_block. rewrite (u32_id (h_size h - need)) by (unfold is_u32; lia).
    change (HDR_SIZE + BLYT_ARENA_ALIGN) with 32. fold (splits h need) (consumed_of h need).
    replace (negb noacct && negb (cap_allows a (consumed_of h need))) with false
      by (destruct noacct, (cap_allows a _); done).
    cbv zeta in Hrun. rewrite Hrun; simpl. unfold hdr_at; rewrite Hk; simpl.
    rewrite Hks. by destruct noacct. }
  clear Hrun Hcap.
  destruct (charge_frame noacct a3 (consumed_of h need)) as (G1 & G2 & G3 & G4 & G5 & G6 & G7).
  split; [|unfold frame; rewrite G7, G2, charge_fixed; unfold acct_fixed; simpl; by rewrite F5].
  pose proof (rest_tiles c h need Hneed Hd ltac:(done) ltac:(done)) as Trest.
  assert (tiles c ((c, MkHdr (consumed_of h need) 0 0 (mark_of noacct)) :: rest_of c h need) (c + h_size h))
    as Ths by done.
  eapply (inv_replace a (fl1 ++ c :: fl2) (charge noacct a3 (consumed_of h need)) fl' l1
    [(c, norm h)] l2 (_ :: rest_of c h need) c (c + h_size h)); try done;
    rewrite ?G1, ?G2, ?G3, ?G4, ?G5, ?G6; simpl; try done.
  - intros o k' [[= -> ->]|Hr]%elem_of_cons; [by rewrite lookup_insert_eq|].
    destruct (rest_free _ _ _ _ _ Hr) as [_ ->]. rewrite lookup_insert_ne by lia. auto.
  - intros o Ho. rewrite lookup_insert_ne by lia. auto.
  - by apply chain_frame.
  - intros o. rewrite Hiff. split.
    + intros [(k' & Hr)|[Ho Hne]].
      * left. exists k'. destruct (rest_free _ _ _ _ _ Hr). set_solver.
      * right. split; [done|]. intros k' [= ->]%list_elem_of_singleton. done.
    + intros [(k' & [[= -> ->]|Hr]%elem_of_cons & Hf)|[Ho Hn]]; [done|eauto|].
      right. split; [done|]. intros ->. apply (Hn (norm h)). by apply list_elem_of_singleton.
  - intros o k' [[= -> ->]|Hr]%elem_of_cons; [by left|].
    right. by destruct (rest_free _ _ _ _ _ Hr).
  - rewrite rest_sum, mark_weight.
    replace (acct_sum l1 + ((if noacct then 0 else consumed_of h need) + 0) + acct_sum l2)
      with ((acct_sum l1 + acct_sum l2) + if noacct then 0 else consumed_of h need) by lia.
    apply charge_charged.
    + intros d Hd'. simpl in Hd'. rewrite F5 in Hd'. destruct (inv_acct _ _ _ Hinv d Hd') as [? ->].
      rewrite acct_sum_app; simpl. unfold weight at 1. simpl. rewrite Hfree. simpl. split; [done|lia].
    + pose proof (acct_sum_bound _ _ _ T1). pose proof (acct_sum_bound _ _ _ T2).
      unfold consumed_of. case_match; lia.
Qed.

(** *** Unlinking a block *)

Lemma fl_remove_loop_spec a bs f0 f1 t f2 fuel :
  arena_inv a bs (f0 ++ f1 ++ t :: f2) -> (length f1 < fuel)%nat ->
  exists h, a_hdrs a !! t = Some h /\
  fl_remove_loop fuel a (cell_after CHead f0) t
  = (a1 ← store_cell a (cell_after CHead (f0 ++ f1)) (h_next h);
     t1 ← hdr_at a1 t;
     Some (1, with_hdr t (MkHdr (h_size t1) 0 BLYT_ARENA_NONE (h_pad t1)) a1)).
Proof.
  revert f0 fuel. induction f1 as [|o f1 IH]; intros f0 [|fuel] Hinv Hf; simpl in Hf; try lia.
  - destruct (load_cell_after a f0 (t :: f2) (inv_chain _ _ _ Hinv)) as (v & Hv & -> & h & Hh & _).
    destruct (inv_fl_block _ _ _ t h Hinv) as (_ & _ & Hne); [set_solver|done|].
    exists h. split; [done|]. simpl. rewrite Hv; simpl. apply Z.eqb_neq in Hne as ->.
    rewrite Z.eqb_refl. assert (hdr_at a t = Some h) as -> by done. by rewrite app_nil_r.
  - destruct (load_cell_after a f0 (o :: f1 ++ t :: f2) (inv_chain _ _ _ Hinv))
      as (v & Hv & -> & h & Hh & _).
    destruct (inv_fl_block _ _ _ o h Hinv) as (_ & _ & Hne); [set_solver|done|].
    destruct (IH (f0 ++ [o]) fuel) as (ht & Ht & Heq); [by rewrite <-app_assoc|lia|].
    exists ht. split; [done|]. simpl. rewrite Hv; simpl. apply Z.eqb_neq in Hne as ->.
    assert (o <> t) as Hot%Z.eqb_neq.
    { pose proof (inv_nodup _ _ _ Hinv) as Hnd.
      apply NoDup_app in Hnd as (_ & _ & [Hni _]%NoDup_cons). set_solver. }
    rewrite Hot. replace (CNext o) with (cell_after CHead (f0 ++ [o])) by apply cell_after_snoc.
    rewrite Heq, <-app_assoc. done.
Qed.

Lemma fl_remove_spec a bs fl1 t fl2 :
  arena_inv a bs (fl1 ++ t :: fl2) ->
  exists h a', a_hdrs a !! t = Some h /\ fl_remove a t = Some (1, a') /\ same_frame a a'
    /\ fl_chain (a_hdrs a') (a_free_head a') (fl1 ++ fl2)
    /\ (exists nx, a_hdrs a' !! t = Some (MkHdr (h_size h) 0 nx (h_pad h)))
    /\ (forall o, o <> t -> norm <$> a_hdrs a' !! o = (norm <$> a_hdrs a !! o)).
Proof.
  intros Hinv. pose proof (inv_nodup _ _ _ Hinv) as Hnd.
  destruct (fl_remove_loop_spec a bs [] fl1 t fl2 (walk_fuel a) Hinv) as (h & Hh & Heq).
  { pose proof (chain_length _ _ _ (inv_chain _ _ _ Hinv) Hnd) as Hl.
    rewrite length_app in Hl. unfold walk_fuel. simpl in Hl. lia. }
  pose proof (chain_at _ _ _ _ _ _ (inv_chain _ _ _ Hinv) Hh) as Hc2.
  assert ((t ∉ fl1) /\ (t ∉ fl2) /\ forall o, o ∈ fl2 -> o ∉ fl1) as (N1 & N2 & N12).
  { apply NoDup_app in Hnd as (? & ? & [? ?]%NoDup_cons). set_solver. }
  destruct (store_cell_after a fl1 t fl2 (h_next h) fl2 (inv_chain _ _ _ Hinv) Hnd Hc2 N12)
    as (a1 & Hst & Hsf & Hch & Hno & Hlk).
  exists h, (with_hdr t (MkHdr (h_size h) 0 BLYT_ARENA_NONE (h_pad h)) a1).
  split; [done|]. split.
  { unfold fl_remove. etrans; [exact Heq|]. change ([] ++ fl1) with fl1. rewrite Hst; simpl.
    unfold hdr_at. rewrite Hlk, Hh by done. done. }
  split_and!; [done| | |].
  - simpl. apply chain_frame; [done|set_solver].
  - exists BLYT_ARENA_NONE. simpl. by rewrite lookup_insert_eq.
  - intros o Ho. simpl. rewrite lookup_insert_ne by done. auto.
Qed.

(** *** Coalescing *)

(** The blocks that hold user data, in address order. *)
Definition used (bs : list ablock) : list ablock := filter (fun b => h_free (b.2) = 0) bs.

Lemma used_app l1 l2 : used (l1 ++ l2) = used l1 ++ used l2.
Proof. apply filter_app. Qed.

Lemma coalesce_spec a l1 c h l2 fl :
  arena_inv a (l1 ++ (c, h) :: l2) (c :: fl) ->
  exists a' bs' fl', coalesce_forward a c = Some a' /\ arena_inv a' bs' fl'
    /\ used bs' = used (l1 ++ (c, h) :: l2) /\ same_frame a a'.
Proof.
  intros Hinv.
  destruct (inv_tiles_at _ _ _ _ _ _ Hinv) as (T1 & Tc & T2 & ? & ? & ? & ? & ?).
  pose proof (inv_hdrs _ _ _ Hinv c h ltac:(set_solver)) as Hn.
  destruct (a_hdrs a !! c) as [k|] eqn:Hk; simpl in Hn; [injection Hn as <-|done].
  destruct (inv_fl_block _ _ _ c k Hinv) as (_ & Hfree & _); [set_solver|done|].
  simpl in *. unfold coalesce_forward, hdr_at. rewrite Hk; simpl.
  rewrite u32_id by (unfold is_u32; lia).
  assert (exists a' bs' fl', Some a = Some a' /\ arena_inv a' bs' fl'
    /\ used bs' = used (l1 ++ (c, norm k) :: l2) /\ same_frame a a') as Hsame.
  { exists a, (l1 ++ (c, norm k) :: l2), (c :: fl). unfold same_frame. split_and!; done. }
  destruct (c + h_size k >=? a_bump a) eqn:Hend; [exact Hsame|].
  destruct l2 as [|[t hn] l2]; simpl in T2; [lia|]. destruct T2 as (-> & Hsn & Hdn & T2).
  set (t := c + h_size k) in *.
  pose proof (inv_hdrs _ _ _ Hinv t hn ltac:(set_solver)) as Hnt.
  destruct (a_hdrs a !! t) as [kn|] eqn:Hkn; simpl in Hnt; [injection Hnt as <-|done].
  simpl. destruct (h_free kn =? 0) eqn:Hfn; [exact Hsame|clear Hsame].
  assert (h_free kn = 1) as Hfn1.
  { destruct (inv_flag _ _ _ Hinv t (norm kn) ltac:(set_solver)); simpl in *; lia. }
  assert (t ∈ fl) as Hin.
  { assert (t ∈ c :: fl) as [Heq|?]%elem_of_cons; [|unfold t in Heq; lia|done].
    apply (inv_free _ _ _ Hinv). exists (norm kn). split; [set_solver|done]. }
  apply list_elem_of_split in Hin as (f1 & f2 & ->).
  destruct (fl_remove_spec a _ (c :: f1) t f2 Hinv)
    as (h' & a1 & Hh' & -> & (F1 & F2 & F3 & F4 & F5 & F6) & Hch & (nx & Ht1) & Hno).
  simplify_eq/=. simpl in *. rewrite Ht1.
  assert (exists nx', a_hdrs a1 !! c = Some (MkHdr (h_size k) (h_free k) nx' (h_pad k))) as (nxc & Hc1).
  { apply norm_eta. rewrite Hno by (unfold t; lia). by rewrite Hk. }
  rewrite Hc1; simpl. rewrite u32_id by (pose proof (tiles_le _ _ _ T2); unfold is_u32, t in *; lia).
  eexists _, (l1 ++ [(c, MkHdr (h_size k + h_size kn) 1 0 (h_pad k))] ++ l2), (c :: f1 ++ f2).
  split; [reflexivity|]. rewrite Hfree.
  pose proof (inv_nodup _ _ _ Hinv) as Hnd.
  assert ((t ∉ f1) /\ (t ∉ f2) /\ NoDup (c :: f1 ++ f2)) as (N1 & N2 & Hnd').
  { apply NoDup_cons in Hnd as [Hc0 (? & ? & [? ?]%NoDup_cons)%NoDup_app].
    split_and!; [set_solver..|]. apply NoDup_cons. split; [set_solver|]. apply NoDup_app. set_solver. }
  split_and!; [| |unfold same_frame; simpl; split_and!; congruence].
  - eapply (inv_replace a (c :: f1 ++ t :: f2) _ _ _ [(c, norm k); (t, norm kn)] _ _ c (t + h_size kn));
      try done.
    + simpl. unfold t in *. split_and!; [done|lia|by apply Z.divide_add_r|lia].
    + intros o k' [= -> ->]%list_elem_of_singleton. simpl. by rewrite lookup_insert_eq.
    + intros o Ho. simpl. rewrite lookup_insert_ne by (unfold t in *; lia).
      apply Hno. unfold t in *; lia.
    + apply (chain_relink _ _ (c :: f1 ++ f2) _ _ _ Hch Hc1). done.
    + intros o. rewrite elem_of_cons, elem_of_app. split.
      * intros [->|Ho]; [left; eexists; rewrite list_elem_of_singleton; done|].
        right. split; [set_solver|]. intros k' Hk'.
        apply NoDup_cons in Hnd' as [Hc0 _]. set_solver.
      * intros [(k' & [= -> _]%list_elem_of_singleton & _)|[Ho Hn']]; [by left|].
        assert (o <> t). { intros ->. apply (Hn' (norm kn)). set_solver. }
        set_solver.
    + intros o k' [= -> ->]%list_elem_of_singleton. by right.
    + intros d Hd. simpl in Hd. rewrite F5 in Hd. destruct (inv_acct _ _ _ Hinv d Hd) as [? ->].
      split; [done|]. rewrite acct_sum_app. simpl. unfold weight. simpl. rewrite Hfree, Hfn1. simpl. lia.
  - rewrite !used_app. unfold used. simpl. rewrite !filter_cons. simpl. rewrite Hfree, Hfn1.
    rewrite !decide_False by lia. done.
Qed.
