(* ===== verification/ArenaSpec.v ===== *)
(** * ArenaSpec: what the cart heap promises, and that the arena implements it

    The abstract heap is the finite map from each live user pointer to its
    capacity and whether it is charged to the budget.  [arena_rep a L] relates a
    concrete arena to the heap it represents; the theorems are a simulation: every
    operation of [Arena] takes a represented heap to the represented result of the
    abstract operation, with no undefined read and no unbounded walk. *)

From S2P Require Import Prelude MemBudget Arena.
From Stdlib Require Import ZArith Lia Znumtheory.
From stdpp Require Import base tactics list gmap.
Open Scope Z_scope.

(** ** The abstract heap *)

(** Capacity in bytes, and whether the block counts toward the budget. *)
Abbreviation alloc := (Z * bool)%type.

Definition charge_of (v : alloc) : Z := if v.2 then v.1 + 16 else 0.
Definition charge_total (L : gmap Z alloc) : Z := map_fold (fun _ v acc => charge_of v + acc) 0 L.

(** Live blocks are aligned, inside the arena and pairwise disjoint, each with its
    own 16 header bytes in front. *)
Definition heap_ok (size : Z) (L : gmap Z alloc) : Prop :=
  forall p c b, L !! p = Some (c, b) ->
    16 <= p /\ (16 | p) /\ 16 <= c /\ p + c <= size
    /\ forall q c' b', L !! q = Some (c', b') -> p <> q ->
         p + c <= q - 16 \/ q + c' <= p - 16.

Definition to_alloc (b : ablock) : Z * alloc :=
  (b.1 + 16, (h_size b.2 - 16, negb (h_pad b.2 =? BLK_NOACCT))).
Definition live (bs : list ablock) : gmap Z alloc := list_to_map (to_alloc <$> used bs).

Definition arena_rep (a : blyt_arena_t) (L : gmap Z alloc) : Prop :=
  exists bs fl, arena_inv a bs fl /\ L = live bs.

(** ** Lemmas on the abstraction *)

Lemma used_cons b bs :
  used (b :: bs) = if decide (h_free b.2 = 0) then b :: used bs else used bs.
Proof. unfold used. by rewrite filter_cons. Qed.

Lemma charge_total_insert L p v :
  L !! p = None -> charge_total (<[p := v]> L) = charge_of v + charge_total L.
Proof. intros Hp. unfold charge_total. rewrite map_fold_insert_L; [done| |done]. intros; lia. Qed.

Lemma tiles_nodup o bs e : tiles o bs e -> NoDup bs.*1.
Proof.
  revert o; induction bs as [|[p h] bs IH]; intros o; simpl; [constructor|].
  intros (-> & Hs & _ & Ht). apply NoDup_cons. split; [|eauto].
  intros ([q k] & -> & Hq)%list_elem_of_fmap. simpl in *.
  destruct (tiles_elem _ _ _ _ _ Ht Hq). lia.
Qed.

Lemma live_nodup o bs e : tiles o bs e -> NoDup (to_alloc <$> used bs).*1.
Proof.
  intros Ht%tiles_nodup. unfold used. induction bs as [|[p h] bs IH]; [constructor|].
  apply NoDup_cons in Ht as [Hni Hnd]. rewrite filter_cons. case_decide; [|auto].
  simpl. apply NoDup_cons. split; [|auto].
  intros (x & Heq & (b & -> & Hb)%list_elem_of_fmap)%list_elem_of_fmap.
  apply list_elem_of_filter in Hb as [_ Hb]. simpl in Heq.
  apply Hni. apply list_elem_of_fmap. exists b. split; [|done]. simpl. lia.
Qed.

Lemma live_lookup o bs e p v :
  tiles o bs e ->
  live bs !! p = Some v <->
  exists h, (p - 16, h) ∈ bs /\ h_free h = 0
            /\ v = (h_size h - 16, negb (h_pad h =? BLK_NOACCT)).
Proof.
  intros Ht. unfold live. rewrite <-elem_of_list_to_map by (eapply live_nodup; eauto).
  unfold to_alloc, used. rewrite list_elem_of_fmap. split.
  - intros ([q h] & [= -> ->] & [Hf Hin]%list_elem_of_filter). exists h. simpl in *.
    replace (q + 16 - 16) with q by lia. done.
  - intros (h & Hin & Hf & ->). exists (p - 16, h). simpl. split; [f_equal; lia|].
    by apply list_elem_of_filter.
Qed.

Lemma live_heap_ok a bs fl : arena_inv a bs fl -> heap_ok (a_size a) (live bs).
Proof.
  intros Hinv p c b Hp. pose proof (inv_tiles _ _ _ Hinv) as Ht. pose proof (inv_bump _ _ _ Hinv).
  apply (live_lookup _ _ _ _ _ Ht) in Hp as (h & Hin & _ & [= -> ->]).
  destruct (tiles_elem _ _ _ _ _ Ht Hin) as (? & ? & ? & ?).
  pose proof (tiles_off_div _ _ _ _ _ (Z.divide_0_r 16) Ht Hin).
  split_and!; try lia.
  - replace p with (p - 16 + 16) by lia. apply Z.divide_add_r; [done|apply Z.divide_refl].
  - intros q c' b' Hq Hne.
    apply (live_lookup _ _ _ _ _ Ht) in Hq as (k & Hkin & _ & [= -> ->]).
    destruct (tiles_disjoint _ _ _ _ _ _ _ Ht Hin Hkin) as [?|?]; lia.
Qed.

Lemma live_add_used bs bs' c h o e :
  tiles o bs' e -> used bs' ≡ₚ (c, h) :: used bs ->
  live bs' = <[c + 16 := (h_size h - 16, negb (h_pad h =? BLK_NOACCT))]> (live bs).
Proof.
  intros Ht Hp. unfold live.
  rewrite (list_to_map_proper (to_alloc <$> used bs') (to_alloc <$> ((c, h) :: used bs))).
  - done.
  - by eapply live_nodup.
  - by rewrite Hp.
Qed.

Lemma charge_total_live o bs e : tiles o bs e -> charge_total (live bs) = acct_sum bs.
Proof.
  revert o; induction bs as [|[p h] bs IH]; intros o Ht; [done|].
  pose proof Ht as Ht0. destruct Ht as (Hp & Hs & Hd & Ht). specialize (IH _ Ht).
  unfold live in *. rewrite used_cons. simpl. unfold weight. case_decide as Hf; simpl in Hf.
  - rewrite fmap_cons. change (to_alloc (p, h)) with (p + 16, (h_size h - 16, negb (h_pad h =? BLK_NOACCT))).
    rewrite list_to_map_cons, charge_total_insert.
    + rewrite IH, Hf, Z.eqb_refl. simpl. unfold charge_of; simpl. destruct (h_pad h =? BLK_NOACCT); simpl; lia.
    + apply eq_None_not_Some. intros [v (k & Hk & _)%(live_lookup _ _ _ _ _ Ht)].
      simpl in Hk. destruct (tiles_elem _ _ _ _ _ Ht Hk). lia.
  - apply Z.eqb_neq in Hf as ->. simpl. lia.
Qed.

(** ** The heap of a represented arena *)

Lemma rep_heap_ok a L : arena_rep a L -> heap_ok (a_size a) L.
Proof. intros (bs & fl & Hinv & ->). by eapply live_heap_ok. Qed.

Lemma rep_charged a L c :
  arena_rep a L -> a_acct a = Some c -> acct_ok c /\ guest_heap_used c = charge_total L.
Proof.
  intros (bs & fl & Hinv & ->) Hc. rewrite (charge_total_live _ _ _ (inv_tiles _ _ _ Hinv)).
  by apply (inv_acct _ _ _ Hinv).
Qed.

(** The first operation on an arena the caller set up, or on a reset one. *)
Lemma ensure_ready_inv a :
  a_base a = true -> 0 < a_size a < 2 ^ 32 -> a_ready a = false ->
  (forall c, a_acct a = Some c -> acct_ok c /\ guest_heap_used c = 0) ->
  arena_inv (ensure_ready a) [] [].
Proof.
  intros Hb Hs Hr Hc. unfold ensure_ready. rewrite Hr. split; simpl; try done; try lia.
  - by intros o h ?%elem_of_nil.
  - constructor.
  - intros o. split; [by intros ?%elem_of_nil|by intros (h & ?%elem_of_nil & _)].
  - by intros o h ?%elem_of_nil.
Qed.

(** ** malloc *)

(** The bump path: a block is added at the end of the tiling. *)
Lemma bump_inv a bs fl need noacct :
  arena_inv a bs fl -> 32 <= need -> (16 | need) -> a_bump a + need <= a_size a ->
  let h := MkHdr need 0 BLYT_ARENA_NONE (mark_of noacct) in
  arena_inv (charge noacct (with_bump (a_bump a + need) (with_hdr (a_bump a) h a)) need)
    (bs ++ [(a_bump a, norm h)]) fl.
Proof.
  intros Hinv Hn Hd Hle h. pose proof Hinv as
    [inv_base0 inv_size0 inv_ready0 inv_tiles0 inv_bump0 inv_hdrs0 inv_chain0 inv_nodup0 inv_free0
     inv_flag0 inv_acct0].
  set (a2 := with_bump _ _).
  destruct (charge_frame noacct a2 need) as (G1 & G2 & G3 & G4 & G5 & G6 & G7).
  assert (forall o k, (o, k) ∈ bs -> o < a_bump a) as Hlt.
  { intros o k Ho. destruct (tiles_elem _ _ _ _ _ inv_tiles0 Ho) as (? & ? & ? & _). lia. }
  assert (a_bump a ∉ fl) as Hnf.
  { intros (k & Hk & _)%inv_free0. specialize (Hlt _ _ Hk). lia. }
  split; rewrite ?G1, ?G2, ?G3, ?G4, ?G5, ?G6; simpl; try done.
  - apply tiles_app. exists (a_bump a). split; [done|]. simpl. split_and!; lia || done.
  - intros o k [Ho|[= -> ->]%list_elem_of_singleton]%elem_of_app.
    + rewrite lookup_insert_ne by (specialize (Hlt _ _ Ho); lia). auto.
    + by rewrite lookup_insert_eq.
  - by apply chain_frame.
  - intros o. rewrite inv_free0. split.
    + intros (k & Hk & Hf). exists k. rewrite elem_of_app. auto.
    + intros (k & [Hk|[= -> ->]%list_elem_of_singleton]%elem_of_app & Hf); [eauto|done].
  - intros o k [Ho|[= -> ->]%list_elem_of_singleton]%elem_of_app; [eauto|by left].
  - rewrite acct_sum_app. simpl. rewrite Z.add_0_r.
    change (norm h) with (MkHdr need 0 0 (mark_of noacct)). rewrite mark_weight. apply charge_charged.
    + intros c Hc. by apply inv_acct0.
    + pose proof (acct_sum_bound _ _ _ inv_tiles0). lia.
Qed.

Lemma bump_frame a o h b (noacct : bool) need :
  frame a (if noacct then with_bump b (with_hdr o h a) else acct_add (with_bump b (with_hdr o h a)) need).
Proof.
  destruct noacct; [done|]. set (a1 := with_bump _ _).
  destruct (acct_add_frame a1 need) as (_ & Hs & _ & _ & _ & _ & Hd).
  unfold frame. rewrite Hs, Hd, acct_add_fixed. done.
Qed.

(** The condition under which a charged block of [sz] bytes may be handed out. *)
Definition may_charge (noacct : bool) (a : blyt_arena_t) (sz : Z) : Prop :=
  noacct || cap_allows a sz = true.

Lemma consumed_bounds h need :
  (16 | need) -> (16 | h_size h) -> need <= h_size h ->
  need <= consumed_of h need <= need + 16.
Proof.
  intros [x Hx] [y Hy] ?. unfold consumed_of, splits. destruct (_ >=? 32) eqn:?; lia.
Qed.

(** Every way [arena_malloc_core] can end, for a request that does not overflow. *)
Lemma malloc_core_spec a bs fl n noacct :
  arena_inv a bs fl -> 0 <= n <= 2 ^ 32 - 32 ->
  (arena_malloc_core a n noacct = Some (None, a)
   /\ (a_size a < a_bump a + need_of n
       \/ exists sz, need_of n <= sz <= need_of n + 16 /\ ~ may_charge noacct a sz))
  \/ exists p sz a' bs' fl',
     arena_malloc_core a n noacct = Some (Some (p + 16), a')
     /\ arena_inv a' bs' fl' /\ frame a a'
     /\ may_charge noacct a sz /\ need_of n <= sz
     /\ used bs' ≡ₚ (p, MkHdr sz 0 0 (mark_of noacct)) :: used bs.
Proof.
  intros Hinv Hn. pose proof (need_exact n Hn) as (Hneed & Hnr & Hnb & Hnd).
  unfold arena_malloc_core. rewrite (inv_base _ _ _ Hinv). change (negb true) with false. rewrite orb_false_l.
  pose proof (inv_size _ _ _ Hinv) as Hsz.
  destruct (a_size a =? 0) eqn:E0; [lia|clear E0].
  assert (ensure_ready a = a) as -> by (unfold ensure_ready; by rewrite (inv_ready _ _ _ Hinv)).
  rewrite Hneed. fold (mark_of noacct). cbv zeta.
  assert (length fl < walk_fuel a)%nat as Hfuel.
  { pose proof (chain_length _ _ _ (inv_chain _ _ _ Hinv) (inv_nodup _ _ _ Hinv)). unfold walk_fuel; lia. }
  pose proof (first_fit_spec a bs [] fl (need_of n) (mark_of noacct) noacct (walk_fuel a) Hinv Hfuel)
    as Hff; change (cell_after CHead []) with CHead in Hff.
  destruct Hff as [[-> Hall]|(f1 & c & f2 & h & -> & Hc & Hge & ->)].
  - simpl. pose proof (tiles_le _ _ _ (inv_tiles _ _ _ Hinv)).
    destruct (a_bump a + need_of n >? a_size a) eqn:Eb; [left; split; [done|lia]|].
    destruct (negb noacct && negb (cap_allows a (need_of n))) eqn:Ec.
    { left. split; [done|]. right. exists (need_of n). split; [lia|].
      unfold may_charge. destruct noacct, (cap_allows a _); done. }
    right. rewrite u32_id by (unfold is_u32; lia).
    pose proof (bump_inv a bs fl (need_of n) noacct Hinv ltac:(lia) Hnd ltac:(lia)) as Hinv'.
    cbv zeta in Hinv'. eexists (a_bump a), (need_of n), _, _, _. split; [done|].
    split; [exact Hinv'|]. split_and!; [by apply bump_frame| |lia|].
    + unfold may_charge. destruct noacct, (cap_allows a _); done.
    + rewrite used_app. unfold used at 2. rewrite filter_cons; simpl. rewrite Permutation_app_comm. done.
  - change ([] ++ f1) with f1.
    destruct (inv_fl_block _ _ _ c h Hinv) as (Hin & Hfree & _); [set_solver|done|].
    apply list_elem_of_split in Hin as (l1 & l2 & ->).
    pose proof (inv_tiles_at _ _ _ _ _ _ Hinv) as (_ & _ & _ & ? & ? & ? & ? & Hd16); simpl in *.
    assert (need_of n <= consumed_of h (need_of n) <= need_of n + 16) as Hcons.
    { by apply consumed_bounds. }
    destruct (noacct || cap_allows a (consumed_of h (need_of n))) eqn:Ecap.
    + right. destruct (take_block_spec a l1 c h l2 f1 f2 (need_of n) noacct Hinv Hc ltac:(lia) Hnd Ecap)
        as (a' & fl' & -> & Hinv' & Hdata). simpl.
      eexists c, _, a', _, fl'. split; [done|]. split; [exact Hinv'|].
      split_and!; [done|exact Ecap|lia|].
      rewrite !used_app, !used_cons; simpl. rewrite Hfree, decide_False by lia.
      assert (used (rest_of c h (need_of n)) = []) as ->.
      { unfold used, rest_of. by destruct (splits h (need_of n)). }
      simpl. by rewrite Permutation_middle.
    + left. destruct noacct; [done|]. simpl in Ecap.
      rewrite take_block_refused by (done || lia). simpl. split; [done|].
      right. exists (consumed_of h (need_of n)). split; [lia|]. unfold may_charge. simpl. by rewrite Ecap.
Qed.

(** ** free *)

Definition uncharge (h : blk_hdr_t) (a : blyt_arena_t) : blyt_arena_t :=
  if negb (h_pad h =? BLK_NOACCT) then acct_sub a (h_size h) else a.

Lemma uncharge_frame h a :
  a_base (uncharge h a) = a_base a /\ a_size (uncharge h a) = a_size a
  /\ a_bump (uncharge h a) = a_bump a /\ a_ready (uncharge h a) = a_ready a
  /\ a_hdrs (uncharge h a) = a_hdrs a /\ a_free_head (uncharge h a) = a_free_head a
  /\ a_data (uncharge h a) = a_data a.
Proof. unfold uncharge. case_match; [apply acct_sub_frame|done]. Qed.

Lemma uncharge_fixed h a : acct_fixed (uncharge h a) = acct_fixed a.
Proof. unfold uncharge. case_match; [apply acct_sub_fixed|done]. Qed.

Lemma uncharge_charged h a s :
  h_free h = 0 -> charged a (weight h + s) -> 0 <= s < 2 ^ 32 -> charged (uncharge h a) s.
Proof.
  unfold uncharge, weight. intros -> Hc Hs. destruct (h_pad h =? BLK_NOACCT); simpl in *; [done|].
  replace s with (h_size h + s - h_size h) by lia. apply acct_sub_charged; [done|lia].
Qed.

(** Marking a used block free and pushing it on the list. *)
Lemma free_push_inv a l1 c h l2 fl :
  arena_inv a (l1 ++ (c, h) :: l2) fl -> h_free h = 0 ->
  arena_inv (with_free_head c (with_hdr c (MkHdr (h_size h) 1 (a_free_head a) (h_pad h)) (uncharge h a)))
    (l1 ++ [(c, MkHdr (h_size h) 1 0 (h_pad h))] ++ l2) (c :: fl).
Proof.
  intros Hinv Hf. destruct (inv_tiles_at _ _ _ _ _ _ Hinv) as (T1 & Tc & T2 & ? & ? & ? & ? & ?).
  destruct (uncharge_frame h a) as (G1 & G2 & G3 & G4 & G5 & G6 & G7).
  assert (forall k, (c, k) ∈ l1 ++ (c, h) :: l2 -> k = h) as Huniq.
  { intros k Hk. pose proof (inv_hdrs _ _ _ Hinv _ _ Hk).
    pose proof (inv_hdrs _ _ _ Hinv c h ltac:(set_solver)). congruence. }
  assert (c ∉ fl) as Hc.
  { intros (k & Hk & Hk1)%(inv_free _ _ _ Hinv). rewrite (Huniq k Hk) in Hk1. lia. }
  eapply (inv_replace a fl _ _ l1 [(c, h)] l2 _ c (c + h_size h)); try done; simpl;
    rewrite ?G1, ?G2, ?G3, ?G4, ?G5; try done.
  - intros o k [= -> ->]%list_elem_of_singleton. by rewrite lookup_insert_eq.
  - intros o Ho. rewrite lookup_insert_ne by lia. done.
  - split; [done|]. eexists. rewrite lookup_insert_eq. split; [done|]. simpl.
    apply chain_frame; [apply (inv_chain _ _ _ Hinv)|done].
  - apply NoDup_cons. split; [done|apply (inv_nodup _ _ _ Hinv)].
  - intros o. rewrite elem_of_cons. split.
    + intros [->|Ho]; [left; eexists; by rewrite list_elem_of_singleton|].
      right. split; [done|]. intros k [= -> _]%list_elem_of_singleton. done.
    + intros [(k & [= -> _]%list_elem_of_singleton & _)|[Ho _]]; auto.
  - intros o k [= -> ->]%list_elem_of_singleton. by right.
  - replace (acct_sum l1 + (weight _ + 0) + acct_sum l2) with (acct_sum l1 + acct_sum l2)
      by (unfold weight; simpl; lia).
    apply uncharge_charged; [done| |].
    + intros d Hd. destruct (inv_acct _ _ _ Hinv d Hd) as [? ->].
      rewrite acct_sum_app; simpl. split; [done|lia].
    + pose proof (acct_sum_bound _ _ _ T1). pose proof (acct_sum_bound _ _ _ T2). lia.
Qed.

Lemma free_core_spec a l1 c h l2 fl :
  arena_inv a (l1 ++ (c, h) :: l2) fl -> h_free h = 0 ->
  exists a' bs' fl', blyt_arena_free a (Some (c + 16)) = Some a'
    /\ arena_inv a' bs' fl' /\ used bs' = used (l1 ++ l2) /\ frame a a'.
Proof.
  intros Hinv Hf. pose proof (free_push_inv _ _ _ _ _ _ Hinv Hf) as Hinv1.
  destruct (coalesce_spec _ _ _ _ _ _ Hinv1)
    as (a' & bs' & fl' & Hrun & Hinv' & Hu & (_ & Hsz & _ & _ & Hac & Hdata)).
  exists a', bs', fl'. split_and!; [|done| |].
  - pose proof (inv_hdrs _ _ _ Hinv c h ltac:(set_solver)) as Hn.
    destruct (a_hdrs a !! c) as [k|] eqn:Hk; simpl in Hn; [injection Hn as <-|done].
    unfold blyt_arena_free, hdr_at, HDR_SIZE. replace (c + 16 - 16) with c by lia.
    rewrite Hk. simpl in *. rewrite Hf. simpl. rewrite <-Hrun. f_equal.
    unfold uncharge. simpl. destruct (h_pad k =? BLK_NOACCT); simpl; [done|].
    by destruct (acct_sub_frame a (h_size k)) as (_ & _ & _ & _ & _ & -> & _).
  - rewrite Hu, !used_app, used_cons. done.
  - destruct (uncharge_frame h a) as (_ & G2 & _ & _ & _ & _ & G7).
    unfold frame. rewrite Hdata, Hsz; simpl. rewrite G2, G7. split_and!; [done..|].
    unfold acct_fixed at 1. rewrite Hac. apply (uncharge_fixed h a).
Qed.

(** [free] of a block that is already free changes nothing. *)
Lemma free_twice a bs fl c h :
  arena_inv a bs fl -> (c, h) ∈ bs -> h_free h = 1 -> blyt_arena_free a (Some (c + 16)) = Some a.
Proof.
  intros Hinv Hin Hf. pose proof (inv_hdrs _ _ _ Hinv c h Hin) as Hn.
  destruct (a_hdrs a !! c) as [k|] eqn:Hk; simpl in Hn; [injection Hn as <-|done].
  unfold blyt_arena_free, hdr_at, HDR_SIZE. replace (c + 16 - 16) with c by lia.
  rewrite Hk. simpl in *. by rewrite Hf.
Qed.

(** ** The abstract effect of each operation *)

Lemma live_same bs bs' : used bs = used bs' -> live bs = live bs'.
Proof. unfold live. by intros ->. Qed.

Lemma rep_malloc a L n noacct :
  arena_rep a L -> 0 <= n <= 2 ^ 32 - 32 ->
  (arena_malloc_core a n noacct = Some (None, a)
   /\ (a_size a < a_bump a + need_of n
       \/ exists sz, need_of n <= sz <= need_of n + 16 /\ ~ may_charge noacct a sz))
  \/ exists p c a',
     arena_malloc_core a n noacct = Some (Some p, a')
     /\ L !! p = None /\ arena_rep a' (<[p := (c, negb noacct)]> L)
     /\ n <= c /\ may_charge noacct a (c + 16) /\ frame a a'.
Proof.
  intros (bs & fl & Hinv & ->) Hn. pose proof (need_exact n Hn) as (_ & Hnr & Hnb & _).
  destruct (malloc_core_spec a bs fl n noacct Hinv Hn)
    as [?|(p & sz & a' & bs' & fl' & Hrun & Hinv' & Hd & Hmay & Hsz & Hperm)]; [by left|right].
  exists (p + 16), (sz - 16), a'. split; [done|].
  pose proof (inv_tiles _ _ _ Hinv') as Ht'. split_and!; [| |lia|by replace (sz - 16 + 16) with sz by lia|done].
  - pose proof (live_nodup _ _ _ Ht') as Hnd. rewrite Hperm in Hnd. simpl in Hnd.
    apply NoDup_cons in Hnd as [Hni _]. by apply not_elem_of_list_to_map_1.
  - exists bs', fl'. split; [done|]. rewrite (live_add_used _ _ _ _ _ _ Ht' Hperm). simpl.
    by destruct noacct.
Qed.

Lemma rep_free a L p c b :
  arena_rep a L -> L !! p = Some (c, b) ->
  exists a', blyt_arena_free a (Some p) = Some a' /\ arena_rep a' (delete p L) /\ frame a a'.
Proof.
  intros (bs & fl & Hinv & ->) Hp. pose proof (inv_tiles _ _ _ Hinv) as Ht.
  apply (live_lookup _ _ _ _ _ Ht) in Hp as (h & Hin & Hf & _).
  apply list_elem_of_split in Hin as (l1 & l2 & ->).
  destruct (free_core_spec _ _ _ _ _ _ Hinv Hf) as (a' & bs' & fl' & Hrun & Hinv' & Hu & Hd).
  replace (p - 16 + 16) with p in Hrun by lia.
  exists a'. split_and!; [done| |done]. exists bs', fl'. split; [done|].
  assert (used (l1 ++ (p - 16, h) :: l2) ≡ₚ (p - 16, h) :: used bs') as Hperm.
  { rewrite Hu, !used_app, used_cons. simpl. rewrite decide_True by done. by rewrite Permutation_middle. }
  rewrite (live_add_used _ _ _ _ _ _ Ht Hperm). replace (p - 16 + 16) with p by lia.
  rewrite delete_insert_id; [done|].
  pose proof (live_nodup _ _ _ Ht) as Hnd. rewrite Hperm in Hnd. simpl in Hnd.
  apply NoDup_cons in Hnd as [Hni _]. apply not_elem_of_list_to_map_1.
  by replace (p - 16 + 16) with p in Hni by lia.
Qed.

(** ** The bytes *)

Lemma lookup_copied dst src n d x :
  0 <= n ->
  copied dst src n d !! x = if bool_decide (dst <= x < dst + n) then d !! (src + (x - dst)) else d !! x.
Proof.
  intros Hn. unfold copied.
  enough (forall l, foldr (fun i acc => copy_byte d (src + i) (dst + i) acc) d l !! x
    = if bool_decide (x - dst ∈ l) then d !! (src + (x - dst)) else d !! x) as ->.
  { apply bool_decide_ext_case. rewrite elem_of_seqZ. lia. }
  induction l as [|i l IH]; simpl; [done|]. unfold copy_byte.
  destruct (decide (x = dst + i)) as [->|Hne].
  - rewrite bool_decide_true by (apply elem_of_cons; left; lia).
    replace (dst + i - dst) with i by lia.
    destruct (d !! (src + i)) eqn:E; [by rewrite lookup_insert_eq|by rewrite lookup_delete_eq].
  - transitivity (foldr (fun i acc => copy_byte d (src + i) (dst + i) acc) d l !! x).
    + destruct (d !! (src + i)); [by rewrite lookup_insert_ne|by rewrite lookup_delete_ne].
    + rewrite IH. apply bool_decide_ext_case. rewrite elem_of_cons. intuition lia.
Qed.

Lemma lookup_zeroed dst n d x :
  0 <= n -> zeroed dst n d !! x = if bool_decide (dst <= x < dst + n) then Some 0 else d !! x.
Proof.
  intros Hn. unfold zeroed.
  enough (forall l, foldr (fun i acc => <[dst + i := 0]> acc) d l !! x
    = if bool_decide (x - dst ∈ l) then Some 0 else d !! x) as ->.
  { apply bool_decide_ext_case. rewrite elem_of_seqZ. lia. }
  induction l as [|i l IH]; simpl; [done|].
  destruct (decide (x = dst + i)) as [->|Hne].
  - rewrite bool_decide_true by (apply elem_of_cons; left; lia). by rewrite lookup_insert_eq.
  - rewrite lookup_insert_ne by done. rewrite IH. apply bool_decide_ext_case.
    rewrite elem_of_cons. intuition lia.
Qed.
