(* ===== verification/ArenaSafety.v ===== *)
(** * ArenaSafety: the cart heap under any sequence of client calls

    The client view of [Arena]: a command per entry point of [blyt_arena.h], the
    abstract effect of each ([track]), and reachability of an arena together with
    the heap its client believes in.  The theorems say that an arena driven only
    through legal calls is always in a represented state, that no legal call reads
    an undefined header or loops, and what each call does to the bytes. *)

From S2P Require Import Prelude MemBudget Arena ArenaSpec.
From Stdlib Require Import ZArith Lia Znumtheory.
From stdpp Require Import base tactics list gmap.
Open Scope Z_scope.

(** ** Commands *)

Inductive heap_cmd :=
| HMalloc (n : Z) (noacct : bool)
| HFree (p : option Z)
| HRealloc (p : option Z) (n : Z) (noacct : bool)
| HCalloc (nmemb sz : Z)
| HReset.

Definition run_cmd (size_max : Z) (a : blyt_arena_t) (c : heap_cmd)
    : option (option Z * blyt_arena_t) :=
  match c with
  | HMalloc n noacct => arena_malloc_core a n noacct
  | HFree p => a' ← blyt_arena_free a p; Some (None, a')
  | HRealloc p n noacct => arena_realloc_core a p n noacct
  | HCalloc m s => blyt_arena_calloc size_max a m s
  | HReset => Some (None, blyt_arena_reset a)
  end.

(** A request whose block size is representable. *)
Definition req_ok (n : Z) : Prop := 0 <= n <= 2 ^ 32 - 32.

Definition live_or_null (L : gmap Z alloc) (p : option Z) : Prop :=
  match p with None => True | Some p => is_Some (L !! p) end.

Definition legal (L : gmap Z alloc) (c : heap_cmd) : Prop :=
  match c with
  | HMalloc n _ => req_ok n
  | HFree p => live_or_null L p
  | HRealloc p n _ => live_or_null L p /\ req_ok n
  | HCalloc m s => 0 <= m /\ 0 <= s /\ req_ok (m * s)
  | HReset => True
  end.

(** Capacity of the block handed out at [p], as its header records it. *)
Definition cap_at (a : blyt_arena_t) (p : Z) : Z :=
  match a_hdrs a !! (p - 16) with Some h => h_size h - 16 | None => 0 end.

Definition drop_block (L : gmap Z alloc) (p : option Z) : gmap Z alloc :=
  match p with None => L | Some p => delete p L end.
Definition add_block (L : gmap Z alloc) (r : option Z) (noacct : bool) (a' : blyt_arena_t)
    : gmap Z alloc :=
  match r with None => L | Some q => <[q := (cap_at a' q, negb noacct)]> L end.

(** The heap after command [c] returned [r] and left [a']. *)
Definition track (L : gmap Z alloc) (c : heap_cmd) (r : option Z) (a' : blyt_arena_t)
    : gmap Z alloc :=
  match c with
  | HMalloc _ noacct => add_block L r noacct a'
  | HFree p => drop_block L p
  | HRealloc p n noacct =>
      if (n =? 0) && bool_decide (p <> None) then drop_block L p
      else match r with
           | None => L
           | Some _ => if decide (p = r) then L else add_block (drop_block L p) r noacct a'
           end
  | HCalloc _ _ => add_block L r false a'
  | HReset => ∅
  end.

(** An arena that represents [L], or one still to be initialised by its next use. *)
Definition arena_ok (a : blyt_arena_t) (L : gmap Z alloc) : Prop :=
  arena_rep a L \/ (a_ready a = false /\ L = ∅ /\ arena_rep (ensure_ready a) ∅).

Inductive reach (size_max : Z) (a0 : blyt_arena_t) : blyt_arena_t -> gmap Z alloc -> Prop :=
| reach_init : reach size_max a0 a0 ∅
| reach_step a L c r a' :
    reach size_max a0 a L -> legal L c -> run_cmd size_max a c = Some (r, a') ->
    reach size_max a0 a' (track L c r a').

Definition within_budget (a : blyt_arena_t) : Prop :=
  forall c, a_acct a = Some c ->
    blyt_mem_cart_heap c + non_evictable_footprint c <= BLYT_MEM_BUDGET_BYTES.

(** ** Lemmas *)

Lemma rep_ready a L : arena_rep a L -> ensure_ready a = a.
Proof. intros (bs & fl & Hinv & _). unfold ensure_ready. by rewrite (inv_ready _ _ _ Hinv). Qed.

Lemma malloc_ensure a n noacct :
  a_base a = true -> 0 < a_size a ->
  arena_malloc_core (ensure_ready a) n noacct = arena_malloc_core a n noacct.
Proof.
  intros Hb Hs. unfold arena_malloc_core.
  assert (ensure_ready (ensure_ready a) = ensure_ready a) as ->.
  { unfold ensure_ready. destruct (a_ready a) eqn:E; [by rewrite E|done]. }
  assert (a_base (ensure_ready a) = a_base a /\ a_size (ensure_ready a) = a_size a) as [-> ->].
  { unfold ensure_ready. by destruct (a_ready a). }
  rewrite Hb, (proj2 (Z.eqb_neq _ _)) by lia. done.
Qed.

Lemma ok_malloc a L n noacct :
  arena_ok a L -> arena_malloc_core a n noacct = arena_malloc_core (ensure_ready a) n noacct
    /\ arena_rep (ensure_ready a) L.
Proof.
  intros [H|(Hr & -> & H)].
  - rewrite (rep_ready _ _ H). done.
  - split; [|done]. destruct H as (bs & fl & Hinv & _).
    pose proof (inv_base _ _ _ Hinv). pose proof (inv_size _ _ _ Hinv).
    rewrite malloc_ensure; [done|..]; unfold ensure_ready in *; rewrite Hr in *; simpl in *; [done|lia].
Qed.

Lemma ok_live a L p v : arena_ok a L -> L !! p = Some v -> arena_rep a L.
Proof. by intros [?|(_ & -> & _)]. Qed.

Lemma rep_hdr a L p c b :
  arena_rep a L -> L !! p = Some (c, b) ->
  exists h, hdr_at a (p - 16) = Some h /\ h_size h = c + 16 /\ h_free h = 0.
Proof.
  intros (bs & fl & Hinv & ->) Hp.
  apply (live_lookup _ _ _ _ _ (inv_tiles _ _ _ Hinv)) in Hp as (h & Hin & Hf & [= -> ->]).
  pose proof (inv_hdrs _ _ _ Hinv _ _ Hin) as Hn. unfold hdr_at.
  destruct (a_hdrs a !! (p - 16)) as [k|]; simpl in Hn; [injection Hn as <-|done].
  exists k. simpl in *. split_and!; [done|lia|done].
Qed.

Lemma rep_cap a L p c b : arena_rep a L -> L !! p = Some (c, b) -> cap_at a p = c.
Proof.
  intros Hr Hp. destruct (rep_hdr _ _ _ _ _ Hr Hp) as (h & Hh & Hs & _).
  unfold hdr_at in Hh. unfold cap_at. rewrite Hh. lia.
Qed.

Lemma rep_in_block a L p c b n : arena_rep a L -> L !! p = Some (c, b) -> 0 <= n <= c -> in_block a p n = true.
Proof. intros Hr Hp Hn. destruct (rep_hdr _ _ _ _ _ Hr Hp) as (h & Hh & Hs & Hf). unfold in_block, HDR_SIZE. rewrite Hh, Hf. lia. Qed.

(** Replacing the user bytes keeps the representation. *)
Lemma rep_data a L d : arena_rep a L -> arena_rep (with_data d a) L.
Proof.
  intros (bs & fl & Hinv & ->). exists bs, fl. split; [|done]. by destruct Hinv; split.
Qed.

Lemma frame_trans a b c : frame a b -> frame b c -> frame a c.
Proof. unfold frame. intuition congruence. Qed.

Lemma ensure_frame a : frame a (ensure_ready a).
Proof. unfold frame, ensure_ready, acct_fixed. by destruct (a_ready a). Qed.

(** One allocation, on any usable arena. *)
Lemma ok_alloc a L n noacct :
  arena_ok a L -> req_ok n ->
  exists r a', arena_malloc_core a n noacct = Some (r, a') /\ frame a a'
    /\ arena_rep a' (add_block L r noacct a')
    /\ match r with
       | None => a' = ensure_ready a
       | Some q => L !! q = None /\ n <= cap_at a' q /\ 16 <= cap_at a' q
                   /\ may_charge noacct (ensure_ready a) (cap_at a' q + 16)
       end.
Proof.
  intros Hok Hn. destruct (ok_malloc a L n noacct Hok) as [-> Hrep].
  destruct (rep_malloc _ _ n noacct Hrep Hn) as [[-> _]|(p & c & a' & -> & Hp & Hr' & Hc & Hm & Hf)].
  - exists None, (ensure_ready a). split_and!; [done|apply ensure_frame|done|done].
  - pose proof (rep_cap _ _ p c _ Hr' ltac:(apply lookup_insert_eq)) as Hcap.
    destruct (rep_heap_ok _ _ Hr' p c (negb noacct)) as (_ & _ & ? & _); [apply lookup_insert_eq|].
    exists (Some p), a'. simpl. rewrite Hcap.
    split_and!; [done|eapply frame_trans, Hf; apply ensure_frame|done..].
Qed.

(** A block of a represented heap does not meet the bytes of another one. *)
Lemma rep_disjoint a L p c b q c' b' i :
  arena_rep a L -> L !! p = Some (c, b) -> L !! q = Some (c', b') -> p <> q ->
  0 <= i < c -> ~ (q <= p + i < q + c').
Proof.
  intros Hr%rep_heap_ok Hp Hq Hne Hi. destruct (Hr p c b Hp) as (_ & _ & _ & _ & Hd).
  destruct (Hd q c' b' Hq Hne); lia.
Qed.

(** Growing a live block. *)
Lemma ok_grow a L p c b n noacct :
  arena_rep a L -> L !! p = Some (c, b) -> req_ok n -> c < n ->
  (arena_realloc_core a (Some p) n noacct = Some (None, a))
  \/ exists q a', arena_realloc_core a (Some p) n noacct = Some (Some q, a')
     /\ L !! q = None /\ n <= cap_at a' q
     /\ arena_rep a' (add_block (delete p L) (Some q) noacct a')
     /\ a_size a' = a_size a /\ acct_fixed a' = acct_fixed a
     /\ may_charge noacct a (cap_at a' q + 16)
     /\ (forall i, 0 <= i < c -> a_data a' !! (q + i) = a_data a !! (p + i))
     /\ (forall p' c' b' i, L !! p' = Some (c', b') -> 0 <= i < c' ->
           a_data a' !! (p' + i) = a_data a !! (p' + i)).
Proof.
  intros Hr Hp Hn Hlt. destruct (rep_hdr _ _ _ _ _ Hr Hp) as (h & Hh & Hs & _).
  pose proof (rep_heap_ok _ _ Hr p c b Hp) as (? & _ & ? & ? & _).
  assert (a_size a < 2 ^ 32) as Hsz by (destruct Hr as (? & ? & [] & _); lia).
  destruct (ok_alloc a L n noacct (or_introl Hr) Hn) as (r & a1 & Hrun & Hf & Hr1 & Hres).
  rewrite (rep_ready _ _ Hr) in Hres.
  unfold arena_realloc_core. rewrite (proj2 (Z.eqb_neq n 0)) by lia.
  unfold HDR_SIZE. rewrite Hh. cbn [mbind option_bind].
  rewrite u32_id by (unfold is_u32; lia). rewrite Hs.
  rewrite (proj2 (Z.leb_gt _ _)) by lia. rewrite Hrun. cbn [mbind option_bind].
  destruct r as [q|]; [right|left; by subst].
  destruct Hres as (Hq & Hnc & _ & Hm). simpl in Hr1. destruct Hf as (Hf1 & Hf2 & Hf3).
  assert (p <> q) as Hpq by (intros Heq; rewrite Heq, Hq in Hp; discriminate).
  replace (c + 16 - 16) with c by lia.
  set (a2 := with_data (copied q p c (a_data a1)) a1).
  pose proof (rep_data _ _ (copied q p c (a_data a1)) Hr1 : arena_rep a2 _) as Hr2.
  assert (<[q := (cap_at a1 q, negb noacct)]> L !! q = Some (cap_at a1 q, negb noacct)) as Hq1 by apply lookup_insert_eq.
  assert (<[q := (cap_at a1 q, negb noacct)]> L !! p = Some (c, b)) as Hp1 by by rewrite lookup_insert_ne.
  assert (copy_bytes q p c a1 = Some a2) as ->.
  { unfold copy_bytes. rewrite (rep_in_block a1 _ q _ _ c Hr1 Hq1), (rep_in_block a1 _ p _ _ c Hr1 Hp1) by lia.
    destruct (rep_heap_ok _ _ Hr1 p c b Hp1) as (_ & _ & _ & _ & Hd). destruct (Hd q _ _ Hq1 Hpq); by case_match; [|lia]. }
  cbn [mbind option_bind].
  destruct (rep_free a2 _ p c b Hr2) as (a3 & Hrun3 & Hr3 & (F1 & F2 & F3)).
  { by rewrite lookup_insert_ne. }
  rewrite Hrun3. cbn [mbind option_bind]. rewrite delete_insert_ne in Hr3 by done.
  pose proof (rep_cap _ _ q (cap_at a1 q) (negb noacct) Hr3 ltac:(apply lookup_insert_eq)) as Hcap.
  exists q, a3. simpl add_block. rewrite Hcap.
  split_and!; [done|done|done|done|by rewrite F2|by rewrite F3|done|..].
  - intros i Hi. rewrite F1. simpl. rewrite lookup_copied by lia.
    rewrite bool_decide_true by lia. rewrite Hf1. f_equal; lia.
  - intros p' c' b' i Hp' Hi. rewrite F1. simpl. rewrite lookup_copied by lia.
    rewrite bool_decide_false, Hf1; [done|].
    assert (q <> p') as Hne by (intros Heq; rewrite <-Heq, Hq in *; discriminate).
    enough (~ (q <= p' + i < q + cap_at a1 q)) by lia.
    eapply (rep_disjoint a1); [exact Hr1| | |by apply not_eq_sym|done];
      [by rewrite lookup_insert_ne|apply lookup_insert_eq].
Qed.

Lemma ok_calloc sm a L m s :
  arena_ok a L -> 0 <= m -> 0 <= s -> req_ok (m * s) ->
  (blyt_arena_calloc sm a m s = Some (None, a) \/ blyt_arena_calloc sm a m s = Some (None, ensure_ready a))
  \/ exists q a', blyt_arena_calloc sm a m s = Some (Some q, a')
     /\ L !! q = None /\ m * s <= cap_at a' q
     /\ arena_rep a' (add_block L (Some q) false a')
     /\ a_size a' = a_size a /\ acct_fixed a' = acct_fixed a
     /\ may_charge false (ensure_ready a) (cap_at a' q + 16)
     /\ (forall i, 0 <= i < m * s -> a_data a' !! (q + i) = Some 0)
     /\ (forall p' c' b' i, L !! p' = Some (c', b') -> 0 <= i < c' ->
           a_data a' !! (p' + i) = a_data a !! (p' + i)).
Proof.
  intros Hok Hm Hs Hn. unfold blyt_arena_calloc, blyt_arena_malloc.
  destruct (_ && _); [by left; left|].
  destruct (ok_alloc a L (m * s) false Hok Hn) as (r & a1 & -> & (Hf1 & Hf2 & Hf3) & Hr1 & Hres).
  cbn [mbind option_bind]. destruct r as [q|]; [right|left; right; by subst].
  destruct Hres as (Hq & Hnc & _ & Hmay). simpl in Hr1. unfold req_ok in Hn.
  unfold zero_bytes. rewrite (rep_in_block a1 _ q _ _ (m * s) Hr1 (lookup_insert_eq _ _ _)) by lia. cbn [mbind option_bind].
  set (a2 := with_data _ a1). exists q, a2.
  split_and!; [done|done|done|by apply rep_data|done|done|done|..].
  - intros i Hi. simpl. rewrite lookup_zeroed by lia. by rewrite bool_decide_true by lia.
  - intros p' c' b' i Hp' Hi. simpl. rewrite lookup_zeroed by lia.
    rewrite bool_decide_false, Hf1; [done|].
    assert (q <> p') as Hne by (intros Heq; rewrite <-Heq, Hq in *; discriminate).
    enough (~ (q <= p' + i < q + cap_at a1 q)) by lia.
    eapply (rep_disjoint a1); [exact Hr1| | |by apply not_eq_sym|done];
      [by rewrite lookup_insert_ne|apply lookup_insert_eq].
Qed.

(** ** Budget *)

Lemma within_iff a L :
  arena_rep a L ->
  within_budget a <-> forall ne base, acct_fixed a = Some (ne, base) ->
    Z.max 0 (charge_total L - base) + ne <= 16777216.
Proof.
  intros Hr. unfold within_budget, acct_fixed. destruct (a_acct a) as [c|] eqn:E; simpl; [|naive_solver].
  destruct (rep_charged _ _ _ Hr E) as [Hc Hu]. split.
  - intros H ne base [= <- <-]. specialize (H c eq_refl).
    rewrite cart_heap_val, budget_val, Hu in H by done. lia.
  - intros H c' [= <-]. rewrite cart_heap_val, budget_val, Hu by done. by apply H.
Qed.

Lemma may_charge_room a L sz ne base :
  arena_rep a L -> may_charge false a sz -> 0 <= sz < 2 ^ 32 -> acct_fixed a = Some (ne, base) ->
  Z.max 0 (charge_total L - base) + ne + sz <= 16777216.
Proof.
  unfold may_charge, cap_allows, acct_fixed. simpl. intros Hr Hm Hsz Hf.
  destruct (a_acct a) as [c|] eqn:E; simpl in *; [|done]. injection Hf as <- <-.
  destruct (rep_charged _ _ _ Hr E) as [Hc Hu]. pose proof (cart_heap_range _ Hc).
  destruct Hc as (H1 & H2 & H3 & H4).
  rewrite alloc_fits_spec, cart_heap_val, Hu in Hm by done. lia.
Qed.

Lemma charge_of_nonneg a L p v : arena_rep a L -> L !! p = Some v -> 0 <= charge_of v < 2 ^ 32.
Proof.
  intros Hr Hp. destruct v as [c b]. pose proof (rep_heap_ok _ _ Hr p c b Hp) as (? & _ & ? & ? & _).
  destruct Hr as (? & ? & Hinv & _). pose proof (inv_size _ _ _ Hinv).
  unfold charge_of. simpl. destruct b; lia.
Qed.

Lemma charge_total_delete L p v : L !! p = Some v -> charge_total (delete p L) = charge_total L - charge_of v.
Proof.
  intros Hp. rewrite <-(insert_delete_id L p v Hp) at 2.
  rewrite charge_total_insert by apply lookup_delete_eq. lia.
Qed.

(** Adding a block the budget allows keeps a heap within budget, and dropping one does too. *)
Lemma within_add a L a' L' q noacct :
  arena_rep a L -> arena_rep a' L' -> acct_fixed a' = acct_fixed a -> within_budget a ->
  may_charge noacct a (cap_at a' q + 16) -> L' !! q = Some (cap_at a' q, negb noacct) ->
  charge_total L' <= charge_of (cap_at a' q, negb noacct) + charge_total L -> within_budget a'.
Proof.
  intros Hr Hr' Hf Hw Hm Hq Ht. apply (within_iff _ _ Hr'). intros ne base Hfix.
  rewrite Hf in Hfix. pose proof (proj1 (within_iff _ _ Hr) Hw _ _ Hfix).
  pose proof (charge_of_nonneg _ _ _ _ Hr' Hq) as Hb. unfold charge_of in *. simpl in *.
  destruct noacct; simpl in *; [lia|].
  pose proof (may_charge_room _ _ _ _ _ Hr Hm Hb Hfix). lia.
Qed.

Lemma within_ensure a : within_budget a <-> within_budget (ensure_ready a).
Proof. unfold within_budget, ensure_ready. by destruct (a_ready a). Qed.

(** ** One step *)

Definition step_ok (a : blyt_arena_t) (L : gmap Z alloc) (a' : blyt_arena_t) (L' : gmap Z alloc) : Prop :=
  arena_ok a' L' /\ a_size a' = a_size a /\ acct_fixed a' = acct_fixed a
  /\ (within_budget a -> within_budget a')
  /\ (forall p c b i, L !! p = Some (c, b) -> L' !! p = Some (c, b) -> 0 <= i < c ->
        a_data a' !! (p + i) = a_data a !! (p + i)).

Lemma step_ok_refl a L : arena_ok a L -> step_ok a L a L.
Proof. unfold step_ok. naive_solver. Qed.

Lemma step_ok_ensure a L : arena_ok a L -> step_ok a L (ensure_ready a) L.
Proof.
  intros Hok. destruct (ok_malloc a L 0 true Hok) as [_ Hr]. destruct (ensure_frame a) as (H1 & H2 & H3).
  split_and!; [by left|done|done|by rewrite within_ensure|]. intros. by rewrite H1.
Qed.

Lemma step_malloc a L n noacct :
  arena_ok a L -> req_ok n ->
  exists r a', arena_malloc_core a n noacct = Some (r, a') /\ step_ok a L a' (add_block L r noacct a').
Proof.
  intros Hok Hn. destruct (ok_alloc a L n noacct Hok Hn) as (r & a' & Hrun & Hf & Hr' & Hres).
  exists r, a'. split; [done|]. destruct r as [q|]; [|subst; by apply step_ok_ensure].
  destruct (ok_malloc a L n noacct Hok) as [_ Hr]. destruct Hf as (F1 & F2 & F3). simpl in *.
  destruct Hres as (Hq & Hnc & _ & Hm). split_and!; [by left|done|done| |intros; by rewrite F1].
  intros Hw%within_ensure. eapply (within_add (ensure_ready a) L a'); try done.
  - rewrite F3. symmetry. apply ensure_frame.
  - apply lookup_insert_eq.
  - rewrite charge_total_insert by done. lia.
Qed.

Lemma step_free a L p :
  arena_ok a L -> live_or_null L p ->
  exists a', blyt_arena_free a p = Some a' /\ step_ok a L a' (drop_block L p).
Proof.
  destruct p as [p|]; simpl; [intros Hok [[c b] Hp]|intros; exists a; split; [done|by apply step_ok_refl]].
  pose proof (ok_live _ _ _ _ Hok Hp) as Hr.
  destruct (rep_free _ _ _ _ _ Hr Hp) as (a' & Hrun & Hr' & (F1 & F2 & F3)).
  exists a'. split; [done|]. split_and!; [by left|done|done| |intros; by rewrite F1].
  intros Hw. apply (within_iff _ _ Hr'). intros ne base Hfix. rewrite F3 in Hfix.
  pose proof (proj1 (within_iff _ _ Hr) Hw _ _ Hfix).
  rewrite (charge_total_delete _ _ _ Hp). pose proof (charge_of_nonneg _ _ _ _ Hr Hp). lia.
Qed.

(** What [track] does for a resize. *)
Definition track_resize (L : gmap Z alloc) (p : option Z) (n : Z) (noacct : bool) r a' :=
  track L (HRealloc p n noacct) r a'.

Lemma step_realloc a L p n noacct :
  arena_ok a L -> live_or_null L p -> req_ok n ->
  exists r a', arena_realloc_core a p n noacct = Some (r, a')
    /\ step_ok a L a' (track_resize L p n noacct r a').
Proof.
  unfold track_resize, track. intros Hok Hp Hn. destruct p as [p|].
  2: { destruct (step_malloc a L n noacct Hok Hn) as (r & a' & Hrun & Hs).
       exists r, a'. split; [done|]. rewrite bool_decide_false, andb_false_r by naive_solver.
       by destruct r. }
  rewrite bool_decide_true, andb_true_r by done.
  destruct (n =? 0) eqn:E0.
  - destruct (step_free a L (Some p) Hok Hp) as (a' & Hrun & Hs).
    exists None, a'. unfold arena_realloc_core. rewrite E0, Hrun. done.
  - destruct Hp as [[c b] Hp]. pose proof (ok_live _ _ _ _ Hok Hp) as Hr.
    destruct (decide (n <= c)) as [Hle|Hgt].
    + exists (Some p), a. rewrite decide_True by done. split; [|by apply step_ok_refl].
      destruct (rep_hdr _ _ _ _ _ Hr Hp) as (h & Hh & Hs & _).
      pose proof (rep_heap_ok _ _ Hr p c b Hp) as (? & _ & ? & ? & _).
      assert (a_size a < 2 ^ 32) as Hsz by (destruct Hr as (? & ? & [] & _); lia).
      unfold arena_realloc_core, HDR_SIZE. rewrite E0, Hh. cbn [mbind option_bind].
      rewrite u32_id, Hs by (unfold is_u32; lia). by rewrite (proj2 (Z.leb_le _ _)) by lia.
    + destruct (ok_grow a L p c b n noacct Hr Hp Hn ltac:(lia))
        as [Hrun|(q & a' & Hrun & Hq & Hnc & Hr' & H1 & H2 & Hm & _ & Hkeep)].
      { exists None, a. split; [done|by apply step_ok_refl]. }
      exists (Some q), a'. split; [done|]. rewrite decide_False by (intros [= ->]; congruence).
      split_and!; [by left|done|done| |eauto].
      intros Hw. simpl in *. eapply (within_add a L a' _ q noacct); try done.
      * apply lookup_insert_eq.
      * rewrite charge_total_insert by (by rewrite lookup_delete_None; right).
        rewrite (charge_total_delete _ _ _ Hp). pose proof (charge_of_nonneg _ _ _ _ Hr Hp). lia.
Qed.

Lemma step_calloc sm a L m s :
  arena_ok a L -> 0 <= m -> 0 <= s -> req_ok (m * s) ->
  exists r a', blyt_arena_calloc sm a m s = Some (r, a') /\ step_ok a L a' (add_block L r false a').
Proof.
  intros Hok Hm Hs Hn.
  destruct (ok_calloc sm a L m s Hok Hm Hs Hn)
    as [[Hrun|Hrun]|(q & a' & Hrun & Hq & Hc & Hr' & H1 & H2 & Hmay & _ & Hkeep)].
  - exists None, a. split; [done|by apply step_ok_refl].
  - exists None, (ensure_ready a). split; [done|by apply step_ok_ensure].
  - exists (Some q), a'. split; [done|]. split_and!; [by left|done|done| |eauto].
    destruct (ok_malloc a L 0 true Hok) as [_ Hr]. intros Hw%within_ensure. simpl in *.
    eapply (within_add (ensure_ready a) L a' _ q false); try done.
    + rewrite H2. symmetry. apply ensure_frame.
    + apply lookup_insert_eq.
    + rewrite charge_total_insert by done. apply Z.le_refl.
Qed.

(** An arena as [arena_init] or [blyt_arena_reset] leaves it. *)
Lemma fresh_ok a :
  a_base a = true -> 0 < a_size a < 2 ^ 32 -> a_ready a = false ->
  (forall c, a_acct a = Some c -> acct_ok c /\ guest_heap_used c = 0) -> arena_ok a ∅.
Proof.
  intros Hb Hs Hr Hc. right. split_and!; [done|done|]. exists [], []. split; [by apply ensure_ready_inv|done].
Qed.

Lemma step_reset a L : arena_ok a L -> step_ok a L (blyt_arena_reset a) ∅.
Proof.
  intros Hok. destruct (ok_malloc a L 0 true Hok) as [_ Hr].
  destruct (ensure_frame a) as (_ & Hs & _).
  assert (a_base (ensure_ready a) = a_base a /\ a_acct (ensure_ready a) = a_acct a) as [Hb Ha].
  { unfold ensure_ready. by destruct (a_ready a). }
  pose proof (fun c => rep_charged _ _ c Hr) as Hc. rewrite Ha in Hc.
  destruct Hr as (bs & fl & [] & _). rewrite Hs in *.
  split_and!; [|done| | |done].
  - apply fresh_ok; simpl; [congruence|done|done|].
    intros c (d & Hd & ->)%fmap_Some. destruct (Hc d Hd) as [(? & ? & ? & ?) _]. done.
  - unfold acct_fixed, blyt_arena_reset. simpl. by destruct (a_acct a).
  - unfold within_budget. simpl. intros Hw c (d & Hd & ->)%fmap_Some. specialize (Hw d Hd).
    destruct (Hc d Hd) as [Hok' _]. revert Hw. unfold blyt_mem_cart_heap. simpl.
    destruct Hok' as (? & ? & ? & ?). unfold is_u32 in *.
    repeat case_match; pose proof (u32_range (guest_heap_used d - guest_heap_baseline d)); unfold is_u32 in *; lia.
Qed.

Lemma run_cmd_ok sm a L c :
  arena_ok a L -> legal L c ->
  exists r a', run_cmd sm a c = Some (r, a') /\ step_ok a L a' (track L c r a').
Proof.
  intros Hok Hl. destruct c as [n noacct|p|p n noacct|m s|]; simpl in *.
  - by apply step_malloc.
  - destruct (step_free a L p Hok Hl) as (a' & -> & Hs). by exists None, a'.
  - destruct Hl. by apply step_realloc.
  - destruct Hl as (? & ? & ?). by apply step_calloc.
  - eexists _, _. split; [done|]. by apply step_reset.
Qed.

Lemma reach_ok sm a0 a L :
  arena_ok a0 ∅ -> reach sm a0 a L ->
  arena_ok a L /\ a_size a = a_size a0 /\ acct_fixed a = acct_fixed a0
  /\ (within_budget a0 -> within_budget a).
Proof.
  intros H0. induction 1 as [|a L c r a' _ (Hok & Hs & Hf & Hw) Hl Hrun]; [done|].
  destruct (run_cmd_ok sm a L c Hok Hl) as (r' & a'' & Hrun' & Hok' & Hs' & Hf' & Hw' & _).
  rewrite Hrun in Hrun'. injection Hrun' as <- <-. split_and!; [done|congruence|congruence|auto].
Qed.

(** ** Properties *)

(** C31: Safety of the cart heap.  Start from an arena of any size below 4 GiB, with
    or without an accounting block, and let the client issue any sequence of calls
    in which it frees and resizes only pointers it holds and asks for at most
    2^32 - 32 bytes at a time.  Then at every point the blocks it holds are 16-byte
    aligned, inside the arena and disjoint from each other and from each other's
    headers; the accounting total is exactly the sum of the charged blocks; a heap
    that started within the 16 MiB budget stays within it; and no next legal call
    reads an undefined header, walks the free list forever, or copies or clears a byte outside of the bytes of
    a block in use. *)
Theorem arena_reach_safe sm size acct a L :
  0 < size < 2 ^ 32 ->
  (forall c, acct = Some c -> acct_ok c /\ guest_heap_used c = 0) ->
  reach sm (arena_init size acct) a L ->
  heap_ok size L
  /\ (forall c, a_acct a = Some c -> guest_heap_used c = charge_total L)
  /\ (within_budget (arena_init size acct) -> within_budget a)
  /\ (forall c, legal L c -> run_cmd sm a c <> None).
Proof.
  intros Hs Hacct Hreach. pose proof (fresh_ok (arena_init size acct) eq_refl Hs eq_refl Hacct) as H0.
  destruct (reach_ok _ _ _ _ H0 Hreach) as (Hok & Hsz & Hf & Hw). simpl in Hsz.
  destruct (ok_malloc a L 0 true Hok) as [_ Hr]. destruct (ensure_frame a) as (_ & Hs' & _).
  split_and!; [|intros c Hc|done|].
  - pose proof (rep_heap_ok _ _ Hr) as Hh. by rewrite Hs', Hsz in Hh.
  - apply (rep_charged (ensure_ready a) L c Hr). unfold ensure_ready. by destruct (a_ready a).
  - intros c Hl. destruct (run_cmd_ok sm a L c Hok Hl) as (r & a' & -> & _). done.
Qed.

Definition demo_acct : blyt_mem_accounting_t := MkAcct 0 0 0 0.
Definition demo_run (a : blyt_arena_t) (c : heap_cmd) : blyt_arena_t :=
  match run_cmd (2 ^ 32 - 1) a c with Some (_, a') => a' | None => a end.
Definition demo1 : blyt_arena_t := demo_run (arena_init 4096 (Some demo_acct)) (HMalloc 100 false).
Definition demo2 : blyt_arena_t := demo_run demo1 (HMalloc 40 false).
Definition demo3 : blyt_arena_t := demo_run demo2 (HFree (Some 16)).

Lemma arena_reach_safe_witness :
  exists L, L !! 144 = Some (48, true) /\ heap_ok 4096 L
    /\ (forall c, a_acct demo3 = Some c -> guest_heap_used c = charge_total L).
Proof.
  pose (L1 := track ∅ (HMalloc 100 false) (Some 16) demo1).
  pose (L2 := track L1 (HMalloc 40 false) (Some 144) demo2).
  pose (L3 := track L2 (HFree (Some 16)) None demo3).
  exists L3. split; [vm_compute; reflexivity|].
  destruct (arena_reach_safe (2 ^ 32 - 1) 4096 (Some demo_acct) demo3 L3) as (H1 & H2 & _).
  - lia.
  - intros c [= <-]. unfold acct_ok, is_u32, demo_acct. simpl. lia.
  - apply (reach_step _ _ demo2 L2 (HFree (Some 16))).
    + apply (reach_step _ _ demo1 L1 (HMalloc 40 false)).
      * apply (reach_step _ _ (arena_init 4096 (Some demo_acct)) ∅ (HMalloc 100 false)); [constructor|unfold legal, req_ok; lia|].
        vm_compute; reflexivity.
      * unfold legal, req_ok; lia.
      * vm_compute; reflexivity.
    + exists (112, true). vm_compute; reflexivity.
    + vm_compute; reflexivity.
  - split; [exact H1|exact H2].
Defined.

(** An allocation that should succeed does.  When the untouched tail of the
    arena can hold the rounded request plus its header, and the block is scratch or
    the budget leaves room for it plus one alignment unit, [malloc] returns a fresh
    pointer with at least the requested capacity, whatever the state of the free
    list. *)
Theorem arena_malloc_succeeds a L n noacct :
  arena_ok a L -> req_ok n ->
  a_bump (ensure_ready a) + need_of n <= a_size a ->
  (forall sz, sz <= need_of n + 16 -> may_charge noacct (ensure_ready a) sz) ->
  exists p a', arena_malloc_core a n noacct = Some (Some p, a')
    /\ L !! p = None /\ n <= cap_at a' p
    /\ arena_rep a' (<[p := (cap_at a' p, negb noacct)]> L) /\ a_data a' = a_data a.
Proof.
  intros Hok Hn Hroom Hm. destruct (ok_alloc a L n noacct Hok Hn) as (r & a' & Hrun & (Hd & _) & Hr' & Hres).
  destruct r as [p|]; [exists p, a'; naive_solver|exfalso].
  destruct (ok_malloc a L n noacct Hok) as [Heq Hr]. rewrite Heq in Hrun.
  destruct (ensure_frame a) as (_ & Hs & _).
  destruct (rep_malloc _ _ n noacct Hr Hn) as [[_ [Hfull|(sz & Hsz & Hno)]]|(p & c & a2 & Hrun2 & _)].
  - rewrite Hs in Hfull. lia.
  - apply Hno, Hm. lia.
  - congruence.
Qed.

Lemma arena_malloc_succeeds_witness :
  exists p a', arena_malloc_core (arena_init 4096 None) 100 false = Some (Some p, a')
    /\ 100 <= cap_at a' p.
Proof.
  destruct (arena_malloc_succeeds (arena_init 4096 None) ∅ 100 false) as (p & a' & H & _ & Hc & _).
  - apply fresh_ok; simpl; [reflexivity|lia|reflexivity|discriminate].
  - unfold req_ok; lia.
  - vm_compute. discriminate.
  - intros sz _. reflexivity.
  - exists p, a'. split; [exact H|exact Hc].
Defined.

(** [realloc] never loses data.  Growing a live block either fails and leaves
    the arena exactly as it was, the old block still valid, or returns a new block
    of at least the requested capacity whose first bytes are those of the old one,
    with every other live block's bytes untouched; the old block is gone. *)
Theorem arena_realloc_preserves a L p c b n noacct :
  arena_ok a L -> L !! p = Some (c, b) -> req_ok n -> c < n ->
  arena_realloc_core a (Some p) n noacct = Some (None, a)
  \/ exists q a', arena_realloc_core a (Some p) n noacct = Some (Some q, a')
     /\ L !! q = None /\ n <= cap_at a' q
     /\ arena_rep a' (<[q := (cap_at a' q, negb noacct)]> (delete p L))
     /\ (forall i, 0 <= i < c -> a_data a' !! (q + i) = a_data a !! (p + i))
     /\ (forall p' c' b' i, L !! p' = Some (c', b') -> 0 <= i < c' ->
           a_data a' !! (p' + i) = a_data a !! (p' + i)).
Proof.
  intros Hok Hp Hn Hlt. pose proof (ok_live _ _ _ _ Hok Hp) as Hr.
  destruct (ok_grow a L p c b n noacct Hr Hp Hn Hlt) as [?|(q & a' & ?)]; [by left|right].
  exists q, a'. naive_solver.
Qed.

Definition demo_written : blyt_arena_t := with_data (<[16 := 7]> (<[17 := 9]> ∅)) demo1.

Lemma arena_realloc_preserves_witness :
  exists q a', arena_realloc_core demo_written (Some 16) 200 false = Some (Some q, a')
    /\ a_data a' !! (q + 1) = Some 9.
Proof.
  assert (arena_ok demo1 (track ∅ (HMalloc 100 false) (Some 16) demo1)) as Hok.
  { destruct (run_cmd_ok (2 ^ 32 - 1) (arena_init 4096 (Some demo_acct)) ∅ (HMalloc 100 false))
      as (r & a' & Hrun & Hok & _).
    - apply fresh_ok; simpl; [reflexivity|lia|reflexivity|].
      intros c [= <-]. unfold acct_ok, is_u32, demo_acct. simpl. lia.
    - unfold legal, req_ok; lia.
    - assert (run_cmd (2 ^ 32 - 1) (arena_init 4096 (Some demo_acct)) (HMalloc 100 false)
              = Some (Some 16, demo1)) as E by (vm_compute; reflexivity).
      rewrite E in Hrun. injection Hrun as <- <-. exact Hok. }
  destruct (arena_realloc_preserves demo_written (track ∅ (HMalloc 100 false) (Some 16) demo1)
              16 112 true 200 false) as [H|(q & a' & H & _ & _ & _ & Hcopy & _)].
  - destruct Hok as [Hr|(Hr & _)]; [left; apply rep_data; exact Hr|vm_compute in Hr; discriminate].
  - vm_compute; reflexivity.
  - unfold req_ok; lia.
  - lia.
  - vm_compute in H. discriminate.
  - exists q, a'. split; [exact H|]. rewrite Hcopy by lia. vm_compute; reflexivity.
Defined.

(** [calloc] hands out zeroed memory.  For element counts whose product is a
    representable request, [calloc] either returns [NULL] with the heap unchanged, or
    a fresh block whose [nmemb * sz] bytes are all zero, with every live block's
    bytes untouched. *)
Theorem arena_calloc_zeroed sm a L m s :
  arena_ok a L -> 0 <= m -> 0 <= s -> req_ok (m * s) ->
  exists r a', blyt_arena_calloc sm a m s = Some (r, a')
  /\ match r with
     | None => arena_ok a' L /\ a_data a' = a_data a
     | Some q =>
         L !! q = None /\ m * s <= cap_at a' q
         /\ arena_rep a' (<[q := (cap_at a' q, true)]> L)
         /\ (forall i, 0 <= i < m * s -> a_data a' !! (q + i) = Some 0)
         /\ (forall p' c' b' i, L !! p' = Some (c', b') -> 0 <= i < c' ->
               a_data a' !! (p' + i) = a_data a !! (p' + i))
     end.
Proof.
  intros Hok Hm Hs Hn.
  destruct (ok_calloc sm a L m s Hok Hm Hs Hn) as [[H|H]|(q & a' & H)].
  - exists None, a. done.
  - exists None, (ensure_ready a). split; [done|]. split; [by apply step_ok_ensure|apply ensure_frame].
  - exists (Some q), a'. naive_solver.
Qed.

Lemma arena_calloc_zeroed_witness :
  exists q a', blyt_arena_calloc (2 ^ 32 - 1) (arena_init 4096 None) 3 5 = Some (Some q, a')
    /\ a_data a' !! (q + 14) = Some 0.
Proof.
  destruct (arena_calloc_zeroed (2 ^ 32 - 1) (arena_init 4096 None) ∅ 3 5) as (r & a' & H & Hr).
  - apply fresh_ok; simpl; [reflexivity|lia|reflexivity|discriminate].
  - lia.
  - lia.
  - unfold req_ok; lia.
  - destruct r as [q|].
    + destruct Hr as (_ & _ & _ & Hz & _). exists q, a'. split; [exact H|apply Hz; lia].
    + vm_compute in H. discriminate.
Defined.

(** The request bound of the safety theorem is needed: the block size is
    computed in 32 bits, so [malloc(2^32 - 16)] on an empty 4 KiB arena wraps to a
    block of size 0, "succeeds", and the next request is given the same pointer. *)
Theorem arena_malloc_huge_aliases :
  exists a1 a2,
    blyt_arena_malloc (arena_init 4096 (Some demo_acct)) (2 ^ 32 - 16) = Some (Some 16, a1)
    /\ blyt_arena_malloc a1 10 = Some (Some 16, a2)
    /\ ~ heap_ok 4096 {[ 16 := (2 ^ 32 - 16, true) ]}.
Proof.
  eexists _, _. split; [vm_compute; reflexivity|]. split; [vm_compute; reflexivity|].
  intros H. destruct (H 16 (2 ^ 32 - 16) true) as (_ & _ & _ & Hle & _); [apply lookup_singleton_eq|lia].
Qed.
