(* ===== verification/StateBuffer.v ===== *)
(** * StateBuffer: the typed state buffers of a cart session

    Models [runtime/host/src/libblyt/state_buffer.c] and the structs of
    [state_buffer.h]: structure-of-arrays storage for the buffers a cart declares,
    typed get and set with NaN canonicalisation, slot allocation with generation
    counters, packed entity refs, and the snapshot used by frame reset.

    Fixed C arrays are lists of the declared length; [field_data] entries are the
    heap arrays they point to ([None] is [NULL]).  The outer [option] of every
    operation is undefined behaviour (an access outside an array or through
    [NULL]); the result code is the C return value.  Heap allocation is the
    parameter [calloc_ok]: whether the [k]-th allocation of [n] bytes succeeds.
    The FlatBuffers accessors of [.cart.layouts] are generated code: the decoded
    table is the input of [blyt_state_ctx_init]. *)

From S2P Require Import Prelude Handle FpCanon.
From Stdlib Require Import ZArith Lia.
From stdpp Require Import base tactics list gmap.
Open Scope Z_scope.

Definition BLYT_MAX_BUFFERS : Z := 32.
Definition BLYT_MAX_FIELDS : Z := 256.
Definition BLYT_MAX_SLOTS : Z := 128.

Definition TYPE_I8 : Z := 0.
Definition TYPE_U8 : Z := 1.
Definition TYPE_I16 : Z := 2.
Definition TYPE_U16 : Z := 3.
Definition TYPE_I32 : Z := 4.
Definition TYPE_U32 : Z := 5.
Definition TYPE_F32 : Z := 6.
Definition TYPE_BOOL : Z := 7.
Definition TYPE_F64 : Z := 8.

(** ** State *)

Record blyt_buffer_ctx_t := MkBuf {
  buf_id : Z;
  count : Z;
  n_fields : Z;
  field_types : list Z;
  field_data : list (option (list Z));
  slot_bitset : list Z;
  slot_gens : list Z;
  schema_hash : Z;
  name : option (list Z);
  field_names : list (option (list Z))
}.

Record blyt_state_ctx_t := MkCtx {
  n_buffers : Z;
  buffers : list blyt_buffer_ctx_t
}.

Definition with_data (d : list (option (list Z))) (b : blyt_buffer_ctx_t) : blyt_buffer_ctx_t :=
  MkBuf (buf_id b) (count b) (n_fields b) (field_types b) d (slot_bitset b) (slot_gens b)
    (schema_hash b) (name b) (field_names b).
Definition with_slots (bits gens : list Z) (b : blyt_buffer_ctx_t) : blyt_buffer_ctx_t :=
  MkBuf (buf_id b) (count b) (n_fields b) (field_types b) (field_data b) bits gens
    (schema_hash b) (name b) (field_names b).

(** [memset(ctx, 0, sizeof *ctx)] *)
Definition zero_buffer : blyt_buffer_ctx_t :=
  MkBuf 0 0 0 (replicate 256 0) (replicate 256 None) (replicate 16 0) (replicate 128 0) 0 None
    (replicate 256 None).
Definition zero_ctx : blyt_state_ctx_t := MkCtx 0 (replicate 32 zero_buffer).

(** ** Declarations ([schemas/cart_layouts.fbs]); a vector or string may be absent *)

Record FieldDecl := MkField { fd_name : option (list Z); fd_type_tag : Z }.
Record RecordDecl := MkRecord { rd_name : option (list Z); rd_fields : option (list (option FieldDecl)) }.
Record BufferDecl := MkBufDecl {
  bd_name : option (list Z); bd_record_name : option (list Z); bd_count : Z }.
Record CartLayouts := MkLayouts {
  cl_records : option (list (option RecordDecl));
  cl_buffers : option (list (option BufferDecl));
  cl_schema_hash : Z }.

(** ** Operations *)

Definition field_sizeof (tag : Z) : Z :=
  if (tag =? TYPE_I8) || (tag =? TYPE_U8) || (tag =? TYPE_BOOL) then 1
  else if (tag =? TYPE_I16) || (tag =? TYPE_U16) then 2
  else if tag =? TYPE_F64 then 8
  else 4.

Definition find_buffer (ctx : blyt_state_ctx_t) (id : Z) : option Z :=
  if (id =? 0) || (id >? n_buffers ctx) then None else Some (id - 1).

(** The bit of [slot] in a bitset. *)
Definition bit_of (bits : list Z) (slot : Z) : option bool :=
  byte ← zget bits (slot / 8);
  Some (negb (Z.land (Z.shiftr byte (slot mod 8)) 1 =? 0)).

Definition slot_is_allocated (b : blyt_buffer_ctx_t) (slot : Z) : option bool :=
  if (slot <? 0) || (slot >=? count b) || (slot >=? BLYT_MAX_SLOTS) then Some false
  else bit_of (slot_bitset b) slot.

(** The guards that every accessor starts with: the buffer, its allocated slot and
    its field, or the [-1] return. *)
Definition locate (ctx : blyt_state_ctx_t) (id slot field : Z)
    : option (option (Z * blyt_buffer_ctx_t * Z * Z)) :=
  match find_buffer ctx id with
  | None => Some None
  | Some bi =>
      b ← zget (buffers ctx) bi;
      al ← slot_is_allocated b slot;
      if negb al then Some None
      else if (field =? 0) || (field >? n_fields b) then Some None
      else
        let fi := field - 1 in
        tag ← zget (field_types b) fi;
        Some (Some (bi, b, fi, tag))
  end.

(** The array [field_data[fi]] points to. *)
Definition field_array (b : blyt_buffer_ctx_t) (fi : Z) : option (list Z) :=
  d ← zget (field_data b) fi; d.

Definition blyt_state_get (ctx : blyt_state_ctx_t) (id slot field : Z) : option (Z * option Z) :=
  r ← locate ctx id slot field;
  match r with
  | None => Some (-1, None)
  | Some (bi, b, fi, tag) =>
      if tag =? TYPE_F64 then Some (-1, None)
      else
        let elem := field_sizeof tag in
        d ← field_array b fi;
        bytes ← rd d (slot * elem) elem;
        Some (0, Some (le_val bytes))
  end.

(** [memcpy(field_data[fi] + slot * elem, bytes, elem)] *)
Definition store_field (ctx : blyt_state_ctx_t) (bi fi : Z) (b : blyt_buffer_ctx_t)
    (off : Z) (bytes : list Z) : option blyt_state_ctx_t :=
  d ← field_array b fi;
  _ ← rd d off (len bytes);
  fd ← zset (field_data b) fi (Some (splice d off bytes));
  bs ← zset (buffers ctx) bi (with_data fd b);
  Some (MkCtx (n_buffers ctx) bs).

(** The [type_tag] argument is ignored, as in the code. *)
Definition blyt_state_set (ctx : blyt_state_ctx_t) (id slot field value_bits type_tag : Z)
    : option (Z * blyt_state_ctx_t) :=
  r ← locate ctx id slot field;
  match r with
  | None => Some (-1, ctx)
  | Some (bi, b, fi, tag) =>
      if tag =? TYPE_F64 then Some (-1, ctx)
      else
        let value_bits := if tag =? TYPE_F32 then blyt_canon_f32 value_bits else value_bits in
        let elem := field_sizeof tag in
        ctx' ← store_field ctx bi fi b (slot * elem) (le_bytes (Z.to_nat elem) value_bits);
        Some (0, ctx')
  end.

Definition blyt_state_set64 (ctx : blyt_state_ctx_t) (id slot field value_bits : Z)
    : option (Z * blyt_state_ctx_t) :=
  r ← locate ctx id slot field;
  match r with
  | None => Some (-1, ctx)
  | Some (bi, b, fi, tag) =>
      if negb (tag =? TYPE_F64) then Some (-1, ctx)
      else
        ctx' ← store_field ctx bi fi b (slot * 8) (le_bytes 8 (blyt_canon_f64 value_bits));
        Some (0, ctx')
  end.

Definition blyt_state_get64 (ctx : blyt_state_ctx_t) (id slot field : Z) : option (Z * option Z) :=
  r ← locate ctx id slot field;
  match r with
  | None => Some (-1, None)
  | Some (bi, b, fi, tag) =>
      if negb (tag =? TYPE_F64) then Some (-1, None)
      else
        d ← field_array b fi;
        bytes ← rd d (slot * 8) 8;
        Some (0, Some (le_val bytes))
  end.

(** [for (s = 0; s < count && s < BLYT_MAX_SLOTS; s++)]: at most 128 rounds. *)
Fixpoint alloc_scan (fuel : nat) (b : blyt_buffer_ctx_t) (s : Z) : option (option Z) :=
  match fuel with
  | O => None
  | S fuel =>
      if (s <? count b) && (s <? BLYT_MAX_SLOTS) then
        set ← bit_of (slot_bitset b) s;
        if negb set then Some (Some s) else alloc_scan fuel b (s + 1)
      else Some None
  end.

(** The result is the return code and [*out_slot] ([None] when not written). *)
Definition blyt_state_alloc_slot (ctx : blyt_state_ctx_t) (id : Z)
    : option (Z * option Z * blyt_state_ctx_t) :=
  match find_buffer ctx id with
  | None => Some (-1, None, ctx)
  | Some bi =>
      b ← zget (buffers ctx) bi;
      r ← alloc_scan 129 b 0;
      match r with
      | None => Some (-1, Some (-1), ctx)
      | Some s =>
          byte ← zget (slot_bitset b) (s / 8);
          bits ← zset (slot_bitset b) (s / 8) (u8 (Z.lor byte (u8 (Z.shiftl 1 (s mod 8)))));
          bs ← zset (buffers ctx) bi (with_slots bits (slot_gens b) b);
          Some (0, Some (i32 s), MkCtx (n_buffers ctx) bs)
      end
  end.

Definition blyt_state_free_slot (ctx : blyt_state_ctx_t) (id slot : Z)
    : option (Z * blyt_state_ctx_t) :=
  match find_buffer ctx id with
  | None => Some (-1, ctx)
  | Some bi =>
      b ← zget (buffers ctx) bi;
      if (slot <? 0) || (slot >=? count b) || (slot >=? BLYT_MAX_SLOTS) then Some (-1, ctx)
      else
        al ← slot_is_allocated b slot;
        if negb al then Some (-1, ctx)
        else
          byte ← zget (slot_bitset b) (slot / 8);
          bits ← zset (slot_bitset b) (slot / 8)
                   (Z.land byte (u8 (Z.lnot (Z.shiftl 1 (slot mod 8)))));
          fd ← for_each (n_fields b) (fun fi od =>
                 tag ← zget (field_types b) fi;
                 d ← od;
                 let elem := field_sizeof tag in
                 _ ← rd d (slot * elem) elem;
                 Some (Some (splice d (slot * elem) (replicate (Z.to_nat elem) 0))))
                 (field_data b);
          g ← zget (slot_gens b) slot;
          gens ← zset (slot_gens b) slot (blyt_gen_next g);
          bs ← zset (buffers ctx) bi (with_slots bits gens (with_data fd b));
          Some (0, MkCtx (n_buffers ctx) bs)
  end.

Definition blyt_state_ref (ctx : blyt_state_ctx_t) (id slot : Z) : option Z :=
  match find_buffer ctx id with
  | None => Some 0
  | Some bi =>
      b ← zget (buffers ctx) bi;
      al ← slot_is_allocated b slot;
      if negb al then Some 0
      else g ← zget (slot_gens b) slot; Some (Z.lor (u32 (Z.shiftl g 16)) slot)
  end.

Definition blyt_state_ref_valid (ctx : blyt_state_ctx_t) (id ref : Z) : option bool :=
  if ref =? 0 then Some false
  else
    match find_buffer ctx id with
    | None => Some false
    | Some bi =>
        b ← zget (buffers ctx) bi;
        let slot := Z.land ref 0xFFFF in
        al ← slot_is_allocated b slot;
        if negb al then Some false
        else g ← zget (slot_gens b) slot; Some (g =? u16 (Z.shiftr ref 16))
    end.

(** *** Snapshot *)

(** The per-buffer part of [struct blyt_state_snapshot]. *)
Record snap_buffer := MkSnapBuf {
  sb_count : Z; sb_n_fields : Z; sb_field_types : list Z;
  sb_field_data : list (option (list Z)); sb_slot_bitset : list Z; sb_slot_gens : list Z }.
Record blyt_state_snapshot := MkSnap { sn_n_buffers : Z; sn_buffers : list snap_buffer }.

(** A result [None] inside is [NULL]: an allocation failed, and the copies made so far are freed. *)

(** The copies of the fields from [fi] on; [ok fi] tells whether the allocation for field [fi] succeeds. *)
Fixpoint snapshot_fields (ok : Z -> bool) (b : blyt_buffer_ctx_t) (k : nat) (fi : Z) : option (option (list (option (list Z)))) :=
  match k with
  | O => Some (Some [])
  | S k =>
      tag ← zget (field_types b) fi;
      if negb (ok fi) then Some None
      else
        od ← zget (field_data b) fi;
        d ← od;
        bytes ← rd d 0 (count b * field_sizeof tag);
        rest ← snapshot_fields ok b k (fi + 1);
        Some (option_map (cons (Some bytes)) rest)
  end.

Definition snapshot_buffer (ok : Z -> bool) (b : blyt_buffer_ctx_t) : option (option snap_buffer) :=
  fd ← snapshot_fields ok b (Z.to_nat (n_fields b)) 0;
  Some (option_map (fun fd => MkSnapBuf (count b) (n_fields b) (field_types b) (fd ++ replicate (256 - length fd) None) (slot_bitset b) (slot_gens b)) fd).

Fixpoint snapshot_buffers (malloc_ok : option (Z * Z) -> bool) (bs : list blyt_buffer_ctx_t) (bi : Z) : option (option (list snap_buffer)) :=
  match bs with
  | [] => Some (Some [])
  | b :: bs =>
      sb ← snapshot_buffer (fun fi => malloc_ok (Some (bi, fi))) b;
      match sb with
      | None => Some None
      | Some sb => rest ← snapshot_buffers malloc_ok bs (bi + 1); Some (option_map (cons sb) rest)
      end
  end.

(** [malloc_ok] tells whether an allocation succeeds: [None] for the snapshot itself, [Some (bi, fi)] for the
    copy of a field. *)
Definition blyt_state_ctx_snapshot (malloc_ok : option (Z * Z) -> bool) (ctx : blyt_state_ctx_t) : option (option blyt_state_snapshot) :=
  if negb (malloc_ok None) then Some None
  else
    sbs ← snapshot_buffers malloc_ok (take (Z.to_nat (n_buffers ctx)) (buffers ctx)) 0;
    Some (option_map (MkSnap (n_buffers ctx)) sbs).

Definition restore_buffer (sb : snap_buffer) (b : blyt_buffer_ctx_t) : option blyt_buffer_ctx_t :=
  if negb (sb_n_fields sb =? n_fields b) || negb (sb_count sb =? count b) then Some b
  else
    fd ← for_each (n_fields b) (fun fi od =>
           sod ← zget (sb_field_data sb) fi;
           match sod, od with
           | Some sd, Some d =>
               tag ← zget (field_types b) fi;
               bytes ← rd sd 0 (count b * field_sizeof tag);
               _ ← rd d 0 (len bytes);
               Some (Some (splice d 0 bytes))
           | _, _ => Some od
           end) (field_data b);
    Some (with_slots (sb_slot_bitset sb) (sb_slot_gens sb) (with_data fd b)).

Definition blyt_state_ctx_restore_snapshot (ctx : blyt_state_ctx_t) (snap : option blyt_state_snapshot)
    : option blyt_state_ctx_t :=
  match snap with
  | None => Some ctx
  | Some snap =>
      if negb (sn_n_buffers snap =? n_buffers ctx) then Some ctx
      else
        bs ← for_each (n_buffers ctx) (fun bi b =>
               sb ← zget (sn_buffers snap) bi; restore_buffer sb b) (buffers ctx);
        Some (MkCtx (n_buffers ctx) bs)
  end.

Definition zero_buffer_data (b : blyt_buffer_ctx_t) : option blyt_buffer_ctx_t :=
  fd ← for_each (n_fields b) (fun fi od =>
         match od with
         | None => Some None
         | Some d =>
             tag ← zget (field_types b) fi;
             let sz := count b * field_sizeof tag in
             _ ← rd d 0 sz;
             Some (Some (splice d 0 (replicate (Z.to_nat sz) 0)))
         end) (field_data b);
  Some (with_slots (replicate 16 0) (replicate 128 1) (with_data fd b)).

Definition blyt_state_ctx_zero_data (ctx : blyt_state_ctx_t) : option blyt_state_ctx_t :=
  bs ← for_each (n_buffers ctx) (fun _ b => zero_buffer_data b) (buffers ctx);
  Some (MkCtx (n_buffers ctx) bs).

(** [destroy]: the arrays of the first [n_buffers] buffers are freed and nulled. *)
Definition destroy_buffer (b : blyt_buffer_ctx_t) : option blyt_buffer_ctx_t :=
  fd ← for_each (n_fields b) (fun _ _ => Some None) (field_data b); Some (with_data fd b).

Definition blyt_state_ctx_destroy (ctx : blyt_state_ctx_t) : option blyt_state_ctx_t :=
  bs ← for_each (n_buffers ctx) (fun _ b => destroy_buffer b) (buffers ctx);
  Some (MkCtx 0 bs).

(** *** Initialisation *)

Section init.
(** Whether the [k]-th [calloc] of the call, of [n] bytes, succeeds. *)
Variable calloc_ok : nat -> Z -> bool.

(** The field loop: [false] is the exit to the failure path, with the buffer as far
    as it was filled; [k] counts the allocations. *)
Fixpoint init_fields (fds : list (option FieldDecl)) (fi : Z) (k : nat) (b : blyt_buffer_ctx_t)
    : option (bool * nat * blyt_buffer_ctx_t) :=
  match fds with
  | [] => Some (true, k, b)
  | None :: _ => Some (false, k, b)
  | Some fd :: fds =>
      let tag := fd_type_tag fd in
      types ← zset (field_types b) fi tag;
      names ← zset (field_names b) fi (fd_name fd);
      let total := count b * field_sizeof tag in
      let ok := calloc_ok k total in
      data ← zset (field_data b) fi (if ok then Some (replicate (Z.to_nat total) 0) else None);
      let b' := MkBuf (buf_id b) (count b) (n_fields b) types data (slot_bitset b) (slot_gens b)
                  (schema_hash b) (name b) names in
      if ok then init_fields fds (fi + 1) (S k) b' else Some (false, S k, b')
  end.

(** [strcmp] on an absent string is undefined. *)
Fixpoint find_record (recs : list (option RecordDecl)) (rec_name : option (list Z))
    : option (option RecordDecl) :=
  match recs with
  | [] => Some None
  | None :: recs => find_record recs rec_name
  | Some r :: recs =>
      rn ← rd_name r;
      wanted ← rec_name;
      if bool_decide (rn = wanted) then Some (Some r) else find_record recs rec_name
  end.

Fixpoint init_buffers (decls : list (option BufferDecl)) (recs : list (option RecordDecl))
    (hash : Z) (bi : Z) (k : nat) (ctx : blyt_state_ctx_t) : option (Z * blyt_state_ctx_t) :=
  match decls with
  | [] => Some (0, ctx)
  | d :: decls =>
      if bi >=? BLYT_MAX_BUFFERS then Some (0, ctx)
      else
        match d with
        | None => init_buffers decls recs hash (bi + 1) k ctx
        | Some bdecl =>
            b0 ← zget (buffers ctx) bi;
            let b1 := MkBuf (bi + 1) (bd_count bdecl) (n_fields b0) (field_types b0) (field_data b0)
                        (slot_bitset b0) (slot_gens b0) hash (bd_name bdecl) (field_names b0) in
            let fail b := bs ← zset (buffers ctx) bi b;
                          ctx' ← blyt_state_ctx_destroy (MkCtx (n_buffers ctx) bs);
                          Some (-2, ctx') in
            rdecl ← find_record recs (bd_record_name bdecl);
            match rdecl with
            | None => fail b1
            | Some rdecl =>
                let fds := default [] (rd_fields rdecl) in
                let nf := len fds in
                if (nf =? 0) || (nf >? BLYT_MAX_FIELDS) then fail b1
                else
                  let b2 := MkBuf (buf_id b1) (count b1) nf (field_types b1) (field_data b1)
                              (slot_bitset b1) (slot_gens b1) hash (name b1) (field_names b1) in
                  '(ok, k', b3) ← init_fields fds 0 k b2;
                  if negb (ok : bool) then fail b3
                  else
                    bs ← zset (buffers ctx) bi (with_slots (slot_bitset b3) (replicate 128 1) b3);
                    init_buffers decls recs hash (bi + 1) k' (MkCtx (n_buffers ctx + 1) bs)
            end
        end
  end.

(** [sect] is the [.cart.layouts] section, [as_root] the FlatBuffers root accessor. *)
Definition blyt_state_ctx_init (sect : option (list Z)) (as_root : list Z -> option CartLayouts)
    : option (Z * blyt_state_ctx_t) :=
  match sect with
  | None => Some (-1, zero_ctx)
  | Some bytes =>
      if len bytes <=? 8 then Some (-2, zero_ctx)
      else
        match as_root (drop 8 bytes) with
        | None => Some (-2, zero_ctx)
        | Some layouts =>
            let decls := default [] (cl_buffers layouts) in
            if len decls =? 0 then Some (0, zero_ctx)
            else init_buffers decls (default [] (cl_records layouts)) (cl_schema_hash layouts) 0 0 zero_ctx
        end
  end.
End init.
