(* ===== verification/StateBufferSpec.v ===== *)
(** * StateBufferSpec: correctness of the state buffers

    The representation invariant of [StateBuffer], the abstract view of a context
    (which slots are allocated, their generations, the bytes of each cell), and the
    theorems on the operations in terms of that view. *)

From S2P Require Import Prelude Handle FpCanon StateBuffer.
From Stdlib Require Import ZArith Lia.
From stdpp Require Import base tactics list gmap.
Open Scope Z_scope.

(** ** The invariant *)

Definition array_ok (b : blyt_buffer_ctx_t) (fi : Z) : Prop :=
  exists tag d, zget (field_types b) fi = Some tag /\ zget (field_data b) fi = Some (Some d)
    /\ len d = count b * field_sizeof tag /\ bytes_ok d.

Record buf_wf (b : blyt_buffer_ctx_t) : Prop := {
  wf_count : is_u32 (count b);
  wf_nf : 1 <= n_fields b <= 256;
  wf_types : len (field_types b) = 256;
  wf_data : len (field_data b) = 256;
  wf_arrays : forall fi, 0 <= fi < n_fields b -> array_ok b fi;
  wf_bits : len (slot_bitset b) = 16 /\ bytes_ok (slot_bitset b);
  wf_gens : len (slot_gens b) = 128 /\ Forall is_u16 (slot_gens b)
}.

Record ctx_wf (ctx : blyt_state_ctx_t) : Prop := {
  wf_nb : 0 <= n_buffers ctx <= 32;
  wf_bufs : len (buffers ctx) = 32;
  wf_buf : forall bi b, 0 <= bi < n_buffers ctx -> zget (buffers ctx) bi = Some b -> buf_wf b
}.

(** Two buffers with the same declaration. *)
Definition same_shape (b b' : blyt_buffer_ctx_t) : Prop :=
  count b' = count b /\ n_fields b' = n_fields b /\ field_types b' = field_types b.

(** ** The abstract view *)

Definition allocated (ctx : blyt_state_ctx_t) (bi slot : Z) : bool :=
  match zget (buffers ctx) bi with
  | Some b => default false (slot_is_allocated b slot)
  | None => false
  end.

Definition gen_at (ctx : blyt_state_ctx_t) (bi slot : Z) : Z :=
  match zget (buffers ctx) bi with
  | Some b => default 0 (zget (slot_gens b) slot)
  | None => 0
  end.

(** The bytes of field [fi] (0-based) of a slot. *)
Definition cell (ctx : blyt_state_ctx_t) (bi fi slot : Z) : option (list Z) :=
  b ← zget (buffers ctx) bi;
  tag ← zget (field_types b) fi;
  d ← field_array b fi;
  rd d (slot * field_sizeof tag) (field_sizeof tag).

(** The declared type of a field that exists. *)
Definition field_tag (ctx : blyt_state_ctx_t) (bi fi : Z) : option Z :=
  if (0 <=? bi) && (bi <? n_buffers ctx) then
    b ← zget (buffers ctx) bi;
    if (0 <=? fi) && (fi <? n_fields b) then zget (field_types b) fi else None
  else None.

(** ** Bits *)

Lemma land_1_testbit x k : 0 <= k -> negb (Z.land (Z.shiftr x k) 1 =? 0) = Z.testbit x k.
Proof.
  intros Hk. rewrite (land_ones_mod _ 1 1) by (lia || done).
  rewrite Z.testbit_odd. change (2 ^ 1) with 2. rewrite Zmod_odd. by destruct (Z.odd _).
Qed.

Lemma bit_of_val bits s :
  len bits = 16 -> 0 <= s < 128 ->
  exists byte, zget bits (s / 8) = Some byte /\ bit_of bits s = Some (Z.testbit byte (s mod 8)).
Proof.
  intros Hl Hs. destruct (zget_is_Some bits (s / 8)) as [byte Hb].
  { rewrite Hl. Z.div_mod_to_equations; lia. }
  exists byte. split; [done|]. unfold bit_of. rewrite Hb; simpl.
  rewrite land_1_testbit; [done|]. Z.div_mod_to_equations; lia.
Qed.

Lemma bit_update bits s byte byte' (v : bool) :
  len bits = 16 -> 0 <= s < 128 -> zget bits (s / 8) = Some byte ->
  (forall j, 0 <= j < 8 -> Z.testbit byte' j = if j =? s mod 8 then v else Z.testbit byte j) ->
  forall t, 0 <= t < 128 ->
    bit_of (<[Z.to_nat (s / 8) := byte']> bits) t = if t =? s then Some v else bit_of bits t.
Proof.
  intros Hl Hs Hb Hbit t Ht.
  assert (0 <= s / 8 < 16 /\ 0 <= t / 8 < 16 /\ 0 <= t mod 8 < 8) as (? & ? & ?)
    by (Z.div_mod_to_equations; lia).
  unfold bit_of. destruct (decide (t / 8 = s / 8)) as [E|E].
  - rewrite E, zget_insert_eq, Hb by lia. simpl. rewrite !land_1_testbit, Hbit by lia.
    destruct (Z.eqb_spec t s) as [->|Hne]; [by rewrite Z.eqb_refl|].
    rewrite (proj2 (Z.eqb_neq _ _)); [done|]. Z.div_mod_to_equations; lia.
  - rewrite zget_insert_ne by lia. destruct (Z.eqb_spec t s) as [->|]; [done|done].
Qed.

Lemma set_bit_byte byte k j :
  is_u8 byte -> 0 <= k < 8 -> 0 <= j < 8 ->
  Z.testbit (u8 (Z.lor byte (u8 (Z.shiftl 1 k)))) j = if j =? k then true else Z.testbit byte j.
Proof.
  intros Hb Hk Hj. unfold u8, wrap. rewrite Z.mod_pow2_bits_low, Z.lor_spec, Z.mod_pow2_bits_low by lia.
  rewrite Z.shiftl_1_l, Z.pow2_bits_eqb, Z.eqb_sym by lia. destruct (j =? k); [apply orb_true_r|apply orb_false_r].
Qed.

Lemma clear_bit_byte byte k j :
  0 <= k < 8 -> 0 <= j < 8 ->
  Z.testbit (Z.land byte (u8 (Z.lnot (Z.shiftl 1 k)))) j = if j =? k then false else Z.testbit byte j.
Proof.
  intros Hk Hj. unfold u8, wrap. rewrite Z.land_spec, Z.mod_pow2_bits_low, Z.lnot_spec by lia.
  rewrite Z.shiftl_1_l, Z.pow2_bits_eqb, Z.eqb_sym by lia. destruct (j =? k); [apply andb_false_r|apply andb_true_r].
Qed.

Lemma land_u8 x y : is_u8 x -> is_u8 (Z.land x y).
Proof.
  intros Hx. rewrite <-(u8_id x Hx). unfold u8, wrap.
  rewrite <-Z.land_ones, <-Z.land_assoc, (Z.land_comm (Z.ones 8)), Z.land_assoc, Z.land_ones by lia.
  apply u8_range.
Qed.

Lemma bytes_ok_insert l i x : bytes_ok l -> is_u8 x -> bytes_ok (<[i := x]> l).
Proof. apply Forall_insert. Qed.

Lemma bytes_ok_zget l i x : bytes_ok l -> zget l i = Some x -> is_u8 x.
Proof. intros Hl [_ Hx]%zget_Some. by eapply Forall_lookup_1. Qed.

Lemma bytes_ok_zeros n : bytes_ok (replicate n 0).
Proof. by apply Forall_replicate. Qed.

Lemma sizeof_range tag : 1 <= field_sizeof tag <= 8.
Proof. unfold field_sizeof. repeat case_match; lia. Qed.

(** ** Well-formed contexts *)

Lemma alloc_val b slot :
  buf_wf b -> exists v, slot_is_allocated b slot = Some v
    /\ (v = true -> 0 <= slot < count b /\ slot < 128).
Proof.
  intros Hb. unfold slot_is_allocated. destruct (_ || _ || _) eqn:E; [by exists false|].
  destruct (wf_bits _ Hb) as [Hl _]. unfold BLYT_MAX_SLOTS in E.
  destruct (bit_of_val (slot_bitset b) slot Hl) as (byte & _ & ->); [lia|]. eexists. split; [done|lia].
Qed.

Lemma cell_in_range (slot sz n : Z) : 0 <= slot < n -> 1 <= sz -> 0 <= slot * sz /\ slot * sz + sz <= n * sz.
Proof. nia. Qed.

(** The guards succeed exactly on an allocated slot of an existing field. *)
Lemma locate_val ctx id slot field :
  ctx_wf ctx -> 0 <= id -> 0 <= field ->
  (locate ctx id slot field = Some None
   /\ (allocated ctx (id - 1) slot = false \/ field_tag ctx (id - 1) (field - 1) = None))
  \/ exists b tag d,
     locate ctx id slot field = Some (Some (id - 1, b, field - 1, tag))
     /\ 0 <= id - 1 < n_buffers ctx /\ zget (buffers ctx) (id - 1) = Some b /\ buf_wf b
     /\ allocated ctx (id - 1) slot = true /\ 0 <= slot < count b /\ slot < 128
     /\ 0 <= field - 1 < n_fields b
     /\ field_tag ctx (id - 1) (field - 1) = Some tag /\ zget (field_types b) (field - 1) = Some tag
     /\ field_array b (field - 1) = Some d /\ len d = count b * field_sizeof tag /\ bytes_ok d.
Proof.
  intros Hwf Hid Hf. unfold locate, find_buffer. pose proof (wf_nb _ Hwf). pose proof (wf_bufs _ Hwf).
  destruct ((id =? 0) || (id >? n_buffers ctx)) eqn:E1.
  { left. split; [done|]. right. unfold field_tag. case_match; [lia|done]. }
  destruct (zget_is_Some (buffers ctx) (id - 1)) as [b Hb]; [lia|].
  pose proof (wf_buf _ Hwf (id - 1) b ltac:(lia) Hb) as Hbw.
  destruct (alloc_val b slot Hbw) as (v & Hv & Hrange).
  assert (allocated ctx (id - 1) slot = v) as Ha by (unfold allocated; by rewrite Hb, Hv).
  cbn. rewrite Hb. cbn. rewrite Hv. cbn. destruct v; cbn; [|left; split; [done|by left]].
  assert (field_tag ctx (id - 1) (field - 1)
    = if (0 <=? field - 1) && (field - 1 <? n_fields b) then zget (field_types b) (field - 1) else None) as Hft.
  { unfold field_tag. rewrite (proj2 (Z.leb_le 0 (id - 1))), (proj2 (Z.ltb_lt (id - 1) _)) by lia.
    cbn. by rewrite Hb. }
  destruct ((field =? 0) || (field >? n_fields b)) eqn:E2.
  { left. split; [done|]. right. rewrite Hft. case_match; [lia|done]. }
  right. destruct (wf_arrays _ Hbw (field - 1)) as (tag & d & Ht & Hd & Hl & Hok); [lia|].
  rewrite Ht. cbn. exists b, tag, d. destruct (Hrange eq_refl).
  rewrite Hft, (proj2 (Z.leb_le 0 (field - 1))), (proj2 (Z.ltb_lt (field - 1) _)) by lia.
  unfold field_array. rewrite Hd. cbn. split_and!; lia || done.
Qed.

(** Replacing one buffer by one of the same shape. *)
Lemma upd_wf ctx bi b b' :
  ctx_wf ctx -> 0 <= bi < n_buffers ctx -> zget (buffers ctx) bi = Some b -> buf_wf b' ->
  ctx_wf (MkCtx (n_buffers ctx) (<[Z.to_nat bi := b']> (buffers ctx))).
Proof.
  intros Hwf Hbi Hb Hb'. pose proof (wf_nb _ Hwf). pose proof (wf_bufs _ Hwf). split; cbn.
  - done.
  - by rewrite len_insert.
  - intros bj c Hbj Hc. destruct (decide (bi = bj)) as [<-|Hne].
    + rewrite zget_insert_eq in Hc by lia. by injection Hc as <-.
    + rewrite zget_insert_ne in Hc by lia. by eapply wf_buf.
Qed.

Section upd.
Context (ctx : blyt_state_ctx_t) (bi : Z) (b b' : blyt_buffer_ctx_t).
Context (Hbi : 0 <= bi < len (buffers ctx)) (Hb : zget (buffers ctx) bi = Some b).
Let ctx' := MkCtx (n_buffers ctx) (<[Z.to_nat bi := b']> (buffers ctx)).

Lemma upd_get bj : zget (buffers ctx') bj = if bj =? bi then Some b' else zget (buffers ctx) bj.
Proof.
  cbn. destruct (Z.eqb_spec bj bi) as [->|]; [by apply zget_insert_eq|]. apply zget_insert_ne; lia.
Qed.

Lemma upd_tag bj fj : same_shape b b' -> field_tag ctx' bj fj = field_tag ctx bj fj.
Proof.
  intros (_ & Hn & Ht). unfold field_tag. rewrite upd_get. cbn [n_buffers ctx'].
  destruct (Z.eqb_spec bj bi) as [->|]; [|done]. rewrite Hb. cbn. by rewrite Hn, Ht.
Qed.

Lemma upd_alloc bj t :
  (forall t, slot_is_allocated b' t = slot_is_allocated b t) -> allocated ctx' bj t = allocated ctx bj t.
Proof.
  intros H. unfold allocated. rewrite upd_get. destruct (Z.eqb_spec bj bi) as [->|]; [|done]. by rewrite Hb, H.
Qed.

Lemma upd_gen bj t : slot_gens b' = slot_gens b -> gen_at ctx' bj t = gen_at ctx bj t.
Proof.
  intros H. unfold gen_at. rewrite upd_get. destruct (Z.eqb_spec bj bi) as [->|]; [|done]. by rewrite Hb, H.
Qed.

Lemma upd_cell bj fj t :
  field_types b' = field_types b -> field_data b' = field_data b -> cell ctx' bj fj t = cell ctx bj fj t.
Proof.
  intros H1 H2. unfold cell. rewrite upd_get. destruct (Z.eqb_spec bj bi) as [->|]; [|done].
  rewrite Hb. cbn. unfold field_array. by rewrite H1, H2.
Qed.
End upd.

(** ** Writing a cell *)

(** [ctx'] is [ctx] with one cell replaced, and nothing else. *)
Record cell_written (ctx ctx' : blyt_state_ctx_t) (bi fi slot : Z) (bytes : list Z) : Prop := {
  cw_nb : n_buffers ctx' = n_buffers ctx;
  cw_tag : forall bj fj, field_tag ctx' bj fj = field_tag ctx bj fj;
  cw_alloc : forall bj t, allocated ctx' bj t = allocated ctx bj t;
  cw_gen : forall bj t, gen_at ctx' bj t = gen_at ctx bj t;
  cw_cell : forall bj fj t, cell ctx' bj fj t
    = if (bj =? bi) && (fj =? fi) && (t =? slot) then Some bytes else cell ctx bj fj t
}.

(** Writing one element of an array of [sz]-byte elements. *)
Lemma rd_splice_elem (d bytes : list Z) slot sz n t :
  len d = n * sz -> 0 <= slot < n -> 1 <= sz -> len bytes = sz ->
  rd (splice d (slot * sz) bytes) (t * sz) sz = if t =? slot then Some bytes else rd d (t * sz) sz.
Proof.
  intros Hl Hs Hsz Hb. destruct (cell_in_range slot sz n Hs Hsz) as [? ?].
  assert (len (splice d (slot * sz) bytes) = len d) as Hlen.
  { unfold len. rewrite length_splice; [done|lia|unfold len in *; lia]. }
  destruct (Z.eqb_spec t slot) as [->|Hne].
  - rewrite rd_Some by lia. f_equal. rewrite <-(sub_splice_same d (slot * sz) bytes) at 2 by lia. by rewrite Hb.
  - unfold rd. rewrite Hlen. destruct (_ && _ && _) eqn:E; [|done]. f_equal.
    apply sub_splice_disjoint; try lia. rewrite Hb. nia.
Qed.

Lemma data_wf b fi tag d' :
  buf_wf b -> 0 <= fi < n_fields b -> zget (field_types b) fi = Some tag ->
  len d' = count b * field_sizeof tag -> bytes_ok d' ->
  buf_wf (with_data (<[Z.to_nat fi := Some d']> (field_data b)) b).
Proof.
  intros Hb Hfi Ht Hl Hok. pose proof (wf_nf _ Hb). pose proof (wf_data _ Hb). destruct Hb; split; cbn; try done.
  - by rewrite len_insert.
  - intros fj Hfj. unfold array_ok. cbn. destruct (decide (fi = fj)) as [<-|Hne].
    + exists tag, d'. rewrite zget_insert_eq by lia. done.
    + rewrite zget_insert_ne by lia. by apply wf_arrays0.
Qed.

Lemma store_spec ctx bi fi b tag d slot bytes :
  ctx_wf ctx -> 0 <= bi < n_buffers ctx -> zget (buffers ctx) bi = Some b -> buf_wf b ->
  0 <= fi < n_fields b -> zget (field_types b) fi = Some tag -> field_array b fi = Some d ->
  len d = count b * field_sizeof tag -> bytes_ok d -> 0 <= slot < count b ->
  len bytes = field_sizeof tag -> bytes_ok bytes ->
  exists ctx', store_field ctx bi fi b (slot * field_sizeof tag) bytes = Some ctx'
    /\ ctx_wf ctx' /\ cell_written ctx ctx' bi fi slot bytes.
Proof.
  intros Hwf Hbi Hb Hbw Hfi Ht Hd Hl Hok Hs Hbl Hbok.
  pose proof (sizeof_range tag). destruct (cell_in_range slot (field_sizeof tag) (count b) Hs ltac:(lia)) as [? ?].
  pose proof (wf_data _ Hbw). pose proof (wf_nf _ Hbw). pose proof (wf_nb _ Hwf). pose proof (wf_bufs _ Hwf).
  set (d' := splice d (slot * field_sizeof tag) bytes).
  assert (len d' = len d) as Hlen.
  { unfold len, d'. rewrite length_splice; [done|lia|unfold len in *; lia]. }
  unfold store_field. rewrite Hd. cbn. rewrite rd_Some by lia. cbn.
  rewrite zset_Some by lia. cbn. rewrite zset_Some by lia. cbn.
  set (b' := with_data (<[Z.to_nat fi := Some d']> (field_data b)) b).
  assert (buf_wf b') as Hbw'.
  { eapply data_wf; [done|done|done|by rewrite Hlen|by apply Forall_splice]. }
  eexists. split; [done|]. split; [by eapply upd_wf|]. split.
  - done.
  - intros. by apply (upd_tag _ _ b); [lia|..].
  - intros. by apply (upd_alloc _ _ b); [lia|..].
  - intros. by apply (upd_gen _ _ b); [lia|..].
  - intros bj fj t. unfold cell. rewrite (upd_get _ bi b') by lia.
    destruct (Z.eqb_spec bj bi) as [->|]; [|done]. rewrite Hb. cbn.
    destruct (Z.eqb_spec fj fi) as [->|Hfne].
    + rewrite Ht. cbn. unfold field_array. cbn. rewrite zget_insert_eq by lia. cbn.
      unfold field_array in Hd. destruct (zget (field_data b) fi) as [od|] eqn:Eod; [|done]. cbn in Hd. subst od.
      cbn. by apply (rd_splice_elem d _ slot _ (count b)); [|..|lia|].
    + unfold field_array. cbn. by rewrite zget_insert_ne by lia.
Qed.

(** ** Get and set *)

Definition fetch (ctx : blyt_state_ctx_t) (bi fi slot : Z) : option (Z * option Z) :=
  bytes ← cell ctx bi fi slot; Some (0, Some (le_val bytes)).

(** [get] and [get64] as functions of the view. *)
Lemma get_view ctx id slot field :
  ctx_wf ctx -> 0 <= id -> 0 <= field ->
  blyt_state_get ctx id slot field
  = match field_tag ctx (id - 1) (field - 1) with
    | Some tag => if allocated ctx (id - 1) slot && negb (tag =? TYPE_F64)
                  then fetch ctx (id - 1) (field - 1) slot else Some (-1, None)
    | None => Some (-1, None)
    end.
Proof.
  intros Hwf Hid Hf. unfold blyt_state_get.
  destruct (locate_val ctx id slot field Hwf Hid Hf)
    as [[-> [->| ->]]|(b & tag & d & -> & Hbi & Hb & Hbw & -> & Hs & _ & Hfi & -> & Ht & Hd & Hl & _)]; cbn.
  - by case_match.
  - done.
  - destruct (tag =? TYPE_F64); cbn; [done|]. unfold fetch, cell. rewrite Hb. cbn. rewrite Ht. cbn.
    rewrite Hd. done.
Qed.

Lemma get64_view ctx id slot field :
  ctx_wf ctx -> 0 <= id -> 0 <= field ->
  blyt_state_get64 ctx id slot field
  = match field_tag ctx (id - 1) (field - 1) with
    | Some tag => if allocated ctx (id - 1) slot && (tag =? TYPE_F64)
                  then fetch ctx (id - 1) (field - 1) slot else Some (-1, None)
    | None => Some (-1, None)
    end.
Proof.
  intros Hwf Hid Hf. unfold blyt_state_get64.
  destruct (locate_val ctx id slot field Hwf Hid Hf)
    as [[-> [->| ->]]|(b & tag & d & -> & Hbi & Hb & Hbw & -> & Hs & _ & Hfi & -> & Ht & Hd & Hl & _)]; cbn.
  - by case_match.
  - done.
  - destruct (Z.eqb_spec tag TYPE_F64) as [->|]; cbn; [|done]. unfold fetch, cell. rewrite Hb. cbn.
    rewrite Ht. cbn. rewrite Hd. done.
Qed.

(** The bytes [set] stores for a value. *)
Definition stored32 (tag v : Z) : list Z :=
  le_bytes (Z.to_nat (field_sizeof tag)) (if tag =? TYPE_F32 then blyt_canon_f32 v else v).

Lemma set_view ctx id slot field v tt :
  ctx_wf ctx -> 0 <= id -> 0 <= field ->
  (blyt_state_set ctx id slot field v tt = Some (-1, ctx)
   /\ (allocated ctx (id - 1) slot = false \/ field_tag ctx (id - 1) (field - 1) = None
       \/ field_tag ctx (id - 1) (field - 1) = Some TYPE_F64))
  \/ exists tag ctx', blyt_state_set ctx id slot field v tt = Some (0, ctx')
     /\ allocated ctx (id - 1) slot = true
     /\ field_tag ctx (id - 1) (field - 1) = Some tag /\ tag <> TYPE_F64
     /\ ctx_wf ctx' /\ cell_written ctx ctx' (id - 1) (field - 1) slot (stored32 tag v).
Proof.
  intros Hwf Hid Hf. unfold blyt_state_set.
  destruct (locate_val ctx id slot field Hwf Hid Hf)
    as [[-> [H|H]]|(b & tag & d & -> & Hbi & Hb & Hbw & Ha & Hs & _ & Hfi & Htag & Ht & Hd & Hl & Hok)]; cbn.
  - left. auto.
  - left. auto.
  - destruct (Z.eqb_spec tag TYPE_F64) as [->|Hne]; cbn; [left; auto|right].
    pose proof (sizeof_range tag). fold (stored32 tag v).
    destruct (store_spec ctx (id - 1) (field - 1) b tag d slot (stored32 tag v)) as (ctx' & -> & ? & ?);
      try done.
    + unfold len, stored32. rewrite length_le_bytes. lia.
    + apply le_bytes_ok.
    + cbn. eauto 10.
Qed.

Lemma set64_view ctx id slot field v :
  ctx_wf ctx -> 0 <= id -> 0 <= field ->
  (blyt_state_set64 ctx id slot field v = Some (-1, ctx)
   /\ ~ (allocated ctx (id - 1) slot = true /\ field_tag ctx (id - 1) (field - 1) = Some TYPE_F64))
  \/ exists ctx', blyt_state_set64 ctx id slot field v = Some (0, ctx')
     /\ allocated ctx (id - 1) slot = true /\ field_tag ctx (id - 1) (field - 1) = Some TYPE_F64
     /\ ctx_wf ctx' /\ cell_written ctx ctx' (id - 1) (field - 1) slot (le_bytes 8 (blyt_canon_f64 v)).
Proof.
  intros Hwf Hid Hf. unfold blyt_state_set64.
  destruct (locate_val ctx id slot field Hwf Hid Hf)
    as [[-> [H|H]]|(b & tag & d & -> & Hbi & Hb & Hbw & Ha & Hs & _ & Hfi & Htag & Ht & Hd & Hl & Hok)]; cbn [mbind option_bind].
  - left. rewrite H. split; [done|]. by intros [? _].
  - left. rewrite H. split; [done|]. by intros [_ ?].
  - destruct (Z.eqb_spec tag TYPE_F64) as [->|Hne]; cbn [negb].
    + right. destruct (store_spec ctx (id - 1) (field - 1) b TYPE_F64 d slot (le_bytes 8 (blyt_canon_f64 v)))
        as (ctx' & E & ? & ?); try done.
      { apply le_bytes_ok. }
      change (field_sizeof TYPE_F64) with 8 in E. rewrite E. cbn. eauto 10.
    + left. split; [done|]. intros [_ ?]. congruence.
Qed.

(** ** Slots *)

Lemma alloc_scan_spec b fuel s :
  buf_wf b -> 0 <= s <= 128 -> 128 - s < Z.of_nat fuel ->
  (alloc_scan fuel b s = Some None
   /\ forall t, s <= t < count b -> t < 128 -> slot_is_allocated b t = Some true)
  \/ exists r, alloc_scan fuel b s = Some (Some r) /\ s <= r < count b /\ r < 128
     /\ slot_is_allocated b r = Some false
     /\ forall t, s <= t < r -> slot_is_allocated b t = Some true.
Proof.
  intros Hb. destruct (wf_bits _ Hb) as [Hl _].
  assert (forall t, 0 <= t < count b -> t < 128 -> slot_is_allocated b t = bit_of (slot_bitset b) t) as Hbit.
  { intros t ? ?. unfold slot_is_allocated, BLYT_MAX_SLOTS. case_match; [lia|done]. }
  revert s; induction fuel as [|fuel IH]; intros s Hs Hf; [lia|]. cbn. unfold BLYT_MAX_SLOTS.
  destruct ((s <? count b) && (s <? 128)) eqn:E; [|left; split; [done|lia]].
  destruct (bit_of_val (slot_bitset b) s Hl) as (byte & _ & Hbs); [lia|]. rewrite Hbs. cbn.
  destruct (Z.testbit byte (s mod 8)) eqn:Et; cbn.
  - destruct (IH (s + 1)) as [[-> Hall]|(r & -> & ? & ? & Hr & Hall)]; [lia|lia|..].
    + left. split; [done|]. intros t Ht ?. destruct (decide (t = s)) as [->|]; [|apply Hall; lia].
      rewrite Hbit, Hbs, ?Et by lia. done.
    + right. exists r. split_and!; [done|lia|lia|lia|done|]. intros t Ht.
      destruct (decide (t = s)) as [->|]; [|apply Hall; lia]. rewrite Hbit, Hbs, ?Et by lia. done.
  - right. exists s. rewrite Hbit, Hbs, ?Et by lia. split_and!; lia || done.
Qed.

(** [ctx'] is [ctx] with the allocation bit of one slot replaced. *)
Record slot_marked (ctx ctx' : blyt_state_ctx_t) (bi slot : Z) (v : bool) : Prop := {
  sm_nb : n_buffers ctx' = n_buffers ctx;
  sm_tag : forall bj fj, field_tag ctx' bj fj = field_tag ctx bj fj;
  sm_alloc : forall bj t, allocated ctx' bj t
    = if (bj =? bi) && (t =? slot) then v else allocated ctx bj t
}.

(** Number of slots of a buffer that can ever be used. *)
Definition slot_limit (ctx : blyt_state_ctx_t) (bi : Z) : Z :=
  match zget (buffers ctx) bi with Some b => Z.min (count b) 128 | None => 0 end.

Lemma marked_alloc b b' slot (v : bool) :
  count b' = count b -> 0 <= slot < count b -> slot < 128 ->
  (forall t, 0 <= t < 128 -> bit_of (slot_bitset b') t
     = if t =? slot then Some v else bit_of (slot_bitset b) t) ->
  forall t, slot_is_allocated b' t = if t =? slot then Some v else slot_is_allocated b t.
Proof.
  intros Hc Hs ? Hbit t. unfold slot_is_allocated, BLYT_MAX_SLOTS. rewrite Hc.
  destruct (_ || _ || _) eqn:E.
  - destruct (Z.eqb_spec t slot) as [->|]; [lia|done].
  - rewrite Hbit by lia. done.
Qed.

Lemma upd_marked ctx bi b b' slot v :
  0 <= bi < len (buffers ctx) -> zget (buffers ctx) bi = Some b -> same_shape b b' ->
  (forall t, slot_is_allocated b' t = if t =? slot then Some v else slot_is_allocated b t) ->
  slot_marked ctx (MkCtx (n_buffers ctx) (<[Z.to_nat bi := b']> (buffers ctx))) bi slot v.
Proof.
  intros Hbi Hb Hsh Hal. split; [done|intros; by apply (upd_tag _ _ b)|].
  intros bj t. unfold allocated. rewrite upd_get by done.
  destruct (Z.eqb_spec bj bi) as [->|]; [|done]. rewrite Hal, Hb. cbn. by destruct (t =? slot).
Qed.

Lemma slots_wf b bits gens :
  buf_wf b -> len bits = 16 -> bytes_ok bits -> len gens = 128 -> Forall is_u16 gens ->
  buf_wf (with_slots bits gens b).
Proof. intros []; by split. Qed.

Lemma alloc_slot_view ctx id :
  ctx_wf ctx -> 0 <= id ->
  (~ (0 <= id - 1 < n_buffers ctx) /\ blyt_state_alloc_slot ctx id = Some (-1, None, ctx))
  \/ (0 <= id - 1 < n_buffers ctx /\
      ((blyt_state_alloc_slot ctx id = Some (-1, Some (-1), ctx)
        /\ forall t, 0 <= t < slot_limit ctx (id - 1) -> allocated ctx (id - 1) t = true)
       \/ exists s ctx', blyt_state_alloc_slot ctx id = Some (0, Some s, ctx')
          /\ 0 <= s < slot_limit ctx (id - 1) /\ allocated ctx (id - 1) s = false
          /\ (forall t, 0 <= t < s -> allocated ctx (id - 1) t = true)
          /\ ctx_wf ctx' /\ slot_marked ctx ctx' (id - 1) s true
          /\ (forall bj t, gen_at ctx' bj t = gen_at ctx bj t)
          /\ (forall bj fj t, cell ctx' bj fj t = cell ctx bj fj t))).
Proof.
  intros Hwf Hid. unfold blyt_state_alloc_slot, find_buffer.
  pose proof (wf_nb _ Hwf). pose proof (wf_bufs _ Hwf).
  destruct ((id =? 0) || (id >? n_buffers ctx)) eqn:E1; [left; split; [lia|done]|right; split; [lia|]].
  destruct (zget_is_Some (buffers ctx) (id - 1)) as [b Hb]; [lia|].
  pose proof (wf_buf _ Hwf (id - 1) b ltac:(lia) Hb) as Hbw.
  assert (forall t, allocated ctx (id - 1) t = default false (slot_is_allocated b t)) as Hal.
  { intros t. unfold allocated. by rewrite Hb. }
  unfold slot_limit. rewrite Hb. cbn [mbind option_bind].
  destruct (alloc_scan_spec b 129 0 Hbw) as [[-> Hall]|(s & -> & Hs & Hs' & Hfree & Hall)]; [lia|lia|..];
    cbn [mbind option_bind].
  { left. split; [done|]. intros t Ht. by rewrite Hal, Hall by lia. }
  right. destruct (wf_bits _ Hbw) as [Hl Hok].
  destruct (bit_of_val (slot_bitset b) s Hl) as (byte & Hbyte & _); [lia|]. rewrite Hbyte. cbn [mbind option_bind].
  assert (0 <= s / 8 < 16 /\ 0 <= s mod 8 < 8) as [? ?] by (Z.div_mod_to_equations; lia).
  rewrite zset_Some by lia. cbn [mbind option_bind]. rewrite zset_Some by lia. cbn [mbind option_bind].
  rewrite i32_id by (unfold is_i32; lia).
  eexists s, _. split; [done|]. destruct (wf_gens _ Hbw) as [Hgl Hgok].
  split_and!; [lia|lia|by rewrite Hal, Hfree|intros t Ht; by rewrite Hal, Hall by lia|..].
  - eapply upd_wf; [done|lia|done|]. apply slots_wf; [done|by rewrite len_insert| |done|done].
    apply bytes_ok_insert; [done|apply u8_range].
  - apply (upd_marked _ _ b); [lia|done|done|]. apply (marked_alloc b); [done|lia|lia|].
    intros t Ht. eapply bit_update; [done|lia|done| |done].
    intros j Hj. apply set_bit_byte; [by eapply bytes_ok_zget|lia|lia].
  - intros. by apply (upd_gen _ _ b); [lia|..].
  - intros. by apply (upd_cell _ _ b); [lia|..].
Qed.

(** The field loop of [free_slot]: the slot's cell of every field is zeroed. *)
Definition zero_cell (b : blyt_buffer_ctx_t) (slot fi : Z) (od : option (list Z)) : option (option (list Z)) :=
  tag ← zget (field_types b) fi;
  d ← od;
  _ ← rd d (slot * field_sizeof tag) (field_sizeof tag);
  Some (Some (splice d (slot * field_sizeof tag) (replicate (Z.to_nat (field_sizeof tag)) 0))).

Lemma zero_cells b slot :
  buf_wf b -> 0 <= slot < count b ->
  exists fd, for_each (n_fields b) (zero_cell b slot) (field_data b) = Some fd
    /\ buf_wf (with_data fd b)
    /\ (forall fj tag t, 0 <= fj < n_fields b -> zget (field_types b) fj = Some tag ->
          (d ← field_array (with_data fd b) fj; rd d (t * field_sizeof tag) (field_sizeof tag))
          = if t =? slot then Some (replicate (Z.to_nat (field_sizeof tag)) 0)
            else (d ← field_array b fj; rd d (t * field_sizeof tag) (field_sizeof tag)))
    /\ (forall fj, n_fields b <= fj -> zget fd fj = zget (field_data b) fj).
Proof.
  intros Hb Hs. pose proof (wf_nf _ Hb). pose proof (wf_data _ Hb).
  assert (forall fi, 0 <= fi < n_fields b -> exists tag d, zget (field_types b) fi = Some tag
    /\ zget (field_data b) fi = Some (Some d) /\ len d = count b * field_sizeof tag /\ bytes_ok d
    /\ zero_cell b slot fi (Some d)
       = Some (Some (splice d (slot * field_sizeof tag) (replicate (Z.to_nat (field_sizeof tag)) 0)))) as Hz.
  { intros fi Hfi. destruct (wf_arrays _ Hb fi Hfi) as (tag & d & Ht & Hd & Hl & Hok).
    exists tag, d. split_and!; [done..|]. unfold zero_cell. rewrite Ht. cbn.
    pose proof (sizeof_range tag). destruct (cell_in_range slot (field_sizeof tag) (count b) Hs); [lia|].
    by rewrite rd_Some by lia. }
  destruct (for_each_spec (n_fields b) (zero_cell b slot) (field_data b)) as (fd & Hrun & Hl & Hin & Hout).
  { lia. }
  { intros i x Hi Hx. destruct (Hz i Hi) as (tag & d & _ & Hd & _ & _ & E). rewrite Hx in Hd.
    injection Hd as ->. rewrite E. eauto. }
  exists fd. split_and!; [done| | |done].
  - pose proof Hb as []. split; try done; cbn; [lia|].
    intros fi Hfi. destruct (Hz fi Hfi) as (tag & d & Ht & Hd & Hdl & Hok & E).
    eexists tag, _. cbn. rewrite Hin, Hd by done. cbn [mbind option_bind]. split_and!; [done|exact E|..].
    + pose proof (sizeof_range tag). destruct (cell_in_range slot (field_sizeof tag) (count b) Hs); [lia|].
      unfold len. rewrite length_splice; [done|lia|]. unfold len in *. rewrite length_replicate. lia.
    + apply Forall_splice; [done|apply bytes_ok_zeros].
  - intros fj tag t Hfj Ht. destruct (Hz fj Hfj) as (tag' & d & Ht' & Hd & Hdl & Hok & E).
    rewrite Ht in Ht'. injection Ht' as <-. pose proof (sizeof_range tag).
    unfold field_array. cbn. rewrite Hin, Hd by done. cbn [mbind option_bind]. rewrite E. cbn [mbind option_bind].
    apply (rd_splice_elem d _ slot _ (count b)); [done|done|lia|]. unfold len. rewrite length_replicate. lia.
Qed.

Record slot_freed (ctx ctx' : blyt_state_ctx_t) (bi slot : Z) : Prop := {
  sf_marked : slot_marked ctx ctx' bi slot false;
  sf_gen : forall bj t, gen_at ctx' bj t
    = if (bj =? bi) && (t =? slot) then blyt_gen_next (gen_at ctx bj t) else gen_at ctx bj t;
  sf_cell : forall bj fj t, cell ctx' bj fj t
    = match field_tag ctx bj fj with
      | Some tag => if (bj =? bi) && (t =? slot)
                    then Some (replicate (Z.to_nat (field_sizeof tag)) 0) else cell ctx bj fj t
      | None => cell ctx bj fj t
      end
}.

Lemma free_slot_view ctx id slot :
  ctx_wf ctx -> 0 <= id ->
  (blyt_state_free_slot ctx id slot = Some (-1, ctx)
   /\ (~ (0 <= id - 1 < n_buffers ctx) \/ allocated ctx (id - 1) slot = false))
  \/ exists ctx', blyt_state_free_slot ctx id slot = Some (0, ctx')
     /\ 0 <= id - 1 < n_buffers ctx /\ allocated ctx (id - 1) slot = true /\ 0 <= slot < 128
     /\ ctx_wf ctx' /\ slot_freed ctx ctx' (id - 1) slot.
Proof.
  intros Hwf Hid. unfold blyt_state_free_slot, find_buffer.
  pose proof (wf_nb _ Hwf). pose proof (wf_bufs _ Hwf).
  destruct ((id =? 0) || (id >? n_buffers ctx)) eqn:E1; [left; split; [done|left; lia]|].
  destruct (zget_is_Some (buffers ctx) (id - 1)) as [b Hb]; [lia|].
  pose proof (wf_buf _ Hwf (id - 1) b ltac:(lia) Hb) as Hbw.
  assert (allocated ctx (id - 1) slot = default false (slot_is_allocated b slot)) as Hal.
  { unfold allocated. by rewrite Hb. }
  rewrite Hb. cbn [mbind option_bind].
  destruct ((slot <? 0) || (slot >=? count b) || (slot >=? BLYT_MAX_SLOTS)) eqn:E2.
  { left. split; [done|right]. rewrite Hal. unfold slot_is_allocated. by rewrite E2. }
  destruct (alloc_val b slot Hbw) as (v & Hv & _). rewrite Hv in Hal |- *. cbn [mbind option_bind].
  destruct v; [|left; auto]. cbn [negb]. right. unfold BLYT_MAX_SLOTS in E2.
  destruct (wf_bits _ Hbw) as [Hl Hok]. destruct (wf_gens _ Hbw) as [Hgl Hgok].
  destruct (bit_of_val (slot_bitset b) slot Hl) as (byte & Hbyte & _); [lia|].
  rewrite Hbyte. cbn [mbind option_bind].
  assert (0 <= slot / 8 < 16 /\ 0 <= slot mod 8 < 8) as [? ?] by (Z.div_mod_to_equations; lia).
  rewrite zset_Some by lia. cbn [mbind option_bind].
  destruct (zero_cells b slot Hbw ltac:(lia)) as (fd & Hfd & Hfdwf & Hcells & Hrest).
  change (for_each (n_fields b) ?f (field_data b)) with (for_each (n_fields b) (zero_cell b slot) (field_data b)).
  rewrite Hfd. cbn [mbind option_bind].
  destruct (zget_is_Some (slot_gens b) slot) as [g Hg]; [lia|]. rewrite Hg. cbn [mbind option_bind].
  rewrite zset_Some by lia. cbn [mbind option_bind]. rewrite zset_Some by lia. cbn [mbind option_bind].
  eexists. split; [done|].
  split_and!; [lia|lia|done|lia|lia|..].
  - eapply upd_wf; [done|lia|done|]. apply slots_wf; [done|by rewrite len_insert| |by rewrite len_insert|].
    + apply bytes_ok_insert; [done|]. apply land_u8. by eapply bytes_ok_zget.
    + apply Forall_insert; [done|]. apply gen_next_u16.
  - split.
    + apply (upd_marked _ _ b); [lia|done|done|]. apply (marked_alloc b); [done|lia|lia|].
      intros t Ht. eapply bit_update; [done|lia|done| |done]. intros j Hj. apply clear_bit_byte; lia.
    + intros bj t. unfold gen_at. rewrite upd_get by lia.
      destruct (Z.eqb_spec bj (id - 1)) as [->|]; [|done]. rewrite Hb. cbn.
      destruct (Z.eqb_spec t slot) as [->|]; cbn; [by rewrite zget_insert_eq, Hg by lia|by rewrite zget_insert_ne by lia].
    + intros bj fj t. unfold cell at 1. rewrite upd_get by lia.
      destruct (Z.eqb_spec bj (id - 1)) as [->|]; [|by case_match]. cbn.
      unfold field_tag. rewrite (proj2 (Z.leb_le 0 (id - 1))), (proj2 (Z.ltb_lt (id - 1) _)) by lia. cbn.
      unfold cell. rewrite !Hb. cbn. destruct ((0 <=? fj) && (fj <? n_fields b)) eqn:Ef.
      * destruct (zget (field_types b) fj) as [tag|] eqn:Ht; cbn; [|done].
        apply (Hcells fj tag t); [lia|done].
      * destruct (zget (field_types b) fj) as [tag|] eqn:Ht; cbn; [|done].
        unfold field_array. cbn. apply zget_Some in Ht as [? _]. by rewrite Hrest by lia.
Qed.

(** ** Entity refs *)

Lemma gen_range ctx bi slot :
  ctx_wf ctx -> 0 <= bi < n_buffers ctx -> 0 <= slot < 128 -> is_u16 (gen_at ctx bi slot).
Proof.
  intros Hwf Hbi Hs. pose proof (wf_nb _ Hwf). pose proof (wf_bufs _ Hwf).
  destruct (zget_is_Some (buffers ctx) bi) as [b Hb]; [lia|].
  destruct (wf_gens _ (wf_buf _ Hwf bi b Hbi Hb)) as [Hl Hg].
  destruct (zget_is_Some (slot_gens b) slot) as [g Hgs]; [lia|].
  unfold gen_at. rewrite Hb, Hgs. cbn. apply zget_Some in Hgs as [_ Hgs]. by eapply Forall_lookup_1.
Qed.

Lemma allocated_range ctx bi slot :
  ctx_wf ctx -> 0 <= bi < n_buffers ctx -> allocated ctx bi slot = true -> 0 <= slot < slot_limit ctx bi.
Proof.
  intros Hwf Hbi. unfold allocated, slot_limit. destruct (zget (buffers ctx) bi) as [b|] eqn:Hb; [|done].
  destruct (alloc_val b slot (wf_buf _ Hwf bi b Hbi Hb)) as (v & -> & H). cbn. intros ->. lia.
Qed.

Lemma limit_128 ctx bi : slot_limit ctx bi <= 128.
Proof. unfold slot_limit. case_match; lia. Qed.

Lemma ref_view ctx id slot :
  ctx_wf ctx -> 0 <= id - 1 < n_buffers ctx -> allocated ctx (id - 1) slot = true ->
  blyt_state_ref ctx id slot = Some (gen_at ctx (id - 1) slot * 65536 + slot).
Proof.
  intros Hwf Hid Ha. pose proof (allocated_range _ _ _ Hwf Hid Ha). pose proof (limit_128 ctx (id - 1)).
  pose proof (gen_range ctx (id - 1) slot Hwf Hid ltac:(lia)) as Hg.
  unfold blyt_state_ref, find_buffer. destruct (_ || _) eqn:E; [lia|]. cbn [mbind option_bind].
  unfold allocated, gen_at, slot_limit in *. destruct (zget (buffers ctx) (id - 1)) as [b|] eqn:Hb; [|done].
  cbn in *. destruct (slot_is_allocated b slot) as [v|]; [|done]. cbn in *. subst v. cbn.
  destruct (wf_gens _ (wf_buf _ Hwf _ b Hid Hb)) as [Hl _].
  destruct (zget_is_Some (slot_gens b) slot) as [g Hgs]; [lia|]. rewrite Hgs in *. cbn in *. f_equal.
  unfold is_u16 in Hg. rewrite shiftl_mul by lia. rewrite u32_id by (unfold is_u32; lia).
  apply (lor_disjoint_add g slot 16); lia.
Qed.

Lemma ref_valid_view ctx id g slot :
  ctx_wf ctx -> 0 <= id - 1 < n_buffers ctx -> gen_ok g -> 0 <= slot < 128 ->
  blyt_state_ref_valid ctx id (g * 65536 + slot)
  = Some (allocated ctx (id - 1) slot && (gen_at ctx (id - 1) slot =? g)).
Proof.
  intros Hwf Hid Hg Hs. pose proof (wf_nb _ Hwf). pose proof (wf_bufs _ Hwf).
  unfold blyt_state_ref_valid, find_buffer, gen_ok in *.
  rewrite (proj2 (Z.eqb_neq _ 0)) by lia. destruct (_ || _) eqn:E; [lia|clear E].
  rewrite (land_ones_mod _ 16) by (lia || done).
  replace ((g * 65536 + slot) mod 2 ^ 16) with slot by (change (2 ^ 16) with 65536; Z.div_mod_to_equations; lia).
  rewrite shiftr_div by lia.
  replace ((g * 65536 + slot) / 2 ^ 16) with g by (change (2 ^ 16) with 65536; Z.div_mod_to_equations; lia).
  rewrite u16_id by (unfold is_u16; lia).
  destruct (zget_is_Some (buffers ctx) (id - 1)) as [b Hb]; [lia|].
  pose proof (wf_buf _ Hwf _ b Hid Hb) as Hbw. unfold allocated, gen_at. rewrite Hb. cbn.
  destruct (alloc_val b slot Hbw) as (v & -> & _). cbn. destruct v; cbn; [|done].
  destruct (wf_gens _ Hbw) as [Hl _]. destruct (zget_is_Some (slot_gens b) slot) as [g' ->]; [lia|]. done.
Qed.

(** ** Sequences of calls *)

Inductive state_cmd :=
| SSet (id slot field v tag : Z)
| SSet64 (id slot field v : Z)
| SAlloc (id : Z)
| SFree (id slot : Z).

Definition run_state (ctx : blyt_state_ctx_t) (c : state_cmd) : option (Z * blyt_state_ctx_t) :=
  match c with
  | SSet id slot field v tag => blyt_state_set ctx id slot field v tag
  | SSet64 id slot field v => blyt_state_set64 ctx id slot field v
  | SAlloc id => '(rc, _, ctx') ← blyt_state_alloc_slot ctx id; Some (rc, ctx')
  | SFree id slot => blyt_state_free_slot ctx id slot
  end.

(** Buffer ids and field indices are unsigned. *)
Definition cmd_args_ok (c : state_cmd) : Prop :=
  match c with
  | SSet id _ field _ _ | SSet64 id _ field _ => 0 <= id /\ 0 <= field
  | SAlloc id | SFree id _ => 0 <= id
  end.

(** Whether command [c], returning [rc], freed slot [slot] of buffer [id]. *)
Definition frees (id slot : Z) (c : state_cmd) (rc : Z) : bool :=
  match c with SFree id' slot' => (id' =? id) && (slot' =? slot) && (rc =? 0) | _ => false end.

(** Run the commands, counting the times [slot] of [id] is freed. *)
Fixpoint run_counting (id slot : Z) (ctx : blyt_state_ctx_t) (cs : list state_cmd)
    : option (nat * blyt_state_ctx_t) :=
  match cs with
  | [] => Some (0%nat, ctx)
  | c :: cs =>
      '(rc, ctx1) ← run_state ctx c;
      '(k, ctx2) ← run_counting id slot ctx1 cs;
      Some ((if frees id slot c rc then S k else k), ctx2)
  end.

Definition zero_inv (ctx : blyt_state_ctx_t) : Prop :=
  forall bi fi t tag bytes, field_tag ctx bi fi = Some tag -> allocated ctx bi t = false ->
    cell ctx bi fi t = Some bytes -> bytes = replicate (Z.to_nat (field_sizeof tag)) 0.

(** One call: no undefined behaviour, the invariants kept, and what happens to the
    generation and the allocation of any one slot. *)
Lemma run_state_ok ctx c id slot :
  ctx_wf ctx -> cmd_args_ok c ->
  exists rc ctx', run_state ctx c = Some (rc, ctx') /\ ctx_wf ctx' /\ n_buffers ctx' = n_buffers ctx
    /\ (zero_inv ctx -> zero_inv ctx')
    /\ gen_at ctx' (id - 1) slot
       = (if frees id slot c rc then blyt_gen_next (gen_at ctx (id - 1) slot) else gen_at ctx (id - 1) slot)
    /\ (frees id slot c rc = false -> allocated ctx (id - 1) slot = true -> allocated ctx' (id - 1) slot = true).
Proof.
  intros Hwf Hok. destruct c as [id' slot' field v tag|id' slot' field v|id'|id' slot']; cbn in Hok |- *.
  - destruct Hok. destruct (set_view ctx id' slot' field v tag Hwf)
      as [[-> _]|(tg & ctx' & -> & Ha & Ht & _ & Hwf' & [])]; [lia|lia|by exists (-1), ctx|].
    exists 0, ctx'. split_and!; [done|done|done| |done|by rewrite cw_alloc0].
    intros Hz bi fi t tag' bytes. rewrite cw_tag0, cw_alloc0, cw_cell0. intros Ht' Hal.
    destruct (_ && _ && _) eqn:E; [|by eapply Hz].
    assert (bi = id' - 1 /\ t = slot') as [-> ->] by lia. congruence.
  - destruct Hok. destruct (set64_view ctx id' slot' field v Hwf)
      as [[-> _]|(ctx' & -> & Ha & Ht & Hwf' & [])]; [lia|lia|by exists (-1), ctx|].
    exists 0, ctx'. split_and!; [done|done|done| |done|by rewrite cw_alloc0].
    intros Hz bi fi t tag' bytes. rewrite cw_tag0, cw_alloc0, cw_cell0. intros Ht' Hal.
    destruct (_ && _ && _) eqn:E; [|by eapply Hz].
    assert (bi = id' - 1 /\ t = slot') as [-> ->] by lia. congruence.
  - destruct (alloc_slot_view ctx id' Hwf Hok)
      as [[_ ->]|[_ [[-> _]|(s & ctx' & -> & _ & _ & _ & Hwf' & [] & Hg & Hc)]]]; cbn;
      [by exists (-1), ctx|by exists (-1), ctx|].
    exists 0, ctx'. split_and!; [done|done|done| |done|].
    + intros Hz bi fi t tag' bytes. rewrite sm_tag0, sm_alloc0, Hc. intros Ht' Hal.
      destruct (_ && _) eqn:E; [done|by eapply Hz].
    + intros _ Hal. rewrite sm_alloc0. by destruct (_ && _).
  - destruct (free_slot_view ctx id' slot' Hwf Hok)
      as [[-> _]|(ctx' & -> & _ & _ & _ & Hwf' & [[] Hg Hc])].
    { exists (-1), ctx. cbn. rewrite andb_false_r. done. }
    exists 0, ctx'. split_and!; [done|done|done| |..].
    + intros Hz bi fi t tag' bytes. rewrite sm_tag0, sm_alloc0, Hc. intros Ht' Hal. rewrite Ht'.
      destruct (_ && _) eqn:E; [congruence|by eapply Hz].
    + rewrite Hg. cbn. rewrite andb_true_r.
      replace (id - 1 =? id' - 1) with (id' =? id) by lia. by rewrite (Z.eqb_sym slot).
    + rewrite sm_alloc0. cbn. rewrite andb_true_r.
      replace (id - 1 =? id' - 1) with (id' =? id) by lia. rewrite (Z.eqb_sym slot). by intros ->.
Qed.

Lemma run_counting_ok cs ctx id slot :
  ctx_wf ctx -> Forall cmd_args_ok cs ->
  exists k ctx', run_counting id slot ctx cs = Some (k, ctx') /\ ctx_wf ctx'
    /\ n_buffers ctx' = n_buffers ctx /\ (zero_inv ctx -> zero_inv ctx')
    /\ gen_at ctx' (id - 1) slot = Nat.iter k blyt_gen_next (gen_at ctx (id - 1) slot)
    /\ (k = 0%nat -> allocated ctx (id - 1) slot = true -> allocated ctx' (id - 1) slot = true).
Proof.
  intros Hwf Hcs. revert ctx Hwf. induction Hcs as [|c cs Hc _ IH]; intros ctx Hwf.
  { exists 0%nat, ctx. done. }
  destruct (run_state_ok ctx c id slot Hwf Hc) as (rc & ctx1 & Hrun & Hwf1 & Hn1 & Hz1 & Hg1 & Ha1).
  destruct (IH ctx1 Hwf1) as (k & ctx2 & Hrun2 & Hwf2 & Hn2 & Hz2 & Hg2 & Ha2).
  cbn. rewrite Hrun. cbn. rewrite Hrun2. cbn. eexists _, ctx2. split; [done|].
  split_and!; [done|congruence|auto| |].
  - rewrite Hg2, Hg1. destruct (frees id slot c rc); [|done]. by rewrite Nat.iter_succ_r.
  - destruct (frees id slot c rc); [done|]. auto.
Qed.

(** ** Freshly booted contexts *)

Definition array_zero (b : blyt_buffer_ctx_t) (fi : Z) : Prop :=
  exists tag, zget (field_types b) fi = Some tag
    /\ zget (field_data b) fi = Some (Some (replicate (Z.to_nat (count b * field_sizeof tag)) 0)).

Record buf_fresh (b : blyt_buffer_ctx_t) : Prop := {
  fr_wf : buf_wf b;
  fr_bits : slot_bitset b = replicate 16 0;
  fr_gens : slot_gens b = replicate 128 1;
  fr_zero : forall fi, 0 <= fi < n_fields b -> array_zero b fi
}.

Definition all_fresh (ctx : blyt_state_ctx_t) : Prop :=
  forall bi b, 0 <= bi < n_buffers ctx -> zget (buffers ctx) bi = Some b -> buf_fresh b.

Lemma array_zero_ok b fi : is_u32 (count b) -> array_zero b fi -> array_ok b fi.
Proof.
  intros Hc (tag & Ht & Hd). eexists tag, _. split_and!; [done|done| |apply bytes_ok_zeros].
  pose proof (sizeof_range tag). unfold len, is_u32 in *. rewrite length_replicate. nia.
Qed.

Lemma bit_of_zeros t : 0 <= t < 128 -> bit_of (replicate 16 0) t = Some false.
Proof.
  intros Ht. destruct (bit_of_val (replicate 16 0) t eq_refl Ht) as (byte & Hb & ->).
  rewrite zget_replicate in Hb by (Z.div_mod_to_equations; lia). injection Hb as <-. by rewrite Z.bits_0.
Qed.

Lemma sub_zeros n off k : sub (replicate n 0) off k = replicate (Nat.min (Z.to_nat k) (n - Z.to_nat off)) 0.
Proof. unfold sub. by rewrite drop_replicate, take_replicate. Qed.

Lemma fresh_allocated ctx bi t :
  all_fresh ctx -> 0 <= bi < n_buffers ctx -> allocated ctx bi t = false.
Proof.
  intros Hf Hbi. unfold allocated. destruct (zget (buffers ctx) bi) as [b|] eqn:Hb; [|done].
  destruct (Hf bi b Hbi Hb) as [Hbw Hbits _ _]. unfold slot_is_allocated, BLYT_MAX_SLOTS.
  destruct (_ || _ || _) eqn:E; [done|]. by rewrite Hbits, bit_of_zeros by lia.
Qed.

Lemma fresh_zero_inv ctx : ctx_wf ctx -> all_fresh ctx -> zero_inv ctx.
Proof.
  intros Hwf Hf bi fi t tag bytes Ht _. unfold field_tag, cell in *.
  destruct ((0 <=? bi) && (bi <? n_buffers ctx)) eqn:E; [|done].
  destruct (zget (buffers ctx) bi) as [b|] eqn:Hb; [|done]. cbn in *.
  destruct ((0 <=? fi) && (fi <? n_fields b)) eqn:E2; [|done].
  destruct (Hf bi b ltac:(lia) Hb) as [Hbw _ _ Hz]. destruct (Hz fi ltac:(lia)) as (tag' & Ht' & Hd).
  rewrite Ht in Ht'. injection Ht' as <-. rewrite Ht. cbn. unfold field_array. rewrite Hd. cbn.
  pose proof (sizeof_range tag).
  intros (H1 & H2 & H3 & ->)%rd_inv. unfold len in H3. rewrite length_replicate in H3.
  rewrite sub_zeros. f_equal. lia.
Qed.

(** *** [init] *)

Section init_spec.
Variable calloc_ok : nat -> Z -> bool.

Lemma init_fields_spec fds fi k b :
  0 <= fi -> fi + len fds <= 256 -> len (field_types b) = 256 -> len (field_data b) = 256 ->
  len (field_names b) = 256 -> (forall j, 0 <= j < fi -> array_zero b j) ->
  exists ok k' b', init_fields calloc_ok fds fi k b = Some (ok, k', b')
    /\ count b' = count b /\ n_fields b' = n_fields b /\ slot_bitset b' = slot_bitset b
    /\ slot_gens b' = slot_gens b
    /\ len (field_types b') = 256 /\ len (field_data b') = 256
    /\ (ok = true -> forall j, 0 <= j < fi + len fds -> array_zero b' j).
Proof.
  revert fi k b. induction fds as [|[fd|] fds IH]; intros fi k b Hfi Hle Ht Hd Hn Hz.
  - exists true, k, b. split_and!; try done. intros _ j Hj. apply Hz. change (len []) with 0 in Hj. lia.
  - assert (len (Some fd :: fds) = 1 + len fds) as Hlen by (unfold len; cbn; lia). rewrite Hlen in *.
    pose proof (len_nonneg fds). cbn.
    rewrite !zset_Some by lia. cbn.
    destruct (calloc_ok k _) eqn:Ek.
    + match goal with |- context [init_fields _ fds (fi + 1) (S k) ?x] =>
        destruct (IH (fi + 1) (S k) x) as (ok & k' & b' & -> & Hc' & Hn' & Hb' & Hg' & Ht' & Hd' & Hz')
      end; [lia|lia|by cbn; rewrite len_insert..| |].
      2: { eexists _, _, _. split; [done|]. cbn in *. split_and!; try done.
           intros Hok j Hj. apply (Hz' Hok). lia. }
      intros j Hj. unfold array_zero. cbn. destruct (decide (fi = j)) as [<-|Hne].
      * exists (fd_type_tag fd). rewrite !zget_insert_eq by lia. done.
      * rewrite !zget_insert_ne by lia. apply Hz. lia.
    + eexists _, _, _. split; [done|]. cbn. rewrite !len_insert. split_and!; done.
  - exists false, k, b. done.
Qed.

Definition decl_ok (d : option BufferDecl) : Prop := exists bd, d = Some bd /\ is_u32 (bd_count bd).

Record init_inv (bi : Z) (ctx : blyt_state_ctx_t) : Prop := {
  ii_n : n_buffers ctx = bi;
  ii_len : len (buffers ctx) = 32;
  ii_done : all_fresh ctx;
  ii_rest : forall j, bi <= j < 32 -> zget (buffers ctx) j = Some zero_buffer
}.

Lemma destroy_n ctx ctx' : blyt_state_ctx_destroy ctx = Some ctx' -> n_buffers ctx' = 0.
Proof. unfold blyt_state_ctx_destroy. destruct (for_each _ _ _); cbn; [|done]. by intros [= <-]. Qed.

Lemma init_buffers_spec decls recs hash bi k ctx rc ctx' :
  Forall decl_ok decls -> 0 <= bi <= 32 -> init_inv bi ctx ->
  init_buffers calloc_ok decls recs hash bi k ctx = Some (rc, ctx') ->
  (rc = 0 /\ init_inv (Z.min 32 (bi + len decls)) ctx') \/ (rc = -2 /\ n_buffers ctx' = 0).
Proof.
  intros Hds. revert bi k ctx. induction Hds as [|d decls (bd & -> & Hcnt) _ IH]; intros bi k ctx Hbi Hinv.
  { cbn. intros [= <- <-]. left. split; [done|]. change (len []) with 0. by replace (Z.min _ _) with bi by lia. }
  assert (len (Some bd :: decls) = 1 + len decls) as -> by (unfold len; cbn; lia). pose proof (len_nonneg decls).
  cbn. unfold BLYT_MAX_BUFFERS. destruct (bi >=? 32) eqn:E32.
  { intros [= <- <-]. left. split; [done|]. by replace (Z.min _ _) with bi by lia. }
  destruct Hinv as [Hn Hl Hdone Hrest]. rewrite Hrest by lia. cbn.
  assert (forall b (r : option (Z * blyt_state_ctx_t)),
    r = (bs ← zset (buffers ctx) bi b; ctx'0 ← blyt_state_ctx_destroy (MkCtx (n_buffers ctx) bs); Some (-2, ctx'0)) ->
    r = Some (rc, ctx') -> rc = -2 /\ n_buffers ctx' = 0) as Hfail.
  { intros b r -> Hr. destruct (zset _ _ _) as [bs|]; cbn in Hr; [|done].
    destruct (blyt_state_ctx_destroy _) as [c|] eqn:Ed; cbn in Hr; [|done].
    injection Hr as <- <-. split; [done|by eapply destroy_n]. }
  destruct (find_record recs (bd_record_name bd)) as [[rdecl|]|]; cbn; [|intros Hr; right; by eapply Hfail|done].
  destruct (_ || _) eqn:Enf; [intros Hr; right; by eapply Hfail|]. unfold BLYT_MAX_FIELDS in Enf.
  match goal with |- context [init_fields _ ?fds 0 k ?x] =>
    destruct (init_fields_spec fds 0 k x)
      as (ok & k' & b3 & -> & Hc3 & Hn3 & Hb3 & Hg3 & Ht3 & Hd3 & Hz3)
  end; cycle 6.
  - cbn [mbind option_bind]. destruct ok; cbn [negb]; [|intros Hr; right; by eapply Hfail].
    rewrite zset_Some by lia. cbn [mbind option_bind]. intros Hr. cbn in Hc3, Hn3, Hb3, Hg3.
    apply IH in Hr; [by replace (bi + (1 + len decls)) with (bi + 1 + len decls) by lia|lia|].
    pose proof (Hz3 eq_refl) as Hz. pose proof (len_nonneg (default [] (rd_fields rdecl))).
    assert (buf_fresh (with_slots (slot_bitset b3) (replicate 128 1) b3)) as Hfresh.
    { split; cbn; [|done|done|].
      - split; cbn; rewrite ?Hc3, ?Hn3; try done; try lia.
        + intros fi Hfi. apply (array_zero_ok (with_slots (slot_bitset b3) (replicate 128 1) b3)); cbn;
            [by rewrite Hc3|]. apply Hz. lia.
        + rewrite Hb3. split; [done|apply (bytes_ok_zeros 16)].
        + split; [done|]. by apply (Forall_replicate is_u16 128).
      - rewrite Hn3. intros fi Hfi. apply Hz. lia. }
    split; cbn; [lia|by rewrite len_insert| |].
    + intros bj b Hbj. cbn in Hbj. cbn. destruct (decide (bi = bj)) as [<-|Hne].
      * rewrite zget_insert_eq by lia. by intros [= <-].
      * rewrite zget_insert_ne by lia. apply Hdone. lia.
    + intros j Hj. rewrite zget_insert_ne by lia. apply Hrest. lia.
  - lia.
  - lia.
  - done.
  - done.
  - done.
  - intros j Hj. lia.
Qed.
End init_spec.

(** *** What is built

    The type tags of a record, in order. *)
Definition tags (fds : list (option FieldDecl)) : list Z := (fun fd => match fd with Some fd => fd_type_tag fd | None => 0 end) <$> fds.

(** Buffer [b] is what the host builds for declaration [bd] with record [r]. *)
Record built (hash : Z) (b : blyt_buffer_ctx_t) (bd : BufferDecl) (r : RecordDecl) : Prop := {
  bu_count : count b = bd_count bd;
  bu_nf : n_fields b = len (default [] (rd_fields r));
  bu_types : forall fi, 0 <= fi < n_fields b -> zget (field_types b) fi = zget (tags (default [] (rd_fields r))) fi;
  bu_name : name b = bd_name bd;
  bu_hash : schema_hash b = hash
}.

Lemma init_fields_types calloc_ok fds fi k b b' k' :
  0 <= fi -> init_fields calloc_ok fds fi k b = Some (true, k', b') ->
  count b' = count b /\ n_fields b' = n_fields b /\ name b' = name b /\ schema_hash b' = schema_hash b
  /\ (forall j, j < fi -> zget (field_types b') j = zget (field_types b) j)
  /\ (forall j, 0 <= j < len fds -> zget (field_types b') (fi + j) = zget (tags fds) j).
Proof.
  revert fi k b. induction fds as [|[fd|] fds IH]; intros fi k b Hfi Hr; cbn in Hr; [| |done].
  { injection Hr as <- <-. split_and!; try done. intros j. change (len []) with 0. lia. }
  destruct (zset (field_types b) fi _) as [ts|] eqn:Ets; [|done]. cbn in Hr. destruct (zset (field_names b) fi _) as [ns|]; [|done]. cbn in Hr.
  destruct (zset (field_data b) fi _) as [ds|]; [|done]. cbn in Hr. destruct (calloc_ok k _); [|done].
  apply zset_inv in Ets as [? ->]. apply IH in Hr as (H1 & H2 & H3 & H4 & H5 & H6); [|lia]. cbn in *.
  split_and!; [done..| |].
  - intros j Hj. rewrite H5 by lia. by rewrite zget_insert_ne by lia.
  - intros j Hj. rewrite len_cons in Hj. destruct (decide (j = 0)) as [->|Hne].
    + rewrite Z.add_0_r, H5 by lia. by rewrite zget_insert_eq by lia.
    + replace (fi + j) with (fi + 1 + (j - 1)) by lia. rewrite H6 by lia. rewrite !zget_lookup by lia.
      by replace (Z.to_nat j) with (S (Z.to_nat (j - 1))) by lia.
Qed.

Lemma init_buffers_built calloc_ok decls recs hash bi k ctx ctx' :
  0 <= bi -> (forall d, d ∈ decls -> is_Some d) ->
  init_buffers calloc_ok decls recs hash bi k ctx = Some (0, ctx') ->
  (forall j, j < bi -> zget (buffers ctx') j = zget (buffers ctx) j)
  /\ forall j bd, 0 <= j -> bi + j < 32 -> zget decls j = Some (Some bd) ->
       exists r b, find_record recs (bd_record_name bd) = Some (Some r) /\ zget (buffers ctx') (bi + j) = Some b
         /\ built hash b bd r.
Proof.
  revert bi k ctx. induction decls as [|[bd|] decls IH]; intros bi k ctx Hbi Hsome Hr; cbn in Hr.
  { injection Hr as <-. split; [done|]. intros j bd Hj _ Hd. by rewrite zget_lookup in Hd by done. }
  2: { destruct (Hsome None) as [? ?]; [left|done]. }
  unfold BLYT_MAX_BUFFERS in Hr. destruct (Z.geb_spec bi 32) as [Hge|Hlt]; [injection Hr as <-; split; [done|]; intros; lia|].
  destruct (zget (buffers ctx) bi) as [b0|] eqn:Hb0; [|done]. cbn [mbind option_bind] in Hr.
  assert (forall b, (bs ← zset (buffers ctx) bi b; c ← blyt_state_ctx_destroy (MkCtx (n_buffers ctx) bs); Some (-2, c)) = Some (0, ctx') -> False) as Hfail.
  { intros b. destruct (zset (buffers ctx) bi b); cbn; [|congruence]. destruct (blyt_state_ctx_destroy _); cbn; congruence. }
  destruct (find_record recs (bd_record_name bd)) as [[r|]|] eqn:Ef; cbn [mbind option_bind] in Hr; [|by apply Hfail in Hr|done].
  destruct (_ || _) eqn:Enf in Hr; [by apply Hfail in Hr|].
  match type of Hr with context [init_fields calloc_ok ?fds 0 k ?x] => destruct (init_fields calloc_ok fds 0 k x) as [[[ok k'] b3]|] eqn:Ei end; [|done].
  cbn [mbind option_bind] in Hr. destruct ok; cbn [negb] in Hr; [|by apply Hfail in Hr].
  apply init_fields_types in Ei as (H1 & H2 & H3 & H4 & _ & H6); [|lia]. cbn in H1, H2, H3, H4.
  destruct (zset (buffers ctx) bi _) as [bs|] eqn:Ebs; [|done]. cbn [mbind option_bind] in Hr. apply zset_inv in Ebs as [? ->].
  apply IH in Hr as [Hlow Hin]; [|lia|intros d Hd; apply Hsome; by right]. cbn [buffers] in *. split.
  - intros j Hj. rewrite Hlow by lia. destruct (decide (0 <= j)); [by rewrite zget_insert_ne by lia|]. unfold zget. by case_match; [lia|].
  - intros j bd' Hj Hj32 Hbd. destruct (decide (j = 0)) as [->|Hne].
    + rewrite zget_lookup in Hbd by lia. injection Hbd as <-. eexists r, _. split; [done|]. rewrite Z.add_0_r, Hlow by lia.
      split; [by apply zget_insert_eq|]. split; cbn; [done|done| |done|done]. intros fi Hfi. rewrite <-H6 by lia. done.
    + destruct (Hin (j - 1) bd') as (r' & b & ? & Hb & ?); [lia|lia| |].
      { rewrite !zget_lookup in * by lia. by replace (Z.to_nat j) with (S (Z.to_nat (j - 1))) in Hbd by lia. }
      exists r', b. replace (bi + j) with (bi + 1 + (j - 1)) by lia. done.
Qed.

Lemma init_inv_zero : init_inv 0 zero_ctx.
Proof.
  split; [done|done| |].
  - intros bi b Hbi. cbn in Hbi. lia.
  - intros j Hj. apply zget_replicate. lia.
Qed.

Lemma init_inv_wf bi ctx : 0 <= bi <= 32 -> init_inv bi ctx -> ctx_wf ctx.
Proof. intros ? []. split; [lia|done|]. intros bj b Hbj Hb. by apply (fr_wf _ (ii_done0 bj b Hbj Hb)). Qed.

(** ** Snapshots *)

(** [b'] is [b] with other data and slots, its unused pointers untouched. *)
Definition shape_rel (b b' : blyt_buffer_ctx_t) : Prop :=
  b' = with_slots (slot_bitset b') (slot_gens b') (with_data (field_data b') b)
  /\ len (field_data b') = len (field_data b)
  /\ forall fj, n_fields b <= fj -> zget (field_data b') fj = zget (field_data b) fj.

Record ctx_rel (ctx ctx' : blyt_state_ctx_t) : Prop := {
  cr_n : n_buffers ctx' = n_buffers ctx;
  cr_len : len (buffers ctx') = len (buffers ctx);
  cr_out : forall bi, n_buffers ctx <= bi -> zget (buffers ctx') bi = zget (buffers ctx) bi;
  cr_in : forall bi b b', 0 <= bi < n_buffers ctx -> zget (buffers ctx) bi = Some b ->
    zget (buffers ctx') bi = Some b' -> shape_rel b b'
}.

Lemma shape_rel_refl b : shape_rel b b.
Proof. by destruct b. Qed.

Lemma shape_rel_trans b1 b2 b3 : shape_rel b1 b2 -> shape_rel b2 b3 -> shape_rel b1 b3.
Proof.
  intros (E1 & L1 & H1) (E2 & L2 & H2). split_and!; [|congruence|].
  - rewrite E2. rewrite E1. done.
  - intros fj Hfj. rewrite H2, H1; [done|done|]. rewrite E1. done.
Qed.

Lemma shape_rel_sym b b' : shape_rel b b' -> shape_rel b' b.
Proof.
  intros (E & Hl & Hf). split_and!; [rewrite E; by destruct b|done|]. intros fj Hfj. symmetry. apply Hf. by rewrite E in Hfj.
Qed.

Lemma ctx_rel_sym c c' : ctx_rel c c' -> ctx_rel c' c.
Proof.
  intros [N L O I]. split; [done|done| |]; rewrite N; [intros bi Hbi; symmetry; by apply O|].
  intros bi b b' Hbi Hb Hb'. by apply shape_rel_sym, (I bi).
Qed.

Lemma ctx_rel_refl ctx : ctx_rel ctx ctx.
Proof. split; [done..|]. intros bi b b' _ Hb Hb'. simplify_eq. apply shape_rel_refl. Qed.

Lemma ctx_rel_trans c1 c2 c3 : ctx_rel c1 c2 -> ctx_rel c2 c3 -> ctx_rel c1 c3.
Proof.
  intros [N1 L1 O1 I1] [N2 L2 O2 I2]. split; [congruence|congruence| |].
  - intros bi Hbi. by rewrite O2, O1 by lia.
  - intros bi b b' Hbi Hb Hb'. apply zget_Some in Hb as Hbl. destruct Hbl as [Hbl _].
    destruct (zget_is_Some (buffers c2) bi) as [b2 Hb2]; [lia|].
    eapply shape_rel_trans; [by eapply I1|]. eapply I2; [rewrite N1; exact Hbi|done|done].
Qed.

Lemma ctx_rel_upd ctx bi b b' bs :
  bi < n_buffers ctx -> zget (buffers ctx) bi = Some b -> shape_rel b b' ->
  zset (buffers ctx) bi b' = Some bs -> ctx_rel ctx (MkCtx (n_buffers ctx) bs).
Proof.
  intros Hbi Hb Hsh (Hr & ->)%zset_inv. split; cbn; [done|by rewrite len_insert| |].
  - intros bj Hbj. rewrite zget_insert_ne by lia. done.
  - intros bj c c' Hbj Hc Hc'. destruct (decide (bi = bj)) as [<-|Hne].
    + rewrite zget_insert_eq in Hc' by lia. by simplify_eq.
    + rewrite zget_insert_ne in Hc' by lia. simplify_eq. apply shape_rel_refl.
Qed.

Lemma locate_inv ctx id slot field bi b fi tag :
  locate ctx id slot field = Some (Some (bi, b, fi, tag)) ->
  bi < n_buffers ctx /\ zget (buffers ctx) bi = Some b /\ fi < n_fields b.
Proof.
  unfold locate, find_buffer. destruct (_ || _) eqn:E; [done|].
  destruct (zget (buffers ctx) (id - 1)) as [c|] eqn:Hc; cbn; [|done].
  destruct (slot_is_allocated c slot) as [[]|]; cbn; [|done|done].
  destruct ((field =? 0) || (field >? n_fields c)) eqn:E2; [done|].
  destruct (zget (field_types c) (field - 1)); cbn; [|done]. intros [= <- <- <- <-]. split_and!; [lia|done|lia].
Qed.

Lemma store_rel ctx bi fi b off bytes ctx' :
  bi < n_buffers ctx -> zget (buffers ctx) bi = Some b -> fi < n_fields b ->
  store_field ctx bi fi b off bytes = Some ctx' -> ctx_rel ctx ctx'.
Proof.
  intros Hbi Hb Hfi. unfold store_field. destruct (field_array b fi) as [d|]; cbn; [|done].
  destruct (rd d off (len bytes)); cbn; [|done].
  destruct (zset (field_data b) fi _) as [fd|] eqn:Hfd; cbn; [|done].
  destruct (zset (buffers ctx) bi _) as [bs|] eqn:Hbs; cbn; [|done]. intros [= <-].
  eapply ctx_rel_upd; [done|done| |done]. apply zset_inv in Hfd as [? ->].
  split_and!; [done|by cbn; rewrite len_insert|]. intros fj Hfj. cbn. by rewrite zget_insert_ne by lia.
Qed.

Lemma run_state_rel ctx c rc ctx' : run_state ctx c = Some (rc, ctx') -> ctx_rel ctx ctx'.
Proof.
  destruct c as [id slot field v tt|id slot field v|id|id slot]; cbn.
  - unfold blyt_state_set. destruct (locate ctx id slot field) as [[[[[bi b] fi] tag]|]|] eqn:Hl; cbn; [|by intros ?; simplify_eq/=; apply ctx_rel_refl|done].
    apply locate_inv in Hl as (? & ? & ?). case_match; [by intros ?; simplify_eq/=; apply ctx_rel_refl|].
    destruct (store_field _ _ _ _ _ _) eqn:Hs; cbn; [|done]. intros ?; simplify_eq/=. by eapply store_rel.
  - unfold blyt_state_set64. destruct (locate ctx id slot field) as [[[[[bi b] fi] tag]|]|] eqn:Hl; cbn [mbind option_bind]; [|by intros ?; simplify_eq/=; apply ctx_rel_refl|done].
    apply locate_inv in Hl as (? & ? & ?). case_match; [by intros ?; simplify_eq/=; apply ctx_rel_refl|].
    destruct (store_field _ _ _ _ _ _) eqn:Hs; cbn; [|done]. intros ?; simplify_eq/=. by eapply store_rel.
  - destruct (blyt_state_alloc_slot ctx id) as [[[rc0 s0] c0]|] eqn:Ha; cbn; [|done].
    intros [= <- <-]. revert Ha.
    unfold blyt_state_alloc_slot, find_buffer. destruct (_ || _) eqn:E; [by intros ?; simplify_eq/=; apply ctx_rel_refl|].
    assert (id - 1 < n_buffers ctx) by lia.
    destruct (zget (buffers ctx) (id - 1)) as [b|] eqn:Hb; cbn [mbind option_bind]; [|done].
    destruct (alloc_scan 129 b 0) as [[s|]|]; cbn [mbind option_bind]; [|by intros ?; simplify_eq/=; apply ctx_rel_refl|done].
    destruct (zget (slot_bitset b) (s / 8)); cbn [mbind option_bind]; [|done].
    destruct (zset (slot_bitset b) _ _) as [bits|]; cbn [mbind option_bind]; [|done].
    destruct (zset (buffers ctx) _ _) as [bs|] eqn:Hbs; cbn; [|done]. intros ?; simplify_eq/=.
    eapply ctx_rel_upd; [done|done| |done]. by destruct b.
  - unfold blyt_state_free_slot, find_buffer. destruct (_ || _) eqn:E; [by intros ?; simplify_eq/=; apply ctx_rel_refl|].
    assert (id - 1 < n_buffers ctx) by lia.
    destruct (zget (buffers ctx) (id - 1)) as [b|] eqn:Hb; cbn [mbind option_bind]; [|done].
    destruct (_ || _ || _); [by intros ?; simplify_eq/=; apply ctx_rel_refl|].
    destruct (slot_is_allocated b slot) as [[]|]; cbn [mbind option_bind negb]; [|by intros ?; simplify_eq/=; apply ctx_rel_refl|done].
    destruct (zget (slot_bitset b) _); cbn [mbind option_bind]; [|done].
    destruct (zset (slot_bitset b) _ _) as [bits|]; cbn [mbind option_bind]; [|done].
    destruct (for_each _ _ _) as [fd|] eqn:Hfd; cbn [mbind option_bind]; [|done].
    destruct (zget (slot_gens b) _); cbn [mbind option_bind]; [|done].
    destruct (zset (slot_gens b) _ _) as [gens|]; cbn [mbind option_bind]; [|done].
    destruct (zset (buffers ctx) _ _) as [bs|] eqn:Hbs; cbn; [|done]. intros ?; simplify_eq/=.
    apply for_each_inv in Hfd as (Hl & _ & Hout).
    eapply ctx_rel_upd; [done|done| |done]. by split_and!.
Qed.

Lemma run_counting_rel cs id slot ctx k ctx' :
  run_counting id slot ctx cs = Some (k, ctx') -> ctx_rel ctx ctx'.
Proof.
  revert ctx k ctx'; induction cs as [|c cs IH]; intros ctx k ctx'; cbn.
  { intros ?; simplify_eq/=. apply ctx_rel_refl. }
  destruct (run_state ctx c) as [[rc c1]|] eqn:H1; cbn; [|done].
  destruct (run_counting id slot c1 cs) as [[k2 c2]|] eqn:H2; cbn; [|done]. intros ?; simplify_eq/=.
  eapply ctx_rel_trans; [by eapply run_state_rel|by eapply IH].
Qed.

(** What the snapshot records of a buffer. *)
Definition snap_of (b : blyt_buffer_ctx_t) (sb : snap_buffer) : Prop :=
  sb_count sb = count b /\ sb_n_fields sb = n_fields b
  /\ sb_slot_bitset sb = slot_bitset b /\ sb_slot_gens sb = slot_gens b
  /\ forall fi, 0 <= fi < n_fields b -> zget (sb_field_data sb) fi = zget (field_data b) fi.

Lemma snapshot_fields_ok ok b k fi :
  buf_wf b -> 0 <= fi -> fi + Z.of_nat k <= n_fields b ->
  exists r, snapshot_fields ok b k fi = Some r
    /\ (r = None -> exists j, fi <= j < n_fields b /\ ok j = false)
    /\ forall fd, r = Some fd -> length fd = k /\ forall j, 0 <= j < Z.of_nat k -> zget fd j = zget (field_data b) (fi + j).
Proof.
  intros Hb. revert fi. induction k as [|k IH]; intros fi Hfi Hle; cbn [snapshot_fields].
  { eexists. split; [done|]. split; [done|]. intros fd [= <-]. split; [done|lia]. }
  destruct (wf_arrays _ Hb fi ltac:(lia)) as (tag & d & Ht & Hd & Hl & _). rewrite Ht. cbn [mbind option_bind].
  destruct (ok fi) eqn:Eok; cbn [negb]; [|eexists; split; [done|]; split; [intros _; exists fi; split; [lia|done]|done]].
  rewrite Hd. cbn [mbind option_bind]. pose proof (len_nonneg d). rewrite rd_Some by lia. cbn [mbind option_bind].
  destruct (IH (fi + 1)) as (r & -> & Hnone & Hsome); [lia|lia|]. cbn [mbind option_bind]. eexists. split; [done|].
  destruct r as [fd|]; [split; [done|]|split; [intros _; destruct Hnone as (j & ? & ?); [done|exists j; split; [lia|done]]|done]].
  intros fd' [= <-]. destruct (Hsome fd eq_refl) as [Hlen Hz]. split; [cbn; lia|]. intros j Hj.
  destruct (decide (j = 0)) as [->|]; [rewrite Z.add_0_r, Hd; cbn; by rewrite <-Hl, sub_0_all|].
  specialize (Hz (j - 1) ltac:(lia)). replace (fi + 1 + (j - 1)) with (fi + j) in Hz by lia. rewrite <-Hz, !zget_lookup by lia.
  by replace (Z.to_nat j) with (S (Z.to_nat (j - 1))) by lia.
Qed.

Lemma snapshot_buffer_ok ok b :
  buf_wf b -> exists r, snapshot_buffer ok b = Some r /\ (r = None -> exists fi, 0 <= fi < n_fields b /\ ok fi = false)
    /\ forall sb, r = Some sb -> snap_of b sb.
Proof.
  intros Hb. pose proof (wf_nf _ Hb). unfold snapshot_buffer.
  destruct (snapshot_fields_ok ok b (Z.to_nat (n_fields b)) 0 Hb) as (r & -> & Hnone & Hsome); [lia|lia|]. cbn [mbind option_bind].
  eexists. split; [done|]. destruct r as [fd|]; [split; [done|]|by split; [intros _; apply Hnone|]].
  intros sb [= <-]. destruct (Hsome fd eq_refl) as [Hl Hz]. split_and!; try done. cbn. intros fi Hfi.
  rewrite zget_app_l by (unfold len; lia). rewrite Hz by lia. by rewrite Z.add_0_l.
Qed.

Lemma snapshot_buffers_ok malloc_ok bs bi :
  Forall buf_wf bs -> exists r, snapshot_buffers malloc_ok bs bi = Some r
    /\ (r = None -> exists x, malloc_ok x = false) /\ forall sbs, r = Some sbs -> Forall2 snap_of bs sbs.
Proof.
  intros Hbs. revert bi. induction Hbs as [|b bs Hb _ IH]; intros bi; cbn [snapshot_buffers].
  { eexists. split; [done|]. split; [done|]. intros sbs [= <-]. constructor. }
  destruct (snapshot_buffer_ok (fun fi => malloc_ok (Some (bi, fi))) b Hb) as (r & -> & Hnone & Hsome). cbn [mbind option_bind].
  destruct r as [sb|]; [|eexists; split; [done|]; split; [intros _; destruct Hnone as (fi & _ & ?); [done|by eexists]|done]].
  destruct (IH (bi + 1)) as (r & -> & Hn & Hs). cbn [mbind option_bind]. eexists. split; [done|].
  destruct r as [sbs|]; [split; [done|]|by split; [intros _; apply Hn|]]. intros sbs' [= <-]. constructor; [by apply Hsome|by apply Hs].
Qed.

Lemma snapshot_ok malloc_ok ctx :
  ctx_wf ctx -> exists r, blyt_state_ctx_snapshot malloc_ok ctx = Some r
    /\ (r = None -> exists x, malloc_ok x = false)
    /\ forall snap, r = Some snap -> sn_n_buffers snap = n_buffers ctx
         /\ forall bi b, 0 <= bi < n_buffers ctx -> zget (buffers ctx) bi = Some b ->
              exists sb, zget (sn_buffers snap) bi = Some sb /\ snap_of b sb.
Proof.
  intros Hwf. unfold blyt_state_ctx_snapshot. pose proof (wf_nb _ Hwf). pose proof (wf_bufs _ Hwf).
  destruct (malloc_ok None) eqn:E; cbn [negb]; [|eexists; split; [done|]; split; [intros _; by eexists|done]].
  destruct (snapshot_buffers_ok malloc_ok (take (Z.to_nat (n_buffers ctx)) (buffers ctx)) 0) as (r & -> & Hnone & Hsome).
  { apply Forall_lookup. intros bi b (Hb & Hlt)%lookup_take_Some. apply (wf_buf _ Hwf (Z.of_nat bi)); [lia|].
    by rewrite zget_lookup, Nat2Z.id by lia. }
  cbn [mbind option_bind]. eexists. split; [done|]. destruct r as [sbs|]; [split; [done|]|by split; [intros _; apply Hnone|]].
  intros snap [= <-]. split; [done|]. cbn. intros bi b Hbi Hb. rewrite zget_lookup in Hb by lia.
  destruct (Forall2_lookup_l _ _ _ (Z.to_nat bi) b (Hsome sbs eq_refl)) as (sb & Hsb & Hs); [rewrite lookup_take_lt by lia; done|].
  exists sb. rewrite zget_lookup by lia. done.
Qed.

Lemma restore_buffer_ok b b' sb :
  buf_wf b -> buf_wf b' -> shape_rel b b' -> snap_of b sb -> restore_buffer sb b' = Some b.
Proof.
  intros Hb Hb' (Heq & Hlen & Hout) (Hc & Hn & Hbits & Hgens & Hdata).
  assert (count b' = count b /\ n_fields b' = n_fields b /\ field_types b' = field_types b) as (E1 & E2 & E3)
    by (by rewrite Heq).
  unfold restore_buffer. rewrite Hn, Hc, E1, E2, E3, !Z.eqb_refl. cbn [negb orb].
  pose proof (wf_nf _ Hb). pose proof (wf_data _ Hb). pose proof (wf_data _ Hb').
  assert (forall fi, 0 <= fi < n_fields b -> exists tag d d', zget (field_types b) fi = Some tag
    /\ zget (field_data b) fi = Some (Some d) /\ zget (field_data b') fi = Some (Some d')
    /\ rd d 0 (count b * field_sizeof tag) = Some d /\ len d' = len d) as Hz.
  { intros fi Hfi. destruct (wf_arrays _ Hb fi Hfi) as (tag & d & Ht & Hd & Hl & _).
    destruct (wf_arrays _ Hb' fi ltac:(lia)) as (tag' & d' & Ht' & Hd' & Hl' & _).
    rewrite E3, Ht in Ht'. injection Ht' as <-. rewrite E1 in Hl'. exists tag, d, d'.
    pose proof (len_nonneg d). split_and!; [done..| |lia]. rewrite rd_Some by lia. by rewrite <-Hl, sub_0_all. }
  match goal with |- context [for_each _ ?f _] => set (body := f) end.
  assert (forall fi d', 0 <= fi < n_fields b -> zget (field_data b') fi = Some d' ->
    body fi d' = zget (field_data b) fi) as Hbody.
  { intros fi x Hfi Hx. destruct (Hz fi Hfi) as (tag & d & d' & Ht & Hd & Hd' & Hrd & Hl).
    rewrite Hx in Hd'. injection Hd' as ->. unfold body. rewrite Hdata, Hd by done. cbn. rewrite Ht. cbn.
    rewrite Hrd. cbn. pose proof (len_nonneg d). rewrite rd_Some by lia. cbn. do 2 f_equal.
    unfold splice, len in *. cbn. rewrite drop_ge by lia. by rewrite app_nil_r. }
  destruct (for_each_spec (n_fields b) body (field_data b')) as (fd & -> & Hfl & Hin & Hfout).
  { lia. }
  { intros fi x Hfi Hx. rewrite (Hbody fi x Hfi Hx). destruct (Hz fi Hfi) as (? & ? & ? & _ & -> & _). eauto. }
  cbn [mbind option_bind]. f_equal. rewrite Hbits, Hgens.
  assert (fd = field_data b) as ->.
  { apply list_eq_zget; [lia|]. intros fi Hfi. destruct (decide (fi < n_fields b)).
    - rewrite Hin by lia. destruct (zget_is_Some (field_data b') fi) as [x Hx]; [lia|].
      rewrite Hx. cbn. apply Hbody; [lia|done].
    - rewrite Hfout, Hout by lia. done. }
  rewrite Heq. by destruct b.
Qed.

Lemma restore_ok malloc_ok ctx ctx' snap :
  ctx_wf ctx -> ctx_wf ctx' -> ctx_rel ctx ctx' -> blyt_state_ctx_snapshot malloc_ok ctx = Some (Some snap) ->
  blyt_state_ctx_restore_snapshot ctx' (Some snap) = Some ctx.
Proof.
  intros Hwf Hwf' [Hn Hl Hout Hin] Hsnap. destruct (snapshot_ok malloc_ok ctx Hwf) as (r & Hs' & _ & Hr).
  rewrite Hsnap in Hs'. injection Hs' as <-. destruct (Hr snap eq_refl) as [Hsn Hsb]. pose proof (wf_nb _ Hwf). pose proof (wf_bufs _ Hwf).
  unfold blyt_state_ctx_restore_snapshot. rewrite Hsn, Hn, Z.eqb_refl. cbn [negb].
  match goal with |- context [for_each _ ?f _] => set (body := f) end.
  assert (forall bi b', 0 <= bi < n_buffers ctx -> zget (buffers ctx') bi = Some b' ->
    body bi b' = zget (buffers ctx) bi) as Hbody.
  { intros bi b' Hbi Hb'. destruct (zget_is_Some (buffers ctx) bi) as [b Hb]; [lia|].
    destruct (Hsb bi b Hbi Hb) as (sb & Hsb' & Hof). unfold body. rewrite Hsb', Hb. cbn.
    apply restore_buffer_ok; [exact (wf_buf ctx Hwf bi b Hbi Hb)| |exact (Hin bi b b' Hbi Hb Hb')|done].
    apply (wf_buf ctx' Hwf' bi); [by rewrite Hn|done]. }
  destruct (for_each_spec (n_buffers ctx) body (buffers ctx')) as (bs & -> & Hbl & Hbin & Hbout).
  { lia. }
  { intros bi x Hbi Hx. rewrite (Hbody bi x Hbi Hx). by apply zget_is_Some; lia. }
  cbn [mbind option_bind]. f_equal. destruct ctx as [n bufs]; cbn in *. f_equal.
  apply list_eq_zget; [lia|]. intros bi Hbi. destruct (decide (bi < n)).
  - rewrite Hbin by lia. destruct (zget_is_Some (buffers ctx') bi) as [x Hx]; [lia|].
    rewrite Hx. cbn. apply Hbody; [lia|done].
  - rewrite Hbout, Hout by lia. done.
Qed.
