(* ===== verification/StateBufferTheorems.v ===== *)
(** * StateBufferTheorems: what the state buffers guarantee to a cart

    The properties of [StateBuffer], stated on the C entry points.  They follow from
    the view lemmas of [StateBufferSpec]. *)

From S2P Require Import Prelude Handle FpCanon StateBuffer StateBufferSpec.
From Stdlib Require Import ZArith Lia.
From stdpp Require Import base tactics list gmap.
Open Scope Z_scope.

(** ** Lemmas *)

Lemma le_val_zeros n : le_val (replicate n 0) = 0.
Proof. induction n; cbn; lia. Qed.

Lemma cell_exists ctx bi fi slot tag :
  ctx_wf ctx -> field_tag ctx bi fi = Some tag -> 0 <= slot < slot_limit ctx bi ->
  exists bytes, cell ctx bi fi slot = Some bytes.
Proof.
  intros Hwf Ht Hs. unfold field_tag, cell, slot_limit in *.
  destruct ((0 <=? bi) && (bi <? n_buffers ctx)) eqn:E; [|done].
  destruct (zget (buffers ctx) bi) as [b|] eqn:Hb; [|done]. cbn in *.
  destruct ((0 <=? fi) && (fi <? n_fields b)) eqn:E2; [|done].
  destruct (wf_arrays b (wf_buf _ Hwf bi b ltac:(lia) Hb) fi ltac:(lia)) as (tag' & d & Ht' & Hd & Hl & _).
  rewrite Ht' in *. injection Ht as ->. cbn. unfold field_array. rewrite Hd. cbn.
  pose proof (sizeof_range tag).
  destruct (cell_in_range slot (field_sizeof tag) (count b)) as [? ?]; [lia|lia|].
  rewrite rd_Some by lia. eauto.
Qed.

(** Reading back a cell that was just written. *)
Lemma fetch_written ctx ctx' bi fi slot bytes :
  cell_written ctx ctx' bi fi slot bytes -> fetch ctx' bi fi slot = Some (0, Some (le_val bytes)).
Proof. intros [_ _ _ _ Hc]. unfold fetch. rewrite Hc, !Z.eqb_refl. done. Qed.

Lemma get_other ctx ctx' bi fi slot bytes id' slot' field' :
  ctx_wf ctx -> ctx_wf ctx' -> cell_written ctx ctx' bi fi slot bytes ->
  0 <= id' -> 0 <= field' -> (id' - 1, field' - 1, slot') <> (bi, fi, slot) ->
  blyt_state_get ctx' id' slot' field' = blyt_state_get ctx id' slot' field'
  /\ blyt_state_get64 ctx' id' slot' field' = blyt_state_get64 ctx id' slot' field'.
Proof.
  intros Hwf Hwf' [_ Ht Ha _ Hc] Hi Hf Hne. rewrite !get_view, !get64_view, Ht, Ha by done.
  unfold fetch. rewrite Hc. destruct (_ && _ && _) eqn:E; [|done].
  exfalso. apply Hne. assert (id' - 1 = bi /\ field' - 1 = fi /\ slot' = slot) as (-> & -> & ->) by lia. done.
Qed.

(** Zeroing returns any context to the boot state it came from. *)
Lemma zero_buffer_data_ok b b' : buf_fresh b -> buf_wf b' -> shape_rel b b' -> zero_buffer_data b' = Some b.
Proof.
  intros [Hb Hbits Hgens Hzero] Hb' (Heq & Hlen & Hout).
  assert (count b' = count b /\ n_fields b' = n_fields b /\ field_types b' = field_types b) as (E1 & E2 & E3)
    by (by rewrite Heq).
  unfold zero_buffer_data. rewrite E1, E2, E3.
  pose proof (wf_nf _ Hb). pose proof (wf_data _ Hb). pose proof (wf_data _ Hb').
  match goal with |- context [for_each _ ?f _] => set (body := f) end.
  assert (forall fi d', 0 <= fi < n_fields b -> zget (field_data b') fi = Some d' ->
    body fi d' = zget (field_data b) fi) as Hbody.
  { intros fi x Hfi Hx. destruct (Hzero fi Hfi) as (tag & Ht & Hd).
    destruct (wf_arrays _ Hb' fi ltac:(lia)) as (tag' & d' & Ht' & Hd' & Hl' & _).
    rewrite E3, Ht in Ht'. injection Ht' as <-. rewrite Hx in Hd'. injection Hd' as ->.
    unfold body. rewrite Ht, Hd. cbn. rewrite E1 in Hl'. pose proof (len_nonneg d'). rewrite rd_Some by lia.
    cbn. do 2 f_equal. unfold splice, len in *. cbn. rewrite drop_ge; [by rewrite app_nil_r|].
    rewrite length_replicate. lia. }
  destruct (for_each_spec (n_fields b) body (field_data b')) as (fd & -> & Hfl & Hin & Hfout).
  { lia. }
  { intros fi x Hfi Hx. rewrite (Hbody fi x Hfi Hx). apply zget_is_Some. lia. }
  cbn [mbind option_bind]. f_equal.
  assert (fd = field_data b) as ->.
  { apply list_eq_zget; [lia|]. intros fi Hfi. destruct (decide (fi < n_fields b)).
    - rewrite Hin by lia. destruct (zget_is_Some (field_data b') fi) as [x Hx]; [lia|].
      rewrite Hx. cbn [mbind option_bind]. apply Hbody; [lia|done].
    - rewrite Hfout, Hout by lia. done. }
  rewrite <-Hbits, <-Hgens, Heq. by destruct b.
Qed.

Lemma zero_data_ok ctx ctx' :
  ctx_wf ctx -> all_fresh ctx -> ctx_wf ctx' -> ctx_rel ctx ctx' ->
  blyt_state_ctx_zero_data ctx' = Some ctx.
Proof.
  intros Hwf Hfresh Hwf' [Hn Hl Hout Hin]. pose proof (wf_nb _ Hwf). pose proof (wf_bufs _ Hwf).
  unfold blyt_state_ctx_zero_data. rewrite Hn.
  assert (forall bi b', 0 <= bi < n_buffers ctx -> zget (buffers ctx') bi = Some b' ->
    zero_buffer_data b' = zget (buffers ctx) bi) as Hbody.
  { intros bi b' Hbi Hb'. destruct (zget_is_Some (buffers ctx) bi) as [b Hb]; [lia|]. rewrite Hb.
    apply zero_buffer_data_ok; [exact (Hfresh bi b Hbi Hb)| |exact (Hin bi b b' Hbi Hb Hb')].
    apply (wf_buf ctx' Hwf' bi); [by rewrite Hn|done]. }
  destruct (for_each_spec (n_buffers ctx) (fun _ b => zero_buffer_data b) (buffers ctx'))
    as (bs & -> & Hbl & Hbin & Hbout).
  { lia. }
  { intros bi x Hbi Hx. rewrite (Hbody bi x Hbi Hx). by apply zget_is_Some; lia. }
  cbn [mbind option_bind]. f_equal. destruct ctx as [n bufs]; cbn in *. f_equal.
  apply list_eq_zget; [lia|]. intros bi Hbi. destruct (decide (bi < n)).
  - rewrite Hbin by lia. destruct (zget_is_Some (buffers ctx') bi) as [x Hx]; [lia|].
    rewrite Hx. cbn. apply Hbody; [lia|done].
  - rewrite Hbout, Hout by lia. done.
Qed.

(** The state that [zero_data] makes of any other. *)
Definition blank_buffer (b : blyt_buffer_ctx_t) : blyt_buffer_ctx_t :=
  with_slots (replicate 16 0) (replicate 128 1)
    (with_data (imap (fun i od => if Z.of_nat i <? n_fields b then (fun d => replicate (length d) 0) <$> od else od) (field_data b)) b).
Definition blank_ctx (ctx : blyt_state_ctx_t) : blyt_state_ctx_t :=
  MkCtx (n_buffers ctx) (imap (fun i b => if Z.of_nat i <? n_buffers ctx then blank_buffer b else b) (buffers ctx)).

Lemma zget_imap {A B} (f : nat -> A -> B) l i : 0 <= i -> zget (imap f l) i = f (Z.to_nat i) <$> zget l i.
Proof. intros Hi. by rewrite !zget_lookup, list_lookup_imap by done. Qed.

Lemma blank_buffer_ok b : buf_wf b -> buf_fresh (blank_buffer b) /\ shape_rel (blank_buffer b) b.
Proof.
  intros Hb. pose proof (wf_nf _ Hb). pose proof (wf_types _ Hb). pose proof (wf_data _ Hb).
  assert (len (field_data (blank_buffer b)) = 256) as Hl by (cbn; unfold len in *; by rewrite length_imap).
  assert (forall fi, 0 <= fi < n_fields b -> array_zero (blank_buffer b) fi) as Hz.
  { intros fi Hfi. destruct (wf_arrays _ Hb fi Hfi) as (tag & d & Ht & Hd & Hdl & _). exists tag. cbn.
    rewrite zget_imap, Hd by lia. cbn. rewrite (proj2 (Z.ltb_lt _ _)) by lia. split; [done|]. cbn. do 3 f_equal. unfold len in Hdl. lia. }
  split.
  - split; [|done|done|done]. split; [apply Hb|done|done|done| | |].
    + intros fi Hfi. apply array_zero_ok; [apply Hb|by apply Hz].
    + split; [done|apply (bytes_ok_zeros 16)].
    + split; [done|by apply (Forall_replicate is_u16 128)].
  - split; [by destruct b|]. split; [lia|]. intros fj Hfj. cbn in Hfj |- *.
    rewrite zget_imap by lia. rewrite (proj2 (Z.ltb_ge _ _)) by lia. by destruct (zget _ _).
Qed.

Lemma zero_data_total ctx :
  ctx_wf ctx -> blyt_state_ctx_zero_data ctx = Some (blank_ctx ctx) /\ ctx_wf (blank_ctx ctx) /\ ctx_rel ctx (blank_ctx ctx).
Proof.
  intros Hwf. pose proof (wf_nb _ Hwf). pose proof (wf_bufs _ Hwf).
  assert (forall bi b, 0 <= bi < n_buffers ctx -> zget (buffers (blank_ctx ctx)) bi = Some b ->
    exists b0, zget (buffers ctx) bi = Some b0 /\ b = blank_buffer b0 /\ buf_wf b0) as Hin.
  { intros bi b Hbi. cbn. rewrite zget_imap by lia. destruct (zget (buffers ctx) bi) as [b0|] eqn:Hb0; [|done]. cbn.
    rewrite (proj2 (Z.ltb_lt _ _)) by lia. intros [= <-]. exists b0. split_and!; [done..|by apply (wf_buf _ Hwf bi)]. }
  assert (ctx_wf (blank_ctx ctx)) as Hwf'.
  { split; [done|cbn; unfold len in *; by rewrite length_imap|]. intros bi b Hbi Hb.
    destruct (Hin bi b Hbi Hb) as (b0 & _ & -> & Hb0). by apply (blank_buffer_ok b0). }
  assert (ctx_rel (blank_ctx ctx) ctx) as Hrel.
  { split; [done|cbn; unfold len in *; by rewrite length_imap| |]; cbn [n_buffers blank_ctx].
    - intros bi Hbi. cbn. rewrite zget_imap by lia. rewrite (proj2 (Z.ltb_ge _ _)) by lia. by destruct (zget _ _).
    - intros bi b b' Hbi Hb Hb'. destruct (Hin bi b Hbi Hb) as (b0 & Hb0 & -> & Hw). assert (b0 = b') as -> by congruence.
      by apply blank_buffer_ok. }
  split; [|split; [done|by apply ctx_rel_sym]]. apply zero_data_ok; try done.
  intros bi b Hbi Hb. destruct (Hin bi b Hbi Hb) as (b0 & _ & -> & Hb0). by apply (blank_buffer_ok b0).
Qed.

Definition layouts_ok (l : CartLayouts) : Prop := Forall decl_ok (default [] (cl_buffers l)).

Lemma init_result calloc_ok sect as_root rc ctx :
  (forall bytes l, as_root bytes = Some l -> layouts_ok l) ->
  blyt_state_ctx_init calloc_ok sect as_root = Some (rc, ctx) ->
  (ctx_wf ctx /\ all_fresh ctx) \/ (rc = -2 /\ n_buffers ctx = 0).
Proof.
  intros Hl. unfold blyt_state_ctx_init.
  assert (ctx_wf zero_ctx /\ all_fresh zero_ctx) as Hz.
  { pose proof init_inv_zero as Hi. split; [by apply (init_inv_wf 0)|apply (ii_done _ _ Hi)]. }
  destruct sect as [bytes|]; [|intros [= _ <-]; by left].
  destruct (len bytes <=? 8); [intros [= _ <-]; by left|].
  destruct (as_root (drop 8 bytes)) as [l|] eqn:Ha; [|intros [= _ <-]; by left].
  destruct (len _ =? 0); [intros [= _ <-]; by left|]. intros Hrun.
  destruct (init_buffers_spec calloc_ok _ _ _ 0 0 _ _ _ (Hl _ _ Ha) ltac:(lia) init_inv_zero Hrun)
    as [[-> Hi]|[-> ->]]; [left|by right].
  pose proof (len_nonneg (default [] (cl_buffers l))).
  split; [by eapply init_inv_wf, Hi; lia|apply (ii_done _ _ Hi)].
Qed.

(** ** A small context for the witnesses: one buffer of 3 slots with an i16, an f32
    and an f64 field, with slot 0 allocated *)

Definition demo_layouts : CartLayouts :=
  MkLayouts
    (Some [Some (MkRecord (Some [112]) (Some [Some (MkField (Some [120]) TYPE_I16);
                                              Some (MkField (Some [121]) TYPE_F32);
                                              Some (MkField (Some [122]) TYPE_F64)]))])
    (Some [Some (MkBufDecl (Some [98]) (Some [112]) 3)]) 77.

Definition demo_init : option (Z * blyt_state_ctx_t) :=
  blyt_state_ctx_init (fun _ _ => true) (Some (replicate 9 0)) (fun _ => Some demo_layouts).
Definition demo_boot : blyt_state_ctx_t := match demo_init with Some (_, c) => c | None => zero_ctx end.
Definition demo_ctx : blyt_state_ctx_t :=
  match blyt_state_alloc_slot demo_boot 1 with Some (_, _, c) => c | None => demo_boot end.

Lemma demo_layouts_ok bytes l :
  (fun _ : list Z => Some demo_layouts) bytes = Some l -> layouts_ok l.
Proof.
  intros [= <-]. unfold layouts_ok. cbn. constructor; [|constructor].
  eexists. split; [reflexivity|]. cbn. unfold is_u32. lia.
Defined.

Lemma demo_boot_ok : ctx_wf demo_boot /\ all_fresh demo_boot.
Proof.
  destruct (init_result (fun _ _ => true) (Some (replicate 9 0)) (fun _ => Some demo_layouts) 0 demo_boot)
    as [H|[H _]]; [exact demo_layouts_ok|vm_compute; reflexivity|exact H|discriminate H].
Qed.

Lemma run_counting_wf cs ctx id slot k ctx' :
  ctx_wf ctx -> Forall cmd_args_ok cs -> run_counting id slot ctx cs = Some (k, ctx') -> ctx_wf ctx'.
Proof.
  intros Hwf Hcs Hr. destruct (run_counting_ok cs ctx id slot Hwf Hcs) as (k' & c & Hr' & Hc & _). congruence.
Qed.

Lemma demo_wf : ctx_wf demo_ctx.
Proof.
  apply (run_counting_wf [SAlloc 1] demo_boot 1 0 0 demo_ctx (proj1 demo_boot_ok)).
  - constructor; [cbn; lia|constructor].
  - vm_compute; reflexivity.
Qed.

(** ** Properties *)

(** A state buffer behaves as a typed store.  When [set] accepts a write, a read
    of the same field returns the written value truncated to the field's width, an
    f32 NaN replaced by the canonical one; every other field of every slot and buffer,
    read by [get] or [get64], is unchanged, error results included.  When [set]
    rejects the write it returns -1 and changes nothing. *)
Theorem state_set_get ctx id slot field v tt rc ctx' :
  ctx_wf ctx -> 0 <= id -> 0 <= field -> is_u32 v ->
  blyt_state_set ctx id slot field v tt = Some (rc, ctx') ->
  (rc = -1 /\ ctx' = ctx)
  \/ (rc = 0 /\ ctx_wf ctx' /\ exists tag, field_tag ctx (id - 1) (field - 1) = Some tag
      /\ blyt_state_get ctx' id slot field
         = Some (0, Some ((if tag =? TYPE_F32 then blyt_canon_f32 v else v) mod 256 ^ field_sizeof tag))
      /\ forall id' slot' field', 0 <= id' -> 0 <= field' -> (id', field', slot') <> (id, field, slot) ->
           blyt_state_get ctx' id' slot' field' = blyt_state_get ctx id' slot' field'
           /\ blyt_state_get64 ctx' id' slot' field' = blyt_state_get64 ctx id' slot' field').
Proof.
  intros Hwf Hid Hf Hv Hrun.
  destruct (set_view ctx id slot field v tt Hwf Hid Hf)
    as [[E _]|(tag & c & E & Ha & Ht & Hne & Hwf' & Hcw)]; rewrite E in Hrun; injection Hrun as <- <-; [by left|right].
  split; [done|]. split; [done|]. exists tag. split; [done|]. split.
  - pose proof Hcw as [_ Htag Hal _ _]. rewrite get_view, Htag, Hal, Ht, Ha by done. cbn.
    rewrite (proj2 (Z.eqb_neq _ _) Hne). cbn. rewrite (fetch_written _ _ _ _ _ _ Hcw). do 3 f_equal.
    unfold stored32. rewrite le_val_bytes. pose proof (sizeof_range tag). by rewrite Z2Nat.id by lia.
  - intros id' slot' field' ? ? Hne'. eapply get_other; [done|done|exact Hcw|done|done|].
    intros [= ? ? ->]. apply Hne'. repeat f_equal; lia.
Qed.

Definition demo_set : option (Z * blyt_state_ctx_t) := blyt_state_set demo_ctx 1 0 2 0xFFC00001 0.
Definition demo_ctx2 : blyt_state_ctx_t := match demo_set with Some (_, c) => c | None => demo_ctx end.

Lemma state_set_get_witness :
  blyt_state_get demo_ctx2 1 0 2 = Some (0, Some 0x7FC00000)
  /\ blyt_state_get demo_ctx2 1 0 1 = blyt_state_get demo_ctx 1 0 1.
Proof.
  split; [vm_compute; reflexivity|].
  destruct (state_set_get demo_ctx 1 0 2 0xFFC00001 0 0 demo_ctx2) as [[H _]|(_ & _ & tag & _ & _ & H)].
  - exact demo_wf.
  - lia.
  - lia.
  - unfold is_u32. lia.
  - vm_compute; reflexivity.
  - discriminate H.
  - apply (H 1 0 1); [lia|lia|congruence].
Defined.

(** The 64-bit accessors are the same typed store for f64 fields, and only for
    them: [set64] on any other field type is rejected with nothing changed. *)
Theorem state_set64_get ctx id slot field v rc ctx' :
  ctx_wf ctx -> 0 <= id -> 0 <= field -> is_u64 v ->
  blyt_state_set64 ctx id slot field v = Some (rc, ctx') ->
  (rc = -1 /\ ctx' = ctx
   /\ ~ (allocated ctx (id - 1) slot = true /\ field_tag ctx (id - 1) (field - 1) = Some TYPE_F64))
  \/ (rc = 0 /\ ctx_wf ctx' /\ field_tag ctx (id - 1) (field - 1) = Some TYPE_F64
      /\ blyt_state_get64 ctx' id slot field = Some (0, Some (blyt_canon_f64 v))
      /\ forall id' slot' field', 0 <= id' -> 0 <= field' -> (id', field', slot') <> (id, field, slot) ->
           blyt_state_get ctx' id' slot' field' = blyt_state_get ctx id' slot' field'
           /\ blyt_state_get64 ctx' id' slot' field' = blyt_state_get64 ctx id' slot' field').
Proof.
  intros Hwf Hid Hf Hv Hrun.
  destruct (set64_view ctx id slot field v Hwf Hid Hf)
    as [[E ?]|(c & E & Ha & Ht & Hwf' & Hcw)]; rewrite E in Hrun; injection Hrun as <- <-; [by left|right].
  split; [done|]. split; [done|]. split; [done|]. split.
  - pose proof Hcw as [_ Htag Hal _ _]. rewrite get64_view, Htag, Hal, Ht, Ha by done. cbn [andb].
    rewrite Z.eqb_refl, (fetch_written _ _ _ _ _ _ Hcw), le_val_bytes. do 3 f_equal.
    change (256 ^ Z.of_nat 8) with (2 ^ 64). apply u64_id. by apply canon_f64_range.
  - intros id' slot' field' ? ? Hne'. eapply get_other; [done|done|exact Hcw|done|done|].
    intros [= ? ? ->]. apply Hne'. repeat f_equal; lia.
Qed.

Definition demo_ctx3 : blyt_state_ctx_t :=
  match blyt_state_set64 demo_ctx 1 0 3 12345 with Some (_, c) => c | None => demo_ctx end.

Lemma state_set64_get_witness : blyt_state_get64 demo_ctx3 1 0 3 = Some (0, Some 12345).
Proof.
  destruct (state_set64_get demo_ctx 1 0 3 12345 0 demo_ctx3) as [[H _]|(_ & _ & _ & H & _)].
  - exact demo_wf.
  - lia.
  - lia.
  - unfold is_u64. lia.
  - vm_compute; reflexivity.
  - discriminate H.
  - exact H.
Defined.

(** Slot allocation.  From a booted context, after any sequence of calls,
    [alloc_slot] on an existing buffer returns the lowest free slot, or reports -1
    exactly when all of its slots (at most 128) are taken; it changes nothing but that
    slot's bit, and every field of the new slot reads zero, whatever an earlier
    owner stored there. *)
Theorem state_alloc_fresh_zero boot cs k ctx id :
  ctx_wf boot -> all_fresh boot -> Forall cmd_args_ok cs ->
  run_counting id 0 boot cs = Some (k, ctx) -> 0 <= id - 1 < n_buffers boot ->
  (blyt_state_alloc_slot ctx id = Some (-1, Some (-1), ctx)
   /\ forall t, 0 <= t < slot_limit ctx (id - 1) -> allocated ctx (id - 1) t = true)
  \/ exists s ctx', blyt_state_alloc_slot ctx id = Some (0, Some s, ctx')
     /\ 0 <= s < slot_limit ctx (id - 1) /\ allocated ctx (id - 1) s = false
     /\ (forall t, 0 <= t < s -> allocated ctx (id - 1) t = true)
     /\ slot_marked ctx ctx' (id - 1) s true
     /\ forall field tag, 0 <= field -> field_tag ctx (id - 1) (field - 1) = Some tag ->
          (if tag =? TYPE_F64 then blyt_state_get64 ctx' id s field else blyt_state_get ctx' id s field)
          = Some (0, Some 0).
Proof.
  intros Hwf Hfresh Hcs Hrun Hid.
  destruct (run_counting_ok cs boot id 0 Hwf Hcs) as (k' & c & Hrun' & Hwfc & Hn & Hz & _).
  rewrite Hrun in Hrun'. injection Hrun' as <- <-. specialize (Hz (fresh_zero_inv _ Hwf Hfresh)).
  destruct (alloc_slot_view ctx id Hwfc ltac:(lia))
    as [[Hno _]|[_ [?|(s & ctx' & E & Hs & Hfree & Hlow & Hwf' & Hm & _ & Hc)]]]; [lia|by left|right].
  exists s, ctx'. split_and!; [done|lia|lia|done|done|done|]. intros field tag Hf Ht.
  destruct (cell_exists ctx (id - 1) (field - 1) s tag Hwfc Ht Hs) as [bytes Hb].
  pose proof (Hz _ _ _ _ _ Ht Hfree Hb) as ->. destruct Hm as [_ Htag Hal].
  assert (fetch ctx' (id - 1) (field - 1) s = Some (0, Some 0)) as Hfetch.
  { unfold fetch. rewrite Hc, Hb. cbn. by rewrite le_val_zeros. }
  destruct (tag =? TYPE_F64) eqn:E64; [rewrite get64_view by (lia || done)|rewrite get_view by (lia || done)];
    rewrite Htag, Hal, Ht, !Z.eqb_refl, E64; done.
Qed.

Lemma state_alloc_fresh_zero_witness :
  exists ctx s ctx', run_counting 1 0 demo_boot [SAlloc 1; SSet 1 0 1 500 2; SFree 1 0] = Some (1%nat, ctx)
    /\ blyt_state_alloc_slot ctx 1 = Some (0, Some s, ctx')
    /\ blyt_state_get ctx' 1 s 1 = Some (0, Some 0).
Proof.
  pose (cs := [SAlloc 1; SSet 1 0 1 500 2; SFree 1 0]).
  pose (ctx := match run_counting 1 0 demo_boot cs with Some (_, c) => c | None => demo_boot end).
  destruct (state_alloc_fresh_zero demo_boot cs 1 ctx 1) as [[H _]|(s & ctx' & E & _ & _ & _ & _ & H)].
  - exact (proj1 demo_boot_ok).
  - exact (proj2 demo_boot_ok).
  - repeat constructor; cbn; lia.
  - vm_compute; reflexivity.
  - vm_compute. split; [discriminate|reflexivity].
  - exfalso. apply (f_equal (fun o => match o with Some (rc, _, _) => rc | None => 7 end)) in H.
    vm_compute in H. discriminate H.
  - exists ctx, s, ctx'. split; [vm_compute; reflexivity|]. split; [exact E|].
    apply (H 1 TYPE_I16); [lia|vm_compute; reflexivity].
Defined.

(** C40: Stale entity refs are detected.  Take a ref to an allocated slot whose generation is
    a public one (1 to 65535, as initialisation sets it and every free keeps it) and run any
    sequence of calls.  If the slot was not freed the ref is still valid; if it was
    freed, and at most 65534 times, the ref is invalid, even when the slot has been
    reallocated since. *)
Theorem state_stale_ref ctx cs k ctx' id slot :
  ctx_wf ctx -> 0 <= id - 1 < n_buffers ctx -> allocated ctx (id - 1) slot = true -> gen_ok (gen_at ctx (id - 1) slot) ->
  Forall cmd_args_ok cs -> run_counting id slot ctx cs = Some (k, ctx') ->
  exists ref, blyt_state_ref ctx id slot = Some ref
    /\ blyt_state_ref_valid ctx id ref = Some true
    /\ (k = 0%nat -> blyt_state_ref_valid ctx' id ref = Some true)
    /\ (0 < Z.of_nat k < 65535 -> blyt_state_ref_valid ctx' id ref = Some false).
Proof.
  intros Hwf Hid Ha Hgok Hcs Hrun. pose proof (allocated_range _ _ _ Hwf Hid Ha). pose proof (limit_128 ctx (id - 1)).
  destruct (run_counting_ok cs ctx id slot Hwf Hcs) as (k' & c & Hrun' & Hwfc & Hn & _ & Hg & Hal).
  rewrite Hrun in Hrun'. injection Hrun' as <- <-.
  eexists. split; [by apply ref_view|]. split; [|split].
  - rewrite ref_valid_view by (lia || done). by rewrite Ha, Z.eqb_refl.
  - intros ->. rewrite ref_valid_view by (lia || done). cbn in Hg. by rewrite Hg, Hal, Z.eqb_refl.
  - intros Hk. rewrite ref_valid_view by (lia || done).
    rewrite Hg, (proj2 (Z.eqb_neq _ _)) by (by apply gen_fresh). by rewrite andb_false_r.
Qed.

Lemma state_stale_ref_witness :
  exists ref ctx', blyt_state_ref demo_ctx 1 0 = Some ref
    /\ run_counting 1 0 demo_ctx [SFree 1 0; SAlloc 1] = Some (1%nat, ctx')
    /\ blyt_state_ref_valid ctx' 1 ref = Some false.
Proof.
  pose (cs := [SFree 1 0; SAlloc 1]).
  pose (ctx' := match run_counting 1 0 demo_ctx cs with Some (_, c) => c | None => demo_ctx end).
  destruct (state_stale_ref demo_ctx cs 1 ctx' 1 0) as (ref & E & _ & _ & H).
  - exact demo_wf.
  - vm_compute. split; [discriminate|reflexivity].
  - vm_compute; reflexivity.
  - vm_compute. split; discriminate.
  - repeat constructor; cbn; lia.
  - vm_compute; reflexivity.
  - exists ref, ctx'. split; [exact E|]. split; [vm_compute; reflexivity|]. apply H. lia.
Defined.

(** The bound of the stale-ref property is tight: the generation of a slot that
    is freed 65535 times is back where it started. *)
Theorem state_ref_aba g : gen_ok g -> Nat.iter (Z.to_nat 65535) blyt_gen_next g = g.
Proof.
  intros Hg. rewrite gen_iter_val by done. unfold gen_ok in Hg. rewrite Z2Nat.id by lia.
  Z.div_mod_to_equations; lia.
Qed.

Lemma state_ref_aba_witness : Nat.iter (Z.to_nat 65535) blyt_gen_next 1 = 1.
Proof. apply (state_ref_aba 1). unfold gen_ok. lia. Defined.

(** Snapshot and restore are inverse.  Snapshotting a well-formed context
    gives NULL only when an allocation fails, and restoring the snapshot after any sequence of calls gives back
    exactly the original context: data, allocation bits and generations. *)
Theorem state_snapshot_restore malloc_ok ctx cs k ctx' :
  ctx_wf ctx -> Forall cmd_args_ok cs -> run_counting 0 0 ctx cs = Some (k, ctx') ->
  exists r, blyt_state_ctx_snapshot malloc_ok ctx = Some r
    /\ (r = None -> exists x, malloc_ok x = false)
    /\ forall snap, r = Some snap -> blyt_state_ctx_restore_snapshot ctx' (Some snap) = Some ctx.
Proof.
  intros Hwf Hcs Hrun. destruct (snapshot_ok malloc_ok ctx Hwf) as (r & Hs & Hn & _). exists r. split; [done|]. split; [done|].
  intros snap ->. eapply restore_ok; [done|by eapply run_counting_wf|by eapply run_counting_rel|done].
Qed.

Lemma state_snapshot_restore_witness :
  exists ctx' snap, run_counting 0 0 demo_ctx [SSet 1 0 1 7 0; SFree 1 0] = Some (0%nat, ctx')
    /\ blyt_state_ctx_snapshot (fun _ => true) demo_ctx = Some (Some snap)
    /\ blyt_state_ctx_restore_snapshot ctx' (Some snap) = Some demo_ctx.
Proof.
  pose (cs := [SSet 1 0 1 7 0; SFree 1 0]).
  pose (ctx' := match run_counting 0 0 demo_ctx cs with Some (_, c) => c | None => demo_ctx end).
  destruct (state_snapshot_restore (fun _ => true) demo_ctx cs 0 ctx') as (r & H1 & H2 & H3).
  - exact demo_wf.
  - repeat constructor; cbn; lia.
  - vm_compute; reflexivity.
  - destruct r as [snap|]; [|destruct (H2 eq_refl) as [x Hx]; discriminate Hx].
    exists ctx', snap. split; [vm_compute; reflexivity|]. split; [exact H1|exact (H3 snap eq_refl)].
Defined.

(** Boot and frame reset.  Whatever the declared layouts and whichever
    allocations fail, [init] either leaves a well-formed context with every slot
    free, every generation 1 and every byte zero, or reports -2 with no buffers; and
    [zero_data], after any sequence of calls, returns exactly to that boot context. *)
Theorem state_init_zero calloc_ok sect as_root rc boot :
  (forall bytes l, as_root bytes = Some l -> layouts_ok l) ->
  blyt_state_ctx_init calloc_ok sect as_root = Some (rc, boot) ->
  (rc = -2 /\ n_buffers boot = 0)
  \/ (ctx_wf boot /\ all_fresh boot
      /\ forall cs k ctx, Forall cmd_args_ok cs -> run_counting 0 0 boot cs = Some (k, ctx) ->
           blyt_state_ctx_zero_data ctx = Some boot).
Proof.
  intros Hl Hinit. destruct (init_result _ _ _ _ _ Hl Hinit) as [[Hwf Hf]|H]; [right|by left].
  split; [done|]. split; [done|]. intros cs k ctx Hcs Hrun.
  apply zero_data_ok; [done|done|by eapply run_counting_wf|by eapply run_counting_rel].
Qed.

Lemma state_init_zero_witness :
  exists ctx, run_counting 0 0 demo_boot [SAlloc 1; SSet 1 0 1 9 0] = Some (0%nat, ctx)
    /\ blyt_state_ctx_zero_data ctx = Some demo_boot.
Proof.
  pose (cs := [SAlloc 1; SSet 1 0 1 9 0]).
  pose (ctx := match run_counting 0 0 demo_boot cs with Some (_, c) => c | None => demo_boot end).
  destruct (state_init_zero (fun _ _ => true) (Some (replicate 9 0)) (fun _ => Some demo_layouts) 0 demo_boot)
    as [[H _]|(_ & _ & H)].
  - exact demo_layouts_ok.
  - vm_compute; reflexivity.
  - discriminate H.
  - exists ctx. split; [vm_compute; reflexivity|]. apply (H cs 0%nat).
    + repeat constructor; cbn; lia.
    + vm_compute; reflexivity.
Defined.

(** A failed [init] leaks.  With the second of two field arrays of the first
    buffer failing to allocate, [init] returns -2 but the array already allocated for
    that buffer is still there, because [destroy] only visits completed buffers. *)
Theorem state_init_failure_leaks :
  exists ctx b, blyt_state_ctx_init (fun k _ => Nat.eqb k 0) (Some (replicate 9 0)) (fun _ => Some demo_layouts)
    = Some (-2, ctx)
    /\ n_buffers ctx = 0 /\ zget (buffers ctx) 0 = Some b
    /\ zget (field_data b) 0 = Some (Some (replicate 6 0)).
Proof. eexists _, _. split; [vm_compute; reflexivity|]. split_and!; vm_compute; reflexivity. Qed.
