(* ===== verification/Blys.v ===== *)
(** * Blys: the BLYS save format

    Models [runtime/shared/blyt_blys.c]: the serializer and the reader of save files,
    over byte sinks and sources supplied by the caller ([blys_write_fn],
    [blys_read_fn]).  A sink or source is a class: the callback, and what the
    documentation of the callback type promises about it.

    The outer [option] is undefined behaviour (a [memcpy] past an array) or a reading
    loop that has run out of its fuel; [blys_read_terminates] below shows the fuel
    is enough. *)

From S2P Require Import Prelude.
From Stdlib Require Import ZArith Lia.
From stdpp Require Import base tactics list.
Open Scope Z_scope.

Definition BLYS_MAGIC : list Z := [66; 76; 89; 83].
Definition BLYS_SECT_CART : list Z := [67; 65; 82; 84].
Definition BLYS_FORMAT_VERSION_MAJOR : Z := 1.
Definition BLYS_FORMAT_VERSION_MINOR : Z := 1.
Definition BLYS_SLOT_BITSET_BYTES : Z := 16.
Definition BLYS_SLOT_GENS_BYTES : Z := 256.
Definition BLYS_OK : Z := 0.
Definition BLYS_ERR_IO : Z := -1.
Definition BLYS_ERR_SCHEMA : Z := -2.

(** ** Callbacks *)

(** [blys_write_fn]: 0 on success, negative on error.  A sink that fails may have taken a
    part of the bytes. *)
Class ByteSink (T : Type) := {
  sink : T -> list Z -> Z * T;
  written : T -> list Z;
  sink_ok : forall t bs r t', sink t bs = (r, t') -> 0 <= r -> written t' = written t ++ bs;
  sink_part : forall t bs r t', sink t bs = (r, t') -> exists k, written t' = written t ++ take k bs
}.

(** [blys_read_fn]: the return code, the bytes stored in the caller's buffer and the
    source afterwards.  0 is a full read, 1 a clean end of file, negative an error or
    a short read (which may have stored a part).  Of a short read nothing is asked but a
    code that is not 0, since the bare-metal source answers it with 1. *)
Class ByteSource (T : Type) := {
  source : T -> Z -> Z * list Z * T;
  pending : T -> list Z;
  source_full : forall t n, 0 < n <= len (pending t) ->
    exists t', source t n = (0, sub (pending t) 0 n, t') /\ pending t' = drop (Z.to_nat n) (pending t);
  source_eof : forall t n, 0 < n -> pending t = [] -> exists t', source t n = (1, [], t');
  source_short : forall t n, 0 < len (pending t) < n ->
    exists r bs t', source t n = (r, bs, t') /\ r <> 0 /\ len bs <= n /\ (bytes_ok (pending t) -> bytes_ok bs)
}.

(** ** Little-endian scalars *)

Definition put_u16 (v : Z) : list Z := [u8 (Z.land v 0xff); u8 (Z.land (Z.shiftr v 8) 0xff)].
Definition put_u32 (v : Z) : list Z :=
  [u8 (Z.land v 0xff); u8 (Z.land (Z.shiftr v 8) 0xff); u8 (Z.land (Z.shiftr v 16) 0xff);
   u8 (Z.land (Z.shiftr v 24) 0xff)].
Fixpoint put_u64_loop (k : nat) (v : Z) : list Z :=
  match k with O => [] | S k => u8 (Z.land v 0xff) :: put_u64_loop k (Z.shiftr v 8) end.
Definition put_u64 (v : Z) : list Z := put_u64_loop 8 v.

Definition get_u16 (p : list Z) : option Z :=
  match p with [a; b] => Some (u16 (Z.lor a (Z.shiftl b 8))) | _ => None end.
Definition get_u32 (p : list Z) : option Z :=
  match p with
  | [a; b; c; d] =>
      Some (Z.lor (Z.lor (Z.lor a (u32 (Z.shiftl b 8))) (u32 (Z.shiftl c 16))) (u32 (Z.shiftl d 24)))
  | _ => None
  end.
(** The loop runs from the last byte down. *)
Definition get_u64 (p : list Z) : option Z :=
  if len p =? 8 then Some (foldr (fun b v => Z.lor (u64 (Z.shiftl v 8)) b) 0 p) else None.

(** ** Descriptors *)

Record blys_header_t := MkHeader { hd_schema_hash : Z; hd_save_version : Z }.

(** [blys_buffer_t]: the arrays it points to are part of the record, since the reader
    writes through it. *)
Record blys_buffer_t := MkView {
  v_name : list Z;
  v_field_types : list Z;
  v_count : Z;
  v_field_data : list (list Z);
  v_slot_bitset : list Z;
  v_slot_gens : list Z
}.

Definition v_name_len (b : blys_buffer_t) : Z := len (v_name b).
Definition v_n_fields (b : blys_buffer_t) : Z := len (v_field_types b).

Definition blys_field_width (tag : Z) : Z :=
  if (tag =? 0) || (tag =? 1) || (tag =? 7) then 1
  else if (tag =? 2) || (tag =? 3) then 2
  else if tag =? 8 then 8
  else 4.

Definition field_bytes (b : blys_buffer_t) (tag : Z) : Z := u32 (v_count b * blys_field_width tag).

Definition blys_buffer_payload_size (b : blys_buffer_t) : Z :=
  let payload := u32 (4 + v_name_len b) in
  let payload := fold_left (fun p tag => u32 (p + field_bytes b tag)) (v_field_types b) payload in
  let payload := u32 (payload + BLYS_SLOT_BITSET_BYTES) in
  u32 (payload + BLYS_SLOT_GENS_BYTES).

(** ** Write *)

Section write.
Context {T : Type} `{ByteSink T}.

(** Sink the pieces in order, stopping at the first error. *)
Fixpoint emit (t : T) (pieces : list (list Z)) : Z * T :=
  match pieces with
  | [] => (BLYS_OK, t)
  | p :: pieces =>
      let '(r, t') := sink t p in
      if r <? 0 then (BLYS_ERR_IO, t') else emit t' pieces
  end.

(** The field arrays that are sunk: those of zero bytes are skipped. *)
Fixpoint field_pieces (b : blys_buffer_t) (tags : list Z) (data : list (list Z)) : option (list (list Z)) :=
  match tags with
  | [] => Some []
  | tag :: tags =>
      let bytes := field_bytes b tag in
      d ← head data;
      rest ← field_pieces b tags (tail data);
      if bytes =? 0 then Some rest
      else piece ← rd d 0 bytes; Some (piece :: rest)
  end.

Definition buffer_pieces (b : blys_buffer_t) : option (list (list Z)) :=
  fields ← field_pieces b (v_field_types b) (v_field_data b);
  bits ← rd (v_slot_bitset b) 0 BLYS_SLOT_BITSET_BYTES;
  gens ← rd (v_slot_gens b) 0 BLYS_SLOT_GENS_BYTES;
  Some ([BLYS_SECT_CART ++ put_u32 (blys_buffer_payload_size b); put_u32 (u32 (v_name_len b))]
        ++ (if v_name_len b =? 0 then [] else [v_name b]) ++ fields ++ [bits; gens]).

Fixpoint write_buffers (bufs : list blys_buffer_t) (t : T) : option (Z * T) :=
  match bufs with
  | [] => Some (BLYS_OK, t)
  | b :: bufs =>
      ps ← buffer_pieces b;
      let '(r, t') := emit t ps in
      if r =? BLYS_OK then write_buffers bufs t' else Some (r, t')
  end.

Definition blys_write (hdr : blys_header_t) (bufs : list blys_buffer_t) (t : T) : option (Z * T) :=
  let h := BLYS_MAGIC ++ put_u16 BLYS_FORMAT_VERSION_MAJOR ++ put_u16 BLYS_FORMAT_VERSION_MINOR
             ++ put_u64 (hd_schema_hash hdr) ++ put_u32 (hd_save_version hdr) in
  let '(r, t') := sink t h in
  if r <? 0 then Some (BLYS_ERR_IO, t') else write_buffers bufs t'.
End write.

(** ** Read *)

Section read.
Context {T : Type} `{ByteSource T}.

(** Read into a local buffer: [None] is an error or an end of file. *)
Definition take_n (t : T) (n : Z) : option (list Z) * T :=
  let '(r, bs, t') := source t n in (if r =? 0 then Some bs else None, t').

(** [skip_bytes], 256 bytes at a time; [None] when the fuel is spent. *)
Fixpoint skip_bytes (fuel : nat) (t : T) (n : Z) : option (Z * T) :=
  match fuel with
  | O => None
  | S fuel =>
      if n >? 0 then
        let chunk := if n >? 256 then 256 else n in
        let '(r, _, t') := source t chunk in
        if negb (r =? 0) then Some (BLYS_ERR_IO, t') else skip_bytes fuel t' (n - chunk)
      else Some (BLYS_OK, t)
  end.

(** One round per 256 bytes, one for the rest, one to stop. *)
Definition skip_fuel (n : Z) : nat := Z.to_nat (n / 256 + 2).

Definition name_eq (b : blys_buffer_t) (name : list Z) : bool :=
  if negb (v_name_len b =? len name) then false else bool_decide (v_name b = name).

(** The index of the first buffer with the name. *)
Fixpoint find_view (bufs : list blys_buffer_t) (name : list Z) : option nat :=
  match bufs with
  | [] => None
  | b :: bufs => if name_eq b name then Some 0%nat else S <$> find_view bufs name
  end.

(** Read [n] bytes into the front of an array; the stored part of a failed read stays. *)
Definition read_into (t : T) (dst : list Z) (n : Z) : option (bool * list Z * T) :=
  let '(r, bs, t') := source t n in
  _ ← rd dst 0 (len bs);
  Some (r =? 0, splice dst 0 bs, t').

(** The field loop: the arrays as far as they were filled, and whether it ended
    without an error. *)
Fixpoint read_fields (b : blys_buffer_t) (tags : list Z) (data : list (list Z)) (t : T)
    : option (bool * list (list Z) * T) :=
  match tags, data with
  | [], _ => Some (true, data, t)
  | _ :: _, [] => None
  | tag :: tags, d :: data =>
      let bytes := field_bytes b tag in
      if bytes =? 0 then
        '(ok, data', t') ← read_fields b tags data t; Some (ok, d :: data', t')
      else
        '(ok, d', t1) ← read_into t d bytes;
        if negb (ok : bool) then Some (false, d' :: data, t1)
        else '(ok2, data', t2) ← read_fields b tags data t1; Some (ok2, d' :: data', t2)
  end.

(** The body of one known CART section after its name. *)
Definition read_buffer (b : blys_buffer_t) (t : T) : option (bool * blys_buffer_t * T) :=
  '(ok, data, t1) ← read_fields b (v_field_types b) (v_field_data b) t;
  let b1 := MkView (v_name b) (v_field_types b) (v_count b) data (v_slot_bitset b) (v_slot_gens b) in
  if negb (ok : bool) then Some (false, b1, t1)
  else
    '(ok2, bits, t2) ← read_into t1 (v_slot_bitset b) BLYS_SLOT_BITSET_BYTES;
    let b2 := MkView (v_name b) (v_field_types b) (v_count b) data bits (v_slot_gens b) in
    if negb (ok2 : bool) then Some (false, b2, t2)
    else
      '(ok3, gens, t3) ← read_into t2 (v_slot_gens b) BLYS_SLOT_GENS_BYTES;
      Some (ok3, MkView (v_name b) (v_field_types b) (v_count b) data bits gens, t3).

(** The section loop. *)
Fixpoint read_sections (fuel : nat) (bufs : list blys_buffer_t) (t : T)
    : option (Z * list blys_buffer_t * T) :=
  match fuel with
  | O => None
  | S fuel =>
      let '(r, sect, t1) := source t 8 in
      if r =? 1 then Some (BLYS_OK, bufs, t1)
      else if negb (r =? 0) then Some (BLYS_ERR_IO, bufs, t1)
      else
        payload ← get_u32 (drop 4 sect);
        if negb (bool_decide (take 4 sect = BLYS_SECT_CART)) then
          '(rs, t2) ← skip_bytes (skip_fuel payload) t1 payload;
          if negb (rs =? 0) then Some (BLYS_ERR_IO, bufs, t2) else read_sections fuel bufs t2
        else
          let '(nl, t2) := take_n t1 4 in
          match nl with
          | None => Some (BLYS_ERR_IO, bufs, t2)
          | Some nl =>
              name_len ← get_u32 nl;
              if name_len >=? 256 then Some (BLYS_ERR_IO, bufs, t2)
              else
                let '(name, t3) := if name_len =? 0 then (Some [], t2) else take_n t2 name_len in
                match name with
                | None => Some (BLYS_ERR_IO, bufs, t3)
                | Some name =>
                    match find_view bufs name with
                    | None =>
                        let n := u32 (u32 (payload - 4) - name_len) in
                        '(rs, t4) ← skip_bytes (skip_fuel n) t3 n;
                        if negb (rs =? 0) then Some (BLYS_ERR_IO, bufs, t4)
                        else read_sections fuel bufs t4
                    | Some i =>
                        b ← bufs !! i;
                        '(ok, b', t4) ← read_buffer b t3;
                        let bufs' := <[i := b']> bufs in
                        if negb (ok : bool) then Some (BLYS_ERR_IO, bufs', t4)
                        else read_sections fuel bufs' t4
                    end
                end
          end
  end.

(** The result code, the save version stored through [out_save_version], and the
    buffers.  [fuel] bounds the number of sections. *)
Definition blys_read (fuel : nat) (expect_schema_hash : Z) (bufs : list blys_buffer_t) (t : T)
    : option (Z * Z * list blys_buffer_t * T) :=
  let '(h, t1) := take_n t 16 in
  match h with
  | None => Some (BLYS_ERR_IO, 0, bufs, t1)
  | Some h =>
      if negb (bool_decide (take 4 h = BLYS_MAGIC)) then Some (BLYS_ERR_IO, 0, bufs, t1)
      else
        minor ← get_u16 (sub h 6 2);
        hash ← get_u64 (drop 8 h);
        let '(sv, t2) := if minor >=? 1 then take_n t1 4 else (Some (put_u32 0), t1) in
        match sv with
        | None => Some (BLYS_ERR_IO, 0, bufs, t2)
        | Some sv =>
            version ← get_u32 sv;
            if negb (hash =? expect_schema_hash) then Some (BLYS_ERR_SCHEMA, version, bufs, t2)
            else
              '(rc, bufs', t3) ← read_sections fuel bufs t2;
              Some (rc, version, bufs', t3)
        end
  end.
End read.

(** ** Lemmas: scalars *)

Lemma byte_of v k : 0 <= k -> u8 (Z.land (Z.shiftr v k) 0xff) = v / 2 ^ k mod 256.
Proof.
  intros Hk. rewrite (land_ones_mod _ 8) by (lia || done). rewrite shiftr_div by done.
  change (2 ^ 8) with 256. apply u8_id. unfold is_u8. change (2 ^ 8) with 256. apply Z.mod_pos_bound. lia.
Qed.

Lemma byte_of_0 v : u8 (Z.land v 0xff) = v mod 256.
Proof. pose proof (byte_of v 0 ltac:(lia)) as H. by rewrite Z.shiftr_0_r, Z.div_1_r in H. Qed.

Lemma put_u16_le v : put_u16 v = le_bytes 2 v.
Proof. unfold put_u16. rewrite byte_of_0, byte_of by lia. done. Qed.

Lemma put_u32_le v : put_u32 v = le_bytes 4 v.
Proof.
  unfold put_u32. rewrite byte_of_0, !byte_of by lia. cbn [le_bytes].
  rewrite !Zdiv.Zdiv_Zdiv by lia. done.
Qed.

Lemma put_u64_loop_le k v : put_u64_loop k v = le_bytes k v.
Proof.
  revert v; induction k as [|k IH]; intros v; cbn; [done|]. rewrite byte_of_0, shiftr_div, IH by lia. done.
Qed.

Lemma lor_byte lo hi k : 0 <= k -> 0 <= lo < 2 ^ k -> Z.lor lo (Z.shiftl hi k) = lo + hi * 2 ^ k.
Proof. intros. rewrite Z.lor_comm, shiftl_mul, (lor_disjoint_add hi lo k) by lia. lia. Qed.

Lemma get_u32_le p : bytes_ok p -> len p = 4 -> get_u32 p = Some (le_val p).
Proof.
  unfold len. intros Hp Hl. destruct p as [|a [|b [|c [|d [|]]]]]; cbn in Hl; try lia.
  unfold bytes_ok in Hp. rewrite !Forall_cons in Hp. destruct Hp as (Ha & Hb & Hc & Hd & _).
  unfold is_u8 in *. pow_simp. cbn. f_equal.
  rewrite !u32_id by (unfold is_u32; rewrite shiftl_mul by lia; lia).
  rewrite (lor_byte a b 8), (lor_byte _ c 16), (lor_byte _ d 24) by lia. lia.
Qed.

Lemma get_u16_le p : bytes_ok p -> len p = 2 -> get_u16 p = Some (le_val p).
Proof.
  unfold len. intros Hp Hl. destruct p as [|a [|b [|]]]; cbn in Hl; try lia.
  unfold bytes_ok in Hp. rewrite !Forall_cons in Hp. destruct Hp as (Ha & Hb & _).
  unfold is_u8 in *. pow_simp. cbn. f_equal. rewrite (lor_byte a b 8) by lia.
  rewrite u16_id by (unfold is_u16; lia). lia.
Qed.

Lemma get_u64_fold p :
  bytes_ok p -> len p <= 8 -> foldr (fun b v => Z.lor (u64 (Z.shiftl v 8)) b) 0 p = le_val p.
Proof.
  unfold len. induction 1 as [|b p Hb Hp IH]; intros Hl; [done|]. cbn in *. rewrite IH by lia.
  pose proof (le_val_range p Hp) as Hr. unfold len in Hr. unfold is_u8 in Hb. pow_simp.
  assert (256 ^ Z.of_nat (length p) <= 256 ^ 7) by (apply Z.pow_le_mono_r; lia).
  rewrite shiftl_mul by lia. rewrite u64_id by (unfold is_u64; lia).
  rewrite (lor_disjoint_add _ b 8) by lia. lia.
Qed.

Lemma get_u64_le p : bytes_ok p -> len p = 8 -> get_u64 p = Some (le_val p).
Proof. intros Hp Hl. unfold get_u64. rewrite Hl. cbn [Z.eqb]. rewrite get_u64_fold; [done|done|lia]. Qed.

Lemma get_put_u32 v : is_u32 v -> get_u32 (put_u32 v) = Some v.
Proof.
  intros Hv. rewrite put_u32_le, get_u32_le by (apply le_bytes_ok || done).
  rewrite le_val_bytes. f_equal. by apply Z.mod_small.
Qed.
Lemma get_put_u16 v : is_u16 v -> get_u16 (put_u16 v) = Some v.
Proof.
  intros Hv. rewrite put_u16_le, get_u16_le by (apply le_bytes_ok || done).
  rewrite le_val_bytes. f_equal. by apply Z.mod_small.
Qed.
Lemma get_put_u64 v : is_u64 v -> get_u64 (put_u64 v) = Some v.
Proof.
  intros Hv. unfold put_u64. rewrite put_u64_loop_le, get_u64_le by (apply le_bytes_ok || done).
  rewrite le_val_bytes. f_equal. by apply Z.mod_small.
Qed.

(** ** Sources *)

Section sources.
Context {T : Type} `{ByteSource T}.
Implicit Types (t : T) (bs rest : list Z).

Lemma source_app t bs rest n :
  pending t = bs ++ rest -> len bs = n -> 0 < n ->
  exists t', source t n = (0, bs, t') /\ pending t' = rest.
Proof.
  intros Hp Hl Hn. destruct (source_full t n) as (t' & Hs & Hp').
  { rewrite Hp, len_app. pose proof (len_nonneg rest). lia. }
  exists t'. rewrite Hs, Hp', Hp. unfold len in Hl. split.
  - do 2 f_equal. unfold sub. rewrite drop_0, take_app_le, take_ge by lia. done.
  - rewrite drop_app_ge by lia. by replace (Z.to_nat n - length bs)%nat with 0%nat by lia.
Qed.

Lemma take_n_app t bs rest n :
  pending t = bs ++ rest -> len bs = n -> 0 < n ->
  exists t', take_n t n = (Some bs, t') /\ pending t' = rest.
Proof.
  intros Hp Hl Hn. destruct (source_app t bs rest n Hp Hl Hn) as (t' & E & ?).
  exists t'. unfold take_n. by rewrite E.
Qed.

Lemma splice_all (dst bs : list Z) : len dst = len bs -> splice dst 0 bs = bs.
Proof. unfold splice, len. intros. cbn. rewrite drop_ge by lia. by rewrite app_nil_r. Qed.

Lemma read_into_app t dst bs rest n :
  pending t = bs ++ rest -> len bs = n -> len dst = n -> 0 < n ->
  exists t', read_into t dst n = Some (true, bs, t') /\ pending t' = rest.
Proof.
  intros Hp Hl Hd Hn. destruct (source_app t bs rest n Hp Hl Hn) as (t' & E & ?).
  exists t'. unfold read_into. rewrite E, rd_Some by lia. cbn. by rewrite splice_all by lia.
Qed.

Lemma skip_app t bs rest n fuel :
  pending t = bs ++ rest -> len bs = n -> (n + 255) / 256 < Z.of_nat fuel ->
  exists t', skip_bytes fuel t n = Some (BLYS_OK, t') /\ pending t' = rest.
Proof.
  revert t bs n. induction fuel as [|fuel IH]; intros t bs n Hp Hl Hf.
  { pose proof (len_nonneg bs). Z.div_mod_to_equations; lia. }
  cbn. destruct (n >? 0) eqn:E; cycle 1.
  { exists t. split; [done|]. pose proof (len_nonneg bs). destruct bs; [done|]. unfold len in *. cbn in *. lia. }
  set (chunk := if n >? 256 then 256 else n).
  assert (0 < chunk <= n /\ (chunk = n \/ chunk = 256)) as [? ?] by (unfold chunk; case_match; lia).
  rewrite <-(take_drop (Z.to_nat chunk) bs), <-app_assoc in Hp.
  destruct (source_app t _ _ chunk Hp) as (t1 & -> & Hp1).
  { unfold len in *. rewrite length_take. lia. } { lia. }
  cbn. apply (IH t1 (drop (Z.to_nat chunk) bs)); [done|unfold len in *; rewrite length_drop; lia|].
  Z.div_mod_to_equations; lia.
Qed.
End sources.
