(* ===== verification/BlysSpec.v ===== *)
(** * BlysSpec: correctness of the save format

    The byte image of a save, that the writer produces it, that the reader inverts
    it, and that the reader is safe on arbitrary input. *)

From S2P Require Import Prelude Blys.
From Stdlib Require Import ZArith Lia.
From stdpp Require Import base tactics list sets.
Open Scope Z_scope.

(** ** Well-formed descriptors *)

(** Size of the arrays of [tags], the bitset and the generations. *)
Definition tail_size (cnt : Z) (tags : list Z) : Z :=
  foldr (fun tag n => cnt * blys_field_width tag + n) 272 tags.
Definition body_size (b : blys_buffer_t) : Z := tail_size (v_count b) (v_field_types b).

Record view_ok (b : blys_buffer_t) : Prop := {
  vo_count : 0 <= v_count b;
  vo_data : Forall2 (fun tag d => len d = v_count b * blys_field_width tag) (v_field_types b) (v_field_data b);
  vo_bits : len (v_slot_bitset b) = 16;
  vo_gens : len (v_slot_gens b) = 256;
  vo_total : 4 + len (v_name b) + body_size b < 2 ^ 32
}.

(** The arrays hold bytes. *)
Definition view_bytes (b : blys_buffer_t) : Prop :=
  Forall bytes_ok (v_field_data b) /\ bytes_ok (v_slot_bitset b) /\ bytes_ok (v_slot_gens b).

(** Two descriptors of the same declaration. *)
Definition same_decl (v b : blys_buffer_t) : Prop :=
  v_name v = v_name b /\ v_field_types v = v_field_types b /\ v_count v = v_count b.

(** ** The byte image *)

Definition body_image (b : blys_buffer_t) : list Z :=
  concat (v_field_data b) ++ v_slot_bitset b ++ v_slot_gens b.
Definition section_image (b : blys_buffer_t) : list Z :=
  BLYS_SECT_CART ++ put_u32 (4 + len (v_name b) + body_size b) ++ put_u32 (len (v_name b))
  ++ v_name b ++ body_image b.
Definition header_image (hdr : blys_header_t) : list Z :=
  BLYS_MAGIC ++ put_u16 1 ++ put_u16 1 ++ put_u64 (hd_schema_hash hdr) ++ put_u32 (hd_save_version hdr).
Definition file_image (hdr : blys_header_t) (bufs : list blys_buffer_t) : list Z :=
  header_image hdr ++ concat (section_image <$> bufs).

(** What a reader that finds a section for [b] does to its views. *)
Definition load_one (vs : list blys_buffer_t) (b : blys_buffer_t) : list blys_buffer_t :=
  match find_view vs (v_name b) with Some i => <[i := b]> vs | None => vs end.
Definition load_saved (bufs vs : list blys_buffer_t) : list blys_buffer_t := fold_left load_one bufs vs.

(** ** Sizes *)

Lemma width_pos tag : 1 <= blys_field_width tag <= 8.
Proof. unfold blys_field_width. repeat case_match; lia. Qed.

Lemma tail_size_cons cnt tag tags :
  tail_size cnt (tag :: tags) = cnt * blys_field_width tag + tail_size cnt tags.
Proof. done. Qed.

Lemma tail_size_ge cnt tags : 0 <= cnt -> 272 <= tail_size cnt tags.
Proof. intros Hc. induction tags as [|tag tags IH]; [by cbn|]. rewrite tail_size_cons. pose proof (width_pos tag). nia. Qed.

Lemma body_size_ge b : 0 <= v_count b -> 272 <= body_size b.
Proof. apply tail_size_ge. Qed.

Lemma tail_size_elem cnt tags tag :
  0 <= cnt -> tag ∈ tags -> cnt * blys_field_width tag <= tail_size cnt tags.
Proof.
  intros Hc. induction tags as [|tg tags IH]; [by intros ?%elem_of_nil|]. rewrite tail_size_cons.
  pose proof (width_pos tg). pose proof (tail_size_ge cnt tags Hc).
  intros [->|Hin]%elem_of_cons; [lia|]. specialize (IH Hin). nia.
Qed.

Lemma field_bytes_exact b tag : view_ok b -> tag ∈ v_field_types b ->
  field_bytes b tag = v_count b * blys_field_width tag.
Proof.
  intros [Hc _ _ _ Ht] Hin. unfold field_bytes. pose proof (width_pos tag). apply u32_id.
  pose proof (tail_size_elem _ _ _ Hc Hin). unfold body_size in Ht.
  pose proof (len_nonneg (v_name b)). unfold is_u32. nia.
Qed.

Lemma payload_fold b tags p :
  0 <= v_count b -> 0 <= p -> p + tail_size (v_count b) tags < 2 ^ 32 ->
  fold_left (fun p tag => u32 (p + field_bytes b tag)) tags p + 272 = p + tail_size (v_count b) tags.
Proof.
  intros Hc. revert p. induction tags as [|tag tags IH]; intros p Hp Hlt; [by cbn|].
  rewrite tail_size_cons in *. cbn [fold_left]. pose proof (width_pos tag). pose proof (tail_size_ge (v_count b) tags Hc).
  assert (0 <= v_count b * blys_field_width tag) by nia. unfold field_bytes at 2.
  rewrite (u32_id (v_count b * _)), u32_id by (unfold is_u32; lia). rewrite IH by lia. lia.
Qed.

Lemma payload_exact b : view_ok b -> blys_buffer_payload_size b = 4 + len (v_name b) + body_size b.
Proof.
  intros [Hc _ _ _ Ht]. pose proof (len_nonneg (v_name b)). pose proof (body_size_ge b Hc).
  unfold blys_buffer_payload_size, BLYS_SLOT_BITSET_BYTES, BLYS_SLOT_GENS_BYTES, v_name_len.
  rewrite (u32_id (4 + _)) by (unfold is_u32; lia).
  pose proof (payload_fold b (v_field_types b) (4 + len (v_name b)) Hc ltac:(lia) Ht) as Hf.
  fold (body_size b) in Hf. rewrite (u32_id (_ + 16)) by (unfold is_u32; lia).
  rewrite u32_id by (unfold is_u32; lia). lia.
Qed.

Lemma body_len b : view_ok b -> len (body_image b) = body_size b.
Proof.
  intros [Hc Hd Hb Hg _]. unfold body_image, body_size. rewrite !len_app, Hb, Hg.
  induction Hd as [|tag d tags data Hl _ IH]; [done|]. cbn [concat]. rewrite len_app, Hl, tail_size_cons. lia.
Qed.

(** ** The writer *)

Section writer.
Context {T : Type} `{ByteSink T}.

Lemma emit_spec t ps r t' :
  emit t ps = (r, t') -> (r = BLYS_OK /\ written t' = written t ++ concat ps) \/ r = BLYS_ERR_IO.
Proof.
  revert t; induction ps as [|p ps IH]; intros t; cbn.
  { intros [= <- <-]. left. by rewrite app_nil_r. }
  destruct (sink t p) as [r1 t1] eqn:Hs. destruct (r1 <? 0) eqn:E; [intros [= <- _]; by right|].
  intros Hr. apply IH in Hr as [[-> Hw]|?]; [left|by right].
  rewrite Hw, (sink_ok _ _ _ _ Hs), <-app_assoc by lia. done.
Qed.

(** Whatever the sink answers, what it holds has grown by bytes of the image. *)
Definition grows (t t' : T) : Prop := bytes_ok (written t) -> bytes_ok (written t').

Lemma sink_grows t bs r t' : bytes_ok bs -> sink t bs = (r, t') -> grows t t'.
Proof.
  intros Hb [k E]%sink_part Ht. rewrite E. apply Forall_app. split; [done|by apply Forall_take].
Qed.

Lemma emit_grows t ps r t' : Forall bytes_ok ps -> emit t ps = (r, t') -> grows t t'.
Proof.
  intros Hps. revert t. induction Hps as [|p ps Hp _ IH]; intros t; cbn; [intros [= <- <-] Ht; exact Ht|].
  destruct (sink t p) as [r1 t1] eqn:Hs. pose proof (sink_grows t p r1 t1 Hp Hs) as Hg.
  destruct (r1 <? 0); [by intros [= <- <-]|]. intros Hr%IH Ht. by apply Hr, Hg.
Qed.

Lemma pieces_bytes ps : bytes_ok (concat ps) -> Forall bytes_ok ps.
Proof. induction ps as [|p ps IH]; cbn; [done|]. intros [Hp Hps]%Forall_app. constructor; auto. Qed.

Lemma image_bytes b : view_bytes b -> bytes_ok (v_name b) -> bytes_ok (section_image b).
Proof.
  intros (Hd & Hb & Hg) Hn. unfold section_image, body_image.
  assert (bytes_ok (concat (v_field_data b))) by by apply Forall_concat.
  rewrite !put_u32_le. repeat apply Forall_app_2; try done; try apply le_bytes_ok.
  repeat constructor; unfold is_u8; lia.
Qed.

Lemma field_pieces_spec b tags data :
  (forall tag, tag ∈ tags -> field_bytes b tag = v_count b * blys_field_width tag) -> 0 <= v_count b ->
  Forall2 (fun tag d => len d = v_count b * blys_field_width tag) tags data ->
  exists ps, field_pieces b tags data = Some ps /\ concat ps = concat data.
Proof.
  intros Hex Hc Hd. induction Hd as [|tag d tags data Hl _ IH]; cbn; [by exists []|].
  destruct IH as (ps & -> & Hps); [set_solver|]. cbn. rewrite Hex by set_solver. pose proof (width_pos tag).
  destruct (_ =? 0) eqn:E.
  - exists ps. split; [done|]. rewrite Hps. destruct d; [done|]. unfold len in *. cbn in *. lia.
  - rewrite rd_Some by nia. cbn. eexists. split; [done|]. cbn. rewrite <-Hl, sub_0_all. by f_equal.
Qed.

Lemma buffer_pieces_spec b :
  view_ok b -> exists ps, buffer_pieces b = Some ps /\ concat ps = section_image b.
Proof.
  intros Hok. pose proof (fun tag => field_bytes_exact b tag Hok) as Hex. pose proof (payload_exact b Hok) as Hp.
  pose proof Hok as [Hc Hd Hb Hg Ht]. pose proof (body_size_ge b Hc). pose proof (len_nonneg (v_name b)).
  unfold buffer_pieces, BLYS_SLOT_BITSET_BYTES, BLYS_SLOT_GENS_BYTES.
  destruct (field_pieces_spec b _ _ Hex Hc Hd) as (ps & -> & Hps). cbn [mbind option_bind].
  rewrite !rd_Some by lia. cbn [mbind option_bind]. eexists. split; [done|].
  rewrite <-Hb, <-Hg, !sub_0_all, Hp. unfold v_name_len, section_image, body_image.
  rewrite u32_id by (unfold is_u32; lia).
  destruct (Z.eqb_spec (len (v_name b)) 0) as [E|E].
  - assert (v_name b = []) as -> by (destruct (v_name b); [done|unfold len in E; cbn in E; lia]).
    cbn [concat app]. rewrite concat_app. cbn [concat]. rewrite Hps, app_nil_r. done.
  - cbn [concat app]. rewrite concat_app. cbn [concat]. rewrite Hps, app_nil_r. done.
Qed.

Lemma write_buffers_spec bufs t :
  Forall view_ok bufs -> exists r t', write_buffers bufs t = Some (r, t')
    /\ ((r = BLYS_OK /\ written t' = written t ++ concat (section_image <$> bufs)) \/ r = BLYS_ERR_IO).
Proof.
  intros Hbs. revert t. induction Hbs as [|b bufs Hb _ IH]; intros t; cbn.
  { exists BLYS_OK, t. split; [done|]. left. by rewrite app_nil_r. }
  destruct (buffer_pieces_spec b Hb) as (ps & -> & Hps). cbn.
  destruct (emit t ps) as [r t1] eqn:He. apply emit_spec in He as [[-> Hw]| ->].
  - cbn. destruct (IH t1) as (r & t2 & -> & [[-> Hw2]| ->]); eexists _, _; (split; [done|]); [left|by right].
    split; [done|]. by rewrite Hw2, Hw, Hps, <-app_assoc.
  - cbn. eexists _, _. split; [done|by right].
Qed.

Lemma write_buffers_grows bufs t r t' :
  Forall view_ok bufs -> Forall (fun b => view_bytes b /\ bytes_ok (v_name b)) bufs ->
  write_buffers bufs t = Some (r, t') -> grows t t'.
Proof.
  intros Hbs Hby. revert t. induction Hbs as [|b bufs Hb _ IH]; intros t; cbn; [intros [= <- <-] Ht; exact Ht|].
  apply Forall_cons in Hby as [[Hv Hn] Hby]. destruct (buffer_pieces_spec b Hb) as (ps & -> & Hps). cbn.
  destruct (emit t ps) as [r1 t1] eqn:He. pose proof (image_bytes b Hv Hn) as Hi. rewrite <-Hps in Hi.
  pose proof (emit_grows t ps r1 t1 (pieces_bytes ps Hi) He) as Hg.
  destruct (_ =? _); [|by intros [= <- <-]].
  intros Hw Ht. by apply (IH Hby t1 Hw), Hg.
Qed.

Lemma blys_write_spec hdr bufs t :
  Forall view_ok bufs -> exists r t', blys_write hdr bufs t = Some (r, t')
    /\ ((r = BLYS_OK /\ written t' = written t ++ file_image hdr bufs) \/ r = BLYS_ERR_IO).
Proof.
  intros Hbs. unfold blys_write. change (BLYS_MAGIC ++ _) with (header_image hdr).
  destruct (sink t (header_image hdr)) as [r t1] eqn:Hs. destruct (r <? 0) eqn:E.
  - eexists _, _. split; [done|by right].
  - destruct (write_buffers_spec bufs t1 Hbs) as (r2 & t2 & -> & [[-> Hw]| ->]); eexists _, _; (split; [done|]);
      [left|by right].
    split; [done|]. rewrite Hw, (sink_ok _ _ _ _ Hs), <-app_assoc by lia. done.
Qed.

Lemma blys_write_grows hdr bufs t r t' :
  Forall view_ok bufs -> Forall (fun b => view_bytes b /\ bytes_ok (v_name b)) bufs ->
  blys_write hdr bufs t = Some (r, t') -> grows t t'.
Proof.
  intros Hbs Hby. unfold blys_write. change (BLYS_MAGIC ++ _) with (header_image hdr).
  destruct (sink t (header_image hdr)) as [r1 t1] eqn:Hs.
  assert (grows t t1) as Hg.
  { eapply sink_grows; [|exact Hs]. unfold header_image. unfold put_u64. rewrite !put_u16_le, put_u32_le, put_u64_loop_le.
    repeat apply Forall_app_2; try apply le_bytes_ok. repeat constructor; unfold is_u8; lia. }
  destruct (r1 <? 0); [by intros [= <- <-]|].
  intros Hw Ht. by apply (write_buffers_grows bufs t1 r t' Hbs Hby Hw), Hg.
Qed.
End writer.

(** ** The reader on a well-formed image *)

Section reader.
Context {T : Type} `{ByteSource T}.

Lemma read_fields_app v tags data vdata t rest :
  (forall tag, tag ∈ tags -> field_bytes v tag = v_count v * blys_field_width tag) -> 0 <= v_count v ->
  Forall2 (fun tag d => len d = v_count v * blys_field_width tag) tags data ->
  Forall2 (fun tag d => len d = v_count v * blys_field_width tag) tags vdata ->
  pending t = concat data ++ rest ->
  exists t', read_fields v tags vdata t = Some (true, data, t') /\ pending t' = rest.
Proof.
  intros Hex Hc Hd Hvd. revert vdata Hvd t.
  induction Hd as [|tag d tags data Hl _ IH]; intros vdata Hvd t Hp.
  { inversion Hvd; subst. exists t. done. }
  inversion Hvd as [|? vd ? vdata' Hvl Hvd']; subst. cbn in Hp. rewrite <-app_assoc in Hp.
  cbn. rewrite Hex by set_solver. pose proof (width_pos tag). destruct (_ =? 0) eqn:E.
  - assert (d = [] /\ vd = []) as [-> ->].
    { destruct d, vd; unfold len in *; cbn in *; try lia. done. }
    destruct (IH ltac:(set_solver) vdata' Hvd' t Hp) as (t' & -> & ?). eexists. done.
  - destruct (read_into_app t vd d (concat data ++ rest) _ Hp Hl Hvl) as (t1 & -> & Hp1); [nia|]. cbn.
    destruct (IH ltac:(set_solver) vdata' Hvd' t1 Hp1) as (t' & -> & ?). eexists. done.
Qed.

Lemma read_buffer_app v b t rest :
  view_ok v -> view_ok b -> same_decl v b -> pending t = body_image b ++ rest ->
  exists t', read_buffer v t = Some (true, b, t') /\ pending t' = rest.
Proof.
  intros Hv Hb (Hn & Ht & Hc) Hp. pose proof (fun tag => field_bytes_exact v tag Hv) as Hex.
  pose proof Hv as [Hv1 Hv2 Hv3 Hv4 _]. pose proof Hb as [_ Hb2 Hb3 Hb4 _].
  unfold body_image in Hp. rewrite <-!app_assoc in Hp. rewrite <-Ht, <-Hc in Hb2.
  unfold read_buffer, BLYS_SLOT_BITSET_BYTES, BLYS_SLOT_GENS_BYTES.
  destruct (read_fields_app v _ _ _ t _ Hex Hv1 Hb2 Hv2 Hp) as (t1 & -> & Hp1). cbn [mbind option_bind negb].
  destruct (read_into_app t1 _ _ _ 16 Hp1 Hb3 Hv3) as (t2 & -> & Hp2); [lia|]. cbn [mbind option_bind negb].
  destruct (read_into_app t2 _ _ _ 256 Hp2 Hb4 Hv4) as (t3 & -> & Hp3); [lia|]. cbn [mbind option_bind].
  exists t3. split; [|done]. rewrite Hn, Ht, Hc. by destruct b.
Qed.

Lemma find_view_Some vs nm i : find_view vs nm = Some i -> exists v, vs !! i = Some v /\ v_name v = nm.
Proof.
  revert i; induction vs as [|v vs IH]; intros i; cbn; [done|]. unfold name_eq.
  destruct (negb _) eqn:E; [|case_bool_decide].
  - destruct (find_view vs nm) as [j|]; cbn; [|done]. intros [= <-]. by apply IH.
  - intros [= <-]. by exists v.
  - destruct (find_view vs nm) as [j|]; cbn; [|done]. intros [= <-]. by apply IH.
Qed.

Lemma name_eq_true v nm : name_eq v nm = true <-> v_name v = nm.
Proof.
  unfold name_eq, v_name_len. destruct (Z.eqb_spec (len (v_name v)) (len nm)) as [E|E]; cbn.
  - apply bool_decide_eq_true.
  - split; [done|]. by intros <-.
Qed.

(** Every view that a saved buffer may be loaded into has its declaration. *)
Definition compat (bufs vs : list blys_buffer_t) : Prop :=
  Forall view_ok bufs /\ Forall view_ok vs /\ NoDup (v_name <$> bufs)
  /\ Forall (fun b => len (v_name b) < 256) bufs
  /\ forall b v, b ∈ bufs -> v ∈ vs -> v_name v = v_name b -> same_decl v b.

Lemma load_one_compat b bufs vs : compat (b :: bufs) vs -> compat bufs (load_one vs b).
Proof.
  intros (Hb & Hv & Hnd & Hnm & Hsame). rewrite Forall_cons in Hb, Hnm. destruct Hb as [Hb1 Hb], Hnm as [_ Hnm].
  rewrite fmap_cons in Hnd. apply NoDup_cons in Hnd as [Hni Hnd]. unfold load_one.
  destruct (find_view vs (v_name b)) as [i|] eqn:Hf.
  - split_and!; [done|by apply Forall_insert|done|done|]. intros b' v Hb' Hin Heq.
    apply list_elem_of_lookup in Hin as [j Hj].
    destruct (decide (i = j)) as [<-|Hij].
    + destruct (find_view_Some _ _ _ Hf) as (w & Hw & _).
      rewrite list_lookup_insert_eq in Hj by (by eapply lookup_lt_Some). injection Hj as <-.
      exfalso. apply Hni. rewrite Heq. by apply list_elem_of_fmap_2.
    + rewrite list_lookup_insert_ne in Hj by done. apply Hsame; [set_solver|by eapply list_elem_of_lookup_2|done].
  - split_and!; [done|done|done|done|]. intros. apply Hsame; [set_solver|done|done].
Qed.

Lemma sect_len b : len (BLYS_SECT_CART ++ put_u32 (4 + len (v_name b) + body_size b)) = 8.
Proof. done. Qed.

(** One section of the image, known or not. *)
Lemma read_section fuel vs b bufs t rest :
  compat (b :: bufs) vs -> pending t = section_image b ++ rest ->
  exists t', read_sections (S fuel) vs t = read_sections fuel (load_one vs b) t' /\ pending t' = rest.
Proof.
  intros (Hb & Hv & _ & Hnm & Hsame) Hp. rewrite Forall_cons in Hb, Hnm.
  destruct Hb as [Hb _], Hnm as [Hnm _]. pose proof Hb as [Hc _ _ _ Ht].
  pose proof (body_size_ge b Hc). pose proof (len_nonneg (v_name b)).
  unfold section_image in Hp. rewrite app_assoc, <-!app_assoc in Hp.
  rewrite (app_assoc BLYS_SECT_CART) in Hp.
  destruct (source_app t _ _ 8 Hp (sect_len b)) as (t1 & Hs & Hp1); [lia|].
  cbn [read_sections]. rewrite Hs. cbn [Z.eqb negb].
  change (drop 4 (BLYS_SECT_CART ++ ?x)) with x. change (take 4 (BLYS_SECT_CART ++ put_u32 ?x)) with BLYS_SECT_CART.
  rewrite get_put_u32 by (unfold is_u32; lia). cbn [mbind option_bind].
  rewrite bool_decide_true by done. cbn [negb].
  destruct (take_n_app t1 _ _ 4 Hp1) as (t2 & -> & Hp2); [done|lia|].
  rewrite get_put_u32 by (unfold is_u32; lia). cbn [mbind option_bind].
  destruct (len (v_name b) >=? 256) eqn:E256; [lia|].
  assert (exists t3, (if len (v_name b) =? 0 then (Some [], t2) else take_n t2 (len (v_name b)))
    = (Some (v_name b), t3) /\ pending t3 = body_image b ++ rest) as (t3 & -> & Hp3).
  { destruct (Z.eqb_spec (len (v_name b)) 0) as [E|E].
    - assert (v_name b = []) as Hnil by (destruct (v_name b); [done|unfold len in E; cbn in E; lia]).
      rewrite Hnil in *. exists t2. done.
    - apply (take_n_app t2 _ _ _ Hp2); lia. }
  unfold load_one. destruct (find_view vs (v_name b)) as [i|] eqn:Hf.
  - destruct (find_view_Some _ _ _ Hf) as (v & Hi & Hvn). rewrite Hi. cbn [mbind option_bind].
    destruct (read_buffer_app v b t3 rest) as (t4 & -> & Hp4); [by eapply Forall_lookup_1|done| |done|].
    { apply Hsame; [set_solver|by eapply list_elem_of_lookup_2|done]. }
    cbn [mbind option_bind negb]. exists t4. done.
  - rewrite (u32_id (_ - 4)), u32_id by (unfold is_u32; lia).
    replace (4 + len (v_name b) + body_size b - 4 - len (v_name b)) with (body_size b) by lia.
    destruct (skip_app t3 _ _ (body_size b) (skip_fuel (body_size b)) Hp3) as (t4 & -> & Hp4).
    { by apply body_len. } { unfold skip_fuel. Z.div_mod_to_equations; lia. }
    cbn [mbind option_bind]. exists t4. done.
Qed.

Lemma read_all fuel bufs vs t :
  compat bufs vs -> pending t = concat (section_image <$> bufs) -> (length bufs < fuel)%nat ->
  exists t', read_sections fuel vs t = Some (BLYS_OK, load_saved bufs vs, t').
Proof.
  revert fuel vs t. induction bufs as [|b bufs IH]; intros [|fuel] vs t Hc Hp Hf; cbn in Hf; try lia.
  - cbn. destruct (source_eof t 8) as (t' & ->); [lia|done|]. cbn. by exists t'.
  - cbn in Hp. destruct (read_section fuel vs b bufs t _ Hc Hp) as (t1 & -> & Hp1).
    apply IH; [by apply load_one_compat|done|lia].
Qed.

Lemma header_parts hdr :
  is_u64 (hd_schema_hash hdr) -> is_u32 (hd_save_version hdr) ->
  exists h, header_image hdr = h ++ put_u32 (hd_save_version hdr) /\ len h = 16
    /\ take 4 h = BLYS_MAGIC /\ get_u16 (sub h 6 2) = Some 1 /\ get_u64 (drop 8 h) = Some (hd_schema_hash hdr).
Proof.
  intros Hh Hv. exists (BLYS_MAGIC ++ put_u16 1 ++ put_u16 1 ++ put_u64 (hd_schema_hash hdr)).
  split_and!; [done|done|done|done|].
  change (drop 8 _) with (put_u64 (hd_schema_hash hdr)). by apply get_put_u64.
Qed.

(** The header, up to the section loop. *)
Lemma read_header fuel expect vs t hdr rest :
  is_u64 (hd_schema_hash hdr) -> is_u32 (hd_save_version hdr) -> pending t = header_image hdr ++ rest ->
  exists t', pending t' = rest /\ blys_read fuel expect vs t
    = if hd_schema_hash hdr =? expect
      then '(rc, bufs', t3) ← read_sections fuel vs t'; Some (rc, hd_save_version hdr, bufs', t3)
      else Some (BLYS_ERR_SCHEMA, hd_save_version hdr, vs, t').
Proof.
  intros Hh Hv Hp. destruct (header_parts hdr Hh Hv) as (h & Hi & Hl & Hm & Hmin & Hhash).
  rewrite Hi, <-app_assoc in Hp. unfold blys_read.
  destruct (take_n_app t _ _ 16 Hp Hl) as (t1 & -> & Hp1); [lia|].
  rewrite Hm, bool_decide_true by done. cbn [negb]. rewrite Hmin, Hhash. cbn [mbind option_bind].
  change (1 >=? 1) with true. cbv iota.
  destruct (take_n_app t1 _ _ 4 Hp1) as (t2 & -> & Hp2); [done|lia|].
  rewrite get_put_u32 by done. cbn [mbind option_bind]. exists t2. split; [done|].
  by destruct (hd_schema_hash hdr =? expect).
Qed.
End reader.

(** ** The reader on arbitrary input *)

Section robust.
Context {T : Type} `{ByteSource T}.

(** Progress of a successful step: the remaining input is a suffix. *)
Definition advanced (t t' : T) : Prop :=
  len (pending t') <= len (pending t) /\ (bytes_ok (pending t) -> bytes_ok (pending t')).

Lemma source_cases t n :
  0 < n ->
  (exists t', source t n = (0, sub (pending t) 0 n, t') /\ n <= len (pending t)
     /\ len (pending t') = len (pending t) - n /\ advanced t t')
  \/ exists r bs t', source t n = (r, bs, t') /\ r <> 0 /\ len bs <= n /\ (bytes_ok (pending t) -> bytes_ok bs).
Proof.
  intros Hn. pose proof (len_nonneg (pending t)). destruct (decide (n <= len (pending t))) as [Hle|Hgt].
  - left. destruct (source_full t n (conj Hn Hle)) as (t' & -> & Hp). exists t'.
    assert (len (pending t') = len (pending t) - n) as Hl.
    { rewrite Hp. unfold len in *. rewrite length_drop. lia. }
    split_and!; [done|done|done|]. split; [lia|]. rewrite Hp. apply Forall_drop.
  - right. destruct (decide (len (pending t) = 0)) as [E0|E0].
    + destruct (source_eof t n Hn) as (t' & ->); [destruct (pending t); [done|unfold len in E0; cbn in E0; lia]|].
      eexists _, _, _. split; [done|]. split; [done|]. split; [change (len []) with 0; lia|constructor].
    + assert (0 < len (pending t) < n) as Hsh by lia.
      destruct (source_short t n Hsh) as (r & bs & t' & -> & ? & ? & ?).
      eexists _, _, _. split; [done|]. split; [lia|done].
Qed.

Lemma advanced_trans t1 t2 t3 : advanced t1 t2 -> advanced t2 t3 -> advanced t1 t3.
Proof. intros [? ?] [? ?]. split; [lia|auto]. Qed.

Lemma advanced_refl t : advanced t t.
Proof. unfold advanced. split; [lia|done]. Qed.

Lemma len_sub_0 (l : list Z) n : 0 <= n <= len l -> len (sub l 0 n) = n.
Proof. intros. unfold len in *. rewrite length_sub; unfold len; lia. Qed.

Lemma take_n_cases t n :
  0 < n ->
  (exists bs t', take_n t n = (Some bs, t') /\ len bs = n /\ advanced t t'
     /\ (bytes_ok (pending t) -> bytes_ok bs))
  \/ exists t', take_n t n = (None, t').
Proof.
  intros Hn. unfold take_n. destruct (source_cases t n Hn) as [(t' & -> & Hle & _ & Ha)|(r & bs & t' & -> & Hr & _)].
  - left. eexists _, _. split; [done|]. split_and!; [by apply len_sub_0; lia|done|]. apply Forall_sub.
  - right. apply Z.eqb_neq in Hr as ->. by eexists.
Qed.

Lemma read_into_cases t dst n :
  0 < n <= len dst ->
  exists ok d' t', read_into t dst n = Some (ok, d', t') /\ len d' = len dst /\ (ok = true -> advanced t t')
    /\ (bytes_ok (pending t) -> bytes_ok dst -> bytes_ok d').
Proof.
  intros Hn. unfold read_into.
  assert (forall bs : list Z, len bs <= n -> len (splice dst 0 bs) = len dst) as Hsp.
  { intros bs Hbs. unfold len. rewrite length_splice; [done|lia|lia]. }
  destruct (source_cases t n ltac:(lia)) as [(t' & -> & Hle & _ & Ha)|(r & bs & t' & -> & Hr & Hb & Hbb)].
  - rewrite len_sub_0, rd_Some by lia. cbn. eexists _, _, _. split; [done|].
    split; [apply Hsp; rewrite len_sub_0 by lia; lia|]. split; [done|]. intros Hp Hd. apply Forall_splice; [done|by apply Forall_sub].
  - pose proof (len_nonneg bs). rewrite rd_Some by lia. cbn. apply Z.eqb_neq in Hr as ->.
    eexists _, _, _. split; [done|]. split; [by apply Hsp|]. split; [done|]. intros Hp Hd. apply Forall_splice; [done|by apply Hbb].
Qed.

Lemma skip_cases fuel t n :
  0 <= n -> (n + 255) / 256 < Z.of_nat fuel ->
  exists r t', skip_bytes fuel t n = Some (r, t') /\ (r = 0 -> advanced t t').
Proof.
  revert t n. induction fuel as [|fuel IH]; intros t n Hn Hf; [Z.div_mod_to_equations; lia|].
  cbn. destruct (n >? 0) eqn:E; [|exists 0, t; split; [done|intros; apply advanced_refl]].
  set (chunk := if n >? 256 then 256 else n).
  assert (0 < chunk <= n /\ (chunk = n \/ chunk = 256)) as [? ?] by (unfold chunk; case_match; lia).
  destruct (source_cases t chunk ltac:(lia)) as [(t1 & -> & _ & _ & Ha)|(r & bs & t1 & -> & Hr & _)].
  - cbn. destruct (IH t1 (n - chunk)) as (r & t2 & -> & Hadv); [lia|Z.div_mod_to_equations; lia|].
    eexists _, _. split; [done|]. intros Hr. by eapply advanced_trans; [|apply Hadv].
  - apply Z.eqb_neq in Hr as ->. cbn. eexists _, _. split; [done|]. done.
Qed.

Lemma read_fields_cases v tags data t :
  (forall tag, tag ∈ tags -> field_bytes v tag = v_count v * blys_field_width tag) -> 0 <= v_count v ->
  Forall2 (fun tag d => len d = v_count v * blys_field_width tag) tags data ->
  exists ok data' t', read_fields v tags data t = Some (ok, data', t')
    /\ Forall2 (fun tag d => len d = v_count v * blys_field_width tag) tags data'
    /\ (ok = true -> advanced t t')
    /\ (bytes_ok (pending t) -> Forall bytes_ok data -> Forall bytes_ok data').
Proof.
  intros Hex Hc Hd. revert t. induction Hd as [|tag d tags data Hl Hd IH]; intros t.
  { exists true, [], t. cbn. split; [done|]. split; [constructor|]. split; [intros; apply advanced_refl|done]. }
  specialize (IH ltac:(set_solver)). cbn. rewrite Hex by set_solver. pose proof (width_pos tag).
  destruct (_ =? 0) eqn:E.
  - destruct (IH t) as (ok & data' & t' & -> & Hd' & Ha & Hb). cbn. eexists _, _, _. split; [done|].
    split; [by constructor|]. split; [done|]. intros Hp [? ?]%Forall_cons. constructor; auto.
  - destruct (read_into_cases t d (v_count v * blys_field_width tag)) as (ok & d' & t1 & -> & Hl1 & Ha1 & Hb1); [nia|].
    cbn. destruct ok; cbn.
    + destruct (IH t1) as (ok & data' & t' & -> & Hd' & Ha & Hb). cbn. specialize (Ha1 eq_refl). eexists _, _, _. split; [done|].
      split; [constructor; [lia|done]|]. split; [intros Hok; eapply advanced_trans; [done|by apply Ha]|].
      intros Hp [? ?]%Forall_cons. constructor; [by apply Hb1|apply Hb; [by apply Ha1|done]].
    + eexists _, _, _. split; [done|]. split; [constructor; [lia|done]|]. split; [done|].
      intros Hp [? ?]%Forall_cons. constructor; [by apply Hb1|done].
Qed.

Lemma read_buffer_cases v t :
  view_ok v -> exists ok v' t', read_buffer v t = Some (ok, v', t')
    /\ view_ok v' /\ same_decl v' v /\ (ok = true -> advanced t t')
    /\ (bytes_ok (pending t) -> view_bytes v -> view_bytes v').
Proof.
  intros Hv. pose proof (fun tag => field_bytes_exact v tag Hv) as Hex. pose proof Hv as [H1 H2 H3 H4 H5].
  unfold read_buffer, BLYS_SLOT_BITSET_BYTES, BLYS_SLOT_GENS_BYTES, view_bytes.
  destruct (read_fields_cases v _ _ t Hex H1 H2) as (ok & data & t1 & -> & Hd & Ha & Hbd). cbn [mbind option_bind].
  destruct ok; cbn [negb].
  2:{ eexists _, _, _. split; [done|]. split; [by split|]. split; [done|]. split; [done|]. intros Hp (? & ? & ?). cbn. auto. }
  specialize (Ha eq_refl).
  destruct (read_into_cases t1 (v_slot_bitset v) 16) as (ok2 & bits & t2 & -> & Hb & Ha2 & Hbb); [lia|]. cbn [mbind option_bind].
  destruct ok2; cbn [negb].
  2:{ eexists _, _, _. split; [done|]. split; [split; cbn; try done; lia|]. split; [done|]. split; [done|].
      intros Hp (? & ? & ?). cbn. split; [auto|]. split; [apply Hbb; [by apply Ha|done]|done]. }
  specialize (Ha2 eq_refl).
  destruct (read_into_cases t2 (v_slot_gens v) 256) as (ok3 & gens & t3 & -> & Hg & Ha3 & Hbg); [lia|]. cbn [mbind option_bind].
  eexists _, _, _. split; [done|]. split; [split; cbn; try done; lia|]. split; [done|]. split.
  - intros Hok. eapply advanced_trans; [done|]. eapply advanced_trans; [done|by apply Ha3].
  - intros Hp (? & ? & ?). cbn. split; [auto|]. split; [apply Hbb; [by apply Ha|done]|apply Hbg; [by apply Ha2, Ha|done]].
Qed.

Definition safe_views (vs vs' : list blys_buffer_t) : Prop :=
  Forall2 (fun v v' => view_ok v' /\ same_decl v' v /\ (view_bytes v -> view_bytes v')) vs vs'.

Lemma safe_views_refl vs : Forall view_ok vs -> safe_views vs vs.
Proof. induction 1; constructor; auto. done. Qed.

Lemma safe_views_ok vs vs' : safe_views vs vs' -> Forall view_ok vs'.
Proof. induction 1 as [|v v' l l' [? ?] _ IH]; constructor; auto. Qed.

Lemma safe_views_trans vs1 vs2 vs3 : safe_views vs1 vs2 -> safe_views vs2 vs3 -> safe_views vs1 vs3.
Proof.
  intros H12; revert vs3; induction H12 as [|v1 v2 vs1 vs2 [_ ((?&?&?)&?)] _ IH]; intros vs3 H23;
    inversion H23 as [|? v3 ? ? [? ((?&?&?)&?)]]; subst; constructor; [|by apply IH].
  split; [done|]. split; [split_and!; congruence|auto].
Qed.

Lemma safe_views_insert vs i v v' :
  Forall view_ok vs -> vs !! i = Some v -> view_ok v' -> same_decl v' v -> (view_bytes v -> view_bytes v') ->
  safe_views vs (<[i := v']> vs).
Proof.
  intros Hvs Hi Hv Hd Hb. rewrite <-(list_insert_id vs i v Hi) at 1. apply Forall2_insert; [|done].
  by apply safe_views_refl.
Qed.

Lemma get_u32_range p : bytes_ok p -> len p = 4 -> exists v, get_u32 p = Some v /\ is_u32 v.
Proof.
  intros Hp Hl. rewrite get_u32_le by done. eexists. split; [done|].
  pose proof (le_val_range p Hp) as Hr. rewrite Hl in Hr. done.
Qed.

Lemma read_sections_safe fuel vs t :
  Forall view_ok vs -> bytes_ok (pending t) -> len (pending t) < Z.of_nat fuel ->
  exists rc vs' t', read_sections fuel vs t = Some (rc, vs', t')
    /\ (rc = BLYS_OK \/ rc = BLYS_ERR_IO) /\ safe_views vs vs'.
Proof.
  revert vs t. induction fuel as [|fuel IH]; intros vs t Hvs Hok Hf; [pose proof (len_nonneg (pending t)); lia|].
  assert (forall rc (t' : T), rc = BLYS_OK \/ rc = BLYS_ERR_IO -> exists rc0 vs' t0, Some (rc, vs, t') = Some (rc0, vs', t0)
    /\ (rc0 = BLYS_OK \/ rc0 = BLYS_ERR_IO) /\ safe_views vs vs') as Hstop.
  { intros rc t' ?. eexists _, _, _. split; [done|]. split; [done|by apply safe_views_refl]. }
  cbn [read_sections].
  destruct (source_cases t 8 ltac:(lia)) as [(t1 & -> & Hle & Hlen & Ha1)|(r & bs & t1 & -> & Hr & _)]; cycle 1.
  { destruct (r =? 1); [by apply Hstop; left|]. apply Z.eqb_neq in Hr as ->. cbn. apply Hstop. by right. }
  cbn [Z.eqb negb]. set (sect := sub (pending t) 0 8).
  assert (bytes_ok sect /\ len sect = 8) as [Hsok Hslen] by (split; [by apply Forall_sub|by apply len_sub_0; lia]).
  destruct (get_u32_range (drop 4 sect)) as (payload & -> & Hpay); [by apply Forall_drop|unfold len in *; rewrite length_drop; lia|].
  cbn [mbind option_bind]. unfold is_u32 in Hpay.
  assert (forall vs1 t', safe_views vs vs1 -> advanced t1 t' -> exists rc vs' t0, read_sections fuel vs1 t' = Some (rc, vs', t0)
    /\ (rc = BLYS_OK \/ rc = BLYS_ERR_IO) /\ safe_views vs vs') as Hgo.
  { intros vs1 t' Hs [Hl Hb]. destruct (IH vs1 t') as (rc & vs' & t0 & E & ? & ?);
      [by eapply safe_views_ok|by apply Hb, Ha1|lia|]. eexists _, _, _. split; [exact E|]. split; [done|by eapply safe_views_trans]. }
  destruct (bool_decide _); cbn [negb]; cycle 1.
  { destruct (skip_cases (skip_fuel payload) t1 payload) as (r & t2 & -> & Hadv); [lia|unfold skip_fuel; Z.div_mod_to_equations; lia|].
    cbn [mbind option_bind]. destruct (r =? 0) eqn:Er; cbn [negb]; [|by apply Hstop; right].
    apply Hgo; [by apply safe_views_refl|apply Hadv; lia]. }
  destruct (take_n_cases t1 4 ltac:(lia)) as [(nl & t2 & -> & Hnl & Ha2 & Hb2)|(t2 & ->)]; [|by apply Hstop; right].
  destruct (get_u32_range nl) as (nlen & -> & Hnlen); [by apply Hb2, Ha1|done|]. cbn [mbind option_bind].
  unfold is_u32 in Hnlen. destruct (nlen >=? 256); [by apply Hstop; right|].
  assert ((exists nm t3, (if nlen =? 0 then (Some [], t2) else take_n t2 nlen) = (Some nm, t3) /\ advanced t1 t3)
    \/ exists t3, (if nlen =? 0 then (Some [], t2) else take_n t2 nlen) = (None, t3)) as [(nm & t3 & -> & Ha3)|(t3 & ->)].
  { destruct (Z.eqb_spec nlen 0); [left; by eexists _, _|].
    destruct (take_n_cases t2 nlen ltac:(lia)) as [(nm & t3 & -> & _ & Ha3 & _)|(t3 & ->)]; [left|by right; eexists].
    eexists _, _. split; [done|by eapply advanced_trans]. }
  2: by apply Hstop; right.
  destruct (find_view vs nm) as [i|] eqn:Hfv.
  - destruct (find_view_Some _ _ _ Hfv) as (v & Hi & _). rewrite Hi. cbn [mbind option_bind].
    destruct (read_buffer_cases v t3) as (ok & v' & t4 & -> & Hv' & Hd & Ha4 & Hb4); [by eapply Forall_lookup_1|].
    cbn [mbind option_bind]. pose proof (safe_views_insert vs i v v' Hvs Hi Hv' Hd (Hb4 (proj2 (advanced_trans _ _ _ Ha1 Ha3) Hok))) as Hsafe.
    destruct ok; cbn [negb].
    + apply Hgo; [done|]. eapply advanced_trans; [done|by apply Ha4].
    + eexists _, _, _. split; [done|]. split; [by right|done].
  - set (n := u32 _). pose proof (u32_range (u32 (payload - 4) - nlen)) as Hn. fold n in Hn. unfold is_u32 in Hn.
    destruct (skip_cases (skip_fuel n) t3 n) as (r & t4 & -> & Hadv); [lia|unfold skip_fuel; Z.div_mod_to_equations; lia|].
    cbn [mbind option_bind]. destruct (r =? 0) eqn:Er; cbn [negb]; [|by apply Hstop; right].
    apply Hgo; [by apply safe_views_refl|]. eapply advanced_trans; [done|apply Hadv; lia].
Qed.
End robust.
