(* ===== verification/Save.v ===== *)
(** * Save: save and load of the state buffers to a file

    Models [runtime/host/src/libblyt/save.c]: the path of a save slot, the FILE
    adapters of the BLYS sink and source, the descriptor array built from the state
    context, and [blyt_save_write] and [blyt_save_read].

    The file system is a map from paths to contents.  What the operating system
    decides is a parameter: which directories can be made, which paths can be opened
    for writing, how many bytes the device still stores, and how long a stream keeps bytes back
    that the device will not store.  [fwrite] fills a buffer, so a full device may be noticed only by [fflush],
    [fsync] or [fclose], whose results [blyt_save_write] ignores: it then returns 0 and leaves
    a cut file. *)

From S2P Require Import Prelude Handle StateBuffer StateBufferSpec Blys BlysSpec.
From Stdlib Require Import ZArith Lia.
From stdpp Require Import base tactics list gmap.
Open Scope Z_scope.

(** ** Files *)

Abbreviation path := (list Z).

(** An open FILE: its bytes, those still in the buffer included, the position, and whether a write that
    makes it so many bytes long succeeds. *)
Record FILE := MkFile { f_bytes : list Z; f_pos : nat; f_takes : Z -> bool }.

(** A file open for reading. *)
Definition open_r (content : list Z) : FILE := MkFile content 0 (fun _ => false).

(** [fwrite(buf, 1, len, f) == len ? 0 : -1]. *)
Definition file_sink (f : FILE) (buf : list Z) : Z * FILE :=
  let bytes := f_bytes f ++ buf in
  (if f_takes f (len bytes) then 0 else -1, MkFile bytes (f_pos f + length buf) (f_takes f)).

(** [fread] and the [feof] test. *)
Definition file_source (f : FILE) (n : Z) : Z * list Z * FILE :=
  let got := Z.min n (len (drop (f_pos f) (f_bytes f))) in
  let bs := sub (f_bytes f) (Z.of_nat (f_pos f)) got in
  let f' := MkFile (f_bytes f) (f_pos f + Z.to_nat got) (f_takes f) in
  if got =? n then (0, bs, f')
  else if got =? 0 then (1, bs, f')
  else (-1, bs, f').

Definition file_written (f : FILE) : list Z := f_bytes f.
Definition file_pending (f : FILE) : list Z := drop (f_pos f) (f_bytes f).

Lemma file_sink_ok f bs r f' :
  file_sink f bs = (r, f') -> 0 <= r -> file_written f' = file_written f ++ bs.
Proof.
  unfold file_sink, file_written. by intros [= _ <-].
Qed.

Lemma file_sink_part f bs r f' :
  file_sink f bs = (r, f') -> exists k, file_written f' = file_written f ++ take k bs.
Proof. unfold file_sink, file_written. intros [= _ <-]. exists (length bs). cbn. by rewrite firstn_all. Qed.

Lemma file_source_full f n :
  0 < n <= len (file_pending f) ->
  exists f', file_source f n = (0, sub (file_pending f) 0 n, f')
    /\ file_pending f' = drop (Z.to_nat n) (file_pending f).
Proof.
  unfold file_source, file_pending. intros Hn. rewrite Z.min_l, Z.eqb_refl by lia.
  eexists. split.
  - do 2 f_equal. unfold sub. by rewrite Nat2Z.id, drop_0.
  - cbn. rewrite drop_drop. f_equal; lia.
Qed.

Lemma file_source_eof f n : 0 < n -> file_pending f = [] -> exists f', file_source f n = (1, [], f').
Proof.
  unfold file_source, file_pending. intros Hn ->. change (len []) with 0. rewrite Z.min_r by lia.
  rewrite (proj2 (Z.eqb_neq _ _)) by lia. eexists. done.
Qed.

Lemma file_source_short f n :
  0 < len (file_pending f) < n ->
  exists r bs f', file_source f n = (r, bs, f') /\ r <> 0 /\ len bs <= n /\ (bytes_ok (file_pending f) -> bytes_ok bs).
Proof.
  unfold file_source, file_pending. intros Hn. rewrite Z.min_r by lia.
  rewrite !(proj2 (Z.eqb_neq _ _)) by lia. eexists _, _, _. split; [done|]. split; [lia|].
  unfold sub, len in *. rewrite length_take. split; [lia|]. intros Hb. apply Forall_take. by rewrite Nat2Z.id.
Qed.

#[export] Instance FILE_sink : ByteSink FILE :=
  {| sink := file_sink; written := file_written; sink_ok := file_sink_ok; sink_part := file_sink_part |}.
#[export] Instance FILE_source : ByteSource FILE :=
  {| source := file_source; pending := file_pending; source_full := file_source_full;
     source_eof := file_source_eof; source_short := file_source_short |}.

(** ** Paths *)

(** The decimal digits of a [%u] argument. *)
Fixpoint dec_loop (fuel : nat) (v : Z) : list Z :=
  match fuel with
  | O => []
  | S fuel => if v <? 10 then [48 + v] else dec_loop fuel (v / 10) ++ [48 + v mod 10]
  end.
Definition dec (v : Z) : list Z := dec_loop 10 v.

(** ["/"], ["/slot_"] and [".blys"] *)
Definition SLASH : list Z := [47].
Definition SLOT_PREFIX : list Z := [47; 115; 108; 111; 116; 95].
Definition BLYS_SUFFIX : list Z := [46; 98; 108; 121; 115].

Definition build_path (buf_len : Z) (save_dir cart_name : list Z) (slot : Z) : option path :=
  let p := save_dir ++ SLASH ++ cart_name ++ SLOT_PREFIX ++ dec slot ++ BLYS_SUFFIX in
  if (len p >? 0) && (len p <? buf_len) then Some p else None.

(** ** The file system *)

Record fs_env := MkEnv {
  e_mkdir : path -> bool;     (** the directory exists or can be made *)
  e_open_w : path -> bool;    (** the path can be opened for writing *)
  e_space : Z;                (** the bytes of a file the device stores *)
  e_buffered : Z -> bool      (** whether a stream of so many bytes, more than the device stores, has not noticed it yet *)
}.
Abbreviation fs := (gmap (list Z) (list Z)).

Section save.
Variable env : fs_env.

Definition ensure_dir (save_dir cart_name : list Z) : Z :=
  let p := save_dir ++ SLASH ++ cart_name in
  if (len p <=? 0) || (len p >=? 1024) then -1
  else if e_mkdir env p then 0 else -1.

(** [fill_views]: the descriptor of one buffer; the arrays are the ones it points to. *)
Definition view_of (b : blyt_buffer_ctx_t) : option blys_buffer_t :=
  data ← mapM id (take (Z.to_nat (n_fields b)) (field_data b));
  Some (MkView (default [] (name b)) (take (Z.to_nat (n_fields b)) (field_types b)) (count b) data
          (slot_bitset b) (concat (le_bytes 2 <$> slot_gens b))).

Definition fill_views (ctx : blyt_state_ctx_t) : option (list blys_buffer_t) :=
  mapM view_of (take (Z.to_nat (n_buffers ctx)) (buffers ctx)).

(** The [uint16_t] array at the bytes of a descriptor. *)
Fixpoint u16s (l : list Z) : list Z :=
  match l with a :: b :: l => (a + 256 * b) :: u16s l | _ => [] end.

(** The buffer after the reader has written through its descriptor. *)
Definition unview (v : blys_buffer_t) (b : blyt_buffer_ctx_t) : blyt_buffer_ctx_t :=
  with_slots (v_slot_bitset v) (u16s (v_slot_gens v))
    (with_data ((Some <$> v_field_data v) ++ drop (Z.to_nat (n_fields b)) (field_data b)) b).

Definition store_views (ctx : blyt_state_ctx_t) (vs : list blys_buffer_t) : blyt_state_ctx_t :=
  MkCtx (n_buffers ctx) (zip_with unview vs (buffers ctx) ++ drop (length vs) (buffers ctx)).

Definition ctx_hash (ctx : blyt_state_ctx_t) : Z :=
  if n_buffers ctx >? 0 then match buffers ctx with b :: _ => schema_hash b | [] => 0 end else 0.

(** [fopen(path, "wb")]. *)
Definition open_w : FILE := MkFile [] 0 (fun n => (n <=? e_space env) || e_buffered env n).
(** What [fflush], [fsync] and [fclose] leave on the device, whatever they return. *)
Definition stored (f : FILE) : list Z := take (Z.to_nat (e_space env)) (f_bytes f).

(** The file system afterwards and the return code. *)
Definition blyt_save_write (ctx : blyt_state_ctx_t) (save_dir cart_name : option (list Z))
    (slot save_version : Z) (files : fs) : option (Z * fs) :=
  match save_dir, cart_name with
  | Some dir, Some cart =>
      if ensure_dir dir cart <? 0 then Some (-1, files)
      else
        match build_path 1024 dir cart slot with
        | None => Some (-1, files)
        | Some p =>
            if negb (e_open_w env p) then Some (-1, files)
            else
              views ← fill_views ctx;
              '(rc, f) ← blys_write (MkHeader (ctx_hash ctx) save_version) views open_w;
              let files' := <[p := stored f]> files in
              if negb (rc =? BLYS_OK) then Some (-1, files') else Some (0, files')
        end
  | _, _ => Some (-1, files)
  end.

(** The return code, [*out_save_version], and the context. *)
Definition blyt_save_read (ctx : blyt_state_ctx_t) (save_dir cart_name : option (list Z))
    (slot : Z) (files : fs) : option (Z * Z * blyt_state_ctx_t) :=
  match save_dir, cart_name with
  | Some dir, Some cart =>
      match build_path 1024 dir cart slot with
      | None => Some (-1, 0, ctx)
      | Some p =>
          match files !! p with
          | None => Some (-1, 0, ctx)
          | Some content =>
              views ← fill_views ctx;
              '(rc, version, vs, _) ← blys_read (S (length content)) (ctx_hash ctx) views (open_r content);
              Some (rc, version, store_views ctx vs)
          end
      end
  | _, _ => Some (-1, 0, ctx)
  end.
End save.
