(* ===== verification/SaveTheorems.v ===== *)
(** * SaveTheorems: what saving guarantees

    The properties of the BLYS format ([Blys]) and of the host save path ([Save]). *)

From S2P Require Import Prelude Handle StateBuffer StateBufferSpec StateBufferTheorems Blys BlysSpec Save.
From Stdlib Require Import ZArith Lia.
From stdpp Require Import base tactics list gmap sets.
Open Scope Z_scope.

(** ** Lemmas: views by name *)

Lemma find_view_app pre vs nm :
  nm ∉ (v_name <$> pre) -> find_view (pre ++ vs) nm = (fun i => (length pre + i)%nat) <$> find_view vs nm.
Proof.
  induction pre as [|d pre IH]; cbn [fmap list_fmap app find_view length]; intros Hni.
  { by destruct (find_view vs nm). }
  apply not_elem_of_cons in Hni as [Hne Hni]. destruct (name_eq d nm) eqn:E; [apply name_eq_true in E; congruence|].
  rewrite IH by done. by destruct (find_view vs nm).
Qed.

Lemma load_saved_all bufs vs pre :
  Forall2 same_decl vs bufs -> NoDup (v_name <$> (pre ++ bufs)) ->
  load_saved bufs (pre ++ vs) = pre ++ bufs.
Proof.
  intros Hall. revert pre. induction Hall as [|v b vs bufs (Hn & _ & _) _ IH]; intros pre Hnd; [done|].
  unfold load_saved in *. cbn. unfold load_one at 2.
  rewrite fmap_app, fmap_cons in Hnd. assert (v_name b ∉ (v_name <$> pre)) as Hni.
  { apply NoDup_app in Hnd as (_ & Hd & _). intros Hin. apply (Hd _ Hin). by left. }
  rewrite find_view_app by done. cbn. assert (name_eq v (v_name b) = true) as -> by by apply name_eq_true.
  cbn. rewrite Nat.add_0_r, insert_app_r_alt, Nat.sub_diag by lia. cbn.
  replace (pre ++ b :: vs) with ((pre ++ [b]) ++ vs) by (by rewrite <-app_assoc).
  replace (pre ++ b :: bufs) with ((pre ++ [b]) ++ bufs) by (by rewrite <-app_assoc).
  apply IH. rewrite <-app_assoc, fmap_app. exact Hnd.
Qed.

(** What happens to one view. *)
Definition loaded (bufs : list blys_buffer_t) (v : blys_buffer_t) : blys_buffer_t :=
  default v (list_find (fun b => v_name b = v_name v) bufs ≫= fun p => Some p.2).

Lemma find_view_None vs nm : find_view vs nm = None <-> nm ∉ (v_name <$> vs).
Proof.
  induction vs as [|v vs IH]; cbn; [split; [intros _; by apply not_elem_of_nil|done]|].
  rewrite not_elem_of_cons. destruct (name_eq v nm) eqn:E.
  - apply name_eq_true in E as <-. split; [done|by intros [? _]].
  - rewrite fmap_None, IH. split; [|by intros [_ ?]]. intros ?. split; [|done].
    intros ->. assert (name_eq v (v_name v) = true) by (by apply name_eq_true). congruence.
Qed.

Lemma load_one_names vs b : v_name <$> load_one vs b = v_name <$> vs.
Proof.
  unfold load_one. destruct (find_view vs (v_name b)) as [i|] eqn:Hf; [|done].
  destruct (find_view_Some _ _ _ Hf) as (v & Hi & Hn).
  rewrite list_fmap_insert, <-Hn. apply list_insert_id. by rewrite list_lookup_fmap, Hi.
Qed.

Lemma load_saved_lookup bufs vs i v :
  NoDup (v_name <$> vs) -> NoDup (v_name <$> bufs) -> vs !! i = Some v ->
  load_saved bufs vs !! i = Some (loaded bufs v).
Proof.
  revert vs v. induction bufs as [|b bufs IH]; intros vs v Hvs Hbs Hi; [done|].
  rewrite fmap_cons in Hbs. apply NoDup_cons in Hbs as [Hni Hbs].
  unfold load_saved in *. cbn [fold_left].
  assert (load_one vs b !! i = Some (if decide (v_name b = v_name v) then b else v)) as Hone.
  { unfold load_one. destruct (find_view vs (v_name b)) as [j|] eqn:Hf.
    - destruct (find_view_Some _ _ _ Hf) as (w & Hj & Hn). destruct (decide (j = i)) as [->|Hji].
      + rewrite list_lookup_insert_eq by (by eapply lookup_lt_Some). simplify_eq. by rewrite decide_True.
      + rewrite list_lookup_insert_ne by done. rewrite Hi, decide_False; [done|]. intros Heq.
        apply Hji. eapply (NoDup_lookup _ _ _ (v_name b) Hvs); rewrite list_lookup_fmap;
          [by rewrite Hj; cbn; rewrite Hn|by rewrite Hi; cbn; rewrite Heq].
    - rewrite Hi, decide_False; [done|]. intros Heq. apply find_view_None in Hf. apply Hf.
      rewrite Heq. apply list_elem_of_fmap_2. by eapply list_elem_of_lookup_2. }
  erewrite IH; [|by rewrite load_one_names|done|exact Hone].
  unfold loaded. cbn. destruct (decide (v_name b = v_name v)) as [Heq|Hne]; cbn.
  - f_equal. rewrite (proj2 (list_find_None _ _)); [done|]. apply Forall_forall. intros x Hx Hxn.
    apply Hni. rewrite <-Hxn. by apply list_elem_of_fmap_2.
  - f_equal. destruct (list_find _ bufs) as [[]|]; done.
Qed.

(** ** Lemmas: state contexts as views *)

Lemma width_sizeof tag : blys_field_width tag = field_sizeof tag.
Proof. reflexivity. Qed.

Lemma u16s_bytes gens : Forall is_u16 gens -> u16s (concat (le_bytes 2 <$> gens)) = gens.
Proof.
  induction 1 as [|g gens Hg _ IH]; [done|].
  change (u16s (concat (le_bytes 2 <$> (g :: gens))))
    with ((g mod 256 + 256 * (g / 256 mod 256)) :: u16s (concat (le_bytes 2 <$> gens))).
  rewrite IH. f_equal. unfold is_u16 in Hg. Z.div_mod_to_equations; lia.
Qed.

Lemma gens_len gens : len (concat (le_bytes 2 <$> gens)) = 2 * len gens.
Proof.
  induction gens as [|g gens IH]; [done|]. rewrite fmap_cons. cbn [concat]. rewrite len_app, IH.
  unfold len. rewrite length_le_bytes. cbn [length]. lia.
Qed.

(** The section size fits its 32-bit field. *)
Definition sized (b : blyt_buffer_ctx_t) : Prop :=
  4 + len (default [] (name b)) + tail_size (count b) (take (Z.to_nat (n_fields b)) (field_types b)) < 2 ^ 32.

(** The buffers a save can hold and give back. *)
Definition saveable (b : blyt_buffer_ctx_t) : Prop := len (default [] (name b)) < 256 /\ sized b.

Lemma fields_some b :
  buf_wf b -> exists data, mapM id (take (Z.to_nat (n_fields b)) (field_data b)) = Some data
    /\ Forall2 (fun tag d => len d = count b * field_sizeof tag)
         (take (Z.to_nat (n_fields b)) (field_types b)) data.
Proof.
  intros Hb. pose proof (wf_nf _ Hb). pose proof (wf_types _ Hb). pose proof (wf_data _ Hb).
  assert (forall i od, take (Z.to_nat (n_fields b)) (field_data b) !! i = Some od ->
    exists tag d, od = Some d /\ take (Z.to_nat (n_fields b)) (field_types b) !! i = Some tag
      /\ len d = count b * field_sizeof tag) as Hall.
  { intros i od (Hod & Hlt)%lookup_take_Some. destruct (wf_arrays _ Hb (Z.of_nat i)) as (tag & d & Ht & Hd & Hl & _); [lia|].
    rewrite zget_lookup, Nat2Z.id in Ht by lia. rewrite zget_lookup, Nat2Z.id in Hd by lia. exists tag, d. rewrite lookup_take_lt by lia. by simplify_eq. }
  destruct (mapM id (take (Z.to_nat (n_fields b)) (field_data b))) as [data|] eqn:Hm.
  - exists data. split; [done|]. apply mapM_Some in Hm. pose proof (Forall2_length _ _ _ Hm) as Hlen.
    rewrite length_take in Hlen. apply Forall2_same_length_lookup. split.
    + rewrite <-Hlen, length_take. unfold len in *. lia.
    + intros i tag d Ht Hd. destruct (Forall2_lookup_r _ _ _ _ _ Hm Hd) as (od & Hod & E). cbn in E.
      destruct (Hall i od Hod) as (tag' & d' & -> & Ht' & Hl). unfold id in E. by simplify_eq.
  - exfalso. apply mapM_None in Hm. apply Exists_exists in Hm as (od & [i Hi]%list_elem_of_lookup & Hn).
    destruct (Hall i od Hi) as (tag & d & -> & _). done.
Qed.

Lemma view_of_sized b :
  buf_wf b -> sized b -> exists v, view_of b = Some v /\ view_ok v
    /\ v_name v = default [] (name b) /\ v_count v = count b
    /\ v_field_types v = take (Z.to_nat (n_fields b)) (field_types b)
    /\ forall b', shape_rel b b' -> buf_wf b' -> unview v b' = b.
Proof.
  intros Hb Hs. destruct (fields_some b Hb) as (data & Hm & Hd). unfold view_of. rewrite Hm. cbn.
  destruct (wf_bits _ Hb) as [Hbl _]. destruct (wf_gens _ Hb) as [Hgl Hgok].
  eexists. split; [done|]. split_and!; try done.
  - split; cbn; [apply (wf_count _ Hb)|done|done|rewrite gens_len; lia|done].
  - intros b' (Heq & Hlen & Hout) Hb'. unfold unview. cbn. rewrite u16s_bytes by done.
    assert (n_fields b' = n_fields b) as -> by (by rewrite Heq).
    assert ((Some <$> data) ++ drop (Z.to_nat (n_fields b)) (field_data b') = field_data b) as ->.
    { rewrite <-(take_drop (Z.to_nat (n_fields b)) (field_data b)). f_equal.
      - apply mapM_Some in Hm. clear -Hm. induction Hm as [|od d ods data E _ IH]; [done|].
        cbn. rewrite IH. unfold id in E. by subst.
      - apply list_eq. intros i. rewrite !lookup_drop. specialize (Hout (n_fields b + Z.of_nat i) ltac:(lia)).
        pose proof (wf_nf _ Hb). rewrite !zget_lookup in Hout by lia.
        by replace (Z.to_nat (n_fields b + Z.of_nat i)) with (Z.to_nat (n_fields b) + i)%nat in Hout by lia. }
    rewrite Heq. by destruct b.
Qed.

Lemma view_of_ok b :
  buf_wf b -> saveable b -> exists v, view_of b = Some v /\ view_ok v
    /\ v_name v = default [] (name b) /\ v_count v = count b
    /\ v_field_types v = take (Z.to_nat (n_fields b)) (field_types b)
    /\ forall b', shape_rel b b' -> buf_wf b' -> unview v b' = b.
Proof. intros Hb [_ Hs]. by apply view_of_sized. Qed.

Definition ctx_saveable (ctx : blyt_state_ctx_t) : Prop :=
  (forall bi b, 0 <= bi < n_buffers ctx -> zget (buffers ctx) bi = Some b -> saveable b)
  /\ NoDup ((fun b => default [] (name b)) <$> take (Z.to_nat (n_buffers ctx)) (buffers ctx)).

Lemma take_buffer ctx i b :
  take (Z.to_nat (n_buffers ctx)) (buffers ctx) !! i = Some b ->
  Z.of_nat i < n_buffers ctx /\ zget (buffers ctx) (Z.of_nat i) = Some b.
Proof. intros (Hb & Hlt)%lookup_take_Some. rewrite zget_lookup, Nat2Z.id by lia. split; [lia|done]. Qed.

Lemma fill_views_ok ctx :
  ctx_wf ctx -> ctx_saveable ctx ->
  exists vs, fill_views ctx = Some vs
    /\ Forall2 (fun b v => view_of b = Some v /\ buf_wf b /\ saveable b)
         (take (Z.to_nat (n_buffers ctx)) (buffers ctx)) vs.
Proof.
  intros Hwf [Hs _]. unfold fill_views.
  assert (Forall (fun b => buf_wf b /\ saveable b) (take (Z.to_nat (n_buffers ctx)) (buffers ctx))) as Hall.
  { apply Forall_lookup. intros i b (Hi & Hb)%take_buffer. split;
      [apply (wf_buf _ Hwf (Z.of_nat i) b); [lia|done]|apply (Hs (Z.of_nat i) b); [lia|done]]. }
  induction Hall as [|b bs [Hb Hsb] _ IH]; [by exists []|].
  destruct (view_of_ok b Hb Hsb) as (v & Hv & _). destruct IH as (vs & Hm & Hf).
  exists (v :: vs). cbn. rewrite Hv. cbn. rewrite Hm. split; [done|]. by constructor.
Qed.

Lemma views_ok ctx vs :
  Forall2 (fun b v => view_of b = Some v /\ buf_wf b /\ saveable b) ctx vs ->
  Forall view_ok vs /\ Forall (fun v => len (v_name v) < 256) vs
  /\ v_name <$> vs = (fun b => default [] (name b)) <$> ctx.
Proof.
  induction 1 as [|b v bs vs (Hv & Hb & Hs) _ (IH1 & IH2 & IH3)]; [done|].
  destruct (view_of_ok b Hb Hs) as (v' & Hv' & Hok & Hn & _). rewrite Hv in Hv'. injection Hv' as <-.
  split_and!; [by constructor|constructor; [rewrite Hn; apply Hs|done]|]. rewrite !fmap_cons. by f_equal.
Qed.

Lemma shape_saveable b b' : shape_rel b b' -> saveable b -> saveable b'.
Proof. intros (-> & _) Hs. exact Hs. Qed.

Lemma rel_wf_saveable ctx ctx' : ctx_rel ctx ctx' -> ctx_saveable ctx -> ctx_saveable ctx'.
Proof.
  intros [Hn Hl Hout Hin] [Hs Hnd].
  assert (forall bi b', 0 <= bi < n_buffers ctx -> zget (buffers ctx') bi = Some b' ->
    exists b, zget (buffers ctx) bi = Some b /\ shape_rel b b') as Hback.
  { intros bi b' Hbi Hb'. destruct (zget_is_Some (buffers ctx) bi) as [b Hb].
    { apply zget_Some in Hb' as [? _]. lia. }
    exists b. split; [done|by eapply Hin]. }
  split.
  - intros bi b' Hbi Hb'. rewrite Hn in Hbi. destruct (Hback bi b' Hbi Hb') as (b & Hb & Hsh).
    eapply shape_saveable; [done|by eapply Hs].
  - replace ((fun b => default [] (name b)) <$> take (Z.to_nat (n_buffers ctx')) (buffers ctx'))
      with ((fun b => default [] (name b)) <$> take (Z.to_nat (n_buffers ctx)) (buffers ctx)); [done|].
    rewrite Hn. apply list_eq_same_length with (length ((fun b => default [] (name b)) <$> take (Z.to_nat (n_buffers ctx)) (buffers ctx))).
    + rewrite !length_fmap, !length_take. unfold len in Hl. lia.
    + done.
    + intros i x y _ Hx Hy. rewrite list_lookup_fmap in Hx, Hy.
      apply fmap_Some in Hx as (b & (Hi & Hb)%take_buffer & ->). apply fmap_Some in Hy as (b' & Hb' & ->).
      apply lookup_take_Some in Hb' as [Hb' _].
      destruct (Hback (Z.of_nat i) b') as (b2 & Hb2 & Hsh); [lia|by rewrite zget_lookup, Nat2Z.id by lia|].
      simplify_eq. destruct Hsh as (-> & _). done.
Qed.

(** Loading a saved context's own views into any related context rebuilds it. *)
Lemma store_views_rel ctx ctx' vs :
  ctx_wf ctx -> ctx_wf ctx' -> ctx_rel ctx ctx' ->
  Forall2 (fun b v => view_of b = Some v /\ buf_wf b /\ saveable b)
    (take (Z.to_nat (n_buffers ctx)) (buffers ctx)) vs ->
  store_views ctx' vs = ctx.
Proof.
  intros Hwf Hwf' [Hn Hl Hout Hin] Hvs. pose proof (wf_nb _ Hwf). pose proof (wf_bufs _ Hwf).
  pose proof (Forall2_length _ _ _ Hvs) as Hlen. rewrite length_take in Hlen.
  unfold store_views. destruct ctx as [n bufs]; cbn in *. rewrite Hn. f_equal.
  apply list_eq_zget.
  { unfold len in *. rewrite length_app, length_zip_with, length_drop. lia. }
  intros bi Hbi. unfold len in *. rewrite length_app, length_zip_with, length_drop in Hbi.
  rewrite !zget_lookup by lia. destruct (decide (bi < n)) as [Hlt|Hge].
  - destruct (zget_is_Some bufs bi) as [b Hb]; [unfold len; lia|].
    destruct (zget_is_Some (buffers ctx') bi) as [b' Hb']; [unfold len; lia|].
    pose proof (Hin bi b b' ltac:(lia) Hb Hb') as Hsh.
    pose proof (wf_buf _ Hwf' bi b' ltac:(lia) Hb') as Hbw'.
    rewrite zget_lookup in Hb, Hb' by lia.
    assert (take (Z.to_nat n) bufs !! Z.to_nat bi = Some b) as Ht by (rewrite lookup_take_lt by lia; done).
    destruct (Forall2_lookup_l _ _ _ _ _ Hvs Ht) as (v & Hv & Hvo & Hbw & Hsv).
    destruct (view_of_ok b Hbw Hsv) as (v' & Hv' & _ & _ & _ & _ & Hun). rewrite Hvo in Hv'. injection Hv' as <-.
    rewrite lookup_app_l by (rewrite length_zip_with; lia). rewrite lookup_zip_with, Hv, Hb'. cbn.
    rewrite Hb, Hun; done.
  - rewrite lookup_app_r by (rewrite length_zip_with; lia). rewrite length_zip_with, lookup_drop.
    specialize (Hout bi ltac:(lia)). rewrite !zget_lookup in Hout by lia. rewrite <-Hout. f_equal. lia.
Qed.

Lemma views_same_decl ctx ctx' vs vs' :
  ctx_rel ctx ctx' ->
  Forall2 (fun b v => view_of b = Some v /\ buf_wf b /\ saveable b)
    (take (Z.to_nat (n_buffers ctx)) (buffers ctx)) vs ->
  Forall2 (fun b v => view_of b = Some v /\ buf_wf b /\ saveable b)
    (take (Z.to_nat (n_buffers ctx')) (buffers ctx')) vs' ->
  Forall2 same_decl vs' vs.
Proof.
  intros [Hn Hl Hout Hin] Hv Hv'. pose proof (Forall2_length _ _ _ Hv) as L1. pose proof (Forall2_length _ _ _ Hv') as L2.
  rewrite length_take in L1, L2. unfold len in Hl. apply Forall2_same_length_lookup. split; [rewrite Hn in L2; lia|].
  intros i v' v Hi' Hi.
  destruct (Forall2_lookup_r _ _ _ _ _ Hv Hi) as (b & Hb & Hvb & Hbw & Hbs).
  destruct (Forall2_lookup_r _ _ _ _ _ Hv' Hi') as (b' & Hb' & Hvb' & Hbw' & Hbs').
  apply take_buffer in Hb as [Hlt Hb]. apply take_buffer in Hb' as [_ Hb'].
  destruct (Hin (Z.of_nat i) b b' ltac:(lia) Hb Hb') as (Heq & _).
  destruct (view_of_ok b Hbw Hbs) as (w & E & _ & E1 & E2 & E3 & _). rewrite Hvb in E. injection E as <-.
  destruct (view_of_ok b' Hbw' Hbs') as (w' & E' & _ & E1' & E2' & E3' & _). rewrite Hvb' in E'. injection E' as <-.
  unfold same_decl. rewrite E1, E2, E3, E1', E2', E3', Heq. done.
Qed.

Lemma hash_rel ctx ctx' : ctx_wf ctx -> ctx_rel ctx ctx' -> ctx_hash ctx' = ctx_hash ctx.
Proof.
  intros Hwf [Hn Hl Hout Hin]. unfold ctx_hash. rewrite Hn. destruct (n_buffers ctx >? 0) eqn:E; [|done].
  pose proof (wf_bufs _ Hwf). unfold len in *.
  destruct (buffers ctx) as [|b bs] eqn:Hb; [cbn in *; lia|].
  destruct (buffers ctx') as [|b' bs'] eqn:Hb'; [cbn in *; lia|].
  destruct (Hin 0 b b' ltac:(lia)) as (-> & _); done.
Qed.

(** Decimal printing can be read back, so distinct numbers print differently. *)
Definition undec (l : list Z) : Z := fold_left (fun acc d => acc * 10 + (d - 48)) l 0.

Lemma undec_dec_loop fuel v : 0 <= v < 10 ^ Z.of_nat fuel -> undec (dec_loop fuel v) = v.
Proof.
  revert v; induction fuel as [|fuel IH]; intros v Hv; [cbn in *; lia|].
  rewrite Nat2Z.inj_succ, Z.pow_succ_r in Hv by lia. cbn. destruct (v <? 10) eqn:E; [unfold undec; cbn; lia|].
  unfold undec in *. rewrite fold_left_app, IH by (Z.div_mod_to_equations; lia). cbn.
  Z.div_mod_to_equations; lia.
Qed.

Lemma build_path_inj n dir cart s s' p :
  is_u32 s -> is_u32 s' -> build_path n dir cart s = Some p -> build_path n dir cart s' = Some p -> s = s'.
Proof.
  unfold is_u32, build_path. intros Hs Hs'. case_match; [|done]. intros [= <-]. case_match; [|done].
  intros [= E]. repeat (apply app_inv_head in E || injection E as E). apply app_inv_tail in E.
  rewrite <-(undec_dec_loop 10 s), <-(undec_dec_loop 10 s') by (cbn; lia). unfold dec in E. by rewrite E.
Qed.

(** ** Any file, any state *)

(** Reading any input: see the property [blys_read_safe]. *)
Lemma blys_read_total {R} `{ByteSource R} vs (r : R) fuel expect :
  Forall view_ok vs -> bytes_ok (pending r) -> len (pending r) < Z.of_nat fuel ->
  exists rc version vs' r', blys_read fuel expect vs r = Some (rc, version, vs', r')
    /\ rc ∈ [BLYS_OK; BLYS_ERR_IO; BLYS_ERR_SCHEMA]
    /\ Forall2 (fun v v' => view_ok v' /\ same_decl v' v /\ (view_bytes v -> view_bytes v')) vs vs'
    /\ (rc = BLYS_ERR_SCHEMA -> vs' = vs).
Proof.
  intros Hv Hok Hf. unfold blys_read.
  assert (forall rc (version : Z) (t : R), rc ∈ [BLYS_ERR_IO; BLYS_ERR_SCHEMA] -> exists rc' version' vs' r',
    Some (rc, version, vs, t) = Some (rc', version', vs', r')
    /\ rc' ∈ [BLYS_OK; BLYS_ERR_IO; BLYS_ERR_SCHEMA]
    /\ Forall2 (fun v v' => view_ok v' /\ same_decl v' v /\ (view_bytes v -> view_bytes v')) vs vs'
    /\ (rc' = BLYS_ERR_SCHEMA -> vs' = vs)) as Hstop.
  { intros rc version t Hrc. eexists _, _, _, _. split; [done|].
    split_and!; [by right|by apply safe_views_refl|done]. }
  destruct (take_n_cases r 16 ltac:(lia)) as [(h & t1 & -> & Hhl & Ha1 & Hb1)|(t1 & ->)]; [|apply Hstop; by left].
  specialize (Hb1 Hok). destruct (bool_decide _); cbn [negb]; [|apply Hstop; by left].
  rewrite get_u16_le by (by apply Forall_sub || (unfold len in *; rewrite length_sub; unfold len; lia)).
  rewrite get_u64_le by (by apply Forall_drop || (unfold len in *; rewrite length_drop; lia)).
  cbn [mbind option_bind].
  assert (forall (t2 : R) (version : Z), advanced r t2 ->
    exists (rc' version' : Z) (vs' : list blys_buffer_t) (r' : R),
    (read_sections fuel vs t2 ≫= fun x => Some (x.1.1, version, x.1.2, x.2)) = Some (rc', version', vs', r')
    /\ rc' ∈ [BLYS_OK; BLYS_ERR_IO; BLYS_ERR_SCHEMA]
    /\ Forall2 (fun v v' => view_ok v' /\ same_decl v' v /\ (view_bytes v -> view_bytes v')) vs vs'
    /\ (rc' = BLYS_ERR_SCHEMA -> vs' = vs)) as Hgo.
  { intros t2 version [Hl Hb]. destruct (read_sections_safe fuel vs t2 Hv (Hb Hok) ltac:(lia))
      as (rc & vs' & t3 & -> & Hrc & Hsafe). cbn. eexists _, _, _, _. split; [done|].
    split_and!; [destruct Hrc as [-> | ->]; set_solver|done|]. by destruct Hrc as [-> | ->]. }
  destruct (_ >=? 1).
  - destruct (take_n_cases t1 4 ltac:(lia)) as [(sv & t2 & -> & Hsl & Ha2 & Hb2)|(t2 & ->)]; [|apply Hstop; by left].
    destruct (get_u32_range sv) as (version & -> & _); [by apply Hb2, Ha1|done|]. cbn [mbind option_bind].
    destruct (negb _); [apply Hstop; set_solver|].
    destruct (Hgo t2 version) as (? & ? & ? & ? & ? & ?); [by eapply advanced_trans|].
    destruct (read_sections fuel vs t2) as [[[]]|]; eauto 10.
  - rewrite get_put_u32 by (unfold is_u32; lia). cbn [mbind option_bind].
    destruct (negb _); [apply Hstop; set_solver|].
    destruct (Hgo t1 0 Ha1) as (? & ? & ? & ? & ? & ?).
    destruct (read_sections fuel vs t1) as [[[]]|]; eauto 10.
Qed.

(** The sections of every buffer fit the format, and the names are bytes. *)
Definition ctx_sized (ctx : blyt_state_ctx_t) : Prop :=
  forall bi b, 0 <= bi < n_buffers ctx -> zget (buffers ctx) bi = Some b -> sized b /\ bytes_ok (default [] (name b)).

Lemma rel_sized ctx ctx' : ctx_rel ctx ctx' -> ctx_sized ctx -> ctx_sized ctx'.
Proof.
  intros [Hn Hl _ Hin] Hs bi b' Hbi Hb'. destruct (zget_is_Some (buffers ctx) bi) as [b Hb].
  { apply zget_Some in Hb' as [? _]. lia. }
  destruct (Hin bi b b' ltac:(lia) Hb Hb') as (E & _). rewrite E. exact (Hs bi b ltac:(lia) Hb).
Qed.

(** The files of a directory hold bytes. *)
Definition fs_bytes (f : fs) : Prop := map_Forall (fun _ c => bytes_ok c) f.

Lemma fill_views_sized ctx :
  ctx_wf ctx -> ctx_sized ctx ->
  exists vs, fill_views ctx = Some vs
    /\ Forall2 (fun b v => view_of b = Some v /\ buf_wf b /\ view_ok v)
         (take (Z.to_nat (n_buffers ctx)) (buffers ctx)) vs
    /\ Forall (fun v => bytes_ok (v_name v)) vs.
Proof.
  intros Hwf Hs. unfold fill_views.
  assert (Forall (fun b => buf_wf b /\ sized b /\ bytes_ok (default [] (name b))) (take (Z.to_nat (n_buffers ctx)) (buffers ctx))) as Hall.
  { apply Forall_lookup. intros i b (Hi & Hb)%take_buffer. split;
      [apply (wf_buf _ Hwf (Z.of_nat i) b); [lia|done]|apply (Hs (Z.of_nat i) b); [lia|done]]. }
  induction Hall as [|b bs (Hb & Hsb & Hnb) _ IH]; [by exists []|].
  destruct (view_of_sized b Hb Hsb) as (v & Hv & Hok & Hn & _). destruct IH as (vs & Hm & Hf & Hns).
  exists (v :: vs). cbn. rewrite Hv. cbn. rewrite Hm. split; [done|]. split; constructor; try done. by rewrite Hn.
Qed.

Lemma view_of_bytes b v : buf_wf b -> view_of b = Some v -> view_bytes v.
Proof.
  intros Hb. unfold view_of. destruct (mapM id _) as [data|] eqn:Hm; [|done]. intros [= <-]. unfold view_bytes. cbn.
  split; [|split; [apply (wf_bits _ Hb)|]].
  - apply mapM_Some in Hm. apply Forall_lookup. intros i d Hd. destruct (Forall2_lookup_r _ _ _ _ _ Hm Hd) as (od & Hod & E).
    apply lookup_take_Some in Hod as [Hod Hlt]. unfold id in E. subst od.
    destruct (wf_arrays _ Hb (Z.of_nat i)) as (tag & d' & _ & Hd' & _ & Hok); [lia|].
    rewrite zget_lookup, Nat2Z.id in Hd' by lia. by simplify_eq.
  - clear. induction (slot_gens b) as [|g gens IH]; [constructor|]. rewrite fmap_cons. cbn [concat].
    apply Forall_app. split; [exact (le_bytes_ok 2 g)|done].
Qed.

Lemma u16s_ok n l : bytes_ok l -> len l = 2 * Z.of_nat n -> len (u16s l) = Z.of_nat n /\ Forall is_u16 (u16s l).
Proof.
  revert l. induction n as [|n IH]; intros l Hl Hlen; [destruct l; [by split|unfold len in Hlen; cbn in Hlen; lia]|].
  destruct l as [|a [|b l]]; [unfold len in Hlen; cbn in Hlen; lia..|].
  apply Forall_cons in Hl as [Ha Hl]. apply Forall_cons in Hl as [Hb Hl]. rewrite !len_cons in Hlen.
  destruct (IH l Hl ltac:(lia)) as [IH1 IH2]. cbn [u16s]. rewrite len_cons, IH1. split; [lia|].
  constructor; [unfold is_u8, is_u16 in *; lia|done].
Qed.

Lemma unview_wf b v v' :
  buf_wf b -> view_of b = Some v -> view_ok v' -> same_decl v' v -> view_bytes v' ->
  buf_wf (unview v' b) /\ shape_rel b (unview v' b).
Proof.
  intros Hb Hv [_ Hd Hbits Hgens _] (_ & Ht & Hc) (Hdb & Hbb & Hgb). pose proof (wf_nf _ Hb). pose proof (wf_data _ Hb).
  pose proof (wf_types _ Hb). unfold view_of in Hv. destruct (mapM id _) as [data|] eqn:Hm; [|done]. injection Hv as <-.
  cbn in Ht, Hc. rewrite Ht, Hc in Hd. pose proof (Forall2_length _ _ _ Hd) as Hl. rewrite length_take in Hl.
  assert (len (v_field_data v') = n_fields b) as Hln by (unfold len in *; lia).
  assert (forall fi, 0 <= fi < n_fields b ->
    zget ((Some <$> v_field_data v') ++ drop (Z.to_nat (n_fields b)) (field_data b)) fi = Some <$> zget (v_field_data v') fi) as Hlo.
  { intros fi Hfi. rewrite !zget_lookup by lia. rewrite lookup_app_l by (rewrite length_fmap; unfold len in Hln; lia).
    by rewrite list_lookup_fmap. }
  assert (len ((Some <$> v_field_data v') ++ drop (Z.to_nat (n_fields b)) (field_data b)) = 256) as Hlen.
  { unfold len in *. rewrite length_app, length_fmap, length_drop. lia. }
  destruct (u16s_ok 128 (v_slot_gens v') Hgb) as [Hg1 Hg2]; [lia|].
  split.
  - pose proof (wf_arrays _ Hb) as Harr. destruct Hb. split; cbn; try done.
    intros fi Hfi. destruct (Harr fi Hfi) as (tag & d & Htag & _). destruct (zget_is_Some (v_field_data v') fi) as [d' Hd']; [lia|].
    exists tag, d'. cbn. rewrite Hlo, Hd' by done. split; [done|]. split; [done|].
    assert (take (Z.to_nat (n_fields b)) (field_types b) !! Z.to_nat fi = Some tag) as Ht'.
    { rewrite lookup_take_lt by lia. by rewrite zget_lookup in Htag by lia. }
    rewrite zget_lookup in Hd' by lia. pose proof (Forall2_lookup_lr _ _ _ _ _ _ Hd Ht' Hd') as E. split; [exact E|].
    by eapply Forall_lookup_1.
  - split; [by destruct b|]. split; [cbn; lia|]. intros fj Hfj. cbn. rewrite !zget_lookup by lia.
    rewrite lookup_app_r by (rewrite length_fmap; unfold len in *; lia). rewrite length_fmap, lookup_drop. f_equal. unfold len in *. lia.
Qed.

Lemma store_views_ok ctx vs vs' :
  ctx_wf ctx -> 
  Forall2 (fun b v => view_of b = Some v /\ buf_wf b /\ view_ok v) (take (Z.to_nat (n_buffers ctx)) (buffers ctx)) vs ->
  safe_views vs vs' -> ctx_wf (store_views ctx vs') /\ ctx_rel ctx (store_views ctx vs').
Proof.
  intros Hwf Hvs Hs. pose proof (wf_nb _ Hwf). pose proof (wf_bufs _ Hwf).
  pose proof (Forall2_length _ _ _ Hvs) as L1. pose proof (Forall2_length _ _ _ Hs) as L2. rewrite length_take in L1.
  assert (forall bi b, 0 <= bi < n_buffers ctx -> zget (buffers ctx) bi = Some b ->
    exists b', zget (buffers (store_views ctx vs')) bi = Some b' /\ buf_wf b' /\ shape_rel b b') as Hin.
  { intros bi b Hbi Hb. rewrite zget_lookup in Hb by lia.
    assert (take (Z.to_nat (n_buffers ctx)) (buffers ctx) !! Z.to_nat bi = Some b) as Ht by (by rewrite lookup_take_lt by lia).
    destruct (Forall2_lookup_l _ _ _ _ _ Hvs Ht) as (v & Hv & Hvo & Hbw & Hok).
    destruct (Forall2_lookup_l _ _ _ _ _ Hs Hv) as (v' & Hv' & Hok' & Hsd & Hby).
    exists (unview v' b). split; [|by apply (unview_wf b v v'); [| | | |apply Hby; by apply (view_of_bytes b)]].
    rewrite zget_lookup by lia. cbn. rewrite lookup_app_l by (rewrite length_zip_with; unfold len in *; lia).
    by rewrite lookup_zip_with, Hv', Hb. }
  assert (forall bi, n_buffers ctx <= bi -> zget (buffers (store_views ctx vs')) bi = zget (buffers ctx) bi) as Hout.
  { intros bi Hbi. rewrite !zget_lookup by lia. cbn. unfold len in *. rewrite lookup_app_r by (rewrite length_zip_with; lia).
    rewrite length_zip_with, lookup_drop. f_equal. lia. }
  assert (len (buffers (store_views ctx vs')) = len (buffers ctx)) as Hlen.
  { cbn. unfold len in *. rewrite length_app, length_zip_with, length_drop. lia. }
  split; split; [done|by rewrite Hlen| |done|done|done|].
  - intros bi b' Hbi Hb'. cbn in Hbi. destruct (zget_is_Some (buffers ctx) bi) as [b Hb]; [lia|].
    destruct (Hin bi b Hbi Hb) as (b2 & Hb2 & ? & _). congruence.
  - intros bi b b' Hbi Hb Hb'. destruct (Hin bi b Hbi Hb) as (b2 & Hb2 & _ & ?). congruence.
Qed.

(** A save ends with a result, whatever the directory and the device allow, and leaves bytes. *)
Lemma save_write_total (env : fs_env) (ctx : blyt_state_ctx_t) (dir cart : option (list Z)) (slot version : Z) (fsys : fs) :
  ctx_wf ctx -> ctx_sized ctx -> fs_bytes fsys ->
  exists (r : Z) (f : fs), blyt_save_write env ctx dir cart slot version fsys = Some (r, f) /\ fs_bytes f.
Proof.
  intros Hwf Hs Hfs. unfold blyt_save_write. destruct dir as [dir|]; [|by eexists _, _]. destruct cart as [cart|]; [|by eexists _, _].
  destruct (_ <? 0); [by eexists _, _|]. destruct (build_path _ _ _ _) as [p|]; [|by eexists _, _].
  destruct (negb _); [by eexists _, _|]. destruct (fill_views_sized ctx Hwf Hs) as (vs & -> & Hvs & Hns). cbn [mbind option_bind].
  assert (Forall view_ok vs) as Hok by (clear -Hvs; induction Hvs as [|b v bs vs (_ & _ & ?) _ IH]; by constructor).
  assert (Forall (fun v => view_bytes v /\ bytes_ok (v_name v)) vs) as Hby.
  { clear -Hvs Hns. induction Hvs as [|b v bs vs (Hv & Hb & _) _ IH]; [constructor|].
    apply Forall_cons in Hns as [Hn Hns]. constructor; [|by apply IH]. split; [by apply (view_of_bytes b)|done]. }
  destruct (blys_write_spec (MkHeader (ctx_hash ctx) version) vs (open_w env) Hok) as (rc & w & Hw & _).
  assert (bytes_ok (f_bytes w)) by by apply (blys_write_grows _ vs _ rc w Hok Hby Hw), Forall_nil.
  rewrite Hw. cbn [mbind option_bind]. destruct (negb _); eexists _, _; (split; [done|]); apply map_Forall_insert_2; try done; by apply Forall_take.
Qed.

(** A load ends with a result and a consistent state of the same layout, whatever the file holds. *)
Lemma save_read_total (ctx : blyt_state_ctx_t) (dir cart : option (list Z)) (slot : Z) (fsys : fs) :
  ctx_wf ctx -> ctx_sized ctx -> fs_bytes fsys ->
  exists (r v : Z) (ctx' : blyt_state_ctx_t), blyt_save_read ctx dir cart slot fsys = Some (r, v, ctx') /\ ctx_wf ctx' /\ ctx_rel ctx ctx'.
Proof.
  intros Hwf Hs Hfs. unfold blyt_save_read. pose proof (ctx_rel_refl ctx) as Hr.
  destruct dir as [dir|]; [|by eexists _, _, _]. destruct cart as [cart|]; [|by eexists _, _, _].
  destruct (build_path _ _ _ _) as [p|]; [|by eexists _, _, _]. destruct (fsys !! p) as [content|] eqn:Ec; [|by eexists _, _, _].
  destruct (fill_views_sized ctx Hwf Hs) as (vs & -> & Hvs & _). cbn [mbind option_bind].
  destruct (blys_read_total vs (open_r content) (S (length content)) (ctx_hash ctx)) as (rc & v & vs' & r' & -> & _ & Hsafe & _).
  - clear -Hvs. induction Hvs as [|b v bs vs (_ & _ & ?) _ IH]; by constructor.
  - cbn. unfold file_pending. cbn. rewrite drop_0. by apply (Hfs p).
  - cbn. unfold file_pending, len. cbn. rewrite drop_0. lia.
  - cbn [mbind option_bind]. eexists _, _, _. split; [done|]. by apply (store_views_ok ctx vs vs').
Qed.

(** Reading the image of a context's views into the views of a related context. *)
Lemma read_saved {R} `{ByteSource R} ctx ctx' vs vs' version (r : R) :
  ctx_wf ctx -> ctx_wf ctx' -> ctx_rel ctx ctx' -> ctx_saveable ctx -> is_u64 (ctx_hash ctx) -> is_u32 version ->
  Forall2 (fun b v => view_of b = Some v /\ buf_wf b /\ saveable b) (take (Z.to_nat (n_buffers ctx)) (buffers ctx)) vs ->
  Forall2 (fun b v => view_of b = Some v /\ buf_wf b /\ saveable b) (take (Z.to_nat (n_buffers ctx')) (buffers ctx')) vs' ->
  let image := file_image (MkHeader (ctx_hash ctx) version) vs in
  pending r = image -> exists r', blys_read (S (length image)) (ctx_hash ctx') vs' r = Some (BLYS_OK, version, vs, r').
Proof.
  intros Hwf Hwf' Hrel Hsv Hhash Hver Hvs Hvs' image Hpend.
  destruct (views_ok _ _ Hvs) as (Hvok & Hvn & Hnames). destruct (views_ok _ _ Hvs') as (Hvok' & _ & _).
  pose proof (views_same_decl _ _ _ _ Hrel Hvs Hvs') as Hsd.
  rewrite (hash_rel _ _ Hwf Hrel).
  assert (pending r = header_image (MkHeader (ctx_hash ctx) version) ++ concat (section_image <$> vs)) as Hpend' by exact Hpend.
  destruct (read_header (S (length image)) (ctx_hash ctx) vs' _ (MkHeader (ctx_hash ctx) version) _ Hhash Hver Hpend')
    as (t1 & Hp1 & ->). cbn [hd_schema_hash]. rewrite Z.eqb_refl.
  assert (NoDup (v_name <$> vs)) as Hnd by (rewrite Hnames; apply Hsv).
  assert (compat vs vs') as Hc.
  { split_and!; [done..|]. intros b v Hbin Hvin Hname.
    apply list_elem_of_lookup in Hbin as [i Hi]. apply list_elem_of_lookup in Hvin as [j Hj].
    destruct (Forall2_lookup_l _ _ _ _ _ Hsd Hj) as (b' & Hb' & Hd).
    assert (i = j) as <-.
    { eapply (NoDup_lookup _ _ _ (v_name b) Hnd); rewrite list_lookup_fmap; [by rewrite Hi|rewrite Hb'; cbn].
      destruct Hd as [<- _]. by rewrite Hname. }
    by simplify_eq. }
  destruct (read_all (S (length image)) vs vs' t1 Hc Hp1) as (t2 & ->).
  { unfold image, file_image. rewrite length_app. clear. induction vs as [|v vs IH]; [cbn; lia|].
    rewrite fmap_cons. cbn [concat]. rewrite length_app. unfold section_image at 1. rewrite length_app.
    change (length BLYS_SECT_CART) with 4%nat. cbn [length]. lia. }
  cbn [mbind option_bind]. pose proof (load_saved_all vs vs' [] Hsd Hnd) as E. cbn in E. rewrite E. by exists t2.
Qed.

(** ** Properties *)

(** The save format round-trips, over any sink and source that keep their
    contract.  Write any list of well-formed, distinctly named buffers (names under
    256 bytes); if the writer reports success, reading the bytes it produced into
    buffers of the same declarations, whatever they held, yields exactly the saved
    buffers and the save version. *)
Theorem blys_roundtrip {W R} `{ByteSink W} `{ByteSource R} hdr bufs vs (w0 w : W) (r : R) fuel :
  Forall view_ok bufs -> Forall view_ok vs -> Forall2 same_decl vs bufs ->
  NoDup (v_name <$> bufs) -> Forall (fun b => len (v_name b) < 256) bufs ->
  is_u64 (hd_schema_hash hdr) -> is_u32 (hd_save_version hdr) -> (length bufs < fuel)%nat ->
  written w0 = [] -> blys_write hdr bufs w0 = Some (BLYS_OK, w) -> pending r = written w ->
  exists r', blys_read fuel (hd_schema_hash hdr) vs r
    = Some (BLYS_OK, hd_save_version hdr, bufs, r').
Proof.
  intros Hb Hv Hsd Hnd Hnm Hh Hsv Hf Hw0 Hw Hr.
  destruct (blys_write_spec hdr bufs w0 Hb) as (rc & w' & Hw' & Hres). rewrite Hw in Hw'.
  injection Hw' as <- <-. destruct Hres as [[_ Himg]|?]; [|done]. rewrite Hw0 in Himg. cbn in Himg.
  rewrite Himg in Hr. unfold file_image in Hr.
  destruct (read_header fuel (hd_schema_hash hdr) vs r hdr _ Hh Hsv Hr) as (r1 & Hp & ->).
  rewrite Z.eqb_refl.
  assert (compat bufs vs) as Hc.
  { split_and!; [done..|]. intros b v Hbin Hvin Hname.
    apply list_elem_of_lookup in Hbin as [i Hi]. apply list_elem_of_lookup in Hvin as [j Hj].
    destruct (Forall2_lookup_l _ _ _ _ _ Hsd Hj) as (b' & Hb' & Hd).
    assert (i = j) as <-.
    { eapply (NoDup_lookup _ _ _ (v_name b) Hnd); rewrite list_lookup_fmap; [by rewrite Hi|rewrite Hb'; cbn].
      destruct Hd as [<- _]. by rewrite Hname. }
    by simplify_eq. }
  destruct (read_all fuel bufs vs r1 Hc Hp Hf) as (r2 & ->). cbn. exists r2.
  pose proof (load_saved_all bufs vs [] Hsd Hnd) as E. cbn in E. by rewrite E.
Qed.

Definition demo_view (x : Z) : blys_buffer_t :=
  MkView [98] [2; 0] 2 [[x; 0; 1; 2]; [3; x]] (replicate 16 1) (replicate 256 0).
Definition demo_hdr : blys_header_t := MkHeader 77 3.
Definition demo_sink : FILE := MkFile [] 0 (fun _ => true).
Definition demo_file : FILE :=
  match blys_write demo_hdr [demo_view 9] demo_sink with Some (_, f) => f | None => open_r [] end.

Lemma demo_view_ok x : view_ok (demo_view x).
Proof.
  split; [cbn; lia| |reflexivity|reflexivity|vm_compute; reflexivity].
  repeat constructor.
Defined.

Lemma blys_roundtrip_witness :
  exists r', blys_read 2 77 [demo_view 5] (open_r (f_bytes demo_file))
    = Some (BLYS_OK, 3, [demo_view 9], r').
Proof.
  apply (blys_roundtrip demo_hdr [demo_view 9] [demo_view 5] demo_sink demo_file
           (open_r (f_bytes demo_file)) 2).
  - constructor; [apply demo_view_ok|constructor].
  - constructor; [apply demo_view_ok|constructor].
  - repeat constructor.
  - apply NoDup_singleton.
  - constructor; [cbn; unfold len; cbn; lia|constructor].
  - unfold is_u64. cbn. lia.
  - unfold is_u32. cbn. lia.
  - cbn. lia.
  - reflexivity.
  - vm_compute; reflexivity.
  - reflexivity.
Defined.

(** Sections are matched by name.  Reading the image of any saved buffers into
    any compatible views, in whatever order and number, succeeds: each view takes the
    contents of the saved buffer of its name, a view with no section is untouched, and
    a section with no view is skipped. *)
Theorem blys_read_by_name {R} `{ByteSource R} hdr bufs vs (r : R) fuel :
  compat bufs vs -> NoDup (v_name <$> vs) ->
  is_u64 (hd_schema_hash hdr) -> is_u32 (hd_save_version hdr) -> (length bufs < fuel)%nat ->
  pending r = file_image hdr bufs ->
  exists vs' r', blys_read fuel (hd_schema_hash hdr) vs r = Some (BLYS_OK, hd_save_version hdr, vs', r')
    /\ (forall i v, vs !! i = Some v -> vs' !! i = Some (loaded bufs v))
    /\ (forall i v, vs !! i = Some v -> v_name v ∉ (v_name <$> bufs) -> vs' !! i = Some v).
Proof.
  intros Hc Hnd Hh Hsv Hf Hr. unfold file_image in Hr.
  destruct (read_header fuel (hd_schema_hash hdr) vs r hdr _ Hh Hsv Hr) as (r1 & Hp & ->).
  rewrite Z.eqb_refl. destruct (read_all fuel bufs vs r1 Hc Hp Hf) as (r2 & ->). cbn.
  pose proof Hc as (_ & _ & Hbn & _ & _).
  assert (forall i v, vs !! i = Some v -> load_saved bufs vs !! i = Some (loaded bufs v)) as Hl
    by (intros; by apply load_saved_lookup).
  eexists _, r2. split; [done|]. split; [done|].
  intros i v Hi Hno. rewrite (Hl i v Hi). unfold loaded. rewrite (proj2 (list_find_None _ _)); [done|].
  apply Forall_forall. intros b Hb Hbn'. apply Hno. rewrite <-Hbn'. by apply list_elem_of_fmap_2.
Qed.

Definition demo_other : blys_buffer_t := MkView [99] [1] 1 [[42]] (replicate 16 0) (replicate 256 0).

Lemma blys_read_by_name_witness :
  exists vs' r', blys_read 2 77 [demo_other; demo_view 5] (open_r (file_image demo_hdr [demo_view 9]))
    = Some (BLYS_OK, 3, vs', r') /\ vs' !! 0%nat = Some demo_other /\ vs' !! 1%nat = Some (demo_view 9).
Proof.
  destruct (blys_read_by_name demo_hdr [demo_view 9] [demo_other; demo_view 5]
              (open_r (file_image demo_hdr [demo_view 9])) 2) as (vs' & r' & H1 & H2 & H3).
  - repeat split.
    + constructor; [apply demo_view_ok|constructor].
    + constructor; [|constructor; [apply demo_view_ok|constructor]].
      split; [cbn; lia| |reflexivity|reflexivity|vm_compute; reflexivity]. repeat constructor.
    + apply NoDup_singleton.
    + constructor; [cbn; unfold len; cbn; lia|constructor].
    + apply list_elem_of_singleton in H as ->. apply elem_of_cons in H0 as [->|H0]; [discriminate H1|].
      apply list_elem_of_singleton in H0 as ->. reflexivity.
    + apply list_elem_of_singleton in H as ->. apply elem_of_cons in H0 as [->|H0]; [discriminate H1|].
      apply list_elem_of_singleton in H0 as ->. reflexivity.
    + apply list_elem_of_singleton in H as ->. apply elem_of_cons in H0 as [->|H0]; [discriminate H1|].
      apply list_elem_of_singleton in H0 as ->. reflexivity.
  - apply NoDup_cons. split; [|apply NoDup_singleton]. intros H. apply list_elem_of_singleton in H. discriminate H.
  - unfold is_u64. cbn. lia.
  - unfold is_u32. cbn. lia.
  - cbn. lia.
  - reflexivity.
  - exists vs', r'. split; [exact H1|]. split.
    + apply (H3 0%nat demo_other); [reflexivity|]. intros H. apply list_elem_of_singleton in H. discriminate H.
    + apply (H2 1%nat (demo_view 5)). reflexivity.
Defined.

(** The schema guard.  A save whose schema hash differs from the expected one is
    rejected with [BLYS_ERR_SCHEMA] before any buffer is touched, and its save version
    is still reported. *)
Theorem blys_schema_guard {R} `{ByteSource R} hdr bufs vs (r : R) fuel expect :
  is_u64 (hd_schema_hash hdr) -> is_u32 (hd_save_version hdr) -> hd_schema_hash hdr <> expect ->
  pending r = file_image hdr bufs ->
  exists r', blys_read fuel expect vs r = Some (BLYS_ERR_SCHEMA, hd_save_version hdr, vs, r').
Proof.
  intros Hh Hsv Hne Hr. unfold file_image in Hr.
  destruct (read_header fuel expect vs r hdr _ Hh Hsv Hr) as (r1 & _ & ->).
  rewrite (proj2 (Z.eqb_neq _ _) Hne). by exists r1.
Qed.

Lemma blys_schema_guard_witness :
  exists r', blys_read 2 78 [demo_view 5] (open_r (file_image demo_hdr [demo_view 9]))
    = Some (BLYS_ERR_SCHEMA, 3, [demo_view 5], r').
Proof.
  apply (blys_schema_guard demo_hdr [demo_view 9]).
  - unfold is_u64. cbn. lia.
  - unfold is_u32. cbn. lia.
  - cbn. lia.
  - reflexivity.
Defined.

(** The reader is safe on any input.  Whatever bytes the source holds, with as
    much fuel as there are bytes the reader terminates with one of its three codes,
    never reads or writes outside the buffers, and leaves every buffer with its
    declaration, its array sizes and bytes in its arrays; an error before the section loop leaves the buffers
    untouched. *)
Theorem blys_read_safe {R} `{ByteSource R} vs (r : R) fuel expect :
  Forall view_ok vs -> bytes_ok (pending r) -> len (pending r) < Z.of_nat fuel ->
  exists rc version vs' r', blys_read fuel expect vs r = Some (rc, version, vs', r')
    /\ rc ∈ [BLYS_OK; BLYS_ERR_IO; BLYS_ERR_SCHEMA]
    /\ Forall2 (fun v v' => view_ok v' /\ same_decl v' v /\ (view_bytes v -> view_bytes v')) vs vs'
    /\ (rc = BLYS_ERR_SCHEMA -> vs' = vs).
Proof. apply blys_read_total. Qed.

Lemma blys_read_safe_witness :
  exists rc version vs' r', blys_read 40 77 [demo_view 5]
      (open_r (take 30 (file_image demo_hdr [demo_view 9]))) = Some (rc, version, vs', r')
    /\ rc ∈ [BLYS_OK; BLYS_ERR_IO; BLYS_ERR_SCHEMA].
Proof.
  destruct (blys_read_safe [demo_view 5] (open_r (take 30 (file_image demo_hdr [demo_view 9]))) 40 77)
    as (rc & version & vs' & r' & H1 & H2 & _).
  - constructor; [apply demo_view_ok|constructor].
  - vm_compute. repeat (constructor; [split; [discriminate|reflexivity]|]). constructor.
  - vm_compute. reflexivity.
  - exists rc, version, vs', r'. split; [exact H1|exact H2].
Defined.

(** Names of 256 bytes or more do not survive.  The writer accepts them and
    reports success, but the reader rejects its own output with [BLYS_ERR_IO]. *)
Theorem blys_long_name_lost :
  let b := MkView (replicate 256 97) [1] 1 [[7]] (replicate 16 0) (replicate 256 0) in
  exists f, blys_write demo_hdr [b] demo_sink = Some (BLYS_OK, f)
    /\ exists vs f', blys_read 2 77 [b] (open_r (f_bytes f)) = Some (BLYS_ERR_IO, 3, vs, f').
Proof.
  eexists. split; [vm_compute; reflexivity|]. eexists _, _. vm_compute. reflexivity.
Qed.

(** The image of a save. *)
Definition save_image (ctx : blyt_state_ctx_t) (version : Z) : option (list Z) := file_image (MkHeader (ctx_hash ctx) version) <$> fill_views ctx.


Definition demo_env : fs_env := MkEnv (fun _ => true) (fun _ => true) 100000 (fun _ => false).
Definition demo_saved : fs :=
  match blyt_save_write demo_env demo_ctx (Some [47]) (Some [99]) 0 3 ∅ with Some (_, fsys) => fsys | None => ∅ end.


(** A full device that the stream does not notice before it is closed: the save reports success, the file is
    cut, and the load fails. *)
Definition full_env : fs_env := MkEnv (fun _ => true) (fun _ => true) 100 (fun _ => true).
Definition cut_files : fs :=
  match blyt_save_write full_env demo_ctx (Some [47]) (Some [99]) 0 3 ∅ with Some (_, fsys) => fsys | None => ∅ end.
Theorem save_cut_reported :
  fst <$> blyt_save_write full_env demo_ctx (Some [47]) (Some [99]) 0 3 ∅ = Some 0
  /\ (p ← build_path 1024 [47] [99] 0; len <$> cut_files !! p) = Some 100
  /\ (fun x => x.1.1) <$> blyt_save_read demo_ctx (Some [47]) (Some [99]) 0 cut_files = Some (-1).
Proof. split_and!; vm_compute; reflexivity. Qed.
