(* ===== verification/ElfSection.v ===== *)
(** * ElfSection: finding sections of a cart ELF32 image

    Models [runtime/shared/blyt_elf_section.c].  The image is the list of its bytes and
    [len elf] its size; a pointer into it is an offset; a [NULL] pointer argument is
    [None].  Every read goes through [rd] or [zget], so the outer [None] of a result is
    a read outside the image or outside a name.  A C string is its bytes with the
    terminating NUL. *)

From S2P Require Import Prelude.
From Stdlib Require Import ZArith Lia String.
From stdpp Require Import base tactics list.
Open Scope Z_scope.

(** ** Definitions *)

Definition ELF32_EHDR_MIN : Z := 52.
Definition ELF32_E_SHOFF : Z := 32.
Definition ELF32_E_SHNUM : Z := 48.
Definition ELF32_E_SHSTRNDX : Z := 50.
Definition ELF32_SHDR_SIZE : Z := 40.
Definition ELF32_SH_NAME : Z := 0.
Definition ELF32_SH_OFFSET : Z := 16.
Definition ELF32_SH_SIZE : Z := 20.

(** [__builtin_memcpy(&v, elf + off, n)] into an [n]-byte little-endian integer. *)
Definition rd_le (elf : list Z) (off n : Z) : option Z := bs ← rd elf off n; Some (le_val bs).

(** [blyt_sht_t]: [shdrs] and [strtab] are offsets in the image. *)
Record blyt_sht_t := MkSht { shdrs : Z; shnum : Z; strtab : Z; strtab_size : Z }.

Definition resolve_sht (elf : option (list Z)) : option (option blyt_sht_t) :=
  match elf with
  | None => Some None
  | Some elf =>
      if len elf <? ELF32_EHDR_MIN then Some None
      else
        e_shoff ← rd_le elf ELF32_E_SHOFF 4;
        e_shnum ← rd_le elf ELF32_E_SHNUM 2;
        e_shstrndx ← rd_le elf ELF32_E_SHSTRNDX 2;
        if (e_shoff =? 0) || (e_shnum =? 0) || (e_shstrndx >=? e_shnum) then Some None
        else if u64 (e_shoff + u64 (e_shnum * ELF32_SHDR_SIZE)) >? len elf then Some None
        else
          let strtab_shdr := e_shoff + u32 (e_shstrndx * ELF32_SHDR_SIZE) in
          strtab_off ← rd_le elf (strtab_shdr + ELF32_SH_OFFSET) 4;
          strtab_size ← rd_le elf (strtab_shdr + ELF32_SH_SIZE) 4;
          if (strtab_off =? 0) || (strtab_size =? 0) || (u64 (strtab_off + strtab_size) >? len elf)
          then Some None
          else Some (Some (MkSht e_shoff e_shnum strtab_off strtab_size))
  end.

(** [while (k < avail && name[k] != '\0' && cand[k] == name[k]) k++;] *)
Fixpoint match_loop (fuel : nat) (elf name : list Z) (cand avail k : Z) : option Z :=
  match fuel with
  | O => None
  | S fuel =>
      if k <? avail then
        c ← zget name k;
        if c =? 0 then Some k
        else d ← zget elf (cand + k);
             if d =? c then match_loop fuel elf name cand avail (k + 1) else Some k
      else Some k
  end.

(** [while (s < avail && cand[s] != '\0') s++;] *)
Fixpoint nul_loop (fuel : nat) (elf : list Z) (cand avail s : Z) : option Z :=
  match fuel with
  | O => None
  | S fuel =>
      if s <? avail then
        d ← zget elf (cand + s);
        if d =? 0 then Some s else nul_loop fuel elf cand avail (s + 1)
      else Some s
  end.

(** The body of the search loop, from header [i] on; [k] headers are left. *)
Fixpoint find_loop (k : nat) (i : Z) (elf name : list Z) (sht : blyt_sht_t)
    : option (option (Z * Z)) :=
  match k with
  | O => Some None
  | S k =>
      let shdr := shdrs sht + u32 (i * ELF32_SHDR_SIZE) in
      sh_name ← rd_le elf (shdr + ELF32_SH_NAME) 4;
      if sh_name >=? strtab_size sht then find_loop k (i + 1) elf name sht
      else
        let cand := strtab sht + sh_name in
        let avail := strtab_size sht - sh_name in
        m ← match_loop (S (Z.to_nat avail)) elf name cand avail 0;
        c ← zget name m;
        if negb (c =? 0) || (m >=? avail) then find_loop k (i + 1) elf name sht
        else
          d ← zget elf (cand + m);
          if negb (d =? 0) then find_loop k (i + 1) elf name sht
          else
            sh_off ← rd_le elf (shdr + ELF32_SH_OFFSET) 4;
            sh_size ← rd_le elf (shdr + ELF32_SH_SIZE) 4;
            if u64 (sh_off + sh_size) >? len elf then Some None
            else Some (Some (sh_off, sh_size))
  end.

(** [Some None] is the return value 0. *)
Definition blyt_elf32_find_section (elf name : option (list Z)) : option (option (Z * Z)) :=
  match name with
  | None => Some None
  | Some name =>
      sht ← resolve_sht elf;
      match sht, elf with
      | Some sht, Some elf => find_loop (Z.to_nat (shnum sht)) 0 elf name sht
      | _, _ => Some None
      end
  end.

(** The callback is [cb suffix off size ctx]; [ctx] is threaded through, and the
    callback may itself fail. *)
Section enumerate.
Context {C : Type} (cb : list Z -> Z -> Z -> C -> option C).

Fixpoint each_loop (k : nat) (i : Z) (elf prefix : list Z) (sht : blyt_sht_t) (matched : Z) (ctx : C)
    : option (Z * C) :=
  match k with
  | O => Some (matched, ctx)
  | S k =>
      let shdr := shdrs sht + u32 (i * ELF32_SHDR_SIZE) in
      sh_name ← rd_le elf (shdr + ELF32_SH_NAME) 4;
      if sh_name >=? strtab_size sht then each_loop k (i + 1) elf prefix sht matched ctx
      else
        let cand := strtab sht + sh_name in
        let avail := strtab_size sht - sh_name in
        p ← match_loop (S (Z.to_nat avail)) elf prefix cand avail 0;
        c ← zget prefix p;
        if negb (c =? 0) then each_loop k (i + 1) elf prefix sht matched ctx
        else
          s ← nul_loop (S (Z.to_nat avail)) elf cand avail p;
          if s >=? avail then each_loop k (i + 1) elf prefix sht matched ctx
          else
            sh_off ← rd_le elf (shdr + ELF32_SH_OFFSET) 4;
            sh_size ← rd_le elf (shdr + ELF32_SH_SIZE) 4;
            if u64 (sh_off + sh_size) >? len elf then each_loop k (i + 1) elf prefix sht matched ctx
            else
              suffix ← rd elf (cand + p) (u32 (s - p));
              ctx' ← cb suffix sh_off sh_size ctx;
              each_loop k (i + 1) elf prefix sht (u64 (matched + 1)) ctx'
  end.

Definition blyt_elf32_for_each_section_prefix (elf prefix : option (list Z)) (ctx : C)
    : option (Z * C) :=
  match prefix with
  | None => Some (0, ctx)
  | Some prefix =>
      sht ← resolve_sht elf;
      match sht, elf with
      | Some sht, Some elf => each_loop (Z.to_nat (shnum sht)) 0 elf prefix sht 0 ctx
      | _, _ => Some (0, ctx)
      end
  end.
End enumerate.

Fixpoint parse_loop (s : list Z) (v : Z) : option Z :=
  match s with
  | [] => Some v
  | c :: s =>
      if (c <? 48) || (c >? 57) then None
      else
        let d := c - 48 in
        if v >? u32 (0xFFFFFFFF - d) / 10 then None
        else parse_loop s (u32 (u32 (v * 10) + d))
  end.

(** [None] is the return value 0. *)
Definition blyt_elf32_parse_u32 (s : option (list Z)) : option Z :=
  match s with
  | None => None
  | Some s =>
      if len s =? 0 then None
      else v ← parse_loop s 0; if v =? 0 then None else Some v
  end.

(** ** What a section table says: the reference reading *)

(** The bytes before the first NUL; [None] when there is none. *)
Fixpoint cstr (l : list Z) : option (list Z) :=
  match l with
  | [] => None
  | b :: l => if b =? 0 then Some [] else s ← cstr l; Some (b :: s)
  end.

(** What is left of [s] after [prefix]. *)
Fixpoint strip (prefix s : list Z) : option (list Z) :=
  match prefix, s with
  | [], s => Some s
  | c :: prefix, d :: s => if d =? c then strip prefix s else None
  | _ :: _, [] => None
  end.

Definition word_at (elf : list Z) (off : Z) : Z := le_val (sub elf off 4).

Definition section_name (elf : list Z) (sht : blyt_sht_t) (i : Z) : option (list Z) :=
  let n := word_at elf (shdrs sht + i * 40) in
  if n <? strtab_size sht then cstr (sub elf (strtab sht + n) (strtab_size sht - n)) else None.

(** Name, offset and size of section [i]. *)
Definition section_at (elf : list Z) (sht : blyt_sht_t) (i : Z) : option (list Z) * Z * Z :=
  (section_name elf sht i, word_at elf (shdrs sht + i * 40 + 16), word_at elf (shdrs sht + i * 40 + 20)).

Definition sections (elf : list Z) : list (option (list Z) * Z * Z) :=
  match resolve_sht (Some elf) with
  | Some (Some sht) => section_at elf sht <$> seqZ 0 (shnum sht)
  | _ => []
  end.

Definition in_image (elf : list Z) (off size : Z) : bool := off + size <=? len elf.

(** The first section of that name, if it lies in the image. *)
Fixpoint lookup_section (elf name : list Z) (l : list (option (list Z) * Z * Z)) : option (Z * Z) :=
  match l with
  | [] => None
  | (n, off, size) :: l =>
      if bool_decide (n = Some name) then if in_image elf off size then Some (off, size) else None
      else lookup_section elf name l
  end.

(** The sections whose name starts with [prefix] and that lie in the image, in header
    order, each with the rest of its name. *)
Definition prefixed (elf prefix : list Z) (l : list (option (list Z) * Z * Z)) : list (list Z * Z * Z) :=
  omap (fun '(n, off, size) =>
          suffix ← n ≫= strip prefix; if in_image elf off size then Some (suffix, off, size) else None) l.

Fixpoint visit {C} (cb : list Z -> Z -> Z -> C -> option C) (l : list (list Z * Z * Z)) (ctx : C) : option C :=
  match l with
  | [] => Some ctx
  | (suffix, off, size) :: l => ctx' ← cb suffix off size ctx; visit cb l ctx'
  end.

(** The decimal value of a digit string. *)
Definition decimal (s : list Z) : Z := foldl (fun v c => 10 * v + (c - 48)) 0 s.
Definition digit (c : Z) : Prop := 48 <= c <= 57.

(** ** Lemmas: names *)

Definition no_nul (s : list Z) : Prop := Forall (fun c => c <> 0) s.

(** Length of the longest common prefix. *)
Fixpoint lcp (n a : list Z) : Z :=
  match n, a with
  | x :: n, y :: a => if y =? x then 1 + lcp n a else 0
  | _, _ => 0
  end.

Fixpoint nul_pos (a : list Z) : Z :=
  match a with
  | [] => 0
  | d :: a => if d =? 0 then 0 else 1 + nul_pos a
  end.

Lemma drop_zget {A} (l : list A) k x :
  zget l k = Some x -> drop (Z.to_nat k) l = x :: drop (Z.to_nat (k + 1)) l.
Proof.
  intros (Hk & Hx)%zget_Some. rewrite (drop_S l x) by done. do 2 f_equal. lia.
Qed.

Lemma drop_all_Z {A} (l : list A) k : len l <= k -> drop (Z.to_nat k) l = [].
Proof. intros. apply drop_ge. unfold len in *. lia. Qed.

Lemma zget_app_nul (n : list Z) k :
  no_nul n -> 0 <= k <= len n ->
  exists c, zget (n ++ [0]) k = Some c
    /\ (k < len n -> zget n k = Some c /\ c <> 0) /\ (k = len n -> c = 0).
Proof.
  intros Hn Hk. destruct (decide (k = len n)) as [->|Hne].
  - exists 0. rewrite zget_lookup, lookup_app_r by (unfold len; lia).
    replace (Z.to_nat (len n) - length n)%nat with 0%nat by (unfold len; lia). split_and!; [done|lia|done].
  - destruct (zget_is_Some n k) as [c Hc]; [lia|]. exists c.
    rewrite zget_lookup, lookup_app_l by (unfold len in *; lia). rewrite <-zget_lookup by lia.
    split_and!; [done| |lia]. intros _. split; [done|].
    apply zget_Some in Hc as [_ Hc]. by apply (Forall_lookup_1 _ _ _ _ Hn Hc).
Qed.

Section names.
Context (elf : list Z) (cand avail : Z).
Hypothesis (Hc : 0 <= cand) (Ha : 0 <= avail) (Hin : cand + avail <= len elf).

Lemma match_loop_lcp n fuel k :
  no_nul n -> 0 <= k <= avail -> k <= len n -> avail - k < Z.of_nat fuel ->
  match_loop fuel elf (n ++ [0]) cand avail k
  = Some (k + lcp (drop (Z.to_nat k) n) (drop (Z.to_nat k) (sub elf cand avail))).
Proof using Hc Ha Hin.
  intros Hn. revert k; induction fuel as [|fuel IH]; intros k Hk Hkn Hf; [lia|]. cbn.
  pose proof (len_sub elf cand avail Hc Ha Hin) as Hls.
  destruct (Z.ltb_spec k avail).
  2:{ rewrite (drop_all_Z (sub _ _ _)) by lia. destruct (drop _ n); cbn; f_equal; lia. }
  destruct (zget_app_nul n k Hn) as (c & -> & Hlt & Heq); [lia|]. cbn.
  destruct (decide (k = len n)) as [E|E].
  { rewrite (Heq E). cbn. rewrite (drop_all_Z n) by lia. cbn. f_equal; lia. }
  destruct Hlt as [Hnk Hnz]; [lia|]. rewrite (proj2 (Z.eqb_neq c 0) Hnz).
  destruct (zget_is_Some elf (cand + k)) as [d Hd]; [lia|]. rewrite Hd. cbn.
  rewrite (drop_zget n k c Hnk). rewrite (drop_zget (sub elf cand avail) k d) by (rewrite zget_sub by lia; done).
  cbn. destruct (Z.eqb_spec d c); [|f_equal; lia]. rewrite IH by lia. f_equal; lia.
Qed.

Lemma nul_loop_pos fuel s :
  0 <= s <= avail -> avail - s < Z.of_nat fuel ->
  nul_loop fuel elf cand avail s = Some (s + nul_pos (drop (Z.to_nat s) (sub elf cand avail))).
Proof using Hc Ha Hin.
  revert s; induction fuel as [|fuel IH]; intros s Hs Hf; [lia|]. cbn.
  pose proof (len_sub elf cand avail Hc Ha Hin) as Hls.
  destruct (Z.ltb_spec s avail).
  2:{ rewrite (drop_all_Z (sub _ _ _)) by lia. cbn. f_equal; lia. }
  destruct (zget_is_Some elf (cand + s)) as [d Hd]; [lia|]. rewrite Hd. cbn.
  rewrite (drop_zget (sub elf cand avail) s d) by (rewrite zget_sub by lia; done).
  cbn. destruct (Z.eqb_spec d 0); [f_equal; lia|]. rewrite IH by lia. f_equal; lia.
Qed.
End names.

Lemma lcp_range n a : 0 <= lcp n a <= len n /\ lcp n a <= len a.
Proof.
  revert a; induction n as [|x n IH]; intros [|y a]; cbn; rewrite ?len_cons; try (unfold len; cbn; lia).
  destruct (_ =? _); [specialize (IH a); lia|]. unfold len. lia.
Qed.

Lemma nul_pos_range a : 0 <= nul_pos a <= len a.
Proof.
  induction a as [|d a IH]; cbn; rewrite ?len_cons; [unfold len; cbn; lia|].
  destruct (_ =? _); [unfold len|]; lia.
Qed.

(** The two comparisons decide what they are meant to. *)
Lemma lcp_exact n a :
  no_nul n ->
  bool_decide (cstr a = Some n) = (lcp n a =? len n) && bool_decide (zget a (lcp n a) = Some 0).
Proof.
  intros Hn. revert a; induction Hn as [|x n Hx Hn IH]; intros [|y a]; cbn [cstr lcp].
  - done.
  - change (zget (y :: a) 0) with (Some y). cbn [andb Z.eqb]. destruct (Z.eqb_spec y 0) as [->|E]; [by rewrite !bool_decide_true by done|].
    rewrite (bool_decide_false (Some y = _)) by congruence. apply bool_decide_false. destruct (cstr a); cbn; congruence.
  - rewrite bool_decide_false by done. rewrite len_cons. pose proof (len_nonneg n).
    rewrite (proj2 (Z.eqb_neq 0 (1 + len n))) by lia. done.
  - rewrite len_cons. destruct (Z.eqb_spec y x) as [->|E].
    + rewrite (proj2 (Z.eqb_neq x 0)) by done. pose proof (lcp_range n a).
      replace (zget (x :: a) (1 + lcp n a)) with (zget a (lcp n a)).
      2:{ rewrite !zget_lookup by lia. by replace (Z.to_nat (1 + lcp n a)) with (S (Z.to_nat (lcp n a))) by lia. }
      replace (1 + lcp n a =? 1 + len n) with (lcp n a =? len n) by lia. rewrite <-IH.
      apply bool_decide_ext. destruct (cstr a); cbn; split; congruence.
    + pose proof (len_nonneg n). rewrite (proj2 (Z.eqb_neq 0 (1 + len n))) by lia. cbn.
      apply bool_decide_false. destruct (Z.eqb_spec y 0); [congruence|]. destruct (cstr a); cbn; congruence.
Qed.

Lemma cstr_nul_pos a :
  cstr a = if nul_pos a <? len a then Some (take (Z.to_nat (nul_pos a)) a) else None.
Proof.
  induction a as [|y a IH]; cbn [cstr nul_pos]; [done|]. rewrite len_cons. pose proof (nul_pos_range a).
  destruct (Z.eqb_spec y 0); [by rewrite (proj2 (Z.ltb_lt 0 _)) by lia|].
  replace (1 + nul_pos a <? 1 + len a) with (nul_pos a <? len a) by lia.
  replace (Z.to_nat (1 + nul_pos a)) with (S (Z.to_nat (nul_pos a))) by lia.
  rewrite IH. by destruct (nul_pos a <? len a).
Qed.

Lemma lcp_strip p a :
  no_nul p ->
  cstr a ≫= strip p
  = if lcp p a =? len p
    then let r := drop (length p) a in
         if nul_pos r <? len r then Some (take (Z.to_nat (nul_pos r)) r) else None
    else None.
Proof.
  intros Hp. revert a; induction Hp as [|x p Hx Hp IH]; intros a.
  - replace (lcp [] a =? len (A:=Z) []) with true by done. cbn zeta. cbn [strip length]. rewrite drop_0, <-cstr_nul_pos.
    by destruct (cstr a).
  - destruct a as [|y a]; cbn [cstr lcp].
    { rewrite len_cons. pose proof (len_nonneg p). by rewrite (proj2 (Z.eqb_neq 0 (1 + len p))) by lia. }
    rewrite len_cons. pose proof (len_nonneg p). destruct (Z.eqb_spec y x) as [->|E].
    + rewrite (proj2 (Z.eqb_neq x 0)) by done. replace (1 + lcp p a =? 1 + len p) with (lcp p a =? len p) by lia.
      transitivity (cstr a ≫= strip p); [|apply IH]. destruct (cstr a); cbn; [|done]. by rewrite Z.eqb_refl.
    + rewrite (proj2 (Z.eqb_neq 0 (1 + len p))) by lia.
      destruct (Z.eqb_spec y 0); [done|]. destruct (cstr a); cbn; [|done]. by rewrite (proj2 (Z.eqb_neq y x)).
Qed.

(** ** Lemmas: the table *)

(** A header table and a string table inside the image. *)
Definition sht_ok (elf : list Z) (sht : blyt_sht_t) : Prop :=
  0 <= shdrs sht /\ 0 < shnum sht < 65536 /\ shdrs sht + shnum sht * 40 <= len elf
  /\ 0 < strtab sht /\ 0 < strtab_size sht < 2 ^ 32 /\ strtab sht + strtab_size sht <= len elf.

Lemma rd_le_Some elf off n :
  bytes_ok elf -> 0 <= off -> 0 <= n -> off + n <= len elf ->
  rd_le elf off n = Some (le_val (sub elf off n)) /\ 0 <= le_val (sub elf off n) < 256 ^ n.
Proof.
  intros Hb Ho Hn Hl. unfold rd_le. rewrite rd_Some by lia. split; [done|].
  pose proof (le_val_range (sub elf off n) (Forall_sub _ _ _ _ Hb)) as H. by rewrite len_sub in H by lia.
Qed.

(** Read a little-endian field that is in the image. *)
Ltac read_le off n v :=
  match goal with
  | Hb : bytes_ok ?elf |- context [rd_le ?elf off n] =>
      let R := fresh "R" in let B := fresh "B" in
      destruct (rd_le_Some elf off n Hb) as [R B];
      [first [done | lia] | lia | first [done | lia] |];
      set (v := le_val (sub elf off n)) in *; clearbody v; rewrite R; cbn [mbind option_bind]; clear R
  end.

Lemma resolve_ok elf :
  bytes_ok elf ->
  exists o, resolve_sht (Some elf) = Some o /\ forall sht, o = Some sht -> sht_ok elf sht.
Proof.
  intros Hb. unfold resolve_sht, ELF32_EHDR_MIN, ELF32_E_SHOFF, ELF32_E_SHNUM, ELF32_E_SHSTRNDX,
    ELF32_SHDR_SIZE, ELF32_SH_OFFSET, ELF32_SH_SIZE.
  cond E0; [by eexists|]. read_le 32 4 shoff. read_le 48 2 num. read_le 50 2 strndx.
  change (256 ^ 4) with (2 ^ 32) in *. change (256 ^ 2) with 65536 in *.
  cond E1; [by eexists|].
  rewrite (u64_id (num * 40)), u64_id by (unfold is_u64; lia). cond E2; [by eexists|].
  rewrite (u32_id (strndx * 40)) by (unfold is_u32; lia). cbv zeta.
  read_le (shoff + strndx * 40 + 16) 4 stroff. read_le (shoff + strndx * 40 + 20) 4 strsz.
  change (256 ^ 4) with (2 ^ 32) in *.
  rewrite u64_id by (unfold is_u64; lia).
  cond E3; [by eexists|]. eexists. split; [done|]. intros sht [= <-]. unfold sht_ok. cbn. lia.
Qed.

Lemma word_at_range elf off :
  bytes_ok elf -> 0 <= off -> off + 4 <= len elf -> 0 <= word_at elf off < 2 ^ 32.
Proof. intros Hb ? ?. by destruct (rd_le_Some elf off 4 Hb) as [_ ?]; [lia..|]. Qed.

Lemma rd_word elf off :
  bytes_ok elf -> 0 <= off -> off + 4 <= len elf -> rd_le elf off 4 = Some (word_at elf off).
Proof. intros Hb ? ?. by destruct (rd_le_Some elf off 4 Hb) as [-> _]; [lia..|]. Qed.

Lemma prefixed_cons elf prefix n off size l :
  prefixed elf prefix ((n, off, size) :: l)
  = match n ≫= strip prefix with
    | Some suffix =>
        if in_image elf off size then (suffix, off, size) :: prefixed elf prefix l else prefixed elf prefix l
    | None => prefixed elf prefix l
    end.
Proof.
  unfold prefixed. cbn [omap list_omap]. destruct (n ≫= strip prefix); cbn [mbind option_bind]; [|done].
  by destruct (in_image elf off size).
Qed.

Section table.
Context (elf : list Z) (sht : blyt_sht_t).
Hypothesis (Hb : bytes_ok elf) (Hok : sht_ok elf sht).

Lemma find_loop_spec name k i :
  no_nul name -> 0 <= i -> i + Z.of_nat k = shnum sht ->
  find_loop k i elf (name ++ [0]) sht
  = Some (lookup_section elf name (section_at elf sht <$> seqZ i (Z.of_nat k))).
Proof using Hb Hok.
  intros Hn. destruct Hok as (? & ? & ? & ? & ? & ?).
  revert i; induction k as [|k IH]; intros i Hi Hk; [done|].
  rewrite seqZ_cons by lia. replace (Z.pred (Z.of_nat (S k))) with (Z.of_nat k) by lia.
  cbn [fmap list_fmap lookup_section]. rewrite <-Z.add_1_r. specialize (IH (i + 1)).
  unfold find_loop. fold find_loop. unfold ELF32_SHDR_SIZE, ELF32_SH_NAME, ELF32_SH_OFFSET, ELF32_SH_SIZE.
  rewrite (u32_id (i * 40)) by (unfold is_u32; lia). cbv zeta. rewrite Z.add_0_r.
  rewrite !rd_word by (done || lia). cbn [mbind option_bind].
  unfold section_at at 1. unfold section_name. cbv zeta.
  pose proof (word_at_range elf (shdrs sht + i * 40) Hb ltac:(lia) ltac:(lia)).
  pose proof (word_at_range elf (shdrs sht + i * 40 + 16) Hb ltac:(lia) ltac:(lia)).
  pose proof (word_at_range elf (shdrs sht + i * 40 + 20) Hb ltac:(lia) ltac:(lia)).
  set (n := word_at elf (shdrs sht + i * 40)) in *.
  destruct (Z.geb_spec n (strtab_size sht)).
  { rewrite (proj2 (Z.ltb_ge n _)) by lia. rewrite bool_decide_false by done. apply IH; lia. }
  rewrite (proj2 (Z.ltb_lt n _)) by lia.
  set (cand := strtab sht + n) in *. set (avail := strtab_size sht - n) in *.
  rewrite match_loop_lcp by first [done | lia | apply len_nonneg]. cbn [mbind option_bind]. rewrite !drop_0, Z.add_0_l.
  set (a := sub elf cand avail). pose proof (lcp_range name a) as [Hl1 Hl2].
  assert (len a = avail) as Hla by (apply len_sub; lia).
  rewrite (lcp_exact name a Hn).
  destruct (zget_app_nul name (lcp name a) Hn) as (c & Hc & Hlt & Heq); [lia|]. rewrite Hc. cbn [mbind option_bind].
  destruct (Z.eqb_spec (lcp name a) (len name)) as [E|E].
  2:{ destruct Hlt as [_ Hc0]; [lia|]. rewrite (proj2 (Z.eqb_neq c 0)) by done. cbn. apply IH; lia. }
  rewrite (Heq E). cbn [negb orb andb Z.eqb].
  destruct (Z.geb_spec (lcp name a) avail).
  { rewrite bool_decide_false; [apply IH; lia|]. intros (Hr & _)%zget_Some. lia. }
  destruct (zget_is_Some elf (cand + lcp name a)) as [d Hd]; [lia|]. rewrite Hd. cbn [mbind option_bind].
  replace (zget a (lcp name a)) with (Some d) by (unfold a at 1; rewrite zget_sub by lia; done).
  destruct (Z.eqb_spec d 0) as [->|Hd0].
  - rewrite bool_decide_true by done. cbn. rewrite u64_id by (unfold is_u64; lia).
    unfold in_image. destruct (Z.gtb_spec (word_at elf (shdrs sht + i * 40 + 16) + word_at elf (shdrs sht + i * 40 + 20)) (len elf));
      [rewrite (proj2 (Z.leb_gt _ _)) by lia|rewrite (proj2 (Z.leb_le _ _)) by lia]; done.
  - rewrite bool_decide_false by congruence. cbn. apply IH; lia.
Qed.

Lemma each_loop_spec {C} (cb : list Z -> Z -> Z -> C -> option C) prefix k i matched ctx :
  no_nul prefix -> 0 <= i -> i + Z.of_nat k = shnum sht -> 0 <= matched -> matched + Z.of_nat k < 2 ^ 64 ->
  forall l, l = prefixed elf prefix (section_at elf sht <$> seqZ i (Z.of_nat k)) ->
  each_loop cb k i elf (prefix ++ [0]) sht matched ctx
  = (ctx' ← visit cb l ctx; Some (matched + len l, ctx')).
Proof using Hb Hok.
  intros Hn. destruct Hok as (? & ? & ? & ? & ? & ?).
  revert i matched ctx; induction k as [|k IH]; intros i matched ctx Hi Hk Hm Hmk l Hl.
  { subst l. cbn. by rewrite Z.add_0_r. }
  revert Hl. rewrite seqZ_cons by lia. replace (Z.pred (Z.of_nat (S k))) with (Z.of_nat k) by lia.
  rewrite <-Z.add_1_r. specialize (IH (i + 1)).
  rewrite fmap_cons. unfold section_at at 1. unfold section_name. cbv zeta. rewrite prefixed_cons.
  set (rest := prefixed elf prefix (section_at elf sht <$> seqZ (i + 1) (Z.of_nat k))) in *.
  assert (forall m c, 0 <= m -> m <= matched + 1 -> each_loop cb k (i + 1) elf (prefix ++ [0]) sht m c
    = (ctx' ← visit cb rest c; Some (m + len rest, ctx'))) as Hrest
    by (intros; apply IH; done || lia). clear IH. clearbody rest. intros ->.
  unfold each_loop. fold (@each_loop C cb). unfold ELF32_SHDR_SIZE, ELF32_SH_NAME, ELF32_SH_OFFSET, ELF32_SH_SIZE.
  rewrite (u32_id (i * 40)) by (unfold is_u32; lia). cbv zeta. rewrite Z.add_0_r.
  rewrite !rd_word by (done || lia). cbn [mbind option_bind].
  pose proof (word_at_range elf (shdrs sht + i * 40) Hb ltac:(lia) ltac:(lia)).
  pose proof (word_at_range elf (shdrs sht + i * 40 + 16) Hb ltac:(lia) ltac:(lia)).
  pose proof (word_at_range elf (shdrs sht + i * 40 + 20) Hb ltac:(lia) ltac:(lia)).
  set (n := word_at elf (shdrs sht + i * 40)) in *.
  destruct (Z.geb_spec n (strtab_size sht)).
  { rewrite (proj2 (Z.ltb_ge n _)) by lia. cbn. apply Hrest; lia. }
  rewrite (proj2 (Z.ltb_lt n _)) by lia.
  set (cand := strtab sht + n) in *. set (avail := strtab_size sht - n) in *.
  rewrite match_loop_lcp by first [done | lia | apply len_nonneg]. cbn [mbind option_bind]. rewrite !drop_0, Z.add_0_l.
  set (a := sub elf cand avail). pose proof (lcp_range prefix a) as [Hl1 Hl2].
  assert (len a = avail) as Hla by (apply len_sub; lia).
  rewrite (lcp_strip prefix a Hn).
  destruct (zget_app_nul prefix (lcp prefix a) Hn) as (c & Hc & Hlt & Heq); [lia|]. rewrite Hc. cbn [mbind option_bind].
  destruct (Z.eqb_spec (lcp prefix a) (len prefix)) as [E|E].
  2:{ destruct Hlt as [_ Hc0]; [lia|]. rewrite (proj2 (Z.eqb_neq c 0)) by done. cbn. apply Hrest; lia. }
  rewrite (Heq E). cbn [negb Z.eqb]. rewrite E.
  rewrite nul_loop_pos by lia. cbn [mbind option_bind]. fold a.
  replace (drop (Z.to_nat (len prefix)) a) with (drop (length prefix) a) by (unfold len; f_equal; lia).
  set (r := drop (length prefix) a). cbv zeta. pose proof (nul_pos_range r) as Hr.
  assert (len r = avail - len prefix) as Hlr.
  { unfold r, len in *. rewrite length_drop. lia. }
  destruct (Z.geb_spec (len prefix + nul_pos r) avail).
  { rewrite (proj2 (Z.ltb_ge (nul_pos r) _)) by lia. cbn. apply Hrest; lia. }
  rewrite (proj2 (Z.ltb_lt (nul_pos r) _)) by lia. cbn [mbind option_bind].
  rewrite u64_id by (unfold is_u64; lia). unfold in_image.
  set (off := word_at elf (shdrs sht + i * 40 + 16)) in *. set (size := word_at elf (shdrs sht + i * 40 + 20)) in *.
  destruct (Z.gtb_spec (off + size) (len elf)).
  { rewrite (proj2 (Z.leb_gt _ _)) by lia. apply Hrest; lia. }
  rewrite (proj2 (Z.leb_le _ _)) by lia.
  replace (len prefix + nul_pos r - len prefix) with (nul_pos r) by lia.
  rewrite (u32_id (nul_pos r)) by (unfold is_u32; lia). rewrite rd_Some by lia. cbn [mbind option_bind visit].
  replace (sub elf (cand + len prefix) (nul_pos r)) with (take (Z.to_nat (nul_pos r)) r).
  2:{ apply list_eq. intros j. rewrite (lookup_sub elf) by lia. case_bool_decide.
      - rewrite lookup_take_lt by lia. unfold r, a. rewrite lookup_drop, lookup_sub, bool_decide_true by (unfold len in *; lia).
        f_equal. unfold len. lia.
      - apply lookup_take_ge. lia. }
  destruct (cb _ off size ctx) as [ctx'|]; cbn [mbind option_bind]; [|done].
  rewrite (u64_id (matched + 1)) by (unfold is_u64; lia). rewrite Hrest by lia.
  destruct (visit cb rest ctx'); cbn; [|done]. do 2 f_equal. rewrite len_cons. lia.
Qed.
End table.

(** ** Lemmas: decimal numbers *)

Lemma decimal_foldl s v : foldl (fun v c => 10 * v + (c - 48)) v s = v * 10 ^ len s + decimal s.
Proof.
  unfold decimal. revert v; induction s as [|c s IH]; intros v; cbn [foldl].
  { change (len []) with 0. lia. }
  rewrite IH, (IH (10 * 0 + _)), len_cons. rewrite Z.pow_add_r by (pose proof (len_nonneg s); lia). ring.
Qed.

Lemma decimal_nonneg s : Forall digit s -> 0 <= decimal s.
Proof.
  induction 1 as [|c s Hc _ IH]; [done|]. unfold decimal. cbn [foldl]. rewrite decimal_foldl.
  unfold digit in Hc. pose proof (Z.pow_nonneg 10 (len s)). nia.
Qed.

Lemma parse_loop_spec s v w :
  is_u32 v ->
  parse_loop s v = Some w
  <-> Forall digit s /\ w = v * 10 ^ len s + decimal s /\ w < 2 ^ 32.
Proof.
  revert v; induction s as [|c s IH]; intros v Hv; cbn [parse_loop].
  { change (len []) with 0. unfold is_u32 in Hv. split; [intros [= ->]; split_and!; [done|cbn; lia|lia]|].
    intros (_ & -> & _). f_equal. cbn. lia. }
  destruct ((c <? 48) || (c >? 57)) eqn:Ed.
  { split; [done|]. intros (Hd & _). apply Forall_cons in Hd as [Hd _]. unfold digit in Hd. lia. }
  cbv zeta. rewrite (u32_id (0xFFFFFFFF - (c - 48))) by (unfold is_u32; lia).
  assert (decimal (c :: s) = (c - 48) * 10 ^ len s + decimal s) as Hdec.
  { unfold decimal at 1. cbn [foldl]. rewrite decimal_foldl. lia. }
  pose proof (Z.pow_pos_nonneg 10 (len s) ltac:(lia) (len_nonneg s)) as Hp.
  unfold is_u32 in Hv. rewrite len_cons, Z.pow_add_r by (apply len_nonneg || lia). rewrite Hdec.
  destruct (v >? (0xFFFFFFFF - (c - 48)) / 10) eqn:Ev.
  { split; [done|]. intros (Hd & -> & Hlt). apply Forall_cons in Hd as [_ Hd]. exfalso.
    pose proof (decimal_nonneg s Hd). assert (2 ^ 32 <= v * 10 + (c - 48)) by (Z.div_mod_to_equations; lia). nia. }
  assert (v * 10 + (c - 48) < 2 ^ 32) by (Z.div_mod_to_equations; lia).
  rewrite (u32_id (v * 10)), u32_id by (unfold is_u32; lia). rewrite IH by (unfold is_u32; lia).
  replace (v * (10 ^ 1 * 10 ^ len s) + ((c - 48) * 10 ^ len s + decimal s))
    with ((v * 10 + (c - 48)) * 10 ^ len s + decimal s) by ring.
  rewrite Forall_cons. assert (digit c) by (unfold digit; lia). tauto.
Qed.

(** ** Properties *)

Lemma find_section_spec elf name :
  bytes_ok elf -> no_nul name ->
  blyt_elf32_find_section (Some elf) (Some (name ++ [0]))
  = Some (lookup_section elf name (sections elf)).
Proof.
  intros Hb Hn. unfold blyt_elf32_find_section, sections.
  destruct (resolve_ok elf Hb) as (o & -> & Hok). cbn [mbind option_bind].
  destruct o as [sht|]; [|done]. specialize (Hok _ eq_refl). pose proof Hok as (_ & ? & _).
  rewrite (find_loop_spec elf sht Hb Hok) by (done || lia). by rewrite Z2Nat.id by lia.
Qed.

(** Section lookup is memory-safe and exact.  For any bytes offered as a cart
    image, however malformed, [blyt_elf32_find_section] reads only inside the image and
    returns what the section table says: the range of the first section whose whole
    NUL-terminated name is the one asked for, if that range lies in the image, and
    failure otherwise. *)
Theorem elf_find_section_exact elf name :
  bytes_ok elf -> no_nul name ->
  blyt_elf32_find_section (Some elf) (Some (name ++ [0]))
  = Some (lookup_section elf name (sections elf)).
Proof. apply find_section_spec. Qed.

(** Enumeration by prefix is memory-safe and exact.  For any bytes offered as a cart
    image and any callback, [blyt_elf32_for_each_section_prefix] reads only inside the
    image and calls back exactly for the sections whose name starts with the prefix and
    whose range lies in the image, in header order, with the rest of the name, and
    returns their number. *)
Theorem elf_each_prefix_exact {C} (cb : list Z -> Z -> Z -> C -> option C) elf prefix ctx :
  bytes_ok elf -> no_nul prefix ->
  blyt_elf32_for_each_section_prefix cb (Some elf) (Some (prefix ++ [0])) ctx
  = (ctx' ← visit cb (prefixed elf prefix (sections elf)) ctx;
     Some (len (prefixed elf prefix (sections elf)), ctx')).
Proof.
  intros Hb Hn. unfold blyt_elf32_for_each_section_prefix, sections.
  destruct (resolve_ok elf Hb) as (o & -> & Hok). cbn [mbind option_bind].
  destruct o as [sht|]; [|done]. specialize (Hok _ eq_refl). pose proof Hok as (_ & ? & _).
  rewrite (each_loop_spec elf sht Hb Hok cb prefix (Z.to_nat (shnum sht)) 0 0 ctx Hn ltac:(lia) ltac:(lia) ltac:(lia) ltac:(lia) _ eq_refl).
  by rewrite Z2Nat.id by lia.
Qed.

(** Resource ids are parsed exactly.  [blyt_elf32_parse_u32] accepts a text exactly
    when it is a non-empty string of decimal digits whose value is between 1 and
    2^32 - 1, and returns that value: the overflow test neither lets a wrapped value
    through nor rejects one that fits. *)
Theorem elf_parse_u32_exact s v :
  blyt_elf32_parse_u32 (Some s) = Some v
  <-> s <> [] /\ Forall digit s /\ decimal s = v /\ 1 <= v < 2 ^ 32.
Proof.
  unfold blyt_elf32_parse_u32. destruct s as [|c s]; [split; [done|by intros [? _]]|].
  rewrite len_cons. pose proof (len_nonneg s). rewrite (proj2 (Z.eqb_neq _ 0)) by lia.
  pose proof (parse_loop_spec (c :: s) 0) as Hp.
  destruct (parse_loop (c :: s) 0) as [w|]; cbn [mbind option_bind].
  - destruct (proj1 (Hp w ltac:(done)) eq_refl) as (Hd & -> & Hlt). pose proof (decimal_nonneg _ Hd).
    rewrite Z.mul_0_l, Z.add_0_l in *.
    destruct (Z.eqb_spec (decimal (c :: s)) 0); (split; [intros; simplify_eq; split_and!; (done || lia)|]);
      intros (_ & _ & <- & ?); [lia|done].
  - split; [done|]. intros (_ & Hd & Hv & ?).
    by assert (None = Some v) by (apply Hp; [done|split_and!; [done|lia|lia]]).
Qed.

(** ** Witnesses: an image with a string table and one resource section *)

Definition demo_elf : list Z :=
  replicate 32 0 ++ le_bytes 4 52 ++ replicate 12 0 ++ le_bytes 2 2 ++ le_bytes 2 0
  ++ (le_bytes 16 0 ++ le_bytes 4 132 ++ le_bytes 4 19 ++ replicate 16 0)
  ++ (le_bytes 16 1 ++ le_bytes 4 0 ++ le_bytes 4 8 ++ replicate 16 0)
  ++ [0] ++ text ".cart.resource.42" ++ [0].

Lemma demo_elf_ok : bytes_ok demo_elf.
Proof.
  unfold bytes_ok. apply Forall_forall. intros x Hx.
  assert (forallb (fun x => (0 <=? x) && (x <? 256)) demo_elf = true) as H by (vm_compute; reflexivity).
  rewrite forallb_forall in H. specialize (H x). unfold is_u8. pow_simp.
  apply list_elem_of_In in Hx. specialize (H Hx). lia.
Qed.

Lemma no_nul_text s : forallb (fun c => negb (c =? 0)) (text s) = true -> no_nul (text s).
Proof.
  intros H. apply Forall_forall. intros x Hx. rewrite forallb_forall in H.
  apply list_elem_of_In in Hx. specialize (H _ Hx). lia.
Qed.

Lemma elf_find_section_exact_witness :
  blyt_elf32_find_section (Some demo_elf) (Some (text ".cart.resource.42" ++ [0])) = Some (Some (0, 8))
  /\ blyt_elf32_find_section (Some demo_elf) (Some (text ".cart.config" ++ [0])) = Some None.
Proof.
  split; (rewrite (elf_find_section_exact demo_elf) by (apply demo_elf_ok || (apply no_nul_text; reflexivity)));
    vm_compute; reflexivity.
Defined.

Lemma elf_each_prefix_exact_witness :
  blyt_elf32_for_each_section_prefix (fun suffix off size l => Some (l ++ [(blyt_elf32_parse_u32 (Some suffix), off, size)]))
    (Some demo_elf) (Some (text ".cart.resource." ++ [0])) []
  = Some (1, [(Some 42, 0, 8)]).
Proof.
  rewrite (elf_each_prefix_exact _ demo_elf) by (apply demo_elf_ok || (apply no_nul_text; reflexivity)).
  vm_compute. reflexivity.
Defined.
