(* ===== verification/Elf32.v ===== *)
(** * Elf32: the ELF32 structures of a cart image

    Models [runtime/host/src/libblyt/elf32.h]: the structures and the constants the loader
    uses.  The image is the list of its bytes; a structure is read at an offset of it,
    [None] when it does not lie in the image. *)

From S2P Require Import Prelude ElfSection.
From Stdlib Require Import ZArith Lia.
From stdpp Require Import base tactics list.
Open Scope Z_scope.

Definition EI_CLASS : nat := 4.
Definition EI_DATA : nat := 5.
Definition EI_OSABI : nat := 7.
Definition EI_NIDENT : Z := 16.
Definition ELFMAG : list Z := [0x7f; 69; 76; 70].
Definition ELFCLASS32 : Z := 1.
Definition ELFDATA2LSB : Z := 1.
Definition ELFOSABI_NONE : Z := 0.
Definition EM_RISCV : Z := 243.
Definition EF_RISCV_RVC : Z := 0x0001.
Definition EF_RISCV_FLOAT_ABI_DOUBLE : Z := 0x0004.
Definition BLYT_CART_EF_FLAGS : Z := Z.lor EF_RISCV_RVC EF_RISCV_FLOAT_ABI_DOUBLE.

Definition PT_LOAD : Z := 1.
Definition PT_INTERP : Z := 3.
Definition PT_GNU_STACK : Z := 0x6474e551.
Definition PT_GNU_RELRO : Z := 0x6474e552.
Definition PF_X : Z := 1.
Definition PF_W : Z := 2.
Definition PF_R : Z := 4.

Definition STB_LOCAL : Z := 0.
Definition STB_GLOBAL : Z := 1.
Definition STT_FUNC : Z := 2.
Definition SHN_UNDEF : Z := 0.
Definition SHT_STRTAB : Z := 3.
Definition SHT_NOBITS : Z := 8.
Definition SHT_DYNSYM : Z := 11.
Definition DT_NULL : Z := 0.
Definition DT_NEEDED : Z := 1.
Definition DT_STRTAB : Z := 5.
Definition DT_STRSZ : Z := 10.

Definition STB_WEAK : Z := 2.
Definition ET_DYN : Z := 3.
Definition PT_DYNAMIC : Z := 2.
Definition SHT_RELA : Z := 4.
Definition SHT_DYNAMIC : Z := 6.
Definition R_RISCV_32 : Z := 1.
Definition R_RISCV_RELATIVE : Z := 3.
Definition R_RISCV_JUMP_SLOT : Z := 5.
Definition R_RISCV_GLOB_DAT : Z := 19.

Definition ELF32_R_SYM (i : Z) : Z := Z.shiftr i 8.
Definition ELF32_R_TYPE (i : Z) : Z := Z.land i 0xff.
Definition ELF32_ST_BIND (i : Z) : Z := Z.shiftr i 4.
Definition ELF32_ST_TYPE (i : Z) : Z := Z.land i 0xf.

(** ** Headers *)

Record Elf32_Ehdr := MkEhdr {
  e_ident : list Z; e_type : Z; e_machine : Z; e_version : Z; e_entry : Z; e_phoff : Z; e_shoff : Z; e_flags : Z;
  e_ehsize : Z; e_phentsize : Z; e_phnum : Z; e_shentsize : Z; e_shnum : Z; e_shstrndx : Z }.
Definition sizeof_Ehdr : Z := 52.

Definition rd_ehdr (map : list Z) : option Elf32_Ehdr :=
  ident ← rd map 0 EI_NIDENT;
  ty ← rd_le map 16 2; machine ← rd_le map 18 2; version ← rd_le map 20 4; entry ← rd_le map 24 4;
  phoff ← rd_le map 28 4; shoff ← rd_le map 32 4; flags ← rd_le map 36 4; ehsize ← rd_le map 40 2;
  phentsize ← rd_le map 42 2; phnum ← rd_le map 44 2; shentsize ← rd_le map 46 2; shnum ← rd_le map 48 2;
  shstrndx ← rd_le map 50 2;
  Some (MkEhdr ident ty machine version entry phoff shoff flags ehsize phentsize phnum shentsize shnum shstrndx).

Record Elf32_Phdr := MkPhdr {
  p_type : Z; p_offset : Z; p_vaddr : Z; p_paddr : Z; p_filesz : Z; p_memsz : Z; p_flags : Z; p_align : Z }.
Definition sizeof_Phdr : Z := 32.

Definition rd_phdr (map : list Z) (p : Z) : option Elf32_Phdr :=
  ty ← rd_le map p 4; off ← rd_le map (p + 4) 4; vaddr ← rd_le map (p + 8) 4; paddr ← rd_le map (p + 12) 4;
  filesz ← rd_le map (p + 16) 4; memsz ← rd_le map (p + 20) 4; flags ← rd_le map (p + 24) 4; align ← rd_le map (p + 28) 4;
  Some (MkPhdr ty off vaddr paddr filesz memsz flags align).

Record Elf32_Shdr := MkShdr {
  sh_name : Z; sh_type : Z; sh_flags : Z; sh_addr : Z; sh_offset : Z; sh_size : Z; sh_link : Z; sh_info : Z;
  sh_addralign : Z; sh_entsize : Z }.
Definition sizeof_Shdr : Z := 40.

Definition rd_shdr (map : list Z) (p : Z) : option Elf32_Shdr :=
  name ← rd_le map p 4; ty ← rd_le map (p + 4) 4; flags ← rd_le map (p + 8) 4; addr ← rd_le map (p + 12) 4;
  off ← rd_le map (p + 16) 4; size ← rd_le map (p + 20) 4; link ← rd_le map (p + 24) 4; info ← rd_le map (p + 28) 4;
  align ← rd_le map (p + 32) 4; entsize ← rd_le map (p + 36) 4;
  Some (MkShdr name ty flags addr off size link info align entsize).

(** Entries of the dynamic section and of the symbol table are read field by field. *)
Definition sizeof_Dyn : Z := 8.
Definition d_tag (map : list Z) (p : Z) : option Z := v ← rd_le map p 4; Some (i32 v).
Definition d_val (map : list Z) (p : Z) : option Z := rd_le map (p + 4) 4.

Definition sizeof_Sym : Z := 16.
Definition st_name (map : list Z) (p : Z) : option Z := rd_le map p 4.
Definition st_value (map : list Z) (p : Z) : option Z := rd_le map (p + 4) 4.
Definition st_info (map : list Z) (p : Z) : option Z := zget map (p + 12).
Definition st_shndx (map : list Z) (p : Z) : option Z := rd_le map (p + 14) 2.

Definition sizeof_Rela : Z := 12.
Definition r_offset (map : list Z) (p : Z) : option Z := rd_le map p 4.
Definition r_info (map : list Z) (p : Z) : option Z := rd_le map (p + 4) 4.
Definition r_addend (map : list Z) (p : Z) : option Z := v ← rd_le map (p + 8) 4; Some (i32 v).

(** ** Lemmas *)

Lemma rd_le_ok map off n :
  bytes_ok map -> 0 <= off -> 0 <= n -> off + n <= len map -> exists v, rd_le map off n = Some v /\ 0 <= v < 256 ^ n.
Proof.
  intros Hm Ho Hn Hl. unfold rd_le. rewrite rd_Some by lia. cbn [mbind option_bind]. eexists. split; [done|].
  pose proof (le_val_range (sub map off n)) as Hr. rewrite len_sub in Hr by lia. apply Hr. by apply Forall_sub.
Qed.

(** Reads the integer fields of a structure that lies in the image, one by one. *)
Ltac read_fields :=
  repeat match goal with |- context [rd_le ?map ?o ?n] =>
    let v := fresh "v" in let E := fresh "E" in destruct (rd_le_ok map o n) as (v & E & ?); [done|lia|lia|lia|];
    rewrite E; clear E; cbn [mbind option_bind] end.

Lemma rd_ehdr_ok map :
  bytes_ok map -> sizeof_Ehdr <= len map ->
  exists eh, rd_ehdr map = Some eh /\ len (e_ident eh) = 16 /\ is_u16 (e_phentsize eh) /\ is_u16 (e_phnum eh) /\ is_u32 (e_phoff eh)
    /\ is_u16 (e_shentsize eh) /\ is_u16 (e_shnum eh) /\ is_u32 (e_shoff eh) /\ is_u16 (e_shstrndx eh) /\ is_u32 (e_entry eh).
Proof.
  unfold sizeof_Ehdr. intros Hm Hl. unfold rd_ehdr, EI_NIDENT. rewrite rd_Some by lia. cbn [mbind option_bind].
  read_fields.
  eexists. split; [done|]. cbn. rewrite len_sub by lia. unfold is_u16, is_u32. split_and!; lia.
Qed.

Lemma rd_phdr_ok map p :
  bytes_ok map -> 0 <= p -> p + sizeof_Phdr <= len map ->
  exists ph, rd_phdr map p = Some ph /\ is_u32 (p_offset ph) /\ is_u32 (p_filesz ph) /\ is_u32 (p_vaddr ph) /\ is_u32 (p_memsz ph).
Proof.
  unfold sizeof_Phdr. intros Hm Hp Hl. unfold rd_phdr.
  read_fields.
  eexists. split; [done|]. cbn. unfold is_u32. split_and!; lia.
Qed.

Lemma rd_shdr_ok map p :
  bytes_ok map -> 0 <= p -> p + sizeof_Shdr <= len map ->
  exists sh, rd_shdr map p = Some sh /\ is_u32 (sh_name sh) /\ is_u32 (sh_offset sh) /\ is_u32 (sh_size sh)
    /\ is_u32 (sh_link sh) /\ is_u32 (sh_entsize sh).
Proof.
  unfold sizeof_Shdr. intros Hm Hp Hl. unfold rd_shdr.
  read_fields.
  eexists. split; [done|]. cbn. unfold is_u32. split_and!; lia.
Qed.

(** Conversely, what was read lay in the image and has its width. *)
Lemma rd_le_range map off n v :
  bytes_ok map -> rd_le map off n = Some v -> 0 <= off /\ off + n <= len map /\ 0 <= v < 256 ^ n.
Proof.
  unfold rd_le. intros Hm H. destruct (rd map off n) as [bs|] eqn:E; cbn in H; [|done]. apply rd_inv in E as (? & ? & ? & ->).
  injection H as <-. pose proof (le_val_range (sub map off n)) as Hr. rewrite len_sub in Hr by lia.
  split_and!; [done..|apply Hr; by apply Forall_sub|apply Hr; by apply Forall_sub].
Qed.

(** Takes the reading of a structure apart, with the range of each field. *)
Ltac fields_of H :=
  repeat match type of H with
  | (rd_le ?map ?o ?n ≫= _) = Some _ =>
      let v := fresh "v" in let E := fresh "E" in destruct (rd_le map o n) as [v|] eqn:E; [|done]; cbn [mbind option_bind] in H;
      apply rd_le_range in E as (_ & _ & E); [|done]
  end.

Lemma rd_phdr_range map p ph :
  bytes_ok map -> rd_phdr map p = Some ph ->
  is_u32 (p_offset ph) /\ is_u32 (p_filesz ph) /\ is_u32 (p_vaddr ph) /\ is_u32 (p_memsz ph).
Proof. unfold rd_phdr. intros Hm H. fields_of H. injection H as <-. done. Qed.

Lemma rd_shdr_range map p sh :
  bytes_ok map -> rd_shdr map p = Some sh ->
  is_u32 (sh_name sh) /\ is_u32 (sh_offset sh) /\ is_u32 (sh_size sh) /\ is_u32 (sh_link sh) /\ is_u32 (sh_entsize sh).
Proof. unfold rd_shdr. intros Hm H. fields_of H. injection H as <-. done. Qed.

(** A structure that was read lies in the image. *)
Ltac reads_of Hm H :=
  repeat match type of H with
  | (rd_le ?map ?o ?n ≫= _) = Some _ =>
      let v := fresh "v" in let E := fresh "E" in destruct (rd_le map o n) as [v|] eqn:E; [|done]; cbn [mbind option_bind] in H;
      apply rd_le_range in E as (_ & E & _); [|exact Hm]
  end.

Lemma rd_shdr_inside map p sh : bytes_ok map -> rd_shdr map p = Some sh -> p + sizeof_Shdr <= len map.
Proof. unfold rd_shdr, sizeof_Shdr. intros Hm H. reads_of Hm H. lia. Qed.

Lemma rd_ehdr_inside map eh : bytes_ok map -> rd_ehdr map = Some eh -> sizeof_Ehdr <= len map.
Proof.
  unfold rd_ehdr, sizeof_Ehdr. intros Hm H. destruct (rd map 0 EI_NIDENT); cbn [mbind option_bind] in H; [|done]. reads_of Hm H. lia.
Qed.
