(* ===== verification/CartLoad.v ===== *)
(** * CartLoad: opening a packed cart

    Models [runtime/host/src/libblyt/cart_load.c]: the validation of an untrusted ELF image
    ([blyt_cart_open]), with its allowlists and its checks of segments, opcodes, sections, imports
    and manifest, and the queries on an open cart.

    A check either accepts, rejects with an error code, or reads outside the image
    ([Wild]).  The file is the list of its bytes.  The FlatBuffers code, generated from the
    schemas, and [malloc] are parameters; [size_t] has 64 bits. *)

From S2P Require Import Prelude ElfSection Elf32.
From Stdlib Require Import ZArith Lia Strings.String.
From stdpp Require Import base tactics list.
Open Scope Z_scope.

(** ** Results *)

Inductive blyt_cart_err_t :=
  | BLYT_CART_OK
  | BLYT_CART_ERR_IO
  | BLYT_CART_ERR_TOO_SMALL
  | BLYT_CART_ERR_NOT_ELF
  | BLYT_CART_ERR_BAD_CLASS
  | BLYT_CART_ERR_BAD_ENDIAN
  | BLYT_CART_ERR_BAD_OSABI
  | BLYT_CART_ERR_BAD_MACHINE
  | BLYT_CART_ERR_BAD_FLAGS
  | BLYT_CART_ERR_BAD_SHDR
  | BLYT_CART_ERR_DENIED_SECT
  | BLYT_CART_ERR_BAD_NEEDED
  | BLYT_CART_ERR_NO_CART_INFO
  | BLYT_CART_ERR_BAD_PREAMBLE
  | BLYT_CART_ERR_BAD_CART_INFO
  | BLYT_CART_ERR_BAD_CART_CONFIG
  | BLYT_CART_ERR_API_VERSION
  | BLYT_CART_ERR_BAD_SEGMENT
  | BLYT_CART_ERR_BAD_INTERP
  | BLYT_CART_ERR_NO_RELRO
  | BLYT_CART_ERR_BAD_OPCODE
  | BLYT_CART_ERR_BAD_IMPORT
  | BLYT_CART_ERR_MISSING_ENTRY
  | BLYT_CART_ERR_BAD_LAYOUTS
  | BLYT_CART_ERR_BAD_ID
  | BLYT_CART_ERR_BAD_TITLE
  | BLYT_CART_ERR_BAD_VERSION.

Inductive checked (A : Type) :=
  | Wild
  | Reject (err : blyt_cart_err_t)
  | Accept (a : A).
Arguments Wild {A}. Arguments Reject {A} err. Arguments Accept {A} a.

#[export] Instance checked_ret : MRet checked := @Accept.
#[export] Instance checked_bind : MBind checked := fun A B f c =>
  match c with Wild => Wild | Reject err => Reject err | Accept a => f a end.

Definition look {A} (o : option A) : checked A := match o with Some a => Accept a | None => Wild end.
Definition fail_if (b : bool) (err : blyt_cart_err_t) : checked unit := if b then Reject err else Accept tt.

(** ** Strings in the image *)

(** [map + off] is compared with the bytes [s], up to the first difference. *)
Fixpoint str_at (map : list Z) (off : Z) (s : list Z) : option bool :=
  match s with
  | [] => Some true
  | c :: s => d ← zget map off; if d =? c then str_at map (off + 1) s else Some false
  end.
(** [strcmp(map + off, s) == 0] and [strncmp(map + off, s, strlen(s)) == 0] *)
Definition strcmp_at (map : list Z) (off : Z) (s : list Z) : option bool := str_at map off (s ++ [0]).
Definition strncmp_at (map : list Z) (off : Z) (s : list Z) : option bool := str_at map off s.
(** [memcmp(map + off, s, len s) == 0] *)
Definition memcmp_at (map : list Z) (off : Z) (s : list Z) : option bool := bs ← rd map off (len s); Some (bool_decide (bs = s)).

Fixpoint any_name (map : list Z) (off : Z) (names : list (list Z)) : option bool :=
  match names with
  | [] => Some false
  | n :: names => b ← strcmp_at map off n; if b : bool then Some true else any_name map off names
  end.

(** ** The lists *)

Definition BLYT_INTERP_PATH : list Z := text "/lib/ld-blyt.so.1".

Definition DENIED_SECTIONS : list (list Z) :=
  text <$> [".init_array"; ".fini_array"; ".preinit_array"; ".ctors"; ".dtors"]%string.
Definition NEEDED_ALLOWLIST : list (list Z) := text <$> ["libblyt32.so"; "libblyt32lua.so"]%string.
Definition REQUIRED_ENTRY_POINTS : list (list Z) := text <$> ["blyt_cart_init"; "blyt_cart_update"; "blyt_cart_draw"]%string.

Definition SYMBOL_ALLOWLIST : list (list Z) := text <$> [
  "blyt_main"; "blyt_exit"; "blyt_runtime_startup"; "blyt_console_debug"; "blyt_quit"; "blyt_frame_done";
  "blyt_buffer_get_f32"; "blyt_buffer_set_f32"; "blyt_buffer_get_f64"; "blyt_buffer_set_f64"; "blyt_buffer_get_i32";
  "blyt_buffer_set_i32"; "blyt_buffer_get_u32"; "blyt_buffer_set_u32"; "blyt_buffer_get_i16"; "blyt_buffer_set_i16";
  "blyt_buffer_get_u16"; "blyt_buffer_set_u16"; "blyt_buffer_get_i8"; "blyt_buffer_set_i8"; "blyt_buffer_get_u8";
  "blyt_buffer_set_u8"; "blyt_buffer_get_bool"; "blyt_buffer_set_bool"; "blyt_buffer_alloc_slot";
  "blyt_buffer_free_slot"; "blyt_buffer_ref"; "blyt_buffer_ref_valid"; "blyt_save_write"; "blyt_save_read";
  "blyt_resource_pin"; "blyt_resource_unpin"; "blyt_resource_text_get"; "blyt_resource_bytes_get";
  "blyt_surface_create"; "blyt_surface_destroy"; "blyt_surface_clear"; "blyt_surface_pixel";
  "blyt_surface_rect_fill"; "blyt_surface_line"; "blyt_surface_blit"; "blyt_surface_acquire"; "blyt_surface_release";
  "blyt_gfx_acquire"; "blyt_gfx_present"; "blyt_gfx_palette_set"; "blyt_raster_clear"; "blyt_raster_pixel";
  "blyt_raster_rect_fill"; "blyt_raster_line"; "blyt_raster_blit"; "blyt_mem_stats"; "blyt_mem_resources"; "malloc";
  "free"; "realloc"; "calloc"; "aligned_alloc"; "posix_memalign"; "abort"; "memcpy"; "memmove"; "memset"; "memcmp";
  "memchr"; "strlen"; "strcmp"; "strncmp"; "strcpy"; "strncpy"; "strcat"; "strncat"; "strchr"; "strrchr"; "strstr";
  "strtok"; "strtok_r"; "strdup"; "strndup"; "strcasecmp"; "strncasecmp"; "mempcpy"; "stpcpy"; "stpncpy";
  "explicit_bzero"; "bcopy"; "bzero"; "bcmp"; "strerror"; "strtol"; "strtoul"; "strtoll"; "strtoull"; "strtod";
  "strtof"; "atoi"; "atol"; "atoll"; "atof"; "qsort"; "bsearch"; "abs"; "labs"; "llabs"; "snprintf"; "vsnprintf";
  "sscanf"; "vsscanf"; "fmemopen"; "fclose"; "fread"; "fwrite"; "fseek"; "ftell"; "rewind"; "feof"; "ferror";
  "clearerr"; "setjmp"; "longjmp"; "isalpha"; "isdigit"; "isalnum"; "isspace"; "ispunct"; "islower"; "isupper";
  "isprint"; "iscntrl"; "isxdigit"; "tolower"; "toupper"; "sinf"; "cosf"; "tanf"; "asinf"; "acosf"; "atanf";
  "atan2f"; "expf"; "exp2f"; "logf"; "log2f"; "log10f"; "powf"; "sqrtf"; "cbrtf"; "fabsf"; "floorf"; "ceilf";
  "roundf"; "truncf"; "nearbyintf"; "rintf"; "fmodf"; "remainderf"; "hypotf"; "fmaf"; "ldexpf"; "frexpf"; "modff";
  "copysignf"; "fmaxf"; "fminf"; "fdimf"; "scalbnf"; "scalblnf"; "logbf"; "significandf"; "ilogbf"; "j0f"; "j1f";
  "lgammaf"; "tgammaf"; "erff"; "erfcf"; "sinh"; "cosh"; "tanh"; "sinhf"; "coshf"; "tanhf"; "asinhf"; "acoshf";
  "atanhf"; "expm1f"; "log1pf"; "sin"; "cos"; "tan"; "asin"; "acos"; "atan"; "atan2"; "exp"; "exp2"; "log"; "log2";
  "log10"; "pow"; "sqrt"; "cbrt"; "fabs"; "floor"; "ceil"; "round"; "trunc"; "nearbyint"; "rint"; "fmod";
  "remainder"; "hypot"; "fma"; "ldexp"; "frexp"; "modf"; "copysign"; "fmax"; "fmin"; "fdim"; "scalbn"; "scalbln";
  "logb"; "ilogb"; "erf"; "erfc"; "expm1"; "log1p"; "asinh"; "acosh"; "atanh"; "lgamma"; "tgamma"; "j0"; "j1";
  "localeconv"; "__extendsfdf2"; "__truncdfsf2"; "__extendsftf2"; "__extenddftf2"; "__trunctfsf2"; "__trunctfdf2";
  "__floatsidf"; "__floatdidf"; "__floatdisf"; "__floatditf"; "__floatsitf"; "__floatunsidf"; "__floatunsitf";
  "__fixdfsi"; "__fixdfdi"; "__fixsfdi"; "__fixtfsi"; "__fixtfdi"; "__fixunstfsi"; "__adddf3"; "__subdf3";
  "__muldf3"; "__divdf3"; "__addtf3"; "__subtf3"; "__multf3"; "__divtf3"; "__eqdf2"; "__nedf2"; "__ltdf2"; "__ledf2";
  "__gtdf2"; "__gedf2"; "__eqtf2"; "__netf2"; "__lttf2"; "__letf2"; "__gttf2"; "__getf2"; "__unordtf2"; "__udivdi3";
  "__umoddi3"; "__lshrdi3"; "__ashrdi3"; "__ashldi3"; "__muldi3"; "__divdi3"; "__moddi3"; "__fpclassify";
  "__fpclassifyf"; "__fpclassifyl"; "__signbit"; "__signbitf"; "__signbitl"; "__stack_chk_guard"; "__stack_chk_fail"]%string.

Definition section_name_denied (map : list Z) (name : Z) : option bool := any_name map name DENIED_SECTIONS.
Definition needed_name_allowed (map : list Z) (name : Z) : option bool := any_name map name NEEDED_ALLOWLIST.
Definition symbol_name_allowed (map : list Z) (name : Z) : option bool := any_name map name SYMBOL_ALLOWLIST.

(** ** Bounds *)

(** [ptr] is the offset of the pointer in the map. *)
Definition in_bounds (map_size ptr n : Z) : bool := negb (n >? map_size) && negb (ptr >? map_size - n).
Definition u32_add_le (a b limit : Z) : bool := a + b <=? limit.
Definition ranges_overlap (a alen b blen : Z) : bool :=
  if (alen =? 0) || (blen =? 0) then false else (a <? b + blen) && (b <? a + alen).

(** ** Manifest rules *)

Definition SECT_PREAMBLE_SIZE : Z := 8.
Definition BLYT_API_VERSION_MAJOR : Z := 0.
Definition CART_INFO_TAG : list Z := text "CINF".
Definition CART_CONFIG_TAG : list Z := text "CCFG".
Definition CART_LAYOUTS_TAG : list Z := text "CLAY".

(** The offset and the size of the FlatBuffers buffer, or [None] for [NULL]. *)
Definition check_preamble (map : list Z) (sect sect_size : Z) (expected_tag : list Z) : option (option (Z * Z)) :=
  if sect_size <? SECT_PREAMBLE_SIZE then Some None
  else
    tag ← memcmp_at map sect expected_tag;
    if negb tag then Some None
    else
      lo ← zget map (sect + 4); hi ← zget map (sect + 5);
      if negb (lo + 256 * hi =? 0) then Some None
      else Some (Some (sect + SECT_PREAMBLE_SIZE, sect_size - SECT_PREAMBLE_SIZE)).

Definition lower (c : Z) : bool := (97 <=? c) && (c <=? 122).
Definition digit_char (c : Z) : bool := (48 <=? c) && (c <=? 57).

Definition cart_id_valid (id : option (list Z)) : bool :=
  match id with
  | None | Some [] => false
  | Some (c :: r) =>
      if len (c :: r) >? 63 then false
      else if negb (lower c || digit_char c) then false
      else forallb (fun c => lower c || digit_char c || (c =? 95) || (c =? 45)) (c :: r)
  end.

Definition cart_text_valid (s : option (list Z)) : bool :=
  match s with
  | None | Some [] => false
  | Some s => forallb (fun c => negb ((c <? 0x20) || (c =? 0x7f))) s
  end.

(** ** Program headers *)

Definition MAX_LOAD : nat := 64.

Record phdr_scan := MkScan { loads : list Elf32_Phdr; has_relro : bool; has_interp : bool; entry_ok : bool }.

Section open.
(** The generated readers and verifiers; a string is without its NUL. *)
Record CartInfo := MkInfo {
  api_version_major : Z; info_debug : bool; info_id : option (list Z); info_title : option (list Z); info_version : option (list Z) }.
Record flatcc := MkFlatcc {
  CartInfo_verify : list Z -> bool;
  CartInfo_as_root : list Z -> option CartInfo;
  CartConfig_verify : list Z -> bool;
  CartConfig_as_root : list Z -> option (Z * Z);   (** [save_version], [default_palette] *)
  CartLayouts_verify : list Z -> bool
}.
Variable fb : flatcc.
(** Whether the allocation number [n] asks for, of so many bytes, succeeds: 0 to 2 are the copies of
    the manifest sections, 3 to 5 the strings, 6 the cart and 7 its path. *)
Variable malloc_ok : nat -> Z -> bool.
Variable map : list Z.

Definition check_ident (eh : Elf32_Ehdr) : checked unit :=
  let ident i := default 0 (e_ident eh !! i) in
  _ ← fail_if (negb (bool_decide (take 4 (e_ident eh) = ELFMAG))) BLYT_CART_ERR_NOT_ELF;
  _ ← fail_if (negb (ident EI_CLASS =? ELFCLASS32)) BLYT_CART_ERR_BAD_CLASS;
  _ ← fail_if (negb (ident EI_DATA =? ELFDATA2LSB)) BLYT_CART_ERR_BAD_ENDIAN;
  _ ← fail_if (negb (ident EI_OSABI =? ELFOSABI_NONE)) BLYT_CART_ERR_BAD_OSABI;
  _ ← fail_if (negb (e_machine eh =? EM_RISCV)) BLYT_CART_ERR_BAD_MACHINE;
  fail_if (negb (e_flags eh =? BLYT_CART_EF_FLAGS)) BLYT_CART_ERR_BAD_FLAGS.

Definition is_exec (ph : Elf32_Phdr) : bool := negb (Z.land (p_flags ph) PF_X =? 0).

Definition check_interp (ph : Elf32_Phdr) : checked unit :=
  if negb (u32_add_le (p_offset ph) (p_filesz ph) (len map)) then Reject BLYT_CART_ERR_BAD_INTERP
  else if negb (p_filesz ph =? len (BLYT_INTERP_PATH ++ [0])) then Reject BLYT_CART_ERR_BAD_INTERP
  else
    same ← look (memcmp_at map (p_offset ph) (BLYT_INTERP_PATH ++ [0]));
    fail_if (negb same) BLYT_CART_ERR_BAD_INTERP.

(** The body of the loop over the program headers. *)
Definition phdr_step (eh : Elf32_Ehdr) (ph : Elf32_Phdr) (st : phdr_scan) : checked phdr_scan :=
  _ ← (if p_type ph =? PT_INTERP then check_interp ph else Accept tt);
  let st := if p_type ph =? PT_INTERP then MkScan (loads st) (has_relro st) true (entry_ok st) else st in
  let st := if p_type ph =? PT_GNU_RELRO then MkScan (loads st) true (has_interp st) (entry_ok st) else st in
  _ ← fail_if ((p_type ph =? PT_GNU_STACK) && is_exec ph) BLYT_CART_ERR_BAD_SEGMENT;
  if p_type ph =? PT_LOAD then
    _ ← fail_if (Z.land (p_flags ph) (Z.lor PF_W PF_X) =? Z.lor PF_W PF_X) BLYT_CART_ERR_BAD_SEGMENT;
    _ ← fail_if (negb (u32_add_le (p_offset ph) (p_filesz ph) (len map))) BLYT_CART_ERR_BAD_SEGMENT;
    let holds_entry := is_exec ph && (p_filesz ph >? 0) && (e_entry eh >=? p_vaddr ph)
                       && (e_entry eh <? u32 (p_vaddr ph + p_filesz ph)) in
    Accept (MkScan (if (length (loads st) <? MAX_LOAD)%nat then loads st ++ [ph] else loads st) (has_relro st) (has_interp st)
              (entry_ok st || holds_entry))
  else Accept st.

Fixpoint phdr_loop (eh : Elf32_Ehdr) (phs : list Elf32_Phdr) (st : phdr_scan) : checked phdr_scan :=
  match phs with
  | [] => Accept st
  | ph :: phs => st ← phdr_step eh ph st; phdr_loop eh phs st
  end.

Definition clash (a b : Elf32_Phdr) : bool :=
  ranges_overlap (p_offset a) (p_filesz a) (p_offset b) (p_filesz b)
  || ranges_overlap (p_vaddr a) (p_memsz a) (p_vaddr b) (p_memsz b).

(** [for (i) for (j = i + 1)] *)
Fixpoint any_overlap (ls : list Elf32_Phdr) : bool :=
  match ls with
  | [] => false
  | a :: ls => existsb (clash a) ls || any_overlap ls
  end.

Definition ECALL : list Z := [0x73; 0x00; 0x00; 0x00].
Definition EBREAK : list Z := [0x73; 0x00; 0x10; 0x00].

(** [true] when a forbidden encoding is found at an offset from [off] on. *)
Fixpoint opcode_loop (k : nat) (seg seg_size off : Z) : option bool :=
  match k with
  | O => Some false
  | S k =>
      if off + 4 <=? seg_size then
        a ← memcmp_at map (seg + off) ECALL;
        b ← (if a : bool then Some true else memcmp_at map (seg + off) EBREAK);
        if b : bool then Some true else opcode_loop k seg seg_size (off + 2)
      else Some false
  end.

Definition opcode_fuel (seg_size : Z) : nat := Z.to_nat (seg_size / 2 + 1).

Fixpoint opcode_scan (ls : list Elf32_Phdr) : checked unit :=
  match ls with
  | [] => Accept tt
  | ph :: ls =>
      if negb (is_exec ph) then opcode_scan ls
      else if p_filesz ph <? 4 then opcode_scan ls
      else
        bad ← look (opcode_loop (opcode_fuel (p_filesz ph)) (p_offset ph) (p_filesz ph) 0);
        _ ← fail_if bad BLYT_CART_ERR_BAD_OPCODE;
        opcode_scan ls
  end.

Definition read_phdrs (eh : Elf32_Ehdr) : option (list Elf32_Phdr) :=
  mapM (fun i => rd_phdr map (e_phoff eh + i * e_phentsize eh)) (seqZ 0 (e_phnum eh)).

Definition check_segments (eh : Elf32_Ehdr) : checked unit :=
  if e_phnum eh >? 0 then
    _ ← fail_if (e_phentsize eh <? sizeof_Phdr) BLYT_CART_ERR_BAD_SEGMENT;
    _ ← fail_if (e_phoff eh + e_phnum eh * e_phentsize eh >? len map) BLYT_CART_ERR_BAD_SEGMENT;
    phs ← look (read_phdrs eh);
    st ← phdr_loop eh phs (MkScan [] false false (e_entry eh =? 0));
    _ ← fail_if (negb (entry_ok st)) BLYT_CART_ERR_BAD_SEGMENT;
    _ ← fail_if (negb (has_interp st)) BLYT_CART_ERR_BAD_INTERP;
    _ ← fail_if (negb (has_relro st)) BLYT_CART_ERR_NO_RELRO;
    _ ← fail_if (any_overlap (loads st)) BLYT_CART_ERR_BAD_SEGMENT;
    opcode_scan (loads st)
  else Accept tt.

(** ** Sections *)

Definition read_shdrs (eh : Elf32_Ehdr) : option (list Elf32_Shdr) :=
  mapM (fun i => rd_shdr map (e_shoff eh + i * sizeof_Shdr)) (seqZ 0 (e_shnum eh)).

(** The section headers, and the offset and size of the name table. *)
Definition check_shdrs (eh : Elf32_Ehdr) : checked (list Elf32_Shdr * Z * Z) :=
  _ ← fail_if ((e_shentsize eh <? sizeof_Shdr) || (e_shnum eh =? 0) || (e_shstrndx eh >=? e_shnum eh)) BLYT_CART_ERR_BAD_SHDR;
  _ ← fail_if (e_shoff eh + e_shnum eh * e_shentsize eh >? len map) BLYT_CART_ERR_BAD_SHDR;
  shdrs ← look (read_shdrs eh);
  hdr ← look (zget shdrs (e_shstrndx eh));
  _ ← fail_if (negb (in_bounds (len map) (sh_offset hdr) (sh_size hdr))) BLYT_CART_ERR_BAD_SHDR;
  Accept (shdrs, sh_offset hdr, sh_size hdr).

Record cart_sections := MkSects {
  sect_cart_info : option Elf32_Shdr; sect_cart_config : option Elf32_Shdr; sect_cart_layouts : option Elf32_Shdr;
  sect_cart_lua : option Elf32_Shdr; sect_dynamic : option Elf32_Shdr; sect_dynsym : option Elf32_Shdr;
  sect_dynstr_sh : option Elf32_Shdr; sect_dwarf : bool }.
Definition no_sections : cart_sections := MkSects None None None None None None None false.

(** [if (strcmp(name, s) == 0) x = sh] *)
Definition named (name : Z) (s : string) (sh : Elf32_Shdr) (x : option Elf32_Shdr) : checked (option Elf32_Shdr) :=
  b ← look (strcmp_at map name (text s)); Accept (if b : bool then Some sh else x).

(** The body of the walk over the sections. *)
Definition section_step (shstrtab shstrtab_size : Z) (sh : Elf32_Shdr) (st : cart_sections) : checked cart_sections :=
  _ ← fail_if (sh_name sh >=? shstrtab_size) BLYT_CART_ERR_BAD_SHDR;
  let name := shstrtab + sh_name sh in
  denied ← look (section_name_denied map name);
  _ ← fail_if denied BLYT_CART_ERR_DENIED_SECT;
  _ ← fail_if (negb (sh_type sh =? SHT_NOBITS) && (sh_size sh >? 0) && negb (in_bounds (len map) (sh_offset sh) (sh_size sh)))
        BLYT_CART_ERR_BAD_SHDR;
  dw ← look (strncmp_at map name (text ".debug_"));
  dw ← (if dw : bool then Accept true else look (strncmp_at map name (text ".zdebug_")));
  info ← named name ".cart.info" sh (sect_cart_info st);
  config ← named name ".cart.config" sh (sect_cart_config st);
  layouts ← named name ".cart.layouts" sh (sect_cart_layouts st);
  lua ← named name ".cart.lua" sh (sect_cart_lua st);
  dynamic ← named name ".dynamic" sh (sect_dynamic st);
  dynstr ← named name ".dynstr" sh (sect_dynstr_sh st);
  let dynsym := if sh_type sh =? SHT_DYNSYM then Some sh else sect_dynsym st in
  Accept (MkSects info config layouts lua dynamic dynsym dynstr (dw || sect_dwarf st)).

Fixpoint section_walk (shstrtab shstrtab_size : Z) (shs : list Elf32_Shdr) (st : cart_sections) : checked cart_sections :=
  match shs with
  | [] => Accept st
  | sh :: shs => st ← section_step shstrtab shstrtab_size sh st; section_walk shstrtab shstrtab_size shs st
  end.

(** ** Needed libraries *)

Definition find_strtab (shdrs : list Elf32_Shdr) (addr : Z) : option Z :=
  sh_offset <$> List.find (fun sh => (sh_type sh =? SHT_STRTAB) && (sh_addr sh =? addr)) shdrs.

(** The first pass, from entry [p] on: the offset of the string table, if found, and its size. *)
Fixpoint dyn_strtab (k : nat) (p entsize : Z) (shdrs : list Elf32_Shdr) (dynstr : option Z) (dynstr_size : Z)
    : option (option Z * Z) :=
  match k with
  | O => Some (dynstr, dynstr_size)
  | S k =>
      tag ← d_tag map p;
      if tag =? DT_NULL then Some (dynstr, dynstr_size)
      else
        dynstr ← (if tag =? DT_STRTAB
                  then v ← d_val map p; Some (match find_strtab shdrs v with Some o => Some o | None => dynstr end)
                  else Some dynstr);
        dynstr_size ← (if tag =? DT_STRSZ then d_val map p else Some dynstr_size);
        dyn_strtab k (p + entsize) entsize shdrs dynstr dynstr_size
  end.

(** The second pass; [true] when the Lua library is needed. *)
Fixpoint needed_loop (k : nat) (p entsize : Z) (dynstr : option Z) (dynstr_size : Z) (has_lua : bool) : checked bool :=
  match k with
  | O => Accept has_lua
  | S k =>
      tag ← look (d_tag map p);
      if tag =? DT_NULL then Accept has_lua
      else if negb (tag =? DT_NEEDED) then needed_loop k (p + entsize) entsize dynstr dynstr_size has_lua
      else
        match dynstr with
        | None => Reject BLYT_CART_ERR_BAD_NEEDED
        | Some str =>
            v ← look (d_val map p);
            _ ← fail_if (v >=? dynstr_size) BLYT_CART_ERR_BAD_NEEDED;
            ok ← look (needed_name_allowed map (str + v));
            _ ← fail_if (negb ok) BLYT_CART_ERR_BAD_NEEDED;
            lua ← look (strcmp_at map (str + v) (text "libblyt32lua.so"));
            needed_loop k (p + entsize) entsize dynstr dynstr_size (lua || has_lua)
        end
  end.

Definition check_needed (shdrs : list Elf32_Shdr) (st : cart_sections) : checked bool :=
  match sect_dynamic st with
  | None => Accept false
  | Some dyn =>
      _ ← fail_if (sh_entsize dyn <? sizeof_Dyn) BLYT_CART_ERR_BAD_SHDR;
      let dyn_count := Z.to_nat (sh_size dyn / sh_entsize dyn) in
      '(dynstr, dynstr_size) ← look (dyn_strtab dyn_count (sh_offset dyn) (sh_entsize dyn) shdrs None 0);
      needed_loop dyn_count (sh_offset dyn) (sh_entsize dyn) dynstr dynstr_size false
  end.

(** ** Imports *)

Definition lua_api_name (name : Z) : option bool :=
  b ← strncmp_at map name (text "lua_"); if b : bool then Some true else strncmp_at map name (text "luaL_").

(** The string table of the symbols: offset and size, if any. *)
Definition symbol_strings (eh : Elf32_Ehdr) (shdrs : list Elf32_Shdr) (st : cart_sections) (dynsym : Elf32_Shdr) : option (Z * Z) :=
  match sect_dynstr_sh st with
  | Some s => Some (sh_offset s, sh_size s)
  | None => if sh_link dynsym <? e_shnum eh then (fun s => (sh_offset s, sh_size s)) <$> zget shdrs (sh_link dynsym) else None
  end.

Fixpoint import_loop (k : nat) (p entsize : Z) (symstr : option (Z * Z)) (has_lua : bool) : checked unit :=
  match k with
  | O => Accept tt
  | S k =>
      info ← look (st_info map p);
      if negb (ELF32_ST_BIND info =? STB_GLOBAL) then import_loop k (p + entsize) entsize symstr has_lua
      else
        shndx ← look (st_shndx map p);
        if negb (shndx =? SHN_UNDEF) then import_loop k (p + entsize) entsize symstr has_lua
        else
          match symstr with
          | None => Reject BLYT_CART_ERR_BAD_IMPORT
          | Some (str, size) =>
              name ← look (st_name map p);
              _ ← fail_if (name >=? size) BLYT_CART_ERR_BAD_IMPORT;
              lua ← (if has_lua then look (lua_api_name (str + name)) else Accept false);
              ok ← (if lua : bool then Accept true else look (symbol_name_allowed map (str + name)));
              _ ← fail_if (negb ok) BLYT_CART_ERR_BAD_IMPORT;
              import_loop k (p + entsize) entsize symstr has_lua
          end
  end.

Definition check_imports (eh : Elf32_Ehdr) (shdrs : list Elf32_Shdr) (st : cart_sections) (has_lua : bool) : checked unit :=
  match sect_dynsym st with
  | None => Accept tt
  | Some dynsym =>
      _ ← fail_if (sh_entsize dynsym <? sizeof_Sym) BLYT_CART_ERR_BAD_SHDR;
      import_loop (Z.to_nat (sh_size dynsym / sh_entsize dynsym)) (sh_offset dynsym) (sh_entsize dynsym)
        (symbol_strings eh shdrs st dynsym) has_lua
  end.

(** ** Manifests *)

(** The FlatBuffers buffer of a section, copied out; [err_io] when there is no memory. *)
Definition section_buffer (n : nat) (sh : Elf32_Shdr) (tag : list Z) : checked (list Z) :=
  pre ← look (check_preamble map (sh_offset sh) (sh_size sh) tag);
  match pre with
  | None => Reject BLYT_CART_ERR_BAD_PREAMBLE
  | Some (p, size) =>
      _ ← fail_if (negb (malloc_ok n size)) BLYT_CART_ERR_IO;
      look (rd map p size)
  end.

Definition strdup (n : nat) (s : list Z) : option (list Z) := if malloc_ok n (len s + 1) then Some s else None.

(** The debug flag, the id, the title and the version. *)
Definition check_info (st : cart_sections) : checked (bool * list Z * list Z * list Z) :=
  match sect_cart_info st with
  | None => Reject BLYT_CART_ERR_NO_CART_INFO
  | Some sh =>
      buf ← section_buffer 0 sh CART_INFO_TAG;
      _ ← look (rd buf 0 4);   (** the root offset: [blyt_CartInfo_as_root] runs whatever the verifier said *)
      _ ← fail_if (negb (CartInfo_verify fb buf)) BLYT_CART_ERR_BAD_CART_INFO;
      match CartInfo_as_root fb buf with
      | None => Reject BLYT_CART_ERR_BAD_CART_INFO
      | Some info =>
          let id := info_id info ≫= strdup 3 in
          let title := info_title info ≫= strdup 4 in
          let version := info_version info ≫= strdup 5 in
          _ ← fail_if (negb (api_version_major info =? BLYT_API_VERSION_MAJOR)) BLYT_CART_ERR_API_VERSION;
          _ ← fail_if (negb (cart_id_valid id)) BLYT_CART_ERR_BAD_ID;
          _ ← fail_if (negb (cart_text_valid title)) BLYT_CART_ERR_BAD_TITLE;
          _ ← fail_if (negb (cart_text_valid version)) BLYT_CART_ERR_BAD_VERSION;
          Accept (info_debug info, default [] id, default [] title, default [] version)
      end
  end.

(** [save_version] and [default_palette]. *)
Definition check_config (st : cart_sections) : checked (Z * Z) :=
  match sect_cart_config st with
  | None => Accept (0, 0)
  | Some sh =>
      buf ← section_buffer 1 sh CART_CONFIG_TAG;
      _ ← fail_if (negb (CartConfig_verify fb buf)) BLYT_CART_ERR_BAD_CART_CONFIG;
      Accept (default (0, 0) (CartConfig_as_root fb buf))
  end.

Definition check_layouts (st : cart_sections) : checked unit :=
  match sect_cart_layouts st with
  | None => Accept tt
  | Some sh =>
      buf ← section_buffer 2 sh CART_LAYOUTS_TAG;
      fail_if (negb (CartLayouts_verify fb buf)) BLYT_CART_ERR_BAD_LAYOUTS
  end.

(** ** Entry points *)

(** Whether a symbol from [p] on defines [entry]. *)
Fixpoint entry_loop (k : nat) (p entsize symstr symstr_size : Z) (entry : list Z) : option bool :=
  match k with
  | O => Some false
  | S k =>
      info ← st_info map p;
      if negb (ELF32_ST_BIND info =? STB_GLOBAL) then entry_loop k (p + entsize) entsize symstr symstr_size entry
      else
        shndx ← st_shndx map p;
        if shndx =? SHN_UNDEF then entry_loop k (p + entsize) entsize symstr symstr_size entry
        else
          name ← st_name map p;
          if name >=? symstr_size then entry_loop k (p + entsize) entsize symstr symstr_size entry
          else
            b ← strcmp_at map (symstr + name) entry;
            if b : bool then Some true else entry_loop k (p + entsize) entsize symstr symstr_size entry
  end.

Fixpoint entries_loop (dynsym dynstr : Elf32_Shdr) (entries : list (list Z)) : checked unit :=
  match entries with
  | [] => Accept tt
  | entry :: entries =>
      found ← look (entry_loop (Z.to_nat (sh_size dynsym / sh_entsize dynsym)) (sh_offset dynsym) (sh_entsize dynsym)
                      (sh_offset dynstr) (sh_size dynstr) entry);
      _ ← fail_if (negb found) BLYT_CART_ERR_MISSING_ENTRY;
      entries_loop dynsym dynstr entries
  end.

Definition check_entries (st : cart_sections) (has_lua : bool) : checked unit :=
  if bool_decide (is_Some (sect_cart_lua st)) && has_lua then Accept tt
  else
    match sect_dynsym st, sect_dynstr_sh st with
    | Some dynsym, Some dynstr => entries_loop dynsym dynstr REQUIRED_ENTRY_POINTS
    | _, _ => Accept tt
    end.

(** ** Opening a cart *)

Record blyt_cart_t := MkCart {
  cart_map : list Z; cart_path : list Z; cart_is_debug : bool; cart_has_dwarf : bool; cart_save_version : Z; cart_default_palette : Z;
  cart_id : list Z; cart_title : list Z; cart_version : list Z }.

Definition sizeof_cart : Z := 72.

(** The checks on the mapped file, and the cart. *)
Definition open_map (path : list Z) : checked blyt_cart_t :=
  eh ← look (rd_ehdr map);
  _ ← check_ident eh;
  _ ← check_segments eh;
  '(shdrs, shstrtab, shstrtab_size) ← check_shdrs eh;
  st ← section_walk shstrtab shstrtab_size shdrs no_sections;
  has_lua ← check_needed shdrs st;
  _ ← check_imports eh shdrs st has_lua;
  '(debug, id, title, version) ← check_info st;
  '(save_version, default_palette) ← check_config st;
  _ ← check_layouts st;
  _ ← check_entries st has_lua;
  _ ← fail_if (negb (malloc_ok 6 sizeof_cart)) BLYT_CART_ERR_IO;
  match strdup 7 path with
  | None => Reject BLYT_CART_ERR_IO
  | Some path => Accept (MkCart map path debug (sect_dwarf st) save_version default_palette id title version)
  end.
End open.

(** [file] is what [open] and [fstat] find under the path, [None] on an error; [map_ok] tells whether
    [mmap] succeeds. *)
Definition blyt_cart_open (fb : flatcc) (malloc_ok : nat -> Z -> bool) (file : option (list Z)) (map_ok : bool) (path : list Z)
    : checked blyt_cart_t :=
  match file with
  | None => Reject BLYT_CART_ERR_IO
  | Some bytes =>
      _ ← fail_if (len bytes <? sizeof_Ehdr) BLYT_CART_ERR_TOO_SMALL;
      _ ← fail_if (negb map_ok) BLYT_CART_ERR_IO;
      open_map fb malloc_ok bytes path
  end.

(** ** Queries on an open cart; [None] for a cart is the null pointer *)

(** The offset and the size of the section. *)
Definition blyt_cart_find_section (cart : blyt_cart_t) (name : list Z) : option (option (Z * Z)) :=
  blyt_elf32_find_section (Some (cart_map cart)) (Some name).

Definition blyt_cart_is_debug (cart : option blyt_cart_t) : bool := match cart with Some c => cart_is_debug c | None => false end.
Definition blyt_cart_has_dwarf (cart : option blyt_cart_t) : bool := match cart with Some c => cart_has_dwarf c | None => false end.
Definition blyt_cart_id (cart : option blyt_cart_t) : option (list Z) := cart_id <$> cart.
Definition blyt_cart_title (cart : option blyt_cart_t) : option (list Z) := cart_title <$> cart.
Definition blyt_cart_version (cart : option blyt_cart_t) : option (list Z) := cart_version <$> cart.
Definition blyt_cart_save_version (cart : option blyt_cart_t) : Z := match cart with Some c => cart_save_version c | None => 0 end.
Definition blyt_cart_default_palette (cart : option blyt_cart_t) : Z :=
  match cart with Some c => cart_default_palette c | None => 0 end.

Definition blyt_cart_has_layouts (cart : blyt_cart_t) : option bool :=
  r ← blyt_cart_find_section cart (text ".cart.layouts" ++ [0]); Some (bool_decide (is_Some r)).

(** The walk to the first [SHT_DYNSYM] section, from section [i] on: the offsets of its strings and of
    its symbols and their number. *)
Fixpoint first_dynsym (k : nat) (i : Z) (map : list Z) (eh : Elf32_Ehdr) : option (option (Z * Z * Z)) :=
  match k with
  | O => Some None
  | S k =>
      sh ← rd_shdr map (e_shoff eh + i * sizeof_Shdr);
      if negb (sh_type sh =? SHT_DYNSYM) then first_dynsym k (i + 1) map eh
      else if sh_link sh >=? e_shnum eh then Some None
      else
        link ← rd_shdr map (e_shoff eh + sh_link sh * sizeof_Shdr);
        Some (Some (sh_offset link, sh_offset sh, sh_size sh / sizeof_Sym))
  end.

(** The body [f] of the loop over the symbols, on the offset of each symbol. *)
Fixpoint sym_loop {A} (f : Z -> A -> option (A + A)) (k : nat) (p : Z) (acc : A) : option A :=
  match k with
  | O => Some acc
  | S k => r ← f p acc; match r with inl acc => Some acc | inr acc => sym_loop f k (p + sizeof_Sym) acc end
  end.

(** The loop over the symbols of an image; [f] gets the strings' offset. *)
Definition dynsyms {A} (cart : option blyt_cart_t) (f : list Z -> Z -> Z -> A -> option (A + A)) (acc : A) : option A :=
  match cart with
  | None => Some acc
  | Some c =>
      eh ← rd_ehdr (cart_map c);
      tab ← first_dynsym (Z.to_nat (e_shnum eh)) 0 (cart_map c) eh;
      match tab with
      | None => Some acc
      | Some (strtab, syms, nsyms) => sym_loop (f (cart_map c) strtab) (Z.to_nat nsyms) syms acc
      end
  end.

Definition native_lifecycle_names : list (list Z) :=
  text <$> ["blyt_cart_init"; "blyt_cart_on_new_state"; "blyt_cart_update"; "blyt_cart_draw"; "blyt_cart_on_quit";
            "blyt_cart_cleanup"]%string.

Definition lifecycle_sym (map : list Z) (strtab p : Z) (acc : bool) : option (bool + bool) :=
  shndx ← st_shndx map p;
  if shndx =? SHN_UNDEF then Some (inr acc)
  else
    info ← st_info map p;
    if ELF32_ST_BIND info =? STB_LOCAL then Some (inr acc)
    else
      name ← st_name map p;
      b ← any_name map (strtab + name) native_lifecycle_names;
      Some (if b : bool then inl true else inr acc).
Definition blyt_cart_has_native_lifecycle (cart : option blyt_cart_t) : option bool := dynsyms cart lifecycle_sym false.

Definition bootstrap : list (list Z) := text <$> ["_blyt_entry"; "cart_lua_modules"]%string.

Definition code_sym (map : list Z) (strtab p : Z) (acc : bool) : option (bool + bool) :=
  shndx ← st_shndx map p;
  if shndx =? SHN_UNDEF then Some (inr acc)
  else
    info ← st_info map p;
    if negb (ELF32_ST_TYPE info =? STT_FUNC) then Some (inr acc)
    else if ELF32_ST_BIND info =? STB_LOCAL then Some (inr acc)
    else
      name ← st_name map p;
      is_bootstrap ← any_name map (strtab + name) bootstrap;
      Some (if is_bootstrap : bool then inr acc else inl true).
Definition blyt_cart_has_native_code (cart : option blyt_cart_t) : option bool := dynsyms cart code_sym false.

(** The names of the callbacks; the bit of a callback is its place. *)
Definition lifecycle_map : list (list Z) :=
  text <$> ["blyt_cart_init"; "blyt_cart_update"; "blyt_cart_draw"; "blyt_cart_on_new_state"; "blyt_cart_on_save_state";
            "blyt_cart_on_load_state"; "blyt_cart_on_quit"; "blyt_cart_cleanup"; "blyt_cart_on_assets_reloaded"]%string.

(** The bits of the name at [name], from bit [k] on. *)
Fixpoint name_bits (map : list Z) (name : Z) (names : list (list Z)) (k mask : Z) : option Z :=
  match names with
  | [] => Some mask
  | n :: names =>
      b ← strcmp_at map name n;
      name_bits map name names (k + 1) (if b : bool then Z.lor mask (Z.shiftl 1 k) else mask)
  end.

Definition mask_sym (map : list Z) (strtab p : Z) (mask : Z) : option (Z + Z) :=
  shndx ← st_shndx map p;
  if shndx =? SHN_UNDEF then Some (inr mask)
  else
    info ← st_info map p;
    if ELF32_ST_BIND info =? STB_LOCAL then Some (inr mask)
    else
      name ← st_name map p;
      mask ← name_bits map (strtab + name) lifecycle_map 0 mask;
      Some (inr mask).
Definition blyt_cart_native_lifecycle_mask (cart : option blyt_cart_t) : option Z := dynsyms cart mask_sym 0.

Definition blyt_cart_err_str (err : blyt_cart_err_t) : string :=
  (match err with
   | BLYT_CART_OK => "ok"
   | BLYT_CART_ERR_IO => "I/O error"
   | BLYT_CART_ERR_TOO_SMALL => "file too small"
   | BLYT_CART_ERR_NOT_ELF => "not an ELF file"
   | BLYT_CART_ERR_BAD_CLASS => "not a 32-bit ELF"
   | BLYT_CART_ERR_BAD_ENDIAN => "not little-endian"
   | BLYT_CART_ERR_BAD_OSABI => "EI_OSABI must be ELFOSABI_NONE"
   | BLYT_CART_ERR_BAD_MACHINE => "not a RISC-V ELF"
   | BLYT_CART_ERR_BAD_FLAGS => "e_flags: expected RV32IMAFDC ILP32D"
   | BLYT_CART_ERR_BAD_SHDR => "section header table malformed"
   | BLYT_CART_ERR_DENIED_SECT => "denied ELF section"
   | BLYT_CART_ERR_BAD_NEEDED => "DT_NEEDED: library not on allowlist"
   | BLYT_CART_ERR_NO_CART_INFO => ".cart.info section missing"
   | BLYT_CART_ERR_BAD_PREAMBLE => "section preamble invalid"
   | BLYT_CART_ERR_BAD_CART_INFO => ".cart.info: FlatBuffers parse error"
   | BLYT_CART_ERR_BAD_CART_CONFIG => ".cart.config: FlatBuffers parse error"
   | BLYT_CART_ERR_API_VERSION => "api_version not supported"
   | BLYT_CART_ERR_BAD_SEGMENT => "segment layout violation"
   | BLYT_CART_ERR_BAD_INTERP => "PT_INTERP must be /lib/ld-blyt.so.1"
   | BLYT_CART_ERR_NO_RELRO => "PT_GNU_RELRO required but absent"
   | BLYT_CART_ERR_BAD_OPCODE => "ecall or ebreak in executable segment"
   | BLYT_CART_ERR_BAD_IMPORT => "imported symbol not on allowlist"
   | BLYT_CART_ERR_MISSING_ENTRY => "required cart entry point missing (blyt_cart_init/update/draw)"
   | BLYT_CART_ERR_BAD_LAYOUTS => ".cart.layouts FlatBuffers parse error"
   | BLYT_CART_ERR_BAD_ID =>
       ".cart.info: cart id missing or invalid (1-63 chars [a-z0-9_-], alphanumeric first; rebuild with current blyt)"
   | BLYT_CART_ERR_BAD_TITLE => ".cart.info: cart title missing or invalid (rebuild with current blyt)"
   | BLYT_CART_ERR_BAD_VERSION => ".cart.info: cart version missing or invalid (rebuild with current blyt)"
   end)%string.
