(* ===== verification/CartLoadSpec.v ===== *)
(** * CartLoadSpec: what the checks of [CartLoad] mean

    The policy a cart must meet, in terms of its segments, sections and symbols, and one lemma
    per check: what follows when it accepts, and when it stays inside the image. *)

From S2P Require Import Prelude ElfSection Elf32 CartLoad.
From Stdlib Require Import ZArith Lia Strings.String.
From stdpp Require Import base tactics list.
Open Scope Z_scope.

(** ** Checks *)

Lemma look_accept {A} (o : option A) a : look o = Accept a -> o = Some a.
Proof. destruct o; cbn; congruence. Qed.

Lemma fail_if_accept b err u : fail_if b err = Accept u -> b = false.
Proof. by destruct b. Qed.

Lemma bind_accept {A B} (c : checked A) (f : A -> checked B) b :
  c ≫= f = Accept b -> exists a, c = Accept a /\ f a = Accept b.
Proof. destruct c; cbn; try done. eauto. Qed.

(** Takes an accepting sequence of checks apart. *)
Ltac accepted H :=
  repeat first
    [ match type of H with
      | (fail_if _ _ ≫= _) = Accept _ =>
          let u := fresh "u" in let E := fresh "E" in
          apply bind_accept in H as (u & E%fail_if_accept & H); clear u
      | (look _ ≫= _) = Accept _ =>
          let a := fresh "a" in let E := fresh "E" in apply bind_accept in H as (a & E%look_accept & H)
      | (_ ≫= _) = Accept _ => let a := fresh "a" in let E := fresh "E" in apply bind_accept in H as (a & E & H)
      | fail_if _ _ = Accept _ => apply fail_if_accept in H
      | Accept _ = Accept _ => injection H as H
      end
    | progress cbv beta zeta in H ].

(** A check that reads nothing outside of the image. *)
Definition tame {A} (c : checked A) : Prop := c <> Wild.

Lemma tame_accept {A} (a : A) : tame (Accept a).
Proof. done. Qed.
Lemma tame_reject {A} err : tame (Reject (A:=A) err).
Proof. done. Qed.
Lemma tame_fail_if b err : tame (fail_if b err).
Proof. by destruct b. Qed.
Lemma tame_look {A} (o : option A) : is_Some o -> tame (look o).
Proof. by intros [a ->]. Qed.
Lemma tame_bind {A B} (c : checked A) (f : A -> checked B) :
  tame c -> (forall a, c = Accept a -> tame (f a)) -> tame (c ≫= f).
Proof. intros Hc Hf. destruct c; cbn; try done. by apply Hf. Qed.

Create HintDb tame.
#[export] Hint Resolve tame_accept tame_reject tame_fail_if : tame.

(** Goes through a sequence of checks. *)
Ltac tame_step :=
  match goal with
  | |- tame (fail_if _ _ ≫= _) =>
      let u := fresh "u" in let E := fresh "E" in apply tame_bind; [apply tame_fail_if|intros u E%fail_if_accept; clear u]
  | |- tame (look _ ≫= _) => let E := fresh "E" in apply tame_bind; [apply tame_look|intros ? E%look_accept]
  end.

(** ** Strings *)

(** The string at [off]. *)
Definition str_of (map : list Z) (off : Z) : option (list Z) := cstr (drop (Z.to_nat off) map).

(** What is left of the image from [off] on has the bytes [s] first. *)
Definition starts (map : list Z) (off : Z) (s : list Z) : Prop := s `prefix_of` drop (Z.to_nat off) map.

Lemma str_at_starts map off s b : 0 <= off -> str_at map off s = Some b -> b = true <-> starts map off s.
Proof.
  revert off; induction s as [|c s IH]; intros off Ho; cbn [str_at].
  - intros [= <-]. split; [intros _; apply prefix_nil|done].
  - destruct (zget map off) as [d|] eqn:E; cbn [mbind option_bind]; [|done].
    unfold starts in *. rewrite (drop_zget _ _ _ E). destruct (Z.eqb_spec d c) as [->|N].
    + intros H. rewrite (IH (off + 1)) by (lia || done). split; [apply prefix_cons|apply prefix_cons_inv_2].
    + intros [= <-]. split; [done|]. intros Hp%prefix_cons_inv_1. congruence.
Qed.

Lemma prefix_cstr s l : no_nul s -> s ++ [0] `prefix_of` l <-> cstr l = Some s.
Proof.
  intros Hs. revert l; induction Hs as [|c s Hc Hs IH]; intros [|d l]; cbn [app cstr].
  - split; [by intros ?%prefix_nil_not|done].
  - destruct (Z.eqb_spec d 0) as [->|N].
    + split; [done|]. intros _. apply prefix_cons, prefix_nil.
    + split; [intros ?%prefix_cons_inv_1; congruence|]. destruct (cstr l); cbn; congruence.
  - split; [by intros ?%prefix_nil_not|done].
  - destruct (Z.eqb_spec d 0) as [->|N].
    + split; [intros ?%prefix_cons_inv_1; congruence|congruence].
    + split.
      * intros Hp. pose proof (prefix_cons_inv_1 _ _ _ _ Hp) as ->. apply prefix_cons_inv_2, IH in Hp as ->. done.
      * intros H. destruct (cstr l) as [t|] eqn:E; cbn in H; [|done]. simplify_eq. by apply prefix_cons, IH.
Qed.

Lemma strcmp_at_spec map off s b :
  0 <= off -> no_nul s -> strcmp_at map off s = Some b -> b = true <-> str_of map off = Some s.
Proof. intros Ho Hs H. rewrite (str_at_starts _ _ _ _ Ho H). by apply prefix_cstr. Qed.

Lemma any_name_spec map off names b :
  0 <= off -> Forall no_nul names -> any_name map off names = Some b ->
  b = true <-> exists n, n ∈ names /\ str_of map off = Some n.
Proof.
  intros Ho Hn. revert b; induction Hn as [|n names Hn _ IH]; intros b; cbn [any_name].
  - intros [= <-]. split; [done|]. by intros (n & ?%elem_of_nil & _).
  - destruct (strcmp_at map off n) as [x|] eqn:E; cbn [mbind option_bind]; [|done].
    apply strcmp_at_spec in E; [|done..]. destruct x.
    + intros [= <-]. split; [|done]. intros _. exists n. split; [left|by apply E].
    + intros H. rewrite (IH _ H). split; intros (m & Hm & Hs).
      * exists m. split; [by right|done].
      * apply elem_of_cons in Hm as [->|Hm]; [by apply E in Hs|eauto].
Qed.

(** A string that ends in the image can be compared. *)
Lemma str_at_total map off s :
  0 <= off -> no_nul s -> 0 ∈ drop (Z.to_nat off) map -> is_Some (strcmp_at map off s) /\ is_Some (strncmp_at map off s).
Proof.
  unfold strcmp_at, strncmp_at. intros Ho Hs. revert off Ho; induction Hs as [|c s Hc Hs IH]; intros off Ho Hz; cbn [app str_at].
  - destruct (zget map off) as [d|] eqn:E; cbn [mbind option_bind].
    + split; [case_match; by eexists|by eexists].
    + exfalso. rewrite drop_all_Z in Hz by (apply Z.nlt_ge; intros ?; destruct (zget_is_Some map off); [lia|congruence]).
      by apply elem_of_nil in Hz.
  - destruct (zget map off) as [d|] eqn:E; cbn [mbind option_bind].
    + destruct (Z.eqb_spec d c) as [->|N]; [|by split; eexists]. apply IH; [lia|].
      rewrite (drop_zget _ _ _ E) in Hz. apply elem_of_cons in Hz as [|Hz]; [congruence|done].
    + exfalso. rewrite drop_all_Z in Hz by (apply Z.nlt_ge; intros ?; destruct (zget_is_Some map off); [lia|congruence]).
      by apply elem_of_nil in Hz.
Qed.

Lemma strcmp_total map off s :
  0 <= off -> no_nul s -> 0 ∈ drop (Z.to_nat off) map -> is_Some (strcmp_at map off s).
Proof. intros. by destruct (str_at_total map off s). Qed.
Lemma strncmp_total map off s :
  0 <= off -> no_nul s -> 0 ∈ drop (Z.to_nat off) map -> is_Some (strncmp_at map off s).
Proof. intros. by destruct (str_at_total map off s). Qed.

Lemma any_name_total map off names :
  0 <= off -> Forall no_nul names -> 0 ∈ drop (Z.to_nat off) map -> is_Some (any_name map off names).
Proof.
  intros Ho Hn Hz. induction Hn as [|n names Hn _ IH]; cbn [any_name]; [by eexists|].
  destruct (str_at_total map off n) as [[b ->] _]; [done..|]. cbn [mbind option_bind]. destruct b; [by eexists|done].
Qed.

Lemma names_no_nul names : forallb (forallb (fun c => negb (c =? 0))) names = true -> Forall no_nul names.
Proof.
  intros H. apply Forall_forall. intros n Hn. apply Forall_forall. intros c Hc.
  rewrite forallb_forall in H. apply list_elem_of_In in Hn, Hc. specialize (H _ Hn). rewrite forallb_forall in H.
  specialize (H _ Hc). cbv beta in H. lia.
Qed.

Lemma DENIED_no_nul : Forall no_nul DENIED_SECTIONS.
Proof. apply names_no_nul. vm_compute. reflexivity. Qed.
Lemma NEEDED_no_nul : Forall no_nul NEEDED_ALLOWLIST.
Proof. apply names_no_nul. vm_compute. reflexivity. Qed.
Lemma SYMBOL_no_nul : Forall no_nul SYMBOL_ALLOWLIST.
Proof. apply names_no_nul. vm_compute. reflexivity. Qed.
Lemma ENTRY_no_nul : Forall no_nul REQUIRED_ENTRY_POINTS.
Proof. apply names_no_nul. vm_compute. reflexivity. Qed.
Lemma lifecycle_no_nul : Forall no_nul lifecycle_map.
Proof. apply names_no_nul. vm_compute. reflexivity. Qed.
#[export] Hint Resolve DENIED_no_nul NEEDED_no_nul SYMBOL_no_nul ENTRY_no_nul lifecycle_no_nul : blyt.

(** The image ends with a NUL: every string in it does too. *)
Definition ends_nul (map : list Z) : Prop := zget map (len map - 1) = Some 0.

Lemma ends_nul_drop map off : ends_nul map -> 0 <= off < len map -> 0 ∈ drop (Z.to_nat off) map.
Proof.
  intros (Hl & Hz)%zget_Some Ho. apply list_elem_of_lookup. exists (Z.to_nat (len map - 1 - off)).
  rewrite lookup_drop. by replace (Z.to_nat off + Z.to_nat (len map - 1 - off))%nat with (Z.to_nat (len map - 1)) by lia.
Qed.

Lemma memcmp_at_spec map off s b :
  memcmp_at map off s = Some b -> 0 <= off /\ off + len s <= len map /\ (b = true <-> sub map off (len s) = s).
Proof.
  unfold memcmp_at. destruct (rd map off (len s)) as [bs|] eqn:E; cbn [mbind option_bind]; [|done].
  apply rd_inv in E. intros [= <-]. rewrite bool_decide_eq_true. naive_solver.
Qed.

Lemma memcmp_at_total map off s : 0 <= off -> off + len s <= len map -> is_Some (memcmp_at map off s).
Proof. intros. unfold memcmp_at. rewrite rd_Some by (lia || apply len_nonneg). by eexists. Qed.

(** ** Segments *)

Definition executable (ph : Elf32_Phdr) : Prop := Z.testbit (p_flags ph) 0 = true.
Definition writable (ph : Elf32_Phdr) : Prop := Z.testbit (p_flags ph) 1 = true.
Definition is_load (ph : Elf32_Phdr) : Prop := p_type ph = PT_LOAD.
#[export] Instance is_load_dec ph : Decision (is_load ph) := decide (p_type ph = PT_LOAD).

(** No address lies in both ranges. *)
Definition disjoint_ranges (a alen b blen : Z) : Prop := forall x, ~ (a <= x < a + alen /\ b <= x < b + blen).
Definition apart (a b : Elf32_Phdr) : Prop :=
  disjoint_ranges (p_offset a) (p_filesz a) (p_offset b) (p_filesz b)
  /\ disjoint_ranges (p_vaddr a) (p_memsz a) (p_vaddr b) (p_memsz b).

(** The segment holds no system call and no breakpoint at an even offset. *)
Definition no_traps (map : list Z) (ph : Elf32_Phdr) : Prop :=
  forall j, 0 <= j -> 2 * j + 4 <= p_filesz ph ->
    sub map (p_offset ph + 2 * j) 4 <> ECALL /\ sub map (p_offset ph + 2 * j) 4 <> EBREAK.

Definition holds_entry (entry : Z) (ph : Elf32_Phdr) : Prop :=
  is_load ph /\ executable ph /\ p_vaddr ph <= entry < p_vaddr ph + p_filesz ph.

Record phdr_ok (map : list Z) (ph : Elf32_Phdr) : Prop := {
  ph_interp : p_type ph = PT_INTERP ->
    p_offset ph + p_filesz ph <= len map /\ sub map (p_offset ph) (p_filesz ph) = BLYT_INTERP_PATH ++ [0];
  ph_stack : p_type ph = PT_GNU_STACK -> ~ executable ph;
  ph_wx : is_load ph -> ~ (writable ph /\ executable ph);
  ph_file : is_load ph -> p_offset ph + p_filesz ph <= len map }.

(** The policy on the program headers [phs]. *)
Record segments_ok (map : list Z) (entry : Z) (phs : list Elf32_Phdr) : Prop := {
  seg_each : Forall (phdr_ok map) phs;
  seg_interp : Exists (fun ph => p_type ph = PT_INTERP) phs;
  seg_relro : Exists (fun ph => p_type ph = PT_GNU_RELRO) phs;
  seg_entry : entry = 0 \/ Exists (holds_entry entry) phs;
  seg_apart : ForallOrdPairs apart (take MAX_LOAD (filter is_load phs));
  seg_traps : Forall (fun ph => executable ph -> no_traps map ph) (take MAX_LOAD (filter is_load phs)) }.

Lemma is_exec_spec ph : is_exec ph = true <-> executable ph.
Proof.
  unfold is_exec, executable, PF_X. rewrite (land_ones_mod _ 1 1) by lia. pose proof (Z.bit0_mod (p_flags ph)).
  change (2 ^ 1) with 2. destruct (Z.testbit _ _); cbn [Z.b2z] in *; lia.
Qed.

Lemma wx_flags ph : writable ph -> executable ph -> Z.land (p_flags ph) (Z.lor PF_W PF_X) = Z.lor PF_W PF_X.
Proof.
  unfold writable, executable. change (Z.lor PF_W PF_X) with 3. intros Hw Hx. apply Z.bits_inj'. intros n Hn. rewrite Z.land_spec.
  destruct (decide (n = 0)) as [->|]; [by rewrite Hx|]. destruct (decide (n = 1)) as [->|]; [by rewrite Hw|].
  rewrite (Z.bits_above_log2 3 n), andb_false_r by (lia || (change (Z.log2 3) with 1; lia)). done.
Qed.

Lemma ranges_overlap_spec a alen b blen : ranges_overlap a alen b blen = false -> disjoint_ranges a alen b blen.
Proof. unfold ranges_overlap, disjoint_ranges. intros H x ?. destruct ((alen =? 0) || (blen =? 0)) eqn:E; lia. Qed.

Lemma any_overlap_apart ls : any_overlap ls = false -> ForallOrdPairs apart ls.
Proof.
  induction ls as [|a ls IH]; cbn [any_overlap]; [constructor|]. intros [Ha Hls]%orb_false_iff. constructor; [|by apply IH].
  apply Forall_forall. intros b Hb. assert (clash a b = false) as Hc.
  { apply not_true_iff_false. intros Hc. apply not_true_iff_false in Ha. apply Ha, existsb_exists. exists b.
    split; [by apply list_elem_of_In|done]. }
  unfold clash in Hc. apply orb_false_iff in Hc as [H1 H2]. split; by apply ranges_overlap_spec.
Qed.

Section checks.
Context (fb : flatcc) (malloc_ok : nat -> Z -> bool) (map : list Z).

Lemma opcode_loop_spec k seg size off :
  size - off < 2 * Z.of_nat k + 4 -> opcode_loop map k seg size off = Some false ->
  forall j, 0 <= j -> off + 2 * j + 4 <= size -> sub map (seg + off + 2 * j) 4 <> ECALL /\ sub map (seg + off + 2 * j) 4 <> EBREAK.
Proof.
  revert off; induction k as [|k IH]; intros off Hk; cbn [opcode_loop]; [lia|].
  cond E; [|lia]. destruct (memcmp_at _ _ ECALL) as [a|] eqn:Ea; cbn [mbind option_bind]; [|done].
  destruct a; [done|]. destruct (memcmp_at _ _ EBREAK) as [b|] eqn:Eb; cbn [mbind option_bind]; [|done].
  destruct b; [done|]. intros H j Hj Hs.
  apply memcmp_at_spec in Ea as (_ & _ & Ha), Eb as (_ & _ & Hb).
  destruct (decide (j = 0)) as [->|].
  - rewrite Z.mul_0_r, Z.add_0_r. split; intros Hx; [by apply Ha in Hx|by apply Hb in Hx].
  - specialize (IH (off + 2) ltac:(lia) H (j - 1) ltac:(lia) ltac:(lia)).
    by replace (seg + (off + 2) + 2 * (j - 1)) with (seg + off + 2 * j) in IH by lia.
Qed.

Lemma opcode_loop_total k seg size off :
  0 <= seg -> 0 <= off -> seg + size <= len map -> is_Some (opcode_loop map k seg size off).
Proof.
  revert off; induction k as [|k IH]; intros off Hs Ho Hl; cbn [opcode_loop]; [by eexists|].
  cond E; [|by eexists]. destruct (memcmp_at_total map (seg + off) ECALL) as [a ->]; [lia|change (len ECALL) with 4; lia|]. cbn [mbind option_bind].
  destruct a; cbn [mbind option_bind]; [by eexists|].
  destruct (memcmp_at_total map (seg + off) EBREAK) as [b ->]; [lia|change (len EBREAK) with 4; lia|]. cbn [mbind option_bind].
  destruct b; [by eexists|]. apply IH; lia.
Qed.

Lemma opcode_scan_spec ls u :
  opcode_scan map ls = Accept u -> Forall (fun ph => executable ph -> no_traps map ph) ls.
Proof.
  revert u; induction ls as [|ph ls IH]; intros u; cbn [opcode_scan]; [constructor|].
  destruct (is_exec ph) eqn:Ex; cbn [negb].
  - cond Es.
    + intros H. constructor; [|by eapply IH]. intros _ j Hj ?. lia.
    + intros H. accepted H. subst. constructor; [|by eapply IH]. intros _ j Hj Hs.
      assert (p_filesz ph - 0 < 2 * Z.of_nat (opcode_fuel (p_filesz ph)) + 4) as Hk
        by (unfold opcode_fuel; Z.div_mod_to_equations; lia).
      pose proof (opcode_loop_spec _ _ _ _ Hk E j Hj ltac:(lia)) as Hn. by rewrite Z.add_0_r in Hn.
  - intros H. constructor; [|by eapply IH]. intros Hx%is_exec_spec. congruence.
Qed.

Lemma check_interp_spec ph u :
  check_interp map ph = Accept u -> p_offset ph + p_filesz ph <= len map /\ sub map (p_offset ph) (p_filesz ph) = BLYT_INTERP_PATH ++ [0].
Proof.
  unfold check_interp, u32_add_le. cond E1; [done|]. cond E2; [done|]. intros H. accepted H. apply memcmp_at_spec in E as (_ & _ & E).
  assert (p_filesz ph = len (BLYT_INTERP_PATH ++ [0])) as -> by lia. split; [lia|]. apply E. by destruct a.
Qed.

(** What one header adds to the scan. *)
Lemma phdr_step_spec eh ph st st' :
  0 <= p_vaddr ph -> 0 <= p_filesz ph ->
  phdr_step map eh ph st = Accept st' ->
  phdr_ok map ph
  /\ (has_interp st' = true <-> has_interp st = true \/ p_type ph = PT_INTERP)
  /\ (has_relro st' = true <-> has_relro st = true \/ p_type ph = PT_GNU_RELRO)
  /\ (entry_ok st' = true -> entry_ok st = true \/ holds_entry (e_entry eh) ph)
  /\ loads st' = if decide (is_load ph) then if (length (loads st) <? MAX_LOAD)%nat then loads st ++ [ph] else loads st else loads st.
Proof.
  intros Hv Hf. unfold phdr_step, holds_entry. intros H. apply bind_accept in H as (u & Hi & H).
  assert (p_type ph = PT_INTERP -> p_offset ph + p_filesz ph <= len map
          /\ sub map (p_offset ph) (p_filesz ph) = BLYT_INTERP_PATH ++ [0]) as Hint.
  { intros E. rewrite (proj2 (Z.eqb_eq _ _) E) in Hi. by eapply check_interp_spec. }
  cbv zeta in H. apply bind_accept in H as (u' & Hst%fail_if_accept & H).
  assert (p_type ph = PT_GNU_STACK -> ~ executable ph) as Hstack.
  { intros E Hx%is_exec_spec. rewrite (proj2 (Z.eqb_eq _ _) E), Hx in Hst. done. }
  destruct (Z.eqb_spec (p_type ph) PT_LOAD) as [El|Nl].
  - rewrite El in H. accepted H. subst st'. cbn.
    change (PT_LOAD =? PT_INTERP) with false. change (PT_LOAD =? PT_GNU_RELRO) with false. cbn.
    split_and!; [split|..].
    + done.
    + done.
    + intros _ [Hw Hx]. apply Z.eqb_neq in E. by apply E, wx_flags.
    + intros _. unfold u32_add_le in E0. lia.
    + rewrite El. unfold PT_LOAD, PT_INTERP. split; [tauto|intros [|]; [done|lia]].
    + rewrite El. unfold PT_LOAD, PT_GNU_RELRO. split; [tauto|intros [|]; [done|lia]].
    + intros [|Hh]%orb_true_iff; [by left|right]. apply andb_true_iff in Hh as [[[Hx ?]%andb_true_iff ?]%andb_true_iff He].
      split_and!; [done|by apply is_exec_spec|lia|]. unfold u32, wrap in He.
      pose proof (Z.mod_le (p_vaddr ph + p_filesz ph) (2 ^ 32)). lia.
    + by rewrite decide_True by done.
  - injection H as <-. rewrite (decide_False) by done.
    split_and!; [split; try done|..].
    + destruct (Z.eqb_spec (p_type ph) PT_INTERP), (Z.eqb_spec (p_type ph) PT_GNU_RELRO); cbn; tauto.
    + destruct (Z.eqb_spec (p_type ph) PT_INTERP), (Z.eqb_spec (p_type ph) PT_GNU_RELRO); cbn; tauto.
    + destruct (Z.eqb_spec (p_type ph) PT_INTERP), (Z.eqb_spec (p_type ph) PT_GNU_RELRO); cbn; tauto.
    + by destruct (Z.eqb_spec (p_type ph) PT_INTERP), (Z.eqb_spec (p_type ph) PT_GNU_RELRO).
Qed.

Lemma phdr_loop_spec eh phs st st' :
  Forall (fun ph => 0 <= p_vaddr ph /\ 0 <= p_filesz ph) phs ->
  (length (loads st) <= MAX_LOAD)%nat ->
  phdr_loop map eh phs st = Accept st' ->
  Forall (phdr_ok map) phs
  /\ (has_interp st' = true <-> has_interp st = true \/ Exists (fun ph => p_type ph = PT_INTERP) phs)
  /\ (has_relro st' = true <-> has_relro st = true \/ Exists (fun ph => p_type ph = PT_GNU_RELRO) phs)
  /\ (entry_ok st' = true -> entry_ok st = true \/ Exists (holds_entry (e_entry eh)) phs)
  /\ loads st' = take MAX_LOAD (loads st ++ filter is_load phs).
Proof.
  intros Hp. revert st; induction Hp as [|ph phs [Hv Hf] _ IH]; intros st Hl; cbn [phdr_loop].
  - intros [= <-]. rewrite !Exists_nil, app_nil_r, take_ge by done. split_and!; [constructor|tauto..|done].
  - intros H. apply bind_accept in H as (st1 & (Hok & Hi & Hr & He & Hls)%phdr_step_spec & H); [|done..].
    apply IH in H as (Hoks & Hi' & Hr' & He' & Hls').
    + rewrite !Exists_cons. split_and!; [by constructor|tauto|tauto|tauto|]. rewrite Hls', Hls, filter_cons.
      destruct (decide (is_load ph)); [|done]. destruct (Nat.ltb_spec (length (loads st)) MAX_LOAD); [by rewrite <-app_assoc|].
      rewrite (take_app_le (loads st) (filter is_load phs)), (take_app_le (loads st) (ph :: filter is_load phs)) by lia. done.
    + rewrite Hls. repeat case_match; rewrite ?length_app; cbn [length]; lia.
Qed.

Lemma read_phdrs_spec eh phs :
  bytes_ok map -> read_phdrs map eh = Some phs -> Forall (fun ph => is_u32 (p_vaddr ph) /\ is_u32 (p_filesz ph)) phs.
Proof.
  intros Hm H%mapM_Some. apply Forall_forall. intros ph Hp. apply list_elem_of_lookup in Hp as [i Hi].
  destruct (Forall2_lookup_r _ _ _ _ _ H Hi) as (x & _ & Hx). by apply rd_phdr_range in Hx as (_ & ? & ? & _).
Qed.

Lemma check_segments_spec eh u :
  bytes_ok map -> check_segments map eh = Accept u -> 0 < e_phnum eh ->
  exists phs, read_phdrs map eh = Some phs /\ segments_ok map (e_entry eh) phs.
Proof.
  intros Hm. unfold check_segments. cond E; [|lia]. intros H _. accepted H. exists a. split; [done|].
  pose proof (read_phdrs_spec _ _ Hm E2) as Hr.
  apply phdr_loop_spec in E3 as (Hok & Hi & Hrel & He & Hls).
  - cbn [loads has_relro has_interp entry_ok app] in *. apply negb_false_iff in E4, E5, E6. apply opcode_scan_spec in H.
    rewrite Hls in *. split; try done.
    + by apply Hi in E5 as [|].
    + by apply Hrel in E6 as [|].
    + apply He in E4 as [E4%Z.eqb_eq|]; [by left|by right].
    + by apply any_overlap_apart.
  - eapply Forall_impl; [exact Hr|]. cbv beta. unfold is_u32. lia.
  - cbn. lia.
Qed.

Lemma read_phdrs_total eh :
  bytes_ok map -> 0 <= e_phoff eh -> 0 <= e_phnum eh -> sizeof_Phdr <= e_phentsize eh ->
  e_phoff eh + e_phnum eh * e_phentsize eh <= len map -> is_Some (read_phdrs map eh).
Proof.
  unfold sizeof_Phdr. intros Hm Ho Hn He Hl. apply mapM_is_Some, Forall_forall. intros i Hi%elem_of_seqZ. unfold compose.
  destruct (rd_phdr_ok map (e_phoff eh + i * e_phentsize eh)) as (ph & -> & _); [done|nia|unfold sizeof_Phdr; nia|by eexists].
Qed.

Lemma check_interp_tame ph : 0 <= p_offset ph -> tame (check_interp map ph).
Proof.
  intros Ho. unfold check_interp, u32_add_le. cond E1; [done|]. cond E2; [done|]. tame_step; [|auto with tame].
  apply memcmp_at_total; lia.
Qed.

Lemma phdr_loop_tame eh phs st : Forall (fun ph => 0 <= p_offset ph) phs -> tame (phdr_loop map eh phs st).
Proof.
  intros Hp. revert st; induction Hp as [|ph phs Ho _ IH]; intros st; cbn [phdr_loop]; [done|].
  apply tame_bind; [|intros st' _; apply IH]. unfold phdr_step.
  apply tame_bind; [cond E; [by apply check_interp_tame|done]|intros ? _]. cbv zeta. tame_step.
  cond E2; [|done]. by do 2 tame_step.
Qed.

Lemma opcode_scan_tame ls :
  Forall (fun ph => 0 <= p_offset ph /\ p_offset ph + p_filesz ph <= len map) ls -> tame (opcode_scan map ls).
Proof.
  intros H. induction H as [|ph ls [Ho Hl] _ IH]; cbn [opcode_scan]; [done|]. cond E; [done|]. cond E1; [done|].
  tame_step; [by apply opcode_loop_total|]. by tame_step.
Qed.

Lemma check_segments_tame eh :
  bytes_ok map -> 0 <= e_phoff eh -> tame (check_segments map eh).
Proof.
  intros Hm Ho. unfold check_segments. cond E; [|done]. tame_step. tame_step.
  tame_step; [apply read_phdrs_total; try done; lia|].
  rename a into phs. match goal with E : read_phdrs _ _ = _ |- _ => rename E into Er end.
  assert (Forall (fun ph => is_u32 (p_offset ph)) phs) as Hoff.
  { apply mapM_Some in Er. apply Forall_forall. intros ph Hp. apply list_elem_of_lookup in Hp as [i Hi].
    destruct (Forall2_lookup_r _ _ _ _ _ Er Hi) as (x & _ & Hx). by apply rd_phdr_range in Hx as (? & _). }
  apply tame_bind; [apply phdr_loop_tame; eapply Forall_impl; [exact Hoff|]; cbv beta; unfold is_u32; lia|].
  intros st Hst. apply phdr_loop_spec in Hst as (Hok & _ & _ & _ & Hls); [|eapply Forall_impl; [by eapply read_phdrs_spec|]; cbv beta; unfold is_u32; lia|cbn; lia].
  do 4 tame_step. apply opcode_scan_tame. rewrite Hls. cbn [loads app]. apply Forall_take, Forall_forall. intros ph (Hl & Hp)%list_elem_of_filter.
  rewrite Forall_forall in Hok, Hoff. split; [by apply Hoff in Hp as [? _]|]. by apply (ph_file map ph); [apply Hok|].
Qed.
End checks.

(** ** Sections *)

Definition name_of (map : list Z) (strtab : Z) (sh : Elf32_Shdr) : option (list Z) := str_of map (strtab + sh_name sh).

(** The policy on one section. *)
Record section_ok (map : list Z) (strtab size : Z) (sh : Elf32_Shdr) : Prop := {
  sect_name : sh_name sh < size;
  sect_denied : forall n, n ∈ DENIED_SECTIONS -> name_of map strtab sh <> Some n;
  sect_file : sh_type sh <> SHT_NOBITS -> 0 < sh_size sh -> sh_offset sh + sh_size sh <= len map }.

(** The last section of that name: the one the loader keeps. *)
Definition last_named (map : list Z) (strtab : Z) (s : string) (shs : list Elf32_Shdr) : option Elf32_Shdr :=
  last (filter (fun sh => name_of map strtab sh = Some (text s)) shs).
Definition last_dynsym (shs : list Elf32_Shdr) : option Elf32_Shdr := last (filter (fun sh => sh_type sh = SHT_DYNSYM) shs).

(** A section that holds debug information. *)
Definition debug_named (map : list Z) (strtab : Z) (sh : Elf32_Shdr) : Prop :=
  starts map (strtab + sh_name sh) (text ".debug_") \/ starts map (strtab + sh_name sh) (text ".zdebug_").
#[export] Instance debug_named_dec map strtab sh : Decision (debug_named map strtab sh).
Proof. unfold debug_named, starts. apply _. Defined.

(** What the walk finds. *)
Record walked (map : list Z) (strtab : Z) (shs : list Elf32_Shdr) (st : cart_sections) : Prop := {
  walked_info : sect_cart_info st = last_named map strtab ".cart.info" shs;
  walked_config : sect_cart_config st = last_named map strtab ".cart.config" shs;
  walked_layouts : sect_cart_layouts st = last_named map strtab ".cart.layouts" shs;
  walked_lua : sect_cart_lua st = last_named map strtab ".cart.lua" shs;
  walked_dynamic : sect_dynamic st = last_named map strtab ".dynamic" shs;
  walked_dynsym : sect_dynsym st = last_dynsym shs;
  walked_dynstr : sect_dynstr_sh st = last_named map strtab ".dynstr" shs;
  walked_dwarf : sect_dwarf st = true <-> Exists (debug_named map strtab) shs }.

Definition pick (P : Elf32_Shdr -> Prop) `{forall sh, Decision (P sh)} (o : option Elf32_Shdr) (sh : Elf32_Shdr) : option Elf32_Shdr :=
  if decide (P sh) then Some sh else o.

Lemma foldl_pick (P : Elf32_Shdr -> Prop) `{forall sh, Decision (P sh)} o shs :
  foldl (pick P) o shs = match last (filter P shs) with Some sh => Some sh | None => o end.
Proof.
  revert o; induction shs as [|sh shs IH]; intros o; [done|]. cbn [foldl]. rewrite IH, filter_cons. unfold pick.
  destruct (decide (P sh)); [rewrite last_cons; by destruct (last (filter P shs))|done].
Qed.

(** What one section changes. *)
Record noted (map : list Z) (strtab : Z) (sh : Elf32_Shdr) (st st' : cart_sections) : Prop := {
  noted_info : sect_cart_info st' = pick (fun sh => name_of map strtab sh = Some (text ".cart.info")) (sect_cart_info st) sh;
  noted_config : sect_cart_config st' = pick (fun sh => name_of map strtab sh = Some (text ".cart.config")) (sect_cart_config st) sh;
  noted_layouts : sect_cart_layouts st' = pick (fun sh => name_of map strtab sh = Some (text ".cart.layouts")) (sect_cart_layouts st) sh;
  noted_lua : sect_cart_lua st' = pick (fun sh => name_of map strtab sh = Some (text ".cart.lua")) (sect_cart_lua st) sh;
  noted_dynamic : sect_dynamic st' = pick (fun sh => name_of map strtab sh = Some (text ".dynamic")) (sect_dynamic st) sh;
  noted_dynsym : sect_dynsym st' = pick (fun sh => sh_type sh = SHT_DYNSYM) (sect_dynsym st) sh;
  noted_dynstr : sect_dynstr_sh st' = pick (fun sh => name_of map strtab sh = Some (text ".dynstr")) (sect_dynstr_sh st) sh;
  noted_dwarf : sect_dwarf st' = bool_decide (debug_named map strtab sh) || sect_dwarf st }.

Section sections.
Context (map : list Z) (strtab size : Z).
Hypothesis Hstr : 0 <= strtab.

Lemma named_pick sh s x o :
  0 <= sh_name sh -> no_nul (text s) -> named map (strtab + sh_name sh) s sh x = Accept o ->
  o = pick (fun sh => name_of map strtab sh = Some (text s)) x sh.
Proof.
  unfold named, pick. intros Hn Hs H. accepted H. apply strcmp_at_spec in E; [|lia|done]. unfold name_of.
  subst o. destruct a; [by rewrite decide_True by (by apply E)|]. rewrite decide_False; [done|]. intros Hx%E. done.
Qed.

Lemma section_step_spec sh st st' :
  0 <= sh_name sh -> section_step map strtab size sh st = Accept st' -> section_ok map strtab size sh /\ noted map strtab sh st st'.
Proof.
  intros Hn. unfold section_step. intros H. accepted H. subst st'.
  apply any_name_spec in E0; [|lia|auto with blyt].
  repeat match goal with E : named _ _ _ _ _ = Accept _ |- _ => apply named_pick in E; [|done|by apply no_nul_text] end.
  assert (a1 = true <-> debug_named map strtab sh) as Hdw.
  { unfold debug_named. apply str_at_starts in E3; [|lia]. destruct a0.
    - injection E4 as <-. tauto.
    - apply look_accept, str_at_starts in E4; [|lia]. destruct a1; naive_solver. }
  split; split; cbn; try done.
  - lia.
  - intros n Hd Hx. subst a. assert (false = true) as []%diff_false_true. apply E0. eauto.
  - intros Ht Hs. apply Z.eqb_neq in Ht. rewrite Ht in E2. unfold in_bounds in E2. repeat case_match; lia.
  - unfold pick. by destruct (Z.eqb_spec (sh_type sh) SHT_DYNSYM), (decide (sh_type sh = SHT_DYNSYM)).
  - f_equal. apply eq_true_iff_eq. by rewrite bool_decide_eq_true.
Qed.

Lemma section_walk_spec shs st st' :
  Forall (fun sh => 0 <= sh_name sh) shs ->
  section_walk map strtab size shs st = Accept st' ->
  Forall (section_ok map strtab size) shs
  /\ forall (A : Type) (f : cart_sections -> A) (g : A -> Elf32_Shdr -> A),
       (forall sh st st', noted map strtab sh st st' -> f st' = g (f st) sh) -> f st' = foldl g (f st) shs.
Proof.
  intros Hn. revert st; induction Hn as [|sh shs Hn _ IH]; intros st; cbn [section_walk].
  - intros [= <-]. by split; [constructor|].
  - intros H. apply bind_accept in H as (st1 & (Hok & Hst)%section_step_spec & (Hoks & Hf)%IH); [|done].
    split; [by constructor|]. intros A f g Hg. by rewrite (Hf A f g Hg), (Hg _ _ _ Hst).
Qed.

Lemma section_walk_walked shs st :
  Forall (fun sh => 0 <= sh_name sh) shs ->
  section_walk map strtab size shs no_sections = Accept st ->
  Forall (section_ok map strtab size) shs /\ walked map strtab shs st.
Proof.
  intros Hn (Hok & Hf)%section_walk_spec; [|done]. split; [done|]. unfold last_named, last_dynsym.
  split.
  1-7: erewrite Hf by (intros ??? []; eassumption); rewrite foldl_pick; unfold last_named, last_dynsym; by destruct (last _).
  rewrite (Hf _ sect_dwarf (fun b sh => bool_decide (debug_named map strtab sh) || b)) by (by intros ??? []).
  assert (forall b, foldl (fun b sh => bool_decide (debug_named map strtab sh) || b) b shs = true
                    <-> b = true \/ Exists (debug_named map strtab) shs) as Hd.
  { clear. induction shs as [|sh shs IH]; intros b; cbn [foldl]; [rewrite Exists_nil; tauto|].
    rewrite IH, Exists_cons, orb_true_iff, bool_decide_eq_true. tauto. }
  rewrite Hd. cbn. split; [by intros [|]|by right].
Qed.

(** The names end in the image, so the walk stays in it. *)
Lemma section_walk_tame shs st :
  ends_nul map -> strtab + size <= len map -> Forall (fun sh => 0 <= sh_name sh) shs ->
  tame (section_walk map strtab size shs st).
Proof.
  intros Hnul Hsize Hn. revert st; induction Hn as [|sh shs Hn _ IH]; intros st; cbn [section_walk]; [done|].
  apply tame_bind; [|intros st' _; apply IH]. unfold section_step. tame_step. cbv zeta.
  assert (0 ∈ drop (Z.to_nat (strtab + sh_name sh)) map) as Hz by (apply ends_nul_drop; [done|lia]).
  assert (forall s x, no_nul (text s) -> tame (named map (strtab + sh_name sh) s sh x)) as Hnamed.
  { intros s x Hs. unfold named. tame_step; [apply strcmp_total; [lia|done..]|done]. }
  tame_step; [apply any_name_total; [lia|auto with blyt|done]|]. do 2 tame_step.
  tame_step; [apply strncmp_total; [lia|by apply no_nul_text|done]|].
  apply tame_bind; [case_match; [done|apply tame_look, strncmp_total; [lia|by apply no_nul_text|done]]|intros ? _].
  do 6 (apply tame_bind; [apply Hnamed; by apply no_nul_text|intros ? _]). done.
Qed.
End sections.

(** The section headers read from the image. *)
Definition shdr_fields (sh : Elf32_Shdr) : Prop :=
  is_u32 (sh_name sh) /\ is_u32 (sh_offset sh) /\ is_u32 (sh_size sh) /\ is_u32 (sh_link sh) /\ is_u32 (sh_entsize sh).

Lemma read_shdrs_spec map eh shs :
  bytes_ok map -> 0 <= e_shnum eh -> read_shdrs map eh = Some shs -> Forall shdr_fields shs /\ len shs = e_shnum eh.
Proof.
  intros Hm Hn H%mapM_Some. split.
  - apply Forall_forall. intros sh Hs. apply list_elem_of_lookup in Hs as [i Hi].
    destruct (Forall2_lookup_r _ _ _ _ _ H Hi) as (x & _ & Hx). by apply rd_shdr_range in Hx.
  - apply Forall2_length in H. rewrite length_seqZ in H. unfold len. lia.
Qed.

Lemma check_shdrs_spec map eh shs strtab size :
  bytes_ok map -> 0 <= e_shnum eh -> check_shdrs map eh = Accept (shs, strtab, size) ->
  read_shdrs map eh = Some shs /\ Forall shdr_fields shs /\ len shs = e_shnum eh
  /\ 0 <= strtab /\ 0 <= size /\ strtab + size <= len map
  /\ exists hdr, zget shs (e_shstrndx eh) = Some hdr /\ strtab = sh_offset hdr /\ size = sh_size hdr.
Proof.
  intros Hm Hn. unfold check_shdrs. intros H. accepted H. simplify_eq.
  destruct (read_shdrs_spec _ _ _ Hm Hn E1) as [Hf Hl]. rewrite Forall_forall in Hf.
  destruct (Hf _ (zget_elem _ _ _ E2)) as (_ & Ho & Hs & _). unfold is_u32 in *.
  unfold in_bounds in E3. split_and!; try done; [by apply Forall_forall|lia..|by eexists].
Qed.

Lemma check_shdrs_tame map eh :
  bytes_ok map -> is_u16 (e_shnum eh) -> is_u16 (e_shstrndx eh) -> is_u32 (e_shoff eh) -> tame (check_shdrs map eh).
Proof.
  unfold is_u16, is_u32. intros Hm Hn Hx Ho. unfold check_shdrs, sizeof_Shdr. do 2 tame_step.
  assert (e_shnum eh * 40 <= e_shnum eh * e_shentsize eh) as Hsz by (apply Z.mul_le_mono_nonneg_l; lia).
  assert (is_Some (read_shdrs map eh)) as [shs Hs].
  { apply mapM_is_Some, Forall_forall. intros i Hi%elem_of_seqZ. unfold compose.
    destruct (rd_shdr_ok map (e_shoff eh + i * sizeof_Shdr)) as (sh & -> & _); [done|unfold sizeof_Shdr; lia..|by eexists]. }
  rewrite Hs. cbn [look mbind checked_bind]. destruct (read_shdrs_spec map eh shs Hm ltac:(lia) Hs) as [_ Hl].
  tame_step; [apply zget_is_Some; lia|]. by tame_step.
Qed.
