(* ===== verification/CartLoadDynamic.v ===== *)
(** * CartLoadDynamic: libraries, imports, entry points and manifest

    The policy of [CartLoad] on the dynamic section, on the symbols and on the manifest sections,
    and the lemmas of the checks that enforce it. *)

From S2P Require Import Prelude ElfSection Elf32 CartLoad CartLoadSpec.
From Stdlib Require Import ZArith Lia Strings.String.
From stdpp Require Import base tactics list.
Open Scope Z_scope.

(** ** Tables *)

(** The offsets of the [k] entries of a table from [p] on. *)
Fixpoint offsets (k : nat) (p entsize : Z) : list Z :=
  match k with
  | O => []
  | S k => p :: offsets k (p + entsize) entsize
  end.

Definition entries_of (sh : Elf32_Shdr) : list Z := offsets (Z.to_nat (sh_size sh / sh_entsize sh)) (sh_offset sh) (sh_entsize sh).

Lemma offsets_range k p e o :
  0 <= e -> o ∈ offsets k p e -> p <= o /\ o + e <= p + Z.of_nat k * e.
Proof.
  intros He. revert p; induction k as [|k IH]; intros p; cbn [offsets]; [by intros ?%elem_of_nil|].
  intros [->|Ho%IH]%elem_of_cons; nia.
Qed.

Lemma entries_of_range sh o :
  0 <= sh_size sh -> 0 < sh_entsize sh -> o ∈ entries_of sh -> sh_offset sh <= o /\ o + sh_entsize sh <= sh_offset sh + sh_size sh.
Proof.
  unfold entries_of. intros Hs He Ho%offsets_range; [|lia].
  rewrite Z2Nat.id in Ho by (apply Z.div_pos; lia). pose proof (Z.mul_div_le (sh_size sh) (sh_entsize sh) He). lia.
Qed.

(** ** Needed libraries *)

(** Tag and value of the entries before the first [DT_NULL]. *)
Fixpoint dyn_entries (map : list Z) (k : nat) (p entsize : Z) : list (Z * Z) :=
  match k with
  | O => []
  | S k =>
      match d_tag map p with
      | None => []
      | Some tag => if tag =? DT_NULL then [] else (tag, default 0 (d_val map p)) :: dyn_entries map k (p + entsize) entsize
      end
  end.
Definition dynamic_of (map : list Z) (sh : Elf32_Shdr) : list (Z * Z) :=
  dyn_entries map (Z.to_nat (sh_size sh / sh_entsize sh)) (sh_offset sh) (sh_entsize sh).

(** The string table the dynamic section names: the last address under which there is one. *)
Definition dyn_strings (shs : list Elf32_Shdr) (entries : list (Z * Z)) : option Z :=
  last (omap (fun '(tag, v) => if tag =? DT_STRTAB then find_strtab shs v else None) entries).

(** Every needed library is on the list. *)
Definition needed_ok (map : list Z) (shs : list Elf32_Shdr) (entries : list (Z * Z)) : Prop :=
  forall v, (DT_NEEDED, v) ∈ entries ->
    exists str n, dyn_strings shs entries = Some str /\ str_of map (str + v) = Some n /\ n ∈ NEEDED_ALLOWLIST.
Definition needs_lua (map : list Z) (shs : list Elf32_Shdr) (entries : list (Z * Z)) : Prop :=
  exists v str, (DT_NEEDED, v) ∈ entries /\ dyn_strings shs entries = Some str /\ str_of map (str + v) = Some (text "libblyt32lua.so").

Lemma find_strtab_spec shs addr o :
  find_strtab shs addr = Some o -> exists sh, sh ∈ shs /\ sh_type sh = SHT_STRTAB /\ o = sh_offset sh.
Proof.
  unfold find_strtab. destruct (List.find _ shs) as [sh|] eqn:E; [|done]. intros [= <-].
  apply List.find_some in E as [Hin H]. apply list_elem_of_In in Hin. exists sh. split_and!; [done|lia|done].
Qed.

Lemma dyn_strings_section shs entries str :
  dyn_strings shs entries = Some str -> exists sh, sh ∈ shs /\ sh_type sh = SHT_STRTAB /\ str = sh_offset sh.
Proof.
  unfold dyn_strings. intros ([tag v] & _ & H)%last_Some_elem_of%list_elem_of_omap. case_match; [|done]. by eapply find_strtab_spec.
Qed.

Lemma no_nul_lua : no_nul (text "libblyt32lua.so").
Proof. by apply no_nul_text. Qed.
#[export] Hint Resolve no_nul_lua : blyt.

Section dynamic.
Context (map : list Z) (shs : list Elf32_Shdr).

Lemma dyn_strtab_spec k p e d0 z0 d z :
  dyn_strtab map k p e shs d0 z0 = Some (d, z) ->
  d = match dyn_strings shs (dyn_entries map k p e) with Some str => Some str | None => d0 end
  /\ (z = z0 \/ (DT_STRSZ, z) ∈ dyn_entries map k p e).
Proof.
  revert p d0 z0; induction k as [|k IH]; intros p d0 z0; cbn [dyn_strtab dyn_entries]; [intros [= -> ->]; by split; [|left]|].
  destruct (d_tag map p) as [tag|]; cbn [mbind option_bind]; [|done].
  destruct (tag =? DT_NULL); [intros [= -> ->]; by split; [|left]|]. intros H.
  apply bind_Some in H as (d1 & Hd & H). apply bind_Some in H as (z1 & Hz & H). apply IH in H as [-> H2].
  unfold dyn_strings. cbn [omap list_omap]. split.
  - destruct (tag =? DT_STRTAB); [|by injection Hd as <-]. apply bind_Some in Hd as (v & -> & [= <-]). cbn [from_option id].
    destruct (find_strtab shs v) as [o|]; [|done]. rewrite last_cons. by destruct (last _).
  - destruct H2 as [->|H2]; [|right; by right]. destruct (tag =? DT_STRSZ) eqn:Et; [|left; congruence].
    apply Z.eqb_eq in Et as ->. right. rewrite Hz. left.
Qed.

Lemma needed_loop_spec k p e d z lua0 lua :
  (forall str, d = Some str -> 0 <= str) -> bytes_ok map ->
  needed_loop map k p e d z lua0 = Accept lua ->
  (forall v, (DT_NEEDED, v) ∈ dyn_entries map k p e ->
     exists str n, d = Some str /\ v < z /\ str_of map (str + v) = Some n /\ n ∈ NEEDED_ALLOWLIST)
  /\ (lua = true <-> lua0 = true \/ exists v str, (DT_NEEDED, v) ∈ dyn_entries map k p e /\ d = Some str
        /\ str_of map (str + v) = Some (text "libblyt32lua.so")).
Proof.
  intros Hd Hm. revert p lua0; induction k as [|k IH]; intros p lua0; cbn [needed_loop dyn_entries].
  { intros [= <-]. split; [by intros v ?%elem_of_nil|]. split; [by left|]. by intros [|(v & str & ?%elem_of_nil & _)]. }
  intros H. apply bind_accept in H as (tag & Ht%look_accept & H). rewrite Ht.
  destruct (tag =? DT_NULL).
  { injection H as <-. split; [by intros v ?%elem_of_nil|]. split; [by left|]. by intros [|(v & str & ?%elem_of_nil & _)]. }
  destruct (Z.eqb_spec tag DT_NEEDED) as [->|Nt]; cbn [negb] in H.
  - destruct d as [str|]; [|done]. accepted H. rewrite E. cbn [from_option id].
    assert (0 <= a) as Ha by (by apply rd_le_range in E as (_ & _ & ? & _)). specialize (Hd _ eq_refl).
    apply any_name_spec in E1; [|lia|auto with blyt]. apply strcmp_at_spec in E3; [|lia|auto with blyt].
    apply negb_false_iff in E2. subst a0. destruct E1 as [(n & Hn & Hs) _]; [done|]. apply IH in H as [H1 H2]. split.
    + intros v [[= ->]|Hv]%elem_of_cons; [|by apply H1]. exists str, n. split_and!; [done|lia|done..].
    + rewrite H2, orb_true_iff. split.
      * intros [[|]|(v & str' & ? & ? & ?)]; [right|by left|right].
        -- exists a, str. split_and!; [left|done|by apply E3].
        -- exists v, str'. split_and!; [by right|done..].
      * intros [|(v & str' & [[= ->]|Hv]%elem_of_cons & [= <-] & Hs')]; [by left; right|left; left; by apply E3|right; eauto].
  - apply IH in H as [H1 H2]. split.
    + intros v [[=]|Hv]%elem_of_cons; [congruence|by apply H1].
    + rewrite H2. split; (intros [|(v & str & Hv & ? & ?)]; [by left|right; exists v, str; split_and!; try done]); [by right|].
      apply elem_of_cons in Hv as [[=]|Hv]; [congruence|done].
Qed.

Lemma check_needed_spec st lua :
  bytes_ok map -> Forall shdr_fields shs -> check_needed map shs st = Accept lua ->
  match sect_dynamic st with
  | None => lua = false
  | Some dyn => needed_ok map shs (dynamic_of map dyn) /\ (lua = true <-> needs_lua map shs (dynamic_of map dyn))
  end.
Proof.
  intros Hm Hf. unfold check_needed. destruct (sect_dynamic st) as [dyn|]; [|by intros [= <-]]. intros H.
  apply bind_accept in H as (u & _ & H). cbv zeta in H. apply bind_accept in H as ([d z] & E%look_accept & H).
  apply dyn_strtab_spec in E as [Hd _]. fold (dynamic_of map dyn) in Hd.
  assert (d = dyn_strings shs (dynamic_of map dyn)) as -> by (by destruct (dyn_strings _ _)). clear Hd.
  apply needed_loop_spec in H as [H1 H2]; [|..|done].
  - fold (dynamic_of map dyn) in H1, H2. split.
    + intros v Hv. destruct (H1 v Hv) as (str & n & Hs & _ & Hn & Ha). by exists str, n.
    + rewrite H2. split; [intros [|]; [done|assumption]|by right].
  - intros str (sh & Hin & _ & ->)%dyn_strings_section. rewrite Forall_forall in Hf. by apply Hf in Hin as (_ & [? _] & _).
Qed.

Lemma d_tag_total p : bytes_ok map -> 0 <= p -> p + 8 <= len map -> is_Some (d_tag map p) /\ is_Some (d_val map p).
Proof.
  intros Hm Hp Hl. unfold d_tag, d_val. destruct (rd_le_ok map p 4) as (v & -> & _); [done|lia..|].
  destruct (rd_le_ok map (p + 4) 4) as (w & -> & _); [done|lia..|]. by split; eexists.
Qed.

Lemma dyn_strtab_total k p e d0 z0 :
  bytes_ok map -> 0 <= p -> 8 <= e -> p + Z.of_nat k * e <= len map -> is_Some (dyn_strtab map k p e shs d0 z0).
Proof.
  intros Hm. revert p d0 z0; induction k as [|k IH]; intros p d0 z0 Hp He Hl; cbn [dyn_strtab]; [by eexists|].
  destruct (d_tag_total p) as [[tag ->] [v ->]]; [done|lia|nia|]. cbn [mbind option_bind].
  destruct (tag =? DT_NULL); [by eexists|].
  destruct (tag =? DT_STRTAB), (tag =? DT_STRSZ); cbn [mbind option_bind]; apply IH; lia.
Qed.

Lemma needed_loop_tame k p e d z lua :
  bytes_ok map -> ends_nul map -> 0 <= p -> 8 <= e -> p + Z.of_nat k * e <= len map ->
  (forall str, d = Some str -> 0 <= str /\ (0 < z -> str + z <= len map)) ->
  tame (needed_loop map k p e d z lua).
Proof.
  intros Hm Hnul. revert p lua; induction k as [|k IH]; intros p lua Hp He Hl Hd; cbn [needed_loop]; [done|].
  destruct (d_tag_total p) as [[tag ->] [v Hv]]; [done|lia|nia|]. cbn [look mbind checked_bind].
  destruct (tag =? DT_NULL); [done|]. destruct (negb (tag =? DT_NEEDED)); [apply IH; lia || done|].
  destruct d as [str|]; [|done]. destruct (Hd _ eq_refl) as [Hs Hsz]. rewrite Hv. cbn [look mbind checked_bind]. tame_step.
  assert (0 <= v) as Hv0 by (by apply rd_le_range in Hv as (_ & _ & ? & _)).
  assert (0 ∈ drop (Z.to_nat (str + v)) map) as Hz by (apply ends_nul_drop; [done|lia]).
  tame_step; [apply any_name_total; [lia|auto with blyt|done]|]. tame_step.
  tame_step; [apply strcmp_total; [lia|auto with blyt|done]|]. apply IH; lia || done.
Qed.

Lemma check_needed_tame st :
  bytes_ok map -> ends_nul map -> Forall shdr_fields shs ->
  (forall dyn, sect_dynamic st = Some dyn -> shdr_fields dyn /\ (0 < sh_size dyn -> sh_offset dyn + sh_size dyn <= len map)
     /\ forall str z, dyn_strings shs (dynamic_of map dyn) = Some str -> (DT_STRSZ, z) ∈ dynamic_of map dyn -> str + z <= len map) ->
  tame (check_needed map shs st).
Proof.
  intros Hm Hnul Hf Hdyn. unfold check_needed. destruct (sect_dynamic st) as [dyn|]; [|done].
  destruct (Hdyn _ eq_refl) as ((_ & [Ho _] & [Hs _] & _ & [He _]) & Hl & Hsz). unfold sizeof_Dyn. tame_step. cbv zeta.
  destruct (decide (sh_size dyn = 0)) as [Hz0|Hpos]; [by rewrite Hz0|]. specialize (Hl ltac:(lia)).
  assert (sh_offset dyn + Z.of_nat (Z.to_nat (sh_size dyn / sh_entsize dyn)) * sh_entsize dyn <= len map) as Hend.
  { rewrite Z2Nat.id by (apply Z.div_pos; lia). pose proof (Z.mul_div_le (sh_size dyn) (sh_entsize dyn)). lia. }
  tame_step; [apply dyn_strtab_total; lia || done|]. destruct a as [d z].
  match goal with H : dyn_strtab _ _ _ _ _ _ _ = _ |- _ => apply dyn_strtab_spec in H as [Hd Hz] end.
  apply needed_loop_tame; try (done || lia). intros str ->.
  fold (dynamic_of map dyn) in Hd, Hz. destruct (dyn_strings shs (dynamic_of map dyn)) as [str'|] eqn:Es; [|done]. injection Hd as <-.
  destruct (dyn_strings_section _ _ _ Es) as (sh & Hin & _ & ->). rewrite Forall_forall in Hf.
  destruct (Hf _ Hin) as (_ & [? Hlt] & _). split; [lia|]. destruct Hz as [->|Hz]; [lia|]. intros _. by apply Hsz.
Qed.
End dynamic.

(** ** Symbols *)

(** A global symbol, undefined or not. *)
Definition is_import (map : list Z) (p : Z) : Prop :=
  (exists info, st_info map p = Some info /\ ELF32_ST_BIND info = STB_GLOBAL) /\ st_shndx map p = Some SHN_UNDEF.
Definition is_export (map : list Z) (p : Z) : Prop :=
  (exists info, st_info map p = Some info /\ ELF32_ST_BIND info = STB_GLOBAL)
  /\ exists shndx, st_shndx map p = Some shndx /\ shndx <> SHN_UNDEF.
(** The name of the symbol, in the strings at [str] of that size. *)
Definition sym_name (map : list Z) (str size p : Z) : option (list Z) :=
  name ← st_name map p; if name <? size then str_of map (str + name) else None.

(** An import is on the list, or belongs to the Lua interface in a cart that needs the Lua library. *)
Definition import_ok (map : list Z) (symstr : option (Z * Z)) (lua : Prop) (p : Z) : Prop :=
  is_import map p ->
  exists str size, symstr = Some (str, size)
    /\ ((exists n, sym_name map str size p = Some n /\ n ∈ SYMBOL_ALLOWLIST)
        \/ lua /\ exists name, st_name map p = Some name /\ name < size
           /\ (starts map (str + name) (text "lua_") \/ starts map (str + name) (text "luaL_"))).

(** A symbol defines the entry point. *)
Definition defines (map : list Z) (str size : Z) (syms : list Z) (entry : list Z) : Prop :=
  exists p, p ∈ syms /\ is_export map p /\ sym_name map str size p = Some entry.

Section symbols.
Context (map : list Z).

Lemma lua_api_name_spec name b :
  0 <= name -> lua_api_name map name = Some b -> b = true <-> starts map name (text "lua_") \/ starts map name (text "luaL_").
Proof.
  intros Hn. unfold lua_api_name. destruct (strncmp_at map name (text "lua_")) as [x|] eqn:E; cbn [mbind option_bind]; [|done].
  apply str_at_starts in E; [|done]. destruct x; [intros [= <-]; tauto|]. intros H%str_at_starts; [|done]. naive_solver.
Qed.

Lemma import_loop_spec k p e symstr lua u :
  bytes_ok map -> (forall str size, symstr = Some (str, size) -> 0 <= str) ->
  import_loop map k p e symstr lua = Accept u -> Forall (import_ok map symstr (lua = true)) (offsets k p e).
Proof.
  intros Hm Hstr. revert p u; induction k as [|k IH]; intros p u; cbn [import_loop offsets]; [constructor|].
  intros H. apply bind_accept in H as (info & Ei%look_accept & H).
  destruct (Z.eqb_spec (ELF32_ST_BIND info) STB_GLOBAL) as [Eg|Ng]; cbn [negb] in H.
  2:{ constructor; [|by eapply IH]. intros [(info' & Ei' & Eg') _]. congruence. }
  apply bind_accept in H as (shndx & Es%look_accept & H).
  destruct (Z.eqb_spec shndx SHN_UNDEF) as [->|Nu]; cbn [negb] in H.
  2:{ constructor; [|by eapply IH]. intros [_ Es']. congruence. }
  destruct symstr as [[str size]|]; [|done]. accepted H. specialize (Hstr _ _ eq_refl).
  assert (0 <= a) as Ha by (by apply rd_le_range in E as (_ & _ & ? & _)).
  constructor; [|by eapply IH]. intros _. exists str, size. split; [done|]. apply negb_false_iff in E3. subst a1.
  destruct a0; [right|left].
  - destruct lua; [|done]. split; [done|]. exists a. split_and!; [done|lia|]. apply look_accept, lua_api_name_spec in E1; [|lia].
    by apply E1.
  - apply look_accept, any_name_spec in E2; [|lia|auto with blyt]. destruct E2 as [(n & Hn & Hs) _]; [done|]. exists n.
    split; [|done]. unfold sym_name. rewrite E. cbn [mbind option_bind]. rewrite (proj2 (Z.ltb_lt a size)) by lia. done.
Qed.

Lemma entry_loop_spec k p e str size entry b :
  0 <= str -> bytes_ok map -> no_nul entry -> entry_loop map k p e str size entry = Some b ->
  b = true <-> defines map str size (offsets k p e) entry.
Proof.
  intros Hstr Hm He. revert p; induction k as [|k IH]; intros p; cbn [entry_loop offsets].
  { intros [= <-]. split; [done|]. by intros (q & ?%elem_of_nil & _). }
  assert (forall q, ~ (is_export map p /\ sym_name map str size p = Some entry) ->
    q = true <-> defines map str size (offsets k (p + e) e) entry ->
    q = true <-> defines map str size (p :: offsets k (p + e) e) entry) as Hskip.
  { intros q Hno ->. unfold defines. split; intros (r & Hr & H); [exists r; split; [by right|done]|].
    apply elem_of_cons in Hr as [->|Hr]; [by destruct Hno|eauto]. }
  destruct (st_info map p) as [info|] eqn:Ei; cbn [mbind option_bind]; [|done].
  destruct (Z.eqb_spec (ELF32_ST_BIND info) STB_GLOBAL) as [Eg|Ng]; cbn [negb].
  2:{ intros H. apply Hskip; [|by eapply IH]. intros [[(info' & Ei' & Eg') _] _]. congruence. }
  destruct (st_shndx map p) as [shndx|] eqn:Es; cbn [mbind option_bind]; [|done].
  destruct (Z.eqb_spec shndx SHN_UNDEF) as [->|Nu].
  { intros H. apply Hskip; [|by eapply IH]. intros [[_ (shndx' & Es' & Nu')] _]. congruence. }
  destruct (st_name map p) as [name|] eqn:En; cbn [mbind option_bind]; [|done].
  assert (0 <= name) as Hn by (by apply rd_le_range in En as (_ & _ & ? & _)).
  cond Esz.
  { intros H. apply Hskip; [|by eapply IH]. intros [_ Hx]. unfold sym_name in Hx. rewrite En in Hx. cbn [mbind option_bind] in Hx.
    by rewrite (proj2 (Z.ltb_ge name size)) in Hx by lia. }
  assert (sym_name map str size p = str_of map (str + name)) as Hname.
  { unfold sym_name. rewrite En. cbn [mbind option_bind]. by rewrite (proj2 (Z.ltb_lt name size)) by lia. }
  destruct (strcmp_at map (str + name) entry) as [x|] eqn:E; cbn [mbind option_bind]; [|done].
  apply strcmp_at_spec in E; [|lia|done]. destruct x.
  - intros [= <-]. split; [|done]. intros _. exists p. split_and!; [left| |by rewrite Hname; apply E].
    split; [by exists info|by exists shndx].
  - intros H. apply Hskip; [|by eapply IH]. rewrite Hname. intros [_ Hx%E]. done.
Qed.

Lemma entries_loop_spec dynsym dynstr entries u :
  0 <= sh_offset dynstr -> bytes_ok map -> Forall no_nul entries -> entries_loop map dynsym dynstr entries = Accept u ->
  Forall (defines map (sh_offset dynstr) (sh_size dynstr) (entries_of dynsym)) entries.
Proof.
  intros Ho Hm Hn. revert u; induction Hn as [|entry entries Hn _ IH]; intros u; cbn [entries_loop]; [constructor|].
  intros H. accepted H. apply entry_loop_spec in E; [|done..]. apply negb_false_iff in E0. constructor; [by apply E|by eapply IH].
Qed.

Lemma sym_total p :
  bytes_ok map -> 0 <= p -> p + 16 <= len map -> is_Some (st_info map p) /\ is_Some (st_shndx map p) /\ is_Some (st_name map p).
Proof.
  intros Hm Hp Hl. unfold st_info, st_shndx, st_name. split_and!.
  - apply zget_is_Some. lia.
  - destruct (rd_le_ok map (p + 14) 2) as (v & -> & _); [done|lia..|by eexists].
  - destruct (rd_le_ok map p 4) as (v & -> & _); [done|lia..|by eexists].
Qed.

Lemma lua_api_name_total name : 0 <= name -> 0 ∈ drop (Z.to_nat name) map -> is_Some (lua_api_name map name).
Proof.
  intros Hn Hz. unfold lua_api_name. destruct (strncmp_total map name (text "lua_")) as [b ->]; [lia|by apply no_nul_text|done|].
  cbn [mbind option_bind]. destruct b; [by eexists|]. apply strncmp_total; [lia|by apply no_nul_text|done].
Qed.

(** The tables and the strings lie in the image. *)
Lemma import_loop_tame k p e symstr lua :
  bytes_ok map -> ends_nul map -> 0 <= p -> 16 <= e -> p + Z.of_nat k * e <= len map ->
  (forall str size, symstr = Some (str, size) -> 0 <= str /\ (0 < size -> str + size <= len map)) ->
  tame (import_loop map k p e symstr lua).
Proof.
  intros Hm Hnul. revert p; induction k as [|k IH]; intros p Hp He Hl Hstr; cbn [import_loop]; [done|].
  destruct (sym_total p) as ([info ->] & [shndx ->] & [name Hn]); [done|lia|nia|]. cbn [look mbind checked_bind].
  destruct (negb (ELF32_ST_BIND info =? STB_GLOBAL)); [apply IH; lia || done|].
  destruct (negb (shndx =? SHN_UNDEF)); [apply IH; lia || done|]. destruct symstr as [[str size]|]; [|done].
  rewrite Hn. cbn [look mbind checked_bind]. tame_step. destruct (Hstr _ _ eq_refl) as [Hs Hsz].
  assert (0 <= name) as Hn0 by (by apply rd_le_range in Hn as (_ & _ & ? & _)).
  assert (0 ∈ drop (Z.to_nat (str + name)) map) as Hz by (apply ends_nul_drop; [done|lia]).
  apply tame_bind; [destruct lua; [apply tame_look, lua_api_name_total; lia || done|done]|]. intros l _.
  apply tame_bind; [destruct l; [done|apply tame_look, any_name_total; [lia|auto with blyt|done]]|]. intros ok _. tame_step.
  apply IH; lia || done.
Qed.

Lemma entry_loop_total k p e str size entry :
  bytes_ok map -> ends_nul map -> no_nul entry -> 0 <= p -> 16 <= e -> p + Z.of_nat k * e <= len map ->
  0 <= str -> (0 < size -> str + size <= len map) -> is_Some (entry_loop map k p e str size entry).
Proof.
  intros Hm Hnul He. revert p; induction k as [|k IH]; intros p Hp Hent Hl Hs Hsz; cbn [entry_loop]; [by eexists|].
  destruct (sym_total p) as ([info ->] & [shndx ->] & [name Hn]); [done|lia|nia|]. cbn [mbind option_bind].
  destruct (negb (ELF32_ST_BIND info =? STB_GLOBAL)); [apply IH; lia || done|].
  destruct (shndx =? SHN_UNDEF); [apply IH; lia || done|]. rewrite Hn. cbn [mbind option_bind].
  cond E; [apply IH; lia || done|].
  assert (0 <= name) as Hn0 by (by apply rd_le_range in Hn as (_ & _ & ? & _)).
  destruct (strcmp_total map (str + name) entry) as [b ->]; [lia|done|apply ends_nul_drop; [done|lia]|].
  cbn [mbind option_bind]. destruct b; [by eexists|apply IH; lia || done].
Qed.
End symbols.

(** ** Manifests *)

Definition id_char (c : Z) : Prop := 97 <= c <= 122 \/ 48 <= c <= 57 \/ c = 95 \/ c = 45.
(** 1 to 63 characters [a-z0-9_-], the first a letter or a digit. *)
Definition id_ok (id : list Z) : Prop :=
  1 <= len id <= 63 /\ Forall id_char id /\ exists c, head id = Some c /\ (97 <= c <= 122 \/ 48 <= c <= 57).
(** Not empty, and no control character. *)
Definition text_ok (s : list Z) : Prop := s <> [] /\ Forall (fun c => 0x20 <= c /\ c <> 0x7f) s.

Lemma cart_id_valid_spec id : cart_id_valid id = true <-> exists s, id = Some s /\ id_ok s.
Proof.
  destruct id as [[|c r]|]; cbn [cart_id_valid].
  - split; [done|]. intros (s & [= <-] & Hl & _). change (len (A:=Z) []) with 0 in Hl. lia.
  - assert (forallb (fun c => lower c || digit_char c || (c =? 95) || (c =? 45)) (c :: r) = true <-> Forall id_char (c :: r)) as Hc.
    { rewrite forallb_forall, Forall_forall. setoid_rewrite <-list_elem_of_In. unfold id_char, lower, digit_char.
      split; intros H x Hx; specialize (H x Hx); lia. }
    pose proof (len_nonneg r). rewrite len_cons. unfold lower, digit_char in *. split.
    + intros Hv. exists (c :: r). split; [done|]. unfold id_ok. rewrite len_cons. revert Hv. case_match; [done|]. case_match; [done|].
      intros Hv%Hc. split_and!; [lia..|done|]. exists c. split; [done|lia].
    + intros (s & [= <-] & Hl & Hf & d & [= <-] & Hd). rewrite len_cons in Hl. case_match; [lia|]. case_match; [lia|]. by apply Hc.
  - split; [done|]. by intros (s & ? & _).
Qed.

Lemma cart_text_valid_spec s : cart_text_valid s = true <-> exists t, s = Some t /\ text_ok t.
Proof.
  unfold text_ok. destruct s as [[|c r]|]; cbn [cart_text_valid].
  - split; [done|]. by intros (t & [= <-] & ? & _).
  - rewrite forallb_forall. setoid_rewrite <-list_elem_of_In. split.
    + intros H. exists (c :: r). split_and!; [done..|]. apply Forall_forall. intros x Hx. specialize (H x Hx). cbv beta in H. lia.
    + intros (t & [= <-] & _ & H) x Hx. rewrite Forall_forall in H. specialize (H x Hx). lia.
  - split; [done|]. by intros (t & ? & _).
Qed.

(** The buffer of a manifest section, behind its preamble. *)
Definition manifest_buffer (map : list Z) (sh : Elf32_Shdr) (tag buf : list Z) : Prop :=
  SECT_PREAMBLE_SIZE <= sh_size sh /\ sub map (sh_offset sh) 4 = tag /\ sub map (sh_offset sh + 4) 2 = [0; 0]
  /\ buf = sub map (sh_offset sh + 8) (sh_size sh - 8).

Section manifest.
Context (fb : flatcc) (malloc_ok : nat -> Z -> bool) (map : list Z).

Lemma sub_two off lo hi : zget map off = Some lo -> zget map (off + 1) = Some hi -> sub map off 2 = [lo; hi].
Proof.
  intros H1 H2. unfold sub. rewrite (drop_zget _ _ _ H1), (drop_zget _ _ _ H2). done.
Qed.

Lemma section_buffer_spec n sh tag buf :
  bytes_ok map -> len tag = 4 -> section_buffer malloc_ok map n sh tag = Accept buf -> manifest_buffer map sh tag buf.
Proof.
  intros Hm Ht. unfold section_buffer, manifest_buffer. intros H. apply bind_accept in H as (pre & Hp%look_accept & H).
  destruct pre as [[p size]|]; [|done]. accepted H. apply look_accept, rd_inv in H as (_ & _ & _ & ->).
  unfold check_preamble, SECT_PREAMBLE_SIZE in *. revert Hp. cond Es; [done|].
  destruct (memcmp_at map (sh_offset sh) tag) as [t|] eqn:Em; cbn [mbind option_bind]; [|done].
  apply memcmp_at_spec in Em as (Ho & _ & Em). rewrite Ht in Em. destruct t; [|done]. cbn [negb].
  destruct (zget map (sh_offset sh + 4)) as [lo|] eqn:E1; cbn [mbind option_bind]; [|done].
  destruct (zget map (sh_offset sh + 5)) as [hi|] eqn:E2; cbn [mbind option_bind]; [|done].
  destruct (lo + 256 * hi =? 0) eqn:E3; [|done]. intros [= <- <-].
  assert (is_u8 lo /\ is_u8 hi) as [Hlo Hhi].
  { unfold bytes_ok in Hm. rewrite Forall_forall in Hm. split; apply Hm; by eapply zget_elem. }
  unfold is_u8 in *. assert (lo = 0) as -> by lia. assert (hi = 0) as -> by lia.
  split_and!; [lia|by apply Em|apply sub_two; [done|by replace (sh_offset sh + 4 + 1) with (sh_offset sh + 5) by lia]|done].
Qed.

Lemma section_buffer_tame n sh tag :
  len tag = 4 -> 0 <= sh_offset sh -> sh_offset sh + sh_size sh <= len map -> tame (section_buffer malloc_ok map n sh tag).
Proof.
  intros Ht Ho Hl. unfold section_buffer.
  assert (is_Some (check_preamble map (sh_offset sh) (sh_size sh) tag)) as Hpre.
  { unfold check_preamble, SECT_PREAMBLE_SIZE. cond Es; [by eexists|].
    destruct (memcmp_at_total map (sh_offset sh) tag) as [b ->]; [lia|lia|]. cbn [mbind option_bind]. destruct b; cbn [negb]; [|by eexists].
    destruct (zget_is_Some map (sh_offset sh + 4)) as [lo ->]; [lia|].
    destruct (zget_is_Some map (sh_offset sh + 5)) as [hi ->]; [lia|]. cbn [mbind option_bind]. case_match; by eexists. }
  tame_step; [done|]. destruct a as [[p size]|]; [|done]. tame_step. apply tame_look.
  assert (p = sh_offset sh + 8 /\ size = sh_size sh - 8 /\ 8 <= sh_size sh) as (-> & -> & ?).
  { match goal with H : check_preamble _ _ _ _ = _ |- _ => revert H end. unfold check_preamble, SECT_PREAMBLE_SIZE. cond Es; [done|].
    destruct (memcmp_at map _ tag) as [[]|]; cbn [mbind option_bind negb]; [|done..].
    destruct (zget map (sh_offset sh + 4)); cbn [mbind option_bind]; [|done].
    destruct (zget map (sh_offset sh + 5)); cbn [mbind option_bind]; [|done]. case_match; [done|]. intros [= <- <-]. lia. }
  rewrite rd_Some by lia. by eexists.
Qed.
End manifest.
