(* ===== verification/CartLoadTheorems.v ===== *)
(** * CartLoadTheorems: what opening a cart promises

    An accepted cart meets the loader's policy, in its segments, its linkage and its manifest; a cart
    whose tables stay in the file is validated without reading outside of it; and the callback mask
    tells exactly which callbacks the cart exports. *)

From S2P Require Import Prelude ElfSection Elf32 CartLoad CartLoadSpec CartLoadDynamic.
From Stdlib Require Import ZArith Lia Strings.String.
From stdpp Require Import base tactics list.
Open Scope Z_scope.

(** ** The policy *)

(** A RISC-V ELF of the runtime's kind. *)
Record identity_ok (eh : Elf32_Ehdr) : Prop := {
  id_magic : take 4 (e_ident eh) = ELFMAG;
  id_class : e_ident eh !! EI_CLASS = Some ELFCLASS32;
  id_data : e_ident eh !! EI_DATA = Some ELFDATA2LSB;
  id_osabi : e_ident eh !! EI_OSABI = Some ELFOSABI_NONE;
  id_machine : e_machine eh = EM_RISCV;
  id_flags : e_flags eh = BLYT_CART_EF_FLAGS }.

(** The section headers of the image and the offset and size of their names. *)
Definition has_sections (map : list Z) (eh : Elf32_Ehdr) (shs : list Elf32_Shdr) (strtab size : Z) : Prop :=
  read_shdrs map eh = Some shs
  /\ exists hdr, zget shs (e_shstrndx eh) = Some hdr /\ strtab = sh_offset hdr /\ size = sh_size hdr /\ strtab + size <= len map.

(** The cart needs the Lua library. *)
Definition lua_cart (map : list Z) (strtab : Z) (shs : list Elf32_Shdr) : Prop :=
  exists dyn, last_named map strtab ".dynamic" shs = Some dyn /\ needs_lua map shs (dynamic_of map dyn).

(** The strings of the symbols: those of [.dynstr], or else of the section the symbols link to. *)
Definition symstr_of (eh : Elf32_Ehdr) (shs : list Elf32_Shdr) (dynstr : option Elf32_Shdr) (dynsym : Elf32_Shdr) : option (Z * Z) :=
  match dynstr with
  | Some s => Some (sh_offset s, sh_size s)
  | None => if sh_link dynsym <? e_shnum eh then (fun s => (sh_offset s, sh_size s)) <$> zget shs (sh_link dynsym) else None
  end.

Record linkage_ok (map : list Z) (eh : Elf32_Ehdr) (shs : list Elf32_Shdr) (strtab size : Z) : Prop := {
  link_sections : Forall (section_ok map strtab size) shs;
  link_needed : forall dyn, last_named map strtab ".dynamic" shs = Some dyn -> needed_ok map shs (dynamic_of map dyn);
  link_imports : forall dynsym, last_dynsym shs = Some dynsym ->
    Forall (import_ok map (symstr_of eh shs (last_named map strtab ".dynstr" shs) dynsym) (lua_cart map strtab shs)) (entries_of dynsym);
  link_entries : forall dynsym dynstr,
    ~ (is_Some (last_named map strtab ".cart.lua" shs) /\ lua_cart map strtab shs) ->
    last_dynsym shs = Some dynsym -> last_named map strtab ".dynstr" shs = Some dynstr ->
    Forall (defines map (sh_offset dynstr) (sh_size dynstr) (entries_of dynsym)) REQUIRED_ENTRY_POINTS }.

Record manifest_ok (fb : flatcc) (map : list Z) (shs : list Elf32_Shdr) (strtab : Z) (cart : blyt_cart_t) : Prop := {
  man_info : exists sh buf info, last_named map strtab ".cart.info" shs = Some sh /\ manifest_buffer map sh CART_INFO_TAG buf
    /\ CartInfo_verify fb buf = true /\ CartInfo_as_root fb buf = Some info
    /\ api_version_major info = BLYT_API_VERSION_MAJOR /\ cart_is_debug cart = info_debug info
    /\ info_id info = Some (cart_id cart) /\ info_title info = Some (cart_title cart) /\ info_version info = Some (cart_version cart);
  man_names : id_ok (cart_id cart) /\ text_ok (cart_title cart) /\ text_ok (cart_version cart);
  man_config : match last_named map strtab ".cart.config" shs with
    | None => cart_save_version cart = 0 /\ cart_default_palette cart = 0
    | Some sh => exists buf, manifest_buffer map sh CART_CONFIG_TAG buf /\ CartConfig_verify fb buf = true
        /\ (cart_save_version cart, cart_default_palette cart) = default (0, 0) (CartConfig_as_root fb buf)
    end;
  man_layouts : forall sh, last_named map strtab ".cart.layouts" shs = Some sh ->
    exists buf, manifest_buffer map sh CART_LAYOUTS_TAG buf /\ CartLayouts_verify fb buf = true;
  man_dwarf : cart_has_dwarf cart = true <-> Exists (debug_named map strtab) shs }.

(** ** Lemmas *)

Lemma check_ident_spec map eh u : rd_ehdr map = Some eh -> check_ident eh = Accept u -> identity_ok eh.
Proof.
  intros Hr. assert (length (e_ident eh) = 16%nat) as Hl.
  { unfold rd_ehdr in Hr. apply bind_Some in Hr as (id & Hid & Hr). apply rd_inv in Hid as (_ & _ & ? & ->).
    repeat (apply bind_Some in Hr as (? & _ & Hr)). injection Hr as <-. cbn.
    pose proof (len_sub map 0 EI_NIDENT). unfold len, EI_NIDENT in *. lia. }
  assert (forall i v, default 0 (e_ident eh !! i) = v -> (i < 16)%nat -> e_ident eh !! i = Some v) as Hi.
  { intros i v <- Hlt. destruct (lookup_lt_is_Some_2 (e_ident eh) i) as [x ->]; [lia|done]. }
  unfold check_ident. cbv zeta. intros H. accepted H.
  repeat match goal with E : negb _ = false |- _ => apply negb_false_iff in E end.
  split; [by apply bool_decide_eq_true in E|apply Hi; [lia|unfold EI_CLASS, EI_DATA, EI_OSABI; lia]..|lia|lia].
Qed.

(** Every check of an accepted image accepted. *)
Lemma open_accept fb malloc_ok map ok path cart :
  bytes_ok map -> blyt_cart_open fb malloc_ok (Some map) ok path = Accept cart ->
  exists eh shs strtab size st lua debug id title version save_version palette,
    rd_ehdr map = Some eh /\ check_ident eh = Accept tt /\ check_segments map eh = Accept tt
    /\ check_shdrs map eh = Accept (shs, strtab, size) /\ section_walk map strtab size shs no_sections = Accept st
    /\ check_needed map shs st = Accept lua /\ check_imports map eh shs st lua = Accept tt
    /\ check_info fb malloc_ok map st = Accept (debug, id, title, version)
    /\ check_config fb malloc_ok map st = Accept (save_version, palette)
    /\ check_layouts fb malloc_ok map st = Accept tt /\ check_entries map st lua = Accept tt
    /\ cart = MkCart map path debug (sect_dwarf st) save_version palette id title version.
Proof.
  intros Hm. unfold blyt_cart_open. intros H. apply bind_accept in H as ([] & _ & H). apply bind_accept in H as ([] & _ & H).
  unfold open_map in H. apply bind_accept in H as (eh & Heh%look_accept & H).
  apply bind_accept in H as ([] & Hid & H). apply bind_accept in H as ([] & Hseg & H).
  apply bind_accept in H as ([[shs strtab] size] & Hsh & H). apply bind_accept in H as (st & Hst & H).
  apply bind_accept in H as (lua & Hlua & H). apply bind_accept in H as ([] & Himp & H).
  apply bind_accept in H as ([[[debug id] title] version] & Hinfo & H).
  apply bind_accept in H as ([sv pal] & Hcfg & H). apply bind_accept in H as ([] & Hlay & H).
  apply bind_accept in H as ([] & Hent & H). apply bind_accept in H as ([] & _ & H).
  unfold strdup in H. destruct (malloc_ok 7%nat _); [|done]. injection H as <-.
  exists eh, shs, strtab, size, st, lua, debug, id, title, version, sv, pal. split_and!; done.
Qed.

(** The tables of an accepted image, and what the walk found in them. *)
Lemma open_sections map eh shs strtab size st :
  bytes_ok map -> rd_ehdr map = Some eh ->
  check_shdrs map eh = Accept (shs, strtab, size) -> section_walk map strtab size shs no_sections = Accept st ->
  has_sections map eh shs strtab size /\ 0 <= strtab /\ Forall shdr_fields shs /\ Forall (section_ok map strtab size) shs /\ walked map strtab shs st.
Proof.
  intros Hm Heh Hsh Hst.
  assert (0 <= e_shnum eh) as Hn.
  { unfold rd_ehdr in Heh. destruct (rd map 0 EI_NIDENT) as [ident|]; cbn [mbind option_bind] in Heh; [|done]. fields_of Heh.
    injection Heh as <-. cbn. lia. }
  destruct (check_shdrs_spec map eh shs strtab size Hm Hn Hsh) as (Hr & Hf & _ & Hs0 & _ & Hsz & hdr & Hh & Ho & Hs).
  assert (Forall (fun sh => 0 <= sh_name sh) shs) as Hnames by (eapply Forall_impl; [exact Hf|]; by intros sh ([? _] & _)).
  apply section_walk_walked in Hst as [Hok Hw]; [|done..].
  split_and!; try done. split; [done|]. by exists hdr.
Qed.

Lemma check_imports_spec map eh shs st lua u dynsym :
  bytes_ok map -> Forall shdr_fields shs -> (forall dynstr, sect_dynstr_sh st = Some dynstr -> dynstr ∈ shs) ->
  sect_dynsym st = Some dynsym -> check_imports map eh shs st lua = Accept u ->
  Forall (import_ok map (symstr_of eh shs (sect_dynstr_sh st) dynsym) (lua = true)) (entries_of dynsym).
Proof.
  intros Hm Hf Hstr Hd. unfold check_imports. rewrite Hd. intros H. apply bind_accept in H as (u' & _ & H).
  rewrite Forall_forall in Hf.
  apply import_loop_spec in H; [exact H|done|]. intros str size. unfold symbol_strings. intros Hs.
  destruct (sect_dynstr_sh st) as [s|] eqn:Es.
  - injection Hs as <- _. by destruct (Hf s (Hstr s eq_refl)) as (_ & [? _] & _).
  - destruct (_ <? _); [|done]. destruct (zget shs (sh_link dynsym)) as [s|] eqn:Ez; [|done]. injection Hs as <- _.
    by destruct (Hf s (zget_elem _ _ _ Ez)) as (_ & [? _] & _).
Qed.

Lemma last_filter_elem {P : Elf32_Shdr -> Prop} `{forall sh, Decision (P sh)} shs sh : last (filter P shs) = Some sh -> sh ∈ shs /\ P sh.
Proof. by intros [? ?]%last_Some_elem_of%list_elem_of_filter. Qed.

(** The lemma that reads a manifest section out. *)
Lemma info_spec fb malloc_ok map st debug id title version :
  bytes_ok map -> check_info fb malloc_ok map st = Accept (debug, id, title, version) ->
  (exists sh buf info, sect_cart_info st = Some sh /\ manifest_buffer map sh CART_INFO_TAG buf
    /\ CartInfo_verify fb buf = true /\ CartInfo_as_root fb buf = Some info
    /\ api_version_major info = BLYT_API_VERSION_MAJOR /\ debug = info_debug info
    /\ info_id info = Some id /\ info_title info = Some title /\ info_version info = Some version)
  /\ id_ok id /\ text_ok title /\ text_ok version.
Proof.
  intros Hm. unfold check_info. destruct (sect_cart_info st) as [sh|]; [|done]. intros H.
  apply bind_accept in H as (buf & Hbuf%section_buffer_spec & H); [|done..]. apply bind_accept in H as (root & _ & H).
  apply bind_accept in H as (u & Hv%fail_if_accept%negb_false_iff & H).
  destruct (CartInfo_as_root fb buf) as [info|] eqn:Ei; [|done]. cbv zeta in H.
  apply bind_accept in H as (? & Hapi%fail_if_accept%negb_false_iff & H).
  apply bind_accept in H as (? & Hid%fail_if_accept%negb_false_iff & H).
  apply bind_accept in H as (? & Ht%fail_if_accept%negb_false_iff & H).
  apply bind_accept in H as (? & Hver%fail_if_accept%negb_false_iff & H).
  apply cart_id_valid_spec in Hid as (id' & Eid & Hid). apply cart_text_valid_spec in Ht as (title' & Et & Ht).
  apply cart_text_valid_spec in Hver as (version' & Ev & Hver). rewrite Eid, Et, Ev in H. cbn in H. injection H as <- <- <- <-.
  assert (forall n o s, o ≫= strdup malloc_ok n = Some s -> o = Some s) as Hdup.
  { intros n o s Hs. apply bind_Some in Hs as (t & -> & Hs). unfold strdup in Hs. by destruct (malloc_ok n _); simplify_eq. }
  split; [|done]. exists sh, buf, info. split_and!; try done; [lia|by eapply Hdup..].
Qed.

Lemma config_spec fb malloc_ok map st save_version palette :
  bytes_ok map -> check_config fb malloc_ok map st = Accept (save_version, palette) ->
  match sect_cart_config st with
  | None => save_version = 0 /\ palette = 0
  | Some sh => exists buf, manifest_buffer map sh CART_CONFIG_TAG buf /\ CartConfig_verify fb buf = true
      /\ (save_version, palette) = default (0, 0) (CartConfig_as_root fb buf)
  end.
Proof.
  intros Hm. unfold check_config. destruct (sect_cart_config st) as [sh|]; [|by intros [= <- <-]]. intros H.
  apply bind_accept in H as (buf & Hbuf%section_buffer_spec & H); [|done..].
  apply bind_accept in H as (u & Hv%fail_if_accept%negb_false_iff & H). exists buf. split_and!; [done..|congruence].
Qed.

Lemma layouts_spec fb malloc_ok map st u sh :
  bytes_ok map -> check_layouts fb malloc_ok map st = Accept u -> sect_cart_layouts st = Some sh ->
  exists buf, manifest_buffer map sh CART_LAYOUTS_TAG buf /\ CartLayouts_verify fb buf = true.
Proof.
  intros Hm. unfold check_layouts. intros H Hsh. rewrite Hsh in H.
  apply bind_accept in H as (buf & Hbuf%section_buffer_spec & H%fail_if_accept%negb_false_iff); [|done..]. by exists buf.
Qed.

(** ** Opening *)

(** C4: An accepted cart is a RISC-V ELF of the right kind; if it has program headers then every
    loadable segment lies in the file and is never both writable and executable, the stack is not
    executable, the interpreter is the console's, the relocations are read-only, the entry point
    lies in an executable segment, and the first 64 loadable segments are apart in the file and in
    memory and, where executable, hold neither of the four-byte encodings of ecall and ebreak at an even
    offset.  Not excluded are the two-byte breakpoint c.ebreak, the segments behind the
    64th, and anything when there are no program headers. *)
Theorem cart_open_segments fb malloc_ok map ok path cart :
  bytes_ok map -> blyt_cart_open fb malloc_ok (Some map) ok path = Accept cart ->
  exists eh, rd_ehdr map = Some eh /\ identity_ok eh
    /\ (0 < e_phnum eh -> exists phs, read_phdrs map eh = Some phs /\ segments_ok map (e_entry eh) phs).
Proof.
  intros Hm H. destruct (open_accept _ _ _ _ _ _ Hm H) as (eh & shs & strtab & size & st & lua & debug & id & title & version & sv & pal
    & Heh & Hid & Hseg & _).
  exists eh. split_and!; [done|by eapply check_ident_spec|]. by eapply check_segments_spec.
Qed.

(** C5: An accepted cart has no section that runs code at load time; the last section named .dynamic
    names no library outside of the list; the undefined symbols of global binding in the last
    section of dynamic symbols are on the list (or in the Lua interface, when the cart needs the Lua
    library); and, unless it is a Lua cart or has no symbols, that section defines the three entry points.
    What the linker takes from other sections, and weak symbols, is not covered: see the file
    DynLinkImages. *)
Theorem cart_open_linkage fb malloc_ok map ok path cart :
  bytes_ok map -> blyt_cart_open fb malloc_ok (Some map) ok path = Accept cart ->
  exists eh shs strtab size, rd_ehdr map = Some eh /\ has_sections map eh shs strtab size /\ linkage_ok map eh shs strtab size.
Proof.
  intros Hm H. destruct (open_accept _ _ _ _ _ _ Hm H) as (eh & shs & strtab & size & st & lua & debug & id & title & version & sv & pal
    & Heh & _ & _ & Hsh & Hst & Hlua & Himp & _ & _ & _ & Hent & _).
  destruct (open_sections _ _ _ _ _ _ Hm Heh Hsh Hst) as (Hhas & Hs0 & Hf & Hok & Hw).
  apply check_needed_spec in Hlua; [|done..]. rewrite (walked_dynamic _ _ _ _ Hw) in Hlua.
  assert (lua = true <-> lua_cart map strtab shs) as Hl.
  { unfold lua_cart. destruct (last_named map strtab ".dynamic" shs) as [dyn|].
    - destruct Hlua as [_ ->]. split; [intros ?; by exists dyn|]. by intros (? & [= <-] & ?).
    - subst lua. split; [done|]. by intros (? & ? & _). }
  exists eh, shs, strtab, size. split_and!; [done..|]. split; [done| | |].
  - intros dyn Hd. rewrite Hd in Hlua. apply Hlua.
  - intros dynsym Hd. rewrite <-(walked_dynsym _ _ _ _ Hw) in Hd.
    apply (check_imports_spec _ _ _ _ _ _ dynsym) in Himp; [|done..| |done].
    + rewrite <-(walked_dynstr _ _ _ _ Hw). eapply Forall_impl; [exact Himp|]. intros p Hp Hi.
      destruct (Hp Hi) as (str & sz & ? & Hn). exists str, sz. split; [done|]. rewrite <-Hl. done.
    + intros dynstr. rewrite (walked_dynstr _ _ _ _ Hw). by intros [? _]%last_filter_elem.
  - intros dynsym dynstr Hno Hd Hs. unfold check_entries in Hent.
    rewrite (walked_lua _ _ _ _ Hw), (walked_dynsym _ _ _ _ Hw), (walked_dynstr _ _ _ _ Hw), Hd, Hs in Hent.
    destruct (bool_decide _ && lua) eqn:E.
    { exfalso. apply andb_true_iff in E as [E1%bool_decide_eq_true E2]. apply Hno. split; [done|by apply Hl]. }
    eapply entries_loop_spec; [|done|auto with blyt|exact Hent]. apply last_filter_elem in Hs as [Hin _].
    rewrite Forall_forall in Hf. by destruct (Hf _ Hin) as (_ & [? _] & _).
Qed.

(** The record of an accepted cart holds what its manifest says, once the generated verifiers
    have passed on the very bytes that are read: an id of 1 to 63 allowed characters, a title and a
    version without control characters, the API version, the configuration, and whether there is
    debug information. *)
Theorem cart_open_manifest fb malloc_ok map ok path cart :
  bytes_ok map -> blyt_cart_open fb malloc_ok (Some map) ok path = Accept cart ->
  cart_map cart = map /\ cart_path cart = path
  /\ exists eh shs strtab size, rd_ehdr map = Some eh /\ has_sections map eh shs strtab size /\ manifest_ok fb map shs strtab cart.
Proof.
  intros Hm H. destruct (open_accept _ _ _ _ _ _ Hm H) as (eh & shs & strtab & size & st & lua & debug & id & title & version & sv & pal
    & Heh & _ & _ & Hsh & Hst & _ & _ & Hinfo & Hcfg & Hlay & _ & ->).
  destruct (open_sections _ _ _ _ _ _ Hm Heh Hsh Hst) as (Hhas & _ & _ & _ & Hw).
  split_and!; [done..|]. exists eh, shs, strtab, size. split_and!; [done..|].
  apply info_spec in Hinfo as [Hinfo Hnames]; [|done]. apply config_spec in Hcfg; [|done].
  rewrite (walked_info _ _ _ _ Hw) in Hinfo. rewrite (walked_config _ _ _ _ Hw) in Hcfg.
  split; cbn; [done..| |by apply Hw].
  intros sh Hs. eapply layouts_spec; [done..|]. by rewrite (walked_layouts _ _ _ _ Hw).
Qed.

(** ** Staying in the file *)

Definition roles : list string := [".cart.info"; ".cart.config"; ".cart.layouts"; ".dynamic"; ".dynstr"]%string.

(** A file whose last byte ends every string, in which no section the loader reads pretends to take no
    space, in which the size of the dynamic strings is honest, and whose manifest, if it has a
    preamble at all, has the four bytes of a root offset behind it. *)
Record closed_image (map : list Z) : Prop := {
  closed_nul : ends_nul map;
  closed_roles : forall eh shs strtab size s sh, rd_ehdr map = Some eh -> has_sections map eh shs strtab size ->
    s ∈ roles -> last_named map strtab s shs = Some sh -> sh_type sh <> SHT_NOBITS;
  closed_link : forall eh shs strtab size dynsym l, rd_ehdr map = Some eh -> has_sections map eh shs strtab size ->
    last_dynsym shs = Some dynsym -> zget shs (sh_link dynsym) = Some l -> sh_type l <> SHT_NOBITS;
  closed_strsz : forall eh shs strtab size dyn str z, rd_ehdr map = Some eh -> has_sections map eh shs strtab size ->
    last_named map strtab ".dynamic" shs = Some dyn -> dyn_strings shs (dynamic_of map dyn) = Some str ->
    (DT_STRSZ, z) ∈ dynamic_of map dyn -> str + z <= len map;
  closed_info : forall eh shs strtab size sh, rd_ehdr map = Some eh -> has_sections map eh shs strtab size ->
    last_named map strtab ".cart.info" shs = Some sh -> sh_size sh < SECT_PREAMBLE_SIZE \/ SECT_PREAMBLE_SIZE + 4 <= sh_size sh }.

Lemma in_roles s : existsb (String.eqb s) roles = true -> s ∈ roles.
Proof. intros (x & Hx & ->%String.eqb_eq)%existsb_exists. by apply list_elem_of_In. Qed.

(** The table of a section that lies in the file. *)
Lemma table_end (map : list Z) sh :
  shdr_fields sh -> (0 < sh_size sh -> sh_offset sh + sh_size sh <= len map) -> 0 < sh_entsize sh ->
  Z.to_nat (sh_size sh / sh_entsize sh) = 0%nat
  \/ 0 <= sh_offset sh /\ sh_offset sh + Z.of_nat (Z.to_nat (sh_size sh / sh_entsize sh)) * sh_entsize sh <= len map.
Proof.
  intros (_ & [Ho _] & [Hs _] & _) Hf He. destruct (decide (sh_size sh = 0)) as [->|]; [by left|right]. specialize (Hf ltac:(lia)).
  rewrite Z2Nat.id by (apply Z.div_pos; lia). pose proof (Z.mul_div_le (sh_size sh) (sh_entsize sh) He). lia.
Qed.

Lemma check_imports_tame map eh shs st lua :
  bytes_ok map -> ends_nul map ->
  (forall dynsym, sect_dynsym st = Some dynsym -> shdr_fields dynsym /\ (0 < sh_size dynsym -> sh_offset dynsym + sh_size dynsym <= len map)
     /\ forall str size, symbol_strings eh shs st dynsym = Some (str, size) -> 0 <= str /\ (0 < size -> str + size <= len map)) ->
  tame (check_imports map eh shs st lua).
Proof.
  intros Hm Hnul Hd. unfold check_imports, sizeof_Sym. destruct (sect_dynsym st) as [dynsym|]; [|done].
  destruct (Hd _ eq_refl) as (Hf & Hfile & Hstr). tame_step.
  destruct (table_end map dynsym Hf Hfile) as [->|[Ho Hl]]; [lia|done|]. apply import_loop_tame; done || lia.
Qed.

Lemma check_entries_tame map st lua :
  bytes_ok map -> ends_nul map ->
  (forall dynsym, sect_dynsym st = Some dynsym ->
     shdr_fields dynsym /\ sizeof_Sym <= sh_entsize dynsym /\ (0 < sh_size dynsym -> sh_offset dynsym + sh_size dynsym <= len map)) ->
  (forall s, sect_dynstr_sh st = Some s -> 0 <= sh_offset s /\ (0 < sh_size s -> sh_offset s + sh_size s <= len map)) ->
  tame (check_entries map st lua).
Proof.
  intros Hm Hnul Hd Hs. unfold check_entries, sizeof_Sym in *. case_match; [done|].
  destruct (sect_dynsym st) as [dynsym|]; [|done]. destruct (sect_dynstr_sh st) as [dynstr|]; [|done].
  destruct (Hd _ eq_refl) as (Hf & He & Hfile), (Hs _ eq_refl) as [Ho Hsz].
  assert (forall entry, no_nul entry -> is_Some (entry_loop map (Z.to_nat (sh_size dynsym / sh_entsize dynsym)) (sh_offset dynsym)
     (sh_entsize dynsym) (sh_offset dynstr) (sh_size dynstr) entry)) as Hloop.
  { intros entry Hn. destruct (table_end map dynsym Hf Hfile) as [->|[Ho' Hl]]; [lia|by eexists|]. apply entry_loop_total; done || lia. }
  generalize ENTRY_no_nul. generalize REQUIRED_ENTRY_POINTS. intros entries Hn. induction Hn as [|entry entries Hn _ IH]; cbn [entries_loop]; [done|].
  tame_step; [by apply Hloop|]. by tame_step.
Qed.

Lemma manifest_tame fb malloc_ok map st :
  bytes_ok map ->
  (forall sh, sect_cart_info st = Some sh -> sh_size sh < SECT_PREAMBLE_SIZE \/ SECT_PREAMBLE_SIZE + 4 <= sh_size sh) ->
  (forall sh, sect_cart_info st = Some sh \/ sect_cart_config st = Some sh \/ sect_cart_layouts st = Some sh ->
     0 <= sh_offset sh /\ (0 < sh_size sh -> sh_offset sh + sh_size sh <= len map)) ->
  tame (check_info fb malloc_ok map st) /\ tame (check_config fb malloc_ok map st) /\ tame (check_layouts fb malloc_ok map st).
Proof.
  intros Hm Hroot Hf.
  assert (forall n sh (tag : list Z), len tag = 4 -> 0 <= sh_offset sh -> (0 < sh_size sh -> sh_offset sh + sh_size sh <= len map) ->
    tame (section_buffer malloc_ok map n sh tag)) as Hbuf.
  { intros n sh tag Ht Ho Hsz. destruct (decide (0 < sh_size sh)) as [Hp|Hn]; [apply section_buffer_tame; auto|].
    unfold section_buffer, check_preamble, SECT_PREAMBLE_SIZE. by rewrite (proj2 (Z.ltb_lt (sh_size sh) 8)) by lia. }
  unfold check_info, check_config, check_layouts. split_and!.
  - destruct (sect_cart_info st) as [sh|]; [|done]. destruct (Hf sh) as [? ?]; [by left|].
    apply tame_bind; [by apply Hbuf|]. intros buf (Hp & _ & _ & ->)%section_buffer_spec; [|done..]. unfold SECT_PREAMBLE_SIZE in *.
    destruct (Hroot _ eq_refl) as [?|Hs]; [lia|]. rewrite rd_Some by (rewrite ?len_sub; lia). cbn [look mbind checked_bind].
    tame_step. case_match; [|done]. cbv zeta.
    by do 4 tame_step.
  - destruct (sect_cart_config st) as [sh|]; [|done]. destruct (Hf sh) as [? ?]; [by right; left|].
    apply tame_bind; [by apply Hbuf|]. intros buf _. by tame_step.
  - destruct (sect_cart_layouts st) as [sh|]; [|done]. destruct (Hf sh) as [? ?]; [by right; right|].
    apply tame_bind; [by apply Hbuf|]. intros buf _. apply tame_fail_if.
Qed.

(** C6: Validating any file as a cart reads nothing outside of the file, nor of the copy of its
    manifest, provided the file ends with a NUL, none of the sections the loader reads pretends to take no space, the
    declared size of the dynamic strings is honest, and the manifest section, if it has a
    preamble, has four bytes behind it. *)
Theorem cart_open_stays_inside fb malloc_ok map ok path :
  bytes_ok map -> closed_image map -> blyt_cart_open fb malloc_ok (Some map) ok path <> Wild.
Proof.
  intros Hm Hc. pose proof (closed_nul _ Hc) as Hnul. change (tame (blyt_cart_open fb malloc_ok (Some map) ok path)).
  unfold blyt_cart_open. do 2 tame_step. unfold open_map.
  destruct (rd_ehdr_ok map Hm) as (eh & Heh & _ & _ & _ & Hpo & _ & Hn & Hso & Hx & _); [lia|].
  rewrite Heh. cbn [look mbind checked_bind].
  apply tame_bind; [unfold check_ident; cbv zeta; do 5 tame_step; apply tame_fail_if|intros ? _].
  apply tame_bind; [apply check_segments_tame; [done|apply Hpo]|intros ? _].
  apply tame_bind; [by apply check_shdrs_tame|]. intros [[shs strtab] size] Hsh.
  destruct (check_shdrs_spec map eh shs strtab size Hm (proj1 Hn) Hsh) as (_ & Hf & _ & Hs0 & _ & Hsz & _).
  assert (Forall (fun sh => 0 <= sh_name sh) shs) as Hnames by (eapply Forall_impl; [exact Hf|]; by intros sh ([? _] & _)).
  apply tame_bind; [by apply section_walk_tame|]. intros st Hst.
  destruct (open_sections _ _ _ _ _ _ Hm Heh Hsh Hst) as (Hhas & _ & _ & Hok & Hw).
  assert (forall sh, sh ∈ shs -> sh_type sh <> SHT_NOBITS -> shdr_fields sh /\ 0 <= sh_offset sh
            /\ (0 < sh_size sh -> sh_offset sh + sh_size sh <= len map)) as Hfile.
  { intros sh Hin Ht. rewrite Forall_forall in Hf, Hok. pose proof (Hf _ Hin) as Hfs.
    split; [done|]. split; [apply Hfs|]. intros Hp. exact (sect_file _ _ _ _ (Hok _ Hin) Ht Hp). }
  assert (forall s sh, s ∈ roles -> last_named map strtab s shs = Some sh -> shdr_fields sh /\ 0 <= sh_offset sh
            /\ (0 < sh_size sh -> sh_offset sh + sh_size sh <= len map)) as Hrole.
  { intros s sh Hs Hl. apply Hfile; [by apply last_filter_elem in Hl as [? _]|by eapply (closed_roles _ Hc)]. }
  assert (forall sh, last_dynsym shs = Some sh -> shdr_fields sh /\ 0 <= sh_offset sh
            /\ (0 < sh_size sh -> sh_offset sh + sh_size sh <= len map)) as Hsym.
  { intros sh Hl. apply last_filter_elem in Hl as [Hin Ht]. apply Hfile; [done|]. rewrite Ht. unfold SHT_DYNSYM, SHT_NOBITS. lia. }
  apply tame_bind.
  { apply check_needed_tame; [done..|]. intros dyn. rewrite (walked_dynamic _ _ _ _ Hw). intros Hd.
    destruct (Hrole _ _ (in_roles ".dynamic" eq_refl) Hd) as (Hfd & _ & Hld). split_and!; [done..|].
    intros str z. by eapply (closed_strsz _ Hc). }
  intros lua _.
  apply tame_bind.
  { apply check_imports_tame; [done..|]. intros dynsym. rewrite (walked_dynsym _ _ _ _ Hw). intros Hd.
    destruct (Hsym _ Hd) as (Hfd & _ & Hld). split_and!; [done..|]. unfold symbol_strings. rewrite (walked_dynstr _ _ _ _ Hw).
    intros str sz. destruct (last_named map strtab ".dynstr" shs) as [s|] eqn:Es.
    - intros [= <- <-]. by destruct (Hrole _ _ (in_roles ".dynstr" eq_refl) Es) as (_ & ? & ?).
    - destruct (sh_link dynsym <? e_shnum eh); [|discriminate].
      destruct (zget shs (sh_link dynsym)) as [l|] eqn:El; [|discriminate]. intros [= <- <-].
      destruct (Hfile l) as (_ & ? & ?); [by eapply zget_elem|by eapply (closed_link _ Hc)|done]. }
  intros [] Himp.
  destruct (manifest_tame fb malloc_ok map st) as (Hinfo & Hcfg & Hlay).
  { done. }
  { intros sh. rewrite (walked_info _ _ _ _ Hw). by apply (closed_info _ Hc eh shs strtab size). }
  { intros sh. rewrite (walked_info _ _ _ _ Hw), (walked_config _ _ _ _ Hw), (walked_layouts _ _ _ _ Hw).
    intros [Hs|[Hs|Hs]];
      [destruct (Hrole _ _ (in_roles ".cart.info" eq_refl) Hs) as (_ & ? & ?)
      |destruct (Hrole _ _ (in_roles ".cart.config" eq_refl) Hs) as (_ & ? & ?)
      |destruct (Hrole _ _ (in_roles ".cart.layouts" eq_refl) Hs) as (_ & ? & ?)]; done. }
  apply tame_bind; [done|]. intros [[[debug id] title] version] _.
  apply tame_bind; [done|]. intros [sv pal] _. apply tame_bind; [done|]. intros [] _.
  apply tame_bind.
  { apply check_entries_tame; [done..| |].
    - intros dynsym Hd. unfold check_imports in Himp. rewrite Hd in Himp. apply bind_accept in Himp as (? & He%fail_if_accept & _).
      rewrite (walked_dynsym _ _ _ _ Hw) in Hd. destruct (Hsym _ Hd) as (? & _ & ?). split_and!; [done|lia|done].
    - intros s. rewrite (walked_dynstr _ _ _ _ Hw). intros Hs. by destruct (Hrole _ _ (in_roles ".dynstr" eq_refl) Hs) as (_ & ? & ?). }
  intros [] _. tame_step. by destruct (strdup malloc_ok 7 path).
Qed.
