(* ===== verification/CartQueries.v ===== *)
(** * CartQueries: what the queries on an open cart answer

    The callbacks a cart exports, its native code, and the mask of its callbacks are read from the
    symbol table again, without the bounds of the loader: they are exact when every symbol's name
    lies in the image. *)

From S2P Require Import Prelude ElfSection Elf32 CartLoad CartLoadSpec CartLoadDynamic.
From Stdlib Require Import ZArith Lia Strings.String.
From stdpp Require Import base tactics list.
Open Scope Z_scope.

(** The string table and the symbols of the first symbol section. *)
Definition native_symbols (eh : Elf32_Ehdr) (shs : list Elf32_Shdr) : Z * list Z :=
  match List.find (fun sh => sh_type sh =? SHT_DYNSYM) shs with
  | None => (0, [])
  | Some sh =>
      if sh_link sh >=? e_shnum eh then (0, [])
      else match zget shs (sh_link sh) with
           | None => (0, [])
           | Some l => (sh_offset l, offsets (Z.to_nat (sh_size sh / sizeof_Sym)) (sh_offset sh) sizeof_Sym)
           end
  end.

(** A defined symbol that other objects see, with its name. *)
Definition visible (map : list Z) (strtab p : Z) (name : list Z) : Prop :=
  (exists shndx, st_shndx map p = Some shndx /\ shndx <> SHN_UNDEF)
  /\ (exists info, st_info map p = Some info /\ ELF32_ST_BIND info <> STB_LOCAL)
  /\ exists n, st_name map p = Some n /\ str_of map (strtab + n) = Some name.
Definition is_func (map : list Z) (p : Z) : Prop := exists info, st_info map p = Some info /\ ELF32_ST_TYPE info = STT_FUNC.

(** The symbols and their names lie in the image. *)
Definition names_inside (map : list Z) (strtab : Z) (syms : list Z) : Prop :=
  0 <= strtab /\ forall p, p ∈ syms -> 0 <= p /\ p + sizeof_Sym <= len map
    /\ forall n, st_name map p = Some n -> strtab + n < len map.

(** ** The symbol table *)

Lemma read_shdrs_lookup map eh shs i sh :
  0 <= e_shnum eh -> read_shdrs map eh = Some shs -> zget shs i = Some sh -> rd_shdr map (e_shoff eh + i * sizeof_Shdr) = Some sh.
Proof.
  intros Hn H%mapM_Some (Hi & Hs)%zget_Some. destruct (Forall2_lookup_r _ _ _ _ _ H Hs) as (x & (-> & _)%lookup_seqZ & Hx).
  by replace (0 + Z.of_nat (Z.to_nat i)) with i in Hx by lia.
Qed.

Lemma first_dynsym_spec map eh shs l k i :
  0 <= e_shnum eh -> Forall shdr_fields shs -> len shs = e_shnum eh -> read_shdrs map eh = Some shs ->
  0 <= i -> k = length l -> l = drop (Z.to_nat i) shs ->
  first_dynsym k i map eh = Some (match List.find (fun sh => sh_type sh =? SHT_DYNSYM) l with
    | None => None
    | Some sh => if sh_link sh >=? e_shnum eh then None
                 else match zget shs (sh_link sh) with
                      | None => None
                      | Some m => Some (sh_offset m, sh_offset sh, sh_size sh / sizeof_Sym)
                      end
    end).
Proof.
  intros Hn Hf Hlen Hr. revert k i; induction l as [|sh l IH]; intros k i Hi -> Hl; cbn [length first_dynsym List.find]; [done|].
  assert (zget shs i = Some sh) as Hsh.
  { rewrite zget_lookup by lia. replace (Z.to_nat i) with (Z.to_nat i + 0)%nat by lia. by rewrite <-lookup_drop, <-Hl. }
  rewrite (read_shdrs_lookup _ _ _ _ _ Hn Hr Hsh). cbn [mbind option_bind].
  destruct (sh_type sh =? SHT_DYNSYM); cbn [negb].
  - destruct (sh_link sh >=? e_shnum eh) eqn:El; [done|].
    rewrite Forall_forall in Hf. destruct (Hf _ (zget_elem _ _ _ Hsh)) as (_ & _ & _ & [Hlk _] & _).
    destruct (zget_is_Some shs (sh_link sh)) as [m Hm]; [lia|]. rewrite (read_shdrs_lookup _ _ _ _ _ Hn Hr Hm), Hm. done.
  - apply IH; [lia|done|]. rewrite (drop_zget _ _ _ Hsh) in Hl. by injection Hl.
Qed.

Lemma sym_loop_offsets {A} (f : Z -> A -> option (A + A)) k p acc :
  sym_loop f k p acc = (fix go (l : list Z) (acc : A) : option A :=
    match l with [] => Some acc | p :: l => r ← f p acc; match r with inl acc => Some acc | inr acc => go l acc end end)
    (offsets k p sizeof_Sym) acc.
Proof.
  revert p acc; induction k as [|k IH]; intros p acc; cbn; [done|]. destruct (f p acc) as [[|]|]; cbn; [done|apply IH|done].
Qed.

(** A search stops at the first symbol with the property. *)
Lemma sym_loop_search (f : Z -> bool -> option (bool + bool)) (Q : Z -> Prop) k p :
  (forall q, q ∈ offsets k p sizeof_Sym -> Q q /\ f q false = Some (inl true) \/ ~ Q q /\ f q false = Some (inr false)) ->
  exists b, sym_loop f k p false = Some b /\ (b = true <-> exists q, q ∈ offsets k p sizeof_Sym /\ Q q).
Proof.
  revert p; induction k as [|k IH]; intros p Hf; cbn [sym_loop offsets] in *.
  - exists false. split; [done|]. split; [done|]. by intros (q & ?%elem_of_nil & _).
  - destruct (Hf p (list_elem_of_here _ _)) as [[Hq ->]|[Hq ->]]; cbn [mbind option_bind].
    + exists true. split; [done|]. split; [|done]. intros _. exists p. split; [left|done].
    + destruct (IH (p + sizeof_Sym)) as (b & -> & Hb); [intros q Hin; apply Hf; by right|]. exists b. split; [done|]. rewrite Hb.
      split; intros (q & Hin & HQ); [exists q; split; [by right|done]|].
      apply elem_of_cons in Hin as [->|Hin]; [done|eauto].
Qed.

(** ** The three bodies *)

Lemma native_no_nul : Forall no_nul native_lifecycle_names.
Proof. apply names_no_nul. vm_compute. reflexivity. Qed.
Lemma bootstrap_no_nul : Forall no_nul bootstrap.
Proof. apply names_no_nul. vm_compute. reflexivity. Qed.
#[export] Hint Resolve native_no_nul bootstrap_no_nul : blyt.

Section bodies.
Context (map : list Z) (strtab : Z) (syms : list Z).
Hypothesis Hmap : bytes_ok map.
Hypothesis Hnul : ends_nul map.
Hypothesis Hin : names_inside map strtab syms.

(** The fields of a symbol, and its name. *)
Lemma sym_fields p :
  p ∈ syms -> exists shndx info n s, st_shndx map p = Some shndx /\ st_info map p = Some info /\ st_name map p = Some n
    /\ 0 <= strtab + n < len map /\ str_of map (strtab + n) = Some s.
Proof.
  intros Hp. destruct Hin as [Hs Hsyms]. destruct (Hsyms p Hp) as (Hp0 & Hpl & Hn). unfold sizeof_Sym in Hpl.
  destruct (sym_total map p Hmap) as ([info Ei] & [shndx Es] & [n En]); [lia|lia|].
  assert (0 <= n) as Hn0 by (by apply rd_le_range in En as (_ & _ & ? & _)). specialize (Hn _ En).
  assert (0 ∈ drop (Z.to_nat (strtab + n)) map) as Hz by (apply ends_nul_drop; [done|lia]).
  assert (is_Some (str_of map (strtab + n))) as [s Hstr].
  { unfold str_of. induction (drop (Z.to_nat (strtab + n)) map) as [|c l IH]; [by apply elem_of_nil in Hz|]. cbn [cstr].
    destruct (Z.eqb_spec c 0); [by eexists|]. apply elem_of_cons in Hz as [|Hz]; [congruence|].
    destruct (IH Hz) as [t ->]. by eexists. }
  exists shndx, info, n, s. split_and!; done || lia.
Qed.

Lemma any_name_of off s names :
  0 <= off -> str_of map off = Some s -> off < len map -> Forall no_nul names ->
  any_name map off names = Some (bool_decide (s ∈ names)).
Proof.
  intros Ho Hs Hl Hn. destruct (any_name_total map off names) as [b Hb]; [done..|apply ends_nul_drop; [done|lia]|].
  rewrite Hb. f_equal. apply any_name_spec in Hb; [|done..]. apply eq_true_iff_eq. rewrite Hb, bool_decide_eq_true, Hs.
  split; [by intros (? & ? & [= ->])|by exists s].
Qed.

Lemma lifecycle_sym_spec p :
  p ∈ syms ->
  (exists name, visible map strtab p name /\ name ∈ native_lifecycle_names) /\ lifecycle_sym map strtab p false = Some (inl true)
  \/ ~ (exists name, visible map strtab p name /\ name ∈ native_lifecycle_names) /\ lifecycle_sym map strtab p false = Some (inr false).
Proof.
  intros Hp. destruct (sym_fields p Hp) as (shndx & info & n & s & Es & Ei & En & Ho & Hs).
  unfold lifecycle_sym, visible. rewrite Es, Ei, En. cbn [mbind option_bind].
  destruct (Z.eqb_spec shndx SHN_UNDEF) as [->|Nu]; [right; split; [naive_solver|done]|].
  destruct (Z.eqb_spec (ELF32_ST_BIND info) STB_LOCAL) as [El|Nl]; [right; split; [naive_solver|done]|].
  rewrite (any_name_of _ _ _ (proj1 Ho) Hs (proj2 Ho)) by auto with blyt. cbn [mbind option_bind].
  case_bool_decide; [left|right]; (split; [|done]); naive_solver.
Qed.

Lemma code_sym_spec p :
  p ∈ syms ->
  (is_func map p /\ exists name, visible map strtab p name /\ name ∉ bootstrap) /\ code_sym map strtab p false = Some (inl true)
  \/ ~ (is_func map p /\ exists name, visible map strtab p name /\ name ∉ bootstrap) /\ code_sym map strtab p false = Some (inr false).
Proof.
  intros Hp. destruct (sym_fields p Hp) as (shndx & info & n & s & Es & Ei & En & Ho & Hs).
  unfold code_sym, visible, is_func. rewrite Es, Ei, En. cbn [mbind option_bind].
  destruct (Z.eqb_spec shndx SHN_UNDEF) as [->|Nu]; [right; split; [naive_solver|done]|].
  destruct (Z.eqb_spec (ELF32_ST_TYPE info) STT_FUNC) as [Ef|Nf]; cbn [negb]; [|right; split; [naive_solver|done]].
  destruct (Z.eqb_spec (ELF32_ST_BIND info) STB_LOCAL) as [El|Nl]; [right; split; [naive_solver|done]|].
  rewrite (any_name_of _ _ _ (proj1 Ho) Hs (proj2 Ho)) by auto with blyt. cbn [mbind option_bind].
  case_bool_decide; [right|left]; (split; [|done]); naive_solver.
Qed.

Lemma strcmp_of off s n :
  0 <= off < len map -> str_of map off = Some s -> no_nul n -> strcmp_at map off n = Some (bool_decide (s = n)).
Proof.
  intros Ho Hs Hn. destruct (strcmp_total map off n) as [b Hb]; [lia|done|by apply ends_nul_drop|].
  rewrite Hb. f_equal. apply strcmp_at_spec in Hb; [|lia|done]. apply eq_true_iff_eq. rewrite Hb, bool_decide_eq_true, Hs. naive_solver.
Qed.

(** The bit of every place at which the name stands is set. *)
Lemma name_bits_spec off s names k mask :
  0 <= off < len map -> str_of map off = Some s -> Forall no_nul names -> 0 <= k ->
  exists mask', name_bits map off names k mask = Some mask'
    /\ forall j, 0 <= j -> Z.testbit mask' j = true <-> Z.testbit mask j = true \/ k <= j /\ names !! Z.to_nat (j - k) = Some s.
Proof.
  intros Ho Hs Hn. revert k mask; induction Hn as [|n names Hn _ IH]; intros k mask Hk; cbn [name_bits].
  - exists mask. split; [done|]. intros j Hj. rewrite lookup_nil. naive_solver.
  - rewrite (strcmp_of _ _ _ Ho Hs Hn). cbn [mbind option_bind].
    destruct (IH (k + 1) (if bool_decide (s = n) then Z.lor mask (Z.shiftl 1 k) else mask)) as (mask' & -> & Hm); [lia|].
    exists mask'. split; [done|]. intros j Hj. rewrite Hm by done.
    assert (Z.testbit (if bool_decide (s = n) then Z.lor mask (Z.shiftl 1 k) else mask) j = true
            <-> Z.testbit mask j = true \/ j = k /\ s = n) as ->.
    { case_bool_decide; [|naive_solver]. rewrite Z.lor_spec, orb_true_iff, Z.shiftl_1_l, Z.pow2_bits_eqb by lia. rewrite Z.eqb_eq.
      naive_solver. }
    destruct (decide (j = k)) as [->|].
    + rewrite Z.sub_diag. cbn. split; [intros [[?|[_ ->]]|[? _]]; [by left|by right|lia]|]. intros [|[_ [= ->]]]; [by left; left|by left; right].
    + split.
      * intros [[|[]]|[Hj' Hl]]; [by left|done|right]. split; [lia|].
        by replace (Z.to_nat (j - k)) with (S (Z.to_nat (j - (k + 1)))) by lia.
      * intros [|[Hj' Hl]]; [by left; left|right]. split; [lia|].
        by replace (Z.to_nat (j - k)) with (S (Z.to_nat (j - (k + 1)))) in Hl by lia.
Qed.

Lemma mask_sym_spec p mask :
  p ∈ syms -> exists mask', mask_sym map strtab p mask = Some (inr mask')
    /\ forall j, 0 <= j -> Z.testbit mask' j = true <-> Z.testbit mask j = true
         \/ exists name, visible map strtab p name /\ lifecycle_map !! Z.to_nat j = Some name.
Proof.
  intros Hp. destruct (sym_fields p Hp) as (shndx & info & n & s & Es & Ei & En & Ho & Hs).
  unfold mask_sym, visible. rewrite Es, Ei, En. cbn [mbind option_bind].
  destruct (Z.eqb_spec shndx SHN_UNDEF) as [->|Nu]; [exists mask; split; [done|naive_solver]|].
  destruct (Z.eqb_spec (ELF32_ST_BIND info) STB_LOCAL) as [El|Nl]; [exists mask; split; [done|naive_solver]|].
  destruct (name_bits_spec _ s lifecycle_map 0 mask Ho Hs) as (mask' & -> & Hm); [auto with blyt|done|]. cbn [mbind option_bind].
  exists mask'. split; [done|]. intros j Hj. rewrite Hm by done. rewrite Z.sub_0_r. apply or_iff_compat_l. split.
  - intros [_ Hl]. exists s. split; [|done]. split_and!; [by exists shndx|by exists info|by exists n].
  - intros (name & (_ & _ & n' & [= <-] & Hs') & Hl). rewrite Hs in Hs'. by injection Hs' as <-.
Qed.

Lemma mask_loop_spec k p mask :
  (forall q, q ∈ offsets k p sizeof_Sym -> q ∈ syms) ->
  exists mask', sym_loop (mask_sym map strtab) k p mask = Some mask'
    /\ forall j, 0 <= j -> Z.testbit mask' j = true <-> Z.testbit mask j = true
         \/ exists q name, q ∈ offsets k p sizeof_Sym /\ visible map strtab q name /\ lifecycle_map !! Z.to_nat j = Some name.
Proof.
  revert p mask; induction k as [|k IH]; intros p mask Hsub; cbn [sym_loop offsets].
  - exists mask. split; [done|]. intros j _. split; [by left|]. by intros [|(q & name & ?%elem_of_nil & _)].
  - destruct (mask_sym_spec p mask) as (mask1 & -> & H1); [apply Hsub; left|]. cbn [mbind option_bind].
    destruct (IH (p + sizeof_Sym) mask1) as (mask' & -> & H2); [intros q Hq; apply Hsub; by right|].
    exists mask'. split; [done|]. intros j Hj. rewrite H2, H1 by done. rewrite Logic.or_assoc. apply or_iff_compat_l. split.
    + intros [(name & Hv & Hl)|(q & name & Hq & Hv & Hl)]; [exists p, name|exists q, name]; (split; [|done]); [left|by right].
    + intros (q & name & [->|Hq]%elem_of_cons & Hv & Hl); [left; by exists name|right; by exists q, name].
Qed.
End bodies.

(** ** The queries *)

Definition queries_ready (cart : blyt_cart_t) (eh : Elf32_Ehdr) (shs : list Elf32_Shdr) : Prop :=
  bytes_ok (cart_map cart) /\ ends_nul (cart_map cart) /\ rd_ehdr (cart_map cart) = Some eh /\ read_shdrs (cart_map cart) eh = Some shs
  /\ let '(strtab, syms) := native_symbols eh shs in syms <> [] -> names_inside (cart_map cart) strtab syms.

(** The walk over the symbols, in terms of the symbol section. *)
Lemma dynsyms_spec {A} cart eh shs (f : list Z -> Z -> Z -> A -> option (A + A)) acc :
  queries_ready cart eh shs ->
  exists k p, (native_symbols eh shs).2 = offsets k p sizeof_Sym
    /\ dynsyms (Some cart) f acc = sym_loop (f (cart_map cart) (native_symbols eh shs).1) k p acc.
Proof.
  intros (Hm & _ & Heh & Hr & _).
  assert (0 <= e_shnum eh) as Hn.
  { unfold rd_ehdr in Heh. destruct (rd (cart_map cart) 0 EI_NIDENT) as [ident|]; cbn [mbind option_bind] in Heh; [|done]. fields_of Heh.
    injection Heh as <-. cbn. lia. }
  destruct (read_shdrs_spec _ _ _ Hm Hn Hr) as [Hf Hl]. cbn [dynsyms]. rewrite Heh. cbn [mbind option_bind].
  rewrite (first_dynsym_spec (cart_map cart) eh shs shs) by (try done; unfold len in Hl; lia). cbn [mbind option_bind].
  unfold native_symbols. destruct (List.find _ shs) as [sh|]; [|by exists 0%nat, 0].
  destruct (sh_link sh >=? e_shnum eh); [by exists 0%nat, 0|]. destruct (zget shs (sh_link sh)) as [l|]; [|by exists 0%nat, 0].
  cbn. by eexists _, _.
Qed.

(** The mask, bit by bit. *)
Lemma lifecycle_mask_spec cart eh shs :
  queries_ready cart eh shs ->
  exists mask, blyt_cart_native_lifecycle_mask (Some cart) = Some mask
    /\ forall j, 0 <= j -> Z.testbit mask j = true <->
         exists p name, p ∈ (native_symbols eh shs).2 /\ visible (cart_map cart) (native_symbols eh shs).1 p name /\ lifecycle_map !! Z.to_nat j = Some name.
Proof.
  intros Hready. unfold blyt_cart_native_lifecycle_mask. destruct (dynsyms_spec cart eh shs mask_sym 0 Hready) as (k & p & Hsyms & ->).
  destruct Hready as (Hm & Hnul & _ & _ & Hin). destruct (native_symbols eh shs) as [strtab syms]. cbn [fst snd] in *.
  destruct (decide (syms = [])) as [->|Hne].
  { assert (k = 0%nat) as -> by (by destruct k). exists 0. split; [done|]. intros j _. rewrite Z.bits_0. split; [done|]. by intros (? & ? & ?%elem_of_nil & _). }
  destruct (mask_loop_spec (cart_map cart) strtab syms Hm Hnul (Hin Hne) k p 0) as (mask & Hmask & Hbits); [by rewrite <-Hsyms|].
  exists mask. split; [done|]. intros j Hj. rewrite Hbits, Z.bits_0, <-Hsyms by done. split; [by intros [|]|by right].
Qed.

(** The callback mask of an open cart has exactly the bits of the callbacks the cart exports, and
    the two native-code queries say whether there is a native callback and whether there is a
    native function besides the Lua bootstrap, as long as every symbol's name lies in the
    image. *)
Theorem cart_queries_exact cart eh shs :
  queries_ready cart eh shs ->
  let '(strtab, syms) := native_symbols eh shs in
  (exists mask, blyt_cart_native_lifecycle_mask (Some cart) = Some mask
     /\ forall j, 0 <= j -> Z.testbit mask j = true <->
          exists p name, p ∈ syms /\ visible (cart_map cart) strtab p name /\ lifecycle_map !! Z.to_nat j = Some name)
  /\ (exists b, blyt_cart_has_native_lifecycle (Some cart) = Some b
     /\ (b = true <-> exists p name, p ∈ syms /\ visible (cart_map cart) strtab p name /\ name ∈ native_lifecycle_names))
  /\ (exists b, blyt_cart_has_native_code (Some cart) = Some b
     /\ (b = true <-> exists p name, p ∈ syms /\ is_func (cart_map cart) p /\ visible (cart_map cart) strtab p name /\ name ∉ bootstrap)).
Proof.
  intros Hready. destruct (lifecycle_mask_spec cart eh shs Hready) as (mask & Hmask & Hbits).
  unfold blyt_cart_has_native_lifecycle, blyt_cart_has_native_code.
  destruct (dynsyms_spec cart eh shs lifecycle_sym false Hready) as (k1 & p1 & Hsyms1 & ->).
  destruct (dynsyms_spec cart eh shs code_sym false Hready) as (k2 & p2 & Hsyms2 & ->).
  destruct Hready as (Hm & Hnul & _ & _ & Hin). destruct (native_symbols eh shs) as [strtab syms]. cbn [fst snd] in *.
  split; [by exists mask|]. destruct (decide (syms = [])) as [E|Hne]; [rewrite E in *|specialize (Hin Hne)].
  { assert (forall k p, [] = offsets k p sizeof_Sym -> k = 0%nat) as H0 by (by intros []).
    apply H0 in Hsyms1 as ->, Hsyms2 as ->. cbn [sym_loop]. split; eexists; (split; [done|]); (split; [done|]).
    - by intros (? & ? & ?%elem_of_nil & _).
    - by intros (? & ? & ?%elem_of_nil & _). }
  split.
  - edestruct (sym_loop_search (lifecycle_sym (cart_map cart) strtab)) as (b & -> & Hb);
      [rewrite <-Hsyms1; by apply lifecycle_sym_spec|]. exists b. split; [done|]. rewrite Hb, <-Hsyms1. naive_solver.
  - edestruct (sym_loop_search (code_sym (cart_map cart) strtab)) as (b & -> & Hb);
      [rewrite <-Hsyms2; by apply code_sym_spec|]. exists b. split; [done|]. rewrite Hb, <-Hsyms2. naive_solver.
Qed.
