(* ===== verification/CartImages.v ===== *)
(** * CartImages: small cart images, and what the loader lets through

    A builder of ELF images, one image that meets every hypothesis of the theorems on cart
    loading, and variants of it that show what the checks do not see. *)

From S2P Require Import Prelude ElfSection Elf32 CartLoad CartLoadSpec CartLoadDynamic CartLoadTheorems CartQueries.
From Stdlib Require Import ZArith Lia Strings.String.
From stdpp Require Import base tactics list.
Open Scope Z_scope.

(** ** The builder *)

Definition b16 (v : Z) : list Z := le_bytes 2 v.
Definition b32 (v : Z) : list Z := le_bytes 4 v.

Definition ehdr_bytes (entry phoff shoff phnum shnum shstrndx : Z) : list Z :=
  ELFMAG ++ [1; 1; 1; 0] ++ replicate 8 0 ++ b16 3 ++ b16 EM_RISCV ++ b32 1 ++ b32 entry ++ b32 phoff ++ b32 shoff
  ++ b32 BLYT_CART_EF_FLAGS ++ b16 52 ++ b16 32 ++ b16 phnum ++ b16 40 ++ b16 shnum ++ b16 shstrndx.
Definition phdr_bytes (ty off vaddr size flags : Z) : list Z :=
  b32 ty ++ b32 off ++ b32 vaddr ++ b32 vaddr ++ b32 size ++ b32 size ++ b32 flags ++ b32 4.
Definition shdr_bytes (name ty addr off size link entsize : Z) : list Z :=
  b32 name ++ b32 ty ++ b32 0 ++ b32 addr ++ b32 off ++ b32 size ++ b32 link ++ b32 0 ++ b32 0 ++ b32 entsize.
Definition sym_bytes (name info shndx : Z) : list Z := b32 name ++ b32 0 ++ b32 0 ++ [info; 0] ++ b16 shndx.
Definition dyn_bytes (tag v : Z) : list Z := b32 tag ++ b32 v.
Definition str (s : string) : list Z := text s ++ [0].

(** What a variant changes. *)
Record variant := MkVariant {
  v_segments : list (list Z);          (** program headers behind the interpreter, the read-only relocations and the code *)
  v_code : list Z;                     (** 8 bytes of code *)
  v_dynamic : list (list Z);           (** entries before the last *)
  v_symbols : list (list Z);
  v_info_type : Z; v_info_off : option Z;    (** type of the manifest section, and where it pretends to be *)
  v_symtype : Z;                       (** type of the symbol section *)
  v_phnum : option Z }.                (** the number of program headers it pretends to have *)

Definition strings : list Z :=
  [0] ++ str "libblyt32.so" ++ str "blyt_quit" ++ str "blyt_cart_init" ++ str "blyt_cart_update" ++ str "blyt_cart_draw".
Definition names : list Z := [0] ++ str ".dynstr" ++ str ".dynamic" ++ str ".dynsym" ++ str ".cart.info" ++ str ".shstrtab".

Definition image (v : variant) : list Z :=
  let nph := 3 + len (v_segments v) in
  let interp := 52 + 32 * nph in
  let code := interp + 20 in
  let dynstr := code + 8 in
  let dynamic := dynstr + len strings in
  let ndyn := 1 + len (v_dynamic v) in
  let dynsym := dynamic + 8 * ndyn in
  let nsym := len (v_symbols v) in
  let info := dynsym + 16 * nsym in
  let shstr := info + 12 in
  let shoff := shstr + len names in
  ehdr_bytes code 52 shoff (default nph (v_phnum v)) 6 5
  ++ phdr_bytes PT_INTERP interp interp 18 PF_R ++ phdr_bytes PT_GNU_RELRO dynamic dynamic 8 PF_R
  ++ phdr_bytes PT_LOAD code code 8 (PF_R + PF_X) ++ concat (v_segments v)
  ++ BLYT_INTERP_PATH ++ [0; 0; 0] ++ v_code v ++ strings
  ++ concat (v_dynamic v) ++ dyn_bytes DT_NULL 0 ++ concat (v_symbols v)
  ++ CART_INFO_TAG ++ [0; 0; 0; 0; 1; 2; 3; 4] ++ names
  ++ shdr_bytes 0 0 0 0 0 0 0
  ++ shdr_bytes 1 SHT_STRTAB 4096 dynstr (len strings) 0 0
  ++ shdr_bytes 9 6 0 dynamic (8 * ndyn) 1 8
  ++ shdr_bytes 18 (v_symtype v) 0 dynsym (16 * nsym) 1 16
  ++ shdr_bytes 26 (v_info_type v) 0 (default info (v_info_off v)) 12 0 0
  ++ shdr_bytes 37 SHT_STRTAB 0 shstr (len names) 0 0.

Definition nops : list Z := [0x13; 0; 0; 0; 0x13; 0; 0; 0].
Definition GLOBAL_FUNC : Z := 0x12.
Definition demo_symbols : list (list Z) :=
  [sym_bytes 0 0 0; sym_bytes 14 GLOBAL_FUNC 0; sym_bytes 24 GLOBAL_FUNC 1; sym_bytes 39 GLOBAL_FUNC 1; sym_bytes 56 GLOBAL_FUNC 1].
Definition demo_dynamic : list (list Z) := [dyn_bytes DT_NEEDED 1; dyn_bytes DT_STRTAB 4096; dyn_bytes DT_STRSZ (len strings)].
Definition plain : variant := MkVariant [] nops demo_dynamic demo_symbols 1 None SHT_DYNSYM None.

(** Stand-ins for the generated code: one fixed manifest. *)
Definition demo_fb : flatcc := {|
  CartInfo_verify buf := 4 <=? len buf;
  CartInfo_as_root _ := Some (MkInfo 0 false (Some (text "demo")) (Some (text "Demo")) (Some (text "1.0.0")));
  CartConfig_verify _ := true; CartConfig_as_root _ := None; CartLayouts_verify _ := true |}.
Definition demo_open (v : variant) : checked blyt_cart_t := blyt_cart_open demo_fb (fun _ _ => true) (Some (image v)) true (text "demo.cart").
Definition demo_cart (v : variant) : blyt_cart_t :=
  MkCart (image v) (text "demo.cart") false false 0 0 (text "demo") (text "Demo") (text "1.0.0").

Example plain_opens : demo_open plain = Accept (demo_cart plain).
Proof. vm_compute. reflexivity. Qed.

(** ** Checking the hypotheses on an image *)

Lemma image_bytes_ok map : forallb (fun x => (0 <=? x) && (x <? 256)) map = true -> bytes_ok map.
Proof.
  intros H. apply Forall_forall. intros x Hx%list_elem_of_In. rewrite forallb_forall in H. specialize (H x Hx).
  unfold is_u8. lia.
Qed.

(** [closed_image], as a test. *)
Definition closed_check (map : list Z) : bool :=
  bool_decide (ends_nul map) &&
  match rd_ehdr map with
  | None => true
  | Some eh =>
      match read_shdrs map eh with
      | None => true
      | Some shs =>
          match zget shs (e_shstrndx eh) with
          | None => true
          | Some hdr =>
              let strtab := sh_offset hdr in
              forallb (fun s => match last_named map strtab s shs with Some sh => negb (sh_type sh =? SHT_NOBITS) | None => true end) roles
              && match last_dynsym shs with
                 | Some d => match zget shs (sh_link d) with Some l => negb (sh_type l =? SHT_NOBITS) | None => true end
                 | None => true
                 end
              && match last_named map strtab ".cart.info" shs with Some sh => (sh_size sh <? 8) || (12 <=? sh_size sh) | None => true end
              && match last_named map strtab ".dynamic" shs with
                 | None => true
                 | Some dyn =>
                     match dyn_strings shs (dynamic_of map dyn) with
                     | None => true
                     | Some str => forallb (fun '(tag, z) => negb (tag =? DT_STRSZ) || (str + z <=? len map)) (dynamic_of map dyn)
                     end
                 end
          end
      end
  end.

Lemma closed_check_sound map : closed_check map = true -> closed_image map.
Proof.
  unfold closed_check, has_sections. intros [Hnul H]%andb_true_iff. apply bool_decide_eq_true in Hnul.
  split; [done|intros eh shs strtab size s sh|intros eh shs strtab size dynsym l|intros eh shs strtab size dyn str z|intros eh shs strtab size sh];
    intros Heh (Hr & hdr & Hh & -> & _); rewrite Heh, Hr, Hh in H; cbv zeta in H;
    apply andb_true_iff in H as [[[H1 H2]%andb_true_iff H4]%andb_true_iff H3].
  - intros Hin Hl. rewrite forallb_forall in H1. specialize (H1 s (proj1 (list_elem_of_In _ _) Hin)). cbv beta in H1. rewrite Hl in H1.
    lia.
  - intros Hd Hl. rewrite Hd, Hl in H2. lia.
  - intros Hd Hs Hz. rewrite Hd, Hs, forallb_forall in H3. specialize (H3 _ (proj1 (list_elem_of_In _ _) Hz)). cbv beta iota in H3. lia.
  - intros Hs. rewrite Hs in H4. unfold SECT_PREAMBLE_SIZE. lia.
Qed.

Lemma plain_ok : bytes_ok (image plain) /\ closed_image (image plain).
Proof. split; [apply image_bytes_ok|apply closed_check_sound]; vm_compute; reflexivity. Qed.

(** ** Witnesses *)

Lemma cart_open_segments_witness :
  exists eh phs, rd_ehdr (image plain) = Some eh /\ identity_ok eh
    /\ read_phdrs (image plain) eh = Some phs /\ segments_ok (image plain) (e_entry eh) phs.
Proof.
  destruct (cart_open_segments demo_fb (fun _ _ => true) (image plain) true (text "demo.cart") (demo_cart plain)) as (eh & Heh & Hid & Hseg).
  - apply plain_ok.
  - exact plain_opens.
  - destruct Hseg as (phs & Hphs); [|by exists eh, phs].
    assert (option_map (fun eh => 0 <? e_phnum eh) (rd_ehdr (image plain)) = Some true) as Hp by (vm_compute; reflexivity).
    rewrite Heh in Hp. injection Hp as Hp. by apply Z.ltb_lt.
Defined.

Lemma cart_open_linkage_witness :
  exists eh shs strtab size, has_sections (image plain) eh shs strtab size /\ linkage_ok (image plain) eh shs strtab size.
Proof.
  destruct (cart_open_linkage demo_fb (fun _ _ => true) (image plain) true (text "demo.cart") (demo_cart plain))
    as (eh & shs & strtab & size & _ & Hhas & Hl).
  - apply plain_ok.
  - exact plain_opens.
  - by exists eh, shs, strtab, size.
Defined.

Lemma cart_open_manifest_witness :
  exists shs strtab, manifest_ok demo_fb (image plain) shs strtab (demo_cart plain).
Proof.
  destruct (cart_open_manifest demo_fb (fun _ _ => true) (image plain) true (text "demo.cart") (demo_cart plain))
    as (_ & _ & eh & shs & strtab & size & _ & _ & Hm).
  - apply plain_ok.
  - exact plain_opens.
  - by exists shs, strtab.
Defined.

Lemma cart_open_stays_inside_witness :
  blyt_cart_open demo_fb (fun _ _ => false) (Some (image plain)) true (text "demo.cart") <> Wild.
Proof.
  apply (cart_open_stays_inside demo_fb (fun _ _ => false) (image plain) true (text "demo.cart")); apply plain_ok.
Defined.

(** [queries_ready], as a test. *)
Definition queries_check (map : list Z) : bool :=
  bool_decide (ends_nul map) && forallb (fun x => (0 <=? x) && (x <? 256)) map &&
  match rd_ehdr map with
  | None => false
  | Some eh =>
      match read_shdrs map eh with
      | None => false
      | Some shs =>
          let '(strtab, syms) := native_symbols eh shs in
          (0 <=? strtab) && forallb (fun p => (0 <=? p) && (p + sizeof_Sym <=? len map)
            && match st_name map p with Some n => strtab + n <? len map | None => true end) syms
      end
  end.

Lemma queries_check_sound cart : queries_check (cart_map cart) = true -> exists eh shs, queries_ready cart eh shs.
Proof.
  unfold queries_check, queries_ready. intros [[Hnul Hb]%andb_true_iff H]%andb_true_iff. apply bool_decide_eq_true in Hnul.
  destruct (rd_ehdr (cart_map cart)) as [eh|]; [|done]. destruct (read_shdrs (cart_map cart) eh) as [shs|] eqn:Er; [|done].
  exists eh, shs. split_and!; [by apply image_bytes_ok|done..|]. destruct (native_symbols eh shs) as [strtab syms].
  apply andb_true_iff in H as [H0 H]. intros _. split; [lia|]. intros p Hp%list_elem_of_In. rewrite forallb_forall in H.
  specialize (H p Hp). cbv beta in H. apply andb_true_iff in H as [H1 H2]. split_and!; [lia..|]. intros n Hn. rewrite Hn in H2. lia.
Qed.

Lemma plain_ready : exists eh shs, queries_ready (demo_cart plain) eh shs.
Proof. apply queries_check_sound. vm_compute. reflexivity. Qed.

(** The demonstration cart exports init, update and draw: bits 0, 1 and 2. *)
Lemma cart_queries_exact_witness :
  exists mask, blyt_cart_native_lifecycle_mask (Some (demo_cart plain)) = Some mask /\ Z.testbit mask 2 = true /\ Z.testbit mask 3 = false.
Proof.
  destruct plain_ready as (eh & shs & Hr). pose proof (cart_queries_exact (demo_cart plain) eh shs Hr) as H.
  destruct (native_symbols eh shs) as [strtab syms]. destruct H as [(mask & Hmask & _) _].
  exists mask. split; [exact Hmask|].
  assert (blyt_cart_native_lifecycle_mask (Some (demo_cart plain)) = Some 7) as H7 by (vm_compute; reflexivity).
  rewrite H7 in Hmask. injection Hmask as <-. clear. split; reflexivity.
Defined.

(** ** What the loader lets through *)

(** The manifest section takes no space in the file, and claims to be at an offset beyond its end. *)
Definition hidden_info : variant := MkVariant [] nops demo_dynamic demo_symbols SHT_NOBITS (Some 0x4000) SHT_DYNSYM None.
(** The declared size of the dynamic strings is the whole address space. *)
Definition long_strings : variant :=
  MkVariant [] nops [dyn_bytes DT_NEEDED 0x4000; dyn_bytes DT_STRTAB 4096; dyn_bytes DT_STRSZ 0xffffffff] demo_symbols 1 None SHT_DYNSYM None.
(** 64 loadable segments, all but one empty, then a system call in an executable segment. *)
Definition many_segments : variant :=
  MkVariant (replicate 63 (phdr_bytes PT_LOAD 0 0 0 PF_R) ++ [phdr_bytes PT_LOAD (52 + 32 * 66 + 8) 0x73 4 (PF_R + PF_X)])
    nops demo_dynamic demo_symbols 1 None SHT_DYNSYM None.
(** A cart that pretends to have no program headers. *)
Definition no_segments : variant := MkVariant [] [0x73; 0; 0; 0; 0x73; 0; 0x10; 0] demo_dynamic demo_symbols 1 None SHT_DYNSYM (Some 0).
(** A cart without a symbol section. *)
Definition no_symbols : variant := MkVariant [] nops demo_dynamic [] 1 None SHT_STRTAB None.
(** One more exported symbol, whose name is outside of the file. *)
Definition wild_name : variant :=
  MkVariant [] nops demo_dynamic (demo_symbols ++ [sym_bytes 0x4000 GLOBAL_FUNC 1]) 1 None SHT_DYNSYM None.
(** The manifest section ends behind its preamble: [sh_size] of the header before the last is 8. *)
Definition short_info : list Z := <[Z.to_nat (len (image plain) - 60) := SECT_PREAMBLE_SIZE]> (image plain).

Definition variants : list variant := [hidden_info; long_strings; many_segments; no_segments; no_symbols; wild_name].

Lemma variants_ok : Forall (fun v => bytes_ok (image v)) variants.
Proof.
  apply Forall_forall. intros v Hv%list_elem_of_In. apply image_bytes_ok.
  assert (forallb (fun v => forallb (fun x => (0 <=? x) && (x <? 256)) (image v)) variants = true) as H by (vm_compute; reflexivity).
  rewrite forallb_forall in H. by apply H.
Qed.

(** The two-byte breakpoint c.ebreak, which the debugger itself uses, passes the opcode scan. *)
Definition compressed_break : variant := MkVariant [] [0x02; 0x90; 0x02; 0x90; 0x13; 0; 0; 0] demo_dynamic demo_symbols 1 None SHT_DYNSYM None.
Example compressed_break_opens : demo_open compressed_break = Accept (demo_cart compressed_break).
Proof. vm_compute. reflexivity. Qed.

(** So does a weak import of a symbol that is on no list. *)
Definition weak_import : variant := MkVariant [] nops demo_dynamic (demo_symbols ++ [sym_bytes 1 0x22 0]) 1 None SHT_DYNSYM None.
Example weak_import_opens : demo_open weak_import = Accept (demo_cart weak_import).
Proof. vm_compute. reflexivity. Qed.

(** A loadable executable segment with a system call at its start, among the headers. *)
Definition trap_segment (map : list Z) : option Elf32_Phdr :=
  eh ← rd_ehdr map; phs ← read_phdrs map eh;
  List.find (fun ph => (p_type ph =? PT_LOAD) && is_exec ph && (4 <=? p_filesz ph) && bool_decide (sub map (p_offset ph) 4 = ECALL)) phs.

Lemma trap_segment_spec map ph :
  trap_segment map = Some ph ->
  exists eh phs, rd_ehdr map = Some eh /\ read_phdrs map eh = Some phs /\ ph ∈ phs /\ is_load ph /\ executable ph /\ ~ no_traps map ph.
Proof.
  unfold trap_segment. intros (eh & Heh & (phs & Hphs & H)%bind_Some)%bind_Some. apply List.find_some in H as [Hin%list_elem_of_In H].
  apply andb_true_iff in H as [[[Ht Hx]%andb_true_iff Hl]%andb_true_iff Hs%bool_decide_eq_true].
  exists eh, phs. split_and!; [done..|unfold is_load; lia|by apply is_exec_spec|].
  intros Hn. destruct (Hn 0 ltac:(lia) ltac:(lia)) as [Hn1 _]. apply Hn1. by rewrite Z.mul_0_r, Z.add_0_r.
Qed.

(** C7: What the loader does not see.  A manifest section that pretends to take no space, and a
    declared size of the dynamic strings beyond the file, make it read outside of the file, and an
    empty manifest makes it read outside of the copy.  It accepts a
    cart with a system call in a segment behind the 64th, a cart without program headers
    whatever its code, and a cart without symbols that defines no entry point.  And it accepts
    a symbol whose name is outside of the file, on which the queries of the open cart read there. *)
Theorem cart_open_gaps :
  demo_open hidden_info = Wild
  /\ demo_open long_strings = Wild
  /\ blyt_cart_open demo_fb (fun _ _ => true) (Some short_info) true (text "demo.cart") = Wild
  /\ (exists cart eh phs ph, demo_open many_segments = Accept cart /\ rd_ehdr (cart_map cart) = Some eh
        /\ read_phdrs (cart_map cart) eh = Some phs /\ ph ∈ phs /\ is_load ph /\ executable ph /\ ~ no_traps (cart_map cart) ph)
  /\ (exists cart, demo_open no_segments = Accept cart /\ e_phnum <$> rd_ehdr (cart_map cart) = Some 0)
  /\ (exists cart, demo_open no_symbols = Accept cart /\ blyt_cart_native_lifecycle_mask (Some cart) = Some 0)
  /\ (exists cart, demo_open wild_name = Accept cart /\ blyt_cart_has_native_code (Some cart) = Some true
        /\ blyt_cart_native_lifecycle_mask (Some cart) = None).
Proof.
  do 3 (split; [vm_compute; reflexivity|]). split_and!.
  - assert (is_Some (trap_segment (image many_segments))) as [ph Hph] by (vm_compute; by eexists).
    destruct (trap_segment_spec _ _ Hph) as (eh & phs & ?). exists (demo_cart many_segments), eh, phs, ph. split; [vm_compute; reflexivity|done].
  - exists (demo_cart no_segments). split; vm_compute; reflexivity.
  - exists (demo_cart no_symbols). split; vm_compute; reflexivity.
  - exists (demo_cart wild_name). split_and!; vm_compute; reflexivity.
Qed.
