(* ===== verification/Raster.v ===== *)
(** * Raster: the integer 2D rasterizer

    Models [runtime/shared/blyt_raster.c].  A back buffer is the list of its bytes; a
    [NULL] pointer is [None].  Every write goes through a bounds check of the list, so
    the outer [None] is a write or read outside the buffer, or (for the line) a loop
    that has not ended within its fuel.  [int] arithmetic wraps, as the code is built
    with [-fwrapv]; the 64-bit intermediates never overflow. *)

From S2P Require Import Prelude.
From Stdlib Require Import ZArith Lia.
From stdpp Require Import base tactics list.
Open Scope Z_scope.

(** [memset(fb + off, color, n)] and [memcpy(fb + off, bytes, len bytes)] *)
Definition store_bytes (fb : list Z) (off : Z) (bytes : list Z) : option (list Z) :=
  _ ← rd fb off (len bytes); Some (splice fb off bytes).

(** [for (row = y; row < y + k; row++) fb = f(row, fb)] *)
Fixpoint rows (k : nat) (y : Z) (f : Z -> list Z -> option (list Z)) (fb : list Z) : option (list Z) :=
  match k with
  | O => Some fb
  | S k => fb' ← f y fb; rows k (y + 1) f fb'
  end.

Definition blyt_raster_clear (fb : option (list Z)) (stride width height color : Z)
    : option (option (list Z)) :=
  match fb with
  | None => Some None
  | Some b =>
      if (width <=? 0) || (height <=? 0) || (stride <=? 0) then Some fb
      else
        b' ← rows (Z.to_nat height) 0
               (fun y b => store_bytes b (y * stride) (replicate (Z.to_nat width) color)) b;
        Some (Some b')
  end.

Definition blyt_raster_pixel (fb : option (list Z)) (stride width height x y color : Z)
    : option (option (list Z)) :=
  match fb with
  | None => Some None
  | Some b =>
      if stride <=? 0 then Some fb
      else if (x <? 0) || (x >=? width) || (y <? 0) || (y >=? height) then Some fb
      else b' ← zset b (y * stride + x) color; Some (Some b')
  end.

Definition blyt_raster_rect_fill (fb : option (list Z)) (stride width height x y w h color : Z)
    : option (option (list Z)) :=
  match fb with
  | None => Some None
  | Some b =>
      if (stride <=? 0) || (w <=? 0) || (h <=? 0) then Some fb
      else
        let x1 := x + w in
        let y1 := y + h in
        let x0 := if x <? 0 then 0 else x in
        let y0 := if y <? 0 then 0 else y in
        let x1 := if x1 >? width then width else x1 in
        let y1 := if y1 >? height then height else y1 in
        if (x1 <=? x0) || (y1 <=? y0) then Some fb
        else
          b' ← rows (Z.to_nat (y1 - y0)) y0
                 (fun row b => store_bytes b (row * stride + x0) (replicate (Z.to_nat (x1 - x0)) color)) b;
          Some (Some b')
  end.

(** [src] is another buffer than [dst]: [memcpy] does not allow overlap. *)
Definition blyt_raster_blit (dst : option (list Z)) (dstride dwidth dheight : Z)
    (src : option (list Z)) (sstride swidth sheight x y : Z) : option (option (list Z)) :=
  match dst, src with
  | Some d, Some s =>
      if (dstride <=? 0) || (sstride <=? 0) || (swidth <=? 0) || (sheight <=? 0) then Some dst
      else
        let dx1 := x + swidth in
        let dy1 := y + sheight in
        let sox := if x <? 0 then - x else 0 in
        let dx0 := if x <? 0 then 0 else x in
        let soy := if y <? 0 then - y else 0 in
        let dy0 := if y <? 0 then 0 else y in
        let dx1 := if dx1 >? dwidth then dwidth else dx1 in
        let dy1 := if dy1 >? dheight then dheight else dy1 in
        if (dx1 <=? dx0) || (dy1 <=? dy0) then Some dst
        else
          let run := dx1 - dx0 in
          d' ← rows (Z.to_nat (dy1 - dy0)) dy0
                 (fun row d =>
                    let srow := soy + (row - dy0) in
                    bytes ← rd s (srow * sstride + sox) run;
                    store_bytes d (row * dstride + dx0) bytes) d;
          Some (Some d')
  | _, _ => Some dst
  end.

(** The Bresenham loop; [None] when the fuel is spent. *)
Fixpoint line_loop (fuel : nat) (fb : option (list Z)) (stride width height : Z)
    (dx dy sx sy x1 y1 color x0 y0 err : Z) : option (option (list Z)) :=
  match fuel with
  | O => None
  | S fuel =>
      fb' ← blyt_raster_pixel fb stride width height x0 y0 color;
      if (x0 =? x1) && (y0 =? y1) then Some fb'
      else
        let e2 := i32 (2 * err) in
        let '(err', x0') := if e2 >? i32 (- dy) then (i32 (err - dy), i32 (x0 + sx)) else (err, x0) in
        let '(err'', y0') := if e2 <? dx then (i32 (err' + dx), i32 (y0 + sy)) else (err', y0) in
        line_loop fuel fb' stride width height dx dy sx sy x1 y1 color x0' y0' err''
  end.

Definition blyt_raster_line (fuel : nat) (fb : option (list Z)) (stride width height x0 y0 x1 y1 color : Z)
    : option (option (list Z)) :=
  match fb with
  | None => Some None
  | Some _ =>
      if stride <=? 0 then Some fb
      else
        let dx := if x1 >? x0 then i32 (x1 - x0) else i32 (x0 - x1) in
        let dy := if y1 >? y0 then i32 (y1 - y0) else i32 (y0 - y1) in
        let sx := if x0 <? x1 then 1 else -1 in
        let sy := if y0 <? y1 then 1 else -1 in
        let err := i32 (dx - dy) in
        line_loop fuel fb stride width height dx dy sx sy x1 y1 color x0 y0 err
  end.

(** ** Lemmas: row loops *)

(** The byte of pixel [(px, py)]. *)
Definition at_ (b : list Z) (stride px py : Z) : option Z := zget b (py * stride + px).

(** A loop that overwrites columns [x0, x0 + n) of consecutive rows with [g row]. *)
Lemma rows_spec k y f b stride x0 n (g : Z -> list Z) :
  0 <= y -> 0 <= x0 -> 0 <= n -> x0 + n <= stride ->
  (y + Z.of_nat k) * stride <= len b ->
  (forall row, y <= row < y + Z.of_nat k -> len (g row) = n) ->
  (forall row b', y <= row < y + Z.of_nat k -> f row b' = store_bytes b' (row * stride + x0) (g row)) ->
  exists b', rows k y f b = Some b' /\ len b' = len b
    /\ forall px py, 0 <= px < stride -> 0 <= py ->
       at_ b' stride px py
       = if (y <=? py) && (py <? y + Z.of_nat k) && (x0 <=? px) && (px <? x0 + n)
         then zget (g py) (px - x0) else at_ b stride px py.
Proof.
  intros Hy Hx Hn Hst. revert y b Hy. induction k as [|k IH]; intros y b Hy Hlen Hg Hf.
  { exists b. split_and!; [done|done|]. intros px py _ _. destruct (_ && _ && _ && _) eqn:E; [lia|done]. }
  cbn. rewrite Hf by lia. pose proof (Hg y ltac:(lia)) as Hgl.
  assert (0 <= y * stride + x0 /\ y * stride + x0 + n <= len b) as [? ?] by nia.
  unfold store_bytes. rewrite Hgl, rd_Some by lia. cbn.
  set (b1 := splice b (y * stride + x0) (g y)).
  assert (len b1 = len b) as Hl1 by (apply len_splice; lia).
  destruct (IH (y + 1) b1) as (b' & Hrun & Hl & Hpix).
  { lia. } { rewrite Hl1. nia. } { intros; apply Hg; lia. } { intros; apply Hf; lia. }
  exists b'. split_and!; [done|lia|]. intros px py Hpx Hpy. rewrite Hpix by lia.
  assert (at_ b1 stride px py = if (py =? y) && (x0 <=? px) && (px <? x0 + n)
    then zget (g y) (px - x0) else at_ b stride px py) as Hone.
  { unfold at_, b1. rewrite zget_splice by lia. rewrite Hgl.
    destruct (Z.eqb_spec py y) as [->|Hne].
    - replace ((y * stride + x0 <=? y * stride + px) && (y * stride + px <? y * stride + x0 + n))
        with ((x0 <=? px) && (px <? x0 + n)) by lia.
      cbn. destruct (_ && _); [f_equal; lia|done].
    - cbn. destruct ((_ <=? _) && (_ <? _)) eqn:E; [|done]. exfalso.
      assert (py < y \/ y < py) as [?|?] by lia; nia. }
  rewrite Hone.
  destruct ((y + 1 <=? py) && (py <? y + 1 + Z.of_nat k) && (x0 <=? px) && (px <? x0 + n)) eqn:E1;
    destruct ((py =? y) && (x0 <=? px) && (px <? x0 + n)) eqn:E2;
    destruct ((y <=? py) && (py <? y + Z.of_nat (S k)) && (x0 <=? px) && (px <? x0 + n)) eqn:E3;
    try lia; try done.
  by assert (py = y) as -> by lia.
Qed.

(** A back buffer large enough for its dimensions. *)
Definition fb_ok (b : list Z) (stride width height : Z) : Prop :=
  0 < stride /\ width <= stride /\ height * stride <= len b.

Lemma pixel_spec b stride width height x y color :
  fb_ok b stride width height ->
  exists b', blyt_raster_pixel (Some b) stride width height x y color = Some (Some b')
    /\ len b' = len b
    /\ forall px py, 0 <= px < stride -> 0 <= py ->
       at_ b' stride px py
       = if (px =? x) && (py =? y) && (0 <=? x) && (x <? width) && (0 <=? y) && (y <? height)
         then Some color else at_ b stride px py.
Proof.
  intros (Hst & Hw & Hlen). unfold blyt_raster_pixel. rewrite (proj2 (Z.leb_gt _ _)) by lia.
  destruct (_ || _ || _ || _) eqn:E.
  { exists b. split_and!; [done|done|]. intros px py _ _. destruct (_ && _) eqn:E2; [lia|done]. }
  rewrite zset_Some by nia. cbn. eexists. split_and!; [done|apply len_insert|].
  intros px py Hpx Hpy. unfold at_. destruct (_ && _) eqn:E2.
  - assert (px = x /\ py = y) as [-> ->] by lia. apply zget_insert_eq. nia.
  - apply zget_insert_ne; [nia|]. intros Heq. assert (py = y) as -> by nia. lia.
Qed.

Lemma rect_spec b stride width height x y w h color :
  fb_ok b stride width height ->
  exists b', blyt_raster_rect_fill (Some b) stride width height x y w h color = Some (Some b')
    /\ len b' = len b
    /\ forall px py, 0 <= px < stride -> 0 <= py ->
       at_ b' stride px py
       = if (px <? width) && (py <? height) && (x <=? px) && (px <? x + w) && (y <=? py) && (py <? y + h)
         then Some color else at_ b stride px py.
Proof.
  intros (Hst & Hw & Hlen). unfold blyt_raster_rect_fill. rewrite (proj2 (Z.leb_gt stride 0)) by lia. cbn [orb].
  destruct ((w <=? 0) || (h <=? 0)) eqn:E0.
  { exists b. split_and!; [done|done|]. intros px py ? ?. cond E; [lia|done]. }
  set (x0 := if x <? 0 then 0 else x). set (y0 := if y <? 0 then 0 else y).
  set (x1 := if x + w >? width then width else x + w). set (y1 := if y + h >? height then height else y + h).
  assert (x0 = Z.max 0 x /\ y0 = Z.max 0 y /\ x1 = Z.min width (x + w) /\ y1 = Z.min height (y + h))
    as (-> & -> & -> & ->) by (unfold x0, y0, x1, y1; repeat case_match; lia).
  destruct ((Z.min _ _ <=? _) || _) eqn:E1.
  { exists b. split_and!; [done|done|]. intros px py ? ?. cond E; [lia|done]. }
  destruct (rows_spec (Z.to_nat (Z.min height (y + h) - Z.max 0 y)) (Z.max 0 y)
    (fun row b => store_bytes b (row * stride + Z.max 0 x)
       (replicate (Z.to_nat (Z.min width (x + w) - Z.max 0 x)) color)) b stride (Z.max 0 x)
    (Z.min width (x + w) - Z.max 0 x) (fun _ => replicate (Z.to_nat (Z.min width (x + w) - Z.max 0 x)) color))
    as (b' & -> & Hl & Hpix); [lia|lia|lia|lia| |intros; rewrite len_replicate; lia|done|].
  { rewrite Z2Nat.id by lia. nia. }
  cbn. exists b'. split_and!; [done|done|]. intros px py Hpx Hpy. rewrite Hpix by done.
  rewrite Z2Nat.id by lia. cond E2.
  - rewrite zget_replicate by lia. cond E3; [done|lia].
  - cond E3; [lia|done].
Qed.

Lemma clear_spec b stride width height color :
  fb_ok b stride width height ->
  exists b', blyt_raster_clear (Some b) stride width height color = Some (Some b')
    /\ len b' = len b
    /\ forall px py, 0 <= px < stride -> 0 <= py ->
       at_ b' stride px py = if (px <? width) && (py <? height) then Some color else at_ b stride px py.
Proof.
  intros (Hst & Hw & Hlen). unfold blyt_raster_clear.
  destruct (_ || _ || _) eqn:E0.
  { exists b. split_and!; [done|done|]. intros px py ? ?. cond E; [lia|done]. }
  destruct (rows_spec (Z.to_nat height) 0
    (fun y b => store_bytes b (y * stride) (replicate (Z.to_nat width) color)) b stride 0 width
    (fun _ => replicate (Z.to_nat width) color))
    as (b' & -> & Hl & Hpix); [lia|lia|lia|lia|lia|intros; rewrite len_replicate; lia|intros; f_equal; lia|].
  cbn. exists b'. split_and!; [done|done|]. intros px py Hpx Hpy. rewrite Hpix by done.
  rewrite Z2Nat.id by lia. cond E2.
  - rewrite zget_replicate by lia. cond E3; [done|lia].
  - cond E3; [lia|done].
Qed.

Lemma blit_spec d dstride dwidth dheight s sstride swidth sheight x y :
  fb_ok d dstride dwidth dheight -> fb_ok s sstride swidth sheight ->
  exists d', blyt_raster_blit (Some d) dstride dwidth dheight (Some s) sstride swidth sheight x y
      = Some (Some d')
    /\ len d' = len d
    /\ forall px py, 0 <= px < dstride -> 0 <= py ->
       at_ d' dstride px py
       = if (px <? dwidth) && (py <? dheight) && (x <=? px) && (px <? x + swidth)
            && (y <=? py) && (py <? y + sheight)
         then at_ s sstride (px - x) (py - y) else at_ d dstride px py.
Proof.
  intros (Hst & Hw & Hlen) (Hsst & Hsw & Hslen). unfold blyt_raster_blit.
  rewrite (proj2 (Z.leb_gt dstride 0)), (proj2 (Z.leb_gt sstride 0)) by lia. cbn [orb].
  destruct ((swidth <=? 0) || (sheight <=? 0)) eqn:E0.
  { exists d. split_and!; [done|done|]. intros px py ? ?. cond E; [lia|done]. }
  set (sox := if x <? 0 then - x else 0). set (soy := if y <? 0 then - y else 0).
  set (x0 := if x <? 0 then 0 else x). set (y0 := if y <? 0 then 0 else y).
  set (x1 := if x + swidth >? dwidth then dwidth else x + swidth).
  set (y1 := if y + sheight >? dheight then dheight else y + sheight).
  assert (sox = Z.max 0 x - x /\ soy = Z.max 0 y - y /\ x0 = Z.max 0 x /\ y0 = Z.max 0 y
    /\ x1 = Z.min dwidth (x + swidth) /\ y1 = Z.min dheight (y + sheight))
    as (-> & -> & -> & -> & -> & ->) by (unfold sox, soy, x0, y0, x1, y1; repeat case_match; lia).
  destruct ((Z.min _ _ <=? _) || _) eqn:E1.
  { exists d. split_and!; [done|done|]. intros px py ? ?. cond E; [lia|done]. }
  set (run := Z.min dwidth (x + swidth) - Z.max 0 x).
  set (soff := fun row => (Z.max 0 y - y + (row - Z.max 0 y)) * sstride + (Z.max 0 x - x)).
  set (k := Z.min dheight (y + sheight) - Z.max 0 y).
  assert (forall row, Z.max 0 y <= row < Z.max 0 y + k -> 0 <= soff row /\ soff row + run <= len s) as Hsrc.
  { intros row Hrow. unfold soff, run, k in *.
    replace (Z.max 0 y - y + (row - Z.max 0 y)) with (row - y) by lia.
    assert (0 <= row - y < sheight) by lia. nia. }
  destruct (rows_spec (Z.to_nat k) (Z.max 0 y)
    (fun row d0 => bytes ← rd s (soff row) run; store_bytes d0 (row * dstride + Z.max 0 x) bytes) d dstride
    (Z.max 0 x) run (fun row => sub s (soff row) run)) as (d' & Hrun & Hl & Hpix).
  - lia.
  - lia.
  - unfold run. lia.
  - unfold run. lia.
  - unfold k. rewrite Z2Nat.id by lia. nia.
  - intros row Hrow. destruct (Hsrc row) as [? ?]; [unfold k in *; lia|]. apply len_sub; unfold run in *; lia.
  - intros row b' Hrow. destruct (Hsrc row) as [? ?]; [unfold k in *; lia|].
    rewrite rd_Some by (unfold run in *; lia). done.
  - fold run k in Hrun. unfold soff in Hrun. rewrite Hrun. cbn [mbind option_bind].
    exists d'. split_and!; [done|done|]. intros px py Hpx Hpy. rewrite Hpix by done.
    cond E2.
    + destruct (Hsrc py) as [? ?]; [unfold k in *; lia|].
      rewrite zget_sub by (unfold run, k in *; lia).
      cond E3; [|unfold run, k in *; lia].
      unfold at_, soff. f_equal. lia.
    + cond E3; [unfold run, k in *; lia|done].
Qed.

(** ** Lemmas: sizes *)

Lemma store_bytes_len b off bytes b' : store_bytes b off bytes = Some b' -> len b' = len b.
Proof.
  unfold store_bytes. destruct (rd b off (len bytes)) as [bs|] eqn:E; cbn [mbind option_bind]; [|done].
  apply rd_inv in E as (? & ? & ? & _). intros [= <-]. apply len_splice; lia.
Qed.

(** Whatever its arguments, an operation that ends leaves a buffer of the same size. *)
Lemma rows_len k y f b b' :
  (forall y b b', f y b = Some b' -> len b' = len b) -> rows k y f b = Some b' -> len b' = len b.
Proof.
  intros Hf. revert y b. induction k as [|k IH]; intros y b; cbn [rows]; [by intros [= ->]|].
  destruct (f y b) as [b1|] eqn:E; cbn [mbind option_bind]; [|done]. intros Hr%IH. by rewrite Hr, (Hf _ _ _ E).
Qed.

Lemma pixel_len b stride width height x y color r :
  blyt_raster_pixel (Some b) stride width height x y color = Some r -> exists b', r = Some b' /\ len b' = len b.
Proof.
  unfold blyt_raster_pixel. destruct (stride <=? 0); [intros [= <-]; eauto|]. destruct (_ || _); [intros [= <-]; eauto|].
  destruct (zset b _ color) as [b'|] eqn:E; cbn [mbind option_bind]; [|done]. intros [= <-].
  apply zset_inv in E as [_ ->]. eexists. split; [done|by rewrite len_insert].
Qed.

Lemma line_loop_len fuel b stride width height dx dy sx sy x1 y1 color x y err r :
  line_loop fuel (Some b) stride width height dx dy sx sy x1 y1 color x y err = Some r ->
  exists b', r = Some b' /\ len b' = len b.
Proof.
  revert b x y err. induction fuel as [|fuel IH]; intros b x y err; cbn [line_loop]; [done|].
  destruct (blyt_raster_pixel (Some b) _ _ _ x y color) as [r1|] eqn:E; cbn [mbind option_bind]; [|done].
  apply pixel_len in E as (b1 & -> & Hl). destruct (_ && _); [intros [= <-]; eauto|].
  destruct (_ >? _), (_ <? _); intros (b' & -> & Hl')%IH; exists b'; (split; [done|congruence]).
Qed.

Lemma line_len fuel b stride width height x0 y0 x1 y1 color r :
  blyt_raster_line fuel (Some b) stride width height x0 y0 x1 y1 color = Some r -> exists b', r = Some b' /\ len b' = len b.
Proof.
  unfold blyt_raster_line. destruct (stride <=? 0); [intros [= <-]; eauto|]. apply line_loop_len.
Qed.

(** ** Lemmas: the line *)

(** The state of the walk after [i] steps in x and [j] in y. *)
Definition line_err (dx dy i j : Z) : Z := (j + 1) * dx - (i + 1) * dy.

(** Pixels the line may have coloured: those of the bounding box. *)
Definition line_ok (b b' : list Z) (stride width height xa ya xb yb color : Z) : Prop :=
  len b' = len b
  /\ forall px py, 0 <= px < stride -> 0 <= py ->
     at_ b' stride px py = at_ b stride px py
     \/ (at_ b' stride px py = Some color /\ Z.min xa xb <= px <= Z.max xa xb
         /\ Z.min ya yb <= py <= Z.max ya yb /\ px < width /\ py < height).

Lemma line_ok_trans b1 b2 b3 stride width height xa ya xb yb color :
  line_ok b1 b2 stride width height xa ya xb yb color ->
  line_ok b2 b3 stride width height xa ya xb yb color ->
  line_ok b1 b3 stride width height xa ya xb yb color.
Proof.
  intros [L1 H1] [L2 H2]. split; [lia|]. intros px py Hx Hy.
  destruct (H2 px py Hx Hy) as [->|?]; [|by right]. by apply H1.
Qed.

Lemma line_ok_mono b b' stride width height xa ya xb yb xa' ya' xb' yb' color :
  line_ok b b' stride width height xa ya xb yb color ->
  Z.min xa' xb' <= Z.min xa xb -> Z.max xa xb <= Z.max xa' xb' ->
  Z.min ya' yb' <= Z.min ya yb -> Z.max ya yb <= Z.max ya' yb' ->
  line_ok b b' stride width height xa' ya' xb' yb' color.
Proof.
  intros [L H] ? ? ? ?. split; [done|]. intros px py Hx Hy.
  destruct (H px py Hx Hy) as [->|(? & ? & ? & ? & ?)]; [by left|right; split_and!; done || lia].
Qed.

Section line.
Context (stride width height xa ya xb yb color dx dy sx sy : Z).
Context (Edx : dx = Z.abs (xb - xa)) (Edy : dy = Z.abs (yb - ya)).
Context (Esx : sx = if xa <? xb then 1 else -1) (Esy : sy = if ya <? yb then 1 else -1).
Context (Hxa : - 2 ^ 28 < xa < 2 ^ 28) (Hxb : - 2 ^ 28 < xb < 2 ^ 28).
Context (Hya : - 2 ^ 28 < ya < 2 ^ 28) (Hyb : - 2 ^ 28 < yb < 2 ^ 28).

(** The walk after [i] steps in x and [j] in y. *)
Definition walk_inv (i j x y err : Z) : Prop :=
  0 <= i <= dx /\ 0 <= j <= dy /\ x = xa + sx * i /\ y = ya + sy * j
  /\ err = line_err dx dy i j /\ - 2 * dy <= err <= 2 * dx.

Lemma sx_spec : sx * dx = xb - xa.
Proof. destruct (Z.ltb_spec xa xb); lia. Qed.
Lemma sy_spec : sy * dy = yb - ya.
Proof. destruct (Z.ltb_spec ya yb); lia. Qed.

Lemma s_cases : (sx = 1 \/ sx = -1) /\ (sy = 1 \/ sy = -1).
Proof. rewrite Esx, Esy. destruct (xa <? xb), (ya <? yb); auto. Qed.

Lemma line_loop_spec n fuel i j b x y err :
  (dx - i) + (dy - j) <= Z.of_nat n -> (n < fuel)%nat ->
  walk_inv i j x y err -> fb_ok b stride width height ->
  exists b', line_loop fuel (Some b) stride width height dx dy sx sy xb yb color x y err = Some (Some b')
    /\ line_ok b b' stride width height xa ya xb yb color
    /\ (forall px py, (px, py) = (x, y) \/ (px, py) = (xb, yb) ->
          0 <= px < width -> 0 <= py < height -> at_ b' stride px py = Some color).
Proof.
  revert fuel i j b x y err. induction n as [|n IH]; intros [|fuel] i j b x y err Hn Hf Hinv Hfb; try lia;
    destruct Hinv as (Hi & Hj & -> & -> & Herr & Hb); cbn [line_loop];
    destruct (pixel_spec b stride width height (xa + sx * i) (ya + sy * j) color Hfb) as (b1 & -> & Hl1 & Hp1);
    cbn [mbind option_bind];
    pose proof sx_spec as Hsx; pose proof sy_spec as Hsy.
  all: pose proof s_cases as Hbox.
  all: assert (Hxr : Z.min xa xb <= xa + sx * i <= Z.max xa xb) by (destruct Hbox as [[Hs|Hs] _]; rewrite Hs in *; lia).
  all: assert (Hyr : Z.min ya yb <= ya + sy * j <= Z.max ya yb) by (destruct Hbox as [_ [Hs|Hs]]; rewrite Hs in *; lia).
  all: assert (Hone : line_ok b b1 stride width height xa ya xb yb color).
  1, 3: (split; [done|]; intros px py Hpx Hpy; rewrite Hp1 by done; cond E; [right|by left];
    assert (px = xa + sx * i /\ py = ya + sy * j) as [-> ->] by lia; split_and!; done || lia).
  all: assert (Hdraw : 0 <= xa + sx * i < width -> 0 <= ya + sy * j < height ->
    at_ b1 stride (xa + sx * i) (ya + sy * j) = Some color)
    by (intros ? ?; destruct Hfb as (? & ? & ?); rewrite Hp1 by lia; cond E; [done|lia]).
  - assert (i = dx /\ j = dy) as [-> ->] by lia.
    rewrite (proj2 (andb_true_iff _ _)) by lia. exists b1. split_and!; [done|done|].
    intros px py [[= -> ->]|[= -> ->]] ? ?; [by apply Hdraw|].
    replace xb with (xa + sx * dx) by lia. replace yb with (ya + sy * dy) by lia. apply Hdraw; lia.
  - destruct ((xa + sx * i =? xb) && (ya + sy * j =? yb)) eqn:Eend.
    { exists b1. split_and!; [done|done|].
      intros px py [[= -> ->]|[= -> ->]] ? ?; [by apply Hdraw|].
      assert (xa + sx * i = xb /\ ya + sy * j = yb) as [<- <-] by lia. by apply Hdraw. }
    assert (Hdxr : 0 <= dx < 2 ^ 29 /\ 0 <= dy < 2 ^ 29) by lia.
    assert (Hnot : i < dx \/ j < dy).
    { destruct (decide (i < dx)); [by left|right]. assert (i = dx) as -> by lia.
      destruct (decide (j < dy)); [done|]. assert (j = dy) as -> by lia. lia. }
    rewrite (i32_id (2 * err)), (i32_id (- dy)) by (unfold is_i32; lia).
    destruct Hdxr as [Hdx Hdy].
    assert (Hex : i32 (err - dy) = err - dy) by (apply i32_id; unfold is_i32; lia).
    assert (Hey : i32 (err + dx) = err + dx) by (apply i32_id; unfold is_i32; lia).
    assert (Hey2 : i32 (err - dy + dx) = err - dy + dx) by (apply i32_id; unfold is_i32; lia).
    assert (Hxs : i32 (xa + sx * i + sx) = xa + sx * (i + 1)).
    { rewrite i32_id; [lia|]. unfold is_i32. destruct Hbox as [[Hs|Hs] _]; rewrite Hs in *; lia. }
    assert (Hys : i32 (ya + sy * j + sy) = ya + sy * (j + 1)).
    { rewrite i32_id; [lia|]. unfold is_i32. destruct Hbox as [_ [Hs|Hs]]; rewrite Hs in *; lia. }
    assert (Hxok : 2 * err > - dy -> i < dx).
    { intros H2. destruct (decide (i < dx)); [done|exfalso]. assert (i = dx) as -> by lia.
      unfold line_err in Herr. assert (j + 1 <= dy) by lia. nia. }
    assert (Hyok : 2 * err < dx -> j < dy).
    { intros H2. destruct (decide (j < dy)); [done|exfalso]. assert (j = dy) as -> by lia.
      unfold line_err in Herr. assert (i + 1 <= dx) by lia. nia. }
    assert (Hgo : forall i' j' err', (dx - i') + (dy - j') <= Z.of_nat n ->
      walk_inv i' j' (xa + sx * i') (ya + sy * j') err' ->
      exists b', line_loop fuel (Some b1) stride width height dx dy sx sy xb yb color
          (xa + sx * i') (ya + sy * j') err' = Some (Some b')
        /\ line_ok b b' stride width height xa ya xb yb color
        /\ (forall px py, (px, py) = (xa + sx * i, ya + sy * j) \/ (px, py) = (xb, yb) ->
              0 <= px < width -> 0 <= py < height -> at_ b' stride px py = Some color)).
    { intros i' j' err' Hn' Hinv'. destruct Hfb as (F1 & F2 & F3).
      destruct (IH fuel i' j' b1 _ _ err' Hn' ltac:(lia) Hinv' ltac:(unfold fb_ok; lia)) as (b' & -> & Hok' & Hend).
      exists b'. split_and!; [done|by eapply line_ok_trans|].
      intros px py [[= -> ->]|[= -> ->]] ? ?; [|apply Hend; auto].
      destruct Hok' as [_ Hok']. destruct (Hok' (xa + sx * i) (ya + sy * j)) as [->|[-> _]]; [lia|lia| |done].
      by apply Hdraw. }
    unfold line_err in *.
    destruct (2 * err >? - dy) eqn:E1; [rewrite Hex, Hxs|]; destruct (2 * err <? dx) eqn:E2;
      rewrite ?Hey2, ?Hey, ?Hys.
    + apply Hgo; [lia|]. unfold walk_inv, line_err. split_and!; try lia; done || (specialize (Hxok ltac:(lia)); specialize (Hyok ltac:(lia)); lia).
    + apply Hgo; [lia|]. unfold walk_inv, line_err. split_and!; try lia; done || (specialize (Hxok ltac:(lia)); lia).
    + apply Hgo; [lia|]. unfold walk_inv, line_err. split_and!; try lia; done || (specialize (Hyok ltac:(lia)); lia).
    + exfalso. lia.
Qed.
End line.

Lemma line_spec fuel b stride width height x0 y0 x1 y1 color :
  - 2 ^ 28 < x0 < 2 ^ 28 -> - 2 ^ 28 < y0 < 2 ^ 28 -> - 2 ^ 28 < x1 < 2 ^ 28 -> - 2 ^ 28 < y1 < 2 ^ 28 ->
  fb_ok b stride width height -> Z.abs (x1 - x0) + Z.abs (y1 - y0) < Z.of_nat fuel ->
  exists b', blyt_raster_line fuel (Some b) stride width height x0 y0 x1 y1 color = Some (Some b')
    /\ line_ok b b' stride width height x0 y0 x1 y1 color
    /\ (forall px py, (px, py) = (x0, y0) \/ (px, py) = (x1, y1) ->
          0 <= px < width -> 0 <= py < height -> at_ b' stride px py = Some color).
Proof.
  intros Hx0 Hy0 Hx1 Hy1 Hfb Hf. unfold blyt_raster_line.
  destruct (Z.leb_spec stride 0); [destruct Hfb; lia|].
  assert (Hd : forall a c, - 2 ^ 28 < a < 2 ^ 28 -> - 2 ^ 28 < c < 2 ^ 28 ->
    (if c >? a then i32 (c - a) else i32 (a - c)) = Z.abs (c - a)).
  { intros a c ? ?. destruct (Z.gtb_spec c a); rewrite i32_id by (unfold is_i32; lia); lia. }
  rewrite !Hd by done. rewrite i32_id by (unfold is_i32; lia).
  set (dx := Z.abs (x1 - x0)). set (dy := Z.abs (y1 - y0)).
  destruct (line_loop_spec stride width height x0 y0 x1 y1 color dx dy
    (if x0 <? x1 then 1 else -1) (if y0 <? y1 then 1 else -1) eq_refl eq_refl eq_refl eq_refl
    Hx0 Hx1 Hy0 Hy1 (Z.to_nat (dx + dy)) fuel 0 0 b x0 y0 (dx - dy)) as (b' & Hrun & Hok & Hend).
  - unfold dx, dy. lia.
  - unfold dx, dy in *. lia.
  - unfold walk_inv, line_err, dx, dy. split_and!; lia.
  - done.
  - exists b'. auto.
Qed.

(** ** Properties *)

(** Fills touch exactly the pixels they should.  On any buffer large enough for
    its stride and height, and for all coordinates and sizes, a filled rectangle
    colours exactly the pixels of the rectangle that lie in the clip bounds, leaves
    every other byte, row padding included, unchanged, and never leaves the buffer;
    a clear is the rectangle of the whole bounds. *)
Theorem raster_rect_exact b stride width height x y w h color :
  fb_ok b stride width height ->
  (exists b', blyt_raster_rect_fill (Some b) stride width height x y w h color = Some (Some b')
    /\ len b' = len b
    /\ forall px py, 0 <= px < stride -> 0 <= py ->
       at_ b' stride px py
       = if (px <? width) && (py <? height) && (x <=? px) && (px <? x + w) && (y <=? py) && (py <? y + h)
         then Some color else at_ b stride px py)
  /\ blyt_raster_clear (Some b) stride width height color
     = blyt_raster_rect_fill (Some b) stride width height 0 0 width height color.
Proof.
  intros Hfb. split; [by apply rect_spec|].
  unfold blyt_raster_clear, blyt_raster_rect_fill. destruct Hfb as (? & ? & ?).
  rewrite (proj2 (Z.leb_gt stride 0)) by lia. rewrite orb_false_r, !orb_false_l.
  destruct ((width <=? 0) || (height <=? 0)) eqn:E; [done|]. cbn [Z.ltb Z.compare].
  replace (0 + width >? width) with false by lia. replace (0 + height >? height) with false by lia.
  rewrite !Z.add_0_l, !Z.sub_0_r, E. f_equal.
  enough (forall k y b, rows k y (fun y b => store_bytes b (y * stride) (replicate (Z.to_nat width) color)) b
    = rows k y (fun row b => store_bytes b (row * stride + 0) (replicate (Z.to_nat width) color)) b) as -> by done.
  induction k as [|k IH]; intros y0 b0; cbn; [done|]. rewrite Z.add_0_r.
  destruct (store_bytes _ _ _); cbn; [apply IH|done].
Qed.

Lemma raster_rect_exact_witness :
  exists b', blyt_raster_rect_fill (Some (replicate 12 0)) 4 3 3 (-1) 1 3 9 5 = Some (Some b')
    /\ at_ b' 4 1 2 = Some 5 /\ at_ b' 4 2 2 = Some 0.
Proof.
  destruct (raster_rect_exact (replicate 12 0) 4 3 3 (-1) 1 3 9 5) as [(b' & H1 & _ & H2) _].
  - unfold fb_ok. cbn. unfold len. cbn. lia.
  - exists b'. split; [exact H1|]. split; rewrite H2 by lia; reflexivity.
Defined.

(** A blit copies exactly the visible part of the source.  Each destination pixel
    inside the clip bounds and inside the placed source takes the source pixel at its
    offset, every other byte is unchanged, and no byte outside either buffer is
    accessed, for any position, off-screen ones included. *)
Theorem raster_blit_exact d dstride dwidth dheight s sstride swidth sheight x y :
  fb_ok d dstride dwidth dheight -> fb_ok s sstride swidth sheight ->
  exists d', blyt_raster_blit (Some d) dstride dwidth dheight (Some s) sstride swidth sheight x y
      = Some (Some d')
    /\ len d' = len d
    /\ forall px py, 0 <= px < dstride -> 0 <= py ->
       at_ d' dstride px py
       = if (px <? dwidth) && (py <? dheight) && (x <=? px) && (px <? x + swidth)
            && (y <=? py) && (py <? y + sheight)
         then at_ s sstride (px - x) (py - y) else at_ d dstride px py.
Proof. apply blit_spec. Qed.

Lemma raster_blit_exact_witness :
  exists d', blyt_raster_blit (Some (replicate 9 0)) 3 3 3 (Some [1; 2; 3; 4]) 2 2 2 (-1) 2 = Some (Some d')
    /\ at_ d' 3 0 2 = Some 2.
Proof.
  destruct (raster_blit_exact (replicate 9 0) 3 3 3 [1; 2; 3; 4] 2 2 2 (-1) 2) as (d' & H1 & _ & H2).
  - unfold fb_ok. cbn. unfold len. cbn. lia.
  - unfold fb_ok. cbn. unfold len. cbn. lia.
  - exists d'. split; [exact H1|]. rewrite H2 by lia. reflexivity.
Defined.

(** A line terminates, stays in the buffer and joins its endpoints.  For endpoints
    below 2^28 in magnitude, the walk ends within as many rounds as the two distances
    together plus one, no intermediate overflows, both endpoints are drawn where
    visible, and the only pixels changed are visible ones of the bounding box, which
    take the colour. *)
Theorem raster_line_terminates fuel b stride width height x0 y0 x1 y1 color :
  - 2 ^ 28 < x0 < 2 ^ 28 -> - 2 ^ 28 < y0 < 2 ^ 28 -> - 2 ^ 28 < x1 < 2 ^ 28 -> - 2 ^ 28 < y1 < 2 ^ 28 ->
  fb_ok b stride width height -> Z.abs (x1 - x0) + Z.abs (y1 - y0) < Z.of_nat fuel ->
  exists b', blyt_raster_line fuel (Some b) stride width height x0 y0 x1 y1 color = Some (Some b')
    /\ len b' = len b
    /\ (forall px py, (px, py) = (x0, y0) \/ (px, py) = (x1, y1) ->
          0 <= px < width -> 0 <= py < height -> at_ b' stride px py = Some color)
    /\ (forall px py, 0 <= px < stride -> 0 <= py ->
          at_ b' stride px py = at_ b stride px py
          \/ (at_ b' stride px py = Some color /\ Z.min x0 x1 <= px <= Z.max x0 x1
              /\ Z.min y0 y1 <= py <= Z.max y0 y1 /\ px < width /\ py < height)).
Proof.
  intros Hx0 Hy0 Hx1 Hy1 Hfb Hf.
  destruct (line_spec fuel b stride width height x0 y0 x1 y1 color) as (b' & H1 & [H2 H3] & H4); try done.
  exists b'. auto.
Qed.

Lemma raster_line_terminates_witness :
  exists b', blyt_raster_line 8 (Some (replicate 9 0)) 3 3 3 (-2) 0 2 2 7 = Some (Some b')
    /\ at_ b' 3 2 2 = Some 7.
Proof.
  destruct (raster_line_terminates 8 (replicate 9 0) 3 3 3 (-2) 0 2 2 7) as (b' & H1 & _ & H2 & _).
  - lia.
  - lia.
  - lia.
  - lia.
  - unfold fb_ok. cbn. unfold len. cbn. lia.
  - cbn. lia.
  - exists b'. split; [exact H1|]. apply H2; [right; reflexivity|lia|lia].
Defined.

(** Extreme coordinates hang the line.  From x = INT_MIN to 0 the distance wraps to
    INT_MIN, neither axis is ever stepped, and the loop does not end with any fuel. *)
Theorem raster_line_hangs fuel b color :
  blyt_raster_line fuel (Some b) 384 384 240 (- 2 ^ 31) 0 0 0 color = None.
Proof.
  unfold blyt_raster_line. cbn [Z.leb Z.compare]. cbv zeta.
  induction fuel as [|fuel IH]; [done|]. exact IH.
Qed.
