(* ===== verification/ResourceTable.v ===== *)
(** * ResourceTable: the host resource table and its eviction policy

    Models [runtime/host/src/libblyt/resource.c], the per-resource codec of
    [runtime/shared/blyt_resource_codec.c] and the pin counter of
    [runtime/shared/blyt_resource_lifecycle.h].  The table is a list of entries; a
    pointer to an entry is its index.  The bytes of an entry are either an alias into
    the cart map or an owned buffer.  The outer [None] of a result is a read outside
    the map.

    What the code takes from elsewhere is the record [res_env]: the cart map, the zstd
    decoder, which allocations succeed, and the files that can be read. *)

From S2P Require Import Prelude MemBudget ElfSection.
From Stdlib Require Import ZArith Lia String.
From stdpp Require Import base tactics list.
Open Scope Z_scope.

(** ** Pin counter *)

Record blyt_rl_state_t := MkRl { pin_count : Z }.

Definition blyt_rl_pin (s : blyt_rl_state_t) : blyt_rl_state_t := MkRl (u32 (pin_count s + 1)).

Definition blyt_rl_unpin (s : blyt_rl_state_t) : bool * blyt_rl_state_t :=
  if pin_count s =? 0 then (false, s) else (true, MkRl (u32 (pin_count s - 1))).

Definition blyt_rl_is_evictable (s : blyt_rl_state_t) : bool := pin_count s =? 0.

Definition blyt_rl_force_release_pins (s : blyt_rl_state_t) : blyt_rl_state_t := MkRl 0.

(** ** Environment *)

Record res_env := MkResEnv {
  cart_map : list Z;
  (** [ZSTD_decompressDCtx(dctx, out, out_len, body, body_len)]: the bytes produced, at
      most [out_len], or [None] for an error code or no context. *)
  zstd : list Z -> Z -> option (list Z);
  malloc_ok : Z -> bool;
  realloc_ok : Z -> bool;
  (** the bytes [fopen], [ftell] and [fread] give for a path *)
  file_bytes : list Z -> option (list Z)
}.

(** ** Codec *)

Definition BLYT_RES_HEADER_LEN : Z := 8.
Definition BLYT_RES_ALGO_NONE : Z := 0.
Definition BLYT_RES_ALGO_ZSTD : Z := 1.

(** [section] is an offset in the map; on success: algo, dsize, body offset and length. *)
Definition blyt_res_header_parse (map : list Z) (section section_len : Z)
    : option (option (Z * Z * Z * Z)) :=
  if section_len <? BLYT_RES_HEADER_LEN then Some None
  else
    a ← zget map section;
    if negb (a =? BLYT_RES_ALGO_NONE) && negb (a =? BLYT_RES_ALGO_ZSTD) then Some None
    else
      d ← rd_le map (section + 4) 4;
      Some (Some (a, d, section + BLYT_RES_HEADER_LEN, section_len - BLYT_RES_HEADER_LEN)).

(** The decoded bytes, [None] for the return value -1. *)
Definition blyt_res_decode (env : res_env) (algo : Z) (body : list Z) (out_len : Z) : option (list Z) :=
  if algo =? BLYT_RES_ALGO_NONE then
    if negb (len body =? out_len) then None else Some body
  else if algo =? BLYT_RES_ALGO_ZSTD then
    got ← zstd env body out_len;
    if negb (len got =? out_len) then None else Some got
  else None.

(** ** Entries and table *)

(** Where [e->data] points. *)
Inductive data_ptr :=
  | InMap (off : Z)
  | InOwned.

Record blyt_resource_entry_t := MkEntry {
  e_id : Z;
  e_data : option data_ptr;
  e_len : Z;
  e_owned : option (list Z);
  e_algo : Z;
  e_cdata : option Z;
  e_clen : Z;
  e_src_path : option (list Z);
  e_rl : blyt_rl_state_t;
  e_persistent : bool;
  e_last_access : Z
}.

Record blyt_resource_table_t := MkTable {
  t_entries : list blyt_resource_entry_t;
  t_cap : Z;
  t_lru_clock : Z
}.

#[export] Instance blyt_rl_state_t_eq_dec : EqDecision blyt_rl_state_t.
Proof. solve_decision. Defined.
#[export] Instance data_ptr_eq_dec : EqDecision data_ptr.
Proof. solve_decision. Defined.
#[export] Instance blyt_resource_entry_t_eq_dec : EqDecision blyt_resource_entry_t.
Proof. solve_decision. Defined.

Definition t_count (t : blyt_resource_table_t) : Z := len (t_entries t).

Definition with_bytes (d : option data_ptr) (l : Z) (o : option (list Z)) (e : blyt_resource_entry_t) :=
  MkEntry (e_id e) d l o (e_algo e) (e_cdata e) (e_clen e) (e_src_path e) (e_rl e) (e_persistent e) (e_last_access e).
Definition with_rl (r : blyt_rl_state_t) (e : blyt_resource_entry_t) :=
  MkEntry (e_id e) (e_data e) (e_len e) (e_owned e) (e_algo e) (e_cdata e) (e_clen e) (e_src_path e) r (e_persistent e) (e_last_access e).
Definition with_persistent (b : bool) (e : blyt_resource_entry_t) :=
  MkEntry (e_id e) (e_data e) (e_len e) (e_owned e) (e_algo e) (e_cdata e) (e_clen e) (e_src_path e) (e_rl e) b (e_last_access e).
Definition with_last_access (n : Z) (e : blyt_resource_entry_t) :=
  MkEntry (e_id e) (e_data e) (e_len e) (e_owned e) (e_algo e) (e_cdata e) (e_clen e) (e_src_path e) (e_rl e) (e_persistent e) n.
Definition with_entries (l : list blyt_resource_entry_t) (t : blyt_resource_table_t) : blyt_resource_table_t :=
  MkTable l (t_cap t) (t_lru_clock t).

(** Mutate entry [i] through its pointer. *)
Definition update (i : nat) (f : blyt_resource_entry_t -> blyt_resource_entry_t) (t : blyt_resource_table_t) :=
  with_entries (alter f i (t_entries t)) t.

Definition blyt_resource_table_init : blyt_resource_table_t := MkTable [] 0 0.

Definition blyt_resource_table_clear (t : blyt_resource_table_t) : blyt_resource_table_t :=
  MkTable [] 0 (t_lru_clock t).

Fixpoint find_from (i : nat) (l : list blyt_resource_entry_t) (id : Z) : option nat :=
  match l with
  | [] => None
  | e :: l => if e_id e =? id then Some i else find_from (S i) l id
  end.

Definition blyt_resource_table_find (t : blyt_resource_table_t) (id : Z) : option nat :=
  find_from 0 (t_entries t) id.
Definition blyt_resource_table_find_mut (t : blyt_resource_table_t) (id : Z) : option nat :=
  find_from 0 (t_entries t) id.

Definition blyt_resource_table_force_release_pins (t : blyt_resource_table_t) : blyt_resource_table_t :=
  with_entries ((fun e => with_rl (blyt_rl_force_release_pins (e_rl e)) e) <$> t_entries t) t.

Definition fresh_entry : blyt_resource_entry_t :=
  MkEntry 0 None 0 None BLYT_RES_ALGO_NONE None 0 None (MkRl 0) false 0.

(** The new entry's index, [None] when the array cannot grow. *)
Definition table_push (env : res_env) (t : blyt_resource_table_t) : option (nat * blyt_resource_table_t) :=
  let push cap := Some (length (t_entries t), MkTable (t_entries t ++ [fresh_entry]) cap (t_lru_clock t)) in
  if t_count t =? t_cap t then
    let ncap := if t_cap t =? 0 then 8 else t_cap t * 2 in
    if realloc_ok env ncap then push ncap else None
  else push (t_cap t).

Definition read_whole_file (env : res_env) (path : list Z) : option (list Z) :=
  bytes ← file_bytes env path;
  if malloc_ok env (len bytes + 1) then Some bytes else None.

(** The pointer, and the entry with the bytes it has cached. *)
Definition blyt_resource_entry_data (env : res_env) (e : blyt_resource_entry_t)
    : option (option data_ptr * blyt_resource_entry_t) :=
  match e_data e with
  | Some p => Some (Some p, e)
  | None =>
      match e_src_path e with
      | Some path =>
          match read_whole_file env path with
          | None => Some (None, e)
          | Some buf => Some (Some InOwned, with_bytes (Some InOwned) (len buf) (Some buf) e)
          end
      | None =>
          if negb (e_algo e =? BLYT_RES_ALGO_ZSTD) then Some (None, e)
          else if negb (malloc_ok env (if e_len e =? 0 then 1 else e_len e)) then Some (None, e)
          else
            cdata ← e_cdata e;
            body ← rd (cart_map env) cdata (e_clen e);
            match blyt_res_decode env (e_algo e) body (e_len e) with
            | None => Some (None, e)
            | Some buf => Some (Some InOwned, with_bytes (Some InOwned) (e_len e) (Some buf) e)
            end
      end
  end.

(** What a [memcpy] of [n] bytes from the pointer reads. *)
Definition bytes_at (env : res_env) (e : blyt_resource_entry_t) (p : data_ptr) (n : Z) : option (list Z) :=
  match p with
  | InMap off => rd (cart_map env) off n
  | InOwned => buf ← e_owned e; rd buf 0 n
  end.

(** ** Eviction *)

Definition blyt_resource_entry_evict (e : blyt_resource_entry_t) : Z * blyt_resource_entry_t :=
  if e_persistent e || negb (blyt_rl_is_evictable (e_rl e)) then (0, e)
  else match e_owned e with
       | None => (0, e)
       | Some _ => (e_len e, with_bytes None (e_len e) None e)
       end.

Fixpoint evict_all (l : list blyt_resource_entry_t) (total : Z) : Z * list blyt_resource_entry_t :=
  match l with
  | [] => (total, [])
  | e :: l =>
      let '(n, e') := blyt_resource_entry_evict e in
      let '(total', l') := evict_all l (u64 (total + n)) in
      (total', e' :: l')
  end.

Definition blyt_resource_table_evict_all_evictable (t : blyt_resource_table_t) : Z * blyt_resource_table_t :=
  let '(total, l) := evict_all (t_entries t) 0 in (total, with_entries l t).

(** The [uint32_t] sum of [e->len] over the entries that satisfy a test. *)
Definition sum_len (test : blyt_resource_entry_t -> bool) (l : list blyt_resource_entry_t) : Z :=
  foldl (fun total e => if test e then u32 (total + u32 (e_len e)) else total) 0 l.

Definition owned_bit (e : blyt_resource_entry_t) : bool :=
  match e_owned e with Some _ => true | None => false end.

Definition blyt_resource_table_footprint (t : blyt_resource_table_t) : Z :=
  sum_len (fun e => e_persistent e || negb (blyt_rl_is_evictable (e_rl e))) (t_entries t).

Definition blyt_resource_table_resident_evictable (t : blyt_resource_table_t) : Z :=
  sum_len (fun e => owned_bit e && negb (e_persistent e) && blyt_rl_is_evictable (e_rl e)) (t_entries t).

Definition blyt_resource_table_resident_decompressed (t : blyt_resource_table_t) : Z :=
  sum_len owned_bit (t_entries t).

Definition blyt_resource_table_touch (t : blyt_resource_table_t) (i : nat) : blyt_resource_table_t :=
  let clock := u32 (t_lru_clock t + 1) in
  MkTable (alter (with_last_access clock) i (t_entries t)) (t_cap t) clock.

(** The scan for the oldest victim: its index and stamp. *)
Fixpoint victim_loop (i : nat) (l : list blyt_resource_entry_t) (victim : option (nat * Z)) : option (nat * Z) :=
  match l with
  | [] => victim
  | e :: l =>
      if negb (owned_bit e) || e_persistent e || negb (blyt_rl_is_evictable (e_rl e))
      then victim_loop (S i) l victim
      else
        let better := match victim with None => true | Some (_, a) => e_last_access e <? a end in
        victim_loop (S i) l (if better then Some (i, e_last_access e) else victim)
  end.

(** [None] when the fuel is spent. *)
Fixpoint evict_loop (fuel : nat) (t : blyt_resource_table_t) (max_resident_evictable freed : Z)
    : option (Z * blyt_resource_table_t) :=
  match fuel with
  | O => None
  | S fuel =>
      if blyt_resource_table_resident_evictable t <=? max_resident_evictable then Some (freed, t)
      else
        match victim_loop 0 (t_entries t) None with
        | None => Some (freed, t)
        | Some (i, _) =>
            e ← t_entries t !! i;
            let '(n, e') := blyt_resource_entry_evict e in
            evict_loop fuel (with_entries (<[i := e']> (t_entries t)) t) max_resident_evictable (u64 (freed + n))
        end
  end.

(** The loop runs at most once per entry and once more to see that it fits. *)
Definition blyt_resource_table_evict_to_fit (t : blyt_resource_table_t) (max_resident_evictable : Z)
    : option (Z * blyt_resource_table_t) :=
  evict_loop (S (length (t_entries t))) t max_resident_evictable 0.

(** ** Loading *)

Definition RESOURCE_SECTION_PREFIX : list Z := text ".cart.resource.".
Definition PERSISTENT_SECTION : list Z := text ".cart.persistent".

Definition load_resource_section (env : res_env) (suffix : list Z) (off size : Z) (t : blyt_resource_table_t)
    : option blyt_resource_table_t :=
  match blyt_elf32_parse_u32 (Some suffix) with
  | None => Some t
  | Some id =>
      match table_push env t with
      | None => Some t
      | Some (i, t) =>
          header ← blyt_res_header_parse (cart_map env) off size;
          Some (match header with
                | None =>
                    update i (fun _ => MkEntry id (Some (InMap off)) size None BLYT_RES_ALGO_NONE None 0 None (MkRl 0) false 0) t
                | Some (algo, dsize, body, body_len) =>
                    if algo =? BLYT_RES_ALGO_ZSTD
                    then update i (fun _ => MkEntry id None dsize None algo (Some body) body_len None (MkRl 0) false 0) t
                    else update i (fun _ => MkEntry id (Some (InMap body)) dsize None algo None 0 None (MkRl 0) false 0) t
                end)
      end
  end.

(** The number of entries and the table; [mapped] is whether the cart has a map. *)
Definition blyt_resource_table_load_from_cart (env : res_env) (t : blyt_resource_table_t) (mapped : bool)
    : option (Z * blyt_resource_table_t) :=
  let t := blyt_resource_table_clear t in
  if negb mapped then Some (0, t)
  else
    '(_, t) ← blyt_elf32_for_each_section_prefix (load_resource_section env) (Some (cart_map env))
                (Some (RESOURCE_SECTION_PREFIX ++ [0])) t;
    Some (t_count t, t).

Definition read_u32_le (p : list Z) : Z :=
  match p with
  | [a; b; c; d] => Z.lor (Z.lor (Z.lor a (u32 (Z.shiftl b 8))) (u32 (Z.shiftl c 16))) (u32 (Z.shiftl d 24))
  | _ => 0
  end.

(** [k] ids are left, from offset [off]. *)
Fixpoint mark_loop (k : nat) (off : Z) (ids : list Z) (t : blyt_resource_table_t) : option blyt_resource_table_t :=
  match k with
  | O => Some t
  | S k =>
      b ← rd ids off 4;
      mark_loop k (off + 4) ids
        (match blyt_resource_table_find_mut t (read_u32_le b) with
         | Some i => update i (with_persistent true) t
         | None => t
         end)
  end.

Definition blyt_resource_table_mark_persistent (t : blyt_resource_table_t) (ids_le : option (list Z))
    : option blyt_resource_table_t :=
  match ids_le with
  | None => Some t
  | Some ids => mark_loop (Z.to_nat (len ids / 4)) 0 ids t
  end.

Definition blyt_resource_table_load_persistent_from_cart (env : res_env) (t : blyt_resource_table_t) (mapped : bool)
    : option blyt_resource_table_t :=
  if negb mapped then Some t
  else
    found ← blyt_elf32_find_section (Some (cart_map env)) (Some (PERSISTENT_SECTION ++ [0]));
    match found with
    | None => Some t
    | Some (off, size) =>
        ids ← rd (cart_map env) off size;
        blyt_resource_table_mark_persistent t (Some ids)
    end.

(** Materialise the persistent entries in order; [false] at the first failure. *)
Fixpoint preload_loop (env : res_env) (l : list blyt_resource_entry_t) : option (bool * list blyt_resource_entry_t) :=
  match l with
  | [] => Some (true, [])
  | e :: l =>
      if negb (e_persistent e) then '(ok, l') ← preload_loop env l; Some (ok, e :: l')
      else
        '(p, e') ← blyt_resource_entry_data env e;
        match p with
        | None => Some (false, e' :: l)
        | Some _ => '(ok, l') ← preload_loop env l; Some (ok, e' :: l')
        end
  end.

Definition blyt_resource_table_preload_persistent (env : res_env) (t : blyt_resource_table_t)
    : option (Z * blyt_resource_table_t) :=
  if blyt_resource_table_footprint t >? BLYT_MEM_BUDGET_BYTES then Some (-1, t)
  else
    r ← preload_loop env (t_entries t);
    let '(ok, l) := r in
    Some (if (ok : bool) then 0 else -1, with_entries l t).
