(* ===== verification/ResourceTheorems.v ===== *)
(** * ResourceTheorems: budget accounting, eviction and rehydration of resources

    Theorems about [ResourceTable]: the accounting sums, the LRU eviction loop, the
    fact that eviction is invisible to the cart, loading from a packed cart, and the
    preloading of the persistent set. *)

From S2P Require Import Prelude MemBudget ElfSection ResourceTable.
From Stdlib Require Import ZArith Lia String.
From stdpp Require Import base tactics list.
Open Scope Z_scope.

(** ** Accounting sums *)

(** The exact sum, without wrap-around. *)
Fixpoint total_len (test : blyt_resource_entry_t -> bool) (l : list blyt_resource_entry_t) : Z :=
  match l with
  | [] => 0
  | e :: l => (if test e then e_len e else 0) + total_len test l
  end.

(** Referenced by a pin or declared persistent: what the budget charges. *)
Definition charged (e : blyt_resource_entry_t) : bool :=
  e_persistent e || negb (blyt_rl_is_evictable (e_rl e)).

(** Holds bytes that the eviction may reclaim. *)
Definition reclaimable (e : blyt_resource_entry_t) : bool :=
  owned_bit e && negb (e_persistent e) && blyt_rl_is_evictable (e_rl e).

Definition dropped (e : blyt_resource_entry_t) : blyt_resource_entry_t := with_bytes None (e_len e) None e.

Definition lens_ok (l : list blyt_resource_entry_t) : Prop := Forall (fun e => 0 <= e_len e) l.

Lemma sum_len_total test l : sum_len test l = u32 (total_len test l).
Proof.
  unfold sum_len. assert (forall a, foldl (fun s e => if test e then u32 (s + u32 (e_len e)) else s) (u32 a) l
    = u32 (a + total_len test l)) as H; [|exact (H 0)].
  induction l as [|e l IH]; intros a; cbn [foldl total_len]; [by rewrite Z.add_0_r|].
  destruct (test e); cbn.
  - replace (u32 (u32 a + u32 (e_len e))) with (u32 (a + e_len e)) by word. rewrite IH. f_equal. lia.
  - rewrite IH. f_equal.
Qed.

Lemma total_nonneg test l : lens_ok l -> 0 <= total_len test l.
Proof. induction 1 as [|e l He _ IH]; cbn [total_len]; [lia|]. destruct (test e); lia. Qed.

Lemma total_insert test l i e e' :
  l !! i = Some e ->
  total_len test (<[i := e']> l)
  = total_len test l - (if test e then e_len e else 0) + (if test e' then e_len e' else 0).
Proof.
  revert i; induction l as [|x l IH]; intros [|i] Hi; [done..| |]; cbn [lookup list_lookup] in Hi.
  - injection Hi as ->. change (<[0%nat := e']> (e :: l)) with (e' :: l). cbn [total_len]. lia.
  - change (<[S i := e']> (x :: l)) with (x :: <[i := e']> l). cbn [total_len]. rewrite (IH i Hi). lia.
Qed.

Lemma total_In test l i e :
  lens_ok l -> l !! i = Some e -> test e = true -> e_len e <= total_len test l.
Proof.
  intros Hl. revert i; induction Hl as [|x l Hx Hl IH]; intros [|i] Hi Ht; [done..| |];
    cbn [lookup list_lookup total_len] in *; pose proof (total_nonneg test l Hl).
  - injection Hi as ->. rewrite Ht. lia.
  - specialize (IH i Hi Ht). destruct (test x); lia.
Qed.

Lemma dropped_not_reclaimable e : reclaimable (dropped e) = false.
Proof. done. Qed.

Lemma charged_not_reclaimable e : reclaimable e = true -> charged e = false.
Proof. unfold reclaimable, charged. destruct (e_persistent e), (blyt_rl_is_evictable (e_rl e)), (owned_bit e); done. Qed.

Lemma evict_reclaimable e : reclaimable e = true -> blyt_resource_entry_evict e = (e_len e, dropped e).
Proof.
  unfold reclaimable, blyt_resource_entry_evict, owned_bit. intros H.
  destruct (e_persistent e), (blyt_rl_is_evictable (e_rl e)), (e_owned e) eqn:E; cbn in *; done.
Qed.

Lemma evict_not_reclaimable e : reclaimable e = false -> blyt_resource_entry_evict e = (0, e).
Proof.
  unfold reclaimable, blyt_resource_entry_evict, owned_bit. intros H.
  destruct (e_persistent e), (blyt_rl_is_evictable (e_rl e)), (e_owned e) eqn:E; cbn in *; done.
Qed.

(** ** The victim scan *)

Lemma victim_loop_spec i l v :
  match victim_loop i l v with
  | None => v = None /\ forall e, e ∈ l -> reclaimable e = false
  | Some (j, a) =>
      (forall e, e ∈ l -> reclaimable e = true -> a <= e_last_access e)
      /\ (forall k b, v = Some (k, b) -> a <= b)
      /\ (v = Some (j, a)
          \/ exists k e, (j = i + k)%nat /\ l !! k = Some e /\ reclaimable e = true /\ e_last_access e = a)
  end.
Proof.
  revert i v; induction l as [|e l IH]; intros i v; cbn [victim_loop].
  { destruct v as [[j a]|].
    - split_and!; [intros e He; by apply elem_of_nil in He|intros ? ? [= <- <-]; lia|by left].
    - split; [done|]. intros e He. by apply elem_of_nil in He. }
  assert (negb (owned_bit e) || e_persistent e || negb (blyt_rl_is_evictable (e_rl e)) = negb (reclaimable e)) as ->.
  { unfold reclaimable. destruct (owned_bit e), (e_persistent e), (blyt_rl_is_evictable (e_rl e)); done. }
  destruct (reclaimable e) eqn:Er; cbn [negb].
  - set (better := match v with None => true | Some (_, a) => e_last_access e <? a end).
    specialize (IH (S i) (if better then Some (i, e_last_access e) else v)).
    destruct (victim_loop (S i) l _) as [[j a]|].
    + destruct IH as (Hmin & Hv & Hw).
      assert (a <= e_last_access e /\ forall k b, v = Some (k, b) -> a <= b) as [Ha Hb].
      { destruct better eqn:Eb.
        - specialize (Hv _ _ eq_refl). split; [done|]. intros k b ->. cbn in Eb. lia.
        - destruct v as [[k b]|]; [|done]. specialize (Hv _ _ eq_refl). cbn in Eb.
          split; [lia|]. intros ? ? [= <- <-]. done. }
      split_and!; [|done|].
      * intros e' He' Hr. apply elem_of_cons in He' as [->|He']; [done|by apply Hmin].
      * destruct Hw as [Hw|(k & e' & -> & Hk & Hr & Ha')].
        -- destruct better; [|by left]. injection Hw as <- <-. right. exists 0%nat, e. split_and!; [lia|done..].
        -- right. exists (S k), e'. split_and!; [lia|done..].
    + destruct IH as [IH _]. destruct better eqn:Eb; [done|]. subst v. done.
  - specialize (IH (S i) v). destruct (victim_loop (S i) l v) as [[j a]|].
    + destruct IH as (Hmin & Hv & Hw). split_and!; [|done|].
      * intros e' He' Hr. apply elem_of_cons in He' as [->|He']; [congruence|by apply Hmin].
      * destruct Hw as [->|(k & e' & -> & Hk & Hr & Ha')]; [by left|].
        right. exists (S k), e'. split_and!; [lia|done..].
    + destruct IH as [-> IH]. split; [done|]. intros e' He'. apply elem_of_cons in He' as [->|He']; [done|by apply IH].
Qed.

(** ** The eviction loop *)

(** Every entry is as before or has lost its reclaimable bytes. *)
Definition evictions (l l' : list blyt_resource_entry_t) : Prop :=
  Forall2 (fun e e' => e' = e \/ reclaimable e = true /\ e' = dropped e) l l'.

(** Victims are no more recent than survivors. *)
Definition oldest_first (l l' : list blyt_resource_entry_t) : Prop :=
  forall i j e e', l !! i = Some e -> l' !! i <> Some e -> l' !! j = Some e' -> reclaimable e' = true ->
    e_last_access e <= e_last_access e'.

(** Giving back the last victim would exceed the bound. *)
Definition minimal (max : Z) (l l' : list blyt_resource_entry_t) : Prop :=
  l' <> l ->
  exists i e, l !! i = Some e /\ reclaimable e = true /\ l' !! i = Some (dropped e)
    /\ max < total_len reclaimable l' + e_len e.

Lemma evictions_refl l : evictions l l.
Proof. apply Forall2_same_length_lookup_2; [done|]. intros; left; congruence. Qed.

Lemma evictions_insert l i e l' :
  l !! i = Some e -> reclaimable e = true -> evictions (<[i := dropped e]> l) l' ->
  evictions l l' /\ l' !! i = Some (dropped e).
Proof.
  intros Hi Hr H. pose proof (Forall2_length _ _ _ H) as Hlen. rewrite length_insert in Hlen.
  assert (i < length l)%nat as Hil by by eapply lookup_lt_Some.
  assert (forall j x, l' !! j = Some x -> exists y, <[i := dropped e]> l !! j = Some y
    /\ (x = y \/ reclaimable y = true /\ x = dropped y)) as Hpt.
  { intros j x Hx. by destruct (Forall2_lookup_r _ _ _ _ _ H Hx) as (y & ? & ?); exists y. }
  assert (l' !! i = Some (dropped e)) as Hi'.
  { destruct (lookup_lt_is_Some_2 l' i) as [x Hx]; [lia|]. destruct (Hpt i x Hx) as (y & Hy & Hxy).
    rewrite list_lookup_insert_eq in Hy by done. injection Hy as <-. destruct Hxy as [->|[? _]]; done. }
  split; [|done]. apply Forall2_same_length_lookup_2; [lia|]. intros j x x' Hx Hx'.
  destruct (decide (i = j)) as [<-|Hne]; [right; split; congruence|].
  destruct (Hpt j x' Hx') as (y & Hy & Hxy). rewrite list_lookup_insert_ne in Hy by done.
  assert (x = y) as <- by congruence. done.
Qed.

Lemma evictions_total_charged l l' : evictions l l' -> total_len charged l' = total_len charged l.
Proof.
  induction 1 as [|e e' l l' He _ IH]; [done|]. cbn [total_len].
  rewrite IH. by destruct He as [->|[_ ->]].
Qed.

Lemma lens_ok_insert l i e : lens_ok l -> l !! i = Some e -> lens_ok (<[i := dropped e]> l).
Proof. intros Hl Hi. apply Forall_insert; [done|]. cbn. by apply (Forall_lookup_1 _ _ _ _ Hl Hi). Qed.

(** Number of entries the loop may still evict. *)
Definition work (l : list blyt_resource_entry_t) : nat := length (filter (fun e => reclaimable e = true) l).

Lemma work_insert l i e :
  l !! i = Some e -> reclaimable e = true -> work l = S (work (<[i := dropped e]> l)).
Proof.
  unfold work. revert i; induction l as [|x l IH]; intros [|i] Hi Hr; cbn [lookup list_lookup] in *; [done..| |].
  - injection Hi as ->. change (<[0%nat := dropped e]> (e :: l)) with (dropped e :: l).
    rewrite filter_cons_True by done. rewrite filter_cons_False by done. done.
  - change (<[S i := dropped e]> (x :: l)) with (x :: <[i := dropped e]> l). rewrite !filter_cons.
    destruct (decide _); cbn [length]; by rewrite (IH i Hi Hr).
Qed.

Lemma work_le l : (work l <= length l)%nat.
Proof. apply length_filter. Qed.

Lemma evict_loop_spec fuel t max freed :
  lens_ok (t_entries t) -> total_len reclaimable (t_entries t) < 2 ^ 32 -> 0 <= max ->
  0 <= freed -> freed + total_len reclaimable (t_entries t) < 2 ^ 64 ->
  (work (t_entries t) < fuel)%nat ->
  exists freed' t', evict_loop fuel t max freed = Some (freed', t')
    /\ t_cap t' = t_cap t /\ t_lru_clock t' = t_lru_clock t
    /\ freed' + total_len reclaimable (t_entries t') = freed + total_len reclaimable (t_entries t)
    /\ total_len reclaimable (t_entries t') <= max
    /\ evictions (t_entries t) (t_entries t')
    /\ oldest_first (t_entries t) (t_entries t')
    /\ minimal max (t_entries t) (t_entries t').
Proof.
  revert t freed; induction fuel as [|fuel IH]; intros t freed Hl Hs Hmax Hf Hf64 Hw; [lia|]. cbn [evict_loop].
  pose proof (total_nonneg reclaimable _ Hl) as Hn.
  assert (blyt_resource_table_resident_evictable t = total_len reclaimable (t_entries t)) as ->.
  { unfold blyt_resource_table_resident_evictable. rewrite sum_len_total. apply u32_id. unfold is_u32. lia. }
  assert (total_len reclaimable (t_entries t) <= max -> exists freed' t', Some (freed, t) = Some (freed', t')
    /\ t_cap t' = t_cap t /\ t_lru_clock t' = t_lru_clock t
    /\ freed' + total_len reclaimable (t_entries t') = freed + total_len reclaimable (t_entries t)
    /\ total_len reclaimable (t_entries t') <= max
    /\ evictions (t_entries t) (t_entries t')
    /\ oldest_first (t_entries t) (t_entries t') /\ minimal max (t_entries t) (t_entries t')) as Hdone.
  { intros. exists freed, t. split_and!; [done..|apply evictions_refl| |]; [intros ? ? ? ? ? ?; done|intros ?; done]. }
  destruct (Z.leb_spec (total_len reclaimable (t_entries t)) max) as [Hfit|Hfit]; [by apply Hdone|].
  pose proof (victim_loop_spec 0 (t_entries t) None) as Hv. destruct (victim_loop 0 (t_entries t) None) as [[i a]|].
  2:{ destruct Hv as [_ Hv]. apply Hdone. replace (total_len reclaimable (t_entries t)) with 0; [done|].
      clear -Hv. induction (t_entries t) as [|e l IH]; [done|]. cbn [total_len].
      rewrite (Hv e) by (left; done). rewrite <-IH; [done|]. intros; apply Hv; by right. }
  destruct Hv as (Hmin & _ & [Hv|(k & e & -> & Hk & Hr & <-)]); [done|]. rewrite Nat.add_0_l, Hk. cbn [mbind option_bind].
  rewrite (evict_reclaimable e Hr).
  pose proof (total_In reclaimable _ _ _ Hl Hk Hr). pose proof (Forall_lookup_1 _ _ _ _ Hl Hk) as He. cbn beta in He.
  pose proof (total_insert reclaimable _ _ _ (dropped e) Hk) as Ht. rewrite Hr, dropped_not_reclaimable in Ht.
  rewrite u64_id by (unfold is_u64; lia). pose proof (work_insert _ _ _ Hk Hr).
  destruct (IH (with_entries (<[k := dropped e]> (t_entries t)) t) (freed + e_len e))
    as (freed' & t' & Hrun & Hcap & Hclk & Hfr & Hle & Hev & Hlru & Hm); cbn [with_entries t_entries] in *;
    [by apply lens_ok_insert|lia..|].
  destruct (evictions_insert _ _ _ _ Hk Hr Hev) as [Hev' Hk'].
  exists freed', t'. split_and!; [done..|lia|lia|done| |].
  - intros i j x x' Hx Hx' Hj Hrj. destruct (decide (k = i)) as [<-|Hne].
    + assert (x = e) as -> by congruence.
      destruct (Forall2_lookup_r _ _ _ _ _ Hev' Hj) as (y & Hy & [->|[_ ->]]); [|done].
      apply Hmin; [by eapply list_elem_of_lookup_2|done].
    + eapply (Hlru i j); try done. by rewrite list_lookup_insert_ne.
  - intros _. destruct (decide (t_entries t' = <[k := dropped e]> (t_entries t))) as [E|E].
    + exists k, e. split_and!; [done..|]. rewrite E, Ht. lia.
    + destruct (Hm E) as (i & x & Hi & Hrx & Hi' & Hmx). exists i, x. split_and!; [|done..].
      destruct (decide (k = i)) as [<-|Hne]; [|by rewrite list_lookup_insert_ne in Hi].
      rewrite list_lookup_insert_eq in Hi by (by eapply lookup_lt_Some). injection Hi as <-. done.
Qed.

(** ** Where the bytes of an entry come from *)

(** What a non-resident entry is rehydrated from. *)
Definition source (env : res_env) (e : blyt_resource_entry_t) : option (list Z) :=
  match e_src_path e with
  | Some path => read_whole_file env path
  | None =>
      if negb (e_algo e =? BLYT_RES_ALGO_ZSTD) then None
      else if negb (malloc_ok env (if e_len e =? 0 then 1 else e_len e)) then None
      else cdata ← e_cdata e; body ← rd (cart_map env) cdata (e_clen e); blyt_res_decode env (e_algo e) body (e_len e)
  end.

(** The bytes an entry stands for, resident or not. *)
Definition content (env : res_env) (e : blyt_resource_entry_t) : option (list Z) :=
  match e_data e with
  | Some (InMap off) => rd (cart_map env) off (e_len e)
  | _ => source env e
  end.

(** The compressed body is in the map; the length is that of the source; cached bytes
    are those of the source. *)
Definition coherent (env : res_env) (e : blyt_resource_entry_t) : Prop :=
  0 <= e_len e
  /\ (e_src_path e = None -> e_algo e = BLYT_RES_ALGO_ZSTD ->
      exists cdata, e_cdata e = Some cdata /\ is_Some (rd (cart_map env) cdata (e_clen e)))
  /\ (forall buf, source env e = Some buf -> len buf = e_len e)
  /\ match e_owned e with
     | Some buf => e_data e = Some InOwned /\ source env e = Some buf
     | None => e_data e <> Some InOwned
     end.

(** Same source, same charge against the budget. *)
Definition same_resource (env : res_env) (e e' : blyt_resource_entry_t) : Prop :=
  content env e' = content env e /\ e_len e' = e_len e /\ e_id e' = e_id e /\ charged e' = charged e
  /\ e_last_access e' = e_last_access e /\ e_persistent e' = e_persistent e.

Lemma rd_whole (l : list Z) n : len l = n -> rd l 0 n = Some l.
Proof. intros <-. pose proof (len_nonneg l). rewrite rd_Some by lia. by rewrite sub_0_all. Qed.

(** Materialising an entry. *)
Lemma entry_data_spec env e :
  coherent env e ->
  exists p e', blyt_resource_entry_data env e = Some (p, e')
    /\ coherent env e' /\ same_resource env e e'
    /\ match p with
       | Some p => e_data e' = Some p /\ bytes_at env e' p (e_len e') = content env e
       | None => content env e = None
       end.
Proof.
  intros Hco. pose proof Hco as (Hl & Hbody & Hlen & Hown). unfold blyt_resource_entry_data.
  destruct (e_data e) as [p|] eqn:Ed.
  { exists (Some p), e. unfold same_resource. split_and!; [done..|]. unfold bytes_at, content.
    rewrite Ed. destruct p as [off|]; [done|]. destruct (e_owned e) as [buf|]; [|done].
    destruct Hown as [_ Hs]. cbn. rewrite Hs. apply rd_whole. by apply Hlen. }
  destruct (e_owned e) as [buf|] eqn:Eo; [by destruct Hown|].
  assert (forall buf, source env e = Some buf ->
    coherent env (with_bytes (Some InOwned) (e_len e) (Some buf) e)
    /\ same_resource env e (with_bytes (Some InOwned) (e_len e) (Some buf) e)
    /\ bytes_at env (with_bytes (Some InOwned) (e_len e) (Some buf) e) InOwned (e_len e) = content env e) as Hmat.
  { intros buf Hs. unfold coherent, same_resource, content, bytes_at. rewrite Ed. cbn.
    change (source env (with_bytes (Some InOwned) (e_len e) (Some buf) e)) with (source env e).
    split_and!; try done. rewrite Hs. apply rd_whole. by apply Hlen. }
  assert (content env e = source env e) as Hcs by (unfold content; by rewrite Ed). rewrite Hcs in *.
  unfold source in Hmat, Hlen |- *. destruct (e_src_path e) as [path|] eqn:Ep.
  - destruct (read_whole_file env path) as [buf|] eqn:Er.
    + destruct (Hmat buf eq_refl) as (H1 & H2 & H3). rewrite (Hlen buf eq_refl). by eexists _, _.
    + eexists _, _. by split_and!.
  - destruct (Z.eqb_spec (e_algo e) BLYT_RES_ALGO_ZSTD) as [Ea|Ea]; cbn [negb] in *; [|eexists _, _; by split_and!].
    destruct (malloc_ok env _); cbn [negb] in *; [|eexists _, _; by split_and!].
    destruct (Hbody eq_refl Ea) as (cdata & Hc & body & Hb). rewrite Hc in *. cbn [mbind option_bind] in *.
    rewrite Hb in *. cbn [mbind option_bind] in *.
    destruct (blyt_res_decode env (e_algo e) body (e_len e)) as [buf|]; [|eexists _, _; by split_and!].
    destruct (Hmat buf eq_refl) as (H1 & H2 & H3). by eexists _, _.
Qed.

Lemma evict_coherent env e :
  coherent env e ->
  coherent env (blyt_resource_entry_evict e).2 /\ same_resource env e (blyt_resource_entry_evict e).2.
Proof.
  intros Hco. destruct (reclaimable e) eqn:Er; [rewrite (evict_reclaimable e Er)|rewrite (evict_not_reclaimable e Er); by unfold same_resource].
  destruct Hco as (Hl & Hbody & Hlen & Hown). unfold reclaimable, owned_bit in Er.
  destruct (e_owned e) as [buf|] eqn:Eo; [|done]. destruct Hown as [Hd Hs].
  unfold coherent, same_resource, content. cbn. rewrite Hd. change (source env (dropped e)) with (source env e).
  by split_and!.
Qed.

(** ** Loading from a packed cart *)

(** The entry made for a section. *)
Definition section_entry (env : res_env) (id off size : Z) : blyt_resource_entry_t :=
  let verbatim := MkEntry id (Some (InMap off)) size None BLYT_RES_ALGO_NONE None 0 None (MkRl 0) false 0 in
  if size <? 8 then verbatim
  else
    let algo := default 0 (zget (cart_map env) off) in
    let dsize := word_at (cart_map env) (off + 4) in
    if algo =? 1 then MkEntry id None dsize None 1 (Some (off + 8)) (size - 8) None (MkRl 0) false 0
    else if algo =? 0 then MkEntry id (Some (InMap (off + 8))) dsize None 0 None 0 None (MkRl 0) false 0
    else verbatim.

(** The resource sections of the cart with their ids. *)
Definition resource_sections (env : res_env) : list (Z * Z * Z) :=
  omap (fun '(suffix, off, size) => id ← blyt_elf32_parse_u32 (Some suffix); Some (id, off, size))
    (prefixed (cart_map env) RESOURCE_SECTION_PREFIX (sections (cart_map env))).

Lemma word_at_nonneg elf off : bytes_ok elf -> 0 <= word_at elf off.
Proof. intros Hb. by apply le_val_range, Forall_sub. Qed.

Lemma prefixed_bounds elf prefix :
  bytes_ok elf ->
  Forall (fun '(_, off, size) => 0 <= off /\ 0 <= size /\ off + size <= len elf)
    (prefixed elf prefix (sections elf)).
Proof.
  intros Hb. assert (Forall (fun '(_, off, size) => 0 <= off /\ 0 <= size) (sections elf)) as Hs.
  { unfold sections. destruct (resolve_sht _) as [[sht|]|]; [|done..]. apply Forall_fmap, Forall_true.
    intros i. unfold section_at. cbn. split; by apply word_at_nonneg. }
  induction Hs as [|[[n off] size] l [Ho Hz] _ IH]; [done|]. rewrite prefixed_cons.
  destruct (n ≫= strip prefix); [|done]. destruct (in_image elf off size) eqn:E; [|done].
  constructor; [|done]. unfold in_image in E. lia.
Qed.

Lemma update_last l i f c k x :
  i = length l -> update i f (MkTable (l ++ [x]) c k) = MkTable (l ++ [f x]) c k.
Proof.
  intros ->. unfold update, with_entries. cbn. f_equal. apply list_eq; intros j.
  destruct (decide (j = length l)) as [->|].
  - by rewrite list_lookup_alter_eq, !lookup_app_r, Nat.sub_diag by lia.
  - rewrite list_lookup_alter_ne by done. destruct (decide (j < length l)%nat); [by rewrite !lookup_app_l by lia|].
    rewrite !lookup_ge_None_2; [done|rewrite length_app; cbn; lia..].
Qed.

Lemma load_section_spec env suffix off size t :
  (forall n, realloc_ok env n = true) -> bytes_ok (cart_map env) ->
  0 <= off -> 0 <= size -> off + size <= len (cart_map env) ->
  exists cap, load_resource_section env suffix off size t
    = Some (match blyt_elf32_parse_u32 (Some suffix) with
            | Some id => MkTable (t_entries t ++ [section_entry env id off size]) cap (t_lru_clock t)
            | None => t
            end).
Proof.
  intros Hr Hb Ho Hs Hin. unfold load_resource_section.
  destruct (blyt_elf32_parse_u32 (Some suffix)) as [id|]; [|by exists 0].
  assert (exists cap, table_push env t = Some (length (t_entries t), MkTable (t_entries t ++ [fresh_entry]) cap (t_lru_clock t)))
    as [cap ->].
  { unfold table_push. rewrite Hr. destruct (t_count t =? t_cap t); by eexists. }
  exists cap. unfold blyt_res_header_parse, section_entry, BLYT_RES_HEADER_LEN, BLYT_RES_ALGO_NONE, BLYT_RES_ALGO_ZSTD.
  destruct (Z.ltb_spec size 8); cbn [mbind option_bind]; [by rewrite update_last|].
  destruct (zget_is_Some (cart_map env) off) as [a Ha]; [lia|]. rewrite Ha. cbn [mbind option_bind].
  change (default 0 (Some a)) with a.
  destruct (Z.eqb_spec a 0) as [E0|E0]; destruct (Z.eqb_spec a 1) as [E1|E1]; cbn [negb andb mbind option_bind];
    try lia; rewrite ?rd_word by (done || lia); cbn [mbind option_bind]; subst;
    cbn [Z.eqb Pos.eqb]; by rewrite update_last.
Qed.

Lemma visit_load env l t :
  (forall n, realloc_ok env n = true) -> bytes_ok (cart_map env) ->
  Forall (fun '(_, off, size) => 0 <= off /\ 0 <= size /\ off + size <= len (cart_map env)) l ->
  exists cap, visit (load_resource_section env) l t
    = Some (MkTable (t_entries t ++ ((fun '(id, off, size) => section_entry env id off size) <$>
        omap (fun '(suffix, off, size) => id ← blyt_elf32_parse_u32 (Some suffix); Some (id, off, size)) l))
        cap (t_lru_clock t)).
Proof.
  intros Hr Hb Hl. revert t; induction Hl as [|[[suffix off] size] l (? & ? & ?) _ IH]; intros t; cbn [visit].
  { exists (t_cap t). cbn. rewrite app_nil_r. by destruct t. }
  destruct (load_section_spec env suffix off size t) as [cap ->]; [done..|]. cbn [mbind option_bind omap list_omap].
  destruct (blyt_elf32_parse_u32 (Some suffix)) as [id|]; cbn [mbind option_bind]; [|apply IH].
  destruct (IH (MkTable (t_entries t ++ [section_entry env id off size]) cap (t_lru_clock t))) as [cap' ->].
  exists cap'. cbn. by rewrite <-app_assoc.
Qed.

Lemma decode_len env algo body n buf : blyt_res_decode env algo body n = Some buf -> len buf = n.
Proof.
  unfold blyt_res_decode. destruct (algo =? BLYT_RES_ALGO_NONE).
  - destruct (Z.eqb_spec (len body) n); cbn; by intros [= <-].
  - destruct (algo =? BLYT_RES_ALGO_ZSTD); [|done]. destruct (zstd env body n) as [got|]; cbn; [|done].
    destruct (Z.eqb_spec (len got) n); cbn; by intros [= <-].
Qed.

Lemma section_entry_uncharged env id off size : charged (section_entry env id off size) = false.
Proof. unfold section_entry. cbv zeta. cond E0; [done|]. cond E1; [done|]. by cond E2. Qed.

Lemma section_entry_coherent env id off size :
  bytes_ok (cart_map env) -> 0 <= off -> 0 <= size -> off + size <= len (cart_map env) ->
  coherent env (section_entry env id off size).
Proof.
  intros Hb Ho Hs Hin. unfold section_entry. pose proof (word_at_nonneg (cart_map env) (off + 4) Hb).
  destruct (Z.ltb_spec size 8); [unfold coherent, source; cbn; split_and!; done|].
  destruct (default 0 (zget (cart_map env) off) =? 1);
    [|destruct (default 0 (zget (cart_map env) off) =? 0); unfold coherent, source; cbn; split_and!; done].
  unfold coherent, source. cbn. split_and!; [done| | |done].
  - intros _ _. eexists. split; [done|]. by rewrite rd_Some by lia.
  - destruct (malloc_ok env _); cbn; [|done]. rewrite rd_Some by lia. cbn. intros buf Hd. exact (decode_len env 1 _ _ _ Hd).
Qed.

(** ** Marking and preloading the persistent set *)

(** The little-endian words of a section body. *)
Fixpoint words (k : nat) (ids : list Z) : list Z :=
  match k with
  | O => []
  | S k => le_val (take 4 ids) :: words k (drop 4 ids)
  end.

Lemma read_u32_le_val b : bytes_ok b -> len b = 4 -> read_u32_le b = le_val b.
Proof.
  intros Hb Hlen. destruct b as [|b0 [|b1 [|b2 [|b3 [|b4 b]]]]]; unfold len in Hlen; cbn [length] in Hlen; try lia. clear Hlen.
  repeat apply Forall_cons in Hb as [? Hb]. unfold is_u8 in *. unfold read_u32_le.
  rewrite !Z.shiftl_mul_pow2 by lia. rewrite !u32_id by (unfold is_u32; lia).
  rewrite (Z.lor_comm b0), (lor_disjoint_add b1 b0 8) by lia.
  rewrite (Z.lor_comm (_ + _) (b2 * _)), (lor_disjoint_add b2 _ 16) by lia.
  rewrite (Z.lor_comm (_ + _) (b3 * _)), (lor_disjoint_add b3 _ 24) by lia. cbn [le_val]. lia.
Qed.

Lemma find_from_spec l id i :
  match find_from i l id with
  | Some j => exists k e, j = (i + k)%nat /\ l !! k = Some e /\ e_id e = id
      /\ forall m e', (m < k)%nat -> l !! m = Some e' -> e_id e' <> id
  | None => forall e, e ∈ l -> e_id e <> id
  end.
Proof.
  revert i; induction l as [|e l IH]; intros i; cbn [find_from]; [intros e He; by apply elem_of_nil in He|].
  destruct (Z.eqb_spec (e_id e) id) as [E|E].
  { exists 0%nat, e. split_and!; [lia|done|done|lia]. }
  specialize (IH (S i)). destruct (find_from (S i) l id) as [j|].
  - destruct IH as (k & e' & -> & Hk & He & Hm). exists (S k), e'. split_and!; [lia|done|done|].
    intros [|m] e'' Hm' He''; [by cbn in He''; simplify_eq|]. apply (Hm m); [lia|done].
  - intros e' He'. apply elem_of_cons in He' as [->|He']; [done|by apply IH].
Qed.

Lemma find_from_none l id i : (forall e, e ∈ l -> e_id e <> id) -> find_from i l id = None.
Proof.
  intros H. pose proof (find_from_spec l id i) as Hf. destruct (find_from i l id) as [j|]; [|done].
  destruct Hf as (k & e & _ & Hk & He & _). exfalso. apply (H e); [by eapply list_elem_of_lookup_2|done].
Qed.

(** Set the flag on every entry whose id is listed. *)
Definition mark_ids (ids : list Z) (e : blyt_resource_entry_t) : blyt_resource_entry_t :=
  with_persistent (e_persistent e || bool_decide (e_id e ∈ ids)) e.

Lemma mark_ids_nil (l : list blyt_resource_entry_t) : mark_ids [] <$> l = l.
Proof.
  rewrite <-(list_fmap_id l) at 2. apply list_fmap_ext. intros i e _. unfold mark_ids.
  rewrite bool_decide_false by apply not_elem_of_nil. rewrite orb_false_r. by destruct e.
Qed.

Lemma mark_one t id :
  NoDup (e_id <$> t_entries t) ->
  t_entries (match blyt_resource_table_find_mut t id with
             | Some i => update i (with_persistent true) t
             | None => t
             end) = mark_ids [id] <$> t_entries t.
Proof.
  intros Hnd. unfold blyt_resource_table_find_mut. pose proof (find_from_spec (t_entries t) id 0) as Hf.
  destruct (find_from 0 (t_entries t) id) as [i|].
  - destruct Hf as (k & e & -> & Hk & He & _). rewrite Nat.add_0_l. cbn. apply list_eq. intros j.
    rewrite list_lookup_fmap. destruct (decide (j = k)) as [->|Hne].
    + rewrite list_lookup_alter_eq, Hk. cbn. unfold mark_ids.
      rewrite bool_decide_true by (rewrite He; by left). by rewrite orb_true_r.
    + rewrite list_lookup_alter_ne by done. destruct (t_entries t !! j) as [e'|] eqn:Hj; cbn; [|done].
      unfold mark_ids. rewrite bool_decide_false; [rewrite orb_false_r; by destruct e'|].
      rewrite list_elem_of_singleton. intros Hid. apply Hne.
      apply (NoDup_lookup (e_id <$> t_entries t) j k id); [done|rewrite list_lookup_fmap, Hj; cbn; congruence|].
      rewrite list_lookup_fmap, Hk. cbn. congruence.
  - rewrite <-(list_fmap_id (t_entries t)) at 1. apply list_fmap_ext. intros i e Hi. unfold mark_ids.
    rewrite bool_decide_false; [rewrite orb_false_r; by destruct e|].
    rewrite list_elem_of_singleton. apply Hf. by eapply list_elem_of_lookup_2.
Qed.

Lemma mark_ids_compose a b (l : list blyt_resource_entry_t) : mark_ids b <$> (mark_ids a <$> l) = mark_ids (a ++ b) <$> l.
Proof.
  rewrite <-list_fmap_compose. apply list_fmap_ext. intros i e _. unfold mark_ids. cbn.
  unfold with_persistent. cbn. f_equal.
  destruct (e_persistent e); cbn; [done|].
  repeat case_bool_decide; rewrite elem_of_app in *; cbn; try done; exfalso; tauto.
Qed.

Lemma drop_drop_Z {A} (l : list A) off n :
  0 <= off -> 0 <= n -> drop (Z.to_nat n) (drop (Z.to_nat off) l) = drop (Z.to_nat (off + n)) l.
Proof. intros. rewrite drop_drop. f_equal. lia. Qed.

Lemma mark_loop_spec k off ids t :
  bytes_ok ids -> 0 <= off -> off + 4 * Z.of_nat k <= len ids -> NoDup (e_id <$> t_entries t) ->
  exists t', mark_loop k off ids t = Some t'
    /\ t_entries t' = mark_ids (words k (drop (Z.to_nat off) ids)) <$> t_entries t.
Proof.
  intros Hb. revert off t; induction k as [|k IH]; intros off t Ho Hl Hnd; cbn [mark_loop words].
  { exists t. by rewrite mark_ids_nil. }
  rewrite rd_Some by lia. cbn [mbind option_bind].
  rewrite read_u32_le_val by (apply Forall_sub, Hb || (apply len_sub; lia)).
  set (id := le_val (sub ids off 4)). pose proof (mark_one t id Hnd) as Hm.
  set (t1 := match blyt_resource_table_find_mut t id with Some i => _ | None => t end) in *.
  destruct (IH (off + 4) t1) as (t' & -> & Ht'); [lia|lia| |].
  { rewrite Hm, <-list_fmap_compose. rewrite (list_fmap_ext (e_id ∘ mark_ids [id]) e_id); [done|done]. }
  exists t'. split; [done|]. rewrite Ht', Hm, mark_ids_compose. do 2 f_equal. cbn [app]. f_equal.
  rewrite <-drop_drop_Z by lia. done.
Qed.

(** What preloading makes of an entry. *)
Definition preloaded (env : res_env) (e e' : blyt_resource_entry_t) : Prop :=
  if e_persistent e
  then exists p, e_data e' = Some p /\ bytes_at env e' p (e_len e') = content env e
                /\ coherent env e' /\ same_resource env e e'
  else e' = e.

(** Its bytes are at hand or can be read. *)
Definition available (env : res_env) (e : blyt_resource_entry_t) : bool :=
  match blyt_resource_entry_data env e with Some (Some _, _) => true | _ => false end.

Lemma preload_loop_spec env l :
  Forall (coherent env) l ->
  exists ok l', preload_loop env l = Some (ok, l')
    /\ ok = forallb (fun e => negb (e_persistent e) || available env e) l
    /\ (ok = true -> Forall2 (preloaded env) l l').
Proof.
  induction 1 as [|e l He _ IH]; cbn [preload_loop forallb]; [by eexists _, _|].
  destruct IH as (ok & l' & -> & Hok & Hl). unfold preloaded at 1, available at 1.
  destruct (e_persistent e) eqn:Ep; cbn [negb orb andb mbind option_bind].
  - destruct (entry_data_spec env e He) as (p & e' & Hr & Hco & Hsame & Hp). rewrite Hr. cbn [mbind option_bind].
    destruct p as [p|]; [|eexists _, _; by split_and!]. eexists _, _. split_and!; [done|done|]. intros Ht.
    constructor; [|by apply Hl]. rewrite Ep. destruct Hp as [Hd Hb]. by exists p.
  - eexists _, _. split_and!; [done|done|]. intros Ht. constructor; [by rewrite Ep|by apply Hl].
Qed.

(** ** Properties *)

Lemma footprint_total t : blyt_resource_table_footprint t = u32 (total_len charged (t_entries t)).
Proof. unfold blyt_resource_table_footprint. by rewrite (sum_len_total charged). Qed.

(** C37: The pressure response ends and does what ADR-0027 asks.  For any table whose
    reclaimable bytes fit 32 bits, [blyt_resource_table_evict_to_fit] returns: the
    reclaimable cache then fits the bound; the bytes reported freed are exactly the
    bytes reclaimed; every entry is untouched or has only lost its cached bytes, pinned
    and persistent entries never being touched; victims are never more recent than what
    survives; giving back the last victim would exceed the bound (no over-eviction); and
    the footprint the budget charges is unchanged. *)
Theorem resource_evict_to_fit_exact t max :
  lens_ok (t_entries t) -> total_len reclaimable (t_entries t) < 2 ^ 32 -> 0 <= max ->
  exists freed t', blyt_resource_table_evict_to_fit t max = Some (freed, t')
    /\ total_len reclaimable (t_entries t') <= max
    /\ freed + total_len reclaimable (t_entries t') = total_len reclaimable (t_entries t)
    /\ evictions (t_entries t) (t_entries t')
    /\ oldest_first (t_entries t) (t_entries t')
    /\ minimal max (t_entries t) (t_entries t')
    /\ blyt_resource_table_footprint t' = blyt_resource_table_footprint t.
Proof.
  intros Hl Hs Hm. pose proof (work_le (t_entries t)). pose proof (total_nonneg reclaimable _ Hl).
  destruct (evict_loop_spec (S (length (t_entries t))) t max 0) as (freed & t' & Hrun & _ & _ & Hfr & Hle & Hev & Hlru & Hmin);
    [done|done|done|done|lia|lia|].
  exists freed, t'. split_and!; [done..|]. by rewrite !footprint_total, (evictions_total_charged _ _ Hev).
Qed.

(** C38: Residency is invisible.  For an entry whose cached bytes are those of its
    source, materialising it returns exactly the bytes it stands for, and both
    materialising and evicting keep those bytes, its length, its id and what it is
    charged; so a cart reads the same bytes whether the entry was cached, evicted and
    decoded again, or never loaded. *)
Theorem resource_residency_transparent env e :
  coherent env e ->
  (exists p e', blyt_resource_entry_data env e = Some (p, e')
     /\ coherent env e' /\ same_resource env e e'
     /\ match p with
        | Some p => bytes_at env e' p (e_len e') = content env e
        | None => content env e = None
        end)
  /\ coherent env (blyt_resource_entry_evict e).2
  /\ same_resource env e (blyt_resource_entry_evict e).2.
Proof.
  intros He. split; [|by apply evict_coherent].
  destruct (entry_data_spec env e He) as (p & e' & Hr & Hco & Hsame & Hp). exists p, e'. split_and!; [done..|].
  destruct p; [apply Hp|done].
Qed.

Lemma load_from_cart_spec env t :
  (forall n, realloc_ok env n = true) -> bytes_ok (cart_map env) ->
  exists t', blyt_resource_table_load_from_cart env t true = Some (len (resource_sections env), t')
    /\ t_entries t' = (fun '(id, off, size) => section_entry env id off size) <$> resource_sections env
    /\ Forall (coherent env) (t_entries t')
    /\ blyt_resource_table_footprint t' = 0.
Proof.
  intros Hr Hb. unfold blyt_resource_table_load_from_cart. cbn [negb].
  assert (no_nul RESOURCE_SECTION_PREFIX) as Hn by (apply no_nul_text; reflexivity).
  unfold blyt_elf32_for_each_section_prefix, sections.
  pose proof (prefixed_bounds (cart_map env) RESOURCE_SECTION_PREFIX Hb) as Hbd.
  unfold resource_sections, sections in *.
  destruct (resolve_ok _ Hb) as (o & Hres & Hok). rewrite Hres in *. cbn [mbind option_bind].
  set (secs := prefixed _ _ _) in *. set (t0 := blyt_resource_table_clear t).
  assert (exists cap m, match o with
    | Some sht => each_loop (load_resource_section env) (Z.to_nat (shnum sht)) 0 (cart_map env) (RESOURCE_SECTION_PREFIX ++ [0]) sht 0 t0
    | None => Some (0, t0) end
    = Some (m, MkTable ((fun '(id, off, size) => section_entry env id off size) <$>
        omap (fun '(suffix, off, size) => id ← blyt_elf32_parse_u32 (Some suffix); Some (id, off, size)) secs) cap (t_lru_clock t)))
    as (cap & m & ->).
  { destruct o as [sht|]; [|by exists 0, 0]. specialize (Hok _ eq_refl). pose proof Hok as (_ & ? & _).
    rewrite (each_loop_spec _ sht Hb Hok _ _ (Z.to_nat (shnum sht)) 0 0 t0 Hn ltac:(lia) ltac:(lia) ltac:(lia) ltac:(lia) secs)
      by (unfold secs; by rewrite Z2Nat.id by lia).
    destruct (visit_load env secs t0 Hr Hb Hbd) as [cap ->]. by eexists _, _. }
  cbn [mbind option_bind]. eexists. split.
  { do 2 f_equal. unfold t_count, len. cbn. by rewrite length_fmap. }
  split_and!; [done| |].
  - apply Forall_fmap. clear -Hbd Hb. induction Hbd as [|[[suffix off] size] l (? & ? & ?) _ IH]; [constructor|].
    cbn [omap list_omap]. destruct (blyt_elf32_parse_u32 (Some suffix)); cbn [mbind option_bind]; [|done].
    constructor; [|done]. by apply section_entry_coherent.
  - rewrite footprint_total. cbn [t_entries].
    generalize (omap (fun '(suffix, off, size) => id ← blyt_elf32_parse_u32 (Some suffix); Some (id, off, size)) secs).
    intros l. replace (total_len _ _) with 0; [done|]. induction l as [|[[id off] size] l IH]; [done|]. cbn [fmap list_fmap total_len]. rewrite <-IH.
    by rewrite section_entry_uncharged.
Qed.

(** C39: A packed cart is loaded exactly.  When the array can grow, loading any cart
    image reads only inside the image and makes one entry per section named
    [.cart.resource.<id>] with a valid decimal id, in header order; every entry starts
    unpinned, not persistent and coherent with the section it came from. *)
Theorem resource_load_exact env t :
  (forall n, realloc_ok env n = true) -> bytes_ok (cart_map env) ->
  exists t', blyt_resource_table_load_from_cart env t true = Some (len (resource_sections env), t')
    /\ t_entries t' = (fun '(id, off, size) => section_entry env id off size) <$> resource_sections env
    /\ Forall (coherent env) (t_entries t')
    /\ blyt_resource_table_footprint t' = 0.
Proof. apply load_from_cart_spec. Qed.

(** The persistent set is marked and preloaded exactly.  With distinct ids, marking
    from a section body flags the entries whose id it lists and changes nothing else;
    preloading then refuses with nothing materialised when the footprint exceeds 16 MiB,
    succeeds exactly when every persistent entry can be materialised, and on success
    leaves every persistent entry resident with the bytes of its source and the others
    untouched. *)
Theorem resource_preload_exact env t ids :
  bytes_ok ids -> NoDup (e_id <$> t_entries t) -> Forall (coherent env) (t_entries t) ->
  exists t1 r t2,
    blyt_resource_table_mark_persistent t (Some ids) = Some t1
    /\ t_entries t1 = mark_ids (words (Z.to_nat (len ids / 4)) ids) <$> t_entries t
    /\ blyt_resource_table_preload_persistent env t1 = Some (r, t2)
    /\ (16777216 < blyt_resource_table_footprint t1 -> r = -1 /\ t2 = t1)
    /\ (blyt_resource_table_footprint t1 <= 16777216 ->
        r = if forallb (fun e => negb (e_persistent e) || available env e) (t_entries t1) then 0 else -1)
    /\ (r = 0 -> Forall2 (preloaded env) (t_entries t1) (t_entries t2)).
Proof.
  intros Hb Hnd Hco. unfold blyt_resource_table_mark_persistent. pose proof (len_nonneg ids).
  destruct (mark_loop_spec (Z.to_nat (len ids / 4)) 0 ids t Hb ltac:(lia)) as (t1 & -> & Ht1);
    [rewrite Z2Nat.id by (apply Z.div_pos; lia); pose proof (Z.mul_div_le (len ids) 4); lia|done|].
  rewrite drop_0 in Ht1.
  assert (Forall (coherent env) (t_entries t1)) as Hco1.
  { rewrite Ht1. apply Forall_fmap. eapply Forall_impl; [exact Hco|]. intros e He. exact He. }
  destruct (preload_loop_spec env _ Hco1) as (ok & l' & Hrun & Hok & Hl).
  assert (blyt_resource_table_preload_persistent env t1
    = if blyt_resource_table_footprint t1 >? 16777216 then Some (-1, t1)
      else Some (if ok then 0 else -1, with_entries l' t1)) as Hpre.
  { unfold blyt_resource_table_preload_persistent. rewrite budget_val, Hrun. done. }
  destruct (Z.gtb_spec (blyt_resource_table_footprint t1) 16777216).
  - exists t1, (-1), t1. split_and!; [done..|lia|done].
  - exists t1, (if ok then 0 else -1), (with_entries l' t1). split_and!; [done..|lia|by subst ok|].
    cbn. destruct ok; [intros _; by apply Hl|done].
Qed.

(** ** Witnesses: a table of three resources over a small image *)

Definition demo_env : res_env :=
  MkResEnv demo_elf (fun _ n => Some (replicate (Z.to_nat n) 7)) (fun _ => true) (fun _ => true) (fun _ => None).

Definition demo_entry (id l : Z) (owned : bool) (pins last : Z) : blyt_resource_entry_t :=
  MkEntry id (if owned then Some InOwned else None) l (if owned then Some (replicate (Z.to_nat l) 7) else None)
    1 (Some 0) 8 None (MkRl pins) false last.

Definition demo_table : blyt_resource_table_t :=
  MkTable [demo_entry 1 10 true 0 5; demo_entry 2 20 true 0 3; demo_entry 3 30 true 1 1] 8 5.

Lemma demo_entry_coherent id l owned pins last :
  0 <= l -> coherent demo_env (demo_entry id l owned pins last).
Proof.
  intros Hl. assert (len (replicate (Z.to_nat l) 7) = l) as Hr by (rewrite len_replicate; lia).
  unfold coherent, source, demo_entry, blyt_res_decode. cbn -[demo_elf replicate]. rewrite rd_Some by (vm_compute; congruence).
  cbn -[demo_elf replicate]. rewrite Hr, Z.eqb_refl. cbn -[demo_elf replicate]. split_and!; [done| | |].
  - intros _ _. exists 0. split; [done|]. by rewrite rd_Some by (vm_compute; congruence).
  - by intros buf [= <-].
  - by destruct owned.
Qed.

Lemma resource_evict_to_fit_exact_witness :
  exists freed t', blyt_resource_table_evict_to_fit demo_table 12 = Some (freed, t')
    /\ total_len reclaimable (t_entries t') <= 12
    /\ t_entries t' = [demo_entry 1 10 true 0 5; demo_entry 2 20 false 0 3; demo_entry 3 30 true 1 1].
Proof.
  destruct (resource_evict_to_fit_exact demo_table 12) as (freed & t' & Hrun & Hle & _);
    [repeat constructor; cbn; lia|vm_compute; done|lia|].
  exists freed, t'. split_and!; [done|done|]. vm_compute in Hrun. injection Hrun as <- <-. vm_compute. reflexivity.
Defined.

Lemma resource_residency_transparent_witness :
  content demo_env (blyt_resource_entry_evict (demo_entry 1 3 true 0 5)).2 = Some [7; 7; 7].
Proof.
  destruct (resource_residency_transparent demo_env (demo_entry 1 3 true 0 5)) as (_ & _ & Hsame & _);
    [apply demo_entry_coherent; lia|].
  rewrite Hsame. vm_compute. reflexivity.
Defined.

Lemma resource_load_exact_witness :
  exists t', blyt_resource_table_load_from_cart demo_env blyt_resource_table_init true = Some (1, t')
    /\ e_id <$> t_entries t' = [42].
Proof.
  destruct (resource_load_exact demo_env blyt_resource_table_init) as (t' & Hrun & Hent & _);
    [done|apply demo_elf_ok|].
  exists t'. replace (len (resource_sections demo_env)) with 1 in Hrun by (vm_compute; reflexivity).
  split; [done|]. rewrite Hent. vm_compute. reflexivity.
Defined.

Lemma resource_preload_exact_witness :
  exists t1 t2,
    blyt_resource_table_mark_persistent (MkTable [demo_entry 1 10 false 0 0; demo_entry 2 20 false 0 0] 8 0) (Some [2; 0; 0; 0]) = Some t1
    /\ e_persistent <$> t_entries t1 = [false; true]
    /\ blyt_resource_table_preload_persistent demo_env t1 = Some (0, t2)
    /\ owned_bit <$> t_entries t2 = [false; true].
Proof.
  destruct (resource_preload_exact demo_env (MkTable [demo_entry 1 10 false 0 0; demo_entry 2 20 false 0 0] 8 0) [2; 0; 0; 0])
    as (t1 & r & t2 & Hm & He & Hp & _).
  - repeat constructor; unfold is_u8; lia.
  - vm_compute. apply (bool_decide_unpack _). vm_compute. exact I.
  - repeat constructor; apply demo_entry_coherent; lia.
  - exists t1. vm_compute in Hm. injection Hm as <-. vm_compute in Hp. injection Hp as <- <-.
    eexists. split_and!; vm_compute; reflexivity.
Defined.

(** An image with one uncompressed resource whose header claims 1000 bytes. *)
Definition lying_elf : list Z :=
  replicate 32 0 ++ le_bytes 4 52 ++ replicate 12 0 ++ le_bytes 2 2 ++ le_bytes 2 0
  ++ (le_bytes 16 0 ++ le_bytes 4 132 ++ le_bytes 4 19 ++ replicate 16 0)
  ++ (le_bytes 16 1 ++ le_bytes 4 151 ++ le_bytes 4 8 ++ replicate 16 0)
  ++ [0] ++ text ".cart.resource.42" ++ [0]
  ++ [0; 0; 0; 0] ++ le_bytes 4 1000.

(** The length of an uncompressed resource is not checked.  An image whose section
    says 1000 bytes and holds none is loaded without error; the entry reports 1000 bytes
    and its data pointer is the end of the image, so copying the resource reads outside
    the image. *)
Theorem resource_len_unchecked :
  let env := MkResEnv lying_elf (fun _ _ => None) (fun _ => true) (fun _ => true) (fun _ => None) in
  exists t e p, blyt_resource_table_load_from_cart env blyt_resource_table_init true = Some (1, t)
    /\ t_entries t = [e] /\ e_id e = 42 /\ e_len e = 1000
    /\ blyt_resource_entry_data env e = Some (Some p, e)
    /\ bytes_at env e p (e_len e) = None.
Proof. eexists _, _, _. split_and!; vm_compute; reflexivity. Qed.
