(* ===== verification/ResourceIndex.v ===== *)
(** * ResourceIndex: the resources of a development build

    Models [blyt_resource_table_load_from_index] of [runtime/host/src/libblyt/resource.c], which reads
    a text file of lines "<id> <path>", and [blyt_resource_table_load_for_cart] of [cart_run.c], which
    chooses between the sections of a packed cart and such a file.

    The C library's [fgets], [strchr], [strtoul] and [snprintf] are written out; [unsigned long] has
    64 bits.  Strings are lists of bytes without their NUL. *)

From S2P Require Import Prelude MemBudget ElfSection Save SaveTheorems ResourceTable.
From Stdlib Require Import ZArith Lia String.
From stdpp Require Import base tactics list.
Open Scope Z_scope.

(** ** The C library *)

(** At most [n] bytes, up to a newline: the bytes and what is left. *)
Fixpoint fgets (n : nat) (f : list Z) : list Z * list Z :=
  match n, f with
  | S n, c :: f => if c =? 10 then ([c], f) else let '(s, rest) := fgets n f in (c :: s, rest)
  | _, _ => ([], f)
  end.
(** The string in a buffer behind which there is a NUL. *)
Fixpoint c_string (l : list Z) : list Z :=
  match l with [] => [] | c :: l => if c =? 0 then [] else c :: c_string l end.
(** The parts before and behind the first [c]. *)
Fixpoint strchr (c : Z) (s : list Z) : option (list Z * list Z) :=
  match s with
  | [] => None
  | x :: s => if x =? c then Some ([], s) else '(a, b) ← strchr c s; Some (x :: a, b)
  end.
(** The parts before and behind the last [c]. *)
Fixpoint strrchr (c : Z) (s : list Z) : option (list Z * list Z) :=
  match s with
  | [] => None
  | x :: s => match strrchr c s with
              | Some (a, b) => Some (x :: a, b)
              | None => if x =? c then Some ([], s) else None
              end
  end.
(** [snprintf(buf, size, "%s", s)] *)
Definition snprintf (size : nat) (s : list Z) : list Z := take (Nat.pred size) s.

Definition isspace (c : Z) : bool := (c =? 32) || ((9 <=? c) && (c <=? 13)).
Definition isdigit (c : Z) : bool := (48 <=? c) && (c <=? 57).
Fixpoint skip_spaces (s : list Z) : list Z :=
  match s with c :: s' => if isspace c then skip_spaces s' else s | [] => [] end.
(** The value of the digits and what is behind them; the flag tells whether there was one. *)
Fixpoint digits (s : list Z) (v : Z) (any : bool) : Z * list Z * bool :=
  match s with c :: s' => if isdigit c then digits s' (10 * v + (c - 48)) true else (v, s, any) | [] => (v, [], any) end.
Definition ULONG_MAX : Z := 2 ^ 64 - 1.
(** [strtoul(s, &end, 10)]: the value and the string at [end]; [None] when [end] is [s]. *)
Definition strtoul (s : list Z) : option (Z * list Z) :=
  let s := skip_spaces s in
  let '(neg, s) := match s with c :: s' => if c =? 45 then (true, s') else if c =? 43 then (false, s') else (false, s) | [] => (false, []) end in
  let '(v, rest, any) := digits s 0 false in
  if negb any then None
  else Some (if v >? ULONG_MAX then ULONG_MAX else if neg : bool then u64 (- v) else v, rest).

(** ** The index *)

(** Without the newlines and carriage returns at the end. *)
Fixpoint strip (s : list Z) : list Z :=
  match s with
  | [] => []
  | c :: s => match strip s with
              | [] => if (c =? 10) || (c =? 13) then [] else [c]
              | t => c :: t
              end
  end.

(** Id and path of a line, if it has the format. *)
Definition parse_line (line : list Z) : option (Z * list Z) :=
  '(a, rel) ← strchr 32 line;
  let rel := strip rel in
  '(id, rest) ← strtoul a;
  if negb (bool_decide (rest = [])) || (id =? 0) || bool_decide (rel = []) then None else Some (id, rel).

Definition index_entry (env : res_env) (id : Z) (path bytes : list Z) : blyt_resource_entry_t :=
  MkEntry (u32 id) (Some InOwned) (len bytes) (Some bytes) BLYT_RES_ALGO_NONE None 0
    (if malloc_ok env (len path + 1) then Some path else None) (MkRl 0) false 0.

(** The loop over the lines; the flag tells whether an entry was made. *)
Fixpoint index_loop (k : nat) (env : res_env) (dir f : list Z) (t : blyt_resource_table_t) (ok : bool) : bool * blyt_resource_table_t :=
  match k with
  | O => (ok, t)
  | S k =>
      match f with
      | [] => (ok, t)
      | _ =>
          let '(chunk, f) := fgets 4095 f in
          match parse_line (c_string chunk) with
          | None => index_loop k env dir f t ok
          | Some (id, rel) =>
              let path := snprintf 4096 (dir ++ [47] ++ rel) in
              match read_whole_file env path with
              | None => index_loop k env dir f t ok
              | Some bytes =>
                  match table_push env t with
                  | None => (ok, t)
                  | Some (i, t) => index_loop k env dir f (update i (fun _ => index_entry env id path bytes) t) true
                  end
              end
          end
      end
  end.

Definition INDEX_NAME : list Z := text "/resource-id-index".

Definition blyt_resource_table_load_from_index (env : res_env) (t : blyt_resource_table_t) (dir : option (list Z)) : Z * blyt_resource_table_t :=
  let t := blyt_resource_table_clear t in
  match dir with
  | None => (-1, t)
  | Some dir =>
      match file_bytes env (snprintf 4096 (dir ++ INDEX_NAME)) with
      | None => (-1, t)
      | Some f => let '(ok, t) := index_loop (length f) env dir f t false in (if ok then 0 else -1, t)
      end
  end.

(** [res_dir] is [BLYT_RESOURCE_DIR]; [path] is where the cart came from. *)
Definition blyt_resource_table_load_for_cart (env : res_env) (res_dir : option (list Z)) (t : blyt_resource_table_t) (mapped : bool) (path : list Z)
    : option blyt_resource_table_t :=
  '(n, t) ← blyt_resource_table_load_from_cart env t mapped;
  if negb (n =? 0) then Some t
  else
    let dir := match res_dir with
               | Some d => Some d
               | None => fst <$> strrchr 47 (snprintf 4096 path)
               end in
    match dir with
    | None => Some t
    | Some dir => Some (snd (blyt_resource_table_load_from_index env t (Some dir)))
    end.

(** ** Reading back an index *)

(** A line for a resource. *)
Definition index_line (item : Z * list Z) : list Z := dec (fst item) ++ [32] ++ snd item ++ [10].
(** It fits the buffers, and its path can be told apart from the end of the line. *)
Record line_ok (dir : list Z) (item : Z * list Z) : Prop := {
  lo_id : 1 <= fst item < 2 ^ 32;
  lo_path : Forall (fun c => c <> 0 /\ c <> 10) (snd item);
  lo_last : exists c, last (snd item) = Some c /\ c <> 13;
  lo_line : len (index_line item) <= 4095;
  lo_full : len (dir ++ [47] ++ snd item) <= 4095 }.

Lemma fgets_line n s rest : Forall (fun c => c <> 10) s -> (length s < n)%nat -> fgets n (s ++ 10 :: rest) = (s ++ [10], rest).
Proof.
  intros Hs. revert n; induction Hs as [|c s Hc _ IH]; intros [|n] Hn; cbn [length app fgets] in *; [lia|done|lia|].
  rewrite (proj2 (Z.eqb_neq _ _)) by done. by rewrite IH by lia.
Qed.

Lemma fgets_shorter n f : f <> [] -> (0 < n)%nat -> (length (fgets n f).2 < length f)%nat.
Proof.
  assert (forall n f, (length (fgets n f).2 <= length f)%nat) as Hle.
  { clear. intros n; induction n as [|n IH]; intros [|c f]; cbn [fgets]; try (cbn; lia). destruct (c =? 10); [cbn; lia|].
    specialize (IH f). destruct (fgets n f). cbn in *. lia. }
  intros Hf Hn. destruct f as [|c f]; [done|]. destruct n as [|n]; [lia|]. cbn [fgets]. destruct (c =? 10); [cbn; lia|].
  specialize (Hle n f). destruct (fgets n f). cbn in *. lia.
Qed.

Lemma c_string_id s : Forall (fun c => c <> 0) s -> c_string s = s.
Proof. induction 1 as [|c s Hc _ IH]; cbn [c_string]; [done|]. by rewrite (proj2 (Z.eqb_neq _ _)), IH. Qed.

Lemma strchr_app c a b : c ∉ a -> strchr c (a ++ c :: b) = Some (a, b).
Proof.
  induction a as [|x a IH]; cbn [app strchr]; [by rewrite Z.eqb_refl|]. rewrite not_elem_of_cons. intros [Hx Ha].
  rewrite (proj2 (Z.eqb_neq _ _)) by congruence. by rewrite IH.
Qed.

Lemma strip_newline s c : last s = Some c -> c <> 10 -> c <> 13 -> strip (s ++ [10]) = s.
Proof.
  induction s as [|x s IH]; [done|]. intros Hl H10 H13. cbn [app strip]. destruct s as [|y s].
  - injection Hl as ->. cbn. by rewrite (proj2 (Z.eqb_neq _ _)), (proj2 (Z.eqb_neq _ _)).
  - rewrite IH by done. done.
Qed.

Lemma digits_all s v any : Forall digit s -> digits s v any = (foldl (fun v c => 10 * v + (c - 48)) v s, [], any || negb (bool_decide (s = []))).
Proof.
  intros Hs. revert v any; induction Hs as [|c s Hc _ IH]; intros v any; cbn [digits foldl]; [by destruct any|].
  unfold isdigit. unfold digit in Hc. rewrite (proj2 (andb_true_iff _ _)) by (split; lia). rewrite IH. f_equal. by destruct any.
Qed.

Lemma dec_digits fuel v : 0 <= v -> Forall digit (dec_loop fuel v) /\ (fuel <> 0%nat -> dec_loop fuel v <> []).
Proof.
  revert v; induction fuel as [|fuel IH]; intros v Hv; [split; [constructor|done]|]. cbn [dec_loop]. unfold digit. destruct (Z.ltb_spec v 10).
  - split; [|done]. constructor; [lia|constructor].
  - split; [|intros _ [_ [=]]%app_eq_nil]. apply Forall_app. split; [apply IH; Z.div_mod_to_equations; lia|].
    constructor; [Z.div_mod_to_equations; lia|constructor].
Qed.

Lemma strtoul_dec id : 0 <= id < 2 ^ 32 -> strtoul (dec id) = Some (id, []).
Proof.
  intros Hid. destruct (dec_digits 10 id) as [Hd Hne]; [lia|]. specialize (Hne ltac:(done)).
  assert (decimal (dec id) = id) as Hval.
  { transitivity (undec (dec_loop 10 id)); [|apply undec_dec_loop; cbn; lia]. unfold decimal, undec, dec. generalize (dec_loop 10 id) 0.
    intros l; induction l as [|c l IH]; intros v; cbn [foldl fold_left]; [done|]. rewrite IH. f_equal. lia. }
  unfold strtoul. fold (dec id) in *. destruct (dec id) as [|c s] eqn:E; [done|]. apply Forall_cons in Hd as Hd'; destruct Hd' as [Hc Hs]. unfold digit in Hc.
  assert (skip_spaces (c :: s) = c :: s) as ->.
  { cbn [skip_spaces]. unfold isspace. destruct (_ || _) eqn:Es; [|done]. apply orb_true_iff in Es as [?|?]; lia. }
  rewrite (proj2 (Z.eqb_neq c 45)), (proj2 (Z.eqb_neq c 43)) by lia. cbv zeta. rewrite digits_all by done.
  change (foldl (fun v c => 10 * v + (c - 48)) 0 (c :: s)) with (decimal (c :: s)). rewrite Hval. cbn [negb orb bool_decide].
  rewrite bool_decide_false by done. cbn [negb orb]. unfold ULONG_MAX. by rewrite Z.gtb_ltb, (proj2 (Z.ltb_ge _ _)) by lia.
Qed.

Lemma parse_index_line dir item : line_ok dir item -> parse_line (c_string (index_line item)) = Some item.
Proof.
  intros [Hid Hp (c & Hl & H13) _ _]. destruct item as [id rel]. cbn [fst snd] in *. destruct (dec_digits 10 id) as [Hd _]; [lia|]. fold (dec id) in Hd.
  unfold index_line. cbn [fst snd]. rewrite c_string_id.
  - unfold parse_line. change ([32] ++ rel ++ [10]) with (32 :: rel ++ [10]). rewrite strchr_app.
    + cbn [mbind option_bind]. rewrite strtoul_dec by lia. cbn [mbind option_bind].
      assert (c <> 10) as H10. { apply last_Some_elem_of in Hl. rewrite Forall_forall in Hp. by apply Hp in Hl as [_ ?]. }
      rewrite (strip_newline rel c) by done. rewrite bool_decide_true by done. cbn [negb orb]. rewrite (proj2 (Z.eqb_neq _ _)) by lia.
      rewrite bool_decide_false; [done|]. by intros ->.
    + intros Hin. rewrite Forall_forall in Hd. apply Hd in Hin. unfold digit in Hin. lia.
  - apply Forall_app. split; [eapply Forall_impl; [exact Hd|]; unfold digit; lia|]. constructor; [done|]. apply Forall_app.
    split; [eapply Forall_impl; [exact Hp|]; by intros ? [? _]|by constructor].
Qed.

(** The entries for the items whose file can be read. *)
Definition staged (env : res_env) (dir : list Z) (items : list (Z * list Z)) : list blyt_resource_entry_t :=
  omap (fun '(id, rel) => let path := dir ++ [47] ++ rel in bytes ← read_whole_file env path; Some (index_entry env id path bytes)) items.
Definition index_file (items : list (Z * list Z)) : list Z := concat (index_line <$> items).

Lemma push_entry env t e :
  (forall n, realloc_ok env n = true) ->
  exists i cap t', table_push env t = Some (i, t') /\ update i (fun _ => e) t' = MkTable (t_entries t ++ [e]) cap (t_lru_clock t).
Proof.
  intros Hr. assert (forall cap, update (length (t_entries t)) (fun _ => e) (MkTable (t_entries t ++ [fresh_entry]) cap (t_lru_clock t))
                     = MkTable (t_entries t ++ [e]) cap (t_lru_clock t)) as Hu.
  { intros cap. unfold update, with_entries. cbn. f_equal. rewrite alter_app_r_alt by lia. by rewrite Nat.sub_diag. }
  unfold table_push. destruct (t_count t =? t_cap t); [rewrite Hr|]; eexists _, _, _; (split; [done|apply Hu]).
Qed.

Lemma index_loop_step k env dir f t ok :
  f <> [] ->
  index_loop (S k) env dir f t ok
  = match parse_line (c_string (fgets 4095 f).1) with
    | None => index_loop k env dir (fgets 4095 f).2 t ok
    | Some (id, rel) =>
        let path := snprintf 4096 (dir ++ [47] ++ rel) in
        match read_whole_file env path with
        | None => index_loop k env dir (fgets 4095 f).2 t ok
        | Some bytes =>
            match table_push env t with
            | None => (ok, t)
            | Some (i, t) => index_loop k env dir (fgets 4095 f).2 (update i (fun _ => index_entry env id path bytes) t) true
            end
        end
    end.
Proof. intros Hf. cbn [index_loop]. destruct f; [done|]. by destruct (fgets 4095 _). Qed.

Lemma index_loop_spec k env dir items t ok :
  (forall n, realloc_ok env n = true) -> Forall (line_ok dir) items -> (length (index_file items) <= k)%nat ->
  exists cap, index_loop k env dir (index_file items) t ok
    = (ok || negb (bool_decide (staged env dir items = [])), MkTable (t_entries t ++ staged env dir items) cap (t_lru_clock t)).
Proof.
  intros Hr Hitems. revert k t ok; induction Hitems as [|item items Hi _ IH]; intros k t ok Hk.
  { exists (t_cap t). cbn [staged omap list_omap index_file fmap list_fmap concat]. rewrite app_nil_r. destruct t, ok, k; done. }
  unfold index_file in *. rewrite fmap_cons in *. cbn [concat] in *. rewrite length_app in Hk.
  assert (index_line item ++ concat (index_line <$> items) = (dec (fst item) ++ [32] ++ snd item) ++ 10 :: concat (index_line <$> items)) as Hsplit.
  { unfold index_line at 1. by rewrite <-!app_assoc. }
  assert (0 < length (index_line item))%nat as Hpos by (unfold index_line; rewrite !length_app; cbn; lia).
  destruct k as [|k]; [lia|]. rewrite index_loop_step by (intros [E _]%app_eq_nil; rewrite E in Hpos; cbn in Hpos; lia).
  rewrite Hsplit, fgets_line.
  2:{ destruct (dec_digits 10 (fst item)) as [Hd _]; [pose proof (lo_id _ _ Hi); lia|]. apply Forall_app. split; [eapply Forall_impl; [exact Hd|]; unfold digit; lia|].
      constructor; [done|]. eapply Forall_impl; [exact (lo_path _ _ Hi)|]. by intros ? [_ ?]. }
  2:{ pose proof (lo_line _ _ Hi) as Hl. unfold len, index_line in Hl. rewrite !length_app in Hl. cbn [length] in Hl. rewrite !length_app. cbn [length]. lia. }
  cbn [fst snd]. replace ((dec (fst item) ++ [32] ++ snd item) ++ [10]) with (index_line item) by (unfold index_line; by rewrite <-!app_assoc).
  rewrite (parse_index_line dir) by done. destruct item as [id rel]. cbn [fst snd] in *.
  assert (snprintf 4096 (dir ++ [47] ++ rel) = dir ++ [47] ++ rel) as ->.
  { unfold snprintf. apply take_ge. pose proof (lo_full _ _ Hi) as Hl. unfold len in Hl. cbn [snd] in Hl. lia. }
  unfold staged in *. cbn [omap list_omap]. cbv zeta. destruct (read_whole_file env (dir ++ [47] ++ rel)) as [bytes|]; cbn [mbind option_bind].
  - destruct (push_entry env t (index_entry env id (dir ++ [47] ++ rel) bytes) Hr) as (i & cap & t' & -> & ->).
    destruct (IH k (MkTable (t_entries t ++ [index_entry env id (dir ++ [47] ++ rel) bytes]) cap (t_lru_clock t)) true) as [cap' ->]; [lia|].
    exists cap'. cbn [t_entries t_lru_clock]. rewrite <-app_assoc. by rewrite orb_true_r.
  - destruct (IH k t ok) as [cap ->]; [lia|]. by exists cap.
Qed.

(** More fuel than bytes makes no difference. *)
Lemma index_loop_fuel k env dir f t ok : (length f <= k)%nat -> index_loop k env dir f t ok = index_loop (length f) env dir f t ok.
Proof.
  assert (forall k1 k2 f t ok, (length f <= k1)%nat -> (length f <= k2)%nat -> index_loop k1 env dir f t ok = index_loop k2 env dir f t ok) as Hany.
  { clear. intros k1; induction k1 as [|k1 IH]; intros [|k2] f t ok H1 H2; destruct f as [|c f]; cbn [length] in *; try lia; try done.
    cbn [index_loop]. pose proof (fgets_shorter 4095 (c :: f) ltac:(done) ltac:(lia)) as Hs. cbn [length] in Hs.
    destruct (fgets 4095 (c :: f)) as [chunk rest]. cbn [snd] in Hs. repeat case_match; try done; apply IH; lia. }
  intros Hk. by apply Hany.
Qed.

(** A development index is read back.  For a file that lists resources line by line, the table holds
    exactly one entry for each whose file can be read, in order, under its id, with the bytes of
    the file and the path to read them again; lines without a file are passed over, and the result is
    0 if there is any entry.  Whatever the file holds, more fuel than it has bytes changes nothing. *)
Theorem resource_index_roundtrip env t dir items :
  (forall n, realloc_ok env n = true) -> Forall (line_ok dir) items -> len (dir ++ INDEX_NAME) <= 4095 ->
  file_bytes env (dir ++ INDEX_NAME) = Some (index_file items) ->
  (exists cap, blyt_resource_table_load_from_index env t (Some dir)
     = (if bool_decide (staged env dir items = []) then -1 else 0, MkTable (staged env dir items) cap (t_lru_clock t)))
  /\ forall k f t ok, (length f <= k)%nat -> index_loop k env dir f t ok = index_loop (length f) env dir f t ok.
Proof.
  intros Hr Hitems Hlen Hf. split; [|by intros; apply index_loop_fuel]. unfold blyt_resource_table_load_from_index.
  assert (snprintf 4096 (dir ++ INDEX_NAME) = dir ++ INDEX_NAME) as -> by (unfold snprintf; apply take_ge; unfold len in Hlen; lia).
  rewrite Hf. destruct (index_loop_spec (length (index_file items)) env dir items (blyt_resource_table_clear t) false Hr Hitems) as [cap ->]; [done|].
  exists cap. cbn [orb t_entries blyt_resource_table_clear app t_lru_clock]. by case_bool_decide.
Qed.

(** Two resources, one without a file. *)
Definition index_items : list (Z * list Z) := [(7, text "a.bin"); (4294967295, text "b/c d"); (12, text "lost")].
Definition index_env : res_env := MkResEnv [] (fun _ _ => None) (fun _ => true) (fun _ => true)
  (fun p => if decide (p = text "/game/resource-id-index") then Some (index_file index_items)
            else if decide (p = text "/game/a.bin") then Some [1; 2; 3]
            else if decide (p = text "/game/b/c d") then Some [4] else None).

Lemma resource_index_roundtrip_witness :
  exists t', blyt_resource_table_load_from_index index_env blyt_resource_table_init (Some (text "/game")) = (0, t')
    /\ (fun e => (e_id e, e_owned e, e_src_path e)) <$> t_entries t'
       = [(7, Some [1; 2; 3], Some (text "/game/a.bin")); (4294967295, Some [4], Some (text "/game/b/c d"))].
Proof.
  destruct (resource_index_roundtrip index_env blyt_resource_table_init (text "/game") index_items) as [[cap H] _].
  - done.
  - assert (forall item, (1 <=? fst item) && (fst item <? 2 ^ 32) && forallb (fun c => negb (c =? 0) && negb (c =? 10)) (snd item)
              && match last (snd item) with Some c => negb (c =? 13) | None => false end
              && (len (index_line item) <=? 4095) && (len (text "/game" ++ [47] ++ snd item) <=? 4095) = true -> line_ok (text "/game") item) as Hc.
    { intros item [[[[[H1 H2]%andb_true_iff H3]%andb_true_iff H4]%andb_true_iff H5]%andb_true_iff H6]%andb_true_iff. split; try lia.
      - apply Forall_forall. intros c Hc%list_elem_of_In. rewrite forallb_forall in H3. specialize (H3 _ Hc). cbv beta in H3. lia.
      - destruct (last (snd item)) as [c|]; [|done]. exists c. split; [done|lia]. }
    unfold index_items. repeat (apply Forall_cons_2; [apply Hc; vm_compute; reflexivity|]). apply Forall_nil_2.
  - vm_compute. discriminate.
  - vm_compute. reflexivity.
  - eexists. split; [exact H|vm_compute; reflexivity].
Defined.
