(* ===== verification/RunCtx.v ===== *)
(** * RunCtx: guest memory, the run context and the budget accounting block

    Models the run context of [runtime/host/src/libblyt/cart_run.c], the surface
    registry it holds and the unified-budget bridge to the guest accounting block.

    The guest memory belongs to rv32emu, which is not part of this repository: it is the
    class [GuestMemory], whose laws say that a write in RAM is read back and leaves the
    other addresses alone. *)

From S2P Require Import Prelude Handle MemBudget StateBuffer ResourceTable.
From Stdlib Require Import ZArith Lia.
From stdpp Require Import base tactics list.
Open Scope Z_scope.

(** ** Guest memory *)

Class GuestMemory (M : Type) := {
  ram_size : M -> Z;
  (** [memory_read(mem, dst, addr, n)]: the bytes stored to [dst] *)
  memory_read : M -> Z -> Z -> list Z;
  memory_write : M -> Z -> list Z -> M;
  memory_read_len : forall m a n, 0 <= n -> len (memory_read m a n) = n;
  memory_write_size : forall m a bs, ram_size (memory_write m a bs) = ram_size m;
  memory_read_write : forall m a bs,
    0 <= a -> a + len bs <= ram_size m -> memory_read (memory_write m a bs) a (len bs) = bs;
  memory_read_other : forall m a bs a' n,
    0 <= n -> a' + n <= a \/ a + len bs <= a' -> memory_read (memory_write m a bs) a' n = memory_read m a' n;
  memory_read_sub : forall m a n o k,
    0 <= o -> 0 <= k -> o + k <= n -> sub (memory_read m a n) o k = memory_read m (a + o) k
}.

(** ** Address map *)

Definition BLYT_EMU_MEM_SIZE : Z := 256 * 1024 * 1024.
Definition BLYT_RESOURCE_SCRATCH_BASE : Z := 0x06000000.
Definition BLYT_RESOURCE_SCRATCH_SIZE : Z := 16 * 1024 * 1024.
Definition BLYT_GFX_FB_BASE : Z := 0x02000000.
Definition BLYT_SURFACE_LOCK_ARENA_BASE : Z := BLYT_GFX_FB_BASE.
Definition BLYT_SURFACE_LOCK_ARENA_SIZE : Z := 0x02000000.
Definition BLYT_FRAME_W : Z := 320.
Definition BLYT_FRAME_H : Z := 240.

(** ** Lifecycle phase *)

Definition BLYT_PHASE_NONE : Z := 0.
Definition BLYT_PHASE_INIT : Z := 1.
Definition BLYT_PHASE_UPDATE : Z := 2.
Definition BLYT_PHASE_DRAW : Z := 3.

(** ** Surface registry *)

Definition BLYT_SURFACE_MAX : Z := 64.

(** A pixel buffer: the session's own framebuffer, which slot 0 and [ctx->fb] alias, or
    a buffer the runtime allocated. *)
Inductive pixref :=
  | ScreenPixels
  | OwnedPixels (b : list Z).

Record blyt_surface_slot_t := MkSlot {
  s_pixels : option pixref;
  s_w : Z;
  s_h : Z;
  s_gen : Z;
  s_in_use : bool;
  s_is_screen : bool;
  s_owned : bool;
  s_locked : bool;
  s_lock_phantom : bool;
  s_lock_direct : bool;
  s_lock_gen : Z;
  s_lock_vaddr : Z;
  s_lock_len : Z
}.

(** [reg_screen] is [session->pixels]. *)
Record blyt_surface_registry_t := MkReg {
  slots : list blyt_surface_slot_t;
  surface_bytes : Z;
  lock_bump : Z;
  active_locks : Z;
  reg_screen : list Z
}.

(** The buffer a slot points to; [None] is [NULL]. *)
Definition pixels_of (reg : blyt_surface_registry_t) (s : blyt_surface_slot_t) : option (list Z) :=
  match s_pixels s with
  | None => None
  | Some ScreenPixels => Some (reg_screen reg)
  | Some (OwnedPixels b) => Some b
  end.

Definition with_pixels (p : option pixref) (s : blyt_surface_slot_t) : blyt_surface_slot_t :=
  MkSlot p (s_w s) (s_h s) (s_gen s) (s_in_use s) (s_is_screen s) (s_owned s) (s_locked s)
    (s_lock_phantom s) (s_lock_direct s) (s_lock_gen s) (s_lock_vaddr s) (s_lock_len s).
Definition with_slot (i : Z) (s : blyt_surface_slot_t) (reg : blyt_surface_registry_t) : blyt_surface_registry_t :=
  MkReg (<[Z.to_nat i := s]> (slots reg)) (surface_bytes reg) (lock_bump reg) (active_locks reg) (reg_screen reg).
Definition with_screen (b : list Z) (reg : blyt_surface_registry_t) : blyt_surface_registry_t :=
  MkReg (slots reg) (surface_bytes reg) (lock_bump reg) (active_locks reg) b.

(** Store into the buffer slot [i] points to. *)
Definition store_pixels (i : Z) (s : blyt_surface_slot_t) (b : list Z) (reg : blyt_surface_registry_t)
    : blyt_surface_registry_t :=
  match s_pixels s with
  | None => reg
  | Some ScreenPixels => with_screen b reg
  | Some (OwnedPixels _) => with_slot i (with_pixels (Some (OwnedPixels b)) s) reg
  end.

(** ** Run context

    [fb], [cart_has_drawn] and [palette] point into the session and are never [NULL];
    [fb] is [reg_screen (surfaces ctx)]. *)
Record blyt_run_ctx_t := MkRun {
  ecall_trapped : bool;
  ecall_aborted : bool;
  frame_done : bool;
  cart_exited : bool;
  fn_return_done : bool;
  state_ctx : option blyt_state_ctx_t;
  save_dir : option (list Z);
  cart_name : list Z;
  save_version : Z;
  resources : blyt_resource_table_t;
  resource_scratch_off : Z;
  cart_has_drawn : bool;
  palette : list Z;
  surfaces : blyt_surface_registry_t;
  phase : Z;
  cart_is_debug : bool;
  dev_fault : bool;
  mem_acct_vaddr : Z;
  peer_heap : Z
}.

(** Assignments to one field. *)
Definition set_trapped (v : bool) (c : blyt_run_ctx_t) : blyt_run_ctx_t :=
  let 'MkRun _ a b d e f g h i j k l m n o p q r s := c in MkRun v a b d e f g h i j k l m n o p q r s.
Definition set_aborted (v : bool) (c : blyt_run_ctx_t) : blyt_run_ctx_t :=
  let 'MkRun t _ b d e f g h i j k l m n o p q r s := c in MkRun t v b d e f g h i j k l m n o p q r s.
Definition set_frame_done (v : bool) (c : blyt_run_ctx_t) : blyt_run_ctx_t :=
  let 'MkRun t a _ d e f g h i j k l m n o p q r s := c in MkRun t a v d e f g h i j k l m n o p q r s.
Definition set_exited (v : bool) (c : blyt_run_ctx_t) : blyt_run_ctx_t :=
  let 'MkRun t a b _ e f g h i j k l m n o p q r s := c in MkRun t a b v e f g h i j k l m n o p q r s.
Definition set_fn_return_done (v : bool) (c : blyt_run_ctx_t) : blyt_run_ctx_t :=
  let 'MkRun t a b d _ f g h i j k l m n o p q r s := c in MkRun t a b d v f g h i j k l m n o p q r s.
Definition set_state (v : option blyt_state_ctx_t) (c : blyt_run_ctx_t) : blyt_run_ctx_t :=
  let 'MkRun t a b d e _ g h i j k l m n o p q r s := c in MkRun t a b d e v g h i j k l m n o p q r s.
Definition set_resources (v : blyt_resource_table_t) (c : blyt_run_ctx_t) : blyt_run_ctx_t :=
  let 'MkRun t a b d e f g h i _ k l m n o p q r s := c in MkRun t a b d e f g h i v k l m n o p q r s.
Definition set_scratch_off (v : Z) (c : blyt_run_ctx_t) : blyt_run_ctx_t :=
  let 'MkRun t a b d e f g h i j _ l m n o p q r s := c in MkRun t a b d e f g h i j v l m n o p q r s.
Definition set_drawn (v : bool) (c : blyt_run_ctx_t) : blyt_run_ctx_t :=
  let 'MkRun t a b d e f g h i j k _ m n o p q r s := c in MkRun t a b d e f g h i j k v m n o p q r s.
Definition set_palette (v : list Z) (c : blyt_run_ctx_t) : blyt_run_ctx_t :=
  let 'MkRun t a b d e f g h i j k l _ n o p q r s := c in MkRun t a b d e f g h i j k l v n o p q r s.
Definition set_surfaces (v : blyt_surface_registry_t) (c : blyt_run_ctx_t) : blyt_run_ctx_t :=
  let 'MkRun t a b d e f g h i j k l m _ o p q r s := c in MkRun t a b d e f g h i j k l m v o p q r s.
Definition set_phase (v : Z) (c : blyt_run_ctx_t) : blyt_run_ctx_t :=
  let 'MkRun t a b d e f g h i j k l m n _ p q r s := c in MkRun t a b d e f g h i j k l m n v p q r s.
Definition set_dev_fault (v : bool) (c : blyt_run_ctx_t) : blyt_run_ctx_t :=
  let 'MkRun t a b d e f g h i j k l m n o p _ r s := c in MkRun t a b d e f g h i j k l m n o p v r s.
Definition set_peer_heap (v : Z) (c : blyt_run_ctx_t) : blyt_run_ctx_t :=
  let 'MkRun t a b d e f g h i j k l m n o p q r _ := c in MkRun t a b d e f g h i j k l m n o p q r v.

(** ** The unified-budget bridge *)

(** The four stores of [write_u32_le(dst, val)]. *)
Definition write_u32_le (val : Z) : list Z :=
  [u8 val; u8 (Z.shiftr val 8); u8 (Z.shiftr val 16); u8 (Z.shiftr val 24)].

Section accounting.
Context {M : Type} `{GuestMemory M}.

Definition mem_acct_read_u32 (mem : M) (vaddr : Z) : Z := read_u32_le (memory_read mem vaddr 4).

Definition mem_acct_guest_heap_used (ctx : blyt_run_ctx_t) (mem : M) : Z :=
  if mem_acct_vaddr ctx =? 0 then 0 else mem_acct_read_u32 mem (mem_acct_vaddr ctx).

Definition ctx_non_evictable_footprint (ctx : blyt_run_ctx_t) : Z :=
  u32 (u32 (blyt_resource_table_footprint (resources ctx) + surface_bytes (surfaces ctx)) + peer_heap ctx).

Definition mem_acct_publish_footprint (ctx : blyt_run_ctx_t) (mem : M) : option (blyt_run_ctx_t * M) :=
  if mem_acct_vaddr ctx =? 0 then Some (ctx, mem)
  else
    let footprint := ctx_non_evictable_footprint ctx in
    let mem := memory_write mem (u32 (mem_acct_vaddr ctx + 4)) (write_u32_le footprint) in
    let heap_used := mem_acct_guest_heap_used ctx mem in
    r ← blyt_resource_table_evict_to_fit (resources ctx) (blyt_mem_cache_room heap_used footprint);
    let ctx := set_resources (snd r) ctx in
    let mem := memory_write mem (u32 (mem_acct_vaddr ctx + 8))
                 (write_u32_le (blyt_resource_table_resident_decompressed (resources ctx))) in
    Some (ctx, mem).

Definition mem_acct_reference_fits (ctx : blyt_run_ctx_t) (mem : M) (e : blyt_resource_entry_t)
    (was_evictable : bool) : bool :=
  if mem_acct_vaddr ctx =? 0 then true
  else
    let incoming := if was_evictable then u32 (e_len e) else 0 in
    let heap_used := mem_acct_guest_heap_used ctx mem in
    let footprint := ctx_non_evictable_footprint ctx in
    blyt_mem_alloc_fits heap_used footprint incoming.
End accounting.

(** ** Lemmas *)

Lemma write_u32_le_bytes v : 0 <= v -> write_u32_le v = le_bytes 4 v.
Proof.
  intros Hv. unfold write_u32_le. cbn [le_bytes]. rewrite !Z.shiftr_div_pow2 by lia.
  change (2 ^ 8) with 256. change (2 ^ 16) with (256 * 256). change (2 ^ 24) with (256 * 256 * 256).
  rewrite <-!Z.div_div by lia. unfold u8, wrap. by change (2 ^ 8) with 256.
Qed.

Lemma len_write_u32_le v : len (write_u32_le v) = 4.
Proof. done. Qed.

(** A flat memory: every address holds a byte.  It satisfies the laws, so they are
    consistent, and it is executable. *)
Record flat := MkFlat { flat_size : Z; flat_byte : Z -> Z }.

Definition flat_read (m : flat) (a n : Z) : list Z := flat_byte m <$> seqZ a n.
Definition flat_write (m : flat) (a : Z) (bs : list Z) : flat :=
  MkFlat (flat_size m) (fun x => if (a <=? x) && (x <? a + len bs) then default 0 (zget bs (x - a)) else flat_byte m x).

Lemma len_flat_read m a n : 0 <= n -> len (flat_read m a n) = n.
Proof. intros. unfold len, flat_read. rewrite length_fmap, length_seqZ. lia. Qed.

Lemma zget_flat_read m a n i : 0 <= i < n -> zget (flat_read m a n) i = Some (flat_byte m (a + i)).
Proof.
  intros. rewrite zget_lookup by lia. unfold flat_read. rewrite list_lookup_fmap, lookup_seqZ_lt by lia.
  cbn. do 2 f_equal. lia.
Qed.

#[export] Program Instance flat_memory : GuestMemory flat :=
  {| ram_size := flat_size; memory_read := flat_read; memory_write := flat_write |}.
Next Obligation. intros. by apply len_flat_read. Qed.
Next Obligation. done. Qed.
Next Obligation.
  intros m a bs Ha Hl. cbn. pose proof (len_nonneg bs). apply list_eq_zget; [by apply len_flat_read|].
  rewrite len_flat_read by done. intros i Hi. rewrite zget_flat_read by done. cbn.
  rewrite (proj2 (andb_true_iff _ _)) by lia. replace (a + i - a) with i by lia.
  destruct (zget_is_Some bs i Hi) as [x ->]. done.
Qed.
Next Obligation.
  intros m a bs a' n Hn Hd. cbn. apply list_eq_zget; [by rewrite !len_flat_read|].
  rewrite len_flat_read by done. intros i Hi. rewrite !zget_flat_read by done. cbn.
  rewrite (proj2 (andb_false_iff _ _)) by lia. done.
Qed.
Next Obligation.
  intros m a n o k Ho Hk Hn. cbn. apply list_eq_zget.
  { rewrite len_sub by (rewrite ?len_flat_read; lia). by rewrite len_flat_read. }
  rewrite len_sub by (rewrite ?len_flat_read; lia). intros i Hi.
  rewrite zget_sub, !zget_flat_read by lia. do 2 f_equal. lia.
Qed.

(** Reading a field after an assignment to it or to another one. *)
Create Rewrite HintDb run_ctx.

Lemma surfaces_set_surfaces r c : surfaces (set_surfaces r c) = r.
Proof. by destruct c. Qed.
Lemma resources_set_surfaces r c : resources (set_surfaces r c) = resources c.
Proof. by destruct c. Qed.
Lemma acct_set_surfaces r c : mem_acct_vaddr (set_surfaces r c) = mem_acct_vaddr c.
Proof. by destruct c. Qed.
Lemma surfaces_set_resources t c : surfaces (set_resources t c) = surfaces c.
Proof. by destruct c. Qed.
Lemma resources_set_resources t c : resources (set_resources t c) = t.
Proof. by destruct c. Qed.
Lemma acct_set_resources t c : mem_acct_vaddr (set_resources t c) = mem_acct_vaddr c.
Proof. by destruct c. Qed.
Lemma set_surfaces_id c : set_surfaces (surfaces c) c = c.
Proof. by destruct c. Qed.

#[export] Hint Rewrite surfaces_set_surfaces resources_set_surfaces acct_set_surfaces
  surfaces_set_resources resources_set_resources acct_set_resources set_surfaces_id : run_ctx.
