(* ===== verification/Surface.v ===== *)
(** * Surface: the surface registry

    Models the surface functions of [runtime/host/src/libblyt/cart_run.c]: resolving
    handles and lock-view tokens, creating and freeing surfaces, acquiring and releasing
    tier-2 locks, reaping at the frame boundary, and the host-side access of the host-Lua
    path ([blyt_session_surface_*]).  A pointer to a slot is its index.  The outer
    [None] of a result is an access outside a buffer, a use of a [NULL] buffer, or a
    [free] of the session's framebuffer. *)

From S2P Require Import Prelude Handle MemBudget StateBuffer ResourceTable Raster RunCtx.
From Stdlib Require Import ZArith Lia.
From stdpp Require Import base tactics list.
Open Scope Z_scope.

Definition blyt_resolve_surface (reg : blyt_surface_registry_t) (handle : Z)
    : option (Z * blyt_surface_slot_t) :=
  if negb (blyt_handle_is_surface handle) then None
  else
    let idx := blyt_dyn_decode_index handle in
    if idx >=? BLYT_SURFACE_MAX then None
    else
      s ← zget (slots reg) idx;
      if negb (s_in_use s) || negb (u16 (blyt_dyn_decode_gen handle) =? s_gen s) then None
      else Some (idx, s).

Definition blyt_resolve_lockview (reg : blyt_surface_registry_t) (token : Z)
    : option (Z * blyt_surface_slot_t) :=
  if negb (blyt_handle_is_lockview token) then None
  else
    let idx := blyt_dyn_decode_index token in
    if idx >=? BLYT_SURFACE_MAX then None
    else
      s ← zget (slots reg) idx;
      if negb (s_locked s) || negb (u16 (blyt_dyn_decode_gen token) =? s_lock_gen s) then None
      else Some (idx, s).

Definition BLYT_SURFACE_MAX_DIM : Z := 8192.

(** [(uint32_t)((uint32_t)s->w * (uint32_t)s->h)] *)
Definition slot_bytes (s : blyt_surface_slot_t) : Z := u32 (u32 (s_w s) * u32 (s_h s)).

Definition blyt_surface_free_slot (reg : blyt_surface_registry_t) (i : Z) : option blyt_surface_registry_t :=
  s ← zget (slots reg) i;
  if negb (s_in_use s) || s_is_screen s then Some reg
  else
    let freed_slot :=
      MkSlot None (s_w s) (s_h s) (u16 (s_gen s + 1)) false (s_is_screen s) false (s_locked s)
        (s_lock_phantom s) (s_lock_direct s) (s_lock_gen s) (s_lock_vaddr s) (s_lock_len s) in
    match s_owned s, s_pixels s with
    | true, Some (OwnedPixels _) =>
        Some (MkReg (<[Z.to_nat i := freed_slot]> (slots reg)) (u32 (surface_bytes reg - slot_bytes s))
                (lock_bump reg) (active_locks reg) (reg_screen reg))
    | true, Some ScreenPixels => None
    | _, _ => Some (with_slot i freed_slot reg)
    end.

Section surface.
Context {M : Type} `{GuestMemory M} (env : res_env).

(** [mem] may be [NULL]. *)
Definition blyt_surface_flush_lock (reg : blyt_surface_registry_t) (i : Z) (mem : option M)
    : option blyt_surface_registry_t :=
  s ← zget (slots reg) i;
  if negb (s_locked s) then Some reg
  else
    reg1 ← match mem, pixels_of reg s with
           | Some mem, Some px =>
               if negb (s_lock_phantom s) && negb (s_lock_direct s) then
                 px' ← store_bytes px 0 (memory_read mem (s_lock_vaddr s) (s_lock_len s));
                 Some (store_pixels i s px' reg)
               else Some reg
           | _, _ => Some reg
           end;
    s1 ← zget (slots reg1) i;
    let s2 := MkSlot (s_pixels s1) (s_w s1) (s_h s1) (s_gen s1) (s_in_use s1) (s_is_screen s1) (s_owned s1)
                false false false (u16 (s_lock_gen s1 + 1)) (s_lock_vaddr s1) (s_lock_len s1) in
    let reg2 := with_slot i s2 reg1 in
    let locks := if active_locks reg2 >? 0 then active_locks reg2 - 1 else active_locks reg2 in
    Some (MkReg (slots reg2) (surface_bytes reg2) (if locks =? 0 then 0 else lock_bump reg2) locks (reg_screen reg2)).

(** [for (i; k iterations) flush_lock], [for (i; k iterations) free_slot] *)
Fixpoint flush_from (k : nat) (i : Z) (reg : blyt_surface_registry_t) (mem : option M) : option blyt_surface_registry_t :=
  match k with
  | O => Some reg
  | S k => reg' ← blyt_surface_flush_lock reg i mem; flush_from k (i + 1) reg' mem
  end.

Fixpoint free_from (k : nat) (i : Z) (reg : blyt_surface_registry_t) : option blyt_surface_registry_t :=
  match k with
  | O => Some reg
  | S k => reg' ← blyt_surface_free_slot reg i; free_from k (i + 1) reg'
  end.

Definition blyt_surface_reap_all (ctx : blyt_run_ctx_t) (mem : option M) : option (blyt_run_ctx_t * option M) :=
  reg ← flush_from 64 0 (surfaces ctx) mem;
  reg ← free_from 63 1 reg;
  let ctx := set_surfaces (MkReg (slots reg) (surface_bytes reg) 0 0 (reg_screen reg)) ctx in
  match mem with
  | None => Some (ctx, None)
  | Some m => r ← mem_acct_publish_footprint ctx m; Some (fst r, Some (snd r))
  end.

(** The first free slot from index [i], [k] slots being left; 0 when there is none. *)
Fixpoint free_index (k : nat) (i : Z) (reg : blyt_surface_registry_t) : option Z :=
  match k with
  | O => Some 0
  | S k => s ← zget (slots reg) i; if negb (s_in_use s) then Some i else free_index k (i + 1) reg
  end.

(** [calloc] succeeds when [malloc_ok env] says so. *)
Definition blyt_surface_create_slot (ctx : blyt_run_ctx_t) (mem : M) (w h : Z) : option (Z * blyt_run_ctx_t * M) :=
  let reg := surfaces ctx in
  if (w <=? 0) || (h <=? 0) || (w >? BLYT_SURFACE_MAX_DIM) || (h >? BLYT_SURFACE_MAX_DIM)
  then Some (BLYT_HANDLE_NONE, ctx, mem)
  else
    let bytes := u32 (u32 w * u32 h) in
    let heap_used := mem_acct_guest_heap_used ctx mem in
    if negb (blyt_mem_alloc_fits heap_used (ctx_non_evictable_footprint ctx) bytes)
    then Some (BLYT_HANDLE_NONE, ctx, mem)
    else
      idx ← free_index 63 1 reg;
      if idx =? 0 then Some (BLYT_HANDLE_NONE, ctx, mem)
      else if negb (malloc_ok env bytes) then Some (BLYT_HANDLE_NONE, ctx, mem)
      else
        s ← zget (slots reg) idx;
        let s' := MkSlot (Some (OwnedPixels (replicate (Z.to_nat bytes) 0))) w h (s_gen s) true false true
                    (s_locked s) (s_lock_phantom s) (s_lock_direct s) (s_lock_gen s) (s_lock_vaddr s) (s_lock_len s) in
        let reg' := MkReg (<[Z.to_nat idx := s']> (slots reg)) (u32 (surface_bytes reg + bytes))
                      (lock_bump reg) (active_locks reg) (reg_screen reg) in
        r ← mem_acct_publish_footprint (set_surfaces reg' ctx) mem;
        Some (blyt_surface_encode (s_gen s) idx, fst r, snd r).

(** Chunks of 4096 zeros; [None] when the fuel is spent. *)
Fixpoint memzero_loop (fuel : nat) (mem : M) (vaddr len off : Z) : option M :=
  match fuel with
  | O => None
  | S fuel =>
      if off <? len then
        let n := len - off in
        let n := if n >? 4096 then 4096 else n in
        memzero_loop fuel (memory_write mem (u32 (vaddr + off)) (replicate (Z.to_nat n) 0)) vaddr len (u32 (off + n))
      else Some mem
  end.

Definition guest_memzero (mem : M) (vaddr len : Z) : option M :=
  memzero_loop (Z.to_nat (len / 4096 + 2)) mem vaddr len 0.

(** The result, the context and the memory. *)
Definition blyt_surface_acquire_lock (ctx : blyt_run_ctx_t) (mem : M) (handle out_vaddr : Z) (clear_only : bool)
    : option (Z * blyt_run_ctx_t * M) :=
  let reg := surfaces ctx in
  let fail := Some (0, ctx, memory_write mem out_vaddr (replicate 20 0)) in
  match blyt_resolve_surface reg handle with
  | None => fail
  | Some (i, s) =>
      if s_locked s then fail
      else
        let n := slot_bytes s in
        let aligned := Z.land (u32 (n + 3)) (u32 (Z.lnot 3)) in
        if u64 (lock_bump reg + aligned) >? BLYT_SURFACE_LOCK_ARENA_SIZE then fail
        else
          let vaddr := u32 (BLYT_SURFACE_LOCK_ARENA_BASE + lock_bump reg) in
          mem ← (if clear_only then guest_memzero mem vaddr n
                 else px ← pixels_of reg s; bytes ← rd px 0 n; Some (memory_write mem vaddr bytes));
          let s' := MkSlot (s_pixels s) (s_w s) (s_h s) (s_gen s) (s_in_use s) (s_is_screen s) (s_owned s)
                      true clear_only (s_lock_direct s) (s_lock_gen s) vaddr n in
          let reg' := MkReg (<[Z.to_nat i := s']> (slots reg)) (surface_bytes reg) (u32 (lock_bump reg + aligned))
                        (i32 (active_locks reg + 1)) (reg_screen reg) in
          let token := blyt_lockview_encode (s_lock_gen s) (blyt_dyn_decode_index handle) in
          let lockbuf := write_u32_le vaddr ++ write_u32_le (u32 (s_w s)) ++ write_u32_le (u32 (s_w s))
                         ++ write_u32_le (u32 (s_h s)) ++ write_u32_le token in
          Some (1, set_surfaces reg' ctx, memory_write mem out_vaddr lockbuf)
  end.

(** The released slot, if any. *)
Definition blyt_surface_release_lock (ctx : blyt_run_ctx_t) (mem : M) (token : Z)
    : option (option blyt_surface_slot_t * blyt_run_ctx_t) :=
  match blyt_resolve_lockview (surfaces ctx) token with
  | None => Some (None, ctx)
  | Some (i, _) =>
      reg ← blyt_surface_flush_lock (surfaces ctx) i (Some mem);
      s ← zget (slots reg) i;
      Some (Some s, set_surfaces reg ctx)
  end.

(** ** Host-side access (host-Lua) *)

Definition blyt_session_surface_create (ctx : blyt_run_ctx_t) (mem : M) (w h : Z) : option (Z * blyt_run_ctx_t * M) :=
  blyt_surface_create_slot ctx mem w h.

Definition blyt_session_surface_destroy (ctx : blyt_run_ctx_t) (mem : M) (handle : Z) : option (blyt_run_ctx_t * M) :=
  match blyt_resolve_surface (surfaces ctx) handle with
  | None => Some (ctx, mem)
  | Some (i, s) =>
      if s_locked s then Some (ctx, mem)
      else if negb (s_is_screen s) then
        reg ← blyt_surface_free_slot (surfaces ctx) i;
        mem_acct_publish_footprint (set_surfaces reg ctx) mem
      else Some (ctx, mem)
  end.

(** Buffer, width, height and the screen flag; [None] is the [NULL] result. *)
Definition blyt_session_surface_drawable (ctx : blyt_run_ctx_t) (handle : Z) : option (option pixref * Z * Z * bool) :=
  match blyt_resolve_surface (surfaces ctx) handle with
  | None => None
  | Some (_, s) => if s_locked s then None else Some (s_pixels s, s_w s, s_h s, s_is_screen s)
  end.

(** Buffer, width, height, token and the context. *)
Definition blyt_session_surface_acquire (ctx : blyt_run_ctx_t) (handle : Z)
    : option (option pixref * Z * Z * Z) * blyt_run_ctx_t :=
  let reg := surfaces ctx in
  match blyt_resolve_surface reg handle with
  | None => (None, ctx)
  | Some (i, s) =>
      if s_locked s then (None, ctx)
      else
        let s' := MkSlot (s_pixels s) (s_w s) (s_h s) (s_gen s) (s_in_use s) (s_is_screen s) (s_owned s)
                    true false true (s_lock_gen s) 0 0 in
        let reg' := MkReg (<[Z.to_nat i := s']> (slots reg)) (surface_bytes reg) (lock_bump reg)
                      (i32 (active_locks reg + 1)) (reg_screen reg) in
        (Some (s_pixels s, s_w s, s_h s, blyt_lockview_encode (s_lock_gen s) (blyt_dyn_decode_index handle)),
         set_surfaces reg' ctx)
  end.

Definition blyt_session_surface_release (ctx : blyt_run_ctx_t) (mem : option M) (token : Z) : option blyt_run_ctx_t :=
  match blyt_resolve_lockview (surfaces ctx) token with
  | None => Some ctx
  | Some (i, _) => reg ← blyt_surface_flush_lock (surfaces ctx) i mem; Some (set_surfaces reg ctx)
  end.

Definition blyt_session_reap_surfaces (ctx : blyt_run_ctx_t) (mem : option M) : option (blyt_run_ctx_t * option M) :=
  blyt_surface_reap_all ctx mem.
End surface.

(** The registry a session starts with: slot 0 is the screen. *)
Definition empty_slot : blyt_surface_slot_t := MkSlot None 0 0 0 false false false false false false 0 0 0.
Definition screen_slot : blyt_surface_slot_t :=
  MkSlot (Some ScreenPixels) BLYT_FRAME_W BLYT_FRAME_H 0 true true false false false false 0 0 0.
Definition initial_registry (screen : list Z) : blyt_surface_registry_t :=
  MkReg (screen_slot :: replicate 63 empty_slot) 0 0 0 screen.
