(* ===== verification/SurfaceSpec.v ===== *)
(** * SurfaceSpec: the registry invariant and the effect of each operation

    The invariant [reg_ok] of the surface registry (slot 0 is the screen, a slot in use
    owns a buffer of its size, the byte and lock counters are exact, the regions of live
    locks are disjoint and inside the lock arena), the effect of each operation on a
    registry that satisfies it, and its preservation. *)

From S2P Require Import Prelude Handle MemBudget StateBuffer ResourceTable ResourceTheorems Raster RunCtx Surface.
From Stdlib Require Import ZArith Lia.
From stdpp Require Import base tactics list.
Open Scope Z_scope.

(** ** The invariant *)

Definition area (s : blyt_surface_slot_t) : Z := s_w s * s_h s.
Definition off_bytes (s : blyt_surface_slot_t) : Z := if s_in_use s && negb (s_is_screen s) then area s else 0.
Definition lock1 (s : blyt_surface_slot_t) : Z := if s_locked s then 1 else 0.

(** Size of a lock region: rounded up to a word. *)
Definition aligned (n : Z) : Z := (n + 3) / 4 * 4.

(** Locked through guest memory. *)
Definition guest_locked (s : blyt_surface_slot_t) : bool := s_locked s && negb (s_lock_direct s).

Definition apart (s s' : blyt_surface_slot_t) : Prop :=
  s_lock_vaddr s + aligned (area s) <= s_lock_vaddr s' \/ s_lock_vaddr s' + aligned (area s') <= s_lock_vaddr s.

Definition slot_ok (bump i : Z) (s : blyt_surface_slot_t) : Prop :=
  is_u16 (s_gen s) /\ is_u16 (s_lock_gen s)
  /\ (if i =? 0
      then s_in_use s = true /\ s_is_screen s = true /\ s_owned s = false /\ s_pixels s = Some ScreenPixels
           /\ s_w s = 320 /\ s_h s = 240
      else s_is_screen s = false
           /\ if s_in_use s
              then 1 <= s_w s <= 8192 /\ 1 <= s_h s <= 8192 /\ s_owned s = true
                   /\ exists b, s_pixels s = Some (OwnedPixels b) /\ len b = area s
              else s_pixels s = None /\ s_owned s = false /\ s_locked s = false)
  /\ (if s_locked s
      then s_lock_direct s = false ->
           s_lock_len s = area s /\ 0x02000000 <= s_lock_vaddr s
           /\ s_lock_vaddr s + aligned (area s) <= 0x02000000 + bump
      else s_lock_phantom s = false /\ s_lock_direct s = false).

Record reg_ok (reg : blyt_surface_registry_t) : Prop := MkRegOk {
  r_len : len (slots reg) = 64;
  r_slots : forall i s, zget (slots reg) i = Some s -> slot_ok (lock_bump reg) i s;
  r_apart : forall i j s s', zget (slots reg) i = Some s -> zget (slots reg) j = Some s' -> i <> j ->
    guest_locked s = true -> guest_locked s' = true -> apart s s';
  r_bytes : surface_bytes reg = zsum off_bytes (slots reg);
  r_active : active_locks reg = zsum lock1 (slots reg);
  r_bump : 0 <= lock_bump reg <= 0x02000000 /\ lock_bump reg mod 4 = 0;
  r_idle : active_locks reg = 0 -> lock_bump reg = 0;
  r_screen : len (reg_screen reg) = 76800
}.

(** ** Lemmas: slots *)

Lemma aligned_bounds n : n <= aligned n < n + 4.
Proof. unfold aligned. Z.div_mod_to_equations. lia. Qed.

Lemma aligned_land n : 0 <= n <= 67108864 -> Z.land (u32 (n + 3)) (u32 (Z.lnot 3)) = aligned n.
Proof.
  intros Hn. rewrite (u32_id (n + 3)) by (unfold is_u32; lia).
  replace (u32 (Z.lnot 3)) with (Z.land (Z.lnot 3) (Z.ones 32)) by reflexivity.
  rewrite Z.land_assoc, Z.land_ones by lia. rewrite (land_lnot_ones _ 2 3) by (lia || reflexivity).
  change (2 ^ 2) with 4. rewrite Z.mod_small by (Z.div_mod_to_equations; lia). unfold aligned.
  Z.div_mod_to_equations. lia.
Qed.

Section registry.
Context (reg : blyt_surface_registry_t) (Hreg : reg_ok reg).

Lemma slot_index i s : zget (slots reg) i = Some s -> 0 <= i < 64.
Proof using Hreg. intros (Hi & _)%zget_Some. by rewrite (r_len _ Hreg) in Hi. Qed.

Lemma slot_at i : 0 <= i < 64 -> exists s, zget (slots reg) i = Some s.
Proof using Hreg. intros. apply zget_is_Some. by rewrite (r_len _ Hreg). Qed.

Lemma slot_area i s : zget (slots reg) i = Some s -> s_in_use s = true -> 0 < area s <= 67108864.
Proof using Hreg.
  intros Hs Hu. pose proof (r_slots _ Hreg _ _ Hs) as (_ & _ & Hk & _). unfold area.
  destruct (i =? 0); [destruct Hk as (_ & _ & _ & _ & -> & ->); lia|]. rewrite Hu in Hk. nia.
Qed.

Lemma slot_bytes_area i s : zget (slots reg) i = Some s -> s_in_use s = true -> slot_bytes s = area s.
Proof using Hreg.
  intros Hs Hu. pose proof (slot_area i s Hs Hu). pose proof (r_slots _ Hreg _ _ Hs) as (_ & _ & Hk & _).
  unfold slot_bytes, area in *. assert (is_u32 (s_w s) /\ is_u32 (s_h s)) as [? ?].
  { unfold is_u32. destruct (i =? 0); [destruct Hk as (_ & _ & _ & _ & -> & ->); lia|]. rewrite Hu in Hk. lia. }
  rewrite (u32_id (s_w s)), (u32_id (s_h s)) by done. apply u32_id. unfold is_u32. lia.
Qed.

Lemma slot_pixels i s :
  zget (slots reg) i = Some s -> s_in_use s = true ->
  exists px, pixels_of reg s = Some px /\ len px = area s.
Proof using Hreg.
  intros Hs Hu. pose proof (r_slots _ Hreg _ _ Hs) as (_ & _ & Hk & _). unfold pixels_of, area.
  destruct (i =? 0).
  - destruct Hk as (_ & _ & _ & -> & -> & ->). exists (reg_screen reg). by rewrite (r_screen _ Hreg).
  - rewrite Hu in Hk. destruct Hk as (_ & _ & _ & _ & b & -> & Hb). by exists b.
Qed.

Lemma slot_locked_in_use i s : zget (slots reg) i = Some s -> s_locked s = true -> s_in_use s = true.
Proof using Hreg.
  intros Hs Hl. pose proof (r_slots _ Hreg _ _ Hs) as (_ & _ & Hk & _).
  destruct (i =? 0); [apply Hk|]. destruct Hk as [_ Hk]. destruct (s_in_use s); [done|]. destruct Hk as (_ & _ & ?). congruence.
Qed.

Lemma active_range : 0 <= active_locks reg <= 64.
Proof using Hreg.
  rewrite (r_active _ Hreg). pose proof (zsum_bound lock1 (slots reg) 1) as Hz. rewrite (r_len _ Hreg) in Hz.
  destruct Hz; [|lia]. intros s _. unfold lock1. destruct (s_locked s); lia.
Qed.

Lemma locked_active i s : zget (slots reg) i = Some s -> s_locked s = true -> 1 <= active_locks reg.
Proof using Hreg.
  intros Hs Hl. rewrite (r_active _ Hreg). pose proof (zsum_elem lock1 (slots reg) s) as Hz.
  unfold lock1 at 2 in Hz. rewrite Hl in Hz. apply Hz; [|by eapply zget_elem].
  intros x _. unfold lock1. destruct (s_locked x); lia.
Qed.

Lemma surface_bytes_range : 0 <= surface_bytes reg < 2 ^ 32.
Proof using Hreg.
  rewrite (r_bytes _ Hreg). destruct (slot_at 0) as [s0 H0]; [lia|].
  assert (zsum off_bytes (slots reg) = zsum off_bytes (<[Z.to_nat 0 := empty_slot]> (slots reg))) as ->.
  { rewrite (zsum_insert _ _ _ s0) by done. pose proof (r_slots _ Hreg _ _ H0) as (_ & _ & (_ & Hsc & _) & _).
    unfold off_bytes at 3 4. rewrite Hsc, andb_false_r. cbn. lia. }
  assert (forall s, s ∈ tail (slots reg) -> 0 <= off_bytes s <= 67108864) as Hb.
  { intros s (n & Hn)%list_elem_of_lookup. assert (zget (slots reg) (Z.of_nat n + 1) = Some s) as Hs.
    { rewrite zget_lookup by lia. replace (Z.to_nat (Z.of_nat n + 1)) with (S n) by lia. by rewrite <-lookup_tail. }
    unfold off_bytes. destruct (s_in_use s && negb (s_is_screen s)) eqn:E; [|lia].
    apply andb_true_iff in E as [E _]. pose proof (slot_area _ _ Hs E). lia. }
  pose proof (r_len _ Hreg) as Hlen. destruct (slots reg) as [|s l]; [done|]. cbn [tail] in Hb.
  change (<[Z.to_nat 0 := empty_slot]> (s :: l)) with (empty_slot :: l). cbn [zsum].
  pose proof (zsum_bound off_bytes l 67108864 Hb). unfold len in *. cbn [length] in Hlen.
  change (off_bytes empty_slot) with 0. lia.
Qed.
End registry.

Lemma slot_ok_mono bump bump' i s : bump <= bump' -> slot_ok bump i s -> slot_ok bump' i s.
Proof.
  intros Hb (Hg & Hl & Hk & Hlk). split_and!; [done..|]. destruct (s_locked s); [|done].
  intros Hd. destruct (Hlk Hd) as (? & ? & ?). split_and!; [done..|lia].
Qed.

Lemma slot_ok_unlocked bump bump' i s : s_locked s = false -> slot_ok bump i s -> slot_ok bump' i s.
Proof. intros Hu (Hg & Hl & Hk & Hlk). unfold slot_ok. rewrite Hu in *. exact (conj Hg (conj Hl (conj Hk Hlk))). Qed.

(** Replacing one slot and the counters. *)
Lemma reg_ok_update reg i s s' bytes' bump' active' screen' :
  reg_ok reg -> zget (slots reg) i = Some s ->
  slot_ok bump' i s' ->
  (forall j sj, zget (slots reg) j = Some sj -> i <> j -> slot_ok bump' j sj) ->
  (forall j sj, zget (slots reg) j = Some sj -> i <> j -> guest_locked s' = true -> guest_locked sj = true -> apart s' sj) ->
  bytes' = surface_bytes reg - off_bytes s + off_bytes s' ->
  active' = active_locks reg - lock1 s + lock1 s' ->
  0 <= bump' <= 0x02000000 -> bump' mod 4 = 0 -> (active' = 0 -> bump' = 0) -> len screen' = 76800 ->
  reg_ok (MkReg (<[Z.to_nat i := s']> (slots reg)) bytes' bump' active' screen').
Proof.
  intros Hreg Hs Hs' Hothers Hap Hbytes Hact Hb Hb4 Hidle Hscr. pose proof (slot_index reg Hreg i s Hs) as Hi.
  assert (forall j sj, zget (<[Z.to_nat i := s']> (slots reg)) j = Some sj ->
    j = i /\ sj = s' \/ j <> i /\ zget (slots reg) j = Some sj) as Hget.
  { intros j sj Hj. destruct (decide (j = i)) as [->|Hne].
    - rewrite zget_insert_eq in Hj by (rewrite (r_len _ Hreg); lia). left. split; congruence.
    - rewrite zget_insert_ne in Hj by lia. by right. }
  constructor; cbn.
  - by rewrite len_insert, (r_len _ Hreg).
  - intros j sj Hj. destruct (Hget j sj Hj) as [[-> ->]|[Hne Hj']]; [done|]. apply Hothers; congruence.
  - intros j k sj sk Hj Hk Hne Hlj Hlk.
    destruct (Hget j sj Hj) as [[-> ->]|[Hnj Hj']], (Hget k sk Hk) as [[-> ->]|[Hnk Hk']].
    + done.
    + apply (Hap k); [done|congruence|done..].
    + destruct (Hap j sj Hj'); [congruence|done..|by right|by left].
    + by apply (r_apart _ Hreg j k).
  - rewrite (zsum_insert _ _ _ s) by done. rewrite <-(r_bytes _ Hreg). lia.
  - rewrite (zsum_insert _ _ _ s) by done. rewrite <-(r_active _ Hreg). lia.
  - done.
  - done.
  - done.
Qed.

(** ** Lemmas: resolution *)

Lemma resolve_surface_inv reg h i s :
  blyt_resolve_surface reg h = Some (i, s) ->
  zget (slots reg) i = Some s /\ s_in_use s = true /\ i = blyt_dyn_decode_index h
  /\ u16 (blyt_dyn_decode_gen h) = s_gen s /\ blyt_handle_is_surface h = true.
Proof.
  unfold blyt_resolve_surface. destruct (blyt_handle_is_surface h); cbn [negb]; [|done].
  destruct (_ >=? _); [done|]. destruct (zget (slots reg) _) as [s'|] eqn:Hs; cbn; [|done].
  destruct (s_in_use s') eqn:Hu; cbn; [|done]. destruct (Z.eqb_spec (u16 (blyt_dyn_decode_gen h)) (s_gen s')); cbn; [|done].
  by intros [= <- <-].
Qed.

Lemma resolve_surface_Some reg h i s :
  i < 64 -> zget (slots reg) i = Some s -> s_in_use s = true -> blyt_handle_is_surface h = true ->
  blyt_dyn_decode_index h = i -> u16 (blyt_dyn_decode_gen h) = s_gen s ->
  blyt_resolve_surface reg h = Some (i, s).
Proof.
  intros Hi Hs Hu Hk Hx Hg. unfold blyt_resolve_surface. rewrite Hk. cbn [negb]. rewrite Hx.
  destruct (Z.geb_spec i BLYT_SURFACE_MAX); [unfold BLYT_SURFACE_MAX in *; lia|].
  rewrite Hs. cbn. by rewrite Hu, Hg, Z.eqb_refl.
Qed.

Lemma resolve_lockview_inv reg h i s :
  blyt_resolve_lockview reg h = Some (i, s) ->
  zget (slots reg) i = Some s /\ s_locked s = true /\ i = blyt_dyn_decode_index h
  /\ u16 (blyt_dyn_decode_gen h) = s_lock_gen s /\ blyt_handle_is_lockview h = true.
Proof.
  unfold blyt_resolve_lockview. destruct (blyt_handle_is_lockview h); cbn [negb]; [|done].
  destruct (_ >=? _); [done|]. destruct (zget (slots reg) _) as [s'|] eqn:Hs; cbn; [|done].
  destruct (s_locked s') eqn:Hu; cbn; [|done]. destruct (Z.eqb_spec (u16 (blyt_dyn_decode_gen h)) (s_lock_gen s')); cbn; [|done].
  by intros [= <- <-].
Qed.

Lemma resolve_lockview_Some reg h i s :
  i < 64 -> zget (slots reg) i = Some s -> s_locked s = true -> blyt_handle_is_lockview h = true ->
  blyt_dyn_decode_index h = i -> u16 (blyt_dyn_decode_gen h) = s_lock_gen s ->
  blyt_resolve_lockview reg h = Some (i, s).
Proof.
  intros Hi Hs Hu Hk Hx Hg. unfold blyt_resolve_lockview. rewrite Hk. cbn [negb]. rewrite Hx.
  destruct (Z.geb_spec i BLYT_SURFACE_MAX); [unfold BLYT_SURFACE_MAX in *; lia|].
  rewrite Hs. cbn. by rewrite Hu, Hg, Z.eqb_refl.
Qed.

(** Only slot 0 points to the framebuffer. *)
Lemma screen_slot_0 bump i s : slot_ok bump i s -> s_pixels s = Some ScreenPixels -> i = 0.
Proof.
  intros (_ & _ & Hk & _) Hp. destruct (Z.eqb_spec i 0); [done|]. destruct Hk as [_ Hk].
  destruct (s_in_use s); [destruct Hk as (_ & _ & _ & b & Hk & _)|destruct Hk as [Hk _]]; congruence.
Qed.

(** ** Storing into a slot's buffer *)

Lemma store_bytes_all px bs : len bs = len px -> store_bytes px 0 bs = Some bs.
Proof.
  intros Hl. unfold store_bytes. rewrite rd_Some by (rewrite ?Hl; pose proof (len_nonneg px); lia). cbn. f_equal.
  unfold splice. change (Z.to_nat 0) with 0%nat. cbn [take app Nat.add].
  replace (length bs) with (length px) by (unfold len in Hl; lia). by rewrite drop_ge, app_nil_r by done.
Qed.

(** The slot with another buffer of the same size. *)
Definition repaint (px : list Z) (s : blyt_surface_slot_t) : blyt_surface_slot_t :=
  match s_pixels s with
  | Some (OwnedPixels _) => with_pixels (Some (OwnedPixels px)) s
  | _ => s
  end.

Definition repaint_screen (px : list Z) (s : blyt_surface_slot_t) (screen : list Z) : list Z :=
  match s_pixels s with Some ScreenPixels => px | _ => screen end.

Section paint.
Context (reg : blyt_surface_registry_t) (i : Z) (s : blyt_surface_slot_t) (px : list Z).
Hypothesis (Hreg : reg_ok reg) (Hs : zget (slots reg) i = Some s) (Hu : s_in_use s = true) (Hpx : len px = area s).

Lemma insert_same : <[Z.to_nat i := s]> (slots reg) = slots reg.
Proof using Hs. apply list_insert_id. pose proof (zget_Some _ _ _ Hs) as [_ ?]. done. Qed.

Lemma store_pixels_eq :
  store_pixels i s px reg
  = MkReg (<[Z.to_nat i := repaint px s]> (slots reg)) (surface_bytes reg) (lock_bump reg) (active_locks reg)
      (repaint_screen px s (reg_screen reg)).
Proof using Hs.
  unfold store_pixels, repaint, repaint_screen, with_screen, with_slot.
  destruct (s_pixels s) as [[|b]|]; [by rewrite insert_same|done|]. rewrite insert_same. clear. by destruct reg.
Qed.

Lemma repaint_ok bump : slot_ok bump i s -> slot_ok bump i (repaint px s).
Proof using Hu Hpx.
  intros Hok. unfold repaint. destruct (s_pixels s) as [[|b]|] eqn:Ep; [done| |done].
  destruct Hok as (Hg & Hl & Hk & Hlk). split; [done|]. split; [done|]. split; [|exact Hlk]. cbn.
  destruct (i =? 0); [destruct Hk as (_ & _ & _ & ? & _); congruence|].
  rewrite Hu in *. destruct Hk as (? & ? & ? & ? & _). split_and!; try done; try tauto. by exists px.
Qed.

Lemma repaint_screen_len bump :
  slot_ok bump i s -> len (repaint_screen px s (reg_screen reg)) = 76800.
Proof using Hreg Hu Hpx.
  intros (_ & _ & Hk & _). unfold repaint_screen. destruct (s_pixels s) as [[|b]|] eqn:Ep; try apply (r_screen _ Hreg).
  rewrite Hpx. unfold area. destruct (i =? 0); [by destruct Hk as (_ & _ & _ & _ & -> & ->)|].
  rewrite Hu in Hk. destruct Hk as (_ & _ & _ & _ & b & Hb & _). congruence.
Qed.

Lemma repaint_pixels_of bytes bump act :
  pixels_of (MkReg (<[Z.to_nat i := repaint px s]> (slots reg)) bytes bump act (repaint_screen px s (reg_screen reg)))
    (repaint px s) = Some px.
Proof using Hreg Hs Hu.
  destruct (slot_pixels reg Hreg i s Hs Hu) as (b & Hb & _).
  unfold pixels_of, repaint, repaint_screen in *. destruct (s_pixels s) as [[|b']|] eqn:Ep; cbn; [by rewrite Ep|done|done].
Qed.

(** The other slots keep their buffers: only slot 0 is the screen. *)
Lemma repaint_others j sj l bytes bump act :
  zget (slots reg) j = Some sj -> j <> i ->
  pixels_of (MkReg l bytes bump act (repaint_screen px s (reg_screen reg))) sj = pixels_of reg sj.
Proof using Hreg Hs Hu.
  intros Hj Hne. pose proof (r_slots _ Hreg _ _ Hj) as Hkj. pose proof (r_slots _ Hreg _ _ Hs) as Hk.
  unfold pixels_of, repaint_screen. destruct (s_pixels sj) as [[|b]|] eqn:Ej; [|done..]. cbn.
  destruct (s_pixels s) as [[|b]|] eqn:Ep; [|done..]. exfalso. apply Hne.
  by rewrite (screen_slot_0 _ _ _ Hkj Ej), (screen_slot_0 _ _ _ Hk Ep).
Qed.

Lemma paint_ok : reg_ok (store_pixels i s px reg).
Proof using Hreg Hs Hu Hpx.
  pose proof (r_slots _ Hreg _ _ Hs) as Hok. rewrite store_pixels_eq.
  assert (off_bytes (repaint px s) = off_bytes s /\ lock1 (repaint px s) = lock1 s /\ guest_locked (repaint px s) = guest_locked s
    /\ area (repaint px s) = area s /\ s_lock_vaddr (repaint px s) = s_lock_vaddr s) as (E1 & E2 & E3 & E4 & E5).
  { unfold repaint. by destruct (s_pixels s) as [[|]|]. }
  apply (reg_ok_update reg i s); try done.
  - by apply repaint_ok.
  - intros j sj Hj _. by apply (r_slots _ Hreg).
  - intros j sj Hj Hne Hl Hlj. unfold apart. rewrite E4, E5. apply (r_apart _ Hreg i j); try done. congruence.
  - lia.
  - lia.
  - apply (r_bump _ Hreg).
  - apply (r_bump _ Hreg).
  - apply (r_idle _ Hreg).
  - by apply repaint_screen_len with (lock_bump reg).
Qed.
End paint.

(** ** Releasing a lock *)

Definition unlock (s : blyt_surface_slot_t) : blyt_surface_slot_t :=
  MkSlot (s_pixels s) (s_w s) (s_h s) (s_gen s) (s_in_use s) (s_is_screen s) (s_owned s)
    false false false (u16 (s_lock_gen s + 1)) (s_lock_vaddr s) (s_lock_len s).

(** The other slots and their buffers are as they were. *)
Definition others_kept (reg reg' : blyt_surface_registry_t) (i : Z) : Prop :=
  forall j sj, j <> i -> zget (slots reg) j = Some sj ->
    zget (slots reg') j = Some sj /\ pixels_of reg' sj = pixels_of reg sj.

Lemma last_lock reg i s :
  reg_ok reg -> zget (slots reg) i = Some s -> s_locked s = true -> active_locks reg = 1 ->
  forall j sj, zget (slots reg) j = Some sj -> i <> j -> s_locked sj = false.
Proof.
  intros Hreg Hs Hl Ha j sj Hj Hne. destruct (s_locked sj) eqn:E; [|done]. exfalso.
  pose proof (slot_index reg Hreg i s Hs).
  pose proof (zsum_insert lock1 (slots reg) i s empty_slot Hs) as Hz. rewrite <-(r_active _ Hreg), Ha in Hz.
  assert (zget (<[Z.to_nat i := empty_slot]> (slots reg)) j = Some sj) as Hj' by (rewrite zget_insert_ne by lia; done).
  pose proof (zsum_elem lock1 _ sj (fun x _ => ltac:(unfold lock1; destruct (s_locked x); lia)) (zget_elem _ _ _ Hj')) as He.
  unfold lock1 in Hz, He at 1. rewrite E in He. unfold lock1 in Hz. rewrite Hl in Hz. cbn [s_locked empty_slot] in Hz. unfold lock1 in He. lia.
Qed.

Section flush.
Context {M : Type} `{GuestMemory M}.

(** What the buffer holds once the lock is released. *)
Definition flushed_px (reg : blyt_surface_registry_t) (s : blyt_surface_slot_t) (mem : option M) : option (list Z) :=
  match mem with
  | Some m => if negb (s_lock_phantom s) && negb (s_lock_direct s)
              then Some (memory_read m (s_lock_vaddr s) (s_lock_len s)) else pixels_of reg s
  | None => pixels_of reg s
  end.

Lemma flush_unlocked reg i s mem :
  zget (slots reg) i = Some s -> s_locked s = false -> blyt_surface_flush_lock reg i mem = Some reg.
Proof. intros Hs Hl. unfold blyt_surface_flush_lock. rewrite Hs. cbn. by rewrite Hl. Qed.

Lemma store_pixels_id reg i s px :
  zget (slots reg) i = Some s -> pixels_of reg s = Some px -> store_pixels i s px reg = reg.
Proof.
  intros Hs Hp. rewrite (store_pixels_eq reg i s px Hs). unfold pixels_of, repaint, repaint_screen, with_pixels in *.
  destruct (s_pixels s) as [[|b]|] eqn:Ep; [|injection Hp as ->|done].
  - injection Hp as <-. rewrite (insert_same reg i s Hs). by destruct reg.
  - replace (MkSlot _ _ _ _ _ _ _ _ _ _ _ _ _) with s by (destruct s; cbn in *; congruence).
    rewrite (insert_same reg i s Hs). by destruct reg.
Qed.

Lemma flushed_px_len reg i s mem :
  reg_ok reg -> zget (slots reg) i = Some s -> s_locked s = true ->
  exists px, flushed_px reg s mem = Some px /\ len px = area s.
Proof.
  intros Hreg Hs Hl. pose proof (slot_locked_in_use reg Hreg i s Hs Hl) as Hu.
  destruct (slot_pixels reg Hreg i s Hs Hu) as (b & Hb & Hlb). unfold flushed_px.
  destruct mem as [m|]; [|by exists b]. destruct (s_lock_phantom s), (s_lock_direct s) eqn:Ed; cbn; try by exists b.
  pose proof (r_slots _ Hreg _ _ Hs) as (_ & _ & _ & Hk). rewrite Hl in Hk. destruct (Hk Ed) as (-> & _ & _).
  pose proof (slot_area reg Hreg i s Hs Hu). eexists. split; [done|]. apply memory_read_len. lia.
Qed.

(** The code of the release, with the buffer it stores made explicit. *)
Lemma flush_unfold reg i s mem px :
  reg_ok reg -> zget (slots reg) i = Some s -> s_locked s = true -> flushed_px reg s mem = Some px -> len px = area s ->
  blyt_surface_flush_lock reg i mem
  = Some (MkReg (<[Z.to_nat i := unlock (repaint px s)]> (slots reg)) (surface_bytes reg)
            (if active_locks reg - 1 =? 0 then 0 else lock_bump reg) (active_locks reg - 1)
            (repaint_screen px s (reg_screen reg))).
Proof.
  intros Hreg Hs Hl Hpx Hlen. pose proof (slot_locked_in_use reg Hreg i s Hs Hl) as Hu.
  destruct (slot_pixels reg Hreg i s Hs Hu) as (b & Hb & Hlb). pose proof (slot_index reg Hreg i s Hs) as Hi.
  pose proof (locked_active reg Hreg i s Hs Hl) as Ha.
  unfold blyt_surface_flush_lock. rewrite Hs. cbn [mbind option_bind]. rewrite Hl. cbn [negb].
  assert (match mem, pixels_of reg s with
          | Some mem, Some px =>
              if negb (s_lock_phantom s) && negb (s_lock_direct s) then
                px' ← store_bytes px 0 (memory_read mem (s_lock_vaddr s) (s_lock_len s)); Some (store_pixels i s px' reg)
              else Some reg
          | _, _ => Some reg
          end = Some (store_pixels i s px reg)) as ->.
  { unfold flushed_px in Hpx. rewrite Hb in *. destruct mem as [m|].
    - destruct (_ && _); [|injection Hpx as ->; by rewrite (store_pixels_id reg i s px Hs Hb)].
      injection Hpx as <-. rewrite store_bytes_all by congruence. done.
    - injection Hpx as ->. by rewrite (store_pixels_id reg i s px Hs Hb). }
  cbn [mbind option_bind]. rewrite (store_pixels_eq reg i s px Hs). cbn [slots].
  rewrite zget_insert_eq by (rewrite (r_len _ Hreg); lia). cbn [mbind option_bind with_slot active_locks slots surface_bytes lock_bump reg_screen].
  rewrite list_insert_insert_eq. destruct (Z.gtb_spec (active_locks reg) 0); [done|lia].
Qed.

Lemma flush_spec reg i s mem :
  reg_ok reg -> zget (slots reg) i = Some s -> s_locked s = true ->
  exists reg' px s', blyt_surface_flush_lock reg i mem = Some reg' /\ reg_ok reg'
    /\ flushed_px reg s mem = Some px /\ s' = unlock (repaint px s)
    /\ zget (slots reg') i = Some s' /\ pixels_of reg' s' = Some px
    /\ others_kept reg reg' i
    /\ surface_bytes reg' = surface_bytes reg /\ active_locks reg' = active_locks reg - 1
    /\ reg_screen reg' = repaint_screen px s (reg_screen reg).
Proof.
  intros Hreg Hs Hl. pose proof (slot_locked_in_use reg Hreg i s Hs Hl) as Hu.
  destruct (flushed_px_len reg i s mem Hreg Hs Hl) as (px & Hpx & Hlen).
  pose proof (slot_index reg Hreg i s Hs) as Hi. pose proof (r_slots _ Hreg _ _ Hs) as Hok.
  eexists _, px, _. split; [by apply (flush_unfold reg i s mem px)|]. split_and!; try done.
  - pose proof (paint_ok reg i s px Hreg Hs Hu Hlen) as Hreg1. rewrite (store_pixels_eq reg i s px Hs) in Hreg1.
    assert (zget (<[Z.to_nat i := repaint px s]> (slots reg)) i = Some (repaint px s)) as Hs1
      by (apply zget_insert_eq; rewrite (r_len _ Hreg); lia).
    assert (s_locked (repaint px s) = true /\ s_in_use (repaint px s) = true
      /\ off_bytes (unlock (repaint px s)) = off_bytes (repaint px s)) as (Hl1 & Hu1 & Ho1)
      by (unfold repaint; destruct (s_pixels s) as [[|]|]; by split_and!).
    pose proof (last_lock _ i (repaint px s) Hreg1 Hs1 Hl1) as Hlast. cbn [active_locks slots] in Hlast.
    pose proof (reg_ok_update _ i (repaint px s) (unlock (repaint px s)) (surface_bytes reg)
      (if active_locks reg - 1 =? 0 then 0 else lock_bump reg) (active_locks reg - 1) (repaint_screen px s (reg_screen reg)) Hreg1 Hs1) as Hup.
    cbn [slots surface_bytes active_locks] in Hup. rewrite list_insert_insert_eq in Hup. apply Hup; clear Hup.
    + destruct (repaint_ok i s px Hu Hlen _ Hok) as (Hg & _ & Hk & _).
      split; [done|]. split; [apply u16_range|]. split; [|done].
      cbn. destruct (i =? 0); [done|]. rewrite Hu1 in Hk. cbn. by rewrite Hu1.
    + intros j sj Hj Hne. destruct (Z.eqb_spec (active_locks reg - 1) 0); [|by apply (r_slots _ Hreg1)].
      eapply slot_ok_unlocked; [|by apply (r_slots _ Hreg1)]. eapply Hlast; [lia|done..].
    + done.
    + lia.
    + unfold lock1. rewrite Hl1. cbn. lia.
    + pose proof (r_bump _ Hreg). destruct (_ =? 0); lia.
    + pose proof (r_bump _ Hreg). destruct (_ =? 0); [done|lia].
    + intros ->. done.
    + by apply (repaint_screen_len reg i s px Hreg Hu Hlen (lock_bump reg)).
  - apply zget_insert_eq. rewrite (r_len _ Hreg). lia.
  - destruct (slot_pixels reg Hreg i s Hs Hu) as (b & Hb & _).
    unfold pixels_of, unlock, repaint, repaint_screen in *. cbn. destruct (s_pixels s) as [[|b']|] eqn:Ep; cbn; [by rewrite Ep|done|done].
  - intros j sj Hne Hj. cbn. split; [by rewrite zget_insert_ne by lia|].
    by apply (repaint_others reg i s px Hreg Hs Hu j).
Qed.
End flush.

(** ** Freeing and creating *)

Definition freed (s : blyt_surface_slot_t) : blyt_surface_slot_t :=
  MkSlot None (s_w s) (s_h s) (u16 (s_gen s + 1)) false (s_is_screen s) false (s_locked s)
    (s_lock_phantom s) (s_lock_direct s) (s_lock_gen s) (s_lock_vaddr s) (s_lock_len s).

Lemma free_noop reg i s :
  zget (slots reg) i = Some s -> s_in_use s = false \/ s_is_screen s = true ->
  blyt_surface_free_slot reg i = Some reg.
Proof.
  intros Hs Hn. unfold blyt_surface_free_slot. rewrite Hs. cbn [mbind option_bind].
  destruct (s_in_use s), (s_is_screen s); cbn; try done; by destruct Hn.
Qed.

Lemma free_spec reg i s :
  reg_ok reg -> zget (slots reg) i = Some s -> s_in_use s = true -> s_is_screen s = false -> s_locked s = false ->
  exists reg', blyt_surface_free_slot reg i = Some reg' /\ reg_ok reg'
    /\ zget (slots reg') i = Some (freed s) /\ others_kept reg reg' i
    /\ surface_bytes reg' = surface_bytes reg - area s /\ active_locks reg' = active_locks reg
    /\ lock_bump reg' = lock_bump reg /\ reg_screen reg' = reg_screen reg.
Proof.
  intros Hreg Hs Hu Hsc Hl. pose proof (slot_index reg Hreg i s Hs) as Hi.
  pose proof (r_slots _ Hreg _ _ Hs) as (Hg & Hlg & Hk & Hlk). rewrite Hl in Hlk.
  assert (i <> 0 /\ s_owned s = true /\ exists b, s_pixels s = Some (OwnedPixels b)) as (Hi0 & Ho & b & Hb).
  { destruct (Z.eqb_spec i 0); [destruct Hk as (_ & ? & _); congruence|]. rewrite Hu in Hk.
    destruct Hk as (_ & _ & _ & ? & b & ? & _). split_and!; [done..|by exists b]. }
  unfold blyt_surface_free_slot. rewrite Hs. cbn [mbind option_bind]. rewrite Hu, Hsc, Ho, Hb. cbn [negb orb].
  rewrite (slot_bytes_area reg Hreg i s Hs Hu).
  assert (u32 (surface_bytes reg - area s) = surface_bytes reg - area s) as ->.
  { apply u32_id. pose proof (surface_bytes_range reg Hreg). pose proof (slot_area reg Hreg i s Hs Hu).
    assert (0 <= surface_bytes reg - area s); [|unfold is_u32; lia].
    rewrite (r_bytes _ Hreg). pose proof (zsum_elem off_bytes (slots reg) s) as Hz.
    unfold off_bytes at 2 in Hz. rewrite Hu, Hsc in Hz. cbn in Hz. assert (area s <= zsum off_bytes (slots reg)); [|lia].
    apply Hz; [|by eapply zget_elem]. intros x (n & Hn)%list_elem_of_lookup. unfold off_bytes.
    destruct (s_in_use x && _) eqn:E; [|lia]. apply andb_true_iff in E as [E _].
    assert (zget (slots reg) (Z.of_nat n) = Some x) as Hx by (rewrite zget_lookup, Nat2Z.id by lia; done).
    pose proof (slot_area reg Hreg _ _ Hx E). lia. }
  eexists. split; [done|]. unfold freed. rewrite Hsc. split_and!; cbn; try done; try lia.
  - apply (reg_ok_update reg i s); try done; cbn.
    + split; [apply u16_range|]. split; [done|]. rewrite (proj2 (Z.eqb_neq i 0)) by done. cbn. rewrite Hl.
      split; [by split_and!|exact Hlk].
    + intros j sj Hj _. by apply (r_slots _ Hreg).
    + intros j sj Hj Hne Hgl. unfold guest_locked in Hgl. cbn in Hgl. by rewrite Hl in Hgl.
    + unfold off_bytes. rewrite Hu, Hsc. cbn. lia.
    + unfold lock1. cbn. lia.
    + apply (r_bump _ Hreg).
    + apply (r_bump _ Hreg).
    + apply (r_idle _ Hreg).
    + apply (r_screen _ Hreg).
  - apply zget_insert_eq. rewrite (r_len _ Hreg). lia.
  - intros j sj Hne Hj. cbn. split; [by rewrite zget_insert_ne by lia|done].
Qed.

Lemma free_index_spec k i reg :
  reg_ok reg -> 0 < i -> i + Z.of_nat k <= 64 ->
  exists idx, free_index k i reg = Some idx
    /\ ((idx = 0 /\ forall j s, i <= j < i + Z.of_nat k -> zget (slots reg) j = Some s -> s_in_use s = true)
        \/ (i <= idx < i + Z.of_nat k /\ exists s, zget (slots reg) idx = Some s /\ s_in_use s = false)).
Proof.
  intros Hreg. revert i; induction k as [|k IH]; intros i Hi Hk; cbn [free_index].
  { exists 0. split; [done|]. left. split; [done|]. intros; lia. }
  destruct (slot_at reg Hreg i) as [s Hs]; [lia|]. rewrite Hs. cbn [mbind option_bind].
  destruct (s_in_use s) eqn:Hu; cbn [negb].
  - destruct (IH (i + 1)) as (idx & -> & Hidx); [lia|lia|]. exists idx. split; [done|].
    destruct Hidx as [[-> Hall]|[Hr Hx]]; [left; split; [done|]|right; split; [lia|done]].
    intros j sj Hj Hsj. destruct (decide (j = i)) as [->|]; [congruence|]. apply (Hall j); [lia|done].
  - exists i. split; [done|]. right. split; [lia|]. by exists s.
Qed.

Definition created (w h : Z) (s : blyt_surface_slot_t) : blyt_surface_slot_t :=
  MkSlot (Some (OwnedPixels (replicate (Z.to_nat (w * h)) 0))) w h (s_gen s) true false true
    (s_locked s) (s_lock_phantom s) (s_lock_direct s) (s_lock_gen s) (s_lock_vaddr s) (s_lock_len s).

Lemma create_reg_ok reg i s w h :
  reg_ok reg -> zget (slots reg) i = Some s -> s_in_use s = false -> 1 <= w <= 8192 -> 1 <= h <= 8192 ->
  let reg' := MkReg (<[Z.to_nat i := created w h s]> (slots reg)) (surface_bytes reg + w * h)
                (lock_bump reg) (active_locks reg) (reg_screen reg) in
  reg_ok reg' /\ zget (slots reg') i = Some (created w h s) /\ others_kept reg reg' i /\ i <> 0.
Proof.
  intros Hreg Hs Hu Hw Hh. cbv zeta. pose proof (slot_index reg Hreg i s Hs) as Hi.
  pose proof (r_slots _ Hreg _ _ Hs) as (Hg & Hlg & Hk & Hlk).
  assert (i <> 0) as Hi0 by (destruct (Z.eqb_spec i 0); [destruct Hk as (? & _); congruence|done]).
  rewrite (proj2 (Z.eqb_neq i 0)), Hu in Hk by done. destruct Hk as (Hsc & Hp & Ho & Hl). rewrite Hl in Hlk.
  split; [|split; [|split; [|done]]].
  - apply (reg_ok_update reg i s); try done; cbn.
    + split; [done|]. split; [done|]. rewrite (proj2 (Z.eqb_neq i 0)) by done. cbn. rewrite Hl.
      split; [|exact Hlk]. split_and!; try done; try lia. eexists. split; [done|]. unfold area. cbn.
      rewrite len_replicate. nia.
    + intros j sj Hj _. by apply (r_slots _ Hreg).
    + intros j sj Hj Hne Hgl. unfold guest_locked in Hgl. cbn in Hgl. by rewrite Hl in Hgl.
    + unfold off_bytes, area. rewrite Hu. cbn. lia.
    + unfold lock1. cbn. lia.
    + apply (r_bump _ Hreg).
    + apply (r_bump _ Hreg).
    + apply (r_idle _ Hreg).
    + apply (r_screen _ Hreg).
  - cbn. apply zget_insert_eq. rewrite (r_len _ Hreg). lia.
  - intros j sj Hne Hj. cbn. split; [by rewrite zget_insert_ne by lia|done].
Qed.

(** ** Acquiring a lock *)

Definition locked_slot (s : blyt_surface_slot_t) (phantom : bool) (vaddr : Z) : blyt_surface_slot_t :=
  MkSlot (s_pixels s) (s_w s) (s_h s) (s_gen s) (s_in_use s) (s_is_screen s) (s_owned s)
    true phantom (s_lock_direct s) (s_lock_gen s) vaddr (area s).

Definition direct_slot (s : blyt_surface_slot_t) : blyt_surface_slot_t :=
  MkSlot (s_pixels s) (s_w s) (s_h s) (s_gen s) (s_in_use s) (s_is_screen s) (s_owned s)
    true false true (s_lock_gen s) 0 0.

Lemma lock_reg_ok reg i s phantom :
  reg_ok reg -> zget (slots reg) i = Some s -> s_in_use s = true -> s_locked s = false ->
  lock_bump reg + aligned (area s) <= 0x02000000 ->
  let vaddr := 0x02000000 + lock_bump reg in
  let reg' := MkReg (<[Z.to_nat i := locked_slot s phantom vaddr]> (slots reg)) (surface_bytes reg)
                (lock_bump reg + aligned (area s)) (active_locks reg + 1) (reg_screen reg) in
  reg_ok reg' /\ zget (slots reg') i = Some (locked_slot s phantom vaddr) /\ others_kept reg reg' i.
Proof.
  intros Hreg Hs Hu Hl Hfit. cbv zeta. pose proof (slot_index reg Hreg i s Hs) as Hi.
  pose proof (r_slots _ Hreg _ _ Hs) as (Hg & Hlg & Hk & Hlk). rewrite Hl in Hlk. destruct Hlk as [Hph Hd].
  pose proof (slot_area reg Hreg i s Hs Hu) as Har. pose proof (aligned_bounds (area s)) as Hal.
  pose proof (r_bump _ Hreg) as [Hb Hb4].
  split; [|split].
  - apply (reg_ok_update reg i s); try done; cbn -[aligned].
    + split; [done|]. split; [done|]. split; [|intros _; cbn -[aligned]; unfold area in *; cbn -[aligned]; lia].
      cbn. unfold area in *. cbn. destruct (i =? 0); [done|]. by rewrite Hu in *.
    + intros j sj Hj _. eapply slot_ok_mono; [|by apply (r_slots _ Hreg)]. lia.
    + intros j sj Hj Hne _ Hglj. unfold guest_locked in Hglj. apply andb_true_iff in Hglj as [Hlj Hdj].
      pose proof (r_slots _ Hreg _ _ Hj) as (_ & _ & _ & Hlkj). rewrite Hlj in Hlkj.
      destruct Hlkj as (_ & ? & ?); [by destruct (s_lock_direct sj)|]. right. cbn -[aligned]. lia.
    + unfold off_bytes, area. cbn. rewrite Hu. lia.
    + unfold lock1. rewrite Hl. cbn. lia.
    + lia.
    + unfold aligned. rewrite Z.add_mod, Z_mod_mult, Hb4 by lia. done.
    + pose proof (active_range reg Hreg). lia.
    + apply (r_screen _ Hreg).
  - cbn. apply zget_insert_eq. rewrite (r_len _ Hreg). lia.
  - intros j sj Hne Hj. cbn. split; [by rewrite zget_insert_ne by lia|done].
Qed.

Lemma direct_reg_ok reg i s :
  reg_ok reg -> zget (slots reg) i = Some s -> s_in_use s = true -> s_locked s = false ->
  let reg' := MkReg (<[Z.to_nat i := direct_slot s]> (slots reg)) (surface_bytes reg)
                (lock_bump reg) (active_locks reg + 1) (reg_screen reg) in
  reg_ok reg' /\ zget (slots reg') i = Some (direct_slot s) /\ others_kept reg reg' i.
Proof.
  intros Hreg Hs Hu Hl. cbv zeta. pose proof (slot_index reg Hreg i s Hs) as Hi.
  pose proof (r_slots _ Hreg _ _ Hs) as (Hg & Hlg & Hk & Hlk).
  split; [|split].
  - apply (reg_ok_update reg i s); try done; cbn.
    + split; [done|]. split; [done|]. split; [|done].
      cbn. unfold area in *. cbn. destruct (i =? 0); [done|]. by rewrite Hu in *.
    + intros j sj Hj _. by apply (r_slots _ Hreg).
    + unfold off_bytes, area. cbn. rewrite Hu. lia.
    + unfold lock1. rewrite Hl. cbn. lia.
    + apply (r_bump _ Hreg).
    + apply (r_bump _ Hreg).
    + pose proof (active_range reg Hreg). lia.
    + apply (r_screen _ Hreg).
  - cbn. apply zget_insert_eq. rewrite (r_len _ Hreg). lia.
  - intros j sj Hne Hj. cbn. split; [by rewrite zget_insert_ne by lia|done].
Qed.

(** ** Publishing the footprint *)

(** The lengths of all resources together fit 32 bits. *)
Definition res_ok (t : blyt_resource_table_t) : Prop :=
  lens_ok (t_entries t) /\ total_len (fun _ => true) (t_entries t) < 2 ^ 32.

(** The accounting block, if any, does not wrap around the address space. *)
Definition acct_block_ok (ctx : blyt_run_ctx_t) : Prop := 0 <= mem_acct_vaddr ctx /\ mem_acct_vaddr ctx + 12 <= 2 ^ 32.

Lemma total_le_all test l : lens_ok l -> total_len test l <= total_len (fun _ => true) l.
Proof. induction 1 as [|e l He _ IH]; cbn [total_len]; [lia|]. destruct (test e); lia. Qed.

Lemma evictions_lens l l' : evictions l l' -> e_len <$> l' = e_len <$> l.
Proof. induction 1 as [|e e' l l' He _ IH]; [done|]. rewrite !fmap_cons, IH. f_equal. by destruct He as [->|[_ ->]]. Qed.

Lemma total_all_fmap l : total_len (fun _ => true) l = zsum (fun n => n) (e_len <$> l).
Proof. induction l as [|e l IH]; [done|]. rewrite fmap_cons. cbn [total_len zsum]. lia. Qed.

Lemma res_ok_lens t t' : e_len <$> t_entries t' = e_len <$> t_entries t -> res_ok t -> res_ok t'.
Proof.
  intros He [Hl Ht]. split; [|by rewrite total_all_fmap, He, <-total_all_fmap].
  unfold lens_ok in *. rewrite <-(Forall_fmap e_len (fun n => 0 <= n)) in *. by rewrite He.
Qed.

Lemma cache_room_nonneg h f : 0 <= blyt_mem_cache_room h f.
Proof. unfold blyt_mem_cache_room. cbv zeta. destruct (_ >=? _); [lia|]. pose proof (u32_range (u64 (BLYT_MEM_BUDGET_BYTES - u64 (h + f)))) as []. lia. Qed.

Lemma set_resources_id ctx : set_resources (resources ctx) ctx = ctx.
Proof. by destruct ctx. Qed.

Section publish.
Context {M : Type} `{GuestMemory M}.

(** Memory outside the accounting block. *)
Definition same_but_acct (ctx : blyt_run_ctx_t) (mem mem' : M) : Prop :=
  ram_size mem' = ram_size mem
  /\ forall a n, 0 <= n -> a + n <= mem_acct_vaddr ctx + 4 \/ mem_acct_vaddr ctx + 12 <= a ->
       memory_read mem' a n = memory_read mem a n.

Lemma publish_spec ctx mem :
  res_ok (resources ctx) -> acct_block_ok ctx ->
  exists t' mem', mem_acct_publish_footprint ctx mem = Some (set_resources t' ctx, mem')
    /\ evictions (t_entries (resources ctx)) (t_entries t') /\ res_ok t'
    /\ t_lru_clock t' = t_lru_clock (resources ctx)
    /\ blyt_resource_table_footprint t' = blyt_resource_table_footprint (resources ctx)
    /\ same_but_acct ctx mem mem'.
Proof.
  intros Hres [Ha0 Ha]. unfold mem_acct_publish_footprint. destruct (Z.eqb_spec (mem_acct_vaddr ctx) 0) as [E|E].
  { exists (resources ctx), mem. rewrite set_resources_id. split_and!; try done. apply evictions_refl. }
  cbv zeta. set (mem1 := memory_write mem _ (write_u32_le (ctx_non_evictable_footprint ctx))).
  set (room := blyt_mem_cache_room _ _). pose proof Hres as [Hl Ht].
  pose proof (total_le_all reclaimable _ Hl). pose proof (total_nonneg reclaimable _ Hl).
  pose proof (work_le (t_entries (resources ctx))). unfold blyt_resource_table_evict_to_fit.
  destruct (evict_loop_spec (S (length (t_entries (resources ctx)))) (resources ctx) room 0)
    as (freed & t' & -> & _ & Hclk & _ & _ & Hev & _); [done|lia|apply cache_room_nonneg|lia|lia|lia|].
  cbn [mbind option_bind snd]. eexists t', _. split_and!; [done|done| |done| |].
  - eapply res_ok_lens; [by eapply evictions_lens|done].
  - by rewrite !footprint_total, (evictions_total_charged _ _ Hev).
  - replace (mem_acct_vaddr (set_resources t' ctx)) with (mem_acct_vaddr ctx) by by destruct ctx.
    rewrite (u32_id (_ + 8)) by (unfold is_u32; lia). split; [by unfold mem1; rewrite !memory_write_size|].
    intros a n Hn Hd. rewrite memory_read_other by (rewrite ?len_write_u32_le; lia). unfold mem1.
    rewrite (u32_id (_ + 4)) by (unfold is_u32; lia). apply memory_read_other; [done|]. rewrite len_write_u32_le. lia.
Qed.
End publish.

(** ** Reaping *)

(** What a reap leaves of a slot. *)
Definition reaped (s : blyt_surface_slot_t) : Prop :=
  s_locked s = false /\ (s_is_screen s = true \/ s_in_use s = false).

(** The handle gens of live surfaces and the lock gens of live locks have moved on. *)
Definition moved_on (s s' : blyt_surface_slot_t) : Prop :=
  (s_is_screen s = false -> s_in_use s = true -> s_gen s' = u16 (s_gen s + 1))
  /\ (s_locked s = true -> s_lock_gen s' = u16 (s_lock_gen s + 1)).

Section reap.
Context {M : Type} `{GuestMemory M}.

Lemma flush_one reg i mem :
  reg_ok reg -> 0 <= i < 64 ->
  exists reg' s s', blyt_surface_flush_lock reg i mem = Some reg' /\ reg_ok reg'
    /\ zget (slots reg) i = Some s /\ zget (slots reg') i = Some s' /\ others_kept reg reg' i
    /\ s_locked s' = false /\ s_gen s' = s_gen s /\ s_in_use s' = s_in_use s /\ s_is_screen s' = s_is_screen s
    /\ (s_locked s = true -> s_lock_gen s' = u16 (s_lock_gen s + 1))
    /\ (s_locked s = false -> reg' = reg)
    /\ pixels_of reg' s' = (if s_locked s then flushed_px reg s mem else pixels_of reg s).
Proof.
  intros Hreg Hi. destruct (slot_at reg Hreg i Hi) as [s Hs]. destruct (s_locked s) eqn:Hl.
  - destruct (flush_spec reg i s mem Hreg Hs Hl) as (reg' & px & s' & Hf & Hreg' & Hpx & -> & Hs' & Hpx' & Ho & _).
    exists reg', s, (unlock (repaint px s)). rewrite Hl. split_and!; try done; try congruence; unfold repaint; by destruct (s_pixels s) as [[|]|].
  - exists reg, s, s. rewrite (flush_unlocked reg i s mem Hs Hl), Hl. split_and!; try done; try congruence.
Qed.

Lemma flush_from_spec k i reg mem :
  reg_ok reg -> 0 <= i -> i + Z.of_nat k <= 64 ->
  exists reg', flush_from k i reg mem = Some reg' /\ reg_ok reg'
    /\ (forall j s, zget (slots reg) j = Some s -> exists s', zget (slots reg') j = Some s'
          /\ s_gen s' = s_gen s /\ s_in_use s' = s_in_use s /\ s_is_screen s' = s_is_screen s
          /\ (i <= j < i + Z.of_nat k -> s_locked s' = false
              /\ (s_locked s = true -> s_lock_gen s' = u16 (s_lock_gen s + 1)))
          /\ (~ i <= j < i + Z.of_nat k -> s' = s)
          /\ pixels_of reg' s' = (if bool_decide (i <= j < i + Z.of_nat k) && s_locked s then flushed_px reg s mem else pixels_of reg s)).
Proof.
  revert i reg; induction k as [|k IH]; intros i reg Hreg Hi Hk; cbn [flush_from].
  { exists reg. split_and!; [done..|]. intros j s Hs. exists s. rewrite bool_decide_false by lia. split_and!; try done. lia. }
  destruct (flush_one reg i mem Hreg) as (reg1 & si & si' & -> & Hreg1 & Hsi & Hsi' & Ho & Hl' & Hg & Hu & Hsc & Hlg & _ & Hpx); [lia|].
  cbn [mbind option_bind]. destruct (IH (i + 1) reg1 Hreg1) as (reg' & -> & Hreg' & Hall); [lia|lia|].
  exists reg'. split_and!; [done..|]. intros j s Hs. destruct (decide (j = i)) as [->|Hne].
  - assert (s = si) as -> by congruence. destruct (Hall i si' Hsi') as (s' & Hs' & Hg' & Hu' & Hsc' & _ & Hsame & Hp').
    specialize (Hsame ltac:(lia)) as ->. exists si'. rewrite bool_decide_false in Hp' by lia. rewrite bool_decide_true by lia.
    split_and!; try done; [lia|]. cbn [andb] in *. congruence.
  - destruct (Ho j s Hne Hs) as [Hs1 Hp1]. destruct (Hall j s Hs1) as (s' & Hs' & Hg' & Hu' & Hsc' & Hin & Hout & Hp').
    exists s'. repeat (split; [assumption|]). split; [intros Hj; apply Hin; clear -Hj Hne; lia|]. split; [intros Hj; apply Hout; clear -Hj Hne; lia|].
    rewrite Hp'. rewrite (bool_decide_ext (i + 1 <= j < i + 1 + Z.of_nat k) (i <= j < i + Z.of_nat (S k))) by (clear -Hne; lia).
    unfold flushed_px. by rewrite Hp1.
Qed.

Lemma free_from_spec k i reg :
  reg_ok reg -> 0 < i -> i + Z.of_nat k <= 64 ->
  (forall j s, zget (slots reg) j = Some s -> s_locked s = false) ->
  exists reg', free_from k i reg = Some reg' /\ reg_ok reg' /\ reg_screen reg' = reg_screen reg
    /\ active_locks reg' = active_locks reg /\ lock_bump reg' = lock_bump reg
    /\ (forall j s, zget (slots reg) j = Some s -> exists s', zget (slots reg') j = Some s'
          /\ s_locked s' = false /\ s_lock_gen s' = s_lock_gen s /\ s_is_screen s' = s_is_screen s
          /\ (i <= j < i + Z.of_nat k -> s_in_use s' = false /\ (s_in_use s = true -> s_gen s' = u16 (s_gen s + 1)))
          /\ (~ i <= j < i + Z.of_nat k -> s' = s)).
Proof.
  revert i reg; induction k as [|k IH]; intros i reg Hreg Hi Hk Hun; cbn [free_from].
  { exists reg. split_and!; [done..|]. intros j s Hs. pose proof (Hun j s Hs). exists s. split_and!; try done. lia. }
  destruct (slot_at reg Hreg i) as [si Hsi]; [lia|]. pose proof (Hun i si Hsi) as Hli.
  pose proof (r_slots _ Hreg _ _ Hsi) as (_ & _ & Hkk & _). rewrite (proj2 (Z.eqb_neq i 0)) in Hkk by lia. destruct Hkk as [Hsc _].
  assert (exists reg1 si', blyt_surface_free_slot reg i = Some reg1 /\ reg_ok reg1
    /\ zget (slots reg1) i = Some si' /\ others_kept reg reg1 i /\ reg_screen reg1 = reg_screen reg
    /\ active_locks reg1 = active_locks reg /\ lock_bump reg1 = lock_bump reg
    /\ s_locked si' = false /\ s_lock_gen si' = s_lock_gen si /\ s_is_screen si' = s_is_screen si
    /\ s_in_use si' = false /\ (s_in_use si = true -> s_gen si' = u16 (s_gen si + 1)))
    as (reg1 & si' & -> & Hreg1 & Hsi' & Ho & Hscr & Hact & Hbmp & Hl' & Hlg' & Hsc' & Hu' & Hg').
  { destruct (s_in_use si) eqn:Hu.
    - destruct (free_spec reg i si Hreg Hsi Hu Hsc Hli) as (reg1 & Hf & Hreg1 & Hs1 & Ho & _ & ? & ? & ?).
      exists reg1, (freed si). by split_and!.
    - exists reg, si. rewrite (free_noop reg i si Hsi) by (by left). split_and!; done || congruence. }
  cbn [mbind option_bind]. destruct (IH (i + 1) reg1 Hreg1) as (reg' & -> & Hreg' & Hscr' & Hact' & Hbmp' & Hall); [lia|lia| |].
  { intros j s Hs. destruct (decide (j = i)) as [->|Hne]; [congruence|].
    destruct (slot_at reg Hreg j) as [sj Hj]; [by eapply slot_index|].
    destruct (Ho j sj Hne Hj) as [Hj1 _]. assert (s = sj) as -> by congruence. by apply (Hun j). }
  exists reg'. split_and!; [done|done|congruence|lia|lia|]. intros j s Hs. destruct (decide (j = i)) as [->|Hne].
  - assert (s = si) as -> by congruence. destruct (Hall i si' Hsi') as (s' & Hs' & ? & Hlg1 & Hsc1 & _ & Hsame).
    specialize (Hsame ltac:(lia)) as ->. exists si'. split_and!; try done. lia.
  - destruct (Ho j s Hne Hs) as [Hs1 _]. destruct (Hall j s Hs1) as (s' & Hs' & ? & ? & ? & Hin & Hout).
    exists s'. repeat (split; [assumption|]). split; intros Hj; [apply Hin|apply Hout]; clear -Hj Hne; lia.
Qed.
End reap.
