(* ===== verification/SurfaceTheorems.v ===== *)
(** * SurfaceTheorems: creation, locks and reaping of surfaces

    Properties of the surface operations of [Surface] on a registry that satisfies the
    invariant of [SurfaceSpec]: a created surface is blank, charged and fresh; a tier-2
    lock is exclusive and carries the pixels there and back; a phantom lock reads as
    cleared and writes nothing; a reap leaves no surface, lock, handle or token alive. *)

From S2P Require Import Prelude Handle MemBudget StateBuffer ResourceTable ResourceTheorems Raster RunCtx Surface SurfaceSpec.
From Stdlib Require Import ZArith Lia.
From stdpp Require Import base tactics list.
Open Scope Z_scope.

(** ** Lemmas: memory *)

Lemma read_write_u32_le v : is_u32 v -> read_u32_le (write_u32_le v) = v.
Proof.
  intros Hv. rewrite write_u32_le_bytes by apply Hv. rewrite read_u32_le_val by (done || apply le_bytes_ok).
  rewrite le_val_bytes. apply Z.mod_small. exact Hv.
Qed.

Section memory.
Context {M : Type} `{GuestMemory M}.

Lemma memory_read_app mem a n k :
  0 <= n -> 0 <= k -> memory_read mem a (n + k) = memory_read mem a n ++ memory_read mem (a + n) k.
Proof.
  intros Hn Hk. pose proof (memory_read_len mem a (n + k) ltac:(lia)) as Hl.
  replace (memory_read mem a n) with (memory_read mem (a + 0) n) by (f_equal; lia).
  rewrite <-(memory_read_sub mem a (n + k) 0 n), <-(memory_read_sub mem a (n + k) n k) by lia.
  unfold sub. change (Z.to_nat 0) with 0%nat. rewrite drop_0.
  rewrite <-(take_drop (Z.to_nat n) (memory_read mem a (n + k))) at 1. f_equal.
  rewrite take_ge; [done|]. rewrite length_drop. unfold len in Hl. lia.
Qed.

Lemma memory_read_0 mem a : memory_read mem a 0 = [].
Proof. pose proof (memory_read_len mem a 0 ltac:(lia)) as Hl. destruct (memory_read mem a 0); [done|]. unfold len in Hl. cbn in Hl. lia. Qed.

Lemma memzero_loop_spec fuel mem vaddr n off :
  0 <= vaddr -> 0 <= off <= n -> vaddr + n <= ram_size mem -> vaddr + n < 2 ^ 32 ->
  n - off < 4096 * (Z.of_nat fuel - 1) + 1 -> (0 < fuel)%nat ->
  exists mem', memzero_loop fuel mem vaddr n off = Some mem'
    /\ ram_size mem' = ram_size mem
    /\ memory_read mem' (vaddr + off) (n - off) = replicate (Z.to_nat (n - off)) 0
    /\ forall a k, 0 <= k -> a + k <= vaddr + off \/ vaddr + n <= a -> memory_read mem' a k = memory_read mem a k.
Proof.
  revert mem off; induction fuel as [|fuel IH]; intros mem off Hv Ho Hram H32 Hfuel Hf; [lia|]. cbn [memzero_loop].
  destruct (Z.ltb_spec off n) as [Hlt|Hge].
  2:{ exists mem. replace (n - off) with 0 by lia. split_and!; [done..| |done]. by rewrite memory_read_0. }
  set (c := if n - off >? 4096 then 4096 else n - off).
  assert (0 < c <= n - off /\ (c = 4096 \/ c = n - off)) as [Hc Hc'] by (unfold c; destruct (Z.gtb_spec (n - off) 4096); lia).
  cbv zeta. fold c. rewrite !u32_id by (unfold is_u32; lia).
  set (mem1 := memory_write mem (vaddr + off) (replicate (Z.to_nat c) 0)).
  assert (len (replicate (Z.to_nat c) 0) = c) as Hlc by (rewrite len_replicate; lia).
  assert (ram_size mem1 = ram_size mem) as Hr1 by apply memory_write_size.
  destruct (IH mem1 (off + c)) as (mem' & -> & Hr & Hz & Hfr); [lia..|].
  exists mem'. split; [done|]. split; [congruence|]. split.
  - replace (n - off) with (c + (n - (off + c))) by lia. rewrite memory_read_app by lia.
    replace (vaddr + off + c) with (vaddr + (off + c)) by lia. rewrite Hz, Hfr by lia.
    pose proof (memory_read_write mem (vaddr + off) (replicate (Z.to_nat c) 0) ltac:(lia)) as Hw.
    rewrite Hlc in Hw. unfold mem1. rewrite Hw by lia. rewrite <-replicate_add. f_equal. lia.
  - intros a k Hk Hd. rewrite Hfr by lia. unfold mem1. apply memory_read_other; [done|]. lia.
Qed.

Lemma guest_memzero_spec mem vaddr n :
  0 <= vaddr -> 0 <= n -> vaddr + n <= ram_size mem -> vaddr + n < 2 ^ 32 ->
  exists mem', guest_memzero mem vaddr n = Some mem'
    /\ ram_size mem' = ram_size mem
    /\ memory_read mem' vaddr n = replicate (Z.to_nat n) 0
    /\ forall a k, 0 <= k -> a + k <= vaddr \/ vaddr + n <= a -> memory_read mem' a k = memory_read mem a k.
Proof.
  intros Hv Hn Hram H32. unfold guest_memzero.
  destruct (memzero_loop_spec (Z.to_nat (n / 4096 + 2)) mem vaddr n 0) as (mem' & -> & Hr & Hz & Hfr);
    [lia|lia|lia|lia|Z.div_mod_to_equations; lia|Z.div_mod_to_equations; lia|].
  exists mem'. rewrite Z.add_0_r, Z.sub_0_r in *. by split_and!.
Qed.
End memory.

(** ** The effect of an acquire *)

Definition acquire_fits (reg : blyt_surface_registry_t) (s : blyt_surface_slot_t) : Prop :=
  lock_bump reg + aligned (area s) <= 0x02000000.

(** The guest [blyt_lock_t]. *)
Definition lock_bytes (s : blyt_surface_slot_t) (vaddr token : Z) : list Z :=
  write_u32_le vaddr ++ write_u32_le (u32 (s_w s)) ++ write_u32_le (u32 (s_w s))
  ++ write_u32_le (u32 (s_h s)) ++ write_u32_le token.

Section acquire.
Context {M : Type} `{GuestMemory M}.

Lemma acquire_fail ctx mem h out clear i s :
  reg_ok (surfaces ctx) -> blyt_resolve_surface (surfaces ctx) h = Some (i, s) ->
  s_locked s = true \/ ~ acquire_fits (surfaces ctx) s ->
  blyt_surface_acquire_lock ctx mem h out clear = Some (0, ctx, memory_write mem out (replicate 20 0)).
Proof.
  intros Hreg Hr Hf. unfold blyt_surface_acquire_lock. rewrite Hr. destruct (s_locked s); [done|].
  destruct Hf as [?|Hf]; [done|]. destruct (resolve_surface_inv _ _ _ _ Hr) as (Hs & Hu & _).
  rewrite (slot_bytes_area _ Hreg i s Hs Hu). pose proof (slot_area _ Hreg i s Hs Hu).
  rewrite aligned_land by lia. unfold acquire_fits in Hf. pose proof (aligned_bounds (area s)). pose proof (r_bump _ Hreg).
  rewrite u64_id by (unfold is_u64; lia). unfold BLYT_SURFACE_LOCK_ARENA_SIZE.
  destruct (Z.gtb_spec (lock_bump (surfaces ctx) + aligned (area s)) 33554432); [done|lia].
Qed.

Lemma acquire_spec ctx mem h out (clear : bool) i s px :
  reg_ok (surfaces ctx) -> blyt_resolve_surface (surfaces ctx) h = Some (i, s) ->
  s_locked s = false -> acquire_fits (surfaces ctx) s -> pixels_of (surfaces ctx) s = Some px ->
  0x04000000 <= ram_size mem ->
  let reg := surfaces ctx in
  let vaddr := 0x02000000 + lock_bump reg in
  let reg' := MkReg (<[Z.to_nat i := locked_slot s clear vaddr]> (slots reg)) (surface_bytes reg)
                (lock_bump reg + aligned (area s)) (active_locks reg + 1) (reg_screen reg) in
  exists mem1,
    blyt_surface_acquire_lock ctx mem h out clear
    = Some (1, set_surfaces reg' ctx, memory_write mem1 out (lock_bytes s vaddr (blyt_lockview_encode (s_lock_gen s) i)))
    /\ ram_size mem1 = ram_size mem
    /\ memory_read mem1 vaddr (area s) = (if clear then replicate (Z.to_nat (area s)) 0 else px)
    /\ forall a k, 0 <= k -> a + k <= vaddr \/ vaddr + area s <= a -> memory_read mem1 a k = memory_read mem a k.
Proof.
  intros Hreg Hr Hl Hf Hpx Hram. cbv zeta. unfold acquire_fits in Hf.
  destruct (resolve_surface_inv _ _ _ _ Hr) as (Hs & Hu & Hi & _). pose proof (slot_area _ Hreg i s Hs Hu) as Har.
  pose proof (aligned_bounds (area s)) as Hal. pose proof (r_bump _ Hreg) as [Hb _]. pose proof (active_range _ Hreg) as Hact.
  assert (len px = area s) as Hlen by (destruct (slot_pixels _ Hreg i s Hs Hu) as (b & Hb' & ?); congruence).
  unfold blyt_surface_acquire_lock, BLYT_SURFACE_LOCK_ARENA_BASE, BLYT_GFX_FB_BASE. rewrite Hr, Hl.
  rewrite (slot_bytes_area _ Hreg i s Hs Hu), aligned_land by lia. cbv zeta.
  rewrite (u64_id (_ + aligned _)) by (unfold is_u64; lia). unfold BLYT_SURFACE_LOCK_ARENA_SIZE.
  destruct (Z.gtb_spec (lock_bump (surfaces ctx) + aligned (area s)) 33554432); [lia|].
  rewrite (u32_id (33554432 + _)) by (unfold is_u32; lia). rewrite Hpx. cbn [mbind option_bind].
  rewrite rd_Some, <-Hlen, sub_0_all by lia. rewrite Hlen. cbn [mbind option_bind].
  rewrite (u32_id (_ + aligned _)) by (unfold is_u32; lia).
  rewrite (i32_id (_ + 1)) by (unfold is_i32; lia). rewrite <-Hi.
  destruct clear.
  - destruct (guest_memzero_spec mem (33554432 + lock_bump (surfaces ctx)) (area s)) as (mem1 & -> & Hrs & Hz & Hfr); [lia..|].
    cbn [mbind option_bind]. exists mem1. by split_and!.
  - cbn [mbind option_bind]. eexists. split; [done|]. split; [apply memory_write_size|]. split.
    + pose proof (memory_read_write mem (33554432 + lock_bump (surfaces ctx)) px) as Hw. rewrite Hlen in Hw. apply Hw; lia.
    + intros a k Hk Hd. apply memory_read_other; [done|]. lia.
Qed.
End acquire.

(** ** The effect of the other operations *)

(** What every operation needs of the context: a consistent registry and resource
    table, and an accounting block inside the address space. *)
Definition ctx_ok (ctx : blyt_run_ctx_t) : Prop :=
  reg_ok (surfaces ctx) /\ res_ok (resources ctx) /\ acct_block_ok ctx.

(** What a surface operation may change of the context: the registry, and which unpinned
    resources are resident. *)
Definition surface_step (ctx ctx' : blyt_run_ctx_t) : Prop :=
  exists reg t, ctx' = set_resources t (set_surfaces reg ctx)
    /\ evictions (t_entries (resources ctx)) (t_entries t).

Lemma surface_step_reg reg ctx : surface_step ctx (set_surfaces reg ctx).
Proof. exists reg, (resources ctx). split; [by destruct ctx|apply evictions_refl]. Qed.

Lemma u16_succ_ne g : is_u16 g -> u16 (g + 1) <> g.
Proof.
  intros Hg. unfold is_u16, u16, wrap in *. destruct (Z.eqb_spec g 65535) as [->|]; [done|].
  rewrite Z.mod_small by lia. lia.
Qed.

Lemma resolve_surface_stale reg reg' h i s s' :
  blyt_resolve_surface reg h = Some (i, s) -> zget (slots reg') i = Some s' -> s_gen s' <> s_gen s ->
  blyt_resolve_surface reg' h = None.
Proof.
  intros (_ & _ & Hi & Hg & _)%resolve_surface_inv Hs' Hne.
  destruct (blyt_resolve_surface reg' h) as [[i' s2]|] eqn:E; [|done].
  apply resolve_surface_inv in E as (Hs2 & _ & Hi' & Hg' & _). congruence.
Qed.

Lemma resolve_surface_kept reg reg' h i s s' :
  reg_ok reg -> blyt_resolve_surface reg h = Some (i, s) -> zget (slots reg') i = Some s' ->
  s_gen s' = s_gen s -> s_in_use s' = true -> blyt_resolve_surface reg' h = Some (i, s').
Proof.
  intros Hreg (Hs & _ & Hi & Hg & Hk)%resolve_surface_inv Hs' Hgen Hu.
  apply resolve_surface_Some; try done; [|congruence]. by apply (slot_index reg Hreg i s).
Qed.

Lemma resolve_lockview_unlocked reg t i s :
  zget (slots reg) i = Some s -> blyt_dyn_decode_index t = i -> s_locked s = false -> blyt_resolve_lockview reg t = None.
Proof.
  intros Hs Hi Hl. destruct (blyt_resolve_lockview reg t) as [[j sj]|] eqn:E; [|done].
  apply resolve_lockview_inv in E as (Hj & Hlj & Hij & _). congruence.
Qed.

Section effects.
Context {M : Type} `{GuestMemory M} (env : res_env).

(** Publishing after the registry changed to [reg']. *)
Lemma publish_ok ctx mem reg' :
  ctx_ok ctx -> reg_ok reg' ->
  exists ctx' mem', mem_acct_publish_footprint (set_surfaces reg' ctx) mem = Some (ctx', mem')
    /\ ctx_ok ctx' /\ surfaces ctx' = reg' /\ surface_step ctx ctx'
    /\ same_but_acct ctx mem mem' /\ evictions (t_entries (resources ctx)) (t_entries (resources ctx')).
Proof.
  intros (Hreg & Hres & Ha) Hreg'.
  destruct (publish_spec (set_surfaces reg' ctx) mem) as (t' & m' & -> & Hev & Hres' & _ & _ & Hm).
  { by autorewrite with run_ctx. } { unfold acct_block_ok. by autorewrite with run_ctx. }
  eexists _, m'. split; [done|]. unfold ctx_ok, acct_block_ok, same_but_acct in *.
  autorewrite with run_ctx in *. destruct Ha, Hm. split_and!; try done. by exists reg', t'.
Qed.

Lemma reap_spec ctx (mem : option M) :
  ctx_ok ctx ->
  exists ctx' mem', blyt_surface_reap_all ctx mem = Some (ctx', mem') /\ ctx_ok ctx'
    /\ surface_step ctx ctx'
    /\ (forall i s, zget (slots (surfaces ctx)) i = Some s ->
          exists s', zget (slots (surfaces ctx')) i = Some s' /\ reaped s' /\ moved_on s s'
            /\ s_is_screen s' = s_is_screen s /\ (s_is_screen s = true -> s_gen s' = s_gen s))
    /\ lock_bump (surfaces ctx') = 0 /\ active_locks (surfaces ctx') = 0
    /\ match mem, mem' with Some m, Some m' => same_but_acct ctx m m' | None, None => True | _, _ => False end
    /\ (forall s, zget (slots (surfaces ctx)) 0 = Some s ->
          Some (reg_screen (surfaces ctx')) = if s_locked s then flushed_px (surfaces ctx) s mem else pixels_of (surfaces ctx) s).
Proof.
  intros (Hreg & Hres & Ha). unfold blyt_surface_reap_all.
  destruct (flush_from_spec 64 0 (surfaces ctx) mem Hreg) as (reg1 & -> & Hreg1 & Hall1); [lia..|]. cbn [mbind option_bind].
  assert (forall j s, zget (slots reg1) j = Some s -> s_locked s = false) as Hun.
  { intros j s Hj. pose proof (slot_index reg1 Hreg1 j s Hj). destruct (slot_at (surfaces ctx) Hreg j) as [s0 Hs0]; [done|].
    destruct (Hall1 j s0 Hs0) as (s1 & Hs1 & _ & _ & _ & Hin & _ & _). assert (s = s1) as -> by congruence. apply Hin. lia. }
  destruct (free_from_spec 63 1 reg1 Hreg1 ltac:(lia) ltac:(lia) Hun) as (reg2 & -> & Hreg2 & Hscr & Hact & Hbmp & Hall2).
  cbn [mbind option_bind].
  assert (active_locks reg1 = 0) as Hact1.
  { rewrite (r_active _ Hreg1). clear -Hun. assert (forall s, s ∈ slots reg1 -> s_locked s = false) as Hz.
    { intros s (n & Hn)%list_elem_of_lookup. apply (Hun (Z.of_nat n)). rewrite zget_lookup by lia. by rewrite Nat2Z.id. }
    pose proof (zsum_bound lock1 (slots reg1) 0) as Hzb. destruct Hzb; [|lia].
    intros s Hs. unfold lock1. rewrite (Hz s Hs). lia. }
  rewrite Hact1 in Hact. pose proof (r_idle _ Hreg2 Hact) as Hb0.
  replace (MkReg (slots reg2) (surface_bytes reg2) 0 0 (reg_screen reg2)) with reg2 by (destruct reg2; cbn in *; congruence).
  assert (forall i s, zget (slots (surfaces ctx)) i = Some s ->
          exists s', zget (slots reg2) i = Some s' /\ reaped s' /\ moved_on s s'
            /\ s_is_screen s' = s_is_screen s /\ (s_is_screen s = true -> s_gen s' = s_gen s)) as Hall.
  { intros i s Hs. destruct (Hall1 i s Hs) as (s1 & Hs1 & Hg1 & Hu1 & Hsc1 & Hin1 & _ & _).
    destruct (Hall2 i s1 Hs1) as (s2 & Hs2 & Hl2 & Hlg2 & Hsc2 & Hin2 & Hout2).
    pose proof (slot_index (surfaces ctx) Hreg i s Hs) as Hi. destruct (Hin1 ltac:(lia)) as [_ Hlg1].
    pose proof (r_slots _ Hreg _ _ Hs) as (_ & _ & Hk & _). exists s2. split; [done|].
    destruct (Z.eqb_spec i 0) as [->|Hne].
    - destruct Hk as (_ & Hsc & _). assert (s2 = s1) as -> by (apply Hout2; lia). repeat split.
      + done.
      + left. congruence.
      + intros ?. congruence.
      + intros Hl. by rewrite (Hlg1 Hl).
      + congruence.
      + intros _. congruence.
    - destruct Hk as [Hsc _]. destruct (Hin2 ltac:(lia)) as [Hu2 Hg2]. repeat split.
      + done.
      + by right.
      + intros _ Hu. rewrite Hg2 by congruence. congruence.
      + intros Hl. rewrite Hlg2. by apply Hlg1.
      + congruence.
      + congruence. }
  assert (forall s, zget (slots (surfaces ctx)) 0 = Some s ->
            Some (reg_screen reg2) = if s_locked s then flushed_px (surfaces ctx) s mem else pixels_of (surfaces ctx) s) as Hscreen.
  { intros s Hs. destruct (Hall1 0 s Hs) as (s1 & Hs1 & _ & _ & _ & _ & _ & Hpx). rewrite bool_decide_true in Hpx by lia. cbn [andb] in Hpx.
    rewrite <-Hpx, Hscr. pose proof (r_slots _ Hreg1 _ _ Hs1) as (_ & _ & Hk & _). cbn in Hk. unfold pixels_of. by destruct Hk as (_ & _ & _ & -> & _). }
  destruct mem as [m|]; cbn [mbind option_bind].
  - destruct (publish_ok ctx m reg2 (conj Hreg (conj Hres Ha)) Hreg2) as (ctx' & m' & -> & Hctx' & Hsurf & Hst & Hm & _).
    cbn [mbind option_bind fst snd]. exists ctx', (Some m'). rewrite Hsurf. by split_and!.
  - eexists _, None. split; [done|]. unfold ctx_ok, acct_block_ok in *. autorewrite with run_ctx. destruct Ha.
    split_and!; try done. apply surface_step_reg.
Qed.

(** Why a creation is refused. *)
Definition create_refused (ctx : blyt_run_ctx_t) (mem : M) (w h : Z) : Prop :=
  ~ 1 <= w <= 8192 \/ ~ 1 <= h <= 8192
  \/ blyt_mem_alloc_fits (mem_acct_guest_heap_used ctx mem) (ctx_non_evictable_footprint ctx) (w * h) = false
  \/ (forall i s, zget (slots (surfaces ctx)) i = Some s -> s_in_use s = true)
  \/ malloc_ok env (w * h) = false.

Lemma create_spec ctx mem w h :
  ctx_ok ctx ->
  (blyt_surface_create_slot env ctx mem w h = Some (BLYT_HANDLE_NONE, ctx, mem) /\ create_refused ctx mem w h)
  \/ exists i s ctx' mem',
       blyt_surface_create_slot env ctx mem w h = Some (blyt_surface_encode (s_gen s) i, ctx', mem')
       /\ ~ create_refused ctx mem w h /\ 0 < i < 64
       /\ zget (slots (surfaces ctx)) i = Some s /\ s_in_use s = false
       /\ ctx_ok ctx' /\ zget (slots (surfaces ctx')) i = Some (created w h s)
       /\ others_kept (surfaces ctx) (surfaces ctx') i
       /\ surface_bytes (surfaces ctx') = surface_bytes (surfaces ctx) + w * h
       /\ surface_step ctx ctx' /\ same_but_acct ctx mem mem'.
Proof.
  intros Hctx. pose proof Hctx as (Hreg & _). unfold blyt_surface_create_slot, create_refused, BLYT_SURFACE_MAX_DIM.
  destruct ((w <=? 0) || _ || _ || _) eqn:Ed; [left; split; [done|lia]|].
  assert (1 <= w <= 8192 /\ 1 <= h <= 8192) as [Hw Hh] by lia.
  rewrite (u32_id w), (u32_id h) by (unfold is_u32; lia). rewrite (u32_id (w * h)) by (unfold is_u32; nia).
  destruct (blyt_mem_alloc_fits _ _ (w * h)) eqn:Ef; cbn [negb]; [|left; split; [done|tauto]].
  destruct (free_index_spec 63 1 (surfaces ctx) Hreg) as (i & -> & Hi); [lia..|]. cbn [mbind option_bind].
  destruct Hi as [[-> Hall]|(Hi & s & Hs & Hu)].
  { left. split; [done|]. right. right. right. left. intros j sj Hj. pose proof (slot_index _ Hreg _ _ Hj).
    destruct (Z.eqb_spec j 0) as [->|]; [|by apply (Hall j); [lia|]].
    pose proof (r_slots _ Hreg _ _ Hj) as (_ & _ & Hk & _). apply Hk. }
  destruct (Z.eqb_spec i 0); [lia|]. destruct (malloc_ok env (w * h)) eqn:Em; cbn [negb]; [|left; split; [done|tauto]].
  right. rewrite Hs. cbn [mbind option_bind].
  assert (surface_bytes (surfaces ctx) + w * h < 2 ^ 32) as Hb.
  { destruct (create_reg_ok (surfaces ctx) i s w h Hreg Hs Hu Hw Hh) as (Hr & _).
    pose proof (surface_bytes_range _ Hr) as Hb. cbn in Hb. lia. }
  pose proof (surface_bytes_range _ Hreg). rewrite (u32_id (_ + w * h)) by (unfold is_u32; nia).
  destruct (create_reg_ok (surfaces ctx) i s w h Hreg Hs Hu Hw Hh) as (Hr & Hsi & Ho & _). cbv zeta in *.
  destruct (publish_ok ctx mem _ Hctx Hr) as (ctx' & mem' & Hp & Hctx' & Hsurf & Hva & Hm & _).
  unfold created in Hp. rewrite Hp. cbn [mbind option_bind fst snd]. exists i, s, ctx', mem'. rewrite Hsurf. split_and!; try done; try lia.
  intros [?|[?|[?|[Hall|?]]]]; [lia|lia|congruence| |congruence]. rewrite (Hall i s Hs) in Hu. done.
Qed.

Lemma destroy_spec ctx mem hd i s :
  ctx_ok ctx -> blyt_resolve_surface (surfaces ctx) hd = Some (i, s) ->
  s_locked s = false -> s_is_screen s = false ->
  exists ctx' mem', blyt_session_surface_destroy ctx mem hd = Some (ctx', mem')
    /\ ctx_ok ctx' /\ zget (slots (surfaces ctx')) i = Some (freed s)
    /\ others_kept (surfaces ctx) (surfaces ctx') i
    /\ surface_bytes (surfaces ctx') = surface_bytes (surfaces ctx) - area s
    /\ surface_step ctx ctx' /\ same_but_acct ctx mem mem'.
Proof.
  intros Hctx Hr Hl Hsc. pose proof Hctx as (Hreg & _). destruct (resolve_surface_inv _ _ _ _ Hr) as (Hs & Hu & _).
  unfold blyt_session_surface_destroy. rewrite Hr, Hl, Hsc. cbn [negb].
  destruct (free_spec (surfaces ctx) i s Hreg Hs Hu Hsc Hl) as (reg' & -> & Hreg' & Hs' & Ho & Hb & _).
  cbn [mbind option_bind]. destruct (publish_ok ctx mem reg' Hctx Hreg') as (ctx' & mem' & -> & Hctx' & Hsurf & Hva & Hm & _).
  exists ctx', mem'. rewrite Hsurf. by split_and!.
Qed.

Lemma release_spec ctx mem token i s :
  ctx_ok ctx -> blyt_resolve_lockview (surfaces ctx) token = Some (i, s) ->
  exists ctx' px s', blyt_surface_release_lock ctx mem token = Some (Some s', ctx')
    /\ ctx_ok ctx' /\ flushed_px (surfaces ctx) s (Some mem) = Some px /\ s' = unlock (repaint px s)
    /\ zget (slots (surfaces ctx')) i = Some s' /\ pixels_of (surfaces ctx') s' = Some px
    /\ others_kept (surfaces ctx) (surfaces ctx') i
    /\ surface_bytes (surfaces ctx') = surface_bytes (surfaces ctx)
    /\ active_locks (surfaces ctx') = active_locks (surfaces ctx) - 1
    /\ lock_bump (surfaces ctx') = (if active_locks (surfaces ctx) - 1 =? 0 then 0 else lock_bump (surfaces ctx))
    /\ surface_step ctx ctx'.
Proof.
  intros (Hreg & Hres & Ha) Hr. destruct (resolve_lockview_inv _ _ _ _ Hr) as (Hs & Hl & _).
  unfold blyt_surface_release_lock. rewrite Hr.
  destruct (flush_spec (surfaces ctx) i s (Some mem) Hreg Hs Hl) as (reg' & px & s' & Hf & Hreg' & Hpx & -> & Hs' & Hp' & Ho & Hb & Hact & _).
  assert (lock_bump reg' = if active_locks (surfaces ctx) - 1 =? 0 then 0 else lock_bump (surfaces ctx)) as Hbmp.
  { destruct (flushed_px_len (surfaces ctx) i s (Some mem) Hreg Hs Hl) as (px' & Hpx' & Hlen).
    rewrite (flush_unfold _ _ _ _ px' Hreg Hs Hl Hpx' Hlen) in Hf. by injection Hf as <-. }
  rewrite Hf. cbn [mbind option_bind]. rewrite Hs'. cbn [mbind option_bind].
  eexists _, px, _. split; [done|]. unfold ctx_ok, acct_block_ok in *. autorewrite with run_ctx. destruct Ha.
  split_and!; try done. apply surface_step_reg.
Qed.

Lemma acquire_ctx_ok ctx s i (clear : bool) vaddr :
  ctx_ok ctx -> zget (slots (surfaces ctx)) i = Some s -> s_in_use s = true -> s_locked s = false ->
  acquire_fits (surfaces ctx) s -> vaddr = 0x02000000 + lock_bump (surfaces ctx) ->
  let reg := surfaces ctx in
  let reg' := MkReg (<[Z.to_nat i := locked_slot s clear vaddr]> (slots reg)) (surface_bytes reg)
                (lock_bump reg + aligned (area s)) (active_locks reg + 1) (reg_screen reg) in
  ctx_ok (set_surfaces reg' ctx) /\ zget (slots reg') i = Some (locked_slot s clear vaddr) /\ others_kept reg reg' i.
Proof.
  intros (Hreg & Hres & Ha) Hs Hu Hl Hf ->. cbv zeta.
  destruct (lock_reg_ok (surfaces ctx) i s clear Hreg Hs Hu Hl Hf) as (Hr & Hsi & Ho). cbv zeta in *.
  unfold ctx_ok, acct_block_ok in *. autorewrite with run_ctx. destruct Ha. by split_and!.
Qed.
End effects.

(** ** Properties *)

Section properties.
Context {M : Type} `{GuestMemory M} (env : res_env).

(** C36: Reaping leaves nothing behind.  From any consistent context, with or without a
    guest memory, the frame-boundary reap succeeds and keeps the context consistent.
    Afterwards no slot is locked, only the screen is in use, no surface byte is charged
    and the lock arena is empty.  The lock of the screen is flushed: if the screen was locked through guest memory (neither a
    phantom nor a direct lock) it shows the bytes the guest left there, else it is unchanged; the pixels of the other surfaces go
    with them.  A handle resolves after the reap exactly when it was
    the screen's; no lock token resolves; and the generation of every surface and lock
    that was alive has moved on, so its handle or token is stale for good reason.  In guest
    memory only the accounting block changes. *)
Theorem surface_reap_exact (ctx : blyt_run_ctx_t) (mem : option M) :
  ctx_ok ctx ->
  exists ctx' mem', blyt_surface_reap_all ctx mem = Some (ctx', mem') /\ ctx_ok ctx'
    /\ (forall i s, zget (slots (surfaces ctx')) i = Some s -> s_locked s = false /\ (s_in_use s = true <-> i = 0))
    /\ surface_bytes (surfaces ctx') = 0 /\ lock_bump (surfaces ctx') = 0 /\ active_locks (surfaces ctx') = 0
    /\ (forall hd i s, blyt_resolve_surface (surfaces ctx) hd = Some (i, s) ->
          (blyt_resolve_surface (surfaces ctx') hd <> None <-> i = 0))
    /\ (forall token, blyt_resolve_lockview (surfaces ctx') token = None)
    /\ (forall i s, zget (slots (surfaces ctx)) i = Some s ->
          exists s', zget (slots (surfaces ctx')) i = Some s' /\ moved_on s s')
    /\ match mem, mem' with Some m, Some m' => same_but_acct ctx m m' | None, None => True | _, _ => False end
    /\ (forall s, zget (slots (surfaces ctx)) 0 = Some s ->
          reg_screen (surfaces ctx') =
            match mem with
            | Some m => if s_locked s && negb (s_lock_phantom s) && negb (s_lock_direct s) then memory_read m (s_lock_vaddr s) (s_lock_len s)
                        else reg_screen (surfaces ctx)
            | None => reg_screen (surfaces ctx)
            end).
Proof.
  intros Hctx. pose proof Hctx as (Hreg & _).
  destruct (reap_spec ctx mem Hctx) as (ctx' & mem' & Hr & Hctx' & _ & Hall & Hb & Ha & Hm & Hscreen).
  pose proof Hctx' as (Hreg' & _). exists ctx', mem'.
  assert (forall i s, zget (slots (surfaces ctx')) i = Some s -> s_locked s = false /\ (s_in_use s = true <-> i = 0)) as Hafter.
  { intros i s' Hs'. pose proof (slot_index _ Hreg' _ _ Hs') as Hi. destruct (slot_at _ Hreg i Hi) as [s Hs].
    destruct (Hall i s Hs) as (s2 & Hs2 & [Hl Hd] & _). assert (s2 = s') as -> by congruence. split; [done|].
    pose proof (r_slots _ Hreg' _ _ Hs') as (_ & _ & Hk & _). destruct (Z.eqb_spec i 0) as [->|Hne].
    - split; [done|]. intros _. apply Hk.
    - destruct Hk as [Hk _]. split; [|done]. intros Hu. destruct Hd; congruence. }
  split_and!; try done.
  - rewrite (r_bytes _ Hreg'). assert (forall s, s ∈ slots (surfaces ctx') -> off_bytes s = 0) as Hz.
    { intros s (n & Hn)%list_elem_of_lookup. assert (zget (slots (surfaces ctx')) (Z.of_nat n) = Some s) as Hs.
      { rewrite zget_lookup by lia. by rewrite Nat2Z.id. }
      pose proof (r_slots _ Hreg' _ _ Hs) as (_ & _ & Hk & _). destruct (Hafter _ _ Hs) as [_ Hu]. unfold off_bytes.
      destruct (Z.eqb_spec (Z.of_nat n) 0); [destruct Hk as (_ & -> & _); by rewrite andb_false_r|].
      destruct (s_in_use s); [tauto|done]. }
    pose proof (zsum_bound off_bytes (slots (surfaces ctx')) 0) as Hzb. destruct Hzb; [|lia]. intros s Hs. rewrite (Hz s Hs). lia.
  - intros hd i s Hres. destruct (resolve_surface_inv _ _ _ _ Hres) as (Hs & Hu & _).
    destruct (Hall i s Hs) as (s' & Hs' & [_ Hd] & [Hmg _] & Hsc & Hg). destruct (Hafter i s' Hs') as [_ Hu'].
    pose proof (r_slots _ Hreg _ _ Hs) as (Hg16 & _ & Hk & _). split.
    + intros Hne. destruct (Z.eqb_spec i 0) as [|Hi0]; [done|]. destruct Hk as [Hk _]. exfalso. apply Hne.
      apply (resolve_surface_stale _ _ _ _ _ _ Hres Hs'). rewrite Hmg by done. by apply u16_succ_ne.
    + intros ->. cbn in Hk. destruct Hk as (_ & Hk & _).
      rewrite (resolve_surface_kept _ _ _ _ _ s' Hreg Hres Hs'); [done|by apply Hg|by apply Hu'].
  - intros token. destruct (blyt_resolve_lockview _ token) as [[i s]|] eqn:E; [|done].
    apply resolve_lockview_inv in E as (Hs & Hl & _). destruct (Hafter i s Hs). congruence.
  - intros i s Hs. destruct (Hall i s Hs) as (s' & ? & _ & ? & _). by exists s'.
  - intros s Hs. specialize (Hscreen s Hs). pose proof (r_slots _ Hreg _ _ Hs) as (_ & _ & Hk & _). cbn in Hk.
    assert (pixels_of (surfaces ctx) s = Some (reg_screen (surfaces ctx))) as Hp by (unfold pixels_of; by destruct Hk as (_ & _ & _ & -> & _)).
    unfold flushed_px in Hscreen. rewrite Hp in Hscreen. destruct (s_locked s), mem; cbn [andb] in *; try congruence. case_match; congruence.
Qed.

(** Creation is refused or gives a blank surface of its own.  From a consistent context
    and for any requested size, a refusal (a side outside 1..8192, no room in the
    unified budget, no free slot, or no host memory) returns no handle and changes neither
    the context nor the guest memory.  Otherwise the new handle resolves to a slot that was
    free, of the requested size, unlocked and all zero; the surface is charged for its area;
    every other surface keeps its slot and its pixels; and every older handle resolves as
    before. *)
Theorem surface_create_fresh (ctx : blyt_run_ctx_t) (mem : M) (w h : Z) :
  ctx_ok ctx ->
  (create_refused env ctx mem w h /\ blyt_surface_create_slot env ctx mem w h = Some (BLYT_HANDLE_NONE, ctx, mem))
  \/ exists i s' hd ctx' mem',
       ~ create_refused env ctx mem w h
       /\ blyt_surface_create_slot env ctx mem w h = Some (hd, ctx', mem') /\ ctx_ok ctx'
       /\ hd <> BLYT_HANDLE_NONE
       /\ blyt_resolve_surface (surfaces ctx) hd = None
       /\ blyt_resolve_surface (surfaces ctx') hd = Some (i, s')
       /\ s_w s' = w /\ s_h s' = h /\ s_locked s' = false
       /\ pixels_of (surfaces ctx') s' = Some (replicate (Z.to_nat (w * h)) 0)
       /\ surface_bytes (surfaces ctx') = surface_bytes (surfaces ctx) + w * h
       /\ others_kept (surfaces ctx) (surfaces ctx') i
       /\ (forall old j sj, blyt_resolve_surface (surfaces ctx) old = Some (j, sj) ->
             blyt_resolve_surface (surfaces ctx') old = Some (j, sj)).
Proof.
  intros Hctx. pose proof Hctx as (Hreg & _).
  destruct (create_spec env ctx mem w h Hctx) as [[Hc Hr]|(i & s & ctx' & mem' & Hc & Hr & Hi & Hs & Hu & Hctx' & Hs' & Ho & Hb & _)];
    [by left|right].
  pose proof Hctx' as (Hreg' & _). pose proof (r_slots _ Hreg _ _ Hs) as (Hg & _ & Hk & _).
  rewrite (proj2 (Z.eqb_neq i 0)), Hu in Hk by lia. destruct Hk as (_ & _ & _ & Hl).
  destruct (surface_decode (s_gen s) i Hg) as (Hkind & Hgen & Hidx); [lia|].
  exists i, (created w h s), (blyt_surface_encode (s_gen s) i), ctx', mem'. split_and!; try done.
  - intros E. rewrite E in Hkind. done.
  - destruct (blyt_resolve_surface (surfaces ctx) _) as [[j sj]|] eqn:E; [|done].
    apply resolve_surface_inv in E as (Hj & Huj & Hij & _). rewrite Hidx in Hij. congruence.
  - apply resolve_surface_Some; try done; [lia|]. rewrite Hgen. by apply u16_id.
  - intros old j sj Hold. destruct (resolve_surface_inv _ _ _ _ Hold) as (Hj & Huj & _).
    destruct (Ho j sj) as [Hj' _]; [congruence|done|]. by apply (resolve_surface_kept _ _ _ _ _ sj Hreg Hold Hj').
Qed.

(** C35: A tier-2 lock is exclusive and carries the pixels both ways.  Acquiring an unlocked
    surface whose rounded size fits the arena gives the guest a [blyt_lock_t] (written at
    [out], which must lie in RAM outside the region) and a region that overlaps no other
    live lock's, holding the surface's pixels, or zeros for a clear-only lock.  Until it
    is released a second acquire is refused and writes a zeroed struct.  Whatever the guest
    memory holds at the release, the surface then has the region's bytes, or its old pixels
    for a clear-only lock; the token is stale, the handle still resolves, and the other
    surfaces are untouched. *)
Theorem surface_lock_roundtrip (ctx : blyt_run_ctx_t) (mem : M) (hd out : Z) (clear : bool) i s px :
  ctx_ok ctx -> blyt_resolve_surface (surfaces ctx) hd = Some (i, s) -> s_locked s = false ->
  acquire_fits (surfaces ctx) s -> pixels_of (surfaces ctx) s = Some px ->
  0x04000000 <= ram_size mem -> 0 <= out -> out + 20 <= ram_size mem ->
  let vaddr := 0x02000000 + lock_bump (surfaces ctx) in
  let token := blyt_lockview_encode (s_lock_gen s) i in
  out + 20 <= vaddr \/ vaddr + area s <= out ->
  exists ctx1 mem1, blyt_surface_acquire_lock ctx mem hd out clear = Some (1, ctx1, mem1) /\ ctx_ok ctx1
    /\ memory_read mem1 vaddr (area s) = (if clear then replicate (Z.to_nat (area s)) 0 else px)
    /\ memory_read mem1 out 20 = lock_bytes s vaddr token
    /\ (forall j sj, j <> i -> zget (slots (surfaces ctx)) j = Some sj -> guest_locked sj = true ->
          s_lock_vaddr sj + area sj <= vaddr \/ vaddr + area s <= s_lock_vaddr sj)
    /\ (forall mem' out' clear', blyt_surface_acquire_lock ctx1 mem' hd out' clear'
          = Some (0, ctx1, memory_write mem' out' (replicate 20 0)))
    /\ forall mem2, exists s2 ctx2, blyt_surface_release_lock ctx1 mem2 token = Some (Some s2, ctx2) /\ ctx_ok ctx2
         /\ blyt_resolve_surface (surfaces ctx2) hd = Some (i, s2) /\ s_locked s2 = false
         /\ pixels_of (surfaces ctx2) s2
            = Some (if clear then px else memory_read mem2 vaddr (area s))
         /\ blyt_resolve_lockview (surfaces ctx2) token = None
         /\ active_locks (surfaces ctx2) = active_locks (surfaces ctx)
         /\ others_kept (surfaces ctx) (surfaces ctx2) i.
Proof.
  intros Hctx Hr Hl Hf Hpx Hram Hout0 Hout vaddr token Hdis. pose proof Hctx as (Hreg & _).
  destruct (resolve_surface_inv _ _ _ _ Hr) as (Hs & Hu & Hi & Hgen & Hkind).
  pose proof (slot_area _ Hreg i s Hs Hu) as Har. pose proof (r_bump _ Hreg) as [Hbump _]. pose proof (slot_index _ Hreg _ _ Hs) as Hi64.
  pose proof (r_slots _ Hreg _ _ Hs) as (_ & Hlg & _ & Hdir). rewrite Hl in Hdir. destruct Hdir as [_ Hdir].
  destruct (acquire_spec ctx mem hd out clear i s px Hreg Hr Hl Hf Hpx Hram) as (mem1 & Hacq & Hrs & Hreg1 & Hfr). cbv zeta in Hacq, Hreg1, Hfr.
  destruct (acquire_ctx_ok ctx s i clear vaddr Hctx Hs Hu Hl Hf eq_refl) as (Hctx1 & Hs1 & Ho1). cbv zeta in Hctx1, Hs1, Ho1.
  fold vaddr token in Hacq. fold vaddr in Hreg1, Hfr. set (reg1 := MkReg (<[_ := _]> _) _ _ _ _) in *.
  assert (len (lock_bytes s vaddr token) = 20) as Hlb by done.
  eexists _, _. split; [exact Hacq|]. split; [done|].
  pose proof (aligned_bounds (area s)) as Hal. split_and!.
  - rewrite memory_read_other; [exact Hreg1|lia|]. rewrite Hlb. lia.
  - rewrite <-Hlb. apply memory_read_write; rewrite ?Hlb; lia.
  - intros j sj Hne Hj Hgl. pose proof (r_slots _ Hreg _ _ Hj) as (_ & _ & _ & Hlk). unfold guest_locked in Hgl.
    destruct (s_locked sj); [|done]. cbn in Hgl. destruct (s_lock_direct sj); [done|]. destruct Hlk as (_ & _ & Hle); [done|].
    pose proof (aligned_bounds (area sj)). left. unfold vaddr. lia.
  - intros mem' out' clear'. apply (acquire_fail _ _ _ _ _ i (locked_slot s clear vaddr)); [apply Hctx1| |by left].
    autorewrite with run_ctx. by apply (resolve_surface_kept _ _ _ _ _ (locked_slot s clear vaddr) Hreg Hr).
  - intros mem2. destruct (lockview_decode (s_lock_gen s) i Hlg) as (Hk & Hg & Hx); [lia|]. fold token in Hk, Hg, Hx.
    destruct (release_spec (set_surfaces reg1 ctx) mem2 token i (locked_slot s clear vaddr) Hctx1)
      as (ctx2 & px2 & s2 & Hrel & Hctx2 & Hpx2 & -> & Hs2 & Hp2 & Ho2 & _ & Hact & _).
    { autorewrite with run_ctx. apply resolve_lockview_Some; try done; [lia|]. rewrite Hg. by apply u16_id. }
    autorewrite with run_ctx in *. set (s2 := unlock _) in *.
    assert (s_gen s2 = s_gen s /\ s_in_use s2 = true /\ s_locked s2 = false) as (Hg2 & Hu2 & Hl2).
    { unfold s2, unlock, repaint. cbn. by destruct (s_pixels s) as [[|]|]. }
    exists s2, ctx2. split_and!; try done.
    + by apply (resolve_surface_kept _ _ _ _ _ s2 Hreg Hr).
    + rewrite Hp2. unfold flushed_px in Hpx2. cbn in Hpx2. rewrite Hdir in Hpx2.
      destruct clear; cbn in Hpx2; [|congruence]. rewrite <-Hpx2, <-Hpx.
      destruct (s_pixels s) as [[|b]|] eqn:Ep; unfold pixels_of; cbn; by rewrite Ep.
    + by apply (resolve_lockview_unlocked _ _ i s2).
    + rewrite Hact. cbn. lia.
    + intros j sj Hne Hj. destruct (Ho1 j sj Hne Hj) as [Hj1 Hp1]. destruct (Ho2 j sj Hne Hj1) as [Hj2 Hpj2]. split; [done|congruence].
Qed.

(** [n] times: acquire a clear-only lock on [hd] and release it; [None] when an acquire
    is refused. *)
Fixpoint lock_cycles (n : nat) (ctx : blyt_run_ctx_t) (mem : M) (hd out : Z) : option (blyt_run_ctx_t * M) :=
  match n with
  | O => Some (ctx, mem)
  | S n =>
      '(ok, ctx1, mem1) ← blyt_surface_acquire_lock ctx mem hd out true;
      if ok =? 0 then None
      else
        '(_, ctx2) ← blyt_surface_release_lock ctx1 mem1 (read_u32_le (memory_read mem1 (out + 16) 4));
        lock_cycles n ctx2 mem1 hd out
  end.

Lemma read_token mem out s vaddr token :
  is_u32 token -> 0 <= out -> out + 20 <= ram_size mem ->
  read_u32_le (memory_read (memory_write mem out (lock_bytes s vaddr token)) (out + 16) 4) = token.
Proof.
  intros Ht Ho Hr. assert (len (lock_bytes s vaddr token) = 20) as Hl by done.
  rewrite <-(memory_read_sub _ out 20 16 4) by lia. rewrite <-Hl, memory_read_write by (rewrite ?Hl; lia).
  change (sub (lock_bytes s vaddr token) 16 4) with (write_u32_le token). by apply read_write_u32_le.
Qed.

(** One cycle: the arena is recycled only when no other lock is held. *)
Lemma lock_cycle_step ctx mem hd out i s n :
  ctx_ok ctx -> blyt_resolve_surface (surfaces ctx) hd = Some (i, s) -> s_locked s = false ->
  0x04000000 <= ram_size mem -> 0 <= out -> out + 20 <= ram_size mem ->
  let reg := surfaces ctx in
  (~ acquire_fits reg s -> lock_cycles (S n) ctx mem hd out = None)
  /\ (acquire_fits reg s -> exists ctx' mem' s',
        lock_cycles (S n) ctx mem hd out = lock_cycles n ctx' mem' hd out /\ ctx_ok ctx'
        /\ ram_size mem' = ram_size mem
        /\ blyt_resolve_surface (surfaces ctx') hd = Some (i, s') /\ s_locked s' = false /\ area s' = area s
        /\ active_locks (surfaces ctx') = active_locks reg
        /\ lock_bump (surfaces ctx') = if active_locks reg =? 0 then 0 else lock_bump reg + aligned (area s)).
Proof.
  intros Hctx Hr Hl Hram Ho Hout. cbv zeta. pose proof Hctx as (Hreg & _). cbn [lock_cycles]. split.
  { intros Hf. rewrite (acquire_fail _ _ _ _ _ i s) by auto. done. }
  intros Hf. destruct (resolve_surface_inv _ _ _ _ Hr) as (Hs & Hu & Hi & _). pose proof (slot_index _ Hreg _ _ Hs) as Hi64.
  destruct (slot_pixels _ Hreg i s Hs Hu) as (px & Hpx & _).
  pose proof (r_slots _ Hreg _ _ Hs) as (_ & Hlg & _).
  destruct (acquire_spec ctx mem hd out true i s px Hreg Hr Hl Hf Hpx Hram) as (mem1 & Hacq & Hrs & _). cbv zeta in Hacq.
  destruct (acquire_ctx_ok ctx s i true _ Hctx Hs Hu Hl Hf eq_refl) as (Hctx1 & Hs1 & _). cbv zeta in Hctx1, Hs1.
  rewrite Hacq. cbn [mbind option_bind]. change (1 =? 0) with false. cbv iota.
  destruct (lockview_decode (s_lock_gen s) i Hlg) as (Hk & Hg & Hx); [lia|].
  rewrite read_token; [|apply dyn_decode; unfold BLYT_HANDLE_KIND_LOCKVIEW; lia|lia|lia].
  set (token := blyt_lockview_encode _ i) in *. set (reg1 := MkReg (<[_ := _]> _) _ _ _ _) in *.
  set (mem2 := memory_write mem1 out _).
  destruct (release_spec (set_surfaces reg1 ctx) mem2 token i (locked_slot s true (0x02000000 + lock_bump (surfaces ctx))) Hctx1)
    as (ctx2 & px2 & s2 & -> & Hctx2 & _ & Hs2 & Hsi2 & _ & _ & _ & Hact & Hbmp & _).
  { autorewrite with run_ctx. apply resolve_lockview_Some; [lia|exact Hs1|done|done|done|]. rewrite Hg. by apply u16_id. }
  autorewrite with run_ctx in *. cbn [mbind option_bind].
  assert (s_gen s2 = s_gen s /\ s_in_use s2 = true /\ s_locked s2 = false /\ area s2 = area s) as (Hg2 & Hu2 & Hl2 & Ha2).
  { rewrite Hs2. unfold unlock, repaint, area. cbn. by destruct (s_pixels s) as [[|]|]. }
  exists ctx2, mem2, s2. cbn in Hact, Hbmp. split_and!; try done.
  - unfold mem2. rewrite memory_write_size. done.
  - by apply (resolve_surface_kept _ _ _ _ _ s2 Hreg Hr).
  - lia.
  - rewrite Hbmp. replace (active_locks (surfaces ctx) + 1 - 1) with (active_locks (surfaces ctx)) by lia. done.
Qed.

(** The lock arena is recycled only at a quiescent point.  Take an unlocked surface whose
    region fits an empty arena.  While no other lock is held, it can be locked and
    released any number of times.  While another lock is held, each cycle consumes its
    rounded size for good: exactly the first [(32 MiB - bump) / size] cycles succeed and
    the next acquire is refused, although one lock is live and 16 MiB at most are in use. *)
Theorem surface_lock_arena_recycling (ctx : blyt_run_ctx_t) (mem : M) (hd out : Z) i s (n : nat) :
  ctx_ok ctx -> blyt_resolve_surface (surfaces ctx) hd = Some (i, s) -> s_locked s = false ->
  0x04000000 <= ram_size mem -> 0 <= out -> out + 20 <= ram_size mem -> area s <= 0x02000000 ->
  let room := (0x02000000 - lock_bump (surfaces ctx)) / aligned (area s) in
  (lock_cycles n ctx mem hd out <> None)
  <-> (active_locks (surfaces ctx) = 0 \/ Z.of_nat n <= room).
Proof.
  intros Hctx Hr Hl Hram Ho Hout Hsz. cbv zeta.
  revert ctx mem s Hctx Hr Hl Hram Hout Hsz. induction n as [|n IH]; intros ctx mem s Hctx Hr Hl Hram Hout Hsz;
    pose proof Hctx as (Hreg & _); destruct (resolve_surface_inv _ _ _ _ Hr) as (Hs & Hu & _);
    pose proof (slot_area _ Hreg i s Hs Hu) as Har; pose proof (aligned_bounds (area s)) as Hal;
    pose proof (r_bump _ Hreg) as [Hb _].
  { cbn. split; [|done]. intros _. right. apply Z.div_pos; lia. }
  destruct (lock_cycle_step ctx mem hd out i s n Hctx Hr Hl Hram Ho Hout) as [Hno Hyes].
  unfold acquire_fits in *. destruct (Z.le_gt_cases (lock_bump (surfaces ctx) + aligned (area s)) 0x02000000) as [Hf|Hf].
  2:{ rewrite Hno by lia. split; [done|]. intros [Ha|Hroom]; exfalso.
      - rewrite (r_idle _ Hreg Ha) in Hf. unfold aligned in Hf. Z.div_mod_to_equations. lia.
      - rewrite Z.div_small in Hroom by lia. lia. }
  destruct (Hyes Hf) as (ctx' & mem' & s' & -> & Hctx' & Hrs & Hr' & Hl' & Ha' & Hact & Hbmp).
  rewrite (IH ctx' mem' s' Hctx' Hr' Hl') by lia. rewrite Ha', Hact, Hbmp.
  destruct (Z.eqb_spec (active_locks (surfaces ctx)) 0) as [E|E]; [tauto|].
  replace (0x02000000 - lock_bump (surfaces ctx)) with (0x02000000 - (lock_bump (surfaces ctx) + aligned (area s)) + 1 * aligned (area s)) by lia.
  rewrite Z.div_add by lia. split; (intros [?|?]; [done|right; lia]).
Qed.

(** Destroying a surface revokes it.  The host-side destroy of an unlocked off-screen
    surface frees its slot and gives its area back to the budget; its handle is
    stale, and the other surfaces are untouched.  A locked surface, the screen and a handle
    that does not resolve are left alone. *)
Theorem surface_destroy_exact (ctx : blyt_run_ctx_t) (mem : M) (hd : Z) :
  ctx_ok ctx ->
  match blyt_resolve_surface (surfaces ctx) hd with
  | Some (i, s) =>
      if s_locked s || s_is_screen s then blyt_session_surface_destroy ctx mem hd = Some (ctx, mem)
      else exists ctx' mem', blyt_session_surface_destroy ctx mem hd = Some (ctx', mem') /\ ctx_ok ctx'
        /\ blyt_resolve_surface (surfaces ctx') hd = None
        /\ surface_bytes (surfaces ctx') = surface_bytes (surfaces ctx) - s_w s * s_h s
        /\ others_kept (surfaces ctx) (surfaces ctx') i
        /\ blyt_session_surface_destroy ctx' mem' hd = Some (ctx', mem')
  | None => blyt_session_surface_destroy ctx mem hd = Some (ctx, mem)
  end.
Proof.
  intros Hctx. pose proof Hctx as (Hreg & _). destruct (blyt_resolve_surface (surfaces ctx) hd) as [[i s]|] eqn:Hr.
  2:{ unfold blyt_session_surface_destroy. by rewrite Hr. }
  destruct (s_locked s) eqn:Hl; cbn [orb]. { unfold blyt_session_surface_destroy. by rewrite Hr, Hl. }
  destruct (s_is_screen s) eqn:Hsc. { unfold blyt_session_surface_destroy. by rewrite Hr, Hl, Hsc. }
  destruct (destroy_spec ctx mem hd i s Hctx Hr Hl Hsc) as (ctx' & mem' & Hd & Hctx' & Hs' & Ho & Hb & _).
  assert (blyt_resolve_surface (surfaces ctx') hd = None) as Hstale.
  { apply (resolve_surface_stale _ _ _ _ _ _ Hr Hs'). apply u16_succ_ne.
    destruct (resolve_surface_inv _ _ _ _ Hr) as (Hs & _). apply (r_slots _ Hreg _ _ Hs). }
  exists ctx', mem'. split_and!; try done. unfold blyt_session_surface_destroy. by rewrite Hstale.
Qed.
End properties.

(** ** The initial context, and witnesses on it *)

Lemma initial_slot_ok i s : zget (screen_slot :: replicate 63 empty_slot) i = Some s -> slot_ok 0 i s.
Proof.
  intros (Hi & Hs)%zget_Some. destruct (Z.eqb_spec i 0) as [->|Hne].
  - cbn in Hs. injection Hs as <-. split; [done|]. split; [done|]. by split.
  - replace (Z.to_nat i) with (S (Z.to_nat (i - 1))) in Hs by lia. cbn [lookup list_lookup] in Hs.
    apply lookup_replicate in Hs as [-> _]. split; [done|]. split; [done|]. rewrite (proj2 (Z.eqb_neq i 0) Hne). by split.
Qed.

Lemma initial_registry_ok screen : len screen = 76800 -> reg_ok (initial_registry screen).
Proof.
  intros Hlen. split; try done.
  - apply initial_slot_ok.
  - intros i j s s' Hs _ _ Hg. pose proof (initial_slot_ok i s Hs) as (_ & _ & _ & Hl).
    apply zget_Some in Hs as [_ Hs]. unfold guest_locked in Hg.
    apply list_elem_of_lookup_2 in Hs. unfold initial_registry in Hs; cbn [slots] in Hs. apply elem_of_cons in Hs as [->|Hs]; [done|].
    apply elem_of_replicate in Hs as [-> _]. done.
Qed.

Definition demo_ctx (screen : list Z) : blyt_run_ctx_t :=
  MkRun false false false false false None None [] 0 blyt_resource_table_init 0 false [] (initial_registry screen)
    BLYT_PHASE_NONE false false 0 0.
Definition demo_mem : flat := MkFlat BLYT_EMU_MEM_SIZE (fun _ => 0).

Lemma demo_ctx_ok screen : len screen = 76800 -> ctx_ok (demo_ctx screen).
Proof.
  intros Hlen. split; [by apply initial_registry_ok|]. split; [|by split].
  split; [constructor|done].
Qed.

Definition blank_screen : list Z := replicate (Z.to_nat 76800) 0.
Lemma blank_screen_len : len blank_screen = 76800.
Proof. unfold blank_screen. rewrite len_replicate. lia. Qed.

(** A surface is created, the screen locked, a byte written in the guest's view of it, and all reaped. *)
Definition demo_create : option (Z * blyt_run_ctx_t * flat) := blyt_surface_create_slot demo_env (demo_ctx blank_screen) demo_mem 8 8.

Lemma surface_reap_exact_witness :
  exists hd ctx1 mem1 ctx2 mem2 ctx3 mem3, demo_create = Some (hd, ctx1, mem1) /\ blyt_resolve_surface (surfaces ctx1) hd <> None
    /\ blyt_surface_acquire_lock ctx1 mem1 BLYT_SCREEN 0x05000000 false = Some (1, ctx2, mem2)
    /\ blyt_surface_reap_all ctx2 (Some (memory_write mem2 0x02000000 [7])) = Some (ctx3, mem3)
    /\ active_locks (surfaces ctx3) = 0 /\ blyt_resolve_surface (surfaces ctx3) hd = None
    /\ reg_screen (surfaces ctx3) = memory_read (memory_write mem2 0x02000000 [7]) 0x02000000 76800.
Proof.
  pose proof (demo_ctx_ok _ blank_screen_len) as H0.
  assert ((fun '(hd, c, _) => (hd =? BLYT_HANDLE_NONE, lock_bump (surfaces c))) <$> demo_create = Some (false, 0)) as Hmade by (vm_compute; reflexivity).
  assert ((fun '(_, _, m) => ram_size m) <$> demo_create = Some BLYT_EMU_MEM_SIZE) as Hsz by (vm_compute; reflexivity).
  destruct (create_spec demo_env (demo_ctx blank_screen) demo_mem 8 8 H0)
    as [[Hc _]|(i & s & ctx1 & mem1 & Hc & _ & Hi & Hs & Hu & H1 & Hs1 & Ho & _)].
  { unfold demo_create in Hmade. rewrite Hc in Hmade. discriminate Hmade. }
  fold demo_create in Hc. rewrite Hc in Hmade, Hsz. cbn [fmap option_fmap option_map] in Hmade, Hsz.
  assert (lock_bump (surfaces ctx1) = 0) as Hb by congruence. assert (ram_size mem1 = BLYT_EMU_MEM_SIZE) as Hm1 by congruence.
  destruct (Ho 0 screen_slot ltac:(lia) eq_refl) as [Hscr Hpx]. pose proof H1 as (Hreg1 & _).
  pose proof (r_slots _ Hreg1 _ _ Hs1) as (Hg & _).
  set (hd := blyt_surface_encode (s_gen s) i) in *.
  assert (blyt_resolve_surface (surfaces ctx1) hd = Some (i, created 8 8 s)) as Hres.
  { destruct (surface_decode (s_gen s) i Hg) as (Hk & Hgd & Hx); [lia|]. apply resolve_surface_Some; try done; [lia|].
    unfold hd. rewrite Hgd. by apply u16_id. }
  assert (acquire_fits (surfaces ctx1) screen_slot) as Hfit by (unfold acquire_fits; rewrite Hb; vm_compute; congruence).
  assert (blyt_resolve_surface (surfaces ctx1) BLYT_SCREEN = Some (0, screen_slot)) as Hrs.
  { apply resolve_surface_Some; try done. }
  destruct (acquire_spec ctx1 mem1 BLYT_SCREEN 0x05000000 false 0 screen_slot blank_screen Hreg1 Hrs eq_refl Hfit) as (m & Ha & _).
  { rewrite Hpx. reflexivity. } { rewrite Hm1. vm_compute. discriminate. }
  destruct (acquire_ctx_ok ctx1 screen_slot 0 false (0x02000000 + lock_bump (surfaces ctx1)) H1 Hscr eq_refl eq_refl Hfit eq_refl) as (H2 & Hl2 & Ho2).
  cbv zeta in Ha, H2, Hl2, Ho2. set (ctx2 := set_surfaces _ ctx1) in *. set (mem2 := memory_write m _ _) in *.
  assert (blyt_resolve_surface (surfaces ctx2) hd = Some (i, created 8 8 s)) as Hres2.
  { unfold ctx2. autorewrite with run_ctx. destruct (Ho2 i (created 8 8 s) ltac:(lia) Hs1) as [Hs2 _].
    by apply (resolve_surface_kept _ _ _ _ _ (created 8 8 s) Hreg1 Hres Hs2). }
  destruct (surface_reap_exact ctx2 (Some (memory_write mem2 0x02000000 [7])) H2)
    as (ctx3 & mem3 & Hr & _ & _ & _ & _ & Hact & Hhd & _ & _ & _ & Hscreen).
  exists hd, ctx1, mem1, ctx2, mem2, ctx3, mem3. split; [exact Hc|]. split; [rewrite Hres; discriminate|]. split; [exact Ha|]. split; [exact Hr|]. split; [exact Hact|].
  split.
  - destruct (blyt_resolve_surface (surfaces ctx3) hd) eqn:E; [|reflexivity]. exfalso.
    assert (i = 0) as Hi0 by (apply (Hhd hd i (created 8 8 s) Hres2); rewrite E; discriminate). lia.
  - rewrite (Hscreen (locked_slot screen_slot false (0x02000000 + lock_bump (surfaces ctx1)))).
    + cbn [locked_slot s_locked s_lock_phantom s_lock_direct andb negb s_lock_vaddr s_lock_len]. rewrite Hb. reflexivity.
    + unfold ctx2. autorewrite with run_ctx. exact Hl2.
Defined.

Lemma surface_create_fresh_witness :
  exists hd ctx' mem', blyt_surface_create_slot demo_env (demo_ctx blank_screen) demo_mem 4 2 = Some (hd, ctx', mem')
    /\ hd <> BLYT_HANDLE_NONE /\ surface_bytes (surfaces ctx') = 8.
Proof.
  destruct (surface_create_fresh demo_env (demo_ctx blank_screen) demo_mem 4 2 (demo_ctx_ok _ blank_screen_len))
    as [[Hc _]|(i & s' & hd & ctx' & mem' & _ & Hr & _ & Hne & _ & _ & _ & _ & _ & _ & Hb & _)].
  - exfalso. destruct Hc as [?|[?|[Hf|[Hu|Hm]]]]; [lia|lia| | |].
    + vm_compute in Hf. congruence.
    + specialize (Hu 1 empty_slot eq_refl). done.
    + done.
  - exists hd, ctx', mem'. split_and!; [done|done|]. rewrite Hb. done.
Defined.

Lemma surface_lock_roundtrip_witness :
  exists ctx1 mem1, blyt_surface_acquire_lock (demo_ctx blank_screen) demo_mem BLYT_SCREEN 0x05000000 false = Some (1, ctx1, mem1)
    /\ memory_read mem1 0x02000000 76800 = blank_screen.
Proof.
  destruct (surface_lock_roundtrip (demo_ctx blank_screen) demo_mem BLYT_SCREEN 0x05000000 false 0 screen_slot blank_screen)
    as (ctx1 & mem1 & Ha & _ & Hm & _).
  - exact (demo_ctx_ok _ blank_screen_len).
  - reflexivity.
  - reflexivity.
  - unfold acquire_fits. vm_compute. congruence.
  - reflexivity.
  - vm_compute. congruence.
  - lia.
  - vm_compute. congruence.
  - right. vm_compute. congruence.
  - exists ctx1, mem1. by split.
Defined.

Lemma surface_lock_arena_recycling_witness :
  lock_cycles 1000 (demo_ctx blank_screen) demo_mem BLYT_SCREEN 0x05000000 <> None.
Proof.
  apply (surface_lock_arena_recycling (demo_ctx blank_screen) demo_mem BLYT_SCREEN 0x05000000 0 screen_slot 1000).
  - exact (demo_ctx_ok _ blank_screen_len).
  - reflexivity.
  - reflexivity.
  - vm_compute. congruence.
  - lia.
  - vm_compute. congruence.
  - vm_compute. congruence.
  - by left.
Defined.

Lemma surface_destroy_exact_witness :
  blyt_session_surface_destroy (demo_ctx blank_screen) demo_mem BLYT_SCREEN = Some (demo_ctx blank_screen, demo_mem).
Proof. apply (surface_destroy_exact (demo_ctx blank_screen) demo_mem BLYT_SCREEN (demo_ctx_ok _ blank_screen_len)). Defined.
