(* ===== verification/Palettes.v ===== *)
(** * Palettes: the built-in palettes

    Models [runtime/shared/blyt_palettes.c]: the four 256-entry XRGB8888 tables, the
    resolver from a handle to a table and the nearest-colour search that the test card
    and the frontends share. *)

From S2P Require Import Prelude Handle.
From Stdlib Require Import ZArith Lia.
From stdpp Require Import base tactics list.
Open Scope Z_scope.

Definition BLYT_PAL_AURORA : list Z :=
  [0x00000000; 0x00111111; 0x00222222; 0x00333333; 0x00444444; 0x00555555; 0x00666666; 0x00777777;
   0x00888888; 0x00999999; 0x00AAAAAA; 0x00BBBBBB; 0x00CCCCCC; 0x00DDDDDD; 0x00EEEEEE; 0x00FFFFFF;
   0x00007F7F; 0x003FBFBF; 0x0000FFFF; 0x00BFFFFF; 0x008181FF; 0x000000FF; 0x003F3FBF; 0x0000007F;
   0x000F0F50; 0x007F007F; 0x00BF3FBF; 0x00F500F5; 0x00FD81FF; 0x00FFC0CB; 0x00FF8181; 0x00FF0000;
   0x00BF3F3F; 0x007F0000; 0x00551414; 0x007F3F00; 0x00BF7F3F; 0x00FF7F00; 0x00FFBF81; 0x00FFFFBF;
   0x00FFFF00; 0x00BFBF3F; 0x007F7F00; 0x00007F00; 0x003FBF3F; 0x0000FF00; 0x00AFFFAF; 0x0000BFFF;
   0x00007FFF; 0x004B7DC8; 0x00BCAFC0; 0x00CBAA89; 0x00A6A090; 0x007E9494; 0x006E8287; 0x007E6E60;
   0x00A0695F; 0x00C07872; 0x00D08A74; 0x00E19B7D; 0x00EBAA8C; 0x00F5B99B; 0x00F6C8AF; 0x00F5E1D2;
   0x007F00FF; 0x00573B3B; 0x0073413C; 0x008E5555; 0x00AB7373; 0x00C78F8F; 0x00E3ABAB; 0x00F8D2DA;
   0x00E3C7AB; 0x00C49E73; 0x008F7357; 0x0073573B; 0x003B2D1F; 0x00414123; 0x0073733B; 0x008F8F57;
   0x00A2A255; 0x00B5B572; 0x00C7C78F; 0x00DADAAB; 0x00EDEDC7; 0x00C7E3AB; 0x00ABC78F; 0x008EBE55;
   0x00738F57; 0x00587D3E; 0x00465032; 0x00191E0F; 0x00235037; 0x003B573B; 0x00506450; 0x003B7349;
   0x00578F57; 0x0073AB73; 0x0064C082; 0x008FC78F; 0x00A2D8A2; 0x00E1F8FA; 0x00B4EECA; 0x00ABE3C5;
   0x0087B48E; 0x00507D5F; 0x000F6946; 0x001E2D23; 0x00234146; 0x003B7373; 0x0064ABAB; 0x008FC7C7;
   0x00ABE3E3; 0x00C7F1F1; 0x00BED2F0; 0x00ABC7E3; 0x00A8B9DC; 0x008FABC7; 0x00578FC7; 0x0057738F;
   0x003B5773; 0x000F192D; 0x001F1F3B; 0x003B3B57; 0x00494973; 0x0057578F; 0x00736EAA; 0x007676CA;
   0x008F8FC7; 0x00ABABE3; 0x00D0DAF8; 0x00E3E3FF; 0x00AB8FC7; 0x008F57C7; 0x0073578F; 0x00573B73;
   0x003C233C; 0x00463246; 0x00724072; 0x008F578F; 0x00AB57AB; 0x00AB73AB; 0x00EBACE1; 0x00FFDCF5;
   0x00E3C7E3; 0x00E1B9D2; 0x00D7A0BE; 0x00C78FB9; 0x00C87DA0; 0x00C35A91; 0x004B2837; 0x00321623;
   0x00280A1E; 0x00401811; 0x00621800; 0x00A5140A; 0x00DA2010; 0x00D5524A; 0x00FF3C0A; 0x00F55A32;
   0x00FF6262; 0x00F6BD31; 0x00FFA53C; 0x00D79B0F; 0x00DA6E0A; 0x00B45A00; 0x00A04B05; 0x005F3214;
   0x0053500A; 0x00626200; 0x008C805A; 0x00AC9400; 0x00B1B10A; 0x00E6D55A; 0x00FFD510; 0x00FFEA4A;
   0x00C8FF41; 0x009BF046; 0x0096DC19; 0x0073C805; 0x006AA805; 0x003C6E14; 0x00283405; 0x00204608;
   0x000C5C0C; 0x00149605; 0x000AD70A; 0x0014E60A; 0x007DFF73; 0x004BF05A; 0x0000C514; 0x0005B450;
   0x001C8C4E; 0x00123832; 0x00129880; 0x0006C491; 0x0000DE6A; 0x002DEBA8; 0x003CFEA5; 0x006AFFCD;
   0x0091EBFF; 0x0055E6FF; 0x007DD7F0; 0x0008DED5; 0x00109CDE; 0x00055A5C; 0x00162C52; 0x000F377D;
   0x00004A9C; 0x00326496; 0x000052F6; 0x00186ABD; 0x002378DC; 0x00699DC3; 0x004AA4FF; 0x0090B0FF;
   0x005AC5FF; 0x00BEB9FA; 0x00786EF0; 0x004A5AFF; 0x006241F6; 0x003C3CF5; 0x00101CDA; 0x000010BD;
   0x00231094; 0x000C2148; 0x005010B0; 0x006010D0; 0x008732D2; 0x009C41FF; 0x00BD62FF; 0x00B991FF;
   0x00D7A5FF; 0x00D7C3FA; 0x00F8C6FC; 0x00E673FF; 0x00FF52FF; 0x00DA20E0; 0x00BD29FF; 0x00BD10C5;
   0x008C14BE; 0x005A187B; 0x00641464; 0x00410062; 0x00320A46; 0x00551937; 0x00A01982; 0x00C80078;
   0x00FF50BF; 0x00FF6AC5; 0x00FAA0B9; 0x00FC3A8C; 0x00E61E78; 0x00BD1039; 0x0098344D; 0x00911437].

Definition BLYT_PAL_VGA : list Z :=
  [0x00000000; 0x000000AA; 0x0000AA00; 0x0000AAAA; 0x00AA0000; 0x00AA00AA; 0x00AA5500; 0x00AAAAAA;
   0x00555555; 0x005555FF; 0x0055FF55; 0x0055FFFF; 0x00FF5555; 0x00FF55FF; 0x00FFFF55; 0x00FFFFFF;
   0x00000000; 0x00141414; 0x00202020; 0x002D2D2D; 0x00393939; 0x00454545; 0x00515151; 0x00616161;
   0x00717171; 0x00828282; 0x00929292; 0x00A2A2A2; 0x00B6B6B6; 0x00CACACA; 0x00E3E3E3; 0x00FFFFFF;
   0x00FF0000; 0x00FF4100; 0x00FF8200; 0x00FFBE00; 0x00FFFF00; 0x00BEFF00; 0x0082FF00; 0x0041FF00;
   0x0000FF00; 0x0000FF41; 0x0000FF82; 0x0000FFBE; 0x0000FFFF; 0x0000BEFF; 0x000082FF; 0x000041FF;
   0x000000FF; 0x004100FF; 0x008200FF; 0x00BE00FF; 0x00FF00FF; 0x00FF00BE; 0x00FF0082; 0x00FF0041;
   0x00FF5555; 0x00FF8255; 0x00FFAA55; 0x00FFD255; 0x00FFFF55; 0x00D2FF55; 0x00AAFF55; 0x0082FF55;
   0x0055FF55; 0x0055FF82; 0x0055FFAA; 0x0055FFD2; 0x0055FFFF; 0x0055D2FF; 0x0055AAFF; 0x005582FF;
   0x005555FF; 0x008255FF; 0x00AA55FF; 0x00D255FF; 0x00FF55FF; 0x00FF55D2; 0x00FF55AA; 0x00FF5582;
   0x00FFAAAA; 0x00FFBEAA; 0x00FFD2AA; 0x00FFEBAA; 0x00FFFFAA; 0x00EBFFAA; 0x00D2FFAA; 0x00BEFFAA;
   0x00AAFFAA; 0x00AAFFBE; 0x00AAFFD2; 0x00AAFFEB; 0x00AAFFFF; 0x00AAEBFF; 0x00AAD2FF; 0x00AABEFF;
   0x00AAAAFF; 0x00BEAAFF; 0x00D2AAFF; 0x00EBAAFF; 0x00FFAAFF; 0x00FFAAEB; 0x00FFAAD2; 0x00FFAABE;
   0x00AA0000; 0x00AA2800; 0x00AA5500; 0x00AA8200; 0x00AAAA00; 0x0082AA00; 0x0055AA00; 0x0028AA00;
   0x0000AA00; 0x0000AA28; 0x0000AA55; 0x0000AA82; 0x0000AAAA; 0x000082AA; 0x000055AA; 0x000028AA;
   0x000000AA; 0x002800AA; 0x005500AA; 0x008200AA; 0x00AA00AA; 0x00AA0082; 0x00AA0055; 0x00AA0028;
   0x00AA3939; 0x00AA5539; 0x00AA7139; 0x00AA8E39; 0x00AAAA39; 0x008EAA39; 0x0071AA39; 0x0055AA39;
   0x0039AA39; 0x0039AA55; 0x0039AA71; 0x0039AA8E; 0x0039AAAA; 0x00398EAA; 0x003971AA; 0x003955AA;
   0x003939AA; 0x005539AA; 0x007139AA; 0x008E39AA; 0x00AA39AA; 0x00AA398E; 0x00AA3971; 0x00AA3955;
   0x00AA7171; 0x00AA8271; 0x00AA8E71; 0x00AA9A71; 0x00AAAA71; 0x009AAA71; 0x008EAA71; 0x0082AA71;
   0x0071AA71; 0x0071AA82; 0x0071AA8E; 0x0071AA9A; 0x0071AAAA; 0x00719AAA; 0x00718EAA; 0x007182AA;
   0x007171AA; 0x008271AA; 0x008E71AA; 0x009A71AA; 0x00AA71AA; 0x00AA719A; 0x00AA718E; 0x00AA7182;
   0x00550000; 0x00551400; 0x00552800; 0x00554100; 0x00555500; 0x00415500; 0x00285500; 0x00145500;
   0x00005500; 0x00005514; 0x00005528; 0x00005541; 0x00005555; 0x00004155; 0x00002855; 0x00001455;
   0x00000055; 0x00140055; 0x00280055; 0x00410055; 0x00550055; 0x00550041; 0x00550028; 0x00550014;
   0x00551C1C; 0x0055281C; 0x0055391C; 0x0055491C; 0x0055551C; 0x0049551C; 0x0039551C; 0x0028551C;
   0x001C551C; 0x001C5528; 0x001C5539; 0x001C5549; 0x001C5555; 0x001C4955; 0x001C3955; 0x001C2855;
   0x001C1C55; 0x00281C55; 0x00391C55; 0x00491C55; 0x00551C55; 0x00551C49; 0x00551C39; 0x00551C28;
   0x00553939; 0x00554139; 0x00554939; 0x00554D39; 0x00555539; 0x004D5539; 0x00495539; 0x00415539;
   0x00395539; 0x00395541; 0x00395549; 0x0039554D; 0x00395555; 0x00394D55; 0x00394955; 0x00394155;
   0x00393955; 0x00413955; 0x00493955; 0x004D3955; 0x00553955; 0x0055394D; 0x00553949; 0x00553941;
   0x00000000; 0x00000000; 0x00000000; 0x00000000; 0x00000000; 0x00000000; 0x00000000; 0x00000000].

Definition BLYT_PAL_EGA : list Z :=
  [0x00000000; 0x000000AA; 0x0000AA00; 0x0000AAAA; 0x00AA0000; 0x00AA00AA; 0x00AA5500; 0x00AAAAAA;
   0x00555555; 0x005555FF; 0x0055FF55; 0x0055FFFF; 0x00FF5555; 0x00FF55FF; 0x00FFFF55; 0x00FFFFFF;
   0x00000000; 0x00000000; 0x00000000; 0x00000000; 0x00000000; 0x00000000; 0x00000000; 0x00000000;
   0x00000000; 0x00000000; 0x00000000; 0x00000000; 0x00000000; 0x00000000; 0x00000000; 0x00000000;
   0x00000000; 0x00000000; 0x00000000; 0x00000000; 0x00000000; 0x00000000; 0x00000000; 0x00000000;
   0x00000000; 0x00000000; 0x00000000; 0x00000000; 0x00000000; 0x00000000; 0x00000000; 0x00000000;
   0x00000000; 0x00000000; 0x00000000; 0x00000000; 0x00000000; 0x00000000; 0x00000000; 0x00000000;
   0x00000000; 0x00000000; 0x00000000; 0x00000000; 0x00000000; 0x00000000; 0x00000000; 0x00000000;
   0x00000000; 0x00000000; 0x00000000; 0x00000000; 0x00000000; 0x00000000; 0x00000000; 0x00000000;
   0x00000000; 0x00000000; 0x00000000; 0x00000000; 0x00000000; 0x00000000; 0x00000000; 0x00000000;
   0x00000000; 0x00000000; 0x00000000; 0x00000000; 0x00000000; 0x00000000; 0x00000000; 0x00000000;
   0x00000000; 0x00000000; 0x00000000; 0x00000000; 0x00000000; 0x00000000; 0x00000000; 0x00000000;
   0x00000000; 0x00000000; 0x00000000; 0x00000000; 0x00000000; 0x00000000; 0x00000000; 0x00000000;
   0x00000000; 0x00000000; 0x00000000; 0x00000000; 0x00000000; 0x00000000; 0x00000000; 0x00000000;
   0x00000000; 0x00000000; 0x00000000; 0x00000000; 0x00000000; 0x00000000; 0x00000000; 0x00000000;
   0x00000000; 0x00000000; 0x00000000; 0x00000000; 0x00000000; 0x00000000; 0x00000000; 0x00000000;
   0x00000000; 0x00000000; 0x00000000; 0x00000000; 0x00000000; 0x00000000; 0x00000000; 0x00000000;
   0x00000000; 0x00000000; 0x00000000; 0x00000000; 0x00000000; 0x00000000; 0x00000000; 0x00000000;
   0x00000000; 0x00000000; 0x00000000; 0x00000000; 0x00000000; 0x00000000; 0x00000000; 0x00000000;
   0x00000000; 0x00000000; 0x00000000; 0x00000000; 0x00000000; 0x00000000; 0x00000000; 0x00000000;
   0x00000000; 0x00000000; 0x00000000; 0x00000000; 0x00000000; 0x00000000; 0x00000000; 0x00000000;
   0x00000000; 0x00000000; 0x00000000; 0x00000000; 0x00000000; 0x00000000; 0x00000000; 0x00000000;
   0x00000000; 0x00000000; 0x00000000; 0x00000000; 0x00000000; 0x00000000; 0x00000000; 0x00000000;
   0x00000000; 0x00000000; 0x00000000; 0x00000000; 0x00000000; 0x00000000; 0x00000000; 0x00000000;
   0x00000000; 0x00000000; 0x00000000; 0x00000000; 0x00000000; 0x00000000; 0x00000000; 0x00000000;
   0x00000000; 0x00000000; 0x00000000; 0x00000000; 0x00000000; 0x00000000; 0x00000000; 0x00000000;
   0x00000000; 0x00000000; 0x00000000; 0x00000000; 0x00000000; 0x00000000; 0x00000000; 0x00000000;
   0x00000000; 0x00000000; 0x00000000; 0x00000000; 0x00000000; 0x00000000; 0x00000000; 0x00000000;
   0x00000000; 0x00000000; 0x00000000; 0x00000000; 0x00000000; 0x00000000; 0x00000000; 0x00000000;
   0x00000000; 0x00000000; 0x00000000; 0x00000000; 0x00000000; 0x00000000; 0x00000000; 0x00000000;
   0x00000000; 0x00000000; 0x00000000; 0x00000000; 0x00000000; 0x00000000; 0x00000000; 0x00000000;
   0x00000000; 0x00000000; 0x00000000; 0x00000000; 0x00000000; 0x00000000; 0x00000000; 0x00000000].

Definition BLYT_PAL_CGA : list Z :=
  [0x00000000; 0x0055FFFF; 0x00FF55FF; 0x00FFFFFF; 0x00000000; 0x00000000; 0x00000000; 0x00000000;
   0x00000000; 0x00000000; 0x00000000; 0x00000000; 0x00000000; 0x00000000; 0x00000000; 0x00000000;
   0x00000000; 0x00000000; 0x00000000; 0x00000000; 0x00000000; 0x00000000; 0x00000000; 0x00000000;
   0x00000000; 0x00000000; 0x00000000; 0x00000000; 0x00000000; 0x00000000; 0x00000000; 0x00000000;
   0x00000000; 0x00000000; 0x00000000; 0x00000000; 0x00000000; 0x00000000; 0x00000000; 0x00000000;
   0x00000000; 0x00000000; 0x00000000; 0x00000000; 0x00000000; 0x00000000; 0x00000000; 0x00000000;
   0x00000000; 0x00000000; 0x00000000; 0x00000000; 0x00000000; 0x00000000; 0x00000000; 0x00000000;
   0x00000000; 0x00000000; 0x00000000; 0x00000000; 0x00000000; 0x00000000; 0x00000000; 0x00000000;
   0x00000000; 0x00000000; 0x00000000; 0x00000000; 0x00000000; 0x00000000; 0x00000000; 0x00000000;
   0x00000000; 0x00000000; 0x00000000; 0x00000000; 0x00000000; 0x00000000; 0x00000000; 0x00000000;
   0x00000000; 0x00000000; 0x00000000; 0x00000000; 0x00000000; 0x00000000; 0x00000000; 0x00000000;
   0x00000000; 0x00000000; 0x00000000; 0x00000000; 0x00000000; 0x00000000; 0x00000000; 0x00000000;
   0x00000000; 0x00000000; 0x00000000; 0x00000000; 0x00000000; 0x00000000; 0x00000000; 0x00000000;
   0x00000000; 0x00000000; 0x00000000; 0x00000000; 0x00000000; 0x00000000; 0x00000000; 0x00000000;
   0x00000000; 0x00000000; 0x00000000; 0x00000000; 0x00000000; 0x00000000; 0x00000000; 0x00000000;
   0x00000000; 0x00000000; 0x00000000; 0x00000000; 0x00000000; 0x00000000; 0x00000000; 0x00000000;
   0x00000000; 0x00000000; 0x00000000; 0x00000000; 0x00000000; 0x00000000; 0x00000000; 0x00000000;
   0x00000000; 0x00000000; 0x00000000; 0x00000000; 0x00000000; 0x00000000; 0x00000000; 0x00000000;
   0x00000000; 0x00000000; 0x00000000; 0x00000000; 0x00000000; 0x00000000; 0x00000000; 0x00000000;
   0x00000000; 0x00000000; 0x00000000; 0x00000000; 0x00000000; 0x00000000; 0x00000000; 0x00000000;
   0x00000000; 0x00000000; 0x00000000; 0x00000000; 0x00000000; 0x00000000; 0x00000000; 0x00000000;
   0x00000000; 0x00000000; 0x00000000; 0x00000000; 0x00000000; 0x00000000; 0x00000000; 0x00000000;
   0x00000000; 0x00000000; 0x00000000; 0x00000000; 0x00000000; 0x00000000; 0x00000000; 0x00000000;
   0x00000000; 0x00000000; 0x00000000; 0x00000000; 0x00000000; 0x00000000; 0x00000000; 0x00000000;
   0x00000000; 0x00000000; 0x00000000; 0x00000000; 0x00000000; 0x00000000; 0x00000000; 0x00000000;
   0x00000000; 0x00000000; 0x00000000; 0x00000000; 0x00000000; 0x00000000; 0x00000000; 0x00000000;
   0x00000000; 0x00000000; 0x00000000; 0x00000000; 0x00000000; 0x00000000; 0x00000000; 0x00000000;
   0x00000000; 0x00000000; 0x00000000; 0x00000000; 0x00000000; 0x00000000; 0x00000000; 0x00000000;
   0x00000000; 0x00000000; 0x00000000; 0x00000000; 0x00000000; 0x00000000; 0x00000000; 0x00000000;
   0x00000000; 0x00000000; 0x00000000; 0x00000000; 0x00000000; 0x00000000; 0x00000000; 0x00000000;
   0x00000000; 0x00000000; 0x00000000; 0x00000000; 0x00000000; 0x00000000; 0x00000000; 0x00000000;
   0x00000000; 0x00000000; 0x00000000; 0x00000000; 0x00000000; 0x00000000; 0x00000000; 0x00000000].

Definition BLYT_PAL_ID_AURORA : Z := 1.
Definition BLYT_PAL_ID_VGA : Z := 2.
Definition BLYT_PAL_ID_EGA : Z := 3.
Definition BLYT_PAL_ID_CGA : Z := 4.

(** [None] is [NULL]. *)
Definition blyt_builtin_palette (handle : Z) : option (list Z) :=
  if negb (blyt_handle_is_resource handle) then None
  else if negb (blyt_resource_decode_provenance handle =? BLYT_RESOURCE_PROV_RUNTIME) then None
  else
    let id := blyt_resource_decode_id handle in
    if id =? BLYT_PAL_ID_AURORA then Some BLYT_PAL_AURORA
    else if id =? BLYT_PAL_ID_VGA then Some BLYT_PAL_VGA
    else if id =? BLYT_PAL_ID_EGA then Some BLYT_PAL_EGA
    else if id =? BLYT_PAL_ID_CGA then Some BLYT_PAL_CGA
    else None.

(** The loop from entry [i] on, [k] entries being left; [None] is a read outside the
    palette. *)
Fixpoint nearest_loop (k : nat) (i : Z) (palette : list Z) (tr tg tb best_d best_i : Z) : option Z :=
  match k with
  | O => Some best_i
  | S k =>
      p ← zget palette i;
      let dr := Z.land (Z.shiftr p 16) 0xFF - tr in
      let dg := Z.land (Z.shiftr p 8) 0xFF - tg in
      let db := Z.land p 0xFF - tb in
      let d := u32 (i32 (dr * dr + dg * dg + db * db)) in
      if d <? best_d then
        if d =? 0 then Some (u8 i) else nearest_loop k (i + 1) palette tr tg tb d (u8 i)
      else nearest_loop k (i + 1) palette tr tg tb best_d best_i
  end.

Definition blyt_palette_nearest (palette : list Z) (rgb : Z) : option Z :=
  let tr := Z.land (Z.shiftr rgb 16) 0xFF in
  let tg := Z.land (Z.shiftr rgb 8) 0xFF in
  let tb := Z.land rgb 0xFF in
  nearest_loop 256 0 palette tr tg tb 0xFFFFFFFF 0.

(** ** Specification *)

Definition red (p : Z) : Z := p / 65536 mod 256.
Definition green (p : Z) : Z := p / 256 mod 256.
Definition blue (p : Z) : Z := p mod 256.

(** The squared distance of two colours. *)
Definition dist2 (p q : Z) : Z :=
  (red p - red q) * (red p - red q) + (green p - green q) * (green p - green q) + (blue p - blue q) * (blue p - blue q).

Lemma dist2_bounds p q : 0 <= dist2 p q <= 195075.
Proof.
  assert (forall a b, 0 <= a < 256 -> 0 <= b < 256 -> 0 <= (a - b) * (a - b) <= 65025) as Hsq.
  { intros a b Ha Hb. pose proof (Z.square_nonneg (a - b)).
    assert (0 <= (255 - (a - b)) * (255 + (a - b))) by (apply Z.mul_nonneg_nonneg; lia). lia. }
  unfold dist2, red, green, blue.
  pose proof (Hsq _ _ (Z.mod_pos_bound (p / 65536) 256 ltac:(lia)) (Z.mod_pos_bound (q / 65536) 256 ltac:(lia))).
  pose proof (Hsq _ _ (Z.mod_pos_bound (p / 256) 256 ltac:(lia)) (Z.mod_pos_bound (q / 256) 256 ltac:(lia))).
  pose proof (Hsq _ _ (Z.mod_pos_bound p 256 ltac:(lia)) (Z.mod_pos_bound q 256 ltac:(lia))).
  lia.
Qed.

Lemma channel_land p k : 0 <= k -> Z.land (Z.shiftr p k) 0xFF = p / 2 ^ k mod 256.
Proof. intros. rewrite (land_ones_mod _ 8) by (lia || done). by rewrite shiftr_div. Qed.

Lemma nearest_dist p rgb :
  let dr := Z.land (Z.shiftr p 16) 0xFF - Z.land (Z.shiftr rgb 16) 0xFF in
  let dg := Z.land (Z.shiftr p 8) 0xFF - Z.land (Z.shiftr rgb 8) 0xFF in
  let db := Z.land p 0xFF - Z.land rgb 0xFF in
  u32 (i32 (dr * dr + dg * dg + db * db)) = dist2 p rgb.
Proof.
  cbv zeta. rewrite !channel_land by lia. rewrite !(land_ones_mod _ 8) by (lia || done).
  pose proof (dist2_bounds p rgb) as Hd. unfold dist2, red, green, blue in *. change (2 ^ 16) with 65536. change (2 ^ 8) with 256.
  rewrite i32_id by (unfold is_i32; lia). apply u32_id. unfold is_u32. lia.
Qed.

(** [i] is the first index that minimises the distance among the first [n]. *)
Definition first_nearest (palette : list Z) (rgb n i : Z) : Prop :=
  exists p, zget palette i = Some p /\ i < n
    /\ (forall j q, zget palette j = Some q -> j < n -> dist2 p rgb <= dist2 q rgb)
    /\ (forall j q, zget palette j = Some q -> j < i -> dist2 p rgb < dist2 q rgb).

Lemma nearest_loop_spec k i palette rgb best_d best_i :
  len palette = 256 -> i + Z.of_nat k = 256 -> 0 <= i ->
  (i = 0 /\ best_d = 0xFFFFFFFF \/ exists p, zget palette best_i = Some p /\ best_d = dist2 p rgb /\ first_nearest palette rgb i best_i) ->
  exists r, nearest_loop k i palette (Z.land (Z.shiftr rgb 16) 0xFF) (Z.land (Z.shiftr rgb 8) 0xFF) (Z.land rgb 0xFF) best_d best_i = Some r
    /\ (first_nearest palette rgb 256 r \/ k = O /\ i = 0).
Proof.
  intros Hlen. revert i best_d best_i. induction k as [|k IH]; intros i best_d best_i Hk Hi Hbest; cbn [nearest_loop].
  { exists best_i. split; [done|]. left. destruct Hbest as [[-> _]|(p & _ & _ & Hf)]; [lia|]. by replace 256 with i by lia. }
  destruct (zget_is_Some palette i) as [p Hp]; [lia|]. rewrite Hp. cbn [mbind option_bind]. rewrite nearest_dist.
  pose proof (dist2_bounds p rgb) as Hd. rewrite (u8_id i) by (unfold is_u8; lia).
  assert (best_d > dist2 p rgb -> first_nearest palette rgb (i + 1) i) as Hnew.
  { intros Hlt. exists p. split; [done|]. split; [lia|].
    assert (forall j q, zget palette j = Some q -> j < i -> dist2 p rgb < dist2 q rgb) as Hall.
    { intros j q Hq Hj. destruct Hbest as [[-> _]|(b & Hb & -> & b' & Hb' & _ & Hmin & _)].
      - apply zget_Some in Hq. lia.
      - assert (b' = b) as -> by congruence. pose proof (Hmin j q Hq Hj). lia. }
    split; [|done]. intros j q Hq Hj. destruct (Z.eqb_spec j i) as [->|]; [assert (q = p) as -> by congruence; lia|].
    pose proof (Hall j q Hq ltac:(lia)). lia. }
  destruct (Z.ltb_spec (dist2 p rgb) best_d) as [Hlt|Hge].
  - destruct (Z.eqb_spec (dist2 p rgb) 0) as [E|E].
    + exists i. split; [done|]. left. destruct (Hnew ltac:(lia)) as (p' & Hp' & _ & _ & Hfirst). exists p'. split_and!; [done|lia| |done].
      intros j q _ _. assert (p' = p) as -> by congruence. pose proof (dist2_bounds q rgb). lia.
    + destruct (IH (i + 1) (dist2 p rgb) i) as (r & -> & Hr); [lia|lia| |].
      { right. exists p. split_and!; [done|done|]. apply Hnew. lia. }
      exists r. split; [done|]. left. destruct Hr as [|[_ ?]]; [done|lia].
  - destruct Hbest as [[_ ->]|(b & Hb & -> & b' & Hb' & Hlt & Hmin & Hfirst)]; [lia|]. assert (b' = b) as -> by congruence.
    destruct (IH (i + 1) (dist2 b rgb) best_i) as (r & -> & Hr); [lia|lia| |].
    { right. exists b. split_and!; [done|done|]. exists b. split_and!; [done|lia| |done].
      intros j q Hq Hj. destruct (Z.eqb_spec j i) as [->|]; [assert (q = p) as -> by congruence; lia|]. apply (Hmin j); [done|lia]. }
    exists r. split; [done|]. left. destruct Hr as [|[_ ?]]; [done|lia].
Qed.

(** ** Properties *)

(** The nearest-colour search is an arg-min.  For any 256-entry palette and any target it
    reads only inside the palette and returns the lowest index at the least squared RGB
    distance from the target, ignoring the top byte: no 32-bit wrap-around, and stopping
    early at distance 0 changes nothing. *)
Theorem palette_nearest_exact (palette : list Z) (rgb : Z) :
  len palette = 256 ->
  exists i p, blyt_palette_nearest palette rgb = Some i /\ is_u8 i /\ zget palette i = Some p
    /\ (forall j q, zget palette j = Some q -> dist2 p rgb <= dist2 q rgb)
    /\ (forall j q, zget palette j = Some q -> j < i -> dist2 p rgb < dist2 q rgb).
Proof.
  intros Hlen. unfold blyt_palette_nearest.
  destruct (nearest_loop_spec 256 0 palette rgb 0xFFFFFFFF 0) as (i & Hi & [Hn|[? _]]); [done|lia|lia|by left| |done].
  destruct Hn as (p & Hp & Hlt & Hmin & Hfirst). exists i, p. split_and!; [done| |done| |done].
  - apply zget_Some in Hp as [? _]. unfold is_u8. lia.
  - intros j q Hq. apply (Hmin j q Hq). apply zget_Some in Hq as [? _]. lia.
Qed.

Lemma palette_nearest_exact_witness :
  exists i p, blyt_palette_nearest BLYT_PAL_EGA 0x00AA5400 = Some i /\ zget BLYT_PAL_EGA i = Some p /\ i = 6.
Proof.
  destruct (palette_nearest_exact BLYT_PAL_EGA 0x00AA5400) as (i & p & Hr & _ & Hp & _); [reflexivity|].
  exists i, p. vm_compute in Hr. injection Hr as <-. split_and!; [reflexivity|exact Hp|reflexivity].
Defined.
