(* ===== verification/TestCard.v ===== *)
(** * TestCard: the test card shown until the cart draws

    Models [runtime/host/src/libblyt/testcard.c]: the renderer that fills the
    framebuffer with a palette-agnostic PM5544 test card and the frame counter.  The
    static [s_pixels] pointer is the threaded buffer; the outer [None] is an access
    outside an array.  Every [int] of the file stays far below 2^31, so none wraps. *)

From S2P Require Import Prelude Handle Palettes Raster Blys Save.
From Stdlib Require Import ZArith Lia Strings.String.
From stdpp Require Import base tactics list.
Open Scope Z_scope.

(** ** Reference colours and layout *)

Definition TC_BLACK : Z := 0.
Definition TC_DARK1 : Z := 1.
Definition TC_DARK2 : Z := 2.
Definition TC_BG : Z := 3.
Definition TC_DARK3 : Z := 4.
Definition TC_LITE1 : Z := 5.
Definition TC_WHITE : Z := 6.
Definition TC_YELLOW : Z := 7.
Definition TC_CYAN : Z := 8.
Definition TC_GREEN : Z := 9.
Definition TC_MAGENTA : Z := 10.
Definition TC_RED : Z := 11.
Definition TC_BLUE : Z := 12.
Definition TC_BLUESIDE : Z := 13.
Definition TC_GOLD : Z := 14.
Definition TC_TEAL : Z := 15.
Definition TC_PINK : Z := 16.
Definition TC_OLIVE : Z := 17.
Definition TC_PURPLE : Z := 18.
Definition TC_TEXT : Z := 19.
Definition TC_NREF : Z := 20.

(** Indexed by the slot ids above. *)
Definition TC_RGB : list Z :=
  [0x00000000; 0x00343434; 0x00666666; 0x00777777; 0x00999999; 0x00CCCCCC; 0x00FFFFFF; 0x00CCCC00; 0x0000CCCC; 0x0000CC00; 0x00CC00CC; 0x00CC0000; 0x000000CC; 0x00587FE6; 0x00A78019; 0x0026AD80; 0x00D95280; 0x0080960E; 0x008069F1; 0x00D0D0D0].

Definition TC_W : Z := 320.
Definition TC_H : Z := 240.
Definition TC_CX : Z := 160.
Definition TC_CY : Z := 120.
Definition TC_CR : Z := 110.
Definition TILE : Z := 18.
Definition GS_L : Z := 7.
Definition GS_R : Z := 313.
Definition GS_T : Z := 3.
Definition GS_B : Z := 237.
Definition SB_T : Z := 21.
Definition SB_B : Z := 219.
Definition SH_T : Z := (SB_T + 2 * TILE).
Definition SH_B : Z := (SB_B - 2 * TILE).
Definition BSQ_LX1 : Z := 24.
Definition BSQ_LX2 : Z := 108.
Definition BSQ_RX1 : Z := 213.
Definition BSQ_RX2 : Z := 296.
Definition BSQ_Y1 : Z := (GS_T + 2 * TILE).
Definition BSQ_Y2 : Z := (GS_T + 7 * TILE).
Definition STRIPE_X : Z := 115.
Definition TBAR_X1 : Z := 121.
Definition TBAR_X2 : Z := 199.
Definition TBAR_Y1 : Z := (GS_T + 1 * TILE).
Definition TBAR_Y2 : Z := (GS_T + 2 * TILE).
Definition EVEN_Y1 : Z := (GS_T + 3 * TILE).
Definition EVEN_Y2 : Z := (GS_T + 4 * TILE).
Definition CB_Y1 : Z := (GS_T + 4 * TILE).
Definition CB_Y2 : Z := (GS_T + 6 * TILE).
Definition CB_X1 : Z := 90.
Definition CB_X2 : Z := 125.
Definition CB_X3 : Z := 160.
Definition CB_X4 : Z := 195.
Definition CB_X5 : Z := 230.
Definition WAVE_Y2 : Z := (GS_T + 8 * TILE).
Definition WV1_X1 : Z := 73.
Definition WV1_X2 : Z := 117.
Definition WV2_X1 : Z := 108.
Definition WV2_X2 : Z := 152.
Definition WV3_X1 : Z := 143.
Definition WV3_X2 : Z := 248.
Definition GS_Y1 : Z := (GS_T + 8 * TILE).
Definition GS_Y2 : Z := (GS_T + 10 * TILE).
Definition WBW_Y1 : Z := (GS_T + 10 * TILE).
Definition WBW_Y2 : Z := (GS_T + 11 * TILE).
Definition WBW_BX1 : Z := 108.
Definition WBW_BX2 : Z := 213.
Definition WSTRIPE_X : Z := 115.
Definition YR_Y1 : Z := (GS_T + 11 * TILE).
Definition RED_X1 : Z := 151.
Definition RED_X2 : Z := 169.
Definition XHAIR_HY1 : Z := (GS_T + 6 * TILE).
Definition XHAIR_HY2 : Z := (GS_T + 7 * TILE).
Definition XHAIR_VX1 : Z := 152.
Definition XHAIR_VX2 : Z := 168.
Definition XHAIR_VY1 : Z := (GS_T + 5 * TILE).
Definition XHAIR_VY2 : Z := (GS_T + 8 * TILE).
Definition FC_Y : Z := (WBW_Y1 + (WBW_Y2 - WBW_Y1 - 7) `quot` 2).

(** ** Glyphs *)

Definition g_0 : list Z := [0x0E; 0x11; 0x11; 0x11; 0x11; 0x11; 0x0E].
Definition g_1 : list Z := [0x04; 0x0C; 0x04; 0x04; 0x04; 0x04; 0x0E].
Definition g_2 : list Z := [0x0E; 0x11; 0x01; 0x06; 0x08; 0x10; 0x1F].
Definition g_3 : list Z := [0x0E; 0x11; 0x01; 0x06; 0x01; 0x11; 0x0E].
Definition g_4 : list Z := [0x11; 0x11; 0x11; 0x1F; 0x01; 0x01; 0x01].
Definition g_5 : list Z := [0x1F; 0x10; 0x10; 0x1E; 0x01; 0x11; 0x0E].
Definition g_6 : list Z := [0x0E; 0x10; 0x10; 0x1E; 0x11; 0x11; 0x0E].
Definition g_7 : list Z := [0x1F; 0x01; 0x02; 0x04; 0x08; 0x08; 0x08].
Definition g_8 : list Z := [0x0E; 0x11; 0x11; 0x0E; 0x11; 0x11; 0x0E].
Definition g_9 : list Z := [0x0E; 0x11; 0x11; 0x0F; 0x01; 0x11; 0x0E].
Definition g_B : list Z := [0x1E; 0x11; 0x11; 0x1E; 0x11; 0x11; 0x1E].
Definition g_L : list Z := [0x10; 0x10; 0x10; 0x10; 0x10; 0x10; 0x1F].
Definition g_T : list Z := [0x1F; 0x04; 0x04; 0x04; 0x04; 0x04; 0x04].
Definition g_Y : list Z := [0x11; 0x11; 0x0A; 0x04; 0x04; 0x04; 0x04].

Definition tc_glyph (c : Z) : option (list Z) :=
  if c =? 48 then Some g_0 else
  if c =? 49 then Some g_1 else
  if c =? 50 then Some g_2 else
  if c =? 51 then Some g_3 else
  if c =? 52 then Some g_4 else
  if c =? 53 then Some g_5 else
  if c =? 54 then Some g_6 else
  if c =? 55 then Some g_7 else
  if c =? 56 then Some g_8 else
  if c =? 57 then Some g_9 else
  if c =? 66 then Some g_B else
  if c =? 76 then Some g_L else
  if c =? 84 then Some g_T else
  if c =? 89 then Some g_Y else
  None.

(** ** Drawing *)

Definition tc_pset (x y color : Z) (s_pixels : list Z) : option (list Z) :=
  if (u32 x <? TC_W) && (u32 y <? TC_H) then zset s_pixels (y * TC_W + x) color else Some s_pixels.

Definition tc_draw_char (x0 y0 : Z) (g : list Z) (color scale : Z) (s_pixels : list Z) : option (list Z) :=
  rows 7 0 (fun row => rows 5 0 (fun col px =>
    byte ← zget g row;
    if negb (Z.land byte (Z.shiftr 0x10 col) =? 0) then
      rows (Z.to_nat scale) 0 (fun sy => rows (Z.to_nat scale) 0 (fun sx =>
        tc_pset (x0 + col * scale + sx) (y0 + row * scale + sy) color)) px
    else Some px)) s_pixels.

Fixpoint tc_draw_text (x y0 : Z) (str : list Z) (color scale : Z) (s_pixels : list Z) : option (list Z) :=
  match str with
  | [] => Some s_pixels
  | c :: str =>
      px ← match tc_glyph c with
           | Some g => tc_draw_char x y0 g color scale s_pixels
           | None => Some s_pixels
           end;
      tc_draw_text (x + (5 + 1) * scale) y0 str color scale px
  end.

(** [tmp] grows downwards: its head is the last digit written; [None] is a write past
    [tmp[12]]. *)
Fixpoint itoa_loop (fuel : nat) (n : Z) (tmp : list Z) : option (list Z) :=
  match fuel with
  | O => None
  | S fuel =>
      if n =? 0 then Some tmp
      else if len tmp >=? 12 then None
      else itoa_loop fuel (n / 10) ((48 + n mod 10) :: tmp)
  end.

(** The digits, without the NUL; they must fit [buf[12]] with it. *)
Definition tc_itoa (n : Z) : option (list Z) :=
  if n =? 0 then Some [48]
  else
    tmp ← itoa_loop 13 n [];
    if len tmp + 1 >? 12 then None else Some tmp.

Definition bar_color (x : Z) : Z :=
  if x <? CB_X1 then TC_YELLOW
  else if x <? CB_X2 then TC_CYAN
  else if x <? CB_X3 then TC_GREEN
  else if x <? CB_X4 then TC_MAGENTA
  else if x <? CB_X5 then TC_RED
  else TC_BLUE.

Definition side_color (x y : Z) : Z :=
  if (y <? SB_T + 1) || (y >? SB_B - 2) then 0
  else
    let upper := y <? TC_CY in
    let corner := (y <=? SH_T - 2) || (y >=? SH_B + 1) in
    if (x >=? GS_L + TILE + 1) && (x <=? GS_L + 2 * TILE - 1) then
      if (x =? GS_L + 2 * TILE - 1) && negb corner then 0 else if upper then TC_TEAL else TC_PINK
    else if (x >=? GS_L + 2 * TILE) && (x <=? GS_L + 3 * TILE - 2) && corner then
      if upper then TC_BLUESIDE else TC_GOLD
    else if (x >=? GS_R - 3 * TILE + 1) && (x <=? GS_R - 2 * TILE - 1) && corner then
      if upper then TC_BLUESIDE else TC_GOLD
    else if (x >=? GS_R - 2 * TILE) && (x <=? GS_R - TILE - 2) then
      if (x =? GS_R - 2 * TILE) && negb corner then 0 else if upper then TC_OLIVE else TC_PURPLE
    else 0.

(** The slot id of the pixel inside the circle. *)
Definition circle_color (x y : Z) : Z :=
  let c := TC_WHITE in
  let c := if (y >=? BSQ_Y1) && (y <? BSQ_Y2)
              && (((x >=? BSQ_LX1) && (x <? BSQ_LX2)) || ((x >=? BSQ_RX1) && (x <? BSQ_RX2))) then TC_BLACK else c in
  let c := if (y >=? TBAR_Y1) && (y <? TBAR_Y2) && (x >=? TBAR_X1) && (x <? TBAR_X2) then TC_BLACK else c in
  let c := if (x >=? STRIPE_X) && (x <? STRIPE_X + 2) && (y >=? BSQ_Y1) then TC_BLACK else c in
  let c := if (y >=? EVEN_Y1) && (y <? EVEN_Y2) then if Z.rem x 25 <? 12 then TC_LITE1 else TC_BLACK else c in
  let c := if (y >=? CB_Y1) && (y <? CB_Y2) then bar_color x else c in
  let c := if y >=? CB_Y2 then TC_BLACK else c in
  let c := if (y >=? CB_Y2) && (y <? WAVE_Y2) then
             if (x >=? WV1_X1) && (x <? WV1_X2) then if Z.rem (x - WV1_X1) 8 <? 4 then TC_BLACK else TC_DARK2
             else if (x >=? WV2_X1) && (x <? WV2_X2) then if Z.rem (x - WV2_X1) 3 <? 2 then TC_BLACK else TC_DARK2
             else if (x >=? WV3_X1) && (x <? WV3_X2) then TC_DARK2
             else c
           else c in
  let c := if (y >=? GS_Y1) && (y <? GS_Y2) then
             if x <? CB_X1 then TC_BLACK
             else if x <? CB_X2 then TC_DARK1
             else if x <? CB_X3 then TC_DARK2
             else if x <? CB_X4 then TC_DARK3
             else if x <? CB_X5 then TC_LITE1
             else TC_WHITE
           else c in
  let c := if (y >=? WBW_Y1) && (y <? WBW_Y2) then
             let c := if (x >=? WBW_BX1) && (x <? WBW_BX2) then TC_BLACK else TC_WHITE in
             if (x >=? WSTRIPE_X) && (x <? WSTRIPE_X + 2) then TC_WHITE else c
           else c in
  let c := if y >=? YR_Y1 then if (x >=? RED_X1) && (x <? RED_X2) then TC_RED else TC_YELLOW else c in
  let in_xh := ((y >=? XHAIR_HY1) && (y <? XHAIR_HY2))
               || ((x >=? XHAIR_VX1) && (x <? XHAIR_VX2) && (y >=? XHAIR_VY1) && (y <? XHAIR_VY2)) in
  if in_xh then
    let tx := Z.rem (x - GS_L) TILE in
    let c := if (tx =? 0) || (tx =? TILE - 1) then TC_WHITE else TC_BLACK in
    if ((x =? TC_CX) || (x =? TC_CX - 1)) || (y =? TC_CY) then TC_WHITE else c
  else c.

(** The slot id of a pixel of the card. *)
Definition pixel_color (x y : Z) : Z :=
  let r2 := TC_CR * TC_CR in
  let dx := x - TC_CX in
  let dy := y - TC_CY in
  let d2 := dx * dx + dy * dy in
  let in_circ := d2 <=? r2 in
  let tc_col := Z.quot (x - GS_L + 2 * TILE) TILE in
  let tc_row := Z.quot (y - GS_T + 2 * TILE) TILE in
  let tc_tx := Z.rem (x - GS_L + 2 * TILE) TILE in
  let tc_ty := Z.rem (y - GS_T + 2 * TILE) TILE in
  let tc_border := (tc_tx =? 0) || (tc_tx =? TILE - 1) || (tc_ty =? 0) || (tc_ty =? TILE - 1) in
  let tc_dark := Z.rem (tc_col + tc_row) 2 =? 1 in
  let c := if tc_border || negb tc_dark then TC_WHITE else TC_BLACK in
  let c := if (x >=? GS_L) && (x <=? GS_R) && (y >=? GS_T) && (y <=? GS_B) then
             let tx := Z.rem (x - GS_L) TILE in
             let ty := Z.rem (y - GS_T) TILE in
             if (tx >? 0) && (tx <? TILE - 1) && (ty >? 0) && (ty <? TILE - 1) then TC_BG else TC_WHITE
           else c in
  let c := if negb in_circ && (x >=? GS_L) && (x <=? GS_R) then
             let sc := side_color x y in if negb (sc =? 0) then sc else c
           else c in
  if in_circ then circle_color x y else c.

Definition BLYT32_TEXT : list Z := text "BLYT32"%string.

Definition blyt_testcard_draw (frame_count : Z) (palette pixels_out : list Z) : option (list Z) :=
  nidx ← mapM (blyt_palette_nearest palette) TC_RGB;
  px ← rows (Z.to_nat TC_H) 0 (fun y => rows (Z.to_nat TC_W) 0 (fun x px =>
         i ← zget nidx (pixel_color x y); zset px (y * TC_W + x) i)) pixels_out;
  white ← zget nidx TC_WHITE;
  px ← tc_draw_text (TC_CX - 35) (TBAR_Y1 + Z.quot (TBAR_Y2 - TBAR_Y1 - 14) 2) BLYT32_TEXT white 2 px;
  numstr ← tc_itoa frame_count;
  txt ← zget nidx TC_TEXT;
  tc_draw_text (TC_CX - Z.quot (len numstr * 6 - 1) 2) FC_Y numstr txt 1 px.

(** ** Lemmas: loops *)

Lemma rows_total (I : list Z -> Prop) k y f px :
  (forall i px, y <= i < y + Z.of_nat k -> I px -> exists px', f i px = Some px' /\ I px') ->
  I px -> exists px', rows k y f px = Some px' /\ I px'.
Proof.
  revert y px. induction k as [|k IH]; intros y px Hf Hpx; cbn [rows]; [eauto|].
  destruct (Hf y px) as (px1 & -> & Hpx1); [lia|done|]. cbn [mbind option_bind]. apply IH; [|done]. intros; apply Hf; [lia|done].
Qed.

Lemma rows_ext (I : list Z -> Prop) k y f f' px :
  (forall i px, y <= i < y + Z.of_nat k -> I px -> f i px = f' i px) ->
  (forall i px px', y <= i < y + Z.of_nat k -> I px -> f' i px = Some px' -> I px') ->
  I px -> rows k y f px = rows k y f' px.
Proof.
  revert y px. induction k as [|k IH]; intros y px Hf Hi Hpx; cbn [rows]; [done|].
  rewrite Hf by (lia || done). destruct (f' y px) as [px1|] eqn:E; [|done]. cbn [mbind option_bind].
  apply IH; [intros; apply Hf; [lia|done]|intros i px2 px3 ? ? ?; apply (Hi i px2 px3); [lia|done|done]|].
  apply (Hi y px px1); [lia|done|done].
Qed.

(** A loop of stores at consecutive offsets is one store. *)
Lemma rows_zset k x off (g : Z -> Z) px :
  0 <= x -> 0 <= off -> off + x + Z.of_nat k <= len px ->
  rows k x (fun i px => zset px (off + i) (g i)) px = store_bytes px (off + x) (g <$> seqZ x (Z.of_nat k)).
Proof.
  intros Hx Hoff. revert x px Hx. induction k as [|k IH]; intros x px Hx Hl; cbn [rows].
  - unfold store_bytes. change (g <$> seqZ x (Z.of_nat 0)) with (@nil Z).
    rewrite rd_Some by (change (len (@nil Z)) with 0; lia). cbn [mbind option_bind]. f_equal. unfold splice. cbn [app length]. by rewrite Nat.add_0_r, take_drop.
  - rewrite zset_Some by lia. cbn [mbind option_bind]. rewrite IH by (rewrite ?len_insert; lia).
    replace (Z.of_nat (S k)) with (Z.succ (Z.of_nat k)) by lia. rewrite (seqZ_cons x) by lia. rewrite Z.pred_succ, fmap_cons.
    replace (off + (x + 1)) with (off + x + 1) by lia. replace (x + 1) with (Z.succ x) by lia.
    assert (len (g <$> seqZ (Z.succ x) (Z.of_nat k)) = Z.of_nat k) as Hlen by (unfold len; rewrite length_fmap, length_seqZ; lia).
    unfold store_bytes. rewrite len_cons, Hlen. rewrite !rd_Some by (rewrite ?len_insert; lia). cbn [mbind option_bind]. f_equal.
    apply list_eq_zget.
    { rewrite !len_splice; rewrite ?len_cons, ?Hlen, ?len_insert; lia. }
    rewrite len_splice by (rewrite ?Hlen, ?len_insert; lia). rewrite len_insert. intros i Hi.
    rewrite !zget_splice by (rewrite ?len_cons, ?Hlen, ?len_insert; lia). rewrite len_cons, Hlen.
    destruct (Z.eqb_spec i (off + x)) as [->|Hne].
    + rewrite (proj2 (andb_false_iff _ _)) by lia. rewrite (proj2 (andb_true_iff _ _)) by lia.
      rewrite zget_insert_eq by lia. replace (off + x - (off + x)) with 0 by lia. done.
    + destruct ((off + x + 1 <=? i) && _) eqn:E.
      * rewrite (proj2 (andb_true_iff _ _)) by lia. replace (i - (off + x)) with (Z.succ (i - (off + x + 1))) by lia.
        unfold zget. rewrite !(proj2 (Z.leb_le 0 _)) by lia. by rewrite Z2Nat.inj_succ by lia.
      * rewrite (proj2 (andb_false_iff ((off + x <=? i)) _)) by lia. by rewrite zget_insert_ne by lia.
Qed.

(** ** Lemmas: slot ids *)

Definition slot (c : Z) : Prop := 0 <= c < TC_NREF.

Lemma slot_if (b : bool) x y : slot x -> slot y -> slot (if b then x else y).
Proof. by destruct b. Qed.

Ltac slots := repeat apply slot_if; unfold slot, TC_NREF; vm_compute; split; congruence.

Lemma bar_slot x : slot (bar_color x).
Proof. unfold bar_color. slots. Qed.

Lemma side_slot x y : slot (side_color x y).
Proof. unfold side_color. cbv zeta. slots. Qed.

Lemma circle_slot x y : slot (circle_color x y).
Proof. unfold circle_color. cbv zeta. repeat apply slot_if; try apply bar_slot; unfold slot, TC_NREF; vm_compute; split; congruence. Qed.

Lemma pixel_slot x y : slot (pixel_color x y).
Proof.
  unfold pixel_color. cbv zeta. apply slot_if; [apply circle_slot|].
  repeat apply slot_if; try apply side_slot; unfold slot, TC_NREF; vm_compute; split; congruence.
Qed.

(** ** Lemmas: text *)

Section text.
Context (P : Z -> Prop).

Definition canvas (px : list Z) : Prop := len px = 76800 /\ Forall P px.

Lemma pset_total x y color px :
  is_i32 x -> is_i32 y -> P color -> canvas px -> exists px', tc_pset x y color px = Some px' /\ canvas px'.
Proof.
  intros Hx Hy Hc [Hl HP]. unfold tc_pset, TC_W, TC_H. destruct ((u32 x <? 320) && (u32 y <? 240)) eqn:E; [|by exists px].
  assert (forall z, is_i32 z -> u32 z < 320 -> 0 <= z < 320 /\ u32 z = z) as Hu.
  { intros z Hz. unfold is_i32, u32, wrap in *. Z.div_mod_to_equations. lia. }
  destruct (Hu x Hx) as [? ?]; [lia|]. destruct (Hu y Hy) as [? ?]; [lia|].
  rewrite zset_Some by lia. eexists. split; [done|]. split; [by rewrite len_insert|]. by apply Forall_insert.
Qed.

Lemma char_total x0 y0 g color scale px :
  -10000 <= x0 <= 10000 -> -10000 <= y0 <= 10000 -> 0 <= scale <= 2 -> length g = 7%nat -> P color -> canvas px ->
  exists px', tc_draw_char x0 y0 g color scale px = Some px' /\ canvas px'.
Proof.
  intros Hx Hy Hs Hg Hc Hpx. unfold tc_draw_char. apply rows_total; [|done]. intros row px1 Hrow Hpx1.
  apply rows_total; [|done]. intros col px2 Hcol Hpx2.
  destruct (zget_is_Some g row) as [b ->]; [unfold len; lia|]. cbn [mbind option_bind]. destruct (negb _); [|by exists px2].
  apply rows_total; [|done]. intros sy px3 Hsy Hpx3. apply rows_total; [|done]. intros sx px4 Hsx Hpx4.
  apply pset_total; try done; unfold is_i32; nia.
Qed.

Lemma glyph_len c g : tc_glyph c = Some g -> length g = 7%nat.
Proof. unfold tc_glyph. repeat case_match; intros; simplify_eq; reflexivity. Qed.

Lemma text_total str x y0 color scale px :
  -10000 <= x -> x + 12 * len str <= 10000 -> -10000 <= y0 <= 10000 -> 0 <= scale <= 2 -> P color -> canvas px ->
  exists px', tc_draw_text x y0 str color scale px = Some px' /\ canvas px'.
Proof.
  revert x px. induction str as [|c str IH]; intros x px Hx1 Hx2 Hy Hs Hc Hpx; cbn [tc_draw_text]; [by exists px|].
  rewrite len_cons in Hx2. pose proof (len_nonneg str).
  assert (exists px', match tc_glyph c with Some g => tc_draw_char x y0 g color scale px | None => Some px end = Some px' /\ canvas px')
    as (px1 & -> & Hpx1).
  { destruct (tc_glyph c) as [g|] eqn:Eg; [|by exists px]. apply char_total; try done; [lia|]. by apply (glyph_len c). }
  cbn [mbind option_bind]. apply IH; try done; nia.
Qed.
End text.

(** ** Lemmas: the frame counter *)

Lemma dec_loop_app k n : 0 < n < 10 ^ Z.of_nat k ->
  forall tmp fuel, (k < fuel)%nat -> len tmp + Z.of_nat k <= 12 ->
  itoa_loop fuel n tmp = Some (dec_loop k n ++ tmp).
Proof.
  revert n. induction k as [|k IH]; intros n Hn tmp fuel Hf Hl; [cbn in Hn; lia|].
  destruct fuel as [|fuel]; [lia|]. cbn [itoa_loop dec_loop]. rewrite (proj2 (Z.eqb_neq n 0)) by lia.
  destruct (Z.geb_spec (len tmp) 12); [lia|]. destruct (Z.ltb_spec n 10) as [Hs|Hb].
  - rewrite Z.div_small, Z.mod_small by lia. destruct fuel as [|fuel]; [lia|]. done.
  - rewrite Nat2Z.inj_succ, Z.pow_succ_r in Hn by lia. rewrite (IH (n / 10)); [by rewrite <-app_assoc| |lia|rewrite len_cons; lia].
    Z.div_mod_to_equations. lia.
Qed.

Lemma dec_loop_len k n : 0 <= n -> len (dec_loop k n) <= Z.of_nat k.
Proof.
  revert n. induction k as [|k IH]; intros n Hn; cbn [dec_loop]; [done|]. destruct (n <? 10); [unfold len; cbn; lia|].
  rewrite len_app. pose proof (IH (n / 10) ltac:(Z.div_mod_to_equations; lia)). change (len [48 + n mod 10]) with 1. lia.
Qed.

Lemma itoa_dec n : is_u32 n -> tc_itoa n = Some (dec n).
Proof.
  intros Hn. unfold tc_itoa, dec, is_u32 in *. destruct (Z.eqb_spec n 0) as [->|]; [done|].
  rewrite (dec_loop_app 10 n) by (change (len (@nil Z)) with 0; change (Z.of_nat 10) with 10; lia). cbn [mbind option_bind]. rewrite app_nil_r.
  pose proof (dec_loop_len 10 n ltac:(lia)). destruct (Z.gtb_spec (len (dec_loop 10 n) + 1) 12); [lia|done].
Qed.

(** ** Lemmas: the card *)

Lemma nidx_total palette :
  len palette = 256 ->
  exists nidx, mapM (blyt_palette_nearest palette) TC_RGB = Some nidx /\ len nidx = 20
    /\ Forall (fun b => exists rgb, rgb ∈ TC_RGB /\ blyt_palette_nearest palette rgb = Some b) nidx.
Proof.
  intros Hp. assert (forall rgb, exists i, blyt_palette_nearest palette rgb = Some i) as Hall.
  { intros rgb. destruct (nearest_loop_spec 256 0 palette rgb 0xFFFFFFFF 0) as (i & Hi & _); [done|lia|lia|by left|by exists i]. }
  assert (exists nidx, mapM (blyt_palette_nearest palette) TC_RGB = Some nidx) as [nidx Hn].
  { apply mapM_is_Some, Forall_true. intros rgb. destruct (Hall rgb) as [i Hi]. by exists i. }
  exists nidx. split; [done|]. apply mapM_Some in Hn. split.
  - unfold len. by rewrite <-(Forall2_length _ _ _ Hn).
  - apply Forall_forall. intros b (k & Hk)%list_elem_of_lookup.
    destruct (Forall2_lookup_r _ _ _ _ _ Hn Hk) as (rgb & Hr & Hb). exists rgb. split; [by eapply list_elem_of_lookup_2|done].
Qed.

(** The pixel loops write every byte of the frame, so the old frame does not matter. *)
Lemma card_loop nidx (P : Z -> Prop) :
  (forall c, slot c -> exists i, zget nidx c = Some i /\ P i) ->
  exists px', canvas P px' /\ forall px, len px = TC_W * TC_H ->
    rows (Z.to_nat TC_H) 0 (fun y => rows (Z.to_nat TC_W) 0 (fun x px =>
      i ← zget nidx (pixel_color x y); zset px (y * TC_W + x) i)) px = Some px'.
Proof.
  intros Hslot. set (colour := fun x y => default 0 (zget nidx (pixel_color x y))).
  assert (forall x y, zget nidx (pixel_color x y) = Some (colour x y) /\ P (colour x y)) as Hcol.
  { intros x y. destruct (Hslot (pixel_color x y) (pixel_slot x y)) as (i & Hi & HP). unfold colour. by rewrite Hi. }
  set (row := fun y => (fun x => colour x y) <$> seqZ 0 320).
  assert (forall y, len (row y) = 320) as Hrow by (intros y; unfold row, len; rewrite length_fmap, length_seqZ; lia).
  assert (forall px, len px = 76800 -> exists px',
    rows (Z.to_nat TC_H) 0 (fun y => rows (Z.to_nat TC_W) 0 (fun x px =>
      i ← zget nidx (pixel_color x y); zset px (y * TC_W + x) i)) px = Some px'
    /\ len px' = 76800 /\ forall x y, 0 <= x < 320 -> 0 <= y < 240 -> zget px' (y * 320 + x) = Some (colour x y)) as Hrun.
  { intros px Hl. rewrite (rows_ext (fun px => len px = 76800) _ _ _ (fun y px => store_bytes px (y * 320 + 0) (row y)) px); [| | |done].
    - destruct (rows_spec (Z.to_nat TC_H) 0 (fun y px => store_bytes px (y * 320 + 0) (row y)) px 320 0 320 row)
        as (px' & -> & Hl' & Hpx); [lia|lia|lia|lia|unfold TC_H; lia|intros; apply Hrow|done|].
      exists px'. split; [done|]. split; [lia|]. intros x y Hx Hy. change (zget px' (y * 320 + x)) with (at_ px' 320 x y).
      rewrite Hpx by lia. cond E; [|unfold TC_H in E; lia]. rewrite Z.sub_0_r.
      unfold row. rewrite zget_lookup by lia. rewrite list_lookup_fmap, lookup_seqZ_lt by lia. cbn. do 2 f_equal. lia.
    - intros y px1 Hy Hl1.
      rewrite (rows_ext (fun _ => True) _ _ _ (fun x px => zset px (y * 320 + x) (colour x y)) px1); [|intros x px2 _ _|done|done].
      + rewrite (rows_zset (Z.to_nat TC_W) 0 (y * 320) (fun x => colour x y) px1) by (unfold TC_W, TC_H in *; lia). done.
      + destruct (Hcol x y) as [-> _]. done.
    - intros y px1 px2 Hy Hl1 Hst. unfold store_bytes in Hst. rewrite (Hrow y), rd_Some in Hst by (unfold TC_H in Hy; lia). cbn in Hst.
      injection Hst as <-. rewrite len_splice; [done|lia|rewrite Hrow; unfold TC_H in Hy; lia]. }
  assert (forall px1 px2 : list Z, len px1 = 76800 -> len px2 = 76800 ->
    (forall x y, 0 <= x < 320 -> 0 <= y < 240 -> zget px1 (y * 320 + x) = zget px2 (y * 320 + x)) -> px1 = px2) as Heq.
  { intros px1 px2 H1 H2 H. apply list_eq_zget; [lia|]. intros i Hi. replace i with (i / 320 * 320 + i mod 320) by (Z.div_mod_to_equations; lia).
    apply H; Z.div_mod_to_equations; lia. }
  destruct (Hrun (replicate (Z.to_nat 76800) 0)) as (px' & _ & Hl' & Hz'); [rewrite len_replicate; lia|].
  exists px'. split; [split; [done|]|].
  - apply Forall_forall. intros b (k & Hk)%list_elem_of_lookup. pose proof (lookup_lt_Some _ _ _ Hk) as Hlt.
    assert (zget px' (Z.of_nat k) = Some b) as Hb by (rewrite zget_lookup by lia; by rewrite Nat2Z.id). unfold len in Hl'.
    replace (Z.of_nat k) with (Z.of_nat k / 320 * 320 + Z.of_nat k mod 320) in Hb by (Z.div_mod_to_equations; lia).
    rewrite Hz' in Hb by (Z.div_mod_to_equations; lia). injection Hb as <-. apply Hcol.
  - intros px Hl. destruct (Hrun px Hl) as (px2 & -> & Hl2 & Hz2). f_equal. apply Heq; [done|done|].
    intros x y Hx Hy. by rewrite Hz', Hz2.
Qed.

(** A full frame, whatever the framebuffer held. *)
Lemma testcard_total (frame_count : Z) (palette : list Z) :
  len palette = 256 -> is_u32 frame_count ->
  exists out, len out = TC_W * TC_H
    /\ Forall (fun b => exists rgb, rgb ∈ TC_RGB /\ blyt_palette_nearest palette rgb = Some b) out
    /\ forall pixels, len pixels = TC_W * TC_H -> blyt_testcard_draw frame_count palette pixels = Some out.
Proof.
  intros Hpal Hfc.
  set (P := fun b => exists rgb, rgb ∈ TC_RGB /\ blyt_palette_nearest palette rgb = Some b).
  destruct (nidx_total palette Hpal) as (nidx & Hn & Hlen & HP). fold P in HP.
  assert (forall c, slot c -> exists i, zget nidx c = Some i /\ P i) as Hslot.
  { intros c Hc. unfold slot, TC_NREF in Hc. destruct (zget_is_Some nidx c) as [i Hi]; [lia|]. exists i. split; [done|].
    apply zget_Some in Hi as [_ Hi]. by eapply Forall_lookup_1. }
  destruct (card_loop nidx P Hslot) as (px1 & Hcanvas & Hloop).
  destruct (Hslot TC_WHITE) as (white & Hw & HPw); [by unfold slot, TC_NREF, TC_WHITE|].
  destruct (Hslot TC_TEXT) as (txt & Ht & HPt); [by unfold slot, TC_NREF, TC_TEXT|].
  destruct (text_total P BLYT32_TEXT (TC_CX - 35) (TBAR_Y1 + Z.quot (TBAR_Y2 - TBAR_Y1 - 14) 2) white 2 px1)
    as (px2 & Hpx2 & Hc2); [vm_compute; congruence|vm_compute; congruence|vm_compute; split; congruence|lia|done|done|].
  pose proof (dec_loop_len 10 frame_count ltac:(apply Hfc)) as Hdl. fold (dec frame_count) in Hdl. pose proof (len_nonneg (dec frame_count)).
  destruct (text_total P (dec frame_count) (TC_CX - Z.quot (len (dec frame_count) * 6 - 1) 2) FC_Y txt 1 px2) as (out & Hout & Hlo & HPo);
    [unfold TC_CX; Z.quot_rem_to_equations; lia|unfold TC_CX; Z.quot_rem_to_equations; lia|vm_compute; split; congruence|lia|done|done|].
  exists out. split; [done|]. split; [done|]. intros pixels Hpx. unfold blyt_testcard_draw.
  rewrite Hn. cbn [mbind option_bind]. rewrite (Hloop pixels Hpx). cbn [mbind option_bind]. rewrite Hw. cbn [mbind option_bind].
  rewrite Hpx2. cbn [mbind option_bind]. rewrite (itoa_dec frame_count Hfc). cbn [mbind option_bind]. rewrite Ht. exact Hout.
Qed.

(** ** Properties *)

(** The test card is complete, palette-bound and stateless.  For any 256-entry palette,
    any frame counter and any framebuffer, drawing stays inside every array and yields
    a full frame that does not depend on what the framebuffer held: each byte is the
    palette index nearest to one of the twenty reference colours.  The counter is shown
    in decimal, without overflowing its buffers. *)
Theorem testcard_exact (frame_count : Z) (palette : list Z) :
  len palette = 256 -> is_u32 frame_count ->
  tc_itoa frame_count = Some (dec frame_count)
  /\ exists out, len out = TC_W * TC_H
    /\ Forall (fun b => exists rgb, rgb ∈ TC_RGB /\ blyt_palette_nearest palette rgb = Some b) out
    /\ forall pixels, len pixels = TC_W * TC_H -> blyt_testcard_draw frame_count palette pixels = Some out.
Proof. intros Hpal Hfc. split; [by apply itoa_dec|by apply testcard_total]. Qed.

Lemma testcard_exact_witness :
  exists out, blyt_testcard_draw 4294967295 BLYT_PAL_CGA (replicate (Z.to_nat 76800) 9) = Some out /\ len out = 76800.
Proof.
  destruct (testcard_exact 4294967295 BLYT_PAL_CGA) as (_ & out & Hl & _ & Hd); [reflexivity|unfold is_u32; lia|].
  exists out. split; [|exact Hl]. apply Hd. rewrite len_replicate. unfold TC_W, TC_H. lia.
Defined.
