(* ===== verification/Ecall.v ===== *)
(** * Ecall: the ECALL dispatcher

    Models [blyt_ecall_handler] of [runtime/host/src/libblyt/cart_run.c]: the console-wide
    system-call interface between a guest cart and the runtime, one definition per case
    of the switch.  The build modelled has neither [BLYT_DAP] nor [BLYT_LUA_BRIDGE], so ECALLs 4 to
    8 and 10 reach the default case; [NDEBUG] is a parameter.

    The emulator (rv32emu) is not part of this repository: its register file is the class
    [RegFile], its memory the class [GuestMemory].  A handler maps the machine
    before the call to the machine after it; [None] is an access outside a buffer, an
    overlapping [memcpy], or a line that does not end. *)

From S2P Require Import Prelude Handle MemBudget StateBuffer Blys Save ResourceTable Raster Palettes RunCtx Surface.
From Stdlib Require Import ZArith Lia Strings.String.
From stdpp Require Import base tactics list gmap.
Open Scope Z_scope.

(** ** The machine *)

Class RegFile (R : Type) := {
  rv_reg : R -> Z -> Z;
  rv_put : R -> Z -> Z -> R;
  rv_reg_u32 : forall x r, is_u32 (rv_reg x r);
  rv_reg_put : forall x r v, 0 < r < 32 -> is_u32 v -> rv_reg (rv_put x r v) r = v;
  rv_reg_put_ne : forall x r r' v, r <> r' -> rv_reg (rv_put x r v) r' = rv_reg x r'
}.

Definition rv_reg_a0 : Z := 10.
Definition rv_reg_a1 : Z := 11.
Definition rv_reg_a2 : Z := 12.
Definition rv_reg_a3 : Z := 13.
Definition rv_reg_a4 : Z := 14.
Definition rv_reg_a5 : Z := 15.
Definition rv_reg_a7 : Z := 17.

(** [rv] with the memory behind it, the global [g_run_ctx], the file system the save
    slots live in, and what [log_fn] was given. *)
Record machine (R M : Type) := MkMachine {
  PC : Z;
  csr_fcsr : Z;
  rv_halted : bool;
  xregs : R;
  rv_mem : M;
  g_run_ctx : option blyt_run_ctx_t;
  files : fs;
  console : list (list Z)
}.
Arguments MkMachine {R M}. Arguments PC {R M}. Arguments csr_fcsr {R M}. Arguments rv_halted {R M}.
Arguments xregs {R M}. Arguments rv_mem {R M}. Arguments g_run_ctx {R M}. Arguments files {R M}. Arguments console {R M}.

(** What the handler takes from its surroundings. *)
Record ecall_env := MkEcallEnv {
  e_res : res_env;
  e_fs : fs_env;
  e_log_fn : bool;    (** [ctx->log_fn] is not [NULL] *)
  e_ndebug : bool     (** compiled with [NDEBUG] *)
}.

(** ** System-call numbers *)

Definition BLYT_ECALL_EXIT : Z := 0.
Definition BLYT_ECALL_CONSOLE_DEBUG : Z := 1.
Definition BLYT_ECALL_FRAME_DONE : Z := 2.
Definition BLYT_ECALL_DAP_HOOK : Z := 3.
Definition BLYT_ECALL_HOST_FN_RETURN : Z := 9.
Definition BLYT_ECALL_SAVE_WRITE : Z := 11.
Definition BLYT_ECALL_SAVE_READ : Z := 12.
Definition BLYT_ECALL_PHASE : Z := 13.
Definition BLYT_ECALL_BUF_OP : Z := 50.
Definition BLYT_ECALL_RESOURCE_PIN : Z := 61.
Definition BLYT_ECALL_RESOURCE_UNPIN : Z := 62.
Definition BLYT_ECALL_MEM_RESOURCES : Z := 70.
Definition BLYT_ECALL_SURFACE_CLEAR : Z := 100.
Definition BLYT_ECALL_SURFACE_PIXEL : Z := 101.
Definition BLYT_ECALL_SURFACE_RECT_FILL : Z := 102.
Definition BLYT_ECALL_SURFACE_LINE : Z := 103.
Definition BLYT_ECALL_GFX_ACQUIRE : Z := 104.
Definition BLYT_ECALL_GFX_PRESENT : Z := 105.
Definition BLYT_ECALL_SURFACE_CREATE : Z := 106.
Definition BLYT_ECALL_SURFACE_DESTROY : Z := 107.
Definition BLYT_ECALL_SURFACE_BLIT : Z := 108.
Definition BLYT_ECALL_SURFACE_ACQUIRE : Z := 109.
Definition BLYT_ECALL_SURFACE_RELEASE : Z := 110.
Definition BLYT_ECALL_GFX_PALETTE_SET : Z := 111.

Definition BUF_OP_GET_F32 : Z := 1.
Definition BUF_OP_SET_BOOL : Z := 16.
Definition BUF_OP_ALLOC_SLOT : Z := 17.
Definition BUF_OP_FREE_SLOT : Z := 18.
Definition BUF_OP_REF : Z := 19.
Definition BUF_OP_REF_VALID : Z := 20.
Definition BUF_OP_GET_F64 : Z := 21.
Definition BUF_OP_SET_F64 : Z := 22.

(** ** Resolving resource and palette handles *)

Definition blyt_resolve_resource (t : blyt_resource_table_t) (handle : Z) : option nat :=
  if negb (blyt_handle_is_resource handle)
     || negb (blyt_resource_decode_provenance handle =? BLYT_RESOURCE_PROV_CART) then None
  else blyt_resource_table_find_mut t (blyt_resource_decode_id handle).

(** The 1024 bytes the caller copies, [None] for [NULL]; and the table, in which the
    entry may have been decompressed.  The outer [None] is a read outside a buffer. *)
Definition blyt_resolve_palette (env : res_env) (t : option blyt_resource_table_t) (handle : Z)
    : option (option (list Z) * option blyt_resource_table_t) :=
  if blyt_resource_decode_provenance handle =? BLYT_RESOURCE_PROV_RUNTIME
  then Some ((fun p => concat (write_u32_le <$> p)) <$> blyt_builtin_palette handle, t)
  else
    match t with
    | None => Some (None, t)
    | Some tb =>
        match blyt_resolve_resource tb handle with
        | None => Some (None, t)
        | Some i =>
            e ← t_entries tb !! i;
            if negb (e_len e =? 256 * 4) then Some (None, t)
            else
              '(p, e') ← blyt_resource_entry_data env e;
              let tb' := with_entries (<[i := e']> (t_entries tb)) tb in
              match p with
              | None => Some (None, Some tb')
              | Some p => bytes ← bytes_at env e' p (256 * 4); Some (Some bytes, Some tb')
              end
        end
    end.

(** [memcpy] of 256 palette entries. *)
Fixpoint palette_of_bytes (bs : list Z) : list Z :=
  match bs with
  | a :: b :: c :: d :: bs => read_u32_le [a; b; c; d] :: palette_of_bytes bs
  | _ => []
  end.

(** ** The handler *)

Section handler.
Context {R M : Type} `{RegFile R} `{GuestMemory M} (env : ecall_env).
Abbreviation mach := (machine R M).

Definition rv_get_reg (m : mach) (r : Z) : Z := rv_reg (xregs m) r.
Definition rv_set_reg (m : mach) (r v : Z) : mach :=
  MkMachine (PC m) (csr_fcsr m) (rv_halted m) (rv_put (xregs m) r v) (rv_mem m) (g_run_ctx m) (files m) (console m).
Definition rv_halt (m : mach) : mach :=
  MkMachine (PC m) (csr_fcsr m) true (xregs m) (rv_mem m) (g_run_ctx m) (files m) (console m).
Definition set_fcsr (m : mach) (v : Z) : mach :=
  MkMachine (PC m) v (rv_halted m) (xregs m) (rv_mem m) (g_run_ctx m) (files m) (console m).
(** [rv->PC += n] *)
Definition advance (m : mach) (n : Z) : mach :=
  MkMachine (u32 (PC m + n)) (csr_fcsr m) (rv_halted m) (xregs m) (rv_mem m) (g_run_ctx m) (files m) (console m).
Definition set_mem (m : mach) (mem : M) : mach :=
  MkMachine (PC m) (csr_fcsr m) (rv_halted m) (xregs m) mem (g_run_ctx m) (files m) (console m).
Definition set_ctx (m : mach) (c : blyt_run_ctx_t) : mach :=
  MkMachine (PC m) (csr_fcsr m) (rv_halted m) (xregs m) (rv_mem m) (Some c) (files m) (console m).
Definition set_files (m : mach) (f : fs) : mach :=
  MkMachine (PC m) (csr_fcsr m) (rv_halted m) (xregs m) (rv_mem m) (g_run_ctx m) f (console m).
Definition log (m : mach) (msg : list Z) : mach :=
  if e_log_fn env
  then MkMachine (PC m) (csr_fcsr m) (rv_halted m) (xregs m) (rv_mem m) (g_run_ctx m) (files m) (console m ++ [msg])
  else m.

(** [if (g_run_ctx) g_run_ctx->... = ...] *)
Definition on_ctx (f : blyt_run_ctx_t -> blyt_run_ctx_t) (m : mach) : mach :=
  match g_run_ctx m with Some c => set_ctx m (f c) | None => m end.

(** The gates return whether the access may proceed, and [*halted]. *)
Definition blyt_surface_phase_gate (m : mach) : bool * bool * mach :=
  match g_run_ctx m with
  | None => (false, false, m)
  | Some ctx =>
      if phase ctx =? BLYT_PHASE_DRAW then (true, false, m)
      else if cart_is_debug ctx then
        let m := log m (text "blyt: surface access outside draw() — debug build trap"%string ++ [10]) in
        (false, true, rv_halt (set_ctx m (set_dev_fault true ctx)))
      else (false, false, m)
  end.

Definition blyt_surface_lock_gate (m : mach) (s : option (Z * blyt_surface_slot_t)) : bool * bool * mach :=
  match s with
  | None => (true, false, m)
  | Some (_, s) =>
      if negb (s_locked s) then (true, false, m)
      else
        match g_run_ctx m with
        | Some ctx =>
            if cart_is_debug ctx then
              let m := log m (text "blyt: access to a locked surface outside its lock view — debug build trap"%string ++ [10]) in
              (false, true, rv_halt (set_ctx m (set_dev_fault true ctx)))
            else (false, false, m)
        | None => (false, false, m)
        end
  end.

(** [g_run_ctx ? blyt_resolve_surface(&g_run_ctx->surfaces, h) : NULL] *)
Definition surface_of (m : mach) (h : Z) : option (Z * blyt_surface_slot_t) :=
  match g_run_ctx m with Some c => blyt_resolve_surface (surfaces c) h | None => None end.

Definition ecall_exit (m : mach) : option mach :=
  let code := rv_get_reg m rv_reg_a0 in
  let m := on_ctx (set_exited true) (rv_halt m) in
  Some (if negb (code =? 0) then on_ctx (set_aborted true) m else m).

(** The bytes read before the buffer or the guest RAM ends. *)
Fixpoint read_string (k : nat) (m : mach) (vaddr i : Z) : list Z :=
  match k with
  | O => []
  | S k =>
      let a := u32 (vaddr + i) in
      if negb (a <? ram_size (rv_mem m)) then []
      else memory_read (rv_mem m) a 1 ++ read_string k m vaddr (i + 1)
  end.

Definition ecall_console_debug (m : mach) : option mach :=
  let vaddr := rv_get_reg m rv_reg_a0 in
  let len := rv_get_reg m rv_reg_a1 in
  let len := if len >=? 4096 then 4096 - 1 else len in
  let buf := read_string (Z.to_nat len) m vaddr 0 in
  let m := match g_run_ctx m with Some _ => log m buf | None => m end in
  Some (advance m 4).

(** The shared body of the tier-1 operations on one surface; [draw] takes the buffer, the width
    and the height of the surface. *)
Definition surface_draw (m : mach) (dst : Z) (draw : option (list Z) -> Z -> Z -> option (option (list Z))) : option mach :=
  let '(go, halted, m) := blyt_surface_phase_gate m in
  if negb go then Some (advance m (if halted then 0 else 4))
  else
    let s := surface_of m dst in
    let '(go, halted, m) := blyt_surface_lock_gate m s in
    if negb go then Some (advance m (if halted then 0 else 4))
    else
      match s, g_run_ctx m with
      | Some (i, s), Some ctx =>
          px ← draw (pixels_of (surfaces ctx) s) (s_w s) (s_h s);
          let reg := match px with Some px => store_pixels i s px (surfaces ctx) | None => surfaces ctx end in
          let ctx := set_surfaces reg ctx in
          let ctx := if s_is_screen s then set_drawn true ctx else ctx in
          Some (advance (set_ctx m ctx) 4)
      | _, _ => Some (advance m 4)
      end.

Definition ecall_surface_clear (m : mach) : option mach :=
  let dst := rv_get_reg m rv_reg_a0 in
  let color := rv_get_reg m rv_reg_a1 in
  surface_draw m dst (fun px w h => blyt_raster_clear px w w h (u8 color)).

Definition ecall_surface_pixel (m : mach) : option mach :=
  let dst := rv_get_reg m rv_reg_a0 in
  let x := i32 (rv_get_reg m rv_reg_a1) in
  let y := i32 (rv_get_reg m rv_reg_a2) in
  let color := rv_get_reg m rv_reg_a3 in
  surface_draw m dst (fun px sw sh => blyt_raster_pixel px sw sw sh x y (u8 color)).

Definition ecall_surface_rect_fill (m : mach) : option mach :=
  let dst := rv_get_reg m rv_reg_a0 in
  let x := i32 (rv_get_reg m rv_reg_a1) in
  let y := i32 (rv_get_reg m rv_reg_a2) in
  let w := i32 (rv_get_reg m rv_reg_a3) in
  let h := i32 (rv_get_reg m rv_reg_a4) in
  let color := rv_get_reg m rv_reg_a5 in
  surface_draw m dst (fun px sw sh => blyt_raster_rect_fill px sw sw sh x y w h (u8 color)).

(** A line visits at most one point per column and row it crosses. *)
Definition line_fuel (x0 y0 x1 y1 : Z) : nat := Z.to_nat (Z.abs (x1 - x0) + Z.abs (y1 - y0) + 1).

Definition ecall_surface_line (m : mach) : option mach :=
  let dst := rv_get_reg m rv_reg_a0 in
  let x0 := i32 (rv_get_reg m rv_reg_a1) in
  let y0 := i32 (rv_get_reg m rv_reg_a2) in
  let x1 := i32 (rv_get_reg m rv_reg_a3) in
  let y1 := i32 (rv_get_reg m rv_reg_a4) in
  let color := rv_get_reg m rv_reg_a5 in
  surface_draw m dst (fun px sw sh => blyt_raster_line (line_fuel x0 y0 x1 y1) px sw sw sh x0 y0 x1 y1 (u8 color)).

Definition ecall_surface_create (m : mach) : option mach :=
  let w := i32 (rv_get_reg m rv_reg_a0) in
  let h := i32 (rv_get_reg m rv_reg_a1) in
  let '(go, halted, m) := blyt_surface_phase_gate m in
  if negb go then
    if halted then Some m
    else Some (advance (rv_set_reg m rv_reg_a0 BLYT_HANDLE_NONE) 4)
  else
    match g_run_ctx m with
    | None => None
    | Some ctx =>
        '(handle, ctx, mem) ← blyt_surface_create_slot (e_res env) ctx (rv_mem m) w h;
        Some (advance (rv_set_reg (set_mem (set_ctx m ctx) mem) rv_reg_a0 handle) 4)
    end.

Definition ecall_surface_destroy (m : mach) : option mach :=
  let handle := rv_get_reg m rv_reg_a0 in
  let s := surface_of m handle in
  let '(go, halted, m) := blyt_surface_lock_gate m s in
  if negb go then Some (advance m (if halted then 0 else 4))
  else
    match s, g_run_ctx m with
    | Some (i, s), Some ctx =>
        if negb (s_is_screen s) then
          reg ← blyt_surface_free_slot (surfaces ctx) i;
          '(ctx, mem) ← mem_acct_publish_footprint (set_surfaces reg ctx) (rv_mem m);
          Some (advance (set_mem (set_ctx m ctx) mem) 4)
        else Some (advance m 4)
    | _, _ => Some (advance m 4)
    end.

(** [blyt_raster_blit] of a buffer onto itself: each row reads what the earlier rows have
    written, and a [memcpy] between overlapping ranges is undefined. *)
Definition raster_blit_self (fb : option (list Z)) (stride width height x y : Z) : option (option (list Z)) :=
  match fb with
  | None => Some None
  | Some b =>
      if (stride <=? 0) || (width <=? 0) || (height <=? 0) then Some fb
      else
        let dx1 := x + width in
        let dy1 := y + height in
        let sox := if x <? 0 then - x else 0 in
        let dx0 := if x <? 0 then 0 else x in
        let soy := if y <? 0 then - y else 0 in
        let dy0 := if y <? 0 then 0 else y in
        let dx1 := if dx1 >? width then width else dx1 in
        let dy1 := if dy1 >? height then height else dy1 in
        if (dx1 <=? dx0) || (dy1 <=? dy0) then Some fb
        else
          let run := dx1 - dx0 in
          b' ← rows (Z.to_nat (dy1 - dy0)) dy0
                 (fun row b =>
                    let srow := soy + (row - dy0) in
                    if Z.abs ((row * stride + dx0) - (srow * stride + sox)) <? run then None
                    else bytes ← rd b (srow * stride + sox) run; store_bytes b (row * stride + dx0) bytes) b;
          Some (Some b')
  end.

Definition ecall_surface_blit (m : mach) : option mach :=
  let dst := rv_get_reg m rv_reg_a0 in
  let src := rv_get_reg m rv_reg_a1 in
  let x := i32 (rv_get_reg m rv_reg_a2) in
  let y := i32 (rv_get_reg m rv_reg_a3) in
  let '(go, halted, m) := blyt_surface_phase_gate m in
  if negb go then Some (advance m (if halted then 0 else 4))
  else
    let ds := surface_of m dst in
    let ss := surface_of m src in
    let '(go, halted, m) := blyt_surface_lock_gate m ds in
    if negb go then Some (advance m (if halted then 0 else 4))
    else
      let '(go, halted, m) := blyt_surface_lock_gate m ss in
      if negb go then Some (advance m (if halted then 0 else 4))
      else
        match ds, ss, g_run_ctx m with
        | Some (i, ds), Some (j, ss), Some ctx =>
            px ← (if i =? j then raster_blit_self (pixels_of (surfaces ctx) ds) (s_w ds) (s_w ds) (s_h ds) x y
                  else blyt_raster_blit (pixels_of (surfaces ctx) ds) (s_w ds) (s_w ds) (s_h ds)
                         (pixels_of (surfaces ctx) ss) (s_w ss) (s_w ss) (s_h ss) x y);
            let reg := match px with Some px => store_pixels i ds px (surfaces ctx) | None => surfaces ctx end in
            let ctx := set_surfaces reg ctx in
            let ctx := if s_is_screen ds then set_drawn true ctx else ctx in
            Some (advance (set_ctx m ctx) 4)
        | _, _, _ => Some (advance m 4)
        end.

Definition ecall_surface_acquire (m : mach) : option mach :=
  let surface := rv_get_reg m rv_reg_a0 in
  let out_vaddr := rv_get_reg m rv_reg_a1 in
  let '(go, halted, m) := blyt_surface_phase_gate m in
  if halted then Some m
  else
    match g_run_ctx m with
    | None => Some (advance (rv_set_reg m rv_reg_a0 0) 4)
    | Some ctx =>
        '(ok, ctx, mem) ← blyt_surface_acquire_lock ctx (rv_mem m) surface out_vaddr (negb go);
        Some (advance (rv_set_reg (set_mem (set_ctx m ctx) mem) rv_reg_a0 ok) 4)
    end.

Definition ecall_surface_release (m : mach) : option mach :=
  let token := rv_get_reg m rv_reg_a0 in
  match g_run_ctx m with
  | None => Some (advance m 4)
  | Some ctx =>
      '(s, ctx) ← blyt_surface_release_lock ctx (rv_mem m) token;
      let ctx := match s with Some s => if s_is_screen s then set_drawn true ctx else ctx | None => ctx end in
      Some (advance (set_ctx m ctx) 4)
  end.

Definition ecall_gfx_acquire (m : mach) : option mach :=
  Some (advance (rv_set_reg m rv_reg_a0 BLYT_GFX_FB_BASE) 4).

Definition ecall_gfx_present (m : mach) : option mach :=
  match g_run_ctx m with
  | None => Some (advance m 4)
  | Some ctx =>
      let bytes := memory_read (rv_mem m) BLYT_GFX_FB_BASE (BLYT_FRAME_W * BLYT_FRAME_H) in
      fb ← store_bytes (reg_screen (surfaces ctx)) 0 bytes;
      Some (advance (set_ctx m (set_drawn true (set_surfaces (with_screen fb (surfaces ctx)) ctx))) 4)
  end.

Definition ecall_gfx_palette_set (m : mach) : option mach :=
  let handle := rv_get_reg m rv_reg_a0 in
  '(pal, t) ← blyt_resolve_palette (e_res env) (resources <$> g_run_ctx m) handle;
  Some (advance (on_ctx (fun ctx =>
    let ctx := match t with Some t => set_resources t ctx | None => ctx end in
    match pal with Some p => set_palette (palette_of_bytes p) ctx | None => ctx end) m) 4).

(** [if (vaddr) memory_write(mem, vaddr, &v, 4)] *)
Definition out_u32 (m : mach) (vaddr v : Z) : mach :=
  if vaddr =? 0 then m else set_mem m (memory_write (rv_mem m) vaddr (write_u32_le v)).

(** Entry [i] of the table after its bytes were materialised. *)
Definition put_entry (i : nat) (e : blyt_resource_entry_t) (ctx : blyt_run_ctx_t) : blyt_run_ctx_t :=
  set_resources (with_entries (<[i := e]> (t_entries (resources ctx))) (resources ctx)) ctx.

(** The part of a pin that copies the bytes to the scratch region and takes the pin. *)
Definition pin_copy (m : mach) (ctx : blyt_run_ctx_t) (i : nat) (e : blyt_resource_entry_t) (bytes : option data_ptr)
    (out_ptr_vaddr out_size_vaddr : Z) : option mach :=
  let off := resource_scratch_off ctx in
  let need := u32 (e_len e) in
  if need >? BLYT_RESOURCE_SCRATCH_SIZE then Some (advance (rv_set_reg (out_u32 m out_ptr_vaddr 0) rv_reg_a0 3) 4)
  else
    let off := if u32 (off + need) >? BLYT_RESOURCE_SCRATCH_SIZE then 0 else off in
    let gptr := u32 (BLYT_RESOURCE_SCRATCH_BASE + off) in
    mem ← (if need =? 0 then Some (rv_mem m)
           else p ← bytes; bs ← bytes_at (e_res env) e p need; Some (memory_write (rv_mem m) gptr bs));
    let ctx := set_scratch_off (u32 (off + need)) ctx in
    let ctx := put_entry i (with_rl (blyt_rl_pin (e_rl e)) e) ctx in
    let ctx := set_resources (blyt_resource_table_touch (resources ctx) i) ctx in
    '(ctx, mem) ← mem_acct_publish_footprint ctx mem;
    let m := out_u32 (set_mem (set_ctx m ctx) mem) out_ptr_vaddr gptr in
    let m := out_u32 m out_size_vaddr need in
    Some (advance (rv_set_reg m rv_reg_a0 0) 4).

Definition ecall_resource_pin (m : mach) : option mach :=
  let handle := rv_get_reg m rv_reg_a0 in
  let out_ptr_vaddr := rv_get_reg m rv_reg_a1 in
  let out_size_vaddr := rv_get_reg m rv_reg_a2 in
  let fail m code := Some (advance (rv_set_reg (out_u32 m out_ptr_vaddr 0) rv_reg_a0 code) 4) in
  match g_run_ctx m with
  | None => fail m 4
  | Some ctx =>
      match blyt_resolve_resource (resources ctx) handle with
      | None => fail m 4
      | Some i =>
          e ← t_entries (resources ctx) !! i;
          let pin_was_evictable := blyt_rl_is_evictable (e_rl e) in
          if negb (mem_acct_reference_fits ctx (rv_mem m) e pin_was_evictable) then fail m 2
          else
            '(bytes, e) ← blyt_resource_entry_data (e_res env) e;
            let ctx := put_entry i e ctx in
            let m := set_ctx m ctx in
            match bytes, e_len e =? 0 with
            | None, false => fail m 3
            | _, _ => pin_copy m ctx i e bytes out_ptr_vaddr out_size_vaddr
            end
      end
  end.

Definition ecall_resource_unpin (m : mach) : option mach :=
  let handle := rv_get_reg m rv_reg_a0 in
  match g_run_ctx m with
  | None => Some (advance (rv_set_reg m rv_reg_a0 4) 4)
  | Some ctx =>
      match blyt_resolve_resource (resources ctx) handle with
      | None => Some (advance (rv_set_reg m rv_reg_a0 4) 4)
      | Some i =>
          e ← t_entries (resources ctx) !! i;
          let '(ok, rl) := blyt_rl_unpin (e_rl e) in
          if ok then
            '(ctx, mem) ← mem_acct_publish_footprint (put_entry i (with_rl rl e) ctx) (rv_mem m);
            Some (advance (rv_set_reg (set_mem (set_ctx m ctx) mem) rv_reg_a0 0) 4)
          else Some (advance (rv_set_reg m rv_reg_a0 1) 4)
      end
  end.

(** Persistent, decompressed, or a zero-copy entry the cart has used. *)
Definition resident (e : blyt_resource_entry_t) : bool :=
  e_persistent e || owned_bit e || ((e_algo e =? BLYT_RES_ALGO_NONE) && (e_last_access e >? 0)).

Fixpoint resources_loop (l : list blyt_resource_entry_t) (out_res_vaddr cap loaded : Z) (mem : M) : Z * M :=
  match l with
  | [] => (loaded, mem)
  | e :: l =>
      if negb (resident e) then resources_loop l out_res_vaddr cap loaded mem
      else
        let mem :=
          if negb (out_res_vaddr =? 0) && (loaded <? cap) then
            let pair := write_u32_le (blyt_resource_encode (e_id e) BLYT_RESOURCE_PROV_CART) ++ write_u32_le (u32 (e_len e)) in
            memory_write mem (u32 (out_res_vaddr + u32 (loaded * 8))) pair
          else mem in
        resources_loop l out_res_vaddr cap (u32 (loaded + 1)) mem
  end.

Definition ecall_mem_resources (m : mach) : option mach :=
  let out_res_vaddr := rv_get_reg m rv_reg_a0 in
  let cap := rv_get_reg m rv_reg_a1 in
  let '(loaded, mem) := match g_run_ctx m with
                        | Some ctx => resources_loop (t_entries (resources ctx)) out_res_vaddr cap 0 (rv_mem m)
                        | None => (0, rv_mem m)
                        end in
  Some (advance (rv_set_reg (set_mem m mem) rv_reg_a0 loaded) 4).

Definition ecall_phase (m : mach) : option mach :=
  let p := rv_get_reg m rv_reg_a0 in
  Some (advance (on_ctx (set_phase (i32 p)) m) 4).

Definition ecall_frame_done (m : mach) : option mach :=
  let m := advance m 4 in
  let frm := Z.land (Z.shiftr (csr_fcsr m) 5) 7 in
  if negb (frm =? 0) && e_ndebug env then Some (rv_halt (on_ctx (set_aborted true) m))
  else
    let m := set_fcsr m 0 in
    Some (rv_halt (on_ctx (set_frame_done true) m)).

(** Without [BLYT_DAP]: never active. *)
Definition ecall_dap_hook (m : mach) : option mach := Some (advance (rv_set_reg m rv_reg_a0 0) 4).

Definition ecall_host_fn_return (m : mach) : option mach :=
  Some (rv_halt (on_ctx (set_fn_return_done true) (advance m 4))).

Definition MINUS_1 : Z := u32 (-1).

(** The sub-operations; the caller advances the PC. *)
Definition buf_op (m : mach) (ctx : blyt_run_ctx_t) (sc : blyt_state_ctx_t) : option mach :=
  let op := rv_get_reg m rv_reg_a0 in
  let buf_id := rv_get_reg m rv_reg_a1 in
  let slot := i32 (rv_get_reg m rv_reg_a2) in
  let field := Z.land (rv_get_reg m rv_reg_a3) 0xFFFF in
  let value_bits := rv_get_reg m rv_reg_a4 in
  let put sc m := set_ctx m (set_state (Some sc) ctx) in
  if (BUF_OP_GET_F32 <=? op) && (op <=? BUF_OP_SET_BOOL) then
    if Z.odd op then
      r ← blyt_state_get sc buf_id slot field;
      Some (rv_set_reg m rv_reg_a0 (default 0 (snd r)))
    else
      r ← blyt_state_set sc buf_id slot field value_bits 0;
      Some (rv_set_reg (put (snd r) m) rv_reg_a0 0)
  else if op =? BUF_OP_ALLOC_SLOT then
    let out_vaddr := u32 slot in
    '(r, new_slot, sc) ← blyt_state_alloc_slot sc buf_id;
    let m := out_u32 (put sc m) out_vaddr (u32 (default (-1) new_slot)) in
    Some (rv_set_reg m rv_reg_a0 (if r =? 0 then 0 else MINUS_1))
  else if op =? BUF_OP_FREE_SLOT then
    '(r, sc) ← blyt_state_free_slot sc buf_id slot;
    Some (rv_set_reg (put sc m) rv_reg_a0 (if r =? 0 then 0 else MINUS_1))
  else if op =? BUF_OP_REF then
    ref ← blyt_state_ref sc buf_id slot;
    Some (rv_set_reg m rv_reg_a0 ref)
  else if op =? BUF_OP_REF_VALID then
    v ← blyt_state_ref_valid sc buf_id (u32 slot);
    Some (rv_set_reg m rv_reg_a0 (if (v : bool) then 1 else 0))
  else if op =? BUF_OP_GET_F64 then
    r ← blyt_state_get64 sc buf_id slot field;
    let bits := default 0 (snd r) in
    Some (rv_set_reg (rv_set_reg m rv_reg_a0 (u32 bits)) rv_reg_a1 (u32 (Z.shiftr bits 32)))
  else if op =? BUF_OP_SET_F64 then
    let bits := Z.lor value_bits (Z.shiftl (rv_get_reg m rv_reg_a5) 32) in
    r ← blyt_state_set64 sc buf_id slot field bits;
    Some (rv_set_reg (put (snd r) m) rv_reg_a0 0)
  else Some (rv_set_reg m rv_reg_a0 MINUS_1).

Definition ecall_buf_op (m : mach) : option mach :=
  let no_ctx :=
    let no_ctx_op := rv_get_reg m rv_reg_a0 in
    let no_ctx_ret := if (no_ctx_op =? BUF_OP_REF) || (no_ctx_op =? BUF_OP_REF_VALID) then 0 else MINUS_1 in
    Some (advance (rv_set_reg m rv_reg_a0 no_ctx_ret) 4) in
  match g_run_ctx m with
  | None => no_ctx
  | Some ctx =>
      match state_ctx ctx with
      | None => no_ctx
      | Some sc => m' ← buf_op m ctx sc; Some (advance m' 4)
      end
  end.

Definition ecall_save_write (m : mach) : option mach :=
  let slot_n := rv_get_reg m rv_reg_a0 in
  '(r, f) ← match g_run_ctx m with
            | Some ctx =>
                match state_ctx ctx, save_dir ctx with
                | Some sc, Some dir =>
                    blyt_save_write (e_fs env) sc (Some dir) (Some (cart_name ctx)) slot_n (save_version ctx) (files m)
                | _, _ => Some (-1, files m)
                end
            | None => Some (-1, files m)
            end;
  Some (advance (rv_set_reg (set_files m f) rv_reg_a0 (if r =? 0 then 0 else 3)) 4).

Definition ecall_save_read (m : mach) : option mach :=
  let slot_n := rv_get_reg m rv_reg_a0 in
  '(r, saved_version, m) ←
     match g_run_ctx m with
     | Some ctx =>
         match state_ctx ctx, save_dir ctx with
         | Some sc, Some dir =>
             '(r, v, sc') ← blyt_save_read sc (Some dir) (Some (cart_name ctx)) slot_n (files m);
             Some (r, v, set_ctx m (set_state (Some sc') ctx))
         | _, _ => Some (-1, 0, m)
         end
     | None => Some (-1, 0, m)
     end;
  let result := if r =? 0 then 0 else if r =? -2 then 5 else 3 in
  Some (advance (rv_set_reg (rv_set_reg m rv_reg_a0 result) rv_reg_a1 saved_version) 4).

Definition ecall_sys_exit (m : mach) : option mach :=
  let m := on_ctx (set_exited true) (rv_halt m) in
  Some (if negb (rv_get_reg m rv_reg_a0 =? 0) then on_ctx (set_aborted true) m else m).

Definition ecall_unknown (m : mach) : option mach := Some (on_ctx (set_trapped true) (rv_halt m)).

Definition blyt_ecall_handler (m : mach) : option mach :=
  let num := rv_get_reg m rv_reg_a7 in
  if num =? BLYT_ECALL_EXIT then ecall_exit m
  else if num =? BLYT_ECALL_CONSOLE_DEBUG then ecall_console_debug m
  else if num =? BLYT_ECALL_SURFACE_CLEAR then ecall_surface_clear m
  else if num =? BLYT_ECALL_SURFACE_PIXEL then ecall_surface_pixel m
  else if num =? BLYT_ECALL_SURFACE_RECT_FILL then ecall_surface_rect_fill m
  else if num =? BLYT_ECALL_SURFACE_LINE then ecall_surface_line m
  else if num =? BLYT_ECALL_SURFACE_CREATE then ecall_surface_create m
  else if num =? BLYT_ECALL_SURFACE_DESTROY then ecall_surface_destroy m
  else if num =? BLYT_ECALL_SURFACE_BLIT then ecall_surface_blit m
  else if num =? BLYT_ECALL_SURFACE_ACQUIRE then ecall_surface_acquire m
  else if num =? BLYT_ECALL_SURFACE_RELEASE then ecall_surface_release m
  else if num =? BLYT_ECALL_GFX_ACQUIRE then ecall_gfx_acquire m
  else if num =? BLYT_ECALL_GFX_PRESENT then ecall_gfx_present m
  else if num =? BLYT_ECALL_GFX_PALETTE_SET then ecall_gfx_palette_set m
  else if num =? BLYT_ECALL_RESOURCE_PIN then ecall_resource_pin m
  else if num =? BLYT_ECALL_RESOURCE_UNPIN then ecall_resource_unpin m
  else if num =? BLYT_ECALL_MEM_RESOURCES then ecall_mem_resources m
  else if num =? BLYT_ECALL_PHASE then ecall_phase m
  else if num =? BLYT_ECALL_FRAME_DONE then ecall_frame_done m
  else if num =? BLYT_ECALL_DAP_HOOK then ecall_dap_hook m
  else if num =? BLYT_ECALL_HOST_FN_RETURN then ecall_host_fn_return m
  else if num =? BLYT_ECALL_BUF_OP then ecall_buf_op m
  else if num =? BLYT_ECALL_SAVE_WRITE then ecall_save_write m
  else if num =? BLYT_ECALL_SAVE_READ then ecall_save_read m
  else if (num =? 93) || (num =? 94) then ecall_sys_exit m
  else ecall_unknown m.
End handler.
