(* ===== verification/EcallSpec.v ===== *)
(** * EcallSpec: the invariant of the machine under ECALLs

    What a machine must satisfy for the dispatcher of [Ecall] to stay inside its buffers
    ([machine_ok]), and one lemma per case of the switch saying that the case succeeds and
    keeps it so.  The hazards that remain with the guest are in [call_ok]. *)

From S2P Require Import Prelude Handle MemBudget StateBuffer StateBufferSpec ResourceTable ResourceTheorems Raster Palettes.
From S2P Require Import RunCtx Surface SurfaceSpec SurfaceTheorems Save SaveTheorems Ecall.
From Stdlib Require Import ZArith Lia.
From stdpp Require Import base tactics list relations.
Open Scope Z_scope.

Create HintDb machine.

(** ** Invariant *)

Section machine.
(** The layout of the state buffers, which no operation changes. *)
Variable base : blyt_state_ctx_t.

(** A resource entry whose bytes can be produced without leaving the cart image. *)
Definition entry_ok (env : res_env) (e : blyt_resource_entry_t) : Prop :=
  coherent env e /\ e_src_path e = None
  /\ forall off, e_data e = Some (InMap off) -> is_Some (rd (cart_map env) off (e_len e)).

(** The bytes of an entry, and the entry that has them. *)
Lemma entry_data_keeps env e :
  entry_ok env e ->
  exists p e', blyt_resource_entry_data env e = Some (p, e') /\ entry_ok env e' /\ e_len e' = e_len e
    /\ match p with Some p => e_data e' = Some p /\ bytes_at env e' p (e_len e') = content env e | None => content env e = None end.
Proof.
  intros (Hco & Hsrc & Hmap). destruct (entry_data_spec _ e Hco) as (p & e' & Hd & Hco' & (Hcont & Hl & _) & Hp).
  exists p, e'. split; [done|]. split; [|done]. split; [done|]. unfold blyt_resource_entry_data in Hd. rewrite Hsrc in Hd.
  destruct (e_data e) as [q|] eqn:Ed; [injection Hd as _ <-; rewrite Ed; by split|].
  repeat (case_match || (apply bind_Some in Hd as (? & ? & Hd))); simplify_eq; (split; [done|]); intros off; cbn; congruence.
Qed.

Record run_ok (env : res_env) (ctx : blyt_run_ctx_t) : Prop := MkRunOk {
  run_ctx_ok : ctx_ok ctx;
  run_entries : Forall (entry_ok env) (t_entries (resources ctx));
  run_scratch : 0 <= resource_scratch_off ctx <= BLYT_RESOURCE_SCRATCH_SIZE;
  run_palette : len (palette ctx) = 256;
  run_state : exists sc, state_ctx ctx = Some sc /\ ctx_wf sc /\ ctx_sized sc /\ ctx_rel base sc
}.

(** What a handler must leave alone: everything but the registry, the table, the
    scratch offset, the palette and the state buffers is unconstrained. *)
Lemma run_ok_keep env ctx ctx' :
  run_ok env ctx -> surfaces ctx' = surfaces ctx -> resources ctx' = resources ctx ->
  mem_acct_vaddr ctx' = mem_acct_vaddr ctx -> resource_scratch_off ctx' = resource_scratch_off ctx ->
  palette ctx' = palette ctx -> state_ctx ctx' = state_ctx ctx -> run_ok env ctx'.
Proof.
  intros [Hc He Hs Hp Hst] E1 E2 E3 E4 E5 E6. split; try congruence; [|by rewrite E6].
  unfold ctx_ok, acct_block_ok in *. by rewrite E1, E2, E3.
Qed.

(** Replacing the context by one that differs in the registry only. *)
Lemma run_ok_surfaces env ctx reg' : run_ok env ctx -> reg_ok reg' -> run_ok env (set_surfaces reg' ctx).
Proof.
  intros [(Hr & Ht & Ha) He Hs Hp Hst] Hreg. split; [|by destruct ctx..].
  unfold ctx_ok, acct_block_ok in *. by autorewrite with run_ctx.
Qed.

Lemma run_ok_drawn env ctx b : run_ok env ctx -> run_ok env (set_drawn b ctx).
Proof. intros H. by apply (run_ok_keep env ctx); [|destruct ctx..]. Qed.

Context {R M : Type} `{HR : RegFile R} `{HM : GuestMemory M} (env : ecall_env).
Abbreviation mach := (machine R M).

Record machine_ok (m : mach) : Prop := MkMachineOk {
  ok_ram : 0x04000000 <= ram_size (rv_mem m);
  ok_ctx : match g_run_ctx m with Some ctx => run_ok (e_res env) ctx | None => False end;
  ok_files : fs_bytes (files m)
}.

(** What the guest must keep to: the endpoints of a line are moderate, and a surface is
    not blitted onto itself. *)
Definition call_ok (m : mach) : Prop :=
  let num := rv_get_reg m rv_reg_a7 in
  let coord r := - 2 ^ 28 < i32 (rv_get_reg m r) < 2 ^ 28 in
  (num = BLYT_ECALL_SURFACE_LINE ->
      coord rv_reg_a1 /\ coord rv_reg_a2 /\ coord rv_reg_a3 /\ coord rv_reg_a4)
  /\ (num = BLYT_ECALL_SURFACE_BLIT -> forall i s j s',
        surface_of m (rv_get_reg m rv_reg_a0) = Some (i, s) -> surface_of m (rv_get_reg m rv_reg_a1) = Some (j, s') -> i <> j).

(** ** The machine's own updates *)

Lemma machine_ok_reg (m : mach) r v : machine_ok m -> machine_ok (rv_set_reg m r v).
Proof. by intros []. Qed.
Lemma machine_ok_halt (m : mach) : machine_ok m -> machine_ok (rv_halt m).
Proof. by intros []. Qed.
Lemma machine_ok_advance (m : mach) n : machine_ok m -> machine_ok (advance m n).
Proof. by intros []. Qed.
Lemma machine_ok_fcsr (m : mach) v : machine_ok m -> machine_ok (set_fcsr m v).
Proof. by intros []. Qed.
Lemma machine_ok_log (m : mach) msg : machine_ok m -> machine_ok (log env m msg).
Proof. intros []. unfold log. by destruct (e_log_fn env). Qed.
Lemma machine_ok_set (m : mach) ctx : machine_ok m -> run_ok (e_res env) ctx -> machine_ok (set_ctx m ctx).
Proof. by intros []. Qed.
Lemma machine_ok_mem (m : mach) mem : ram_size mem = ram_size (rv_mem m) -> machine_ok m -> machine_ok (set_mem m mem).
Proof. intros E []. split; [cbn; by rewrite E|done..]. Qed.
Lemma machine_ok_write (m : mach) a bs : machine_ok m -> machine_ok (set_mem m (memory_write (rv_mem m) a bs)).
Proof. apply machine_ok_mem, memory_write_size. Qed.
Lemma machine_ok_out (m : mach) a v : machine_ok m -> machine_ok (out_u32 m a v).
Proof. unfold out_u32. destruct (a =? 0); [done|]. apply machine_ok_write. Qed.
Lemma machine_ok_on_ctx f (m : mach) :
  (forall ctx, run_ok (e_res env) ctx -> run_ok (e_res env) (f ctx)) -> machine_ok m -> machine_ok (on_ctx f m).
Proof.
  intros Hf [? Hc ?]. unfold on_ctx. destruct (g_run_ctx m) eqn:E; [|done]. split; [done|by apply Hf|done].
Qed.


#[local] Hint Resolve machine_ok_reg machine_ok_halt machine_ok_advance machine_ok_fcsr machine_ok_log machine_ok_write machine_ok_out : machine.

(** ** The gates *)

Lemma phase_gate_ok (m : mach) :
  machine_ok m ->
  exists go halted m', blyt_surface_phase_gate env m = (go, halted, m') /\ machine_ok m'
    /\ (go = true -> m' = m /\ halted = false /\ exists ctx, g_run_ctx m = Some ctx /\ phase ctx = BLYT_PHASE_DRAW)
    /\ (halted = false -> m' = m).
Proof.
  intros Hm. unfold blyt_surface_phase_gate. pose proof Hm as [Hram Hc].
  destruct (g_run_ctx m) as [ctx|] eqn:Ec; [|by exists false, false, m].
  destruct (Z.eqb_spec (phase ctx) BLYT_PHASE_DRAW); [exists true, false, m; eauto 10|].
  destruct (cart_is_debug ctx); [|by exists false, false, m].
  eexists false, true, _. split_and!; [done| |done..]. apply machine_ok_halt, machine_ok_set; [by apply machine_ok_log|].
  apply (run_ok_keep _ ctx); [done|by destruct ctx..].
Qed.

Lemma lock_gate_ok (m : mach) s :
  machine_ok m ->
  exists go halted m', blyt_surface_lock_gate env m s = (go, halted, m') /\ machine_ok m'
    /\ (go = true -> m' = m /\ match s with Some (_, s) => s_locked s = false | None => True end).
Proof.
  intros Hm. unfold blyt_surface_lock_gate. pose proof Hm as [Hram Hc].
  destruct s as [[i s]|]; [|by exists true, false, m].
  destruct (s_locked s) eqn:El; cbn [negb]; [|by exists true, false, m].
  destruct (g_run_ctx m) as [ctx|] eqn:Ec; [|by exists false, false, m].
  destruct (cart_is_debug ctx); [|by exists false, false, m].
  eexists false, true, _. split_and!; [done| |done..]. apply machine_ok_halt, machine_ok_set; [by apply machine_ok_log|].
  apply (run_ok_keep _ ctx); [done|by destruct ctx..].
Qed.

(** ** Drawing *)

(** A resolved surface has a buffer of its size. *)
Lemma surface_px (m : mach) ctx h i s :
  machine_ok m -> g_run_ctx m = Some ctx -> surface_of m h = Some (i, s) ->
  reg_ok (surfaces ctx) /\ zget (slots (surfaces ctx)) i = Some s /\ s_in_use s = true
  /\ exists px, pixels_of (surfaces ctx) s = Some px /\ len px = area s /\ fb_ok px (s_w s) (s_w s) (s_h s).
Proof.
  intros [_ Hc _] Ec Hs. rewrite Ec in Hc. unfold surface_of in Hs. rewrite Ec in Hs.
  destruct (run_ctx_ok _ _ Hc) as (Hreg & _). destruct (resolve_surface_inv _ _ _ _ Hs) as (Hg & Hu & _).
  split_and!; [done..|]. destruct (slot_pixels _ Hreg i s Hg Hu) as (px & Hpx & Hl). exists px. split_and!; [done..|].
  unfold fb_ok, area in *. pose proof (r_slots _ Hreg _ _ Hg) as (_ & _ & Hk & _).
  destruct (i =? 0); [destruct Hk as (_ & _ & _ & _ & Ew & Eh); rewrite Ew, Eh in *|rewrite Hu in Hk]; lia.
Qed.

Lemma machine_ok_paint (m : mach) ctx i s px :
  machine_ok m -> g_run_ctx m = Some ctx -> zget (slots (surfaces ctx)) i = Some s -> s_in_use s = true -> len px = area s ->
  machine_ok (set_ctx m (let ctx := set_surfaces (store_pixels i s px (surfaces ctx)) ctx in
                         if s_is_screen s then set_drawn true ctx else ctx)).
Proof.
  intros Hm Ec Hs Hu Hl. pose proof (ok_ctx _ Hm) as Hc. rewrite Ec in Hc. apply machine_ok_set; [done|].
  assert (run_ok (e_res env) (set_surfaces (store_pixels i s px (surfaces ctx)) ctx)) as H.
  { apply run_ok_surfaces; [done|]. apply paint_ok; try done. by destruct (run_ctx_ok _ _ Hc). }
  cbv zeta. destruct (s_is_screen s); [by apply run_ok_drawn|done].
Qed.

Lemma surface_draw_ok (m : mach) dst draw :
  machine_ok m ->
  (forall px w h, fb_ok px w w h -> exists px', draw (Some px) w h = Some (Some px') /\ len px' = len px) ->
  exists m', surface_draw env m dst draw = Some m' /\ machine_ok m'.
Proof.
  intros Hm Hd. unfold surface_draw.
  destruct (phase_gate_ok m Hm) as (go & halted & m1 & -> & Hm1 & Hgo & _). destruct go; cbn [negb]; [|eauto with machine].
  destruct (Hgo eq_refl) as (-> & _).
  destruct (lock_gate_ok m (surface_of m dst) Hm) as (go & halted' & m2 & -> & Hm2 & Hgo2). destruct go; cbn [negb]; [|eauto with machine].
  destruct (Hgo2 eq_refl) as [-> _]. destruct (surface_of m dst) as [[i s]|] eqn:Es; [|eauto with machine].
  destruct (g_run_ctx m) as [ctx|] eqn:Ec; [|eauto with machine].
  destruct (surface_px m ctx dst i s Hm Ec Es) as (Hreg & Hs & Hu & px & -> & Hl & Hfb).
  destruct (Hd px (s_w s) (s_h s) Hfb) as (px' & -> & Hl'). cbn [mbind option_bind].
  eexists. split; [done|]. apply machine_ok_advance, machine_ok_paint; try done. lia.
Qed.

(** ** Contexts after a surface operation *)

Lemma entry_ok_dropped e : entry_ok (e_res env) e -> reclaimable e = true -> entry_ok (e_res env) (dropped e).
Proof.
  intros (Hco & Hsrc & Hmap) Hr. destruct (evict_coherent _ _ Hco) as [Hco' _]. rewrite (evict_reclaimable e Hr) in Hco'.
  split; [exact Hco'|]. split; [done|]. by intros off.
Qed.

Lemma entries_evicted l l' : evictions l l' -> Forall (entry_ok (e_res env)) l -> Forall (entry_ok (e_res env)) l'.
Proof.
  induction 1 as [|e e' l l' He _ IH]; [done|]. intros [He1 Hl]%Forall_cons. constructor; [|by apply IH].
  destruct He as [->|[Hr ->]]; [done|by apply entry_ok_dropped].
Qed.

Lemma run_ok_step ctx ctx' :
  run_ok (e_res env) ctx -> ctx_ok ctx' -> surface_step ctx ctx' -> run_ok (e_res env) ctx'.
Proof.
  intros [_ He Hs Hp Hst] Hc (reg & t & -> & Hev). pose proof (entries_evicted _ _ Hev He) as He'.
  split; [done|by destruct ctx..].
Qed.

Lemma publish_run_ok ctx (mem : M) :
  run_ok (e_res env) ctx ->
  exists ctx' mem', mem_acct_publish_footprint ctx mem = Some (ctx', mem')
    /\ run_ok (e_res env) ctx' /\ surface_step ctx ctx' /\ surfaces ctx' = surfaces ctx /\ same_but_acct ctx mem mem'.
Proof.
  intros Hok. destruct (run_ctx_ok _ _ Hok) as (Hreg & Hres & Ha).
  destruct (publish_ok ctx mem (surfaces ctx) (conj Hreg (conj Hres Ha)) Hreg) as (ctx' & mem' & Hp & Hc' & Hsurf & Hst & Hm & _).
  rewrite set_surfaces_id in Hp. exists ctx', mem'. split_and!; try done. by apply (run_ok_step ctx).
Qed.

(** Replacing the resource table. *)
Lemma run_ok_resources ctx t :
  run_ok (e_res env) ctx -> Forall (entry_ok (e_res env)) (t_entries t) -> res_ok t -> run_ok (e_res env) (set_resources t ctx).
Proof.
  intros [(Hr & _ & Ha) _ Hs Hp Hst] He Ht. split; [|by destruct ctx..].
  unfold ctx_ok, acct_block_ok in *. by autorewrite with run_ctx.
Qed.

(** Replacing one entry by another of the same length. *)
Lemma put_entry_ok ctx i e e' :
  run_ok (e_res env) ctx -> t_entries (resources ctx) !! i = Some e -> entry_ok (e_res env) e' -> e_len e' = e_len e ->
  run_ok (e_res env) (put_entry i e' ctx).
Proof.
  intros Hok Hi He Hl. apply run_ok_resources; [done|by apply Forall_insert; [apply Hok|]|].
  destruct (run_ctx_ok _ _ Hok) as (_ & Hres & _). apply (res_ok_lens (resources ctx)); [|done]. cbn.
  rewrite list_fmap_insert, Hl. apply list_insert_id. by rewrite list_lookup_fmap, Hi.
Qed.

Lemma put_entry_lookup ctx i e e' :
  t_entries (resources ctx) !! i = Some e -> t_entries (resources (put_entry i e' ctx)) !! i = Some e'.
Proof.
  intros Hi. unfold put_entry. autorewrite with run_ctx. apply list_lookup_insert_eq. by eapply lookup_lt_Some.
Qed.

Lemma entry_ok_rl rl e : entry_ok (e_res env) e -> entry_ok (e_res env) (with_rl rl e).
Proof. done. Qed.

Lemma touch_ok ctx i :
  run_ok (e_res env) ctx -> run_ok (e_res env) (set_resources (blyt_resource_table_touch (resources ctx) i) ctx).
Proof.
  intros Hok. destruct (run_ctx_ok _ _ Hok) as (_ & Hres & _). apply run_ok_resources; [done| |].
  - cbn. apply Forall_alter; [apply Hok|]. intros e _ He. exact He.
  - apply (res_ok_lens (resources ctx)); [|done]. cbn. apply list_eq. intros j. rewrite !list_lookup_fmap.
    destruct (decide (i = j)) as [->|Hne]; [|by rewrite list_lookup_alter_ne].
    rewrite list_lookup_alter_eq. by destruct (t_entries (resources ctx) !! j).
Qed.

Lemma entry_data_ok ctx i e :
  run_ok (e_res env) ctx -> t_entries (resources ctx) !! i = Some e ->
  exists p e', blyt_resource_entry_data (e_res env) e = Some (p, e')
    /\ entry_ok (e_res env) e' /\ e_len e' = e_len e /\ run_ok (e_res env) (put_entry i e' ctx)
    /\ 0 <= e_len e < 2 ^ 32
    /\ match p with Some p => exists bs, bytes_at (e_res env) e' p (e_len e) = Some bs /\ content (e_res env) e = Some bs
       | None => content (e_res env) e = None end.
Proof.
  intros Hok Hi. pose proof (run_entries _ _ Hok) as Hall. pose proof (Forall_lookup_1 _ _ _ _ Hall Hi) as (Hco & Hsrc & Hmap).
  destruct (run_ctx_ok _ _ Hok) as (_ & [Hlens Htot] & _).
  assert (0 <= e_len e < 2 ^ 32) as Hlen.
  { split; [by apply (Forall_lookup_1 _ _ _ _ Hlens Hi)|]. eapply Z.le_lt_trans; [|exact Htot].
    rewrite total_all_fmap. apply (zsum_elem (fun n => n) (e_len <$> t_entries (resources ctx)) (e_len e)).
    - intros n (x & -> & Hx)%list_elem_of_fmap. by apply (proj1 (Forall_forall _ _) Hlens).
    - apply list_elem_of_fmap. exists e. split; [done|]. by eapply list_elem_of_lookup_2. }
  destruct (entry_data_keeps _ e (Forall_lookup_1 _ _ _ _ Hall Hi)) as (p & e' & Hd & He' & Hl & Hp). pose proof He' as (Hco' & _).
  exists p, e'. split_and!; try done; [by eapply put_entry_ok|lia|lia|].
  destruct p as [p|]; [|done]. destruct Hp as [Hd' Hb]. rewrite Hl in Hb. rewrite Hb. destruct He' as (_ & _ & Hmap').
  unfold bytes_at in Hb. destruct p as [off|].
  - destruct (Hmap' off Hd') as [bs Hbs]. rewrite <-Hb, <-Hl, Hbs. by exists bs.
  - destruct Hco' as (_ & _ & Hbl & Hown). destruct (e_owned e') as [buf|]; [|by destruct Hown]. destruct Hown as [_ Hs].
    cbn in Hb. rewrite <-Hb, <-Hl, rd_whole by by apply Hbl. by exists buf.
Qed.

(** ** One lemma per case *)

Definition succeeds (f : mach -> option mach) (m : mach) : Prop := exists m', f m = Some m' /\ machine_ok m'.

Lemma clear_ok m : machine_ok m -> succeeds (ecall_surface_clear env) m.
Proof.
  intros Hm. apply surface_draw_ok; [done|]. intros px w h Hfb.
  destruct (clear_spec px w w h (u8 (rv_get_reg m rv_reg_a1)) Hfb) as (px' & -> & Hl & _). by exists px'.
Qed.

Lemma pixel_ok m : machine_ok m -> succeeds (ecall_surface_pixel env) m.
Proof.
  intros Hm. apply surface_draw_ok; [done|]. intros px w h Hfb.
  destruct (pixel_spec px w w h (i32 (rv_get_reg m rv_reg_a1)) (i32 (rv_get_reg m rv_reg_a2)) (u8 (rv_get_reg m rv_reg_a3)) Hfb)
    as (px' & -> & Hl & _). by exists px'.
Qed.

Lemma rect_ok m : machine_ok m -> succeeds (ecall_surface_rect_fill env) m.
Proof.
  intros Hm. apply surface_draw_ok; [done|]. intros px w h Hfb.
  destruct (rect_spec px w w h (i32 (rv_get_reg m rv_reg_a1)) (i32 (rv_get_reg m rv_reg_a2)) (i32 (rv_get_reg m rv_reg_a3))
    (i32 (rv_get_reg m rv_reg_a4)) (u8 (rv_get_reg m rv_reg_a5)) Hfb) as (px' & -> & Hl & _). by exists px'.
Qed.

Lemma line_call_ok m : machine_ok m -> call_ok m -> rv_get_reg m rv_reg_a7 = BLYT_ECALL_SURFACE_LINE -> succeeds (ecall_surface_line env) m.
Proof.
  intros Hm (Hc & _) Hn. destruct (Hc Hn) as (H1 & H2 & H3 & H4). clear Hc.
  apply surface_draw_ok; [done|]. intros px w h Hfb.
  destruct (line_spec (line_fuel (i32 (rv_get_reg m rv_reg_a1)) (i32 (rv_get_reg m rv_reg_a2)) (i32 (rv_get_reg m rv_reg_a3)) (i32 (rv_get_reg m rv_reg_a4)))
    px w w h _ _ _ _ (u8 (rv_get_reg m rv_reg_a5)) H1 H2 H3 H4 Hfb) as (px' & -> & [Hl _] & _); [unfold line_fuel; lia|]. by exists px'.
Qed.

Lemma create_ok m : machine_ok m -> succeeds (ecall_surface_create env) m.
Proof.
  intros Hm. unfold succeeds, ecall_surface_create.
  destruct (phase_gate_ok m Hm) as (go & halted & m1 & -> & Hm1 & Hgo & _).
  destruct go; cbn [negb]; [|destruct halted; eauto with machine].
  destruct (Hgo eq_refl) as (-> & _ & ctx & Ec & _). rewrite Ec. pose proof Hm as [Hram Hc]. rewrite Ec in Hc.
  destruct (create_spec (e_res env) ctx (rv_mem m) (i32 (rv_get_reg m rv_reg_a0)) (i32 (rv_get_reg m rv_reg_a1)) (run_ctx_ok _ _ Hc))
    as [[-> _]|(i & s & ctx' & mem' & -> & _ & _ & _ & _ & Hc' & _ & _ & _ & Hst & [Hrs _])]; cbn [mbind option_bind]; (eexists; split; [done|]).
  - by apply machine_ok_advance, machine_ok_reg.
  - apply machine_ok_advance, machine_ok_reg. split; [cbn; lia|by apply (run_ok_step ctx)|done].
Qed.

Lemma destroy_ok m : machine_ok m -> succeeds (ecall_surface_destroy env) m.
Proof.
  intros Hm. unfold succeeds, ecall_surface_destroy.
  destruct (lock_gate_ok m (surface_of m (rv_get_reg m rv_reg_a0)) Hm) as (go & halted & m1 & -> & Hm1 & Hgo).
  destruct go; cbn [negb]; [|eauto with machine]. destruct (Hgo eq_refl) as [-> Hl].
  destruct (surface_of m (rv_get_reg m rv_reg_a0)) as [[i s]|] eqn:Es; [|eauto with machine].
  destruct (g_run_ctx m) as [ctx|] eqn:Ec; [|eauto with machine].
  destruct (s_is_screen s) eqn:Esc; cbn [negb]; [eauto with machine|].
  destruct (surface_px m ctx _ i s Hm Ec Es) as (Hreg & Hs & Hu & _). pose proof Hm as [Hram Hc]. rewrite Ec in Hc.
  destruct (free_spec (surfaces ctx) i s Hreg Hs Hu Esc Hl) as (reg' & -> & Hreg' & _). cbn [mbind option_bind].
  destruct (publish_ok ctx (rv_mem m) reg' (run_ctx_ok _ _ Hc) Hreg') as (ctx' & mem' & -> & Hc' & _ & Hst & [Hrs _] & _).
  cbn [mbind option_bind]. eexists. split; [done|]. apply machine_ok_advance. split; [cbn; lia|by apply (run_ok_step ctx)|done].
Qed.

Lemma blit_ok m : machine_ok m -> call_ok m -> rv_get_reg m rv_reg_a7 = BLYT_ECALL_SURFACE_BLIT -> succeeds (ecall_surface_blit env) m.
Proof.
  intros Hm (_ & Hc) Hn. specialize (Hc Hn). unfold succeeds, ecall_surface_blit.
  destruct (phase_gate_ok m Hm) as (go & halted & m1 & -> & Hm1 & Hgo & _). destruct go; cbn [negb]; [|eauto with machine].
  destruct (Hgo eq_refl) as (-> & _ & ctx & Ec & _).
  destruct (lock_gate_ok m (surface_of m (rv_get_reg m rv_reg_a0)) Hm) as (go & halted2 & m2 & -> & Hm2 & Hgo2).
  destruct go; cbn [negb]; [|eauto with machine]. destruct (Hgo2 eq_refl) as [-> _].
  destruct (lock_gate_ok m (surface_of m (rv_get_reg m rv_reg_a1)) Hm) as (go & halted3 & m3 & -> & Hm3 & Hgo3).
  destruct go; cbn [negb]; [|eauto with machine]. destruct (Hgo3 eq_refl) as [-> _].
  destruct (surface_of m (rv_get_reg m rv_reg_a0)) as [[i s]|] eqn:Es; [|eauto with machine].
  destruct (surface_of m (rv_get_reg m rv_reg_a1)) as [[j s']|] eqn:Es'; [|eauto with machine]. rewrite Ec.
  rewrite (proj2 (Z.eqb_neq i j)) by by apply (Hc i s j s').
  destruct (surface_px m ctx _ i s Hm Ec Es) as (_ & Hs & Hu & px & -> & Hl & Hfb).
  destruct (surface_px m ctx _ j s' Hm Ec Es') as (_ & _ & _ & px2 & -> & _ & Hfb2).
  destruct (blit_spec px _ _ _ px2 _ _ _ (i32 (rv_get_reg m rv_reg_a2)) (i32 (rv_get_reg m rv_reg_a3)) Hfb Hfb2) as (px' & -> & Hl' & _).
  cbn [mbind option_bind]. eexists. split; [done|]. apply machine_ok_advance, machine_ok_paint; try done. lia.
Qed.

Lemma acquire_ok m : machine_ok m -> succeeds (ecall_surface_acquire env) m.
Proof.
  intros Hm. unfold succeeds, ecall_surface_acquire.
  destruct (phase_gate_ok m Hm) as (go & halted & m1 & -> & Hm1 & _ & Hh). destruct halted; [eauto with machine|].
  rewrite (Hh eq_refl). destruct (g_run_ctx m) as [ctx|] eqn:Ec; [|eauto with machine].
  pose proof Hm as [Hram Hc]. rewrite Ec in Hc. pose proof (run_ctx_ok _ _ Hc) as Hctx. pose proof Hctx as (Hreg & _).
  set (hd := rv_get_reg m rv_reg_a0). set (out := rv_get_reg m rv_reg_a1).
  assert (machine_ok (advance (rv_set_reg (set_mem (set_ctx m ctx) (memory_write (rv_mem m) out (replicate 20 0))) rv_reg_a0 0) 4)) as Hfail.
  { apply machine_ok_advance, machine_ok_reg. split; [cbn; by rewrite memory_write_size|done..]. }
  destruct (blyt_resolve_surface (surfaces ctx) hd) as [[i s]|] eqn:Er.
  2:{ unfold blyt_surface_acquire_lock. rewrite Er. cbn [mbind option_bind]. eauto. }
  destruct (resolve_surface_inv _ _ _ _ Er) as (Hs & Hu & _).
  destruct (s_locked s) eqn:El. { rewrite (acquire_fail _ _ _ _ _ i s) by auto. cbn [mbind option_bind]. eauto. }
  destruct (Z.le_gt_cases (lock_bump (surfaces ctx) + aligned (area s)) 0x02000000) as [Hf|Hf].
  2:{ rewrite (acquire_fail _ _ _ _ _ i s); [cbn [mbind option_bind]; eauto|done|done|right; unfold acquire_fits; lia]. }
  destruct (slot_pixels _ Hreg i s Hs Hu) as (px & Hpx & _).
  destruct (acquire_spec ctx (rv_mem m) hd out (negb go) i s px Hreg Er El Hf Hpx Hram) as (mem1 & -> & Hrs & _).
  destruct (acquire_ctx_ok ctx s i (negb go) _ Hctx Hs Hu El Hf eq_refl) as (Hc1 & _). cbn [mbind option_bind].
  eexists. split; [done|]. apply machine_ok_advance, machine_ok_reg. split; [cbn; rewrite memory_write_size; lia| |done].
  apply (run_ok_step ctx); [done|done|apply surface_step_reg].
Qed.

Lemma release_ok m : machine_ok m -> succeeds ecall_surface_release m.
Proof.
  intros Hm. unfold succeeds, ecall_surface_release. destruct (g_run_ctx m) as [ctx|] eqn:Ec; [|eauto with machine].
  pose proof Hm as [Hram Hc]. rewrite Ec in Hc. pose proof (run_ctx_ok _ _ Hc) as Hctx.
  destruct (blyt_resolve_lockview (surfaces ctx) (rv_get_reg m rv_reg_a0)) as [[i s]|] eqn:Er.
  - destruct (release_spec ctx (rv_mem m) _ i s Hctx Er) as (ctx' & px & s' & -> & Hc' & _ & _ & _ & _ & _ & _ & _ & _ & Hst).
    cbn [mbind option_bind]. eexists. split; [done|]. apply machine_ok_advance, machine_ok_set; [done|].
    pose proof (run_ok_step ctx ctx' Hc Hc' Hst). destruct (s_is_screen s'); [by apply run_ok_drawn|done].
  - unfold blyt_surface_release_lock. rewrite Er. cbn [mbind option_bind]. eexists. split; [done|].
    by apply machine_ok_advance, machine_ok_set.
Qed.

Lemma present_ok m : machine_ok m -> succeeds ecall_gfx_present m.
Proof.
  intros Hm. unfold succeeds, ecall_gfx_present. destruct (g_run_ctx m) as [ctx|] eqn:Ec; [|eauto with machine].
  pose proof Hm as [Hram Hc]. rewrite Ec in Hc. destruct (run_ctx_ok _ _ Hc) as (Hreg & _).
  pose proof (r_screen _ Hreg) as Hscr. change (BLYT_FRAME_W * BLYT_FRAME_H) with 76800.
  pose proof (memory_read_len (rv_mem m) BLYT_GFX_FB_BASE 76800 ltac:(lia)) as Hl.
  rewrite store_bytes_all by lia. cbn [mbind option_bind]. eexists. split; [done|]. apply machine_ok_advance, machine_ok_set; [done|].
  apply run_ok_drawn, run_ok_surfaces; [done|]. destruct Hreg. by split.
Qed.

Lemma resolve_resource_inv t h i :
  blyt_resolve_resource t h = Some i -> exists e, t_entries t !! i = Some e /\ e_id e = blyt_resource_decode_id h.
Proof.
  unfold blyt_resolve_resource, blyt_resource_table_find_mut. destruct (_ || _); [done|].
  assert (forall l k, find_from k l (blyt_resource_decode_id h) = Some i ->
    (k <= i)%nat /\ exists e, l !! (i - k)%nat = Some e /\ e_id e = blyt_resource_decode_id h) as Hgen.
  { induction l as [|e l IH]; intros k; cbn [find_from]; [done|]. destruct (Z.eqb_spec (e_id e) (blyt_resource_decode_id h)).
    - intros [= ->]. split; [lia|]. exists e. by rewrite Nat.sub_diag.
    - intros (Hk & e' & He' & Hid)%IH. split; [lia|]. exists e'. replace (i - k)%nat with (S (i - S k)) by lia. done. }
  intros (_ & e & He & Hid)%Hgen. exists e. by rewrite Nat.sub_0_r in He.
Qed.

Lemma palette_of_bytes_len bs n : length bs = (4 * n)%nat -> length (palette_of_bytes bs) = n.
Proof.
  revert bs. induction n as [|n IH]; intros bs Hl; [by destruct bs|].
  destruct bs as [|a [|b [|c [|d bs]]]]; cbn in Hl; try lia. cbn. rewrite IH by lia. done.
Qed.

Lemma builtin_len h p : blyt_builtin_palette h = Some p -> length p = 256%nat.
Proof. unfold blyt_builtin_palette. repeat case_match; intros; simplify_eq; reflexivity. Qed.

Lemma resolve_palette_ok ctx h :
  run_ok (e_res env) ctx ->
  exists pal t, blyt_resolve_palette (e_res env) (Some (resources ctx)) h = Some (pal, Some t)
    /\ run_ok (e_res env) (set_resources t ctx) /\ forall p, pal = Some p -> length p = 1024%nat.
Proof.
  intros Hok. unfold blyt_resolve_palette. destruct (_ =? BLYT_RESOURCE_PROV_RUNTIME).
  { eexists _, _. split; [done|]. rewrite set_resources_id. split; [done|]. intros p. destruct (blyt_builtin_palette h) as [q|] eqn:E; [|done].
    intros [= <-]. apply builtin_len in E. rewrite length_concat, <-list_fmap_compose.
    replace (length ∘ write_u32_le <$> q) with (replicate (length q) 4%nat); [rewrite E; reflexivity|].
    clear. induction q as [|x q IH]; [done|]. rewrite fmap_cons. cbn [length replicate]. by rewrite IH. }
  destruct (blyt_resolve_resource (resources ctx) h) as [i|] eqn:Er; [|eexists _, _; split; [done|]; by rewrite set_resources_id].
  destruct (resolve_resource_inv _ _ _ Er) as (e & He & _). rewrite He. cbn [mbind option_bind].
  destruct (Z.eqb_spec (e_len e) (256 * 4)) as [El|]; cbn [negb]; [|eexists _, _; split; [done|]; by rewrite set_resources_id].
  destruct (entry_data_ok ctx i e Hok He) as (p & e' & -> & _ & Hl & Hok' & _ & Hp). cbn [mbind option_bind].
  unfold put_entry in Hok'. destruct p as [p|]; [|by eexists _, _].
  destruct Hp as (bs & Hb & _). rewrite <-El, Hb. cbn [mbind option_bind]. eexists _, _. split; [done|]. split; [done|].
  intros q [= <-]. unfold bytes_at in Hb. destruct p; [|destruct (e_owned e'); [cbn in Hb|done]]; apply rd_inv in Hb as (? & _ & ? & ->);
    unfold sub; rewrite length_take, length_drop; unfold len in *; lia.
Qed.

Lemma palette_set_ok m : machine_ok m -> succeeds (ecall_gfx_palette_set env) m.
Proof.
  intros Hm. unfold succeeds, ecall_gfx_palette_set. pose proof Hm as [Hram Hc].
  destruct (g_run_ctx m) as [ctx|] eqn:Ec.
  - destruct (resolve_palette_ok ctx (rv_get_reg m rv_reg_a0) Hc) as (pal & t & Hr & Hok & Hp).
    change ((resources : blyt_run_ctx_t -> _) <$> Some ctx) with (Some (resources ctx)). rewrite Hr. cbn [mbind option_bind].
    eexists. split; [done|]. apply machine_ok_advance. unfold on_ctx. rewrite Ec. apply machine_ok_set; [done|].
    destruct pal as [p|]; [|done]. destruct Hok as [H1 H2 H3 H4 H5]. specialize (Hp p eq_refl).
    split; [unfold ctx_ok, acct_block_ok in *; by destruct ctx| by destruct ctx|by destruct ctx| |by destruct ctx].
    replace (palette _) with (palette_of_bytes p) by by destruct ctx. unfold len. by rewrite (palette_of_bytes_len p 256).
  - cbn [fmap option_fmap option_map]. unfold blyt_resolve_palette.
    destruct (_ =? _); cbn [mbind option_bind]; eexists; (split; [done|]); apply machine_ok_advance; unfold on_ctx; by rewrite Ec.
Qed.

Lemma out_u32_mem (m : mach) a v : g_run_ctx (out_u32 m a v) = g_run_ctx m.
Proof. unfold out_u32. by destruct (a =? 0). Qed.

(** Where the next pin of [n] bytes lands in the scratch region. *)
Definition scratch_slot (ctx : blyt_run_ctx_t) (n : Z) : Z :=
  if resource_scratch_off ctx + n >? BLYT_RESOURCE_SCRATCH_SIZE then 0 else resource_scratch_off ctx.

(** The context with the pin taken, before the footprint is published. *)
Definition pinned_ctx (ctx : blyt_run_ctx_t) (i : nat) (e : blyt_resource_entry_t) : blyt_run_ctx_t :=
  let ctx := set_scratch_off (scratch_slot ctx (e_len e) + e_len e) ctx in
  let ctx := put_entry i (with_rl (blyt_rl_pin (e_rl e)) e) ctx in
  set_resources (blyt_resource_table_touch (resources ctx) i) ctx.

Lemma scratch_slot_fits ctx n :
  run_ok (e_res env) ctx -> 0 <= n <= BLYT_RESOURCE_SCRATCH_SIZE ->
  0 <= scratch_slot ctx n /\ scratch_slot ctx n + n <= BLYT_RESOURCE_SCRATCH_SIZE.
Proof.
  intros Hc Hn. pose proof (run_scratch _ _ Hc). unfold scratch_slot, BLYT_RESOURCE_SCRATCH_SIZE in *.
  destruct (Z.gtb_spec (resource_scratch_off ctx + n) (16 * 1024 * 1024)); lia.
Qed.

Lemma pinned_ok ctx i e :
  run_ok (e_res env) ctx -> t_entries (resources ctx) !! i = Some e -> 0 <= e_len e <= BLYT_RESOURCE_SCRATCH_SIZE ->
  run_ok (e_res env) (pinned_ctx ctx i e).
Proof.
  intros Hc He Hl. destruct (scratch_slot_fits ctx (e_len e) Hc Hl) as [Ho1 Ho2]. unfold pinned_ctx. cbv zeta.
  set (ctx1 := set_scratch_off _ ctx).
  assert (run_ok (e_res env) ctx1) as H1.
  { destruct Hc as [Hc1 Hc2 Hc3 Hc4 Hc5]. split; try by destruct ctx.
    replace (resource_scratch_off ctx1) with (scratch_slot ctx (e_len e) + e_len e) by by destruct ctx. lia. }
  assert (t_entries (resources ctx1) !! i = Some e) as He1 by by destruct ctx.
  pose proof (Forall_lookup_1 _ _ _ _ (run_entries _ _ H1) He1) as Heok.
  exact (touch_ok _ i (put_entry_ok ctx1 i e (with_rl (blyt_rl_pin (e_rl e)) e) H1 He1 (entry_ok_rl _ _ Heok) eq_refl)).
Qed.

(** The copy into the scratch region, for an entry whose bytes can be read. *)
Lemma pin_copy_spec m ctx i e p bs out_ptr out_size :
  machine_ok m -> g_run_ctx m = Some ctx -> t_entries (resources ctx) !! i = Some e ->
  0 <= e_len e <= BLYT_RESOURCE_SCRATCH_SIZE ->
  (e_len e <> 0 -> exists q, p = Some q /\ bytes_at (e_res env) e q (e_len e) = Some bs) ->
  let gptr := BLYT_RESOURCE_SCRATCH_BASE + scratch_slot ctx (e_len e) in
  exists ctx' mem',
    pin_copy env m ctx i e p out_ptr out_size
    = Some (advance (rv_set_reg (out_u32 (out_u32 (set_mem (set_ctx m ctx') mem') out_ptr gptr) out_size (e_len e)) rv_reg_a0 0) 4)
    /\ run_ok (e_res env) ctx' /\ surface_step (pinned_ctx ctx i e) ctx' /\ surfaces ctx' = surfaces ctx
    /\ same_but_acct ctx (if e_len e =? 0 then rv_mem m else memory_write (rv_mem m) gptr bs) mem'.
Proof.
  intros Hm Ec He Hlen Hp. cbv zeta. pose proof Hm as [Hram Hc]. rewrite Ec in Hc. unfold pin_copy. cbv zeta.
  destruct (scratch_slot_fits ctx (e_len e) Hc Hlen) as [Ho1 Ho2]. pose proof (run_scratch _ _ Hc) as Hso.
  assert (BLYT_RESOURCE_SCRATCH_SIZE = 16777216 /\ BLYT_RESOURCE_SCRATCH_BASE = 100663296) as [Es Eb] by (split; reflexivity).
  assert (forall v, 0 <= v <= 117440512 -> u32 v = v) as Hu by (intros; apply u32_id; unfold is_u32; lia).
  rewrite (Hu (e_len e)), (Hu (resource_scratch_off ctx + e_len e)) by lia.
  destruct (Z.gtb_spec (e_len e) BLYT_RESOURCE_SCRATCH_SIZE); [lia|].
  assert ((if resource_scratch_off ctx + e_len e >? BLYT_RESOURCE_SCRATCH_SIZE then 0 else resource_scratch_off ctx)
    = scratch_slot ctx (e_len e)) as Hslot by reflexivity.
  rewrite Hslot, (Hu (scratch_slot ctx (e_len e) + e_len e)), (Hu (BLYT_RESOURCE_SCRATCH_BASE + _)) by lia.
  set (gptr := BLYT_RESOURCE_SCRATCH_BASE + _).
  assert ((if e_len e =? 0 then Some (rv_mem m) else
      p ← p; bs ← bytes_at (e_res env) e p (e_len e); Some (memory_write (rv_mem m) gptr bs))
    = Some (if e_len e =? 0 then rv_mem m else memory_write (rv_mem m) gptr bs)) as ->.
  { destruct (Z.eqb_spec (e_len e) 0) as [|Hne]; [done|]. destruct (Hp Hne) as (q & -> & Hb). cbn [mbind option_bind]. by rewrite Hb. }
  cbn [mbind option_bind]. set (mem := if _ =? 0 then _ else _).
  destruct (publish_run_ok (pinned_ctx ctx i e) mem (pinned_ok ctx i e Hc He Hlen)) as (ctx' & mem' & Hpub & Hok' & Hst & Hsurf & Hmem).
  unfold pinned_ctx in Hpub. cbv zeta in Hpub. rewrite Hpub. cbn [mbind option_bind].
  exists ctx', mem'. split; [done|]. split; [done|]. split; [done|]. split; [rewrite Hsurf; by destruct ctx|].
  unfold same_but_acct in *. replace (mem_acct_vaddr (pinned_ctx ctx i e)) with (mem_acct_vaddr ctx) in Hmem by by destruct ctx. exact Hmem.
Qed.

Lemma pin_copy_ok m ctx i e p out_ptr out_size :
  machine_ok m -> g_run_ctx m = Some ctx -> t_entries (resources ctx) !! i = Some e -> 0 <= e_len e < 2 ^ 32 ->
  match p with Some p => is_Some (bytes_at (e_res env) e p (e_len e)) | None => e_len e = 0 end ->
  exists m', pin_copy env m ctx i e p out_ptr out_size = Some m' /\ machine_ok m'.
Proof.
  intros Hm Ec He Hlen Hp.
  destruct (Z.gtb_spec (e_len e) BLYT_RESOURCE_SCRATCH_SIZE) as [Hbig|Hbig].
  { unfold pin_copy. cbv zeta. rewrite (u32_id (e_len e)) by done. rewrite (proj2 (Z.gtb_lt _ _) Hbig). eauto 10 with machine. }
  assert (exists bs, e_len e <> 0 -> exists q, p = Some q /\ bytes_at (e_res env) e q (e_len e) = Some bs) as [bs Hbs].
  { destruct p as [p|]; [|by exists []]. destruct Hp as [bs Hb]. exists bs. intros _. by exists p. }
  destruct (pin_copy_spec m ctx i e p bs out_ptr out_size Hm Ec He ltac:(lia) Hbs) as (ctx' & mem' & -> & Hok & _ & _ & [Hrs _]).
  eexists. split; [done|]. apply machine_ok_advance, machine_ok_reg, machine_ok_out, machine_ok_out.
  destruct Hm as [Hram _ Hf]. split; [|done..]. cbn. destruct (e_len e =? 0); rewrite ?memory_write_size in Hrs; lia.
Qed.

Lemma pin_ok m : machine_ok m -> succeeds (ecall_resource_pin env) m.
Proof.
  intros Hm. unfold succeeds, ecall_resource_pin. set (out := rv_get_reg m rv_reg_a1).
  pose proof Hm as [Hram Hc]. destruct (g_run_ctx m) as [ctx|] eqn:Ec; [|eauto 10 with machine].
  destruct (blyt_resolve_resource (resources ctx) (rv_get_reg m rv_reg_a0)) as [i|] eqn:Er; [|eauto 10 with machine].
  destruct (resolve_resource_inv _ _ _ Er) as (e & He & _). rewrite He. cbn [mbind option_bind].
  destruct (mem_acct_reference_fits ctx (rv_mem m) e _); cbn [negb]; [|eauto 10 with machine].
  destruct (entry_data_ok ctx i e Hc He) as (p & e1 & -> & He1 & Hl1 & Hok1 & Hlen & Hp). cbn [mbind option_bind].
  assert (machine_ok (set_ctx m (put_entry i e1 ctx))) as Hm1 by by apply machine_ok_set. cbv zeta.
  destruct p as [p|]; [|destruct (e_len e1 =? 0) eqn:E0; [|eauto 10 with machine]].
  - apply (pin_copy_ok (set_ctx m (put_entry i e1 ctx))); try done; [by eapply put_entry_lookup|lia|].
    rewrite Hl1. destruct Hp as (bs & Hb & _). by exists bs.
  - apply (pin_copy_ok (set_ctx m (put_entry i e1 ctx))); try done; [by eapply put_entry_lookup|lia|lia].
Qed.

Lemma unpin_ok m : machine_ok m -> succeeds ecall_resource_unpin m.
Proof.
  intros Hm. unfold succeeds, ecall_resource_unpin. pose proof Hm as [Hram Hc].
  destruct (g_run_ctx m) as [ctx|] eqn:Ec; [|eauto with machine].
  destruct (blyt_resolve_resource (resources ctx) (rv_get_reg m rv_reg_a0)) as [i|] eqn:Er; [|eauto with machine].
  destruct (resolve_resource_inv _ _ _ Er) as (e & He & _). rewrite He. cbn [mbind option_bind].
  destruct (blyt_rl_unpin (e_rl e)) as [[] rl]; [|eauto with machine].
  pose proof (Forall_lookup_1 _ _ _ _ (run_entries _ _ Hc) He) as Heok.
  pose proof (put_entry_ok ctx i e (with_rl rl e) Hc He (entry_ok_rl _ _ Heok) eq_refl) as H2.
  destruct (publish_run_ok _ (rv_mem m) H2) as (ctx' & mem' & -> & Hok' & _ & _ & [Hrs _]). cbn [mbind option_bind].
  eexists. split; [done|]. apply machine_ok_advance, machine_ok_reg. split; [cbn; lia|done..].
Qed.

Lemma resources_loop_size l out cap n (mem : M) : ram_size (resources_loop l out cap n mem).2 = ram_size mem.
Proof.
  revert n mem. induction l as [|e l IH]; intros n mem; cbn [resources_loop]; [done|].
  destruct (resident e); cbn [negb]; [|by apply IH]. rewrite IH. destruct (_ && _); [apply memory_write_size|done].
Qed.

Lemma mem_resources_ok m : machine_ok m -> succeeds ecall_mem_resources m.
Proof.
  intros Hm. unfold succeeds, ecall_mem_resources.
  assert (forall n mem, ram_size mem = ram_size (rv_mem m) -> machine_ok (advance (rv_set_reg (set_mem m mem) rv_reg_a0 n) 4)) as H
    by (intros; by apply machine_ok_advance, machine_ok_reg, machine_ok_mem).
  destruct (g_run_ctx m) as [ctx|]; [|eauto].
  pose proof (resources_loop_size (t_entries (resources ctx)) (rv_get_reg m rv_reg_a0) (rv_get_reg m rv_reg_a1) 0 (rv_mem m)) as Hs.
  destruct (resources_loop _ _ _ _ _) as [n mem]. eauto.
Qed.

Lemma flag_ok (f : blyt_run_ctx_t -> blyt_run_ctx_t) m :
  (forall c, surfaces (f c) = surfaces c /\ resources (f c) = resources c /\ mem_acct_vaddr (f c) = mem_acct_vaddr c
     /\ resource_scratch_off (f c) = resource_scratch_off c /\ palette (f c) = palette c /\ state_ctx (f c) = state_ctx c) ->
  machine_ok m -> machine_ok (on_ctx f m).
Proof. intros Hf. apply machine_ok_on_ctx. intros ctx Hc. destruct (Hf ctx) as (? & ? & ? & ? & ? & ?). by apply (run_ok_keep _ ctx). Qed.

Ltac flag := apply flag_ok; [intros c; by destruct c|].

Lemma phase_ok m : machine_ok m -> succeeds ecall_phase m.
Proof. intros Hm. eexists. split; [done|]. apply machine_ok_advance. flag; auto with machine. Qed.

Lemma frame_done_ok m : machine_ok m -> succeeds (ecall_frame_done env) m.
Proof.
  intros Hm. unfold succeeds, ecall_frame_done. destruct (_ && _); (eexists; split; [done|]); apply machine_ok_halt; flag; auto with machine.
Qed.

Lemma host_fn_return_ok m : machine_ok m -> succeeds ecall_host_fn_return m.
Proof. intros Hm. eexists. split; [done|]. apply machine_ok_halt. flag; auto with machine. Qed.

Lemma exit_ok m : machine_ok m -> succeeds ecall_exit m.
Proof.
  intros Hm. unfold succeeds, ecall_exit. eexists. split; [done|]. destruct (negb _); repeat flag; by apply machine_ok_halt.
Qed.

Lemma sys_exit_ok m : machine_ok m -> succeeds ecall_sys_exit m.
Proof.
  intros Hm. unfold succeeds, ecall_sys_exit. eexists. split; [done|]. destruct (negb _); repeat flag; by apply machine_ok_halt.
Qed.

Lemma unknown_ok m : machine_ok m -> succeeds ecall_unknown m.
Proof. intros Hm. eexists. split; [done|]. flag. by apply machine_ok_halt. Qed.

Lemma console_ok m : machine_ok m -> succeeds (ecall_console_debug env) m.
Proof. intros Hm. unfold succeeds, ecall_console_debug. destruct (g_run_ctx m); eauto with machine. Qed.

Lemma run_ok_state ctx sc sc' :
  run_ok (e_res env) ctx -> state_ctx ctx = Some sc -> ctx_wf sc' -> ctx_rel sc sc' -> run_ok (e_res env) (set_state (Some sc') ctx).
Proof.
  intros [H1 H2 H3 H4 (sc0 & E & _ & Hz & Hb)] Es Hsc Hrel. assert (sc0 = sc) as -> by congruence. split; [unfold ctx_ok, acct_block_ok in *; by destruct ctx|by destruct ctx..|].
  exists sc'. split; [by destruct ctx|]. split; [done|]. split; [by apply (rel_sized sc)|by apply (ctx_rel_trans base sc)].
Qed.

Lemma ref_total sc id slot : ctx_wf sc -> 0 <= id -> is_Some (blyt_state_ref sc id slot).
Proof.
  intros Hwf Hid. unfold blyt_state_ref, find_buffer. pose proof (wf_nb _ Hwf). pose proof (wf_bufs _ Hwf).
  destruct (_ || _) eqn:E; [done|]. cbn [mbind option_bind].
  destruct (zget_is_Some (buffers sc) (id - 1)) as [b Hb]; [lia|]. rewrite Hb. cbn [mbind option_bind].
  pose proof (wf_buf _ Hwf (id - 1) b ltac:(lia) Hb) as Hbw. destruct (alloc_val b slot Hbw) as (v & -> & Hv). cbn [mbind option_bind].
  destruct v; [|done]. destruct (Hv eq_refl). destruct (wf_gens _ Hbw) as [Hg _].
  destruct (zget_is_Some (slot_gens b) slot) as [g Hgs]; [lia|]. cbn [negb]. rewrite Hgs. done.
Qed.

Lemma ref_valid_total sc id ref : ctx_wf sc -> 0 <= id -> is_Some (blyt_state_ref_valid sc id ref).
Proof.
  intros Hwf Hid. unfold blyt_state_ref_valid, find_buffer. pose proof (wf_nb _ Hwf). pose proof (wf_bufs _ Hwf).
  destruct (ref =? 0); [done|]. destruct (_ || _) eqn:E; [done|]. cbn [mbind option_bind].
  destruct (zget_is_Some (buffers sc) (id - 1)) as [b Hb]; [lia|]. rewrite Hb. cbn [mbind option_bind].
  pose proof (wf_buf _ Hwf (id - 1) b ltac:(lia) Hb) as Hbw. destruct (alloc_val b (Z.land ref 0xFFFF) Hbw) as (v & -> & Hv). cbn [mbind option_bind].
  destruct v; [|done]. destruct (Hv eq_refl). destruct (wf_gens _ Hbw) as [Hg _].
  destruct (zget_is_Some (slot_gens b) (Z.land ref 0xFFFF)) as [g Hgs]; [lia|]. cbn [negb]. rewrite Hgs. done.
Qed.

Lemma fetch_total sc bi fi slot tag :
  ctx_wf sc -> field_tag sc bi fi = Some tag -> allocated sc bi slot = true -> is_Some (fetch sc bi fi slot).
Proof.
  intros Hwf Ht Ha. unfold fetch, cell, field_tag, allocated in *. pose proof (wf_nb _ Hwf). pose proof (wf_bufs _ Hwf).
  destruct (_ && _) eqn:E; [|done]. destruct (zget (buffers sc) bi) as [b|] eqn:Hb; [|done]. cbn [mbind option_bind] in *.
  destruct ((0 <=? fi) && _) eqn:E2; [|done]. pose proof (wf_buf _ Hwf bi b ltac:(lia) Hb) as Hbw.
  destruct (wf_arrays _ Hbw fi ltac:(lia)) as (tag' & d & Ht' & Hd & Hl & _). assert (tag' = tag) as -> by congruence.
  rewrite Ht. cbn [mbind option_bind]. unfold field_array. rewrite Hd. cbn [mbind option_bind].
  destruct (alloc_val b slot Hbw) as (v & Hv & Hr). rewrite Hv in Ha. cbn in Ha. subst v. destruct (Hr eq_refl).
  pose proof (sizeof_range tag). destruct (cell_in_range slot (field_sizeof tag) (count b)) as [? ?]; [lia|lia|].
  rewrite rd_Some by lia. done.
Qed.

Lemma get_total sc id slot field : ctx_wf sc -> 0 <= id -> 0 <= field -> is_Some (blyt_state_get sc id slot field).
Proof.
  intros Hwf Hid Hf. rewrite get_view by done. destruct (field_tag sc _ _) as [tag|] eqn:Et; [|done].
  destruct (allocated sc (id - 1) slot) eqn:Ea; [|done]. cbn [andb]. destruct (negb _); [|done]. by eapply fetch_total.
Qed.

Lemma get64_total sc id slot field : ctx_wf sc -> 0 <= id -> 0 <= field -> is_Some (blyt_state_get64 sc id slot field).
Proof.
  intros Hwf Hid Hf. rewrite get64_view by done. destruct (field_tag sc _ _) as [tag|] eqn:Et; [|done].
  destruct (allocated sc (id - 1) slot) eqn:Ea; [|done]. cbn [andb]. destruct (tag =? _); [|done]. by eapply fetch_total.
Qed.

Lemma buf_op_ok m : machine_ok m -> succeeds ecall_buf_op m.
Proof.
  intros Hm. unfold succeeds, ecall_buf_op. pose proof Hm as [Hram Hc].
  destruct (g_run_ctx m) as [ctx|] eqn:Ec; [|eauto with machine].
  destruct (state_ctx ctx) as [sc|] eqn:Es; [|eauto with machine].
  assert (ctx_wf sc) as Hwf. { destruct (run_state _ _ Hc) as (sc' & E & ? & _). congruence. }
  assert (forall c rc sc', StateBufferSpec.run_state sc c = Some (rc, sc') -> ctx_wf sc' ->
    machine_ok (set_ctx m (set_state (Some sc') ctx))) as Hput.
  { intros c rc sc' Hrun Hwf'. apply machine_ok_set; [done|]. by apply (run_ok_state ctx sc), (run_state_rel sc c rc). }
  assert (machine_ok (set_ctx m (set_state (Some sc) ctx))) as Hput0
    by (apply machine_ok_set; [done|by apply (run_ok_state ctx sc); [| | |apply ctx_rel_refl]]).
  assert (0 <= rv_get_reg m rv_reg_a1) as Hid by apply rv_reg_u32.
  assert (0 <= Z.land (rv_get_reg m rv_reg_a3) 0xFFFF) as Hf by (apply Z.land_nonneg; right; lia).
  assert (exists m', buf_op m ctx sc = Some m' /\ machine_ok m') as (m' & -> & Hm').
  { unfold buf_op. destruct (_ && _).
    { destruct (Z.odd _).
      - destruct (get_total sc _ (i32 (rv_get_reg m rv_reg_a2)) _ Hwf Hid Hf) as [r ->]. cbn [mbind option_bind]. eauto with machine.
      - destruct (set_view sc _ (i32 (rv_get_reg m rv_reg_a2)) _ (rv_get_reg m rv_reg_a4) 0 Hwf Hid Hf)
          as [[-> _]|(tag & sc' & E & _ & _ & _ & Hwf' & _)]; [cbn [mbind option_bind snd]; eauto with machine|].
        pose proof (Hput (SSet _ _ _ _ _) _ _ E Hwf'). rewrite E. cbn [mbind option_bind snd]. eauto with machine. }
    destruct (_ =? BUF_OP_ALLOC_SLOT).
    { destruct (alloc_slot_view sc (rv_get_reg m rv_reg_a1) Hwf Hid) as [[_ ->]|[_ [[-> _]|(s & sc' & E & _ & _ & _ & Hwf' & _)]]];
        [cbn [mbind option_bind]; eauto 10 with machine..|].
      assert (StateBufferSpec.run_state sc (SAlloc (rv_get_reg m rv_reg_a1)) = Some (0, sc')) as E'
        by (cbn [StateBufferSpec.run_state]; by rewrite E).
      pose proof (Hput _ _ _ E' Hwf'). rewrite E. cbn [mbind option_bind]. eauto with machine. }
    destruct (_ =? BUF_OP_FREE_SLOT).
    { destruct (free_slot_view sc (rv_get_reg m rv_reg_a1) (i32 (rv_get_reg m rv_reg_a2)) Hwf Hid)
        as [[-> _]|(sc' & E & _ & _ & _ & Hwf' & _)]; [cbn [mbind option_bind]; eauto with machine|].
      pose proof (Hput (SFree _ _) _ _ E Hwf'). rewrite E. cbn [mbind option_bind]. eauto with machine. }
    destruct (_ =? BUF_OP_REF).
    { destruct (ref_total sc _ (i32 (rv_get_reg m rv_reg_a2)) Hwf Hid) as [r ->]. cbn [mbind option_bind]. eauto with machine. }
    destruct (_ =? BUF_OP_REF_VALID).
    { destruct (ref_valid_total sc _ (u32 (i32 (rv_get_reg m rv_reg_a2))) Hwf Hid) as [r ->]. cbn [mbind option_bind]. eauto with machine. }
    destruct (_ =? BUF_OP_GET_F64).
    { destruct (get64_total sc _ (i32 (rv_get_reg m rv_reg_a2)) _ Hwf Hid Hf) as [r ->]. cbn [mbind option_bind]. eauto with machine. }
    destruct (_ =? BUF_OP_SET_F64); [|eauto with machine].
    destruct (set64_view sc _ (i32 (rv_get_reg m rv_reg_a2)) _ (Z.lor (rv_get_reg m rv_reg_a4) (Z.shiftl (rv_get_reg m rv_reg_a5) 32)) Hwf Hid Hf)
      as [[-> _]|(sc' & E & _ & _ & Hwf' & _)]; [cbn [mbind option_bind snd]; eauto with machine|].
    pose proof (Hput (SSet64 _ _ _ _) _ _ E Hwf'). rewrite E. cbn [mbind option_bind snd]. eauto with machine. }
  cbn [mbind option_bind]. eauto with machine.
Qed.

Lemma save_write_ok m : machine_ok m -> succeeds (ecall_save_write env) m.
Proof.
  intros Hm. unfold succeeds, ecall_save_write. pose proof Hm as [Hram Hc Hf].
  assert (forall f, fs_bytes f -> machine_ok (set_files m f)) as Hput by done.
  destruct (g_run_ctx m) as [ctx|] eqn:Ec; [|cbn; eauto 10 with machine].
  destruct (run_state _ _ Hc) as (sc & -> & Hwf & Hs & _). destruct (save_dir ctx) as [dir|]; [|cbn; eauto 10 with machine].
  destruct (save_write_total (e_fs env) sc (Some dir) (Some (cart_name ctx)) (rv_get_reg m rv_reg_a0) (save_version ctx) (files m) Hwf Hs Hf)
    as (r & f & -> & Hf'). cbn [mbind option_bind]. eauto 10 with machine.
Qed.

Lemma save_read_ok m : machine_ok m -> succeeds ecall_save_read m.
Proof.
  intros Hm. unfold succeeds, ecall_save_read. pose proof Hm as [Hram Hc Hf].
  destruct (g_run_ctx m) as [ctx|] eqn:Ec; [|cbn; eauto 10 with machine].
  destruct (run_state _ _ Hc) as (sc & Es & Hwf & Hs & _). rewrite Es. destruct (save_dir ctx) as [dir|]; [|cbn; eauto 10 with machine].
  destruct (save_read_total sc (Some dir) (Some (cart_name ctx)) (rv_get_reg m rv_reg_a0) (files m) Hwf Hs Hf)
    as (r & v & sc' & -> & Hwf' & Hrel). cbn [mbind option_bind].
  eexists. split; [done|]. apply machine_ok_advance, machine_ok_reg, machine_ok_reg, machine_ok_set; [done|].
  by apply (run_ok_state ctx sc).
Qed.

Lemma gfx_acquire_ok m : machine_ok m -> succeeds ecall_gfx_acquire m.
Proof. intros Hm. eexists. split; [done|]. by apply machine_ok_advance, machine_ok_reg. Qed.

Lemma dap_hook_ok m : machine_ok m -> succeeds ecall_dap_hook m.
Proof. intros Hm. eexists. split; [done|]. by apply machine_ok_advance, machine_ok_reg. Qed.

(** ** The dispatcher *)

Lemma handler_ok m : machine_ok m -> call_ok m -> succeeds (blyt_ecall_handler env) m.
Proof.
  intros Hm Hc. unfold succeeds, blyt_ecall_handler. 
  repeat (match goal with |- context [if rv_get_reg m rv_reg_a7 =? ?n then _ else _] => destruct (Z.eqb_spec (rv_get_reg m rv_reg_a7) n) as [En|] end;
    [first [by apply exit_ok|by apply console_ok|by apply clear_ok|by apply pixel_ok|by apply rect_ok|by apply line_call_ok|by apply create_ok
      |by apply destroy_ok|by apply blit_ok|by apply acquire_ok|by apply release_ok|by apply gfx_acquire_ok|by apply dap_hook_ok
      |by apply present_ok|by apply palette_set_ok|by apply pin_ok|by apply unpin_ok|by apply mem_resources_ok|by apply phase_ok|by apply frame_done_ok
      |by apply host_fn_return_ok|by apply buf_op_ok|by apply save_write_ok|by apply save_read_ok]|]).
  destruct (_ || _); [by apply sys_exit_ok|by apply unknown_ok].
Qed.

(** A call outside [call_ok] that ends has kept to its buffers all the same. *)
Lemma surface_draw_keeps (m m' : mach) dst draw :
  machine_ok m ->
  (forall px w h r, draw (Some px) w h = Some r -> exists px', r = Some px' /\ len px' = len px) ->
  surface_draw env m dst draw = Some m' -> machine_ok m'.
Proof.
  intros Hm Hd. unfold surface_draw.
  destruct (phase_gate_ok m Hm) as (go & halted & m1 & -> & Hm1 & Hgo & _). destruct go; cbn [negb]; [|intros [= <-]; auto with machine].
  destruct (Hgo eq_refl) as (-> & _).
  destruct (lock_gate_ok m (surface_of m dst) Hm) as (go & halted' & m2 & -> & Hm2 & Hgo2).
  destruct go; cbn [negb]; [|intros [= <-]; auto with machine].
  destruct (Hgo2 eq_refl) as [-> _]. destruct (surface_of m dst) as [[i s]|] eqn:Es; [|intros [= <-]; auto with machine].
  destruct (g_run_ctx m) as [ctx|] eqn:Ec; [|intros [= <-]; auto with machine].
  destruct (surface_px m ctx dst i s Hm Ec Es) as (Hreg & Hs & Hu & px & -> & Hl & Hfb).
  destruct (draw (Some px) (s_w s) (s_h s)) as [r|] eqn:E; cbn [mbind option_bind]; [|done].
  destruct (Hd _ _ _ _ E) as (px' & -> & Hl'). intros [= <-]. apply machine_ok_advance, machine_ok_paint; try done. lia.
Qed.

Lemma blit_self_len b stride width height x y r :
  raster_blit_self (Some b) stride width height x y = Some r -> exists b', r = Some b' /\ len b' = len b.
Proof.
  unfold raster_blit_self. destruct (_ || _); [intros [= <-]; eauto|]. cbv zeta.
  destruct (_ || _); [intros [= <-]; eauto|].
  match goal with |- context [rows ?k ?y ?f b] => destruct (rows k y f b) as [b'|] eqn:E end; cbn [mbind option_bind]; [|done].
  intros [= <-]. exists b'. split; [done|]. eapply rows_len; [|exact E].
  intros row c c'. cbv beta. match goal with |- context [if ?t then None else _] => destruct t end; [done|].
  destruct (rd c _ _) as [bs|]; cbn [mbind option_bind]; [|done]. apply store_bytes_len.
Qed.

Lemma blit_self_keeps (m m' : mach) i s s' :
  machine_ok m -> surface_of m (rv_get_reg m rv_reg_a0) = Some (i, s) -> surface_of m (rv_get_reg m rv_reg_a1) = Some (i, s') ->
  ecall_surface_blit env m = Some m' -> machine_ok m'.
Proof.
  intros Hm Es Es'. unfold ecall_surface_blit.
  destruct (phase_gate_ok m Hm) as (go & halted & m1 & -> & Hm1 & Hgo & _). destruct go; cbn [negb]; [|intros [= <-]; auto with machine].
  destruct (Hgo eq_refl) as (-> & _ & ctx & Ec & _).
  destruct (lock_gate_ok m (surface_of m (rv_get_reg m rv_reg_a0)) Hm) as (go & halted2 & m2 & -> & Hm2 & Hgo2).
  destruct go; cbn [negb]; [|intros [= <-]; auto with machine]. destruct (Hgo2 eq_refl) as [-> _].
  destruct (lock_gate_ok m (surface_of m (rv_get_reg m rv_reg_a1)) Hm) as (go & halted3 & m3 & -> & Hm3 & Hgo3).
  destruct go; cbn [negb]; [|intros [= <-]; auto with machine]. destruct (Hgo3 eq_refl) as [-> _].
  rewrite Es, Es', Ec, Z.eqb_refl. destruct (surface_px m ctx _ i s Hm Ec Es) as (_ & Hs & Hu & px & -> & Hl & _).
  destruct (raster_blit_self (Some px) _ _ _ _ _) as [r|] eqn:E; cbn [mbind option_bind]; [|done].
  apply blit_self_len in E as (px' & -> & Hl'). intros [= <-]. apply machine_ok_advance, machine_ok_paint; try done. lia.
Qed.

(** Every call that ends keeps the machine consistent. *)
Lemma handler_keeps (m m' : mach) : machine_ok m -> blyt_ecall_handler env m = Some m' -> machine_ok m'.
Proof.
  intros Hm Hr.
  assert (call_ok m -> machine_ok m') as Hok.
  { intros Hc. destruct (handler_ok m Hm Hc) as (m2 & Hr2 & Hm2). congruence. }
  destruct (Z.eqb_spec (rv_get_reg m rv_reg_a7) BLYT_ECALL_SURFACE_LINE) as [En|Hl].
  - unfold blyt_ecall_handler in Hr. rewrite En in Hr.
    eapply (surface_draw_keeps m m'); [done| |exact Hr]. intros px w h r. apply line_len.
  - destruct (Z.eqb_spec (rv_get_reg m rv_reg_a7) BLYT_ECALL_SURFACE_BLIT) as [En|Hb]; [|apply Hok; by split].
    destruct (surface_of m (rv_get_reg m rv_reg_a0)) as [[i s]|] eqn:Es; [|apply Hok; split; [done|]; intros _ i s j s'; congruence].
    destruct (surface_of m (rv_get_reg m rv_reg_a1)) as [[j s']|] eqn:Es'; [|apply Hok; split; [done|]; intros _ i' s1 j s'; congruence].
    destruct (Z.eqb_spec i j) as [<-|Hne]; [|apply Hok; split; [done|]; intros _ i' s1 j' s2 ? ?; by simplify_eq].
    unfold blyt_ecall_handler in Hr. rewrite En in Hr. by apply (blit_self_keeps m m' i s s').
Qed.

(** ** Runs of a cart *)

(** Between two ECALLs the guest may do anything to its registers and memory. *)
Definition guest_moves (m m' : mach) : Prop :=
  ram_size (rv_mem m') = ram_size (rv_mem m) /\ g_run_ctx m' = g_run_ctx m /\ files m' = files m /\ console m' = console m.

Inductive cart_step : mach -> mach -> Prop :=
  | guest_step m m' : guest_moves m m' -> cart_step m m'
  | ecall_step m m' : blyt_ecall_handler env m = Some m' -> cart_step m m'.

Lemma cart_run_ok (m m' : mach) : machine_ok m -> rtc cart_step m m' -> machine_ok m'.
Proof.
  intros Hm Hrun. induction Hrun as [|m m1 m2 Hs _ IH]; [done|]. apply IH. destruct Hs as [m m1 (E1 & E2 & E3 & _)|m m1 Hr].
  - destruct Hm as [H1 H2 H3]. split; [by rewrite E1|by rewrite E2|by rewrite E3].
  - by apply (handler_keeps m).
Qed.
End machine.

#[export] Hint Resolve machine_ok_reg machine_ok_halt machine_ok_advance machine_ok_fcsr machine_ok_log machine_ok_write machine_ok_out : machine.
