(* ===== verification/EcallTheorems.v ===== *)
(** * EcallTheorems: what a cart can and cannot do to the console

    Properties of the ECALL dispatcher: safety of every reachable call, the phase and lock
    gates, the effect of a drawing call on the surfaces, and the resource pin. *)

From S2P Require Import Prelude Handle MemBudget StateBuffer StateBufferSpec Save SaveTheorems ResourceTable ResourceTheorems Raster Palettes.
From S2P Require Import RunCtx Surface SurfaceSpec SurfaceTheorems Ecall EcallSpec.
From Stdlib Require Import ZArith Lia Strings.String.
From stdpp Require Import base tactics list relations gmap.
Open Scope Z_scope.

(** ** An executable register file *)

Record regs := MkRegs { reg_of : Z -> Z }.
Definition regs_get (x : regs) (r : Z) : Z := u32 (reg_of x r).
Definition regs_put (x : regs) (r v : Z) : regs := MkRegs (fun r' => if r =? r' then v else reg_of x r').

#[export] Program Instance regs_file : RegFile regs := {| rv_reg := regs_get; rv_put := regs_put |}.
Next Obligation. intros. apply u32_range. Qed.
Next Obligation. intros x r v _ Hv. unfold regs_get, regs_put. cbn. rewrite Z.eqb_refl. by apply u32_id. Qed.
Next Obligation. intros x r r' v Hne. unfold regs_get, regs_put. cbn. by rewrite (proj2 (Z.eqb_neq r r') Hne). Qed.

Section ecall.
Context {R M : Type} `{HR : RegFile R} `{HM : GuestMemory M} (env : ecall_env) (base : blyt_state_ctx_t).
Abbreviation mach := (machine R M).

(** C2: A guest that keeps to the call contract cannot take the runtime outside its buffers.
    Start from any machine whose run context is consistent ([machine_ok]: among the rest, every
    resource entry's bytes lie inside the cart image) and let the guest run:
    arbitrary code between ECALLs, and ECALLs with arbitrary arguments that succeed, saves and
    loads of any file included.  In every state it can reach the surface registry, the
    resource table, the scratch offset, the palette, the state buffers (laid out as they were)
    and the save files are consistent, and the next call succeeds - it reads and writes inside
    the buffers only, and terminates - if it is within the contract ([call_ok]): not a line with an
    endpoint of 2^28 or more and not a surface blitted onto itself.  Calls outside of it are undefined
    behaviour in the source, and a table whose lengths overrun the image is not consistent. *)
Theorem ecall_reach_safe (m m' : mach) :
  machine_ok base env m -> rtc (cart_step env) m m' ->
  machine_ok base env m' /\ (call_ok m' -> exists m'', blyt_ecall_handler env m' = Some m'').
Proof.
  intros Hm Hrun. assert (machine_ok base env m') as Hm' by by apply (cart_run_ok base env m).
  split; [done|]. intros Hc. destruct (handler_ok base env m' Hm' Hc) as (m2 & Hr & _). by exists m2.
Qed.

(** ** The gates *)

(** A debug cart that breaks a rule: the fault is recorded and the emulator halted. *)
Definition faulted (m : mach) (ctx : blyt_run_ctx_t) (msg : list Z) : mach :=
  rv_halt (set_ctx (log env m msg) (set_dev_fault true ctx)).

Definition surface_writes : list Z :=
  [BLYT_ECALL_SURFACE_CLEAR; BLYT_ECALL_SURFACE_PIXEL; BLYT_ECALL_SURFACE_RECT_FILL; BLYT_ECALL_SURFACE_LINE].

Definition is_locked (ctx : blyt_run_ctx_t) (h : Z) : Prop :=
  exists i s, blyt_resolve_surface (surfaces ctx) h = Some (i, s) /\ s_locked s = true.

(** A call that the gates must turn away. *)
Definition turned_away (m : mach) (ctx : blyt_run_ctx_t) : Prop :=
  let num := rv_get_reg m rv_reg_a7 in
  let a0 := rv_get_reg m rv_reg_a0 in
  let a1 := rv_get_reg m rv_reg_a1 in
  num ∈ surface_writes /\ (phase ctx <> BLYT_PHASE_DRAW \/ is_locked ctx a0)
  \/ num = BLYT_ECALL_SURFACE_BLIT /\ (phase ctx <> BLYT_PHASE_DRAW \/ is_locked ctx a0 \/ is_locked ctx a1)
  \/ num = BLYT_ECALL_SURFACE_DESTROY /\ is_locked ctx a0.

Lemma advance_0 (m : mach) : is_u32 (PC m) -> advance m 0 = m.
Proof. intros Hp. unfold advance. rewrite Z.add_0_r, u32_id by done. by destruct m. Qed.

Lemma log_pc (m : mach) msg : PC (log env m msg) = PC m.
Proof. unfold log. by destruct (e_log_fn env). Qed.

Lemma phase_gate_closed (m : mach) ctx :
  g_run_ctx m = Some ctx -> phase ctx <> BLYT_PHASE_DRAW ->
  exists msg, blyt_surface_phase_gate env m
    = (false, cart_is_debug ctx, if cart_is_debug ctx then faulted m ctx msg else m).
Proof.
  intros Ec Hp. unfold blyt_surface_phase_gate. rewrite Ec, (proj2 (Z.eqb_neq _ _) Hp).
  eexists. destruct (cart_is_debug ctx); [reflexivity|done].
Qed.

Lemma phase_gate_open (m : mach) ctx :
  g_run_ctx m = Some ctx -> phase ctx = BLYT_PHASE_DRAW -> blyt_surface_phase_gate env m = (true, false, m).
Proof. intros Ec Hp. unfold blyt_surface_phase_gate. by rewrite Ec, Hp. Qed.

Lemma lock_gate_closed (m : mach) ctx i s :
  g_run_ctx m = Some ctx -> s_locked s = true ->
  exists msg, blyt_surface_lock_gate env m (Some (i, s))
    = (false, cart_is_debug ctx, if cart_is_debug ctx then faulted m ctx msg else m).
Proof.
  intros Ec Hl. unfold blyt_surface_lock_gate. rewrite Hl, Ec. cbn [negb].
  eexists. destruct (cart_is_debug ctx); [reflexivity|done].
Qed.

Lemma lock_gate_open (m : mach) s :
  match s with Some (_, s) => s_locked s = false | None => True end -> blyt_surface_lock_gate env m s = (true, false, m).
Proof. intros Hl. unfold blyt_surface_lock_gate. destruct s as [[i s]|]; [by rewrite Hl|done]. Qed.

(** What a caller of a closed gate does. *)
Lemma turned (m : mach) ctx (debug : bool) msg :
  is_u32 (PC m) ->
  advance (if debug then faulted m ctx msg else m) (if debug then 0 else 4) = if debug then faulted m ctx msg else advance m 4.
Proof. intros Hp. destruct debug; [|done]. apply advance_0. cbn. by rewrite log_pc. Qed.

(** The lock gate on either handle, whichever closes first. *)
Lemma lock_gate_cases (m : mach) ctx h :
  g_run_ctx m = Some ctx ->
  (is_locked ctx h /\ exists msg, blyt_surface_lock_gate env m (surface_of m h)
     = (false, cart_is_debug ctx, if cart_is_debug ctx then faulted m ctx msg else m))
  \/ (~ is_locked ctx h /\ blyt_surface_lock_gate env m (surface_of m h) = (true, false, m)).
Proof.
  intros Ec. unfold surface_of, is_locked. rewrite Ec. destruct (blyt_resolve_surface (surfaces ctx) h) as [[i s]|] eqn:Er.
  - destruct (s_locked s) eqn:El; [left|right].
    + split; [by exists i, s|by apply lock_gate_closed].
    + split; [intros (i' & s' & E & Hl); congruence|by apply lock_gate_open].
  - right. split; [by intros (i' & s' & E & _)|by apply lock_gate_open].
Qed.

Lemma surface_draw_turned (m : mach) ctx dst draw :
  g_run_ctx m = Some ctx -> is_u32 (PC m) -> phase ctx <> BLYT_PHASE_DRAW \/ is_locked ctx dst ->
  exists msg, surface_draw env m dst draw = Some (if cart_is_debug ctx then faulted m ctx msg else advance m 4).
Proof.
  intros Ec Hpc Hor. unfold surface_draw. destruct (Z.eqb_spec (phase ctx) BLYT_PHASE_DRAW) as [Hp|Hp].
  - rewrite (phase_gate_open m ctx Ec Hp). cbn [negb].
    destruct (lock_gate_cases m ctx dst Ec) as [[_ [msg ->]]|[Hn _]]; [|by destruct Hor].
    exists msg. cbn [negb]. by rewrite turned.
  - destruct (phase_gate_closed m ctx Ec Hp) as [msg ->]. exists msg. cbn [negb]. by rewrite turned.
Qed.

(** C32: The gates turn away exactly what they should, the same way everywhere.  A tier-1
    write or a blit outside [draw()], and a tier-1 write, a blit (on either side) or a
    destroy of a surface held by a lock, is refused before it touches anything: a release
    cart continues after the call with nothing else changed; a debug cart is halted at
    the call with the developer fault raised (and the message logged), its surfaces, memory and
    registers as they were. *)
Theorem ecall_gates_exact (m : mach) (ctx : blyt_run_ctx_t) :
  g_run_ctx m = Some ctx -> is_u32 (PC m) -> turned_away m ctx ->
  exists msg, blyt_ecall_handler env m = Some (if cart_is_debug ctx then faulted m ctx msg else advance m 4).
Proof.
  intros Ec Hpc [[Hnum Hor]|[[Hnum Hor]|[Hnum Hl]]].
  - unfold surface_writes in Hnum. repeat (apply elem_of_cons in Hnum as [Hnum|Hnum]);
      [..|by apply elem_of_nil in Hnum]; unfold blyt_ecall_handler; rewrite Hnum; by apply surface_draw_turned.
  - unfold blyt_ecall_handler. rewrite Hnum. change (exists msg, ecall_surface_blit env m = Some (if cart_is_debug ctx then faulted m ctx msg else advance m 4)).
    unfold ecall_surface_blit. destruct (Z.eqb_spec (phase ctx) BLYT_PHASE_DRAW) as [Hp|Hp].
    + rewrite (phase_gate_open m ctx Ec Hp). cbn [negb].
      destruct (lock_gate_cases m ctx (rv_get_reg m rv_reg_a0) Ec) as [[_ [msg ->]]|[Hn ->]]; cbn [negb]; [exists msg; by rewrite turned|].
      destruct (lock_gate_cases m ctx (rv_get_reg m rv_reg_a1) Ec) as [[_ [msg ->]]|[Hn2 ->]]; cbn [negb]; [exists msg; by rewrite turned|].
      by destruct Hor as [|[|]].
    + destruct (phase_gate_closed m ctx Ec Hp) as [msg ->]. exists msg. cbn [negb]. by rewrite turned.
  - unfold blyt_ecall_handler. rewrite Hnum. change (exists msg, ecall_surface_destroy env m = Some (if cart_is_debug ctx then faulted m ctx msg else advance m 4)).
    unfold ecall_surface_destroy. destruct (lock_gate_cases m ctx (rv_get_reg m rv_reg_a0) Ec) as [[_ [msg ->]]|[Hn ->]]; [|done].
    exists msg. cbn [negb]. by rewrite turned.
Qed.

(** ** Drawing *)

Lemma drawn_surfaces (b : bool) ctx : surfaces (if b then set_drawn true ctx else ctx) = surfaces ctx.
Proof. by destruct b, ctx. Qed.

Lemma drawn_flag (b : bool) reg ctx :
  cart_has_drawn (if b then set_drawn true (set_surfaces reg ctx) else set_surfaces reg ctx) = cart_has_drawn ctx || b.
Proof. destruct b, ctx; cbn; [by rewrite orb_true_r|by rewrite orb_false_r]. Qed.

(** The outcome of a tier-1 operation that the gates let through. *)
Lemma surface_draw_through (m : mach) ctx dst draw i s px px' :
  machine_ok base env m -> g_run_ctx m = Some ctx -> phase ctx = BLYT_PHASE_DRAW ->
  blyt_resolve_surface (surfaces ctx) dst = Some (i, s) -> s_locked s = false ->
  pixels_of (surfaces ctx) s = Some px -> draw (Some px) (s_w s) (s_h s) = Some (Some px') -> len px' = len px ->
  exists ctx' s', surface_draw env m dst draw = Some (advance (set_ctx m ctx') 4)
    /\ blyt_resolve_surface (surfaces ctx') dst = Some (i, s') /\ pixels_of (surfaces ctx') s' = Some px'
    /\ others_kept (surfaces ctx) (surfaces ctx') i
    /\ cart_has_drawn ctx' = cart_has_drawn ctx || s_is_screen s.
Proof.
  intros Hm Ec Hp Hr Hl Hpx Hd Hlen. unfold surface_draw. rewrite (phase_gate_open m ctx Ec Hp). cbn [negb].
  assert (surface_of m dst = Some (i, s)) as Hs by (unfold surface_of; by rewrite Ec).
  rewrite (lock_gate_open m (surface_of m dst)) by by rewrite Hs. cbn [negb]. rewrite Hs, Ec, Hpx, Hd. cbn [mbind option_bind].
  destruct (surface_px base env m ctx dst i s Hm Ec Hs) as (Hreg & Hg & Hu & px0 & Hpx0 & Hl0 & _).
  assert (px0 = px) as -> by congruence.
  eexists _, (repaint px' s). split; [reflexivity|]. rewrite drawn_surfaces, surfaces_set_surfaces, drawn_flag.
  rewrite (store_pixels_eq _ i s px' Hg). split_and!; [| | |done].
  - apply (resolve_surface_kept (surfaces ctx) _ _ i s); [done|done| | |].
    + cbn. apply zget_insert_eq. pose proof (slot_index _ Hreg _ _ Hg). by rewrite (r_len _ Hreg).
    + unfold repaint. by destruct (s_pixels s) as [[|]|].
    + unfold repaint. by destruct (s_pixels s) as [[|]|].
  - by apply repaint_pixels_of.
  - intros j sj Hne Hj. split.
    + cbn. rewrite zget_insert_ne; [done|by apply (slot_index _ Hreg i s)|done].
    + by apply (repaint_others _ i s px' Hreg Hg Hu j).
Qed.

(** A rectangle fill reaches exactly the surface and the pixels it names.  In [draw()],
    for any arguments and an unlocked surface, the call advances the PC, changes nothing
    but the run context, and leaves the handle valid; the pixels of the surface inside
    the clipped rectangle take the colour, every other pixel and every other surface is
    as it was; and the cart counts as having drawn exactly when the target is the screen. *)
Theorem ecall_rect_exact (m : mach) (ctx : blyt_run_ctx_t) i s px :
  let x := i32 (rv_get_reg m rv_reg_a1) in
  let y := i32 (rv_get_reg m rv_reg_a2) in
  let w := i32 (rv_get_reg m rv_reg_a3) in
  let h := i32 (rv_get_reg m rv_reg_a4) in
  let color := u8 (rv_get_reg m rv_reg_a5) in
  machine_ok base env m -> g_run_ctx m = Some ctx -> phase ctx = BLYT_PHASE_DRAW ->
  rv_get_reg m rv_reg_a7 = BLYT_ECALL_SURFACE_RECT_FILL ->
  blyt_resolve_surface (surfaces ctx) (rv_get_reg m rv_reg_a0) = Some (i, s) -> s_locked s = false ->
  pixels_of (surfaces ctx) s = Some px ->
  exists ctx' s' px', blyt_ecall_handler env m = Some (advance (set_ctx m ctx') 4)
    /\ blyt_resolve_surface (surfaces ctx') (rv_get_reg m rv_reg_a0) = Some (i, s')
    /\ pixels_of (surfaces ctx') s' = Some px' /\ len px' = s_w s * s_h s
    /\ (forall px_ py_, 0 <= px_ < s_w s -> 0 <= py_ < s_h s ->
          at_ px' (s_w s) px_ py_
          = if (x <=? px_) && (px_ <? x + w) && (y <=? py_) && (py_ <? y + h) then Some color else at_ px (s_w s) px_ py_)
    /\ others_kept (surfaces ctx) (surfaces ctx') i
    /\ cart_has_drawn ctx' = cart_has_drawn ctx || s_is_screen s.
Proof.
  cbv zeta. intros Hm Ec Hp Hnum Hr Hl Hpx. set (color := u8 (rv_get_reg m rv_reg_a5)).
  assert (surface_of m (rv_get_reg m rv_reg_a0) = Some (i, s)) as Hs by (unfold surface_of; by rewrite Ec).
  destruct (surface_px base env m ctx _ i s Hm Ec Hs) as (Hreg & Hg & Hu & px0 & Hpx0 & Hl0 & Hfb). assert (px0 = px) as -> by congruence.
  destruct (rect_spec px (s_w s) (s_w s) (s_h s) (i32 (rv_get_reg m rv_reg_a1)) (i32 (rv_get_reg m rv_reg_a2))
    (i32 (rv_get_reg m rv_reg_a3)) (i32 (rv_get_reg m rv_reg_a4)) color Hfb) as (px' & Hd & Hl' & Hat).
  destruct (surface_draw_through m ctx (rv_get_reg m rv_reg_a0)
    (fun px sw sh => blyt_raster_rect_fill px sw sw sh (i32 (rv_get_reg m rv_reg_a1)) (i32 (rv_get_reg m rv_reg_a2))
       (i32 (rv_get_reg m rv_reg_a3)) (i32 (rv_get_reg m rv_reg_a4)) color) i s px px' Hm Ec Hp Hr Hl Hpx Hd Hl')
    as (ctx' & s' & Hrun & Hr' & Hpx' & Ho & Hf).
  exists ctx', s', px'. split; [unfold blyt_ecall_handler; rewrite Hnum; exact Hrun|]. split_and!; try done; [unfold area in *; lia|].
  intros a b Ha Hb. rewrite Hat by lia. rewrite (proj2 (Z.ltb_lt a (s_w s))), (proj2 (Z.ltb_lt b (s_h s))) by lia. done.
Qed.

(** ** Pinning a resource *)

(** Regions of guest memory the pin writes, apart from its data. *)
Definition clear_of (a n b k : Z) : Prop := b + k <= a \/ a + n <= b.

Lemma out_u32_read (m : mach) v w a n :
  0 <= n -> (v <> 0 -> clear_of a n v 4) -> memory_read (rv_mem (out_u32 m v w)) a n = memory_read (rv_mem m) a n.
Proof.
  intros Hn Hc. unfold out_u32. destruct (Z.eqb_spec v 0); [done|]. cbn. apply memory_read_other; [done|].
  rewrite len_write_u32_le. destruct (Hc n0); lia.
Qed.

Lemma out_u32_word (m : mach) v w :
  v <> 0 -> 0 <= v -> v + 4 <= ram_size (rv_mem m) -> memory_read (rv_mem (out_u32 m v w)) v 4 = write_u32_le w.
Proof.
  intros Hv H0 Hr. unfold out_u32. rewrite (proj2 (Z.eqb_neq v 0) Hv). cbn.
  pose proof (memory_read_write (rv_mem m) v (write_u32_le w) H0) as Hw. rewrite len_write_u32_le in Hw. by apply Hw.
Qed.

Lemma out_u32_ram (m : mach) v w : ram_size (rv_mem (out_u32 m v w)) = ram_size (rv_mem m).
Proof. unfold out_u32. destruct (v =? 0); [done|]. apply memory_write_size. Qed.
Lemma entry_data_pins e p e1 : blyt_resource_entry_data (e_res env) e = Some (p, e1) -> e_rl e1 = e_rl e.
Proof. unfold blyt_resource_entry_data. intros Hd. repeat (case_match || (apply bind_Some in Hd as (? & ? & Hd))); by simplify_eq. Qed.

Lemma entry_data_content e p e1 :
  coherent (e_res env) e -> blyt_resource_entry_data (e_res env) e = Some (p, e1) ->
  content (e_res env) e1 = content (e_res env) e.
Proof. intros Hco Hd. destruct (entry_data_spec _ e Hco) as (p' & e' & Hd' & _ & (Hs & _) & _). congruence. Qed.

Lemma pinned_lookup ctx i e ctx' :
  t_entries (resources ctx) !! i = Some e -> pin_count (e_rl e) + 1 < 2 ^ 32 -> 0 <= pin_count (e_rl e) ->
  surface_step (pinned_ctx ctx i e) ctx' ->
  exists e', t_entries (resources ctx') !! i = Some e' /\ pin_count (e_rl e') = pin_count (e_rl e) + 1
    /\ content (e_res env) e' = content (e_res env) e.
Proof.
  intros Hi Hmax Hmin (reg & t & -> & Hev). set (e2 := with_last_access (u32 (t_lru_clock (resources ctx) + 1)) (with_rl (blyt_rl_pin (e_rl e)) e)).
  assert (t_entries (resources (pinned_ctx ctx i e)) !! i = Some e2) as H2.
  { unfold pinned_ctx. cbv zeta. autorewrite with run_ctx. unfold blyt_resource_table_touch. cbn [t_entries].
    rewrite list_lookup_alter_eq. unfold put_entry. autorewrite with run_ctx. unfold with_entries. cbn [t_entries].
    replace (resources (set_scratch_off _ ctx)) with (resources ctx) by by destruct ctx.
    rewrite list_lookup_insert_eq by by eapply lookup_lt_Some. done. }
  destruct (Forall2_lookup_l _ _ _ _ _ Hev H2) as (e' & He' & Hor). exists e'. autorewrite with run_ctx. split; [done|].
  assert (pin_count (e_rl e2) = pin_count (e_rl e) + 1) as Hp by (apply u32_id; unfold is_u32; lia).
  destruct Hor as [->|[Hr _]]; [by split|]. exfalso. unfold reclaimable, blyt_rl_is_evictable in Hr. rewrite Hp in Hr.
  destruct (Z.eqb_spec (pin_count (e_rl e) + 1) 0); [lia|]. by rewrite andb_false_r in Hr.
Qed.

(** What a successful pin leaves in guest memory. *)
Lemma pin_memory (m : mach) ctx mem' n bs gptr out_ptr out_size :
  let mem := if n =? 0 then rv_mem m else memory_write (rv_mem m) gptr bs in
  len bs = n -> BLYT_RESOURCE_SCRATCH_BASE <= gptr -> gptr + n <= BLYT_RESOURCE_SCRATCH_BASE + BLYT_RESOURCE_SCRATCH_SIZE ->
  BLYT_RESOURCE_SCRATCH_BASE + BLYT_RESOURCE_SCRATCH_SIZE <= ram_size (rv_mem m) ->
  same_but_acct ctx mem mem' ->
  clear_of BLYT_RESOURCE_SCRATCH_BASE BLYT_RESOURCE_SCRATCH_SIZE (mem_acct_vaddr ctx) 12 ->
  0 < out_ptr -> out_ptr + 4 <= ram_size (rv_mem m) -> 0 < out_size -> out_size + 4 <= ram_size (rv_mem m) ->
  clear_of BLYT_RESOURCE_SCRATCH_BASE BLYT_RESOURCE_SCRATCH_SIZE out_ptr 4 ->
  clear_of BLYT_RESOURCE_SCRATCH_BASE BLYT_RESOURCE_SCRATCH_SIZE out_size 4 -> clear_of out_ptr 4 out_size 4 ->
  let m' := out_u32 (out_u32 (set_mem m mem') out_ptr gptr) out_size n in
  memory_read (rv_mem m') gptr n = bs /\ memory_read (rv_mem m') out_ptr 4 = write_u32_le gptr
  /\ memory_read (rv_mem m') out_size 4 = write_u32_le n.
Proof.
  cbv zeta. intros Hbs Hg1 Hg2 Hram [Hs Hsame] Ha Hp Hpr Hz Hzr Hcp Hcz Hpz. pose proof (len_nonneg bs) as Hn. unfold clear_of in *.
  assert (BLYT_RESOURCE_SCRATCH_BASE = 100663296) as Eb by reflexivity.
  assert (ram_size mem' = ram_size (rv_mem m)) as Hr' by (rewrite Hs; destruct (n =? 0); [done|apply memory_write_size]).
  split_and!.
  - rewrite !out_u32_read; [|unfold clear_of; lia..]. cbn [rv_mem set_mem]. rewrite Hsame by lia.
    destruct (Z.eqb_spec n 0) as [E|E].
    + assert (len (memory_read (rv_mem m) gptr n) = 0) as Hl by (rewrite memory_read_len; lia).
      destruct (memory_read (rv_mem m) gptr n); [|unfold len in Hl; cbn in Hl; lia]. destruct bs; [done|unfold len in Hbs; cbn in Hbs; lia].
    + rewrite <-Hbs. apply memory_read_write; lia.
  - rewrite out_u32_read by (unfold clear_of; lia). apply out_u32_word; [lia|lia|]. cbn. lia.
  - apply out_u32_word; [lia|lia|]. rewrite out_u32_ram. cbn. lia.
Qed.

(** C33: A pin delivers the bytes of the resource, or says why not.  A handle that names no
    resource is answered 4.  A resource whose bytes can be produced and fit the scratch
    region is refused with 2, its out pointer cleared and nothing else changed, exactly when
    there is an accounting page and the guest heap, the footprint and - when the entry has no
    pin yet - its length exceed 16 MiB together.  The footprint already holds the length
    of a persistent entry, whose first pin is therefore charged twice and can be refused
    with room left.  Otherwise the answer is 0: the pointer stored for the guest lies in the scratch region and there the guest
    reads exactly the bytes the resource stands for, the size is stored, the entry holds one more
    pin and still stands for the same bytes, and no surface has changed. *)
Theorem ecall_pin_exact (m : mach) (ctx : blyt_run_ctx_t) :
  let out_ptr := rv_get_reg m rv_reg_a1 in
  let out_size := rv_get_reg m rv_reg_a2 in
  let refuse code := advance (rv_set_reg (out_u32 m out_ptr 0) rv_reg_a0 code) 4 in
  machine_ok base env m -> g_run_ctx m = Some ctx -> rv_get_reg m rv_reg_a7 = BLYT_ECALL_RESOURCE_PIN ->
  match blyt_resolve_resource (resources ctx) (rv_get_reg m rv_reg_a0) with
  | None => blyt_ecall_handler env m = Some (refuse 4)
  | Some i =>
      forall e bs, t_entries (resources ctx) !! i = Some e -> content (e_res env) e = Some bs ->
      e_len e <= BLYT_RESOURCE_SCRATCH_SIZE -> 0 <= pin_count (e_rl e) < 2 ^ 32 - 1 ->
      BLYT_RESOURCE_SCRATCH_BASE + BLYT_RESOURCE_SCRATCH_SIZE <= ram_size (rv_mem m) ->
      is_u32 (mem_acct_guest_heap_used ctx (rv_mem m)) ->
      clear_of BLYT_RESOURCE_SCRATCH_BASE BLYT_RESOURCE_SCRATCH_SIZE (mem_acct_vaddr ctx) 12 ->
      0 < out_ptr -> out_ptr + 4 <= ram_size (rv_mem m) -> 0 < out_size -> out_size + 4 <= ram_size (rv_mem m) ->
      clear_of BLYT_RESOURCE_SCRATCH_BASE BLYT_RESOURCE_SCRATCH_SIZE out_ptr 4 ->
      clear_of BLYT_RESOURCE_SCRATCH_BASE BLYT_RESOURCE_SCRATCH_SIZE out_size 4 -> clear_of out_ptr 4 out_size 4 ->
      let fits := mem_acct_vaddr ctx = 0
        \/ mem_acct_guest_heap_used ctx (rv_mem m) + ctx_non_evictable_footprint ctx
           + (if pin_count (e_rl e) =? 0 then e_len e else 0) <= 16 * 1024 * 1024 in
      (~ fits /\ blyt_ecall_handler env m = Some (refuse 2))
      \/ (fits /\ exists m' ctx' e' gptr, blyt_ecall_handler env m = Some m' /\ g_run_ctx m' = Some ctx'
          /\ PC m' = u32 (PC m + 4) /\ rv_get_reg m' rv_reg_a0 = 0
          /\ BLYT_RESOURCE_SCRATCH_BASE <= gptr /\ gptr + e_len e <= BLYT_RESOURCE_SCRATCH_BASE + BLYT_RESOURCE_SCRATCH_SIZE
          /\ memory_read (rv_mem m') gptr (e_len e) = bs
          /\ memory_read (rv_mem m') out_ptr 4 = write_u32_le gptr
          /\ memory_read (rv_mem m') out_size 4 = write_u32_le (e_len e)
          /\ t_entries (resources ctx') !! i = Some e' /\ pin_count (e_rl e') = pin_count (e_rl e) + 1
          /\ content (e_res env) e' = Some bs /\ surfaces ctx' = surfaces ctx)
  end.
Proof.
  cbv zeta. intros Hm Ec Hnum. pose proof Hm as [_ Hc _]. rewrite Ec in Hc.
  assert (blyt_ecall_handler env m = ecall_resource_pin env m) as -> by (unfold blyt_ecall_handler; by rewrite Hnum).
  unfold ecall_resource_pin. rewrite Ec.
  destruct (blyt_resolve_resource (resources ctx) (rv_get_reg m rv_reg_a0)) as [i|]; [|done].
  intros e bs He Hcont Hfit Hpins Hram Hheap Hacct Hp Hpr Hz Hzr Hcp Hcz Hpz. rewrite He. cbn [mbind option_bind].
  destruct (entry_data_ok base env ctx i e Hc He) as (p & e1 & Hd & He1 & Hl1 & Hok1 & Hlen & Hb).
  assert (mem_acct_reference_fits ctx (rv_mem m) e (blyt_rl_is_evictable (e_rl e)) = true <->
    mem_acct_vaddr ctx = 0 \/ mem_acct_guest_heap_used ctx (rv_mem m) + ctx_non_evictable_footprint ctx
           + (if pin_count (e_rl e) =? 0 then e_len e else 0) <= 16 * 1024 * 1024) as Hgate.
  { unfold mem_acct_reference_fits, blyt_rl_is_evictable. destruct (Z.eqb_spec (mem_acct_vaddr ctx) 0) as [|Hv]; [tauto|].
    rewrite u32_id by done. rewrite alloc_fits_spec; [|done|apply u32_range|destruct (_ =? 0); [done|by unfold is_u32]].
    change 16777216 with (16 * 1024 * 1024). tauto. }
  destruct (mem_acct_reference_fits _ _ _ _); cbn [negb]; [right|left; split; [intros Hf; by apply Hgate in Hf|done]].
  split; [by apply Hgate|]. rewrite Hd. cbn [mbind option_bind].
  destruct p as [p|]; [|congruence]. destruct Hb as (bs' & Hb & Hbs). assert (bs' = bs) as -> by congruence.
  assert (len bs = e_len e) as Hlb by (unfold bytes_at in Hb; destruct p; [|destruct (e_owned e1); [cbn in Hb|done]]; apply rd_inv in Hb as (? & ? & ? & ->);
    apply len_sub; lia).
  pose proof (put_entry_lookup ctx i e e1 He) as Hi1. set (ctx1 := put_entry i e1 ctx) in *.
  assert (pin_count (e_rl e1) = pin_count (e_rl e)) as Hpc by by rewrite (entry_data_pins _ _ _ Hd).
  destruct (pin_copy_spec base env (set_ctx m ctx1) ctx1 i e1 (Some p) bs (rv_get_reg m rv_reg_a1) (rv_get_reg m rv_reg_a2))
    as (ctx' & mem' & Hrun & _ & Hst & Hsurf & Hsame); [by apply machine_ok_set|done|done|lia|by intros _; exists p; rewrite Hl1|].
  destruct (scratch_slot_fits base env ctx1 (e_len e1) Hok1 ltac:(lia)) as [Hs1 Hs2].
  destruct (pinned_lookup ctx1 i e1 ctx' Hi1 ltac:(lia) ltac:(lia) Hst) as (e' & He' & Hpin & Hce).
  rewrite Hl1 in *. set (gptr := BLYT_RESOURCE_SCRATCH_BASE + scratch_slot ctx1 (e_len e)) in *.
  destruct (pin_memory (set_ctx (set_ctx m ctx1) ctx') ctx1 mem' (e_len e) bs gptr (rv_get_reg m rv_reg_a1) (rv_get_reg m rv_reg_a2))
    as (Hr1 & Hr2 & Hr3); try done; [unfold gptr; lia|unfold gptr; lia|unfold ctx1; by destruct ctx|].
  eexists _, ctx', e', gptr. split; [exact Hrun|]. clear Hrun. unfold out_u32 in *.
  assert ((rv_get_reg m rv_reg_a1 =? 0) = false) as E1 by lia. assert ((rv_get_reg m rv_reg_a2 =? 0) = false) as E2 by lia.
  rewrite E1, E2 in *. split_and!; try done; [|unfold gptr; lia|unfold gptr; lia|lia| |].
  - unfold rv_get_reg. cbn. by apply rv_reg_put.
  - rewrite Hce, (entry_data_content e (Some p) e1); [done| |done].
    by apply (Forall_lookup_1 _ _ _ _ (run_entries _ _ _ Hc) He).
  - rewrite Hsurf. unfold ctx1. by destruct ctx.
Qed.


End ecall.

(** ** Witnesses: a small machine *)

Definition demo_ecall : ecall_env := MkEcallEnv demo_env (MkEnv (fun _ => true) (fun _ => true) 100000 (fun _ => false)) true true.

Definition demo_run (ph : Z) (debug : bool) : blyt_run_ctx_t :=
  MkRun false false false false false (Some zero_ctx) None [] 0 demo_table 0 false (replicate 256 0) (initial_registry blank_screen)
    ph debug false 0 0.

(** The ECALL number in [a7] and the arguments in [a0] and on. *)
Definition demo_machine (ph : Z) (debug : bool) (num : Z) (args : list Z) : machine regs flat :=
  MkMachine 0x1000 0 false (MkRegs (fun r => if r =? 17 then num else default 0 (zget args (r - 10)))) demo_mem
    (Some (demo_run ph debug)) ∅ [].

Lemma demo_run_ok ph debug : run_ok zero_ctx demo_env (demo_run ph debug).
Proof.
  split; [|repeat constructor; try apply demo_entry_coherent; done|done|done|exists zero_ctx; split; [done|]; split_and!; [split; [done|done|cbn; lia]|intros bi b; cbn; lia|apply ctx_rel_refl]].
  split; [by apply initial_registry_ok, blank_screen_len|]. split; [|done]. split; [by repeat constructor|done].
Qed.

Lemma demo_machine_ok ph debug num args : machine_ok zero_ctx demo_ecall (demo_machine ph debug num args).
Proof. split; [done|apply demo_run_ok|by apply map_Forall_empty]. Qed.

Lemma ecall_reach_safe_witness :
  exists m', blyt_ecall_handler demo_ecall (demo_machine BLYT_PHASE_DRAW false BLYT_ECALL_SURFACE_CREATE [4; 2]) = Some m'.
Proof.
  destruct (ecall_reach_safe demo_ecall zero_ctx (demo_machine BLYT_PHASE_DRAW false BLYT_ECALL_SURFACE_CREATE [4; 2])
    (demo_machine BLYT_PHASE_DRAW false BLYT_ECALL_SURFACE_CREATE [4; 2])) as [_ Hs]; [apply demo_machine_ok|apply rtc_refl|].
  apply Hs. by split.
Defined.

Lemma ecall_gates_exact_witness :
  let m := demo_machine BLYT_PHASE_UPDATE true BLYT_ECALL_SURFACE_CLEAR [BLYT_SCREEN; 1] in
  exists msg, blyt_ecall_handler demo_ecall m = Some (faulted demo_ecall m (demo_run BLYT_PHASE_UPDATE true) msg).
Proof.
  apply (ecall_gates_exact demo_ecall (demo_machine BLYT_PHASE_UPDATE true BLYT_ECALL_SURFACE_CLEAR [BLYT_SCREEN; 1])
    (demo_run BLYT_PHASE_UPDATE true)); [done|done|].
  left. split; [apply elem_of_cons; by left|by left].
Defined.

Lemma ecall_rect_exact_witness :
  let m := demo_machine BLYT_PHASE_DRAW false BLYT_ECALL_SURFACE_RECT_FILL [BLYT_SCREEN; 2; 3; 4; 5; 7] in
  exists ctx' px', blyt_ecall_handler demo_ecall m = Some (advance (set_ctx m ctx') 4)
    /\ at_ px' 320 2 3 = Some 7 /\ cart_has_drawn ctx' = true.
Proof.
  destruct (ecall_rect_exact demo_ecall zero_ctx
    (demo_machine BLYT_PHASE_DRAW false BLYT_ECALL_SURFACE_RECT_FILL [BLYT_SCREEN; 2; 3; 4; 5; 7])
    (demo_run BLYT_PHASE_DRAW false) 0 screen_slot blank_screen) as (ctx' & s' & px' & Hr & _ & _ & _ & Hat & _ & Hd); try reflexivity.
  - apply demo_machine_ok.
  - exists ctx', px'. split; [exact Hr|]. split; [|exact Hd]. refine (eq_trans (Hat 2 3 _ _) _); [split; (done || lia)|split; (done || lia)|reflexivity].
Defined.

Lemma ecall_pin_exact_witness :
  let m := demo_machine BLYT_PHASE_UPDATE false BLYT_ECALL_RESOURCE_PIN
             [blyt_resource_encode 1 BLYT_RESOURCE_PROV_CART; 0x05000000; 0x05000004] in
  exists m' gptr, blyt_ecall_handler demo_ecall m = Some m' /\ rv_get_reg m' rv_reg_a0 = 0
    /\ memory_read (rv_mem m') gptr 10 = replicate 10 7 /\ memory_read (rv_mem m') 0x05000000 4 = write_u32_le gptr.
Proof.
  pose proof (ecall_pin_exact demo_ecall zero_ctx
    (demo_machine BLYT_PHASE_UPDATE false BLYT_ECALL_RESOURCE_PIN
       [blyt_resource_encode 1 BLYT_RESOURCE_PROV_CART; 0x05000000; 0x05000004])
    (demo_run BLYT_PHASE_UPDATE false) (demo_machine_ok _ _ _ _) eq_refl eq_refl) as H.
  replace (blyt_resolve_resource _ _) with (Some 0%nat) in H by (vm_compute; reflexivity).
  destruct (H (demo_entry 1 10 true 0 5) (replicate 10 7)) as [[Hn _]|(_ & m' & ctx' & e' & gptr & Hr & _ & _ & Ha & _ & _ & Hb & Hp & _)];
    [reflexivity|vm_compute; reflexivity|vm_compute; congruence|split; vm_compute; congruence|vm_compute; congruence
    |split; vm_compute; congruence|left; vm_compute; congruence|reflexivity|vm_compute; congruence|reflexivity
    |vm_compute; congruence|left; vm_compute; congruence|left; vm_compute; congruence|right; vm_compute; congruence| |].
  - destruct Hn. by left.
  - exists m', gptr. by split_and!.
Defined.
