(* ===== verification/Session.v ===== *)
(** * Session: the frame loop and the host's calls into a cart

    Models the session API of [runtime/host/src/libblyt/cart_run.c]: one frame
    ([run_frame_impl]), host-initiated calls of guest functions, the reset-every-frame cycle,
    and the save, load, snapshot and restore operations of the development channel.  The build
    modelled has none of [BLYT_GDB], [BLYT_DAP] and [BLYT_LUA_BRIDGE].

    The emulator is a parameter: [rv_step on_ecall] runs a slice of guest code, calling
    [on_ecall] for each ECALL.  An operation that runs guest code is bounded by fuel and its
    [outcome] tells apart a host fault, a guest that is still running, and a result. *)

From S2P Require Import Prelude Handle MemBudget FpCanon StateBuffer Save ResourceTable Palettes TestCard RunCtx Surface Ecall.
From Stdlib Require Import ZArith Lia Strings.String.
From stdpp Require Import base tactics list gmap.
Open Scope Z_scope.

(** ** Outcomes *)

Inductive outcome (A : Type) :=
  | Fault
  | Running
  | Done (a : A).
Arguments Fault {A}. Arguments Running {A}. Arguments Done {A} a.

#[export] Instance outcome_ret : MRet outcome := @Done.
#[export] Instance outcome_bind : MBind outcome := fun A B f o =>
  match o with Fault => Fault | Running => Running | Done a => f a end.

Definition lift {A} (o : option A) : outcome A := match o with Some a => Done a | None => Fault end.

Inductive blyt_cart_run_err_t :=
  | BLYT_RUN_OK
  | BLYT_RUN_ERR_EMU
  | BLYT_RUN_ERR_ECALL_TRAP
  | BLYT_RUN_ERR_ABORT
  | BLYT_RUN_FRAME_DONE
  | BLYT_RUN_GDB_PAUSED
  | BLYT_RUN_RESTART
  | BLYT_RUN_FN_DONE
  | BLYT_RUN_FN_ERROR
  | BLYT_RUN_REVERSE_CALL_PENDING.

#[export] Instance run_err_eq_dec : EqDecision blyt_cart_run_err_t.
Proof. solve_decision. Defined.

Definition rv_reg_ra : Z := 1.
Definition rv_reg_sp : Z := 2.
Definition BLYT_TRAMPOLINE_BASE : Z := 0x01000000.
Definition BLYT_TRAMPOLINE_EXIT_ADDR : Z := BLYT_TRAMPOLINE_BASE.
Definition BLYT_TRAMPOLINE_FN_RETURN_ADDR : Z := u32 (BLYT_TRAMPOLINE_EXIT_ADDR + 64).
Definition BLYT_RELOAD_BASE_A : Z := 0x05000000.
Definition BLYT_RELOAD_BASE_B : Z := 0x07000000.

(** ** The session

    [s_ctx] is [session->ctx] with the framebuffer, the palette, the drawn flag and the state
    buffers its pointers lead to.  The global [g_run_ctx] is the one of the machine
    [s_rv]: while a frame runs it holds the context. *)
Record blyt_session (R M : Type) := MkSession {
  s_rv : machine R M;
  s_ctx : blyt_run_ctx_t;
  frame_count : Z;
  trace_fn_addr : Z;
  cart_bss : list (Z * Z);
  arena_ready_vaddr : Z;
  cart_base : Z;
  cart_span : Z;
  fn_on_save_state : Z;
  fn_init : Z;
  fn_on_load_state : Z;
  fn_on_new_state : Z;
  fn_update : Z;
  fn_draw : Z;
  fn_on_quit : Z;
  fn_cleanup : Z;
  fn_on_assets_reloaded : Z;
  fn_is_quit_requested : Z
}.
Arguments MkSession {R M}. Arguments s_rv {R M}. Arguments s_ctx {R M}. Arguments frame_count {R M}.
Arguments trace_fn_addr {R M}. Arguments cart_bss {R M}. Arguments arena_ready_vaddr {R M}. Arguments cart_base {R M}.
Arguments cart_span {R M}. Arguments fn_on_save_state {R M}. Arguments fn_init {R M}. Arguments fn_on_load_state {R M}.
Arguments fn_on_new_state {R M}. Arguments fn_update {R M}. Arguments fn_draw {R M}. Arguments fn_on_quit {R M}.
Arguments fn_cleanup {R M}. Arguments fn_on_assets_reloaded {R M}. Arguments fn_is_quit_requested {R M}.

(** Sixteen lower-case hexadecimal digits ([%016llx]). *)
Definition hex_digit (d : Z) : Z := if d <? 10 then 48 + d else 87 + d.
Definition hex16 (h : Z) : list Z := (fun i => hex_digit (Z.land (Z.shiftr h (4 * (15 - i))) 15)) <$> seqZ 0 16.

(** How the run loop ends. *)
Inductive loop_end (A : Type) :=
  | StepFault
  | StillRunning
  | FrameEnd (m : A)
  | FnEnd (m : A)
  | Stopped (m : A).
Arguments StepFault {A}. Arguments StillRunning {A}. Arguments FrameEnd {A} m. Arguments FnEnd {A} m. Arguments Stopped {A} m.

Section session.
Context {R M : Type} `{RegFile R} `{GuestMemory M} (env : ecall_env).
Abbreviation mach := (machine R M).
Abbreviation session := (blyt_session R M).

Variable rv_step : (mach -> option mach) -> mach -> option mach.
Variable memory_fill : M -> Z -> Z -> Z -> M.
(** The environment variable [BLYT_FRAME_HASH] is set. *)
Variable frame_hash_on : bool.
(** Which allocations of a snapshot succeed (see [blyt_state_ctx_snapshot]). *)
Variable snap_ok : option (Z * Z) -> bool.

(** ** Assignments *)

Definition with_pc (pc : Z) (m : mach) : mach :=
  MkMachine pc (csr_fcsr m) (rv_halted m) (xregs m) (rv_mem m) (g_run_ctx m) (files m) (console m).
Definition with_halt (b : bool) (m : mach) : mach :=
  MkMachine (PC m) (csr_fcsr m) b (xregs m) (rv_mem m) (g_run_ctx m) (files m) (console m).
Definition with_run_ctx (c : option blyt_run_ctx_t) (m : mach) : mach :=
  MkMachine (PC m) (csr_fcsr m) (rv_halted m) (xregs m) (rv_mem m) c (files m) (console m).

Definition on_rv (f : mach -> mach) (s : session) : session :=
  MkSession (f (s_rv s)) (s_ctx s) (frame_count s) (trace_fn_addr s) (cart_bss s) (arena_ready_vaddr s) (cart_base s)
    (cart_span s) (fn_on_save_state s) (fn_init s) (fn_on_load_state s) (fn_on_new_state s) (fn_update s) (fn_draw s)
    (fn_on_quit s) (fn_cleanup s) (fn_on_assets_reloaded s) (fn_is_quit_requested s).
Definition with_ctx (c : blyt_run_ctx_t) (s : session) : session :=
  MkSession (s_rv s) c (frame_count s) (trace_fn_addr s) (cart_bss s) (arena_ready_vaddr s) (cart_base s)
    (cart_span s) (fn_on_save_state s) (fn_init s) (fn_on_load_state s) (fn_on_new_state s) (fn_update s) (fn_draw s)
    (fn_on_quit s) (fn_cleanup s) (fn_on_assets_reloaded s) (fn_is_quit_requested s).
Definition with_frame_count (n : Z) (s : session) : session :=
  MkSession (s_rv s) (s_ctx s) n (trace_fn_addr s) (cart_bss s) (arena_ready_vaddr s) (cart_base s)
    (cart_span s) (fn_on_save_state s) (fn_init s) (fn_on_load_state s) (fn_on_new_state s) (fn_update s) (fn_draw s)
    (fn_on_quit s) (fn_cleanup s) (fn_on_assets_reloaded s) (fn_is_quit_requested s).
Definition with_trace_fn (a : Z) (s : session) : session :=
  MkSession (s_rv s) (s_ctx s) (frame_count s) a (cart_bss s) (arena_ready_vaddr s) (cart_base s)
    (cart_span s) (fn_on_save_state s) (fn_init s) (fn_on_load_state s) (fn_on_new_state s) (fn_update s) (fn_draw s)
    (fn_on_quit s) (fn_cleanup s) (fn_on_assets_reloaded s) (fn_is_quit_requested s).

(** [g_run_ctx = &session->ctx] and [g_run_ctx = NULL]: the context moves to the machine and back. *)
Definition enter (s : session) : mach := with_run_ctx (Some (s_ctx s)) (s_rv s).
Definition leave (m : mach) (s : session) : session :=
  with_ctx (default (s_ctx s) (g_run_ctx m)) (on_rv (fun _ => with_run_ctx None m) s).

(** ** One frame *)

Definition blyt_emit_frame_hash (m : mach) : mach :=
  match g_run_ctx m with
  | None => m
  | Some c =>
      if negb frame_hash_on then m
      else
        let h := blyt_frame_hash (Some (reg_screen (surfaces c))) in
        let m := log env m (text "[blyt:fbhash] "%string ++ hex16 h) in
        let ph := blyt_frame_hash (Some (concat (write_u32_le <$> palette c))) in
        log env m (text "[blyt:palhash] "%string ++ hex16 ph)
  end.

(** The reset of everything scoped to a frame, up to the first instruction. *)
Definition frame_entry (s : session) : option session :=
  let c := set_fn_return_done false (set_frame_done false (s_ctx s)) in
  let c := set_scratch_off 0 c in
  let c := set_resources (blyt_resource_table_force_release_pins (resources c)) c in
  '(c, mem) ← (if trace_fn_addr s =? 0
               then r ← blyt_surface_reap_all c (Some (rv_mem (s_rv s))); Some (fst r, default (rv_mem (s_rv s)) (snd r))
               else Some (c, rv_mem (s_rv s)));
  '(c, mem) ← mem_acct_publish_footprint c mem;
  Some (with_ctx c (on_rv (fun m => with_halt false (set_mem m mem)) s)).

Fixpoint frame_loop (fuel : nat) (m : mach) : loop_end mach :=
  match g_run_ctx m with
  | None => StepFault
  | Some c =>
      if rv_halted m || ecall_trapped c || ecall_aborted c then Stopped m
      else
        match fuel with
        | O => StillRunning
        | S fuel =>
            match rv_step (blyt_ecall_handler env) m with
            | None => StepFault
            | Some m =>
                match g_run_ctx m with
                | None => StepFault
                | Some c =>
                    if frame_done c then FrameEnd m
                    else if fn_return_done c then FnEnd m
                    else frame_loop fuel m
                end
            end
        end
  end.

(** The test card stands in until the cart draws. *)
Definition finish_frame (m : mach) (s : session) : option (mach * session) :=
  match g_run_ctx m with
  | None => None
  | Some c =>
      if cart_has_drawn c then Some (blyt_emit_frame_hash m, s)
      else
        px ← blyt_testcard_draw (frame_count s) (palette c) (reg_screen (surfaces c));
        let m := set_ctx m (set_surfaces (with_screen px (surfaces c)) c) in
        Some (blyt_emit_frame_hash m, with_frame_count (u32 (frame_count s + 1)) s)
  end.

Definition run_frame_impl (fuel : nat) (s : session) : outcome (blyt_cart_run_err_t * session) :=
  s ← lift (frame_entry s);
  match frame_loop fuel (enter s) with
  | StepFault => Fault
  | StillRunning => Running
  | FrameEnd m =>
      '(m, s) ← lift (finish_frame m s);
      Done (BLYT_RUN_FRAME_DONE, leave m s)
  | FnEnd m => Done (BLYT_RUN_FN_DONE, leave m (with_trace_fn 0 s))
  | Stopped m =>
      match g_run_ctx m with
      | None => Fault
      | Some c =>
          if fn_return_done c then Done (BLYT_RUN_FN_DONE, leave m (with_trace_fn 0 s))
          else
            let trapped := ecall_trapped c in
            let aborted := ecall_aborted c || dev_fault c in
            Done (if trapped then BLYT_RUN_ERR_ECALL_TRAP else if aborted then BLYT_RUN_ERR_ABORT else BLYT_RUN_OK, leave m s)
      end
  end.

Definition blyt_session_run_frame (fuel : nat) (s : session) : outcome (blyt_cart_run_err_t * session) :=
  let prev_run_ctx := g_run_ctx (s_rv s) in
  '(r, s) ← run_frame_impl fuel s;
  Done (r, on_rv (with_run_ctx prev_run_ctx) s).

(** [blyt_cart_run] after the session is created: frames until one does not end. *)
Fixpoint blyt_cart_run_loop (frames fuel : nat) (s : session) : outcome (blyt_cart_run_err_t * session) :=
  match frames with
  | O => Running
  | S frames =>
      '(err, s) ← blyt_session_run_frame fuel s;
      if bool_decide (err = BLYT_RUN_FRAME_DONE) then blyt_cart_run_loop frames fuel s else Done (err, s)
  end.

(** ** Calls of guest functions *)

Fixpoint set_args (r : Z) (args : list Z) (m : mach) : mach :=
  match args with
  | [] => m
  | a :: args => set_args (r + 1) args (rv_set_reg m r a)
  end.

(** At most four arguments. *)
Definition blyt_session_begin_fn_call (s : session) (fn_addr : Z) (args : list Z) : session :=
  let s := with_trace_fn fn_addr s in
  let s := on_rv (with_pc fn_addr) s in
  let s := on_rv (fun m => rv_set_reg m rv_reg_ra BLYT_TRAMPOLINE_FN_RETURN_ADDR) s in
  let s := on_rv (set_args rv_reg_a0 (take 4 args)) s in
  let s := on_rv (with_halt false) s in
  with_ctx (set_fn_return_done false (s_ctx s)) s.

Definition blyt_session_fn_return_value (s : session) : Z := rv_get_reg (s_rv s) rv_reg_a0.

Fixpoint call_until_fn_done (frames fuel : nat) (s : session) : outcome (blyt_cart_run_err_t * session) :=
  match frames with
  | O => Running
  | S frames =>
      '(r, s) ← blyt_session_run_frame fuel s;
      if bool_decide (r = BLYT_RUN_FRAME_DONE) then call_until_fn_done frames fuel s else Done (r, s)
  end.

(** The loop of [blyt_session_check_guest_quit]. *)
Fixpoint quit_loop (frames fuel : nat) (s : session) : outcome (blyt_cart_run_err_t * session) :=
  match frames with
  | O => Running
  | S frames =>
      '(ferr, s) ← blyt_session_run_frame fuel s;
      if bool_decide (ferr <> BLYT_RUN_FN_DONE /\ ferr <> BLYT_RUN_OK) then quit_loop frames fuel s else Done (ferr, s)
  end.

Definition blyt_session_check_guest_quit (frames fuel : nat) (s : session) : outcome (bool * session) :=
  if fn_is_quit_requested s =? 0 then Done (false, s)
  else
    '(ferr, s) ← quit_loop frames fuel (blyt_session_begin_fn_call s (fn_is_quit_requested s) []);
    if bool_decide (ferr <> BLYT_RUN_FN_DONE) then Done (false, s)
    else Done (negb (i32 (blyt_session_fn_return_value s) =? 0), s).

(** ** Emulator state around a call *)

Record blyt_emu_state_t := MkEmu { e_pc : Z; e_regs : list Z; e_fcsr : Z }.

Definition emu_state_save (s : session) : blyt_emu_state_t :=
  MkEmu (PC (s_rv s)) (rv_get_reg (s_rv s) <$> seqZ 0 32) (csr_fcsr (s_rv s)).

(** [for (i; k iterations) rv_set_reg(i, regs[i])] *)
Fixpoint restore_regs (k : nat) (i : Z) (regs : list Z) (m : mach) : option mach :=
  match k with
  | O => Some m
  | S k => v ← zget regs i; restore_regs k (i + 1) regs (rv_set_reg m i v)
  end.

Definition emu_state_restore (s : session) (e : blyt_emu_state_t) : option session :=
  let s := with_ctx (set_aborted false (set_trapped false (s_ctx s))) s in
  let s := on_rv (with_pc (e_pc e)) s in
  m ← restore_regs 31 1 (e_regs e) (s_rv s);
  Some (on_rv (fun _ => with_halt false (set_fcsr m (e_fcsr e))) s).

(** ** Lifecycle hooks *)

Definition call_guest_hook (frames fuel : nat) (s : session) (fn : Z) (args : list Z) : outcome session :=
  if fn =? 0 then Done s
  else
    let e := emu_state_save s in
    '(_, s) ← call_until_fn_done frames fuel (blyt_session_begin_fn_call s fn args);
    lift (emu_state_restore s e).

(** [GUEST_RAM_CONTAINS] *)
Definition guest_ram_contains (mem : M) (a n : Z) : bool := a + n <=? ram_size mem.

(** Words materialised below the stack pointer, which then points to them. *)
Definition push_words (s : session) (ws : list Z) : option (Z * session) :=
  let sp := rv_get_reg (s_rv s) rv_reg_sp in
  let bytes := concat (write_u32_le <$> ws) in
  let scratch := Z.land (u32 (sp - len bytes)) (u32 (Z.lnot 15)) in
  let mem := rv_mem (s_rv s) in
  if guest_ram_contains mem scratch (len bytes)
  then Some (scratch, on_rv (fun m => rv_set_reg (set_mem m (memory_write mem scratch bytes)) rv_reg_sp scratch) s)
  else None.

Definition call_guest_on_load_state (frames fuel : nat) (s : session) (reason saved_cart_version buffers : Z) : outcome session :=
  if fn_on_load_state s =? 0 then Done s
  else
    let e := emu_state_save s in
    s ← match push_words s [reason; saved_cart_version; buffers] with
        | Some (scratch, s) =>
            '(_, s) ← call_until_fn_done frames fuel (blyt_session_begin_fn_call s (fn_on_load_state s) [scratch]);
            Done s
        | None => Done s
        end;
    lift (emu_state_restore s e).

(** [ids] is not [NULL]; the byte count is a [uint32_t]. *)
Definition blyt_session_notify_assets_reloaded (frames fuel : nat) (s : session) (ids : list Z) : outcome session :=
  let n := len ids in
  if (fn_on_assets_reloaded s =? 0) || (n =? 0) then Done s
  else if negb (u32 (n * 4) / 4 =? n) then Done s
  else
    let e := emu_state_save s in
    s ← match push_words s ids with
        | Some (scratch, s) =>
            '(_, s) ← call_until_fn_done frames fuel (blyt_session_begin_fn_call s (fn_on_assets_reloaded s) [scratch; u32 n]);
            Done s
        | None => Done s
        end;
    lift (emu_state_restore s e).

(** ** The reset-every-frame cycle *)

Fixpoint zero_regions (rs : list (Z * Z)) (mem : M) : M :=
  match rs with
  | [] => mem
  | (start, size) :: rs => zero_regions rs (memory_fill mem start size 0)
  end.

Definition blyt_session_zero_guest_bss (s : session) : session :=
  on_rv (fun m => set_mem m (zero_regions (cart_bss s) (rv_mem m))) s.

(** An update of the state buffers ([s->ctx.state_ctx] is [&s->state_ctx]). *)
Definition on_state (f : blyt_state_ctx_t -> option blyt_state_ctx_t) (s : session) : option session :=
  sc ← state_ctx (s_ctx s);
  sc ← f sc;
  Some (with_ctx (set_state (Some sc) (s_ctx s)) s).

(** Steps 3 and 3b of the cycle: state buffers, guest statics and the heap's ready flag cleared. *)
Definition wipe (s : session) : option session :=
  s ← on_state blyt_state_ctx_zero_data s;
  let s := blyt_session_zero_guest_bss s in
  Some (if arena_ready_vaddr s =? 0 then s
        else on_rv (fun m => set_mem m (memory_write (rv_mem m) (arena_ready_vaddr s) [0; 0; 0; 0])) s).

(** Up to the label [restore]. *)
Definition reset_body (frames fuel : nat) (s : session) : outcome session :=
  '(go, s) ← (if fn_on_save_state s =? 0 then Done (true, s)
              else
                '(r, s) ← call_until_fn_done frames fuel (blyt_session_begin_fn_call s (fn_on_save_state s) []);
                Done (bool_decide (r = BLYT_RUN_FN_DONE), s));
  if negb go then Done s
  else
    snap ← lift (sc ← state_ctx (s_ctx s); blyt_state_ctx_snapshot snap_ok sc);
    match snap with
    | None => Done s
    | Some snap =>
        s ← lift (wipe s);
        '(r, s) ← call_until_fn_done frames fuel (blyt_session_begin_fn_call s (fn_init s) []);
        if negb (bool_decide (r = BLYT_RUN_FN_DONE)) then Done s
        else
          s ← lift (on_state (fun sc => blyt_state_ctx_restore_snapshot sc (Some snap)) s);
          call_guest_on_load_state frames fuel s 3 0 0
    end.

Definition blyt_reset_every_frame_cycle (frames fuel : nat) (s : session) : outcome session :=
  if fn_init s =? 0 then Done s
  else if cart_exited (s_ctx s) then Done s
  else
    let e := emu_state_save s in
    s ← reset_body frames fuel s;
    lift (emu_state_restore s e).

(** ** The development channel *)

Definition blyt_session_save_state (frames fuel : nat) (s : session) (slot : Z) : outcome (Z * session) :=
  s ← call_guest_hook frames fuel s (fn_on_save_state s) [];
  '(r, f) ← lift (sc ← state_ctx (s_ctx s);
                  blyt_save_write (e_fs env) sc (save_dir (s_ctx s)) (Some (cart_name (s_ctx s))) slot (save_version (s_ctx s))
                    (files (s_rv s)));
  Done (r, on_rv (fun m => set_files m f) s).

Definition blyt_session_load_state (frames fuel : nat) (s : session) (slot : Z) : outcome (Z * session) :=
  '(r, saved_version, sc) ← lift (sc ← state_ctx (s_ctx s);
                                  blyt_save_read sc (save_dir (s_ctx s)) (Some (cart_name (s_ctx s))) slot (files (s_rv s)));
  let s := with_ctx (set_state (Some sc) (s_ctx s)) s in
  if negb (r =? 0) then Done (r, s)
  else
    s ← call_guest_on_load_state frames fuel s 0 saved_version 0;
    Done (0, s).

Definition blyt_session_snapshot (frames fuel : nat) (s : session) : outcome (option blyt_state_snapshot * session) :=
  s ← call_guest_hook frames fuel s (fn_on_save_state s) [];
  snap ← lift (sc ← state_ctx (s_ctx s); blyt_state_ctx_snapshot snap_ok sc);
  Done (snap, s).

Definition blyt_session_restore (frames fuel : nat) (s : session) (snap : option blyt_state_snapshot) (reason : Z) : outcome session :=
  match snap with
  | None => Done s
  | Some snap =>
      s ← lift (on_state (fun sc => blyt_state_ctx_restore_snapshot sc (Some snap)) s);
      call_guest_on_load_state frames fuel s reason 0 0
  end.

(** ** Accessors and accounting *)

Definition blyt_session_cart_heap (s : session) : Z :=
  if mem_acct_vaddr (s_ctx s) =? 0 then 0
  else
    let mem := rv_mem (s_rv s) in
    let used := mem_acct_read_u32 mem (mem_acct_vaddr (s_ctx s)) in
    let baseline := mem_acct_read_u32 mem (u32 (mem_acct_vaddr (s_ctx s) + 12)) in
    if used >? baseline then u32 (used - baseline) else 0.

(** Publish the footprint of a changed context. *)
Definition publish (c : blyt_run_ctx_t) (s : session) : option session :=
  '(c, mem) ← mem_acct_publish_footprint c (rv_mem (s_rv s));
  Some (with_ctx c (on_rv (fun m => set_mem m mem) s)).

Definition blyt_session_set_peer_heap (s : session) (bytes : Z) : option session :=
  publish (set_peer_heap bytes (s_ctx s)) s.

Definition blyt_session_resource_evict_all (s : session) : option (Z * session) :=
  let '(freed, t) := blyt_resource_table_evict_all_evictable (resources (s_ctx s)) in
  s ← publish (set_resources t (s_ctx s)) s;
  Some (freed, s).

Definition session_cart_fn (s : session) (addr : Z) : Z :=
  if negb (addr =? 0) && (addr >=? cart_base s) && (addr <? u32 (cart_base s + cart_span s)) then addr else 0.
Definition blyt_session_cart_fn_init (s : session) : Z := session_cart_fn s (fn_init s).
Definition blyt_session_cart_fn_on_new_state (s : session) : Z := session_cart_fn s (fn_on_new_state s).
Definition blyt_session_cart_fn_update (s : session) : Z := session_cart_fn s (fn_update s).
Definition blyt_session_cart_fn_draw (s : session) : Z := session_cart_fn s (fn_draw s).
Definition blyt_session_cart_fn_on_quit (s : session) : Z := session_cart_fn s (fn_on_quit s).
Definition blyt_session_cart_fn_cleanup (s : session) : Z := session_cart_fn s (fn_cleanup s).

Definition blyt_session_get_pixels (s : session) : list Z := reg_screen (surfaces (s_ctx s)).
Definition blyt_session_get_palette (s : session) : list Z := palette (s_ctx s).
Definition blyt_session_cart_has_drawn (s : session) : bool := cart_has_drawn (s_ctx s).
Definition blyt_session_set_phase (s : session) (ph : Z) : session := with_ctx (set_phase ph (s_ctx s)) s.
Definition blyt_session_state_ctx (s : session) : option blyt_state_ctx_t := state_ctx (s_ctx s).
Definition blyt_session_save_dir (s : session) : option (list Z) := save_dir (s_ctx s).
Definition blyt_session_cart_name (s : session) : list Z := cart_name (s_ctx s).
Definition blyt_session_resources (s : session) : blyt_resource_table_t := resources (s_ctx s).

Definition blyt_session_expand_frame (s : session) : option (list Z) :=
  mapM (fun i => px ← zget (blyt_session_get_pixels s) i; zget (blyt_session_get_palette s) px) (seqZ 0 (BLYT_FRAME_W * BLYT_FRAME_H)).

Definition blyt_session_next_reload_base (s : session) : Z :=
  if cart_base s =? BLYT_RELOAD_BASE_A then BLYT_RELOAD_BASE_B else BLYT_RELOAD_BASE_A.
End session.
