(* ===== verification/SessionSpec.v ===== *)
(** * SessionSpec: the invariant of a session, and what a frame does to it

    [session_ok]: the context of the session and its machine satisfy the invariant of
    [EcallSpec].  The emulator is known by its contract only ([emu_run]): a slice of guest code
    moves registers and memory and makes ECALLs. *)

From S2P Require Import Prelude Handle MemBudget StateBuffer StateBufferSpec StateBufferTheorems Save SaveTheorems ResourceTable ResourceTheorems Palettes TestCard.
From S2P Require Import RunCtx Surface SurfaceSpec SurfaceTheorems Ecall EcallSpec Session.
From Stdlib Require Import ZArith Lia.
From stdpp Require Import base tactics list relations.
Open Scope Z_scope.

(** ** The emulator *)

Section emulator.
Context {R M : Type} `{HR : RegFile R} `{HM : GuestMemory M}.
Abbreviation mach := (machine R M).

(** The slices of guest code that a machine can run when each ECALL is answered by [h]:
    some guest code, ECALLs, and a stop; a slice whose ECALL does not end does not end. *)
Inductive emu_run (h : mach -> option mach) : mach -> option mach -> Prop :=
  | emu_pause m : emu_run h m (Some m)
  | emu_guest m m1 r : guest_moves m m1 -> emu_run h m1 r -> emu_run h m r
  | emu_ecall m m1 r : h m = Some m1 -> emu_run h m1 r -> emu_run h m r
  | emu_stuck m : h m = None -> emu_run h m None.

Lemma emu_steps env m r :
  emu_run (blyt_ecall_handler env) m r ->
  match r with
  | Some m' => rtc (cart_step env) m m'
  | None => exists m1, rtc (cart_step env) m m1 /\ blyt_ecall_handler env m1 = None
  end.
Proof.
  assert (forall m m1 r, cart_step env m m1 ->
    match r with Some m' => rtc (cart_step env) m1 m' | None => exists m2, rtc (cart_step env) m1 m2 /\ blyt_ecall_handler env m2 = None end ->
    match r with Some m' => rtc (cart_step env) m m' | None => exists m2, rtc (cart_step env) m m2 /\ blyt_ecall_handler env m2 = None end) as Hcons.
  { intros m0 m1 [m'|] Hs; [intros; by eapply rtc_l|]. intros (m2 & ? & ?). exists m2. split; [by eapply rtc_l|done]. }
  induction 1 as [m|m m1 r Hg _ IH|m m1 r Hr _ IH|m Hr].
  - apply rtc_refl.
  - by apply (Hcons m m1 r); [apply guest_step|].
  - by apply (Hcons m m1 r); [apply ecall_step|].
  - exists m. split; [apply rtc_refl|done].
Qed.
End emulator.

(** ** Operations at the frame boundary *)

Section context.
Context {M : Type} `{HM : GuestMemory M} (env : ecall_env) (base : blyt_state_ctx_t).

Lemma force_release_ok ctx :
  run_ok base (e_res env) ctx ->
  run_ok base (e_res env) (set_resources (blyt_resource_table_force_release_pins (resources ctx)) ctx).
Proof.
  intros Hok. destruct (run_ctx_ok _ _ _ Hok) as (_ & Hres & _). apply run_ok_resources; [done| |].
  - cbn. apply Forall_fmap. apply (Forall_impl _ _ _ (run_entries _ _ _ Hok)). intros e He. exact He.
  - apply (res_ok_lens (resources ctx)); [|done]. cbn. rewrite <-list_fmap_compose. by apply list_fmap_ext.
Qed.

Definition unpinned (ctx : blyt_run_ctx_t) : Prop := Forall (fun e => pin_count (e_rl e) = 0) (t_entries (resources ctx)).

Lemma force_release_unpinned ctx :
  unpinned (set_resources (blyt_resource_table_force_release_pins (resources ctx)) ctx).
Proof. unfold unpinned. autorewrite with run_ctx. cbn. apply Forall_fmap, Forall_true. done. Qed.

(** Evictions take no pins. *)
Lemma step_unpinned ctx ctx' : surface_step ctx ctx' -> unpinned ctx -> unpinned ctx'.
Proof.
  intros (reg & t & -> & Hev). unfold unpinned. autorewrite with run_ctx. intros Hu.
  apply Forall_lookup. intros i e He. destruct (Forall2_lookup_r _ _ _ _ _ Hev He) as (e0 & He0 & Hor).
  pose proof (Forall_lookup_1 _ _ _ _ Hu He0). destruct Hor as [->|[_ ->]]; done.
Qed.

(** No surface but the screen, no lock. *)
Definition only_screen (reg : blyt_surface_registry_t) : Prop :=
  lock_bump reg = 0 /\ active_locks reg = 0 /\ forall i s, zget (slots reg) i = Some s -> reaped s.

Lemma step_fields ctx ctx' :
  surface_step ctx ctx' -> palette ctx' = palette ctx /\ state_ctx ctx' = state_ctx ctx
    /\ resource_scratch_off ctx' = resource_scratch_off ctx /\ frame_done ctx' = frame_done ctx
    /\ fn_return_done ctx' = fn_return_done ctx /\ ecall_trapped ctx' = ecall_trapped ctx
    /\ ecall_aborted ctx' = ecall_aborted ctx.
Proof. intros (reg & t & -> & _). by destruct ctx. Qed.
End context.

(** ** Sessions *)

Section session_spec.
Context {R M : Type} `{HR : RegFile R} `{HM : GuestMemory M} (env : ecall_env) (base : blyt_state_ctx_t).
Abbreviation mach := (machine R M).
Abbreviation session := (blyt_session R M).

Record session_ok (s : session) : Prop := MkSessionOk {
  so_machine : machine_ok base env (enter s);
  so_frames : is_u32 (frame_count s)
}.

(** The same cart image, whatever happened to the machine. *)
Definition same_cart (s s' : session) : Prop :=
  exists rv c n a, s' = MkSession rv c n a (cart_bss s) (arena_ready_vaddr s) (cart_base s) (cart_span s)
    (fn_on_save_state s) (fn_init s) (fn_on_load_state s) (fn_on_new_state s) (fn_update s) (fn_draw s)
    (fn_on_quit s) (fn_cleanup s) (fn_on_assets_reloaded s) (fn_is_quit_requested s).

Lemma same_cart_refl s : same_cart s s.
Proof. destruct s. by repeat eexists. Qed.
Lemma same_cart_trans s1 s2 s3 : same_cart s1 s2 -> same_cart s2 s3 -> same_cart s1 s3.
Proof. intros (? & ? & ? & ? & ->) (? & ? & ? & ? & ->). by repeat eexists. Qed.

Lemma session_ok_intro rv (c : blyt_run_ctx_t) (s s' : session) :
  session_ok s -> s_rv s' = rv -> s_ctx s' = c -> frame_count s' = frame_count s ->
  ram_size (rv_mem rv) = ram_size (rv_mem (s_rv s)) -> files rv = files (s_rv s) -> run_ok base (e_res env) c -> session_ok s'.
Proof.
  intros [[H1 H2 H3] H4] E1 E2 E3 E4 E5 Hc. cbn in *. split; [|by rewrite E3].
  split; cbn; rewrite ?E1, ?E2; [by rewrite E4|done|by rewrite E5].
Qed.

Lemma so_run s : session_ok s -> run_ok base (e_res env) (s_ctx s).
Proof. intros [[_ H _] _]. exact H. Qed.

Lemma session_ok_rv f (s : session) :
  session_ok s -> ram_size (rv_mem (f (s_rv s))) = ram_size (rv_mem (s_rv s)) -> files (f (s_rv s)) = files (s_rv s) -> session_ok (on_rv f s).
Proof. intros Hs E1 E2. by apply (session_ok_intro (f (s_rv s)) (s_ctx s) s); try done; apply so_run. Qed.

Lemma session_ok_ctx c (s : session) : session_ok s -> run_ok base (e_res env) c -> session_ok (with_ctx c s).
Proof. intros Hs Hc. by apply (session_ok_intro (s_rv s) c s). Qed.

Lemma leave_ok (m : mach) (s : session) n a :
  machine_ok base env m -> is_u32 n -> session_ok (leave m (with_trace_fn a (with_frame_count n s))).
Proof.
  intros [H1 H2 H3] Hn. split; [|done]. unfold enter, leave. split; cbn; [done| |done].
  destruct (g_run_ctx m); [done|by destruct H2].
Qed.

Lemma leave_ctx (m : mach) (s : session) c : g_run_ctx m = Some c -> s_ctx (leave m s) = c.
Proof. intros E. unfold leave. cbn. by rewrite E. Qed.

Lemma leave_cart (m : mach) (s : session) n a : same_cart s (leave m (with_trace_fn a (with_frame_count n s))).
Proof. by repeat eexists. Qed.

Lemma with_trace_fn_id (s : session) : with_trace_fn (trace_fn_addr s) s = s.
Proof. by destruct s. Qed.
Lemma with_frame_count_id (s : session) : with_frame_count (frame_count s) s = s.
Proof. by destruct s. Qed.

(** Flags of the context are free. *)
Lemma run_ok_flags (f : blyt_run_ctx_t -> blyt_run_ctx_t) ctx :
  surfaces (f ctx) = surfaces ctx /\ resources (f ctx) = resources ctx /\ mem_acct_vaddr (f ctx) = mem_acct_vaddr ctx
    /\ resource_scratch_off (f ctx) = resource_scratch_off ctx /\ palette (f ctx) = palette ctx /\ state_ctx (f ctx) = state_ctx ctx ->
  run_ok base (e_res env) ctx -> run_ok base (e_res env) (f ctx).
Proof. intros (? & ? & ? & ? & ? & ?) Hc. by apply (run_ok_keep _ _ ctx). Qed.

Lemma run_ok_scratch0 ctx : run_ok base (e_res env) ctx -> run_ok base (e_res env) (set_scratch_off 0 ctx).
Proof.
  intros [H1 H2 H3 H4 H5]. split; [unfold ctx_ok, acct_block_ok in *; by destruct ctx|by destruct ctx| |by destruct ctx..].
  replace (resource_scratch_off (set_scratch_off 0 ctx)) with 0 by by destruct ctx. unfold BLYT_RESOURCE_SCRATCH_SIZE. lia.
Qed.

(** ** Frame entry *)

(** What a frame starts from. *)
Record entered (s s1 : session) : Prop := MkEntered {
  en_ok : session_ok s1;
  en_cart : same_cart s s1;
  en_trace : trace_fn_addr s1 = trace_fn_addr s;
  en_count : frame_count s1 = frame_count s;
  en_flags : frame_done (s_ctx s1) = false /\ fn_return_done (s_ctx s1) = false /\ rv_halted (s_rv s1) = false
    /\ ecall_trapped (s_ctx s1) = ecall_trapped (s_ctx s) /\ ecall_aborted (s_ctx s1) = ecall_aborted (s_ctx s);
  en_cpu : PC (s_rv s1) = PC (s_rv s) /\ csr_fcsr (s_rv s1) = csr_fcsr (s_rv s) /\ xregs (s_rv s1) = xregs (s_rv s);
  en_scratch : resource_scratch_off (s_ctx s1) = 0;
  en_pins : unpinned (s_ctx s1);
  en_kept : palette (s_ctx s1) = palette (s_ctx s) /\ state_ctx (s_ctx s1) = state_ctx (s_ctx s);
  en_mem : same_but_acct (s_ctx s) (rv_mem (s_rv s)) (rv_mem (s_rv s1));
  en_surfaces : if trace_fn_addr s =? 0 then only_screen (surfaces (s_ctx s1)) else surfaces (s_ctx s1) = surfaces (s_ctx s)
}.

(** The context when the resources have been reset. *)
Definition reset_ctx (c : blyt_run_ctx_t) : blyt_run_ctx_t :=
  let c := set_fn_return_done false (set_frame_done false c) in
  let c := set_scratch_off 0 c in
  set_resources (blyt_resource_table_force_release_pins (resources c)) c.

Lemma reset_ctx_fields c :
  surfaces (reset_ctx c) = surfaces c /\ mem_acct_vaddr (reset_ctx c) = mem_acct_vaddr c
  /\ palette (reset_ctx c) = palette c /\ state_ctx (reset_ctx c) = state_ctx c
  /\ resource_scratch_off (reset_ctx c) = 0 /\ frame_done (reset_ctx c) = false
  /\ fn_return_done (reset_ctx c) = false /\ ecall_trapped (reset_ctx c) = ecall_trapped c
  /\ ecall_aborted (reset_ctx c) = ecall_aborted c.
Proof. by destruct c. Qed.

Lemma reset_ctx_ok c : run_ok base (e_res env) c -> run_ok base (e_res env) (reset_ctx c).
Proof.
  intros Hc. unfold reset_ctx. cbv zeta. apply force_release_ok, run_ok_scratch0.
  apply (run_ok_flags (fun c => set_fn_return_done false (set_frame_done false c))); [by destruct c|done].
Qed.

Lemma reset_ctx_unpinned c : unpinned (reset_ctx c).
Proof. apply force_release_unpinned. Qed.

Lemma same_but_acct_trans (c c' : blyt_run_ctx_t) (m1 m2 m3 : M) :
  mem_acct_vaddr c' = mem_acct_vaddr c -> same_but_acct c m1 m2 -> same_but_acct c' m2 m3 -> same_but_acct c m1 m3.
Proof.
  unfold same_but_acct. intros E [S1 H1] [S2 H2]. rewrite E in H2. split; [congruence|].
  intros a n Hn Ha. by rewrite H2, H1.
Qed.

(** The reap of a real frame, or none. *)
Lemma entry_reap (a : Z) (c : blyt_run_ctx_t) (mem : M) :
  run_ok base (e_res env) c ->
  exists c' mem', (if a =? 0 then r ← blyt_surface_reap_all c (Some mem); Some (fst r, default mem (snd r)) else Some (c, mem)) = Some (c', mem')
    /\ run_ok base (e_res env) c' /\ surface_step c c' /\ same_but_acct c mem mem' /\ mem_acct_vaddr c' = mem_acct_vaddr c
    /\ if a =? 0 then only_screen (surfaces c') else surfaces c' = surfaces c.
Proof.
  intros Hc. destruct (a =? 0).
  - destruct (reap_spec c (Some mem) (run_ctx_ok _ _ _ Hc)) as (c' & mem' & -> & Hc' & Hst & Hall & Hb & Hact & Hm & _).
    cbn [mbind option_bind fst snd]. destruct mem' as [mem'|]; [|done]. cbn [default]. exists c', mem'.
    split; [done|]. split; [by apply (run_ok_step base env c)|]. split; [done|]. split; [done|].
    assert (mem_acct_vaddr c' = mem_acct_vaddr c) as Ev by (destruct Hst as (reg & t & -> & _); by destruct c).
    split; [done|]. split; [done|]. split; [done|]. intros i s Hs.
    pose proof (run_ctx_ok _ _ _ Hc) as (Hreg & _). destruct Hc' as (Hreg' & _). pose proof (slot_index _ Hreg' i s Hs) as Hi.
    destruct (slot_at _ Hreg i Hi) as [s0 Hs0]. destruct (Hall i s0 Hs0) as (s' & Hs' & Hr & _). congruence.
  - exists c, mem. split; [done|]. split; [done|]. split; [|done]. rewrite <-(set_surfaces_id c) at 2. apply surface_step_reg.
Qed.

Lemma frame_entry_eq (s : session) :
  frame_entry s =
    ('(c, mem) ← (if trace_fn_addr s =? 0
                  then r ← blyt_surface_reap_all (reset_ctx (s_ctx s)) (Some (rv_mem (s_rv s))); Some (fst r, default (rv_mem (s_rv s)) (snd r))
                  else Some (reset_ctx (s_ctx s), rv_mem (s_rv s)));
     '(c, mem) ← mem_acct_publish_footprint c mem;
     Some (with_ctx c (on_rv (fun m => with_halt false (set_mem m mem)) s))).
Proof. reflexivity. Qed.

Lemma frame_entry_ok (s : session) : session_ok s -> exists s1, frame_entry s = Some s1 /\ entered s s1.
Proof.
  intros Hs. pose proof (so_run s Hs) as Hc. rewrite frame_entry_eq.
  pose proof (reset_ctx_ok _ Hc) as Hc1. pose proof (reset_ctx_unpinned (s_ctx s)) as Hu1.
  destruct (reset_ctx_fields (s_ctx s)) as (F1 & F2 & F3 & F4 & F5 & F6 & F7 & F8 & F9). set (c1 := reset_ctx (s_ctx s)) in *.
  destruct (entry_reap (trace_fn_addr s) c1 (rv_mem (s_rv s)) Hc1) as (c2 & mem2 & Hr & Hc2 & Hst2 & Hm2 & Hv2 & Hsurf2).
  rewrite Hr. cbn [mbind option_bind].
  destruct (publish_run_ok base env c2 mem2 Hc2) as (c3 & mem3 & -> & Hc3 & Hst3 & Hsurf3 & Hm3). cbn [mbind option_bind].
  assert (same_but_acct (s_ctx s) (rv_mem (s_rv s)) mem3) as Hm.
  { apply (same_but_acct_trans (s_ctx s) c2 _ mem2); [congruence| |done]. unfold same_but_acct in *. by rewrite F2 in Hm2. }
  destruct (step_fields _ _ Hst2) as (P1 & P2 & P3 & P4 & P5 & P6 & P7). destruct (step_fields _ _ Hst3) as (Q1 & Q2 & Q3 & Q4 & Q5 & Q6 & Q7).
  eexists. split; [done|]. split; cbn; try done.
  - apply (session_ok_intro (with_halt false (set_mem (s_rv s) mem3)) c3 s); try done. by destruct Hm.
  - by repeat eexists.
  - split_and!; congruence.
  - congruence.
  - eapply step_unpinned; [exact Hst3|]. by eapply step_unpinned.
  - split; congruence.
  - destruct (trace_fn_addr s =? 0); [by rewrite Hsurf3|congruence].
Qed.

(** ** The loop *)

Variable rv_step : (mach -> option mach) -> mach -> option mach.
Hypothesis rv_step_runs : forall h m, emu_run h m (rv_step h m).
Variable frame_hash_on : bool.

(** A slice that ran into a call that does not end, and that call is outside [call_ok]. *)
Definition slice_stuck (m : mach) : Prop :=
  rv_step (blyt_ecall_handler env) m = None
  /\ exists m1, rtc (cart_step env) m m1 /\ ~ call_ok m1 /\ blyt_ecall_handler env m1 = None.
Definition stuck_from (m : mach) : Prop := exists m1, rtc (cart_step env) m m1 /\ slice_stuck m1.

Lemma step_ok (m : mach) :
  machine_ok base env m ->
  match rv_step (blyt_ecall_handler env) m with
  | Some m' => machine_ok base env m' /\ rtc (cart_step env) m m'
  | None => slice_stuck m
  end.
Proof.
  intros Hm. unfold slice_stuck. pose proof (emu_steps env m _ (rv_step_runs (blyt_ecall_handler env) m)) as Hs.
  destruct (rv_step _ m) as [m'|]; [split; [by apply (cart_run_ok base env m)|done]|].
  destruct Hs as (m1 & Hrun & Hn). split; [done|]. exists m1. split_and!; [done| |done]. intros Hc.
  destruct (handler_ok base env m1 (cart_run_ok base env m m1 Hm Hrun) Hc) as (m2 & Hr & _). congruence.
Qed.

Lemma ctx_of (m : mach) : machine_ok base env m -> exists c, g_run_ctx m = Some c /\ run_ok base (e_res env) c.
Proof. intros [_ Hc _]. destruct (g_run_ctx m) as [c|]; [by exists c|done]. Qed.

Definition ctx_flag (f : blyt_run_ctx_t -> bool) (m : mach) (b : bool) : Prop := exists c, g_run_ctx m = Some c /\ f c = b.

Lemma frame_loop_ok fuel (m : mach) :
  machine_ok base env m -> ctx_flag frame_done m false -> ctx_flag fn_return_done m false ->
  match frame_loop env rv_step fuel m with
  | StepFault => stuck_from m
  | StillRunning => True
  | FrameEnd m' => machine_ok base env m' /\ ctx_flag frame_done m' true
  | FnEnd m' => machine_ok base env m' /\ ctx_flag frame_done m' false /\ ctx_flag fn_return_done m' true
  | Stopped m' => machine_ok base env m' /\ ctx_flag frame_done m' false /\ ctx_flag fn_return_done m' false
      /\ (rv_halted m' = true \/ ctx_flag ecall_trapped m' true \/ ctx_flag ecall_aborted m' true)
  end.
Proof.
  assert (forall m c, g_run_ctx m = Some c -> rv_halted m || ecall_trapped c || ecall_aborted c = true ->
    rv_halted m = true \/ ctx_flag ecall_trapped m true \/ ctx_flag ecall_aborted m true) as Hwhy.
  { intros m0 c Ec [[E|E]%orb_true_iff|E]%orb_true_iff; [by left|right; left; by exists c|right; right; by exists c]. }
  revert m. induction fuel as [|fuel IH]; intros m Hm Hd Hf; destruct (ctx_of m Hm) as (c & Ec & _); cbn [frame_loop]; rewrite Ec.
  - destruct (_ || _) eqn:E; [|done]. split_and!; try done. by apply (Hwhy m c).
  - destruct (_ || _) eqn:E; [split_and!; try done; by apply (Hwhy m c)|].
    pose proof (step_ok m Hm) as Hs. destruct (rv_step (blyt_ecall_handler env) m) as [m1|]; [|exists m; split; [apply rtc_refl|done]]. destruct Hs as [Hm1 Hrun].
    destruct (ctx_of m1 Hm1) as (c1 & Ec1 & _). rewrite Ec1.
    destruct (frame_done c1) eqn:E1; [split; [done|by exists c1]|].
    destruct (fn_return_done c1) eqn:E2; [split_and!; [done|by exists c1|by exists c1]|].
    specialize (IH m1 Hm1 ltac:(by exists c1) ltac:(by exists c1)).
    destruct (frame_loop env rv_step fuel m1); try done.
    destruct IH as (m2 & Hr2 & Hc2). exists m2. split; [by transitivity m1|done].
Qed.

Lemma frame_hash_ctx (m : mach) : g_run_ctx (blyt_emit_frame_hash env frame_hash_on m) = g_run_ctx m.
Proof.
  unfold blyt_emit_frame_hash. destruct (g_run_ctx m) eqn:E; [|done]. destruct frame_hash_on; cbn [negb]; [|done].
  unfold log. by destruct (e_log_fn env).
Qed.

Lemma frame_hash_ok (m : mach) : machine_ok base env m -> machine_ok base env (blyt_emit_frame_hash env frame_hash_on m).
Proof.
  intros Hm. unfold blyt_emit_frame_hash. destruct (g_run_ctx m); [|done]. destruct (negb _); [done|].
  cbv zeta. by apply machine_ok_log, machine_ok_log.
Qed.

(** The end of a frame: the test card is drawn unless the cart has drawn. *)
Lemma finish_frame_ok (m : mach) (s : session) c :
  machine_ok base env m -> g_run_ctx m = Some c -> is_u32 (frame_count s) ->
  exists m' c' n, finish_frame env frame_hash_on m s = Some (m', with_frame_count n s) /\ machine_ok base env m'
    /\ g_run_ctx m' = Some c' /\ is_u32 n
    /\ if cart_has_drawn c then c' = c /\ n = frame_count s
       else n = u32 (frame_count s + 1)
            /\ exists px, blyt_testcard_draw (frame_count s) (palette c) (reg_screen (surfaces c)) = Some px
                 /\ c' = set_surfaces (with_screen px (surfaces c)) c.
Proof.
  intros Hm Ec Hn. unfold finish_frame. rewrite Ec. destruct (cart_has_drawn c).
  { exists (blyt_emit_frame_hash env frame_hash_on m), c, (frame_count s). rewrite with_frame_count_id, frame_hash_ctx.
    split_and!; try done. by apply frame_hash_ok. }
  pose proof (ok_ctx _ _ _ Hm) as Hc. rewrite Ec in Hc. destruct (run_ctx_ok _ _ _ Hc) as (Hreg & _).
  destruct (testcard_total (frame_count s) (palette c) (run_palette _ _ _ Hc) Hn) as (px & Hl & _ & Hdraw).
  pose proof (r_screen _ Hreg) as Hscr. change (TC_W * TC_H) with 76800 in *.
  rewrite (Hdraw (reg_screen (surfaces c)) ltac:(lia)). cbn [mbind option_bind].
  eexists _, (set_surfaces (with_screen px (surfaces c)) c), _. split; [done|]. rewrite frame_hash_ctx.
  split; [|split_and!; [done|apply u32_range|done|by exists px]].
  apply frame_hash_ok, machine_ok_set; [done|]. apply run_ok_surfaces; [done|]. destruct Hreg. by split.
Qed.

(** ** One frame *)

Abbreviation run_frame := (blyt_session_run_frame env rv_step frame_hash_on).

(** The code a frame returns, by the flags it leaves. *)
Definition frame_result (c : blyt_run_ctx_t) : blyt_cart_run_err_t :=
  if frame_done c then BLYT_RUN_FRAME_DONE
  else if fn_return_done c then BLYT_RUN_FN_DONE
  else if ecall_trapped c then BLYT_RUN_ERR_ECALL_TRAP
  else if ecall_aborted c || dev_fault c then BLYT_RUN_ERR_ABORT
  else BLYT_RUN_OK.

Record frame_end (s : session) (r : blyt_cart_run_err_t) (s' : session) : Prop := MkFrameEnd {
  fe_ok : session_ok s';
  fe_cart : same_cart s s';
  fe_result : r = frame_result (s_ctx s');
  fe_trace : trace_fn_addr s' = if bool_decide (r = BLYT_RUN_FN_DONE) then 0 else trace_fn_addr s;
  fe_card : if bool_decide (r = BLYT_RUN_FRAME_DONE) && negb (cart_has_drawn (s_ctx s'))
            then frame_count s' = u32 (frame_count s + 1)
                 /\ exists px, blyt_testcard_draw (frame_count s) (palette (s_ctx s')) px = Some (reg_screen (surfaces (s_ctx s')))
            else frame_count s' = frame_count s;
  fe_global : g_run_ctx (s_rv s') = g_run_ctx (s_rv s)
}.

Lemma frame_end_leave (s s1 : session) (m : mach) c r n a :
  entered s s1 -> machine_ok base env m -> g_run_ctx m = Some c -> is_u32 n ->
  r = frame_result c -> a = (if bool_decide (r = BLYT_RUN_FN_DONE) then 0 else trace_fn_addr s) ->
  (if bool_decide (r = BLYT_RUN_FRAME_DONE) && negb (cart_has_drawn c)
   then n = u32 (frame_count s + 1) /\ exists px, blyt_testcard_draw (frame_count s) (palette c) px = Some (reg_screen (surfaces c))
   else n = frame_count s) ->
  frame_end s r (on_rv (with_run_ctx (g_run_ctx (s_rv s))) (leave m (with_trace_fn a (with_frame_count n s1)))).
Proof.
  intros Hen Hm Ec Hn Hr Ha Hcard. pose proof (leave_ok m s1 n a Hm Hn) as Hok.
  set (s' := on_rv _ _). assert (s_ctx s' = c) as Ectx by (unfold s'; cbn; by rewrite Ec).
  split; [| |rewrite Ectx; exact Hr|exact Ha|rewrite Ectx; exact Hcard|reflexivity].
  - destruct Hok as [[]]. by split.
  - eapply same_cart_trans; [by apply en_cart|]. by repeat eexists.
Qed.

Lemma run_frame_ok fuel (s : session) :
  session_ok s ->
  exists s1, frame_entry s = Some s1 /\ entered s s1
    /\ match run_frame fuel s with
       | Fault => stuck_from (enter s1)
       | Running => True
       | Done (r, s') => frame_end s r s'
       end.
Proof.
  intros Hs. destruct (frame_entry_ok s Hs) as (s1 & He & Hen). exists s1. split; [done|]. split; [done|].
  unfold blyt_session_run_frame, run_frame_impl. rewrite He. cbn [lift mbind outcome_bind].
  destruct (en_flags _ _ Hen) as (Hf1 & Hf2 & _). pose proof (en_ok _ _ Hen) as Hok1.
  pose proof (frame_loop_ok fuel (enter s1) (so_machine _ Hok1) ltac:(by exists (s_ctx s1)) ltac:(by exists (s_ctx s1))) as Hl.
  assert (forall m, m = with_frame_count (frame_count s) s1 -> m = s1) as Hid.
  { intros m ->. rewrite <-(en_count _ _ Hen). apply with_frame_count_id. }
  pose proof (so_frames _ Hs) as Hn.
  destruct (frame_loop env rv_step fuel (enter s1)) as [| |m|m|m]; [done|done| | |].
  - destruct Hl as [Hm (c & Ec & Hd)]. destruct (finish_frame_ok m s1 c Hm Ec (so_frames _ Hok1)) as (m' & c' & n & -> & Hm' & Ec' & Hn' & Hcard).
    cbn [lift mbind outcome_bind]. rewrite <-(with_trace_fn_id (with_frame_count n s1)).
    assert (frame_done c' = true /\ cart_has_drawn c' = cart_has_drawn c) as [Hd' Hdr].
    { destruct (cart_has_drawn c) eqn:E; [by destruct Hcard as [-> _]|]. destruct Hcard as (_ & px & _ & ->). by destruct c. }
    apply (frame_end_leave s s1 m' c'); try done; [unfold frame_result; by rewrite Hd'|cbn; apply (en_trace _ _ Hen)|].
    rewrite Hdr, (bool_decide_true _ (eq_refl BLYT_RUN_FRAME_DONE)). rewrite (en_count _ _ Hen) in Hcard.
    destruct (cart_has_drawn c); cbn [negb andb]; [by destruct Hcard|]. destruct Hcard as (-> & px & Hpx & ->).
    split; [done|]. exists (reg_screen (surfaces c)).
    replace (palette (set_surfaces _ c)) with (palette c) by by destruct c. by rewrite Hpx, surfaces_set_surfaces.
  - destruct Hl as (Hm & (c & Ec & Hd) & (c0 & Ec0 & Hf)). assert (c0 = c) as -> by congruence.
    rewrite <-(with_frame_count_id s1), (en_count _ _ Hen). cbn [mbind outcome_bind].
    apply (frame_end_leave s s1 m c); try done; unfold frame_result; by rewrite ?Hd, ?Hf.
  - destruct Hl as (Hm & (c & Ec & Hd) & (c0 & Ec0 & Hf) & _). assert (c0 = c) as -> by congruence.
    rewrite Ec, Hf. cbn [mbind outcome_bind].
    rewrite <-(with_trace_fn_id s1), <-(with_frame_count_id s1), (en_count _ _ Hen).
    apply (frame_end_leave s s1 m c); try done; unfold frame_result; rewrite ?Hd, ?Hf; [done|cbn|].
    + rewrite (en_trace _ _ Hen). by destruct (ecall_trapped c), (ecall_aborted c || dev_fault c).
    + by destruct (ecall_trapped c), (ecall_aborted c || dev_fault c).
Qed.

(** ** Calls into the guest *)

(** An operation on sessions either gives a result that satisfies [P], or is still running,
    or was stopped by a slice of guest code that got stuck. *)
Definition jammed : Prop := exists m, machine_ok base env m /\ slice_stuck m.
Definition ends {A} (P : A -> Prop) (o : outcome A) : Prop :=
  match o with Fault => jammed | Running => True | Done a => P a end.

Lemma ends_bind {A B} (P : A -> Prop) (Q : B -> Prop) o (f : A -> outcome B) :
  ends P o -> (forall a, P a -> ends Q (f a)) -> ends Q (o ≫= f).
Proof. intros Ho Hf. destruct o as [| |a]; [done|done|]. by apply Hf. Qed.

Lemma ends_done {A} (P : A -> Prop) o a : ends P o -> o = Done a -> P a.
Proof. by intros Ho ->. Qed.

Lemma ends_mono {A} (P Q : A -> Prop) o : ends P o -> (forall a, P a -> Q a) -> ends Q o.
Proof. intros Ho HPQ. destruct o; [done|done|by apply HPQ]. Qed.

Lemma run_frame_ends fuel s :
  session_ok s -> ends (fun '(r, s') => frame_end s r s') (run_frame fuel s).
Proof.
  intros Hs. destruct (run_frame_ok fuel s Hs) as (s1 & _ & Hen & Hr). unfold ends.
  destruct (run_frame fuel s) as [| |[r s']]; [|done|done]. destruct Hr as (m1 & Hrun & Hst). exists m1. split; [|done].
  by apply (cart_run_ok base env (enter s1)), Hrun; destruct (en_ok _ _ Hen).
Qed.

(** What any run of the guest keeps. *)
Record ran (s s' : session) : Prop := MkRan {
  ran_ok : session_ok s';
  ran_cart : same_cart s s';
  ran_global : g_run_ctx (s_rv s') = g_run_ctx (s_rv s)
}.

Lemma ran_refl s : session_ok s -> ran s s.
Proof. intros Hs. split; [done|apply same_cart_refl|done]. Qed.
Lemma ran_trans s1 s2 s3 : ran s1 s2 -> ran s2 s3 -> ran s1 s3.
Proof. intros [_ C1 G1] [O2 C2 G2]. split; [done|by eapply same_cart_trans|congruence]. Qed.
Lemma frame_end_ran s r s' : frame_end s r s' -> ran s s'.
Proof. intros []. by split. Qed.

Lemma call_ends frames fuel s :
  session_ok s ->
  ends (fun '(r, s') => ran s s' /\ r <> BLYT_RUN_FRAME_DONE /\ (r = BLYT_RUN_FN_DONE -> trace_fn_addr s' = 0))
    (call_until_fn_done env rv_step frame_hash_on frames fuel s).
Proof.
  revert s. induction frames as [|frames IH]; intros s Hs; cbn [call_until_fn_done]; [done|].
  apply (ends_bind (fun '(r, s') => frame_end s r s')); [by apply run_frame_ends|]. intros [r s1] Hfe.
  destruct (bool_decide_reflect (r = BLYT_RUN_FRAME_DONE)) as [->|Hne].
  - eapply ends_mono; [apply IH, Hfe|]. intros [r2 s2] (Hran & H1 & H2). split; [|done].
    eapply ran_trans; [by eapply frame_end_ran|done].
  - split; [by eapply frame_end_ran|]. split; [done|]. intros ->. by rewrite (fe_trace _ _ _ Hfe).
Qed.

Lemma set_args_keeps args : forall r (m : mach), rv_mem (set_args r args m) = rv_mem m /\ files (set_args r args m) = files m
  /\ g_run_ctx (set_args r args m) = g_run_ctx m.
Proof. induction args as [|a args IH]; intros r m; cbn [set_args]; [done|]. by destruct (IH (r + 1) (rv_set_reg m r a)) as (-> & -> & ->). Qed.

Lemma begin_ok s fn args : session_ok s -> ran s (blyt_session_begin_fn_call s fn args).
Proof.
  intros Hs. unfold blyt_session_begin_fn_call. cbv zeta.
  destruct (set_args_keeps (take 4 args) rv_reg_a0 (rv_set_reg (with_pc fn (s_rv s)) rv_reg_ra BLYT_TRAMPOLINE_FN_RETURN_ADDR)) as (E1 & E2 & E3).
  split.
  - assert (run_ok base (e_res env) (set_fn_return_done false (s_ctx s))) as Hc
      by (apply (run_ok_flags (set_fn_return_done false)); [by destruct (s_ctx s)|by apply so_run]).
    apply session_ok_ctx; [|exact Hc].
    apply session_ok_rv; [|done|done]. apply session_ok_rv; [|cbn; by rewrite E1|cbn; by rewrite E2].
    apply session_ok_rv; [|done|done]. apply session_ok_rv; [|done|done].
    destruct Hs as [[] ?]. by split.
  - by repeat eexists.
  - cbn. by rewrite E3.
Qed.

Lemma with_state_ran s sc sc' :
  session_ok s -> state_ctx (s_ctx s) = Some sc -> ctx_wf sc' -> ctx_rel sc sc' ->
  ran s (with_ctx (set_state (Some sc') (s_ctx s)) s).
Proof.
  intros Hs Hsc Hwf Hrel. split; [|by repeat eexists|done].
  apply session_ok_ctx; [done|]. by apply (run_ok_state base env (s_ctx s) sc); [apply so_run| | |].
Qed.

Lemma so_state s : session_ok s -> exists sc, state_ctx (s_ctx s) = Some sc /\ ctx_wf sc /\ ctx_sized sc /\ ctx_rel base sc.
Proof. intros Hs. apply (run_state _ _ _ (so_run s Hs)). Qed.

(** ** Saving and restoring the emulator *)

(** The guest-visible CPU state: program counter, [x1] to [x31] and [fcsr]. *)
Definition cpu_same (s s' : session) : Prop :=
  PC (s_rv s') = PC (s_rv s) /\ csr_fcsr (s_rv s') = csr_fcsr (s_rv s)
  /\ forall r, 1 <= r < 32 -> rv_get_reg (s_rv s') r = rv_get_reg (s_rv s) r.

Lemma cpu_same_refl s : cpu_same s s.
Proof. done. Qed.
Lemma cpu_same_trans s1 s2 s3 : cpu_same s1 s2 -> cpu_same s2 s3 -> cpu_same s1 s3.
Proof. intros (P1 & F1 & R1) (P2 & F2 & R2). split_and!; [congruence|congruence|]. intros r Hr. by rewrite R2, R1. Qed.

Lemma restore_regs_spec (x : R) k i (m : mach) :
  let regs := rv_reg x <$> seqZ 0 32 in
  1 <= i -> i + Z.of_nat k <= 32 ->
  exists x', restore_regs k i regs m
      = Some (MkMachine (PC m) (csr_fcsr m) (rv_halted m) x' (rv_mem m) (g_run_ctx m) (files m) (console m))
    /\ (forall r, i <= r < i + Z.of_nat k -> rv_reg x' r = rv_reg x r)
    /\ (forall r, r < i -> rv_reg x' r = rv_reg (xregs m) r).
Proof.
  cbv zeta. revert i m. induction k as [|k IH]; intros i m Hi Hk; cbn [restore_regs].
  { exists (xregs m). split; [by destruct m|]. split; [lia|done]. }
  assert (zget (rv_reg x <$> seqZ 0 32) i = Some (rv_reg x i)) as ->.
  { rewrite zget_lookup by lia. rewrite list_lookup_fmap, lookup_seqZ_lt by lia. cbn. do 2 f_equal. lia. }
  cbn [mbind option_bind].
  destruct (IH (i + 1) (rv_set_reg m i (rv_reg x i)) ltac:(lia) ltac:(lia)) as (x' & -> & H1 & H2). exists x'. cbn.
  split; [done|]. split.
  - intros r Hr. destruct (decide (r = i)) as [->|Hne]; [|apply H1; lia].
    rewrite H2 by lia. cbn. rewrite rv_reg_put; [done|lia|apply rv_reg_u32].
  - intros r Hr. rewrite H2 by lia. cbn. rewrite rv_reg_put_ne; [done|lia].
Qed.

(** The context after a restore: a trap or abort of the call is forgotten. *)
Definition calmed (c : blyt_run_ctx_t) : blyt_run_ctx_t := set_aborted false (set_trapped false c).

Lemma emu_restore_ok (s0 s : session) :
  session_ok s ->
  exists s', emu_state_restore s (emu_state_save s0) = Some s' /\ ran s s' /\ cpu_same s0 s'
    /\ rv_halted (s_rv s') = false /\ s_ctx s' = calmed (s_ctx s) /\ rv_mem (s_rv s') = rv_mem (s_rv s).
Proof.
  intros Hs. unfold emu_state_restore, emu_state_save. cbn [e_pc e_regs e_fcsr].
  change (rv_get_reg (s_rv s0) <$> seqZ 0 32) with (rv_reg (xregs (s_rv s0)) <$> seqZ 0 32).
  destruct (restore_regs_spec (xregs (s_rv s0)) 31 1
    (s_rv (on_rv (with_pc (PC (s_rv s0))) (with_ctx (set_aborted false (set_trapped false (s_ctx s))) s)))) as (x' & -> & H1 & _); [lia|lia|].
  cbn [mbind option_bind]. eexists. split; [done|]. split; [|split_and!; try done].
  - split; [|by repeat eexists|done].
    assert (run_ok base (e_res env) (calmed (s_ctx s))) as Hc
      by (apply (run_ok_flags calmed); [by destruct (s_ctx s)|by apply so_run]).
    apply session_ok_rv; [|done|done]. apply session_ok_rv; [|done|done]. by apply session_ok_ctx.
Qed.

Lemma push_words_ran s ws scratch s' : session_ok s -> push_words s ws = Some (scratch, s') -> ran s s'.
Proof.
  intros Hs. unfold push_words. cbv zeta. destruct (guest_ram_contains _ _ _); [|done]. intros [= _ <-].
  split; [|by repeat eexists|done]. apply session_ok_rv; [done|cbn; apply memory_write_size|done].
Qed.

Abbreviation call_done := (call_until_fn_done env rv_step frame_hash_on).

(** One call of a guest function, whose result is not looked at. *)
Lemma call_fn_ends frames fuel s fn args :
  session_ok s -> ends (fun '(_, s') => ran s s') (call_done frames fuel (blyt_session_begin_fn_call s fn args)).
Proof.
  intros Hs. pose proof (begin_ok s fn args Hs) as Hb. eapply ends_mono; [apply call_ends, Hb|].
  intros [r s'] (Hr & _). by eapply ran_trans.
Qed.

Lemma hook_ends frames fuel s fn args :
  session_ok s -> ends (fun s' => ran s s' /\ cpu_same s s') (call_guest_hook env rv_step frame_hash_on frames fuel s fn args).
Proof.
  intros Hs. unfold call_guest_hook. destruct (fn =? 0); [split; [by apply ran_refl|done]|]. cbv zeta.
  apply (ends_bind _ _ _ _ (call_fn_ends frames fuel s fn args Hs)). intros [r s1] Hr.
  destruct (emu_restore_ok s s1 (ran_ok _ _ Hr)) as (s' & -> & Hran & Hcpu & _). cbn. split; [by eapply ran_trans|done].
Qed.

(** A hook that is passed words below the stack pointer. *)
Lemma words_hook_ends frames fuel s (fn : session -> Z) ws args :
  session_ok s ->
  ends (fun s' => ran s s' /\ cpu_same s s')
    (s1 ← match push_words s ws with
          | Some (scratch, s) => '(_, s) ← call_done frames fuel (blyt_session_begin_fn_call s (fn s) (args scratch)); Done s
          | None => Done s
          end;
     lift (emu_state_restore s1 (emu_state_save s))).
Proof.
  intros Hs. apply (ends_bind (ran s)).
  - destruct (push_words s ws) as [[scratch s1]|] eqn:E; [|by apply ran_refl]. pose proof (push_words_ran _ _ _ _ Hs E) as Hp.
    apply (ends_bind _ _ _ _ (call_fn_ends frames fuel s1 (fn s1) (args scratch) (ran_ok _ _ Hp))). intros [r s2] Hr. by eapply ran_trans.
  - intros s1 Hr. destruct (emu_restore_ok s s1 (ran_ok _ _ Hr)) as (s' & -> & Hran & Hcpu & _). cbn. split; [by eapply ran_trans|done].
Qed.

Lemma on_load_ends frames fuel s reason version bufs :
  session_ok s ->
  ends (fun s' => ran s s' /\ cpu_same s s') (call_guest_on_load_state env rv_step frame_hash_on frames fuel s reason version bufs).
Proof.
  intros Hs. unfold call_guest_on_load_state. destruct (_ =? 0); [split; [by apply ran_refl|done]|].
  by apply (words_hook_ends frames fuel s fn_on_load_state [reason; version; bufs] (fun scratch => [scratch])).
Qed.

Lemma notify_ends frames fuel s ids :
  session_ok s ->
  ends (fun s' => ran s s' /\ cpu_same s s') (blyt_session_notify_assets_reloaded env rv_step frame_hash_on frames fuel s ids).
Proof.
  intros Hs. unfold blyt_session_notify_assets_reloaded. cbv zeta.
  destruct (_ || _); [split; [by apply ran_refl|done]|]. destruct (negb _); [split; [by apply ran_refl|done]|].
  by apply (words_hook_ends frames fuel s fn_on_assets_reloaded ids (fun scratch => [scratch; u32 (len ids)])).
Qed.

(** ** The reset-every-frame cycle *)

Variable snap_ok : option (Z * Z) -> bool.
Variable memory_fill : M -> Z -> Z -> Z -> M.
Hypothesis fill_writes : forall mem a n v, memory_fill mem a n v = memory_write mem a (replicate (Z.to_nat n) v).

Lemma zero_regions_size rs mem : ram_size (zero_regions memory_fill rs mem) = ram_size mem.
Proof. revert mem. induction rs as [|[a n] rs IH]; intros mem; cbn; [done|]. by rewrite IH, fill_writes, memory_write_size. Qed.

(** Byte [a] lies in a region of [rs]. *)
Definition in_regions (rs : list (Z * Z)) (a : Z) : Prop := exists st n, (st, n) ∈ rs /\ st <= a < st + n.
Definition regions_placed (rs : list (Z * Z)) (mem : M) : Prop := Forall (fun '(st, n) => 0 <= st /\ st + n <= ram_size mem) rs.

Lemma regions_placed_size rs mem mem' : ram_size mem' = ram_size mem -> regions_placed rs mem -> regions_placed rs mem'.
Proof. unfold regions_placed. by intros ->. Qed.

(** A byte of a [memset] is cleared, any other kept. *)
Lemma zeros_byte mem st k a :
  0 <= st -> st + Z.of_nat k <= ram_size mem -> st <= a < st + Z.of_nat k -> memory_read (memory_write mem st (replicate k 0)) a 1 = [0].
Proof.
  intros Hst Hram Ha. pose proof (memory_read_write mem st (replicate k 0)) as Hw. rewrite len_replicate in Hw.
  specialize (Hw Hst Hram). replace a with (st + (a - st)) by lia. rewrite <-(memory_read_sub _ st (Z.of_nat k) (a - st) 1) by lia.
  rewrite Hw, sub_zeros. by replace (Nat.min _ _) with 1%nat by lia.
Qed.

Lemma zeros_other mem st k a : ~ st <= a < st + Z.of_nat k -> memory_read (memory_write mem st (replicate k 0)) a 1 = memory_read mem a 1.
Proof. intros Ha. apply memory_read_other; [lia|]. rewrite len_replicate. lia. Qed.

Lemma zero_regions_other rs mem a : ~ in_regions rs a -> memory_read (zero_regions memory_fill rs mem) a 1 = memory_read mem a 1.
Proof.
  revert mem. induction rs as [|[st n] rs IH]; intros mem Ha; cbn; [done|]. rewrite IH, fill_writes.
  - apply zeros_other. intros ?. apply Ha. exists st, n. split; [left|lia].
  - intros (st' & n' & ? & ?). apply Ha. exists st', n'. split; [by right|done].
Qed.

Lemma zero_regions_keeps rs mem a : regions_placed rs mem -> memory_read mem a 1 = [0] -> memory_read (zero_regions memory_fill rs mem) a 1 = [0].
Proof.
  revert mem. induction rs as [|[st n] rs IH]; intros mem Hp Ha; cbn; [done|]. apply Forall_cons in Hp as [[Hst Hn] Hp].
  rewrite fill_writes. apply IH; [by apply (regions_placed_size _ _ _ (memory_write_size _ _ _))|].
  destruct (decide (st <= a < st + Z.of_nat (Z.to_nat n))); [apply zeros_byte; lia|by rewrite zeros_other].
Qed.

Lemma zero_regions_in rs mem a : regions_placed rs mem -> in_regions rs a -> memory_read (zero_regions memory_fill rs mem) a 1 = [0].
Proof.
  revert mem. induction rs as [|[st n] rs IH]; intros mem Hp (st' & n' & Hin & Ha); cbn; [by apply elem_of_nil in Hin|].
  apply Forall_cons in Hp as [[Hst Hn] Hp]. assert (regions_placed rs (memory_fill mem st n 0)) as Hp'
    by (rewrite fill_writes; by apply (regions_placed_size _ _ _ (memory_write_size _ _ _))).
  apply elem_of_cons in Hin as [[= -> ->]|Hin]; [|apply IH; [done|by exists st', n']].
  apply zero_regions_keeps; [done|]. rewrite fill_writes. apply zeros_byte; lia.
Qed.

Lemma on_state_ok (f : blyt_state_ctx_t -> option blyt_state_ctx_t) s sc sc' :
  session_ok s -> state_ctx (s_ctx s) = Some sc -> f sc = Some sc' -> ctx_wf sc' -> ctx_rel sc sc' ->
  on_state f s = Some (with_ctx (set_state (Some sc') (s_ctx s)) s)
  /\ ran s (with_ctx (set_state (Some sc') (s_ctx s)) s).
Proof.
  intros Hs Hsc Hf Hwf Hrel. unfold on_state. rewrite Hsc. cbn [mbind option_bind]. rewrite Hf.
  split; [done|by apply (with_state_ran s sc)].
Qed.

(** The session [sw] is [s] with its state buffers blank, its guest statics and the ready word of the heap zero, and
    nothing else changed. *)
Definition slate_placed (s : session) : Prop :=
  regions_placed (cart_bss s) (rv_mem (s_rv s))
  /\ (arena_ready_vaddr s = 0 \/ 0 <= arena_ready_vaddr s /\ arena_ready_vaddr s + 4 <= ram_size (rv_mem (s_rv s))).
Record clean_slate (s : session) (sc : blyt_state_ctx_t) (sw : session) : Prop := {
  cs_session : sw = with_ctx (set_state (Some (blank_ctx sc)) (s_ctx s)) (on_rv (fun m => set_mem m (rv_mem (s_rv sw))) s);
  cs_statics : slate_placed s -> forall a, in_regions (cart_bss s) a -> memory_read (rv_mem (s_rv sw)) a 1 = [0];
  cs_heap : slate_placed s -> arena_ready_vaddr s <> 0 -> memory_read (rv_mem (s_rv sw)) (arena_ready_vaddr s) 4 = [0; 0; 0; 0];
  cs_rest : forall a, ~ in_regions (cart_bss s) a -> arena_ready_vaddr s = 0 \/ ~ arena_ready_vaddr s <= a < arena_ready_vaddr s + 4 ->
    memory_read (rv_mem (s_rv sw)) a 1 = memory_read (rv_mem (s_rv s)) a 1 }.

Lemma wipe_ok s sc :
  session_ok s -> state_ctx (s_ctx s) = Some sc -> exists s', wipe memory_fill s = Some s' /\ ran s s' /\ clean_slate s sc s'.
Proof.
  intros Hs Hsc. destruct (so_state s Hs) as (sc0 & E & Hwf & _ & _). assert (sc0 = sc) as -> by congruence.
  destruct (zero_data_total sc Hwf) as (Hz & Hwf' & Hrel). unfold wipe.
  destruct (on_state_ok blyt_state_ctx_zero_data s sc _ Hs Hsc Hz Hwf' Hrel) as [-> Hr1]. cbn [mbind option_bind].
  set (s1 := with_ctx _ s) in *. set (s2 := blyt_session_zero_guest_bss memory_fill s1).
  assert (ran s1 s2) as Hr2.
  { split; [|by repeat eexists|done]. apply session_ok_rv; [apply Hr1|cbn; apply zero_regions_size|done]. }
  change (arena_ready_vaddr s2) with (arena_ready_vaddr s).
  assert (rv_mem (s_rv s2) = zero_regions memory_fill (cart_bss s) (rv_mem (s_rv s))) as Hm2 by done.
  destruct (Z.eqb_spec (arena_ready_vaddr s) 0) as [E0|E0].
  - exists s2. split; [done|]. split; [by eapply ran_trans|]. split; [done|rewrite Hm2..].
    + intros [Hp _] a. by apply zero_regions_in.
    + done.
    + intros a Ha _. by apply zero_regions_other.
  - eexists. split; [done|]. split.
    { eapply ran_trans; [exact Hr1|]. eapply ran_trans; [exact Hr2|].
      split; [|by repeat eexists|done]. apply session_ok_rv; [apply Hr2|cbn; apply memory_write_size|done]. }
    pose proof (zero_regions_size (cart_bss s) (rv_mem (s_rv s))) as Hsz. split; [done|..]; cbn [s_rv on_rv rv_mem set_mem]; rewrite Hm2.
    + intros [Hp [?|[H0 H4]]] a Ha; [done|]. destruct (decide (arena_ready_vaddr s <= a < arena_ready_vaddr s + 4)) as [Hr|Hr].
      * change [0; 0; 0; 0] with (replicate 4 0). apply zeros_byte; cbn; lia.
      * change [0; 0; 0; 0] with (replicate 4 0). rewrite zeros_other by done. by apply zero_regions_in.
    + intros [_ [?|[H0 H4]]] _; [done|]. by apply (memory_read_write _ (arena_ready_vaddr s) [0; 0; 0; 0]); [|rewrite Hsz].
    + intros a Ha Hr. change [0; 0; 0; 0] with (replicate 4 0). rewrite zeros_other by (destruct Hr; [done|cbn; lia]). by apply zero_regions_other.
Qed.

(** The transient state has been flushed: the save hook, if any, has returned. *)
Definition flushed (frames fuel : nat) (s s1 : session) : Prop :=
  if fn_on_save_state s =? 0 then s1 = s
  else call_done frames fuel (blyt_session_begin_fn_call s (fn_on_save_state s) []) = Done (BLYT_RUN_FN_DONE, s1).

(** A hook of the cycle that has not returned. *)
Definition reset_failed (frames fuel : nat) (s s' : session) : Prop :=
  exists r, r <> BLYT_RUN_FN_DONE
    /\ (fn_on_save_state s <> 0 /\ call_done frames fuel (blyt_session_begin_fn_call s (fn_on_save_state s) []) = Done (r, s')
        \/ exists s1 sc sw, flushed frames fuel s s1 /\ state_ctx (s_ctx s1) = Some sc /\ clean_slate s1 sc sw
              /\ call_done frames fuel (blyt_session_begin_fn_call sw (fn_init sw) []) = Done (r, s')).

(** There was no memory for the snapshot. *)
Definition reset_starved (frames fuel : nat) (s s' : session) : Prop :=
  flushed frames fuel s s' /\ (exists x, snap_ok x = false)
  /\ exists sc, state_ctx (s_ctx s') = Some sc /\ blyt_state_ctx_snapshot snap_ok sc = Some None.

(** The load hook has been given the state as it was flushed, after the init has run on a clean slate. *)
Definition reset_done (frames fuel : nat) (s s' : session) : Prop :=
  exists s1 sc sw s2, flushed frames fuel s s1 /\ state_ctx (s_ctx s1) = Some sc /\ clean_slate s1 sc sw
    /\ call_done frames fuel (blyt_session_begin_fn_call sw (fn_init sw) []) = Done (BLYT_RUN_FN_DONE, s2) /\ ran s s2
    /\ call_guest_on_load_state env rv_step frame_hash_on frames fuel (with_ctx (set_state (Some sc) (s_ctx s2)) s2) 3 0 0 = Done s'.

Lemma ends_eq {A} (P : A -> Prop) (o : outcome A) : ends P o -> ends (fun a => P a /\ o = Done a) o.
Proof. by destruct o. Qed.

(** Restoring a snapshot of any earlier state of the session brings that state back. *)
Lemma restore_state_ok s sc snap :
  session_ok s -> ctx_wf sc -> ctx_rel base sc -> blyt_state_ctx_snapshot snap_ok sc = Some (Some snap) ->
  on_state (fun c => blyt_state_ctx_restore_snapshot c (Some snap)) s = Some (with_ctx (set_state (Some sc) (s_ctx s)) s)
  /\ ran s (with_ctx (set_state (Some sc) (s_ctx s)) s).
Proof.
  intros Hs Hwf Hrel Hsnap. destruct (so_state s Hs) as (sc2 & E & Hwf2 & _ & Hrel2).
  assert (ctx_rel sc sc2) as H2 by (eapply ctx_rel_trans; [by apply ctx_rel_sym|done]).
  apply (on_state_ok _ s sc2); [done|done|by apply (restore_ok snap_ok)|done|by apply ctx_rel_sym].
Qed.

Lemma reset_body_ends frames fuel s :
  session_ok s ->
  ends (fun s' => ran s s' /\ (reset_failed frames fuel s s' \/ reset_starved frames fuel s s' \/ reset_done frames fuel s s'))
    (reset_body env rv_step memory_fill frame_hash_on snap_ok frames fuel s).
Proof.
  intros Hs. unfold reset_body.
  apply (ends_bind (fun '(go, s1) => ran s s1 /\ if go : bool then flushed frames fuel s s1 else reset_failed frames fuel s s1)).
  { unfold flushed. destruct (Z.eqb_spec (fn_on_save_state s) 0) as [E|E]; [split; [by apply ran_refl|done]|].
    apply (ends_bind _ _ _ _ (ends_eq _ _ (call_fn_ends frames fuel s (fn_on_save_state s) [] Hs))). intros [r s1] [Hr Heq].
    split; [done|]. case_bool_decide as Hd; [by rewrite Heq, Hd|]. exists r. split; [done|by left]. }
  intros [go s1] [Hr1 Hgo]. destruct go; cbn [negb]; [|split; [done|by left]].
  destruct (so_state s1 (ran_ok _ _ Hr1)) as (sc & Hsc & Hwf & _ & Hbase). rewrite Hsc. cbn [mbind option_bind].
  destruct (snapshot_ok snap_ok sc Hwf) as (snap & Hsnap & Hnone & _). rewrite Hsnap. cbn [lift mbind outcome_bind].
  destruct snap as [snap|]; [|split; [done|]; right; left; split; [done|]; split; [by apply Hnone|by exists sc]].
  destruct (wipe_ok s1 sc (ran_ok _ _ Hr1) Hsc) as (sw & Hw & Hrw & Hcs). rewrite Hw. cbn [lift mbind outcome_bind].
  apply (ends_bind _ _ _ _ (ends_eq _ _ (call_fn_ends frames fuel sw (fn_init sw) [] (ran_ok _ _ Hrw)))). intros [r s2] [Hr2 Heq].
  assert (ran s s2) as Hrs2 by (eapply ran_trans; [exact Hr1|]; by eapply ran_trans).
  case_bool_decide as Hd; cbn [negb]; [|split; [done|]; left; exists r; split; [done|]; right; by exists s1, sc, sw].
  destruct (restore_state_ok s2 sc snap (ran_ok _ _ Hr2) Hwf Hbase Hsnap) as [-> Hr3]. cbn [lift mbind outcome_bind].
  eapply ends_mono; [apply (ends_eq _ _ (on_load_ends frames fuel _ 3 0 0 (ran_ok _ _ Hr3)))|]. intros s3 [[Hr4 _] Heq3].
  split; [eapply ran_trans; [exact Hrs2|]; by eapply ran_trans|]. right. right. exists s1, sc, sw, s2. rewrite Hd in Heq. by split_and!.
Qed.

Lemma reset_cycle_ends frames fuel s :
  session_ok s -> fn_init s <> 0 -> cart_exited (s_ctx s) = false ->
  ends (fun s' => ran s s' /\ cpu_same s s' /\ rv_halted (s_rv s') = false
          /\ exists sb, s_ctx s' = calmed (s_ctx sb) /\ rv_mem (s_rv s') = rv_mem (s_rv sb)
               /\ (reset_failed frames fuel s sb \/ reset_starved frames fuel s sb \/ reset_done frames fuel s sb))
    (blyt_reset_every_frame_cycle env rv_step memory_fill frame_hash_on snap_ok frames fuel s).
Proof.
  intros Hs Hi He. unfold blyt_reset_every_frame_cycle. rewrite (proj2 (Z.eqb_neq _ _) Hi), He. cbv zeta.
  apply (ends_bind _ _ _ _ (reset_body_ends frames fuel s Hs)). intros sb [Hr Hor].
  destruct (emu_restore_ok s sb (ran_ok _ _ Hr)) as (s' & -> & Hran & Hcpu & Hh & Hc & Hm). cbn.
  split; [by eapply ran_trans|]. split; [done|]. split; [done|]. by exists sb.
Qed.

(** ** The development channel *)

Lemma save_state_ends frames fuel s slot :
  session_ok s ->
  ends (fun '(_, s') => ran s s' /\ cpu_same s s') (blyt_session_save_state env rv_step frame_hash_on frames fuel s slot).
Proof.
  intros Hs. unfold blyt_session_save_state. apply (ends_bind _ _ _ _ (hook_ends frames fuel s (fn_on_save_state s) [] Hs)).
  intros s1 [Hr Hcpu]. destruct (so_state s1 (ran_ok _ _ Hr)) as (sc & -> & Hwf & Hsz & _). cbn [mbind option_bind].
  destruct (so_machine _ (ran_ok _ _ Hr)) as [_ _ Hf].
  destruct (save_write_total (e_fs env) sc (save_dir (s_ctx s1)) (Some (cart_name (s_ctx s1))) slot (save_version (s_ctx s1)) (files (s_rv s1)) Hwf Hsz Hf)
    as (r & f & -> & Hf'). cbn. split; [|exact Hcpu]. destruct Hr as [[[H1 H2 H3] H4] Hc Hg]. split; [by split| |exact Hg].
  eapply same_cart_trans; [exact Hc|]. by repeat eexists.
Qed.

Lemma load_state_ends frames fuel s slot :
  session_ok s ->
  ends (fun '(_, s') => ran s s' /\ cpu_same s s') (blyt_session_load_state env rv_step frame_hash_on frames fuel s slot).
Proof.
  intros Hs. unfold blyt_session_load_state. destruct (so_state s Hs) as (sc & Hsc & Hwf & Hsz & _). rewrite Hsc. cbn [mbind option_bind].
  destruct (so_machine _ Hs) as [_ _ Hf].
  destruct (save_read_total sc (save_dir (s_ctx s)) (Some (cart_name (s_ctx s))) slot (files (s_rv s)) Hwf Hsz Hf)
    as (r & v & sc' & -> & Hwf' & Hrel). cbn [lift mbind outcome_bind]. cbv zeta.
  pose proof (with_state_ran s sc sc' Hs Hsc Hwf' Hrel) as Hr. destruct (negb _); [split; [done|by destruct s]|].
  apply (ends_bind _ _ _ _ (on_load_ends frames fuel _ 0 v 0 (ran_ok _ _ Hr))). intros s2 [Hr2 Hcpu2].
  split; [by eapply ran_trans|done].
Qed.

Lemma snapshot_ends frames fuel s :
  session_ok s ->
  ends (fun '(snap, s') => ran s s' /\ cpu_same s s'
          /\ exists sc, state_ctx (s_ctx s') = Some sc /\ ctx_wf sc /\ ctx_rel base sc /\ blyt_state_ctx_snapshot snap_ok sc = Some snap
               /\ (snap = None -> exists x, snap_ok x = false))
    (blyt_session_snapshot env rv_step frame_hash_on snap_ok frames fuel s).
Proof.
  intros Hs. unfold blyt_session_snapshot. apply (ends_bind _ _ _ _ (hook_ends frames fuel s (fn_on_save_state s) [] Hs)).
  intros s1 [Hr Hcpu]. destruct (so_state s1 (ran_ok _ _ Hr)) as (sc & Hsc & Hwf & _ & Hb). rewrite Hsc. cbn [mbind option_bind].
  destruct (snapshot_ok snap_ok sc Hwf) as (snap & Hsn & Hnone & _). rewrite Hsn. cbn. split; [done|]. split; [done|]. by exists sc.
Qed.

Lemma restore_eq frames fuel s sc snap reason :
  session_ok s -> ctx_wf sc -> ctx_rel base sc -> blyt_state_ctx_snapshot snap_ok sc = Some (Some snap) ->
  let s0 := with_ctx (set_state (Some sc) (s_ctx s)) s in
  blyt_session_restore env rv_step frame_hash_on frames fuel s (Some snap) reason
  = call_guest_on_load_state env rv_step frame_hash_on frames fuel s0 reason 0 0 /\ ran s s0.
Proof.
  cbv zeta. intros Hs Hwf Hb Hsn. unfold blyt_session_restore.
  destruct (restore_state_ok s sc snap Hs Hwf Hb Hsn) as [-> Hr]. by cbn [lift mbind outcome_bind].
Qed.
End session_spec.
