(* ===== verification/SessionTheorems.v ===== *)
(** * SessionTheorems: frames, calls into the cart and the development channel

    Properties of the session API of [Session]: a frame keeps the invariant, starts clean and
    reports what happened; the reset-every-frame cycle and the development channel leave the
    running game as they found it; the quit query of a cart that has trapped never ends. *)

From S2P Require Import Prelude Handle MemBudget StateBuffer StateBufferSpec Save SaveTheorems ResourceTable ResourceTheorems Palettes TestCard.
From S2P Require Import RunCtx Surface SurfaceSpec SurfaceTheorems Ecall EcallSpec EcallTheorems Session SessionSpec.
From Stdlib Require Import ZArith Lia.
From stdpp Require Import base tactics list relations gmap.
Open Scope Z_scope.

Section session.
Context {R M : Type} `{HR : RegFile R} `{HM : GuestMemory M} (env : ecall_env) (base : blyt_state_ctx_t).
Abbreviation mach := (machine R M).
Abbreviation session := (blyt_session R M).
Context (rv_step : (mach -> option mach) -> mach -> option mach) (frame_hash_on : bool).

(** C3: A frame never takes the host outside its buffers.  Whatever the guest does in a
    frame, from a session whose context is consistent: the frame can be entered, and if it ends it
    leaves a consistent session of the same cart, with the state buffers laid out as before and
    the caller's run context back in place.  The one way it can fail is a
    slice of guest code that issues a call outside [call_ok] - a line with an endpoint of 2^28 or
    more, a surface blitted onto itself - in a state that the frame reaches. *)
Theorem session_frame_safe (fuel : nat) (s : session) :
  (forall h m, emu_run h m (rv_step h m)) -> session_ok env base s ->
  exists s1, frame_entry s = Some s1 /\ session_ok env base s1
    /\ match blyt_session_run_frame env rv_step frame_hash_on fuel s with
       | Fault => exists m m', rtc (cart_step env) (enter s1) m /\ rv_step (blyt_ecall_handler env) m = None
                    /\ rtc (cart_step env) m m' /\ ~ call_ok m' /\ blyt_ecall_handler env m' = None
       | Running => True
       | Done (_, s') => session_ok env base s' /\ same_cart s s' /\ g_run_ctx (s_rv s') = g_run_ctx (s_rv s)
       end.
Proof.
  intros Hrun Hs. destruct (run_frame_ok env base rv_step Hrun frame_hash_on fuel s Hs) as (s1 & He & Hen & Hr).
  exists s1. split; [done|]. split; [apply Hen|]. destruct (blyt_session_run_frame _ _ _ _ _) as [| |[r s']]; [|done|by destruct Hr].
  destruct Hr as (m & Hm & Hn & m' & Hm' & Hc & Hn'). by exists m, m'.
Qed.

(** A frame starts clean.  Entering a frame always succeeds and clears the halt, the frame and
    the return flag; no resource is pinned any more and the scratch region is empty again; the
    CPU, the palette and the state buffers are as they were, and so is guest memory outside the
    accounting words.  A real frame leaves no surface but the screen and no lock; a call of a
    guest function keeps every surface as it is. *)
Theorem session_frame_entry (s : session) :
  session_ok env base s ->
  exists s1, frame_entry s = Some s1 /\ session_ok env base s1
    /\ rv_halted (s_rv s1) = false /\ frame_done (s_ctx s1) = false /\ fn_return_done (s_ctx s1) = false
    /\ resource_scratch_off (s_ctx s1) = 0 /\ Forall (fun e => pin_count (e_rl e) = 0) (t_entries (resources (s_ctx s1)))
    /\ PC (s_rv s1) = PC (s_rv s) /\ xregs (s_rv s1) = xregs (s_rv s) /\ csr_fcsr (s_rv s1) = csr_fcsr (s_rv s)
    /\ palette (s_ctx s1) = palette (s_ctx s) /\ state_ctx (s_ctx s1) = state_ctx (s_ctx s)
    /\ same_but_acct (s_ctx s) (rv_mem (s_rv s)) (rv_mem (s_rv s1))
    /\ if trace_fn_addr s =? 0
       then active_locks (surfaces (s_ctx s1)) = 0 /\ lock_bump (surfaces (s_ctx s1)) = 0
            /\ forall i sl, zget (slots (surfaces (s_ctx s1))) i = Some sl ->
                 s_locked sl = false /\ (s_is_screen sl = true \/ s_in_use sl = false)
       else surfaces (s_ctx s1) = surfaces (s_ctx s).
Proof.
  intros Hs. destruct (frame_entry_ok env base s Hs) as (s1 & He & Hen). exists s1. split; [done|].
  destruct Hen as [Hok _ _ _ (F1 & F2 & F3 & _) (C1 & C2 & C3) Hsc Hp [K1 K2] Hm Hsurf].
  repeat (split; [done|]). destruct (trace_fn_addr s =? 0); [|done]. destruct Hsurf as (H1 & H2 & H3). done.
Qed.

(** A frame reports what happened.  The code of a frame that ends is determined by the flags
    the guest's calls left: a finished frame, a returned function, a trap, an abort or a
    developer fault, or a plain halt, in this order.  Only a returned function closes the
    call that was begun.  When the cart has not drawn by the end of a frame, the screen shows the
    test card of that frame in the current palette and the frame counter moves on; otherwise
    neither is touched. *)
Theorem session_frame_result (fuel : nat) (s s' : session) (r : blyt_cart_run_err_t) :
  (forall h m, emu_run h m (rv_step h m)) -> session_ok env base s ->
  blyt_session_run_frame env rv_step frame_hash_on fuel s = Done (r, s') ->
  let c := s_ctx s' in
  r = (if frame_done c then BLYT_RUN_FRAME_DONE
       else if fn_return_done c then BLYT_RUN_FN_DONE
       else if ecall_trapped c then BLYT_RUN_ERR_ECALL_TRAP
       else if ecall_aborted c || dev_fault c then BLYT_RUN_ERR_ABORT
       else BLYT_RUN_OK)
  /\ trace_fn_addr s' = (if bool_decide (r = BLYT_RUN_FN_DONE) then 0 else trace_fn_addr s)
  /\ if bool_decide (r = BLYT_RUN_FRAME_DONE) && negb (cart_has_drawn c)
     then frame_count s' = u32 (frame_count s + 1)
          /\ exists px, blyt_testcard_draw (frame_count s) (palette c) px = Some (reg_screen (surfaces c))
     else frame_count s' = frame_count s.
Proof.
  cbv zeta. intros Hrun Hs Hd. destruct (run_frame_ok env base rv_step Hrun frame_hash_on fuel s Hs) as (s1 & _ & _ & Hr).
  rewrite Hd in Hr. destruct Hr as [_ _ Hres Htr Hcard _]. split; [exact Hres|]. split; [exact Htr|exact Hcard].
Qed.

(** The quit query of a cart that has trapped or aborted never ends: however many frames the
    host gives it, each returns the same error at once, and the loop ends only on a returned
    function or a halted cart. *)
Theorem session_quit_hangs (frames fuel : nat) (s : session) :
  session_ok env base s -> fn_is_quit_requested s <> 0 ->
  ecall_trapped (s_ctx s) = true \/ ecall_aborted (s_ctx s) = true ->
  blyt_session_check_guest_quit env rv_step frame_hash_on frames fuel s = Running.
Proof.
  intros Hs Hq Hbad. unfold blyt_session_check_guest_quit. rewrite (proj2 (Z.eqb_neq _ _) Hq).
  assert (forall s0 : session, session_ok env base s0 -> ecall_trapped (s_ctx s0) = true \/ ecall_aborted (s_ctx s0) = true ->
    quit_loop env rv_step frame_hash_on frames fuel s0 = Running) as ->; [|done| |].
  2:{ apply (begin_ok env base s _ _ Hs). }
  2:{ cbn. by destruct (s_ctx s). }
  clear. induction frames as [|frames IH]; intros s Hs Hbad; cbn [quit_loop]; [done|].
  destruct (frame_entry_ok env base s Hs) as (s1 & He & Hen).
  unfold blyt_session_run_frame, run_frame_impl. rewrite He. cbn [lift mbind outcome_bind].
  destruct (en_flags _ _ _ _ Hen) as (_ & F2 & _ & F3 & F4). pose proof (en_ok _ _ _ _ Hen) as Hok.
  assert (frame_loop env rv_step fuel (enter s1) = Stopped (enter s1)) as ->.
  { assert (rv_halted (enter s1) || ecall_trapped (s_ctx s1) || ecall_aborted (s_ctx s1) = true) as E
      by (rewrite F3, F4; destruct Hbad as [-> | ->]; by rewrite ?orb_true_r). destruct fuel; cbn [frame_loop g_run_ctx enter with_run_ctx];
      by rewrite E. }
  cbn [enter with_run_ctx g_run_ctx mbind outcome_bind]. rewrite F2. cbn [mbind outcome_bind].
  set (r := if ecall_trapped (s_ctx s1) then _ else _). set (s2 := on_rv _ _).
  assert (r = BLYT_RUN_ERR_ECALL_TRAP \/ r = BLYT_RUN_ERR_ABORT) as Hr.
  { unfold r. rewrite F3, F4. destruct (ecall_trapped (s_ctx s)); [by left|]. destruct Hbad as [| ->]; [done|]. by right. }
  rewrite bool_decide_true by (by destruct Hr as [-> | ->]). apply IH.
  - destruct Hok as [[H1 H2 H3] H4]. by split.
  - cbn. by rewrite F3, F4.
Qed.

Context (memory_fill : M -> Z -> Z -> Z -> M) (snap_ok : option (Z * Z) -> bool).

(** C34: The reset-every-frame cycle leaves the running game where it was.  For a cart with an init
    function that has not exited, a cycle that ends has put back the program counter, [x1] to
    [x31] and [fcsr], cleared the halt and any trap or abort of its own calls, and kept the
    session consistent.  One of these has happened: the save hook has not returned; there was no memory for the
    snapshot, and the state buffers are as the save hook left them; the init, run again on a clean slate - blank state
    buffers, zero guest statics and an empty heap, and all else as it was - has not returned; or it has returned and the
    load hook has been called on exactly the state buffers that the save hook had left,
    whatever the init did to them, and without those hooks the state
    buffers are unchanged. *)
Theorem session_reset_cycle (frames fuel : nat) (s s' : session) :
  (forall h m, emu_run h m (rv_step h m)) ->
  (forall mem a n v, memory_fill mem a n v = memory_write mem a (replicate (Z.to_nat n) v)) ->
  session_ok env base s -> fn_init s <> 0 -> cart_exited (s_ctx s) = false ->
  blyt_reset_every_frame_cycle env rv_step memory_fill frame_hash_on snap_ok frames fuel s = Done s' ->
  let call s fn := call_until_fn_done env rv_step frame_hash_on frames fuel (blyt_session_begin_fn_call s fn []) in
  let saved s1 := if fn_on_save_state s =? 0 then s1 = s else call s (fn_on_save_state s) = Done (BLYT_RUN_FN_DONE, s1) in
  let reinit sc sw r s2 := exists s1, saved s1 /\ state_ctx (s_ctx s1) = Some sc /\ clean_slate s1 sc sw /\ call sw (fn_init sw) = Done (r, s2) in
  session_ok env base s' /\ same_cart s s'
  /\ PC (s_rv s') = PC (s_rv s) /\ csr_fcsr (s_rv s') = csr_fcsr (s_rv s)
  /\ (forall r, 1 <= r < 32 -> rv_get_reg (s_rv s') r = rv_get_reg (s_rv s) r)
  /\ rv_halted (s_rv s') = false /\ ecall_trapped (s_ctx s') = false /\ ecall_aborted (s_ctx s') = false
  /\ exists sb, s_ctx s' = calmed (s_ctx sb) /\ rv_mem (s_rv s') = rv_mem (s_rv sb)
      /\ ((fn_on_save_state s <> 0 /\ exists r, r <> BLYT_RUN_FN_DONE /\ call s (fn_on_save_state s) = Done (r, sb))
          \/ (saved sb /\ (exists x, snap_ok x = false)
              /\ exists sc, state_ctx (s_ctx sb) = Some sc /\ blyt_state_ctx_snapshot snap_ok sc = Some None)
          \/ (exists r sc sw, r <> BLYT_RUN_FN_DONE /\ reinit sc sw r sb)
          \/ (exists sc sw s2, reinit sc sw BLYT_RUN_FN_DONE s2
                /\ call_guest_on_load_state env rv_step frame_hash_on frames fuel
                     (with_ctx (set_state (Some sc) (s_ctx s2)) s2) 3 0 0 = Done sb
                /\ (fn_on_load_state s = 0 -> state_ctx (s_ctx s') = Some sc))).
Proof.
  cbv zeta. intros Hrun Hfill Hs Hi He Hd.
  pose proof (reset_cycle_ends env base rv_step Hrun frame_hash_on snap_ok memory_fill Hfill frames fuel s Hs Hi He) as Hends.
  rewrite Hd in Hends. cbn [ends] in Hends. destruct Hends as ([Hok Hcart _] & (H1 & H2 & H3) & Hh & sb & Hctx & Hmem & Hor).
  assert (ecall_trapped (s_ctx s') = false /\ ecall_aborted (s_ctx s') = false /\ state_ctx (s_ctx s') = state_ctx (s_ctx sb)) as (E1 & E2 & E3)
    by (rewrite Hctx; by destruct (s_ctx sb)).
  do 8 (split; [done|]). exists sb. split; [done|]. split; [done|].
  destruct Hor as [(r & Hr & [[? ?]|(s1 & sc & sw & ? & ? & ? & ?)])|[(? & ? & ?)|(s1 & sc & sw & s2 & ? & ? & ? & ? & Hran & Hload)]].
  - left. split; [done|by exists r].
  - right. right. left. exists r, sc, sw. split; [done|by exists s1].
  - right. left. by split_and!.
  - right. right. right. exists sc, sw, s2. split; [by exists s1|]. split; [done|]. intros Hl. rewrite E3.
    destruct (ran_cart _ _ _ _ Hran) as (? & ? & ? & ? & Hs2). unfold call_guest_on_load_state in Hload.
    assert (fn_on_load_state (with_ctx (set_state (Some sc) (s_ctx s2)) s2) = 0) as E by by rewrite Hs2.
    rewrite E in Hload. injection Hload as <-. cbn. by destruct (s_ctx s2).
Qed.

(** The development channel is invisible to the running game.  Saving to a slot, loading a
    slot whatever its file holds, taking a snapshot, restoring one of this session and
    announcing reloaded assets each run the cart's hooks; when they end they have kept the
    session consistent, the cart the same, and the program counter, [x1] to [x31] and [fcsr] as they were. *)
Theorem session_dev_channel (frames fuel : nat) (s : session) (slot reason : Z) (ids : list Z) (sc : blyt_state_ctx_t) (snap : blyt_state_snapshot) :
  (forall h m, emu_run h m (rv_step h m)) -> session_ok env base s ->
  ctx_wf sc -> ctx_rel base sc -> blyt_state_ctx_snapshot snap_ok sc = Some (Some snap) ->
  let fine s' := session_ok env base s' /\ same_cart s s' /\ PC (s_rv s') = PC (s_rv s) /\ csr_fcsr (s_rv s') = csr_fcsr (s_rv s)
                   /\ forall r, 1 <= r < 32 -> rv_get_reg (s_rv s') r = rv_get_reg (s_rv s) r in
  (forall r s', blyt_session_save_state env rv_step frame_hash_on frames fuel s slot = Done (r, s') -> fine s')
  /\ (forall r s', blyt_session_load_state env rv_step frame_hash_on frames fuel s slot = Done (r, s') -> fine s')
  /\ (forall snap' s', blyt_session_snapshot env rv_step frame_hash_on snap_ok frames fuel s = Done (snap', s') -> fine s')
  /\ (forall s', blyt_session_restore env rv_step frame_hash_on frames fuel s (Some snap) reason = Done s' -> fine s')
  /\ (forall s', blyt_session_notify_assets_reloaded env rv_step frame_hash_on frames fuel s ids = Done s' -> fine s').
Proof.
  cbv zeta. intros Hrun Hs Hwf Hb Hsn.
  assert (forall s', ran env base s s' /\ cpu_same s s' -> session_ok env base s' /\ same_cart s s' /\ PC (s_rv s') = PC (s_rv s)
    /\ csr_fcsr (s_rv s') = csr_fcsr (s_rv s) /\ forall r, 1 <= r < 32 -> rv_get_reg (s_rv s') r = rv_get_reg (s_rv s) r) as Hfine
    by (intros s' [[] (? & ? & ?)]; done).
  split_and!.
  - intros r s' E. apply Hfine. exact (ends_done env base rv_step _ _ _ (save_state_ends env base rv_step Hrun frame_hash_on frames fuel s slot Hs) E).
  - intros r s' E. apply Hfine. exact (ends_done env base rv_step _ _ _ (load_state_ends env base rv_step Hrun frame_hash_on frames fuel s slot Hs) E).
  - intros sn s' E. apply Hfine.
    destruct (ends_done env base rv_step _ _ _ (snapshot_ends env base rv_step Hrun frame_hash_on snap_ok frames fuel s Hs) E) as (? & ? & _). done.
  - intros s' E. apply Hfine. destruct (restore_eq env base rv_step frame_hash_on snap_ok frames fuel s sc snap reason Hs Hwf Hb Hsn) as [Heq Hr].
    rewrite Heq in E.
    destruct (ends_done env base rv_step _ _ _ (on_load_ends env base rv_step Hrun frame_hash_on frames fuel _ reason 0 0 (ran_ok _ _ _ _ Hr)) E) as [Hr2 Hc].
    split; [by eapply ran_trans|done].
  - intros s' E. apply Hfine. exact (ends_done env base rv_step _ _ _ (notify_ends env base rv_step Hrun frame_hash_on frames fuel s ids Hs) E).
Qed.

(** A snapshot brings the state back whatever the cart has done since.  Take a snapshot - it is NULL only when an
    allocation fails -, let
    the session become any other consistent session of the same layout, restore: the load
    hook, called with the given reason, finds exactly the state buffers of the moment of the snapshot,
    and without a load hook they are the state of the session. *)
Theorem session_snapshot_restore (frames fuel : nat) (s s1 s2 : session) (r : option blyt_state_snapshot) (reason : Z) :
  (forall h m, emu_run h m (rv_step h m)) -> session_ok env base s ->
  blyt_session_snapshot env rv_step frame_hash_on snap_ok frames fuel s = Done (r, s1) -> session_ok env base s2 ->
  (r = None -> exists x, snap_ok x = false)
  /\ forall snap, r = Some snap ->
  exists s3, state_ctx (s_ctx s3) = state_ctx (s_ctx s1) /\ s_rv s3 = s_rv s2 /\ fn_on_load_state s3 = fn_on_load_state s2
    /\ blyt_session_restore env rv_step frame_hash_on frames fuel s2 (Some snap) reason
       = call_guest_on_load_state env rv_step frame_hash_on frames fuel s3 reason 0 0
    /\ (fn_on_load_state s2 = 0 -> blyt_session_restore env rv_step frame_hash_on frames fuel s2 (Some snap) reason = Done s3).
Proof.
  intros Hrun Hs Hsn Hs2.
  destruct (ends_done env base rv_step _ _ _ (snapshot_ends env base rv_step Hrun frame_hash_on snap_ok frames fuel s Hs) Hsn) as (_ & _ & sc & Hsc & Hwf & Hb & Hsnap & Hnone).
  split; [done|]. intros snap ->.
  destruct (restore_eq env base rv_step frame_hash_on snap_ok frames fuel s2 sc snap reason Hs2 Hwf Hb Hsnap) as [Heq _].
  exists (with_ctx (set_state (Some sc) (s_ctx s2)) s2). rewrite Hsc. split; [cbn; by destruct (s_ctx s2)|].
  split; [done|]. split; [done|]. split; [exact Heq|]. intros Hl. rewrite Heq. unfold call_guest_on_load_state.
  cbn [fn_on_load_state with_ctx]. by rewrite Hl.
Qed.
End session.

(** ** Witnesses: a small session *)

(** An emulator whose guest does one thing: the given ECALL. *)
Definition toy_step (num : Z) (h : machine regs flat -> option (machine regs flat)) (m : machine regs flat) : option (machine regs flat) :=
  h (rv_set_reg m rv_reg_a7 num).

Lemma toy_runs num h m : emu_run h m (toy_step num h m).
Proof.
  apply (emu_guest h m (rv_set_reg m rv_reg_a7 num)); [done|]. unfold toy_step.
  destruct (h (rv_set_reg m rv_reg_a7 num)) as [m1|] eqn:E; [by apply (emu_ecall h _ m1); [|apply emu_pause]|by apply emu_stuck].
Qed.

Definition demo_rv : machine regs flat := with_run_ctx None (demo_machine BLYT_PHASE_UPDATE false 0 []).
Definition demo_session (trapped : bool) : blyt_session regs flat :=
  MkSession demo_rv (set_drawn true (set_trapped trapped (demo_run BLYT_PHASE_UPDATE false))) 0 0 [(0x2000000, 64)] 0 0x3000000 0x1000 0 0x3000010 0 0 0 0 0 0 0 0x3000020.

Lemma demo_session_ok trapped : session_ok demo_ecall zero_ctx (demo_session trapped).
Proof.
  split; [split; [done| |by apply map_Forall_empty]|split; done].
  apply (run_ok_flags demo_ecall zero_ctx (fun c => set_drawn true (set_trapped trapped c))); [done|apply demo_run_ok].
Qed.

Lemma session_frame_safe_witness : exists s1, frame_entry (demo_session false) = Some s1 /\ session_ok demo_ecall zero_ctx s1.
Proof.
  destruct (session_frame_safe demo_ecall zero_ctx (toy_step BLYT_ECALL_FRAME_DONE) false 2 (demo_session false)) as (s1 & H1 & H2 & _).
  - apply toy_runs.
  - apply demo_session_ok.
  - exists s1. by split.
Defined.

Lemma session_frame_entry_witness :
  exists s1, frame_entry (demo_session false) = Some s1 /\ Forall (fun e => pin_count (e_rl e) = 0) (t_entries (resources (s_ctx s1))).
Proof.
  destruct (session_frame_entry demo_ecall zero_ctx (demo_session false) (demo_session_ok _)) as (s1 & H1 & _ & _ & _ & _ & _ & H2 & _).
  exists s1. by split.
Defined.

(** Reading the result of a run without normalising the session. *)
Definition ended {A} (d : A) (o : outcome (blyt_cart_run_err_t * A)) : A := match o with Done (_, s) => s | _ => d end.
Definition ended_with {A} (r : blyt_cart_run_err_t) (o : outcome (blyt_cart_run_err_t * A)) : bool :=
  match o with Done (r', _) => bool_decide (r' = r) | _ => false end.
Lemma ended_eq {A} (d : A) r o : ended_with r o = true -> o = Done (r, ended d o).
Proof. destruct o as [| |[r' s]]; [done|done|]. cbn. by intros ->%bool_decide_eq_true. Qed.

Abbreviation demo_frame := (blyt_session_run_frame demo_ecall (toy_step BLYT_ECALL_FRAME_DONE) false 2 (demo_session false)).

Lemma demo_frame_ended : ended_with BLYT_RUN_FRAME_DONE demo_frame = true.
Proof. vm_compute. reflexivity. Qed.

Lemma session_frame_result_witness : frame_count (ended (demo_session false) demo_frame) = 0.
Proof.
  destruct (session_frame_result demo_ecall zero_ctx (toy_step BLYT_ECALL_FRAME_DONE) false 2 (demo_session false)
    (ended (demo_session false) demo_frame) BLYT_RUN_FRAME_DONE) as (_ & _ & Hcard).
  - apply toy_runs.
  - apply demo_session_ok.
  - exact (ended_eq (demo_session false) _ _ demo_frame_ended).
  - replace (negb (cart_has_drawn _)) with false in Hcard by (vm_compute; reflexivity).
    rewrite andb_false_r in Hcard. rewrite Hcard. reflexivity.
Defined.

Lemma session_quit_hangs_witness :
  blyt_session_check_guest_quit demo_ecall (toy_step BLYT_ECALL_FRAME_DONE) false 1000 5 (demo_session true) = Running.
Proof.
  apply (session_quit_hangs demo_ecall zero_ctx (toy_step BLYT_ECALL_FRAME_DONE) false 1000 5 (demo_session true)).
  - apply demo_session_ok.
  - done.
  - left. reflexivity.
Defined.

Definition demo_fill (mem : flat) (a n v : Z) : flat := memory_write mem a (replicate (Z.to_nat n) v).

Abbreviation demo_cycle :=
  (blyt_reset_every_frame_cycle demo_ecall (toy_step BLYT_ECALL_HOST_FN_RETURN) demo_fill false (fun _ => true) 2 2 (demo_session false)).
Definition result_of {A} (d : A) (o : outcome A) : A := match o with Done s => s | _ => d end.
Definition is_done {A} (o : outcome A) : bool := match o with Done _ => true | _ => false end.
Lemma done_eq {A} (d : A) o : is_done o = true -> o = Done (result_of d o).
Proof. by destruct o. Qed.

Lemma demo_cycle_done : is_done demo_cycle = true.
Proof. vm_compute. reflexivity. Qed.

Lemma session_reset_cycle_witness :
  PC (s_rv (result_of (demo_session false) demo_cycle)) = 0x1000
  /\ session_ok demo_ecall zero_ctx (result_of (demo_session false) demo_cycle).
Proof.
  destruct (session_reset_cycle demo_ecall zero_ctx (toy_step BLYT_ECALL_HOST_FN_RETURN) false demo_fill (fun _ => true) 2 2 (demo_session false)
    (result_of (demo_session false) demo_cycle)) as (H1 & _ & H2 & _).
  - apply toy_runs.
  - reflexivity.
  - apply demo_session_ok.
  - discriminate.
  - reflexivity.
  - exact (done_eq (demo_session false) _ demo_cycle_done).
  - split; [exact H2|exact H1].
Defined.

Lemma session_dev_channel_witness :
  session_ok demo_ecall zero_ctx
    (ended (demo_session false) (blyt_session_save_state demo_ecall (toy_step BLYT_ECALL_HOST_FN_RETURN) false 2 2 (demo_session false) 1
       ≫= fun '(_, s) => Done (BLYT_RUN_OK, s))).
Proof.
  destruct (session_dev_channel demo_ecall zero_ctx (toy_step BLYT_ECALL_HOST_FN_RETURN) false (fun _ => true) 2 2 (demo_session false) 1 0 [] zero_ctx
    (MkSnap 0 [])) as (H & _).
  - apply toy_runs.
  - apply demo_session_ok.
  - split; [split; discriminate|reflexivity|intros bi b; cbn; lia].
  - apply ctx_rel_refl.
  - reflexivity.
  - destruct (blyt_session_save_state demo_ecall (toy_step BLYT_ECALL_HOST_FN_RETURN) false 2 2 (demo_session false) 1) as [| |[r s']].
    + apply demo_session_ok.
    + apply demo_session_ok.
    + exact (proj1 (H r s' eq_refl)).
Defined.

Lemma session_snapshot_restore_witness :
  exists s3, blyt_session_restore demo_ecall (toy_step BLYT_ECALL_HOST_FN_RETURN) false 2 2 (demo_session true) (Some (MkSnap 0 [])) 1 = Done s3.
Proof.
  destruct (session_snapshot_restore demo_ecall zero_ctx (toy_step BLYT_ECALL_HOST_FN_RETURN) false (fun _ => true) 2 2 (demo_session false) (demo_session false)
    (demo_session true) (Some (MkSnap 0 [])) 1) as (_ & Hsome).
  - apply toy_runs.
  - apply demo_session_ok.
  - reflexivity.
  - apply demo_session_ok.
  - destruct (Hsome (MkSnap 0 []) eq_refl) as (s3 & _ & _ & _ & _ & H). exists s3. apply H. reflexivity.
Defined.
