(* ===== verification/DynLink.v ===== *)
(** * DynLink: loading and linking the guest libraries

    Models the dynamic loader of [runtime/host/src/libblyt/cart_run.c]: the library registry,
    the combined symbol table, the mapping of segments, relocations, the walk over the
    needed libraries and the linking of a cart against them.

    The guest memory is the class [GuestMemory]; [memory_fill] and the results of the two
    writing calls are parameters.  A read outside of an image is [None].  Names are C
    strings; the image a name comes from need not end it. *)

From S2P Require Import Prelude MemBudget StateBuffer ElfSection Elf32 CartLoad ResourceTable RunCtx.
From Stdlib Require Import ZArith Lia Strings.String.
From stdpp Require Import base tactics list.
Open Scope Z_scope.

Definition GUEST_LIB_BASE : Z := 0x08000000.
Definition GUEST_LIB_STRIDE : Z := 0x00200000.
Definition MAX_RUNTIME_LIBS : nat := 8.
Definition MAX_BSS_REGIONS : nat := 16.
Definition BLYT_ARENA_BASE : Z := 0x04000000.
Definition BLYT_ARENA_SIZE : Z := 16 * 1024 * 1024.
Definition MAX_SYMS : nat := 2048.
Definition MAX_REGISTERED_LIBS : nat := 8.

(** ** C strings of bounded size *)

(** [strncpy(dst, map + off, n)] for a [dst] that was full of NULs, followed by the NUL at [dst + n]. *)
Fixpoint strncpy_at (n : nat) (map : list Z) (off : Z) : option (list Z) :=
  match n with
  | O => Some []
  | S n => c ← zget map off; if c =? 0 then Some [] else s ← strncpy_at n map (off + 1); Some (c :: s)
  end.

(** ** The registry *)

Definition registry := list (list Z * list Z).

(** [name] is a C string, without its NUL. *)
Definition blyt_register_lib (name data : list Z) (reg : registry) : registry :=
  if (MAX_REGISTERED_LIBS <=? length reg)%nat then reg
  else if existsb (fun r => bool_decide (fst r = name)) reg then reg
  else reg ++ [(take 63 name, data)].
Definition blyt_clear_libs (reg : registry) : registry := [].

(** ** The symbol table *)

(** Name and address; [count] is the length. *)
Definition blyt_symtab_t := list (list Z * Z).

Fixpoint symtab_lookup (st : blyt_symtab_t) (name : list Z) : Z :=
  match st with
  | [] => 0
  | (n, addr) :: st => if bool_decide (n = name) then addr else symtab_lookup st name
  end.
(** The same with a name in an image. *)
Fixpoint symtab_lookup_at (st : blyt_symtab_t) (map : list Z) (off : Z) : option Z :=
  match st with
  | [] => Some 0
  | (n, addr) :: st => b ← strcmp_at map off n; if b : bool then Some addr else symtab_lookup_at st map off
  end.

Definition append_symtab (dst src : blyt_symtab_t) : blyt_symtab_t := take MAX_SYMS (dst ++ src).

(** ** Libraries *)

Record blyt_lib_t := MkLib { l_map : list Z; l_bias : Z }.

(** The program headers of an image, read one by one until [f] stops ([inl]) or the file ends. *)
Fixpoint phdr_walk {A} (k : nat) (i : Z) (map : list Z) (eh : Elf32_Ehdr) (out_of_file : A -> A) (f : Elf32_Phdr -> A -> option (A + A)) (acc : A)
    : option A :=
  match k with
  | O => Some acc
  | S k =>
      let off := e_phoff eh + i * e_phentsize eh in
      if off + sizeof_Phdr >? len map then Some (out_of_file acc)
      else
        ph ← rd_phdr map off;
        r ← f ph acc;
        match r with inl acc => Some acc | inr acc => phdr_walk k (i + 1) map eh out_of_file f acc end
  end.

(** The offset in the image, or [None] for the null pointer. *)
Definition vaddr_to_ptr (map : list Z) (eh : Elf32_Ehdr) (vaddr : Z) : option (option Z) :=
  phdr_walk (Z.to_nat (e_phnum eh)) 0 map eh (fun _ => None)
    (fun ph _ => Some
      (if negb (p_type ph =? PT_LOAD) then inr None
       else if (vaddr >=? p_vaddr ph) && (vaddr <? u32 (p_vaddr ph + p_filesz ph)) then
         let foff := u32 (p_offset ph + (vaddr - p_vaddr ph)) in
         if foff <? len map then inl (Some foff) else inr None
       else inr None))
    None.

Section link.
Context {M : Type} `{GuestMemory M}.
(** [memory_fill(mem, addr, size, value)], and whether a write or a fill of so many bytes succeeds. *)
Variable memory_fill : M -> Z -> Z -> Z -> M.
Variable write_ok : M -> Z -> Z -> bool.

(** One segment: whether the loader goes on, and the memory. *)
Definition map_segment (lib : blyt_lib_t) (ph : Elf32_Phdr) (mem : M) : option (bool * M) :=
  if p_offset ph + p_filesz ph >? len (l_map lib) then Some (false, mem)
  else
    bytes ← rd (l_map lib) (p_offset ph) (p_filesz ph);
    let g := u32 (l_bias lib + p_vaddr ph) in
    if negb (write_ok mem g (p_filesz ph)) then Some (false, mem)
    else
      let mem := memory_write mem g bytes in
      if p_memsz ph >? p_filesz ph then
        let z := u32 (g + p_filesz ph) in
        let n := p_memsz ph - p_filesz ph in
        if negb (write_ok mem z n) then Some (false, mem) else Some (true, memory_fill mem z n 0)
      else Some (true, mem).

Fixpoint segment_loop (k : nat) (i : Z) (lib : blyt_lib_t) (eh : Elf32_Ehdr) (mem : M) : option (bool * M) :=
  match k with
  | O => Some (true, mem)
  | S k =>
      let off := e_phoff eh + i * e_phentsize eh in
      if off + sizeof_Phdr >? len (l_map lib) then Some (false, mem)
      else
        ph ← rd_phdr (l_map lib) off;
        if negb (p_type ph =? PT_LOAD) then segment_loop k (i + 1) lib eh mem
        else
          '(ok, mem) ← map_segment lib ph mem;
          if ok : bool then segment_loop k (i + 1) lib eh mem else Some (false, mem)
  end.

Definition map_lib_segments (lib : blyt_lib_t) (mem : M) : option (bool * M) :=
  eh ← rd_ehdr (l_map lib); segment_loop (Z.to_nat (e_phnum eh)) 0 lib eh mem.

(** ** Relocations of the image itself *)

Definition put_word (mem : M) (addr v : Z) : M := memory_write mem addr (write_u32_le v).

Definition read_all_shdrs (map : list Z) (eh : Elf32_Ehdr) : option (list Elf32_Shdr) :=
  mapM (fun i => rd_shdr map (e_shoff eh + i * sizeof_Shdr)) (seqZ 0 (e_shnum eh)).

(** One entry, at [p]. *)
Definition apply_rela (lib : blyt_lib_t) (dynsym : option Elf32_Shdr) (p : Z) (mem : M) : option M :=
  let map := l_map lib in
  info ← r_info map p; off ← r_offset map p; addend ← r_addend map p;
  if ELF32_R_TYPE info =? R_RISCV_RELATIVE then
    Some (put_word mem (u32 (l_bias lib + off)) (u32 (l_bias lib + addend)))
  else
    match dynsym with
    | Some d =>
        if (ELF32_R_TYPE info =? R_RISCV_32) && (sh_entsize d >=? sizeof_Sym) then
          let sym := sh_offset d + ELF32_R_SYM info * sh_entsize d in
          if sym + sizeof_Sym >? len map then Some mem
          else
            shndx ← st_shndx map sym;
            if shndx =? SHN_UNDEF then Some mem
            else
              value ← st_value map sym;
              Some (put_word mem (u32 (l_bias lib + off)) (u32 (l_bias lib + value + addend)))
        else Some mem
    | None => Some mem
    end.

Fixpoint rela_loop (k : nat) (p entsize : Z) (lib : blyt_lib_t) (dynsym : option Elf32_Shdr) (mem : M) : option M :=
  match k with
  | O => Some mem
  | S k =>
      if p + sizeof_Rela >? len (l_map lib) then Some mem
      else mem ← apply_rela lib dynsym p mem; rela_loop k (p + entsize) entsize lib dynsym mem
  end.

Fixpoint rela_sections (k : nat) (i : Z) (lib : blyt_lib_t) (eh : Elf32_Ehdr) (dynsym : option Elf32_Shdr) (mem : M) : option M :=
  match k with
  | O => Some mem
  | S k =>
      let off := e_shoff eh + i * e_shentsize eh in
      if off + sizeof_Shdr >? len (l_map lib) then Some mem
      else
        sh ← rd_shdr (l_map lib) off;
        if negb (sh_type sh =? SHT_RELA) || (sh_entsize sh <? sizeof_Rela) then rela_sections k (i + 1) lib eh dynsym mem
        else
          mem ← rela_loop (Z.to_nat (sh_size sh / sh_entsize sh)) (sh_offset sh) (sh_entsize sh) lib dynsym mem;
          rela_sections k (i + 1) lib eh dynsym mem
  end.

Definition is_dynsym (sh : Elf32_Shdr) : bool := sh_type sh =? SHT_DYNSYM.

Definition apply_lib_rela (lib : blyt_lib_t) (mem : M) : option M :=
  eh ← rd_ehdr (l_map lib);
  if (e_shentsize eh <? sizeof_Shdr) || (e_shnum eh =? 0) then Some mem
  else
    shdrs ← read_all_shdrs (l_map lib) eh;
    rela_sections (Z.to_nat (e_shnum eh)) 0 lib eh (List.find is_dynsym shdrs) mem.

(** ** PLT and GOT *)

(** The name of section [sh], at [shstr], is [.dynstr]; the last string table of that name. *)
Fixpoint named_dynstr (map : list Z) (shstr : Z) (shs : list Elf32_Shdr) (dynstr : option Elf32_Shdr) : option (option Elf32_Shdr) :=
  match shs with
  | [] => Some dynstr
  | sh :: shs =>
      if sh_type sh =? SHT_STRTAB then
        b ← strcmp_at map (shstr + sh_name sh) (text ".dynstr");
        named_dynstr map shstr shs (if b : bool then Some sh else dynstr)
      else named_dynstr map shstr shs dynstr
  end.

(** One relocation, at [p]. *)
Definition resolve_rela (map : list Z) (elf_bias : Z) (syms : blyt_symtab_t) (dynsym : Elf32_Shdr) (sym_strtab sym_strsz p : Z) (mem : M)
    : option M :=
  info ← r_info map p;
  let type := ELF32_R_TYPE info in
  if negb (type =? R_RISCV_JUMP_SLOT) && negb (type =? R_RISCV_GLOB_DAT) && negb (type =? R_RISCV_32) then Some mem
  else
    let at_sym := u32 (ELF32_R_SYM info * sh_entsize dynsym) in
    if at_sym + sizeof_Sym >? sh_size dynsym then Some mem
    else
      let sym := sh_offset dynsym + at_sym in
      name ← st_name map sym;
      if name >=? sym_strsz then Some mem
      else
        here ← (if type =? R_RISCV_32 then shndx ← st_shndx map sym; Some (negb (shndx =? SHN_UNDEF)) else Some false);
        if here : bool then Some mem
        else
          resolved ← symtab_lookup_at syms map (sym_strtab + name);
          off ← r_offset map p;
          if resolved =? 0 then
            sinfo ← st_info map sym;
            Some (if ELF32_ST_BIND sinfo =? STB_WEAK then put_word mem (u32 (elf_bias + off)) 0 else mem)
          else Some (put_word mem (u32 (elf_bias + off)) resolved).

Fixpoint plt_loop (k : nat) (p entsize : Z) (map : list Z) (elf_bias : Z) (syms : blyt_symtab_t) (dynsym : Elf32_Shdr)
    (sym_strtab sym_strsz : Z) (mem : M) : option M :=
  match k with
  | O => Some mem
  | S k =>
      mem ← resolve_rela map elf_bias syms dynsym sym_strtab sym_strsz p mem;
      plt_loop k (p + entsize) entsize map elf_bias syms dynsym sym_strtab sym_strsz mem
  end.

Fixpoint plt_sections (shs : list Elf32_Shdr) (map : list Z) (elf_bias : Z) (syms : blyt_symtab_t) (dynsym : Elf32_Shdr)
    (sym_strtab sym_strsz : Z) (mem : M) : option M :=
  match shs with
  | [] => Some mem
  | sh :: shs =>
      if negb (sh_type sh =? SHT_RELA) || (sh_entsize sh <? sizeof_Rela)
      then plt_sections shs map elf_bias syms dynsym sym_strtab sym_strsz mem
      else
        mem ← plt_loop (Z.to_nat (sh_size sh / sh_entsize sh)) (sh_offset sh) (sh_entsize sh) map elf_bias syms dynsym sym_strtab sym_strsz mem;
        plt_sections shs map elf_bias syms dynsym sym_strtab sym_strsz mem
  end.

Definition resolve_elf_plt (map : list Z) (mem : M) (elf_bias : Z) (syms : blyt_symtab_t) : option M :=
  eh ← rd_ehdr map;
  if (e_shentsize eh <? sizeof_Shdr) || (e_shnum eh =? 0) then Some mem
  else
    shstrtab ← rd_shdr map (e_shoff eh + e_shstrndx eh * sizeof_Shdr);
    shdrs ← read_all_shdrs map eh;
    dynstr ← named_dynstr map (sh_offset shstrtab) shdrs None;
    match List.find is_dynsym shdrs, dynstr with
    | Some dynsym, Some dynstr =>
        if sh_entsize dynsym <? sizeof_Sym then Some mem
        else plt_sections shdrs map elf_bias syms dynsym (sh_offset dynstr) (sh_size dynstr) mem
    | _, _ => Some mem
    end.
End link.

(** ** Exported symbols of a library *)

(** The first symbol section, and the string table it links to, looked for from there on. *)
Definition lib_tables (shs : list Elf32_Shdr) : option Elf32_Shdr * option Elf32_Shdr :=
  foldl (fun '(dynsym, dynstr) '(i, sh) =>
           let dynsym := if is_dynsym sh && negb (bool_decide (is_Some dynsym)) then Some sh else dynsym in
           (dynsym, match dynsym with
                    | Some d => if (i =? sh_link d) && (sh_type sh =? SHT_STRTAB) then Some sh else dynstr
                    | None => dynstr
                    end)) (None, None) (zip (seqZ 0 (len shs)) shs).

Fixpoint symtab_loop (k : nat) (p entsize : Z) (lib : blyt_lib_t) (strtab strsz : Z) (st : blyt_symtab_t) : option blyt_symtab_t :=
  match k with
  | O => Some st
  | S k =>
      if (MAX_SYMS <=? length st)%nat then Some st
      else
        let map := l_map lib in
        let next := symtab_loop k (p + entsize) entsize lib strtab strsz in
        shndx ← st_shndx map p;
        if shndx =? SHN_UNDEF then next st
        else
          info ← st_info map p;
          let bind := ELF32_ST_BIND info in
          if negb (bind =? STB_GLOBAL) && negb (bind =? STB_WEAK) then next st
          else
            name ← st_name map p;
            if (name >=? strsz) || (name =? 0) then next st
            else
              known ← symtab_lookup_at st map (strtab + name);
              if negb (known =? 0) then next st
              else
                s ← strncpy_at 127 map (strtab + name);
                value ← st_value map p;
                next (st ++ [(s, u32 (l_bias lib + value))])
  end.

Definition build_symtab (lib : blyt_lib_t) (st : blyt_symtab_t) : option blyt_symtab_t :=
  eh ← rd_ehdr (l_map lib);
  if (e_shentsize eh <? sizeof_Shdr) || (e_shnum eh =? 0) then Some st
  else
    shdrs ← read_all_shdrs (l_map lib) eh;
    let '(dynsym, dynstr) := lib_tables shdrs in
    match dynsym with
    | None => Some st
    | Some d =>
        dynstr ← (match dynstr with
                  | Some s => Some (Some s)
                  | None => if sh_link d <? e_shnum eh
                            then s ← rd_shdr (l_map lib) (e_shoff eh + sh_link d * sizeof_Shdr); Some (Some s)
                            else Some None
                  end);
        match dynstr with
        | None => Some st
        | Some s =>
            if sh_entsize d <? sizeof_Sym then Some st
            else symtab_loop (Z.to_nat (sh_size d / sh_entsize d)) (sh_offset d) (sh_entsize d) lib (sh_offset s) (sh_size s) st
        end
    end.

(** ** Needed libraries *)

(** The value of the first [DT_STRTAB] before [DT_NULL]. *)
Fixpoint first_strtab (k : nat) (p : Z) (map : list Z) : option (option Z) :=
  match k with
  | O => Some None
  | S k =>
      tag ← d_tag map p;
      if tag =? DT_NULL then Some None
      else if tag =? DT_STRTAB then v ← d_val map p; Some (Some v)
      else first_strtab k (p + sizeof_Dyn) map
  end.

(** Where the names of the entries are, as long as there is room for [room] of them. *)
Fixpoint needed_names (k : nat) (room : nat) (p : Z) (map : list Z) (strtab : Z) : option (list Z) :=
  match k, room with
  | S k, S room' =>
      tag ← d_tag map p;
      if tag =? DT_NULL then Some []
      else if tag =? DT_NEEDED then
        v ← d_val map p; names ← needed_names k room' (p + sizeof_Dyn) map strtab; Some ((strtab + v) :: names)
      else needed_names k room (p + sizeof_Dyn) map strtab
  | _, _ => Some []
  end.

Definition get_dt_needed (lib : blyt_lib_t) (max_out : nat) : option (list Z) :=
  let map := l_map lib in
  eh ← rd_ehdr map;
  phdr_walk (Z.to_nat (e_phnum eh)) 0 map eh (fun names => names)
    (fun ph names =>
       if negb (p_type ph =? PT_DYNAMIC) then Some (inr names)
       else
         let ndyn := Z.to_nat (p_filesz ph / sizeof_Dyn) in
         v ← first_strtab ndyn (p_offset ph) map;
         strtab ← (match v with None => Some None | Some v => vaddr_to_ptr map eh v end);
         match strtab with
         | None => Some (inl names)
         | Some strtab => names ← needed_names ndyn max_out (p_offset ph) map strtab; Some (inl names)
         end)
    [].

(** ** Opening a library *)

(** The environment: the registry, [BLYT_LIB_DIR], and the bytes of a file that can be opened and
    mapped. *)
Record link_env := MkLinkEnv { registered : registry; lib_dir : option (list Z); lib_file : list Z -> option (list Z) }.

Definition open_lib (env : link_env) (lib_name : list Z) : option (list Z) :=
  match List.find (fun r => bool_decide (fst r = lib_name)) (registered env) with
  | Some (_, data) => Some data
  | None =>
      match lib_dir env with
      | None | Some [] => None
      | Some dir =>
          let path := dir ++ [47] ++ lib_name in
          if len path >=? 4096 then None else lib_file env path
      end
  end.

(** ** The walk over the needed libraries *)

(** The queue of names; [qtail] is its length. *)
Fixpoint seed_queue (k : nat) (p : Z) (map : list Z) (strtab : Z) (name_buf : list (list Z)) : option (list (list Z)) :=
  match k with
  | O => Some name_buf
  | S k =>
      if (MAX_RUNTIME_LIBS <=? length name_buf)%nat then Some name_buf
      else
        tag ← d_tag map p;
        if tag =? DT_NULL then Some name_buf
        else if tag =? DT_NEEDED then
          v ← d_val map p; s ← strncpy_at 63 map (strtab + v);
          seed_queue k (p + sizeof_Dyn) map strtab (name_buf ++ [s])
        else seed_queue k (p + sizeof_Dyn) map strtab name_buf
  end.

(** The last [SHT_DYNAMIC] section. *)
Definition last_dynamic (shs : list Elf32_Shdr) : option Elf32_Shdr :=
  foldl (fun d sh => if sh_type sh =? SHT_DYNAMIC then Some sh else d) None shs.

Definition cart_queue (map : list Z) : option (list (list Z)) :=
  eh ← rd_ehdr map;
  if (e_shentsize eh >=? sizeof_Shdr) && (e_shnum eh >? 0) then
    shstrtab ← rd_shdr map (e_shoff eh + e_shstrndx eh * sizeof_Shdr);
    shdrs ← read_all_shdrs map eh;
    dynstr ← named_dynstr map (sh_offset shstrtab) shdrs None;
    match last_dynamic shdrs, dynstr with
    | Some dynamic, Some dynstr =>
        seed_queue (Z.to_nat (sh_size dynamic / sizeof_Dyn)) (sh_offset dynamic) map (sh_offset dynstr) []
    | _, _ => Some []
    end
  else Some [].

Fixpoint enqueue (map : list Z) (needed : list Z) (name_buf : list (list Z)) : option (list (list Z)) :=
  match needed with
  | [] => Some name_buf
  | o :: needed =>
      if (MAX_RUNTIME_LIBS <=? length name_buf)%nat then Some name_buf
      else
        already ← any_name map o name_buf;
        if already : bool then enqueue map needed name_buf
        else s ← strncpy_at 63 map o; enqueue map needed (name_buf ++ [s])
  end.

(** Addresses of the lifecycle callbacks, 0 for one that is not defined. *)
Record cart_fns := MkFns {
  f_on_save_state : Z; f_init : Z; f_on_load_state : Z; f_on_new_state : Z; f_update : Z; f_draw : Z; f_on_quit : Z;
  f_cleanup : Z; f_on_assets_reloaded : Z; f_is_quit_requested : Z }.

Definition resolve_cart_entry_points (all : blyt_symtab_t) : cart_fns :=
  let fn (s : string) := symtab_lookup all (text s) in
  MkFns (fn "blyt_cart_on_save_state"%string) (fn "blyt_cart_init"%string) (fn "blyt_cart_on_load_state"%string) (fn "blyt_cart_on_new_state"%string)
    (fn "blyt_cart_update"%string) (fn "blyt_cart_draw"%string) (fn "blyt_cart_on_quit"%string) (fn "blyt_cart_cleanup"%string)
    (fn "blyt_cart_on_assets_reloaded"%string) (fn "blyt_is_quit_requested"%string).

(** What the session keeps of the link: the symbols and images of the libraries, the two addresses in
    the C library, and the callbacks. *)
Record linked := MkLinked {
  lib_syms : blyt_symtab_t; retained_libs : list blyt_lib_t; k_arena_ready_vaddr : Z; k_mem_acct_vaddr : Z; k_fns : cart_fns }.

Section dynlink.
Context {M : Type} `{GuestMemory M} (env : link_env) (use_lua_bridge : bool).
Variable memory_fill : M -> Z -> Z -> Z -> M.
Variable write_ok : M -> Z -> Z -> bool.

(** The name under which a needed library is opened. *)
Definition open_name (lib_name : list Z) : list Z :=
  if use_lua_bridge && bool_decide (lib_name = text "libblyt32lua.so") then text "libblyt32lua-bridge.so" else lib_name.

(** The body of the walk, for a library that was opened: [None] inside when it is malformed. *)
Definition load_lib (map : list Z) (libs : list blyt_lib_t) (mem : M) : option (option (blyt_lib_t * M)) :=
  if len map <? sizeof_Ehdr then Some None
  else
    eh ← rd_ehdr map;
    if negb (bool_decide (e_ident eh !! 0%nat = Some 0x7f)) || negb (e_machine eh =? EM_RISCV) then Some None
    else
      let bias := if e_type eh =? ET_DYN then u32 (GUEST_LIB_BASE + Z.of_nat (length libs) * GUEST_LIB_STRIDE) else 0 in
      let lib := MkLib map bias in
      '(ok, mem) ← map_lib_segments memory_fill write_ok lib mem;
      if negb (ok : bool) then Some None else mem ← apply_lib_rela lib mem; Some (Some (lib, mem)).

(** [k] is the room left among the libraries.  The result tells whether all went well. *)
Fixpoint lib_walk (k : nat) (qhead : nat) (name_buf : list (list Z)) (libs : list blyt_lib_t) (st : blyt_symtab_t) (mem : M)
    : option (bool * list blyt_lib_t * blyt_symtab_t * M) :=
  match k with
  | O => Some (true, libs, st, mem)
  | S k =>
      match name_buf !! qhead with
      | None => Some (true, libs, st, mem)
      | Some lib_name =>
          match open_lib env (open_name lib_name) with
          | None => Some (false, libs, st, mem)
          | Some map =>
              r ← load_lib map libs mem;
              match r with
              | None => Some (false, libs, st, mem)
              | Some (lib, mem) =>
                  st ← build_symtab lib st;
                  needed ← get_dt_needed lib MAX_RUNTIME_LIBS;
                  name_buf ← enqueue map needed name_buf;
                  lib_walk k (S qhead) name_buf (libs ++ [lib]) st mem
              end
          end
      end
  end.

Fixpoint resolve_libs (libs : list blyt_lib_t) (syms : blyt_symtab_t) (mem : M) : option M :=
  match libs with
  | [] => Some mem
  | lib :: libs => mem ← resolve_elf_plt (l_map lib) mem (l_bias lib) syms; resolve_libs libs syms mem
  end.

(** [if (addr != 0) write_u32(mem, addr, v)] *)
Definition stamp (addr v : Z) (mem : M) : M := if addr =? 0 then mem else put_word mem addr v.

Definition stamp_arena (all : blyt_symtab_t) (mem : M) : M :=
  let base := symtab_lookup all (text "blytc_arena_base") in
  let size := symtab_lookup all (text "blytc_arena_size") in
  if negb (base =? 0) && negb (size =? 0) then put_word (put_word mem base BLYT_ARENA_BASE) size BLYT_ARENA_SIZE else mem.

(** [alloc_ok] tells whether the two symbol tables can be allocated.  [None] inside is
    [BLYT_RUN_ERR_EMU]. *)
Definition dynlink (alloc_ok : bool) (cart : blyt_cart_t) (mem : M) : option (option (linked * M)) :=
  if negb alloc_ok then Some None
  else
    let cart_lib := MkLib (CartLoad.cart_map cart) 0 in
    cart_syms ← build_symtab cart_lib [];
    queue ← cart_queue (CartLoad.cart_map cart);
    '(ok, libs, st, mem) ← lib_walk MAX_RUNTIME_LIBS 0 queue [] [] mem;
    if negb (ok : bool) then Some None
    else
      mem ← apply_lib_rela cart_lib mem;
      let all := append_symtab cart_syms st in
      mem ← resolve_libs libs all mem;
      mem ← resolve_elf_plt (CartLoad.cart_map cart) mem 0 all;
      let mem := stamp_arena all mem in
      let mem := stamp (symtab_lookup all (text "blyt_runtime_flags")) (if blyt_cart_is_debug (Some cart) then 1 else 0) mem in
      Some (Some (MkLinked st libs (symtab_lookup all (text "blytc_arena_ready")) (symtab_lookup all (text "blyt_mem_acct"))
                    (resolve_cart_entry_points all), mem)).
End dynlink.

(** ** The place of the cart *)

(** Base, span and zero-initialised regions. *)
Record image_layout := MkLayout { il_base : Z; il_span : Z; il_bss : list (Z * Z) }.

Definition record_cart_image_layout (map : list Z) (load_base : Z) : option image_layout :=
  eh ← rd_ehdr map;
  phdr_walk (Z.to_nat (e_phnum eh)) 0 map eh (fun l => l)
    (fun ph l => Some (inr
       (if negb (p_type ph =? PT_LOAD) then l
        else
          let end_ := u32 (p_vaddr ph + p_memsz ph) in
          MkLayout (il_base l) (if end_ >? il_span l then end_ else il_span l)
            (if (p_memsz ph >? p_filesz ph) && (length (il_bss l) <? MAX_BSS_REGIONS)%nat
             then il_bss l ++ [(u32 (u32 (load_base + p_vaddr ph) + p_filesz ph), p_memsz ph - p_filesz ph)]
             else il_bss l))))
    (MkLayout load_base 0 []).
