(* ===== verification/DynLinkSpec.v ===== *)
(** * DynLinkSpec: what loading and linking do

    The words a link writes, as a list; the symbols a library exports, in order; and the lemmas
    that reduce the loops of [DynLink] to them. *)

From S2P Require Import Prelude MemBudget ElfSection Elf32 CartLoad CartLoadSpec CartLoadDynamic RunCtx DynLink.
From Stdlib Require Import ZArith Lia Strings.String.
From stdpp Require Import base tactics list.
Open Scope Z_scope.

(** ** Words in memory *)

Section words.
Context {M : Type} `{GuestMemory M}.

Fixpoint put_words (ws : list (Z * Z)) (mem : M) : M :=
  match ws with
  | [] => mem
  | (a, v) :: ws => put_words ws (put_word mem a v)
  end.

Lemma put_words_app ws1 ws2 mem : put_words (ws1 ++ ws2) mem = put_words ws2 (put_words ws1 mem).
Proof. revert mem; induction ws1 as [|[a v] ws1 IH]; intros mem; cbn; [done|]. apply IH. Qed.

Lemma put_word_size mem a v : ram_size (put_word mem a v) = ram_size mem.
Proof. apply memory_write_size. Qed.

Lemma put_words_size ws mem : ram_size (put_words ws mem) = ram_size mem.
Proof. revert mem; induction ws as [|[a v] ws IH]; intros mem; cbn; [done|]. by rewrite IH, put_word_size. Qed.

(** Bytes that no word reaches are kept. *)
Lemma put_words_other ws mem a n :
  0 <= n -> Forall (fun w => a + n <= fst w \/ fst w + 4 <= a) ws -> memory_read (put_words ws mem) a n = memory_read mem a n.
Proof.
  intros Hn Hws. revert mem; induction Hws as [|[b v] ws Hw _ IH]; intros mem; cbn; [done|]. cbn in Hw.
  rewrite IH. apply memory_read_other; [done|]. rewrite len_write_u32_le. lia.
Qed.

Lemma put_word_read mem a v : 0 <= a -> a + 4 <= ram_size mem -> memory_read (put_word mem a v) a 4 = write_u32_le v.
Proof. intros Ha Hr. apply (memory_read_write mem a (write_u32_le v)); [done|]. by rewrite len_write_u32_le. Qed.

(** A word that every other write to its place agrees with. *)
Lemma put_words_read ws mem a v :
  (a, v) ∈ ws -> 0 <= a -> a + 4 <= ram_size mem ->
  (forall b w, (b, w) ∈ ws -> (b = a /\ w = v) \/ a + 4 <= b \/ b + 4 <= a) ->
  memory_read (put_words ws mem) a 4 = write_u32_le v.
Proof.
  intros Hin Ha Hram Hws. revert mem Hram.
  assert (forall ws mem, a + 4 <= ram_size mem -> (forall b w, (b, w) ∈ ws -> (b = a /\ w = v) \/ a + 4 <= b \/ b + 4 <= a) ->
    memory_read mem a 4 = write_u32_le v -> memory_read (put_words ws mem) a 4 = write_u32_le v) as Hkeep.
  { clear ws Hin Hws. intros ws; induction ws as [|[b w] ws IH]; intros mem Hram Hws Hr; cbn; [done|].
    apply IH; [by rewrite put_word_size|intros b' w' Hin; apply Hws; by right|].
    destruct (Hws b w) as [[-> ->]|Hd]; [left|by apply put_word_read|].
    rewrite <-Hr. apply memory_read_other; [lia|]. rewrite len_write_u32_le. lia. }
  induction ws as [|[b w] ws IH]; intros mem Hram; [by apply elem_of_nil in Hin|]. cbn. apply elem_of_cons in Hin as [[= <- <-]|Hin].
  - apply Hkeep; [by rewrite put_word_size|intros b' w' Hi; apply Hws; by right|].
    by apply put_word_read.
  - apply IH; [done|intros b' w' Hi; apply Hws; by right|by rewrite put_word_size].
Qed.

(** The step writes exactly the words in [P], whatever the memory holds. *)
Definition puts (f : M -> option M) (P : Z -> Z -> Prop) : Prop :=
  exists ws, (forall mem, f mem = Some (put_words ws mem)) /\ forall a v, (a, v) ∈ ws <-> P a v.

Lemma puts_none (P : Z -> Z -> Prop) : (forall a v, ~ P a v) -> puts Some P.
Proof. intros HP. exists []. split; [done|]. intros a v. split; [by intros ?%elem_of_nil|]. by intros ?%HP. Qed.

Lemma puts_one (P : Z -> Z -> Prop) b w : (forall a v, P a v <-> a = b /\ v = w) -> puts (fun mem => Some (put_word mem b w)) P.
Proof. intros HP. exists [(b, w)]. split; [done|]. intros a v. rewrite list_elem_of_singleton, HP. naive_solver. Qed.

Lemma puts_seq f g (P Q R : Z -> Z -> Prop) :
  puts f P -> puts g Q -> (forall a v, R a v <-> P a v \/ Q a v) -> puts (fun mem => mem ← f mem; g mem) R.
Proof.
  intros (ws1 & Hf & H1) (ws2 & Hg & H2) HR. exists (ws1 ++ ws2). split.
  - intros mem. rewrite Hf. cbn [mbind option_bind]. by rewrite Hg, put_words_app.
  - intros a v. by rewrite elem_of_app, H1, H2, HR.
Qed.

Lemma puts_iff f (P Q : Z -> Z -> Prop) : puts f P -> (forall a v, P a v <-> Q a v) -> puts f Q.
Proof. intros (ws & Hf & Hw) HPQ. exists ws. split; [done|]. intros a v. by rewrite Hw. Qed.

Lemma puts_ext f g (P : Z -> Z -> Prop) : (forall mem, f mem = g mem) -> puts g P -> puts f P.
Proof. intros Hfg (ws & Hg & Hw). exists ws. split; [|done]. intros mem. by rewrite Hfg. Qed.

(** A step for each entry of a table. *)
Fixpoint run_all (f : Z -> M -> option M) (l : list Z) (mem : M) : option M :=
  match l with
  | [] => Some mem
  | o :: l => mem ← f o mem; run_all f l mem
  end.

Lemma run_all_app f l1 l2 mem : run_all f (l1 ++ l2) mem = (mem ← run_all f l1 mem; run_all f l2 mem).
Proof. revert mem; induction l1 as [|o l1 IH]; intros mem; cbn [app run_all]; [done|]. destruct (f o mem); [apply IH|done]. Qed.

Lemma puts_run_all f l (P : Z -> Z -> Z -> Prop) :
  (forall o, o ∈ l -> puts (f o) (P o)) -> puts (run_all f l) (fun a v => exists o, o ∈ l /\ P o a v).
Proof.
  induction l as [|o l IH]; intros Hf; cbn [run_all].
  - apply puts_none. by intros a v (o & ?%elem_of_nil & _).
  - eapply puts_seq; [apply Hf; left|apply IH; intros o' Ho; apply Hf; by right|]. intros a v. cbv beta. split.
    + intros (o' & [->|Ho]%elem_of_cons & Hb); [by left|right; by exists o'].
    + intros [Hb|(o' & Ho & Hb)]; [exists o|exists o']; (split; [|done]); [left|by right].
Qed.
End words.

(** ** Names *)

(** The name at an offset of the image, when it ends there. *)
Lemma strncpy_at_spec n map off s :
  0 <= off -> str_of map off = Some s -> strncpy_at n map off = Some (take n s).
Proof.
  unfold str_of. revert off s; induction n as [|n IH]; intros off s Ho Hs; cbn [strncpy_at]; [by rewrite take_0|].
  destruct (zget map off) as [c|] eqn:E; cbn [mbind option_bind].
  - rewrite (drop_zget _ _ _ E) in Hs. cbn [cstr] in Hs. destruct (c =? 0); [by injection Hs as <-|].
    destruct (cstr _) as [t|] eqn:Et; cbn in Hs; [|done]. injection Hs as <-. rewrite (IH (off + 1) t) by (lia || done). done.
  - rewrite drop_all_Z in Hs; [done|]. apply Z.nlt_ge. intros ?. destruct (zget_is_Some map off); [lia|congruence].
Qed.

Definition names_ok (st : blyt_symtab_t) : Prop := Forall (fun e => no_nul (fst e)) st.

Lemma str_of_no_nul map off s : str_of map off = Some s -> no_nul s.
Proof.
  unfold str_of. generalize (drop (Z.to_nat off) map). intros l. revert s; induction l as [|c l IH]; intros s; cbn [cstr]; [done|].
  destruct (Z.eqb_spec c 0); [intros [= <-]; constructor|]. destruct (cstr l) as [t|]; cbn; [|done]. intros [= <-].
  constructor; [done|by apply IH].
Qed.

Lemma strcmp_at_str map off s n : 0 <= off -> str_of map off = Some s -> no_nul n -> strcmp_at map off n = Some (bool_decide (s = n)).
Proof.
  intros Ho Hs Hn.
  assert (0 ∈ drop (Z.to_nat off) map) as Hz.
  { unfold str_of in Hs. revert s Hs; induction (drop (Z.to_nat off) map) as [|c l IH]; intros s Hs; cbn [cstr] in Hs; [done|].
    destruct (Z.eqb_spec c 0) as [->|]; [left|]. destruct (cstr l) as [t|]; [|done]. right. by eapply IH. }
  destruct (strcmp_total map off n) as [b Hb]; [done..|]. rewrite Hb. f_equal. apply strcmp_at_spec in Hb; [|done..].
  apply eq_true_iff_eq. rewrite Hb, bool_decide_eq_true, Hs. naive_solver.
Qed.

(** Looking up a name of an image. *)
Lemma symtab_lookup_at_spec st map off s :
  names_ok st -> 0 <= off -> str_of map off = Some s -> symtab_lookup_at st map off = Some (symtab_lookup st s).
Proof.
  intros Hn Ho Hs. induction Hn as [|[n a] st Hn _ IH]; cbn [symtab_lookup_at symtab_lookup]; [done|].
  rewrite (strcmp_at_str _ _ _ n Ho Hs Hn). cbn [mbind option_bind].
  case_bool_decide as E1; case_bool_decide as E2; try congruence.
Qed.

Lemma symtab_lookup_app st1 st2 name :
  symtab_lookup (st1 ++ st2) name = if bool_decide (name ∈ st1.*1) then symtab_lookup st1 name else symtab_lookup st2 name.
Proof.
  induction st1 as [|[n a] st1 IH]; cbn [app symtab_lookup fmap list_fmap fst]; [done|].
  destruct (bool_decide_reflect (n = name)) as [->|Hne]; [by rewrite bool_decide_true by (apply elem_of_cons; by left)|].
  rewrite IH. by rewrite (bool_decide_ext (name ∈ n :: st1.*1) (name ∈ st1.*1)) by (rewrite elem_of_cons; naive_solver).
Qed.

Lemma symtab_lookup_absent st name : name ∉ st.*1 -> symtab_lookup st name = 0.
Proof.
  induction st as [|[n a] st IH]; cbn [symtab_lookup fmap list_fmap fst]; [done|]. rewrite not_elem_of_cons. intros [Hn Hst].
  rewrite bool_decide_false by done. by apply IH.
Qed.

(** ** Well-formed images *)

Lemma ends_nul_str map off : ends_nul map -> 0 <= off < len map -> is_Some (str_of map off).
Proof.
  intros Hn Ho. pose proof (ends_nul_drop map off Hn Ho) as Hz. unfold str_of.
  induction (drop (Z.to_nat off) map) as [|c l IH]; [by apply elem_of_nil in Hz|]. cbn [cstr].
  destruct (Z.eqb_spec c 0); [by eexists|]. apply elem_of_cons in Hz as [|Hz]; [congruence|].
  destruct (IH Hz) as [t ->]. by eexists.
Qed.

Definition in_file (map : list Z) (sh : Elf32_Shdr) : Prop := 0 < sh_size sh -> sh_offset sh + sh_size sh <= len map.
Definition link_types : list Z := [SHT_RELA; SHT_DYNSYM; SHT_DYNAMIC; SHT_STRTAB].

(** An image whose linking information lies in it; what the loader checks of a section that is not
    [SHT_NOBITS], and a little more. *)
Record image_wf (map : list Z) (eh : Elf32_Ehdr) (shs : list Elf32_Shdr) : Prop := {
  wf_bytes : bytes_ok map;
  wf_nul : ends_nul map;
  wf_ehdr : rd_ehdr map = Some eh;
  wf_shdrs : read_all_shdrs map eh = Some shs;
  wf_index : e_shstrndx eh < e_shnum eh;
  wf_sections : forall sh, sh ∈ shs -> sh_type sh ∈ link_types -> in_file map sh;
  wf_names : forall hdr sh, zget shs (e_shstrndx eh) = Some hdr -> sh ∈ shs -> sh_type sh = SHT_STRTAB -> sh_offset hdr + sh_name sh < len map;
  wf_link : forall d s, List.find is_dynsym shs = Some d -> zget shs (sh_link d) = Some s -> in_file map s }.

Section wf.
Context (map : list Z) (eh : Elf32_Ehdr) (shs : list Elf32_Shdr).
Hypothesis Hwf : image_wf map eh shs.

Lemma wf_ehdr_fields :
  sizeof_Ehdr <= len map /\ is_u16 (e_shnum eh) /\ is_u16 (e_shstrndx eh) /\ is_u32 (e_shoff eh) /\ is_u16 (e_shentsize eh)
  /\ is_u32 (e_phoff eh) /\ is_u16 (e_phnum eh) /\ is_u16 (e_phentsize eh).
Proof.
  destruct Hwf as [Hm _ Heh _ _ _ _ _].
  pose proof (rd_ehdr_inside map eh Hm Heh) as Hl.
  destruct (rd_ehdr_ok map Hm Hl) as (eh' & Heh' & ? & ? & ? & ? & ? & ? & ? & ? & ?). rewrite Heh in Heh'. injection Heh' as <-.
  split_and!; done.
Qed.

Lemma wf_shdr_fields : Forall shdr_fields shs /\ len shs = e_shnum eh.
Proof.
  destruct wf_ehdr_fields as (_ & Hn & _). apply (read_shdrs_spec map eh shs); [apply Hwf|apply Hn|]. exact (wf_shdrs _ _ _ Hwf).
Qed.

Lemma wf_shdr sh : sh ∈ shs -> shdr_fields sh.
Proof. destruct wf_shdr_fields as [Hf _]. rewrite Forall_forall in Hf. apply Hf. Qed.

(** A section of a type the linker reads: its entries lie in the image. *)
Lemma wf_entries sh o :
  sh ∈ shs -> sh_type sh ∈ link_types -> 0 < sh_entsize sh -> o ∈ entries_of sh -> 0 <= o /\ o + sh_entsize sh <= len map.
Proof.
  intros Hin Ht He Ho. destruct (wf_shdr sh Hin) as (_ & [Hoff _] & [Hs _] & _).
  apply entries_of_range in Ho; [|done..]. pose proof (wf_sections _ _ _ Hwf sh Hin Ht) as Hf. unfold in_file in Hf.
  assert (0 < sh_size sh) as Hp; [|specialize (Hf Hp); lia]. lia.
Qed.

Lemma wf_strings hdr sh :
  zget shs (e_shstrndx eh) = Some hdr -> sh ∈ shs -> sh_type sh = SHT_STRTAB -> 0 <= sh_offset hdr + sh_name sh < len map.
Proof.
  intros Hg Hsh Ht. destruct (wf_shdr sh Hsh) as ([? _] & _). destruct (wf_shdr hdr (zget_elem _ _ _ Hg)) as (_ & [? _] & _).
  pose proof (wf_names _ _ _ Hwf hdr sh Hg Hsh Ht). lia.
Qed.

Lemma wf_string s name :
  s ∈ shs -> in_file map s -> 0 <= name < sh_size s -> is_Some (str_of map (sh_offset s + name)).
Proof.
  intros Hin Hf Hn. destruct (wf_shdr s Hin) as (_ & [Ho _] & _). specialize (Hf ltac:(lia)).
  apply ends_nul_str; [apply Hwf|lia].
Qed.
End wf.

Lemma find_elem {A} (f : A -> bool) l x : List.find f l = Some x -> x ∈ l /\ f x = true.
Proof. intros [Hin Hf]%List.find_some. split; [by apply list_elem_of_In|done]. Qed.

(** ** The PLT and the GOT *)

(** Relocation [p] of the image binds the word at [a] to [v]. *)
Definition binds (map : list Z) (elf_bias : Z) (syms : blyt_symtab_t) (dynsym dynstr : Elf32_Shdr) (p a v : Z) : Prop :=
  exists info off name n shndx sinfo,
    let type := ELF32_R_TYPE info in
    let at_sym := u32 (ELF32_R_SYM info * sh_entsize dynsym) in
    let sym := sh_offset dynsym + at_sym in
    r_info map p = Some info /\ r_offset map p = Some off
    /\ (type = R_RISCV_JUMP_SLOT \/ type = R_RISCV_GLOB_DAT \/ type = R_RISCV_32)
    /\ at_sym + sizeof_Sym <= sh_size dynsym
    /\ st_name map sym = Some name /\ name < sh_size dynstr /\ str_of map (sh_offset dynstr + name) = Some n
    /\ st_shndx map sym = Some shndx /\ (type = R_RISCV_32 -> shndx = SHN_UNDEF)
    /\ st_info map sym = Some sinfo
    /\ a = u32 (elf_bias + off) /\ v = symtab_lookup syms n /\ (v = 0 -> ELF32_ST_BIND sinfo = STB_WEAK).

(** The relocation entries of the image, section by section. *)
Definition is_rela (sh : Elf32_Shdr) : Prop := sh_type sh = SHT_RELA /\ sizeof_Rela <= sh_entsize sh.
#[export] Instance is_rela_dec sh : Decision (is_rela sh).
Proof. unfold is_rela. apply _. Defined.
Definition reloc_entries (shs : list Elf32_Shdr) : list Z := concat (entries_of <$> filter is_rela shs).

Lemma is_rela_test sh : bool_decide (is_rela sh) = negb (negb (sh_type sh =? SHT_RELA) || (sh_entsize sh <? sizeof_Rela)).
Proof. apply eq_true_iff_eq. rewrite bool_decide_eq_true. unfold is_rela. lia. Qed.

Lemma reloc_entries_cons sh shs : reloc_entries (sh :: shs) = (if bool_decide (is_rela sh) then entries_of sh else []) ++ reloc_entries shs.
Proof. unfold reloc_entries. rewrite filter_cons. case_bool_decide; [by rewrite decide_True|by rewrite decide_False]. Qed.

Lemma reloc_entries_elem shs o : o ∈ reloc_entries shs <-> exists sh, sh ∈ shs /\ is_rela sh /\ o ∈ entries_of sh.
Proof.
  unfold reloc_entries. induction shs as [|sh shs IH]; [split; [by intros ?%elem_of_nil|by intros (? & ?%elem_of_nil & _)]|].
  fold (reloc_entries (sh :: shs)). rewrite reloc_entries_cons, elem_of_app. fold (reloc_entries shs) in IH. rewrite IH. case_bool_decide as Hr; split.
  - intros [Ho|(x & Hx & Hxr & Ho)]; [exists sh|exists x]; (split; [|done]); [left|by right].
  - intros (x & [->|Hx]%elem_of_cons & Hxr & Ho); [by left|right; by exists x].
  - intros [?%elem_of_nil|(x & Hx & Hxr & Ho)]; [done|exists x]. split; [by right|done].
  - intros (x & [->|Hx]%elem_of_cons & Hxr & Ho); [done|right; by exists x].
Qed.

Lemma wf_relocs map eh shs o : image_wf map eh shs -> o ∈ reloc_entries shs -> 0 <= o /\ o + sizeof_Rela <= len map.
Proof.
  intros Hwf (sh & Hin & [Ht He] & Ho)%reloc_entries_elem.
  unfold sizeof_Rela in *. destruct (wf_entries map eh shs Hwf sh o) as [? ?]; try done; try lia. rewrite Ht. left.
Qed.

Section plt.
Context {M : Type} `{GuestMemory M}.
Context (map : list Z) (eh : Elf32_Ehdr) (shs : list Elf32_Shdr) (elf_bias : Z) (syms : blyt_symtab_t) (dynsym dynstr : Elf32_Shdr).
Hypothesis Hwf : image_wf map eh shs.
Hypothesis Hsyms : names_ok syms.
Hypothesis Hdynsym : dynsym ∈ shs /\ sh_type dynsym = SHT_DYNSYM.
Hypothesis Hdynstr : dynstr ∈ shs /\ sh_type dynstr = SHT_STRTAB.

Lemma dynstr_file : in_file map dynstr.
Proof. apply (wf_sections _ _ _ Hwf); [apply Hdynstr|]. rewrite (proj2 Hdynstr). unfold link_types. do 3 right. left. Qed.
Lemma dynsym_file : in_file map dynsym.
Proof. apply (wf_sections _ _ _ Hwf); [apply Hdynsym|]. rewrite (proj2 Hdynsym). unfold link_types. right. left. Qed.

Lemma resolve_rela_spec p :
  0 <= p -> p + sizeof_Rela <= len map ->
  puts (M:=M) (resolve_rela map elf_bias syms dynsym (sh_offset dynstr) (sh_size dynstr) p) (binds map elf_bias syms dynsym dynstr p).
Proof.
  intros Hp Hl. pose proof (wf_bytes _ _ _ Hwf) as Hm. unfold sizeof_Rela in Hl.
  destruct (rd_le_ok map (p + 4) 4) as (info & Ei & _); [done|lia..|].
  destruct (rd_le_ok map p 4) as (off & Eo & _); [done|lia..|].
  fold (r_info map p) in Ei. fold (r_offset map p) in Eo. unfold resolve_rela. rewrite Ei, Eo. cbn [mbind option_bind].
  destruct (negb (ELF32_R_TYPE info =? R_RISCV_JUMP_SLOT) && negb (ELF32_R_TYPE info =? R_RISCV_GLOB_DAT) && negb (ELF32_R_TYPE info =? R_RISCV_32)) eqn:Et.
  { apply puts_none. intros a v (info' & ? & ? & ? & ? & ? & Hi & _ & Ht & _). rewrite Ei in Hi. injection Hi as <-. lia. }
  set (at_sym := u32 (ELF32_R_SYM info * sh_entsize dynsym)).
  assert (0 <= at_sym) as Hat by apply u32_range.
  destruct (at_sym + sizeof_Sym >? sh_size dynsym) eqn:Es.
  { apply puts_none. intros a v (info' & ? & ? & ? & ? & ? & Hi & _ & _ & Hs & _). rewrite Ei in Hi. injection Hi as <-. subst at_sym. lia. }
  set (sym := sh_offset dynsym + at_sym).
  destruct (wf_shdr _ _ _ Hwf dynsym (proj1 Hdynsym)) as (_ & [Hso _] & [Hss _] & _).
  pose proof dynsym_file as Hfile. unfold in_file, sizeof_Sym in *. specialize (Hfile ltac:(lia)).
  destruct (sym_total map sym Hm) as ([sinfo Esi] & [shndx Esh] & [name En]); [lia|lia|].
  assert (0 <= name) as Hn0 by (by apply rd_le_range in En as (_ & _ & ? & _)).
  rewrite En, Esh, Esi. cbn [mbind option_bind].
  destruct (name >=? sh_size dynstr) eqn:Esz.
  { apply puts_none. intros a v (info' & ? & name' & ? & ? & ? & Hi & _ & _ & _ & En' & Hs & _). rewrite Ei in Hi. injection Hi as <-.
    subst sym at_sym. rewrite En in En'. simplify_eq. lia. }
  destruct (wf_string _ _ _ Hwf dynstr name (proj1 Hdynstr) dynstr_file) as [n Hstr]; [lia|].
  assert ((if ELF32_R_TYPE info =? R_RISCV_32 then Some (negb (shndx =? SHN_UNDEF)) else Some false)
          = Some ((ELF32_R_TYPE info =? R_RISCV_32) && negb (shndx =? SHN_UNDEF))) as -> by (by destruct (ELF32_R_TYPE info =? R_RISCV_32)).
  cbn [mbind option_bind].
  destruct ((ELF32_R_TYPE info =? R_RISCV_32) && negb (shndx =? SHN_UNDEF)) eqn:Eu.
  { apply puts_none. intros a v (info' & ? & ? & ? & shndx' & ? & Hi & _ & _ & _ & _ & _ & _ & Esh' & Hu & _). rewrite Ei in Hi. injection Hi as <-.
    subst sym at_sym. rewrite Esh in Esh'. injection Esh' as <-. apply andb_true_iff in Eu as [E1%Z.eqb_eq E2]. by rewrite (Hu E1) in E2. }
  destruct (wf_shdr _ _ _ Hwf dynstr (proj1 Hdynstr)) as (_ & [Hdo _] & _).
  rewrite (symtab_lookup_at_spec _ _ _ n) by (done || lia). cbn [mbind option_bind].
  assert (forall a v, binds map elf_bias syms dynsym dynstr p a v <->
            a = u32 (elf_bias + off) /\ v = symtab_lookup syms n /\ (v = 0 -> ELF32_ST_BIND sinfo = STB_WEAK)) as Hb.
  { intros a v. unfold binds. split.
    - intros (info' & off' & name' & n' & shndx' & sinfo' & Hi & Ho & _ & _ & Hn & _ & Hs & _ & _ & Hsi & Ha & Hv & Hw). cbv zeta in *.
      rewrite Ei in Hi. injection Hi as <-. rewrite Eo in Ho. injection Ho as <-.
      subst sym at_sym. rewrite En in Hn. injection Hn as <-. rewrite Hstr in Hs. injection Hs as <-. rewrite Esi in Hsi. injection Hsi as <-. done.
    - intros (Ha & Hv & Hw). exists info, off, name, n, shndx, sinfo. cbv zeta. fold at_sym. fold sym.
      split_and!; try done; unfold sizeof_Sym; lia. }
  destruct (Z.eqb_spec (symtab_lookup syms n) 0) as [Ev|Ev].
  - destruct (Z.eqb_spec (ELF32_ST_BIND sinfo) STB_WEAK) as [Ew|Nw]; [apply puts_one|apply puts_none]; intros a v; rewrite Hb, Ev; [naive_solver|].
    intros (_ & -> & Hw). by apply Nw, Hw.
  - apply puts_one. intros a v. rewrite Hb. naive_solver.
Qed.

Lemma plt_loop_run k p e (mem : M) :
  plt_loop k p e map elf_bias syms dynsym (sh_offset dynstr) (sh_size dynstr) mem
  = run_all (resolve_rela map elf_bias syms dynsym (sh_offset dynstr) (sh_size dynstr)) (offsets k p e) mem.
Proof. revert p mem; induction k as [|k IH]; intros p mem; cbn [plt_loop offsets run_all]; [done|]. destruct (resolve_rela _ _ _ _ _ _ _ _); [apply IH|done]. Qed.

Lemma plt_sections_run shs' (mem : M) :
  plt_sections shs' map elf_bias syms dynsym (sh_offset dynstr) (sh_size dynstr) mem
  = run_all (resolve_rela map elf_bias syms dynsym (sh_offset dynstr) (sh_size dynstr)) (reloc_entries shs') mem.
Proof.
  revert mem; induction shs' as [|sh shs' IH]; intros mem; cbn [plt_sections]; [done|]. rewrite reloc_entries_cons, is_rela_test.
  destruct (negb _ || _); cbn [negb]; [apply IH|]. rewrite plt_loop_run, run_all_app. fold (entries_of sh). destruct (run_all _ _ _); [apply IH|done].
Qed.

Lemma plt_sections_spec :
  puts (M:=M) (plt_sections shs map elf_bias syms dynsym (sh_offset dynstr) (sh_size dynstr))
    (fun a v => exists o, o ∈ reloc_entries shs /\ binds map elf_bias syms dynsym dynstr o a v).
Proof.
  eapply puts_ext; [apply plt_sections_run|]. apply puts_run_all. intros o Ho. apply resolve_rela_spec; by apply (wf_relocs map eh shs o Hwf).
Qed.
End plt.

Lemma shdr_at map eh shs i :
  read_all_shdrs map eh = Some shs -> 0 <= i < e_shnum eh -> exists sh, zget shs i = Some sh /\ rd_shdr map (e_shoff eh + i * sizeof_Shdr) = Some sh.
Proof.
  unfold read_all_shdrs. intros H%mapM_Some Hi.
  assert (seqZ 0 (e_shnum eh) !! Z.to_nat i = Some i) as Hl by (apply lookup_seqZ; lia).
  destruct (Forall2_lookup_l _ _ _ _ _ H Hl) as (sh & Hsh & Hr). exists sh. split; [|done].
  by rewrite zget_lookup by lia.
Qed.

Definition dynstr_named (map : list Z) (strtab : Z) (sh : Elf32_Shdr) : Prop :=
  sh_type sh = SHT_STRTAB /\ name_of map strtab sh = Some (text ".dynstr").
#[export] Instance dynstr_named_dec map strtab sh : Decision (dynstr_named map strtab sh).
Proof. unfold dynstr_named. apply _. Defined.

Lemma named_dynstr_spec map strtab shs d :
  ends_nul map -> (forall sh, sh ∈ shs -> sh_type sh = SHT_STRTAB -> 0 <= strtab + sh_name sh < len map) ->
  named_dynstr map strtab shs d = Some (match last (filter (dynstr_named map strtab) shs) with Some s => Some s | None => d end).
Proof.
  intros Hnul Hshs. rewrite <-foldl_pick. revert d. induction shs as [|sh shs IH]; intros d; cbn [named_dynstr foldl]; [done|].
  assert (forall d, named_dynstr map strtab shs d = Some (foldl (pick (dynstr_named map strtab)) d shs)) as Hd.
  { apply IH. intros x Hx. apply Hshs. by right. }
  unfold pick at 2. destruct (Z.eqb_spec (sh_type sh) SHT_STRTAB) as [Ht|Ht].
  - specialize (Hshs sh ltac:(left) Ht). destruct (ends_nul_str map _ Hnul Hshs) as [n Hn].
    rewrite (strcmp_at_str _ _ n) by (lia || done || by apply no_nul_text). cbn [mbind option_bind]. rewrite Hd. f_equal. f_equal.
    assert (dynstr_named map strtab sh <-> n = text ".dynstr") as Hiff.
    { unfold dynstr_named, name_of. rewrite Hn. naive_solver. }
    case_bool_decide; case_decide; tauto.
  - rewrite Hd, decide_False; [done|]. by intros [? _].
Qed.

(** The symbols and strings the relocations of an image refer to. *)
Definition plt_tables (map : list Z) (eh : Elf32_Ehdr) (shs : list Elf32_Shdr) : option (Elf32_Shdr * Elf32_Shdr) :=
  if e_shentsize eh <? sizeof_Shdr then None
  else
    hdr ← zget shs (e_shstrndx eh);
    dynsym ← List.find is_dynsym shs;
    dynstr ← last (filter (dynstr_named map (sh_offset hdr)) shs);
    if sh_entsize dynsym <? sizeof_Sym then None else Some (dynsym, dynstr).

(** The image binds the word at [a] to [v]. *)
Definition image_binds (map : list Z) (eh : Elf32_Ehdr) (shs : list Elf32_Shdr) (bias : Z) (syms : blyt_symtab_t) (a v : Z) : Prop :=
  exists dynsym dynstr p, plt_tables map eh shs = Some (dynsym, dynstr) /\ p ∈ reloc_entries shs /\ binds map bias syms dynsym dynstr p a v.

Lemma resolve_elf_plt_spec `{GuestMemory M} map eh shs bias syms :
  image_wf map eh shs -> names_ok syms ->
  puts (fun mem : M => resolve_elf_plt map mem bias syms) (image_binds map eh shs bias syms).
Proof.
  intros Hwf Hsyms. destruct (wf_ehdr_fields _ _ _ Hwf) as (_ & Hn & Hx & _). pose proof (wf_index _ _ _ Hwf) as Hi.
  unfold resolve_elf_plt. rewrite (wf_ehdr _ _ _ Hwf). cbn [mbind option_bind]. unfold image_binds, plt_tables.
  unfold is_u16 in *. destruct (Z.ltb_spec (e_shentsize eh) sizeof_Shdr); cbn [orb].
  { apply puts_none. by intros a v (? & ? & ? & [=] & _). }
  rewrite (proj2 (Z.eqb_neq (e_shnum eh) 0)) by lia.
  destruct (shdr_at _ _ _ (e_shstrndx eh) (wf_shdrs _ _ _ Hwf)) as (hdr & Hg & ->); [lia|].
  rewrite Hg, (wf_shdrs _ _ _ Hwf). cbn [mbind option_bind].
  rewrite named_dynstr_spec; [|apply Hwf|by intros sh; apply (wf_strings _ _ _ Hwf)].
  cbn [mbind option_bind]. destruct (List.find is_dynsym shs) as [d|] eqn:Ed; cbn [mbind option_bind].
  2:{ apply puts_none. by intros a v (? & ? & ? & [=] & _). }
  destruct (last (filter _ shs)) as [s|] eqn:Es; cbn [mbind option_bind].
  2:{ apply puts_none. by intros a v (? & ? & ? & [=] & _). }
  destruct (sh_entsize d <? sizeof_Sym).
  { apply puts_none. by intros a v (? & ? & ? & [=] & _). }
  apply find_elem in Ed as [Hd Hdt]. apply last_Some_elem_of, list_elem_of_filter in Es as [[Hst _] Hs].
  unfold is_dynsym in Hdt. apply Z.eqb_eq in Hdt.
  eapply puts_iff; [by apply (plt_sections_spec map eh shs bias syms d s Hwf Hsyms (conj Hd Hdt) (conj Hs Hst))|]. naive_solver.
Qed.
