(* ===== verification/DynLinkSymbols.v ===== *)
(** * DynLinkSymbols: the symbols an image exports, and the libraries it needs

    [build_symtab] adds the exports of an image in order; up to the capacity of the table a lookup
    finds the first definition.  [get_dt_needed] lists the names in the dynamic segment. *)

From S2P Require Import Prelude MemBudget ElfSection Elf32 CartLoad CartLoadSpec CartLoadDynamic RunCtx DynLink DynLinkSpec.
From Stdlib Require Import ZArith Lia Strings.String.
From stdpp Require Import base tactics list.
Open Scope Z_scope.

(** ** Exports *)

(** Name and address of the symbol at [p], if it is exported. *)
Definition exported (map : list Z) (bias str size p : Z) : option (list Z * Z) :=
  shndx ← st_shndx map p; info ← st_info map p; name ← st_name map p; value ← st_value map p;
  if (shndx =? SHN_UNDEF) || (negb (ELF32_ST_BIND info =? STB_GLOBAL) && negb (ELF32_ST_BIND info =? STB_WEAK))
     || (name >=? size) || (name =? 0)
  then None
  else n ← str_of map (str + name); Some (n, u32 (bias + value)).

Definition exports (map : list Z) (eh : Elf32_Ehdr) (shs : list Elf32_Shdr) (bias : Z) : blyt_symtab_t :=
  if e_shentsize eh <? sizeof_Shdr then []
  else
    match List.find is_dynsym shs with
    | None => []
    | Some d =>
        match zget shs (sh_link d) with
        | None => []
        | Some s => if sh_entsize d <? sizeof_Sym then [] else omap (exported map bias (sh_offset s) (sh_size s)) (entries_of d)
        end
    end.

Definition add_export (st : blyt_symtab_t) (e : list Z * Z) : blyt_symtab_t :=
  if (MAX_SYMS <=? length st)%nat then st
  else if symtab_lookup st (fst e) =? 0 then st ++ [(take 127 (fst e), snd e)] else st.

Lemma add_export_full st es : (MAX_SYMS <= length st)%nat -> foldl add_export st es = st.
Proof. intros Hl. induction es as [|e es IH]; cbn [foldl]; [done|]. unfold add_export at 2. by rewrite (proj2 (Nat.leb_le _ _) Hl). Qed.

Lemma add_exports_bound st es : (length st <= MAX_SYMS)%nat -> (length (foldl add_export st es) <= MAX_SYMS)%nat.
Proof.
  revert st; induction es as [|e es IH]; intros st Hst; cbn [foldl]; [done|]. apply IH. unfold add_export.
  destruct (Nat.leb_spec MAX_SYMS (length st)); [done|]. case_match; [|done]. rewrite length_app. cbn. lia.
Qed.

(** While there is room a lookup cannot tell the table from the list of all exports: the first
    definition of a name counts. *)
Lemma add_exports_lookup st es name :
  (length st + length es <= MAX_SYMS)%nat -> Forall (fun e => (length (fst e) <= 127)%nat) es ->
  symtab_lookup (foldl add_export st es) name = symtab_lookup (st ++ es) name.
Proof.
  intros Hl Hes. revert st Hl; induction Hes as [|[n a] es Hn _ IH]; intros st Hl; cbn [foldl]; [by rewrite app_nil_r|].
  cbn [length] in Hl. unfold add_export at 2. cbn [fst snd] in *. destruct (Nat.leb_spec MAX_SYMS (length st)); [lia|].
  rewrite take_ge by done. destruct (Z.eqb_spec (symtab_lookup st n) 0) as [E|E].
  - rewrite IH by (rewrite length_app; cbn; lia). by rewrite <-app_assoc.
  - rewrite IH by lia. rewrite !symtab_lookup_app. destruct (bool_decide_reflect (name ∈ st.*1)) as [|Ex]; [done|]. cbn [symtab_lookup].
    destruct (bool_decide_reflect (n = name)) as [->|]; [|done]. by rewrite (symtab_lookup_absent _ _ Ex) in E.
Qed.

(** No name appears or is lost, save by the capacity and a definition at address 0. *)
Lemma add_exports_names st es name :
  (length st + length es <= MAX_SYMS)%nat -> Forall (fun e => (length (fst e) <= 127)%nat) es ->
  name ∈ (foldl add_export st es).*1 <-> name ∈ st.*1 \/ name ∈ es.*1.
Proof.
  intros Hl Hes. revert st Hl; induction Hes as [|[n a] es Hn _ IH]; intros st Hl; cbn [foldl]; [cbn; rewrite elem_of_nil; tauto|].
  cbn [length] in Hl. cbn [fst] in Hn. assert (add_export st (n, a) = if symtab_lookup st n =? 0 then st ++ [(n, a)] else st) as ->.
  { unfold add_export. cbn [fst snd]. by rewrite (proj2 (Nat.leb_gt _ _)), take_ge by lia. }
  cbn [fmap list_fmap fst]. rewrite elem_of_cons. destruct (Z.eqb_spec (symtab_lookup st n) 0) as [E|E].
  - rewrite IH by (rewrite length_app; cbn; lia). rewrite fmap_app, elem_of_app. cbn [fmap list_fmap fst]. rewrite list_elem_of_singleton. tauto.
  - rewrite IH by lia. split; [tauto|]. intros [?|[->|?]]; [by left| |by right]. left.
    destruct (decide (n ∈ st.*1)) as [|Hout]; [done|]. exfalso. apply E. by apply symtab_lookup_absent.
Qed.

Lemma names_ok_add st es : names_ok st -> Forall (fun e => no_nul (fst e)) es -> names_ok (foldl add_export st es).
Proof.
  intros Hst Hes. revert st Hst; induction Hes as [|e es He _ IH]; intros st Hst; cbn [foldl]; [done|]. apply IH. unfold add_export.
  repeat case_match; try done. apply Forall_app. split; [done|]. constructor; [|done]. cbn. by apply Forall_take.
Qed.

Lemma exports_no_nul map eh shs bias : Forall (fun e => no_nul (fst e)) (exports map eh shs bias).
Proof.
  unfold exports. repeat case_match; try constructor. apply Forall_forall. intros x (p & _ & Hp)%list_elem_of_omap.
  unfold exported in Hp. repeat match type of Hp with (?o ≫= _) = Some _ => destruct o eqn:?; [|done]; cbn [mbind option_bind] in Hp end.
  case_match; [done|]. destruct (str_of _ _) eqn:E; [|done]. injection Hp as <-. by eapply str_of_no_nul.
Qed.

Section image.
Context (map : list Z) (eh : Elf32_Ehdr) (shs : list Elf32_Shdr).
Hypothesis Hwf : image_wf map eh shs.

Lemma symtab_loop_spec k p e bias s st :
  s ∈ shs -> in_file map s -> names_ok st -> (forall o, o ∈ offsets k p e -> 0 <= o /\ o + sizeof_Sym <= len map) ->
  symtab_loop k p e (MkLib map bias) (sh_offset s) (sh_size s) st
  = Some (foldl add_export st (omap (exported map bias (sh_offset s) (sh_size s)) (offsets k p e))).
Proof.
  intros Hs Hf. destruct (wf_shdr _ _ _ Hwf s Hs) as (_ & [Hso _] & _). revert p st; induction k as [|k IH]; intros p st Hst Hr; [done|].
  cbn [symtab_loop offsets]. destruct (Nat.leb_spec MAX_SYMS (length st)) as [Hm|Hm]; [by rewrite add_export_full|].
  destruct (Hr p) as [Hp Hl]; [left|]. unfold sizeof_Sym in Hl. cbn [l_map l_bias].
  destruct (sym_total map p (wf_bytes _ _ _ Hwf)) as ([info Ei] & [shndx Ex] & [name En]); [done..|].
  destruct (rd_le_ok map (p + 4) 4 (wf_bytes _ _ _ Hwf)) as (value & Ev & _); [lia|lia|lia|].
  assert (forall st, names_ok st -> symtab_loop k (p + e) e (MkLib map bias) (sh_offset s) (sh_size s) st
    = Some (foldl add_export st (omap (exported map bias (sh_offset s) (sh_size s)) (offsets k (p + e) e)))) as Hnext.
  { intros st' Hst'. apply IH; [done|]. intros o Ho. apply Hr. by right. }
  rewrite Ex, Ei, En. unfold st_value. rewrite Ev. cbn [mbind option_bind omap list_omap].
  unfold exported at 1. unfold st_value. rewrite Ex, Ei, En, Ev. cbn [mbind option_bind].
  destruct (shndx =? SHN_UNDEF); [by apply Hnext|]. destruct (negb _ && negb _); [by apply Hnext|]. cbn [orb].
  destruct ((name >=? sh_size s) || (name =? 0)) eqn:Ez; [by apply Hnext|].
  apply rd_le_range in En as (_ & _ & Hn & _); [|apply Hwf].
  destruct (wf_string _ _ _ Hwf s name Hs Hf) as [n Hname]; [lia|]. rewrite Hname. cbn [mbind option_bind foldl].
  rewrite (symtab_lookup_at_spec _ _ _ n) by (done || lia). cbn [mbind option_bind].
  unfold add_export at 2. rewrite (proj2 (Nat.leb_gt _ _) Hm). cbn [fst snd].
  destruct (symtab_lookup st n =? 0); cbn [negb]; [|by apply Hnext].
  rewrite (strncpy_at_spec _ _ _ n) by (done || lia). cbn [mbind option_bind]. apply Hnext.
  apply Forall_app. split; [done|]. constructor; [|done]. cbn. apply Forall_take. by eapply str_of_no_nul.
Qed.

Lemma lib_tables_fold i l acc :
  (forall j sh, l !! j = Some sh -> zget shs (i + Z.of_nat j) = Some sh) ->
  (forall s, snd acc = Some s -> exists d, fst acc = Some d /\ zget shs (sh_link d) = Some s) ->
  let '(d', s') := foldl (fun '(dynsym, dynstr) '(i, sh) =>
           let dynsym := if is_dynsym sh && negb (bool_decide (is_Some dynsym)) then Some sh else dynsym in
           (dynsym, match dynsym with
                    | Some d => if (i =? sh_link d) && (sh_type sh =? SHT_STRTAB) then Some sh else dynstr
                    | None => dynstr
                    end)) acc (zip (seqZ i (len l)) l) in
  d' = (match fst acc with Some d => Some d | None => List.find is_dynsym l end)
  /\ (forall s, s' = Some s -> exists d, d' = Some d /\ zget shs (sh_link d) = Some s).
Proof.
  revert i acc; induction l as [|sh l IH]; intros i [ds ss] Hl Hacc; [by destruct ds|].
  rewrite seqZ_cons by (unfold len; cbn; lia). replace (Z.pred (len (sh :: l))) with (len l) by (unfold len; cbn; lia).
  cbn [zip zip_with foldl fst snd List.find] in *. cbv zeta.
  set (d1 := if is_dynsym sh && negb (bool_decide (is_Some ds)) then Some sh else ds).
  assert (forall s, (match d1 with Some d => if (i =? sh_link d) && (sh_type sh =? SHT_STRTAB) then Some sh else ss | None => ss end) = Some s ->
            exists d, d1 = Some d /\ zget shs (sh_link d) = Some s) as Hs1.
  { intros s. pose proof (Hl 0%nat sh eq_refl) as H0. rewrite Z.add_0_r in H0. subst d1. destruct ds as [d|].
    - rewrite bool_decide_true by (by eexists). rewrite andb_false_r.
      destruct ((i =? sh_link d) && (sh_type sh =? SHT_STRTAB)) eqn:Ei; [|apply Hacc].
      intros [= <-]. exists d. split; [done|]. by replace (sh_link d) with i by lia.
    - rewrite bool_decide_false by (by intros [? ?]). rewrite andb_true_r. destruct (is_dynsym sh).
      + destruct ((i =? sh_link sh) && (sh_type sh =? SHT_STRTAB)) eqn:Ei; [|by intros (d & [=] & _)%Hacc].
        intros [= <-]. exists sh. split; [done|]. by replace (sh_link sh) with i by lia.
      + intros Hss. apply (Hacc s Hss). }
  specialize (IH (Z.succ i) (d1, match d1 with Some d => if (i =? sh_link d) && (sh_type sh =? SHT_STRTAB) then Some sh else ss | None => ss end)).
  destruct (foldl _ _ _) as [d' s']. cbn [fst snd] in IH. destruct IH as [Hd Hs]; [|exact Hs1|].
  { intros j x Hj. rewrite <-(Hl (S j) x Hj). f_equal. lia. }
  split; [|exact Hs]. rewrite Hd. subst d1. destruct ds as [d|].
  - rewrite bool_decide_true by (by eexists). by rewrite andb_false_r.
  - rewrite bool_decide_false by (by intros [? ?]). rewrite andb_true_r. by destruct (is_dynsym sh).
Qed.

Lemma lib_tables_spec :
  fst (lib_tables shs) = List.find is_dynsym shs
  /\ forall d s, lib_tables shs = (Some d, Some s) -> zget shs (sh_link d) = Some s.
Proof.
  pose proof (lib_tables_fold 0 shs (None, None)) as H. unfold lib_tables. destruct (foldl _ _ _) as [d' s'].
  destruct H as [Hd Hs].
  - intros j sh Hj. rewrite zget_lookup by lia. by rewrite Z.add_0_l, Nat2Z.id.
  - done.
  - split; [done|]. intros d s [= -> ->]. destruct (Hs s eq_refl) as (d' & [= ->] & Hz). done.
Qed.

(** The table after [build_symtab]. *)
Lemma build_symtab_spec bias st :
  names_ok st -> build_symtab (MkLib map bias) st = Some (foldl add_export st (exports map eh shs bias)).
Proof.
  intros Hst. destruct (wf_ehdr_fields _ _ _ Hwf) as (_ & Hn & Hx & _). pose proof (wf_index _ _ _ Hwf) as Hi. unfold is_u16 in *.
  unfold build_symtab, exports. cbn [l_map]. rewrite (wf_ehdr _ _ _ Hwf). cbn [mbind option_bind].
  destruct (e_shentsize eh <? sizeof_Shdr); [done|]. rewrite (proj2 (Z.eqb_neq (e_shnum eh) 0)) by lia. cbn [orb].
  rewrite (wf_shdrs _ _ _ Hwf). cbn [mbind option_bind]. destruct lib_tables_spec as [Hd Hs].
  destruct (lib_tables shs) as [od os]. cbn [fst] in Hd. subst od. destruct (List.find is_dynsym shs) as [d|] eqn:Ed; [|done].
  assert (e_shnum eh = len shs) as Hlen by (symmetry; apply (wf_shdr_fields _ _ _ Hwf)).
  assert (d ∈ shs /\ sh_type d = SHT_DYNSYM) as [Hdin Hdt].
  { apply find_elem in Ed as [? Ht]. unfold is_dynsym in Ht. split; [done|lia]. }
  destruct (wf_shdr _ _ _ Hwf d Hdin) as (_ & _ & _ & [Hlk _] & _).
  assert ((match os with
           | Some s => Some (Some s)
           | None => if sh_link d <? e_shnum eh then s ← rd_shdr map (e_shoff eh + sh_link d * sizeof_Shdr); Some (Some s) else Some None
           end) = Some (zget shs (sh_link d))) as ->.
  { destruct os as [s|]; [by rewrite (Hs d s)|]. destruct (Z.ltb_spec (sh_link d) (e_shnum eh)) as [Hlt|Hge].
    - destruct (shdr_at _ _ _ (sh_link d) (wf_shdrs _ _ _ Hwf)) as (s & -> & ->); [lia|done].
    - destruct (zget shs (sh_link d)) eqn:E; [|done]. apply zget_Some in E as [? _]. lia. }
  cbn [mbind option_bind]. destruct (zget shs (sh_link d)) as [s|] eqn:Es; [|done].
  destruct (Z.ltb_spec (sh_entsize d) sizeof_Sym); [done|]. apply symtab_loop_spec; [by eapply zget_elem|by eapply (wf_link _ _ _ Hwf)|done|].
  intros o Ho. unfold sizeof_Sym in *. destruct (wf_entries _ _ _ Hwf d o) as [? ?]; [done| |lia|done|lia].
  rewrite Hdt. unfold link_types. right. left.
Qed.
End image.

(** ** Program headers in the file *)

Fixpoint phdrs_from (k : nat) (i : Z) (map : list Z) (eh : Elf32_Ehdr) : list Elf32_Phdr :=
  match k with
  | O => []
  | S k =>
      let off := e_phoff eh + i * e_phentsize eh in
      if off + sizeof_Phdr >? len map then []
      else match rd_phdr map off with Some ph => ph :: phdrs_from k (i + 1) map eh | None => [] end
  end.
Definition file_phdrs (map : list Z) (eh : Elf32_Ehdr) : list Elf32_Phdr := phdrs_from (Z.to_nat (e_phnum eh)) 0 map eh.

Section needed.
Context (map : list Z) (eh : Elf32_Ehdr) (shs : list Elf32_Shdr).
Hypothesis Hwf : image_wf map eh shs.

Lemma phdr_at_total i : 0 <= i -> e_phoff eh + i * e_phentsize eh + sizeof_Phdr <= len map -> is_Some (rd_phdr map (e_phoff eh + i * e_phentsize eh)).
Proof.
  intros Hi Hl. destruct (wf_ehdr_fields _ _ _ Hwf) as (_ & _ & _ & _ & _ & [Hp _] & _ & [He _]).
  destruct (rd_phdr_ok map (e_phoff eh + i * e_phentsize eh)) as (ph & -> & _); [apply Hwf|nia|done|by eexists].
Qed.

(** A walk that looks for the first header that [f] takes. *)
Lemma phdr_walk_find {A} (out : A -> A) (f : Elf32_Phdr -> A -> option (A + A)) (sel : Elf32_Phdr -> bool) (acc : A) k i :
  0 <= i -> out acc = acc ->
  (forall ph, ph ∈ phdrs_from k i map eh -> sel ph = false -> f ph acc = Some (inr acc)) ->
  (forall ph, ph ∈ phdrs_from k i map eh -> sel ph = true -> exists a, f ph acc = Some (inl a)) ->
  exists a, phdr_walk k i map eh out f acc = Some a
    /\ match List.find sel (phdrs_from k i map eh) with Some ph => f ph acc = Some (inl a) | None => a = acc end.
Proof.
  intros Hi Hout. revert i Hi; induction k as [|k IH]; intros i Hi Hskip Htake; cbn [phdr_walk phdrs_from List.find] in *.
  { by exists acc. }
  destruct (_ >? len map) eqn:El; [exists acc; by rewrite Hout|].
  destruct (phdr_at_total i Hi) as [ph Hph]; [lia|]. rewrite Hph in *. cbn [mbind option_bind List.find].
  destruct (sel ph) eqn:Es.
  - destruct (Htake ph ltac:(left) Es) as [a Ha]. rewrite Ha. cbn [mbind option_bind]. by exists a.
  - rewrite (Hskip ph ltac:(left) Es). cbn [mbind option_bind]. apply IH; [lia|intros p Hp; apply Hskip; by right|intros p Hp; apply Htake; by right].
Qed.

(** [vaddr_to_ptr] looks at the loadable segments that hold the address. *)
Definition holds_vaddr (vaddr : Z) (ph : Elf32_Phdr) : bool :=
  (p_type ph =? PT_LOAD) && (vaddr >=? p_vaddr ph) && (vaddr <? u32 (p_vaddr ph + p_filesz ph))
  && (u32 (p_offset ph + (vaddr - p_vaddr ph)) <? len map).

Lemma vaddr_to_ptr_spec vaddr :
  vaddr_to_ptr map eh vaddr
  = Some (option_map (fun ph => u32 (p_offset ph + (vaddr - p_vaddr ph))) (List.find (holds_vaddr vaddr) (file_phdrs map eh))).
Proof.
  unfold vaddr_to_ptr.
  match goal with |- phdr_walk _ _ _ _ ?o ?f None = _ =>
    destruct (phdr_walk_find o f (holds_vaddr vaddr) None (Z.to_nat (e_phnum eh)) 0) as (a & -> & Ha) end; [done|done| | |].
  - intros ph _. unfold holds_vaddr. intros Hs. destruct (p_type ph =? PT_LOAD); [|done]. cbn [negb andb] in *.
    destruct ((vaddr >=? p_vaddr ph) && _); [|done]. cbn [andb] in Hs. cbv zeta. by rewrite Hs.
  - intros ph _. unfold holds_vaddr. intros [[[-> H1]%andb_true_iff H2]%andb_true_iff H3]%andb_true_iff. cbn [negb]. rewrite H1, H2. cbv zeta.
    cbn [andb]. rewrite H3. by eexists.
  - f_equal. unfold file_phdrs. destruct (List.find _ _) as [ph|] eqn:Ef; [|done]. apply List.find_some in Ef as [_ Hs].
    unfold holds_vaddr in Hs. apply andb_true_iff in Hs as [[[H0 H1]%andb_true_iff H2]%andb_true_iff H3].
    rewrite H0, H1, H2 in Ha. cbn [negb andb] in Ha. cbv zeta in Ha. rewrite H3 in Ha. by injection Ha as <-.
Qed.

(** The entries of the dynamic segment, and its strings. *)
Definition segment_dynamic (ph : Elf32_Phdr) : list (Z * Z) := dyn_entries map (Z.to_nat (p_filesz ph / sizeof_Dyn)) (p_offset ph) sizeof_Dyn.
Definition segment_strings (ph : Elf32_Phdr) : option Z :=
  e ← List.find (fun e => fst e =? DT_STRTAB) (segment_dynamic ph);
  option_map (fun q => u32 (p_offset q + (snd e - p_vaddr q))) (List.find (holds_vaddr (snd e)) (file_phdrs map eh)).
(** Where the names of the needed libraries are. *)
Definition needed_offsets : list Z :=
  match List.find (fun ph => p_type ph =? PT_DYNAMIC) (file_phdrs map eh) with
  | None => []
  | Some ph =>
      match segment_strings ph with
      | None => []
      | Some str => take MAX_RUNTIME_LIBS (omap (fun '(tag, v) => if tag =? DT_NEEDED then Some (str + v) else None) (segment_dynamic ph))
      end
  end.

Lemma first_strtab_spec k p :
  0 <= p -> p + Z.of_nat k * sizeof_Dyn <= len map ->
  first_strtab k p map = Some (snd <$> List.find (fun e => fst e =? DT_STRTAB) (dyn_entries map k p sizeof_Dyn)).
Proof.
  unfold sizeof_Dyn. revert p; induction k as [|k IH]; intros p Hp Hl; cbn [first_strtab dyn_entries]; [done|].
  destruct (d_tag_total map p) as [[tag Ht] [v Hv]]; [apply Hwf|done|lia|]. rewrite Ht, Hv. cbn [mbind option_bind default].
  destruct (tag =? DT_NULL); [done|]. cbn [List.find fst]. destruct (tag =? DT_STRTAB); [done|]. apply IH; lia.
Qed.

Lemma needed_names_spec k room p str :
  0 <= p -> p + Z.of_nat k * sizeof_Dyn <= len map ->
  needed_names k room p map str
  = Some (take room (omap (fun '(tag, v) => if tag =? DT_NEEDED then Some (str + v) else None) (dyn_entries map k p sizeof_Dyn))).
Proof.
  unfold sizeof_Dyn. revert p room; induction k as [|k IH]; intros p room Hp Hl; cbn [needed_names dyn_entries]; [by cbn; rewrite take_nil|].
  destruct room as [|room]; [done|].
  destruct (d_tag_total map p) as [[tag Ht] [v Hv]]; [apply Hwf|done|lia|]. rewrite Ht, Hv. cbn [mbind option_bind default].
  destruct (tag =? DT_NULL); [done|]. cbn [omap list_omap]. unfold sizeof_Dyn. destruct (tag =? DT_NEEDED).
  - rewrite IH by lia. done.
  - by rewrite IH by lia.
Qed.

Lemma get_dt_needed_spec bias :
  (forall ph, ph ∈ file_phdrs map eh -> p_type ph = PT_DYNAMIC -> 0 <= p_filesz ph /\ 0 <= p_offset ph /\ p_offset ph + p_filesz ph <= len map) ->
  get_dt_needed (MkLib map bias) MAX_RUNTIME_LIBS = Some needed_offsets.
Proof.
  intros Hdyn. unfold get_dt_needed. cbn [l_map]. rewrite (wf_ehdr _ _ _ Hwf). cbn [mbind option_bind].
  assert (forall ph, ph ∈ file_phdrs map eh -> p_type ph = PT_DYNAMIC ->
    0 <= p_offset ph /\ p_offset ph + Z.of_nat (Z.to_nat (p_filesz ph / sizeof_Dyn)) * sizeof_Dyn <= len map) as Hin.
  { intros ph Hph Ht. destruct (Hdyn ph Hph Ht) as (? & ? & ?). split; [done|]. rewrite Z2Nat.id by (apply Z.div_pos; done || lia).
    pose proof (Z.mul_div_le (p_filesz ph) sizeof_Dyn ltac:(done)). lia. }
  match goal with |- phdr_walk _ _ _ _ ?o ?f ?acc = _ =>
    destruct (phdr_walk_find o f (fun ph => p_type ph =? PT_DYNAMIC) acc (Z.to_nat (e_phnum eh)) 0) as (a & -> & Ha) end; [done|done| | |].
  - intros ph _ Hs. by rewrite Hs.
  - intros ph Hph Hs. rewrite Hs. cbn [negb]. destruct (Hin ph Hph ltac:(lia)) as [Hp Hl]. rewrite first_strtab_spec by done. cbn [mbind option_bind].
    destruct (List.find _ _) as [[t v]|]; cbn [fmap option_fmap option_map snd]; [|by eexists]. rewrite vaddr_to_ptr_spec. cbn [mbind option_bind].
    destruct (option_map _ _); [|by eexists]. rewrite needed_names_spec by done. cbn [mbind option_bind]. by eexists.
  - f_equal. unfold needed_offsets. fold (file_phdrs map eh) in *. destruct (List.find _ (file_phdrs map eh)) as [ph|] eqn:Ef; [|done].
    apply find_elem in Ef as [Hph Hs]. rewrite Hs in Ha. cbn [negb] in Ha. destruct (Hin ph Hph ltac:(lia)) as [Hp Hl].
    rewrite first_strtab_spec in Ha by done. cbn [mbind option_bind] in Ha. unfold segment_strings, segment_dynamic.
    destruct (List.find _ (dyn_entries _ _ _ _)) as [[t v]|]; cbn [fmap option_fmap option_map snd mbind option_bind] in *; [|by injection Ha as <-].
    rewrite vaddr_to_ptr_spec in Ha. cbn [mbind option_bind] in Ha. destruct (option_map _ _); [|by injection Ha as <-].
    rewrite needed_names_spec in Ha by done. cbn [mbind option_bind] in Ha. by injection Ha as <-.
Qed.
End needed.
