(* ===== verification/DynLinkLoad.v ===== *)
(** * DynLinkLoad: putting the image of a library in memory

    The segments as a list of writes, what the guest then reads at their addresses, and the words
    the relocations of the image itself change. *)

From S2P Require Import Prelude MemBudget ElfSection Elf32 CartLoad CartLoadSpec CartLoadDynamic RunCtx DynLink DynLinkSpec DynLinkSymbols.
From Stdlib Require Import ZArith Lia Strings.String.
From stdpp Require Import base tactics list.
Open Scope Z_scope.

(** ** A list of writes *)

Section stores.
Context {M : Type} `{GuestMemory M}.

Fixpoint store_all (ws : list (Z * list Z)) (mem : M) : M :=
  match ws with
  | [] => mem
  | (a, bs) :: ws => store_all ws (memory_write mem a bs)
  end.

Lemma store_all_app ws1 ws2 mem : store_all (ws1 ++ ws2) mem = store_all ws2 (store_all ws1 mem).
Proof. revert mem; induction ws1 as [|[a v] ws1 IH]; intros mem; cbn; [done|]. apply IH. Qed.

Lemma store_all_size ws mem : ram_size (store_all ws mem) = ram_size mem.
Proof. revert mem; induction ws as [|[a v] ws IH]; intros mem; cbn; [done|]. by rewrite IH, memory_write_size. Qed.

(** The write does not touch the [n] bytes at [a]. *)
Definition spares (a n : Z) (w : Z * list Z) : Prop := a + n <= fst w \/ fst w + len (snd w) <= a.

Lemma store_all_other ws mem a n :
  0 <= n -> Forall (spares a n) ws -> memory_read (store_all ws mem) a n = memory_read mem a n.
Proof.
  intros Hn Hws. revert mem; induction Hws as [|[b bs] ws Hw _ IH]; intros mem; cbn; [done|].
  rewrite IH. by apply memory_read_other.
Qed.

Lemma store_all_read ws1 ws2 mem a bs n :
  len bs = n -> 0 <= a -> a + n <= ram_size mem -> Forall (spares a n) ws2 ->
  memory_read (store_all (ws1 ++ (a, bs) :: ws2) mem) a n = bs.
Proof.
  intros <- Ha Hr Hws. rewrite store_all_app. cbn [store_all]. rewrite store_all_other by (done || unfold len; lia).
  apply memory_read_write; [done|]. by rewrite store_all_size.
Qed.
End stores.

(** ** Segments *)

Section segments.
Context {M : Type} `{GuestMemory M}.
Variable memory_fill : M -> Z -> Z -> Z -> M.
Variable write_ok : M -> Z -> Z -> bool.
(** [memory_fill] writes copies of the value. *)
Hypothesis fill_writes : forall m a n v, 0 <= n -> memory_fill m a n v = memory_write m a (replicate (Z.to_nat n) v).

(** The address of a segment, and what is written for it. *)
Definition seg_addr (bias : Z) (ph : Elf32_Phdr) : Z := u32 (bias + p_vaddr ph).
Definition seg_writes (map : list Z) (bias : Z) (ph : Elf32_Phdr) : list (Z * list Z) :=
  (seg_addr bias ph, sub map (p_offset ph) (p_filesz ph))
  :: (if p_memsz ph >? p_filesz ph
      then [(u32 (seg_addr bias ph + p_filesz ph), replicate (Z.to_nat (p_memsz ph - p_filesz ph)) 0)] else []).
Definition loads (map : list Z) (eh : Elf32_Ehdr) : list Elf32_Phdr := filter is_load (file_phdrs map eh).
Definition image_writes (map : list Z) (bias : Z) (phs : list Elf32_Phdr) : list (Z * list Z) := concat (seg_writes map bias <$> phs).

Lemma map_segment_spec map bias ph mem :
  0 <= p_offset ph -> 0 <= p_filesz ph ->
  exists ok mem', map_segment memory_fill write_ok (MkLib map bias) ph mem = Some (ok, mem') /\ ram_size mem' = ram_size mem
    /\ (ok = true -> mem' = store_all (seg_writes map bias ph) mem /\ p_offset ph + p_filesz ph <= len map).
Proof.
  intros Ho Hf. unfold map_segment. cbn [l_map l_bias]. destruct (p_offset ph + p_filesz ph >? len map) eqn:El; [by exists false, mem|].
  unfold rd. rewrite (proj2 (andb_true_iff _ _)) by (split; [apply andb_true_iff; split|]; lia). cbn [mbind option_bind].
  unfold seg_writes, seg_addr. destruct (negb _); [by exists false, mem|].
  destruct (p_memsz ph >? p_filesz ph) eqn:Em.
  - destruct (negb _); [eexists false, _; split; [done|]; split; [apply memory_write_size|done]|]. eexists true, _. split; [done|].
    rewrite fill_writes by lia. rewrite !memory_write_size. split; [done|]. intros _. split; [done|lia].
  - eexists true, _. split; [done|]. rewrite memory_write_size. split; [done|]. intros _. split; [done|lia].
Qed.

Section image.
Context (map : list Z) (eh : Elf32_Ehdr) (shs : list Elf32_Shdr).
Hypothesis Hwf : image_wf map eh shs.

Lemma phdrs_fields ph k i : 0 <= i -> ph ∈ phdrs_from k i map eh -> is_u32 (p_offset ph) /\ is_u32 (p_filesz ph) /\ is_u32 (p_vaddr ph) /\ is_u32 (p_memsz ph).
Proof.
  revert i; induction k as [|k IH]; intros i Hi; cbn [phdrs_from]; [by intros ?%elem_of_nil|].
  destruct (_ >? len map) eqn:El; [by intros ?%elem_of_nil|].
  destruct (wf_ehdr_fields _ _ _ Hwf) as (_ & _ & _ & _ & _ & [Hp _] & _ & [He _]).
  destruct (rd_phdr_ok map (e_phoff eh + i * e_phentsize eh)) as (ph' & -> & Hfields); [apply Hwf|nia|lia|].
  intros [->|Hin]%elem_of_cons; [done|]. apply (IH (i + 1)); [lia|done].
Qed.

Lemma segment_loop_spec bias k i mem :
  0 <= i ->
  exists ok mem', segment_loop memory_fill write_ok k i (MkLib map bias) eh mem = Some (ok, mem') /\ ram_size mem' = ram_size mem
    /\ (ok = true ->
         mem' = store_all (image_writes map bias (filter is_load (phdrs_from k i map eh))) mem
         /\ length (phdrs_from k i map eh) = k
         /\ Forall (fun ph => p_offset ph + p_filesz ph <= len map) (filter is_load (phdrs_from k i map eh))).
Proof.
  revert i mem; induction k as [|k IH]; intros i mem Hi; cbn [segment_loop phdrs_from l_map].
  { by exists true, mem. }
  destruct (_ >? len map) eqn:El; [by exists false, mem|].
  destruct (phdr_at_total _ _ _ Hwf i Hi) as [ph Hph]; [lia|]. rewrite Hph. cbn [mbind option_bind].
  assert (is_u32 (p_offset ph) /\ is_u32 (p_filesz ph)) as [[Ho _] [Hf _]].
  { destruct (phdrs_fields ph 1 i) as (? & ? & _); [done| |done]. cbn [phdrs_from]. rewrite El, Hph. left. }
  rewrite filter_cons. destruct (Z.eqb_spec (p_type ph) PT_LOAD) as [Et|Et]; cbn [negb].
  - rewrite decide_True by done. destruct (map_segment_spec map bias ph mem) as (ok & mem1 & -> & Hs1 & Hok); [done..|]. cbn [mbind option_bind].
    destruct ok; [|by exists false, mem1]. destruct (Hok eq_refl) as [-> Hin].
    destruct (IH (i + 1) (store_all (seg_writes map bias ph) mem)) as (ok & mem2 & -> & Hs2 & Hok'); [lia|]. exists ok, mem2. split; [done|]. split; [congruence|].
    intros (-> & Hlen & Hall)%Hok'. unfold image_writes. cbn [fmap list_fmap concat length]. rewrite store_all_app.
    split_and!; [done|by f_equal|by constructor].
  - rewrite decide_False by done. destruct (IH (i + 1) mem) as (ok & mem2 & -> & Hs2 & Hok'); [lia|]. exists ok, mem2. split; [done|]. split; [done|].
    intros (-> & Hlen & Hall)%Hok'. cbn [length]. split_and!; [done|by f_equal|done].
Qed.

Lemma map_lib_segments_spec bias mem :
  exists ok mem', map_lib_segments memory_fill write_ok (MkLib map bias) mem = Some (ok, mem') /\ ram_size mem' = ram_size mem
    /\ (ok = true ->
         mem' = store_all (image_writes map bias (loads map eh)) mem
         /\ Z.of_nat (length (file_phdrs map eh)) = e_phnum eh
         /\ Forall (fun ph => p_offset ph + p_filesz ph <= len map) (loads map eh)).
Proof.
  unfold map_lib_segments. cbn [l_map]. rewrite (wf_ehdr _ _ _ Hwf). cbn [mbind option_bind].
  destruct (segment_loop_spec bias (Z.to_nat (e_phnum eh)) 0 mem) as (ok & mem' & -> & Hsz & Hok); [done|]. exists ok, mem'. split; [done|]. split; [done|].
  intros (-> & Hlen & Hall)%Hok. split_and!; [done| |done]. unfold file_phdrs. rewrite Hlen.
  destruct (wf_ehdr_fields _ _ _ Hwf) as (_ & _ & _ & _ & _ & _ & [? _] & _). lia.
Qed.
End image.
End segments.

(** ** What the guest reads *)

(** The place of a segment, and two segments that do not share it. *)
Definition seg_extent (ph : Elf32_Phdr) : Z := Z.max (p_filesz ph) (p_memsz ph).
Definition seg_apart (bias : Z) (p q : Elf32_Phdr) : Prop :=
  seg_addr bias p + seg_extent p <= seg_addr bias q \/ seg_addr bias q + seg_extent q <= seg_addr bias p.

Lemma seg_writes_spare map bias ph a n :
  0 <= p_filesz ph -> p_offset ph + p_filesz ph <= len map -> 0 <= p_offset ph -> seg_addr bias ph + seg_extent ph < 2 ^ 32 ->
  a + n <= seg_addr bias ph \/ seg_addr bias ph + seg_extent ph <= a -> Forall (spares a n) (seg_writes map bias ph).
Proof.
  unfold seg_extent. intros Hf Hl Ho Hw Ha. pose proof (u32_range (bias + p_vaddr ph)) as Hr. fold (seg_addr bias ph) in Hr. unfold seg_writes, spares. constructor.
  - cbn [fst snd]. rewrite len_sub by lia. lia.
  - destruct (p_memsz ph >? p_filesz ph) eqn:E; constructor; [|constructor]. cbn [fst snd].
    rewrite u32_id by (unfold is_u32 in *; lia). unfold len. rewrite length_replicate. lia.
Qed.

(** The segments of an image have room, each for itself. *)
Record placed (map : list Z) (bias : Z) (room : Z) (phs : list Elf32_Phdr) : Prop := {
  placed_file : Forall (fun ph => 0 <= p_offset ph /\ 0 <= p_filesz ph /\ p_offset ph + p_filesz ph <= len map) phs;
  placed_room : Forall (fun ph => seg_addr bias ph + seg_extent ph <= room) phs;
  placed_apart : ForallOrdPairs (seg_apart bias) phs }.

Lemma image_writes_spare map bias room phs a n :
  placed map bias room phs -> room < 2 ^ 32 ->
  Forall (fun ph => a + n <= seg_addr bias ph \/ seg_addr bias ph + seg_extent ph <= a) phs ->
  Forall (spares a n) (image_writes map bias phs).
Proof.
  intros [Hf Hr _] Hroom Ha. unfold image_writes. induction phs as [|ph phs IH]; [constructor|]. inversion Hf; inversion Hr; inversion Ha; subst.
  cbn [fmap list_fmap concat]. apply Forall_app. split; [|by apply IH]. apply seg_writes_spare; tauto || lia.
Qed.

Lemma image_other `{GuestMemory M} map bias room phs (mem : M) a n :
  0 <= n -> placed map bias room phs -> room < 2 ^ 32 ->
  Forall (fun ph => a + n <= seg_addr bias ph \/ seg_addr bias ph + seg_extent ph <= a) phs ->
  memory_read (store_all (image_writes map bias phs) mem) a n = memory_read mem a n.
Proof. intros Hn Hp Hr Ha. apply store_all_other; [done|]. by eapply image_writes_spare. Qed.

Lemma image_segment `{GuestMemory M} map bias phs (mem : M) ph :
  placed map bias (ram_size mem) phs -> ram_size mem < 2 ^ 32 -> ph ∈ phs ->
  let mem' := store_all (image_writes map bias phs) mem in
  memory_read mem' (seg_addr bias ph) (p_filesz ph) = sub map (p_offset ph) (p_filesz ph)
  /\ (p_filesz ph < p_memsz ph ->
      memory_read mem' (seg_addr bias ph + p_filesz ph) (p_memsz ph - p_filesz ph) = replicate (Z.to_nat (p_memsz ph - p_filesz ph)) 0).
Proof.
  intros [Hf Hr Ha] Hram (l1 & l2 & ->)%list_elem_of_split. cbv zeta.
  apply Forall_app in Hf as [_ Hf]. inversion Hf as [|? ? (Ho & Hfs & Hl) Hf2]; subst. apply Forall_app in Hr as [_ Hr]. inversion Hr as [|? ? Hrp Hr2]; subst.
  assert (placed map bias (ram_size mem) l2 /\ Forall (seg_apart bias ph) l2) as [Hp2 Hap].
  { assert (ForallOrdPairs (seg_apart bias) (ph :: l2)) as Hall by (clear -Ha; induction l1; [done|]; inversion Ha; auto).
    inversion Hall; subst. by split. }
  unfold image_writes. rewrite fmap_app, fmap_cons, concat_app. cbn [concat]. fold (image_writes map bias l1). fold (image_writes map bias l2).
  pose proof (u32_range (bias + p_vaddr ph)) as Hg. fold (seg_addr bias ph) in Hg. unfold is_u32, seg_extent in *.
  assert (forall a n, 0 <= n -> seg_addr bias ph <= a -> a + n <= seg_addr bias ph + Z.max (p_filesz ph) (p_memsz ph) -> Forall (spares a n) (image_writes map bias l2)) as Hspare.
  { intros a n Hn H1 H2. eapply image_writes_spare; [done|done|]. eapply Forall_impl; [exact Hap|]. intros q Hq. unfold seg_apart, seg_extent in *. lia. }
  assert (len (sub map (p_offset ph) (p_filesz ph)) = p_filesz ph) as Hlen by (by rewrite len_sub).
  assert (forall n, 0 <= n -> len (replicate (Z.to_nat n) 0) = n) as Hrep by (intros n Hn; unfold len; rewrite length_replicate; lia).
  unfold seg_writes. split.
  - rewrite <-app_comm_cons. apply store_all_read; [done|lia|lia|]. apply Forall_app. split; [|apply Hspare; lia].
    destruct (p_memsz ph >? p_filesz ph) eqn:E; constructor; [|constructor]. unfold spares. cbn [fst snd]. rewrite u32_id by (unfold is_u32; lia). lia.
  - intros Hm. rewrite (proj2 (Z.gtb_lt _ _)) by lia. rewrite u32_id by (unfold is_u32; lia).
    match goal with |- context [?A ++ (?w :: [?z]) ++ ?B] => change (A ++ (w :: [z]) ++ B) with (A ++ [w] ++ z :: B) end. rewrite app_assoc.
    apply store_all_read; [apply Hrep; lia|lia|lia|]. apply Hspare; lia.
Qed.

(** ** Relocations of the image itself *)

(** The symbol of the relocation is defined in the image, and its address plus the rest is [v]. *)
Definition defined_at (map : list Z) (rest info : Z) (d : Elf32_Shdr) (v : Z) : Prop :=
  exists shndx value, let sym := sh_offset d + ELF32_R_SYM info * sh_entsize d in
    sizeof_Sym <= sh_entsize d /\ sym + sizeof_Sym <= len map
    /\ st_shndx map sym = Some shndx /\ shndx <> SHN_UNDEF /\ st_value map sym = Some value /\ v = u32 (rest + value).
(** Relocation [p] sets the word at [a] to [v]: an address in the image, or that of a symbol the image defines. *)
Definition rebases (map : list Z) (bias : Z) (dynsym : option Elf32_Shdr) (p a v : Z) : Prop :=
  exists info off addend,
    r_info map p = Some info /\ r_offset map p = Some off /\ r_addend map p = Some addend /\ a = u32 (bias + off)
    /\ ((ELF32_R_TYPE info = R_RISCV_RELATIVE /\ v = u32 (bias + addend))
        \/ (ELF32_R_TYPE info = R_RISCV_32 /\ exists d, dynsym = Some d /\ defined_at map (bias + addend) info d v)).

Definition image_rebases (map : list Z) (shs : list Elf32_Shdr) (bias a v : Z) : Prop :=
  exists p, p ∈ reloc_entries shs /\ rebases map bias (List.find is_dynsym shs) p a v.

Section rebase.
Context {M : Type} `{GuestMemory M}.
Context (map : list Z) (eh : Elf32_Ehdr) (shs : list Elf32_Shdr) (bias : Z).
Hypothesis Hwf : image_wf map eh shs.
Let lib := MkLib map bias.
Let dynsym := List.find is_dynsym shs.

Lemma apply_rela_spec p :
  0 <= p -> p + sizeof_Rela <= len map -> puts (M:=M) (apply_rela lib dynsym p) (rebases map bias dynsym p).
Proof.
  intros Hp Hl. pose proof (wf_bytes _ _ _ Hwf) as Hm. unfold sizeof_Rela in Hl.
  destruct (rd_le_ok map (p + 4) 4) as (info & Ei & Hinfo); [done|lia..|].
  destruct (rd_le_ok map p 4) as (off & Eo & _); [done|lia..|].
  destruct (rd_le_ok map (p + 8) 4) as (add & Ea & _); [done|lia..|].
  assert (r_addend map p = Some (i32 add)) as Ea' by (unfold r_addend; by rewrite Ea).
  fold (r_info map p) in Ei. fold (r_offset map p) in Eo. unfold apply_rela, lib. cbv zeta. cbn [l_map l_bias]. rewrite Ei, Eo, Ea'. cbn [mbind option_bind].
  apply puts_iff with (fun a v => a = u32 (bias + off) /\ ((ELF32_R_TYPE info = R_RISCV_RELATIVE /\ v = u32 (bias + i32 add))
        \/ (ELF32_R_TYPE info = R_RISCV_32 /\ exists d, dynsym = Some d /\ defined_at map (bias + i32 add) info d v))).
  2:{ intros a v. unfold rebases. rewrite Ei, Eo, Ea'. split; [|intros (? & ? & ? & [= <-] & [= <-] & [= <-] & Hx); exact Hx].
      intros Hx. by exists info, off, (i32 add). }
  destruct (Z.eqb_spec (ELF32_R_TYPE info) R_RISCV_RELATIVE) as [Et|Et].
  { apply puts_one. intros a v. rewrite Et. split; [intros (-> & [[_ ->]|[[=] _]]); done|intros [-> ->]]. split; [done|by left]. }
  destruct dynsym as [d|] eqn:Ed; [|apply puts_none; naive_solver].
  unfold defined_at. destruct ((ELF32_R_TYPE info =? R_RISCV_32) && (sh_entsize d >=? sizeof_Sym)) eqn:E32.
  2:{ apply puts_none. intros a v (_ & [[? _]|(? & ? & [= <-] & ? & ? & ? & _)]); lia. }
  destruct (_ + sizeof_Sym >? len map) eqn:Es.
  { apply puts_none. intros a v (_ & [[? _]|(? & ? & [= <-] & ? & ? & ? & ? & _)]); lia. }
  apply find_elem in Ed as [Hd _]. destruct (wf_shdr _ _ _ Hwf d Hd) as (_ & [Hdo _] & _ & _ & [Hde _]).
  assert (0 <= sh_offset d + ELF32_R_SYM info * sh_entsize d) as Hsym.
  { unfold ELF32_R_SYM. pose proof (proj2 (Z.shiftr_nonneg info 8)). nia. }
  unfold sizeof_Sym in *. destruct (sym_total map _ Hm Hsym) as (_ & [shndx Ex] & _); [lia|]. rewrite Ex. cbn [mbind option_bind].
  destruct (rd_le_ok map (sh_offset d + ELF32_R_SYM info * sh_entsize d + 4) 4) as (value & Ev & _); [done|lia..|].
  destruct (Z.eqb_spec shndx SHN_UNDEF) as [Eu|Eu].
  { apply puts_none. intros a v (_ & [[? _]|(? & ? & [= <-] & ? & ? & ? & ? & Hx & ? & _)]); [done|]. congruence. }
  fold (st_value map (sh_offset d + ELF32_R_SYM info * sh_entsize d)) in Ev. rewrite Ev. cbn [mbind option_bind]. apply puts_one. intros a v. split.
  - intros (-> & [[? _]|(_ & ? & [= <-] & ? & ? & _ & _ & _ & _ & Hv & ->)]); [done|]. rewrite Ev in Hv. injection Hv as <-. split; [done|]. f_equal. lia.
  - intros [-> ->]. split; [done|]. right. split; [lia|]. exists d. split; [done|]. exists shndx, value. split_and!; done || lia || (f_equal; lia).
Qed.

Lemma rela_loop_run k p e (mem : M) :
  (forall o, o ∈ offsets k p e -> o + sizeof_Rela <= len map) -> rela_loop k p e lib dynsym mem = run_all (apply_rela lib dynsym) (offsets k p e) mem.
Proof.
  revert p mem; induction k as [|k IH]; intros p mem Hr; cbn [rela_loop offsets run_all]; [done|].
  pose proof (Hr p ltac:(left)) as Hp. destruct (_ >? _) eqn:E; [cbn [l_map lib] in E; lia|].
  destruct (apply_rela _ _ _ _); [|done]. cbn [mbind option_bind]. apply IH. intros o Ho. apply Hr. by right.
Qed.

(** The loop steps by the declared size of a header, the table it looks symbols up in is read with
    the real one. *)
Hypothesis Hstride : e_shentsize eh = sizeof_Shdr.

Lemma rela_sections_run k i shs' (mem : M) :
  0 <= i -> e_shnum eh = i + Z.of_nat k -> drop (Z.to_nat i) shs = shs' -> shs' ⊆ shs ->
  rela_sections k i lib eh dynsym mem = run_all (apply_rela lib dynsym) (reloc_entries shs') mem.
Proof.
  revert i shs' mem; induction k as [|k IH]; intros i shs' mem Hi Hk Hd Hsub; cbn [rela_sections].
  { destruct (wf_shdr_fields _ _ _ Hwf) as [_ Hlen]. unfold len in Hlen. rewrite drop_ge in Hd by lia. by subst shs'. }
  destruct (shdr_at _ _ _ i (wf_shdrs _ _ _ Hwf)) as (sh & Hg & Hrd); [lia|]. rewrite Hstride.
  assert (e_shoff eh + i * sizeof_Shdr + sizeof_Shdr <= len map) as Hl.
  { apply (rd_shdr_inside map _ sh); [apply Hwf|done]. }
  destruct (_ + sizeof_Shdr >? _) eqn:E; [cbn [l_map lib] in E; lia|]. cbn [l_map lib]. rewrite Hrd. cbn [mbind option_bind].
  apply zget_Some in Hg as [_ Hg]. rewrite (drop_S _ _ _ Hg) in Hd. subst shs'.
  assert (forall mem, rela_sections k (i + 1) lib eh dynsym mem = run_all (apply_rela lib dynsym) (reloc_entries (drop (S (Z.to_nat i)) shs)) mem) as Hnext.
  { intros m. apply IH; [lia|lia|f_equal; lia|]. intros x Hx. apply Hsub. by right. }
  rewrite reloc_entries_cons, is_rela_test. destruct (negb _ || _) eqn:Er; cbn [negb]; [apply Hnext|].
  rewrite rela_loop_run, run_all_app.
  2:{ intros o Ho. apply (wf_relocs map eh shs o Hwf), reloc_entries_elem. exists sh. split; [apply Hsub; left|].
      split; [unfold is_rela; lia|done]. }
  fold (entries_of sh). destruct (run_all _ _ _); [apply Hnext|done].
Qed.

Lemma apply_lib_rela_spec : puts (M:=M) (apply_lib_rela lib) (image_rebases map shs bias).
Proof.
  destruct (wf_ehdr_fields _ _ _ Hwf) as (_ & Hn & Hx & _). pose proof (wf_index _ _ _ Hwf) as Hi. unfold is_u16 in *.
  apply puts_ext with (run_all (apply_rela lib dynsym) (reloc_entries shs)).
  - intros mem. unfold apply_lib_rela. cbn [l_map lib]. rewrite (wf_ehdr _ _ _ Hwf). cbn [mbind option_bind].
    rewrite (proj2 (Z.ltb_ge _ _)), (proj2 (Z.eqb_neq (e_shnum eh) 0)) by lia. cbn [orb]. rewrite (wf_shdrs _ _ _ Hwf). cbn [mbind option_bind].
    apply rela_sections_run; [done|lia|done|done].
  - apply puts_run_all. intros o Ho. apply apply_rela_spec; by apply (wf_relocs map eh shs o Hwf).
Qed.
End rebase.
