(* ===== verification/DynLinkWalk.v ===== *)
(** * DynLinkWalk: the walk over the needed libraries

    The libraries come into the queue in breadth-first order; [chain] is that order as a relation,
    [walk_spec] and [dynlink_spec] reduce the loops of the loader to it. *)

From S2P Require Import Prelude MemBudget ElfSection Elf32 CartLoad CartLoadSpec CartLoadDynamic RunCtx DynLink DynLinkSpec DynLinkSymbols DynLinkLoad.
From Stdlib Require Import ZArith Lia Strings.String.
From stdpp Require Import base tactics list.
Open Scope Z_scope.

(** ** The queue *)

Definition enq (q : list (list Z)) (n : list Z) : list (list Z) :=
  if (MAX_RUNTIME_LIBS <=? length q)%nat then q else if decide (n ∈ q) then q else q ++ [take 63 n].

(** The names at these offsets of the image. *)
Definition names_at (map : list Z) (offs : list Z) (names : list (list Z)) : Prop :=
  Forall2 (fun o n => 0 <= o /\ str_of map o = Some n) offs names.

Lemma any_name_str map off s names :
  0 <= off -> str_of map off = Some s -> Forall no_nul names -> any_name map off names = Some (bool_decide (s ∈ names)).
Proof.
  intros Ho Hs Hn. induction Hn as [|n names Hn _ IH]; cbn [any_name]; [done|]. rewrite (strcmp_at_str _ _ s) by done. cbn [mbind option_bind].
  destruct (bool_decide_reflect (s = n)) as [E|E]; [rewrite bool_decide_true; [done|apply elem_of_cons; by left]|]. rewrite IH. f_equal. apply bool_decide_ext. rewrite elem_of_cons. naive_solver.
Qed.

Lemma enq_no_nul q n : Forall no_nul q -> no_nul n -> Forall no_nul (enq q n).
Proof.
  intros Hq Hn. unfold enq. repeat case_match; try done. apply Forall_app. split; [done|]. constructor; [by apply Forall_take|done].
Qed.

Lemma enqs_no_nul q names : Forall no_nul q -> Forall no_nul names -> Forall no_nul (foldl enq q names).
Proof. intros Hq Hn. revert q Hq; induction Hn as [|n names Hn _ IH]; intros q Hq; cbn; [done|]. apply IH. by apply enq_no_nul. Qed.

Lemma names_at_no_nul map offs names : names_at map offs names -> Forall no_nul names.
Proof. unfold names_at. induction 1 as [|o n offs names [_ Hs] _ IH]; constructor; [by eapply str_of_no_nul|done]. Qed.

Lemma enqueue_spec map offs names q :
  names_at map offs names -> Forall no_nul q -> enqueue map offs q = Some (foldl enq q names).
Proof.
  intros Hn. revert q; induction Hn as [|o n offs names [Ho Hs] _ IH]; intros q Hq; cbn [enqueue foldl]; [done|].
  assert (no_nul n) as Hnn by (by eapply str_of_no_nul). specialize (IH (enq q n) (enq_no_nul _ _ Hq Hnn)). 
  assert (enq q n = if (MAX_RUNTIME_LIBS <=? length q)%nat then q else if decide (n ∈ q) then q else q ++ [take 63 n]) as Heq by done.
  destruct (Nat.leb_spec MAX_RUNTIME_LIBS (length q)) as [Hm|Hm]; rewrite Heq in IH |- *; clear Heq.
  - clear IH. induction names as [|m names IH]; cbn; [done|]. unfold enq at 2. by rewrite (proj2 (Nat.leb_le _ _) Hm).
  - rewrite (any_name_str _ _ n) by done. cbn [mbind option_bind]. destruct (bool_decide_reflect (n ∈ q)); [rewrite decide_True in IH |- * by done; exact IH|].
    rewrite decide_False in IH |- * by done.
    rewrite (strncpy_at_spec _ _ _ n) by done. exact IH.
Qed.

Lemma enqs_prefix q names : q `prefix_of` foldl enq q names.
Proof.
  revert q; induction names as [|n names IH]; intros q; cbn; [done|]. etrans; [|apply IH]. unfold enq. repeat case_match; try done. by eexists.
Qed.

Lemma enqs_bound q names : (length q <= MAX_RUNTIME_LIBS)%nat -> (length (foldl enq q names) <= MAX_RUNTIME_LIBS)%nat.
Proof.
  revert q; induction names as [|n names IH]; intros q Hq; cbn; [done|]. apply IH. unfold enq.
  destruct (Nat.leb_spec MAX_RUNTIME_LIBS (length q)); [done|]. case_match; [done|]. rewrite length_app. cbn. lia.
Qed.

(** Every name is in the queue afterwards, unless it is full or the name was cut off. *)
Lemma enqs_elem q names n :
  n ∈ names -> (length n <= 63)%nat -> n ∈ foldl enq q names \/ length (foldl enq q names) = MAX_RUNTIME_LIBS \/ (MAX_RUNTIME_LIBS < length q)%nat.
Proof.
  intros Hn Hl. revert q; induction Hn as [m names|m k names Hn IH]; intros q; cbn.
  - unfold enq at 2 4. destruct (Nat.leb_spec MAX_RUNTIME_LIBS (length q)) as [Hm|Hm].
    + destruct (decide (length q = MAX_RUNTIME_LIBS)); [|right; right; lia]. right. left.
      destruct (enqs_prefix q names) as [t Ht]. pose proof (enqs_bound q names ltac:(lia)). apply (f_equal length) in Ht. rewrite length_app in Ht. lia.
    + left. case_decide as E; [by eapply elem_of_prefix; [exact E|apply enqs_prefix]|].
      eapply elem_of_prefix; [|apply enqs_prefix]. rewrite take_ge by done. apply elem_of_app. right. by left.
  - destruct (IH Hl (enq q k)) as [?|[?|Hlt]]; [by left|by right; left|]. right. right. revert Hlt. unfold enq.
    destruct (Nat.leb_spec MAX_RUNTIME_LIBS (length q)); [done|]. case_match; [lia|]. rewrite length_app. cbn. lia.
Qed.

(** ** Images the loader can read *)

(** The dynamic segment is in the file, and the names it refers to end there. *)
Record image_ok (map : list Z) (eh : Elf32_Ehdr) (shs : list Elf32_Shdr) : Prop := {
  ok_wf : image_wf map eh shs;
  ok_stride : e_shentsize eh = sizeof_Shdr }.
Record lib_ok (map : list Z) (eh : Elf32_Ehdr) (shs : list Elf32_Shdr) (needed : list (list Z)) : Prop := {
  lib_image : image_ok map eh shs;
  lib_dynamic : forall ph, ph ∈ file_phdrs map eh -> p_type ph = PT_DYNAMIC -> p_offset ph + p_filesz ph <= len map;
  lib_names : names_at map (needed_offsets map eh) needed }.

Record image := MkImage { im_map : list Z; im_eh : Elf32_Ehdr; im_shs : list Elf32_Shdr; im_needed : list (list Z) }.
Definition im_ok (im : image) : Prop := lib_ok (im_map im) (im_eh im) (im_shs im) (im_needed im).

(** Where the [i]-th library goes. *)
Definition lib_bias (i : nat) (eh : Elf32_Ehdr) : Z := if e_type eh =? ET_DYN then u32 (GUEST_LIB_BASE + Z.of_nat i * GUEST_LIB_STRIDE) else 0.
Definition im_lib (i : nat) (im : image) : blyt_lib_t := MkLib (im_map im) (lib_bias i (im_eh im)).
Definition im_exports (i : nat) (im : image) : blyt_symtab_t := exports (im_map im) (im_eh im) (im_shs im) (lib_bias i (im_eh im)).
Fixpoint from {A} (f : nat -> image -> A) (i : nat) (ims : list image) : list A :=
  match ims with [] => [] | im :: ims => f i im :: from f (S i) ims end.

Lemma from_lookup {A} (f : nat -> image -> A) i ims j : from f i ims !! j = f (i + j)%nat <$> ims !! j.
Proof.
  revert i j; induction ims as [|im ims IH]; intros i j; cbn; [done|]. destruct j as [|j]; cbn; [by rewrite Nat.add_0_r|].
  rewrite IH. by rewrite Nat.add_succ_r.
Qed.
Lemma from_length {A} (f : nat -> image -> A) i ims : length (from f i ims) = length ims.
Proof. revert i; induction ims as [|im ims IH]; intros i; cbn; [done|]. by rewrite IH. Qed.

Section walk.
Context {M : Type} `{GuestMemory M} (env : link_env) (use_lua_bridge : bool).
Variable memory_fill : M -> Z -> Z -> Z -> M.
Variable write_ok : M -> Z -> Z -> bool.
Hypothesis fill_writes : forall m a n v, 0 <= n -> memory_fill m a n v = memory_write m a (replicate (Z.to_nat n) v).

(** Every library that can be opened is well-formed, unless it is too short to be one. *)
Definition env_ok : Prop :=
  forall name map, open_lib env name = Some map -> sizeof_Ehdr <= len map -> exists eh shs needed, lib_ok map eh shs needed.

(** From the [i]-th library on: the libraries loaded, and the queue at the end. *)
Inductive chain : nat -> list (list Z) -> list image -> list (list Z) -> Prop :=
| chain_full i q : (MAX_RUNTIME_LIBS <= i)%nat -> chain i q [] q
| chain_done i q : q !! i = None -> chain i q [] q
| chain_load i q name im ims q' :
    (i < MAX_RUNTIME_LIBS)%nat -> q !! i = Some name -> open_lib env (open_name use_lua_bridge name) = Some (im_map im) -> im_ok im ->
    e_machine (im_eh im) = EM_RISCV -> chain (S i) (foldl enq q (im_needed im)) ims q' -> chain i q (im :: ims) q'.

(** What one library does to the memory. *)
Definition loaded (im : image) (bias : Z) (mem mem' : M) : Prop :=
  exists ws, mem' = put_words ws (store_all (image_writes (im_map im) bias (loads (im_map im) (im_eh im))) mem)
    /\ forall a v, (a, v) ∈ ws <-> image_rebases (im_map im) (im_shs im) bias a v.
Inductive all_loaded : nat -> list image -> M -> M -> Prop :=
| loaded_nil i mem : all_loaded i [] mem mem
| loaded_cons i im ims mem mem1 mem2 :
    loaded im (lib_bias i (im_eh im)) mem mem1 -> all_loaded (S i) ims mem1 mem2 -> all_loaded i (im :: ims) mem mem2.

Lemma load_lib_spec map libs mem :
  (sizeof_Ehdr <= len map -> exists eh shs needed, lib_ok map eh shs needed) ->
  exists r, load_lib memory_fill write_ok map libs mem = Some r
    /\ forall lib mem', r = Some (lib, mem') ->
         exists im, im_map im = map /\ im_ok im /\ e_machine (im_eh im) = EM_RISCV /\ lib = im_lib (length libs) im
           /\ loaded im (lib_bias (length libs) (im_eh im)) mem mem'.
Proof.
  intros Hmap. unfold load_lib. destruct (Z.ltb_spec (len map) sizeof_Ehdr); [by exists None|]. destruct Hmap as (eh & shs & needed & Hok); [done|].
  pose proof (ok_wf _ _ _ (lib_image _ _ _ _ Hok)) as Hwf. rewrite (wf_ehdr _ _ _ Hwf). cbn [mbind option_bind].
  destruct (negb _ || _) eqn:Em; [by exists None|]. fold (lib_bias (length libs) eh).
  destruct (map_lib_segments_spec memory_fill write_ok fill_writes map eh shs Hwf (lib_bias (length libs) eh) mem) as (ok & mem1 & -> & _ & Hok1).
  cbn [mbind option_bind]. destruct ok; cbn [negb]; [|by exists None]. destruct (Hok1 eq_refl) as (-> & _ & _).
  destruct (apply_lib_rela_spec (M:=M) map eh shs (lib_bias (length libs) eh) Hwf (ok_stride _ _ _ (lib_image _ _ _ _ Hok))) as (ws & Hws & Hin).
  rewrite Hws. cbn [mbind option_bind]. eexists. split; [done|]. intros lib mem' [= <- <-].
  exists (MkImage map eh shs needed). split; [done|]. split; [done|]. split; [cbn; lia|]. split; [done|]. by exists ws.
Qed.

Lemma walk_spec k q libs st mem :
  env_ok -> Forall no_nul q -> names_ok st -> (k + length libs = MAX_RUNTIME_LIBS)%nat ->
  exists ok libs' st' mem', lib_walk env use_lua_bridge memory_fill write_ok k (length libs) q libs st mem = Some (ok, libs', st', mem')
    /\ (ok = true -> exists ims q', chain (length libs) q ims q' /\ libs' = libs ++ from im_lib (length libs) ims
          /\ st' = foldl add_export st (concat (from im_exports (length libs) ims)) /\ all_loaded (length libs) ims mem mem').
Proof.
  intros Henv. revert q libs st mem. induction k as [|k IH]; intros q libs st mem Hq Hst Hk; cbn [lib_walk].
  { exists true, libs, st, mem. split; [done|]. intros _. exists [], q. rewrite app_nil_r. split_and!; [constructor; lia|done|done|constructor]. }
  destruct (q !! length libs) as [name|] eqn:En.
  2:{ exists true, libs, st, mem. split; [done|]. intros _. exists [], q. rewrite app_nil_r. split_and!; [by apply chain_done|done|done|constructor]. }
  destruct (open_lib env _) as [map|] eqn:Eo; [|by exists false, libs, st, mem].
  destruct (load_lib_spec map libs mem) as (r & -> & Hr); [by eapply Henv|]. cbn [mbind option_bind].
  destruct r as [[lib mem1]|]; [|by exists false, libs, st, mem].
  destruct (Hr lib mem1 eq_refl) as (im & <- & Him & Hmach & -> & Hload). pose proof (ok_wf _ _ _ (lib_image _ _ _ _ Him)) as Hwf.
  unfold im_lib. rewrite (build_symtab_spec _ _ _ Hwf) by done. cbn [mbind option_bind].
  rewrite (get_dt_needed_spec _ _ _ Hwf).
  2:{ intros ph Hph Ht. destruct (phdrs_fields _ _ _ Hwf ph _ 0 ltac:(done) Hph) as ([? _] & [? _] & _).
      split_and!; [done..|by apply (lib_dynamic _ _ _ _ Him)]. }
  cbn [mbind option_bind]. rewrite (enqueue_spec _ _ _ _ (lib_names _ _ _ _ Him)) by done. cbn [mbind option_bind].
  replace (S (length libs)) with (length (libs ++ [im_lib (length libs) im])) by (rewrite length_app; cbn; lia).
  fold (im_lib (length libs) im). fold (im_exports (length libs) im).
  destruct (IH (foldl enq q (im_needed im)) (libs ++ [im_lib (length libs) im]) (foldl add_export st (im_exports (length libs) im)) mem1)
    as (ok & libs' & st' & mem' & -> & Hok).
  { apply enqs_no_nul; [done|]. by eapply names_at_no_nul, (lib_names _ _ _ _ Him). }
  { apply names_ok_add; [done|]. apply exports_no_nul. }
  { rewrite length_app. cbn. lia. }
  exists ok, libs', st', mem'. split; [done|]. intros (ims & q' & Hc & -> & -> & Hl)%Hok. rewrite length_app, Nat.add_1_r in *.
  exists (im :: ims), q'. cbn [from concat]. rewrite <-app_assoc, foldl_app. split_and!; [|done|done|by econstructor].
  apply chain_load with name; try done. lia.
Qed.

Lemma chain_prefix i q ims q' : chain i q ims q' -> q `prefix_of` q'.
Proof. induction 1 as [| |i q name im ims q' _ _ _ _ _ _ IH]; [done|done|]. etrans; [apply enqs_prefix|exact IH]. Qed.

Lemma chain_im_ok i q ims q' : chain i q ims q' -> Forall im_ok ims.
Proof. induction 1; by constructor. Qed.

(** Every name in the queue is that of a library that was loaded, in this order. *)
Lemma load_order_length i q ims q' :
  chain i q ims q' -> (i <= length q)%nat -> (length q <= MAX_RUNTIME_LIBS)%nat -> (i + length ims = length q')%nat /\ (length q' <= MAX_RUNTIME_LIBS)%nat.
Proof.
  induction 1 as [i q Hi|i q Hi%lookup_ge_None|i q name im ims q' Hi Hn%lookup_lt_Some _ _ _ _ IH]; intros Hiq Hq; cbn [length]; [lia..|].
  destruct IH as [<- ?]; [|by apply enqs_bound|split; lia].
  destruct (enqs_prefix q (im_needed im)) as [t ->]. rewrite length_app. lia.
Qed.

Lemma chain_names i q ims q' j im :
  chain i q ims q' -> ims !! j = Some im ->
  exists name, q' !! (i + j)%nat = Some name /\ open_lib env (open_name use_lua_bridge name) = Some (im_map im).
Proof.
  intros Hc. revert j. induction Hc as [| |i q name im' ims q' Hi Hn Ho Hok Hm Hc IH]; intros j Hj; [done..|]. destruct j as [|j].
  - injection Hj as <-. exists name. split; [|done]. rewrite Nat.add_0_r. eapply prefix_lookup_Some; [exact Hn|].
    etrans; [apply enqs_prefix|by eapply chain_prefix].
  - destruct (IH j Hj) as (name' & ? & ?). exists name'. by rewrite Nat.add_succ_r.
Qed.

Lemma chain_closed i q ims q' im n :
  chain i q ims q' -> (i <= length q)%nat -> (length q <= MAX_RUNTIME_LIBS)%nat ->
  im ∈ ims -> n ∈ im_needed im -> (length n <= 63)%nat -> n ∈ q' \/ length q' = MAX_RUNTIME_LIBS.
Proof.
  intros Hc. induction Hc as [| |i q name im' ims q' Hi Hn Ho Hok Hm Hc IH]; intros Hiq Hq Hin Hnn Hl; [by apply elem_of_nil in Hin..|].
  apply lookup_lt_Some in Hn. destruct (enqs_prefix q (im_needed im')) as [t Ht]. pose proof (enqs_bound q (im_needed im') Hq) as Hb.
  assert (S i <= length (foldl enq q (im_needed im')))%nat as Hsi by (rewrite Ht, length_app; lia).
  apply elem_of_cons in Hin as [->|Hin]; [|by apply IH].
  destruct (enqs_elem q (im_needed im') n Hnn Hl) as [He|[He|?]]; [left|right|lia].
  - eapply elem_of_prefix; [exact He|by eapply chain_prefix].
  - destruct (load_order_length _ _ _ _ Hc Hsi Hb) as [_ Hle]. destruct (chain_prefix _ _ _ _ Hc) as [u Hu]. rewrite Hu, length_app in *. lia.
Qed.
End walk.

(** ** The libraries the cart needs *)

Definition cart_offsets (map : list Z) (eh : Elf32_Ehdr) (shs : list Elf32_Shdr) : list Z :=
  match last_dynamic shs, (hdr ← zget shs (e_shstrndx eh); last (filter (dynstr_named map (sh_offset hdr)) shs)) with
  | Some d, Some s =>
      omap (fun '(tag, v) => if tag =? DT_NEEDED then Some (sh_offset s + v) else None)
        (dyn_entries map (Z.to_nat (sh_size d / sizeof_Dyn)) (sh_offset d) sizeof_Dyn)
  | _, _ => []
  end.
Record cart_ok (map : list Z) (eh : Elf32_Ehdr) (shs : list Elf32_Shdr) (needed : list (list Z)) : Prop := {
  cart_image : image_ok map eh shs;
  cart_names : names_at map (cart_offsets map eh shs) needed }.
Definition seeds (needed : list (list Z)) : list (list Z) := take MAX_RUNTIME_LIBS (take 63 <$> needed).

Lemma last_dynamic_elem shs d : last_dynamic shs = Some d -> d ∈ shs /\ sh_type d = SHT_DYNAMIC.
Proof.
  assert (last_dynamic shs = last (filter (fun sh => sh_type sh = SHT_DYNAMIC) shs)) as ->.
  { transitivity (foldl (pick (fun sh => sh_type sh = SHT_DYNAMIC)) None shs); [|rewrite foldl_pick; by destruct (last _)].
    unfold last_dynamic. generalize (None (A:=Elf32_Shdr)). induction shs as [|sh shs IH]; intros o; cbn; [done|]. rewrite IH. f_equal.
    unfold pick. destruct (Z.eqb_spec (sh_type sh) SHT_DYNAMIC); [by rewrite decide_True|by rewrite decide_False]. }
  intros [Ht Hin]%last_Some_elem_of%list_elem_of_filter. done.
Qed.

Lemma seed_queue_spec k p map str needed q :
  bytes_ok map -> 0 <= p -> p + Z.of_nat k * sizeof_Dyn <= len map -> (length q <= MAX_RUNTIME_LIBS)%nat ->
  names_at map (omap (fun '(tag, v) => if tag =? DT_NEEDED then Some (str + v) else None) (dyn_entries map k p sizeof_Dyn)) needed ->
  seed_queue k p map str q = Some (take MAX_RUNTIME_LIBS (q ++ (take 63 <$> needed))).
Proof.
  intros Hm. unfold sizeof_Dyn. revert p q needed; induction k as [|k IH]; intros p q needed Hp Hl Hq; cbn [seed_queue dyn_entries].
  { intros Hn. inversion Hn; subst. cbn. by rewrite app_nil_r, take_ge. }
  destruct (d_tag_total map p) as [[tag Ht] [v Hv]]; [done|done|lia|]. rewrite Ht, Hv. cbn [mbind option_bind default].
  destruct (Nat.leb_spec MAX_RUNTIME_LIBS (length q)).
  { intros _. rewrite take_app_le by done. by rewrite take_ge. }
  destruct (tag =? DT_NULL).
  { intros Hn. inversion Hn; subst. cbn. by rewrite app_nil_r, take_ge. }
  unfold sizeof_Dyn. cbn [omap list_omap]. destruct (tag =? DT_NEEDED).
  - intros Hn. inversion Hn as [|o n offs ns [Ho Hs] Hns]; subst. rewrite (strncpy_at_spec _ _ _ n) by done. cbn [mbind option_bind].
    rewrite (IH _ _ ns) by (done || lia || (rewrite length_app; cbn; lia)). cbn [fmap list_fmap]. by rewrite <-app_assoc.
  - apply IH; lia.
Qed.

Lemma cart_queue_spec map eh shs needed : cart_ok map eh shs needed -> cart_queue map = Some (seeds needed).
Proof.
  intros [[Hwf Hstride] Hnames]. destruct (wf_ehdr_fields _ _ _ Hwf) as (_ & Hn & [Hx _] & _). pose proof (wf_index _ _ _ Hwf) as Hi.
  unfold cart_queue. rewrite (wf_ehdr _ _ _ Hwf). cbn [mbind option_bind]. unfold is_u16 in *.
  rewrite Hstride, Z.geb_leb, (proj2 (Z.leb_le _ _)), (proj2 (Z.gtb_lt _ _)) by lia. cbn [andb].
  destruct (shdr_at _ _ _ (e_shstrndx eh) (wf_shdrs _ _ _ Hwf)) as (hdr & Hg & ->); [lia|].
  rewrite (wf_shdrs _ _ _ Hwf). cbn [mbind option_bind]. rewrite named_dynstr_spec; [|apply Hwf|by intros sh; apply (wf_strings _ _ _ Hwf)].
  cbn [mbind option_bind]. unfold cart_offsets in Hnames. rewrite Hg in Hnames. cbn [mbind option_bind] in Hnames.
  destruct (last_dynamic shs) as [d|] eqn:Ed; [|by inversion Hnames].
  destruct (last (filter _ shs)) as [s|] eqn:Es; [|by inversion Hnames].
  apply last_dynamic_elem in Ed as [Hd Ht]. destruct (wf_shdr _ _ _ Hwf d Hd) as (_ & [Ho _] & [Hs _] & _).
  assert (sh_offset d + Z.of_nat (Z.to_nat (sh_size d / sizeof_Dyn)) * sizeof_Dyn <= len map \/ Z.to_nat (sh_size d / sizeof_Dyn) = 0%nat) as Hl.
  { rewrite Z2Nat.id by (apply Z.div_pos; done || lia). pose proof (Z.mul_div_le (sh_size d) sizeof_Dyn ltac:(done)).
    destruct (Z.le_gt_cases (sh_size d) 0); [right|left].
    - replace (sh_size d) with 0 by lia. done.
    - pose proof (wf_sections _ _ _ Hwf d Hd) as Hf. unfold in_file in Hf. rewrite Ht in Hf. unfold link_types in Hf.
      specialize (Hf ltac:(do 2 right; left) ltac:(lia)). lia. }
  destruct Hl as [Hl|Hl].
  - apply (seed_queue_spec _ _ _ _ needed []); [apply Hwf|done|done|cbn; lia|exact Hnames].
  - rewrite Hl in *. cbn [dyn_entries omap list_omap] in Hnames. by inversion Hnames.
Qed.

(** ** The whole link *)

(** The combined table: the cart's own symbols come first. *)
Definition link_symbols (cart_exports : blyt_symtab_t) (ims : list image) : blyt_symtab_t :=
  append_symtab (foldl add_export [] cart_exports) (foldl add_export [] (concat (from im_exports 0 ims))).

(** A word that some relocation of the cart or of a library sets. *)
Definition link_binds (map : list Z) (eh : Elf32_Ehdr) (shs : list Elf32_Shdr) (ims : list image) (all : blyt_symtab_t) (a v : Z) : Prop :=
  image_binds map eh shs 0 all a v
  \/ exists j im, ims !! j = Some im /\ image_binds (im_map im) (im_eh im) (im_shs im) (lib_bias j (im_eh im)) all a v.

(** The words the loader sets in the C library. *)
Definition stamp_words (all : blyt_symtab_t) (debug : bool) : list (Z * Z) :=
  let base := symtab_lookup all (text "blytc_arena_base") in
  let size := symtab_lookup all (text "blytc_arena_size") in
  let flags := symtab_lookup all (text "blyt_runtime_flags") in
  (if negb (base =? 0) && negb (size =? 0) then [(base, BLYT_ARENA_BASE); (size, BLYT_ARENA_SIZE)] else [])
  ++ (if flags =? 0 then [] else [(flags, if debug then 1 else 0)]).

Lemma names_ok_symbols cart_exports ims :
  Forall (fun e => no_nul (fst e)) cart_exports -> names_ok (link_symbols cart_exports ims).
Proof.
  intros Hc. unfold link_symbols, append_symtab, names_ok. apply Forall_take, Forall_app. split; (apply names_ok_add; [constructor|]); [done|].
  generalize 0%nat. induction ims as [|im ims IH]; intros i; cbn; [constructor|]. apply Forall_app. split; [apply exports_no_nul|apply IH].
Qed.

Section link.
Context {M : Type} `{GuestMemory M} (env : link_env) (use_lua_bridge : bool).
Variable memory_fill : M -> Z -> Z -> Z -> M.
Variable write_ok : M -> Z -> Z -> bool.
Hypothesis fill_writes : forall m a n v, 0 <= n -> memory_fill m a n v = memory_write m a (replicate (Z.to_nat n) v).

Lemma resolve_libs_spec i ims syms :
  Forall im_ok ims -> names_ok syms ->
  puts (M:=M) (resolve_libs (from im_lib i ims) syms)
    (fun a v => exists j im, ims !! j = Some im /\ image_binds (im_map im) (im_eh im) (im_shs im) (lib_bias (i + j) (im_eh im)) syms a v).
Proof.
  intros Hims Hs. revert i; induction Hims as [|im ims Him _ IH]; intros i; cbn [from resolve_libs].
  { apply puts_none. by intros a v (j & im & [=] & _). }
  eapply puts_seq; [apply resolve_elf_plt_spec; [apply (lib_image _ _ _ _ Him)|done]|apply (IH (S i))|]. intros a v. cbv beta. split.
  - intros ([|j] & im' & Hj & Hb); [left|right; exists j, im'; by rewrite Nat.add_succ_comm]. injection Hj as <-. by rewrite Nat.add_0_r in Hb.
  - intros [Hb|(j & im' & Hj & Hb)]; [exists 0%nat, im; by rewrite Nat.add_0_r|exists (S j), im'; by rewrite Nat.add_succ_r].
Qed.

Lemma stamps_spec all (debug : bool) (mem : M) :
  stamp (symtab_lookup all (text "blyt_runtime_flags")) (if debug then 1 else 0) (stamp_arena all mem) = put_words (stamp_words all debug) mem.
Proof. unfold stamp, stamp_arena, stamp_words. cbv zeta. by destruct (_ && _), (_ =? 0). Qed.

Lemma dynlink_spec alloc_ok cart mem eh shs needed :
  cart_ok (CartLoad.cart_map cart) eh shs needed -> env_ok env ->
  exists r, dynlink env use_lua_bridge memory_fill write_ok alloc_ok cart mem = Some r
    /\ forall lk mem', r = Some (lk, mem') ->
         exists ims q mem1 ws, let all := link_symbols (exports (CartLoad.cart_map cart) eh shs 0) ims in
           chain env use_lua_bridge 0 (seeds needed) ims q /\ all_loaded 0 ims mem mem1
           /\ retained_libs lk = from im_lib 0 ims /\ lib_syms lk = foldl add_export [] (concat (from im_exports 0 ims))
           /\ k_fns lk = resolve_cart_entry_points all
           /\ k_arena_ready_vaddr lk = symtab_lookup all (text "blytc_arena_ready") /\ k_mem_acct_vaddr lk = symtab_lookup all (text "blyt_mem_acct")
           /\ mem' = put_words (ws ++ stamp_words all (CartLoad.cart_is_debug cart)) mem1
           /\ forall a v, (a, v) ∈ ws <-> image_rebases (CartLoad.cart_map cart) shs 0 a v \/ link_binds (CartLoad.cart_map cart) eh shs ims all a v.
Proof.
  intros Hcart Henv. unfold dynlink. destruct alloc_ok; cbn [negb]; [|by exists None].
  pose proof (cart_image _ _ _ _ Hcart) as [Hwf Hstride]. rewrite (build_symtab_spec _ _ _ Hwf) by constructor. cbn [mbind option_bind].
  rewrite (cart_queue_spec _ _ _ _ Hcart). cbn [mbind option_bind].
  assert (Forall no_nul (seeds needed)) as Hseeds.
  { apply Forall_take, Forall_fmap. eapply Forall_impl; [eapply names_at_no_nul, (cart_names _ _ _ _ Hcart)|]. intros n Hn. by apply Forall_take. }
  destruct (walk_spec env use_lua_bridge memory_fill write_ok fill_writes MAX_RUNTIME_LIBS (seeds needed) [] [] mem)
    as (ok & libs & st & mem1 & Hw & Hok); [done|done|constructor|done|].
  cbn [length] in *. rewrite Hw. cbn [mbind option_bind]. destruct ok; cbn [negb]; [|by exists None].
  destruct (Hok eq_refl) as (ims & q & Hc & -> & -> & Hl). cbn [app].
  set (all := link_symbols (exports (CartLoad.cart_map cart) eh shs 0) ims).
  pose proof (chain_im_ok _ _ _ _ _ _ Hc) as Hims.
  assert (names_ok all) as Hall by (apply names_ok_symbols, exports_no_nul).
  destruct (apply_lib_rela_spec (M:=M) _ _ _ 0 Hwf Hstride) as (ws1 & -> & H1). cbn [mbind option_bind].
  fold (link_symbols (exports (CartLoad.cart_map cart) eh shs 0) ims). fold all.
  destruct (resolve_libs_spec 0 ims all Hims Hall) as (ws2 & -> & H2). cbn [mbind option_bind].
  destruct (resolve_elf_plt_spec (M:=M) _ _ _ 0 all Hwf Hall) as (ws3 & Hws3 & H3). rewrite Hws3. cbn [mbind option_bind].
  eexists. split; [done|]. intros lk mem' [= <- <-].
  exists ims, q, mem1, (ws1 ++ ws2 ++ ws3). cbv zeta. fold all. split_and!; try done.
  - cbn [blyt_cart_is_debug]. by rewrite stamps_spec, !put_words_app.
  - intros a v. rewrite !elem_of_app, H1, H2, H3. unfold link_binds. cbn [Nat.add]. tauto.
Qed.
End link.
