(* ===== verification/DynLinkTheorems.v ===== *)
(** * DynLinkTheorems: what a link does

    The theorems on loading and linking the guest libraries. *)

From S2P Require Import Prelude MemBudget ElfSection Elf32 CartLoad CartLoadSpec CartLoadDynamic RunCtx DynLink DynLinkSpec DynLinkSymbols DynLinkLoad DynLinkWalk.
From Stdlib Require Import ZArith Lia Strings.String.
From stdpp Require Import base tactics list.
Open Scope Z_scope.

(** The addresses of the libraries do not overflow. *)
Lemma lib_bias_exact i eh : (i < MAX_RUNTIME_LIBS)%nat -> e_type eh = ET_DYN -> lib_bias i eh = GUEST_LIB_BASE + Z.of_nat i * GUEST_LIB_STRIDE.
Proof.
  unfold lib_bias, GUEST_LIB_BASE, GUEST_LIB_STRIDE, MAX_RUNTIME_LIBS. intros Hi ->. cbn [Z.eqb ET_DYN Pos.eqb].
  apply u32_id. unfold is_u32. lia.
Qed.

(** All definitions of a link, the cart's first. *)
Definition definitions (cart_exports : blyt_symtab_t) (ims : list image) : blyt_symtab_t := cart_exports ++ concat (from im_exports 0 ims).
(** They fit the tables, and no name is cut off. *)
Definition tables_fit (defs : blyt_symtab_t) : Prop := (length defs <= MAX_SYMS)%nat /\ Forall (fun e => (length (fst e) <= 127)%nat) defs.

Lemma link_symbols_lookup cart_exports ims name :
  tables_fit (definitions cart_exports ims) ->
  symtab_lookup (link_symbols cart_exports ims) name = symtab_lookup (definitions cart_exports ims) name.
Proof.
  unfold tables_fit, definitions, link_symbols, append_symtab. intros [Hl [Hc Hi]%Forall_app]. rewrite length_app in Hl.
  assert (forall st es, (length (foldl add_export st es) <= length st + length es)%nat) as Hlen.
  { intros st es; revert st; induction es as [|e es IH]; intros st; cbn [foldl length]; [lia|]. etrans; [apply IH|]. unfold add_export.
    repeat case_match; rewrite ?length_app; cbn; lia. }
  pose proof (Hlen [] cart_exports). pose proof (Hlen [] (concat (from im_exports 0 ims))). cbn [length] in *.
  rewrite take_ge by (rewrite length_app; lia). rewrite !symtab_lookup_app.
  rewrite (add_exports_lookup [] cart_exports name), (add_exports_lookup [] (concat (from im_exports 0 ims)) name) by (cbn; lia || done). cbn [app].
  assert (name ∈ (foldl add_export [] cart_exports).*1 <-> name ∈ cart_exports.*1) as Hdom.
  { rewrite add_exports_names by (cbn; lia || done). cbn. rewrite elem_of_nil. tauto. }
  by rewrite (bool_decide_ext _ _ Hdom).
Qed.

(** Only what a lookup finds counts. *)
Lemma image_binds_ext map eh shs bias syms syms' a v :
  (forall name, symtab_lookup syms name = symtab_lookup syms' name) -> image_binds map eh shs bias syms a v <-> image_binds map eh shs bias syms' a v.
Proof. intros Hl. unfold image_binds, binds. by setoid_rewrite Hl. Qed.
Lemma link_binds_ext map eh shs ims syms syms' :
  (forall name, symtab_lookup syms name = symtab_lookup syms' name) ->
  forall a v, link_binds map eh shs ims syms a v <-> link_binds map eh shs ims syms' a v.
Proof.
  intros Hl a v. unfold link_binds. rewrite (image_binds_ext _ _ _ _ _ _ _ _ Hl). apply or_iff_compat_l.
  split; intros (j & im & Hj & Hb); exists j, im; (split; [done|]); by apply (image_binds_ext _ _ _ _ _ _ _ _ Hl).
Qed.

Section theorems.
Context {M : Type} `{GuestMemory M} (env : link_env) (use_lua_bridge : bool).
Variable memory_fill : M -> Z -> Z -> Z -> M.
Variable write_ok : M -> Z -> Z -> bool.
Hypothesis fill_writes : forall m a n v, 0 <= n -> memory_fill m a n v = memory_write m a (replicate (Z.to_nat n) v).

(** Whether a link succeeds or not, it reads no byte outside of the images, when the linking
    information of the cart and of the libraries lies in them. *)
Theorem dynlink_stays_inside alloc_ok cart mem eh shs needed :
  cart_ok (CartLoad.cart_map cart) eh shs needed -> env_ok env ->
  dynlink env use_lua_bridge memory_fill write_ok alloc_ok cart mem <> None.
Proof.
  intros Hc He. destruct (dynlink_spec env use_lua_bridge memory_fill write_ok fill_writes alloc_ok cart mem eh shs needed Hc He) as (r & -> & _). done.
Qed.

(** C8: The libraries of a link.  There is a queue of at most eight names that begins with those the
    cart needs; the libraries the session keeps are those opened under these names, in this order, each at its own
    address, 2 MB apart; and the queue is closed: it holds what every loaded library needs, unless it
    is full. *)
Theorem dynlink_libraries alloc_ok cart mem eh shs needed lk mem' :
  cart_ok (CartLoad.cart_map cart) eh shs needed -> env_ok env ->
  dynlink env use_lua_bridge memory_fill write_ok alloc_ok cart mem = Some (Some (lk, mem')) ->
  exists q,
    seeds needed `prefix_of` q /\ (length q <= MAX_RUNTIME_LIBS)%nat /\ length (retained_libs lk) = length q
    /\ forall j lib, retained_libs lk !! j = Some lib ->
         exists im name,
           q !! j = Some name /\ open_lib env (open_name use_lua_bridge name) = Some (l_map lib)
           /\ im_ok im /\ im_map im = l_map lib
           /\ l_bias lib = (if e_type (im_eh im) =? ET_DYN then GUEST_LIB_BASE + Z.of_nat j * GUEST_LIB_STRIDE else 0)
           /\ (forall n, n ∈ im_needed im -> (length n <= 63)%nat -> n ∈ q \/ length q = MAX_RUNTIME_LIBS).
Proof.
  intros Hc He Hd. destruct (dynlink_spec env use_lua_bridge memory_fill write_ok fill_writes alloc_ok cart mem eh shs needed Hc He) as (r & Hr & Hok).
  rewrite Hd in Hr. injection Hr as <-. destruct (Hok lk mem' eq_refl) as (ims & q & mem1 & ws & Hch & _ & Hlibs & _).
  assert (length (seeds needed) <= MAX_RUNTIME_LIBS)%nat as Hs by (unfold seeds; rewrite length_take; lia).
  destruct (load_order_length _ _ _ _ _ _ Hch) as [Hlen Hq]; [lia|done|]. exists q. rewrite Hlibs, from_length.
  split_and!; [by eapply chain_prefix|done|done|]. intros j lib Hj. rewrite from_lookup in Hj. cbn [Nat.add] in Hj.
  destruct (ims !! j) as [im|] eqn:Ej; [|done]. injection Hj as <-. destruct (chain_names _ _ _ _ _ _ _ _ Hch Ej) as (name & Hn & Ho).
  exists im, name. cbn [Nat.add im_lib l_map l_bias] in *. split_and!; [done|done| |done| |].
  - eapply Forall_lookup_1; [by eapply chain_im_ok|done].
  - destruct (Z.eqb_spec (e_type (im_eh im)) ET_DYN) as [Et|Et]; [|unfold lib_bias; by rewrite (proj2 (Z.eqb_neq _ _))].
    apply lib_bias_exact; [|done]. apply lookup_lt_Some in Ej. lia.
  - intros n Hnn Hl. eapply (chain_closed _ _ 0); [done|lia|done|by eapply list_elem_of_lookup_2|done|done].
Qed.

(** C9: The words of a link.  Let the definitions be the exports of the cart and then those of the libraries
    in load order, few enough for the tables.  When a relocation of the cart or of a library binds a word to
    a symbol, the guest finds there the address of the first definition of that symbol (0 for a weak
    symbol without one), unless something else sets that word too; and the callbacks are the first
    definitions of their names. *)
Theorem dynlink_binds alloc_ok cart mem eh shs needed lk mem' :
  cart_ok (CartLoad.cart_map cart) eh shs needed -> env_ok env ->
  dynlink env use_lua_bridge memory_fill write_ok alloc_ok cart mem = Some (Some (lk, mem')) ->
  exists ims, retained_libs lk = from im_lib 0 ims /\ Forall im_ok ims /\
    let defs := definitions (exports (CartLoad.cart_map cart) eh shs 0) ims in
    tables_fit defs ->
    (forall name, symtab_lookup (lib_syms lk) name = symtab_lookup (concat (from im_exports 0 ims)) name)
    /\ k_fns lk = resolve_cart_entry_points defs
    /\ forall a v,
         link_binds (CartLoad.cart_map cart) eh shs ims defs a v -> 0 <= a -> a + 4 <= ram_size mem' ->
         (forall b w, image_rebases (CartLoad.cart_map cart) shs 0 b w \/ link_binds (CartLoad.cart_map cart) eh shs ims defs b w
                      \/ (b, w) ∈ stamp_words defs (CartLoad.cart_is_debug cart) ->
                      (b = a /\ w = v) \/ a + 4 <= b \/ b + 4 <= a) ->
         memory_read mem' a 4 = write_u32_le v.
Proof.
  intros Hc He Hd. destruct (dynlink_spec env use_lua_bridge memory_fill write_ok fill_writes alloc_ok cart mem eh shs needed Hc He) as (r & Hr & Hok).
  rewrite Hd in Hr. injection Hr as <-. destruct (Hok lk mem' eq_refl) as (ims & q & mem1 & ws & Hch & _ & Hlibs & Hsyms & Hfns & _ & _ & -> & Hws).
  exists ims. split; [done|]. split; [by eapply chain_im_ok|]. intros defs Hfit. cbv zeta in *.
  pose proof (fun name => link_symbols_lookup _ _ name Hfit) as Hlook. fold defs in Hlook.
  split; [|split].
  - intros name. rewrite Hsyms. destruct Hfit as [Hl Hs]. apply Forall_app in Hs as [_ Hs]. unfold defs, definitions in Hl. rewrite length_app in Hl.
    apply (add_exports_lookup []); [cbn; lia|done].
  - rewrite Hfns. unfold resolve_cart_entry_points. by rewrite !Hlook.
  - intros a v Hb Ha Hram Hother. rewrite put_words_size in Hram. apply put_words_read; [|done|done|].
    + apply elem_of_app. left. apply Hws. right. by apply (link_binds_ext _ _ _ _ _ _ Hlook).
    + intros b w Hin. apply Hother. apply elem_of_app in Hin as [Hin|Hin].
      * apply Hws in Hin as [?|Hin]; [by left|right; left]. by apply (link_binds_ext _ _ _ _ _ _ Hlook).
      * right. right. unfold stamp_words in *. by rewrite !Hlook in Hin.
Qed.

(** C10: A library in memory.  When its segments are mapped, the guest reads the bytes of the
    file at the address of each segment and zeros in the rest of its memory, and no byte outside of the
    segments has changed. *)
Theorem map_lib_segments_exact map eh shs bias mem mem' :
  image_wf map eh shs -> map_lib_segments memory_fill write_ok (MkLib map bias) mem = Some (true, mem') ->
  placed map bias (ram_size mem) (loads map eh) -> ram_size mem < 2 ^ 32 ->
  (forall ph, ph ∈ loads map eh ->
     memory_read mem' (seg_addr bias ph) (p_filesz ph) = sub map (p_offset ph) (p_filesz ph)
     /\ (p_filesz ph < p_memsz ph ->
         memory_read mem' (seg_addr bias ph + p_filesz ph) (p_memsz ph - p_filesz ph) = replicate (Z.to_nat (p_memsz ph - p_filesz ph)) 0))
  /\ (forall a n, 0 <= n ->
        Forall (fun ph => a + n <= seg_addr bias ph \/ seg_addr bias ph + seg_extent ph <= a) (loads map eh) ->
        memory_read mem' a n = memory_read mem a n).
Proof.
  intros Hwf Hmap Hp Hram. destruct (map_lib_segments_spec memory_fill write_ok fill_writes map eh shs Hwf bias mem) as (ok & mem1 & Hr & _ & Hs).
  rewrite Hmap in Hr. injection Hr as <- <-. destruct (Hs eq_refl) as (-> & _ & _). split.
  - intros ph Hph. by apply image_segment.
  - intros a n Hn Ha. by apply (image_other map bias (ram_size mem) (loads map eh)).
Qed.
End theorems.
