(* ===== verification/DynLinkImages.v ===== *)
(** * DynLinkImages: small libraries, and what a link lets through

    A builder of ELF images with any sections, two libraries and a cart that meet the hypotheses
    of the theorems on linking, and a cart that the loader accepts though it links against a library
    and a symbol that are on no list. *)

From S2P Require Import Prelude MemBudget ElfSection Elf32 CartLoad CartLoadSpec CartLoadDynamic CartImages RunCtx DynLink DynLinkSpec DynLinkSymbols DynLinkLoad DynLinkWalk DynLinkTheorems.
From Stdlib Require Import ZArith Lia Strings.String.
From stdpp Require Import base tactics list.
Open Scope Z_scope.

(** ** The builder *)

Record section := MkSection { s_name : string; s_type : Z; s_addr : Z; s_link : Z; s_entsize : Z; s_data : list Z }.

Definition section_names (ss : list section) : list Z := [0] ++ concat (str ∘ s_name <$> ss) ++ str ".shstrtab".
Fixpoint name_offsets (off : Z) (ss : list section) : list Z :=
  match ss with [] => [off] | s :: ss => off :: name_offsets (off + len (str (s_name s))) ss end.
Fixpoint data_offsets (off : Z) (ss : list section) : list Z :=
  match ss with [] => [off] | s :: ss => off :: data_offsets (off + len (s_data s)) ss end.

(** The header, the program headers, the data of the sections and their names, the section headers.
    The entry point and the program headers are given the offsets of the sections, from 1 on. *)
Definition elf (entry : (nat -> Z) -> Z) (phs : (nat -> Z) -> list (list Z)) (ss : list section) : list Z :=
  let nph := len (phs (fun _ => 0)) in
  let offs := data_offsets (52 + 32 * nph) ss in
  let at_section i := default 0 (offs !! Nat.pred i) in
  let names := section_names ss in
  let shstr := at_section (S (length ss)) in
  ehdr_bytes (entry at_section) 52 (shstr + len names) nph (2 + len ss) (1 + len ss)
  ++ concat (phs at_section) ++ concat (s_data <$> ss) ++ names
  ++ shdr_bytes 0 0 0 0 0 0 0
  ++ concat ((fun '(s, (n, off)) => shdr_bytes n (s_type s) (s_addr s) off (len (s_data s)) (s_link s) (s_entsize s))
               <$> zip ss (zip (name_offsets 1 ss) offs))
  ++ shdr_bytes (default 0 (name_offsets 1 ss !! length ss)) SHT_STRTAB 0 shstr (len names) 0 0.

Definition segment (ty off vaddr filesz memsz flags : Z) : list Z :=
  b32 ty ++ b32 off ++ b32 vaddr ++ b32 vaddr ++ b32 filesz ++ b32 memsz ++ b32 flags ++ b32 4.
Definition symbol (name value info shndx : Z) : list Z := b32 name ++ b32 value ++ b32 0 ++ [info; 0] ++ b16 shndx.
Definition rela (off sym ty addend : Z) : list Z := b32 off ++ b32 (256 * sym + ty) ++ b32 addend.

(** Where a string is in a string table: behind the NUL, one after the other. *)
Definition strtab (l : list string) : list Z := [0] ++ concat (str <$> l).
Fixpoint str_index (off : Z) (l : list string) (s : string) : Z :=
  match l with [] => 0 | x :: l => if String.eqb x s then off else str_index (off + len (str x)) l s end.
Definition ix (l : list string) (s : string) : Z := str_index 1 l s.

(** ** Two libraries *)

(** One loadable segment at 0, with room behind the file up to [0x1010]; the dynamic segment is section 2. *)
Definition library (strings : list string) (needed : list string) (symbols relas : list (list Z)) : list Z :=
  let dynamic := (dyn_bytes DT_NEEDED ∘ ix strings <$> needed) ++ [dyn_bytes DT_STRTAB 116; dyn_bytes DT_NULL 0] in
  elf (fun _ => 0)
    (fun at_section => [segment PT_LOAD 0 0 400 0x1010 (PF_R + PF_X); segment PT_DYNAMIC (at_section 2%nat) (at_section 2%nat) (8 * len dynamic) (8 * len dynamic) PF_R])
    [MkSection ".dynstr" SHT_STRTAB 0 0 0 (strtab strings);
     MkSection ".dynamic" SHT_DYNAMIC 0 1 8 (concat dynamic);
     MkSection ".dynsym" SHT_DYNSYM 0 1 16 (concat symbols);
     MkSection ".rela" SHT_RELA 0 3 12 (concat relas)].

Definition c_strings : list string := ["blytc_arena_base"; "blytc_arena_size"; "malloc"]%string.
(** The C library: the arena variables, and a function. *)
Definition libblytc : list Z :=
  library c_strings [] [symbol 0 0 0 0; symbol (ix c_strings "blytc_arena_base") 0x1000 0x11 1;
                        symbol (ix c_strings "blytc_arena_size") 0x1004 0x11 1; symbol (ix c_strings "malloc") 0x50 0x12 1] [].

Definition b_strings : list string := ["libblytc.so"; "blyt_quit"; "malloc"]%string.
(** The runtime library: a function, a pointer to it, and a call of the C library. *)
Definition libblyt32 : list Z :=
  library b_strings ["libblytc.so"%string] [symbol 0 0 0 0; symbol (ix b_strings "blyt_quit") 0x40 0x12 1; symbol (ix b_strings "malloc") 0 0x12 0]
    [rela 0x1000 2 R_RISCV_JUMP_SLOT 0; rela 0x1004 0 R_RISCV_RELATIVE 0x40].

(** ** A cart *)

Definition interp_path : list Z := BLYT_INTERP_PATH ++ [0].
Definition info_bytes : list Z := CART_INFO_TAG ++ [0; 0; 0; 0; 1; 2; 3; 4].
Definition cart_phs (at_section : nat -> Z) : list (list Z) :=
  [phdr_bytes PT_INTERP (at_section 1%nat) (at_section 1%nat) (len interp_path) PF_R; phdr_bytes PT_GNU_RELRO (at_section 4%nat) (at_section 4%nat) 8 PF_R;
   phdr_bytes PT_LOAD (at_section 2%nat) (at_section 2%nat) 8 (PF_R + PF_X)].

Definition cart_image (strings : list string) (dynamic symbols relas : list (list Z)) (before after : list section) : list Z :=
  elf (fun at_section => at_section 2%nat) cart_phs
    ([MkSection ".interp" 1 0 0 0 interp_path; MkSection ".text" 1 0 0 0 nops; MkSection ".dynstr" SHT_STRTAB 4096 0 0 (strtab strings)]
     ++ [MkSection ".dynamic" SHT_DYNAMIC 0 3 8 (concat dynamic)] ++ before ++ [MkSection ".dynsym" SHT_DYNSYM 0 3 16 (concat symbols)]
     ++ after ++ [MkSection ".rela" SHT_RELA 0 5 12 (concat relas); MkSection ".cart.info" 1 0 0 0 info_bytes]).

Definition k_strings : list string :=
  ["libblyt32.so"; "blyt_quit"; "blyt_cart_init"; "blyt_cart_update"; "blyt_cart_draw"; "raw_syscall"; "../hidden.so"]%string.
Definition k_dynamic (needed : string) : list (list Z) :=
  [dyn_bytes DT_NEEDED (ix k_strings needed); dyn_bytes DT_STRTAB 4096; dyn_bytes DT_STRSZ (len (strtab k_strings)); dyn_bytes DT_NULL 0].
Definition k_symbols : list (list Z) :=
  [symbol 0 0 0 0; symbol (ix k_strings "blyt_quit") 0 0x12 0; symbol (ix k_strings "blyt_cart_init") 0x2010 0x12 1;
   symbol (ix k_strings "blyt_cart_update") 0x2020 0x12 1; symbol (ix k_strings "blyt_cart_draw") 0x2030 0x12 1].
Definition k_relas : list (list Z) := [rela 0x2000 1 R_RISCV_JUMP_SLOT 0].
Definition linked_cart : list Z := cart_image k_strings (k_dynamic "libblyt32.so") k_symbols k_relas [] [].

(** The same with a symbol section before the one the loader checks, and a dynamic section behind it. *)
Definition hidden_cart : list Z :=
  cart_image k_strings (k_dynamic "libblyt32.so") k_symbols k_relas
    [MkSection ".first" SHT_DYNSYM 0 3 16 (concat [symbol 0 0 0 0; symbol (ix k_strings "raw_syscall") 0 0x12 0])]
    [MkSection ".second" SHT_DYNAMIC 0 3 8 (concat (k_dynamic "../hidden.so"))].

Definition opened (map : list Z) : blyt_cart_t := MkCart map (text "demo.cart") false false 0 0 (text "demo") (text "Demo") (text "1.0.0").
Definition open_demo (map : list Z) : checked blyt_cart_t := blyt_cart_open demo_fb (fun _ _ => true) (Some map) true (text "demo.cart").

Example linked_cart_opens : open_demo linked_cart = Accept (opened linked_cart).
Proof. vm_compute. reflexivity. Qed.
Example hidden_cart_opens : open_demo hidden_cart = Accept (opened hidden_cart).
Proof. vm_compute. reflexivity. Qed.

(** ** Checking the hypotheses on an image *)

Definition names_of (map : list Z) (offs : list Z) : option (list (list Z)) := mapM (fun o => if 0 <=? o then str_of map o else None) offs.
Definition in_file_check (map : list Z) (sh : Elf32_Shdr) : bool := negb (0 <? sh_size sh) || (sh_offset sh + sh_size sh <=? len map).
Definition image_check (map : list Z) : bool :=
  (forallb (fun x => (0 <=? x) && (x <? 256)) map) && bool_decide (ends_nul map) &&
  match rd_ehdr map with
  | None => false
  | Some eh =>
      match read_all_shdrs map eh with
      | None => false
      | Some shs =>
          (e_shstrndx eh <? e_shnum eh) && (e_shentsize eh =? sizeof_Shdr)
          && forallb (fun sh => negb (bool_decide (sh_type sh ∈ link_types)) || in_file_check map sh) shs
          && match zget shs (e_shstrndx eh) with
             | Some hdr => forallb (fun sh => negb (sh_type sh =? SHT_STRTAB) || (sh_offset hdr + sh_name sh <? len map)) shs
             | None => true
             end
          && match List.find is_dynsym shs with
             | Some d => match zget shs (sh_link d) with Some s => in_file_check map s | None => true end
             | None => true
             end
      end
  end.

Definition the_ehdr (map : list Z) : Elf32_Ehdr := default (MkEhdr [] 0 0 0 0 0 0 0 0 0 0 0 0 0) (rd_ehdr map).
Definition the_shdrs (map : list Z) : list Elf32_Shdr := default [] (read_all_shdrs map (the_ehdr map)).

Lemma in_file_check_sound map sh : in_file_check map sh = true -> in_file map sh.
Proof. unfold in_file_check, in_file. lia. Qed.

Lemma image_check_sound map : image_check map = true -> image_ok map (the_ehdr map) (the_shdrs map).
Proof.
  unfold image_check. intros [[Hb Hnul]%andb_true_iff H]%andb_true_iff. apply bool_decide_eq_true in Hnul.
  destruct (rd_ehdr map) as [eh|] eqn:Eh; [|done]. destruct (read_all_shdrs map eh) as [shs|] eqn:Es; [|done].
  assert (the_ehdr map = eh) as -> by (unfold the_ehdr; by rewrite Eh). assert (the_shdrs map = shs) as ->.
  { unfold the_shdrs, the_ehdr. rewrite Eh. cbn [from_option]. unfold id. by rewrite Es. }
  apply andb_true_iff in H as [[[[H1 H2]%andb_true_iff H3]%andb_true_iff H4]%andb_true_iff H5]. split; [split|]; try done.
  - by apply image_bytes_ok.
  - lia.
  - intros sh Hin Ht. rewrite forallb_forall in H3. specialize (H3 sh (proj1 (list_elem_of_In _ _) Hin)). cbv beta in H3.
    apply orb_true_iff in H3 as [H3|H3]; [by rewrite bool_decide_true in H3|by apply in_file_check_sound].
  - intros hdr sh Hz Hin Ht. rewrite Hz, forallb_forall in H4. specialize (H4 sh (proj1 (list_elem_of_In _ _) Hin)). cbv beta in H4. lia.
  - intros d s Hd Hz. rewrite Hd, Hz in H5. by apply in_file_check_sound.
  - lia.
Qed.

Lemma names_of_sound map offs names : names_of map offs = Some names -> names_at map offs names.
Proof.
  unfold names_of, names_at. intros Hm%mapM_Some. eapply Forall2_impl; [exact Hm|]. intros o n. cbv beta. case_match eqn:E; [|done]. split; [lia|done].
Qed.

Definition lib_check (map : list Z) : bool :=
  image_check map && forallb (fun ph => negb (p_type ph =? PT_DYNAMIC) || (p_offset ph + p_filesz ph <=? len map)) (file_phdrs map (the_ehdr map))
  && match names_of map (needed_offsets map (the_ehdr map)) with Some _ => true | None => false end.
Lemma lib_check_sound map : lib_check map = true -> exists needed, lib_ok map (the_ehdr map) (the_shdrs map) needed.
Proof.
  unfold lib_check. intros [[Hi Hd]%andb_true_iff Hn]%andb_true_iff. destruct (names_of _ _) as [names|] eqn:En; [|done].
  exists names. split; [by apply image_check_sound| |by apply names_of_sound].
  intros ph Hph Ht. rewrite forallb_forall in Hd. specialize (Hd ph (proj1 (list_elem_of_In _ _) Hph)). cbv beta in Hd. lia.
Qed.

Definition cart_check (map : list Z) : bool :=
  image_check map && match names_of map (cart_offsets map (the_ehdr map) (the_shdrs map)) with Some _ => true | None => false end.
Lemma cart_check_sound map : cart_check map = true -> exists needed, cart_ok map (the_ehdr map) (the_shdrs map) needed.
Proof.
  unfold cart_check. intros [Hi Hn]%andb_true_iff. destruct (names_of _ _) as [names|] eqn:En; [|done].
  exists names. split; [by apply image_check_sound|by apply names_of_sound].
Qed.

(** ** A link *)

Definition demo_env : link_env :=
  MkLinkEnv (blyt_register_lib (text "libblyt32.so") libblyt32 (blyt_register_lib (text "libblytc.so") libblytc [])) None (fun _ => None).
Lemma demo_env_ok : env_ok demo_env.
Proof.
  assert (forallb lib_check [libblytc; libblyt32] = true) as Hc by (vm_compute; reflexivity). rewrite forallb_forall in Hc.
  intros name map Ho _. unfold open_lib in Ho. change (registered demo_env) with [(text "libblytc.so", libblytc); (text "libblyt32.so", libblyt32)] in Ho.
  destruct (List.find _ _) as [[n data]|] eqn:Ef; [|done]. injection Ho as <-. apply List.find_some in Ef as [Hin _].
  destruct (lib_check_sound data) as [needed Hok]; [|by exists (the_ehdr data), (the_shdrs data), needed].
  destruct Hin as [[= <- <-]|[[= <- <-]|[]]]; apply Hc; [by left|by right; left].
Qed.

Definition flat_fill (m : flat) (a n v : Z) : flat := memory_write m a (replicate (Z.to_nat n) v).
Definition demo_ram : flat := MkFlat BLYT_EMU_MEM_SIZE (fun _ => 0).
Definition flat_ok (m : flat) (a n : Z) : bool := a + n <=? flat_size m.
Abbreviation link_demo env map :=
  (dynlink env false flat_fill flat_ok true (opened map) demo_ram).
(** Words of the memory after a link. *)
Definition linked_words (r : option (option (linked * flat))) (addrs : list Z) : option (list Z) :=
  match r with Some (Some (_, mem)) => Some ((fun a => le_val (memory_read mem a 4)) <$> addrs) | _ => None end.

Example demo_words :
  linked_words (link_demo demo_env linked_cart) [0x2000; 0x08001000; 0x08001004; 0x08201000; 0x08201004]
  = Some [0x08000040; 0x08200050; 0x08000040; BLYT_ARENA_BASE; BLYT_ARENA_SIZE].
Proof. vm_compute. reflexivity. Qed.

(** ** Witnesses *)

Definition is_linked (r : option (option (linked * flat))) : bool := match r with Some (Some _) => true | _ => false end.
Lemma is_linked_spec r : is_linked r = true -> exists lk mem, r = Some (Some (lk, mem)).
Proof. destruct r as [[[lk mem]|]|]; try done. by exists lk, mem. Qed.
(** What is kept of a link that succeeds. *)
Definition kept (r : option (option (linked * flat))) : list blyt_lib_t := match r with Some (Some (lk, _)) => retained_libs lk | _ => [] end.

Lemma flat_fill_writes m a n v : 0 <= n -> flat_fill m a n v = memory_write m a (replicate (Z.to_nat n) v).
Proof. done. Qed.

Lemma linked_cart_ok : exists needed, cart_ok (CartLoad.cart_map (opened linked_cart)) (the_ehdr linked_cart) (the_shdrs linked_cart) needed.
Proof. apply cart_check_sound. vm_compute. reflexivity. Qed.

Lemma dynlink_stays_inside_witness : link_demo demo_env linked_cart <> None.
Proof.
  destruct linked_cart_ok as [needed Hc]. exact (dynlink_stays_inside demo_env false flat_fill flat_ok flat_fill_writes true (opened linked_cart) demo_ram _ _ needed Hc demo_env_ok).
Defined.

(** The C library comes second, 2 MB above the runtime library. *)
Lemma dynlink_libraries_witness :
  exists name, open_lib demo_env name = Some libblytc /\ kept (link_demo demo_env linked_cart) !! 1%nat = Some (MkLib libblytc 0x08200000).
Proof.
  destruct linked_cart_ok as [needed Hc]. destruct (is_linked_spec (link_demo demo_env linked_cart)) as (lk & mem & Hl); [vm_compute; reflexivity|].
  destruct (dynlink_libraries demo_env false flat_fill flat_ok flat_fill_writes true (opened linked_cart) demo_ram _ _ needed lk mem Hc demo_env_ok Hl) as (q & _ & _ & _ & Hlibs).
  assert (kept (link_demo demo_env linked_cart) !! 1%nat = Some (MkLib libblytc 0x08200000)) as Hk by (vm_compute; reflexivity).
  assert (retained_libs lk !! 1%nat = Some (MkLib libblytc 0x08200000)) as Hr by (rewrite <-Hk, Hl; reflexivity).
  destruct (Hlibs _ _ Hr) as (im & name & _ & Ho & _). exists name. split; [exact Ho|exact Hk].
Defined.

Lemma map_lib_segments_exact_witness :
  exists mem', map_lib_segments flat_fill (fun _ _ _ => true) (MkLib libblyt32 GUEST_LIB_BASE) demo_ram = Some (true, mem')
    /\ memory_read mem' GUEST_LIB_BASE 400 = sub libblyt32 0 400 /\ memory_read mem' (GUEST_LIB_BASE + 400) 3712 = replicate 3712 0.
Proof.
  assert (exists mem', map_lib_segments flat_fill (fun _ _ _ => true) (MkLib libblyt32 GUEST_LIB_BASE) demo_ram = Some (true, mem')) as [mem' Hm].
  { assert (match map_lib_segments flat_fill (fun _ _ _ => true) (MkLib libblyt32 GUEST_LIB_BASE) demo_ram with Some (true, _) => true | _ => false end = true) as Hb
      by (vm_compute; reflexivity).
    destruct (map_lib_segments _ _ _ _) as [[[] mem']|]; try discriminate Hb. by exists mem'. }
  exists mem'. split; [exact Hm|].
  assert (loads libblyt32 (the_ehdr libblyt32) = [MkPhdr PT_LOAD 0 0 0 400 0x1010 (PF_R + PF_X) 4]) as Hloads by (vm_compute; reflexivity).
  assert (image_check libblyt32 = true) as Hi by (vm_compute; reflexivity).
  destruct (map_lib_segments_exact flat_fill (fun _ _ _ => true) flat_fill_writes libblyt32 _ _ GUEST_LIB_BASE demo_ram mem'
              (ok_wf _ _ _ (image_check_sound _ Hi)) Hm) as [Hseg _].
  - rewrite Hloads. split; repeat constructor; vm_compute; discriminate.
  - vm_compute. reflexivity.
  - destruct (Hseg (MkPhdr PT_LOAD 0 0 0 400 0x1010 (PF_R + PF_X) 4)) as [H1 H2]; [rewrite Hloads; left|].
    split; [exact H1|exact (H2 eq_refl)].
Defined.

(** *** The words *)

(** The only word a relocation can bind, and its value. *)
Definition bind_at (map : list Z) (bias : Z) (syms : blyt_symtab_t) (d s : Elf32_Shdr) (p : Z) : option (Z * Z) :=
  info ← r_info map p; off ← r_offset map p; name ← st_name map (sh_offset d + u32 (ELF32_R_SYM info * sh_entsize d));
  n ← str_of map (sh_offset s + name); Some (u32 (bias + off), symtab_lookup syms n).
Definition bind_list (map : list Z) (bias : Z) (syms : blyt_symtab_t) : list (Z * Z) :=
  match plt_tables map (the_ehdr map) (the_shdrs map) with
  | Some (d, s) => omap (bind_at map bias syms d s) (reloc_entries (the_shdrs map))
  | None => []
  end.

Lemma bind_list_complete map bias syms a v : image_binds map (the_ehdr map) (the_shdrs map) bias syms a v -> (a, v) ∈ bind_list map bias syms.
Proof.
  intros (d & s & p & Ht & Hp & info & off & name & n & shndx & sinfo & Hi & Ho & _ & _ & Hn & _ & Hs & _ & _ & _ & -> & -> & _).
  unfold bind_list. rewrite Ht. apply list_elem_of_omap. exists p. split; [done|]. unfold bind_at. rewrite Hi, Ho. cbn [mbind option_bind].
  cbv zeta in Hn. rewrite Hn. cbn [mbind option_bind]. by rewrite Hs.
Qed.

(** No relocation of the image moves it. *)
Definition fixed_image (map : list Z) : bool :=
  forallb (fun p => match r_info map p with
                    | Some info => negb (ELF32_R_TYPE info =? R_RISCV_RELATIVE) && negb (ELF32_R_TYPE info =? R_RISCV_32)
                    | None => true
                    end) (reloc_entries (the_shdrs map)).
Lemma fixed_image_sound map bias a v : fixed_image map = true -> ~ image_rebases map (the_shdrs map) bias a v.
Proof.
  unfold fixed_image. rewrite forallb_forall. intros Hf (p & Hp & info & off & add & Hi & _ & _ & _ & Ht).
  specialize (Hf p (proj1 (list_elem_of_In _ _) Hp)). cbv beta in Hf. rewrite Hi in Hf.
  destruct Ht as [[Ht _]|[Ht _]]; rewrite Ht in Hf; discriminate Hf.
Qed.

Lemma im_ok_read im : im_ok im -> im_eh im = the_ehdr (im_map im) /\ im_shs im = the_shdrs (im_map im).
Proof.
  intros [[Hwf _] _ _]. pose proof (wf_ehdr _ _ _ Hwf) as He. pose proof (wf_shdrs _ _ _ Hwf) as Hs.
  assert (the_ehdr (im_map im) = im_eh im) as Hx by (unfold the_ehdr; by rewrite He). split; [done|]. unfold the_shdrs. by rewrite Hx, Hs.
Qed.

(** The definitions of the link, and the words it may set. *)
Definition demo_defs : blyt_symtab_t :=
  exports linked_cart (the_ehdr linked_cart) (the_shdrs linked_cart) 0
  ++ exports libblyt32 (the_ehdr libblyt32) (the_shdrs libblyt32) GUEST_LIB_BASE
  ++ exports libblytc (the_ehdr libblytc) (the_shdrs libblytc) (GUEST_LIB_BASE + GUEST_LIB_STRIDE) ++ [].
Definition demo_writes : list (Z * Z) :=
  bind_list linked_cart 0 demo_defs ++ bind_list libblyt32 GUEST_LIB_BASE demo_defs ++ bind_list libblytc (GUEST_LIB_BASE + GUEST_LIB_STRIDE) demo_defs
  ++ stamp_words demo_defs false.

Lemma demo_writes_apart :
  Forall (fun '(b, w) => (b = 0x2000 /\ w = 0x08000040) \/ 0x2000 + 4 <= b \/ b + 4 <= 0x2000) demo_writes.
Proof.
  assert (forallb (fun '(b, w) => ((b =? 0x2000) && (w =? 0x08000040)) || (0x2000 + 4 <=? b) || (b + 4 <=? 0x2000)) demo_writes = true) as H
    by (vm_compute; reflexivity).
  apply Forall_forall. intros [b w] Hin. rewrite forallb_forall in H. specialize (H _ (proj1 (list_elem_of_In _ _) Hin)). cbv beta iota in H. lia.
Qed.

Lemma demo_images ims :
  from im_lib 0 ims = [MkLib libblyt32 0x08000000; MkLib libblytc 0x08200000] -> Forall im_ok ims ->
  exists i1 i2, ims = [i1; i2] /\ im_map i1 = libblyt32 /\ im_map i2 = libblytc
    /\ im_eh i1 = the_ehdr libblyt32 /\ im_shs i1 = the_shdrs libblyt32 /\ im_eh i2 = the_ehdr libblytc /\ im_shs i2 = the_shdrs libblytc.
Proof.
  intros Hf Hok. destruct ims as [|i1 [|i2 [|]]]; try discriminate Hf. cbn [from] in Hf. unfold im_lib in Hf. injection Hf as H1 _ H2 _.
  inversion Hok as [|? ? Hi1 Hok2]; subst. inversion Hok2 as [|? ? Hi2 _]; subst.
  apply im_ok_read in Hi1 as [E1 S1], Hi2 as [E2 S2]. rewrite H1 in E1, S1. rewrite H2 in E2, S2. exists i1, i2. split; [reflexivity|].
  do 5 (split; [assumption|]). assumption.
Qed.

Lemma demo_slot : image_binds linked_cart (the_ehdr linked_cart) (the_shdrs linked_cart) 0 demo_defs 0x2000 0x08000040.
Proof.
  assert (match plt_tables linked_cart (the_ehdr linked_cart) (the_shdrs linked_cart), reloc_entries (the_shdrs linked_cart) with
          | Some (d, s), [p] =>
              match r_info linked_cart p, r_offset linked_cart p with
              | Some info, Some off =>
                  let at_sym := u32 (ELF32_R_SYM info * sh_entsize d) in
                  let sym := sh_offset d + at_sym in
                  match st_name linked_cart sym, st_shndx linked_cart sym, st_info linked_cart sym with
                  | Some name, Some shndx, Some sinfo =>
                      (ELF32_R_TYPE info =? R_RISCV_JUMP_SLOT) && (at_sym + sizeof_Sym <=? sh_size d) && (name <? sh_size s)
                      && bool_decide (str_of linked_cart (sh_offset s + name) = Some (text "blyt_quit")) && (u32 (0 + off) =? 0x2000)
                      && (symtab_lookup demo_defs (text "blyt_quit") =? 0x08000040)
                  | _, _, _ => false
                  end
              | _, _ => false
              end
          | _, _ => false
          end = true) as H by (vm_compute; reflexivity).
  unfold image_binds. destruct (plt_tables _ _ _) as [[d s]|] eqn:Et; [|discriminate H].
  destruct (reloc_entries _) as [|p [|]] eqn:Er; try discriminate H. exists d, s, p. split; [reflexivity|]. split; [left|].
  destruct (r_info _ p) as [info|] eqn:Ei; [|discriminate H]. destruct (r_offset _ p) as [off|] eqn:Eo; [|discriminate H]. cbv zeta in H.
  destruct (st_name _ _) as [name|] eqn:En; [|discriminate H]. destruct (st_shndx _ _) as [shndx|] eqn:Ex; [|discriminate H].
  destruct (st_info _ _) as [sinfo|] eqn:Es; [|discriminate H].
  repeat match goal with H : _ && _ = true |- _ => apply andb_true_iff in H as [H ?] end.
  exists info, off, name, (text "blyt_quit"), shndx, sinfo. cbv zeta.
  repeat match goal with H : (_ =? _) = true |- _ => apply Z.eqb_eq in H end.
  split_and!; [exact Ei|exact Eo|by left|lia|exact En|lia|eapply bool_decide_eq_true_1; eassumption|exact Ex| |exact Es|congruence|congruence|].
  - intros Ht. rewrite Ht in H. discriminate H.
  - intros Hv. discriminate Hv.
Qed.

(** The cart's slot at [0x2000] holds the address of the runtime library's function. *)
Lemma dynlink_binds_witness :
  exists lk mem, link_demo demo_env linked_cart = Some (Some (lk, mem)) /\ memory_read mem 0x2000 4 = write_u32_le 0x08000040.
Proof.
  destruct linked_cart_ok as [needed Hc]. destruct (is_linked_spec (link_demo demo_env linked_cart)) as (lk & mem & Hl); [vm_compute; reflexivity|].
  exists lk, mem. split; [exact Hl|].
  destruct (dynlink_binds demo_env false flat_fill flat_ok flat_fill_writes true (opened linked_cart) demo_ram _ _ needed lk mem Hc demo_env_ok Hl)
    as (ims & Hlibs & Hok & Hwords).
  assert (from im_lib 0 ims = [MkLib libblyt32 0x08000000; MkLib libblytc 0x08200000]) as Hims.
  { rewrite <-Hlibs. change (kept (Some (Some (lk, mem))) = [MkLib libblyt32 0x08000000; MkLib libblytc 0x08200000]). rewrite <-Hl. vm_compute. reflexivity. }
  destruct (demo_images ims Hims Hok) as (i1 & i2 & -> & M1 & M2 & E1 & S1 & E2 & S2).
  assert (definitions (exports linked_cart (the_ehdr linked_cart) (the_shdrs linked_cart) 0) [i1; i2] = demo_defs) as Hdefs.
  { unfold definitions, demo_defs. cbn [from concat]. unfold im_exports. rewrite M1, M2, E1, S1, E2, S2. vm_compute. reflexivity. }
  cbv zeta in Hwords. change (CartLoad.cart_map (opened linked_cart)) with linked_cart in Hwords. rewrite Hdefs in Hwords.
  destruct Hwords as (_ & _ & Hwords).
  { split; [apply Nat.leb_le; vm_compute; reflexivity|]. apply Forall_forall. intros e He%list_elem_of_In.
    assert (forallb (fun e => (length (fst e) <=? 127)%nat) demo_defs = true) as Hb by (vm_compute; reflexivity).
    rewrite forallb_forall in Hb. apply Nat.leb_le, Hb, He. }
  apply Hwords.
  - left. apply demo_slot.
  - lia.
  - change (ram_size mem) with (flat_size mem).
    assert (match link_demo demo_env linked_cart with Some (Some (_, m)) => flat_size m | _ => 0 end = BLYT_EMU_MEM_SIZE) as Hz by (vm_compute; reflexivity).
    rewrite Hl in Hz. rewrite Hz. vm_compute. discriminate.
  - intros b w Hb. assert ((b, w) ∈ demo_writes) as Hin.
    { unfold demo_writes. destruct Hb as [Hb|[[Hb|(j & im & Hj & Hb)]|Hb]].
      - exfalso. revert Hb. apply fixed_image_sound. vm_compute. reflexivity.
      - apply elem_of_app; left. apply bind_list_complete, Hb.
      - apply elem_of_app; right. destruct j as [|[|j]]; [| |discriminate Hj]; injection Hj as <-.
        + apply elem_of_app; left. apply bind_list_complete. rewrite M1, E1, S1 in Hb. exact Hb.
        + apply elem_of_app; right. apply elem_of_app; left. apply bind_list_complete. rewrite M2, E2, S2 in Hb. exact Hb.
      - do 3 (apply elem_of_app; right). exact Hb. }
    pose proof (proj1 (Forall_forall _ _) demo_writes_apart _ Hin) as Ha. exact Ha.
Defined.

(** ** What a link lets through *)

(** A library in no registry, in the directory above that of the libraries. *)
Definition h_strings : list string := ["raw_syscall"%string].
Definition hidden_lib : list Z := library h_strings [] [symbol 0 0 0 0; symbol (ix h_strings "raw_syscall") 0x44 0x12 1] [].
Definition hidden_env : link_env :=
  MkLinkEnv [] (Some (text "/lib"%string)) (fun path => if decide (path = text "/lib/../hidden.so"%string) then Some hidden_lib else None).

(** C11: The lists of what a cart may need are checked against other sections than those the link uses: the loader
    takes the last symbol section and the section called [.dynamic], the link the first symbol
    section and the last section of the dynamic type.  So a cart that the loader accepts links
    against a library outside of the library directory that is not on the list, and its slot
    holds the address of a symbol that is not on the list. *)
Theorem dynlink_bypass :
  exists lk mem,
    open_demo hidden_cart = Accept (opened hidden_cart)
    /\ dynlink hidden_env false flat_fill flat_ok true (opened hidden_cart) demo_ram = Some (Some (lk, mem))
    /\ retained_libs lk = [MkLib hidden_lib GUEST_LIB_BASE]
    /\ open_lib hidden_env (text "../hidden.so"%string) = Some hidden_lib
    /\ text "../hidden.so"%string ∉ NEEDED_ALLOWLIST /\ text "raw_syscall"%string ∉ SYMBOL_ALLOWLIST
    /\ symtab_lookup (lib_syms lk) (text "raw_syscall"%string) = 0x08000044
    /\ memory_read mem 0x2000 4 = write_u32_le 0x08000044.
Proof.
  destruct (is_linked_spec (link_demo hidden_env hidden_cart)) as (lk & mem & Hl); [vm_compute; reflexivity|]. exists lk, mem.
  assert (match link_demo hidden_env hidden_cart with
          | Some (Some (lk, mem)) =>
              bool_decide (l_map <$> retained_libs lk = [hidden_lib]) && bool_decide (l_bias <$> retained_libs lk = [GUEST_LIB_BASE])
              && (symtab_lookup (lib_syms lk) (text "raw_syscall"%string) =? 0x08000044)
              && bool_decide (memory_read mem 0x2000 4 = write_u32_le 0x08000044)
          | _ => false
          end = true) as H by (vm_compute; reflexivity).
  rewrite Hl in H. apply andb_true_iff in H as [[[H1 H2]%andb_true_iff H3%Z.eqb_eq]%andb_true_iff H4].
  apply bool_decide_eq_true_1 in H1, H2, H4. split; [exact hidden_cart_opens|]. split; [exact Hl|]. split.
  { destruct (retained_libs lk) as [|[m b] [|]]; try discriminate H1. injection H1 as ->. injection H2 as ->. reflexivity. }
  split; [vm_compute; reflexivity|]. split; [apply (bool_decide_eq_true_1 _); vm_compute; reflexivity|].
  split; [apply (bool_decide_eq_true_1 _); vm_compute; reflexivity|]. split; [exact H3|exact H4].
Qed.
