(* ===== verification/SessionLink.v ===== *)
(** * SessionLink: creating a session, swapping its cart, reloading its resources

    Models [session_create_impl], [inject_exit_trampoline], [blyt_session_swap_cart] and
    [blyt_session_reload_resources] of [runtime/host/src/libblyt/cart_run.c], in the build without
    [BLYT_GDB], [BLYT_DAP] and [BLYT_LUA_BRIDGE].

    The emulator's [rv_create] and [rv_reset], the environment variables, and the Lua callbacks that a
    host Lua finds in a cart are parameters, in the record [host].  A read outside of an image is
    [None].  The block cache of the emulator, which the swap clears, has no counterpart. *)

From S2P Require Import Prelude Handle MemBudget StateBuffer Save ElfSection Elf32 CartLoad ResourceTable ResourceIndex Palettes RunCtx Surface Ecall Session DynLink.
From Stdlib Require Import ZArith Lia Strings.String.
From stdpp Require Import base tactics list.
Open Scope Z_scope.

(** ** What a session is made from *)

(** [h_res_dir], [h_save_dir] and [h_home] are the environment variables [BLYT_RESOURCE_DIR], [BLYT_SAVE_DIR]
    and [HOME].  The cart map of [h_ecall] is not used. *)
Record host (R M : Type) := MkHost {
  h_ecall : ecall_env;
  h_link : link_env;
  h_res_dir : option (list Z);
  h_save_dir : option (list Z);
  h_home : option (list Z);
  h_state_calloc : nat -> Z -> bool;
  h_as_root : list Z -> option CartLayouts;
  h_lua_mask : blyt_cart_t -> Z;
  h_rv_create : blyt_cart_t -> option (machine R M);
  h_rv_reset : machine R M -> Z -> machine R M
}.
Arguments MkHost {R M}. Arguments h_ecall {R M}. Arguments h_link {R M}. Arguments h_res_dir {R M}. Arguments h_save_dir {R M}. Arguments h_home {R M}.
Arguments h_state_calloc {R M}. Arguments h_as_root {R M}. Arguments h_lua_mask {R M}. Arguments h_rv_create {R M}. Arguments h_rv_reset {R M}.

(** The part of the session that only its creation and the swap use. *)
Record live (R M : Type) := MkLive {
  li_session : blyt_session R M;
  li_lib_syms : blyt_symtab_t;
  li_retained_libs : list blyt_lib_t;
  li_use_lua_bridge : bool
}.
Arguments MkLive {R M}. Arguments li_session {R M}. Arguments li_lib_syms {R M}. Arguments li_retained_libs {R M}. Arguments li_use_lua_bridge {R M}.

(** [NULL], with the message for [log_fn], or the session. *)
Inductive creation (R M : Type) :=
  | Refused (why : option string)
  | Created (l : live R M).
Arguments Refused {R M}. Arguments Created {R M}.

(** The resources are those of the cart the session runs. *)
Definition res_of (env : res_env) (cart : blyt_cart_t) : res_env :=
  MkResEnv (CartLoad.cart_map cart) (zstd env) (malloc_ok env) (realloc_ok env) (file_bytes env).
Definition env_of (env : ecall_env) (cart : blyt_cart_t) : ecall_env :=
  MkEcallEnv (res_of (e_res env) cart) (e_fs env) (e_log_fn env) (e_ndebug env).

Definition RV32_LI_A0_0 : Z := 0x00000513.
Definition RV32_LI_A7_0 : Z := 0x00000893.
Definition RV32_LI_A7_9 : Z := 0x00900893.
Definition RV32_ECALL : Z := 0x00000073.
Definition RV32_UNIMP : Z := 0.

Section session_link.
Context {R M : Type} `{RegFile R} `{GuestMemory M} (h : host R M).
Abbreviation mach := (machine R M).
Variable memory_fill : M -> Z -> Z -> Z -> M.
Variable write_ok : M -> Z -> Z -> bool.

Definition env_for (cart : blyt_cart_t) : ecall_env := env_of (h_ecall h) cart.
Definition mem_of (l : live R M) : M := rv_mem (s_rv (li_session l)).

(** ** Creation *)

Definition exit_stub : list Z := concat (write_u32_le <$> [RV32_LI_A0_0; RV32_LI_A7_0; RV32_ECALL; RV32_UNIMP]).
Definition fn_return_stub : list Z := concat (write_u32_le <$> [RV32_LI_A7_9; RV32_ECALL; RV32_UNIMP; RV32_UNIMP]).

Definition inject_exit_trampoline (mem : M) : bool * M :=
  if negb (write_ok mem BLYT_TRAMPOLINE_EXIT_ADDR 16) then (false, mem)
  else
    let mem := memory_write mem BLYT_TRAMPOLINE_EXIT_ADDR exit_stub in
    if negb (write_ok mem BLYT_TRAMPOLINE_FN_RETURN_ADDR 16) then (false, mem)
    else (true, memory_write mem BLYT_TRAMPOLINE_FN_RETURN_ADDR fn_return_stub).

(** [blyt_state_ctx_init(cart, ctx)]: the context, whatever the result. *)
Definition cart_state (cart : blyt_cart_t) : option blyt_state_ctx_t :=
  found ← blyt_cart_find_section cart (text ".cart.layouts" ++ [0]);
  sect ← (match found with
          | None => Some None
          | Some (off, size) => bytes ← rd (CartLoad.cart_map cart) off size; Some (Some bytes)
          end);
  '(_, sc) ← blyt_state_ctx_init (h_state_calloc h) sect (h_as_root h);
  Some sc.

Definition load_session_resources (cart : blyt_cart_t) (t : blyt_resource_table_t) : option blyt_resource_table_t :=
  blyt_resource_table_load_for_cart (e_res (env_for cart)) (h_res_dir h) t true (CartLoad.cart_path cart).

Definition strdup (s : list Z) : option (list Z) := if malloc_ok (e_res (h_ecall h)) (len s + 1) then Some s else None.
Definition resolve_save_dir : option (list Z) :=
  match h_save_dir h with
  | Some dir => strdup dir
  | None => strdup (snprintf 512 (default (text "/tmp") (h_home h) ++ text "/.local/share/blyt"))
  end.

Definition aurora_handle : Z := blyt_resource_encode BLYT_PAL_ID_AURORA BLYT_RESOURCE_PROV_RUNTIME.
Definition palette_handle (cart : blyt_cart_t) : Z :=
  let d := blyt_cart_default_palette (Some cart) in if d =? 0 then aurora_handle else d.

(** The palette, and the table, in which a resource may have been decompressed. *)
Definition initial_palette (cart : blyt_cart_t) (t : blyt_resource_table_t) : option (list Z * blyt_resource_table_t) :=
  '(pal, t') ← blyt_resolve_palette (e_res (env_for cart)) (Some t) (palette_handle cart);
  let t := default t t' in
  match pal with
  | Some bytes => Some (palette_of_bytes bytes, t)
  | None => p ← blyt_builtin_palette aurora_handle; Some (p, t)
  end.

(** The persistent set; the flag tells whether it was loaded. *)
Definition load_persistent (cart : blyt_cart_t) (t : blyt_resource_table_t) : option (bool * blyt_resource_table_t) :=
  t ← blyt_resource_table_load_persistent_from_cart (e_res (env_for cart)) t true;
  '(n, t) ← blyt_resource_table_preload_persistent (e_res (env_for cart)) t;
  Some (n =? 0, t).

(** The session, from the emulator, the place of the cart, what the link found, and the context. *)
Definition make_session (m : mach) (lay : image_layout) (ready : Z) (fns : cart_fns) (c : blyt_run_ctx_t) (frames trace : Z) : blyt_session R M :=
  MkSession m c frames trace (il_bss lay) ready (il_base lay) (il_span lay)
    (f_on_save_state fns) (f_init fns) (f_on_load_state fns) (f_on_new_state fns) (f_update fns) (f_draw fns)
    (f_on_quit fns) (f_cleanup fns) (f_on_assets_reloaded fns) (f_is_quit_requested fns).

(** The context of a new session, but for its palette. *)
Definition first_ctx (cart : blyt_cart_t) (sc : blyt_state_ctx_t) (t : blyt_resource_table_t) (pal : list Z) (acct : Z) : blyt_run_ctx_t :=
  MkRun false false false false false (Some sc) resolve_save_dir (snprintf 64 (CartLoad.cart_id cart)) (cart_save_version cart) t 0 false pal
    (initial_registry (replicate (Z.to_nat (BLYT_FRAME_W * BLYT_FRAME_H)) 0)) BLYT_PHASE_NONE (blyt_cart_is_debug (Some cart)) false acct 0.

(** The session when the cart is linked. *)
Definition boot_session (cart : blyt_cart_t) (use_lua_bridge : bool) (m : mach) (lk : linked) : option (creation R M) :=
  lay ← record_cart_image_layout (CartLoad.cart_map cart) 0;
  sc ← cart_state cart;
  t ← load_session_resources cart blyt_resource_table_init;
  let m := rv_set_reg m rv_reg_ra BLYT_TRAMPOLINE_EXIT_ADDR in
  '(pal, t) ← initial_palette cart t;
  '(ok, t) ← load_persistent cart t;
  if negb (ok : bool) then Some (Refused (Some "session create: persistent resources exceed the 16 MB budget (or failed to load)"%string))
  else
    '(c, mem) ← mem_acct_publish_footprint (first_ctx cart sc t pal (k_mem_acct_vaddr lk)) (rv_mem m);
    Some (Created (MkLive (make_session (set_mem m mem) lay (k_arena_ready_vaddr lk) (k_fns lk) c 0 0)
                     (lib_syms lk) (retained_libs lk) use_lua_bridge)).

(** [session_ok] and [tables_ok]: whether the session and the symbol tables can be allocated. *)
Definition session_create_impl (session_ok tables_ok : bool) (cart : blyt_cart_t) (use_lua_bridge : bool) : option (creation R M) :=
  if negb session_ok then Some (Refused None)
  else
    native_mask ← blyt_cart_native_lifecycle_mask (Some cart);
    if negb (Z.land (h_lua_mask h cart) native_mask =? 0)
    then Some (Refused (Some "lifecycle conflict: callbacks defined in both Lua and native"%string))
    else
      match h_rv_create h cart with
      | None => Some (Refused (Some "session create: rv_create failed (guest VM allocation)"%string))
      | Some m =>
          let '(_, mem) := inject_exit_trampoline (rv_mem m) in
          r ← dynlink (h_link h) use_lua_bridge memory_fill write_ok tables_ok cart mem;
          match r with
          | None => Some (Refused (Some "session create: guest dynamic link failed"%string))
          | Some (lk, mem) => boot_session cart use_lua_bridge (set_mem m mem) lk
          end
      end.

Definition blyt_session_create (session_ok tables_ok : bool) (cart : blyt_cart_t) : option (creation R M) :=
  session_create_impl session_ok tables_ok cart false.
Definition blyt_session_create_lua_bridge (session_ok tables_ok : bool) (cart : blyt_cart_t) : option (creation R M) :=
  session_create_impl session_ok tables_ok cart true.

(** ** Reloading the resources *)

Definition blyt_session_reload_resources (cart : blyt_cart_t) (s : option (blyt_session R M)) : option (bool * option (blyt_session R M)) :=
  match s with
  | None => Some (false, None)
  | Some s =>
      t ← load_session_resources cart (resources (s_ctx s));
      Some (true, Some (with_ctx (set_resources t (s_ctx s)) s))
  end.

(** ** Swapping the cart *)

Definition with_session (s : blyt_session R M) (l : live R M) : live R M :=
  MkLive s (li_lib_syms l) (li_retained_libs l) (li_use_lua_bridge l).
Definition with_mem (mem : M) (l : live R M) : live R M := with_session (on_rv (fun m => set_mem m mem) (li_session l)) l.

(** Steps 1 to 3: the new image is mapped and linked, the words of the C library are set.  The flag is
    [false] when the swap fails; else the symbols. *)
Definition swap_relink (tables_ok : bool) (l : live R M) (cart : blyt_cart_t) (load_base : Z) : option (option blyt_symtab_t * M) :=
  let map := CartLoad.cart_map cart in
  let cart_lib := MkLib map load_base in
  '(ok, mem) ← map_lib_segments memory_fill write_ok cart_lib (mem_of l);
  if negb (ok : bool) then Some (None, mem)
  else
    mem ← apply_lib_rela cart_lib mem;
    if negb tables_ok then Some (None, mem)
    else
      cart_syms ← build_symtab cart_lib [];
      let all := append_symtab cart_syms (li_lib_syms l) in
      mem ← resolve_elf_plt map mem load_base all;
      mem ← resolve_libs (li_retained_libs l) all mem;
      let mem := stamp_arena all mem in
      let mem := stamp (symtab_lookup all (text "blytc_arena_ready")) 0 mem in
      let acct := symtab_lookup all (text "blyt_mem_acct") in
      Some (Some all, if acct =? 0 then mem else memory_write mem acct (replicate 8 0)).

(** Step 5: what the new image does not cover of the old one. *)
Definition swap_wipe (old_base old_span base span : Z) (mem : M) : M :=
  if old_span =? 0 then mem
  else if old_base =? base then
    if old_span >? span then memory_fill mem (u32 (old_base + span)) (old_span - span) 0 else mem
  else memory_fill mem old_base old_span 0.

(** Step 6: the part of the context that comes from the cart. *)
Definition swap_ctx (cart : blyt_cart_t) (acct : Z) (c : blyt_run_ctx_t) : option blyt_run_ctx_t :=
  _ ← (match state_ctx c with Some sc => blyt_state_ctx_destroy sc | None => None end);
  sc ← cart_state cart;
  t ← load_session_resources cart (blyt_resource_table_clear (resources c));
  '(_, t) ← load_persistent cart t;
  Some (MkRun (ecall_trapped c) (ecall_aborted c) (frame_done c) (cart_exited c) (fn_return_done c) (Some sc) (save_dir c)
          (snprintf 64 (CartLoad.cart_id cart)) (cart_save_version cart) t 0 (cart_has_drawn c) (palette c) (surfaces c) (phase c)
          (RunCtx.cart_is_debug c) (dev_fault c) acct (peer_heap c)).

(** Step 8. *)
Definition clear_flags (c : blyt_run_ctx_t) : blyt_run_ctx_t :=
  set_drawn false (set_fn_return_done false (set_frame_done false (set_aborted false (set_trapped false c)))).

Definition blyt_session_swap_cart (tables_ok : bool) (l : live R M) (new_cart : option blyt_cart_t) (load_base : Z) : option (bool * live R M) :=
  match new_cart with
  | None => Some (false, l)
  | Some cart =>
      let s := li_session l in
      '(linked, mem) ← swap_relink tables_ok l cart load_base;
      match linked with
      | None => Some (false, with_mem mem l)
      | Some all =>
          lay ← record_cart_image_layout (CartLoad.cart_map cart) load_base;
          let mem := swap_wipe (cart_base s) (cart_span s) (il_base lay) (il_span lay) mem in
          c ← swap_ctx cart (symtab_lookup all (text "blyt_mem_acct")) (s_ctx s);
          eh ← rd_ehdr (CartLoad.cart_map cart);
          let m := h_rv_reset h (set_mem (s_rv s) mem) (u32 (load_base + e_entry eh)) in
          let m := with_halt false (rv_set_reg m rv_reg_ra BLYT_TRAMPOLINE_EXIT_ADDR) in
          Some (true, with_session (make_session m lay (symtab_lookup all (text "blytc_arena_ready")) (resolve_cart_entry_points all)
                                      (clear_flags c) (frame_count s) (trace_fn_addr s)) l)
      end
  end.
End session_link.
