(* ===== verification/SessionLinkSpec.v ===== *)
(** * SessionLinkSpec: what a session is made of

    The state buffers, the resources and the palette of a cart satisfy the invariant of [EcallSpec]
    when the cart is well made ([bootable]); the link and the swap keep the size of the memory; and a
    lemma per step of the creation and of the swap. *)

From S2P Require Import Prelude Handle MemBudget StateBuffer StateBufferSpec StateBufferTheorems Save SaveTheorems ElfSection Elf32 CartLoad CartLoadSpec CartLoadDynamic CartQueries.
From S2P Require Import ResourceTable ResourceTheorems ResourceIndex Palettes RunCtx Surface SurfaceSpec SurfaceTheorems Ecall EcallSpec.
From S2P Require Import Session SessionSpec DynLink DynLinkSpec DynLinkSymbols DynLinkLoad DynLinkWalk SessionLink.
From Stdlib Require Import ZArith Lia Strings.String.
From stdpp Require Import base tactics list.
Open Scope Z_scope.

(** ** State buffers *)

(** No name the initialisation compares is absent. *)
Definition layouts_named (l : CartLayouts) : Prop :=
  Forall (fun r => match r with Some r => is_Some (rd_name r) | None => True end) (default [] (cl_records l))
  /\ Forall (fun d => match d with Some d => is_Some (bd_record_name d) | None => True end) (default [] (cl_buffers l)).

Lemma find_record_total recs n :
  Forall (fun r => match r with Some r => is_Some (rd_name r) | None => True end) recs -> is_Some (find_record recs (Some n)).
Proof.
  induction 1 as [|[r|] recs Hr _ IH]; cbn [find_record]; [by eexists| |done].
  destruct Hr as [rn ->]. cbn [mbind option_bind]. case_bool_decide; [by eexists|done].
Qed.

(** The buffers made so far can be freed. *)
Record laid (bi : Z) (ctx : blyt_state_ctx_t) : Prop := {
  ld_n : n_buffers ctx = bi;
  ld_len : len (buffers ctx) = 32;
  ld_done : forall j b, 0 <= j < bi -> zget (buffers ctx) j = Some b -> 0 <= n_fields b <= len (field_data b);
  ld_rest : forall j, bi <= j < 32 -> zget (buffers ctx) j = Some zero_buffer
}.

Lemma destroy_total ctx :
  0 <= n_buffers ctx <= len (buffers ctx) ->
  (forall j b, 0 <= j < n_buffers ctx -> zget (buffers ctx) j = Some b -> 0 <= n_fields b <= len (field_data b)) ->
  exists bs, blyt_state_ctx_destroy ctx = Some (MkCtx 0 bs) /\ len bs = len (buffers ctx).
Proof.
  intros Hn Hw. unfold blyt_state_ctx_destroy.
  destruct (for_each_spec (n_buffers ctx) (fun _ b => destroy_buffer b) (buffers ctx) Hn) as (bs & -> & Hl & _).
  { intros j b Hj Hb. unfold destroy_buffer.
    destruct (for_each_spec (n_fields b) (fun _ (_ : option (list Z)) => Some None) (field_data b)) as (fd & -> & _); [by eapply Hw|by eexists|by eexists]. }
  cbn. by eexists.
Qed.

Lemma wf_destroy_total ctx : ctx_wf ctx -> exists ctx', blyt_state_ctx_destroy ctx = Some ctx'.
Proof.
  intros [Hn Hl Hw]. destruct (destroy_total ctx) as (bs & -> & _); [lia| |by eexists].
  intros j b Hj Hb. pose proof (Hw j b Hj Hb) as Hb'. pose proof (wf_nf _ Hb'). pose proof (wf_data _ Hb'). lia.
Qed.

Section init.
Context (calloc_ok : nat -> Z -> bool) (recs : list (option RecordDecl)) (hash : Z).
Hypothesis Hrecs : Forall (fun r => match r with Some r => is_Some (rd_name r) | None => True end) recs.

(** The failure path. *)
Lemma init_fail_total bi ctx b :
  laid bi ctx -> 0 <= bi < 32 ->
  exists rc ctx', (bs ← zset (buffers ctx) bi b; ctx' ← blyt_state_ctx_destroy (MkCtx (n_buffers ctx) bs); Some (-2, ctx')) = Some (rc, ctx')
    /\ len (buffers ctx') = 32.
Proof using.
  intros [Hn Hl Hd _] Hbi. rewrite zset_Some by lia. cbn [mbind option_bind].
  destruct (destroy_total (MkCtx (n_buffers ctx) (<[Z.to_nat bi := b]> (buffers ctx)))) as (bs & -> & Hbl).
  - cbn. rewrite len_insert. lia.
  - cbn. intros j b' Hj. rewrite zget_insert_ne by lia. apply Hd. lia.
  - cbn. cbn in Hbl. eexists _, _. split; [done|]. cbn. by rewrite Hbl, len_insert.
Qed.

Lemma init_buffers_total decls bi k ctx :
  Forall decl_ok decls -> Forall (fun d => match d with Some d => is_Some (bd_record_name d) | None => True end) decls ->
  0 <= bi <= 32 -> laid bi ctx ->
  exists rc ctx', init_buffers calloc_ok decls recs hash bi k ctx = Some (rc, ctx') /\ len (buffers ctx') = 32.
Proof using Hrecs.
  intros Hds Hnames. revert bi k ctx. induction Hds as [|d decls (bd & -> & Hcnt) _ IH]; intros bi k ctx Hbi Hinv.
  { cbn. eexists _, _. split; [done|apply Hinv]. }
  apply Forall_cons in Hnames as [[n Hn] Hnames].
  cbn. unfold BLYT_MAX_BUFFERS. destruct (bi >=? 32) eqn:E32; [eexists _, _; split; [done|apply Hinv]|].
  pose proof (fun b => init_fail_total bi ctx b Hinv ltac:(lia)) as Hfail.
  pose proof Hinv as [Hnb Hl Hdone Hrest]. rewrite Hrest by lia. cbn.
  rewrite Hn. destruct (find_record_total recs n Hrecs) as [[rdecl|] ->]; cbn; [|apply Hfail].
  destruct (_ || _) eqn:Enf; [apply Hfail|]. unfold BLYT_MAX_FIELDS in Enf. pose proof (len_nonneg (default [] (rd_fields rdecl))).
  match goal with |- context [init_fields _ ?fds 0 k ?x] =>
    destruct (init_fields_spec calloc_ok fds 0 k x) as (ok & k' & b3 & -> & _ & Hn3 & _ & _ & _ & Hd3 & _)
  end; [done|lia|done|done|done|intros j Hj; lia|].
  cbn [mbind option_bind]. destruct ok; cbn [negb]; [|apply Hfail].
  rewrite zset_Some by lia. cbn [mbind option_bind]. apply IH; [done|lia|]. split; cbn.
  - lia.
  - by rewrite len_insert.
  - intros j b Hj. destruct (decide (bi = j)) as [<-|Hne].
    + rewrite zget_insert_eq by lia. intros [= <-]. cbn in *. lia.
    + rewrite zget_insert_ne by lia. apply Hdone. lia.
  - intros j Hj. rewrite zget_insert_ne by lia. apply Hrest. lia.
Qed.
End init.

(** The initialisation always gives a well-formed context. *)
Lemma state_init_total calloc_ok sect as_root :
  (forall bytes l, as_root bytes = Some l -> layouts_ok l /\ layouts_named l) ->
  exists rc sc, blyt_state_ctx_init calloc_ok sect as_root = Some (rc, sc) /\ ctx_wf sc.
Proof.
  intros Hl. assert (exists rc sc, blyt_state_ctx_init calloc_ok sect as_root = Some (rc, sc) /\ len (buffers sc) = 32) as (rc & sc & Hr & Hlen).
  { unfold blyt_state_ctx_init. destruct sect as [bytes|]; [|by eexists _, _]. destruct (len bytes <=? 8); [by eexists _, _|].
    destruct (as_root (drop 8 bytes)) as [l|] eqn:Ha; [|by eexists _, _]. destruct (len _ =? 0); [by eexists _, _|].
    destruct (Hl _ _ Ha) as [Hok [Hr Hb]]. apply init_buffers_total; [done|done|done|lia|].
    destruct init_inv_zero as [H1 H2 _ H4]. split; [done|done| |done]. intros j b Hj. lia. }
  exists rc, sc. split; [done|]. destruct (init_result calloc_ok sect as_root rc sc) as [[? _]|[_ Hn]]; [by intros; eapply Hl|done|done|].
  split; [lia|done|]. intros bi b Hbi. lia.
Qed.

(** [sc] is what the layouts in a section say, whatever the result [rc] of the initialisation: with 0 one buffer
    per declaration, up to 32, of the declared size, types and name; else none.  Every slot is free, of
    generation 1, and every byte is zero. *)
Record declared (calloc_ok : nat -> Z -> bool) (as_root : list Z -> option CartLayouts) (sect : option (list Z)) (rc : Z) (sc : blyt_state_ctx_t) : Prop := {
  dc_init : blyt_state_ctx_init calloc_ok sect as_root = Some (rc, sc);
  dc_fresh : all_fresh sc;
  dc_none : rc <> 0 -> n_buffers sc = 0;
  dc_built : rc = 0 -> exists bytes l, sect = Some bytes /\ as_root (drop 8 bytes) = Some l /\ n_buffers sc = Z.min 32 (len (default [] (cl_buffers l)))
    /\ forall j bd, 0 <= j < 32 -> zget (default [] (cl_buffers l)) j = Some (Some bd) ->
         exists r b, find_record (default [] (cl_records l)) (bd_record_name bd) = Some (Some r) /\ zget (buffers sc) j = Some b
           /\ built (cl_schema_hash l) b bd r }.

Lemma state_init_declared calloc_ok sect as_root rc sc :
  (forall bytes l, as_root bytes = Some l -> layouts_ok l) ->
  blyt_state_ctx_init calloc_ok sect as_root = Some (rc, sc) -> declared calloc_ok as_root sect rc sc.
Proof.
  intros Hl Hrun. assert (all_fresh zero_ctx) as Hz by apply (ii_done _ _ init_inv_zero).
  assert (all_fresh sc /\ (rc <> 0 -> n_buffers sc = 0)
    /\ (rc = 0 -> exists bytes l, sect = Some bytes /\ as_root (drop 8 bytes) = Some l /\ n_buffers sc = Z.min 32 (len (default [] (cl_buffers l)))
         /\ forall j bd, 0 <= j < 32 -> zget (default [] (cl_buffers l)) j = Some (Some bd) ->
              exists r b, find_record (default [] (cl_records l)) (bd_record_name bd) = Some (Some r) /\ zget (buffers sc) j = Some b
                /\ built (cl_schema_hash l) b bd r)) as (? & ? & ?); [|by constructor].
  revert Hrun. unfold blyt_state_ctx_init. destruct sect as [bytes|]; [|intros [= <- <-]; by split_and!].
  destruct (len bytes <=? 8); [intros [= <- <-]; by split_and!|].
  destruct (as_root (drop 8 bytes)) as [l|] eqn:Ha; [|intros [= <- <-]; by split_and!].
  pose proof (Hl _ _ Ha) as Hok. pose proof (len_nonneg (default [] (cl_buffers l))) as Hlen. unfold layouts_ok in Hok.
  destruct (Z.eqb_spec (len (default [] (cl_buffers l))) 0) as [E|E].
  { intros [= <- <-]. split_and!; [done|done|]. intros _. exists bytes, l. split_and!; [done..|by rewrite E|].
    intros j bd Hj [? _]%zget_Some. lia. }
  intros Hrun. destruct (init_buffers_spec calloc_ok _ _ _ 0 0 _ _ _ Hok ltac:(lia) init_inv_zero Hrun) as [[-> Hi]|[-> Hn]].
  - split_and!; [apply (ii_done _ _ Hi)|done|]. intros _. exists bytes, l. split_and!; [done..|by rewrite (ii_n _ _ Hi)|].
    intros j bd Hj Hd.
    assert (forall d, d ∈ default [] (cl_buffers l) -> is_Some d) as Hsome.
    { intros d Hin. rewrite Forall_forall in Hok. destruct (Hok d Hin) as (? & -> & _). by eexists. }
    destruct (init_buffers_built calloc_ok _ _ _ 0 0 _ _ ltac:(lia) Hsome Hrun) as [_ Hb]. by apply (Hb j bd); [lia..|].
  - split_and!; [|done|done]. intros bi b Hbi. lia.
Qed.

(** ** Sections *)

Lemma find_section_total elf name :
  bytes_ok elf -> no_nul name ->
  exists r, blyt_elf32_find_section (Some elf) (Some (name ++ [0])) = Some r
    /\ forall off size, r = Some (off, size) -> exists bytes, rd elf off size = Some bytes /\ bytes_ok bytes.
Proof.
  intros Hb Hn. rewrite find_section_spec by done. eexists. split; [done|]. intros off size Hl.
  assert (0 <= off /\ 0 <= size /\ off + size <= len elf) as (? & ? & ?).
  { assert (Forall (fun '(_, off, size) => 0 <= off /\ 0 <= size) (sections elf)) as Hs.
    { unfold sections. destruct (resolve_sht _) as [[sht|]|]; [|done..]. apply Forall_fmap, Forall_true. intros i. split; by apply word_at_nonneg. }
    induction Hs as [|[[n o] z] l [Ho Hz] _ IH]; [done|]. cbn [lookup_section] in Hl. case_bool_decide; [|by apply IH].
    destruct (in_image elf o z) eqn:E; [|done]. injection Hl as <- <-. unfold in_image in E. lia. }
  rewrite rd_Some by lia. eexists. split; [done|]. by apply Forall_sub.
Qed.

(** ** Resources *)

(** An uncompressed resource fits its section. *)
Definition honest_section (map : list Z) (s : Z * Z * Z) : Prop :=
  let '(_, off, size) := s in 8 <= size -> zget map off = Some 0 -> word_at map (off + 4) <= size - 8.
Definition cart_entries (env : res_env) : list blyt_resource_entry_t :=
  (fun '(id, off, size) => section_entry env id off size) <$> resource_sections env.
(** The index file a cart without resource sections would be read from is absent. *)
Definition no_index (env : res_env) (res_dir : option (list Z)) (path : list Z) : Prop :=
  match (match res_dir with Some d => Some d | None => fst <$> strrchr 47 (snprintf 4096 path) end) with
  | Some dir => file_bytes env (snprintf 4096 (dir ++ INDEX_NAME)) = None
  | None => True
  end.

Definition table_ok (env : res_env) (t : blyt_resource_table_t) : Prop := Forall (entry_ok env) (t_entries t) /\ res_ok t.

Lemma section_entry_ok env id off size :
  bytes_ok (cart_map env) -> 0 <= off -> 0 <= size -> off + size <= len (cart_map env) -> honest_section (cart_map env) (id, off, size) ->
  entry_ok env (section_entry env id off size).
Proof.
  intros Hb Ho Hs Hin Hh. split; [by apply section_entry_coherent|]. unfold section_entry, honest_section in *.
  pose proof (word_at_nonneg (cart_map env) (off + 4) Hb). destruct (Z.ltb_spec size 8).
  { split; [done|]. cbn. intros o [= <-]. rewrite rd_Some by lia. by eexists. }
  destruct (zget_is_Some (cart_map env) off) as [a Ha]; [lia|]. rewrite Ha in *. change (default 0 (Some a)) with a.
  destruct (Z.eqb_spec a 1); [by split|]. destruct (Z.eqb_spec a 0) as [->|]; (split; [done|]); cbn; intros o [= <-].
  - specialize (Hh ltac:(lia) eq_refl). rewrite rd_Some by lia. by eexists.
  - rewrite rd_Some by lia. by eexists.
Qed.

Lemma cart_entries_ok env :
  bytes_ok (cart_map env) -> Forall (honest_section (cart_map env)) (resource_sections env) -> Forall (entry_ok env) (cart_entries env).
Proof.
  intros Hb Hh. unfold cart_entries. apply Forall_fmap. unfold resource_sections in *.
  pose proof (prefixed_bounds (cart_map env) RESOURCE_SECTION_PREFIX Hb) as Hbd. revert Hh.
  induction Hbd as [|[[suffix off] size] l (? & ? & ?) _ IH]; [constructor|]. cbn [omap list_omap].
  destruct (blyt_elf32_parse_u32 (Some suffix)); cbn [mbind option_bind]; [|done]. intros [Hh Hhs]%Forall_cons.
  constructor; [by apply section_entry_ok|by apply IH].
Qed.

Lemma load_for_cart_ok env res_dir t path :
  (forall n, realloc_ok env n = true) -> bytes_ok (cart_map env) -> resource_sections env <> [] \/ no_index env res_dir path ->
  exists t', blyt_resource_table_load_for_cart env res_dir t true path = Some t' /\ t_entries t' = cart_entries env.
Proof.
  intros Hr Hb Hp. unfold blyt_resource_table_load_for_cart.
  destruct (load_from_cart_spec env t Hr Hb) as (t' & -> & He & _). cbn [mbind option_bind].
  destruct (Z.eqb_spec (len (resource_sections env)) 0) as [E|E]; cbn [negb]; [|by eexists].
  assert (resource_sections env = []) as Hnil by (destruct (resource_sections env); [done|unfold len in E; cbn in E; lia]).
  destruct Hp as [Hp|Hp]; [done|]. unfold no_index in Hp. unfold cart_entries. rewrite Hnil in *. cbn [fmap list_fmap] in *.
  destruct (match res_dir with Some d => Some d | None => _ end) as [dir|]; [|by eexists].
  eexists. split; [done|]. unfold blyt_resource_table_load_from_index. by rewrite Hp.
Qed.

(** Marking keeps what does not depend on the mark. *)
Lemma mark_loop_keeps env k off ids t :
  0 <= off -> off + 4 * Z.of_nat k <= len ids -> table_ok env t -> exists t', mark_loop k off ids t = Some t' /\ table_ok env t'.
Proof.
  revert off t; induction k as [|k IH]; intros off t Ho Hk Ht; cbn [mark_loop]; [by eexists|].
  rewrite rd_Some by lia. cbn [mbind option_bind]. apply IH; [lia|lia|].
  destruct (blyt_resource_table_find_mut _ _) as [i|]; [|done]. destruct Ht as [He Hres]. split.
  - cbn. apply Forall_alter; [done|]. intros e _ Hx. exact Hx.
  - apply (res_ok_lens t); [|done]. cbn. apply list_eq. intros j. rewrite !list_lookup_fmap.
    destruct (decide (i = j)) as [->|Hne]; [|by rewrite list_lookup_alter_ne]. rewrite list_lookup_alter_eq. by destruct (t_entries t !! j).
Qed.

(** Every persistent entry has its bytes. *)
Definition resident (l : list blyt_resource_entry_t) : Prop := Forall (fun e => e_persistent e = true -> is_Some (e_data e)) l.

Lemma evictions_resident l l' : evictions l l' -> resident l -> resident l'.
Proof.
  induction 1 as [|e e' l l' He _ IH]; [done|]. intros [He1 Hl]%Forall_cons. constructor; [|by apply IH].
  destruct He as [->|[Hr ->]]; [done|]. unfold reclaimable in Hr. cbn. intros Ep. rewrite Ep, andb_false_r in Hr. done.
Qed.

Lemma entry_data_persistent env e p e' : blyt_resource_entry_data env e = Some (p, e') -> e_persistent e' = e_persistent e.
Proof.
  unfold blyt_resource_entry_data. intros Hd. destruct (e_data e) as [q|]; [by injection Hd as _ <-|].
  repeat (case_match || (apply bind_Some in Hd as (? & ? & Hd))); by simplify_eq.
Qed.

Lemma preload_loop_keeps env l :
  Forall (entry_ok env) l ->
  exists ok l', preload_loop env l = Some (ok, l') /\ Forall (entry_ok env) l' /\ e_len <$> l' = e_len <$> l /\ (ok = true -> resident l').
Proof.
  induction 1 as [|e l He Hl IH]; cbn [preload_loop]; [eexists _, _; split_and!; [done|constructor|done|constructor]|]. destruct IH as (ok & l' & -> & Hl' & Hlens & Hres).
  destruct (e_persistent e) eqn:Ep; cbn [negb mbind option_bind].
  - destruct (entry_data_keeps env e He) as (p & e' & Hd & He' & El & Hp). rewrite Hd. cbn [mbind option_bind]. destruct p; eexists _, _; (split; [done|]).
    + split; [by constructor|]. rewrite !fmap_cons, El, Hlens. split; [done|]. intros Hok. constructor; [|by apply Hres]. destruct Hp as [-> _]. by eexists.
    + split; [by constructor|]. by rewrite !fmap_cons, El.
  - eexists _, _. split; [done|]. split; [by constructor|]. rewrite !fmap_cons, Hlens. split; [done|].
    intros Hok. constructor; [congruence|by apply Hres].
Qed.

Lemma load_persistent_ok {R M} `{RegFile R} `{GuestMemory M} (h : host R M) cart t :
  bytes_ok (CartLoad.cart_map cart) -> table_ok (e_res (env_for h cart)) t ->
  exists ok t', load_persistent h cart t = Some (ok, t') /\ table_ok (e_res (env_for h cart)) t' /\ (ok = true -> resident (t_entries t')).
Proof.
  intros Hb Ht. unfold load_persistent. set (env := e_res (env_for h cart)) in *.
  assert (exists t1, blyt_resource_table_load_persistent_from_cart env t true = Some t1 /\ table_ok env t1) as (t1 & -> & Ht1).
  { unfold blyt_resource_table_load_persistent_from_cart. cbn [negb].
    destruct (find_section_total (cart_map env) PERSISTENT_SECTION Hb) as (r & -> & Hr); [by apply no_nul_text|]. cbn [mbind option_bind].
    destruct r as [[off size]|]; [|by eexists]. destruct (Hr off size eq_refl) as (ids & -> & Hids). cbn [mbind option_bind].
    pose proof (len_nonneg ids). apply mark_loop_keeps; [lia| |done]. rewrite Z2Nat.id by (apply Z.div_pos; lia). Z.div_mod_to_equations. lia. }
  cbn [mbind option_bind]. unfold blyt_resource_table_preload_persistent. destruct (_ >? _); cbn [mbind option_bind]; [by eexists _, _|].
  destruct Ht1 as [He Hres]. destruct (preload_loop_keeps env _ He) as (ok & l' & -> & Hl' & Hlens & Hr). cbn [mbind option_bind].
  eexists _, _. split; [done|]. split; [split; [done|by apply (res_ok_lens t1)]|]. by destruct ok.
Qed.

(** ** The place of a cart *)

Definition layout_step (load_base : Z) (l : image_layout) (ph : Elf32_Phdr) : image_layout :=
  if negb (p_type ph =? PT_LOAD) then l
  else
    let end_ := u32 (p_vaddr ph + p_memsz ph) in
    MkLayout (il_base l) (if end_ >? il_span l then end_ else il_span l)
      (if (p_memsz ph >? p_filesz ph) && (length (il_bss l) <? MAX_BSS_REGIONS)%nat
       then il_bss l ++ [(u32 (u32 (load_base + p_vaddr ph) + p_filesz ph), p_memsz ph - p_filesz ph)]
       else il_bss l).

Section place.
Context (map : list Z) (eh : Elf32_Ehdr) (shs : list Elf32_Shdr).
Hypothesis Hwf : image_wf map eh shs.

Lemma phdr_walk_fold {A} (g : A -> Elf32_Phdr -> A) k i acc :
  0 <= i -> phdr_walk k i map eh (fun a => a) (fun ph a => Some (inr (g a ph))) acc = Some (foldl g acc (phdrs_from k i map eh)).
Proof.
  revert i acc; induction k as [|k IH]; intros i acc Hi; cbn [phdr_walk phdrs_from foldl]; [done|].
  destruct (_ >? len map) eqn:El; [done|]. destruct (phdr_at_total _ _ _ Hwf i Hi) as [ph Hph]; [lia|]. rewrite Hph. cbn [mbind option_bind foldl].
  apply IH. lia.
Qed.

Lemma layout_spec load_base :
  record_cart_image_layout map load_base = Some (foldl (layout_step load_base) (MkLayout load_base 0 []) (file_phdrs map eh)).
Proof.
  unfold record_cart_image_layout. rewrite (wf_ehdr _ _ _ Hwf). cbn [mbind option_bind]. by apply (phdr_walk_fold (layout_step load_base)).
Qed.
End place.

Lemma layout_base load_base l phs : il_base (foldl (layout_step load_base) l phs) = il_base l.
Proof. revert l; induction phs as [|ph phs IH]; intros l; cbn [foldl]; [done|]. rewrite IH. unfold layout_step. by destruct (negb _). Qed.

(** No segment ends behind the span. *)
Lemma layout_span load_base l phs :
  il_span l <= il_span (foldl (layout_step load_base) l phs)
  /\ forall ph, ph ∈ phs -> p_type ph = PT_LOAD -> u32 (p_vaddr ph + p_memsz ph) <= il_span (foldl (layout_step load_base) l phs).
Proof.
  revert l; induction phs as [|q phs IH]; intros l; cbn [foldl]; [split; [lia|by intros ? ?%elem_of_nil]|].
  destruct (IH (layout_step load_base l q)) as [Hmono Hin].
  assert (il_span l <= il_span (layout_step load_base l q) /\ (p_type q = PT_LOAD -> u32 (p_vaddr q + p_memsz q) <= il_span (layout_step load_base l q))) as [H1 H2].
  { unfold layout_step. destruct (Z.eqb_spec (p_type q) PT_LOAD); cbn [negb il_span]; [|split; [lia|done]].
    destruct (Z.gtb_spec (u32 (p_vaddr q + p_memsz q)) (il_span l)); lia. }
  split; [lia|]. intros ph [->|Hph]%elem_of_cons Ht; [specialize (H2 Ht); lia|by apply Hin].
Qed.

(** ** The memory keeps its size *)

Lemma all_loaded_size `{GuestMemory M} i ims (mem mem' : M) : all_loaded i ims mem mem' -> ram_size mem' = ram_size mem.
Proof. induction 1 as [|i im ims mem mem1 mem2 (ws & -> & _) _ IH]; [done|]. by rewrite IH, put_words_size, store_all_size. Qed.

(** ** The context of a new session *)

Section creation.
Context {R M : Type} `{HR : RegFile R} `{HM : GuestMemory M} (h : host R M).
Variable memory_fill : M -> Z -> Z -> Z -> M.
Variable write_ok : M -> Z -> Z -> bool.
Hypothesis fill_writes : forall m a n v, 0 <= n -> memory_fill m a n v = memory_write m a (replicate (Z.to_nat n) v).

(** A cart a session can be made from: its data is whole, and small enough for 32-bit sizes. *)
Record bootable (cart : blyt_cart_t) : Prop := {
  bo_bytes : bytes_ok (CartLoad.cart_map cart);
  bo_queries : exists eh shs, queries_ready cart eh shs;
  bo_alloc : forall n, realloc_ok (e_res (h_ecall h)) n = true;
  bo_layouts : forall bytes l, h_as_root h bytes = Some l -> layouts_ok l /\ layouts_named l;
  bo_sized : forall sc, cart_state h cart = Some sc -> ctx_sized sc;
  bo_sections : Forall (honest_section (CartLoad.cart_map cart)) (resource_sections (e_res (env_for h cart)));
  bo_packed : resource_sections (e_res (env_for h cart)) <> [] \/ no_index (e_res (env_for h cart)) (h_res_dir h) (CartLoad.cart_path cart);
  bo_total : total_len (fun _ => true) (cart_entries (e_res (env_for h cart))) < 2 ^ 32 }.

(** [sc] holds the state buffers the cart declares. *)
Definition cart_declares (cart : blyt_cart_t) (sc : blyt_state_ctx_t) : Prop :=
  exists found sect rc, blyt_cart_find_section cart (text ".cart.layouts" ++ [0]) = Some found
    /\ sect = (fun '(off, size) => sub (CartLoad.cart_map cart) off size) <$> found
    /\ declared (h_state_calloc h) (h_as_root h) sect rc sc.

Section cart.
Context (cart : blyt_cart_t) (Hcart : bootable cart).
Abbreviation env := (e_res (env_for h cart)).

Lemma cart_state_declares sc : cart_state h cart = Some sc -> cart_declares cart sc.
Proof using Hcart.
  unfold cart_state, cart_declares. destruct (blyt_cart_find_section _ _) as [found|]; [|done]. cbn [mbind option_bind].
  assert (forall bytes l, h_as_root h bytes = Some l -> layouts_ok l) as Hl by (intros bytes l Ha; by apply (bo_layouts _ Hcart bytes)).
  destruct found as [[off size]|].
  - destruct (rd _ _ _) as [bytes|] eqn:Er; [|done]. apply rd_inv in Er as (_ & _ & _ & ->). cbn [mbind option_bind].
    destruct (blyt_state_ctx_init _ _ _) as [[rc sc']|] eqn:Ei; [|done]. intros [= ->].
    eexists _, _, rc. split_and!; [done..|]. by apply state_init_declared.
  - cbn [mbind option_bind]. destruct (blyt_state_ctx_init _ _ _) as [[rc sc']|] eqn:Ei; [|done]. intros [= ->].
    eexists _, _, rc. split_and!; [done..|]. by apply state_init_declared.
Qed.

Lemma cart_state_ok : exists sc, cart_state h cart = Some sc /\ ctx_wf sc /\ ctx_sized sc.
Proof using Hcart.
  assert (exists sc, cart_state h cart = Some sc /\ ctx_wf sc) as (sc & Hsc & Hwf); [|exists sc; split_and!; [done|done|by apply (bo_sized _ Hcart)]].
  unfold cart_state, blyt_cart_find_section.
  destruct (find_section_total (CartLoad.cart_map cart) (text ".cart.layouts") (bo_bytes _ Hcart)) as (r & -> & Hr); [by apply no_nul_text|].
  cbn [mbind option_bind]. destruct r as [[off size]|]; [destruct (Hr off size eq_refl) as (bytes & -> & _)|]; cbn [mbind option_bind];
    match goal with |- context [blyt_state_ctx_init ?c ?x ?r] =>
      destruct (state_init_total c x r (bo_layouts _ Hcart)) as (rc & sc & -> & Hwf) end; by exists sc.
Qed.

Lemma resources_ok t : exists t', load_session_resources h cart t = Some t' /\ t_entries t' = cart_entries env /\ table_ok env t'.
Proof using Hcart.
  unfold load_session_resources. destruct (load_for_cart_ok env (h_res_dir h) t (CartLoad.cart_path cart)) as (t' & -> & He);
    [apply (bo_alloc _ Hcart)|apply (bo_bytes _ Hcart)|apply (bo_packed _ Hcart)|].
  exists t'. split; [done|]. split; [done|].
  assert (Forall (entry_ok env) (t_entries t')) as Hok by (rewrite He; by apply cart_entries_ok; [apply (bo_bytes _ Hcart)|apply (bo_sections _ Hcart)]).
  split; [done|]. split; [|rewrite He; apply (bo_total _ Hcart)]. eapply Forall_impl; [exact Hok|]. by intros e [[? _] _].
Qed.

Lemma first_ctx_ok sc t pal acct :
  ctx_wf sc -> ctx_sized sc -> table_ok env t -> len pal = 256 -> 0 <= acct -> acct + 12 <= 2 ^ 32 ->
  run_ok sc env (first_ctx h cart sc t pal acct).
Proof using.
  intros Hwf Hs [He Hr] Hp Ha Hb. split; cbn; [|done|unfold BLYT_RESOURCE_SCRATCH_SIZE; lia|done|].
  - split; [apply initial_registry_ok; by rewrite len_replicate|done].
  - exists sc. split_and!; [done..|apply ctx_rel_refl].
Qed.

(** The built-in palette, as words and as bytes. *)
Lemma aurora_bytes : blyt_builtin_palette aurora_handle = Some BLYT_PAL_AURORA /\ palette_of_bytes (concat (write_u32_le <$> BLYT_PAL_AURORA)) = BLYT_PAL_AURORA.
Proof using. split; vm_compute; reflexivity. Qed.

Lemma initial_palette_ok t :
  table_ok env t ->
  exists pal t', initial_palette h cart t = Some (pal, t') /\ len pal = 256 /\ table_ok env t' /\ (cart_default_palette cart = 0 -> pal = BLYT_PAL_AURORA).
Proof using.
  intros Ht. unfold initial_palette.
  assert (run_ok zero_ctx env (first_ctx h cart zero_ctx t (replicate 256 0) 0)) as Hok.
  { apply first_ctx_ok; [by apply (init_inv_wf 0), init_inv_zero| |done|done|lia|lia]. intros bi b Hbi. cbn in Hbi. lia. }
  destruct (resolve_palette_ok zero_ctx (env_for h cart) _ (palette_handle cart) Hok) as (pal & t' & Hr & Hok' & Hlen). cbn [resources first_ctx] in Hr.
  rewrite Hr. cbn [mbind option_bind default from_option].
  assert (table_ok env t') as Ht'.
  { split; [apply (run_entries _ _ _ Hok')|]. by destruct (run_ctx_ok _ _ _ Hok') as (_ & ? & _). }
  destruct pal as [bytes|].
  - eexists _, _. split; [done|]. split; [unfold len; by rewrite (palette_of_bytes_len bytes 256) by (by apply Hlen)|]. split; [done|].
    intros E. unfold palette_handle in Hr. cbn [blyt_cart_default_palette] in Hr. rewrite E in Hr. cbv zeta in Hr. cbn [Z.eqb] in Hr.
    unfold blyt_resolve_palette in Hr. replace (blyt_resource_decode_provenance aurora_handle =? BLYT_RESOURCE_PROV_RUNTIME) with true in Hr by (vm_compute; reflexivity).
    rewrite (proj1 aurora_bytes) in Hr. injection Hr as <- _. apply aurora_bytes.
  - rewrite (proj1 aurora_bytes). eexists _, _. split; [done|]. split; [by vm_compute|done].
Qed.

(** ** A new session *)

(** What a session is like before its first frame, made from the emulator [m] and the link [lk]. *)
Record started (lk : linked) (m : machine R M) (sc : blyt_state_ctx_t) (l : live R M) : Prop := MkStarted {
  st_ok : session_ok (env_for h cart) sc (li_session l);
  st_state : state_ctx (s_ctx (li_session l)) = Some sc /\ cart_declares cart sc;
  st_libs : li_lib_syms l = lib_syms lk /\ li_retained_libs l = retained_libs lk;
  st_cpu : PC (s_rv (li_session l)) = PC m /\ rv_get_reg (s_rv (li_session l)) rv_reg_ra = BLYT_TRAMPOLINE_EXIT_ADDR;
  st_mem : same_but_acct (s_ctx (li_session l)) (rv_mem m) (mem_of l);
  st_acct : mem_acct_vaddr (s_ctx (li_session l)) = k_mem_acct_vaddr lk;
  st_flags : phase (s_ctx (li_session l)) = BLYT_PHASE_NONE /\ cart_has_drawn (s_ctx (li_session l)) = false
    /\ ecall_trapped (s_ctx (li_session l)) = false /\ ecall_aborted (s_ctx (li_session l)) = false /\ dev_fault (s_ctx (li_session l)) = false;
  st_surfaces : surfaces (s_ctx (li_session l)) = initial_registry (replicate (Z.to_nat 76800) 0);
  st_palette : cart_default_palette cart = 0 -> palette (s_ctx (li_session l)) = BLYT_PAL_AURORA;
  st_persistent : resident (t_entries (resources (s_ctx (li_session l))));
  st_place : record_cart_image_layout (CartLoad.cart_map cart) 0
             = Some (MkLayout (cart_base (li_session l)) (cart_span (li_session l)) (cart_bss (li_session l)));
  st_fns : k_fns lk = MkFns (fn_on_save_state (li_session l)) (fn_init (li_session l)) (fn_on_load_state (li_session l)) (fn_on_new_state (li_session l))
             (fn_update (li_session l)) (fn_draw (li_session l)) (fn_on_quit (li_session l)) (fn_cleanup (li_session l))
             (fn_on_assets_reloaded (li_session l)) (fn_is_quit_requested (li_session l)) }.

Lemma boot_session_ok eh shs lk m use_lua_bridge :
  image_wf (CartLoad.cart_map cart) eh shs -> 0 <= k_mem_acct_vaddr lk -> k_mem_acct_vaddr lk + 12 <= 2 ^ 32 ->
  0x04000000 <= ram_size (rv_mem m) -> fs_bytes (files m) ->
  exists r, boot_session h cart use_lua_bridge m lk = Some r /\ forall l, r = Created l -> exists sc, started lk m sc l.
Proof using Hcart.
  intros Hwf Ha0 Ha Hram Hfs. unfold boot_session. rewrite (layout_spec _ _ _ Hwf). cbn [mbind option_bind].
  set (lay := foldl _ _ _). destruct cart_state_ok as (sc & Esc & Hsc & Hsized). rewrite Esc. cbn [mbind option_bind].
  destruct (resources_ok blyt_resource_table_init) as (t & -> & _ & Ht). cbn [mbind option_bind].
  destruct (initial_palette_ok t Ht) as (pal & t1 & -> & Hpal & Ht1 & Haur). cbn [mbind option_bind].
  destruct (load_persistent_ok h cart t1 (bo_bytes _ Hcart) Ht1) as (ok & t2 & -> & Ht2 & Hres). cbn [mbind option_bind].
  destruct ok; cbn [negb]; [|eexists; by split]. specialize (Hres eq_refl).
  pose proof (first_ctx_ok sc t2 pal (k_mem_acct_vaddr lk) Hsc Hsized Ht2 Hpal Ha0 Ha) as Hok.
  destruct (publish_run_ok sc (env_for h cart) (first_ctx h cart sc t2 pal (k_mem_acct_vaddr lk)) (rv_mem m) Hok) as (c & mem & Hp & Hc & Hst & Hsurf & Hmem).
  change (rv_mem (rv_set_reg m rv_reg_ra BLYT_TRAMPOLINE_EXIT_ADDR)) with (rv_mem m). rewrite Hp. cbn [mbind option_bind]. eexists. split; [done|].
  intros l [= <-]. exists sc. destruct Hst as (reg & t3 & -> & Hev). cbn in Hsurf, Hev.
  pose proof (cart_state_declares sc Esc) as Hdecl.
  constructor; try done; cbn.
  - split; [|done]. split; cbn; [by rewrite (proj1 Hmem)|done|done].
  - split; [done|]. apply rv_reg_put; [unfold rv_reg_ra; lia|vm_compute; split; congruence].
  - by eapply evictions_resident.
  - rewrite (layout_spec _ _ _ Hwf). fold lay. by destruct lay.
  - by destruct (k_fns lk).
Qed.
End cart.
End creation.
