(* ===== verification/SessionLinkSteps.v ===== *)
(** * SessionLinkSteps: creating a session and swapping its cart, step by step

    The creation and the swap in terms of the specifications of the link ([DynLinkWalk]) and of what a
    session is made of ([SessionLinkSpec]). *)

From S2P Require Import Prelude Handle MemBudget StateBuffer StateBufferSpec StateBufferTheorems Save SaveTheorems ElfSection Elf32 CartLoad CartLoadSpec CartLoadDynamic CartQueries.
From S2P Require Import ResourceTable ResourceTheorems ResourceIndex Palettes RunCtx Surface SurfaceSpec SurfaceTheorems Ecall EcallSpec.
From S2P Require Import Session SessionSpec DynLink DynLinkSpec DynLinkSymbols DynLinkLoad DynLinkWalk SessionLink SessionLinkSpec.
From Stdlib Require Import ZArith Lia Strings.String.
From stdpp Require Import base tactics list.
Open Scope Z_scope.

(** ** Addresses of symbols *)

Definition addresses_ok (st : blyt_symtab_t) : Prop := Forall (fun e => is_u32 (snd e)) st.

Lemma lookup_u32 st name : addresses_ok st -> is_u32 (symtab_lookup st name).
Proof.
  induction 1 as [|[n a] st Ha _ IH]; cbn [symtab_lookup]; [unfold is_u32; lia|]. by case_bool_decide.
Qed.

Lemma exports_addresses map eh shs bias : addresses_ok (exports map eh shs bias).
Proof.
  unfold exports. destruct (_ <? _); [constructor|]. destruct (List.find _ _) as [d|]; [|constructor]. destruct (zget _ _) as [s|]; [|constructor].
  destruct (_ <? _); [constructor|]. apply Forall_forall. intros [n a] (p & _ & Hp)%list_elem_of_omap. unfold exported in Hp. cbn [snd].
  repeat (case_match || (apply bind_Some in Hp as (? & ? & Hp))); try done; simplify_eq; apply u32_range.
Qed.

Lemma add_exports_addresses st es : addresses_ok st -> addresses_ok es -> addresses_ok (foldl add_export st es).
Proof.
  intros Hst Hes. revert st Hst; induction Hes as [|e es He _ IH]; intros st Hst; cbn [foldl]; [done|]. apply IH. unfold add_export.
  destruct (_ <=? _)%nat; [done|]. destruct (_ =? 0); [|done]. apply Forall_app. split; [done|]. by constructor.
Qed.

Lemma link_symbols_u32 map eh shs base ims name : is_u32 (symtab_lookup (link_symbols (exports map eh shs base) ims) name).
Proof.
  apply lookup_u32. unfold link_symbols, append_symtab. apply Forall_take, Forall_app. split; apply add_exports_addresses; [constructor|apply exports_addresses|constructor|].
  generalize 0%nat. induction ims as [|im ims IH]; intros i; cbn; [constructor|]. apply Forall_app. split; [apply exports_addresses|apply IH].
Qed.

(** An accounting block does not wrap around the address space. *)
Definition acct_fits (es : blyt_symtab_t) : Prop := Forall (fun e => take 127 (fst e) = text "blyt_mem_acct" -> snd e + 12 <= 2 ^ 32) es.

Lemma add_exports_fit st es :
  Forall (fun e => fst e = text "blyt_mem_acct" -> snd e + 12 <= 2 ^ 32) st -> acct_fits es ->
  Forall (fun e => fst e = text "blyt_mem_acct" -> snd e + 12 <= 2 ^ 32) (foldl add_export st es).
Proof.
  intros Hst Hes. revert st Hst; induction Hes as [|e es He _ IH]; intros st Hst; cbn [foldl]; [done|]. apply IH. unfold add_export.
  destruct (_ <=? _)%nat; [done|]. destruct (_ =? 0); [|done]. apply Forall_app. split; [done|]. by constructor.
Qed.

Lemma acct_room cart_exports ims :
  acct_fits cart_exports -> acct_fits (concat (from im_exports 0 ims)) -> symtab_lookup (link_symbols cart_exports ims) (text "blyt_mem_acct") + 12 <= 2 ^ 32.
Proof.
  intros Hc Hi. unfold link_symbols, append_symtab.
  assert (Forall (fun e => fst e = text "blyt_mem_acct" -> snd e + 12 <= 2 ^ 32)
            (take MAX_SYMS (foldl add_export [] cart_exports ++ foldl add_export [] (concat (from im_exports 0 ims))))) as Hall.
  { apply Forall_take, Forall_app. by split; apply add_exports_fit. }
  induction Hall as [|[n a] st Ha _ IH]; cbn [symtab_lookup]; [lia|]. case_bool_decide; [by apply Ha|done].
Qed.

Section steps.
Context {R M : Type} `{HR : RegFile R} `{HM : GuestMemory M} (h : host R M).
Variable memory_fill : M -> Z -> Z -> Z -> M.
Variable write_ok : M -> Z -> Z -> bool.
Hypothesis fill_writes : forall m a n v, 0 <= n -> memory_fill m a n v = memory_write m a (replicate (Z.to_nat n) v).

(** What the emulator and the libraries of this host are relied on for. *)
Record host_ok : Prop := {
  ho_create : forall cart m, h_rv_create h cart = Some m -> 0x04000000 <= ram_size (rv_mem m) /\ fs_bytes (files m);
  ho_reset : forall m pc, PC (h_rv_reset h m pc) = pc /\ ram_size (rv_mem (h_rv_reset h m pc)) = ram_size (rv_mem m) /\ files (h_rv_reset h m pc) = files m;
  ho_libs : env_ok (h_link h);
  ho_acct : forall name map eh shs needed i, open_lib (h_link h) name = Some map -> lib_ok map eh shs needed -> (i < MAX_RUNTIME_LIBS)%nat ->
    acct_fits (exports map eh shs (lib_bias i eh)) }.
Hypothesis Hhost : host_ok.

Lemma trampoline_size mem : ram_size (inject_exit_trampoline write_ok mem).2 = ram_size mem.
Proof. unfold inject_exit_trampoline. repeat case_match; cbn; by rewrite ?memory_write_size. Qed.

(** The trampolines are what a return of a callback or of a host call needs: an exit, and a return to the host. *)
Lemma trampoline_read mem mem' :
  inject_exit_trampoline write_ok mem = (true, mem') -> BLYT_TRAMPOLINE_FN_RETURN_ADDR + 16 <= ram_size mem ->
  memory_read mem' BLYT_TRAMPOLINE_EXIT_ADDR 16 = exit_stub /\ memory_read mem' BLYT_TRAMPOLINE_FN_RETURN_ADDR 16 = fn_return_stub.
Proof.
  unfold inject_exit_trampoline. destruct (negb _); [done|]. cbv zeta. destruct (negb _); [done|]. intros [= <-] Hram.
  assert (BLYT_TRAMPOLINE_EXIT_ADDR = 0x01000000 /\ BLYT_TRAMPOLINE_FN_RETURN_ADDR = 0x01000040) as [-> Hf] by (split; reflexivity). rewrite Hf in *.
  assert (len exit_stub = 16 /\ len fn_return_stub = 16) as [H1 H2] by (split; reflexivity). split.
  - rewrite memory_read_other by lia. rewrite <-H1 at 1. apply memory_read_write; lia.
  - rewrite <-H2 at 1. apply memory_read_write; [lia|]. rewrite memory_write_size. lia.
Qed.

(** ** Creation *)

(** The libraries of a session, in the terms of the link. *)
Definition libs_are (ims : list image) (l : live R M) : Prop :=
  li_retained_libs l = from im_lib 0 ims /\ li_lib_syms l = foldl add_export [] (concat (from im_exports 0 ims)) /\ Forall im_ok ims
  /\ acct_fits (concat (from im_exports 0 ims)).

Lemma chain_acct_fits use_lua_bridge i q ims q' : chain (h_link h) use_lua_bridge i q ims q' -> acct_fits (concat (from im_exports i ims)).
Proof using Hhost.
  induction 1 as [| |i q name im ims q' Hi _ Ho Him _ _ IH]; cbn [from concat]; [constructor|constructor|].
  apply Forall_app. split; [by apply (ho_acct Hhost _ _ _ _ _ i Ho Him)|done].
Qed.

Lemma session_create_spec session_ok_ tables_ok cart use_lua_bridge eh shs needed :
  bootable h cart -> cart_ok (CartLoad.cart_map cart) eh shs needed ->
  acct_fits (exports (CartLoad.cart_map cart) eh shs 0) ->
  exists r, session_create_impl h memory_fill write_ok session_ok_ tables_ok cart use_lua_bridge = Some r
    /\ forall l, r = Created l ->
         exists m lk mem ims q sc mask,
           h_rv_create h cart = Some m
           /\ blyt_cart_native_lifecycle_mask (Some cart) = Some mask /\ Z.land (h_lua_mask h cart) mask = 0
           /\ dynlink (h_link h) use_lua_bridge memory_fill write_ok tables_ok cart (inject_exit_trampoline write_ok (rv_mem m)).2 = Some (Some (lk, mem))
           /\ chain (h_link h) use_lua_bridge 0 (seeds needed) ims q /\ libs_are ims l
           /\ k_fns lk = resolve_cart_entry_points (link_symbols (exports (CartLoad.cart_map cart) eh shs 0) ims)
           /\ started h cart lk (set_mem m mem) sc l.
Proof.
  intros Hboot Hcart Hacct. unfold session_create_impl. destruct session_ok_; cbn [negb]; [|eexists; by split].
  destruct (bo_queries _ _ Hboot) as (eh' & shs' & Hq). destruct (lifecycle_mask_spec _ _ _ Hq) as (mask & Hmask & _). rewrite Hmask. cbn [mbind option_bind].
  destruct (Z.eqb_spec (Z.land (h_lua_mask h cart) mask) 0) as [Hland|]; cbn [negb]; [|eexists; by split].
  destruct (h_rv_create h cart) as [m|] eqn:Em; [|eexists; by split]. destruct (ho_create Hhost cart m Em) as [Hram Hfs].
  pose proof (trampoline_size (rv_mem m)) as Hts. destruct (inject_exit_trampoline write_ok (rv_mem m)) as [tok mem0] eqn:Et. cbn [snd] in *.
  destruct (dynlink_spec (h_link h) use_lua_bridge memory_fill write_ok fill_writes tables_ok cart mem0 eh shs needed Hcart (ho_libs Hhost)) as (r & Hd & Hr).
  rewrite Hd. cbn [mbind option_bind]. destruct r as [[lk mem]|]; [|eexists; by split].
  destruct (Hr lk mem eq_refl) as (ims & q & mem1 & ws & Hch & Hld & Hlibs & Hsyms & Hfns & _ & Hac & Hmem & _). cbv zeta in *.
  pose proof (link_symbols_u32 (CartLoad.cart_map cart) eh shs 0 ims (text "blyt_mem_acct")) as [Hu _]. pose proof (chain_acct_fits _ _ _ _ _ Hch) as Hfit. pose proof (acct_room _ _ Hacct Hfit) as Hroom.
  rewrite <-Hac in Hu, Hroom.
  assert (ram_size mem = ram_size (rv_mem m)) as Hsz by (rewrite Hmem, put_words_size, (all_loaded_size _ _ _ _ Hld); done).
  destruct (boot_session_ok h cart Hboot eh shs lk (set_mem m mem) use_lua_bridge) as (r & -> & Hc); [apply Hcart|done|done|cbn; lia|done|].
  exists r. split; [done|]. intros l ->. destruct (Hc l eq_refl) as (sc & Hst).
  exists m, lk, mem, ims, q, sc, mask. do 3 (split; [done|]). split; [by rewrite Et|]. split; [done|]. split; [|by split]. destruct (st_libs _ _ _ _ _ _ Hst) as [E1 E2].
  split; [congruence|]. split; [congruence|]. split; [by eapply chain_im_ok|done].
Qed.

(** ** The swap *)

(** A word that a relocation of the new image, or one of a library, binds. *)
Definition swap_binds (map : list Z) (eh : Elf32_Ehdr) (shs : list Elf32_Shdr) (base : Z) (ims : list image) (all : blyt_symtab_t) (a v : Z) : Prop :=
  image_binds map eh shs base all a v
  \/ exists j im, ims !! j = Some im /\ image_binds (im_map im) (im_eh im) (im_shs im) (lib_bias j (im_eh im)) all a v.
(** The words the swap sets in the C library. *)
Definition swap_stamps (all : blyt_symtab_t) : list (Z * Z) :=
  let base := symtab_lookup all (text "blytc_arena_base") in
  let size := symtab_lookup all (text "blytc_arena_size") in
  let ready := symtab_lookup all (text "blytc_arena_ready") in
  (if negb (base =? 0) && negb (size =? 0) then [(base, BLYT_ARENA_BASE); (size, BLYT_ARENA_SIZE)] else [])
  ++ (if ready =? 0 then [] else [(ready, 0)]).
Definition zero_acct (all : blyt_symtab_t) (mem : M) : M :=
  let acct := symtab_lookup all (text "blyt_mem_acct") in if acct =? 0 then mem else memory_write mem acct (replicate 8 0).

Lemma swap_relink_spec tables_ok l cart base eh shs ims :
  image_ok (CartLoad.cart_map cart) eh shs -> libs_are ims l ->
  exists r mem', swap_relink memory_fill write_ok tables_ok l cart base = Some (r, mem') /\ ram_size mem' = ram_size (mem_of l)
    /\ forall all, r = Some all ->
         all = link_symbols (exports (CartLoad.cart_map cart) eh shs base) ims
         /\ exists ws, mem' = zero_acct all (put_words (ws ++ swap_stamps all) (store_all (image_writes (CartLoad.cart_map cart) base (loads (CartLoad.cart_map cart) eh)) (mem_of l)))
           /\ forall a v, (a, v) ∈ ws <-> image_rebases (CartLoad.cart_map cart) shs base a v \/ swap_binds (CartLoad.cart_map cart) eh shs base ims all a v.
Proof using fill_writes.
  intros [Hwf Hstride] (Hlibs & Hsyms & Hims & _). unfold swap_relink. set (map := CartLoad.cart_map cart) in *.
  destruct (map_lib_segments_spec memory_fill write_ok fill_writes map eh shs Hwf base (mem_of l)) as (ok & mem1 & -> & Hsz & Hok). cbn [mbind option_bind].
  destruct ok; cbn [negb]; [|eexists _, _; by split_and!]. destruct (Hok eq_refl) as (-> & _ & _).
  destruct (apply_lib_rela_spec (M:=M) map eh shs base Hwf Hstride) as (ws1 & -> & H1). cbn [mbind option_bind].
  destruct tables_ok; cbn [negb]; [|eexists _, _; split; [done|]; split; [by rewrite put_words_size|done]].
  rewrite (build_symtab_spec _ _ _ Hwf) by constructor. cbn [mbind option_bind]. rewrite Hsyms, Hlibs.
  fold (link_symbols (exports map eh shs base) ims). set (all := link_symbols _ ims).
  assert (names_ok all) as Hall by (apply names_ok_symbols, exports_no_nul).
  destruct (resolve_elf_plt_spec (M:=M) _ _ _ base all Hwf Hall) as (ws2 & -> & H2). cbn [mbind option_bind].
  destruct (resolve_libs_spec (M:=M) 0 ims all Hims Hall) as (ws3 & -> & H3). cbn [mbind option_bind].
  eexists _, _. split; [done|]. split.
  - repeat case_match; unfold stamp, stamp_arena, put_word; repeat case_match; by rewrite ?memory_write_size, ?put_words_size, ?store_all_size.
  - intros all' [= <-]. split; [done|]. exists (ws1 ++ ws2 ++ ws3). split.
    + unfold zero_acct, swap_stamps, stamp, stamp_arena. rewrite !put_words_app. by destruct (_ && _), (symtab_lookup all (text "blytc_arena_ready") =? 0).
    + intros a v. rewrite !elem_of_app, H1, H2, H3. unfold swap_binds. cbn [Nat.add]. tauto.
Qed.

Lemma swap_wipe_size ob os b s mem : 0 <= os -> ram_size (swap_wipe memory_fill ob os b s mem) = ram_size mem.
Proof using fill_writes.
  intros Hos. unfold swap_wipe. destruct (Z.eqb_spec os 0); [done|]. destruct (ob =? b).
  - destruct (Z.gtb_spec os s); [|done]. by rewrite fill_writes, memory_write_size by lia.
  - by rewrite fill_writes, memory_write_size by lia.
Qed.

(** The resources of the swapped session: the entries of the new cart, loaded into the cleared table of the old one,
    and the persistent set marked and, if it could be, loaded. *)
Definition swapped_resources (cart : blyt_cart_t) (old new : blyt_resource_table_t) : Prop :=
  exists t ok, load_session_resources h cart (blyt_resource_table_clear old) = Some t
    /\ t_entries t = cart_entries (e_res (env_for h cart)) /\ load_persistent h cart t = Some (ok, new)
    /\ (ok = true -> resident (t_entries new)).

(** The context keeps what does not come from the cart, and the debug flag. *)
Definition kept (c c' : blyt_run_ctx_t) : Prop :=
  palette c' = palette c /\ surfaces c' = surfaces c /\ phase c' = phase c /\ RunCtx.cart_is_debug c' = RunCtx.cart_is_debug c
  /\ dev_fault c' = dev_fault c /\ cart_exited c' = cart_exited c /\ peer_heap c' = peer_heap c /\ save_dir c' = save_dir c.

Lemma swap_ctx_spec cart acct c sc0 env0 :
  bootable h cart -> run_ok sc0 env0 c -> 0 <= acct -> acct + 12 <= 2 ^ 32 ->
  exists c' sc, swap_ctx h cart acct c = Some c' /\ run_ok sc (e_res (env_for h cart)) c' /\ kept c c'
    /\ cart_state h cart = Some sc /\ state_ctx c' = Some sc /\ cart_name c' = snprintf 64 (CartLoad.cart_id cart)
    /\ save_version c' = cart_save_version cart /\ mem_acct_vaddr c' = acct /\ resource_scratch_off c' = 0
    /\ swapped_resources cart (resources c) (resources c').
Proof using HM HR.
  intros Hboot Hc Ha0 Ha. unfold swap_ctx. destruct (run_state _ _ _ Hc) as (sc1 & -> & Hwf1 & _).
  destruct (wf_destroy_total sc1 Hwf1) as (? & ->). cbn [mbind option_bind].
  destruct (cart_state_ok h cart Hboot) as (sc & -> & Hwf & Hsized). cbn [mbind option_bind].
  destruct (resources_ok h cart Hboot (blyt_resource_table_clear (resources c))) as (t & Et & Hent & Ht). rewrite Et. cbn [mbind option_bind].
  destruct (load_persistent_ok h cart t (bo_bytes _ _ Hboot) Ht) as (ok & t2 & Ep & [He Hr] & Hres). rewrite Ep. cbn [mbind option_bind].
  eexists _, sc. split; [done|]. split; [|split_and!; try done; by exists t, ok]. destruct (run_ctx_ok _ _ _ Hc) as (Hreg & _ & _).
  split; cbn; [by split_and!|done|unfold BLYT_RESOURCE_SCRATCH_SIZE; lia|by apply (run_palette _ _ _ Hc)|].
  exists sc. split_and!; [done..|apply ctx_rel_refl].
Qed.

(** The memory of the swap, before the wipe. *)
Definition swap_memory (map : list Z) (eh : Elf32_Ehdr) (base : Z) (all : blyt_symtab_t) (ws : list (Z * Z)) (mem : M) : M :=
  zero_acct all (put_words (ws ++ swap_stamps all) (store_all (image_writes map base (loads map eh)) mem)).

(** What a swap has done; [m] is the machine given to the emulator's reset. *)
Record swapped (l : live R M) (cart : blyt_cart_t) (base entry : Z) (ims : list image) (all : blyt_symtab_t) (m : machine R M) (sc : blyt_state_ctx_t) (l' : live R M)
    : Prop := MkSwapped {
  sw_ok : session_ok (env_for h cart) sc (li_session l');
  sw_state : cart_state h cart = Some sc /\ state_ctx (s_ctx (li_session l')) = Some sc /\ cart_declares h cart sc;
  sw_manifest : cart_name (s_ctx (li_session l')) = snprintf 64 (CartLoad.cart_id cart)
    /\ save_version (s_ctx (li_session l')) = cart_save_version cart;
  sw_resources : swapped_resources cart (resources (s_ctx (li_session l))) (resources (s_ctx (li_session l')));
  sw_libs : libs_are ims l' /\ li_use_lua_bridge l' = li_use_lua_bridge l;
  sw_rv : s_rv (li_session l') = with_halt false (rv_set_reg (h_rv_reset h m (u32 (base + entry))) rv_reg_ra BLYT_TRAMPOLINE_EXIT_ADDR);
  sw_kept : kept (s_ctx (li_session l)) (s_ctx (li_session l')) /\ frame_count (li_session l') = frame_count (li_session l)
    /\ trace_fn_addr (li_session l') = trace_fn_addr (li_session l);
  sw_flags : ecall_trapped (s_ctx (li_session l')) = false /\ ecall_aborted (s_ctx (li_session l')) = false /\ frame_done (s_ctx (li_session l')) = false
    /\ fn_return_done (s_ctx (li_session l')) = false /\ cart_has_drawn (s_ctx (li_session l')) = false /\ rv_halted (s_rv (li_session l')) = false;
  sw_acct : mem_acct_vaddr (s_ctx (li_session l')) = symtab_lookup all (text "blyt_mem_acct") /\ resource_scratch_off (s_ctx (li_session l')) = 0;
  sw_place : record_cart_image_layout (CartLoad.cart_map cart) base
             = Some (MkLayout (cart_base (li_session l')) (cart_span (li_session l')) (cart_bss (li_session l')));
  sw_fns : resolve_cart_entry_points all
           = MkFns (fn_on_save_state (li_session l')) (fn_init (li_session l')) (fn_on_load_state (li_session l')) (fn_on_new_state (li_session l'))
               (fn_update (li_session l')) (fn_draw (li_session l')) (fn_on_quit (li_session l')) (fn_cleanup (li_session l'))
               (fn_on_assets_reloaded (li_session l')) (fn_is_quit_requested (li_session l')) }.

Lemma clear_flags_ok sc env c : run_ok sc env c -> run_ok sc env (clear_flags c).
Proof using. intros Hc. apply (run_ok_keep sc env c); [done|by destruct c..]. Qed.

Lemma swap_spec tables_ok l cart base eh shs ims env0 sc0 :
  session_ok env0 sc0 (li_session l) -> 0 <= cart_span (li_session l) -> libs_are ims l -> bootable h cart ->
  image_ok (CartLoad.cart_map cart) eh shs -> acct_fits (exports (CartLoad.cart_map cart) eh shs base) ->
  exists ok l', blyt_session_swap_cart h memory_fill write_ok tables_ok l (Some cart) base = Some (ok, l')
    /\ (ok = false -> exists mem', l' = with_mem mem' l /\ ram_size mem' = ram_size (mem_of l))
    /\ (ok = true -> let all := link_symbols (exports (CartLoad.cart_map cart) eh shs base) ims in
          exists ws mem0 sc, swapped l cart base (e_entry eh) ims all (set_mem (s_rv (li_session l)) mem0) sc l'
            /\ mem0 = swap_wipe memory_fill (cart_base (li_session l)) (cart_span (li_session l)) base (cart_span (li_session l'))
                        (swap_memory (CartLoad.cart_map cart) eh base all ws (mem_of l))
            /\ forall a v, (a, v) ∈ ws <-> image_rebases (CartLoad.cart_map cart) shs base a v \/ swap_binds (CartLoad.cart_map cart) eh shs base ims all a v).
Proof using fill_writes Hhost.
  intros Hs Hspan Hlibs Hboot Himg Hfit. cbv zeta. unfold blyt_session_swap_cart.
  destruct (swap_relink_spec tables_ok l cart base eh shs ims Himg Hlibs) as (r & mem & -> & Hsz & Hr). cbn [mbind option_bind].
  destruct r as [all|]; [|eexists false, _; split; [done|]; split; [by exists mem|done]].
  destruct (Hr all eq_refl) as (Hall & ws & Hmem & Hws). pose proof (ok_wf _ _ _ Himg) as Hwf.
  rewrite (layout_spec _ _ _ Hwf). cbn [mbind option_bind]. set (lay := foldl _ _ _).
  assert (il_base lay = base) as Hbase by apply layout_base.
  pose proof (link_symbols_u32 (CartLoad.cart_map cart) eh shs base ims (text "blyt_mem_acct")) as [Hu _].
  pose proof (acct_room _ ims Hfit (proj2 (proj2 (proj2 Hlibs)))) as Hroom. rewrite <-Hall in Hu, Hroom.
  destruct (swap_ctx_spec cart _ _ _ _ Hboot (so_run _ _ _ Hs) Hu Hroom) as (c & sc & -> & Hc & Hk & Hst & Hsc & Hname & Hver & Hacct & Hoff & Hres).
  cbn [mbind option_bind]. rewrite (wf_ehdr _ _ _ Hwf). cbn [mbind option_bind]. eexists true, _. split; [done|]. split; [done|]. intros _.
  rewrite Hbase, <-Hall. set (mem0 := swap_wipe _ _ _ _ _ _). exists ws, mem0, sc. split; [|split; [unfold mem0; by rewrite Hmem|by rewrite Hall in Hws |- *]].
  pose proof (ho_reset Hhost (set_mem (s_rv (li_session l)) mem0) (u32 (base + e_entry eh))) as (_ & Hrs & Hrf).
  assert (ram_size mem0 = ram_size (mem_of l)) as Hsz0 by (unfold mem0; by rewrite swap_wipe_size).
  destruct Hs as [[Hram Hctx Hfs] Hfr]. constructor; cbn [li_session with_session make_session s_rv s_ctx frame_count trace_fn_addr]; try done.
  - split; [|done]. split; cbn.
    + etrans; [exact Hram|]. cbn in Hrs. rewrite Hrs. unfold mem_of in Hsz0. cbn. lia.
    + by apply clear_flags_ok.
    + cbn in Hrf. by rewrite Hrf.
  - split; [done|]. split; [by destruct c|by apply cart_state_declares].
  - by destruct c.
  - by destruct c.
  - split; [|done]. by destruct c.
  - by destruct c.
  - by destruct c.
  - rewrite (layout_spec _ _ _ Hwf). fold lay. by destruct lay.
Qed.
End steps.
