(* ===== verification/SessionLinkTheorems.v ===== *)
(** * SessionLinkTheorems: sessions from their creation on

    What a created session is like, what a swap of the cart does, and that no session that is created,
    run, reloaded and swapped takes the host outside of its buffers. *)

From S2P Require Import Prelude Handle MemBudget StateBuffer StateBufferSpec StateBufferTheorems Save SaveTheorems ElfSection Elf32 CartLoad CartLoadSpec CartLoadDynamic CartQueries.
From S2P Require Import ResourceTable ResourceTheorems ResourceIndex Palettes RunCtx Surface SurfaceSpec SurfaceTheorems Ecall EcallSpec.
From S2P Require Import Session SessionSpec DynLink DynLinkSpec DynLinkSymbols DynLinkLoad DynLinkWalk DynLinkTheorems SessionLink SessionLinkSpec SessionLinkSteps.
From Stdlib Require Import ZArith Lia Strings.String.
From stdpp Require Import base tactics list relations.
Open Scope Z_scope.

(** Only what a lookup finds counts. *)
Lemma swap_binds_ext map eh shs base ims syms syms' :
  (forall name, symtab_lookup syms name = symtab_lookup syms' name) ->
  forall a v, swap_binds map eh shs base ims syms a v <-> swap_binds map eh shs base ims syms' a v.
Proof.
  intros Hl a v. unfold swap_binds. rewrite (image_binds_ext _ _ _ _ _ _ _ _ Hl). apply or_iff_compat_l.
  split; intros (j & im & Hj & Hb); exists j, im; (split; [done|]); by apply (image_binds_ext _ _ _ _ _ _ _ _ Hl).
Qed.

(** A slice of a slice. *)
Lemma sub_sub {A} (l : list A) a k o n : 0 <= a -> 0 <= o -> 0 <= n -> o + n <= k -> sub (sub l a k) o n = sub l (a + o) n.
Proof.
  intros Ha Ho Hn Hk. unfold sub. rewrite skipn_firstn_comm, drop_drop, take_take. f_equal; [lia|]. f_equal. lia.
Qed.

Section theorems.
Context {R M : Type} `{HR : RegFile R} `{HM : GuestMemory M} (h : host R M).
Variable memory_fill : M -> Z -> Z -> Z -> M.
Variable write_ok : M -> Z -> Z -> bool.
Hypothesis fill_writes : forall m a n v, 0 <= n -> memory_fill m a n v = memory_write m a (replicate (Z.to_nat n) v).
Hypothesis Hhost : host_ok h.

(** ** Creation *)


(** ** The swap *)

(** What the wipe covers. *)
Definition wiped (old_base old_span base span : Z) : option (Z * Z) :=
  if old_span =? 0 then None
  else if old_base =? base then if old_span >? span then Some (u32 (old_base + span), old_span - span) else None
  else Some (old_base, old_span).
Definition clear_of_wipe (w : option (Z * Z)) (a n : Z) : Prop := match w with Some (x, k) => a + n <= x \/ x + k <= a | None => True end.

Lemma swap_wipe_wiped ob os b s mem :
  swap_wipe memory_fill ob os b s mem = match wiped ob os b s with Some (a, n) => memory_fill mem a n 0 | None => mem end.
Proof using. unfold swap_wipe, wiped. repeat case_match; by simplify_eq. Qed.

Lemma wiped_pos ob os b s a n : 0 <= os -> wiped ob os b s = Some (a, n) -> 0 <= n.
Proof using. unfold wiped. intros Hos. repeat case_match; intros; simplify_eq; lia. Qed.

(** Not in the accounting block. *)
Definition clear_of_acct (all : blyt_symtab_t) (a n : Z) : Prop :=
  let acct := symtab_lookup all (text "blyt_mem_acct") in acct = 0 \/ a + n <= acct \/ acct + 8 <= a.

Lemma swapped_read ob os b s map eh base all ws mem a n :
  0 <= n -> 0 <= os -> clear_of_wipe (wiped ob os b s) a n -> clear_of_acct all a n ->
  memory_read (swap_wipe memory_fill ob os b s (swap_memory map eh base all ws mem)) a n
  = memory_read (put_words (ws ++ swap_stamps all) (store_all (image_writes map base (loads map eh)) mem)) a n.
Proof using fill_writes.
  intros Hn Hos Hw Ha. unfold swap_memory, zero_acct. rewrite swap_wipe_wiped.
  assert (forall mem', memory_read (match wiped ob os b s with Some (x, k) => memory_fill mem' x k 0 | None => mem' end) a n = memory_read mem' a n) as ->.
  { intros mem'. destruct (wiped ob os b s) as [[x k]|] eqn:Ew; [|done]. pose proof (wiped_pos _ _ _ _ _ _ Hos Ew). cbn [clear_of_wipe] in Hw.
    rewrite fill_writes by done. apply memory_read_other; [done|]. rewrite len_replicate. lia. }
  unfold clear_of_acct in Ha. cbv zeta. destruct (Z.eqb_spec (symtab_lookup all (text "blyt_mem_acct")) 0); [done|].
  apply memory_read_other; [done|]. rewrite len_replicate. lia.
Qed.

Lemma wiped_read ob os b s mem a n :
  0 <= os -> wiped ob os b s = Some (a, n) -> 0 <= a -> a + n <= ram_size mem ->
  memory_read (swap_wipe memory_fill ob os b s mem) a n = replicate (Z.to_nat n) 0.
Proof using fill_writes.
  intros Hos Hw Ha Hn. rewrite swap_wipe_wiped, Hw. pose proof (wiped_pos _ _ _ _ _ _ Hos Hw). rewrite fill_writes by done.
  assert (len (replicate (Z.to_nat n) 0) = n) as Hl by (rewrite len_replicate; lia). rewrite <-Hl at 2. apply memory_read_write; [done|]. by rewrite Hl.
Qed.


(** ** A session's life *)

Context (rv_step : (machine R M -> option (machine R M)) -> machine R M -> option (machine R M)) (frame_hash_on use_lua_bridge : bool).

(** A cart that can be loaded: its tables are in order, wherever it is put. *)
Definition playable (cart : blyt_cart_t) : Prop :=
  bootable h cart /\ exists eh shs needed, cart_ok (CartLoad.cart_map cart) eh shs needed
    /\ forall base, acct_fits (exports (CartLoad.cart_map cart) eh shs base).

(** The sessions, and the carts they run, that the host can reach: it creates one, runs frames, calls functions of the cart,
    reloads the resources and swaps the cart, in any order. *)
Inductive lives : blyt_cart_t -> live R M -> Prop :=
| lives_create session_alloc tables_alloc cart l :
    playable cart -> session_create_impl h memory_fill write_ok session_alloc tables_alloc cart use_lua_bridge = Some (Created l) -> lives cart l
| lives_frame cart l fuel r s :
    lives cart l -> blyt_session_run_frame (env_for h cart) rv_step frame_hash_on fuel (li_session l) = Done (r, s) -> lives cart (with_session s l)
| lives_call cart l fn args :
    lives cart l -> lives cart (with_session (blyt_session_begin_fn_call (li_session l) fn args) l)
| lives_reload cart l s :
    lives cart l -> blyt_session_reload_resources h cart (Some (li_session l)) = Some (true, Some s) -> lives cart (with_session s l)
| lives_swap cart l tables_alloc new base ok l' :
    lives cart l -> playable new -> blyt_session_swap_cart h memory_fill write_ok tables_alloc l (Some new) base = Some (ok, l') ->
    lives (if ok : bool then new else cart) l'.

(** What every session keeps. *)
Definition well (cart : blyt_cart_t) (l : live R M) : Prop :=
  playable cart /\ (exists sc, session_ok (env_for h cart) sc (li_session l)) /\ 0 <= cart_span (li_session l) /\ exists ims, libs_are ims l.

Lemma well_step cart l s sc :
  well cart l -> session_ok (env_for h cart) sc s -> same_cart (li_session l) s -> well cart (with_session s l).
Proof using.
  intros (Hp & _ & Hspan & ims & Hl) Hs (rv & c & n & a & ->). split; [done|]. split; [by exists sc|]. split; [done|]. by exists ims.
Qed.

Lemma layout_span_nonneg map eh shs base lay : image_wf map eh shs -> record_cart_image_layout map base = Some lay -> 0 <= il_span lay.
Proof using. intros Hwf. rewrite (layout_spec _ _ _ Hwf). intros [= <-]. apply (layout_span base (MkLayout base 0 []) (file_phdrs map eh)). Qed.

Lemma reload_ok cart s sc :
  playable cart -> session_ok (env_for h cart) sc s ->
  exists s', blyt_session_reload_resources h cart (Some s) = Some (true, Some s') /\ session_ok (env_for h cart) sc s' /\ same_cart s s'
    /\ t_entries (resources (s_ctx s')) = cart_entries (e_res (env_for h cart)).
Proof using.
  intros [Hboot _] Hs. unfold blyt_session_reload_resources. destruct (resources_ok h cart Hboot (resources (s_ctx s))) as (t & -> & He & [Hen Hr]).
  cbn [mbind option_bind]. eexists. split; [done|]. split; [|split; [by repeat eexists|by destruct (s_ctx s)]].
  apply session_ok_ctx; [done|]. apply run_ok_resources; [by apply so_run|done|done].
Qed.

Lemma swap_well tables_alloc cart l new base :
  well cart l -> playable new ->
  exists ok l', blyt_session_swap_cart h memory_fill write_ok tables_alloc l (Some new) base = Some (ok, l') /\ well (if ok : bool then new else cart) l'.
Proof using fill_writes Hhost.
  intros (Hp & (sc & Hs) & Hspan & ims & Hl) (Hboot & eh & shs & needed & Hcart & Hfit).
  destruct (swap_spec h memory_fill write_ok fill_writes Hhost tables_alloc l new base eh shs ims _ sc Hs Hspan Hl Hboot (cart_image _ _ _ _ Hcart) (Hfit base))
    as (ok & l' & -> & Hno & Hyes).
  exists ok, l'. split; [done|]. destruct ok.
  - destruct (Hyes eq_refl) as (ws & mem0 & sc' & Hsw & _). split; [split; [done|by exists eh, shs, needed]|]. split; [exists sc'; apply Hsw|].
    split; [|exists ims; apply Hsw]. apply (layout_span_nonneg _ _ _ _ _ (ok_wf _ _ _ (cart_image _ _ _ _ Hcart)) (sw_place _ _ _ _ _ _ _ _ _ _ Hsw)).
  - destruct (Hno eq_refl) as (mem' & -> & Hsz). split; [done|]. split; [|split; [done|by exists ims]]. exists sc.
    apply (session_ok_rv (env_for h cart) sc (fun m => set_mem m mem')); [done|exact Hsz|done].
Qed.

Lemma lives_well cart l : (forall hd m, emu_run hd m (rv_step hd m)) -> lives cart l -> well cart l.
Proof using fill_writes Hhost.
  intros Hrun. induction 1 as [sa ta cart l (Hboot & eh & shs & needed & Hcart & Hfit) Hc|cart l fuel r s _ Hw Hf|cart l fn args _ Hw|cart l s _ Hw Hr|cart l ta new base ok l' _ Hw Hp Hsw].
  - destruct (session_create_spec h memory_fill write_ok fill_writes Hhost sa ta cart use_lua_bridge eh shs needed Hboot Hcart (Hfit 0)) as (r & Hr & Hok).
    rewrite Hc in Hr. injection Hr as <-. destruct (Hok l eq_refl) as (m & lk & mem & ims & q & sc & mask & _ & _ & _ & _ & _ & Hl & _ & Hst).
    split; [split; [done|by exists eh, shs, needed]|]. split; [exists sc; apply Hst|]. split; [|by exists ims].
    apply (layout_span_nonneg _ _ _ _ _ (ok_wf _ _ _ (cart_image _ _ _ _ Hcart)) (st_place _ _ _ _ _ _ Hst)).
  - pose proof Hw as (_ & (sc & Hs) & _). destruct (run_frame_ok (env_for h cart) sc rv_step Hrun frame_hash_on fuel _ Hs) as (s1 & _ & _ & Hr). rewrite Hf in Hr.
    destruct Hr. by apply (well_step cart l s sc).
  - pose proof Hw as (_ & (sc & Hs) & _). destruct (begin_ok (env_for h cart) sc _ fn args Hs). by apply (well_step cart l _ sc).
  - pose proof Hw as (Hp & (sc & Hs) & _). destruct (reload_ok cart _ sc Hp Hs) as (s' & Hr' & Hs' & Hcart & _). rewrite Hr in Hr'. injection Hr' as <-.
    by apply (well_step cart l s sc).
  - destruct (swap_well ta cart l new base Hw Hp) as (ok' & l'' & Hsw' & Hw'). rewrite Hsw in Hsw'. by injection Hsw' as <- <-.
Qed.

End theorems.
