(* ===== verification/SessionLinkImages.v ===== *)
(** * SessionLinkImages: a session and its swap on small images

    A host with a C library that has an accounting block, the hypotheses of [SessionLinkTheorems] on it,
    witnesses, and a swap that fails after the old code is overwritten. *)

From S2P Require Import Prelude Handle MemBudget StateBuffer StateBufferSpec Save SaveTheorems ElfSection Elf32 CartLoad CartLoadSpec CartLoadDynamic CartQueries CartImages.
From S2P Require Import ResourceTable ResourceTheorems ResourceIndex Palettes RunCtx Surface SurfaceSpec Ecall EcallSpec EcallTheorems.
From S2P Require Import Session SessionSpec SessionTheorems DynLink DynLinkSpec DynLinkSymbols DynLinkLoad DynLinkWalk DynLinkTheorems DynLinkImages.
From S2P Require Import SessionLink SessionLinkSpec SessionLinkSteps SessionLinkTheorems.
From Stdlib Require Import ZArith Lia Strings.String.
From stdpp Require Import base tactics list relations gmap.
Open Scope Z_scope.

(** ** The host *)

Definition m_strings : list string := ["blytc_arena_base"; "blytc_arena_size"; "blytc_arena_ready"; "blyt_mem_acct"; "malloc"]%string.
(** The C library with all the variables the host looks for. *)
Definition libblytc_full : list Z :=
  library m_strings [] [symbol 0 0 0 0; symbol (ix m_strings "blytc_arena_base") 0x1000 0x11 1; symbol (ix m_strings "blytc_arena_size") 0x1004 0x11 1;
                        symbol (ix m_strings "blytc_arena_ready") 0x1008 0x11 1; symbol (ix m_strings "blyt_mem_acct") 0xff0 0x11 1;
                        symbol (ix m_strings "malloc") 0x50 0x12 1] [].
Definition full_env : link_env :=
  MkLinkEnv (blyt_register_lib (text "libblyt32.so") libblyt32 (blyt_register_lib (text "libblytc.so") libblytc_full [])) None (fun _ => None).

(** The emulator maps the cart as the main program. *)
Definition demo_create (cart : blyt_cart_t) : option (machine regs flat) :=
  match map_lib_segments flat_fill flat_ok (MkLib (CartLoad.cart_map cart) 0) DynLinkImages.demo_ram, rd_ehdr (CartLoad.cart_map cart) with
  | Some (true, mem), Some eh => Some (MkMachine (e_entry eh) 0 false (MkRegs (fun _ => 0)) mem None ∅ [])
  | _, _ => None
  end.
Definition demo_reset (m : machine regs flat) (pc : Z) : machine regs flat :=
  MkMachine pc 0 (rv_halted m) (MkRegs (fun _ => 0)) (rv_mem m) (g_run_ctx m) (files m) (console m).
Definition demo_host : host regs flat :=
  MkHost (MkEcallEnv (MkResEnv [] (fun _ _ => None) (fun _ => true) (fun _ => true) (fun _ => None)) (MkEnv (fun _ => true) (fun _ => true) 100000 (fun _ => false)) true true)
    full_env None None (Some (text "/home/blyt")) (fun _ _ => true) (fun _ => None) (fun _ => 0) demo_create demo_reset.

(** ** Its hypotheses *)

Definition fits_check (es : blyt_symtab_t) : bool :=
  forallb (fun e => negb (bool_decide (take 127 (fst e) = text "blyt_mem_acct")) || (snd e + 12 <=? 2 ^ 32)) es.
Lemma fits_check_sound es : fits_check es = true -> acct_fits es.
Proof.
  unfold fits_check. rewrite forallb_forall. intros Hf. apply Forall_forall. intros e He Hn. specialize (Hf e (proj1 (list_elem_of_In _ _) He)).
  cbv beta in Hf. rewrite bool_decide_true in Hf by done. cbn [negb orb] in Hf. lia.
Qed.
(** No block at all. *)
Lemma names_fit es : forallb (fun n => negb (bool_decide (take 127 n = text "blyt_mem_acct"))) (fst <$> es) = true -> acct_fits es.
Proof.
  rewrite forallb_forall. intros Hf. apply Forall_forall. intros e He Hn. exfalso.
  assert (fst e ∈ fst <$> es) as Hin by (apply list_elem_of_fmap; by exists e).
  specialize (Hf _ (proj1 (list_elem_of_In _ _) Hin)). cbv beta in Hf. by rewrite bool_decide_true in Hf.
Qed.

Lemma full_env_libs name map : open_lib full_env name = Some map -> map = libblytc_full \/ map = libblyt32.
Proof.
  intros Ho. unfold open_lib in Ho. change (registered full_env) with [(text "libblytc.so", libblytc_full); (text "libblyt32.so", libblyt32)] in Ho.
  destruct (List.find _ _) as [[n data]|] eqn:Ef; [|done]. injection Ho as <-. apply List.find_some in Ef as [Hin _].
  destruct Hin as [[= <- <-]|[[= <- <-]|[]]]; [by left|by right].
Qed.

Lemma full_env_ok : env_ok full_env.
Proof.
  assert (forallb lib_check [libblytc_full; libblyt32] = true) as Hc by (vm_compute; reflexivity). rewrite forallb_forall in Hc.
  intros name map Ho _. destruct (lib_check_sound map) as [needed Hok]; [|by exists (the_ehdr map), (the_shdrs map), needed].
  destruct (full_env_libs _ _ Ho) as [-> | ->]; apply Hc; [by left|by right; left].
Qed.

Lemma full_env_acct name map eh shs needed i :
  open_lib full_env name = Some map -> lib_ok map eh shs needed -> (i < MAX_RUNTIME_LIBS)%nat -> acct_fits (exports map eh shs (lib_bias i eh)).
Proof.
  assert (forallb (fun map => forallb (fun i => fits_check (exports map (the_ehdr map) (the_shdrs map) (lib_bias i (the_ehdr map)))) (seq 0 8)) [libblytc_full; libblyt32] = true) as Hc
    by (vm_compute; reflexivity). rewrite forallb_forall in Hc.
  intros Ho Hl Hi. destruct (im_ok_read (MkImage map eh shs needed) Hl) as [He Hs]. cbn [im_eh im_shs im_map] in He, Hs. rewrite He, Hs.
  assert (In map [libblytc_full; libblyt32]) as Hin by (destruct (full_env_libs _ _ Ho) as [-> | ->]; [by left|by right; left]).
  specialize (Hc map Hin). cbv beta in Hc. rewrite forallb_forall in Hc. apply fits_check_sound, Hc, in_seq. unfold MAX_RUNTIME_LIBS in Hi. lia.
Qed.

Lemma demo_host_ok : host_ok demo_host.
Proof.
  split.
  - intros cart m. cbn [h_rv_create demo_host]. unfold demo_create. destruct (map_lib_segments _ _ _ _) as [[[] mem]|] eqn:Em; [|done|done].
    destruct (rd_ehdr _) as [eh|] eqn:Eh; [|done]. intros [= <-]. cbn [rv_mem files]. split; [|by apply map_Forall_empty].
    assert (forall k i lib eh mem ok mem', segment_loop flat_fill flat_ok k i lib eh mem = Some (ok, mem') -> ram_size mem' = ram_size mem) as Hsz.
    { clear. intros k; induction k as [|k IH]; intros i lib eh mem ok mem'; cbn [segment_loop]; [by intros [= _ <-]|].
      destruct (_ >? _); [by intros [= _ <-]|]. destruct (rd_phdr _ _) as [ph|]; [|done]. cbn [mbind option_bind]. destruct (negb _); [apply IH|].
      assert (forall ok mem1, map_segment flat_fill flat_ok lib ph mem = Some (ok, mem1) -> ram_size mem1 = ram_size mem) as Hm.
      { intros ok1 mem1. unfold map_segment. destruct (_ >? _); [by intros [= _ <-]|]. destruct (rd _ _ _); [|done]. cbn [mbind option_bind].
        destruct (negb _); [by intros [= _ <-]|]. destruct (_ >? _); [destruct (negb _)|]; by intros [= _ <-]. }
      destruct (map_segment _ _ _ _ _) as [[ok1 mem1]|]; [|done]. cbn [mbind option_bind]. specialize (Hm _ _ eq_refl).
      destruct ok1; [intros Hr; rewrite <-Hm; by eapply IH|intros [= _ <-]; done]. }
    unfold map_lib_segments in Em. cbn [l_map] in Em. rewrite Eh in Em. cbn [mbind option_bind] in Em. apply Hsz in Em. rewrite Em. by vm_compute.
  - intros m pc. by split_and!.
  - exact full_env_ok.
  - exact full_env_acct.
Qed.

(** A cart without resources and state buffers can be played. *)
Definition play_check (map : list Z) : bool :=
  image_check map && queries_check map
  && match cart_state demo_host (opened map) with Some sc => n_buffers sc =? 0 | None => true end
  && match resource_sections (e_res (env_for demo_host (opened map))) with [] => true | _ => false end.
Lemma play_check_sound map : play_check map = true -> bootable demo_host (opened map).
Proof.
  unfold play_check. intros [[[Hi Hq]%andb_true_iff Hsc]%andb_true_iff Hr]%andb_true_iff.
  destruct (resource_sections (e_res (env_for demo_host (opened map)))) eqn:Er; [|done]. split.
  - apply image_check_sound in Hi as [[] _]. assumption.
  - by apply queries_check_sound.
  - done.
  - done.
  - intros sc Hs. rewrite Hs in Hsc. intros bi b Hbi. lia.
  - rewrite Er. constructor.
  - right. vm_compute. exact I.
  - unfold cart_entries. rewrite Er. cbn [fmap list_fmap total_len]. lia.
Qed.

Lemma linked_cart_bootable : bootable demo_host (opened linked_cart).
Proof. apply play_check_sound. vm_compute. reflexivity. Qed.
Lemma linked_cart_fits base : acct_fits (exports (CartLoad.cart_map (opened linked_cart)) (the_ehdr linked_cart) (the_shdrs linked_cart) base).
Proof. apply names_fit. vm_compute. reflexivity. Qed.
Lemma linked_cart_playable : playable demo_host (opened linked_cart).
Proof.
  split; [exact linked_cart_bootable|]. destruct linked_cart_ok as [needed Hc]. exists (the_ehdr linked_cart), (the_shdrs linked_cart), needed.
  split; [exact Hc|exact linked_cart_fits].
Qed.

(** ** A session *)

Abbreviation demo_creation := (session_create_impl demo_host flat_fill flat_ok true true (opened linked_cart) false).
Definition no_session : live regs flat := MkLive (demo_session false) [] [] false.
Definition the_live (r : option (creation regs flat)) : live regs flat := match r with Some (Created l) => l | _ => no_session end.
Definition is_created (r : option (creation regs flat)) : bool := match r with Some (Created _) => true | _ => false end.
Lemma is_created_eq r : is_created r = true -> r = Some (Created (the_live r)).
Proof. by destruct r as [[]|]. Qed.
Lemma created_case (Q : live regs flat -> Prop) c l r : c = Some (Created l) -> c = Some r -> (forall l, r = Created l -> Q l) -> Q l.
Proof. intros -> [= <-] HQ. by apply HQ. Qed.
Lemma demo_created : is_created demo_creation = true.
Proof. vm_compute. reflexivity. Qed.
Abbreviation demo_live := (the_live demo_creation).


(** ** Swapping *)

Definition ready (l : live regs flat) : Prop :=
  exists ims sc, session_ok (env_for demo_host (opened linked_cart)) sc (li_session l) /\ libs_are ims l.
Lemma demo_live_ready : ready demo_live.
Proof.
  destruct linked_cart_ok as [needed Hc].
  destruct (session_create_spec demo_host flat_fill flat_ok flat_fill_writes demo_host_ok true true (opened linked_cart) false _ _ needed
              linked_cart_bootable Hc (linked_cart_fits 0)) as (r & Hr & Hok).
  destruct (created_case _ _ _ _ (is_created_eq _ demo_created) Hr Hok) as (m & lk & mem & ims & q & sc & mask & _ & _ & _ & _ & _ & Hl & _ & Hst).
  exists ims, sc. split; [apply Hst|exact Hl].
Qed.

Abbreviation demo_swap tables_alloc map base := (blyt_session_swap_cart demo_host flat_fill flat_ok tables_alloc demo_live (Some (opened map)) base).
Definition swap_succeeds (r : option (bool * live regs flat)) : bool := match r with Some (ok, _) => ok | None => false end.
Definition swapped_live (r : option (bool * live regs flat)) : live regs flat := match r with Some (_, l) => l | None => no_session end.
Lemma demo_swap_succeeds : swap_succeeds (demo_swap true linked_cart BLYT_RELOAD_BASE_A) = true.
Proof. vm_compute. reflexivity. Qed.


(** ** A life *)

Lemma demo_lives : lives demo_host flat_fill flat_ok (toy_step BLYT_ECALL_FRAME_DONE) false false (opened linked_cart) demo_live.
Proof. apply (lives_create _ _ _ _ _ _ true true); [exact linked_cart_playable|exact (is_created_eq _ demo_created)]. Qed.


(** ** A swap that fails half-way *)

(** A cart with a segment over most of the file, and further ones. *)
Definition wide_phs (more : list (list Z)) (at_section : nat -> Z) : list (list Z) :=
  [phdr_bytes PT_INTERP (at_section 1%nat) (at_section 1%nat) (len interp_path) PF_R; phdr_bytes PT_GNU_RELRO (at_section 4%nat) (at_section 4%nat) 8 PF_R;
   segment PT_LOAD 0 0 206 206 (PF_R + PF_X)] ++ more.
Definition wide_cart (more : list (list Z)) : list Z :=
  elf (fun at_section => at_section 2%nat) (wide_phs more)
    [MkSection ".interp" 1 0 0 0 interp_path; MkSection ".text" 1 0 0 0 nops; MkSection ".dynstr" SHT_STRTAB 4096 0 0 (strtab k_strings);
     MkSection ".dynamic" SHT_DYNAMIC 0 3 8 (concat (k_dynamic "libblyt32.so")); MkSection ".dynsym" SHT_DYNSYM 0 3 16 (concat k_symbols);
     MkSection ".rela" SHT_RELA 0 5 12 (concat k_relas); MkSection ".cart.info" 1 0 0 0 info_bytes].
(** One of them beyond the memory of the emulator. *)
Definition far_cart : list Z := wide_cart [segment PT_LOAD 240 0x20000000 8 8 PF_R].
(** None of them. *)
Definition near_cart : list Z := wide_cart [segment PT_LOAD 240 0x1000 8 8 PF_R].

(** The code at the entry of the session. *)
Definition entry_code (s : live regs flat) : list Z := memory_read (mem_of s) (e_entry (the_ehdr linked_cart)) 8.

(** The swap fails, the session has the place, the CPU and the callbacks it had, and other code at its entry. *)
Definition half_swapped (r : option (bool * live regs flat)) : Prop :=
  exists l', r = Some (false, l') /\ PC (s_rv (li_session l')) = PC (s_rv (li_session demo_live)) /\ fn_update (li_session l') = fn_update (li_session demo_live)
    /\ cart_base (li_session l') = cart_base (li_session demo_live) /\ cart_span (li_session l') = cart_span (li_session demo_live) /\ entry_code l' <> nops.

Lemma half_swapped_intro r :
  match r with
  | Some (false, l') => bool_decide (PC (s_rv (li_session l')) = PC (s_rv (li_session demo_live))) && (fn_update (li_session l') =? fn_update (li_session demo_live))
      && (cart_base (li_session l') =? cart_base (li_session demo_live)) && (cart_span (li_session l') =? cart_span (li_session demo_live))
      && negb (bool_decide (entry_code l' = nops))
  | _ => false
  end = true -> half_swapped r.
Proof.
  destruct r as [[[] l']|]; [done| |done]. intros [[[[H1 H2]%andb_true_iff H3]%andb_true_iff H4]%andb_true_iff H5]%andb_true_iff. exists l'.
  apply bool_decide_eq_true in H1. apply negb_true_iff, bool_decide_eq_false in H5. apply Z.eqb_eq in H2, H3, H4. repeat (split; [first [reflexivity|assumption]|]). exact H5.
Qed.

(** C14: A swap that fails does not leave the old code alone.  A session runs a cart, and is reloaded at its base with another
    cart that the loader accepts.  When the second segment of that cart does not fit the memory of the emulator, and when the
    symbol table cannot be allocated, the swap reports a failure; the session keeps its CPU, its place and its callbacks,
    but the code at its entry has been overwritten with the new image. *)
Theorem session_swap_not_atomic :
  demo_creation = Some (Created demo_live) /\ entry_code demo_live = nops
  /\ (open_demo far_cart = Accept (opened far_cart) /\ half_swapped (demo_swap true far_cart 0))
  /\ (open_demo near_cart = Accept (opened near_cart) /\ half_swapped (demo_swap false near_cart 0)).
Proof.
  split; [exact (is_created_eq _ demo_created)|]. split; [vm_compute; reflexivity|].
  split; (split; [vm_compute; reflexivity|apply half_swapped_intro; vm_compute; reflexivity]).
Qed.
