(* ===== verification/GdbTarget.v ===== *)
(** * GdbTarget: the debugger's view of the guest

    Models the CPU operations [runtime/host/src/libblyt/cart_run.c] gives to the GDB stub: registers
    and memory of the guest, and software breakpoints, which are [ebreak] instructions patched over
    the guest's code.  The session keeps the words they replace.

    The invariant [patched]: each breakpoint stands on an [ebreak] and no two overlap.  The reading
    [program] of the memory puts the replaced instructions back; setting and clearing
    breakpoints do not change it. *)

From S2P Require Import Prelude RunCtx ResourceTable ResourceTheorems Ecall.
From Stdlib Require Import ZArith Lia.
From stdpp Require Import base tactics list.
Open Scope Z_scope.

Definition MAX_GDB_BREAKS : Z := 128.

(** The result of the emulator's [memory_write]: a write outside of the RAM is refused. *)
Class CheckedMemory (M : Type) `{GuestMemory M} := {
  write_ok : M -> Z -> Z -> bool;
  write_ok_iff : forall m a n, write_ok m a n = true <-> 0 <= a /\ a + n <= ram_size m
}.

#[export] Program Instance flat_checked : CheckedMemory flat :=
  {| write_ok := fun m a n => (0 <=? a) && (a + n <=? flat_size m) |}.
Next Obligation. intros m a n. cbn. rewrite andb_true_iff. lia. Qed.

(** A session under the debugger: the machine, the live entries of [gdb_bps] (address and
    replaced word), and the global [g_gdb_block_flush_pending]. *)
Record gdb_target (R M : Type) := MkTarget {
  t_rv : machine R M;
  gdb_bps : list (Z * Z);
  block_flush_pending : bool
}.
Arguments MkTarget {R M}. Arguments t_rv {R M}. Arguments gdb_bps {R M}. Arguments block_flush_pending {R M}.

Section target.
Context {R M : Type} `{RegFile R} `{GuestMemory M} `{!CheckedMemory M}.
Abbreviation target := (gdb_target R M).
Abbreviation mach := (machine R M).

Definition on_machine (f : mach -> mach) (t : target) : target := MkTarget (f (t_rv t)) (gdb_bps t) (block_flush_pending t).
Definition with_mem (mem : M) (m : mach) : mach :=
  MkMachine (PC m) (csr_fcsr m) (rv_halted m) (xregs m) mem (g_run_ctx m) (files m) (console m).
Definition set_pc (pc : Z) (m : mach) : mach :=
  MkMachine pc (csr_fcsr m) (rv_halted m) (xregs m) (rv_mem m) (g_run_ctx m) (files m) (console m).
Definition t_mem (t : target) : M := rv_mem (t_rv t).

(** ** Registers *)

(** [out], or [None] when nothing is stored to it.  [s] is [g_gdb_session]. *)
Definition gdb_read_regs (s : option target) : option (list Z) :=
  t ← s; Some (concat ((fun i => write_u32_le (rv_get_reg (t_rv t) i)) <$> seqZ 0 32) ++ write_u32_le (PC (t_rv t))).

Definition reg_word (inp : list Z) (i : Z) : Z := read_u32_le (sub inp (i * 4) 4).
(** [for (i = i0; i < 32; i++) rv_set_reg(rv, i, ...)] *)
Fixpoint write_regs_loop (k : nat) (i : Z) (inp : list Z) (m : mach) : mach :=
  match k with
  | O => m
  | S k => write_regs_loop k (i + 1) inp (rv_set_reg m i (reg_word inp i))
  end.
Definition gdb_write_regs (s : option target) (inp : list Z) : option target :=
  on_machine (fun m => set_pc (reg_word inp 32) (write_regs_loop 32 0 inp m)) <$> s.

(** ** Memory *)

Definition GUEST_RAM_CONTAINS (mem : M) (a n : Z) : bool := (0 <=? a) && (a + n <=? ram_size mem).
Fixpoint read_loop (k : nat) (mem : M) (addr i : Z) : list Z :=
  match k with
  | O => []
  | S k => if negb (GUEST_RAM_CONTAINS mem (u32 (addr + i)) 1) then []
           else memory_read mem (u32 (addr + i)) 1 ++ read_loop k mem addr (i + 1)
  end.
(** The bytes stored to [dst]; their number is what the function returns. *)
Definition gdb_read_mem (s : option target) (addr n : Z) : list Z :=
  match s with None => [] | Some t => read_loop (Z.to_nat n) (t_mem t) addr 0 end.
Definition gdb_write_mem (s : option target) (addr : Z) (src : list Z) : Z * option target :=
  match s with
  | None => (0, None)
  | Some t => if negb (write_ok (t_mem t) addr (len src)) then (0, s)
              else (len src, Some (on_machine (with_mem (memory_write (t_mem t) addr src)) t))
  end.

(** ** Software breakpoints *)

Definition cebreak : list Z := [0x02; 0x90].
Definition ebreak : list Z := [0x73; 0x00; 0x10; 0x00].
Definition is_compressed (w : Z) : bool := negb (Z.land w 0x3 =? 0x3).

Definition add_bp (addr w : Z) (t : target) : target := MkTarget (t_rv t) (gdb_bps t ++ [(addr, w)]) true.
Definition drop_bp (i : nat) (t : target) : target := MkTarget (t_rv t) (delete i (gdb_bps t)) true.

Definition gdb_set_bp (s : option target) (addr : Z) : Z * option target :=
  match s with
  | None => (-1, s)
  | Some t =>
      if len (gdb_bps t) >=? MAX_GDB_BREAKS then (-1, s)
      else
        let orig := gdb_read_mem s addr 4 in
        if negb (len orig =? 4) then (-1, s)
        else
          let orig_word := read_u32_le orig in
          let brk := if is_compressed orig_word then cebreak else ebreak in
          let '(n, s') := gdb_write_mem s addr brk in
          if negb (n =? len brk) then (-1, s')
          else (0, add_bp addr orig_word <$> s')
  end.

Definition gdb_clear_bp (s : option target) (addr : Z) : Z * option target :=
  match s with
  | None => (-1, s)
  | Some t =>
      match list_find (fun e => e.1 = addr) (gdb_bps t) with
      | None => (-1, s)
      | Some (i, (_, w)) =>
          let '(_, s') := gdb_write_mem s addr (take (if is_compressed w then 2 else 4) (write_u32_le w)) in
          (0, drop_bp i <$> s')
      end
  end.
End target.

(** ** The program behind the breakpoints *)

Section program.
Context {R M : Type} `{RegFile R} `{GuestMemory M} `{!CheckedMemory M}.
Abbreviation target := (gdb_target R M).

Definition byte_at (m : M) (x : Z) : Z := default 0 (zget (memory_read m x 1) 0).
Definition bp_size (w : Z) : Z := if is_compressed w then 2 else 4.
Definition covers (e : Z * Z) (x : Z) : bool := (e.1 <=? x) && (x <? e.1 + bp_size e.2).
(** The byte at [x] with the breakpoints taken out. *)
Fixpoint original (bps : list (Z * Z)) (m : M) (x : Z) : Z :=
  match bps with
  | [] => byte_at m x
  | e :: bps => if covers e x then default 0 (zget (write_u32_le e.2) (x - e.1)) else original bps m x
  end.
Definition program (t : target) (x : Z) : Z := original (gdb_bps t) (t_mem t) x.

Definition apart (e f : Z * Z) : Prop := e.1 + bp_size e.2 <= f.1 \/ f.1 + bp_size f.2 <= e.1.
Definition patch (w : Z) : list Z := if is_compressed w then cebreak else ebreak.
(** A breakpoint stands on its [ebreak]. *)
Definition armed (m : M) (e : Z * Z) : Prop :=
  0 <= e.1 /\ e.1 + 4 <= ram_size m /\ is_u32 e.2 /\ memory_read m e.1 (bp_size e.2) = patch e.2.
Record patched (t : target) : Prop := MkPatched {
  p_bytes : forall x, is_u8 (byte_at (t_mem t) x);
  p_ram : ram_size (t_mem t) < 2 ^ 32;
  p_count : len (gdb_bps t) <= MAX_GDB_BREAKS;
  p_armed : Forall (armed (t_mem t)) (gdb_bps t);
  p_once : NoDup (gdb_bps t);
  p_apart : forall e f, e ∈ gdb_bps t -> f ∈ gdb_bps t -> f = e \/ apart e f
}.

(** ** Bytes of the memory *)

Lemma zget_read m a n i : 0 <= i < n -> zget (memory_read m a n) i = Some (byte_at m (a + i)).
Proof.
  intros Hi. unfold byte_at. rewrite <-(memory_read_sub m a n i 1) by lia.
  destruct (zget_is_Some (memory_read m a n) i) as [x Hx]; [rewrite memory_read_len; lia|].
  rewrite zget_sub by lia. replace (i + 0) with i by lia. by rewrite Hx.
Qed.

Lemma byte_write_in m a bs x :
  0 <= a -> a + len bs <= ram_size m -> a <= x < a + len bs -> byte_at (memory_write m a bs) x = default 0 (zget bs (x - a)).
Proof.
  intros Ha Hr Hx. pose proof (memory_read_write m a bs Ha Hr) as Hrw.
  pose proof (zget_read (memory_write m a bs) a (len bs) (x - a) ltac:(lia)) as Hg. rewrite Hrw in Hg. rewrite Hg.
  by replace (a + (x - a)) with x by lia.
Qed.

Lemma byte_write_out m a bs x : x < a \/ a + len bs <= x -> byte_at (memory_write m a bs) x = byte_at m x.
Proof. intros Hx. unfold byte_at. rewrite memory_read_other by lia. done. Qed.

Lemma read_loop_spec mem addr k i :
  0 <= addr -> 0 <= i -> ram_size mem < 2 ^ 32 -> addr + i < 2 ^ 32 ->
  read_loop k mem addr i = memory_read mem (addr + i) (Z.max 0 (Z.min (Z.of_nat k) (ram_size mem - (addr + i)))).
Proof.
  intros Ha Hi Hram. revert i Hi; induction k as [|k IH]; intros i Hi Hlt; cbn [read_loop].
  { apply eq_sym, nil_length_inv. pose proof (memory_read_len mem (addr + i) (Z.max 0 (Z.min (Z.of_nat 0) (ram_size mem - (addr + i)))) ltac:(lia)) as Hl.
    unfold len in Hl. lia. }
  rewrite u32_id by (unfold is_u32; lia). unfold GUEST_RAM_CONTAINS.
  destruct (_ && _) eqn:E; cbn [negb].
  - apply andb_true_iff in E as [_ E%Z.leb_le].
    assert (read_loop k mem addr (i + 1) = memory_read mem (addr + i + 1) (Z.max 0 (Z.min (Z.of_nat k) (ram_size mem - (addr + i + 1))))) as ->.
    { rewrite IH by lia. by rewrite Z.add_assoc. }
    set (n := Z.max 0 (Z.min (Z.of_nat k) (ram_size mem - (addr + i + 1)))).
    replace (Z.max 0 (Z.min (Z.of_nat (S k)) (ram_size mem - (addr + i)))) with (1 + n) by lia.
    apply list_eq_zget; [rewrite len_app, !memory_read_len; lia|].
    rewrite len_app, !memory_read_len by lia. intros j Hj. rewrite (zget_read mem (addr + i) (1 + n)) by lia.
    destruct (decide (j = 0)) as [->|].
    + rewrite zget_app_l by (rewrite memory_read_len; lia). by rewrite zget_read by lia.
    + rewrite zget_app_r, memory_read_len, zget_read by (rewrite ?memory_read_len; lia). do 2 f_equal. lia.
  - rewrite Z.max_l by lia. apply eq_sym, nil_length_inv. pose proof (memory_read_len mem (addr + i) 0 ltac:(lia)) as Hl. unfold len in Hl. lia.
Qed.

(** A read stops at the end of the RAM. *)
Lemma gdb_read_mem_spec (t : target) addr n :
  is_u32 addr -> 0 <= n -> ram_size (t_mem t) < 2 ^ 32 ->
  gdb_read_mem (Some t) addr n = memory_read (t_mem t) addr (Z.max 0 (Z.min n (ram_size (t_mem t) - addr))).
Proof.
  intros Ha Hn Hram. unfold gdb_read_mem. rewrite read_loop_spec by (unfold is_u32 in *; lia). f_equal; lia.
Qed.

Lemma bytes_read m a n : 0 <= n -> (forall x, is_u8 (byte_at m x)) -> bytes_ok (memory_read m a n).
Proof.
  intros Hn Hm. apply Forall_lookup. intros i x Hx. pose proof (memory_read_len m a n Hn) as Hl.
  pose proof (lookup_lt_Some _ _ _ Hx). unfold len in Hl. pose proof (zget_read m a n (Z.of_nat i) ltac:(lia)) as Hz.
  rewrite zget_lookup, Nat2Z.id, Hx in Hz by lia. injection Hz as ->. apply Hm.
Qed.

Lemma write_read_u32_le b : bytes_ok b -> len b = 4 -> is_u32 (read_u32_le b) /\ write_u32_le (read_u32_le b) = b.
Proof.
  intros Hb Hl. rewrite read_u32_le_val by done. pose proof (le_val_range b Hb) as Hr. rewrite Hl in Hr.
  split; [exact Hr|]. rewrite write_u32_le_bytes by lia. unfold len in Hl.
  replace 4%nat with (length b) by lia. by apply le_bytes_val.
Qed.

(** ** Breakpoints and the program *)

Lemma len_patch w : len (patch w) = bp_size w.
Proof. unfold patch, bp_size. by destruct (is_compressed w). Qed.
Lemma bp_size_val w : 2 <= bp_size w <= 4.
Proof. unfold bp_size. destruct (is_compressed w); lia. Qed.

Lemma covers_iff e x : covers e x = true <-> e.1 <= x < e.1 + bp_size e.2.
Proof. unfold covers. rewrite andb_true_iff. lia. Qed.
Lemma covers_apart e f x : apart e f -> covers e x = true -> covers f x = false.
Proof.
  intros Ha He%covers_iff. destruct (covers f x) eqn:Hf; [|done]. apply covers_iff in Hf. unfold apart in Ha. lia.
Qed.
Lemma apart_comm e f : apart e f -> apart f e.
Proof. unfold apart. tauto. Qed.

(** Exactly one breakpoint speaks for a byte, or none does. *)
Lemma original_none (bps : list (Z * Z)) m x : (forall e, e ∈ bps -> covers e x = false) -> original bps m x = byte_at m x.
Proof.
  induction bps as [|e bps IH]; intros Hno; cbn [original]; [done|]. rewrite (Hno e) by left. apply IH. intros f Hf. apply Hno. by right.
Qed.
Lemma original_some (bps : list (Z * Z)) m x e :
  (forall f, f ∈ bps -> f = e \/ apart e f) -> e ∈ bps -> covers e x = true ->
  original bps m x = default 0 (zget (write_u32_le e.2) (x - e.1)).
Proof.
  intros Hone He Hc. induction bps as [|f bps IH]; [by apply elem_of_nil in He|]. cbn [original].
  destruct (Hone f ltac:(left)) as [->|Hf]; [by rewrite Hc|]. rewrite (covers_apart _ _ _ Hf Hc).
  apply IH; [intros g Hg; apply Hone; by right|]. apply elem_of_cons in He as [->|He]; [|done].
  unfold apart in Hf. pose proof (bp_size_val f.2). lia.
Qed.

Lemma find_cover (bps : list (Z * Z)) x : (exists e : Z * Z, e ∈ bps /\ covers e x = true) \/ (forall e, e ∈ bps -> covers e x = false).
Proof.
  destruct (existsb (fun e => covers e x) bps) eqn:E.
  - apply existsb_exists in E as (e & He & Hc). left. exists e. split; [by apply list_elem_of_In|done].
  - right. intros e He. destruct (covers e x) eqn:Hc; [|done].
    assert (existsb (fun e => covers e x) bps = true) as Hx; [|congruence]. apply existsb_exists. exists e. split; [by apply list_elem_of_In|done].
Qed.

(** The word a breakpoint at [addr] would replace, and whether there is room for it. *)
Definition word (t : target) (addr : Z) : Z := read_u32_le (memory_read (t_mem t) addr 4).
Definition room (t : target) (addr : Z) : bool := (len (gdb_bps t) <? MAX_GDB_BREAKS) && (addr + 4 <=? ram_size (t_mem t)).
Definition uncovered (t : target) (addr : Z) : Prop := forall e, e ∈ gdb_bps t -> apart (addr, word t addr) e.
Definition poke (addr : Z) (bs : list Z) (t : target) : target := on_machine (with_mem (memory_write (t_mem t) addr bs)) t.

Lemma set_bp_spec t addr :
  patched t -> is_u32 addr ->
  gdb_set_bp (Some t) addr = if room t addr then (0, Some (add_bp addr (word t addr) (poke addr (patch (word t addr)) t))) else (-1, Some t).
Proof.
  intros Hp Ha. unfold gdb_set_bp, room. destruct (len (gdb_bps t) >=? MAX_GDB_BREAKS) eqn:Ec.
  { rewrite (proj2 (andb_false_iff _ _)) by lia. done. }
  rewrite (proj2 (Z.ltb_lt _ MAX_GDB_BREAKS)) by lia. cbn [andb].
  rewrite gdb_read_mem_spec by (try exact (p_ram _ Hp); unfold is_u32 in *; lia). unfold is_u32 in Ha.
  destruct (Z.leb_spec (addr + 4) (ram_size (t_mem t))).
  - replace (Z.max 0 (Z.min 4 (ram_size (t_mem t) - addr))) with 4 by lia. rewrite memory_read_len by lia. cbn [negb Z.eqb].
    fold (word t addr). fold (patch (word t addr)). unfold gdb_write_mem.
    rewrite (proj2 (write_ok_iff _ _ _)) by (rewrite len_patch; pose proof (bp_size_val (word t addr)); lia). cbn [negb].
    by rewrite Z.eqb_refl.
  - rewrite memory_read_len by lia. destruct (_ =? 4) eqn:E4; [lia|done].
Qed.

Lemma poke_armed t addr bs e :
  0 <= e.1 -> armed (t_mem t) e -> addr + len bs <= e.1 \/ e.1 + bp_size e.2 <= addr -> armed (t_mem (poke addr bs t)) e.
Proof.
  intros He (H1 & H2 & H3 & H4) Hd. unfold armed, poke. cbn [t_mem on_machine t_rv with_mem rv_mem]. rewrite memory_write_size.
  split_and!; [done..|]. rewrite memory_read_other; [done| |lia]. pose proof (bp_size_val e.2). lia.
Qed.

Lemma zget_patch_u8 w i : is_u8 (default 0 (zget (patch w) i)).
Proof.
  destruct (zget (patch w) i) as [x|] eqn:E; cbn; [|unfold is_u8; lia]. apply zget_elem in E.
  assert (Forall is_u8 (patch w)) as Hf by (unfold patch, cebreak, ebreak; destruct (is_compressed w); repeat constructor; unfold is_u8; lia).
  rewrite Forall_forall in Hf. by apply Hf.
Qed.

Lemma byte_write_u8 m a bs x :
  (forall x, is_u8 (byte_at m x)) -> bytes_ok bs -> 0 <= a -> a + len bs <= ram_size m -> is_u8 (byte_at (memory_write m a bs) x).
Proof.
  intros Hm Hb Ha Hl. destruct (decide (a <= x < a + len bs)) as [Hx|Hx].
  - rewrite byte_write_in by done. destruct (zget_is_Some bs (x - a) ltac:(lia)) as [y Hy]. rewrite Hy. cbn.
    apply zget_elem in Hy. by eapply Forall_forall in Hb.
  - rewrite byte_write_out by lia. apply Hm.
Qed.

Lemma bytes_patch w : bytes_ok (patch w).
Proof. unfold patch, cebreak, ebreak. destruct (is_compressed w); repeat constructor; unfold is_u8; lia. Qed.

(** A new breakpoint clear of the others does not change the program. *)
Lemma set_bp_keeps t addr t' :
  patched t -> is_u32 addr -> room t addr = true -> uncovered t addr ->
  t' = add_bp addr (word t addr) (poke addr (patch (word t addr)) t) -> patched t' /\ forall x, program t' x = program t x.
Proof.
  intros Hp Ha [Hc Hr]%andb_true_iff Hf ->. set (w := word t addr) in *. unfold is_u32 in Ha.
  pose proof (bp_size_val w) as Hw. pose proof (p_bytes _ Hp) as Hb. assert (addr + 4 <= ram_size (t_mem t)) as Hram by lia.
  destruct (write_read_u32_le (memory_read (t_mem t) addr 4)) as [Hw32 Hwb]; [apply bytes_read; [lia|done]|apply memory_read_len; lia|].
  fold (word t addr) in Hw32, Hwb. fold w in Hw32, Hwb.
  assert (Forall (armed (t_mem (poke addr (patch w) t))) (gdb_bps t ++ [(addr, w)])) as Harm.
  { apply Forall_app; split.
    - pose proof (p_armed _ Hp) as Har. rewrite Forall_forall in Har |- *. intros e He. pose proof (Har e He) as Hae.
      apply poke_armed; [apply Hae|exact Hae|]. rewrite len_patch. pose proof (Hf e He) as Hx. unfold apart in Hx. cbn in Hx. fold w in Hx. lia.
    - constructor; [|constructor]. unfold armed, poke. cbn [t_mem on_machine t_rv with_mem rv_mem fst snd]. rewrite memory_write_size.
      split_and!; [lia|lia|done|]. rewrite <-len_patch. apply memory_read_write; [lia|]. rewrite len_patch. lia. }
  assert (forall e f, e ∈ gdb_bps t ++ [(addr, w)] -> f ∈ gdb_bps t ++ [(addr, w)] -> f = e \/ apart e f) as Hone.
  { intros e f He Hg. apply elem_of_app in He as [He|He%list_elem_of_singleton], Hg as [Hg|Hg%list_elem_of_singleton].
    - by apply (p_apart _ Hp).
    - right. subst f. apply apart_comm. by apply Hf.
    - right. subst e. by apply Hf.
    - left. congruence. }
  split.
  - constructor; [| | |exact Harm| |exact Hone].
    + intros x. apply byte_write_u8; [done|apply bytes_patch|lia|rewrite len_patch; lia].
    + unfold poke. cbn [t_mem add_bp on_machine t_rv with_mem rv_mem]. rewrite memory_write_size. exact (p_ram _ Hp).
    + change (len (gdb_bps t ++ [(addr, w)]) <= MAX_GDB_BREAKS). rewrite len_app. change (len [(addr, w)]) with 1. lia.
    + apply NoDup_app. split; [exact (p_once _ Hp)|]. split; [|apply NoDup_singleton].
      intros e He He'%list_elem_of_singleton. subst e. apply Hf in He. unfold apart in He. cbn in He. fold w in He. lia.
  - intros x. unfold program. change (gdb_bps (add_bp addr w (poke addr (patch w) t))) with (gdb_bps t ++ [(addr, w)]).
    change (t_mem (add_bp addr w (poke addr (patch w) t))) with (memory_write (t_mem t) addr (patch w)).
    destruct (find_cover (gdb_bps t) x) as [(e & He & Hcx)|Hno].
    { rewrite (original_some _ _ x e (fun f => p_apart _ Hp e f He) He Hcx).
      apply original_some; [intros f Hg; apply Hone; [|done]|..|done]; apply elem_of_app; by left. }
    rewrite (original_none _ _ x Hno). destruct (covers (addr, w) x) eqn:Hcx.
    + rewrite (original_some _ _ x (addr, w)); [|intros f Hg; apply Hone; [|done]; apply elem_of_app; right; left|apply elem_of_app; right; left|done].
      apply covers_iff in Hcx. cbn [fst snd] in *. rewrite Hwb, zget_read by lia. cbn. by replace (addr + (x - addr)) with x by lia.
    + rewrite original_none.
      * apply byte_write_out. rewrite len_patch. destruct (decide (addr <= x < addr + bp_size w)); [|lia].
        assert (covers (addr, w) x = true); [by apply covers_iff|congruence].
      * intros f [Hg|Hg%list_elem_of_singleton]%elem_of_app; [by apply Hno|by subst f].
Qed.

(** Clearing a breakpoint takes its patch out, and only that. *)
Lemma clear_bp_spec t addr :
  patched t ->
  match list_find (fun e => e.1 = addr) (gdb_bps t) with
  | None => gdb_clear_bp (Some t) addr = (-1, Some t)
  | Some (i, (a, w)) =>
      a = addr /\ gdb_clear_bp (Some t) addr = (0, Some (drop_bp i (poke addr (take (Z.to_nat (bp_size w)) (write_u32_le w)) t)))
  end.
Proof.
  intros Hp. unfold gdb_clear_bp. destruct (list_find _ _) as [[i [a w]]|] eqn:Hl; [|done].
  apply list_find_Some in Hl as (Hi & Ha & _). cbn in Ha. subst a. split; [done|].
  pose proof (p_armed _ Hp) as Har. rewrite Forall_lookup in Har. destruct (Har i _ Hi) as (H1 & H2 & H3 & _). cbn [fst snd] in *.
  assert (take (Z.to_nat (bp_size w)) (write_u32_le w) = take (if is_compressed w then 2 else 4) (write_u32_le w)) as ->.
  { unfold bp_size. by destruct (is_compressed w). }
  unfold gdb_write_mem. rewrite (proj2 (write_ok_iff _ _ _)); [done|]. split; [done|].
  assert (len (take (if is_compressed w then 2 else 4) (write_u32_le w)) <= 4); [|lia]. by destruct (is_compressed w).
Qed.

Lemma clear_bp_keeps t i a w t' :
  patched t -> gdb_bps t !! i = Some (a, w) ->
  t' = drop_bp i (poke a (take (Z.to_nat (bp_size w)) (write_u32_le w)) t) ->
  patched t' /\ (forall x, program t' x = program t x) /\ (forall e, e ∈ gdb_bps t' <-> e ∈ gdb_bps t /\ e.1 <> a).
Proof.
  intros Hp Hi ->. set (bs := take (Z.to_nat (bp_size w)) (write_u32_le w)). pose proof (bp_size_val w) as Hw.
  assert (len bs = bp_size w) as Hbs by (unfold bs, bp_size; by destruct (is_compressed w)).
  pose proof (list_elem_of_lookup_2 _ _ _ Hi) as Hin. pose proof (p_armed _ Hp) as Har. rewrite Forall_forall in Har.
  destruct (Har _ Hin) as (H1 & H2 & H3 & _). cbn [fst snd] in *. pose proof (p_bytes _ Hp) as Hb.
  set (t' := drop_bp i (poke a bs t)). assert (t_mem t' = memory_write (t_mem t) a bs) as Hmem by done.
  assert (forall e, e ∈ gdb_bps t' <-> e ∈ gdb_bps t /\ e.1 <> a) as Hel.
  { intros e. change (gdb_bps t') with (delete i (gdb_bps t)). split.
    - intros He. assert (e ∈ gdb_bps t) as He' by (eapply elem_of_sublist; [|apply sublist_delete]; done). split; [done|].
      destruct (p_apart _ Hp _ _ Hin He') as [->|Hap].
      + exfalso. apply list_elem_of_lookup in He as [j Hj]. pose proof (p_once _ Hp) as Hnd. destruct (decide (j < i)%nat).
        * rewrite list_lookup_delete_lt in Hj by done. pose proof (NoDup_lookup _ _ _ _ Hnd Hi Hj). lia.
        * rewrite list_lookup_delete_ge in Hj by lia. pose proof (NoDup_lookup _ _ _ _ Hnd Hi Hj). lia.
      + unfold apart in Hap. cbn in Hap. pose proof (bp_size_val e.2). lia.
    - intros [He Hne]. apply list_elem_of_lookup in He as [j Hj]. destruct (decide (j = i)) as [->|]; [rewrite Hi in Hj; injection Hj as <-; done|].
      apply list_elem_of_lookup. destruct (decide (j < i)%nat).
      + exists j. by rewrite list_lookup_delete_lt.
      + exists (pred j). rewrite list_lookup_delete_ge by lia. by replace (S (pred j)) with j by lia. }
  assert (forall e, e ∈ gdb_bps t' -> apart (a, w) e) as Hap.
  { intros e [He Hne]%Hel. destruct (p_apart _ Hp _ _ Hin He) as [->|]; [done|done]. }
  split; [constructor|split; [|exact Hel]].
  - intros x. rewrite Hmem. apply byte_write_u8; [done| |lia|lia]. unfold bs. apply Forall_take.
    rewrite write_u32_le_bytes by (unfold is_u32 in H3; lia). apply le_bytes_ok.
  - rewrite Hmem, memory_write_size. exact (p_ram _ Hp).
  - pose proof (p_count _ Hp). assert (len (gdb_bps t') <= len (gdb_bps t)); [|lia]. change (gdb_bps t') with (delete i (gdb_bps t)). unfold len.
    pose proof (length_delete (gdb_bps t) i ltac:(by eexists)). lia.
  - rewrite Forall_forall. intros e He. pose proof (Hap e He) as Hx. apply Hel in He as [He _].
    change (t_mem t') with (t_mem (poke a bs t)). pose proof (Har _ He) as Hae.
    apply poke_armed; [apply Hae|exact Hae|]. rewrite Hbs. unfold apart in Hx. cbn in Hx. lia.
  - eapply sublist_NoDup; [exact (p_once _ Hp)|apply sublist_delete].
  - intros e f [He _]%Hel [Hf _]%Hel. by apply (p_apart _ Hp).
  - intros x. unfold program. rewrite Hmem. destruct (find_cover (gdb_bps t) x) as [(e & He & Hcx)|Hno].
    + rewrite (original_some _ _ x e (fun f => p_apart _ Hp e f He) He Hcx). destruct (p_apart _ Hp _ _ Hin He) as [->|Hae].
      * rewrite original_none by (intros f Hf; apply (covers_apart (a, w)); [by apply Hap|done]).
        apply covers_iff in Hcx. cbn [fst snd] in *. rewrite byte_write_in by lia. f_equal. unfold bs.
        rewrite !zget_lookup by lia. rewrite lookup_take_lt by lia. done.
      * apply original_some; [|apply Hel; split; [done|]|done].
        -- intros f [Hf _]%Hel. by apply (p_apart _ Hp).
        -- unfold apart in Hae. cbn in Hae. pose proof (bp_size_val e.2). lia.
    + rewrite (original_none _ _ x Hno). rewrite original_none by (intros f [Hf _]%Hel; by apply Hno).
      apply byte_write_out. rewrite Hbs. destruct (decide (a <= x < a + bp_size w)) as [Hx|]; [|lia].
      specialize (Hno _ Hin). assert (covers (a, w) x = true); [by apply covers_iff|congruence].
Qed.

(** Without breakpoints the memory is the program. *)
Lemma program_plain t x : gdb_bps t = [] -> program t x = byte_at (t_mem t) x.
Proof. unfold program. by intros ->. Qed.
End program.
