(* ===== verification/GdbStub.v ===== *)
(** * GdbStub: the GDB remote serial protocol stub

    Models [runtime/host/src/gdb/gdb_stub.c]: hexadecimal text, stop replies, the packet handlers
    and the public functions, for a 64-bit [unsigned long].  A packet is its payload, a C string
    (bytes other than 0).  A handler works on a [world]: the global [g_gdb], the library array that the layout
    points to (the session owns it and may change it), the debugged target, and the payloads
    handed to the transport.  The target is a parameter with its operations ([fc_gdb_cpu_ops_t]);
    [GdbTarget] implements them.  [None] is an access outside of a buffer, or a reply of uninitialised bytes. *)

From S2P Require Import Prelude Save ResourceIndex.
From Stdlib Require Import ZArith Lia Strings.String.
From stdpp Require Import base tactics list.
Open Scope Z_scope.

Definition MAX_PACKET : Z := 65536.
Definition MAX_BREAKS : Z := 128.

(** ** The C library *)

(** [strncmp(s, p, strlen(p)) == 0] and [strcmp(s, p) == 0] *)
Definition starts (p : string) (s : list Z) : bool := bool_decide (take (length (text p)) s = text p).
Definition same (p : string) (s : list Z) : bool := bool_decide (s = text p).
(** [s[0] == c && (s[1] == 0 || s[1] == ';')] *)
Definition alone_or_args (c : Z) (s : list Z) : bool :=
  match s with [x] => x =? c | x :: y :: _ => (x =? c) && (y =? 59) | [] => false end.
(** [s[0] == c && s[1] != 0] *)
Definition with_args (c : Z) (s : list Z) : bool := match s with x :: _ :: _ => x =? c | _ => false end.
Definition first_is (c : Z) (s : list Z) : bool := match s with x :: _ => x =? c | [] => false end.

Definition hexnyb (n : Z) : Z := let d := Z.land n 0xf in if d <? 10 then 48 + d else 87 + d.
Definition from_hex (c : Z) : Z :=
  if (48 <=? c) && (c <=? 57) then c - 48
  else if (97 <=? c) && (c <=? 102) then c - 97 + 10
  else if (65 <=? c) && (c <=? 70) then c - 65 + 10
  else -1.
Fixpoint hex_digits (s : list Z) (v : Z) (any : bool) : Z * list Z * bool :=
  match s with c :: s' => if 0 <=? from_hex c then hex_digits s' (16 * v + from_hex c) true else (v, s, any) | [] => (v, [], any) end.
(** Sign, magnitude and the string behind the number; behind nothing, the string itself. *)
Definition scan_hex (s0 : list Z) : bool * Z * list Z :=
  let s := skip_spaces s0 in
  let '(neg, s) := match s with c :: s' => if c =? 45 then (true, s') else if c =? 43 then (false, s') else (false, s) | [] => (false, []) end in
  let s := match s with
           | z :: x :: c :: s' => if (z =? 48) && ((x =? 120) || (x =? 88)) && (0 <=? from_hex c) then c :: s' else s
           | _ => s
           end in
  let '(v, rest, any) := hex_digits s 0 false in
  if negb any then (false, 0, s0) else (neg, v, rest).
(** [strtoul(s, &end, 16)] and [strtol(s, NULL, 16)] *)
Definition strtoul16 (s : list Z) : Z * list Z :=
  let '(neg, v, rest) := scan_hex s in (if v >? ULONG_MAX then ULONG_MAX else if neg : bool then u64 (- v) else v, rest).
Definition strtol16 (s : list Z) : Z :=
  let '(neg, v, _) := scan_hex s in
  if neg : bool then Z.max (- 2 ^ 63) (- v) else Z.min (2 ^ 63 - 1) v.
(** [(uint32_t)strtoul(s, &end, 16)] *)
Definition parse_u32 (s : list Z) : Z * list Z := let '(v, rest) := strtoul16 s in (u32 v, rest).

(** [%02x] of a byte, [%x] of 32 bits; [%u] and [%d] are [dec]. *)
Definition hex2 (b : Z) : list Z := [hexnyb (Z.shiftr b 4); hexnyb b].
Fixpoint hex_loop (fuel : nat) (v : Z) : list Z :=
  match fuel with
  | O => []
  | S fuel => if v <? 16 then [hexnyb v] else hex_loop fuel (Z.shiftr v 4) ++ [hexnyb v]
  end.
Definition hexx (v : Z) : list Z := hex_loop 8 v.

(** A text built by [n += snprintf(buf + n, cap - n, ...)]: [full] is what has been printed so far, of
    which the buffer holds at most [cap - 1] bytes.  A start behind the buffer is out of bounds. *)
Definition append_fmt (cap : Z) (full s : list Z) : option (list Z) := if len full <=? cap then Some (full ++ s) else None.
Definition buffer_text (cap : Z) (full : list Z) : list Z := take (Z.to_nat (cap - 1)) full.

(** A literal whose apostrophes stand for double quotes. *)
Definition quoted (s : string) : list Z := (fun c => if c =? 39 then 34 else c) <$> text s.

(** ** Hexadecimal data *)

Definition hex_encode (src : list Z) : list Z := concat (hex2 <$> src).
(** The bytes stored to [dst]; their number is what the function returns. *)
Fixpoint hex_decode (src : list Z) (cap : nat) : list Z :=
  match src, cap with
  | a :: b :: src', S cap' =>
      if (from_hex a <? 0) || (from_hex b <? 0) then []
      else Z.lor (Z.shiftl (from_hex a) 4) (from_hex b) :: hex_decode src' cap'
  | _, _ => []
  end.

(** ** State *)

Record fc_gdb_library_t := MkGdbLib { lib_path : list Z; l_addr : Z; l_ld : Z }.
(** [libraries] is a pointer: the array is in the [world]. *)
Record fc_gdb_layout_t := MkLayout { exec_path : option (list Z); n_libraries : Z }.
Inductive fc_gdb_transport_t := tcp_transport | wasm_transport.

(** [read_regs] returns what it stores to its buffer, or [None] when it stores nothing. *)
Record fc_gdb_cpu_ops_t (T : Type) := MkOps {
  read_regs : option (T -> option (list Z));
  write_regs : option (T -> list Z -> T);
  read_mem : option (T -> Z -> Z -> list Z);
  write_mem : option (T -> Z -> list Z -> Z * T);
  set_breakpoint : option (T -> Z -> Z * T);
  clear_breakpoint : option (T -> Z -> Z * T)
}.
Arguments MkOps {T}. Arguments read_regs {T}. Arguments write_regs {T}. Arguments read_mem {T}.
Arguments write_mem {T}. Arguments set_breakpoint {T}. Arguments clear_breakpoint {T}.

Record gdb_state_t (T : Type) := MkGdb {
  transport : option fc_gdb_transport_t;
  layout : fc_gdb_layout_t;
  ops : fc_gdb_cpu_ops_t T;
  has_client : bool;
  breaks : list Z;
  n_breaks : Z;
  halted : bool;
  pending_action : Z;
  initial_halt : bool;
  entry_stop_pending : bool;
  lib_fetch_gen : Z;
  continue_gen : Z
}.
Arguments MkGdb {T}. Arguments transport {T}. Arguments layout {T}. Arguments ops {T}. Arguments has_client {T}.
Arguments breaks {T}. Arguments n_breaks {T}. Arguments halted {T}. Arguments pending_action {T}. Arguments initial_halt {T}.
Arguments entry_stop_pending {T}. Arguments lib_fetch_gen {T}. Arguments continue_gen {T}.

Record world (T : Type) := MkWorld {
  g_gdb : gdb_state_t T;
  libraries : list fc_gdb_library_t;
  cpu : T;
  sent : list (list Z)
}.
Arguments MkWorld {T}. Arguments g_gdb {T}. Arguments libraries {T}. Arguments cpu {T}. Arguments sent {T}.

(** ** Register metadata *)

Definition rv32_names : list (list Z) := text <$>
  ["x0"; "x1"; "x2"; "x3"; "x4"; "x5"; "x6"; "x7"; "x8"; "x9"; "x10"; "x11"; "x12"; "x13"; "x14"; "x15"; "x16"; "x17"; "x18";
   "x19"; "x20"; "x21"; "x22"; "x23"; "x24"; "x25"; "x26"; "x27"; "x28"; "x29"; "x30"; "x31"; "pc"]%string.
Definition rv32_alts : list (option (list Z)) :=
  (Some ∘ text <$> ["zero"; "ra"; "sp"; "gp"; "tp"; "t0"; "t1"; "t2"; "s0"; "s1"; "a0"; "a1"; "a2"; "a3"; "a4"; "a5"; "a6"; "a7"; "s2";
     "s3"; "s4"; "s5"; "s6"; "s7"; "s8"; "s9"; "s10"; "s11"; "t3"; "t4"; "t5"; "t6"]%string) ++ [None].
Definition rv32_generic : list (option (list Z)) :=
  [None; Some (text "ra"); Some (text "sp"); None; None; None; None; None; Some (text "fp"); None; Some (text "arg1");
   Some (text "arg2"); Some (text "arg3"); Some (text "arg4"); Some (text "arg5"); Some (text "arg6"); Some (text "arg7");
   Some (text "arg8"); None; None; None; None; None; None; None; None; None; None; None; None; None; None; Some (text "pc")].
Definition rv32_dwarf : list Z := seqZ 0 32 ++ [65].
Definition register_info (n : Z) : option (list Z) :=
  if n >=? 33 then Some (text "E45")
  else
    name ← zget rv32_names n; dwarf ← zget rv32_dwarf n; alt ← zget rv32_alts n; generic ← zget rv32_generic n;
    Some (text "name:" ++ name ++ text ";bitsize:32;offset:" ++ dec (n * 4) ++ text ";encoding:uint;format:hex;set:General Purpose Registers;gcc:"
          ++ dec dwarf ++ text ";dwarf:" ++ dec dwarf ++ text ";"
          ++ match alt with Some a => text "alt-name:" ++ a ++ text ";" | None => [] end
          ++ match generic with Some a => text "generic:" ++ a ++ text ";" | None => [] end).

Section stub.
Context {T : Type}.
Abbreviation gdb := (gdb_state_t T).
Abbreviation world := (world T).

Definition no_ops : fc_gdb_cpu_ops_t T := MkOps None None None None None None.
(** The static initialiser. *)
Definition initial_gdb : gdb := MkGdb None (MkLayout None 0) no_ops false (replicate 128 0) 0 false (-1) true false 0 0.

(** ** Assignments *)

Definition with_g (f : gdb -> gdb) (w : world) : world := MkWorld (f (g_gdb w)) (libraries w) (cpu w) (sent w).
Definition with_cpu (c : T) (w : world) : world := MkWorld (g_gdb w) (libraries w) c (sent w).
Definition with_sent (p : list Z) (w : world) : world := MkWorld (g_gdb w) (libraries w) (cpu w) (sent w ++ [p]).
(** [halted], [pending_action] *)
Definition set_run (h : bool) (a : Z) (g : gdb) : gdb :=
  MkGdb (transport g) (layout g) (ops g) (has_client g) (breaks g) (n_breaks g) h a (initial_halt g)
    (entry_stop_pending g) (lib_fetch_gen g) (continue_gen g).
Definition set_initial (v : bool) (g : gdb) : gdb :=
  MkGdb (transport g) (layout g) (ops g) (has_client g) (breaks g) (n_breaks g) (halted g) (pending_action g) v
    (entry_stop_pending g) (lib_fetch_gen g) (continue_gen g).
Definition set_entry_stop (v : bool) (g : gdb) : gdb :=
  MkGdb (transport g) (layout g) (ops g) (has_client g) (breaks g) (n_breaks g) (halted g) (pending_action g) (initial_halt g)
    v (lib_fetch_gen g) (continue_gen g).
Definition set_client (v : bool) (g : gdb) : gdb :=
  MkGdb (transport g) (layout g) (ops g) v (breaks g) (n_breaks g) (halted g) (pending_action g) (initial_halt g)
    (entry_stop_pending g) (lib_fetch_gen g) (continue_gen g).
Definition set_breaks (bs : list Z) (n : Z) (g : gdb) : gdb :=
  MkGdb (transport g) (layout g) (ops g) (has_client g) bs n (halted g) (pending_action g) (initial_halt g)
    (entry_stop_pending g) (lib_fetch_gen g) (continue_gen g).
(** The generations are [unsigned]. *)
Definition bump_fetch (g : gdb) : gdb :=
  MkGdb (transport g) (layout g) (ops g) (has_client g) (breaks g) (n_breaks g) (halted g) (pending_action g) (initial_halt g)
    (entry_stop_pending g) (u32 (lib_fetch_gen g + 1)) (continue_gen g).
Definition bump_continue (g : gdb) : gdb :=
  MkGdb (transport g) (layout g) (ops g) (has_client g) (breaks g) (n_breaks g) (halted g) (pending_action g) (initial_halt g)
    (entry_stop_pending g) (lib_fetch_gen g) (u32 (continue_gen g + 1)).
Definition with_transport (t : fc_gdb_transport_t) (g : gdb) : gdb :=
  MkGdb (Some t) (layout g) (ops g) (has_client g) (breaks g) (n_breaks g) (halted g) (pending_action g) (initial_halt g)
    (entry_stop_pending g) (lib_fetch_gen g) (continue_gen g).
Definition with_layout (l : fc_gdb_layout_t) (g : gdb) : gdb :=
  MkGdb (transport g) l (ops g) (has_client g) (breaks g) (n_breaks g) (halted g) (pending_action g) (initial_halt g)
    (entry_stop_pending g) (lib_fetch_gen g) (continue_gen g).
Definition with_ops (o : fc_gdb_cpu_ops_t T) (g : gdb) : gdb :=
  MkGdb (transport g) (layout g) o (has_client g) (breaks g) (n_breaks g) (halted g) (pending_action g) (initial_halt g)
    (entry_stop_pending g) (lib_fetch_gen g) (continue_gen g).

(** ** Replies *)

Definition send_response (payload : list Z) (w : world) : world :=
  match transport (g_gdb w) with None => w | Some _ => with_sent payload w end.

Definition reg_bytes (regs : list Z) (i : Z) : list Z := sub regs (i * 4) 4.
(** The loop over the registers, from [i]. *)
Fixpoint stop_loop (k : nat) (i : Z) (regs full : list Z) : option (list Z) :=
  match k with
  | O => Some full
  | S k => full ← append_fmt 512 full (hex2 i ++ text ":" ++ hex_encode (reg_bytes regs i) ++ text ";");
           stop_loop k (i + 1) regs full
  end.
Definition stop_header (reason : string) : list Z := text "T05" ++ text reason ++ text "thread:01;".
Definition send_stop_with_regs_reason (reason : string) (w : world) : option world :=
  match read_regs (ops (g_gdb w)) with
  | None => Some (send_response (buffer_text 64 (stop_header reason)) w)
  | Some rd =>
      regs ← rd (cpu w);
      full ← stop_loop 33 0 regs (stop_header reason);
      Some (send_response (buffer_text 512 full) w)
  end.
Definition send_stop_with_regs (w : world) : option world := send_stop_with_regs_reason "swbreak:;" w.

Fixpoint clear_loop (bs : list Z) (clr : T -> Z -> Z * T) (c : T) : T :=
  match bs with [] => c | a :: bs => clear_loop bs clr (snd (clr c a)) end.
Definition clear_all_breakpoints (w : world) : option world :=
  let g := g_gdb w in
  w ← match clear_breakpoint (ops g) with
      | None => Some w
      | Some clr => bs ← rd (breaks g) 0 (n_breaks g); Some (with_cpu (clear_loop bs clr (cpu w)) w)
      end;
  Some (with_g (fun g => set_breaks (breaks g) 0 g) w).

(** ** Packet handlers

    A query returns its reply; a command also the world it leaves. *)

Definition handle_qSupported : list Z :=
  text "PacketSize=4000;qXfer:libraries-svr4:read+;qXfer:exec-file:read+;qXfer:features:read+;swbreak+;vContSupported+;X-".

(** [annex:off,len] behind the prefix: the two numbers, [None] without a colon. *)
Definition off_len (args : list Z) : option (Z * Z) :=
  '(_, p) ← strchr 58 args;
  let '(off, p) := parse_u32 p in
  let p := match p with c :: p' => if c =? 44 then p' else p | [] => [] end in
  Some (off, fst (parse_u32 p)).
(** The reply for [len] bytes from [off] of a document of [n] bytes, of which [doc] are in its buffer. *)
Definition chunk (doc : list Z) (n off l : Z) : option (list Z) :=
  if off >=? n then Some (text "l")
  else
    let l := if l >? n - off then n - off else l in
    let prefix := if u32 (off + l) >=? n then text "l" else text "m" in
    if MAX_PACKET <? l + 2 then Some (text "E02")
    else bs ← rd doc off l; Some (prefix ++ bs).

Definition handle_qXfer_exec_file (args : list Z) (w : world) : option (list Z) :=
  match off_len args with
  | None => Some (text "E01")
  | Some (off, l) =>
      let path := default [] (exec_path (layout (g_gdb w))) in
      chunk (path ++ [0]) (len path) off l
  end.

Definition lib_entry (lib : fc_gdb_library_t) : list Z :=
  quoted "<library name='" ++ lib_path lib ++ quoted "' lm='0x" ++ hexx (l_addr lib) ++ quoted "' l_addr='0x" ++ hexx (l_addr lib)
  ++ quoted "' l_ld='0x" ++ hexx (l_ld lib) ++ quoted "' lmid='0x0'/>".
Fixpoint lib_loop (k : nat) (i : Z) (libs : list fc_gdb_library_t) (xml : list Z) : option (list Z) :=
  match k with
  | O => Some xml
  | S k => lib ← zget libs i; xml ← append_fmt 8192 xml (lib_entry lib); lib_loop k (i + 1) libs xml
  end.
Definition lib_list (w : world) : option (list Z) :=
  xml ← lib_loop (Z.to_nat (n_libraries (layout (g_gdb w)))) 0 (libraries w) (quoted "<library-list-svr4 version='1.0' main-lm='0x0'>");
  append_fmt 8192 xml (text "</library-list-svr4>").
Definition handle_qXfer_libraries (args : list Z) (w : world) : option (list Z * world) :=
  match off_len args with
  | None => Some (text "E01", w)
  | Some (off, l) =>
      let w := if off =? 0 then with_g bump_fetch w else w in
      xml ← lib_list w;
      out ← chunk (buffer_text 8192 xml ++ [0]) (len xml) off l;
      Some (out, w)
  end.

Definition target_xml : list Z :=
  quoted "<?xml version='1.0'?><!DOCTYPE target SYSTEM 'gdb-target.dtd'><target version='1.0'><architecture>riscv:rv32</architecture></target>".
Definition handle_qXfer_features (args : list Z) : list Z :=
  if negb (starts "target.xml:" args) then text "E01" else text "l" ++ target_xml.

Definition handle_g (w : world) : option (list Z) :=
  match read_regs (ops (g_gdb w)) with
  | None => Some (text "E01")
  | Some rd => regs ← rd (cpu w); Some (hex_encode regs)
  end.
Definition handle_G (args : list Z) (w : world) : list Z * world :=
  match write_regs (ops (g_gdb w)) with
  | None => (text "E01", w)
  | Some wr =>
      let regs := hex_decode args 132 in
      if negb (len regs =? 132) then (text "E02", w) else (text "OK", with_cpu (wr (cpu w) regs) w)
  end.

(** [malloc_ok n]: [malloc(n)] does not return [NULL]. *)
Variable malloc_ok : Z -> bool.

Definition handle_m (args : list Z) (w : world) : list Z :=
  let '(addr, e) := parse_u32 args in
  match e with
  | c :: e' =>
      if negb (c =? 44) then text "E01"
      else
        let l := fst (parse_u32 e') in
        match read_mem (ops (g_gdb w)) with
        | None => text "E02"
        | Some rd =>
            if (l >? 4096) || (MAX_PACKET <? u32 (u32 (l * 2) + 1)) then text "E03"
            else if negb (malloc_ok l) then text "E04"
            else hex_encode (rd (cpu w) addr l)
        end
  | [] => text "E01"
  end.
Definition handle_M (args : list Z) (w : world) : list Z * world :=
  let '(addr, e) := parse_u32 args in
  match e with
  | c :: e' =>
      if negb (c =? 44) then (text "E01", w)
      else
        let '(l, e) := parse_u32 e' in
        match e with
        | c :: data =>
            if negb (c =? 58) then (text "E02", w)
            else
              match write_mem (ops (g_gdb w)) with
              | None => (text "E03", w)
              | Some wr =>
                  if negb (malloc_ok l) then (text "E04", w)
                  else
                    let bs := hex_decode data (Z.to_nat l) in
                    if negb (len bs =? i32 l) then (text "E05", w)
                    else (text "OK", with_cpu (snd (wr (cpu w) addr bs)) w)
              end
        | [] => (text "E02", w)
        end
  | [] => (text "E01", w)
  end.

Definition handle_Z0 (args : list Z) (w : world) : option (list Z * world) :=
  let addr := fst (parse_u32 args) in
  let g := g_gdb w in
  if n_breaks g >=? MAX_BREAKS then Some (text "E01", w)
  else
    let w := match set_breakpoint (ops g) with None => w | Some set => with_cpu (snd (set (cpu w) addr)) w end in
    bs ← zset (breaks g) (n_breaks g) addr;
    Some (text "OK", with_g (set_breaks bs (n_breaks g + 1)) w).

(** The compaction loop: from [i], [k] entries are left; [kept] have been kept. *)
Fixpoint compact (k : nat) (i kept addr : Z) (bs : list Z) : option (list Z * Z) :=
  match k with
  | O => Some (bs, kept)
  | S k =>
      b ← zget bs i;
      if b =? addr then compact k (i + 1) kept addr bs
      else
        bs ← (if kept =? i then Some bs else zset bs kept b);
        compact k (i + 1) (kept + 1) addr bs
  end.
Definition handle_z0 (args : list Z) (w : world) : option (list Z * world) :=
  let addr := fst (parse_u32 args) in
  let g := g_gdb w in
  '(bs, kept) ← compact (Z.to_nat (n_breaks g)) 0 0 addr (breaks g);
  let w := match clear_breakpoint (ops g) with
           | Some clr => if n_breaks g =? kept then w else with_cpu (snd (clr (cpu w) addr)) w
           | None => w
           end in
  Some (text "OK", with_g (set_breaks bs kept) w).

(** Always deferred: the reply comes when the target stops. *)
Definition handle_vCont (args : list Z) (w : world) : option world :=
  let action := if bool_decide (115 ∈ args) || bool_decide (83 ∈ args) then 1 else 0 in
  if (action =? 0) && entry_stop_pending (g_gdb w) then
    send_stop_with_regs (with_g (fun g => set_initial false (set_run true (-1) (set_entry_stop false g))) w)
  else
    let w := with_g (fun g => set_initial false (set_run false action g)) w in
    Some (if action =? 0 then with_g bump_continue w else w).

(** ** Clients coming and going *)

Definition fc_gdb_stub_set_has_client (val : bool) (w : world) : option world :=
  if negb val then
    w ← clear_all_breakpoints w;
    Some (with_g (fun g => set_run false 0 (set_client false g)) w)
  else Some (with_g (fun g => set_initial true (set_run true (-1) (set_client true g))) w).

(** ** One packet *)

(** [p]: one register. *)
Definition handle_p (pkt : list Z) (w : world) : option (list Z) :=
  let regnum := fst (parse_u32 (drop 1 pkt)) in
  match read_regs (ops (g_gdb w)) with
  | Some rd => if regnum <? 33 then regs ← rd (cpu w); Some (hex_encode (reg_bytes regs regnum)) else Some (text "E00")
  | None => Some (text "E00")
  end.
(** [P]: write one register; a call of a [NULL] [read_regs] is a fault. *)
Definition handle_P (pkt : list Z) (w : world) : option (list Z * world) :=
  match strchr 58 (drop 1 pkt), write_regs (ops (g_gdb w)) with
  | Some (_, hex), Some wr =>
      let regnum := fst (parse_u32 (drop 1 pkt)) in
      if regnum >=? 33 then Some (text "E00", w)
      else
        rd ← read_regs (ops (g_gdb w));
        regs ← rd (cpu w);
        Some (text "OK", with_cpu (wr (cpu w) (splice regs (regnum * 4) (hex_decode hex 4))) w)
  | _, _ => Some (text "E00", w)
  end.

(** What answers a packet: a reply at the end, or nothing more. *)
Definition reply (out : list Z) (w : world) : option world := Some (send_response out w).
Definition answer (r : option (list Z * world)) : option world := '(out, w) ← r; reply out w.

Definition handle_packet (pkt : list Z) (w : world) : option world :=
  if starts "qSupported" pkt then reply handle_qSupported w
  else if starts "qXfer:exec-file:read:" pkt then out ← handle_qXfer_exec_file (drop 21 pkt) w; reply out w
  else if starts "qXfer:libraries-svr4:read:" pkt then answer (handle_qXfer_libraries (drop 26 pkt) w)
  else if starts "qXfer:features:read:" pkt then reply (handle_qXfer_features (drop 20 pkt)) w
  else if same "?" pkt then
    if initial_halt (g_gdb w) && (n_libraries (layout (g_gdb w)) >? 0) then send_stop_with_regs_reason "library:;" w
    else send_stop_with_regs w
  else if alone_or_args 99 pkt then handle_vCont (text ";c") w
  else if alone_or_args 115 pkt then handle_vCont (text ";s") w
  else if with_args 112 pkt then out ← handle_p pkt w; reply out w
  else if with_args 80 pkt then answer (handle_P pkt w)
  else if same "qProcessInfo" pkt then reply (text "pid:00000001;triple:riscv32--none-elf;endian:little;ptrsize:04;") w
  else if same "g" pkt then out ← handle_g w; reply out w
  else if first_is 71 pkt then answer (Some (handle_G (drop 1 pkt) w))
  else if first_is 109 pkt then reply (handle_m (drop 1 pkt) w) w
  else if first_is 77 pkt then answer (Some (handle_M (drop 1 pkt) w))
  else if starts "Z0," pkt then answer (handle_Z0 (drop 3 pkt) w)
  else if starts "z0," pkt then answer (handle_z0 (drop 3 pkt) w)
  else if same "vCont?" pkt then reply (text "vCont;c;C;s;S") w
  else if starts "vCont" pkt then handle_vCont (drop 5 pkt) w
  else if same "QStartNoAckMode" pkt then reply (text "OK") w
  else if same "QThreadSuffixSupported" pkt then reply (text "OK") w
  else if first_is 72 pkt then reply (text "OK") w
  else if with_args 84 pkt then reply (if strtol16 (drop 1 pkt) =? 1 then text "OK" else text "E01") w
  else if same "qfThreadInfo" pkt then reply (text "m1") w
  else if same "qsThreadInfo" pkt then reply (text "l") w
  else if starts "qThreadStopInfo" pkt then
    if halted (g_gdb w) then send_stop_with_regs w else reply (text "T00:;") w
  else if starts "qRegisterInfo" pkt then out ← register_info (fst (parse_u32 (drop 13 pkt))); reply out w
  else if bool_decide (pkt = [3]) then
    reply (text "T02thread:01;") (with_g (fun g => set_initial false (set_run true (-1) g)) w)
  else if same "qAttached" pkt then reply (text "1") w
  else if starts "qC" pkt then reply (text "QC1") w
  else if alone_or_args 68 pkt then
    w ← fc_gdb_stub_set_has_client false (with_g (set_run false 0) w); reply (text "OK") w
  else if same "k" pkt then reply (text "W00") (with_g (fun g => set_run (halted g) 2 g) w)
  else reply [] w.

(** ** Public API *)

Definition fc_gdb_stub_set_transport (t : fc_gdb_transport_t) (w : world) : world :=
  with_g (fun g => set_initial true (set_run true (-1) (set_entry_stop false (set_client false (with_transport t g))))) w.
(** The layout and the array it points to. *)
Definition fc_gdb_stub_set_layout (l : fc_gdb_layout_t) (libs : list fc_gdb_library_t) (w : world) : world :=
  MkWorld (with_layout l (g_gdb w)) libs (cpu w) (sent w).
Definition fc_gdb_stub_set_cpu_ops (o : fc_gdb_cpu_ops_t T) (w : world) : world := with_g (with_ops o) w.

Fixpoint in_breaks (k : nat) (i pc : Z) (bs : list Z) : option bool :=
  match k with
  | O => Some false
  | S k => b ← zget bs i; if b =? pc then Some true else in_breaks k (i + 1) pc bs
  end.
Definition fc_gdb_stub_check_break (pc : Z) (w : world) : option bool :=
  in_breaks (Z.to_nat (n_breaks (g_gdb w))) 0 pc (breaks (g_gdb w)).

Definition stop_now (w : world) : world := with_g (fun g => set_initial false (set_run true (-1) g)) w.
Definition fc_gdb_stub_notify_stopped (w : world) : option world := send_stop_with_regs (stop_now w).
Definition fc_gdb_stub_notify_library_change (w : world) : world := send_response (text "T05library:;thread:01;") (stop_now w).
Definition fc_gdb_stub_lib_fetch_gen (w : world) : Z := lib_fetch_gen (g_gdb w).
Definition fc_gdb_stub_continue_gen (w : world) : Z := continue_gen (g_gdb w).
(** [pkt] is what the transport receives: [None] when there is nothing, or no transport. *)
Definition fc_gdb_stub_poll (pkt : option (list Z)) (w : world) : option world :=
  match transport (g_gdb w), pkt with Some _, Some p => handle_packet p w | _, _ => Some w end.
Definition fc_gdb_stub_process_pkt (pkt : list Z) (w : world) : option world := handle_packet pkt w.
Definition fc_gdb_stub_pending_action (w : world) : Z := pending_action (g_gdb w).
Definition fc_gdb_stub_has_client (w : world) : bool := has_client (g_gdb w).
Definition fc_gdb_stub_is_halted (w : world) : bool := halted (g_gdb w).
Definition fc_gdb_stub_continue_initial_halt (w : world) : world :=
  let g := g_gdb w in
  if halted g && (pending_action g <? 0) && initial_halt g then with_g (fun g => set_initial false (set_run false 0 g)) w else w.

Definition fc_gdb_stub_restore_bp_temp (addr : Z) (w : world) : world :=
  match clear_breakpoint (ops (g_gdb w)) with None => w | Some clr => with_cpu (snd (clr (cpu w) addr)) w end.
Definition fc_gdb_stub_repatch_bp (addr : Z) (w : world) : option world :=
  hit ← fc_gdb_stub_check_break addr w;
  Some (if hit : bool then
          match set_breakpoint (ops (g_gdb w)) with None => w | Some set => with_cpu (snd (set (cpu w) addr)) w end
        else w).
End stub.
