(* ===== verification/GdbStubSpec.v ===== *)
(** * GdbStubSpec: hexadecimal text, the stub's invariant, and a lemma per packet

    [target_contract] is what the stub relies on about the target; [stub_ok] the invariant of the stub;
    [packet_spec] what one packet does to it. *)

From S2P Require Import Prelude ElfSection Save SaveTheorems ResourceIndex GdbStub.
From Stdlib Require Import ZArith Lia Strings.String.
From stdpp Require Import base tactics list.
Open Scope Z_scope.

(** ** Hexadecimal text *)

Definition hex_char (c : Z) : Prop := 48 <= c <= 57 \/ 97 <= c <= 102.

Lemma hexnyb_val n : 0 <= n < 16 -> hex_char (hexnyb n) /\ from_hex (hexnyb n) = n.
Proof.
  intros Hn. unfold hexnyb, hex_char. change 15 with (Z.ones 4). rewrite Z.land_ones, Z.mod_small by lia.
  destruct (n <? 10) eqn:E; unfold from_hex; repeat case_match; lia.
Qed.

Lemma nybbles b : is_u8 b -> 0 <= Z.shiftr b 4 < 16 /\ hexnyb b = hexnyb (b mod 16) /\ b = 16 * Z.shiftr b 4 + b mod 16.
Proof.
  unfold is_u8. intros Hb. rewrite Z.shiftr_div_pow2 by lia. change (2 ^ 4) with 16. pose proof (Z.div_mod b 16 ltac:(lia)).
  split; [Z.div_mod_to_equations; lia|]. split; [|lia]. unfold hexnyb. change 15 with (Z.ones 4). rewrite !Z.land_ones by lia.
  change (2 ^ 4) with 16. by rewrite Z.mod_mod by lia.
Qed.

Lemma hex2_val b : is_u8 b ->
  exists x y, hex2 b = [x; y] /\ hex_char x /\ hex_char y /\ 0 <= from_hex x /\ 0 <= from_hex y
    /\ Z.lor (Z.shiftl (from_hex x) 4) (from_hex y) = b.
Proof.
  intros Hb. destruct (nybbles b Hb) as (H1 & H2 & H3). unfold hex2. rewrite H2.
  destruct (hexnyb_val _ H1) as [Hx Hx']. pose proof (Z.mod_pos_bound b 16 ltac:(lia)) as Hm. destruct (hexnyb_val _ Hm) as [Hy Hy'].
  do 2 eexists. split; [reflexivity|]. rewrite Hx', Hy'. split_and!; [done..|lia|lia|].
  rewrite Z.shiftl_mul_pow2, (lor_disjoint_add _ _ 4) by lia. change (2 ^ 4) with 16. lia.
Qed.

Lemma len_hex_encode bs : len (hex_encode bs) = 2 * len bs.
Proof.
  unfold hex_encode. induction bs as [|b bs IH]; [done|]. rewrite fmap_cons. cbn [concat]. rewrite len_app, IH, len_cons. unfold hex2, len; cbn [length]. lia.
Qed.

Lemma hex_encode_chars bs : bytes_ok bs -> Forall hex_char (hex_encode bs).
Proof.
  unfold hex_encode. induction 1 as [|b bs Hb _ IH]; [constructor|]. rewrite fmap_cons. cbn [concat].
  destruct (hex2_val b Hb) as (x & y & -> & Hx & Hy & _). cbn [app]. by do 2 (constructor; [done|]).
Qed.

(** Decoding gives the bytes back, whatever follows. *)
Lemma hex_decode_encode bs rest : bytes_ok bs -> hex_decode (hex_encode bs ++ rest) (length bs) = bs.
Proof.
  unfold hex_encode. induction 1 as [|b bs Hb _ IH]; [by destruct rest as [|? [|? ?]]|]. rewrite fmap_cons. cbn [concat length].
  destruct (hex2_val b Hb) as (x & y & -> & _ & _ & Hx & Hy & Hv). cbn [app hex_decode].
  rewrite (proj2 (orb_false_iff _ _)) by lia. by rewrite Hv, IH.
Qed.

Lemma from_hex_range c : -1 <= from_hex c < 16.
Proof. unfold from_hex. repeat case_match; lia. Qed.

Lemma hex_decode_bounds src cap : len (hex_decode src cap) <= Z.of_nat cap /\ bytes_ok (hex_decode src cap).
Proof.
  revert src; induction cap as [|cap IH]; intros src; [destruct src as [|? [|? ?]]; split; (done || constructor)|].
  destruct src as [|a [|b src]]; cbn [hex_decode]; [split; [unfold len; cbn [length]; lia|constructor]..|].
  destruct (_ || _) eqn:E; [split; [unfold len; cbn [length]; lia|constructor]|]. apply orb_false_iff in E as [Ha Hb].
  destruct (IH src) as [H1 H2]. rewrite len_cons. split; [lia|]. constructor; [|done].
  pose proof (from_hex_range a). pose proof (from_hex_range b).
  rewrite Z.shiftl_mul_pow2, (lor_disjoint_add _ _ 4) by lia. change (2 ^ 4) with 16. unfold is_u8. lia.
Qed.

(** A printed number is parsed back, in front of anything that is neither a digit nor an x. *)
Definition no_hex (rest : list Z) : Prop := match rest with [] => True | c :: _ => from_hex c = -1 /\ c <> 120 /\ c <> 88 end.

Lemma hex_digits_app s rest v any :
  Forall hex_char s -> no_hex rest ->
  hex_digits (s ++ rest) v any = (foldl (fun v c => 16 * v + from_hex c) v s, rest, any || negb (bool_decide (s = []))).
Proof.
  intros Hs Hr. revert v any; induction Hs as [|c s Hc _ IH]; intros v any; cbn [app foldl].
  - destruct rest as [|c rest]; cbn [hex_digits]; [by destruct any|]. cbn in Hr. destruct Hr as (-> & _). by destruct any.
  - cbn [hex_digits]. rewrite (proj2 (Z.leb_le 0 (from_hex c))); [|unfold hex_char in Hc; unfold from_hex; repeat case_match; lia].
    rewrite IH. f_equal. by destruct any.
Qed.

Lemma hex_loop_ok fuel v : 0 <= v < 16 ^ Z.of_nat fuel -> (0 < fuel)%nat ->
  Forall hex_char (hex_loop fuel v) /\ hex_loop fuel v <> [] /\ forall a, foldl (fun v c => 16 * v + from_hex c) a (hex_loop fuel v) = a * 16 ^ len (hex_loop fuel v) + v.
Proof.
  revert v; induction fuel as [|fuel IH]; intros v Hv Hf; [lia|]. cbn [hex_loop]. destruct (v <? 16) eqn:E.
  { destruct (hexnyb_val v ltac:(lia)) as [H1 H2]. split_and!; [by constructor; [|constructor]|done|]. intros a. cbn [foldl]. rewrite H2. change (len [hexnyb v]) with 1. lia. }
  rewrite Nat2Z.inj_succ, Z.pow_succ_r in Hv by lia. rewrite Z.shiftr_div_pow2 by lia. change (2 ^ 4) with 16.
  assert (0 < fuel)%nat as Hf' by (destruct fuel; [cbn in Hv; lia|lia]).
  destruct (IH (v / 16)) as (H1 & H2 & H3); [split; [Z.div_mod_to_equations; lia|apply Z.div_lt_upper_bound; lia]|done|].
  assert (hexnyb v = hexnyb (v mod 16)) as ->.
  { unfold hexnyb. change 15 with (Z.ones 4). rewrite !Z.land_ones by lia. change (2 ^ 4) with 16. by rewrite Z.mod_mod by lia. }
  pose proof (Z.mod_pos_bound v 16 ltac:(lia)) as Hm. destruct (hexnyb_val _ Hm) as [H4 H5]. split_and!.
  - apply Forall_app; split; [done|by constructor; [|constructor]].
  - by intros [_ ?]%app_nil.
  - intros a. rewrite foldl_app, H3. cbn [foldl]. rewrite H5, len_app. change (len [hexnyb (v mod 16)]) with 1.
    rewrite Z.pow_add_r by (pose proof (len_nonneg (hex_loop fuel (v / 16))); lia). Z.div_mod_to_equations. lia.
Qed.

Lemma parse_hexx v rest : is_u32 v -> no_hex rest -> parse_u32 (hexx v ++ rest) = (v, rest).
Proof.
  intros Hv Hr. unfold is_u32 in Hv. destruct (hex_loop_ok 8 v) as (H1 & H2 & H3); [cbn; lia|lia|].
  fold (hexx v) in *. unfold parse_u32, strtoul16, scan_hex. destruct (hexx v) as [|c s] eqn:E; [done|]. cbn [app skip_spaces].
  assert (hex_char c) as Hc by (by apply Forall_cons in H1 as [? _]). unfold hex_char in Hc.
  assert (isspace c = false) as -> by (unfold isspace; apply orb_false_iff; split; [|apply andb_false_iff]; lia).
  rewrite (proj2 (Z.eqb_neq c 45)), (proj2 (Z.eqb_neq c 43)) by lia.
  assert (match c :: s ++ rest with
          | z :: x :: c' :: s' => if (z =? 48) && ((x =? 120) || (x =? 88)) && (0 <=? from_hex c') then c' :: s' else c :: s ++ rest
          | _ => c :: s ++ rest
          end = c :: s ++ rest) as Hx0.
  { destruct (s ++ rest) as [|x t] eqn:Es; [done|]. assert ((x =? 120) || (x =? 88) = false) as ->; [|rewrite andb_false_r; by destruct t].
    apply orb_false_iff. destruct s as [|y s]; cbn [app] in Es.
    - subst rest. cbn in Hr. lia.
    - injection Es as -> _. apply Forall_cons in H1 as [_ [Hx _]%Forall_cons]. unfold hex_char in Hx. lia. }
  rewrite Hx0. change (c :: s ++ rest) with ((c :: s) ++ rest). rewrite hex_digits_app by done. rewrite bool_decide_false by done. cbn [negb orb].
  rewrite H3. replace (0 * 16 ^ len (c :: s) + v) with v by lia.
  destruct (Z.gtb_spec v ULONG_MAX) as [Hg|_]; [unfold ULONG_MAX in Hg; lia|]. by rewrite u32_id by exact Hv.
Qed.

(** ** The contract of the target *)

Record target_contract {T} (I : T -> Prop) (o : fc_gdb_cpu_ops_t T) : Prop := MkContract {
  c_read_regs : forall rd c, read_regs o = Some rd -> I c -> exists regs, rd c = Some regs /\ len regs = 132 /\ bytes_ok regs;
  c_write_regs : forall wr c regs, write_regs o = Some wr -> I c -> len regs = 132 -> bytes_ok regs -> I (wr c regs);
  c_both : is_Some (write_regs o) -> is_Some (read_regs o);
  c_read_mem : forall rd c a n, read_mem o = Some rd -> I c -> is_u32 a -> is_u32 n -> len (rd c a n) <= n /\ bytes_ok (rd c a n);
  c_write_mem : forall wr c a bs, write_mem o = Some wr -> I c -> is_u32 a -> bytes_ok bs -> I (snd (wr c a bs));
  c_set : forall set c a, set_breakpoint o = Some set -> I c -> is_u32 a -> I (snd (set c a));
  c_clear : forall clr c a, clear_breakpoint o = Some clr -> I c -> is_u32 a -> I (snd (clr c a))
}.

(** ** The invariant *)

Definition c_string (s : list Z) : Prop := Forall (fun c => 0 < c < 256) s.
Definition lib_ok (l : fc_gdb_library_t) : Prop := c_string (lib_path l) /\ len (lib_path l) < 256 /\ is_u32 (l_addr l) /\ is_u32 (l_ld l).
(** At most the eight libraries of a session, with its paths. *)
Definition layout_ok (l : fc_gdb_layout_t) (libs : list fc_gdb_library_t) : Prop :=
  c_string (default [] (exec_path l)) /\ len (default [] (exec_path l)) < 4096
  /\ 0 <= n_libraries l <= 8 /\ n_libraries l <= len libs /\ Forall lib_ok libs.
(** A stopped target waits for an action, or is to exit; a running one has its action. *)
Definition run_ok (h : bool) (a : Z) : Prop := if h then a = -1 \/ a = 2 else a = 0 \/ a = 1 \/ a = 2.

Record stub_ok {T} (I : T -> Prop) (w : world T) : Prop := MkStubOk {
  k_transport : transport (g_gdb w) <> None;
  k_breaks : len (breaks (g_gdb w)) = 128;
  k_words : Forall is_u32 (breaks (g_gdb w));
  k_count : 0 <= n_breaks (g_gdb w) <= MAX_BREAKS;
  k_layout : layout_ok (layout (g_gdb w)) (libraries w);
  k_ops : target_contract I (ops (g_gdb w));
  k_cpu : I (cpu w);
  k_run : run_ok (halted (g_gdb w)) (pending_action (g_gdb w))
}.

(** ** What a packet does *)

(** The packets that let a stopped target run on. *)
Definition resume (pkt : list Z) : bool :=
  alone_or_args 99 pkt || alone_or_args 115 pkt || (starts "vCont" pkt && negb (same "vCont?" pkt)).
Definition releases (pkt : list Z) : bool := resume pkt || alone_or_args 68 pkt.
(** A reply is a C string that fits in the buffer it is built in. *)
Definition fits (r : list Z) : Prop := c_string r /\ len r < MAX_PACKET.

Section spec.
Context {T : Type} (I : T -> Prop).
Abbreviation world := (world T).
Abbreviation ok := (stub_ok I).

Definition answered (pkt : list Z) (w w' : world) : Prop :=
  (exists r, fits r /\ sent w' = sent w ++ [r]) \/ (sent w' = sent w /\ resume pkt = true /\ halted (g_gdb w') = false).
Record step_ok (pkt : list Z) (w w' : world) : Prop := MkStepOk {
  so_ok : ok w';
  so_answered : answered pkt w w';
  so_initial : initial_halt (g_gdb w') = true -> initial_halt (g_gdb w) = true;
  so_halted : halted (g_gdb w) = true -> releases pkt = false -> halted (g_gdb w') = true
}.

(** A step that sends nothing yet. *)
Record quiet (w w' : world) : Prop := MkQuiet {
  q_ok : ok w';
  q_sent : sent w' = sent w;
  q_initial : initial_halt (g_gdb w') = true -> initial_halt (g_gdb w) = true;
  q_halted : halted (g_gdb w) = true -> halted (g_gdb w') = true
}.

Lemma quiet_refl w : ok w -> quiet w w.
Proof. by constructor. Qed.

Lemma send_ok payload w : ok w -> ok (send_response payload w) /\ sent (send_response payload w) = sent w ++ [payload]
  /\ g_gdb (send_response payload w) = g_gdb w.
Proof.
  intros Hw. unfold send_response. destruct (transport (g_gdb w)) eqn:E; [|by destruct (k_transport _ _ Hw)].
  split; [|done]. destruct Hw. by constructor.
Qed.

Lemma reply_ok pkt out w w1 : quiet w w1 -> fits out -> exists w', reply out w1 = Some w' /\ step_ok pkt w w'.
Proof.
  intros [Hok Hs Hi Hh] Hf. eexists. split; [reflexivity|]. destruct (send_ok out w1 Hok) as (H1 & H2 & H3).
  constructor; rewrite ?H3; [done| |done|auto]. left. exists out. by rewrite H2, Hs.
Qed.
Lemma answer_ok pkt out w w1 : quiet w w1 -> fits out -> exists w', answer (Some (out, w1)) = Some w' /\ step_ok pkt w w'.
Proof. apply reply_ok. Qed.

Lemma text_fits s : forallb (fun c => (0 <? c) && (c <? 256)) (text s) && (len (text s) <? MAX_PACKET) = true -> fits (text s).
Proof.
  intros [Hc Hl]%andb_true_iff. split; [|lia]. apply Forall_forall. intros c Hin. rewrite forallb_forall in Hc.
  specialize (Hc c ltac:(by apply list_elem_of_In)). lia.
Qed.

Lemma hex_c_string bs : bytes_ok bs -> c_string (hex_encode bs).
Proof. intros H%hex_encode_chars. eapply Forall_impl; [exact H|]. unfold hex_char. cbn. lia. Qed.

(** Replies that are constants. *)
Definition fitsb (r : list Z) : bool := forallb (fun c => (0 <? c) && (c <? 256)) r && (len r <? MAX_PACKET).
Lemma fitsb_fits r : fitsb r = true -> fits r.
Proof.
  intros [Hc Hl]%andb_true_iff. split; [|lia]. apply Forall_forall. intros c Hin. rewrite forallb_forall in Hc.
  specialize (Hc c ltac:(by apply list_elem_of_In)). lia.
Qed.

Lemma parse_u32_fst s : is_u32 (fst (parse_u32 s)).
Proof. unfold parse_u32. destruct (strtoul16 s). apply u32_range. Qed.
Lemma parse_u32_range s v rest : parse_u32 s = (v, rest) -> is_u32 v.
Proof. intros Hp. pose proof (parse_u32_fst s) as Hr. by rewrite Hp in Hr. Qed.

Lemma off_len_range args off l : off_len args = Some (off, l) -> is_u32 off /\ is_u32 l.
Proof.
  unfold off_len. destruct (strchr 58 args) as [[a p]|]; cbn [mbind option_bind]; [|done]. destruct (parse_u32 p) as [o q] eqn:E.
  intros [= <- <-]. split; [by eapply parse_u32_range|apply parse_u32_fst].
Qed.

Lemma chunk_ok doc rest off l :
  c_string doc -> len doc < 2 ^ 31 -> is_u32 off -> is_u32 l -> exists out, chunk (doc ++ rest) (len doc) off l = Some out /\ fits out.
Proof.
  unfold is_u32. intros Hd Hn Ho Hl. unfold chunk. destruct (off >=? len doc) eqn:Eo; [eexists; split; [done|by apply fitsb_fits]|].
  set (l' := if l >? len doc - off then len doc - off else l). assert (0 <= l' /\ off + l' <= len doc) as [Hl0 Hl1].
  { unfold l'. destruct (l >? len doc - off) eqn:E; lia. }
  destruct (MAX_PACKET <? l' + 2) eqn:Em; [eexists; split; [done|by apply fitsb_fits]|].
  rewrite rd_Some by (rewrite ?len_app; pose proof (len_nonneg rest); lia). cbn [mbind option_bind]. eexists. split; [done|].
  rewrite sub_app_l by lia.
  assert (forall p, p = text "l" \/ p = text "m" -> fits (p ++ sub doc off l')) as Hf.
  { intros p Hp. assert (len p = 1) as Hp1 by (by destruct Hp as [-> | ->]). split.
    - apply Forall_app; split; [by destruct Hp as [-> | ->]; repeat constructor|]. by apply Forall_sub.
    - rewrite len_app, len_sub by lia. unfold MAX_PACKET in *. lia. }
  apply Hf. destruct (u32 (off + l') >=? len doc); [by left|by right].
Qed.

(** ** The stop reply *)

Lemma reg_bytes_ok regs i : len regs = 132 -> bytes_ok regs -> 0 <= i < 33 -> len (reg_bytes regs i) = 4 /\ bytes_ok (reg_bytes regs i).
Proof. intros Hl Hb Hi. unfold reg_bytes. split; [apply len_sub; lia|by apply Forall_sub]. Qed.

Lemma hex2_c_string b : is_u8 b -> c_string (hex2 b) /\ len (hex2 b) = 2.
Proof.
  intros Hb. destruct (hex2_val b Hb) as (x & y & -> & Hx & Hy & _). unfold hex_char in *. split; [|done].
  constructor; [lia|]. constructor; [lia|constructor].
Qed.

(** The text of the registers of a stop reply. *)
Definition stop_regs (regs : list Z) (i : Z) : list Z := hex2 i ++ text ":" ++ hex_encode (reg_bytes regs i) ++ text ";".
Lemma stop_regs_ok regs i : len regs = 132 -> bytes_ok regs -> 0 <= i < 33 -> len (stop_regs regs i) = 12 /\ c_string (stop_regs regs i).
Proof.
  intros Hl Hb Hi. destruct (reg_bytes_ok regs i Hl Hb Hi) as [H1 H2]. destruct (hex2_c_string i) as [H3 H4]; [unfold is_u8; lia|]. unfold stop_regs. split.
  - rewrite !len_app, len_hex_encode, H1, H4. done.
  - repeat (apply Forall_app; split); [done|repeat constructor|by apply hex_c_string|repeat constructor].
Qed.

Lemma stop_loop_spec regs k i full :
  len regs = 132 -> bytes_ok regs -> 0 <= i -> i + Z.of_nat k <= 33 -> len full + 12 * Z.of_nat k <= 512 ->
  stop_loop k i regs full = Some (full ++ concat (stop_regs regs <$> seqZ i (Z.of_nat k))).
Proof.
  intros Hl Hb. revert i full; induction k as [|k IH]; intros i full Hi Hk Hf; cbn [stop_loop].
  { by rewrite app_nil_r. }
  destruct (stop_regs_ok regs i Hl Hb ltac:(lia)) as [H1 _]. unfold append_fmt. rewrite (proj2 (Z.leb_le (len full) 512)) by lia. cbn [mbind option_bind].
  fold (stop_regs regs i). rewrite IH by (rewrite ?len_app; lia). f_equal.
  rewrite (seqZ_cons i) by lia. rewrite fmap_cons. cbn [concat]. rewrite <-app_assoc.
  by replace (Z.pred (Z.of_nat (S k))) with (Z.of_nat k) by lia.
Qed.

Lemma concat_stop_regs regs i n :
  len regs = 132 -> bytes_ok regs -> 0 <= i -> i + Z.of_nat n <= 33 ->
  len (concat (stop_regs regs <$> seqZ i (Z.of_nat n))) = 12 * Z.of_nat n /\ c_string (concat (stop_regs regs <$> seqZ i (Z.of_nat n))).
Proof.
  intros Hl Hb. revert i; induction n as [|n IH]; intros i Hi Hn; [split; [done|constructor]|]. rewrite seqZ_cons by lia. rewrite fmap_cons. cbn [concat].
  replace (Z.pred (Z.of_nat (S n))) with (Z.of_nat n) by lia. destruct (IH (Z.succ i)) as [H1 H2]; [lia..|].
  destruct (stop_regs_ok regs i Hl Hb ltac:(lia)) as [H3 H4]. rewrite len_app. split; [lia|by apply Forall_app].
Qed.

(** The whole text of a stop reply; the buffer of 512 bytes holds all of it. *)
Definition stop_reply (reason : string) (regs : option (list Z)) : list Z :=
  stop_header reason ++ match regs with Some regs => concat (stop_regs regs <$> seqZ 0 33) | None => [] end.
Lemma send_stop_spec reason w :
  ok w -> reason = "swbreak:;"%string \/ reason = "library:;"%string ->
  exists regs, send_stop_with_regs_reason reason w = Some (send_response (stop_reply reason regs) w) /\ fits (stop_reply reason regs)
    /\ regs = (rd ← read_regs (ops (g_gdb w)); rd (cpu w)).
Proof.
  intros Hw Hr. assert (len (stop_header reason) = 22 /\ c_string (stop_header reason)) as [Hh1 Hh2].
  { destruct Hr as [-> | ->]; (split; [done|]); repeat constructor. }
  unfold send_stop_with_regs_reason. destruct (read_regs (ops (g_gdb w))) as [rd|] eqn:Ho; cbn [mbind option_bind].
  - destruct (c_read_regs _ _ (k_ops _ _ Hw) _ _ Ho (k_cpu _ _ Hw)) as (regs & -> & Hl & Hb). cbn [mbind option_bind].
    exists (Some regs). rewrite stop_loop_spec by (done || lia). cbn [mbind option_bind]. change (Z.of_nat 33) with 33. fold (stop_reply reason (Some regs)).
    destruct (concat_stop_regs regs 0 33 Hl Hb ltac:(lia) ltac:(lia)) as [H1 H2]. change (Z.of_nat 33) with 33 in *.
    assert (len (stop_reply reason (Some regs)) = 418) as Hlen by (unfold stop_reply; rewrite len_app; lia).
    split; [|split; [split; [by apply Forall_app|unfold MAX_PACKET; lia]|done]]. do 2 f_equal. unfold buffer_text. apply take_ge. unfold len in Hlen. lia.
  - exists None. unfold stop_reply. rewrite app_nil_r. split; [|split; [split; [done|unfold MAX_PACKET; lia]|done]]. do 2 f_equal. unfold buffer_text.
    apply take_ge. unfold len in Hh1. lia.
Qed.

(** ** The library list *)

Lemma len_hexx v : is_u32 v -> 0 <= len (hexx v) <= 8 /\ c_string (hexx v).
Proof.
  intros Hv. unfold is_u32 in Hv. split.
  - split; [apply len_nonneg|]. unfold hexx.
    assert (forall fuel v, len (hex_loop fuel v) <= Z.of_nat fuel) as Hl; [|apply (Hl 8%nat)].
    clear. induction fuel as [|fuel IH]; intros v; cbn [hex_loop]; [done|]. destruct (v <? 16); [change (len [hexnyb v]) with 1; lia|].
    rewrite len_app. change (len [hexnyb v]) with 1. specialize (IH (Z.shiftr v 4)). lia.
  - destruct (hex_loop_ok 8 v) as (H1 & _); [cbn; lia|lia|]. eapply Forall_impl; [exact H1|]. unfold hex_char. cbn. lia.
Qed.

Lemma lib_entry_ok lib : lib_ok lib -> len (lib_entry lib) <= 400 /\ c_string (lib_entry lib).
Proof.
  intros (Hp & Hl & Ha & Hd). destruct (len_hexx _ Ha) as [H1 H2], (len_hexx _ Hd) as [H3 H4]. unfold lib_entry. split.
  - rewrite !len_app. repeat match goal with |- context [len (quoted ?s)] => let n := eval vm_compute in (len (quoted s)) in change (len (quoted s)) with n end. lia.
  - repeat (apply Forall_app; split); try done; repeat constructor.
Qed.

Lemma lib_loop_spec libs k i xml :
  Forall lib_ok libs -> c_string xml -> 0 <= i -> i + Z.of_nat k <= len libs -> len xml + 400 * Z.of_nat k <= 8192 ->
  exists xml', lib_loop k i libs xml = Some xml' /\ xml' = xml ++ concat (lib_entry <$> sub libs i (Z.of_nat k))
    /\ len xml' <= len xml + 400 * Z.of_nat k /\ c_string xml'.
Proof.
  intros Hlibs. revert i xml; induction k as [|k IH]; intros i xml Hx Hi Hk Hl; cbn [lib_loop].
  { exists xml. split; [done|]. split; [|split; [lia|done]]. unfold sub. change (Z.to_nat (Z.of_nat 0)) with 0%nat. rewrite take_0. by rewrite app_nil_r. }
  destruct (zget_is_Some libs i ltac:(lia)) as [lib Hg]. rewrite Hg. cbn [mbind option_bind].
  pose proof (zget_elem _ _ _ Hg) as Hin. rewrite Forall_forall in Hlibs. destruct (lib_entry_ok lib (Hlibs _ Hin)) as [He1 He2].
  unfold append_fmt. rewrite (proj2 (Z.leb_le (len xml) 8192)) by lia. cbn [mbind option_bind].
  destruct (IH (i + 1) (xml ++ lib_entry lib)) as (xml' & Hr & Hx' & Hlen & Hs); [by apply Forall_app|lia|lia|rewrite len_app; lia|].
  rewrite len_app in Hlen. exists xml'. split; [exact Hr|]. split; [|split; [lia|done]].
  rewrite Hx', <-app_assoc. f_equal. apply zget_Some in Hg as [_ Hg]. unfold sub. replace (Z.to_nat (Z.of_nat (S k))) with (S k) by lia.
  rewrite (drop_S _ lib (Z.to_nat i)) by done. rewrite firstn_cons, fmap_cons. cbn [concat].
  rewrite Nat2Z.id. by replace (Z.to_nat (i + 1)) with (S (Z.to_nat i)) by lia.
Qed.

(** The document the client is to reassemble. *)
Definition library_document (w : world) : list Z :=
  quoted "<library-list-svr4 version='1.0' main-lm='0x0'>"
  ++ concat (lib_entry <$> sub (libraries w) 0 (n_libraries (layout (g_gdb w)))) ++ text "</library-list-svr4>".
Lemma lib_list_spec w : layout_ok (layout (g_gdb w)) (libraries w) ->
  lib_list w = Some (library_document w) /\ len (library_document w) < 8192 /\ c_string (library_document w).
Proof.
  intros (_ & _ & Hn & Hl & Hf). unfold lib_list.
  assert (len (quoted "<library-list-svr4 version='1.0' main-lm='0x0'>") = 47) as Hh by done.
  assert (len (text "</library-list-svr4>") = 20) as Ht by done.
  destruct (lib_loop_spec (libraries w) (Z.to_nat (n_libraries (layout (g_gdb w)))) 0 (quoted "<library-list-svr4 version='1.0' main-lm='0x0'>"))
    as (xml & -> & Hx & Hlen & Hs); [done|repeat constructor|lia|lia|lia|]. cbn [mbind option_bind].
  unfold append_fmt. rewrite (proj2 (Z.leb_le (len xml) 8192)) by lia. assert (library_document w = xml ++ text "</library-list-svr4>") as ->.
  { rewrite Hx. unfold library_document. rewrite <-app_assoc. by replace (Z.of_nat (Z.to_nat (n_libraries (layout (g_gdb w))))) with (n_libraries (layout (g_gdb w))) by lia. }
  split; [done|].
  rewrite len_app. split; [lia|]. apply Forall_app; split; [done|repeat constructor].
Qed.

(** ** The breakpoint table *)

(** The live entries. *)
Definition live (w : world) : list Z := sub (breaks (g_gdb w)) 0 (n_breaks (g_gdb w)).

Lemma sub_S {A} (l : list A) i k x : 0 <= i -> zget l i = Some x -> sub l i (Z.of_nat (S k)) = x :: sub l (i + 1) (Z.of_nat k).
Proof.
  intros Hi [_ Hg]%zget_Some. unfold sub. rewrite !Nat2Z.id. rewrite (drop_S _ x (Z.to_nat i)) by done. cbn [take].
  by replace (Z.to_nat (i + 1)) with (S (Z.to_nat i)) by lia.
Qed.
Lemma sub_snoc (l : list Z) n x : 0 <= n < len l -> sub (<[Z.to_nat n := x]> l) 0 (n + 1) = sub l 0 n ++ [x].
Proof.
  intros Hn. unfold sub. change (Z.to_nat 0) with 0%nat. rewrite !drop_0. replace (Z.to_nat (n + 1)) with (S (Z.to_nat n)) by lia.
  unfold len in Hn. rewrite (take_S_r _ _ x) by (apply list_lookup_insert_eq; lia). by rewrite take_insert_ge by lia.
Qed.
Lemma sub_insert_after (l : list Z) n j x k : 0 <= n -> n < j -> sub (<[Z.to_nat n := x]> l) j k = sub l j k.
Proof. intros Hn Hj. unfold sub. by rewrite drop_insert_lt by lia. Qed.

Lemma compact_spec addr k i kept bs :
  0 <= kept <= i -> i + Z.of_nat k <= len bs -> Forall is_u32 bs ->
  exists bs' kept', compact k i kept addr bs = Some (bs', kept') /\ len bs' = len bs /\ kept <= kept' <= kept + Z.of_nat k /\ Forall is_u32 bs'
    /\ sub bs' 0 kept' = sub bs 0 kept ++ filter (fun b => b <> addr) (sub bs i (Z.of_nat k)).
Proof.
  revert i kept bs; induction k as [|k IH]; intros i kept bs Hk Hi Hf; cbn [compact].
  { exists bs, kept. split; [done|]. split; [done|]. split; [lia|]. split; [done|]. change (sub bs i (Z.of_nat 0)) with (@nil Z). by rewrite app_nil_r. }
  destruct (zget_is_Some bs i ltac:(lia)) as [b Hb]. rewrite Hb. cbn [mbind option_bind]. assert (0 <= i) as Hi0 by lia. rewrite (sub_S bs i k b Hi0 Hb), filter_cons.
  destruct (Z.eqb_spec b addr) as [->|Hne].
  { rewrite decide_False by (intros Hx; by apply Hx). destruct (IH (i + 1) kept bs) as (bs' & kept' & Hr & H1 & H2 & H3 & H4); [lia|lia|done|].
    exists bs', kept'. split_and!; [done|done|lia|lia|done|done]. }
  rewrite decide_True by done.
  assert (exists bs1, (if kept =? i then Some bs else zset bs kept b) = Some bs1 /\ len bs1 = len bs /\ Forall is_u32 bs1
    /\ sub bs1 0 (kept + 1) = sub bs 0 kept ++ [b] /\ sub bs1 (i + 1) (Z.of_nat k) = sub bs (i + 1) (Z.of_nat k)) as (bs1 & -> & Hl & Hf1 & Hs1 & Hs2).
  { pose proof (zget_elem _ _ _ Hb) as Hin. rewrite Forall_forall in Hf. pose proof (Hf _ Hin) as Hb32. rewrite <-Forall_forall in Hf.
    exists (<[Z.to_nat kept := b]> bs). destruct (Z.eqb_spec kept i) as [->|].
    - rewrite list_insert_id by (apply zget_Some in Hb; apply Hb). split_and!; [done..| |done].
      rewrite <-(sub_snoc bs i b) by lia. rewrite list_insert_id by (apply zget_Some in Hb; apply Hb). done.
    - rewrite zset_Some by lia. split_and!; [done|apply len_insert|by apply Forall_insert|apply sub_snoc; lia|apply sub_insert_after; lia]. }
  cbn [mbind option_bind]. destruct (IH (i + 1) (kept + 1) bs1) as (bs' & kept' & Hr & H1 & H2 & H3 & H4); [lia|lia|done|].
  exists bs', kept'. split_and!; [done|lia|lia|lia|done|]. by rewrite H4, Hs1, Hs2, <-app_assoc.
Qed.

Lemma in_breaks_spec k i pc bs : 0 <= i -> i + Z.of_nat k <= len bs -> in_breaks k i pc bs = Some (bool_decide (pc ∈ sub bs i (Z.of_nat k))).
Proof.
  revert i; induction k as [|k IH]; intros i Hi Hk; cbn [in_breaks].
  { rewrite bool_decide_false; [done|]. change (sub bs i (Z.of_nat 0)) with (@nil Z). by intros ?%elem_of_nil. }
  destruct (zget_is_Some bs i ltac:(lia)) as [b Hb]. rewrite Hb. cbn [mbind option_bind]. rewrite (sub_S _ _ _ _ Hi Hb).
  destruct (Z.eqb_spec b pc) as [->|Hne]; [by rewrite bool_decide_true by left|]. rewrite IH by lia. f_equal. apply bool_decide_ext.
  rewrite elem_of_cons. naive_solver.
Qed.

Lemma check_break_spec w pc : ok w -> fc_gdb_stub_check_break pc w = Some (bool_decide (pc ∈ live w)).
Proof.
  intros Hw. pose proof (k_count _ _ Hw). pose proof (k_breaks _ _ Hw). unfold fc_gdb_stub_check_break, live, MAX_BREAKS in *.
  rewrite in_breaks_spec by lia. by replace (Z.of_nat (Z.to_nat (n_breaks (g_gdb w)))) with (n_breaks (g_gdb w)) by lia.
Qed.
End spec.
