(* ===== verification/GdbPackets.v ===== *)
(** * GdbPackets: what each packet does to the stub

    One lemma per handler, their composition [packet_spec], and runs of the stub: any packets,
    notifications and connection events in any order ([event], [run_events]). *)

From S2P Require Import Prelude ElfSection Save SaveTheorems ResourceIndex GdbStub GdbStubSpec.
From Stdlib Require Import ZArith Lia Strings.String.
From stdpp Require Import base tactics list.
Open Scope Z_scope.

Section packets.
Context {T : Type} (I : T -> Prop) (malloc_ok : Z -> bool).
Abbreviation world := (world T).
Abbreviation ok := (stub_ok I).

(** ** Quiet steps *)

Lemma quiet_cpu w c : ok w -> I c -> quiet I w (with_cpu c w).
Proof. intros Hw Hc. constructor; [|done..]. destruct Hw. by constructor. Qed.
Lemma quiet_breaks w w1 bs n :
  quiet I w w1 -> len bs = 128 -> Forall is_u32 bs -> 0 <= n <= MAX_BREAKS -> quiet I w (with_g (set_breaks bs n) w1).
Proof. intros [Hw Hs Hi Hh] Hl Hf Hn. constructor; [|done..]. destruct Hw. by constructor. Qed.
Lemma quiet_stop w : ok w -> quiet I w (stop_now w).
Proof. intros Hw. constructor; [|done..]. destruct Hw. constructor; try done. cbn. auto. Qed.
Lemma quiet_fetch w : ok w -> quiet I w (with_g bump_fetch w).
Proof. intros Hw. constructor; [|done..]. destruct Hw. by constructor. Qed.

(** ** Handlers *)

Lemma stop_step pkt reason w w1 :
  quiet I w w1 -> reason = "swbreak:;"%string \/ reason = "library:;"%string ->
  exists w', send_stop_with_regs_reason reason w1 = Some w' /\ step_ok I pkt w w'.
Proof.
  intros [Hok Hs Hi Hh] Hr. destruct (send_stop_spec I reason w1 Hok Hr) as (regs & -> & Hf & _). eexists. split; [reflexivity|].
  destruct (send_ok I (stop_reply reason regs) w1 Hok) as (H1 & H2 & H3). constructor; rewrite ?H3; [done| |done|auto]. left. eexists. by rewrite H2, Hs.
Qed.

Lemma vCont_step pkt args w : ok w -> resume pkt = true -> exists w', handle_vCont args w = Some w' /\ step_ok I pkt w w'.
Proof.
  intros Hw Hp. unfold handle_vCont. set (action := if _ || _ then 1 else 0). assert (action = 0 \/ action = 1) as Ha by (unfold action; destruct (_ || _); auto).
  destruct ((action =? 0) && entry_stop_pending (g_gdb w)).
  - apply (stop_step pkt "swbreak:;" w); [|by left]. constructor; [|done..]. destruct Hw. constructor; try done. cbn. auto.
  - eexists. split; [reflexivity|]. destruct Hw. destruct (action =? 0); constructor; try (by right); try done.
    all: try (constructor; try done; cbn; tauto). all: unfold releases; by rewrite Hp.
Qed.

Lemma qXfer_exec_ok args w : ok w -> exists out, handle_qXfer_exec_file args w = Some out /\ fits out.
Proof.
  intros Hw. unfold handle_qXfer_exec_file. destruct (off_len args) as [[off l]|] eqn:E; [|eexists; split; [done|by apply fitsb_fits]].
  destruct (off_len_range _ _ _ E). destruct (k_layout _ _ Hw) as (H1 & H2 & _). apply chunk_ok; [done|lia|done|done].
Qed.

Lemma qXfer_libraries_ok args w : ok w -> exists out w1, handle_qXfer_libraries args w = Some (out, w1) /\ fits out /\ quiet I w w1.
Proof.
  intros Hw. unfold handle_qXfer_libraries. destruct (off_len args) as [[off l]|] eqn:E; [|do 2 eexists; split; [done|split; [by apply fitsb_fits|by apply quiet_refl]]].
  destruct (off_len_range _ _ _ E) as [Ho Hl]. set (w1 := if off =? 0 then with_g bump_fetch w else w).
  assert (quiet I w w1) as Hq by (unfold w1; destruct (off =? 0); [by apply quiet_fetch|by apply quiet_refl]).
  destruct (lib_list_spec w1 (k_layout _ _ (q_ok _ _ _ Hq))) as (-> & Hlen & Hs). cbn [mbind option_bind].
  assert (buffer_text 8192 (library_document w1) = library_document w1) as ->.
  { unfold buffer_text. apply take_ge. unfold len in Hlen. lia. }
  destruct (chunk_ok (library_document w1) [0] off l) as (out & -> & Hf); [done|lia|done|done|]. cbn [mbind option_bind]. by exists out, w1.
Qed.

Lemma read_regs_ok w rd : ok w -> read_regs (ops (g_gdb w)) = Some rd -> exists regs, rd (cpu w) = Some regs /\ len regs = 132 /\ bytes_ok regs.
Proof. intros Hw Hr. exact (c_read_regs _ _ (k_ops _ _ Hw) _ _ Hr (k_cpu _ _ Hw)). Qed.

Lemma hex_fits bs : bytes_ok bs -> len bs <= 4096 -> fits (hex_encode bs).
Proof. intros Hb Hl. split; [by apply hex_c_string|]. rewrite len_hex_encode. unfold MAX_PACKET. lia. Qed.

Lemma g_ok w : ok w -> exists out, handle_g w = Some out /\ fits out.
Proof.
  intros Hw. unfold handle_g. destruct (read_regs _) as [rd|] eqn:E; [|eexists; split; [done|by apply fitsb_fits]].
  destruct (read_regs_ok w rd Hw E) as (regs & -> & Hl & Hb). eexists. split; [reflexivity|]. apply hex_fits; [done|lia].
Qed.

Lemma p_ok pkt w : ok w -> exists out, handle_p pkt w = Some out /\ fits out.
Proof.
  intros Hw. unfold handle_p. destruct (read_regs _) as [rd|] eqn:E; [|eexists; split; [done|by apply fitsb_fits]].
  pose proof (parse_u32_fst (drop 1 pkt)) as Hr. unfold is_u32 in Hr.
  destruct (_ <? 33) eqn:En; [|eexists; split; [done|by apply fitsb_fits]].
  destruct (read_regs_ok w rd Hw E) as (regs & -> & Hl & Hb). eexists. split; [reflexivity|].
  destruct (reg_bytes_ok regs (fst (parse_u32 (drop 1 pkt))) Hl Hb ltac:(lia)). apply hex_fits; [done|lia].
Qed.

Lemma write_regs_quiet w wr regs : ok w -> write_regs (ops (g_gdb w)) = Some wr -> len regs = 132 -> bytes_ok regs -> quiet I w (with_cpu (wr (cpu w) regs) w).
Proof. intros Hw E Hl Hb. apply quiet_cpu; [done|]. exact (c_write_regs _ _ (k_ops _ _ Hw) _ _ _ E (k_cpu _ _ Hw) Hl Hb). Qed.

Lemma P_ok pkt w : ok w -> exists out w1, handle_P pkt w = Some (out, w1) /\ fits out /\ quiet I w w1.
Proof.
  intros Hw. assert (fits (text "E00")) as Hf by by apply fitsb_fits. pose proof (quiet_refl I w Hw) as Hq. unfold handle_P.
  destruct (strchr 58 (drop 1 pkt)) as [[a hex]|]; [|by do 2 eexists]. destruct (write_regs _) as [wr|] eqn:E; [|by do 2 eexists].
  pose proof (parse_u32_fst (drop 1 pkt)) as Hr. set (n := fst (parse_u32 (drop 1 pkt))) in *. unfold is_u32 in Hr.
  destruct (n >=? 33) eqn:En; [by do 2 eexists|].
  destruct (c_both _ _ (k_ops _ _ Hw)) as [rd Hrd]; [by eexists|]. rewrite Hrd. cbn [mbind option_bind].
  destruct (read_regs_ok w rd Hw Hrd) as (regs & -> & Hl & Hb). cbn [mbind option_bind]. do 2 eexists. split; [reflexivity|]. split; [by apply fitsb_fits|].
  destruct (hex_decode_bounds hex 4) as [H1 H2]. apply write_regs_quiet; [done|done|rewrite len_splice by lia; done|by apply Forall_splice].
Qed.

Lemma G_ok args w : ok w -> exists out w1, handle_G args w = (out, w1) /\ fits out /\ quiet I w w1.
Proof.
  intros Hw. pose proof (quiet_refl I w Hw) as Hq. unfold handle_G.
  destruct (write_regs _) as [wr|] eqn:E; [|do 2 eexists; split; [done|]; split; [by apply fitsb_fits|done]].
  destruct (len (hex_decode args 132) =? 132) eqn:El; cbn [negb]; do 2 eexists; (split; [reflexivity|]); (split; [by apply fitsb_fits|]); [|done].
  destruct (hex_decode_bounds args 132) as [_ Hb]. apply write_regs_quiet; [done|done|lia|done].
Qed.

Lemma m_ok args w : ok w -> fits (handle_m malloc_ok args w).
Proof.
  intros Hw. assert (forall s, fitsb (text s) = true -> fits (text s)) as Hc by (intros; by apply fitsb_fits). unfold handle_m.
  destruct (parse_u32 args) as [addr e] eqn:Ep. destruct e as [|c e]; [by apply Hc|]. destruct (negb _); [by apply Hc|].
  pose proof (parse_u32_fst e) as Hl. set (l := fst (parse_u32 e)) in *.
  destruct (read_mem _) as [rd|] eqn:E; [|by apply Hc]. destruct (_ || _) eqn:El; [by apply Hc|]. destruct (negb _); [by apply Hc|].
  apply orb_false_iff in El as [El _].
  destruct (c_read_mem _ _ (k_ops _ _ Hw) _ _ addr l E (k_cpu _ _ Hw) (parse_u32_range _ _ _ Ep) Hl). apply hex_fits; [done|lia].
Qed.

Lemma M_ok args w : ok w -> exists out w1, handle_M malloc_ok args w = (out, w1) /\ fits out /\ quiet I w w1.
Proof.
  intros Hw. pose proof (quiet_refl I w Hw) as Hq.
  assert (forall s, fitsb (text s) = true -> exists out w1, (text s, w) = (out, w1) /\ fits out /\ quiet I w w1) as Hc.
  { intros s Hs. exists (text s), w. split; [done|]. split; [by apply fitsb_fits|done]. }
  unfold handle_M. destruct (parse_u32 args) as [addr e] eqn:Ep. destruct e as [|c e]; [by apply Hc|]. destruct (negb _); [by apply Hc|].
  destruct (parse_u32 e) as [l e'] eqn:Ep'. destruct e' as [|c' data]; [by apply Hc|]. destruct (negb _); [by apply Hc|].
  destruct (write_mem _) as [wr|] eqn:E; [|by apply Hc]. destruct (negb _); [by apply Hc|]. destruct (negb _); [by apply Hc|].
  do 2 eexists. split; [reflexivity|]. split; [by apply fitsb_fits|]. apply quiet_cpu; [done|].
  destruct (hex_decode_bounds data (Z.to_nat l)) as [_ Hb].
  exact (c_write_mem _ _ (k_ops _ _ Hw) _ _ addr _ E (k_cpu _ _ Hw) (parse_u32_range _ _ _ Ep) Hb).
Qed.

Lemma register_info_ok n : is_u32 n -> exists out, register_info n = Some out /\ fits out.
Proof.
  unfold is_u32. intros Hn. destruct (n >=? 33) eqn:E; [unfold register_info; rewrite E; eexists; split; [done|by apply fitsb_fits]|].
  assert (forallb (fun n => match register_info n with Some out => fitsb out | None => false end) (seqZ 0 33) = true) as Hall by (vm_compute; reflexivity).
  rewrite forallb_forall in Hall. specialize (Hall n). destruct (register_info n) as [out|].
  - exists out. split; [done|]. apply fitsb_fits, Hall, list_elem_of_In, elem_of_seqZ. lia.
  - discriminate Hall. apply list_elem_of_In, elem_of_seqZ. lia.
Qed.

(** ** Breakpoints *)

Lemma filter_absent (a : Z) (l : list Z) : a ∉ l -> filter (fun b => b <> a) l = l.
Proof.
  induction l as [|b l IH]; intros Ha; [done|]. apply not_elem_of_cons in Ha as [Hne Ha]. rewrite filter_cons, decide_True by auto. by rewrite IH.
Qed.

(** The target after [set_breakpoint] and [clear_breakpoint], whose results are not looked at. *)
Definition cpu_set (w : world) (a : Z) : T := match set_breakpoint (ops (g_gdb w)) with Some set => snd (set (cpu w) a) | None => cpu w end.
Definition cpu_clear (w : world) (a : Z) : T := match clear_breakpoint (ops (g_gdb w)) with Some clr => snd (clr (cpu w) a) | None => cpu w end.
Lemma cpu_set_ok w a : ok w -> is_u32 a -> I (cpu_set w a).
Proof.
  intros Hw Ha. unfold cpu_set. destruct (set_breakpoint _) as [set|] eqn:E; [|exact (k_cpu _ _ Hw)]. exact (c_set _ _ (k_ops _ _ Hw) _ _ _ E (k_cpu _ _ Hw) Ha).
Qed.
Lemma cpu_clear_ok w a : ok w -> is_u32 a -> I (cpu_clear w a).
Proof.
  intros Hw Ha. unfold cpu_clear. destruct (clear_breakpoint _) as [clr|] eqn:E; [|exact (k_cpu _ _ Hw)].
  exact (c_clear _ _ (k_ops _ _ Hw) _ _ _ E (k_cpu _ _ Hw) Ha).
Qed.

Lemma Z0_spec args w : ok w ->
  let addr := fst (parse_u32 args) in
  exists out w1, handle_Z0 args w = Some (out, w1) /\ fits out /\ quiet I w w1
    /\ if n_breaks (g_gdb w) =? MAX_BREAKS then out = text "E01" /\ w1 = w
       else out = text "OK" /\ live w1 = live w ++ [addr] /\ cpu w1 = cpu_set w addr.
Proof.
  intros Hw addr. pose proof (k_count _ _ Hw) as Hn. pose proof (k_breaks _ _ Hw) as Hb. unfold handle_Z0. fold addr. unfold MAX_BREAKS in *.
  destruct (n_breaks (g_gdb w) >=? 128) eqn:E.
  { exists (text "E01"), w. rewrite (proj2 (Z.eqb_eq _ 128)) by lia. split_and!; [done|by apply fitsb_fits|by apply quiet_refl|done..]. }
  rewrite (proj2 (Z.eqb_neq _ 128)) by lia. rewrite zset_Some by lia. cbn [mbind option_bind].
  pose proof (parse_u32_fst args) as Ha. fold addr in Ha. do 2 eexists. split; [reflexivity|]. split; [by apply fitsb_fits|].
  assert (match set_breakpoint (ops (g_gdb w)) with Some set => with_cpu (snd (set (cpu w) addr)) w | None => w end = with_cpu (cpu_set w addr) w) as ->.
  { unfold cpu_set. destruct (set_breakpoint _); [done|by destruct w]. }
  split; [|split; [done|split; [|done]]].
  - apply quiet_breaks; [apply quiet_cpu; [done|by apply cpu_set_ok]|by rewrite len_insert|apply Forall_insert; [exact (k_words _ _ Hw)|done]|unfold MAX_BREAKS; lia].
  - unfold live. cbn [g_gdb with_g with_cpu breaks n_breaks set_breaks]. apply sub_snoc. lia.
Qed.

Lemma z0_spec args w : ok w ->
  let addr := fst (parse_u32 args) in
  exists w1, handle_z0 args w = Some (text "OK", w1) /\ quiet I w w1
    /\ live w1 = filter (fun b => b <> addr) (live w) /\ cpu w1 = (if bool_decide (addr ∈ live w) then cpu_clear w addr else cpu w).
Proof.
  intros Hw addr. pose proof (k_count _ _ Hw) as Hn. pose proof (k_breaks _ _ Hw) as Hb. unfold handle_z0. fold addr. unfold MAX_BREAKS in *.
  destruct (compact_spec addr (Z.to_nat (n_breaks (g_gdb w))) 0 0 (breaks (g_gdb w))) as (bs & kept & -> & H1 & H2 & H3 & H4); [lia|lia|exact (k_words _ _ Hw)|].
  cbn [mbind option_bind]. replace (Z.of_nat (Z.to_nat (n_breaks (g_gdb w)))) with (n_breaks (g_gdb w)) in * by lia. fold (live w) in H4.
  change (sub (breaks (g_gdb w)) 0 0) with (@nil Z) in H4. cbn [app] in H4. pose proof (parse_u32_fst args) as Ha. fold addr in Ha.
  assert (len (live w) = n_breaks (g_gdb w)) as Hll by (unfold live; rewrite len_sub; lia).
  assert (len (filter (fun b => b <> addr) (live w)) = kept) as Hlk by (rewrite <-H4, len_sub; lia).
  assert ((n_breaks (g_gdb w) =? kept) = negb (bool_decide (addr ∈ live w))) as Hkept.
  { case_bool_decide as Hin; cbn [negb].
    - apply Z.eqb_neq. intros Heq. apply list_elem_of_In in Hin.
      assert (length (filter (fun b => b <> addr) (live w)) < length (live w))%nat; [|unfold len in *; lia]. apply length_filter_lt with addr; [by apply list_elem_of_In|auto].
    - apply Z.eqb_eq. rewrite <-Hll, <-Hlk. by rewrite filter_absent. }
  eexists. split; [reflexivity|]. set (w2 := match clear_breakpoint _ with Some _ => _ | None => _ end).
  assert (w2 = with_cpu (if bool_decide (addr ∈ live w) then cpu_clear w addr else cpu w) w) as Hw2.
  { unfold w2. rewrite Hkept. unfold cpu_clear. case_bool_decide; cbn [negb]; destruct (clear_breakpoint _); (done || by destruct w). }
  assert (I (cpu w2)) as Hc by (rewrite Hw2; cbn; case_bool_decide; [by apply cpu_clear_ok|exact (k_cpu _ _ Hw)]).
  split; [|split].
  - apply quiet_breaks; [|lia|done|unfold MAX_BREAKS; lia]. rewrite Hw2. apply quiet_cpu; [done|]. by rewrite Hw2 in Hc.
  - unfold live at 1. cbn [g_gdb with_g breaks n_breaks set_breaks]. exact H4.
  - change (cpu w2 = (if bool_decide (addr ∈ live w) then cpu_clear w addr else cpu w)). by rewrite Hw2.
Qed.

Lemma clear_loop_ok bs clr c : (forall c a, I c -> is_u32 a -> I (snd (clr c a))) -> Forall is_u32 bs -> I c -> I (clear_loop bs clr c).
Proof. intros Hk Hf. revert c; induction Hf as [|a bs Ha _ IH]; intros c Hc; cbn [clear_loop]; [done|]. by apply IH, Hk. Qed.

(** The target with every breakpoint cleared in turn. *)
Definition cpu_clear_all (w : world) : T := match clear_breakpoint (ops (g_gdb w)) with Some clr => clear_loop (live w) clr (cpu w) | None => cpu w end.
Lemma clear_all_spec w : ok w ->
  exists w1, clear_all_breakpoints w = Some w1 /\ quiet I w w1 /\ live w1 = [] /\ cpu w1 = cpu_clear_all w
    /\ halted (g_gdb w1) = halted (g_gdb w) /\ pending_action (g_gdb w1) = pending_action (g_gdb w).
Proof.
  intros Hw. pose proof (k_count _ _ Hw) as Hn. pose proof (k_breaks _ _ Hw) as Hb. unfold MAX_BREAKS in *. unfold clear_all_breakpoints, cpu_clear_all, live.
  assert (I (cpu_clear_all w)) as Hc.
  { unfold cpu_clear_all. destruct (clear_breakpoint _) as [clr|] eqn:E; [|exact (k_cpu _ _ Hw)]. apply clear_loop_ok; [|apply Forall_sub; exact (k_words _ _ Hw)|exact (k_cpu _ _ Hw)].
    intros c a Hc Ha. exact (c_clear _ _ (k_ops _ _ Hw) _ _ _ E Hc Ha). }
  unfold cpu_clear_all, live in Hc. destruct (clear_breakpoint _) as [clr|] eqn:E; [rewrite rd_Some by lia|]; cbn [mbind option_bind]; eexists; (split; [reflexivity|]).
  - split; [|done]. apply quiet_breaks; [by apply quiet_cpu|done|exact (k_words _ _ Hw)|unfold MAX_BREAKS; lia].
  - split; [|done]. apply quiet_breaks; [by apply quiet_refl|done|exact (k_words _ _ Hw)|unfold MAX_BREAKS; lia].
Qed.

(** A client that goes away leaves no breakpoint behind and the target running. *)
Lemma disconnect_spec w : ok w ->
  exists w1, fc_gdb_stub_set_has_client false w = Some w1 /\ ok w1 /\ sent w1 = sent w /\ live w1 = [] /\ cpu w1 = cpu_clear_all w
    /\ halted (g_gdb w1) = false /\ pending_action (g_gdb w1) = 0 /\ initial_halt (g_gdb w1) = initial_halt (g_gdb w).
Proof.
  intros Hw. destruct (clear_all_spec w Hw) as (w1 & H1 & Hq & Hl & Hc & _). unfold fc_gdb_stub_set_has_client. cbn [negb]. rewrite H1. cbn [mbind option_bind].
  eexists. split; [reflexivity|]. destruct Hq as [Hok Hs Hi Hh]. split; [destruct Hok; constructor; try done; cbn; auto|].
  split; [exact Hs|]. split; [exact Hl|]. split; [exact Hc|]. split; [done|]. split; [done|].
  revert H1. unfold clear_all_breakpoints. destruct (clear_breakpoint _); [destruct (rd _ _ _); cbn [mbind option_bind]; [|done]|cbn [mbind option_bind]]; by intros [= <-].
Qed.

Lemma set_run_ok w h a : ok w -> run_ok h a -> ok (with_g (set_run h a) w).
Proof. intros Hw Hr. destruct Hw. by constructor. Qed.

Lemma detach_step pkt w : ok w -> alone_or_args 68 pkt = true ->
  exists w', (w ← fc_gdb_stub_set_has_client false (with_g (set_run false 0) w); reply (text "OK") w) = Some w' /\ step_ok I pkt w w'.
Proof.
  intros Hw Hp. destruct (disconnect_spec (with_g (set_run false 0) w)) as (w1 & -> & Hok & Hs & _ & _ & _ & _ & Hi); [apply set_run_ok; cbn; auto|].
  cbn [mbind option_bind]. destruct (send_ok I (text "OK") w1 Hok) as (H1 & H2 & H3). eexists. split; [reflexivity|].
  constructor; rewrite ?H3; [done| |rewrite Hi; exact (fun H => H)|].
  - left. exists (text "OK"). split; [by apply fitsb_fits|]. by rewrite H2, Hs.
  - unfold releases. by rewrite Hp, orb_true_r.
Qed.

(** ** All packets *)

Lemma answer_of pkt w r : ok w -> (exists out w1, r = Some (out, w1) /\ fits out /\ quiet I w w1) -> exists w', answer r = Some w' /\ step_ok I pkt w w'.
Proof. intros Hw (out & w1 & -> & Hf & Hq). by apply answer_ok. Qed.
Lemma reply_of pkt w (r : option (list Z)) : ok w -> (exists out, r = Some out /\ fits out) -> exists w', (out ← r; reply out w) = Some w' /\ step_ok I pkt w w'.
Proof. intros Hw (out & -> & Hf). cbn [mbind option_bind]. apply reply_ok; [by apply quiet_refl|done]. Qed.
Lemma const_of pkt w out : ok w -> fitsb out = true -> exists w', reply out w = Some w' /\ step_ok I pkt w w'.
Proof. intros Hw Hf. apply reply_ok; [by apply quiet_refl|by apply fitsb_fits]. Qed.

Lemma packet_spec pkt w : ok w -> exists w', handle_packet malloc_ok pkt w = Some w' /\ step_ok I pkt w w'.
Proof.
  intros Hw. unfold handle_packet.
  cond E1; [by apply const_of|]. cond E2; [apply reply_of, qXfer_exec_ok; done|]. cond E3; [apply answer_of, qXfer_libraries_ok; done|].
  cond E4; [apply reply_ok; [by apply quiet_refl|unfold handle_qXfer_features; destruct (negb _); by apply fitsb_fits]|].
  cond E5; [destruct (_ && _); apply (stop_step pkt _ w); (by apply quiet_refl) || auto|].
  cond E6; [apply vCont_step; [done|unfold resume; by rewrite E6]|]. cond E7; [apply vCont_step; [done|unfold resume; by rewrite E7, orb_true_r]|].
  cond E8; [apply reply_of, p_ok; done|]. cond E9; [apply answer_of, P_ok; done|]. cond E10; [by apply const_of|]. cond E11; [apply reply_of, g_ok; done|].
  cond E12; [apply answer_of; [done|]; destruct (G_ok (drop 1 pkt) w Hw) as (out & w1 & -> & ?); by exists out, w1|].
  cond E13; [apply reply_ok; [by apply quiet_refl|by apply m_ok]|].
  cond E14; [apply answer_of; [done|]; destruct (M_ok (drop 1 pkt) w Hw) as (out & w1 & -> & ?); by exists out, w1|].
  cond E15; [apply answer_of; [done|]; destruct (Z0_spec (drop 3 pkt) w Hw) as (out & w1 & -> & ? & ? & _); by exists out, w1|].
  cond E16; [apply answer_of; [done|]; destruct (z0_spec (drop 3 pkt) w Hw) as (w1 & -> & ? & _); exists (text "OK"), w1; split; [done|]; split; [by apply fitsb_fits|done]|].
  cond E17; [by apply const_of|]. cond E18; [apply vCont_step; [done|unfold resume; by rewrite E18, E17, !orb_true_r]|].
  cond E19; [by apply const_of|]. cond E20; [by apply const_of|]. cond E21; [by apply const_of|].
  cond E22; [destruct (_ =? 1); by apply const_of|]. cond E23; [by apply const_of|]. cond E24; [by apply const_of|].
  cond E25; [destruct (halted (g_gdb w)); [apply (stop_step pkt _ w); [by apply quiet_refl|by left]|by apply const_of]|].
  cond E26; [apply reply_of; [done|]; apply register_info_ok, parse_u32_fst|].
  cond E27; [apply reply_ok; [by apply quiet_stop|by apply fitsb_fits]|]. cond E28; [by apply const_of|]. cond E29; [by apply const_of|].
  cond E30; [by apply detach_step|]. cond E31; [|by apply const_of].
  apply reply_ok; [|by apply fitsb_fits]. constructor; [|done..]. destruct Hw. constructor; try done. cbn. destruct (halted _); cbn; auto.
Qed.
End packets.

(** ** Which handler takes a packet

    [dispatch] skips the tests a packet fails by its first byte. *)

Lemma starts_head p c s : match text p with x :: _ => x <> c | [] => False end -> starts p (c :: s) = false.
Proof. unfold starts. destruct (text p) as [|x t]; [done|]. intros Hx. apply bool_decide_false. cbn [length take]. by intros [= ? _]. Qed.
Lemma same_head p c s : match text p with x :: _ => x <> c | [] => True end -> same p (c :: s) = false.
Proof. unfold same. destruct (text p) as [|x t]; intros Hx; apply bool_decide_false; congruence. Qed.
Lemma starts_app p s : starts p (text p ++ s) = true.
Proof. unfold starts. apply bool_decide_true. by rewrite take_app_length. Qed.
Lemma alone_head x c s : c <> x -> alone_or_args x (c :: s) = false.
Proof. intros Hc. unfold alone_or_args. destruct s as [|y s]; [lia|]. destruct (Z.eqb_spec c x); done. Qed.
Lemma with_args_head x c s : c <> x -> with_args x (c :: s) = false.
Proof. intros Hc. unfold with_args. destruct s; [done|lia]. Qed.
Lemma first_head x c s : c <> x -> first_is x (c :: s) = false.
Proof. intros Hc. unfold first_is. lia. Qed.

Ltac dispatch :=
  unfold handle_packet;
  repeat match goal with
         | |- context [starts ?p (?c :: ?s)] => rewrite (starts_head p c s) by (vm_compute; congruence)
         | |- context [same ?p (?c :: ?s)] => rewrite (same_head p c s) by (vm_compute; congruence)
         | |- context [alone_or_args ?x (?c :: ?s)] => rewrite (alone_head x c s) by congruence
         | |- context [with_args ?x (?c :: ?s)] => rewrite (with_args_head x c s) by congruence
         | |- context [first_is ?x (?c :: ?s)] => rewrite (first_head x c s) by congruence
         end.

Section dispatch.
Context {T : Type} (malloc_ok : Z -> bool).
Implicit Types w : world T.

Lemma dispatch_Z0 args w : handle_packet malloc_ok (text "Z0," ++ args) w = answer (handle_Z0 args w).
Proof.
  change (text "Z0," ++ args) with (90 :: 48 :: 44 :: args). dispatch.
  change (90 :: 48 :: 44 :: args) with (text "Z0," ++ args). rewrite starts_app. done.
Qed.
Lemma dispatch_z0 args w : handle_packet malloc_ok (text "z0," ++ args) w = answer (handle_z0 args w).
Proof.
  change (text "z0," ++ args) with (122 :: 48 :: 44 :: args). dispatch.
  change (122 :: 48 :: 44 :: args) with (text "z0," ++ args). rewrite starts_app. done.
Qed.
Lemma dispatch_m args w : handle_packet malloc_ok (109 :: args) w = reply (handle_m malloc_ok args w) w.
Proof. dispatch. done. Qed.
Lemma dispatch_M args w : handle_packet malloc_ok (77 :: args) w = answer (Some (handle_M malloc_ok args w)).
Proof. dispatch. done. Qed.
Lemma dispatch_G args w : handle_packet malloc_ok (71 :: args) w = answer (Some (handle_G args w)).
Proof. dispatch. done. Qed.
Lemma dispatch_g w : handle_packet malloc_ok [103] w = (out ← handle_g w; reply out w).
Proof. dispatch. done. Qed.
Lemma dispatch_P x args w : handle_packet malloc_ok (80 :: x :: args) w = answer (handle_P (80 :: x :: args) w).
Proof. dispatch. done. Qed.
Lemma dispatch_p x args w : handle_packet malloc_ok (112 :: x :: args) w = (out ← handle_p (112 :: x :: args) w; reply out w).
Proof. dispatch. done. Qed.
End dispatch.

(** ** What a packet does to the target *)

Section effects.
Context {T : Type} (I : T -> Prop) (malloc_ok : Z -> bool).
Abbreviation world := (world T).
Abbreviation ok := (stub_ok I).

Inductive effect (pkt : list Z) (w w' : world) : Prop :=
  | EffNone : cpu w' = cpu w -> live w' = live w -> effect pkt w w'
  | EffRegs wr regs : write_regs (ops (g_gdb w)) = Some wr -> cpu w' = wr (cpu w) regs -> live w' = live w -> effect pkt w w'
  | EffMem : first_is 77 pkt = true -> effect pkt w w'
  | EffInsert a : starts "Z0," pkt = true -> a = fst (parse_u32 (drop 3 pkt)) -> n_breaks (g_gdb w) < MAX_BREAKS ->
      live w' = live w ++ [a] -> cpu w' = cpu_set w a -> effect pkt w w'
  | EffRemove a : is_u32 a -> live w' = filter (fun b => b <> a) (live w) -> cpu w' = (if bool_decide (a ∈ live w) then cpu_clear w a else cpu w) -> effect pkt w w'
  | EffDetach : live w' = [] -> cpu w' = cpu_clear_all w -> effect pkt w w'.

(** What no packet changes. *)
Definition static (w : world) := (ops (g_gdb w), layout (g_gdb w), libraries w).
Definition effects (pkt : list Z) (w w' : world) : Prop := static w' = static w /\ effect pkt w w'.

Lemma send_effect payload (w : world) : cpu (send_response payload w) = cpu w /\ g_gdb (send_response payload w) = g_gdb w.
Proof. unfold send_response. by destruct (transport _). Qed.
Lemma send_static payload (w : world) : static (send_response payload w) = static w.
Proof. unfold send_response. by destruct (transport _). Qed.
Lemma live_g (w w' : world) : g_gdb w = g_gdb w' -> live w = live w'.
Proof. unfold live. by intros ->. Qed.

Lemma eff_reply pkt out w w1 w' : reply out w1 = Some w' -> cpu w1 = cpu w -> live w1 = live w -> static w1 = static w -> effects pkt w w'.
Proof.
  intros [= <-] Hc Hl Ho. destruct (send_effect out w1) as [H1 H2]. split; [by rewrite send_static|]. apply EffNone; [by rewrite H1|]. by rewrite (live_g _ _ H2).
Qed.
Lemma eff_stop pkt reason w w1 w' : ok w1 -> send_stop_with_regs_reason reason w1 = Some w' -> reason = "swbreak:;"%string \/ reason = "library:;"%string ->
  cpu w1 = cpu w -> live w1 = live w -> static w1 = static w -> effects pkt w w'.
Proof. intros Hok Hr Hreason. destruct (send_stop_spec I reason w1 Hok Hreason) as (regs & Hs & _). rewrite Hs in Hr. by apply (eff_reply pkt (stop_reply reason regs)). Qed.

Lemma eff_vCont pkt args w w' : ok w -> handle_vCont args w = Some w' -> effects pkt w w'.
Proof.
  intros Hw. unfold handle_vCont. set (action := if _ || _ then 1 else 0). destruct (_ && _).
  - intros Hr. eapply (eff_stop pkt "swbreak:;" w); [|exact Hr|by left|done..]. destruct Hw. constructor; try done. cbn. auto.
  - intros [= <-]. destruct (action =? 0); (split; [done|by apply EffNone]).
Qed.

Lemma M_static args (w : world) out w1 : handle_M malloc_ok args w = (out, w1) -> static w1 = static w.
Proof.
  unfold handle_M. destruct (parse_u32 args) as [addr e]. destruct e as [|c e]; [by intros [= _ <-]|]. destruct (negb _); [by intros [= _ <-]|].
  destruct (parse_u32 e) as [l e']. destruct e' as [|c' data]; [by intros [= _ <-]|]. destruct (negb _); [by intros [= _ <-]|].
  destruct (write_mem _) as [wr|]; [|by intros [= _ <-]]. destruct (negb _); [by intros [= _ <-]|]. destruct (negb _); by intros [= _ <-].
Qed.

Lemma packet_effects pkt w w' : ok w -> handle_packet malloc_ok pkt w = Some w' -> effects pkt w w'.
Proof.
  intros Hw. unfold handle_packet.
  cond E1; [intros H; by eapply eff_reply|].
  cond E2; [destruct (handle_qXfer_exec_file _ _); [|done]; intros H; by eapply eff_reply|].
  cond E3.
  { destruct (handle_qXfer_libraries _ _) as [[out w1]|] eqn:E; [|done]. intros H. revert E. unfold handle_qXfer_libraries.
    destruct (off_len _) as [[off l]|]; [|intros [= <- <-]; by eapply eff_reply]. destruct (lib_list _); [|done]. cbn [mbind option_bind].
    destruct (chunk _ _ _ _); [|done]. cbn [mbind option_bind]. intros [= <- <-]. eapply eff_reply; [exact H|by destruct (off =? 0)..]. }
  cond E4; [intros H; by eapply eff_reply|].
  cond E5; [destruct (_ && _); intros H; (eapply eff_stop; [exact Hw|exact H|auto|done..])|].
  cond E6; [by apply eff_vCont|]. cond E7; [by apply eff_vCont|].
  cond E8; [destruct (handle_p _ _); [|done]; intros H; by eapply eff_reply|].
  cond E9.
  { unfold handle_P. destruct (strchr _ _) as [[a hex]|]; [|intros H; by eapply eff_reply]. destruct (write_regs _) as [wr|] eqn:Ewr; [|intros H; by eapply eff_reply].
    destruct (_ >=? 33); [intros H; by eapply eff_reply|]. destruct (read_regs _) as [rd|]; [|done]. cbn [mbind option_bind].
    destruct (rd _) as [regs|]; [|done]. cbn [mbind option_bind answer]. unfold reply. intros [= <-]. split; [by rewrite send_static|].
    apply (EffRegs _ _ _ wr (splice regs (fst (parse_u32 (drop 1 pkt)) * 4) (hex_decode hex 4))); [done|by rewrite (proj1 (send_effect _ _))|].
    by rewrite (live_g _ _ (proj2 (send_effect _ _))). }
  cond E10; [intros H; by eapply eff_reply|]. cond E11; [destruct (handle_g _); [|done]; intros H; by eapply eff_reply|].
  cond E12.
  { unfold handle_G. destruct (write_regs _) as [wr|] eqn:Ewr; [|intros H; by eapply eff_reply]. destruct (negb _); [intros H; by eapply eff_reply|].
    cbn [answer mbind option_bind]. unfold reply. intros [= <-]. split; [by rewrite send_static|].
    apply (EffRegs _ _ _ wr (hex_decode (drop 1 pkt) 132)); [done|by rewrite (proj1 (send_effect _ _))|]. by rewrite (live_g _ _ (proj2 (send_effect _ _))). }
  cond E13; [intros H; by eapply eff_reply|].
  cond E14.
  { destruct (handle_M malloc_ok (drop 1 pkt) w) as [out w1] eqn:E. cbn [answer mbind option_bind]. unfold reply. intros [= <-]. split; [|by apply EffMem].
    rewrite send_static. by eapply M_static. }
  cond E15.
  { destruct (Z0_spec I (drop 3 pkt) w Hw) as (out & w1 & Hr & _ & Hq & Hout). rewrite Hr. cbn [answer mbind option_bind]. unfold reply. intros [= <-].
    split.
    - rewrite send_static. revert Hr. unfold handle_Z0. destruct (_ >=? _); [by intros [= <- <-]|]. destruct (zset _ _ _); [|done]. cbn [mbind option_bind].
      intros [= <- <-]. by destruct (set_breakpoint _).
    - pose proof (k_count _ _ Hw) as Hn. destruct (Z.eqb_spec (n_breaks (g_gdb w)) MAX_BREAKS) as [Heq|Hne].
      + destruct Hout as [_ ->]. apply EffNone; [by rewrite (proj1 (send_effect _ _))|by rewrite (live_g _ _ (proj2 (send_effect _ _)))].
      + destruct Hout as (_ & Hl & Hc). apply (EffInsert pkt w _ _ E15 (eq_refl (fst (parse_u32 (drop 3 pkt))))); [clear -Hn Hne; lia| |].
        * rewrite (live_g _ _ (proj2 (send_effect _ _))). exact Hl.
        * rewrite (proj1 (send_effect _ _)). exact Hc. }
  cond E16.
  { destruct (z0_spec I (drop 3 pkt) w Hw) as (w1 & Hr & Hq & Hl & Hc). rewrite Hr. cbn [answer mbind option_bind]. unfold reply. intros [= <-].
    split.
    - rewrite send_static. revert Hr. unfold handle_z0. destruct (compact _ _ _ _ _) as [[bs kept]|]; [|done]. cbn [mbind option_bind].
      intros [= <-]. by destruct (clear_breakpoint _); [destruct (_ =? kept)|].
    - apply (EffRemove pkt w _ (fst (parse_u32 (drop 3 pkt))) (parse_u32_fst _)).
      + rewrite (live_g _ _ (proj2 (send_effect _ _))). exact Hl.
      + rewrite (proj1 (send_effect _ _)). exact Hc. }
  cond E17; [intros H; by eapply eff_reply|]. cond E18; [by apply eff_vCont|].
  cond E19; [intros H; by eapply eff_reply|]. cond E20; [intros H; by eapply eff_reply|]. cond E21; [intros H; by eapply eff_reply|].
  cond E22; [destruct (_ =? 1); intros H; by eapply eff_reply|]. cond E23; [intros H; by eapply eff_reply|]. cond E24; [intros H; by eapply eff_reply|].
  cond E25; [destruct (halted (g_gdb w)); intros H; [(eapply eff_stop; [exact Hw|exact H|auto|done..])|by eapply eff_reply]|].
  cond E26; [destruct (register_info _); [|done]; intros H; by eapply eff_reply|].
  cond E27; [intros H; by eapply eff_reply|]. cond E28; [intros H; by eapply eff_reply|]. cond E29; [intros H; by eapply eff_reply|].
  cond E30.
  { destruct (disconnect_spec I (with_g (set_run false 0) w)) as (w1 & Hr & Hok & _ & Hl & Hc & _); [apply set_run_ok; cbn; auto|]. rewrite Hr. cbn [mbind option_bind].
    unfold reply. intros [= <-]. split.
    - rewrite send_static. revert Hr. unfold fc_gdb_stub_set_has_client, clear_all_breakpoints. cbn [negb].
      destruct (clear_breakpoint _); [destruct (rd _ _ _); [|done]|]; cbn [mbind option_bind]; by intros [= <-].
    - apply EffDetach; [by rewrite (live_g _ _ (proj2 (send_effect _ _)))|by rewrite (proj1 (send_effect _ _))]. }
  cond E31; intros H; by eapply eff_reply.
Qed.
End effects.
