(* ===== verification/GdbTheorems.v ===== *)
(** * GdbTheorems: the stub over whole debugging sessions

    Events are what reaches the stub from its three sides: packets of the client, the transport
    coming and going, and the run loop of the session.  The theorems hold for any target that meets
    the contract. *)

From S2P Require Import Prelude ElfSection Save SaveTheorems ResourceIndex GdbStub GdbStubSpec GdbPackets.
From Stdlib Require Import ZArith Lia Strings.String.
From stdpp Require Import base tactics list.
Open Scope Z_scope.

(** ** Events *)

Inductive event (T : Type) :=
  | Packet (pkt : list Z)
  | Poll (pkt : option (list Z))
  | SetClient (val : bool)
  | SetTransport (t : fc_gdb_transport_t)
  | SetLayout (l : fc_gdb_layout_t) (libs : list fc_gdb_library_t)
  | Stopped
  | LibraryChange
  | ContinueInitial
  | RestoreTemp (addr : Z)
  | Repatch (addr : Z)
  | GuestRuns (c : T).        (** the target has moved on to [c] *)
Arguments Packet {T}. Arguments Poll {T}. Arguments SetClient {T}. Arguments SetTransport {T}. Arguments SetLayout {T}. Arguments Stopped {T}.
Arguments LibraryChange {T}. Arguments ContinueInitial {T}. Arguments RestoreTemp {T}. Arguments Repatch {T}. Arguments GuestRuns {T}.

Section runs.
Context {T : Type} (I : T -> Prop) (malloc_ok : Z -> bool).
Abbreviation world := (world T).
Abbreviation ok := (stub_ok I).

Definition run_event (e : event T) (w : world) : option world :=
  match e with
  | Packet p => fc_gdb_stub_process_pkt malloc_ok p w
  | Poll p => fc_gdb_stub_poll malloc_ok p w
  | SetClient v => fc_gdb_stub_set_has_client v w
  | SetTransport t => Some (fc_gdb_stub_set_transport t w)
  | SetLayout l libs => Some (fc_gdb_stub_set_layout l libs w)
  | Stopped => fc_gdb_stub_notify_stopped w
  | LibraryChange => Some (fc_gdb_stub_notify_library_change w)
  | ContinueInitial => Some (fc_gdb_stub_continue_initial_halt w)
  | RestoreTemp a => Some (fc_gdb_stub_restore_bp_temp a w)
  | Repatch a => fc_gdb_stub_repatch_bp a w
  | GuestRuns c => Some (with_cpu c w)
  end.
Fixpoint run_events (es : list (event T)) (w : world) : option world :=
  match es with [] => Some w | e :: es => w ← run_event e w; run_events es w end.

Definition event_ok (e : event T) : Prop :=
  match e with
  | SetLayout l libs => layout_ok l libs
  | RestoreTemp a | Repatch a => is_u32 a
  | GuestRuns c => I c
  | _ => True
  end.

(** Events that may let a stopped target go on. *)
Definition may_release (e : event T) : bool :=
  match e with
  | Packet p | Poll (Some p) => releases p
  | SetClient _ | SetTransport _ => true
  | _ => false
  end.
(** A halt the client has to resume from: not the initial one. *)
Definition real_stop (w : world) : Prop := halted (g_gdb w) = true /\ initial_halt (g_gdb w) = false.

Lemma repatch_spec w a : ok w -> fc_gdb_stub_repatch_bp a w = Some (if bool_decide (a ∈ live w) then with_cpu (cpu_set w a) w else w).
Proof.
  intros Hw. unfold fc_gdb_stub_repatch_bp. rewrite (check_break_spec I) by done. cbn [mbind option_bind]. f_equal.
  case_bool_decide; [|done]. unfold cpu_set. destruct (set_breakpoint _); [done|by destruct w].
Qed.
Lemma restore_spec (w : world) a : fc_gdb_stub_restore_bp_temp a w = with_cpu (cpu_clear w a) w.
Proof. unfold fc_gdb_stub_restore_bp_temp, cpu_clear. destruct (clear_breakpoint _); [done|by destruct w]. Qed.

(** One event: the invariant, and what becomes of a real stop. *)
Lemma event_spec e w : ok w -> event_ok e ->
  exists w', run_event e w = Some w' /\ ok w' /\ (real_stop w -> may_release e = false -> real_stop w').
Proof.
  intros Hw He. assert (forall p, exists w', handle_packet malloc_ok p w = Some w' /\ ok w' /\ (real_stop w -> releases p = false -> real_stop w')) as Hpkt.
  { intros p. destruct (packet_spec I malloc_ok p w Hw) as (w' & Hr & [Hok _ Hi Hh]). exists w'. split; [done|]. split; [done|].
    intros [H1 H2] Hp. split; [by apply Hh|]. destruct (initial_halt (g_gdb w')); [|done]. by rewrite (Hi eq_refl) in H2. }
  destruct e; cbn [run_event event_ok may_release] in *.
  - apply Hpkt.
  - unfold fc_gdb_stub_poll. destruct (transport (g_gdb w)), pkt as [p|]; try (by eexists); apply Hpkt.
  - destruct val.
    + eexists. split; [reflexivity|]. split; [|done]. destruct Hw. constructor; try done. cbn. auto.
    + destruct (disconnect_spec I w Hw) as (w1 & -> & Hok & _). by exists w1.
  - eexists. split; [reflexivity|]. split; [|done]. destruct Hw. constructor; try done. cbn. auto.
  - eexists. split; [reflexivity|]. split; [|done]. destruct Hw. by constructor.
  - destruct (stop_step I [] "swbreak:;" w (stop_now w) (quiet_stop I w Hw)) as (w' & Hr & Hs); [by left|]. exists w'. split; [exact Hr|]. split; [apply Hs|].
    intros [H1 H2] _. split; [by apply (so_halted _ _ _ _ Hs)|]. destruct (initial_halt (g_gdb w')) eqn:E; [|done]. by rewrite (so_initial _ _ _ _ Hs E) in H2.
  - eexists. split; [reflexivity|]. unfold fc_gdb_stub_notify_library_change. destruct (send_ok I (text "T05library:;thread:01;") (stop_now w) (q_ok _ _ _ (quiet_stop I w Hw))) as (H1 & _ & H3).
    split; [done|]. intros _ _. unfold real_stop. by rewrite H3.
  - eexists. split; [reflexivity|]. unfold fc_gdb_stub_continue_initial_halt. destruct (_ && _) eqn:E; [|done]. apply andb_true_iff in E as [_ Ei].
    split; [destruct Hw; constructor; try done; cbn; auto|]. intros [_ H2]. congruence.
  - eexists. split; [reflexivity|]. rewrite restore_spec. split; [apply (quiet_cpu I w); [done|by apply cpu_clear_ok]|done].
  - rewrite repatch_spec by done. eexists. split; [reflexivity|]. case_bool_decide; [split; [apply (quiet_cpu I w); [done|by apply cpu_set_ok]|done]|done].
  - eexists. split; [reflexivity|]. split; [by apply (quiet_cpu I w)|done].
Qed.

Lemma run_events_spec es w : ok w -> Forall event_ok es ->
  exists w', run_events es w = Some w' /\ ok w' /\ (real_stop w -> Forall (fun e => may_release e = false) es -> real_stop w').
Proof.
  intros Hw Hes. revert w Hw. induction Hes as [|e es He _ IH]; intros w Hw; cbn [run_events]; [by exists w|].
  destruct (event_spec e w Hw He) as (w1 & -> & Hok & Hstop). cbn [mbind option_bind]. destruct (IH w1 Hok) as (w' & Hr & Hok' & Hstop').
  exists w'. split; [done|]. split; [done|]. intros Hs [H1 H2]%Forall_cons. auto.
Qed.

(** ** The theorems *)

(** C16: From the moment a transport is set, no sequence of packets (of any bytes), connection events,
    notifications and runs of the guest takes the stub outside of its buffers: the table of breakpoints, the
    library array, the reply buffers; and it always ends in a consistent state, halted waiting for an action
    or running with one. *)
Theorem gdb_stub_safe (o : fc_gdb_cpu_ops_t T) (l : fc_gdb_layout_t) (libs : list fc_gdb_library_t) (c : T) (t : fc_gdb_transport_t) (es : list (event T)) :
  target_contract I o -> layout_ok l libs -> I c -> Forall event_ok es ->
  exists w', run_events es (fc_gdb_stub_set_transport t (MkWorld (with_layout l (with_ops o initial_gdb)) libs c [])) = Some w' /\ ok w'.
Proof.
  intros Ho Hl Hc Hes.
  destruct (run_events_spec es (fc_gdb_stub_set_transport t (MkWorld (with_layout l (with_ops o initial_gdb)) libs c []))) as (w' & Hr & Hok & _); [|done|by exists w'].
  constructor; try done.
  - apply Forall_replicate. done.
  - cbn. auto.
Qed.

(** C18: Every packet gets exactly one reply, a C string that fits its buffer; the only packets that get none are
    those that set a stopped target running (its stop is the reply). *)
Theorem gdb_packet_answered (pkt : list Z) (w : world) :
  ok w -> exists w', fc_gdb_stub_process_pkt malloc_ok pkt w = Some w' /\ ok w'
    /\ ((exists r, fits r /\ sent w' = sent w ++ [r]) \/ (sent w' = sent w /\ resume pkt = true /\ halted (g_gdb w') = false)).
Proof. intros Hw. destruct (packet_spec I malloc_ok pkt w Hw) as (w' & Hr & Hs). exists w'. split; [exact Hr|]. split; apply Hs. Qed.

(** C19: A breakpoint, step or interrupt stop is released by the client only: whatever happens (in
    particular the release of the initial halt in a hybrid session), the target stays halted until the client resumes,
    detaches, or the connection changes. *)
Theorem gdb_stop_holds (e : event T) (es : list (event T)) (w w1 : world) :
  ok w -> e = Stopped \/ e = LibraryChange \/ e = Packet [3] -> run_event e w = Some w1 ->
  Forall event_ok es -> Forall (fun e => may_release e = false) es ->
  exists w', run_events es w1 = Some w' /\ halted (g_gdb w') = true /\ fc_gdb_stub_continue_initial_halt w' = w'.
Proof.
  intros Hw He Hr Hes Hrel.
  assert (ok w1 /\ real_stop w1) as [Hok Hstop].
  { destruct (event_spec e w Hw) as (w1' & Hr' & Hok & _); [by destruct He as [-> | [-> | ->]]|]. rewrite Hr in Hr'. injection Hr' as <-. split; [done|].
    assert (g_gdb w1 = g_gdb (stop_now w)) as Hg; [|unfold real_stop; by rewrite Hg].
    destruct He as [-> | [-> | ->]]; cbn [run_event] in Hr.
    - destruct (send_stop_spec I "swbreak:;" (stop_now w) (q_ok _ _ _ (quiet_stop I w Hw))) as (regs & Hs & _); [by left|].
      unfold fc_gdb_stub_notify_stopped, send_stop_with_regs in Hr. rewrite Hs in Hr. injection Hr as <-. apply (send_ok I), quiet_stop, Hw.
    - injection Hr as <-. apply (send_ok I), quiet_stop, Hw.
    - change (reply (text "T02thread:01;") (stop_now w) = Some w1) in Hr. injection Hr as <-. apply (send_ok I), quiet_stop, Hw. }
  destruct (run_events_spec es w1 Hok Hes) as (w' & Hr' & _ & Hs). destruct (Hs Hstop Hrel) as [H1 H2]. exists w'. split; [done|]. split; [done|].
  unfold fc_gdb_stub_continue_initial_halt. by rewrite H2, andb_false_r.
Qed.
End runs.

(** ** The breakpoint table against its specification *)

Section breakpoints.
Context {T : Type} (I : T -> Prop) (malloc_ok : Z -> bool).
Abbreviation world := (world T).
Abbreviation ok := (stub_ok I).

(** Insert ([true]) or remove a breakpoint. *)
Definition bp_packet (c : bool * Z) : list Z := text (if c.1 then "Z0," else "z0,") ++ hexx c.2 ++ text ",4".
Definition bp_apply (l : list Z) (c : bool * Z) : list Z :=
  if c.1 : bool then (if len l <? MAX_BREAKS then l ++ [c.2] else l) else filter (fun b => b <> c.2) l.
Fixpoint run_packets (ps : list (list Z)) (w : world) : option world :=
  match ps with [] => Some w | p :: ps => w ← fc_gdb_stub_process_pkt malloc_ok p w; run_packets ps w end.

Lemma len_live w : ok w -> len (live w) = n_breaks (g_gdb w).
Proof. intros Hw. pose proof (k_count _ _ Hw). pose proof (k_breaks _ _ Hw). unfold live, MAX_BREAKS in *. rewrite len_sub; lia. Qed.

Lemma parse_bp a : is_u32 a -> fst (parse_u32 (hexx a ++ text ",4")) = a.
Proof. intros Ha. by rewrite parse_hexx. Qed.

Lemma bp_packet_step c w : ok w -> is_u32 c.2 ->
  exists w' r, fc_gdb_stub_process_pkt malloc_ok (bp_packet c) w = Some w' /\ ok w' /\ live w' = bp_apply (live w) c /\ sent w' = sent w ++ [text r]
    /\ r = if c.1 && (len (live w) =? MAX_BREAKS) then "E01"%string else "OK"%string.
Proof.
  intros Hw Ha. destruct c as [ins a]. cbn [fst snd] in Ha. unfold bp_packet, bp_apply, fc_gdb_stub_process_pkt. cbn [fst snd]. destruct ins; cbn [andb].
  - rewrite dispatch_Z0. destruct (Z0_spec I (hexx a ++ text ",4") w Hw) as (out & w1 & -> & Hf & Hq & Hout). cbn [answer mbind option_bind].
    rewrite parse_bp in Hout by done. rewrite len_live by done. pose proof (k_count _ _ Hw). unfold MAX_BREAKS in *.
    destruct (send_ok I out w1 (q_ok _ _ _ Hq)) as (H1 & H2 & H3). rewrite (q_sent _ _ _ Hq) in H2.
    destruct (Z.eqb_spec (n_breaks (g_gdb w)) 128).
    + destruct Hout as [-> ->]. rewrite (proj2 (Z.ltb_ge _ _)) by lia. exists (send_response (text "E01") w), "E01"%string. split_and!; [done|done| |done|done].
      unfold live. by rewrite H3.
    + destruct Hout as (-> & Hl & _). rewrite (proj2 (Z.ltb_lt _ _)) by lia. exists (send_response (text "OK") w1), "OK"%string. split_and!; [done|done| |done|done].
      rewrite <-Hl. unfold live. by rewrite H3.
  - rewrite dispatch_z0. destruct (z0_spec I (hexx a ++ text ",4") w Hw) as (w1 & -> & Hq & Hl & _). cbn [answer mbind option_bind].
    rewrite parse_bp in Hl by done. destruct (send_ok I (text "OK") w1 (q_ok _ _ _ Hq)) as (H1 & H2 & H3). rewrite (q_sent _ _ _ Hq) in H2.
    exists (send_response (text "OK") w1), "OK"%string. split_and!; [done|done| |done|done]. rewrite <-Hl. unfold live. by rewrite H3.
Qed.

(** C17: The table of breakpoints refines a list: after any insertions and removals, the run loop sees a break
    at [pc] exactly when the specification holds it, and a disconnect empties the table. *)
Theorem gdb_breakpoints_refine (cs : list (bool * Z)) (w : world) (pc : Z) :
  ok w -> Forall (fun c => is_u32 c.2) cs ->
  exists w', run_packets (bp_packet <$> cs) w = Some w' /\ ok w'
    /\ fc_gdb_stub_check_break pc w' = Some (bool_decide (pc ∈ foldl bp_apply (live w) cs))
    /\ len (sent w') = len (sent w) + len cs
    /\ exists w'', fc_gdb_stub_set_has_client false w' = Some w'' /\ fc_gdb_stub_check_break pc w'' = Some false.
Proof.
  intros Hw Hcs. assert (exists w', run_packets (bp_packet <$> cs) w = Some w' /\ ok w' /\ live w' = foldl bp_apply (live w) cs /\ len (sent w') = len (sent w) + len cs)
    as (w' & Hr & Hok & Hl & Hs).
  { revert w Hw; induction Hcs as [|c cs Hc _ IH]; intros w Hw; [exists w; split_and!; [done..|change (len (@nil (bool * Z))) with 0; lia]|].
    rewrite fmap_cons. cbn [run_packets foldl]. destruct (bp_packet_step c w Hw Hc) as (w1 & r & -> & Hok & Hl & Hs & _). cbn [mbind option_bind].
    destruct (IH w1 Hok) as (w' & Hr & Hok' & Hl' & Hs'). exists w'. rewrite Hl', Hl, Hs', Hs, len_app, (len_cons c). split_and!; [done..|].
    change (len [text r]) with 1. lia. }
  exists w'. split; [done|]. split; [done|]. split; [rewrite (check_break_spec I) by done; by rewrite Hl|]. split; [done|].
  destruct (disconnect_spec I w' Hok) as (w'' & Hd & Hok'' & _ & Hl'' & _). exists w''. split; [done|]. rewrite (check_break_spec I) by done. by rewrite Hl''.
Qed.
End breakpoints.

(** ** Documents in chunks *)

Section transfer.
Context {T : Type} (I : T -> Prop).
Abbreviation world := (world T).
Abbreviation ok := (stub_ok I).

(** What a client does: read chunks until one is marked as the last. *)
Fixpoint fetch {W} (fuel : nat) (read : Z -> W -> option (list Z * W)) (off : Z) (acc : list Z) (w : W) : option (list Z * W) :=
  match fuel with
  | O => None
  | S fuel =>
      '(out, w) ← read off w;
      match out with
      | c :: data => if c =? 109 then fetch fuel read (off + len data) (acc ++ data) w
                     else if c =? 108 then Some (acc ++ data, w) else None
      | [] => None
      end
  end.
Definition span_args (l off : Z) : list Z := text ":" ++ hexx off ++ text "," ++ hexx l.
Definition read_libraries (l off : Z) (w : world) : option (list Z * world) := handle_qXfer_libraries (span_args l off) w.
Definition read_exec_file (l off : Z) (w : world) : option (list Z * world) := out ← handle_qXfer_exec_file (span_args l off) w; Some (out, w).

Lemma off_len_span l off : is_u32 l -> is_u32 off -> off_len (span_args l off) = Some (off, l).
Proof.
  intros Hl Ho. unfold off_len, span_args. change (text ":") with [58]. cbn [app strchr]. cbn [Z.eqb Pos.eqb mbind option_bind].
  rewrite parse_hexx by done. change (text "," ++ hexx l) with (44 :: hexx l). cbn [Z.eqb Pos.eqb]. pose proof (parse_hexx l [] Hl ltac:(done)) as Hp. rewrite app_nil_r in Hp. by rewrite Hp.
Qed.

Lemma chunk_exact doc rest off l :
  len doc < 2 ^ 31 -> 0 <= off <= len doc -> 1 <= l <= 65534 ->
  chunk (doc ++ rest) (len doc) off l
  = Some (if off + l <? len doc then 109 :: sub doc off l else 108 :: sub doc off (len doc - off)).
Proof.
  intros Hn Ho Hl. unfold chunk. destruct (off >=? len doc) eqn:E.
  { rewrite (proj2 (Z.ltb_ge _ _)) by lia. replace (len doc - off) with 0 by lia. done. }
  set (l' := if l >? len doc - off then len doc - off else l).
  assert (l' = if off + l <? len doc then l else len doc - off) as Hl'.
  { unfold l'. destruct (l >? len doc - off) eqn:E1, (off + l <? len doc) eqn:E2; lia. }
  assert (1 <= l' <= l /\ off + l' <= len doc) as [Hb1 Hb2] by (rewrite Hl'; destruct (off + l <? len doc) eqn:E2; lia).
  rewrite (proj2 (Z.ltb_ge MAX_PACKET _)) by (unfold MAX_PACKET; lia).
  rewrite rd_Some by (rewrite ?len_app; pose proof (len_nonneg rest); lia). cbn [mbind option_bind]. rewrite sub_app_l by lia.
  rewrite u32_id by (unfold is_u32; lia). clearbody l'. subst l'.
  destruct (Z.ltb_spec (off + l) (len doc)) as [Hlt|Hge].
  - destruct (off + l >=? len doc) eqn:E1; [lia|done].
  - destruct (off + (len doc - off) >=? len doc) eqn:E1; [done|lia].
Qed.

(** Any reader that answers like [chunk] on a document hands it over whole. *)
Lemma fetch_spec {W} (read : Z -> W -> option (list Z * W)) doc rest l (Inv : W -> Prop) fuel off acc w :
  len doc < 2 ^ 31 -> 1 <= l <= 65534 ->
  (forall off w, Inv w -> 0 < off <= len doc -> exists w', read off w = ((fun out => (out, w')) <$> chunk (doc ++ rest) (len doc) off l) /\ w' = w) ->
  Inv w -> 0 < off <= len doc -> len doc - off < Z.of_nat fuel -> fetch fuel read off acc w = Some (acc ++ sub doc off (len doc - off), w).
Proof.
  intros Hn Hl Hread Hw. revert off acc; induction fuel as [|fuel IH]; intros off acc Ho Hf; [lia|]. cbn [fetch].
  destruct (Hread off w Hw Ho) as (w' & -> & ->). rewrite chunk_exact by lia. cbn [fmap option_fmap option_map mbind option_bind].
  destruct (Z.ltb_spec (off + l) (len doc)) as [Hlt|Hge]; cbn [Z.eqb Pos.eqb]; [|done].
  rewrite len_sub by lia. rewrite IH by lia. rewrite <-app_assoc. do 3 f_equal. apply list_eq_zget.
  { rewrite len_app, !len_sub by lia. lia. }
  rewrite len_app, !len_sub by lia. intros j Hj. destruct (decide (j < l)).
  - rewrite zget_app_l by (rewrite len_sub; lia). by rewrite !zget_sub by lia.
  - rewrite zget_app_r by (rewrite len_sub; lia). rewrite len_sub, !zget_sub by lia. f_equal. lia.
Qed.

Lemma fetch_whole {W} (read : Z -> W -> option (list Z * W)) doc rest l fuel w w1 :
  len doc < 2 ^ 31 -> 1 <= l <= 65534 -> len doc < Z.of_nat fuel ->
  read 0 w = ((fun out => (out, w1)) <$> chunk (doc ++ rest) (len doc) 0 l) ->
  (forall off, 0 < off <= len doc -> read off w1 = ((fun out => (out, w1)) <$> chunk (doc ++ rest) (len doc) off l)) ->
  fetch fuel read 0 [] w = Some (doc, w1).
Proof.
  intros Hn Hl Hf H0 Hread. pose proof (len_nonneg doc). destruct fuel as [|fuel]; [lia|]. cbn [fetch]. rewrite H0, chunk_exact by lia.
  cbn [fmap option_fmap option_map mbind option_bind]. destruct (Z.ltb_spec (0 + l) (len doc)) as [Hlt|Hge]; cbn [Z.eqb Pos.eqb].
  - rewrite len_sub by lia. rewrite (fetch_spec read doc rest l (fun w => w = w1)); [|done|done| |done|lia|lia].
    + cbn [app]. do 2 f_equal. apply list_eq_zget; [rewrite len_app, !len_sub by lia; lia|]. rewrite len_app, !len_sub by lia. intros j Hj.
      destruct (decide (j < l)).
      * rewrite zget_app_l by (rewrite len_sub; lia). by rewrite zget_sub by lia.
      * rewrite zget_app_r by (rewrite len_sub; lia). rewrite len_sub, zget_sub by lia. f_equal. lia.
    + intros off w' -> Ho. exists w1. split; [by apply Hread|done].
  - cbn [app]. rewrite Z.sub_0_r, sub_0_all. done.
Qed.

(** The client gets the library list and the path of the executable whole, whatever the size of the chunks it asks
    for; reading the list counts as exactly one fetch of it. *)
Theorem gdb_documents_transfer (fuel : nat) (l : Z) (w : world) :
  ok w -> 1 <= l <= 65534 -> 8192 <= Z.of_nat fuel ->
  fetch fuel (read_libraries l) 0 [] w = Some (library_document w, with_g bump_fetch w)
  /\ fetch fuel (read_exec_file l) 0 [] w = Some (default [] (exec_path (layout (g_gdb w))), w).
Proof.
  intros Hw Hl Hfuel. assert (is_u32 l) as Hl32 by (unfold is_u32; lia). split.
  - destruct (lib_list_spec w (k_layout _ _ Hw)) as (Hdoc & Hlen & _).
    assert (forall w', lib_list w' = Some (library_document w) -> forall off, 0 <= off <= len (library_document w) ->
      read_libraries l off w' = ((fun out => (out, if off =? 0 then with_g bump_fetch w' else w')) <$> chunk (library_document w ++ [0]) (len (library_document w)) off l)) as Hr.
    { intros w' Hdoc' off Ho. unfold read_libraries, handle_qXfer_libraries. rewrite off_len_span by (unfold is_u32; lia).
      assert (lib_list (if off =? 0 then with_g bump_fetch w' else w') = Some (library_document w)) as ->; [rewrite <-Hdoc'; by destruct (off =? 0)|].
      cbn [mbind option_bind]. assert (buffer_text 8192 (library_document w) = library_document w) as ->.
      { unfold buffer_text. apply take_ge. unfold len in Hlen. lia. }
      by destruct (chunk _ _ _ _). }
    apply (fetch_whole _ _ [0] l); [lia|done|lia| |].
    + pose proof (len_nonneg (library_document w)). rewrite Hr; [done|done|lia].
    + intros off Ho. rewrite Hr; [by rewrite (proj2 (Z.eqb_neq off 0)) by lia|done|lia].
  - destruct (k_layout _ _ Hw) as (_ & Hlen & _). set (doc := default [] (exec_path (layout (g_gdb w)))) in *.
    assert (forall off, 0 <= off <= len doc -> read_exec_file l off w = ((fun out => (out, w)) <$> chunk (doc ++ [0]) (len doc) off l)) as Hr.
    { intros off Ho. unfold read_exec_file, handle_qXfer_exec_file. rewrite off_len_span by (unfold is_u32; lia). fold doc. by destruct (chunk _ _ _ _). }
    apply (fetch_whole _ _ [0] l); [lia|done|lia| |]; [apply Hr; pose proof (len_nonneg doc); lia|intros off Ho; apply Hr; lia].
Qed.
End transfer.
