(* ===== verification/GdbDebug.v ===== *)
(** * GdbDebug: the stub on the guest

    The operations of [cart_run.c] meet the stub's contract; what the client reads and writes is
    the guest; and breakpoints are invisible to the program: whatever the client sets and clears, the
    instructions behind the breakpoints stay, and a disconnect puts them all back. *)

From S2P Require Import Prelude RunCtx ResourceTable ResourceTheorems Ecall GdbTarget ElfSection Save SaveTheorems ResourceIndex GdbStub GdbStubSpec GdbPackets GdbTheorems.
From Stdlib Require Import ZArith Lia Strings.String.
From stdpp Require Import base tactics list.
Open Scope Z_scope.

(** ** The guest meets the contract *)

Section guest.
Context {R M : Type} `{RegFile R} `{GuestMemory M} `{!CheckedMemory M}.
Abbreviation target := (gdb_target R M).
Abbreviation session := (option target).

Definition gdb_cpu_ops : fc_gdb_cpu_ops_t session :=
  MkOps (Some (fun s : session => gdb_read_regs s)) (Some (fun s : session => gdb_write_regs s)) (Some (fun s : session => gdb_read_mem s))
    (Some (fun s : session => gdb_write_mem s)) (Some (fun s : session => gdb_set_bp s)) (Some (fun s : session => gdb_clear_bp s)).

(** A session is being debugged; its memory holds bytes. *)
Definition debugged (s : session) : Prop :=
  exists t, s = Some t /\ ram_size (t_mem t) < 2 ^ 32 /\ forall x, is_u8 (byte_at (t_mem t) x).

Lemma u32_le_bytes v : bytes_ok (write_u32_le v).
Proof. unfold write_u32_le. repeat constructor; apply u8_range. Qed.

Lemma read_regs_len (t : target) : exists regs, gdb_read_regs (Some t) = Some regs /\ len regs = 132 /\ bytes_ok regs.
Proof.
  eexists. split; [reflexivity|]. split.
  - rewrite len_app, len_write_u32_le.
    assert (forall l, len (concat ((fun i => write_u32_le (rv_get_reg (t_rv t) i)) <$> l)) = 4 * len l) as Hl.
    { induction l as [|i l IH]; [done|]. rewrite fmap_cons. cbn [concat]. rewrite len_app, IH, len_write_u32_le, len_cons. lia. }
    rewrite Hl. done.
  - apply Forall_app; split; [|apply u32_le_bytes]. generalize (seqZ 0 32). induction l as [|i l IH]; [constructor|].
    rewrite fmap_cons. cbn [concat]. apply Forall_app; split; [apply u32_le_bytes|done].
Qed.

Lemma write_regs_mem k i inp (m : machine R M) : rv_mem (write_regs_loop k i inp m) = rv_mem m.
Proof. revert i m; induction k as [|k IH]; intros i m; cbn [write_regs_loop]; [done|]. by rewrite IH. Qed.

Lemma write_mem_debugged (s : session) addr src : debugged s -> bytes_ok src -> debugged (snd (gdb_write_mem s addr src)).
Proof.
  intros (t & -> & Hr & Hb) Hsrc. unfold gdb_write_mem. destruct (write_ok _ _ _) eqn:E; cbn [negb snd]; [|by exists t].
  apply write_ok_iff in E as [E1 E2]. eexists. split; [reflexivity|]. cbn. rewrite memory_write_size. split; [done|]. intros x. by apply byte_write_u8.
Qed.

Lemma flagged_debugged (f : target -> target) s : (forall t, t_mem (f t) = t_mem t) -> debugged s -> debugged (f <$> s).
Proof. intros Hf (t & -> & Hr & Hb). exists (f t). split; [done|]. by rewrite Hf. Qed.

Lemma write_regs_debugged (s : session) regs : debugged s -> debugged (gdb_write_regs s regs).
Proof.
  unfold gdb_write_regs. generalize 32%nat. intros k. apply flagged_debugged. intros t. exact (write_regs_mem k 0 regs (t_rv t)).
Qed.
Lemma set_bp_debugged (s : session) a : debugged s -> debugged (snd (gdb_set_bp s a)).
Proof.
  intros Hs. unfold gdb_set_bp. destruct s as [t|]; [|exact Hs]. cond E1; [exact Hs|]. cond E2; [exact Hs|]. clear E1 E2. generalize (read_u32_le (gdb_read_mem (Some t) a 4)). intros w.
  fold (patch w). pose proof (write_mem_debugged (Some t) a (patch w) Hs (bytes_patch w)) as Hw. destruct (gdb_write_mem _ _ _) as [n s']. cond E; [exact Hw|].
  exact (flagged_debugged (add_bp a w) s' (fun _ => eq_refl) Hw).
Qed.
Lemma clear_bp_debugged (s : session) a : debugged s -> debugged (snd (gdb_clear_bp s a)).
Proof.
  intros Hs. unfold gdb_clear_bp. destruct s as [t|]; [|exact Hs]. destruct (list_find _ _) as [[i [b w]]|]; [|exact Hs].
  generalize (if is_compressed w then 2%nat else 4%nat). intros k. assert (bytes_ok (take k (write_u32_le w))) as Hbs by (apply Forall_take, u32_le_bytes).
  pose proof (write_mem_debugged (Some t) a _ Hs Hbs) as Hw. destruct (gdb_write_mem _ _ _) as [n s']. exact (flagged_debugged (drop_bp i) s' (fun _ => eq_refl) Hw).
Qed.
Lemma read_mem_debugged (s : session) a n : debugged s -> is_u32 a -> is_u32 n -> len (gdb_read_mem s a n) <= n /\ bytes_ok (gdb_read_mem s a n).
Proof.
  intros (t & -> & Hr & Hb) Ha [Hn0 Hn1]. rewrite gdb_read_mem_spec by done.
  assert (0 <= Z.max 0 (Z.min n (ram_size (t_mem t) - a)) <= n) as [H1 H2] by lia. rewrite memory_read_len by done.
  split; [done|]. by apply bytes_read.
Qed.

Lemma gdb_contract : target_contract debugged gdb_cpu_ops.
Proof.
  constructor.
  - intros rd s [= <-] (t & -> & _). apply read_regs_len.
  - intros wr s regs [= <-] Hs _ _. by apply write_regs_debugged.
  - by eexists.
  - intros rd s a n [= <-] Hs Ha Hn. by apply read_mem_debugged.
  - intros wr s a bs [= <-] Hs _ Hbs. by apply write_mem_debugged.
  - intros set s a [= <-] Hs _. by apply set_bp_debugged.
  - intros clr s a [= <-] Hs _. by apply clear_bp_debugged.
Qed.
End guest.

(** ** Breakpoints are invisible to the program *)

Section transparent.
Context {R M : Type} `{RegFile R} `{GuestMemory M} `{!CheckedMemory M} (malloc_ok : Z -> bool) (code : Z -> Prop).
Abbreviation target := (gdb_target R M).
Abbreviation session := (option target).
Abbreviation world := (GdbStub.world session).

(** The stub on a session: each patched breakpoint is in the stub's table. *)
Record debugging (w : world) (t : target) : Prop := MkDebugging {
  d_stub : stub_ok debugged w;
  d_cpu : cpu w = Some t;
  d_ops : ops (g_gdb w) = gdb_cpu_ops;
  d_patched : patched t;
  d_table : forall e, e ∈ gdb_bps t -> e.1 ∈ live w
}.

(** What is asked of the client and of the guest.  A breakpoint is set on an instruction that no other breakpoint covers;
    memory is not written under the program; the guest does not write its code. *)
Definition insertable (t : target) (a : Z) : Prop := room t a = true -> uncovered t a.
Definition legal (e : event session) (t : target) : Prop :=
  match e with
  | Packet p | Poll (Some p) => first_is 77 p = false /\ (starts "Z0," p = true -> insertable t (fst (parse_u32 (drop 3 p))))
  | SetLayout l libs => layout_ok l libs
  | RestoreTemp a => is_u32 a
  | Repatch a => is_u32 a /\ insertable t a
  | GuestRuns c => exists t', c = Some t' /\ patched t' /\ gdb_bps t' = gdb_bps t /\ forall x, code x -> program t' x = program t x
  | _ => True
  end.
Fixpoint legal_run (es : list (event session)) (w : world) : Prop :=
  match es with
  | [] => True
  | e :: es => (forall t, cpu w = Some t -> legal e t) /\ (forall w', run_event malloc_ok e w = Some w' -> legal_run es w')
  end.

(** One target after another, the program behind the breakpoints being the same. *)
Definition keeps (t t' : target) : Prop := patched t' /\ forall x, program t' x = program t x.

Lemma keeps_refl (t : target) : patched t -> keeps t t.
Proof. done. Qed.
Lemma keeps_trans (t1 t2 t3 : target) : keeps t1 t2 -> keeps t2 t3 -> keeps t1 t3.
Proof. intros [_ H1] [Hp H2]. split; [done|]. intros x. by rewrite H2. Qed.
Lemma patched_debugged (t : target) : patched t -> debugged (Some t).
Proof. intros Hp. exists t. split; [done|]. split; [exact (p_ram _ Hp)|exact (p_bytes _ Hp)]. Qed.

Lemma set_keeps (t : target) a : patched t -> is_u32 a -> insertable t a ->
  exists t', snd (gdb_set_bp (Some t) a) = Some t' /\ keeps t t' /\ forall e, e ∈ gdb_bps t' -> e ∈ gdb_bps t \/ e.1 = a.
Proof.
  intros Hp Ha Hf. rewrite set_bp_spec by done. destruct (room t a) eqn:Er; cbn [snd]; [|exists t; auto using keeps_refl].
  eexists. split; [reflexivity|]. split; [apply (set_bp_keeps t a); auto|].
  intros e [He|He%list_elem_of_singleton]%elem_of_app; [by left|right; by subst e].
Qed.

Lemma clear_keeps (t : target) a : patched t ->
  exists t', snd (gdb_clear_bp (Some t) a) = Some t' /\ keeps t t' /\ forall e, e ∈ gdb_bps t' <-> e ∈ gdb_bps t /\ e.1 <> a.
Proof.
  intros Hp. pose proof (clear_bp_spec t a Hp) as Hs. destruct (list_find _ _) as [[i [b w]]|] eqn:Hl.
  - destruct Hs as [-> Hs]. rewrite Hs. cbn [snd]. apply list_find_Some in Hl as (Hi & _). eexists. split; [reflexivity|].
    destruct (clear_bp_keeps t i a w _ Hp Hi eq_refl) as (H1 & H2 & H3). by split.
  - rewrite Hs. cbn [snd]. exists t. split; [done|]. split; [by apply keeps_refl|]. intros e. split; [|tauto]. intros He. split; [done|].
    apply list_find_None in Hl. rewrite Forall_forall in Hl. exact (Hl e He).
Qed.

Lemma clear_loop_keeps l (t : target) : patched t ->
  exists t', clear_loop l gdb_clear_bp (Some t) = Some t' /\ keeps t t' /\ forall e, e ∈ gdb_bps t' <-> e ∈ gdb_bps t /\ e.1 ∉ l.
Proof.
  revert t; induction l as [|a l IH]; intros t Hp; cbn [clear_loop].
  { exists t. split; [done|]. split; [by apply keeps_refl|]. intros e. split; [|tauto]. intros He. split; [done|]. by intros ?%elem_of_nil. }
  destruct (clear_keeps t a Hp) as (t1 & -> & Hk & He1). destruct (IH t1 (proj1 Hk)) as (t' & Hr & Hk' & He').
  exists t'. split; [done|]. split; [by eapply keeps_trans|]. intros e. rewrite He', He1, not_elem_of_cons. tauto.
Qed.

Lemma same_mem_keeps (t t' : target) : t_mem t' = t_mem t -> gdb_bps t' = gdb_bps t -> patched t -> keeps t t'.
Proof.
  intros Hm Hb Hp. split.
  - destruct Hp. constructor; rewrite ?Hm, ?Hb; done.
  - intros x. unfold program. by rewrite Hm, Hb.
Qed.
Lemma regs_keep (t : target) k regs :
  patched t -> keeps t (on_machine (fun m => set_pc (reg_word regs 32) (write_regs_loop k 0 regs m)) t).
Proof. apply same_mem_keeps; [exact (write_regs_mem k 0 regs (t_rv t))|done]. Qed.
Lemma write_regs_keeps (t : target) regs : patched t -> exists t', gdb_write_regs (Some t) regs = Some t' /\ keeps t t' /\ gdb_bps t' = gdb_bps t.
Proof. intros Hp. unfold gdb_write_regs. eexists. split; [reflexivity|]. split; [by apply regs_keep|reflexivity]. Qed.

Lemma cpu_set_guest (w : world) a : ops (g_gdb w) = gdb_cpu_ops -> cpu_set w a = snd (gdb_set_bp (cpu w) a).
Proof. unfold cpu_set. by intros ->. Qed.
Lemma cpu_clear_guest (w : world) a : ops (g_gdb w) = gdb_cpu_ops -> cpu_clear w a = snd (gdb_clear_bp (cpu w) a).
Proof. unfold cpu_clear. by intros ->. Qed.

(** The target moved on with the stub's table unchanged, or grown by the address set, or shrunk with the session's. *)
Lemma debugging_set (w w' : world) t a :
  debugging w t -> stub_ok debugged w' -> ops (g_gdb w') = ops (g_gdb w) -> is_u32 a -> insertable t a ->
  cpu w' = cpu_set w a -> (forall b, b ∈ live w -> b ∈ live w') -> a ∈ live w' -> exists t', debugging w' t' /\ keeps t t'.
Proof.
  intros [_ Hc Ho Hp Ht] Hok Ho' Ha Hf Hc' Hl Hin. destruct (set_keeps t a Hp Ha Hf) as (t' & Hs & Hk & He). exists t'. split; [|done].
  constructor; [done| |congruence|apply Hk|].
  - by rewrite Hc', cpu_set_guest, Hc, Hs.
  - intros e [Hin'| ->]%He; [by apply Hl, Ht|done].
Qed.
Lemma debugging_clear (w w' : world) t a :
  debugging w t -> stub_ok debugged w' -> ops (g_gdb w') = ops (g_gdb w) -> cpu w' = cpu_clear w a ->
  (forall b, b ∈ live w -> b <> a -> b ∈ live w') -> exists t', debugging w' t' /\ keeps t t'.
Proof.
  intros [_ Hc Ho Hp Ht] Hok Ho' Hc' Hl. destruct (clear_keeps t a Hp) as (t' & Hs & Hk & He). exists t'. split; [|done].
  constructor; [done| |congruence|apply Hk|].
  - by rewrite Hc', cpu_clear_guest, Hc, Hs.
  - intros e [Hin Hne]%He. apply Hl; [by apply Ht|done].
Qed.
Lemma debugging_same (w w' : world) t t' :
  debugging w t -> stub_ok debugged w' -> ops (g_gdb w') = ops (g_gdb w) -> cpu w' = Some t' -> keeps t t' -> gdb_bps t' = gdb_bps t ->
  (forall b, b ∈ live w -> b ∈ live w') -> exists t', debugging w' t' /\ keeps t t'.
Proof.
  intros [_ Hc Ho Hp Ht] Hok Ho' Hc' Hk Hb Hl. exists t'. split; [|done]. constructor; [done|done|congruence|apply Hk|].
  intros e. rewrite Hb. intros He. by apply Hl, Ht.
Qed.
Lemma debugging_flags (w w' : world) t :
  debugging w t -> stub_ok debugged w' -> ops (g_gdb w') = ops (g_gdb w) -> cpu w' = cpu w -> live w' = live w -> exists t', debugging w' t' /\ keeps t t'.
Proof.
  intros Hd Hok Ho Hc Hl. pose proof (d_patched _ _ Hd). apply (debugging_same w w' t t); try done; [rewrite Hc; exact (d_cpu _ _ Hd)|by rewrite Hl].
Qed.
(** Everything cleared. *)
Lemma debugging_all (w w' : world) t :
  debugging w t -> stub_ok debugged w' -> ops (g_gdb w') = ops (g_gdb w) -> cpu w' = cpu_clear_all w -> exists t', debugging w' t' /\ keeps t t' /\ gdb_bps t' = [].
Proof.
  intros [_ Hc Ho Hp Ht] Hok Ho' Hc'. destruct (clear_loop_keeps (live w) t Hp) as (t' & Hs & Hk & He).
  assert (gdb_bps t' = []) as Hb. { apply elem_of_nil_inv. intros e [Hin Hne]%He. by apply Hne, Ht. }
  exists t'. split; [|done]. constructor; [done| |congruence|apply Hk|].
  - rewrite Hc'. unfold cpu_clear_all. rewrite Ho, Hc. exact Hs.
  - rewrite Hb. by intros e ?%elem_of_nil.
Qed.

Lemma packet_debugging p (w w' : world) t :
  debugging w t -> first_is 77 p = false -> (starts "Z0," p = true -> insertable t (fst (parse_u32 (drop 3 p)))) ->
  handle_packet malloc_ok p w = Some w' -> stub_ok debugged w' -> exists t', debugging w' t' /\ keeps t t'.
Proof.
  intros Hd Hm Hz Hr Hok. pose proof (d_patched _ _ Hd) as Hp. pose proof (d_cpu _ _ Hd) as Hcpu.
  destruct (packet_effects debugged malloc_ok p w w' (d_stub _ _ Hd) Hr) as [[= Ho _ _] Heff]. destruct Heff as [Hc Hl|wr regs Hwr Hc Hl|Hx|a Hs -> _ Hl Hc|a _ Hl Hc|Hl Hc].
  - apply (debugging_same w w' t t); try done; [by rewrite Hc|by rewrite Hl].
  - destruct (write_regs_keeps t regs Hp) as (t' & Hw & Hk & Hb). apply (debugging_same w w' t t'); try done; [|by rewrite Hl].
    rewrite (d_ops _ _ Hd) in Hwr. injection Hwr as <-. by rewrite Hc, Hcpu.
  - congruence.
  - apply (debugging_set w w' t (fst (parse_u32 (drop 3 p)))); try done; [apply parse_u32_fst|by apply Hz| |].
    + rewrite Hl. intros b Hb. apply elem_of_app. by left.
    + rewrite Hl. apply elem_of_app. right. by left.
  - case_bool_decide as Hin.
    + apply (debugging_clear w w' t a); try done. rewrite Hl. intros b Hb Hne. by apply list_elem_of_filter.
    + apply (debugging_same w w' t t); try done; [by rewrite Hc|]. rewrite Hl, filter_absent by done. done.
  - destruct (debugging_all w w' t Hd Hok Ho Hc) as (t' & H1 & H2 & _). by exists t'.
Qed.

Lemma client_gone (w : world) t : debugging w t ->
  exists w' t', fc_gdb_stub_set_has_client false w = Some w' /\ debugging w' t' /\ keeps t t' /\ gdb_bps t' = [].
Proof.
  intros Hd. destruct (disconnect_spec debugged w (d_stub _ _ Hd)) as (w' & Hr & Hok & _ & Hl & Hc & _).
  assert (ops (g_gdb w') = ops (g_gdb w)) as Ho.
  { revert Hr. unfold fc_gdb_stub_set_has_client, clear_all_breakpoints. cbn [negb].
    destruct (clear_breakpoint _); [destruct (rd _ _ _); [|done]|]; cbn [mbind option_bind]; by intros [= <-]. }
  destruct (debugging_all w w' t Hd Hok Ho Hc) as (t' & H1 & H2 & H3). by exists w', t'.
Qed.

Lemma legal_step e (w : world) t : debugging w t -> legal e t ->
  exists w' t', run_event malloc_ok e w = Some w' /\ debugging w' t' /\ (forall x, code x -> program t' x = program t x).
Proof.
  intros Hd Hl. pose proof (d_stub _ _ Hd) as Hok. assert (event_ok debugged e) as He.
  { destruct e; cbn in Hl |- *; try done; [apply Hl|]. destruct Hl as (t' & -> & Hp & _). by apply patched_debugged. }
  destruct (event_spec debugged malloc_ok e w Hok He) as (w' & Hr & Hok' & _).
  assert (forall t', debugging w' t' /\ keeps t t' -> exists w'' t', run_event malloc_ok e w = Some w'' /\ debugging w'' t' /\ (forall x, code x -> program t' x = program t x)) as Hdone.
  { intros t' [H1 [_ H2]]. exists w', t'. auto. }
  destruct e; cbn [legal] in Hl.
  - destruct Hl as [H1 H2]. destruct (packet_debugging pkt w w' t) as [t' Ht']; eauto.
  - cbn [run_event] in Hr. unfold fc_gdb_stub_poll in Hr. destruct pkt as [p|].
    + destruct Hl as [H1 H2]. destruct (transport _); [destruct (packet_debugging p w w' t) as [t' Ht']; eauto|]. injection Hr as <-. eauto using keeps_refl, d_patched.
    + destruct (transport _); injection Hr as <-; eauto using keeps_refl, d_patched.
  - destruct val.
    + injection Hr as <-. destruct (debugging_flags w _ t Hd Hok' eq_refl eq_refl eq_refl) as [t' Ht']. eauto.
    + destruct (client_gone w t Hd) as (w'' & t' & Hr' & H1 & H2 & _). cbn [run_event] in Hr. rewrite Hr in Hr'. injection Hr' as <-. eauto.
  - injection Hr as <-. destruct (debugging_flags w _ t Hd Hok' eq_refl eq_refl eq_refl) as [t' Ht']. eauto.
  - injection Hr as <-. destruct (debugging_flags w _ t Hd Hok' eq_refl eq_refl eq_refl) as [t' Ht']. eauto.
  - cbn [run_event] in Hr. destruct (send_stop_spec debugged "swbreak:;" (stop_now w) (q_ok _ _ _ (quiet_stop debugged w Hok))) as (regs & Hs & _); [by left|].
    unfold fc_gdb_stub_notify_stopped, send_stop_with_regs in Hr. rewrite Hs in Hr. injection Hr as <-.
    destruct (send_effect (stop_reply "swbreak:;" regs) (stop_now w)) as [Hc Hg].
    destruct (debugging_flags w _ t Hd Hok') as [t' Ht']; [by rewrite Hg|by rewrite Hc|by rewrite (live_g _ _ Hg)|]. eauto.
  - injection Hr as <-. destruct (send_effect (text "T05library:;thread:01;") (stop_now w)) as [Hc Hg].
    unfold fc_gdb_stub_notify_library_change in *.
    destruct (debugging_flags w _ t Hd Hok') as [t' Ht']; [by rewrite Hg|by rewrite Hc|by rewrite (live_g _ _ Hg)|]. eauto.
  - injection Hr as <-.
    destruct (debugging_flags w _ t Hd Hok') as [t' Ht']; [unfold fc_gdb_stub_continue_initial_halt; by destruct (_ && _)..|]. eauto.
  - injection Hr as <-. destruct (debugging_clear w (fc_gdb_stub_restore_bp_temp addr w) t addr) as [t' Ht']; rewrite ?restore_spec; eauto.
    by rewrite restore_spec in Hok'.
  - cbn [run_event] in Hr. rewrite (repatch_spec debugged) in Hr by done. destruct Hl as [Ha Hf]. injection Hr as <-. case_bool_decide as Hin.
    + destruct (debugging_set w (with_cpu (cpu_set w addr) w) t addr) as [t' Ht']; eauto.
    + eauto using keeps_refl, d_patched.
  - destruct Hl as (t' & -> & Hp & Hb & Hx). injection Hr as <-. exists (with_cpu (Some t') w), t'. split; [done|]. split; [|done].
    constructor; try done; [exact (d_ops _ _ Hd)|]. rewrite Hb. exact (d_table _ _ Hd).
Qed.

(** C15: Debugging does not change the program.  For any run of packets (insertions, removals, register writes, interrupts,
    resumptions, detaching, garbage), connection changes, stops and step-overs, in any order, the
    code with the breakpoints taken out stays as it was; and when the client goes, the session has no
    breakpoint left and the memory holds exactly that code. *)
Theorem gdb_debug_transparent (es : list (event session)) (w : world) (t : target) :
  debugging w t -> legal_run es w ->
  exists w' t', run_events malloc_ok es w = Some w' /\ debugging w' t' /\ (forall x, code x -> program t' x = program t x)
    /\ exists w'' t'', fc_gdb_stub_set_has_client false w' = Some w'' /\ cpu w'' = Some t'' /\ gdb_bps t'' = []
         /\ (forall x, code x -> byte_at (t_mem t'') x = program t x).
Proof.
  intros Hd Hl. assert (exists w' t', run_events malloc_ok es w = Some w' /\ debugging w' t' /\ (forall x, code x -> program t' x = program t x)) as (w' & t' & Hr & Hd' & Hx).
  { revert w t Hd Hl; induction es as [|e es IH]; intros w t Hd Hl; cbn [run_events]; [by exists w, t|]. destruct Hl as [Hl Hrest].
    destruct (legal_step e w t Hd (Hl t (d_cpu _ _ Hd))) as (w1 & t1 & Hr1 & Hd1 & Hx1). rewrite Hr1. cbn [mbind option_bind].
    destruct (IH w1 t1 Hd1 (Hrest w1 Hr1)) as (w' & t' & Hr & Hd' & Hx). exists w', t'. split; [done|]. split; [done|]. intros x Hc. by rewrite Hx, Hx1. }
  exists w', t'. split; [done|]. split; [done|]. split; [done|]. destruct (client_gone w' t' Hd') as (w'' & t'' & Hr'' & Hd'' & [_ Hk] & Hb).
  exists w'', t''. split; [done|]. split; [exact (d_cpu _ _ Hd'')|]. split; [done|]. intros x Hc. by rewrite <-(program_plain t'' x Hb), Hk, Hx.
Qed.
End transparent.

(** ** What the client writes is what it reads *)

Section roundtrip.
Context {R M : Type} `{RegFile R} `{GuestMemory M} `{!CheckedMemory M} (malloc_ok : Z -> bool).
Abbreviation target := (gdb_target R M).
Abbreviation session := (option target).
Abbreviation world := (GdbStub.world session).

Definition M_packet (addr : Z) (bs : list Z) : list Z := text "M" ++ hexx addr ++ text "," ++ hexx (len bs) ++ text ":" ++ hex_encode bs.
Definition m_packet (addr n : Z) : list Z := text "m" ++ hexx addr ++ text "," ++ hexx n.
Definition G_packet (regs : list Z) : list Z := text "G" ++ hex_encode regs.

Lemma write_regs_get k i inp (m : machine R M) r :
  0 <= i -> bytes_ok inp -> len inp = 132 -> i + Z.of_nat k <= 32 -> 0 < r < 32 ->
  rv_get_reg (write_regs_loop k i inp m) r = if (i <=? r) && (r <? i + Z.of_nat k) then reg_word inp r else rv_get_reg m r.
Proof.
  intros Hi Hb Hl. revert i m Hi; induction k as [|k IH]; intros i m Hi Hk Hr; cbn [write_regs_loop].
  { destruct (_ && _) eqn:E; [lia|done]. }
  rewrite IH by lia. unfold rv_set_reg, rv_get_reg. cbn [xregs].
  assert (is_u32 (reg_word inp i)) as Hu by (apply write_read_u32_le; [by apply Forall_sub|rewrite len_sub; lia]).
  destruct (Z.eq_dec i r) as [->|Hne].
  - rewrite (proj2 (andb_false_iff _ _)) by lia. rewrite (proj2 (andb_true_iff _ _)) by lia. apply rv_reg_put; [done|exact Hu].
  - rewrite rv_reg_put_ne by done. destruct (_ && _) eqn:E1, ((i <=? r) && _) eqn:E2; (done || lia).
Qed.
Lemma write_regs_pc k i inp (m : machine R M) : PC (write_regs_loop k i inp m) = PC m.
Proof. revert i m; induction k as [|k IH]; intros i m; cbn [write_regs_loop]; [done|]. by rewrite IH. Qed.

Lemma sub_join {A} (l : list A) o n m : 0 <= o -> 0 <= n -> 0 <= m -> o + n + m <= len l -> sub l o n ++ sub l (o + n) m = sub l o (n + m).
Proof.
  intros. apply list_eq_zget; [rewrite len_app, !len_sub by lia; lia|]. rewrite len_app, !len_sub by lia. intros j Hj.
  destruct (decide (j < n)).
  - rewrite zget_app_l by (rewrite len_sub; lia). by rewrite !zget_sub by lia.
  - rewrite zget_app_r by (rewrite len_sub; lia). rewrite len_sub, !zget_sub by lia. f_equal. lia.
Qed.
Lemma concat_words (l : list Z) i n : 0 <= i -> (i + Z.of_nat n) * 4 <= len l ->
  concat ((fun i => sub l (i * 4) 4) <$> seqZ i (Z.of_nat n)) = sub l (i * 4) (Z.of_nat n * 4).
Proof.
  revert i; induction n as [|n IH]; intros i Hi Hl; [done|]. rewrite seqZ_cons by lia. rewrite fmap_cons. cbn [concat].
  replace (Z.pred (Z.of_nat (S n))) with (Z.of_nat n) by lia. rewrite IH by lia. replace (Z.succ i * 4) with (i * 4 + 4) by lia.
  rewrite sub_join by lia. f_equal. lia.
Qed.

(** After a write of all registers, all but [x0] read back. *)
Lemma read_write_regs (t t' : target) regs :
  bytes_ok regs -> len regs = 132 -> gdb_write_regs (Some t) regs = Some t' ->
  gdb_read_regs (Some t') = Some (write_u32_le (rv_get_reg (t_rv t') 0) ++ sub regs 4 128).
Proof.
  intros Hb Hl Hw. unfold gdb_read_regs. cbn [mbind option_bind]. f_equal.
  assert (forall i, 1 <= i < 33 -> write_u32_le (reg_word regs i) = sub regs (i * 4) 4) as Hword.
  { intros i Hi. apply write_read_u32_le; [by apply Forall_sub|rewrite len_sub; lia]. }
  assert ((forall r, 0 < r < 32 -> rv_get_reg (t_rv t') r = reg_word regs r) /\ PC (t_rv t') = reg_word regs 32) as [Hr Hpc].
  { revert Hw. unfold gdb_write_regs. assert (32 = Z.of_nat 32) as Hk by done. revert Hk. generalize 32%nat. intros k Hk [= <-]. cbn [t_rv on_machine]. split; [|done].
    intros r Hr. change (rv_get_reg (write_regs_loop k 0 regs (t_rv t)) r = reg_word regs r). rewrite write_regs_get by (done || lia).
    rewrite (proj2 (andb_true_iff _ _)) by lia. done. }
  rewrite (seqZ_cons 0 32), fmap_cons by lia. cbn [concat]. rewrite <-app_assoc. f_equal. rewrite Hpc, Hword by lia.
  assert ((fun i => write_u32_le (rv_get_reg (t_rv t') i)) <$> seqZ (Z.succ 0) (Z.pred 32) = (fun i => sub regs (i * 4) 4) <$> seqZ 1 31) as ->.
  { apply list_fmap_ext. intros i x Hx. apply list_elem_of_lookup_2, elem_of_seqZ in Hx. by rewrite Hr, Hword by lia. }
  change 31 with (Z.of_nat 31). rewrite concat_words by lia. change (Z.of_nat 31 * 4) with 124. change (1 * 4) with 4. change (32 * 4) with (4 + 124).
  by rewrite sub_join by lia.
Qed.

Lemma parse_hexx_then v c rest : is_u32 v -> from_hex c = -1 -> c <> 120 -> c <> 88 -> parse_u32 (hexx v ++ c :: rest) = (v, c :: rest).
Proof. intros Hv H1 H2 H3. by apply parse_hexx. Qed.
Lemma parse_hexx_end v : is_u32 v -> parse_u32 (hexx v) = (v, []).
Proof. intros Hv. pose proof (parse_hexx v [] Hv ltac:(done)) as Hp. by rewrite app_nil_r in Hp. Qed.

Lemma M_writes (w : world) t addr bs :
  cpu w = Some t -> ops (g_gdb w) = gdb_cpu_ops -> is_u32 addr -> bytes_ok bs -> len bs <= 4096 -> addr + len bs <= ram_size (t_mem t) ->
  malloc_ok (len bs) = true ->
  handle_packet malloc_ok (M_packet addr bs) w = reply (text "OK") (with_cpu (Some (poke addr bs t)) w).
Proof.
  intros Hcpu Hops Ha Hb Hlen Hram Hmalloc. pose proof (len_nonneg bs) as H0'. change (M_packet addr bs) with (77 :: hexx addr ++ 44 :: (hexx (len bs) ++ 58 :: hex_encode bs)).
  rewrite dispatch_M. unfold handle_M. rewrite parse_hexx_then by done. cbn [negb Z.eqb Pos.eqb]. rewrite parse_hexx_then by (unfold is_u32; (done || lia)).
  cbn [negb Z.eqb Pos.eqb]. rewrite Hops. cbn [write_mem gdb_cpu_ops]. rewrite Hmalloc. cbn [negb].
  assert (hex_decode (hex_encode bs) (Z.to_nat (len bs)) = bs) as ->.
  { unfold len. rewrite Nat2Z.id. pose proof (hex_decode_encode bs [] Hb) as Hd. by rewrite app_nil_r in Hd. }
  rewrite i32_id by (unfold is_i32; lia). rewrite Z.eqb_refl. cbn [negb]. rewrite Hcpu. unfold gdb_write_mem.
  rewrite (proj2 (write_ok_iff _ _ _)); [done|]. unfold is_u32 in Ha. lia.
Qed.
Lemma m_reads (w : world) t addr n :
  cpu w = Some t -> ops (g_gdb w) = gdb_cpu_ops -> is_u32 addr -> 0 <= n <= 4096 -> ram_size (t_mem t) < 2 ^ 32 -> addr + n <= ram_size (t_mem t) ->
  malloc_ok n = true -> handle_packet malloc_ok (m_packet addr n) w = reply (hex_encode (memory_read (t_mem t) addr n)) w.
Proof.
  intros Hcpu Hops Ha Hn Hram Hin Hmalloc. change (m_packet addr n) with (109 :: hexx addr ++ 44 :: hexx n). rewrite dispatch_m. unfold handle_m.
  rewrite parse_hexx_then by done. cbn [negb Z.eqb Pos.eqb]. rewrite parse_hexx_end by (unfold is_u32; lia). cbn [fst]. rewrite Hops. cbn [read_mem gdb_cpu_ops].
  rewrite Hmalloc. cbn [negb]. rewrite (u32_id (n * 2)), u32_id by (unfold is_u32; lia). rewrite (proj2 (orb_false_iff _ _)) by (unfold MAX_PACKET; lia).
  rewrite Hcpu, gdb_read_mem_spec by (done || lia). rewrite Z.min_l, Z.max_r by lia. done.
Qed.
Lemma G_writes (w : world) t t' regs :
  cpu w = Some t -> ops (g_gdb w) = gdb_cpu_ops -> bytes_ok regs -> len regs = 132 -> gdb_write_regs (Some t) regs = Some t' ->
  handle_packet malloc_ok (G_packet regs) w = reply (text "OK") (with_cpu (Some t') w).
Proof.
  intros Hcpu Hops Hb Hl Ew. change (G_packet regs) with (71 :: hex_encode regs). rewrite dispatch_G. unfold handle_G. rewrite Hops. cbn [write_regs gdb_cpu_ops].
  assert (hex_decode (hex_encode regs) 132 = regs) as ->.
  { pose proof (hex_decode_encode regs [] Hb) as Hd. rewrite app_nil_r in Hd. replace 132%nat with (length regs) by (unfold len in Hl; lia). exact Hd. }
  rewrite Hl. cbn [negb Z.eqb Pos.eqb]. by rewrite Hcpu, Ew.
Qed.
Lemma g_reads (w : world) t regs :
  cpu w = Some t -> ops (g_gdb w) = gdb_cpu_ops -> gdb_read_regs (Some t) = Some regs -> handle_packet malloc_ok (text "g") w = reply (hex_encode regs) w.
Proof. intros Hcpu Hops Hr. change (text "g") with [103]. rewrite dispatch_g. unfold handle_g. rewrite Hops. cbn [read_regs gdb_cpu_ops]. by rewrite Hcpu, Hr. Qed.

(** A command that moves the target to [t'], then a query. *)
Lemma command_query (w : world) t t' p q out :
  stub_ok debugged w -> cpu w = Some t -> debugged (Some t') ->
  handle_packet malloc_ok p w = reply (text "OK") (with_cpu (Some t') w) ->
  (forall w1 : world, cpu w1 = Some t' -> g_gdb w1 = g_gdb w -> handle_packet malloc_ok q w1 = reply out w1) ->
  exists w', run_packets malloc_ok [p; q] w = Some w' /\ sent w' = sent w ++ [text "OK"; out] /\ cpu w' = Some t'.
Proof.
  intros Hw Hcpu Ht' Hp Hq. pose proof (quiet_cpu debugged w (Some t') Hw Ht') as Hqu.
  destruct (send_ok debugged (text "OK") _ (q_ok _ _ _ Hqu)) as (Hok & Hs & Hg). set (w1 := send_response (text "OK") (with_cpu (Some t') w)) in *.
  assert (cpu w1 = Some t') as Hc by apply send_effect. cbn [run_packets]. unfold fc_gdb_stub_process_pkt. rewrite Hp. cbn [reply mbind option_bind]. fold w1.
  rewrite (Hq w1 Hc Hg). cbn [reply mbind option_bind]. eexists. split; [reflexivity|]. destruct (send_ok debugged out w1 Hok) as (_ & -> & _).
  rewrite Hs, <-app_assoc. split; [done|]. by rewrite (proj1 (send_effect _ _)).
Qed.

(** C21: Memory and registers the client writes read back: [M] then [m], [G] then [g]; nothing else of the target
    changes. *)
Theorem gdb_target_roundtrip (w : world) (t : target) (addr : Z) (bs regs : list Z) :
  stub_ok debugged w -> cpu w = Some t -> ops (g_gdb w) = gdb_cpu_ops ->
  is_u32 addr -> bytes_ok bs -> len bs <= 4096 -> addr + len bs <= ram_size (t_mem t) -> malloc_ok (len bs) = true ->
  bytes_ok regs -> len regs = 132 ->
  (exists w', run_packets malloc_ok [M_packet addr bs; m_packet addr (len bs)] w = Some w'
    /\ sent w' = sent w ++ [text "OK"; hex_encode bs] /\ cpu w' = Some (poke addr bs t))
  /\ (exists w' t', run_packets malloc_ok [G_packet regs; text "g"] w = Some w'
    /\ sent w' = sent w ++ [text "OK"; hex_encode (write_u32_le (rv_get_reg (t_rv t') 0) ++ sub regs 4 128)]
    /\ cpu w' = Some t' /\ gdb_write_regs (Some t) regs = Some t').
Proof.
  intros Hw Hcpu Hops Ha Hb Hlen Hram Hmalloc Hregs Hl. pose proof (k_cpu _ _ Hw) as Hdbg. rewrite Hcpu in Hdbg. split.
  - pose proof Hdbg as (t0 & Ht0 & Hr0 & Hb0). injection Ht0 as <-. pose proof (len_nonneg bs) as Hn. unfold is_u32 in Ha.
    assert (ram_size (t_mem (poke addr bs t)) = ram_size (t_mem t)) as Hrs by apply memory_write_size.
    apply (command_query w t (poke addr bs t)); [done|done| |by apply M_writes|].
    + exists (poke addr bs t). split; [done|]. rewrite Hrs. split; [done|]. intros x. apply byte_write_u8; (done || lia).
    + intros w1 Hc Hg. rewrite (m_reads w1 (poke addr bs t)); rewrite ?Hg, ?Hrs; try (done || lia). do 2 f_equal. apply memory_read_write; lia.
  - destruct (gdb_write_regs (Some t) regs) as [t'|] eqn:Ew; [|done]. pose proof (write_regs_debugged (Some t) regs Hdbg) as Ht'. rewrite Ew in Ht'.
    destruct (command_query w t t' (G_packet regs) (text "g") (hex_encode (write_u32_le (rv_get_reg (t_rv t') 0) ++ sub regs 4 128))) as (w' & H1 & H2 & H3); [done|done|done|by apply (G_writes w t)| |by exists w', t'].
    intros w1 Hc Hg. apply (g_reads w1 t'); [done|by rewrite Hg|by apply (read_write_regs t)].
Qed.
End roundtrip.
