(* ===== verification/GdbTransport.v ===== *)
(** * GdbTransport: framing of packets

    Models the framing of [runtime/host/src/gdb/gdb_transport_tcp.c] and [gdb_transport_wasm.c], the
    packet loop of the reader thread and the wait of the run loop at a stop ([tcp_on_stop]).

    A socket is the list of the pieces that have arrived when the reads are made: a [recv] returns bytes of one piece. *)

From S2P Require Import Prelude ElfSection Save SaveTheorems ResourceIndex GdbStub GdbStubSpec GdbPackets GdbTheorems.
From Stdlib Require Import ZArith Lia Strings.String.
From stdpp Require Import base tactics list.
Open Scope Z_scope.

(** ** Frames *)

(** [csum] is an [int]: a sum of bytes. *)
Definition csum (payload : list Z) : Z := foldl Z.add 0 payload.
(** [$payload#xx]; both transports build the same text. *)
Definition frame (payload : list Z) : list Z := text "$" ++ payload ++ text "#" ++ hex2 (Z.land (csum payload) 0xff).

(** ** TCP *)

Definition socket := list (list Z).

(** [recv(fd, &c, 1, 0)]: [None] at the end of the stream. *)
Fixpoint recv1 (s : socket) : option (Z * socket) :=
  match s with
  | [] => None
  | [] :: s => recv1 s
  | (c :: p) :: s => Some (c, p :: s)
  end.
(** [recv(fd, buf, 2, 0)]: one byte or two. *)
Fixpoint recv2 (s : socket) : list Z * socket :=
  match s with
  | [] => ([], [])
  | [] :: s => recv2 s
  | [c] :: s => ([c], s)
  | (c :: d :: p) :: s => ([c; d], p :: s)
  end.

(** How many bytes are left. *)
Definition bytes_left (s : socket) : nat := length (concat s).

Inductive sync_result := SyncEof | SyncInterrupt (s : socket) | SyncStart (s : socket).
Fixpoint sync_loop (fuel : nat) (s : socket) : option sync_result :=
  match fuel with
  | O => None
  | S fuel =>
      match recv1 s with
      | None => Some SyncEof
      | Some (c, s) => if c =? 36 then Some (SyncStart s) else if c =? 3 then Some (SyncInterrupt s) else sync_loop fuel s
      end
  end.
(** The payload, up to [room] bytes; [None] at the end of the stream. *)
Fixpoint payload_loop (room : nat) (s : socket) : option (list Z * socket) :=
  match room with
  | O => Some ([], s)
  | S room =>
      '(c, s) ← recv1 s;
      if c =? 35 then Some ([], s) else '(bs, s) ← payload_loop room s; Some (c :: bs, s)
  end.

(** The packet in [buf] and whether an acknowledgement was sent; [None] is -1. *)
Record received := MkReceived { r_packet : list Z; r_ack : bool; r_rest : socket }.
Definition tcp_recv_pkt_fd (cap : Z) (s : socket) : option (option received) :=
  r ← sync_loop (S (bytes_left s)) s;
  match r with
  | SyncEof => Some None
  | SyncInterrupt s => Some (Some (MkReceived [3] false s))
  | SyncStart s =>
      match payload_loop (Z.to_nat (cap - 1)) s with
      | None => Some None
      | Some (bs, s) =>
          let '(cs, s) := recv2 s in
          if negb (len cs =? 2) then Some None else Some (Some (MkReceived bs true s))
      end
  end.

(** A packet is read as a C string. *)
Fixpoint c_str (s : list Z) : list Z := match s with [] => [] | c :: s => if c =? 0 then [] else c :: c_str s end.

(** ** The reader thread: one connection *)

Section reader.
Context {T : Type} (malloc_ok : Z -> bool).
Abbreviation world := (world T).

Fixpoint packet_loop (fuel : nat) (s : socket) (w : world) : option world :=
  match fuel with
  | O => None
  | S fuel =>
      r ← tcp_recv_pkt_fd MAX_PACKET s;
      match r with
      | None => Some w
      | Some r => w ← fc_gdb_stub_process_pkt malloc_ok (c_str (r_packet r)) w; packet_loop fuel (r_rest r) w
      end
  end.
(** [tcp_thread], from [accept] to [close]. *)
Definition tcp_client (s : socket) (w : world) : option world :=
  w ← fc_gdb_stub_set_has_client true w;
  w ← packet_loop (S (bytes_left s)) s w;
  fc_gdb_stub_set_has_client false w.

(** [tcp_on_stop] while the events [es] happen on the reader thread: the world when it returns and the events left, or
    [None] when it is still waiting.  The outer [None] is a fault. *)
Fixpoint wait_loop (es : list (event T)) (w : world) : option (option (world * list (event T))) :=
  if 0 <=? fc_gdb_stub_pending_action w then Some (Some (w, es))
  else match es with [] => Some None | e :: es => w ← run_event malloc_ok e w; wait_loop es w end.
Definition tcp_on_stop (es : list (event T)) (w : world) : option (option (world * list (event T))) :=
  if negb (fc_gdb_stub_has_client w) then w ← fc_gdb_stub_set_has_client false w; Some (Some (w, es))
  else wait_loop es w.
End reader.

(** ** WebSocket *)

Fixpoint skip_acks (s : list Z) : list Z :=
  match s with c :: s' => if (c =? 43) || (c =? 45) then skip_acks s' else s | [] => [] end.
(** The payload of a frame; [None] is -1. *)
Definition wgdb_extract_payload (fr : list Z) (cap : Z) : option (list Z) :=
  match skip_acks fr with
  | c :: s =>
      if negb (c =? 36) then None
      else '(p, _) ← strchr 35 s; if len p + 1 >? cap then None else Some p
  | [] => None
  end.
(** The first packet of the queue, and the frames behind it. *)
Fixpoint wgdb_recv_pkt (queue : list (list Z)) (cap : Z) : option (list Z) * list (list Z) :=
  match queue with
  | [] => (None, [])
  | fr :: queue =>
      if bool_decide (fr = [3]) then (Some [3], queue)
      else match wgdb_extract_payload fr cap with Some p => (Some p, queue) | None => wgdb_recv_pkt queue cap end
  end.

(** ** Sockets as byte streams *)

Lemma recv1_flat s : match concat s with [] => recv1 s = None | c :: bs => exists s', recv1 s = Some (c, s') /\ concat s' = bs end.
Proof.
  induction s as [|[|c p] s IH]; cbn [concat recv1 app]; [done|done|]. by exists (p :: s).
Qed.
Lemma bytes_left_recv1 s c s' : recv1 s = Some (c, s') -> bytes_left s = S (bytes_left s').
Proof.
  intros Hr. unfold bytes_left. pose proof (recv1_flat s) as Hf. destruct (concat s) as [|x bs]; [congruence|].
  destruct Hf as (s1 & H1 & <-). rewrite Hr in H1. injection H1 as <- <-. done.
Qed.

(** Bytes consumed one by one. *)
Fixpoint skip (n : nat) (s : socket) : socket :=
  match n with O => s | S n => match recv1 s with Some (_, s) => skip n s | None => s end end.

Lemma concat_skip n s : concat (skip n s) = drop n (concat s).
Proof.
  revert s; induction n as [|n IH]; intros s; cbn [skip]; [done|]. pose proof (recv1_flat s) as Hf. destruct (concat s) as [|c bs] eqn:E.
  - by rewrite Hf, E.
  - destruct Hf as (s' & -> & <-). by rewrite IH.
Qed.

Lemma sync_loop_spec junk fuel s rest :
  concat s = junk ++ 36 :: rest -> Forall (fun c => c <> 36 /\ c <> 3) junk -> (length junk < fuel)%nat ->
  sync_loop fuel s = Some (SyncStart (skip (S (length junk)) s)).
Proof.
  revert fuel s; induction junk as [|c junk IH]; intros fuel s Hs Hj Hf; (destruct fuel as [|fuel]; [cbn in Hf; lia|]); cbn [sync_loop].
  - pose proof (recv1_flat s) as Hr. rewrite Hs in Hr. destruct Hr as (s' & Hr & _). cbn [skip length]. by rewrite Hr.
  - apply Forall_cons in Hj as [[H1 H2] Hj]. pose proof (recv1_flat s) as Hr. rewrite Hs in Hr. cbn [app] in Hr. destruct Hr as (s' & Hr & Hs').
    rewrite Hr. rewrite (proj2 (Z.eqb_neq c 36)), (proj2 (Z.eqb_neq c 3)) by done. cbn [length] in Hf. rewrite (IH fuel s' Hs' Hj) by lia.
    cbn [length]. cbn [skip]. by rewrite Hr.
Qed.

Lemma payload_loop_spec payload room s rest :
  concat s = payload ++ 35 :: rest -> 35 ∉ payload -> (length payload < room)%nat ->
  payload_loop room s = Some (payload, skip (S (length payload)) s).
Proof.
  revert room s; induction payload as [|c payload IH]; intros room s Hs Hp Hf; (destruct room as [|room]; [cbn in Hf; lia|]); cbn [payload_loop];
    pose proof (recv1_flat s) as Hr; rewrite Hs in Hr; cbn [app] in Hr; destruct Hr as (s' & Hr & Hs'); rewrite Hr; cbn [mbind option_bind].
  - cbn [Z.eqb Pos.eqb skip length]. by rewrite Hr.
  - apply not_elem_of_cons in Hp as [Hc Hp]. rewrite (proj2 (Z.eqb_neq c 35)) by done. cbn [length] in Hf. rewrite (IH room s' Hs' Hp) by lia.
    cbn [mbind option_bind length]. cbn [skip]. by rewrite Hr.
Qed.

Lemma skip_add n m s : skip (n + m) s = skip m (skip n s).
Proof.
  revert s; induction n as [|n IH]; intros s; [done|]. cbn [Nat.add skip]. destruct (recv1 s) as [[c s']|] eqn:E; [apply IH|].
  clear -E. induction m as [|m IH]; cbn [skip]; [done|by rewrite E].
Qed.

(** Both checksum bytes are in the piece at the head of the stream. *)
Definition together (s : socket) : Prop := len (fst (recv2 s)) = 2.

Lemma len_frame payload : bytes_ok payload -> length (frame payload) = (length payload + 4)%nat.
Proof. intros _. unfold frame. rewrite !length_app. change (length (text "$")) with 1%nat. change (length (text "#")) with 1%nat. cbn. lia. Qed.

(** A packet the client frames is received as it is, whatever precedes it on the line, when its two checksum
    bytes arrive together; when they do not, the connection is dropped. *)
Theorem gdb_frame_received (s : socket) (junk payload rest : list Z) :
  concat s = junk ++ frame payload ++ rest -> Forall (fun c => c <> 36 /\ c <> 3) junk -> 35 ∉ payload -> len payload < MAX_PACKET - 1 ->
  let after := skip (length junk + length payload + 2) s in
  (together after -> tcp_recv_pkt_fd MAX_PACKET s = Some (Some (MkReceived payload true (snd (recv2 after)))) /\ concat (snd (recv2 after)) = rest)
  /\ (~ together after -> tcp_recv_pkt_fd MAX_PACKET s = Some None).
Proof.
  intros Hs Hj Hp Hl after. unfold frame in Hs. change (text "$") with [36] in Hs. change (text "#") with [35] in Hs. rewrite <-!app_assoc in Hs. cbn [app] in Hs.
  assert ((length junk < S (bytes_left s))%nat) as Hfuel by (unfold bytes_left; rewrite Hs, length_app; lia).
  unfold tcp_recv_pkt_fd. rewrite (sync_loop_spec _ _ _ _ Hs Hj Hfuel). cbn [mbind option_bind].
  assert (concat (skip (S (length junk)) s) = payload ++ 35 :: (hex2 (Z.land (csum payload) 0xff) ++ rest)) as Hs1.
  { rewrite concat_skip, Hs. replace (S (length junk)) with (length junk + 1)%nat by lia. rewrite <-drop_drop, drop_app_length. done. }
  rewrite (payload_loop_spec payload _ _ _ Hs1 Hp) by (unfold MAX_PACKET, len in *; lia). rewrite <-skip_add.
  replace (S (length junk) + S (length payload))%nat with (length junk + length payload + 2)%nat by lia. fold after.
  assert (concat after = hex2 (Z.land (csum payload) 0xff) ++ rest) as Ha.
  { unfold after. replace (length junk + length payload + 2)%nat with (S (length junk) + S (length payload))%nat by lia. rewrite skip_add, concat_skip, Hs1.
    replace (S (length payload)) with (length payload + 1)%nat by lia. by rewrite <-drop_drop, drop_app_length. }
  unfold together. destruct (recv2 after) as [cs s'] eqn:Er. cbn [fst snd]. split; intros Ht.
  - rewrite Ht. split; [done|]. clearbody after. clear -Er Ha Ht. revert cs s' Er Ha Ht. induction after as [|[|c [|d p]] q IH]; intros cs s' Er Ha Ht; cbn [recv2 concat app] in *.
    + injection Er as <- _. done.
    + by apply (IH cs s').
    + injection Er as <- _. done.
    + injection Er as <- <-. cbn [concat]. by injection Ha as _ _ ->.
  - destruct (Z.eqb_spec (len cs) 2); done.
Qed.

(** ** Every connection ends *)

Lemma sync_loop_total fuel s : (bytes_left s < fuel)%nat ->
  exists r, sync_loop fuel s = Some r /\ match r with SyncEof => True | SyncInterrupt s' | SyncStart s' => (bytes_left s' < bytes_left s)%nat end.
Proof.
  revert s; induction fuel as [|fuel IH]; intros s Hf; [lia|]. cbn [sync_loop]. destruct (recv1 s) as [[c s']|] eqn:E; [|by eexists].
  pose proof (bytes_left_recv1 _ _ _ E) as Hb. destruct (c =? 36); [eexists; split; [done|cbn; lia]|]. destruct (c =? 3); [eexists; split; [done|cbn; lia]|].
  destruct (IH s' ltac:(lia)) as (r & -> & Hr). exists r. split; [done|]. destruct r; (done || (cbn in *; lia)).
Qed.
Lemma payload_loop_shrinks room s bs s' : payload_loop room s = Some (bs, s') -> (bytes_left s' <= bytes_left s)%nat.
Proof.
  revert s bs; induction room as [|room IH]; intros s bs; cbn [payload_loop]; [by intros [= _ <-]|].
  destruct (recv1 s) as [[c q]|] eqn:E; cbn [mbind option_bind]; [|done]. pose proof (bytes_left_recv1 _ _ _ E). destruct (c =? 35); [intros [= _ <-]; lia|].
  destruct (payload_loop room q) as [[b q']|] eqn:Ep; cbn [mbind option_bind]; [|done]. intros [= _ <-]. pose proof (IH _ _ Ep). lia.
Qed.
Lemma recv2_shrinks s : (bytes_left (snd (recv2 s)) <= bytes_left s)%nat.
Proof.
  unfold bytes_left. induction s as [|[|c [|d p]] s IH]; cbn [recv2 snd concat app length]; [lia|done|lia|rewrite !length_app; lia].
Qed.
Lemma recv_total cap s : exists r, tcp_recv_pkt_fd cap s = Some r /\ forall q, r = Some q -> (bytes_left (r_rest q) < bytes_left s)%nat.
Proof.
  unfold tcp_recv_pkt_fd. destruct (sync_loop_total (S (bytes_left s)) s ltac:(lia)) as (r & -> & Hr). cbn [mbind option_bind].
  destruct r as [|s1|s1]; [by eexists|eexists; split; [done|]; intros q [= <-]; exact Hr|].
  destruct (payload_loop _ _) as [[bs s2]|] eqn:Ep; [|by eexists]. pose proof (payload_loop_shrinks _ _ _ _ Ep). pose proof (recv2_shrinks s2) as H2.
  destruct (recv2 s2) as [cs s3]. cbn [snd] in H2. destruct (negb _); [by eexists|]. eexists. split; [done|]. intros q [= <-]. cbn [r_rest]. lia.
Qed.

Section connection.
Context {T : Type} (I : T -> Prop) (malloc_ok : Z -> bool).
Abbreviation world := (world T).

Lemma packet_loop_spec fuel s (w : world) : stub_ok I w -> (bytes_left s < fuel)%nat -> exists w', packet_loop malloc_ok fuel s w = Some w' /\ stub_ok I w'.
Proof.
  revert s w; induction fuel as [|fuel IH]; intros s w Hw Hf; [lia|]. cbn [packet_loop].
  destruct (recv_total MAX_PACKET s) as (r & -> & Hr). cbn [mbind option_bind]. destruct r as [q|]; [|by exists w].
  destruct (packet_spec I malloc_ok (c_str (r_packet q)) w Hw) as (w1 & Hp & Hs). unfold fc_gdb_stub_process_pkt. rewrite Hp. cbn [mbind option_bind].
  apply IH; [apply Hs|]. pose proof (Hr q eq_refl). lia.
Qed.

(** C22: Whatever bytes a client sends and in whatever pieces they arrive, its connection is served without a fault and ends with no
    breakpoint in the table and the target running. *)
Theorem gdb_connection_ends (s : socket) (w : world) (pc : Z) :
  stub_ok I w ->
  exists w', tcp_client malloc_ok s w = Some w' /\ stub_ok I w' /\ fc_gdb_stub_check_break pc w' = Some false
    /\ fc_gdb_stub_is_halted w' = false /\ fc_gdb_stub_pending_action w' = 0.
Proof.
  intros Hw. destruct (event_spec I malloc_ok (SetClient true) w Hw Logic.I) as (w1 & Hr1 & Hok1 & _). cbn [run_event] in Hr1. unfold tcp_client. rewrite Hr1. cbn [mbind option_bind].
  destruct (packet_loop_spec (S (bytes_left s)) s w1 Hok1 ltac:(lia)) as (w2 & -> & Hok2). cbn [mbind option_bind].
  destruct (disconnect_spec I w2 Hok2) as (w3 & -> & Hok3 & _ & Hl & _ & Hh & Ha & _). exists w3. split; [done|]. split; [done|].
  split; [rewrite (check_break_spec I) by done; by rewrite Hl|]. done.
Qed.
End connection.

(** ** WebSocket frames *)

Lemma wgdb_extract_frame acks payload :
  Forall (fun c => c = 43 \/ c = 45) acks -> 35 ∉ payload -> wgdb_extract_payload (acks ++ frame payload) MAX_PACKET = if len payload + 1 >? MAX_PACKET then None else Some payload.
Proof.
  intros Ha Hp. unfold wgdb_extract_payload.
  assert (skip_acks (acks ++ frame payload) = 36 :: payload ++ 35 :: hex2 (Z.land (csum payload) 0xff)) as ->.
  { induction Ha as [|c acks Hc _ IH]; [done|]. cbn [app skip_acks]. destruct Hc as [-> | ->]; cbn [Z.eqb Pos.eqb orb]; exact IH. }
  cbn [Z.eqb Pos.eqb negb]. by rewrite strchr_app.
Qed.
