(* ===== verification/GdbReload.v ===== *)
(** * GdbReload: the libraries a debug client sees, and their swap on a reload

    Models the GDB session functions of [runtime/host/src/libblyt/cart_run.c]: the library table of a
    session, its publication to the stub, and the two-phase replacement of the cart's entry on a hot
    reload, both the blocking one and the one that is pumped.

    The stub's layout points to the session's array: [put] is a store to the session's tables, which the stub sees at
    once; the number of libraries is copied when the layout is set. *)

From S2P Require Import Prelude ElfSection Elf32 CartLoad DynLink Save SaveTheorems ResourceIndex GdbStub GdbStubSpec GdbPackets GdbTheorems.
From Stdlib Require Import ZArith Lia Strings.String.
From stdpp Require Import base tactics list.
Open Scope Z_scope.

Definition MAX_GDB_LIBS : Z := 8.
Definition BLYT_RELOAD_NOTIFY_MAX_TICKS : Z := 100000.

(** [gdb_libs] and [gdb_libs_ffi] are arrays of eight: an entry of the second is a pointer to the path in the
    first, and its own copy of the addresses. *)
Record gdb_session := MkGdbSession {
  gdb_libs : list fc_gdb_library_t;
  gdb_libs_ffi : list (Z * Z);
  gdb_nlibs : Z;
  gdb_cart_lib_idx : Z;
  gdb_exec_path : list Z;
  gdb_enabled : bool;
  reload_notify_phase : Z;
  reload_notify_cont : Z;
  reload_notify_old_idx : Z;
  reload_notify_ticks : Z
}.
Definition with_libs (l : list fc_gdb_library_t) (f : list (Z * Z)) (n idx : Z) (s : gdb_session) : gdb_session :=
  MkGdbSession l f n idx (gdb_exec_path s) (gdb_enabled s) (reload_notify_phase s) (reload_notify_cont s) (reload_notify_old_idx s) (reload_notify_ticks s).
Definition with_notify (phase cont old ticks : Z) (s : gdb_session) : gdb_session :=
  MkGdbSession (gdb_libs s) (gdb_libs_ffi s) (gdb_nlibs s) (gdb_cart_lib_idx s) (gdb_exec_path s) (gdb_enabled s) phase cont old ticks.

(** What a reader of [gdb_libs_ffi] finds. *)
Definition ffi_view (s : gdb_session) : list fc_gdb_library_t :=
  zip_with (fun l a => MkGdbLib (lib_path l) a.1 a.2) (gdb_libs s) (gdb_libs_ffi s).

(** ** Entries *)

(** [strncpy] to 256 bytes with the last one 0. *)
Definition path256 (path : list Z) : list Z := take 255 path.
(** [base] plus the address of the first [PT_DYNAMIC] header, or 0. *)
Definition l_ld_of (map : list Z) (base : Z) : option Z :=
  eh ← rd_ehdr map;
  phdr_walk (Z.to_nat (e_phnum eh)) 0 map eh (fun acc => acc)
    (fun ph acc => Some (if p_type ph =? PT_DYNAMIC then inl (u32 (base + p_vaddr ph)) else inr acc)) 0.

Definition fill_slot (idx : Z) (path map : list Z) (base : Z) (s : gdb_session) : option gdb_session :=
  ld ← l_ld_of map base;
  libs ← zset (gdb_libs s) idx (MkGdbLib (path256 path) base ld);
  ffi ← zset (gdb_libs_ffi s) idx (base, ld);
  Some (with_libs libs ffi (gdb_nlibs s) (gdb_cart_lib_idx s) s).
Definition fill_cart_gdb_lib_slot (idx : Z) (cart : blyt_cart_t) (base : Z) (path : list Z) (s : gdb_session) : option gdb_session :=
  fill_slot idx path (cart_map cart) base s.

Fixpoint mirror_loop (k : nat) (i : Z) (libs : list fc_gdb_library_t) (ffi : list (Z * Z)) : option (list (Z * Z)) :=
  match k with
  | O => Some ffi
  | S k => l ← zget libs i; ffi ← zset ffi i (l_addr l, l_ld l); mirror_loop k (i + 1) libs ffi
  end.
Definition rebuild_gdb_libs_ffi (s : gdb_session) : option gdb_session :=
  ffi ← mirror_loop (Z.to_nat (gdb_nlibs s)) 0 (gdb_libs s) (gdb_libs_ffi s);
  Some (with_libs (gdb_libs s) ffi (gdb_nlibs s) (gdb_cart_lib_idx s) s).

(** [reported_path], unless it is [NULL] or empty; a cart has a path. *)
Definition report (reported_path : list Z) (cart : blyt_cart_t) : list Z := match reported_path with [] => cart_path cart | _ => reported_path end.
Definition register_cart_gdb_library (cart : blyt_cart_t) (base : Z) (reported_path : list Z) (s : gdb_session) : option (Z * gdb_session) :=
  let path := report reported_path cart in
  if gdb_cart_lib_idx s <? 0 then
    if gdb_nlibs s >=? MAX_GDB_LIBS then Some (-1, s)
    else
      let s := with_libs (gdb_libs s) (gdb_libs_ffi s) (gdb_nlibs s + 1) (gdb_nlibs s) s in
      s ← fill_cart_gdb_lib_slot (gdb_cart_lib_idx s) cart base path s; Some (gdb_cart_lib_idx s, s)
  else s ← fill_cart_gdb_lib_slot (gdb_cart_lib_idx s) cart base path s; Some (gdb_cart_lib_idx s, s).
(** The branch of [dynlink] for a library mapped at [bias]. *)
Definition capture_gdb_lib (lib_name lmap : list Z) (bias : Z) (s : gdb_session) : option gdb_session :=
  if gdb_nlibs s <? MAX_GDB_LIBS then
    let idx := gdb_nlibs s in
    fill_slot idx lib_name lmap bias (with_libs (gdb_libs s) (gdb_libs_ffi s) (gdb_nlibs s + 1) (gdb_cart_lib_idx s) s)
  else Some s.
Definition blyt_session_gdb_set_cart_path (host_path : list Z) (s : gdb_session) : option gdb_session :=
  if (gdb_cart_lib_idx s <? 0) || bool_decide (host_path = []) then Some s
  else
    l ← zget (gdb_libs s) (gdb_cart_lib_idx s);
    libs ← zset (gdb_libs s) (gdb_cart_lib_idx s) (MkGdbLib (path256 host_path) (l_addr l) (l_ld l));
    Some (with_libs libs (gdb_libs_ffi s) (gdb_nlibs s) (gdb_cart_lib_idx s) s).

(** ** Publication *)

Section publish.
Context {T : Type} (malloc_ok : Z -> bool).
Abbreviation world := (world T).

(** A session and the stub. *)
Record state := MkState { ses : gdb_session; stub : world }.
Definition put (s : gdb_session) (st : state) : state :=
  MkState s (MkWorld (g_gdb (stub st)) (ffi_view s) (cpu (stub st)) (sent (stub st))).
Definition on_stub (w : world) (st : state) : state := MkState (ses st) w.

Definition publish_libs_nowait (st : state) : state :=
  let s := ses st in
  on_stub (fc_gdb_stub_notify_library_change
             (fc_gdb_stub_set_layout (MkLayout (Some (gdb_exec_path s)) (gdb_nlibs s)) (ffi_view s) (stub st))) st.

(** The loop of 3000 sleeps; in each, the events of one element of [ticks] happen on the other thread. *)
Fixpoint consume_loop (k : nat) (cont : Z) (ticks : list (list (event T))) (st : state) : option (state * list (list (event T))) :=
  match k with
  | O => Some (st, ticks)
  | S k =>
      if negb (fc_gdb_stub_continue_gen (stub st) =? cont) then Some (st, ticks)
      else
        match ticks with
        | [] => consume_loop k cont [] st
        | es :: ticks => w ← run_events malloc_ok es (stub st); consume_loop k cont ticks (on_stub w st)
        end
  end.
Definition publish_libs_and_wait (ticks : list (list (event T))) (st : state) : option (state * list (list (event T))) :=
  let cont := fc_gdb_stub_continue_gen (stub st) in
  consume_loop 3000 cont ticks (publish_libs_nowait st).

Definition blyt_session_gdb_is_debugging (s : gdb_session) : bool := gdb_enabled s && (0 <=? gdb_cart_lib_idx s).

(** Fold the last entry into the old slot. *)
Definition reload_notify_drop_old (s : gdb_session) : option gdb_session :=
  let old_idx := reload_notify_old_idx s in
  l ← zget (gdb_libs s) (gdb_nlibs s - 1);
  libs ← zset (gdb_libs s) old_idx l;
  rebuild_gdb_libs_ffi (with_libs libs (gdb_libs_ffi s) (gdb_nlibs s - 1) old_idx s).

Definition blyt_session_gdb_notify_cart_reloaded (cart : blyt_cart_t) (base : Z) (reported_path : list Z) (ticks : list (list (event T))) (st : state)
    : option state :=
  let s := ses st in
  if negb (gdb_enabled s) || (gdb_cart_lib_idx s <? 0) then Some st
  else
    let path := report reported_path cart in
    let old_idx := gdb_cart_lib_idx s in
    if gdb_nlibs s >=? MAX_GDB_LIBS then
      s ← fill_cart_gdb_lib_slot old_idx cart base path s;
      '(st, _) ← publish_libs_and_wait ticks (put s st); Some st
    else
      let new_idx := gdb_nlibs s in
      s ← fill_cart_gdb_lib_slot new_idx cart base path (with_libs (gdb_libs s) (gdb_libs_ffi s) (gdb_nlibs s + 1) (gdb_cart_lib_idx s) s);
      '(st, ticks) ← publish_libs_and_wait ticks (put s st);
      let s := ses st in
      l ← zget (gdb_libs s) (gdb_nlibs s - 1);
      libs ← zset (gdb_libs s) old_idx l;
      s ← rebuild_gdb_libs_ffi (with_libs libs (gdb_libs_ffi s) (gdb_nlibs s - 1) old_idx s);
      '(st, _) ← publish_libs_and_wait ticks (put s st); Some st.

Definition blyt_session_gdb_reload_notify_begin (cart : blyt_cart_t) (base : Z) (reported_path : list Z) (st : state) : option (bool * state) :=
  let s := ses st in
  if negb (blyt_session_gdb_is_debugging s) then Some (false, st)
  else
    let path := report reported_path cart in
    let s := with_notify (reload_notify_phase s) (reload_notify_cont s) (gdb_cart_lib_idx s) 0 s in
    let cont := fc_gdb_stub_continue_gen (stub st) in
    if gdb_nlibs s >=? MAX_GDB_LIBS then
      s ← fill_cart_gdb_lib_slot (gdb_cart_lib_idx s) cart base path s;
      Some (true, publish_libs_nowait (put (with_notify 2 cont (reload_notify_old_idx s) (reload_notify_ticks s) s) st))
    else
      let new_idx := gdb_nlibs s in
      s ← fill_cart_gdb_lib_slot new_idx cart base path (with_libs (gdb_libs s) (gdb_libs_ffi s) (gdb_nlibs s + 1) (gdb_cart_lib_idx s) s);
      Some (true, publish_libs_nowait (put (with_notify 1 cont (reload_notify_old_idx s) (reload_notify_ticks s) s) st)).

Definition set_phase (phase : Z) (s : gdb_session) : gdb_session :=
  with_notify phase (reload_notify_cont s) (reload_notify_old_idx s) (reload_notify_ticks s) s.

(** [pkt] is the packet the poll finds. *)
Definition blyt_session_gdb_reload_notify_pump (pkt : option (list Z)) (st : state) : option (bool * state) :=
  if reload_notify_phase (ses st) =? 0 then Some (true, st)
  else
    w ← fc_gdb_stub_poll malloc_ok pkt (stub st);
    let st := on_stub w st in
    let s := ses st in
    if fc_gdb_stub_continue_gen (stub st) =? reload_notify_cont s then
      let s := with_notify (reload_notify_phase s) (reload_notify_cont s) (reload_notify_old_idx s) (reload_notify_ticks s + 1) s in
      if reload_notify_ticks s <? BLYT_RELOAD_NOTIFY_MAX_TICKS then Some (false, put s st)
      else
        st ← (if reload_notify_phase s =? 1 then s ← reload_notify_drop_old s; Some (publish_libs_nowait (put s st)) else Some (put s st));
        Some (true, put (set_phase 0 (ses st)) st)
    else if reload_notify_phase s =? 1 then
      s ← reload_notify_drop_old s;
      let s := with_notify 2 (fc_gdb_stub_continue_gen (stub st)) (reload_notify_old_idx s) 0 s in
      Some (false, publish_libs_nowait (put s st))
    else Some (true, put (set_phase 0 s) st).

(** The caller's loop: pump until it says that the swap is complete; [None] inside when the packets are used up first. *)
Fixpoint pump_until (ps : list (option (list Z))) (st : state) : option (option state) :=
  match ps with
  | [] => Some None
  | p :: ps => '(b, st) ← blyt_session_gdb_reload_notify_pump p st; if b : bool then Some (Some st) else pump_until ps st
  end.
End publish.
