(* ===== verification/GdbReloadTheorems.v ===== *)
(** * GdbReloadTheorems: a reload replaces the cart's library, and ends

    The invariant of the library tables, a lemma per operation, and the two-phase swap. *)

From S2P Require Import Prelude ElfSection Elf32 CartLoad DynLink Save SaveTheorems ResourceIndex GdbStub GdbStubSpec GdbPackets GdbTheorems GdbReload.
From Stdlib Require Import ZArith Lia Strings.String.
From stdpp Require Import base tactics list.
Open Scope Z_scope.

(** ** The tables *)

Definition addrs (l : fc_gdb_library_t) : Z * Z := (l_addr l, l_ld l).
Record libs_ok (s : gdb_session) : Prop := MkLibsOk {
  lo_libs : len (gdb_libs s) = MAX_GDB_LIBS;
  lo_ffi : len (gdb_libs_ffi s) = MAX_GDB_LIBS;
  lo_count : 0 <= gdb_nlibs s <= MAX_GDB_LIBS;
  lo_entries : Forall lib_ok (gdb_libs s);
  lo_addrs : Forall (fun a => is_u32 a.1 /\ is_u32 a.2) (gdb_libs_ffi s);
  lo_mirror : forall i, 0 <= i < gdb_nlibs s -> zget (gdb_libs_ffi s) i = addrs <$> zget (gdb_libs s) i;
  lo_exec : c_string (gdb_exec_path s) /\ len (gdb_exec_path s) < 4096
}.
(** The libraries of a session. *)
Definition table (s : gdb_session) : list fc_gdb_library_t := sub (gdb_libs s) 0 (gdb_nlibs s).

Lemma len_table s : libs_ok s -> len (table s) = gdb_nlibs s.
Proof. intros Hs. pose proof (lo_libs _ Hs). pose proof (lo_count _ Hs). unfold table. rewrite len_sub; lia. Qed.
Lemma zget_table s i : 0 <= i < gdb_nlibs s -> zget (table s) i = zget (gdb_libs s) i.
Proof. intros Hi. unfold table. by rewrite zget_sub by lia. Qed.

Lemma zget_view s i : libs_ok s -> 0 <= i < gdb_nlibs s -> zget (ffi_view s) i = zget (gdb_libs s) i.
Proof.
  intros Hs Hi. pose proof (lo_mirror _ Hs i Hi) as Hm. pose proof (lo_libs _ Hs). pose proof (lo_count _ Hs).
  destruct (zget_is_Some (gdb_libs s) i) as [l Hl]; [lia|]. rewrite Hl in Hm |- *. unfold ffi_view.
  rewrite zget_lookup in Hl by lia. rewrite zget_lookup in Hm by lia. rewrite zget_lookup, lookup_zip_with, Hl by lia. cbn [mbind option_bind]. rewrite Hm. by destruct l.
Qed.
Lemma len_view s : libs_ok s -> len (ffi_view s) = MAX_GDB_LIBS.
Proof. intros Hs. pose proof (lo_libs _ Hs). pose proof (lo_ffi _ Hs). unfold ffi_view, len in *. rewrite length_zip_with. lia. Qed.
(** The stub reads the session's table. *)
Lemma view_table s : libs_ok s -> sub (ffi_view s) 0 (gdb_nlibs s) = table s.
Proof.
  intros Hs. pose proof (lo_count _ Hs). pose proof (len_view s Hs). apply list_eq_zget; [rewrite len_table, len_sub by (done || lia); done|].
  rewrite len_sub by lia. intros i Hi. rewrite zget_sub, zget_table by lia. by apply zget_view.
Qed.
Lemma view_ok s : libs_ok s -> Forall lib_ok (ffi_view s).
Proof.
  intros Hs. apply Forall_lookup. intros i l Hl. unfold ffi_view in Hl. rewrite lookup_zip_with in Hl.
  destruct (gdb_libs s !! i) as [l0|] eqn:E1; [|done]. destruct (gdb_libs_ffi s !! i) as [a|] eqn:E2; [|done]. cbn in Hl. injection Hl as <-.
  pose proof (lo_entries _ Hs) as H1. pose proof (lo_addrs _ Hs) as H2. rewrite Forall_lookup in H1. rewrite Forall_lookup in H2. destruct (H1 _ _ E1) as (Hp & Hl & _). destruct (H2 _ _ E2). done.
Qed.
Lemma libs_layout_ok s : libs_ok s -> layout_ok (MkLayout (Some (gdb_exec_path s)) (gdb_nlibs s)) (ffi_view s).
Proof.
  intros Hs. pose proof (lo_count _ Hs). pose proof (len_view s Hs). pose proof (lo_exec _ Hs) as [? ?]. unfold MAX_GDB_LIBS in *.
  split_and!; [done|done|cbn; lia|cbn; lia|cbn; lia|by apply view_ok].
Qed.

(** ** Operations on the tables *)

Lemma l_ld_u32 map base ld : l_ld_of map base = Some ld -> is_u32 ld.
Proof.
  unfold l_ld_of. destruct (rd_ehdr map) as [eh|]; [|done]. cbn [mbind option_bind]. assert (is_u32 0) as H0 by done. revert H0. generalize 0 at 1 3.
  generalize 0 at 1. generalize (Z.to_nat (e_phnum eh)). induction n as [|n IH]; intros i acc Hacc; cbn [phdr_walk]; [by intros [= <-]|].
  destruct (_ >? _); [by intros [= <-]|]. destruct (rd_phdr _ _) as [ph|]; [|done]. cbn [mbind option_bind]. destruct (p_type ph =? PT_DYNAMIC); [|by apply IH].
  intros [= <-]. apply u32_range.
Qed.
Lemma path256_ok path : c_string path -> c_string (path256 path) /\ len (path256 path) < 256.
Proof. intros Hp. split; [by apply Forall_take|]. unfold path256, len. rewrite length_take. lia. Qed.

Definition entry (path map : list Z) (base ld : Z) : fc_gdb_library_t := MkGdbLib (path256 path) base ld.
Lemma entry_ok path map base ld : c_string path -> is_u32 base -> l_ld_of map base = Some ld -> lib_ok (entry path map base ld).
Proof. intros Hp Hb Hl. destruct (path256_ok path Hp). split_and!; [done..|]. by eapply l_ld_u32. Qed.

(** An entry is filled in a table of [n] libraries, where it may be the last and new one. *)
Lemma fill_slot_spec s n idx path map base ld :
  libs_ok s -> gdb_nlibs s <= n <= MAX_GDB_LIBS -> 0 <= idx < n -> (forall i, gdb_nlibs s <= i < n -> i = idx) ->
  c_string path -> is_u32 base -> l_ld_of map base = Some ld ->
  exists s', fill_slot idx path map base (with_libs (gdb_libs s) (gdb_libs_ffi s) n (gdb_cart_lib_idx s) s) = Some s' /\ libs_ok s'
    /\ table s' = <[Z.to_nat idx := entry path map base ld]> (sub (gdb_libs s) 0 n)
    /\ s' = with_libs (gdb_libs s') (gdb_libs_ffi s') n (gdb_cart_lib_idx s) s.
Proof.
  intros Hs Hn Hi Hnew Hp Hb Hl. pose proof (lo_libs _ Hs) as H1. pose proof (lo_ffi _ Hs) as H2. pose proof (lo_count _ Hs) as H3.
  unfold fill_slot. rewrite Hl. cbn [mbind option_bind gdb_libs gdb_libs_ffi with_libs]. rewrite !zset_Some by lia. cbn [mbind option_bind]. eexists. split; [reflexivity|].
  pose proof (entry_ok path map base ld Hp Hb Hl) as He. split; [|split; [|done]].
  - constructor; cbn [gdb_libs gdb_libs_ffi gdb_nlibs gdb_exec_path with_libs]; [by rewrite len_insert..|lia| | | |exact (lo_exec _ Hs)].
    + apply Forall_insert; [exact (lo_entries _ Hs)|done].
    + apply Forall_insert; [exact (lo_addrs _ Hs)|]. apply He.
    + intros i Hi'. destruct (Z.eq_dec i idx) as [->|Hne]; [by rewrite !zget_insert_eq by lia|]. rewrite !zget_insert_ne by lia.
      apply (lo_mirror _ Hs). destruct (Z.lt_ge_cases i (gdb_nlibs s)); [lia|]. destruct Hne. apply Hnew. lia.
  - unfold table. cbn [gdb_libs gdb_nlibs with_libs]. unfold sub. change (Z.to_nat 0) with 0%nat. rewrite !drop_0. by rewrite take_insert_lt by lia.
Qed.
(** Appended. *)
Lemma fill_new_spec s path map base ld :
  libs_ok s -> gdb_nlibs s < MAX_GDB_LIBS -> c_string path -> is_u32 base -> l_ld_of map base = Some ld ->
  exists s', fill_slot (gdb_nlibs s) path map base (with_libs (gdb_libs s) (gdb_libs_ffi s) (gdb_nlibs s + 1) (gdb_cart_lib_idx s) s) = Some s' /\ libs_ok s'
    /\ table s' = table s ++ [entry path map base ld]
    /\ s' = with_libs (gdb_libs s') (gdb_libs_ffi s') (gdb_nlibs s + 1) (gdb_cart_lib_idx s) s.
Proof.
  intros Hs Hn Hp Hb Hl. pose proof (lo_count _ Hs). pose proof (lo_libs _ Hs).
  destruct (fill_slot_spec s (gdb_nlibs s + 1) (gdb_nlibs s) path map base ld) as (s' & Hr & Hok & Ht & Hs'); [done|lia..|done|done|done|].
  exists s'. split; [done|]. split; [done|]. split; [|done]. rewrite Ht. pose proof (len_table s Hs). apply list_eq_zget.
  { rewrite len_insert, len_sub, len_app by lia. change (len [entry path map base ld]) with 1. lia. }
  rewrite len_insert, len_sub by lia. intros i Hi. destruct (Z.eq_dec i (gdb_nlibs s)) as [->|Hne].
  - rewrite zget_insert_eq by (rewrite len_sub; lia). rewrite zget_app_r by lia. by replace (gdb_nlibs s - len (table s)) with 0 by lia.
  - rewrite zget_insert_ne by lia. rewrite zget_app_l by lia. by rewrite zget_sub, zget_table by lia.
Qed.
(** Replaced. *)
Lemma fill_old_spec s idx path map base ld :
  libs_ok s -> 0 <= idx < gdb_nlibs s -> c_string path -> is_u32 base -> l_ld_of map base = Some ld ->
  exists s', fill_slot idx path map base s = Some s' /\ libs_ok s' /\ table s' = <[Z.to_nat idx := entry path map base ld]> (table s)
    /\ s' = with_libs (gdb_libs s') (gdb_libs_ffi s') (gdb_nlibs s) (gdb_cart_lib_idx s) s.
Proof.
  intros Hs Hi Hp Hb Hl. pose proof (lo_count _ Hs). destruct (fill_slot_spec s (gdb_nlibs s) idx path map base ld) as (s' & Hr & H'); [done|lia..|done|done|done|].
  exists s'. split; [|done]. destruct s. exact Hr.
Qed.

Lemma mirror_loop_spec libs k i ffi :
  0 <= i -> i + Z.of_nat k <= len libs -> len ffi = len libs ->
  exists ffi', mirror_loop k i libs ffi = Some ffi' /\ len ffi' = len ffi
    /\ (forall j, 0 <= j < len ffi -> zget ffi' j = if (i <=? j) && (j <? i + Z.of_nat k) then addrs <$> zget libs j else zget ffi j).
Proof.
  revert i ffi; induction k as [|k IH]; intros i ffi Hi Hk Hl; cbn [mirror_loop].
  { exists ffi. split; [done|]. split; [done|]. intros j Hj. destruct (_ && _) eqn:E; [lia|done]. }
  destruct (zget_is_Some libs i ltac:(lia)) as [l Hg]. rewrite Hg. cbn [mbind option_bind]. rewrite zset_Some by lia. cbn [mbind option_bind].
  destruct (IH (i + 1) (<[Z.to_nat i := (l_addr l, l_ld l)]> ffi)) as (ffi' & -> & H1 & H2); [lia|lia|by rewrite len_insert|].
  exists ffi'. rewrite len_insert in H1, H2. split; [done|]. split; [done|]. intros j Hj. rewrite (H2 j Hj).
  destruct (Z.eq_dec j i) as [->|Hne].
  - rewrite (proj2 (andb_false_iff _ _)) by lia. rewrite (proj2 (andb_true_iff _ _)) by lia. rewrite zget_insert_eq by lia. by rewrite Hg.
  - rewrite zget_insert_ne by lia. destruct (_ && _) eqn:E1, ((i <=? j) && _) eqn:E2; (done || lia).
Qed.

(** The last entry takes the place of the old one, in both reloads. *)
Definition fold_last (old : Z) (s : gdb_session) : option gdb_session :=
  l ← zget (gdb_libs s) (gdb_nlibs s - 1);
  libs ← zset (gdb_libs s) old l;
  rebuild_gdb_libs_ffi (with_libs libs (gdb_libs_ffi s) (gdb_nlibs s - 1) old s).
Lemma fold_last_entry s old l :
  libs_ok s -> 0 <= old < gdb_nlibs s - 1 -> zget (gdb_libs s) (gdb_nlibs s - 1) = Some l ->
  exists s', fold_last old s = Some s' /\ libs_ok s' /\ gdb_nlibs s' = gdb_nlibs s - 1
    /\ table s' = <[Z.to_nat old := l]> (sub (table s) 0 (gdb_nlibs s - 1))
    /\ s' = with_libs (gdb_libs s') (gdb_libs_ffi s') (gdb_nlibs s - 1) old s.
Proof.
  intros Hs Ho Hl. pose proof (lo_libs _ Hs) as H1. pose proof (lo_ffi _ Hs) as H2. pose proof (lo_count _ Hs) as H3. unfold fold_last, rebuild_gdb_libs_ffi.
  rewrite Hl. cbn [mbind option_bind]. rewrite zset_Some by lia. cbn [mbind option_bind gdb_libs gdb_libs_ffi gdb_nlibs gdb_cart_lib_idx with_libs].
  set (libs := <[Z.to_nat (old) := l]> (gdb_libs s)). assert (len libs = MAX_GDB_LIBS) as Hlen by (unfold libs; by rewrite len_insert).
  destruct (mirror_loop_spec libs (Z.to_nat (gdb_nlibs s - 1)) 0 (gdb_libs_ffi s)) as (ffi & -> & Hf & Hg); [lia|lia|lia|]. cbn [mbind option_bind].
  eexists. split; [reflexivity|]. split; [|split; [done|split; [|done]]].
  - assert (Forall lib_ok libs) as Hlibs.
    { apply Forall_insert; [exact (lo_entries _ Hs)|]. pose proof (lo_entries _ Hs) as He. rewrite Forall_forall in He. apply He. by eapply zget_elem. }
    constructor; cbn [gdb_libs gdb_libs_ffi gdb_nlibs gdb_exec_path with_libs]; [done|lia|lia|done| | |exact (lo_exec _ Hs)].
    + apply Forall_lookup. intros j a Hj. pose proof (lookup_lt_Some _ _ _ Hj) as Hlt. assert (zget ffi (Z.of_nat j) = Some a) as Hz by (rewrite zget_lookup, Nat2Z.id by lia; done).
      rewrite Hg in Hz by (unfold len in *; lia). destruct (_ && _).
      * destruct (zget libs (Z.of_nat j)) as [x|] eqn:Ex; [|done]. cbn in Hz. injection Hz as <-. apply zget_elem in Ex. rewrite Forall_forall in Hlibs. apply Hlibs in Ex. split; apply Ex.
      * apply zget_elem in Hz. pose proof (lo_addrs _ Hs) as Ha. rewrite Forall_forall in Ha. by apply Ha.
    + intros i Hi. rewrite Hg by lia. by rewrite (proj2 (andb_true_iff _ _)) by lia.
  - unfold table. cbn [gdb_libs gdb_nlibs with_libs]. unfold libs, sub. change (Z.to_nat 0) with 0%nat. rewrite !drop_0, take_take, Nat.min_l by lia.
    by rewrite take_insert_lt by lia.
Qed.
Lemma fold_last_spec s old before e :
  libs_ok s -> table s = before ++ [e] -> 0 <= old < len before ->
  exists s', fold_last old s = Some s' /\ libs_ok s' /\ table s' = <[Z.to_nat old := e]> before
    /\ s' = with_libs (gdb_libs s') (gdb_libs_ffi s') (gdb_nlibs s') old s.
Proof.
  intros Hs Ht Ho. assert (gdb_nlibs s = len before + 1) as Hn by (rewrite <-(len_table s Hs), Ht, len_app; done).
  destruct (fold_last_entry s old e Hs) as (s' & Hd & Hok' & Hn' & Ht' & He); [lia| |].
  - pose proof (zget_table s (gdb_nlibs s - 1) ltac:(lia)) as Hz. rewrite Ht, zget_app_r in Hz by lia. rewrite <-Hz. by replace (_ - len before) with 0 by lia.
  - exists s'. split; [done|]. split; [done|]. split; [|by rewrite Hn'].
    rewrite Ht', Ht, Hn. f_equal. unfold sub. change (Z.to_nat 0) with 0%nat. rewrite drop_0. replace (Z.to_nat _) with (length before) by (unfold len in *; lia). apply take_app_length.
Qed.

(** ** A session with its stub *)

Section swap.
Context {T : Type} (I : T -> Prop) (malloc_ok : Z -> bool).
Abbreviation world := (world T).
Abbreviation state := (@GdbReload.state T).

Record state_ok (st : state) : Prop := MkStateOk {
  st_libs : libs_ok (ses st);
  st_stub : stub_ok I (stub st);
  st_shared : libraries (stub st) = ffi_view (ses st)
}.
(** The libraries a client is told about: the array that the layout points to, up to the number copied when it was set. *)
Definition published (st : state) : list fc_gdb_library_t := sub (libraries (stub st)) 0 (n_libraries (layout (g_gdb (stub st)))).

Lemma put_ok (s : gdb_session) (st : state) : libs_ok s -> stub_ok I (stub st) -> state_ok (put s st).
Proof.
  intros Hs Hk. constructor; [done| |done]. pose proof (libs_layout_ok s Hs) as (_ & _ & _ & _ & Hview). pose proof (len_view s Hs) as Hlen. destruct Hk as [? ? ? ? (? & ? & ? & ? & _) ? ? ?].
  unfold MAX_GDB_LIBS in *. constructor; try done. cbn [put stub g_gdb libraries]. split_and!; (done || lia).
Qed.
Lemma put_published (s : gdb_session) (st : state) : ffi_view s = libraries (stub st) -> published (put s st) = published st.
Proof. intros He. unfold published, put. cbn [stub libraries g_gdb]. by rewrite He. Qed.

(** After a publication the client is told of the session's table. *)
Lemma publish_libs_ok (s : gdb_session) (st : state) : libs_ok s -> stub_ok I (stub st) ->
  let st' := publish_libs_nowait (put s st) in state_ok st' /\ ses st' = s /\ published st' = table s.
Proof.
  intros Hs Hk st'. assert (ses st' = s) as Hses by done. assert (libraries (stub st') = ffi_view s /\ layout (g_gdb (stub st')) = MkLayout (Some (gdb_exec_path s)) (gdb_nlibs s)) as [Hl Hn].
  { unfold st', publish_libs_nowait, on_stub, fc_gdb_stub_notify_library_change, send_response. cbn [stub put]. by destruct (transport _). }
  split; [|split; [done|unfold published; rewrite Hl, Hn; by apply view_table]].
  constructor; [by rewrite Hses| |by rewrite Hses].
  destruct (event_spec I malloc_ok (SetLayout (MkLayout (Some (gdb_exec_path s)) (gdb_nlibs s)) (ffi_view s)) (stub (put s st))) as (w1 & [= <-] & H1 & _);
    [apply (put_ok s st Hs Hk)|by apply libs_layout_ok|].
  by destruct (event_spec I malloc_ok LibraryChange _ H1) as (w2 & [= <-] & H2 & _).
Qed.

Lemma poll_ok p (st : state) : state_ok st ->
  exists w, fc_gdb_stub_poll malloc_ok p (stub st) = Some w /\ state_ok (on_stub w st) /\ published (on_stub w st) = published st.
Proof.
  intros Hst. destruct (event_spec I malloc_ok (Poll p) (stub st)) as (w & Hr & Hok & _); [apply Hst|done|]. cbn [run_event] in Hr. exists w. split; [done|].
  assert (static w = static (stub st)) as Hstat.
  { unfold fc_gdb_stub_poll in Hr. destruct (transport _), p as [p|]; try (by injection Hr as <-). apply (packet_effects I malloc_ok p); [apply Hst|done]. }
  injection Hstat as _ Hlay Hlib. split; [|unfold published; cbn [on_stub stub]; by rewrite Hlib, Hlay].
  constructor; [apply Hst|done|]. cbn [on_stub stub ses]. rewrite Hlib. apply Hst.
Qed.

Lemma notify_libs_ok phase cont old ticks s : libs_ok s -> libs_ok (with_notify phase cont old ticks s).
Proof. intros []. by constructor. Qed.

(** ** The pumped swap *)

(** The swap of entry [idx] is over: the table is [after], the client has been told, and no swap is in progress. *)
Record swapped (idx : Z) (after : list fc_gdb_library_t) (st : state) : Prop := MkSwapped {
  sw_ok : state_ok st;
  sw_table : table (ses st) = after;
  sw_published : published st = after;
  sw_phase : reload_notify_phase (ses st) = 0;
  sw_idx : gdb_cart_lib_idx (ses st) = idx
}.
(** Phase 2: the table is right, and the client has not yet resumed. *)
Record dropping (idx : Z) (after : list fc_gdb_library_t) (ticks : Z) (st : state) : Prop := MkDropping {
  dr_ok : state_ok st;
  dr_table : table (ses st) = after;
  dr_published : published st = after;
  dr_phase : reload_notify_phase (ses st) = 2;
  dr_idx : gdb_cart_lib_idx (ses st) = idx;
  dr_ticks : reload_notify_ticks (ses st) = ticks
}.
(** Phase 1: both the old library and the new one are in the table. *)
Record adding (idx : Z) (before : list fc_gdb_library_t) (e : fc_gdb_library_t) (ticks : Z) (st : state) : Prop := MkAdding {
  ad_ok : state_ok st;
  ad_table : table (ses st) = before ++ [e];
  ad_published : published st = before ++ [e];
  ad_phase : reload_notify_phase (ses st) = 1;
  ad_idx : gdb_cart_lib_idx (ses st) = idx;
  ad_old : reload_notify_old_idx (ses st) = idx;
  ad_range : 0 <= idx < len before;
  ad_ticks : reload_notify_ticks (ses st) = ticks
}.

(** A step of the session that touches neither table. *)
Lemma put_notify_ok (st : state) phase cont old ticks :
  state_ok st -> state_ok (put (with_notify phase cont old ticks (ses st)) st) /\ published (put (with_notify phase cont old ticks (ses st)) st) = published st.
Proof.
  intros Hst. split; [apply put_ok; [by apply notify_libs_ok, Hst|apply Hst]|]. apply put_published. symmetry. apply Hst.
Qed.

Lemma pump_dropping idx after ticks p (st : state) :
  dropping idx after ticks st -> ticks < BLYT_RELOAD_NOTIFY_MAX_TICKS ->
  exists b st', blyt_session_gdb_reload_notify_pump malloc_ok p st = Some (b, st') /\
    if b : bool then swapped idx after st' else dropping idx after (ticks + 1) st' /\ ticks + 1 < BLYT_RELOAD_NOTIFY_MAX_TICKS.
Proof.
  intros [Hok Ht Hp Hph Hi Htk] Hlt. unfold blyt_session_gdb_reload_notify_pump. rewrite Hph. change (2 =? 0) with false.
  destruct (poll_ok p st Hok) as (w & -> & Hok' & Hp'). cbn [mbind option_bind]. cbv zeta. cbn [on_stub stub ses]. rewrite Hph, Htk. change (2 =? 1) with false.
  assert (forall phase cont old ticks, state_ok (put (with_notify phase cont old ticks (ses st)) (on_stub w st)) /\
    published (put (with_notify phase cont old ticks (ses st)) (on_stub w st)) = after) as Hput.
  { intros phase cont old tk. destruct (put_notify_ok (on_stub w st) phase cont old tk Hok') as [H1 H2]. split; [exact H1|]. rewrite <-Hp, <-Hp'. exact H2. }
  destruct (_ =? _); cbn [reload_notify_ticks with_notify]; [destruct (_ <? _) eqn:E|]; do 2 eexists; (split; [reflexivity|]); cbn iota beta.
  - split; [|lia]. destruct (Hput 2 (reload_notify_cont (ses st)) (reload_notify_old_idx (ses st)) (ticks + 1)). by constructor.
  - cbn [mbind option_bind]. destruct (Hput 0 (reload_notify_cont (ses st)) (reload_notify_old_idx (ses st)) (ticks + 1)). by constructor.
  - destruct (Hput 0 (reload_notify_cont (ses st)) (reload_notify_old_idx (ses st)) (reload_notify_ticks (ses st))). by constructor.
Qed.

(** The old entry goes, with the session's tables and the client's. *)
Lemma drop_publish idx before e ticks0 (st : state) cont old ticks phase :
  adding idx before e ticks0 st -> old = idx ->
  exists s', reload_notify_drop_old (with_notify phase cont old ticks (ses st)) = Some s' /\ libs_ok s'
    /\ table s' = <[Z.to_nat idx := e]> before
    /\ s' = with_libs (gdb_libs s') (gdb_libs_ffi s') (gdb_nlibs s') idx (with_notify phase cont old ticks (ses st)).
Proof.
  intros [Hok Ht Hp Hph Hi Ho Hr Htk] ->. apply (fold_last_spec (with_notify phase cont idx ticks (ses st))); [apply notify_libs_ok, Hok|exact Ht|done].
Qed.

Lemma pump_adding idx before e ticks p (st : state) :
  adding idx before e ticks st -> ticks < BLYT_RELOAD_NOTIFY_MAX_TICKS ->
  let after := <[Z.to_nat idx := e]> before in
  exists b st', blyt_session_gdb_reload_notify_pump malloc_ok p st = Some (b, st') /\
    if b : bool then swapped idx after st'
    else (adding idx before e (ticks + 1) st' /\ ticks + 1 < BLYT_RELOAD_NOTIFY_MAX_TICKS) \/ dropping idx after 0 st'.
Proof.
  intros Had Hlt after. pose proof Had as [Hok Ht Hp Hph Hi Ho Hr Htk]. unfold blyt_session_gdb_reload_notify_pump. rewrite Hph. change (1 =? 0) with false.
  destruct (poll_ok p st Hok) as (w & -> & Hok' & Hp'). cbn [mbind option_bind]. cbv zeta. cbn [on_stub stub ses]. rewrite Hph, Htk, Ho.
  cbn [reload_notify_phase reload_notify_ticks with_notify]. change (1 =? 1) with true. cbn iota.
  destruct (_ =? _); [destruct (_ <? _) eqn:E|].
  - do 2 eexists. split; [reflexivity|]. left. split; [|lia]. destruct (put_notify_ok (on_stub w st) 1 (reload_notify_cont (ses st)) idx (ticks + 1) Hok') as [H1 H2].
    constructor; (done || (rewrite <-Hp, <-Hp'; exact H2) || done).
  - destruct (drop_publish idx before e ticks st (reload_notify_cont (ses st)) idx (ticks + 1) 1 Had eq_refl) as (s' & -> & Hs' & Ht' & He). cbn [mbind option_bind].
    do 2 eexists. split; [reflexivity|]. cbn iota beta. destruct (publish_libs_ok s' (on_stub w st) Hs') as (H1 & H2 & H3); [apply Hok'|].
    destruct (put_notify_ok _ 0 (reload_notify_cont s') (reload_notify_old_idx s') (reload_notify_ticks s') H1) as [H4 H5]. rewrite H2 in H4, H5. unfold set_phase. rewrite H2.
    constructor; [done|exact Ht'|by rewrite H5, H3|done|by rewrite He].
  - destruct (drop_publish idx before e ticks st (reload_notify_cont (ses st)) idx ticks 1 Had eq_refl) as (s' & Hd & Hs' & Ht' & He).
    assert (reload_notify_drop_old (ses st) = Some s') as -> by (rewrite <-Hd; f_equal; destruct (ses st); cbn in *; by subst). cbn [mbind option_bind].
    do 2 eexists. split; [reflexivity|]. cbn iota beta. right.
    destruct (publish_libs_ok (with_notify 2 (fc_gdb_stub_continue_gen w) (reload_notify_old_idx s') 0 s') (on_stub w st)) as (H1 & H2 & H3); [by apply notify_libs_ok|apply Hok'|].
    constructor; rewrite ?H2; [exact H1|exact Ht'|by rewrite H3|done|by rewrite He|done].
Qed.

(** The polls that are left bound the pump. *)
Lemma pump_dropping_ends idx after ticks ps (st : state) :
  dropping idx after ticks st -> ticks < BLYT_RELOAD_NOTIFY_MAX_TICKS -> BLYT_RELOAD_NOTIFY_MAX_TICKS - ticks <= len ps ->
  exists st', pump_until malloc_ok ps st = Some (Some st') /\ swapped idx after st'.
Proof.
  revert ticks st; induction ps as [|p ps IH]; intros ticks st Hd Ht Hl; [unfold len in Hl; cbn in Hl; lia|]. rewrite len_cons in Hl. cbn [pump_until].
  destruct (pump_dropping idx after ticks p st Hd Ht) as (b & st' & -> & Hb). cbn [mbind option_bind]. destruct b; [by exists st'|]. destruct Hb. by apply (IH (ticks + 1)); [|lia..].
Qed.
Lemma pump_adding_ends idx before e ticks ps (st : state) :
  adding idx before e ticks st -> ticks < BLYT_RELOAD_NOTIFY_MAX_TICKS -> 2 * BLYT_RELOAD_NOTIFY_MAX_TICKS - ticks <= len ps ->
  exists st', pump_until malloc_ok ps st = Some (Some st') /\ swapped idx (<[Z.to_nat idx := e]> before) st'.
Proof.
  revert ticks st; induction ps as [|p ps IH]; intros ticks st Hd Ht Hl; [unfold BLYT_RELOAD_NOTIFY_MAX_TICKS, len in *; cbn in Hl; lia|]. rewrite len_cons in Hl. cbn [pump_until].
  destruct (pump_adding idx before e ticks p st Hd Ht) as (b & st' & -> & Hb). cbn [mbind option_bind]. destruct b; [by exists st'|].
  destruct Hb as [[Hb Hlt]|Hb]; [apply (IH (ticks + 1)); [done|lia..]|]. apply (pump_dropping_ends _ _ 0); [done|unfold BLYT_RELOAD_NOTIFY_MAX_TICKS; lia|lia].
Qed.

(** ** The blocking swap *)

(** Whatever happens on the stub while a session waits, the tables stay: only the session sets the layout. *)
Definition sets_layout (e : event T) : bool := match e with SetLayout _ _ => true | _ => false end.
Definition waited (e : event T) : Prop := event_ok I e /\ sets_layout e = false.

Lemma event_static e (w w' : world) : stub_ok I w -> sets_layout e = false -> run_event malloc_ok e w = Some w' -> static w' = static w.
Proof.
  intros Hw He. destruct e as [p|p|v| | | | | |a|a|c]; try done; cbn [run_event]; try (by intros [= <-]).
  - intros Hr. by apply (packet_effects I malloc_ok p).
  - unfold fc_gdb_stub_poll. destruct (transport _), p as [p|]; try (by intros [= <-]). intros Hr. by apply (packet_effects I malloc_ok p).
  - unfold fc_gdb_stub_set_has_client, clear_all_breakpoints. destruct v; cbn [negb]; [by intros [= <-]|].
    destruct (clear_breakpoint _); [destruct (rd _ _ _); [|done]|]; cbn [mbind option_bind]; by intros [= <-].
  - unfold fc_gdb_stub_notify_stopped. intros Hr. destruct (eff_stop I [] "swbreak:;" w (stop_now w) w') as [H _]; [apply (quiet_stop I w Hw)|exact Hr|by left|done..].
  - intros [= <-]. unfold fc_gdb_stub_notify_library_change. by rewrite send_static.
  - intros [= <-]. unfold fc_gdb_stub_continue_initial_halt. by destruct (_ && _).
  - intros [= <-]. by rewrite restore_spec.
  - rewrite (repatch_spec I) by done. intros [= <-]. by case_bool_decide.
Qed.

Lemma wait_events es (st : state) : state_ok st -> Forall waited es ->
  exists w, run_events malloc_ok es (stub st) = Some w /\ state_ok (on_stub w st) /\ published (on_stub w st) = published st.
Proof.
  intros Hst Hes. revert st Hst. induction Hes as [|e es [He Hl] _ IH]; intros st Hst; cbn [run_events]; [by exists (stub st); destruct st|].
  destruct (event_spec I malloc_ok e (stub st)) as (w & Hr & Hok & _); [apply Hst|done|]. pose proof (event_static e _ w (st_stub _ Hst) Hl Hr) as [= _ Hlay Hlib].
  rewrite Hr. cbn [mbind option_bind]. destruct (IH (on_stub w st)) as (w' & Hr' & Hok' & Hp').
  { constructor; [apply Hst|done|]. cbn [on_stub stub ses]. rewrite Hlib. apply Hst. }
  exists w'. split; [exact Hr'|]. split; [exact Hok'|]. rewrite <-Hp' || (transitivity (published (on_stub w st)); [exact Hp'|]). unfold published. cbn [on_stub stub]. by rewrite Hlib, Hlay.
Qed.
Lemma wait_ok k cont ticks (st : state) : state_ok st -> Forall (Forall waited) ticks ->
  exists st' rest, consume_loop malloc_ok k cont ticks st = Some (st', rest) /\ state_ok st' /\ published st' = published st /\ ses st' = ses st /\ Forall (Forall waited) rest.
Proof.
  revert ticks st; induction k as [|k IH]; intros ticks st Hst Ht; cbn [consume_loop]; [by eauto 10|]. destruct (negb _); [by eauto 10|].
  destruct ticks as [|es ticks]; [by apply IH|]. apply Forall_cons in Ht as [Hes Ht].
  destruct (wait_events es st Hst Hes) as (w & -> & Hok & Hp). cbn [mbind option_bind]. destruct (IH ticks (on_stub w st) Hok Ht) as (st' & rest & -> & ? & Hp' & Hs & ?).
  exists st', rest. split_and!; [done..|by rewrite Hp'|exact Hs|done].
Qed.
Lemma publish_wait_ok ticks (s : gdb_session) (st : state) : libs_ok s -> stub_ok I (stub st) -> Forall (Forall waited) ticks ->
  exists st' rest, publish_libs_and_wait malloc_ok ticks (put s st) = Some (st', rest) /\ state_ok st' /\ published st' = table s /\ ses st' = s /\ Forall (Forall waited) rest.
Proof.
  intros Hs Hk Ht. destruct (publish_libs_ok s st Hs Hk) as (H1 & H2 & H3). unfold publish_libs_and_wait. generalize 3000%nat as k. intros k.
  destruct (wait_ok k (fc_gdb_stub_continue_gen (stub (put s st))) ticks _ H1 Ht) as (st' & rest & -> & H4 & H5 & H6 & H7). exists st', rest. split_and!; [done..|by rewrite H5|by rewrite H6|done].
Qed.

Lemma bind_eq {A B} (a : A) (f : A -> option B) : (Some a ≫= f) = f a.
Proof. done. Qed.
Lemma fold_last_eq {A} old s s' (k : gdb_session -> option A) : fold_last old s = Some s' ->
  (l ← zget (gdb_libs s) (gdb_nlibs s - 1); libs ← zset (gdb_libs s) old l;
   s ← rebuild_gdb_libs_ffi (with_libs libs (gdb_libs_ffi s) (gdb_nlibs s - 1) old s); k s) = k s'.
Proof.
  unfold fold_last. destruct (zget _ _); [|done]. cbn [mbind option_bind]. destruct (zset _ _ _); [|done]. cbn [mbind option_bind]. by intros ->.
Qed.

(** ** Both swaps *)

Section reload.
Context (cart : blyt_cart_t) (base ld : Z) (reported_path : list Z).
Context (Hpath : c_string (report reported_path cart)) (Hbase : is_u32 base) (Hld : l_ld_of (cart_map cart) base = Some ld).
Let e := entry (report reported_path cart) (cart_map cart) base ld.

(** C20: A reload under the debugger replaces the cart's library in the list that the client is told about,
    and the swap ends whatever the client sends: each of its two phases takes at most
    [BLYT_RELOAD_NOTIFY_MAX_TICKS] polls.  Between the two phases, the client is told of both images of
    the cart, unless the table is full; the table never overflows. *)
Theorem gdb_reload_swap (st : state) ps :
  state_ok st -> blyt_session_gdb_is_debugging (ses st) = true -> gdb_cart_lib_idx (ses st) < gdb_nlibs (ses st) ->
  2 * BLYT_RELOAD_NOTIFY_MAX_TICKS <= len ps ->
  let idx := gdb_cart_lib_idx (ses st) in
  let after := <[Z.to_nat idx := e]> (table (ses st)) in
  exists st1 st2, blyt_session_gdb_reload_notify_begin cart base reported_path st = Some (true, st1) /\
    published st1 = (if gdb_nlibs (ses st) <? MAX_GDB_LIBS then table (ses st) ++ [e] else after) /\
    pump_until malloc_ok ps st1 = Some (Some st2) /\ swapped idx after st2.
Proof.
  intros Hst Hdbg Hidx Hps idx after. assert (0 < BLYT_RELOAD_NOTIFY_MAX_TICKS) as Hmax by done. pose proof (lo_count _ (st_libs _ Hst)) as Hn. pose proof Hdbg as [_ Hi]%andb_true_iff.
  unfold blyt_session_gdb_reload_notify_begin. cbv zeta. rewrite Hdbg. cbn [negb gdb_nlibs gdb_cart_lib_idx with_notify].
  set (s := with_notify (reload_notify_phase (ses st)) (reload_notify_cont (ses st)) (gdb_cart_lib_idx (ses st)) 0 (ses st)). assert (libs_ok s) as Hs by apply notify_libs_ok, Hst.
  destruct (gdb_nlibs (ses st) >=? MAX_GDB_LIBS) eqn:Efull.
  - destruct (fill_old_spec s idx _ _ base ld Hs ltac:(cbn; lia) Hpath Hbase Hld) as (s' & Hr & Hok & Ht & He). unfold fill_cart_gdb_lib_slot. change (gdb_cart_lib_idx (ses st)) with idx. rewrite Hr. cbn [mbind option_bind].
    destruct (publish_libs_ok (with_notify 2 (fc_gdb_stub_continue_gen (stub st)) (reload_notify_old_idx s') (reload_notify_ticks s') s') st) as (H1 & H2 & H3); [by apply notify_libs_ok|apply Hst|].
    set (st1 := publish_libs_nowait _) in *. destruct (pump_dropping_ends idx after 0 ps st1) as (st2 & Hp & Hsw); [|done|lia|].
    + constructor; rewrite ?H2; [done|exact Ht|rewrite H3; exact Ht|done|by rewrite He|by rewrite He].
    + exists st1, st2. split; [done|]. split; [|done]. rewrite H3. destruct (_ <? _) eqn:El; [lia|]. exact Ht.
  - destruct (fill_new_spec s _ _ base ld Hs ltac:(cbn; lia) Hpath Hbase Hld) as (s' & Hr & Hok & Ht & He). unfold fill_cart_gdb_lib_slot. change (gdb_nlibs (ses st)) with (gdb_nlibs s). change (gdb_cart_lib_idx (ses st)) with (gdb_cart_lib_idx s).
    rewrite Hr. cbn [mbind option_bind].
    destruct (publish_libs_ok (with_notify 1 (fc_gdb_stub_continue_gen (stub st)) (reload_notify_old_idx s') (reload_notify_ticks s') s') st) as (H1 & H2 & H3); [by apply notify_libs_ok|apply Hst|].
    set (st1 := publish_libs_nowait _) in *. destruct (pump_adding_ends idx (table (ses st)) e 0 ps st1) as (st2 & Hp & Hsw); [|done|lia|].
    + constructor; rewrite ?H2; [done|exact Ht|rewrite H3; exact Ht|done|by rewrite He|by rewrite He|rewrite len_table by apply Hst; lia|by rewrite He].
    + exists st1, st2. split; [done|]. split; [|done]. rewrite H3. cbn [s gdb_nlibs with_notify]. destruct (_ <? _) eqn:El; [exact Ht|lia].
Qed.

(** The blocking reload ends in the same tables, whatever happens on the debugger's thread while it waits. *)
Theorem gdb_reload_blocking (st : state) ticks :
  state_ok st -> gdb_enabled (ses st) = true -> 0 <= gdb_cart_lib_idx (ses st) < gdb_nlibs (ses st) -> reload_notify_phase (ses st) = 0 ->
  Forall (Forall waited) ticks ->
  exists st', blyt_session_gdb_notify_cart_reloaded malloc_ok cart base reported_path ticks st = Some st' /\
    swapped (gdb_cart_lib_idx (ses st)) (<[Z.to_nat (gdb_cart_lib_idx (ses st)) := e]> (table (ses st))) st'.
Proof.
  intros Hst Hen Hidx Hph Htk. pose proof (st_libs _ Hst) as Hs. pose proof (lo_count _ Hs) as Hn.
  unfold blyt_session_gdb_notify_cart_reloaded. cbv zeta. rewrite Hen. rewrite (proj2 (Z.ltb_ge _ _)) by lia. cbn [negb orb]. unfold fill_cart_gdb_lib_slot.
  destruct (gdb_nlibs (ses st) >=? MAX_GDB_LIBS) eqn:Efull.
  - destruct (fill_old_spec (ses st) (gdb_cart_lib_idx (ses st)) _ _ base ld Hs Hidx Hpath Hbase Hld) as (s' & -> & Hok & Ht & He). rewrite bind_eq.
    destruct (publish_wait_ok ticks s' st Hok (st_stub _ Hst) Htk) as (st' & rest & -> & H1 & H2 & H3 & _). rewrite bind_eq. exists st'. split; [done|].
    constructor; rewrite ?H3; [done|exact Ht|rewrite H2; exact Ht|by rewrite He|by rewrite He].
  - destruct (fill_new_spec (ses st) _ _ base ld Hs ltac:(lia) Hpath Hbase Hld) as (s' & -> & Hok & Ht & He). rewrite bind_eq.
    destruct (publish_wait_ok ticks s' st Hok (st_stub _ Hst) Htk) as (st1 & rest & -> & H1 & H2 & H3 & Hrest). rewrite bind_eq. rewrite H3.
    destruct (fold_last_spec s' (gdb_cart_lib_idx (ses st)) (table (ses st)) e Hok Ht) as (s2 & Hd & Hok2 & Ht2 & He2); [rewrite len_table by done; lia|].
    rewrite (fold_last_eq _ _ _ _ Hd). destruct (publish_wait_ok rest s2 st1 Hok2 (st_stub _ H1) Hrest) as (st' & rest' & -> & H4 & H5 & H6 & _). rewrite bind_eq. exists st'. split; [done|].
    constructor; rewrite ?H6; [done|done|by rewrite H5|by rewrite He2, He|by rewrite He2].
Qed.
End reload.
End swap.
