(* ===== verification/GdbImages.v ===== *)
(** * GdbImages: debugging a small session

    A guest with a few instructions, a stub on it, witnesses of the theorems of the GDB files, and the runs that show
    what a client must not do: insert one breakpoint twice, or one in the middle of another. *)

From S2P Require Import Prelude RunCtx ResourceTable ResourceTheorems Ecall EcallTheorems ElfSection Elf32 CartLoad CartImages DynLink DynLinkImages Save SaveTheorems ResourceIndex.
From S2P Require Import GdbTarget GdbStub GdbStubSpec GdbPackets GdbTheorems GdbDebug GdbTransport GdbReload GdbReloadTheorems.
From Stdlib Require Import ZArith Lia Strings.String.
From stdpp Require Import base tactics list gmap.
Open Scope Z_scope.

(** ** The guest *)

(** [c.nop], [addi a0, a0, 1], [c.nop], [c.nop] at 64. *)
Definition demo_code : list Z := [0x01; 0x00; 0x13; 0x05; 0x15; 0x00; 0x01; 0x00; 0x01; 0x00].
Definition guest_ram : flat := MkFlat 1024 (fun x => default 0 (zget demo_code (x - 64))).
Definition guest : gdb_target regs flat := MkTarget (MkMachine 64 0 false (MkRegs (fun r => r)) guest_ram None ∅ []) [] false.
Definition demo_world : world (option (gdb_target regs flat)) :=
  fc_gdb_stub_set_transport tcp_transport
    (MkWorld (with_layout (MkLayout (Some (text "/cart.elf")) 1) (with_ops gdb_cpu_ops initial_gdb)) [MkGdbLib (text "/libblytc.so") 0x10000 0x11000] (Some guest) []).
Definition always (_ : Z) : bool := true.

Lemma guest_byte x : is_u8 (default 0 (zget demo_code (x - 64))).
Proof.
  destruct (zget _ _) as [b|] eqn:E; [|done]. apply zget_elem in E. assert (Forall is_u8 demo_code) as Hb by (repeat constructor; done).
  rewrite Forall_forall in Hb. by apply Hb.
Qed.
Lemma guest_patched : patched guest.
Proof.
  constructor; [|done|done|constructor|constructor|intros e f He; by apply elem_of_nil in He]. intros x. apply guest_byte.
Qed.
Lemma guest_debugged : debugged (Some guest).
Proof. exists guest. split; [done|]. split; [done|exact (p_bytes _ guest_patched)]. Qed.
Lemma text_ok s : fitsb s = true -> c_string s.
Proof. intros H. by apply fitsb_fits. Qed.
Lemma demo_layout_ok : layout_ok (MkLayout (Some (text "/cart.elf")) 1) [MkGdbLib (text "/libblytc.so") 0x10000 0x11000].
Proof. split_and!; [by apply text_ok|done..|]. constructor; [|constructor]. split_and!; [by apply text_ok|done..]. Qed.
Lemma demo_world_ok : stub_ok debugged demo_world.
Proof. constructor; [done|done|by apply Forall_replicate|done|exact demo_layout_ok|exact gdb_contract|exact guest_debugged|by left]. Qed.
Lemma demo_debugging : debugging demo_world guest.
Proof. constructor; [exact demo_world_ok|done|done|exact guest_patched|intros e He; by apply elem_of_nil in He]. Qed.

(** ** The stub *)

Lemma gdb_stub_safe_witness :
  exists w', run_events always [SetClient true; Packet (text "Z0,42,4"); Packet (text "g"); Packet [36; 0; 255]; GuestRuns (Some guest); Stopped; Poll (Some (text "D"))]
    (fc_gdb_stub_set_transport tcp_transport
      (MkWorld (with_layout (MkLayout (Some (text "/cart.elf")) 1) (with_ops gdb_cpu_ops initial_gdb)) [MkGdbLib (text "/libblytc.so") 0x10000 0x11000] (Some guest) [])) = Some w'
    /\ stub_ok debugged w'.
Proof.
  apply (gdb_stub_safe debugged always); [exact gdb_contract|exact demo_layout_ok|exact guest_debugged|].
  repeat (apply Forall_cons; split; [exact guest_debugged || exact Logic.I|]). apply Forall_nil. exact Logic.I.
Defined.

Lemma gdb_packet_answered_witness :
  exists w', fc_gdb_stub_process_pkt always (text "qC") demo_world = Some w' /\ stub_ok debugged w'.
Proof.
  destruct (gdb_packet_answered debugged always (text "qC") demo_world demo_world_ok) as (w' & Hr & Hok & _). by exists w'.
Defined.

Lemma gdb_stop_holds_witness :
  exists w', run_events always [ContinueInitial; Packet (text "g"); Packet (text "?")] (send_response (text "T02thread:01;") (stop_now demo_world)) = Some w'
    /\ halted (g_gdb w') = true.
Proof.
  destruct (gdb_stop_holds debugged always (Packet [3]) [ContinueInitial; Packet (text "g"); Packet (text "?")] demo_world
    (send_response (text "T02thread:01;") (stop_now demo_world))) as (w' & Hr & Hh & _);
    [exact demo_world_ok|right; by right|reflexivity|repeat constructor|repeat constructor|]. by exists w'.
Defined.

Lemma gdb_breakpoints_refine_witness :
  exists w', run_packets always (bp_packet <$> [(true, 64); (true, 66); (false, 64)]) demo_world = Some w'
    /\ fc_gdb_stub_check_break 66 w' = Some true /\ fc_gdb_stub_check_break 64 w' = Some false.
Proof.
  destruct (gdb_breakpoints_refine debugged always [(true, 64); (true, 66); (false, 64)] demo_world 66) as (w' & Hr & _ & Hb & _);
    [exact demo_world_ok|by repeat (apply Forall_cons; split)|].
  destruct (gdb_breakpoints_refine debugged always [(true, 64); (true, 66); (false, 64)] demo_world 64) as (w2 & Hr2 & _ & Hb2 & _);
    [exact demo_world_ok|by repeat (apply Forall_cons; split)|].
  rewrite Hr in Hr2. injection Hr2 as <-. exists w'. split; [exact Hr|]. split; [rewrite Hb|rewrite Hb2]; vm_compute; reflexivity.
Defined.

Lemma gdb_documents_transfer_witness :
  fetch (Z.to_nat 8192) (read_exec_file 4) 0 [] demo_world = Some (text "/cart.elf", demo_world).
Proof. apply (gdb_documents_transfer debugged (Z.to_nat 8192) 4 demo_world); [exact demo_world_ok|lia|lia]. Defined.

(** ** The guest behind the breakpoints *)

(** Breakpoints on a compressed and on a full instruction, a stop, and the first one out again. *)
Definition demo_events : list (event (option (gdb_target regs flat))) :=
  [SetClient true; Packet (text "Z0,40,2"); Packet (text "Z0,42,4"); Stopped; Packet (text "z0,40,2"); Poll (Some (text "c"))].
Lemma packet_legal p t :
  (starts "Z0," p = false \/ forall e, e ∈ gdb_bps t -> apart (fst (parse_u32 (drop 3 p)), word t (fst (parse_u32 (drop 3 p)))) e) -> first_is 77 p = false ->
  legal (R := regs) (M := flat) (fun _ => True) (Packet p) t.
Proof. intros Hz H1. split; [exact H1|]. intros Hs _. destruct Hz as [Hz|Hz]; [congruence|exact Hz]. Qed.
Lemma demo_legal : legal_run always (fun _ => True) demo_events demo_world.
Proof.
  cbn [legal_run demo_events]. split; [by intros|]. intros w1 [= <-]. split.
  { intros t [= <-]. apply packet_legal; [right; intros e He; by apply elem_of_nil in He|done]. }
  intros w2 H2.
  assert ((w ← run_event always (Packet (text "Z0,40,2")) (with_g (fun g => set_initial true (set_run true (-1) (set_client true g))) demo_world);
           t ← cpu w; Some (gdb_bps t, word t 66)) = Some ([(64, word guest 64)], word guest 66)) as Hseen by (vm_compute; reflexivity).
  rewrite H2 in Hseen. cbn [mbind option_bind] in Hseen.
  split.
  { intros t Ht. rewrite Ht in Hseen. injection Hseen as Hb Hw. apply packet_legal; [right|done]. change (fst (parse_u32 (drop 3 (text "Z0,42,4")))) with 66.
    rewrite Hb. intros e ->%list_elem_of_singleton. rewrite Hw. right. vm_compute. done. }
  intros w3 _. split; [by intros|]. intros w4 _. split; [intros t _; by apply packet_legal; [left|]|]. intros w5 _. by split; [intros; split|].
Qed.

Lemma gdb_debug_transparent_witness :
  exists w' w'' t'', run_events always demo_events demo_world = Some w' /\ fc_gdb_stub_set_has_client false w' = Some w''
    /\ cpu w'' = Some t'' /\ forall x, byte_at (t_mem t'') x = program guest x.
Proof.
  destruct (gdb_debug_transparent always (fun _ => True) demo_events demo_world guest demo_debugging demo_legal) as (w' & t' & Hr & _ & _ & w'' & t'' & Hd & Hc & _ & Hx).
  exists w', w'', t''. split; [exact Hr|]. split; [exact Hd|]. split; [exact Hc|]. intros x. by apply Hx.
Defined.

Lemma gdb_target_roundtrip_witness :
  exists w', run_packets always [M_packet 128 [1; 2; 255]; m_packet 128 3] demo_world = Some w' /\ sent w' = [text "OK"; text "0102ff"].
Proof.
  destruct (gdb_target_roundtrip always demo_world guest 128 [1; 2; 255] (replicate 132 7)) as ((w' & Hr & Hs & _) & _);
    [exact demo_world_ok|done|done|done|repeat constructor; done|done|done|done|by apply Forall_replicate|done|].
  exists w'. split; [exact Hr|exact Hs].
Defined.

(** ** What a client must not do *)

Definition bp_run (cs : list (bool * Z)) : option (world (option (gdb_target regs flat))) := run_packets always (bp_packet <$> cs) demo_world.
(** The breakpoints of the stub, those of the session, and the program's bytes in memory. *)
Definition seen (w : world (option (gdb_target regs flat))) : option (list Z * list Z * list Z) :=
  t ← cpu w; Some (live w, fst <$> gdb_bps t, memory_read (t_mem t) 64 10).

(** A breakpoint inserted twice is set twice on the target, the second time over its own [ebreak], and removed once: the
    client has no breakpoint left, and every reply was [OK], but the session still has one; inserted and removed again, the
    program has an [ebreak] in the place of an instruction.  One inserted in the middle of another has the same
    effect when the first is removed first. *)
Theorem gdb_duplicate_corrupts :
  (bp_run [(true, 66); (true, 66); (false, 66)] ≫= seen) = Some ([], [66], demo_code)
  /\ (bp_run [(true, 66); (true, 66); (false, 66); (true, 66); (false, 66)] ≫= seen) = Some ([], [66], take 2 demo_code ++ ebreak ++ drop 6 demo_code)
  /\ (bp_run [(true, 66); (true, 68); (false, 66); (false, 68)] ≫= seen) = Some ([], [], take 4 demo_code ++ [0x10; 0x00] ++ drop 6 demo_code)
  /\ (sent <$> bp_run [(true, 66); (true, 66); (false, 66); (true, 66); (false, 66)]) = Some (replicate 5 (text "OK")).
Proof. split_and!; vm_compute; reflexivity. Qed.

(** ** Transport *)

Lemma gdb_frame_received_witness :
  tcp_recv_pkt_fd MAX_PACKET [[43]; frame (text "g")] = Some (Some (MkReceived (text "g") true [[]]))
  /\ tcp_recv_pkt_fd MAX_PACKET [[43]; text "$g#6"; text "7"] = Some None.
Proof.
  split.
  - destruct (gdb_frame_received [[43]; frame (text "g")] [43] (text "g") []) as [Hr _]; [reflexivity|by repeat constructor|by intros ?%list_elem_of_singleton|done|].
    destruct Hr as [Hr _]; [reflexivity|]. exact Hr.
  - destruct (gdb_frame_received [[43]; text "$g#6"; text "7"] [43] (text "g") []) as [_ Hr]; [reflexivity|by repeat constructor|by intros ?%list_elem_of_singleton|done|].
    apply Hr. by intros [=].
Defined.

Lemma gdb_connection_ends_witness :
  exists w', tcp_client always [text "+$Z0,42"; text ",4#"; text "54"; [3; 0]; frame (text "vCont;c")] demo_world = Some w'
    /\ fc_gdb_stub_check_break 66 w' = Some false /\ fc_gdb_stub_is_halted w' = false.
Proof.
  destruct (gdb_connection_ends debugged always [text "+$Z0,42"; text ",4#"; text "54"; [3; 0]; frame (text "vCont;c")] demo_world 66 demo_world_ok)
    as (w' & Hr & _ & Hb & Hh & _). exists w'. split; [exact Hr|]. by split.
Defined.

(** ** A reload *)

(** The session knows its cart and the C library. *)
Definition no_lib : fc_gdb_library_t := MkGdbLib [] 0 0.
Definition demo_session : gdb_session :=
  MkGdbSession ([MkGdbLib (text "/old.elf") 0x1000 0x1100; MkGdbLib (text "/libblytc.so") 0x10000 0x11000] ++ replicate 6 no_lib)
    ([(0x1000, 0x1100); (0x10000, 0x11000)] ++ replicate 6 (0, 0)) 2 0 (text "/cart.elf") true 0 0 0 0.
Definition demo_state : GdbReload.state (T := option (gdb_target regs flat)) := publish_libs_nowait (put demo_session (MkState demo_session demo_world)).

Lemma demo_libs_ok : libs_ok demo_session.
Proof.
  constructor; [done|done|done| | | |split; [by apply text_ok|done]].
  - apply Forall_app; split; [|apply Forall_replicate; split_and!; [constructor|done..]]. repeat (apply Forall_cons; split; [split_and!; [by apply text_ok|done..]|]). constructor.
  - by repeat (apply Forall_cons; split).
  - intros i Hi. change (gdb_nlibs demo_session) with 2 in Hi. assert (i = 0 \/ i = 1) as [-> | ->] by lia; done.
Qed.
Lemma demo_state_ok : state_ok debugged demo_state.
Proof. apply (publish_libs_ok debugged always demo_session (MkState demo_session demo_world) demo_libs_ok demo_world_ok). Qed.

Definition new_entry : fc_gdb_library_t := entry (text "/new.elf") (cart_map (opened linked_cart)) 0 (default 0 (l_ld_of (cart_map (opened linked_cart)) 0)).
Lemma new_entry_ld : l_ld_of (cart_map (opened linked_cart)) 0 = Some (default 0 (l_ld_of (cart_map (opened linked_cart)) 0)).
Proof. vm_compute. reflexivity. Qed.

Lemma gdb_reload_swap_witness :
  exists st1 st2, blyt_session_gdb_reload_notify_begin (opened linked_cart) 0 (text "/new.elf") demo_state = Some (true, st1)
    /\ published st1 = [MkGdbLib (text "/old.elf") 0x1000 0x1100; MkGdbLib (text "/libblytc.so") 0x10000 0x11000; new_entry]
    /\ pump_until always (replicate (Z.to_nat 200000) None) st1 = Some (Some st2)
    /\ published st2 = [new_entry; MkGdbLib (text "/libblytc.so") 0x10000 0x11000].
Proof.
  destruct (gdb_reload_swap debugged always (opened linked_cart) 0 _ (text "/new.elf") (text_ok (text "/new.elf") eq_refl) ltac:(done) new_entry_ld
    demo_state (replicate (Z.to_nat 200000) None)) as (st1 & st2 & Hb & Hp1 & Hp & Hsw);
    [exact demo_state_ok|done|done|unfold len; rewrite length_replicate; done|].
  exists st1, st2. split; [exact Hb|]. split; [exact Hp1|]. split; [exact Hp|exact (sw_published _ _ _ _ Hsw)].
Defined.

Lemma gdb_reload_blocking_witness :
  exists st', blyt_session_gdb_notify_cart_reloaded always (opened linked_cart) 0 (text "/new.elf") [[Packet (text "vCont;c")]; [Stopped]] demo_state = Some st'
    /\ table (ses st') = [new_entry; MkGdbLib (text "/libblytc.so") 0x10000 0x11000].
Proof.
  destruct (gdb_reload_blocking debugged always (opened linked_cart) 0 _ (text "/new.elf") (text_ok (text "/new.elf") eq_refl) ltac:(done) new_entry_ld
    demo_state [[Packet (text "vCont;c")]; [Stopped]]) as (st' & Hr & Hsw);
    [exact demo_state_ok|done|done|done|by repeat (apply Forall_cons; split)|].
  exists st'. split; [exact Hr|exact (sw_table _ _ _ _ Hsw)].
Defined.
