(* ===== verification/NativeState.v ===== *)
(** * NativeState: the state buffers of the bare-metal runtime

    Models the storage, the start-up parser and the typed accessors of
    [frontends/native/src/libblytcommon/blytcommon.c]: on bare metal the guest library is
    the whole runtime, and its state buffers live in statics of fixed dimensions.

    The statics are the record [native_state]; a C array is a list of its declared
    length, and an access outside it is [None].  The mapped cart file is a list of bytes
    at the address [base]; pointers into it are 32-bit addresses whose arithmetic
    wraps, and a load outside the mapping is [None].  The API trace
    ([blyt32_trace_*]) is diagnostic output and left out. *)

From S2P Require Import Prelude Handle FpCanon ElfSection StateBuffer.
From Stdlib Require Import ZArith Lia String.
From stdpp Require Import base tactics list.
Open Scope Z_scope.

Definition NATIVE_MAX_BUF : Z := 8.
Definition NATIVE_MAX_SLOTS : Z := 128.
Definition NATIVE_MAX_FIELDS : Z := 64.
Definition NATIVE_FIELD_STRIDE : Z := NATIVE_MAX_SLOTS * 8.
Definition NATIVE_BUF_STRIDE : Z := NATIVE_MAX_FIELDS * NATIVE_FIELD_STRIDE.
Definition NATIVE_BUF_NAME_CAP : Z := 64.

(** [BLYT_OK] and the error codes of [blyt.h]. *)
Definition BLYT_OK : Z := 0.
Definition BLYT_ERR_INVALID_ARG : Z := 1.
Definition BLYT_ERR_BUFFER_FULL : Z := 2.
Definition BLYT_ERR_IO : Z := 3.
Definition BLYT_ERR_NOT_FOUND : Z := 4.
Definition BLYT_ERR_SCHEMA_MISMATCH : Z := 5.

(** ** Statics *)

Record native_state := MkNative {
  s_arena : list (list Z);
  s_field_type : list (list Z);
  s_field_count : list Z;
  s_slot_bits : list (list Z);
  s_gen : list (list Z);
  s_buf_count : list Z;
  s_n_buffers : Z;
  s_buf_name : list (list Z);
  s_buf_name_len : list Z;
  s_schema_hash : Z;
  s_save_version : Z;
  s_default_palette : Z
}.

(** The zero-filled BSS. *)
Definition bss : native_state :=
  MkNative (replicate 8 (replicate (Z.to_nat NATIVE_BUF_STRIDE) 0)) (replicate 8 (replicate 64 0))
    (replicate 8 0) (replicate 8 (replicate 16 0)) (replicate 8 (replicate 128 0)) (replicate 8 0) 0
    (replicate 8 (replicate 64 0)) (replicate 8 0) 0 0 0.

Definition set_arena (v : list (list Z)) (s : native_state) : native_state :=
  let 'MkNative _ b c d e f g h i j k l := s in MkNative v b c d e f g h i j k l.
Definition set_types (v : list (list Z)) (n : list Z) (s : native_state) : native_state :=
  let 'MkNative a _ _ d e f g h i j k l := s in MkNative a v n d e f g h i j k l.
Definition set_bits (v : list (list Z)) (s : native_state) : native_state :=
  let 'MkNative a b c _ e f g h i j k l := s in MkNative a b c v e f g h i j k l.
Definition set_gens (v : list (list Z)) (s : native_state) : native_state :=
  let 'MkNative a b c d _ f g h i j k l := s in MkNative a b c d v f g h i j k l.
Definition set_counts (v : list Z) (s : native_state) : native_state :=
  let 'MkNative a b c d e _ g h i j k l := s in MkNative a b c d e v g h i j k l.
Definition set_n_buffers (v : Z) (s : native_state) : native_state :=
  let 'MkNative a b c d e f _ h i j k l := s in MkNative a b c d e f v h i j k l.
Definition set_names (v : list (list Z)) (n : list Z) (s : native_state) : native_state :=
  let 'MkNative a b c d e f g _ _ j k l := s in MkNative a b c d e f g v n j k l.
Definition set_hash (v : Z) (s : native_state) : native_state :=
  let 'MkNative a b c d e f g h i _ k l := s in MkNative a b c d e f g h i v k l.
Definition set_version (v : Z) (s : native_state) : native_state :=
  let 'MkNative a b c d e f g h i j _ l := s in MkNative a b c d e f g h i j v l.
Definition set_default_palette (v : Z) (s : native_state) : native_state :=
  let 'MkNative a b c d e f g h i j k _ := s in MkNative a b c d e f g h i j k v.

(** [a[i][j]] and [a[i][j] = x] *)
Definition zget2 {A} (a : list (list A)) (i j : Z) : option A := r ← zget a i; zget r j.
Definition zset2 {A} (a : list (list A)) (i j : Z) (x : A) : option (list (list A)) :=
  r ← zget a i; r' ← zset r j x; zset a i r'.

Definition field_width (type_tag : Z) : Z :=
  if (type_tag =? TYPE_I8) || (type_tag =? TYPE_U8) || (type_tag =? TYPE_BOOL) then 1
  else if (type_tag =? TYPE_I16) || (type_tag =? TYPE_U16) then 2
  else if type_tag =? TYPE_F64 then 8
  else 4.

(** The offset of a field's array in the row of its buffer. *)
Definition field_base (fi : Z) : Z := fi * NATIVE_FIELD_STRIDE.

Definition blyt_native_default_palette (st : native_state) : Z := s_default_palette st.

(** The name of a buffer: [s_buf_name_len[bi]] bytes of [s_buf_name[bi]]. *)
Definition native_name (st : native_state) (bi : Z) : option (list Z) :=
  row ← zget (s_buf_name st) bi; k ← zget (s_buf_name_len st) bi; rd row 0 k.

Definition native_gen (st : native_state) (bi s : Z) : option Z := zget2 (s_gen st) bi s.

Definition slot_allocated (st : native_state) (bi slot : Z) : option bool :=
  byte ← zget2 (s_slot_bits st) bi (u32 slot / 8);
  Some (negb (Z.land (Z.shiftr byte (u32 slot mod 8)) 1 =? 0)).

Definition ref_ok (st : native_state) (bi slot fi : Z) : option bool :=
  if negb (bi <? NATIVE_MAX_BUF) || (slot <? 0) then Some false
  else
    n ← zget (s_buf_count st) bi;
    if negb (u32 slot <? n) || negb (fi <? NATIVE_MAX_FIELDS) then Some false
    else slot_allocated st bi slot.

(** ** Start-up *)

Section parse.
(** The mapped file and its address. *)
Variables (m : list Z) (base : Z).

(** [memcpy(&v, p, n)] from the mapping. *)
Definition load (p n : Z) : option Z := rd_le m (p - base) n.
Definition load_i32 (p : Z) : option Z := v ← load p 4; Some (i32 v).

(** Pointer plus an integer. *)
Definition padd (p k : Z) : Z := u32 (p + k).

Section flatbuffer.
(** The buffer [fb, fb + fb_size). *)
Variables (fb fb_size : Z).

Definition fb_field_off (table voff : Z) : option Z :=
  soff ← load_i32 table;
  if soff =? 0 then Some 0
  else
    let vtable := padd table (- soff) in
    if (vtable <? fb) || (padd vtable 4 >? padd fb fb_size) then Some 0
    else
      vtsize ← load vtable 2;
      if (vtsize <? voff + 2) || (padd vtable vtsize >? padd fb fb_size) then Some 0
      else load (padd vtable voff) 2.

(** [None] inside is [NULL]. *)
Definition fb_uoffset_field (table voff : Z) : option (option Z) :=
  foff ← fb_field_off table voff;
  if foff =? 0 then Some None
  else
    let fptr := padd table foff in
    if padd fptr 4 >? padd fb fb_size then Some None
    else
      uoff ← load fptr 4;
      let target := padd fptr uoff in
      if (target <? fb) || (padd target 4 >? padd fb fb_size) then Some None else Some (Some target).

Definition fb_vec_at (vec i : Z) : option (option Z) :=
  let eref := padd (padd vec 4) (u32 (i * 4)) in
  if padd eref 4 >? padd fb fb_size then Some None
  else
    uoff ← load eref 4;
    let elem := padd eref uoff in
    if (elem <? fb) || (padd elem 4 >? padd fb fb_size) then Some None else Some (Some elem).

(** The byte pointer and the length. *)
Definition fb_string (table voff : Z) : option (option (Z * Z)) :=
  s ← fb_uoffset_field table voff;
  match s with
  | None => Some None
  | Some s =>
      slen ← load s 4;
      let str := padd s 4 in
      if padd str slen >? padd fb fb_size then Some None else Some (Some (str, slen))
  end.

Definition fb_u8_field (table voff dflt : Z) : option Z :=
  foff ← fb_field_off table voff;
  if foff =? 0 then Some dflt
  else
    let p := padd table foff in
    if padd p 1 >? padd fb fb_size then Some dflt else load p 1.

Definition fb_u64_field (table voff dflt : Z) : option Z :=
  foff ← fb_field_off table voff;
  if foff =? 0 then Some dflt
  else
    let p := padd table foff in
    if padd p 8 >? padd fb fb_size then Some dflt else load p 8.
End flatbuffer.

(** The comparison loop of [fb_str_eq], with [k] bytes left. *)
Fixpoint str_eq_loop (k : nat) (a b : Z) : option bool :=
  match k with
  | O => Some true
  | S k =>
      x ← load a 1; y ← load b 1;
      if negb (x =? y) then Some false else str_eq_loop k (padd a 1) (padd b 1)
  end.
Definition fb_str_eq (a alen b blen : Z) : option bool :=
  if negb (alen =? blen) then Some false else str_eq_loop (Z.to_nat alen) a b.

(** The defaults that stand until the layouts are parsed. *)
Definition layout_defaults (st : native_state) : native_state :=
  set_gens (replicate 8 (replicate 128 1)) (set_counts (replicate 8 NATIVE_MAX_SLOTS) st).

(** The [.cart.config] block: [save_version] and [default_palette]. *)
Definition parse_config (st : native_state) : option native_state :=
  found ← blyt_elf32_find_section (Some m) (Some (text ".cart.config"%string ++ [0]));
  match found with
  | None => Some st
  | Some (config_off, config_size) =>
      if negb (config_size >? 8) then Some st
      else
        let cfb := padd base (config_off + 8) in
        let cfb_size := config_size - 8 in
        if negb (cfb_size >=? 8) then Some st
        else
          croot ← load cfb 4;
          if negb (u32 (croot + 4) <=? cfb_size) then Some st
          else
            let ctable := padd cfb croot in
            cvsoff ← load_i32 ctable;
            if negb ((cvsoff >? 0) && (cvsoff <=? u32 (ctable - cfb))) then Some st
            else
              let cvtable := padd ctable (- cvsoff) in
              cvtsize ← load cvtable 2;
              if negb ((cvtsize >=? 8) && (u32 (u32 (cvtable - cfb) + cvtsize) <=? cfb_size)) then Some st
              else
                sv_foff ← load (padd cvtable 6) 2;
                st ← (if sv_foff =? 0 then Some st
                      else
                        let sv_ptr := padd ctable sv_foff in
                        if padd sv_ptr 4 <=? padd cfb cfb_size
                        then v ← load sv_ptr 4; Some (set_version v st) else Some st);
                if negb (cvtsize >=? 10) then Some st
                else
                  dp_foff ← load (padd cvtable 8) 2;
                  if dp_foff =? 0 then Some st
                  else
                    let dp_ptr := padd ctable dp_foff in
                    if padd dp_ptr 4 <=? padd cfb cfb_size
                    then v ← load dp_ptr 4; Some (set_default_palette v st) else Some st
  end.

Section layouts.
Variables (fb fb_size : Z).

(** The field loop: [k] fields are left from index [fi]. *)
Fixpoint type_loop (k : nat) (fld_vec bi fi : Z) (st : native_state) : option native_state :=
  match k with
  | O => Some st
  | S k =>
      fd ← fb_vec_at fb fb_size fld_vec fi;
      match fd with
      | None => Some st
      | Some fd =>
          t ← fb_u8_field fb fb_size fd 6 TYPE_I8;
          types ← zset2 (s_field_type st) bi fi t;
          counts ← zset (s_field_count st) bi (fi + 1);
          type_loop k fld_vec bi (fi + 1) (set_types types counts st)
      end
  end.

(** The record loop: [k] records are left from index [ri]. *)
Fixpoint record_loop (k : nat) (rec_vec : option Z) (rn rn_len bi ri : Z) (st : native_state) : option native_state :=
  match k with
  | O => Some st
  | S k =>
      let next := record_loop k rec_vec rn rn_len bi (ri + 1) st in
      vec ← rec_vec;
      rd ← fb_vec_at fb fb_size vec ri;
      match rd with
      | None => next
      | Some rd =>
          rdn ← fb_string fb fb_size rd 4;
          match rdn with
          | None => next
          | Some (rdn, rdn_len) =>
              same ← fb_str_eq rn rn_len rdn rdn_len;
              if negb same then next
              else
                fld_vec ← fb_uoffset_field fb fb_size rd 6;
                match fld_vec with
                | None => Some st
                | Some fld_vec =>
                    n_fields ← load fld_vec 4;
                    let n_fields := if n_fields >? NATIVE_MAX_FIELDS then NATIVE_MAX_FIELDS else n_fields in
                    type_loop (Z.to_nat n_fields) fld_vec bi 0 st
                end
          end
      end
  end.

(** [memcpy(s_buf_name[bi], bn, bn_len)] and the terminator. *)
Definition copy_name (elem bi : Z) (st : native_state) : option native_state :=
  bn ← fb_string fb fb_size elem 4;
  match bn with
  | None => Some st
  | Some (bn, bn_len) =>
      let bn_len := if bn_len >? NATIVE_BUF_NAME_CAP - 1 then NATIVE_BUF_NAME_CAP - 1 else bn_len in
      bytes ← rd m (bn - base) bn_len;
      row ← zget (s_buf_name st) bi;
      names ← zset (s_buf_name st) bi (splice row 0 (bytes ++ [0]));
      lens ← zset (s_buf_name_len st) bi bn_len;
      Some (set_names names lens st)
  end.

(** One [BufferDecl] whose address [elem] has been bounds-checked. *)
Definition load_decl (rec_vec : option Z) (n_recs elem bi : Z) (st : native_state) : option native_state :=
  e_soff ← load_i32 elem;
  if (e_soff <=? 0) || (e_soff >? u32 (elem - fb)) then Some st
  else
    let e_vtable := padd elem (- e_soff) in
    e_vtsize ← load e_vtable 2;
    if (e_vtsize <? 10) || (u32 (u32 (e_vtable - fb) + e_vtsize) >? fb_size) then Some st
    else
      count_foff ← load (padd e_vtable 8) 2;
      if count_foff =? 0 then Some st
      else
        let count_ptr := padd elem count_foff in
        if padd count_ptr 4 >? padd fb fb_size then Some st
        else
          count ← load count_ptr 4;
          counts ← zset (s_buf_count st) bi (if count <? NATIVE_MAX_SLOTS then count else NATIVE_MAX_SLOTS);
          st ← copy_name elem bi (set_counts counts st);
          rn ← fb_string fb fb_size elem 6;
          match rn with
          | None => Some st
          | Some (rn, rn_len) => record_loop (Z.to_nat n_recs) rec_vec rn rn_len bi 0 st
          end.

(** The buffer loop: [k] buffers are left from index [bi]. *)
Fixpoint decl_loop (k : nat) (vec : Z) (rec_vec : option Z) (n_recs bi : Z) (st : native_state) : option native_state :=
  match k with
  | O => Some st
  | S k =>
      let eref := padd (padd vec 4) (u32 (bi * 4)) in
      if padd eref 4 >? padd fb fb_size then Some st
      else
        elem_uoff ← load eref 4;
        let elem := padd eref elem_uoff in
        st ← (if padd elem 4 >? padd fb fb_size then Some st else load_decl rec_vec n_recs elem bi st);
        decl_loop k vec rec_vec n_recs (bi + 1) st
  end.

(** From the root offset on. *)
Definition parse_root (st : native_state) : option native_state :=
  root_off ← load fb 4;
  if u32 (root_off + 4) >? fb_size then Some st
  else
    let table := padd fb root_off in
    vtab_soff ← load_i32 table;
    if (vtab_soff <=? 0) || (vtab_soff >? u32 (table - fb)) then Some st
    else
      let vtable := padd table (- vtab_soff) in
      vtsize ← load vtable 2;
      if (vtsize <? 8) || (u32 (u32 (vtable - fb) + vtsize) >? fb_size) then Some st
      else
        buffers_foff ← load (padd vtable 6) 2;
        if buffers_foff =? 0 then Some st
        else
          let fptr := padd table buffers_foff in
          if padd fptr 4 >? padd fb fb_size then Some st
          else
            vec_uoff ← load fptr 4;
            let vec := padd fptr vec_uoff in
            if padd vec 4 >? padd fb fb_size then Some st
            else
              vec_len ← load vec 4;
              let n := if vec_len <? NATIVE_MAX_BUF then vec_len else NATIVE_MAX_BUF in
              hash ← fb_u64_field fb fb_size table 8 0;
              let st := set_hash hash (set_n_buffers n st) in
              rec_vec ← fb_uoffset_field fb fb_size table 4;
              n_recs ← match rec_vec with Some v => load v 4 | None => Some 0 end;
              decl_loop (Z.to_nat n) vec rec_vec n_recs 0 st.
End layouts.

(** The [.cart.layouts] block. *)
Definition parse_layouts (st : native_state) : option native_state :=
  found ← blyt_elf32_find_section (Some m) (Some (text ".cart.layouts"%string ++ [0]));
  match found with
  | None => Some st
  | Some (layouts_off, layouts_size) =>
      if layouts_size <=? 8 then Some st
      else
        let fb := padd base (layouts_off + 8) in
        let fb_size := layouts_size - 8 in
        if fb_size <? 8 then Some st else parse_root fb fb_size st
  end.
End parse.

(** [map] is the mapped cart and its address; [None] when [BLYT_CART_PATH] is not set or the
    file cannot be opened, measured or mapped. *)
Definition load_cart_buf_counts (map : option (list Z * Z)) (st : native_state) : option native_state :=
  let st := layout_defaults st in
  match map with
  | None => Some st
  | Some (m, base) =>
      if len m <? 52 then Some st
      else st ← parse_config m base st; parse_layouts m base st
  end.

(** ** Typed accessors

    Floats are their bit patterns.  [u32 (b - 1)] and [u32 (Z.land f 0xFFFF - 1)] are the
    zero-based indices. *)

Section access.
Variable st : native_state.

(** [memcpy(&v, field_base(bi, fi) + s * w, w)] and back. *)
Definition read_cell (bi fi s w : Z) : option Z :=
  row ← zget (s_arena st) bi; bs ← rd row (field_base fi + u32 s * w) w; Some (le_val bs).
Definition write_cell (bi fi s w v : Z) : option native_state :=
  row ← zget (s_arena st) bi;
  _ ← rd row (field_base fi + u32 s * w) w;
  rows ← zset (s_arena st) bi (splice row (field_base fi + u32 s * w) (le_bytes (Z.to_nat w) v));
  Some (set_arena rows st).

Definition buf_index (b : Z) : Z := u32 (b - 1).
Definition field_index (f : Z) : Z := u32 (Z.land f 0xFFFF - 1).

(** Two's complement reading of a byte and of a half-word. *)
Definition i8 (z : Z) : Z := if u8 z <? 128 then u8 z else u8 z - 256.
Definition i16 (z : Z) : Z := if u16 z <? 32768 then u16 z else u16 z - 65536.

Definition blyt_buffer_get_f32 (b s f : Z) : option Z :=
  let bi := buf_index b in let fi := field_index f in
  ok ← ref_ok st bi s fi;
  if negb ok then Some 0 else read_cell bi fi s 4.
Definition blyt_buffer_set_f32 (b s f v : Z) : option native_state :=
  let bi := buf_index b in let fi := field_index f in
  ok ← ref_ok st bi s fi;
  if negb ok then Some st else write_cell bi fi s 4 (blyt_canon_f32 v).

Definition blyt_buffer_get_f64 (b s f : Z) : option Z :=
  let bi := buf_index b in let fi := field_index f in
  ok ← ref_ok st bi s fi;
  if negb ok then Some 0 else read_cell bi fi s 8.
Definition blyt_buffer_set_f64 (b s f v : Z) : option native_state :=
  let bi := buf_index b in let fi := field_index f in
  ok ← ref_ok st bi s fi;
  if negb ok then Some st else write_cell bi fi s 8 (blyt_canon_f64 v).

Definition blyt_buffer_get_i32 (b s f : Z) : option Z :=
  let bi := buf_index b in let fi := field_index f in
  ok ← ref_ok st bi s fi;
  if negb ok then Some 0 else bits ← read_cell bi fi s 4; Some (i32 bits).
Definition blyt_buffer_set_i32 (b s f v : Z) : option native_state :=
  let bi := buf_index b in let fi := field_index f in
  ok ← ref_ok st bi s fi;
  if negb ok then Some st else write_cell bi fi s 4 (u32 v).

Definition blyt_buffer_get_u32 (b s f : Z) : option Z :=
  let bi := buf_index b in let fi := field_index f in
  ok ← ref_ok st bi s fi;
  if negb ok then Some 0 else read_cell bi fi s 4.
Definition blyt_buffer_set_u32 (b s f v : Z) : option native_state :=
  let bi := buf_index b in let fi := field_index f in
  ok ← ref_ok st bi s fi;
  if negb ok then Some st else write_cell bi fi s 4 v.

Definition blyt_buffer_get_i16 (b s f : Z) : option Z :=
  let bi := buf_index b in let fi := field_index f in
  ok ← ref_ok st bi s fi;
  if negb ok then Some 0 else v16 ← read_cell bi fi s 2; Some (i16 v16).
Definition blyt_buffer_set_i16 (b s f v : Z) : option native_state :=
  let bi := buf_index b in let fi := field_index f in
  ok ← ref_ok st bi s fi;
  if negb ok then Some st else write_cell bi fi s 2 (u16 v).

Definition blyt_buffer_get_u16 (b s f : Z) : option Z :=
  let bi := buf_index b in let fi := field_index f in
  ok ← ref_ok st bi s fi;
  if negb ok then Some 0 else read_cell bi fi s 2.
Definition blyt_buffer_set_u16 (b s f v : Z) : option native_state :=
  let bi := buf_index b in let fi := field_index f in
  ok ← ref_ok st bi s fi;
  if negb ok then Some st else write_cell bi fi s 2 v.

Definition blyt_buffer_get_i8 (b s f : Z) : option Z :=
  let bi := buf_index b in let fi := field_index f in
  ok ← ref_ok st bi s fi;
  if negb ok then Some 0 else v8 ← read_cell bi fi s 1; Some (i8 v8).
Definition blyt_buffer_set_i8 (b s f v : Z) : option native_state :=
  let bi := buf_index b in let fi := field_index f in
  ok ← ref_ok st bi s fi;
  if negb ok then Some st else write_cell bi fi s 1 (u8 v).

Definition blyt_buffer_get_u8 (b s f : Z) : option Z :=
  let bi := buf_index b in let fi := field_index f in
  ok ← ref_ok st bi s fi;
  if negb ok then Some 0 else read_cell bi fi s 1.
Definition blyt_buffer_set_u8 (b s f v : Z) : option native_state :=
  let bi := buf_index b in let fi := field_index f in
  ok ← ref_ok st bi s fi;
  if negb ok then Some st else write_cell bi fi s 1 v.

Definition blyt_buffer_get_bool (b s f : Z) : option Z :=
  let bi := buf_index b in let fi := field_index f in
  ok ← ref_ok st bi s fi;
  if negb ok then Some 0 else raw ← read_cell bi fi s 1; Some (if negb (raw =? 0) then 1 else 0).
Definition blyt_buffer_set_bool (b s f : Z) (v : bool) : option native_state :=
  let bi := buf_index b in let fi := field_index f in
  ok ← ref_ok st bi s fi;
  if negb ok then Some st else write_cell bi fi s 1 (if v then 1 else 0).

(** ** Slots *)

(** [for (i = 0; i < (int32_t)s_buf_count[bi]; i++)]: at most 128 rounds. *)
Fixpoint free_scan (fuel : nat) (bi i n : Z) : option (option Z) :=
  match fuel with
  | O => None
  | S fuel =>
      if i <? i32 n then
        byte ← zget2 (s_slot_bits st) bi (i / 8);
        if Z.land byte (u8 (Z.shiftl 1 (i mod 8))) =? 0 then Some (Some i) else free_scan fuel bi (i + 1) n
      else Some None
  end.

(** The code and [*out_slot] ([None] when not written); [out_slot] is not [NULL]. *)
Definition blyt_buffer_alloc_slot (b : Z) : option (Z * option Z * native_state) :=
  let bi := buf_index b in
  if bi >=? NATIVE_MAX_BUF then Some (BLYT_ERR_INVALID_ARG, None, st)
  else
    n ← zget (s_buf_count st) bi;
    r ← free_scan 129 bi 0 n;
    match r with
    | None => Some (BLYT_ERR_BUFFER_FULL, None, st)
    | Some i =>
        byte ← zget2 (s_slot_bits st) bi (i / 8);
        bits ← zset2 (s_slot_bits st) bi (i / 8) (Z.lor byte (u8 (Z.shiftl 1 (i mod 8))));
        Some (BLYT_OK, Some i, set_bits bits st)
    end.

(** Zero the slot's cells in the row, for [k] fields from index [fi]. *)
Fixpoint zero_fields (k : nat) (bi fi s : Z) (row : list Z) : option (list Z) :=
  match k with
  | O => Some row
  | S k =>
      t ← zget2 (s_field_type st) bi fi;
      let w := field_width t in
      _ ← rd row (field_base fi + u32 s * w) w;
      zero_fields k bi (fi + 1) s (splice row (field_base fi + u32 s * w) (replicate (Z.to_nat w) 0))
  end.

Definition blyt_buffer_free_slot (b s : Z) : option (Z * native_state) :=
  let bi := buf_index b in
  if (bi >=? NATIVE_MAX_BUF) || (s <? 0) then Some (BLYT_ERR_INVALID_ARG, st)
  else
    n ← zget (s_buf_count st) bi;
    if u32 s >=? n then Some (BLYT_ERR_INVALID_ARG, st)
    else
      al ← slot_allocated st bi s;
      if negb al then Some (BLYT_ERR_INVALID_ARG, st)
      else
        byte ← zget2 (s_slot_bits st) bi (u32 s / 8);
        bits ← zset2 (s_slot_bits st) bi (u32 s / 8) (Z.land byte (u8 (Z.lnot (Z.shiftl 1 (u32 s mod 8)))));
        nf ← zget (s_field_count st) bi;
        row ← zget (s_arena st) bi;
        row' ← zero_fields (Z.to_nat nf) bi 0 s row;
        rows ← zset (s_arena st) bi row';
        g ← zget2 (s_gen st) bi s;
        gens ← zset2 (s_gen st) bi s (blyt_gen_next g);
        Some (BLYT_OK, set_gens gens (set_arena rows (set_bits bits st))).

(** ** Packed entity refs *)

Definition blyt_buffer_ref (b s : Z) : option Z :=
  let bi := buf_index b in
  if negb (bi <? NATIVE_MAX_BUF) || (s <? 0) then Some 0
  else
    n ← zget (s_buf_count st) bi;
    if negb (u32 s <? n) then Some 0
    else
      al ← slot_allocated st bi s;
      if negb al then Some 0
      else g ← native_gen st bi s; Some (Z.lor (u32 (Z.shiftl g 16)) (u32 s)).

Definition blyt_buffer_ref_valid (b ref : Z) : option bool :=
  let bi := buf_index b in
  let s := Z.land ref 0xFFFF in
  if (ref =? 0) || negb (bi <? NATIVE_MAX_BUF) then Some false
  else
    n ← zget (s_buf_count st) bi;
    if negb (s <? n) then Some false
    else
      al ← slot_allocated st bi s;
      if negb al then Some false
      else g ← native_gen st bi s; Some (g =? u16 (Z.shiftr ref 16)).
End access.
