(* ===== verification/GuestStubs.v ===== *)
(** * GuestStubs: the guest side of the emulated API

    Models the ECALL stubs of [runtime/guest/src/libblyt32/blyt32.c] and
    [runtime/guest/src/libblytcommon/blytcommon_emu.c]: the functions a cart calls in the
    emulator.  A stub loads the argument registers, executes [ecall], which
    [blyt_ecall_handler] services, and reads the result register.  Floats are their
    bit patterns; a pointer argument is a guest address.

    The cart's [on_save_state] and [on_load_state] callbacks are parameters of the two
    functions that call them. *)

From S2P Require Import Prelude MemBudget RunCtx Ecall NativeState.
From Stdlib Require Import ZArith Lia.
From stdpp Require Import base tactics list.
Open Scope Z_scope.

Definition BUF_OP_SET_F32 : Z := 2.
Definition BUF_OP_GET_I32 : Z := 3.
Definition BUF_OP_SET_I32 : Z := 4.
Definition BUF_OP_GET_U32 : Z := 5.
Definition BUF_OP_SET_U32 : Z := 6.
Definition BUF_OP_GET_I16 : Z := 7.
Definition BUF_OP_SET_I16 : Z := 8.
Definition BUF_OP_GET_U16 : Z := 9.
Definition BUF_OP_SET_U16 : Z := 10.
Definition BUF_OP_GET_I8 : Z := 11.
Definition BUF_OP_SET_I8 : Z := 12.
Definition BUF_OP_GET_U8 : Z := 13.
Definition BUF_OP_SET_U8 : Z := 14.
Definition BUF_OP_GET_BOOL : Z := 15.

Section stubs.
Context {R M : Type} `{RegFile R} `{GuestMemory M} (env : ecall_env).
Abbreviation mach := (machine R M).

(** Load the registers and execute [ecall]. *)
Definition ecall (regs : list (Z * Z)) (num : Z) (m : mach) : option mach :=
  blyt_ecall_handler env (rv_set_reg (foldl (fun m p => rv_set_reg m (fst p) (snd p)) m regs) rv_reg_a7 num).

Definition a0_of (m : mach) : Z := rv_get_reg m rv_reg_a0.

(** ** State buffers *)

(** [cast] reads the result register as the return type. *)
Definition STUB_GET (cast : Z -> Z) (op buf slot field : Z) (m : mach) : option (Z * mach) :=
  m' ← ecall [(rv_reg_a0, op); (rv_reg_a1, buf); (rv_reg_a2, u32 slot); (rv_reg_a3, field)] BLYT_ECALL_BUF_OP m;
  Some (cast (a0_of m'), m').

(** [vbits] is the value copied into a zeroed word. *)
Definition STUB_SET (op buf slot field vbits : Z) (m : mach) : option mach :=
  ecall [(rv_reg_a0, op); (rv_reg_a1, buf); (rv_reg_a2, u32 slot); (rv_reg_a3, field); (rv_reg_a4, vbits)]
    BLYT_ECALL_BUF_OP m.

Definition stub_get_f32 := STUB_GET u32 BUF_OP_GET_F32.
Definition stub_set_f32 (b s f v : Z) := STUB_SET BUF_OP_SET_F32 b s f v.
Definition stub_get_i32 := STUB_GET i32 BUF_OP_GET_I32.
Definition stub_set_i32 (b s f v : Z) := STUB_SET BUF_OP_SET_I32 b s f (u32 v).
Definition stub_get_u32 := STUB_GET u32 BUF_OP_GET_U32.
Definition stub_set_u32 (b s f v : Z) := STUB_SET BUF_OP_SET_U32 b s f v.
Definition stub_get_i16 := STUB_GET i16 BUF_OP_GET_I16.
Definition stub_set_i16 (b s f v : Z) := STUB_SET BUF_OP_SET_I16 b s f (u16 v).
Definition stub_get_u16 := STUB_GET u16 BUF_OP_GET_U16.
Definition stub_set_u16 (b s f v : Z) := STUB_SET BUF_OP_SET_U16 b s f v.
Definition stub_get_i8 := STUB_GET i8 BUF_OP_GET_I8.
Definition stub_set_i8 (b s f v : Z) := STUB_SET BUF_OP_SET_I8 b s f (u8 v).
Definition stub_get_u8 := STUB_GET u8 BUF_OP_GET_U8.
Definition stub_set_u8 (b s f v : Z) := STUB_SET BUF_OP_SET_U8 b s f v.

(** [((uint64_t)(uint32_t)a1 << 32) | (uint32_t)a0] *)
Definition stub_get_f64 (b s f : Z) (m : mach) : option (Z * mach) :=
  m' ← ecall [(rv_reg_a0, BUF_OP_GET_F64); (rv_reg_a1, b); (rv_reg_a2, u32 s); (rv_reg_a3, f)] BLYT_ECALL_BUF_OP m;
  Some (Z.lor (u64 (Z.shiftl (rv_get_reg m' rv_reg_a1) 32)) (a0_of m'), m').
Definition stub_set_f64 (b s f bits : Z) (m : mach) : option mach :=
  ecall [(rv_reg_a0, BUF_OP_SET_F64); (rv_reg_a1, b); (rv_reg_a2, u32 s); (rv_reg_a3, f);
         (rv_reg_a4, u32 bits); (rv_reg_a5, u32 (Z.shiftr bits 32))] BLYT_ECALL_BUF_OP m.

Definition stub_get_bool := STUB_GET (fun a0 => if negb (a0 =? 0) then 1 else 0) BUF_OP_GET_BOOL.
Definition stub_set_bool (b s f : Z) (v : bool) := STUB_SET BUF_OP_SET_BOOL b s f (if v then 1 else 0).

Definition stub_alloc_slot (b out_slot : Z) (m : mach) : option (Z * mach) :=
  m' ← ecall [(rv_reg_a0, BUF_OP_ALLOC_SLOT); (rv_reg_a1, b); (rv_reg_a2, out_slot)] BLYT_ECALL_BUF_OP m;
  Some (i32 (a0_of m'), m').
Definition stub_free_slot (b s : Z) (m : mach) : option (Z * mach) :=
  m' ← ecall [(rv_reg_a0, BUF_OP_FREE_SLOT); (rv_reg_a1, b); (rv_reg_a2, u32 s)] BLYT_ECALL_BUF_OP m;
  Some (i32 (a0_of m'), m').
Definition stub_ref (b s : Z) (m : mach) : option (Z * mach) :=
  m' ← ecall [(rv_reg_a0, BUF_OP_REF); (rv_reg_a1, b); (rv_reg_a2, u32 s)] BLYT_ECALL_BUF_OP m;
  Some (a0_of m', m').
Definition stub_ref_valid (b ref : Z) (m : mach) : option (bool * mach) :=
  m' ← ecall [(rv_reg_a0, BUF_OP_REF_VALID); (rv_reg_a1, b); (rv_reg_a2, ref)] BLYT_ECALL_BUF_OP m;
  Some (negb (a0_of m' =? 0), m').

(** ** Saves *)

Section callbacks.
(** The cart's callbacks; the second is given the [save_version] of the save. *)
Variable blyt_cart_on_save_state : mach -> option mach.
Variable blyt_cart_on_load_state : Z -> mach -> option mach.

Definition stub_save_write (slot : Z) (m : mach) : option (Z * mach) :=
  m ← blyt_cart_on_save_state m;
  m' ← ecall [(rv_reg_a0, slot)] BLYT_ECALL_SAVE_WRITE m;
  Some (i32 (a0_of m'), m').

Definition stub_save_read (slot : Z) (m : mach) : option (Z * mach) :=
  m' ← ecall [(rv_reg_a0, slot)] BLYT_ECALL_SAVE_READ m;
  let result := i32 (a0_of m') in
  if result =? BLYT_OK then
    m'' ← blyt_cart_on_load_state (rv_get_reg m' rv_reg_a1) m'; Some (result, m'')
  else Some (result, m').
End callbacks.

(** ** Surfaces *)

Definition stub_surface_create (w h : Z) (m : mach) : option (Z * mach) :=
  m' ← ecall [(rv_reg_a0, u32 w); (rv_reg_a1, u32 h)] BLYT_ECALL_SURFACE_CREATE m; Some (a0_of m', m').
Definition stub_surface_destroy (surface : Z) (m : mach) : option mach :=
  ecall [(rv_reg_a0, surface)] BLYT_ECALL_SURFACE_DESTROY m.
Definition stub_surface_clear (dst color : Z) (m : mach) : option mach :=
  ecall [(rv_reg_a0, dst); (rv_reg_a1, color)] BLYT_ECALL_SURFACE_CLEAR m.
Definition stub_surface_pixel (dst x y color : Z) (m : mach) : option mach :=
  ecall [(rv_reg_a0, dst); (rv_reg_a1, u32 x); (rv_reg_a2, u32 y); (rv_reg_a3, color)] BLYT_ECALL_SURFACE_PIXEL m.
Definition stub_surface_rect_fill (dst x y w h color : Z) (m : mach) : option mach :=
  ecall [(rv_reg_a0, dst); (rv_reg_a1, u32 x); (rv_reg_a2, u32 y); (rv_reg_a3, u32 w); (rv_reg_a4, u32 h);
         (rv_reg_a5, color)] BLYT_ECALL_SURFACE_RECT_FILL m.
Definition stub_surface_line (dst x0 y0 x1 y1 color : Z) (m : mach) : option mach :=
  ecall [(rv_reg_a0, dst); (rv_reg_a1, u32 x0); (rv_reg_a2, u32 y0); (rv_reg_a3, u32 x1); (rv_reg_a4, u32 y1);
         (rv_reg_a5, color)] BLYT_ECALL_SURFACE_LINE m.
Definition stub_surface_blit (dst src x y : Z) (m : mach) : option mach :=
  ecall [(rv_reg_a0, dst); (rv_reg_a1, src); (rv_reg_a2, u32 x); (rv_reg_a3, u32 y)] BLYT_ECALL_SURFACE_BLIT m.
Definition stub_gfx_acquire (m : mach) : option (Z * mach) :=
  m' ← ecall [] BLYT_ECALL_GFX_ACQUIRE m; Some (a0_of m', m').
Definition stub_gfx_present (m : mach) : option mach := ecall [] BLYT_ECALL_GFX_PRESENT m.
Definition stub_gfx_palette_set (palette : Z) (m : mach) : option mach :=
  ecall [(rv_reg_a0, palette)] BLYT_ECALL_GFX_PALETTE_SET m.
Definition stub_surface_acquire (surface out : Z) (m : mach) : option (Z * mach) :=
  m' ← ecall [(rv_reg_a0, surface); (rv_reg_a1, out)] BLYT_ECALL_SURFACE_ACQUIRE m; Some (i32 (a0_of m'), m').
(** [lock] is the address of the [blyt_lock_t], whose [token] is its fifth word. *)
Definition stub_surface_release (lock : Z) (m : mach) : option mach :=
  let token := if negb (lock =? 0) then ResourceTable.read_u32_le (memory_read (rv_mem m) (u32 (lock + 16)) 4) else 0 in
  ecall [(rv_reg_a0, token)] BLYT_ECALL_SURFACE_RELEASE m.

(** ** Lifecycle, console and resources ([blytcommon_emu.c]) *)

Definition stub_frame_done (m : mach) : option mach := ecall [] BLYT_ECALL_FRAME_DONE m.
Definition stub_phase_enter (phase : Z) (m : mach) : option mach := ecall [(rv_reg_a0, u32 phase)] BLYT_ECALL_PHASE m.

(** [None] when there is no NUL in [fuel] bytes. *)
Fixpoint blytcommon_strlen (fuel : nat) (m : mach) (s n : Z) : option Z :=
  match fuel with
  | O => None
  | S fuel =>
      match memory_read (rv_mem m) (u32 (s + n)) 1 with
      | [c] => if c =? 0 then Some n else blytcommon_strlen fuel m s (n + 1)
      | _ => None
      end
  end.
Definition stub_console_debug (s : Z) (m : mach) : option mach :=
  n ← blytcommon_strlen (Z.to_nat (ram_size (rv_mem m))) m s 0;
  ecall [(rv_reg_a0, s); (rv_reg_a1, n)] BLYT_ECALL_CONSOLE_DEBUG m.

(** The machine after the call never runs on: [exit_group] halts it. *)
Definition stub_exit (code : Z) (m : mach) : option mach := ecall [(rv_reg_a0, u32 code)] 94 m.

Definition stub_runtime_startup (m : mach) : option mach := Some m.

Definition stub_resource_pin (id out_ptr out_size : Z) (m : mach) : option (Z * mach) :=
  m' ← ecall [(rv_reg_a0, id); (rv_reg_a1, out_ptr); (rv_reg_a2, out_size)] BLYT_ECALL_RESOURCE_PIN m;
  Some (i32 (a0_of m'), m').
Definition stub_resource_unpin (id : Z) (m : mach) : option (Z * mach) :=
  m' ← ecall [(rv_reg_a0, id)] BLYT_ECALL_RESOURCE_UNPIN m; Some (i32 (a0_of m'), m').

(** The struct of [blyt_mem_stats], written at [out]; [acct] is the address of the
    guest's [blyt_mem_acct]. *)
Definition stub_mem_stats (acct out : Z) (m : mach) : mach :=
  if out =? 0 then m
  else
    let heap := mem_acct_read_u32 (rv_mem m) acct in
    let cache := mem_acct_read_u32 (rv_mem m) (u32 (acct + 8)) in
    let words := [cache; heap; u32 (heap + cache); BLYT_MEM_BUDGET_BYTES] in
    set_mem m (memory_write (rv_mem m) out (concat (write_u32_le <$> words))).
Definition stub_mem_resources (resources cap : Z) (m : mach) : option (Z * mach) :=
  m' ← ecall [(rv_reg_a0, resources); (rv_reg_a1, cap)] BLYT_ECALL_MEM_RESOURCES m; Some (a0_of m', m').
End stubs.
