(* ===== verification/NativeSpec.v ===== *)
(** * NativeSpec: the bare-metal state buffers simulate the emulated ones

    The relation [sim] between the statics of [NativeState] and the host's state context
    of [StateBuffer], and for each accessor and slot operation the lemma that the two
    implementations return the same and stay related. *)

From S2P Require Import Prelude Handle FpCanon StateBuffer StateBufferSpec NativeState.
From Stdlib Require Import ZArith Lia.
From stdpp Require Import base tactics list.
Open Scope Z_scope.

(** ** Rows *)

Lemma zget2_row {A} (a : list (list A)) i r j : zget a i = Some r -> zget2 a i j = zget r j.
Proof. intros H. unfold zget2. by rewrite H. Qed.

Lemma zset2_row {A} (a : list (list A)) i r j x :
  zget a i = Some r -> 0 <= j < len r -> zset2 a i j x = Some (<[Z.to_nat i := <[Z.to_nat j := x]> r]> a).
Proof.
  intros H Hj. pose proof (zget_Some _ _ _ H) as [? _]. unfold zset2. rewrite H. cbn. rewrite zset_Some by lia.
  cbn. by rewrite zset_Some by lia.
Qed.

(** A write inside a slice, seen through the slice. *)
Lemma sub_splice_inner {A} (l new : list A) o k n :
  0 <= o -> 0 <= k -> k + len new <= n -> o + n <= len l ->
  sub (splice l (o + k) new) o n = splice (sub l o n) k new.
Proof.
  intros. pose proof (len_nonneg new).
  assert (len (sub l o n) = n) as Hn by (rewrite len_sub by lia; lia).
  assert (len (sub (splice l (o + k) new) o n) = n) as Hn2 by (rewrite len_sub; rewrite ?len_splice; lia).
  apply list_eq_zget; rewrite Hn2.
  - rewrite len_splice by lia. by rewrite Hn.
  - intros i Hi. rewrite zget_sub, !zget_splice by lia.
    replace ((o + k <=? o + i) && (o + i <? o + k + len new)) with ((k <=? i) && (i <? k + len new)) by lia.
    destruct (_ && _); [f_equal; lia|]. by rewrite zget_sub by lia.
Qed.

Lemma s_arena_set rows st : s_arena (set_arena rows st) = rows.
Proof. by destruct st. Qed.

(** ** The relation *)

Record buf_sim (st : native_state) (bi : Z) (b : blyt_buffer_ctx_t) : Prop := {
  bs_shape : 0 <= count b <= 128 /\ n_fields b <= 64;
  bs_count : zget (s_buf_count st) bi = Some (count b);
  bs_nf : zget (s_field_count st) bi = Some (n_fields b);
  bs_types : exists ts, zget (s_field_type st) bi = Some ts /\ len ts = 64
    /\ forall fi, 0 <= fi < n_fields b -> zget ts fi = zget (field_types b) fi;
  bs_bits : zget (s_slot_bits st) bi = Some (slot_bitset b);
  bs_gens : zget (s_gen st) bi = Some (slot_gens b);
  bs_data : exists row, zget (s_arena st) bi = Some row /\ len row = 65536
    /\ forall fi d, 0 <= fi < n_fields b -> zget (field_data b) fi = Some (Some d) -> sub row (fi * 1024) (len d) = d
}.

Record sim (st : native_state) (ctx : blyt_state_ctx_t) : Prop := {
  sim_wf : ctx_wf ctx;
  sim_n : s_n_buffers st = n_buffers ctx /\ n_buffers ctx <= 8;
  sim_buf : forall bi b, 0 <= bi < n_buffers ctx -> zget (buffers ctx) bi = Some b -> buf_sim st bi b
}.

(** The statics of one buffer are the same in two states. *)
Definition same_rows (st st' : native_state) (bi : Z) : Prop :=
  zget (s_buf_count st') bi = zget (s_buf_count st) bi /\ zget (s_field_count st') bi = zget (s_field_count st) bi
  /\ zget (s_field_type st') bi = zget (s_field_type st) bi /\ zget (s_slot_bits st') bi = zget (s_slot_bits st) bi
  /\ zget (s_gen st') bi = zget (s_gen st) bi /\ zget (s_arena st') bi = zget (s_arena st) bi.

Lemma buf_sim_same st st' bi b : same_rows st st' bi -> buf_sim st bi b -> buf_sim st' bi b.
Proof. intros (H1 & H2 & H3 & H4 & H5 & H6) []. split; congruence || (rewrite ?H3, ?H6; done). Qed.

Lemma sim_upd st st' ctx bi b b' :
  sim st ctx -> 0 <= bi < n_buffers ctx -> zget (buffers ctx) bi = Some b -> buf_wf b' ->
  s_n_buffers st' = s_n_buffers st -> (forall bj, bj <> bi -> same_rows st st' bj) -> buf_sim st' bi b' ->
  sim st' (MkCtx (n_buffers ctx) (<[Z.to_nat bi := b']> (buffers ctx))).
Proof.
  intros [Hwf [Hn Hn8] Hbuf] Hbi Hb Hb' Hst Hrows Hsim. pose proof (wf_bufs _ Hwf). pose proof (wf_nb _ Hwf). split.
  - by eapply upd_wf.
  - cbn. by rewrite Hst.
  - cbn [n_buffers buffers]. intros bj c Hbj Hc. destruct (decide (bj = bi)) as [->|Hne].
    + rewrite zget_insert_eq in Hc by lia. by injection Hc as <-.
    + rewrite zget_insert_ne in Hc by lia. eapply buf_sim_same; [by apply Hrows|by apply Hbuf].
Qed.

Section related.
Context (st : native_state) (ctx : blyt_state_ctx_t) (Hsim : sim st ctx).
Let Hwf : ctx_wf ctx := sim_wf _ _ Hsim.

Lemma sim_at bi : 0 <= bi < n_buffers ctx ->
  exists b, zget (buffers ctx) bi = Some b /\ buf_wf b /\ buf_sim st bi b.
Proof.
  intros Hbi. pose proof (wf_bufs _ Hwf). pose proof (wf_nb _ Hwf).
  destruct (zget_is_Some (buffers ctx) bi) as [b Hb]; [lia|]. exists b. split; [done|].
  split; [by eapply wf_buf|by apply Hsim].
Qed.

(** The bit test of the two implementations. *)
Lemma slot_allocated_sim bi b slot :
  zget (buffers ctx) bi = Some b -> buf_wf b -> buf_sim st bi b -> 0 <= slot < count b ->
  exists v, slot_allocated st bi slot = Some v /\ slot_is_allocated b slot = Some v /\ allocated ctx bi slot = v.
Proof.
  intros Hb Hbw Hs Hslot. destruct (bs_shape _ _ _ Hs) as [Hc _].
  destruct (bit_of_val (slot_bitset b) slot) as (byte & Hbyte & Hbit); [apply (wf_bits _ Hbw)|lia|].
  exists (Z.testbit byte (slot mod 8)). unfold slot_allocated, allocated, slot_is_allocated, BLYT_MAX_SLOTS.
  rewrite u32_id by (unfold is_u32; lia). rewrite (zget2_row _ _ _ _ (bs_bits _ _ _ Hs)), Hbyte, Hb. cbn [mbind option_bind].
  rewrite (proj2 (orb_false_iff _ _)) by lia. rewrite Hbit. rewrite land_1_testbit; [done|]. Z.div_mod_to_equations; lia.
Qed.

(** The common guard of the accessors. *)
Lemma ref_ok_sim bi slot fi :
  0 <= bi < n_buffers ctx -> is_i32 slot -> 0 <= fi ->
  ref_ok st bi slot fi = Some (allocated ctx bi slot && (fi <? 64)).
Proof.
  intros Hbi Hslot Hfi. destruct (sim_at bi Hbi) as (b & Hb & Hbw & Hs). destruct (sim_n _ _ Hsim) as [_ Hn8].
  unfold ref_ok, NATIVE_MAX_BUF, NATIVE_MAX_FIELDS. rewrite (proj2 (Z.ltb_lt bi 8)) by lia. cbn [negb orb].
  assert (forall P, P = false -> allocated ctx bi slot = false -> Some P = Some (allocated ctx bi slot && (fi <? 64))) as Hno.
  { intros P -> ->. done. }
  destruct (slot <? 0) eqn:E1; cbn [orb].
  { apply Hno; [done|]. unfold allocated. rewrite Hb. unfold slot_is_allocated. by rewrite E1. }
  rewrite (bs_count _ _ _ Hs). cbn [mbind option_bind]. unfold is_i32 in Hslot. rewrite u32_id by (unfold is_u32; pow_simp; lia).
  destruct (slot <? count b) eqn:E2; cbn [negb orb]; cycle 1.
  { apply Hno; [done|]. unfold allocated. rewrite Hb. unfold slot_is_allocated. by replace (slot >=? count b) with true by lia; rewrite orb_true_r. }
  destruct (slot_allocated_sim bi b slot Hb Hbw Hs) as (v & -> & _ & ->); [lia|].
  destruct (fi <? 64); cbn [negb]; [by rewrite andb_true_r|by rewrite andb_false_r].
Qed.

(** ** Cells *)

Lemma field_tag_in bi fi tag : field_tag ctx bi fi = Some tag ->
  exists b, 0 <= bi < n_buffers ctx /\ zget (buffers ctx) bi = Some b /\ 0 <= fi < n_fields b
    /\ zget (field_types b) fi = Some tag.
Proof.
  unfold field_tag. destruct (_ && _) eqn:E; [|done]. destruct (zget (buffers ctx) bi) as [b|]; [|done]. cbn.
  destruct ((0 <=? fi) && (fi <? n_fields b)) eqn:E2; [|done]. intros ?. exists b. split_and!; lia || done.
Qed.

Lemma same_width tag : field_width tag = field_sizeof tag.
Proof. reflexivity. Qed.

Lemma read_cell_sim bi fi slot tag :
  field_tag ctx bi fi = Some tag -> allocated ctx bi slot = true ->
  exists bytes, cell ctx bi fi slot = Some bytes /\ bytes_ok bytes /\ len bytes = field_sizeof tag
    /\ read_cell st bi fi slot (field_sizeof tag) = Some (le_val bytes).
Proof.
  intros Ht Ha. destruct (field_tag_in _ _ _ Ht) as (b & Hbi & Hb & Hfi & Htag).
  destruct (sim_at bi Hbi) as (b' & Hb' & Hbw & Hs). rewrite Hb in Hb'. injection Hb' as <-.
  destruct (wf_arrays _ Hbw fi Hfi) as (tag' & d & Ht' & Hd & Hl & Hok). rewrite Htag in Ht'. injection Ht' as <-.
  pose proof (allocated_range _ _ _ Hwf Hbi Ha) as Hr. unfold slot_limit in Hr. rewrite Hb in Hr.
  pose proof (sizeof_range tag). destruct (cell_in_range slot (field_sizeof tag) (count b)) as [? ?]; [lia|lia|].
  exists (sub d (slot * field_sizeof tag) (field_sizeof tag)).
  split_and!; [|by apply Forall_sub|rewrite len_sub; lia|].
  { unfold cell, field_array. rewrite Hb. cbn. rewrite Htag. cbn. rewrite Hd. cbn. by rewrite rd_Some by lia. }
  destruct (bs_data _ _ _ Hs) as (row & Hrow & Hrl & Hsub). specialize (Hsub fi d Hfi Hd).
  destruct (bs_shape _ _ _ Hs) as [Hc Hf]. assert (len d <= 1024) by nia.
  unfold read_cell. rewrite Hrow. cbn [mbind option_bind]. rewrite u32_id by (unfold is_u32; lia).
  unfold field_base. change NATIVE_FIELD_STRIDE with 1024. rewrite rd_Some by lia. cbn [mbind option_bind]. do 2 f_equal.
  rewrite <-Hsub. unfold sub. rewrite <-?take_drop_commute.
  apply list_eq_zget.
  { unfold len in *. rewrite !length_take, !length_drop, !length_take, !length_drop. lia. }
  intros i Hi. change (zget (sub row (fi * 1024 + slot * field_sizeof tag) (field_sizeof tag)) i
    = zget (sub (sub row (fi * 1024) (len d)) (slot * field_sizeof tag) (field_sizeof tag)) i).
  assert (i < field_sizeof tag). { unfold len in Hi. rewrite length_take in Hi. lia. }
  rewrite !zget_sub by lia. f_equal. lia.
Qed.

Lemma write_cell_sim bi b fi slot tag d v :
  0 <= bi < n_buffers ctx -> zget (buffers ctx) bi = Some b -> 0 <= fi < n_fields b ->
  zget (field_types b) fi = Some tag -> field_array b fi = Some d -> 0 <= slot < count b ->
  exists ctx' st', store_field ctx bi fi b (slot * field_sizeof tag) (le_bytes (Z.to_nat (field_sizeof tag)) v) = Some ctx'
    /\ write_cell st bi fi slot (field_sizeof tag) v = Some st' /\ sim st' ctx'.
Proof.
  intros Hbi Hb Hfi Htag Hd Hslot.
  destruct (sim_at bi Hbi) as (b' & Hb' & Hbw & Hs). rewrite Hb in Hb'. injection Hb' as <-.
  destruct (wf_arrays _ Hbw fi Hfi) as (tag' & d' & Ht' & Hd' & Hl & Hok). rewrite Htag in Ht'. injection Ht' as <-.
  unfold field_array in Hd. rewrite Hd' in Hd. cbn in Hd. injection Hd as <-.
  pose proof (sizeof_range tag). destruct (cell_in_range slot (field_sizeof tag) (count b) Hslot) as [? ?]; [lia|].
  destruct (bs_shape _ _ _ Hs) as [Hc Hf]. assert (len d' <= 1024) by nia.
  destruct (bs_data _ _ _ Hs) as (row & Hrow & Hrl & Hsub).
  set (bytes := le_bytes (Z.to_nat (field_sizeof tag)) v).
  assert (len bytes = field_sizeof tag) as Hbl by (unfold len, bytes; rewrite length_le_bytes; lia).
  pose proof (wf_data _ Hbw). pose proof (wf_nf _ Hbw). pose proof (wf_bufs _ Hwf). pose proof (wf_nb _ Hwf).
  pose proof (zget_Some _ _ _ Hrow) as [Hrb _].
  unfold store_field, field_array. rewrite Hd'. cbn [mbind option_bind]. rewrite rd_Some by lia. cbn [mbind option_bind].
  rewrite zset_Some by lia. cbn [mbind option_bind]. rewrite zset_Some by lia. cbn [mbind option_bind].
  unfold write_cell. rewrite Hrow. cbn [mbind option_bind]. rewrite u32_id by (unfold is_u32; lia). unfold field_base.
  change NATIVE_FIELD_STRIDE with 1024. rewrite rd_Some by lia. cbn [mbind option_bind]. rewrite zset_Some by lia.
  cbn [mbind option_bind]. do 2 eexists. split; [done|]. split; [done|].
  eapply sim_upd; [done|done|done| | | |].
  - eapply data_wf; [done..| |]. { rewrite len_splice by lia. done. } apply Forall_splice; [done|apply le_bytes_ok].
  - by destruct st.
  - intros bj Hne. destruct st; unfold same_rows; cbn. split_and!; [done..|]. apply zget_insert_ne; lia.
  - destruct Hs as [Hsh Hcnt Hnf Hty Hbits Hgens _]. split; [done|by destruct st..|].
    rewrite s_arena_set. fold bytes. clearbody bytes. eexists. split; [apply zget_insert_eq; lia|].
    split; [rewrite len_splice by lia; done|]. cbn [with_data n_fields field_data]. intros fj e Hfj He. destruct (decide (fj = fi)) as [->|Hne].
    + rewrite zget_insert_eq in He by lia. injection He as <-. rewrite len_splice by lia.
      rewrite sub_splice_inner by lia. by rewrite Hsub.
    + rewrite zget_insert_ne in He by lia. destruct (wf_arrays _ Hbw fj Hfj) as (tj & e' & Htj & He' & Hel & _).
      rewrite He in He'. injection He' as <-. pose proof (sizeof_range tj). assert (len e <= 1024) by nia.
      rewrite sub_splice_disjoint by lia. by apply Hsub.
Qed.

(** ** Slots *)

(** The bit test of [alloc]: the masked byte is zero exactly when the bit is clear. *)
Lemma land_bit byte k : 0 <= k < 8 -> (Z.land byte (u8 (Z.shiftl 1 k)) =? 0) = negb (Z.testbit byte k).
Proof.
  intros Hk. rewrite u8_id by (unfold is_u8; rewrite Z.shiftl_1_l; split; [apply Z.pow_nonneg; lia|apply Z.pow_lt_mono_r; lia]).
  rewrite Z.shiftl_1_l. apply Bool.eq_true_iff_eq. rewrite Z.eqb_eq, negb_true_iff. split; intros E.
  - apply (f_equal (fun z => Z.testbit z k)) in E. rewrite Z.land_spec, Z.pow2_bits_true, andb_true_r, Z.bits_0 in E by lia. done.
  - apply Z.bits_inj'. intros i Hi. rewrite Z.land_spec, Z.bits_0, Z.pow2_bits_eqb by lia.
    destruct (Z.eqb_spec k i) as [<-|]; [by rewrite E|apply andb_false_r].
Qed.

Lemma free_scan_sim bi b fuel i :
  buf_wf b -> buf_sim st bi b -> 0 <= i -> free_scan st fuel bi i (count b) = alloc_scan fuel b i.
Proof.
  intros Hbw Hs. destruct (bs_shape _ _ _ Hs) as [Hc _]. destruct (wf_bits _ Hbw) as [Hl _].
  revert i; induction fuel as [|fuel IH]; intros i Hi; [done|]. cbn [free_scan alloc_scan].
  rewrite i32_id by (unfold is_i32; pow_simp; lia). unfold BLYT_MAX_SLOTS.
  replace ((i <? count b) && (i <? 128)) with (i <? count b) by lia. destruct (i <? count b) eqn:E; [|done].
  rewrite (zget2_row _ _ _ _ (bs_bits _ _ _ Hs)).
  destruct (bit_of_val (slot_bitset b) i Hl) as (byte & -> & ->); [lia|]. cbn [mbind option_bind].
  rewrite land_bit by (Z.div_mod_to_equations; lia). destruct (Z.testbit byte (i mod 8)); cbn [negb]; [apply IH; lia|done].
Qed.

Lemma lor_u8 x y : is_u8 x -> is_u8 y -> u8 (Z.lor x y) = Z.lor x y.
Proof.
  intros Hx Hy. apply u8_id. unfold is_u8 in *. split; [apply Z.lor_nonneg; lia|].
  destruct (Z.eq_dec (Z.lor x y) 0) as [->|Hne]; [lia|].
  assert (0 < Z.lor x y) by (pose proof (Z.lor_nonneg x y); lia). apply Z.log2_lt_pow2; [done|].
  rewrite Z.log2_lor by lia. apply Z.max_lub_lt.
  - destruct (Z.eq_dec x 0) as [->|]; [done|]. apply Z.log2_lt_pow2; lia.
  - destruct (Z.eq_dec y 0) as [->|]; [done|]. apply Z.log2_lt_pow2; lia.
Qed.

Lemma alloc_slot_sim id :
  0 <= id - 1 < n_buffers ctx ->
  (blyt_state_alloc_slot ctx id = Some (-1, Some (-1), ctx) /\ blyt_buffer_alloc_slot st id = Some (BLYT_ERR_BUFFER_FULL, None, st))
  \/ exists i ctx' st', blyt_state_alloc_slot ctx id = Some (0, Some i, ctx')
     /\ blyt_buffer_alloc_slot st id = Some (BLYT_OK, Some i, st') /\ 0 <= i < 128 /\ sim st' ctx'.
Proof.
  intros Hid. destruct (sim_at (id - 1) Hid) as (b & Hb & Hbw & Hs). destruct (sim_n _ _ Hsim) as [_ Hn8].
  destruct (bs_shape _ _ _ Hs) as [Hc _]. pose proof (wf_bufs _ Hwf). pose proof (wf_nb _ Hwf).
  unfold blyt_state_alloc_slot, find_buffer, blyt_buffer_alloc_slot, buf_index, NATIVE_MAX_BUF.
  rewrite (proj2 (orb_false_iff _ _)) by lia. rewrite u32_id by (unfold is_u32; lia).
  replace (id - 1 >=? 8) with false by lia. rewrite Hb, (bs_count _ _ _ Hs). cbn [mbind option_bind].
  rewrite (free_scan_sim _ _ _ _ Hbw Hs) by lia.
  destruct (alloc_scan_spec b 129 0 Hbw) as [[-> _]|(i & -> & Hi & Hi' & _)]; [lia..| |]; cbn [mbind option_bind]; [by left|right].
  destruct (wf_bits _ Hbw) as [Hl Hok]. destruct (bit_of_val (slot_bitset b) i Hl) as (byte & Hbyte & _); [lia|].
  assert (0 <= i / 8 < 16 /\ 0 <= i mod 8 < 8) as [? ?] by (Z.div_mod_to_equations; lia).
  rewrite (zget2_row _ _ _ _ (bs_bits _ _ _ Hs)), Hbyte. cbn [mbind option_bind]. rewrite zset_Some by lia. cbn [mbind option_bind].
  rewrite zset_Some by lia. cbn [mbind option_bind]. rewrite (zset2_row _ _ _ _ _ (bs_bits _ _ _ Hs)) by lia. cbn [mbind option_bind].
  rewrite i32_id by (unfold is_i32; lia). rewrite lor_u8 by (apply u8_range || by eapply bytes_ok_zget).
  do 3 eexists. split_and!; [done|done|lia|lia|]. eapply sim_upd; [done|done|done| | | |].
  - destruct (wf_gens _ Hbw). apply slots_wf; [done|by rewrite len_insert| |done|done].
    apply bytes_ok_insert; [done|]. rewrite <-lor_u8; [apply u8_range|by eapply bytes_ok_zget|apply u8_range].
  - by destruct st.
  - intros bj Hne. destruct st; unfold same_rows; cbn. split_and!; [done..| |done|done]. apply zget_insert_ne; lia.
  - pose proof (zget_Some _ _ _ (bs_bits _ _ _ Hs)) as [? _]. destruct Hs. destruct st; split; cbn in *; try done. apply zget_insert_eq. lia.
Qed.

(** The row after the cells of fields [fi, fi + k) at a slot were zeroed. *)
Lemma zero_fields_sim bi b slot k fi row :
  buf_wf b -> buf_sim st bi b -> 0 <= slot < count b -> 0 <= fi -> fi + Z.of_nat k <= n_fields b -> len row = 65536 ->
  exists row', zero_fields st k bi fi slot row = Some row' /\ len row' = 65536
    /\ forall fj n tag, 0 <= fj < n_fields b -> zget (field_types b) fj = Some tag ->
       slot * field_sizeof tag + field_sizeof tag <= n <= 1024 ->
       sub row' (fj * 1024) n
       = if (fi <=? fj) && (fj <? fi + Z.of_nat k)
         then splice (sub row (fj * 1024) n) (slot * field_sizeof tag) (replicate (Z.to_nat (field_sizeof tag)) 0)
         else sub row (fj * 1024) n.
Proof.
  intros Hbw Hs Hslot. destruct (bs_shape _ _ _ Hs) as [Hc Hf]. destruct (bs_types _ _ _ Hs) as (ts & Hts & _ & Hty).
  revert fi row; induction k as [|k IH]; intros fi row Hfi Hk Hrl; cbn [zero_fields].
  { exists row. split_and!; [done|done|]. intros fj n tag _ _ _. by replace ((fi <=? fj) && (fj <? fi + Z.of_nat 0)) with false by lia. }
  destruct (wf_arrays _ Hbw fi) as (tag & d & Htag & Hd & Hdl & _); [lia|]. pose proof (sizeof_range tag).
  rewrite (zget2_row _ _ _ _ Hts), Hty, Htag by lia. cbn [mbind option_bind]. rewrite same_width, u32_id by (unfold is_u32; lia).
  unfold field_base. change NATIVE_FIELD_STRIDE with 1024.
  assert (0 <= slot * field_sizeof tag /\ slot * field_sizeof tag + field_sizeof tag <= 1024) as [? ?] by nia.
  rewrite rd_Some by lia. cbn [mbind option_bind].
  set (z := replicate (Z.to_nat (field_sizeof tag)) 0). assert (len z = field_sizeof tag) as Hz by (unfold len, z; rewrite length_replicate; lia).
  destruct (IH (fi + 1) (splice row (fi * 1024 + slot * field_sizeof tag) z)) as (row' & -> & Hl' & Hin); [lia|lia|by rewrite len_splice by lia|].
  exists row'. split_and!; [done|done|]. intros fj n tj Hfj Htj Hn. rewrite (Hin fj n tj Hfj Htj Hn). pose proof (sizeof_range tj).
  destruct (decide (fj = fi)) as [->|Hne].
  - rewrite Htag in Htj. injection Htj as <-.
    replace ((fi + 1 <=? fi) && (fi <? fi + 1 + Z.of_nat k)) with false by lia.
    replace ((fi <=? fi) && (fi <? fi + Z.of_nat (S k))) with true by lia. fold z. apply sub_splice_inner; lia.
  - replace ((fi <=? fj) && (fj <? fi + Z.of_nat (S k))) with ((fi + 1 <=? fj) && (fj <? fi + 1 + Z.of_nat k)) by lia.
    by rewrite sub_splice_disjoint by nia.
Qed.

Lemma free_slot_sim id slot :
  0 <= id - 1 < n_buffers ctx -> is_i32 slot ->
  (blyt_state_free_slot ctx id slot = Some (-1, ctx) /\ blyt_buffer_free_slot st id slot = Some (BLYT_ERR_INVALID_ARG, st))
  \/ exists ctx' st', blyt_state_free_slot ctx id slot = Some (0, ctx')
     /\ blyt_buffer_free_slot st id slot = Some (BLYT_OK, st') /\ sim st' ctx'.
Proof.
  intros Hid Hi32. destruct (sim_at (id - 1) Hid) as (b & Hb & Hbw & Hs). destruct (sim_n _ _ Hsim) as [_ Hn8].
  destruct (bs_shape _ _ _ Hs) as [Hc Hnf]. pose proof (wf_bufs _ Hwf). pose proof (wf_nb _ Hwf). pose proof (wf_nf _ Hbw).
  unfold blyt_state_free_slot, find_buffer, blyt_buffer_free_slot, buf_index, NATIVE_MAX_BUF, BLYT_MAX_SLOTS.
  rewrite (proj2 (orb_false_iff (id =? 0) _)) by lia. rewrite (u32_id (id - 1)) by (unfold is_u32; lia).
  replace (id - 1 >=? 8) with false by lia. rewrite Hb. cbn [mbind option_bind orb].
  destruct (slot <? 0) eqn:E0; cbn [orb]; [by left|]. unfold is_i32 in Hi32. pow_simp.
  rewrite (bs_count _ _ _ Hs). cbn [mbind option_bind]. rewrite (u32_id slot) by (unfold is_u32; pow_simp; lia).
  destruct (slot >=? count b) eqn:E1; cbn [orb]; [by left|]. replace (slot >=? 128) with false by lia.
  destruct (slot_allocated_sim (id - 1) b slot Hb Hbw Hs) as (v & -> & -> & _); [lia|]. cbn [mbind option_bind].
  destruct v; cbn [negb]; [right|by left].
  destruct (wf_bits _ Hbw) as [Hl Hok]. destruct (bit_of_val (slot_bitset b) slot Hl) as (byte & Hbyte & _); [lia|].
  assert (0 <= slot / 8 < 16 /\ 0 <= slot mod 8 < 8) as [? ?] by (Z.div_mod_to_equations; lia).
  rewrite (zget2_row _ _ _ _ (bs_bits _ _ _ Hs)), Hbyte. cbn [mbind option_bind]. rewrite zset_Some by lia. cbn [mbind option_bind].
  rewrite (zset2_row _ _ _ _ _ (bs_bits _ _ _ Hs)) by lia. cbn [mbind option_bind].
  destruct (zero_cells b slot Hbw ltac:(lia)) as (fd & Hfd & Hfdwf & _ & _).
  change (for_each (n_fields b) ?f (field_data b)) with (for_each (n_fields b) (zero_cell b slot) (field_data b)).
  rewrite Hfd, (bs_nf _ _ _ Hs). cbn [mbind option_bind].
  destruct (bs_data _ _ _ Hs) as (row & Hrow & Hrl & Hsub). rewrite Hrow. cbn [mbind option_bind].
  destruct (zero_fields_sim (id - 1) b slot (Z.to_nat (n_fields b)) 0 row Hbw Hs) as (row' & -> & Hrl' & Hrow'); [lia..|].
  cbn [mbind option_bind]. pose proof (zget_Some _ _ _ Hrow) as [? _]. rewrite zset_Some by lia. cbn [mbind option_bind].
  destruct (wf_gens _ Hbw) as [Hgl Hgok]. destruct (zget_is_Some (slot_gens b) slot) as [g Hg]; [lia|].
  rewrite (zget2_row _ _ _ _ (bs_gens _ _ _ Hs)), Hg. cbn [mbind option_bind]. rewrite zset_Some by lia. cbn [mbind option_bind].
  rewrite zset_Some by lia. rewrite (zset2_row _ _ _ _ _ (bs_gens _ _ _ Hs)) by lia. cbn [mbind option_bind].
  do 2 eexists. split_and!; [done|done|]. eapply sim_upd; [done|done|done| | | |].
  - apply slots_wf; [done|by rewrite len_insert| |by rewrite len_insert|].
    + apply bytes_ok_insert; [done|]. apply land_u8. by eapply bytes_ok_zget.
    + apply Forall_insert; [done|]. apply gen_next_u16.
  - by destruct st.
  - intros bj Hne. destruct st; unfold same_rows; cbn. split_and!; try done; apply zget_insert_ne; lia.
  - pose proof (zget_Some _ _ _ (bs_bits _ _ _ Hs)) as [? _]. pose proof (zget_Some _ _ _ (bs_gens _ _ _ Hs)) as [? _].
    destruct (for_each_inv _ _ _ _ Hfd) as (_ & Hin & _).
    assert (forall fj e, 0 <= fj < n_fields b -> zget fd fj = Some (Some e) -> sub row' (fj * 1024) (len e) = e) as Hdata.
    { intros fj e Hfj He. destruct (wf_arrays _ Hbw fj Hfj) as (tj & d & Htj & Hd & Hdl & _). pose proof (sizeof_range tj).
      assert (0 <= slot * field_sizeof tj /\ slot * field_sizeof tj + field_sizeof tj <= len d /\ len d <= 1024) as (? & ? & ?) by nia.
      rewrite Hin, Hd in He by done. cbn [mbind option_bind] in He. unfold zero_cell in He. rewrite Htj in He. cbn [mbind option_bind] in He.
      rewrite rd_Some in He by lia. cbn [mbind option_bind] in He. injection He as <-.
      assert (len (replicate (Z.to_nat (field_sizeof tj)) 0) = field_sizeof tj) as Hz by (unfold len; rewrite length_replicate; lia).
      rewrite len_splice by lia. rewrite (Hrow' fj (len d) tj) by lia || done.
      replace ((0 <=? fj) && (fj <? 0 + Z.of_nat (Z.to_nat (n_fields b)))) with true by lia. by rewrite Hsub. }
    destruct Hs. destruct st; split; cbn in *; try done; try (apply zget_insert_eq; lia).
    eexists. split; [apply zget_insert_eq; lia|]. done.
Qed.

(** ** Entity refs *)

Lemma ref_sim id slot :
  0 <= id - 1 < n_buffers ctx -> is_i32 slot -> blyt_buffer_ref st id slot = blyt_state_ref ctx id slot.
Proof.
  intros Hid Hi32. destruct (sim_at (id - 1) Hid) as (b & Hb & Hbw & Hs). destruct (sim_n _ _ Hsim) as [_ Hn8].
  destruct (bs_shape _ _ _ Hs) as [Hc _].
  unfold blyt_state_ref, find_buffer, blyt_buffer_ref, buf_index, NATIVE_MAX_BUF, native_gen.
  rewrite (proj2 (orb_false_iff (id =? 0) _)) by lia. rewrite (u32_id (id - 1)) by (unfold is_u32; lia).
  rewrite (proj2 (Z.ltb_lt (id - 1) 8)) by lia. rewrite Hb. cbn [mbind option_bind orb negb].
  destruct (slot <? 0) eqn:E0; cbn [orb]; [by unfold slot_is_allocated; rewrite E0|]. unfold is_i32 in Hi32. pow_simp.
  rewrite (bs_count _ _ _ Hs). cbn [mbind option_bind]. rewrite (u32_id slot) by (unfold is_u32; pow_simp; lia).
  destruct (slot <? count b) eqn:E1; cbn [negb]; cycle 1.
  { unfold slot_is_allocated. by replace (slot >=? count b) with true by lia; rewrite orb_true_r. }
  destruct (slot_allocated_sim (id - 1) b slot Hb Hbw Hs) as (v & -> & -> & _); [lia|]. cbn [mbind option_bind].
  destruct v; cbn [negb]; [|done]. by rewrite (zget2_row _ _ _ _ (bs_gens _ _ _ Hs)).
Qed.

Lemma ref_valid_sim id ref :
  0 <= id - 1 < n_buffers ctx -> is_u32 ref -> blyt_buffer_ref_valid st id ref = blyt_state_ref_valid ctx id ref.
Proof.
  intros Hid Hu. destruct (sim_at (id - 1) Hid) as (b & Hb & Hbw & Hs). destruct (sim_n _ _ Hsim) as [_ Hn8].
  destruct (bs_shape _ _ _ Hs) as [Hc _].
  unfold blyt_state_ref_valid, find_buffer, blyt_buffer_ref_valid, buf_index, NATIVE_MAX_BUF, native_gen.
  destruct (ref =? 0); cbn [orb]; [done|].
  rewrite (proj2 (orb_false_iff (id =? 0) _)) by lia. rewrite (u32_id (id - 1)) by (unfold is_u32; lia).
  rewrite (proj2 (Z.ltb_lt (id - 1) 8)) by lia. rewrite Hb, (bs_count _ _ _ Hs). cbn [mbind option_bind negb].
  rewrite (land_ones_mod _ 16) by (lia || done). set (slot := ref mod 2 ^ 16).
  assert (0 <= slot < 65536) by (unfold slot; apply Z.mod_pos_bound; lia).
  destruct (slot <? count b) eqn:E1; cbn [negb]; cycle 1.
  { unfold slot_is_allocated. by replace (slot >=? count b) with true by lia; rewrite orb_true_r. }
  destruct (slot_allocated_sim (id - 1) b slot Hb Hbw Hs) as (v & -> & -> & _); [lia|]. cbn [mbind option_bind].
  destruct v; cbn [negb]; [|done]. by rewrite (zget2_row _ _ _ _ (bs_gens _ _ _ Hs)).
Qed.
End related.
