(* ===== verification/NativeParity.v ===== *)
(** * NativeParity: a cart sees the same state buffers on bare metal and in the emulator

    The state-buffer calls of a cart, run against the two implementations: natively by
    [NativeState], in the emulator by the stubs of [GuestStubs], [blyt_ecall_handler] and the
    host's state context.  The theorem is that a sequence of calls on declared buffers gives
    the same results on both sides. *)

From S2P Require Import Prelude Handle FpCanon MemBudget StateBuffer StateBufferSpec ResourceTable RunCtx SurfaceTheorems Ecall NativeState NativeSpec GuestStubs.
From Stdlib Require Import ZArith Lia.
From stdpp Require Import base tactics list gmap.
Open Scope Z_scope.

(** ** The calls *)

Inductive ty := I8 | U8 | I16 | U16 | I32 | U32 | F32 | BOOL | F64.

Definition tag_of (t : ty) : Z :=
  match t with
  | I8 => TYPE_I8 | U8 => TYPE_U8 | I16 => TYPE_I16 | U16 => TYPE_U16 | I32 => TYPE_I32
  | U32 => TYPE_U32 | F32 => TYPE_F32 | BOOL => TYPE_BOOL | F64 => TYPE_F64
  end.

(** The values of a type; floats are bit patterns. *)
Definition in_type (t : ty) (v : Z) : Prop :=
  match t with
  | I8 => -128 <= v < 128 | U8 => is_u8 v | I16 => -32768 <= v < 32768 | U16 => is_u16 v | I32 => is_i32 v
  | U32 | F32 => is_u32 v | BOOL => v = 0 \/ v = 1 | F64 => is_u64 v
  end.

Inductive api_call :=
  | Get (t : ty) (b s f : Z)
  | Put (t : ty) (b s f v : Z)
  | Alloc (b : Z)
  | FreeSlot (b s : Z)
  | Ref (b s : Z)
  | RefValid (b ref : Z).

(** What the cart sees: a value, a result code, or a result code and [*out_slot]. *)
Inductive result :=
  | Value (v : Z)
  | Code (c : Z)
  | Slot (c : Z) (slot : option Z).

(** *** Natively *)

Definition native_get (st : native_state) (t : ty) : Z -> Z -> Z -> option Z :=
  match t with
  | I8 => blyt_buffer_get_i8 st | U8 => blyt_buffer_get_u8 st | I16 => blyt_buffer_get_i16 st
  | U16 => blyt_buffer_get_u16 st | I32 => blyt_buffer_get_i32 st | U32 => blyt_buffer_get_u32 st
  | F32 => blyt_buffer_get_f32 st | BOOL => blyt_buffer_get_bool st | F64 => blyt_buffer_get_f64 st
  end.
Definition native_put (st : native_state) (t : ty) (b s f v : Z) : option native_state :=
  match t with
  | I8 => blyt_buffer_set_i8 st b s f v | U8 => blyt_buffer_set_u8 st b s f v | I16 => blyt_buffer_set_i16 st b s f v
  | U16 => blyt_buffer_set_u16 st b s f v | I32 => blyt_buffer_set_i32 st b s f v | U32 => blyt_buffer_set_u32 st b s f v
  | F32 => blyt_buffer_set_f32 st b s f v | BOOL => blyt_buffer_set_bool st b s f (negb (v =? 0))
  | F64 => blyt_buffer_set_f64 st b s f v
  end.

Definition native_call (c : api_call) (st : native_state) : option (result * native_state) :=
  match c with
  | Get t b s f => v ← native_get st t b s f; Some (Value v, st)
  | Put t b s f v => st' ← native_put st t b s f v; Some (Code 0, st')
  | Alloc b => '(c, i, st') ← blyt_buffer_alloc_slot st b; Some (Slot c i, st')
  | FreeSlot b s => '(c, st') ← blyt_buffer_free_slot st b s; Some (Code c, st')
  | Ref b s => v ← blyt_buffer_ref st b s; Some (Value v, st)
  | RefValid b r => v ← blyt_buffer_ref_valid st b r; Some (Value (if (v : bool) then 1 else 0), st)
  end.

(** *** In the emulator; [out] is where the cart keeps [out_slot] *)

Section emulated.
Context {R M : Type} `{RegFile R} `{GuestMemory M} (env : ecall_env) (out : Z).
Abbreviation mach := (machine R M).

Definition emu_get (t : ty) : Z -> Z -> Z -> mach -> option (Z * mach) :=
  match t with
  | I8 => stub_get_i8 env | U8 => stub_get_u8 env | I16 => stub_get_i16 env | U16 => stub_get_u16 env
  | I32 => stub_get_i32 env | U32 => stub_get_u32 env | F32 => stub_get_f32 env | BOOL => stub_get_bool env
  | F64 => stub_get_f64 env
  end.
Definition emu_put (t : ty) (b s f v : Z) : mach -> option mach :=
  match t with
  | I8 => stub_set_i8 env b s f v | U8 => stub_set_u8 env b s f v | I16 => stub_set_i16 env b s f v
  | U16 => stub_set_u16 env b s f v | I32 => stub_set_i32 env b s f v | U32 => stub_set_u32 env b s f v
  | F32 => stub_set_f32 env b s f v | BOOL => stub_set_bool env b s f (negb (v =? 0)) | F64 => stub_set_f64 env b s f v
  end.

Definition emu_call (c : api_call) (m : mach) : option (result * mach) :=
  match c with
  | Get t b s f => '(v, m') ← emu_get t b s f m; Some (Value v, m')
  | Put t b s f v => m' ← emu_put t b s f v m; Some (Code 0, m')
  | Alloc b => '(c, m') ← stub_alloc_slot env b out m; Some (Slot c (Some (i32 (mem_acct_read_u32 (rv_mem m') out))), m')
  | FreeSlot b s => '(c, m') ← stub_free_slot env b s m; Some (Code c, m')
  | Ref b s => '(v, m') ← stub_ref env b s m; Some (Value v, m')
  | RefValid b r => '(v, m') ← stub_ref_valid env b r m; Some (Value (if (v : bool) then 1 else 0), m')
  end.
End emulated.

(** Run a sequence of calls. *)
Fixpoint run_calls {S} (step : api_call -> S -> option (result * S)) (cs : list api_call) (s : S)
    : option (list result * S) :=
  match cs with
  | [] => Some ([], s)
  | c :: cs => '(r, s1) ← step c s; '(rs, s2) ← run_calls step cs s1; Some (r :: rs, s2)
  end.

(** ** What is compared *)

(** What the emulator answers where bare metal answers [r]: the same values and slots.  A
    failing call has the one code -1, where bare metal names the error, and a failing
    allocation stores -1 in the caller's slot, which bare metal leaves as it was. *)
Definition emulated_code (c : Z) : Z := if c =? BLYT_OK then BLYT_OK else -1.
Definition emulated_result (r : result) : result :=
  match r with
  | Value v => Value v
  | Code c => Code (emulated_code c)
  | Slot c i => Slot (emulated_code c) (Some (default (-1) i))
  end.

Definition declared (ctx : blyt_state_ctx_t) (b : Z) : Prop := 0 <= b - 1 < n_buffers ctx.
(** Handles no cart is given: rejected by both sides. *)
Definition no_buffer (b : Z) : Prop := b = 0 \/ 8 < b.
Definition no_field (f : Z) : Prop := Z.land f 0xFFFF = 0 \/ 64 < Z.land f 0xFFFF.
(** The field's declared type is the accessor's. *)
Definition typed (ctx : blyt_state_ctx_t) (t : ty) (b f : Z) : Prop :=
  field_tag ctx (b - 1) (Z.land f 0xFFFF - 1) = Some (tag_of t).

Definition call_ok (ctx : blyt_state_ctx_t) (c : api_call) : Prop :=
  match c with
  | Get t b s f => is_u32 b /\ is_i32 s /\ is_u32 f /\ (no_buffer b \/ declared ctx b /\ (no_field f \/ typed ctx t b f))
  | Put t b s f v =>
      is_u32 b /\ is_i32 s /\ is_u32 f /\ in_type t v /\ (no_buffer b \/ declared ctx b /\ (no_field f \/ typed ctx t b f))
  | Alloc b => is_u32 b /\ (no_buffer b \/ declared ctx b)
  | FreeSlot b s | Ref b s => is_u32 b /\ is_i32 s /\ (no_buffer b \/ declared ctx b)
  | RefValid b r => is_u32 b /\ is_u32 r /\ (no_buffer b \/ declared ctx b)
  end.

(** The machine's host context holds the state context [ctx]. *)
Definition hosts {R M} (m : machine R M) (ctx : blyt_state_ctx_t) : Prop :=
  exists c, g_run_ctx m = Some c /\ state_ctx c = Some ctx.

(** ** One call *)

Definition width (t : ty) : Z := field_sizeof (tag_of t).
Definition cast_of (t : ty) (v : Z) : Z :=
  match t with
  | I8 => i8 v | I16 => i16 v | I32 => i32 v | BOOL => if negb (v =? 0) then 1 else 0
  | U8 | U16 | U32 | F32 | F64 => v
  end.
(** The bits of a value before and after canonicalisation. *)
Definition bits_of (t : ty) (v : Z) : Z :=
  match t with I8 => u8 v | I16 => u16 v | I32 => u32 v | BOOL => if negb (v =? 0) then 1 else 0 | _ => v end.
Definition canon_of (t : ty) (v : Z) : Z :=
  match t with F32 => blyt_canon_f32 v | F64 => blyt_canon_f64 v | _ => v end.

Lemma bind_id {A} (x : option A) : (v ← x; Some v) = x.
Proof. by destruct x. Qed.

Lemma native_get_shape st t b s f :
  native_get st t b s f
  = (ok ← ref_ok st (buf_index b) s (field_index f);
     if negb ok then Some 0 else v ← read_cell st (buf_index b) (field_index f) s (width t); Some (cast_of t v)).
Proof. destruct t; cbn [native_get cast_of]; rewrite ?bind_id; reflexivity. Qed.

Lemma native_put_shape st t b s f v :
  in_type t v ->
  native_put st t b s f v
  = (ok ← ref_ok st (buf_index b) s (field_index f);
     if negb ok then Some st else write_cell st (buf_index b) (field_index f) s (width t) (canon_of t (bits_of t v))).
Proof. destruct t; reflexivity. Qed.

Lemma low16 f : is_u32 f -> 0 <= Z.land f 0xFFFF < 65536.
Proof. intros. rewrite (land_ones_mod f 16) by (lia || done). apply Z.mod_pos_bound. lia. Qed.

Section step.
Context (st : native_state) (ctx : blyt_state_ctx_t) (Hsim : sim st ctx).

Lemma no_buffer_host b : is_u32 b -> no_buffer b -> ~ (0 <= b - 1 < n_buffers ctx).
Proof. destruct (sim_n _ _ Hsim) as [_ ?]. unfold no_buffer. lia. Qed.

Lemma no_buffer_index b : is_u32 b -> no_buffer b -> 8 <= buf_index b.
Proof.
  unfold no_buffer, buf_index, is_u32. intros Hu [->|Hb]; [done|]. rewrite u32_id by (unfold is_u32; lia). lia.
Qed.

Lemma declared_index b : declared ctx b -> buf_index b = b - 1.
Proof. destruct (sim_n _ _ Hsim) as [_ ?]. unfold declared. intros. apply u32_id. unfold is_u32. lia. Qed.

Lemma no_field_tag b f : declared ctx b -> is_u32 f -> no_field f -> field_tag ctx (b - 1) (Z.land f 0xFFFF - 1) = None.
Proof.
  intros Hb Hf Hn. destruct (field_tag _ _ _) as [tag|] eqn:E; [|done]. exfalso.
  destruct (field_tag_in _ _ _ _ E) as (b' & Hbi & Hb' & Hfi & _).
  destruct (bs_shape _ _ _ (sim_buf _ _ Hsim _ _ Hbi Hb')) as [_ Hnf]. unfold no_field in Hn. lia.
Qed.

(** The guard of an accessor and the host's view of the same cell. *)
Lemma guard t b s f :
  is_u32 b -> is_i32 s -> is_u32 f -> no_buffer b \/ declared ctx b /\ (no_field f \/ typed ctx t b f) ->
  (ref_ok st (buf_index b) s (field_index f) = Some false
   /\ (allocated ctx (b - 1) s = false \/ field_tag ctx (b - 1) (Z.land f 0xFFFF - 1) = None))
  \/ (ref_ok st (buf_index b) s (field_index f) = Some true /\ typed ctx t b f /\ declared ctx b
      /\ allocated ctx (b - 1) s = true /\ buf_index b = b - 1 /\ field_index f = Z.land f 0xFFFF - 1).
Proof.
  intros Hb Hs Hf [Hno|[Hd Hfield]].
  - left. pose proof (no_buffer_index b Hb Hno). split.
    + unfold ref_ok, NATIVE_MAX_BUF. by rewrite (proj2 (Z.ltb_ge _ 8)) by lia.
    + right. pose proof (no_buffer_host b Hb Hno). unfold field_tag. destruct (_ && _) eqn:E; [lia|done].
  - pose proof (low16 f Hf). rewrite (declared_index b Hd).
    assert (0 <= field_index f) by (unfold field_index; pose proof (u32_range (Z.land f 65535 - 1)); unfold is_u32 in *; lia).
    rewrite (ref_ok_sim _ _ Hsim) by done. destruct Hfield as [Hno|Ht].
    + left. split; [|right; by apply no_field_tag]. unfold field_index.
      assert (u32 (Z.land f 65535 - 1) <? 64 = false) as ->; [|by rewrite andb_false_r].
      unfold no_field in Hno. destruct Hno as [->|]; [done|]. rewrite u32_id by (unfold is_u32; lia). lia.
    + destruct (field_tag_in _ _ _ _ Ht) as (b' & Hbi & Hb' & Hfi & _).
      destruct (bs_shape _ _ _ (sim_buf _ _ Hsim _ _ Hbi Hb')) as [_ Hnf].
      assert (field_index f = Z.land f 65535 - 1) as E by (unfold field_index; apply u32_id; unfold is_u32; lia).
      rewrite E. rewrite (proj2 (Z.ltb_lt (Z.land f 65535 - 1) 64)), andb_true_r by lia.
      destruct (allocated ctx (b - 1) s) eqn:Ea; [right; auto 10|left; auto].
Qed.

(** *** Get *)

Definition host_bits (t : ty) (b s f : Z) : option Z :=
  r ← (if tag_of t =? TYPE_F64 then blyt_state_get64 ctx b s (Z.land f 0xFFFF) else blyt_state_get ctx b s (Z.land f 0xFFFF));
  Some (default 0 (snd r)).

Lemma get_related t b s f :
  call_ok ctx (Get t b s f) ->
  exists bits, host_bits t b s f = Some bits /\ native_get st t b s f = Some (cast_of t bits) /\ 0 <= bits < 256 ^ width t.
Proof.
  intros (Hb & Hs & Hf & Hok). pose proof (low16 f Hf). rewrite native_get_shape. unfold host_bits.
  assert (0 <= b) as Hb0 by apply Hb.
  destruct (guard t b s f Hb Hs Hf Hok) as [[-> Hno]|(-> & Ht & Hd & Ha & -> & ->)]; cbn [mbind option_bind negb].
  - exists 0. rewrite get_view, get64_view by (apply Hsim || lia).
    assert (forall X Y, match field_tag ctx (b - 1) (Z.land f 65535 - 1) with
       | Some tag => if allocated ctx (b - 1) s && X tag then Y tag else Some (-1, None) | None => Some (-1, None) end
       = Some (-1, (@None Z))) as Hnone.
    { intros X Y. destruct Hno as [-> | ->]; [|done]. by destruct (field_tag _ _ _). }
    rewrite (Hnone (fun tag => tag =? TYPE_F64)), (Hnone (fun tag => negb (tag =? TYPE_F64))).
    split_and!; [by destruct (_ =? _)|by destruct t|lia|]. apply Z.pow_pos_nonneg; [lia|]. by destruct t.
  - destruct (read_cell_sim _ _ Hsim _ _ _ _ Ht Ha) as (bytes & Hc & Hbok & Hbl & Hr).
    change (width t) with (field_sizeof (tag_of t)). exists (le_val bytes). rewrite Hr. split_and!; [|done|..].
    + rewrite get_view, get64_view by (apply Hsim || lia). unfold typed in Ht. rewrite Ht, Ha. cbn [andb].
      unfold fetch. rewrite Hc. by destruct (tag_of t =? TYPE_F64).
    + by apply le_val_range in Hbok as [? _].
    + rewrite <-Hbl. by apply le_val_range in Hbok as [_ ?].
Qed.

(** *** Put *)

Definition host_put (t : ty) (b s f v : Z) : option (Z * blyt_state_ctx_t) :=
  if tag_of t =? TYPE_F64 then blyt_state_set64 ctx b s (Z.land f 0xFFFF) v
  else blyt_state_set ctx b s (Z.land f 0xFFFF) v 0.

Lemma put_related t b s f v :
  call_ok ctx (Put t b s f v) ->
  exists rc ctx' st', host_put t b s f (bits_of t v) = Some (rc, ctx') /\ native_put st t b s f v = Some st'
    /\ sim st' ctx' /\ ctx_rel ctx ctx'.
Proof.
  intros (Hb & Hs & Hf & Hv & Hok). pose proof (low16 f Hf). rewrite native_put_shape by done.
  assert (0 <= b) as Hb0 by apply Hb. pose proof (sim_wf _ _ Hsim) as Hwf.
  assert (forall rc ctx', host_put t b s f (bits_of t v) = Some (rc, ctx') -> ctx_rel ctx ctx') as Hrel.
  { unfold host_put. intros rc ctx' E. destruct (_ =? _).
    - by apply (run_state_rel ctx (SSet64 b s (Z.land f 0xFFFF) (bits_of t v)) rc).
    - by apply (run_state_rel ctx (SSet b s (Z.land f 0xFFFF) (bits_of t v) 0) rc). }
  enough (exists rc ctx' st', host_put t b s f (bits_of t v) = Some (rc, ctx')
    /\ (ok ← ref_ok st (buf_index b) s (field_index f);
        if negb ok then Some st else write_cell st (buf_index b) (field_index f) s (width t) (canon_of t (bits_of t v))) = Some st'
    /\ sim st' ctx') as (rc & ctx' & st' & E & ? & ?) by eauto 10.
  unfold host_put. destruct (guard t b s f Hb Hs Hf Hok) as [[-> Hno]|(-> & Ht & Hd & Ha & -> & ->)]; cbn [mbind option_bind negb].
  - exists (-1), ctx, st. split_and!; [|done|done]. destruct (tag_of t =? TYPE_F64).
    + destruct (set64_view ctx b s (Z.land f 0xFFFF) (bits_of t v) Hwf) as [[-> _]|(ctx' & _ & H1 & H2 & _)]; [lia|lia|done|].
      destruct Hno; congruence.
    + destruct (set_view ctx b s (Z.land f 0xFFFF) (bits_of t v) 0 Hwf) as [[-> _]|(tag & ctx' & _ & H1 & H2 & _)]; [lia|lia|done|].
      destruct Hno; congruence.
  - destruct (locate_val ctx b s (Z.land f 0xFFFF) Hwf) as
      [[_ [H1|H1]]|(b' & tag & d & Hl & Hbi & Hb' & Hbw & _ & Hs' & _ & Hfi & Htag & Htt & Hfa & Hdl & Hdok)];
      [lia|lia|congruence|unfold typed in Ht; congruence|].
    unfold typed in Ht. rewrite Ht in Htag. injection Htag as <-.
    destruct (write_cell_sim _ _ Hsim (b - 1) b' (Z.land f 0xFFFF - 1) s (tag_of t) d (canon_of t (bits_of t v)))
      as (ctx' & st' & Hst & Hw & Hsim'); [done..|].
    change (width t) with (field_sizeof (tag_of t)). exists 0, ctx', st'. split_and!; [|done|done].
    unfold blyt_state_set64, blyt_state_set. rewrite Hl. cbn [mbind option_bind].
    destruct t; cbn [tag_of] in *; cbn [canon_of] in *; change (TYPE_F64 =? TYPE_F64) with true; cbn -[store_field le_bytes Z.mul];
      cbn -[store_field le_bytes Z.mul] in Hst;
      first [rewrite Hst|change (Z.to_nat 8) with 8%nat in Hst; rewrite Hst]; reflexivity.
Qed.
End step.

(** *** The stubs *)

Section machines.
Context {R M : Type} `{RegFile R} `{GuestMemory M} (env : ecall_env) (out : Z).
Abbreviation mach := (machine R M).
Implicit Types (m : mach).

Lemma get_set m r v : 0 < r < 32 -> is_u32 v -> rv_get_reg (rv_set_reg m r v) r = v.
Proof. intros. unfold rv_get_reg. cbn. by apply rv_reg_put. Qed.
Lemma get_set_ne m r r' v : r <> r' -> rv_get_reg (rv_set_reg m r v) r' = rv_get_reg m r'.
Proof. intros. unfold rv_get_reg. cbn. by apply rv_reg_put_ne. Qed.

Ltac regs :=
  repeat first [rewrite get_set_ne by done | rewrite get_set by (done || (unfold rv_reg_a0, rv_reg_a1, rv_reg_a2, rv_reg_a3, rv_reg_a4, rv_reg_a5; lia))].

Lemma i32_u32 s : is_i32 s -> i32 (u32 s) = s.
Proof. intros Hs. rewrite <-(i32_id s Hs) at 2. unfold i32. by rewrite (u32_id (u32 s)) by apply u32_range. Qed.

(** [m'] is [m] after a call that left the memory alone but for [out], with [ctx] in the host. *)
Definition after m ctx m' : Prop := hosts m' ctx /\ ram_size (rv_mem m') = ram_size (rv_mem m).

Lemma buf_call regs m c sc :
  g_run_ctx m = Some c -> state_ctx c = Some sc ->
  ecall env regs BLYT_ECALL_BUF_OP m
  = (m' ← buf_op (rv_set_reg (foldl (fun m p => rv_set_reg m (fst p) (snd p)) m regs) rv_reg_a7 BLYT_ECALL_BUF_OP) c sc;
     Some (advance m' 4)).
Proof.
  intros Hg Hc. unfold ecall. set (m1 := foldl _ m regs).
  assert (g_run_ctx m1 = Some c) as Hg1.
  { unfold m1. clear m1. revert m Hg. induction regs as [|[r v] regs IH]; intros m Hg; [done|]. by apply IH. }
  unfold blyt_ecall_handler. rewrite get_set by done.
  change (ecall_buf_op (rv_set_reg m1 rv_reg_a7 BLYT_ECALL_BUF_OP)
    = (m' ← buf_op (rv_set_reg m1 rv_reg_a7 BLYT_ECALL_BUF_OP) c sc; Some (advance m' 4))).
  unfold ecall_buf_op. cbn [g_run_ctx rv_set_reg]. by rewrite Hg1, Hc.
Qed.

Lemma stub_get_spec cast op b s f m sc r :
  1 <= op <= 16 -> Z.odd op = true -> is_u32 b -> is_i32 s -> is_u32 f -> hosts m sc ->
  blyt_state_get sc b s (Z.land f 0xFFFF) = Some r -> is_u32 (default 0 (snd r)) ->
  exists m', STUB_GET env cast op b s f m = Some (cast (default 0 (snd r)), m') /\ after m sc m'.
Proof.
  intros Hop Hodd Hb Hs Hf (c & Hg & Hc) Hget Hu. unfold STUB_GET. rewrite (buf_call _ _ _ _ Hg Hc). cbn [foldl fst snd].
  assert (is_u32 op) by (unfold is_u32; lia). pose proof (u32_range s). unfold buf_op. regs. rewrite i32_u32 by done.
  unfold BUF_OP_GET_F32, BUF_OP_SET_BOOL. replace ((1 <=? op) && (op <=? 16)) with true by lia. rewrite Hodd, Hget.
  cbn [mbind option_bind]. eexists. split.
  - do 2 f_equal. unfold a0_of. f_equal. change (rv_get_reg (advance ?x 4)) with (rv_get_reg x). by regs.
  - split; [by exists c|done].
Qed.

Lemma stub_set_spec op b s f v m sc rc sc' :
  1 <= op <= 16 -> Z.odd op = false -> is_u32 b -> is_i32 s -> is_u32 f -> is_u32 v -> hosts m sc ->
  blyt_state_set sc b s (Z.land f 0xFFFF) v 0 = Some (rc, sc') ->
  exists m', STUB_SET env op b s f v m = Some m' /\ after m sc' m'.
Proof.
  intros Hop Hodd Hb Hs Hf Hv (c & Hg & Hc) Hset. unfold STUB_SET. rewrite (buf_call _ _ _ _ Hg Hc). cbn [foldl fst snd].
  assert (is_u32 op) by (unfold is_u32; lia). pose proof (u32_range s). unfold buf_op. regs. rewrite i32_u32 by done.
  unfold BUF_OP_GET_F32, BUF_OP_SET_BOOL. replace ((1 <=? op) && (op <=? 16)) with true by lia. rewrite Hodd, Hset.
  cbn [mbind option_bind snd]. eexists. split; [done|]. split; [|done]. eexists. split; [done|]. by destruct c.
Qed.

Lemma stub_get64_spec b s f m sc r :
  is_u32 b -> is_i32 s -> is_u32 f -> hosts m sc ->
  blyt_state_get64 sc b s (Z.land f 0xFFFF) = Some r -> is_u64 (default 0 (snd r)) ->
  exists m', stub_get_f64 env b s f m = Some (default 0 (snd r), m') /\ after m sc m'.
Proof.
  intros Hb Hs Hf (c & Hg & Hc) Hget Hu. unfold stub_get_f64. rewrite (buf_call _ _ _ _ Hg Hc). cbn [foldl fst snd].
  pose proof (u32_range s). unfold buf_op. regs. rewrite i32_u32 by done.
  change ((BUF_OP_GET_F32 <=? BUF_OP_GET_F64) && (BUF_OP_GET_F64 <=? BUF_OP_SET_BOOL)) with false.
  change (BUF_OP_GET_F64 =? BUF_OP_ALLOC_SLOT) with false. change (BUF_OP_GET_F64 =? BUF_OP_FREE_SLOT) with false.
  change (BUF_OP_GET_F64 =? BUF_OP_REF) with false. change (BUF_OP_GET_F64 =? BUF_OP_REF_VALID) with false.
  change (BUF_OP_GET_F64 =? BUF_OP_GET_F64) with true. rewrite Hget. cbn [mbind option_bind].
  set (bits := default 0 (snd r)) in *. eexists. split.
  - do 2 f_equal. unfold a0_of. change (rv_get_reg (advance ?x 4)) with (rv_get_reg x).
    pose proof (u32_range bits). pose proof (u32_range (Z.shiftr bits 32)). regs.
    rewrite shiftr_div, shiftl_mul by lia. unfold is_u64 in Hu. pow_simp.
    rewrite (u32_id (bits / 4294967296)) by (unfold is_u32; pow_simp; Z.div_mod_to_equations; lia).
    rewrite u64_id by (unfold is_u64; pow_simp; Z.div_mod_to_equations; lia).
    change 4294967296 with (2 ^ 32). rewrite lor_disjoint_add by (lia || apply u32_range). unfold u32, wrap. Z.div_mod_to_equations; lia.
  - split; [by exists c|done].
Qed.

Lemma stub_set64_spec b s f v m sc rc sc' :
  is_u32 b -> is_i32 s -> is_u32 f -> is_u64 v -> hosts m sc ->
  blyt_state_set64 sc b s (Z.land f 0xFFFF) v = Some (rc, sc') ->
  exists m', stub_set_f64 env b s f v m = Some m' /\ after m sc' m'.
Proof.
  intros Hb Hs Hf Hv (c & Hg & Hc) Hset. unfold stub_set_f64. rewrite (buf_call _ _ _ _ Hg Hc). cbn [foldl fst snd].
  pose proof (u32_range s). pose proof (u32_range v). pose proof (u32_range (Z.shiftr v 32)). unfold buf_op. regs. rewrite i32_u32 by done.
  change ((BUF_OP_GET_F32 <=? BUF_OP_SET_F64) && (BUF_OP_SET_F64 <=? BUF_OP_SET_BOOL)) with false.
  change (BUF_OP_SET_F64 =? BUF_OP_ALLOC_SLOT) with false. change (BUF_OP_SET_F64 =? BUF_OP_FREE_SLOT) with false.
  change (BUF_OP_SET_F64 =? BUF_OP_REF) with false. change (BUF_OP_SET_F64 =? BUF_OP_REF_VALID) with false.
  change (BUF_OP_SET_F64 =? BUF_OP_GET_F64) with false. change (BUF_OP_SET_F64 =? BUF_OP_SET_F64) with true.
  assert (Z.lor (u32 v) (Z.shiftl (u32 (Z.shiftr v 32)) 32) = v) as ->.
  { rewrite Z.lor_comm, shiftr_div, shiftl_mul by lia. unfold is_u64 in Hv. pow_simp.
    rewrite (u32_id (v / 4294967296)) by (unfold is_u32; pow_simp; Z.div_mod_to_equations; lia).
    change 4294967296 with (2 ^ 32). rewrite lor_disjoint_add by (lia || apply u32_range). unfold u32, wrap. Z.div_mod_to_equations; lia. }
  rewrite Hset. cbn [mbind option_bind snd]. eexists. split; [done|]. split; [|done]. eexists. split; [done|]. by destruct c.
Qed.

Ltac buf_ops :=
  unfold BUF_OP_GET_F32, BUF_OP_SET_BOOL, BUF_OP_ALLOC_SLOT, BUF_OP_FREE_SLOT, BUF_OP_REF, BUF_OP_REF_VALID;
  cbn [Z.leb Z.compare Pos.compare Pos.compare_cont andb Z.eqb Pos.eqb].

Lemma stub_alloc_spec b m sc rc i sc' :
  is_u32 b -> 0 < out -> out + 4 <= ram_size (rv_mem m) -> is_u32 out -> hosts m sc ->
  blyt_state_alloc_slot sc b = Some (rc, i, sc') -> is_i32 (default (-1) i) ->
  exists m', stub_alloc_slot env b out m = Some (if rc =? 0 then 0 else -1, m') /\ after m sc' m'
    /\ mem_acct_read_u32 (rv_mem m') out = u32 (default (-1) i).
Proof.
  intros Hb Ho Hram Hou (c & Hg & Hc) Ha Hi. unfold stub_alloc_slot. rewrite (buf_call _ _ _ _ Hg Hc). cbn [foldl fst snd].
  unfold buf_op. regs. buf_ops. rewrite Ha. cbn [mbind option_bind]. rewrite u32_i32, (u32_id out) by done. unfold out_u32.
  rewrite (proj2 (Z.eqb_neq out 0)) by lia. eexists. split; [|split; [split|]].
  - do 2 f_equal. unfold a0_of. change (rv_get_reg (advance ?x 4)) with (rv_get_reg x).
    rewrite get_set by (done || (destruct (rc =? 0); done)). by destruct (rc =? 0).
  - eexists. split; [done|]. by destruct c.
  - cbn. by rewrite memory_write_size.
  - cbn [rv_mem advance rv_set_reg set_mem set_ctx]. unfold mem_acct_read_u32.
    change 4 with (len (write_u32_le (u32 (default (-1) i)))) at 1. rewrite memory_read_write by (cbn; rewrite ?len_write_u32_le; lia).
    apply read_write_u32_le, u32_range.
Qed.

Lemma stub_free_spec b s m sc rc sc' :
  is_u32 b -> is_i32 s -> hosts m sc -> blyt_state_free_slot sc b s = Some (rc, sc') ->
  exists m', stub_free_slot env b s m = Some (if rc =? 0 then 0 else -1, m') /\ after m sc' m'.
Proof.
  intros Hb Hs (c & Hg & Hc) Hf. unfold stub_free_slot. rewrite (buf_call _ _ _ _ Hg Hc). cbn [foldl fst snd].
  pose proof (u32_range s). unfold buf_op. regs. rewrite i32_u32 by done. buf_ops. rewrite Hf. cbn [mbind option_bind].
  eexists. split; [|split].
  - do 2 f_equal. unfold a0_of. change (rv_get_reg (advance ?x 4)) with (rv_get_reg x).
    rewrite get_set by (done || (destruct (rc =? 0); done)). by destruct (rc =? 0).
  - eexists. split; [done|]. by destruct c.
  - done.
Qed.

Lemma stub_ref_spec b s m sc v :
  is_u32 b -> is_i32 s -> hosts m sc -> blyt_state_ref sc b s = Some v -> is_u32 v ->
  exists m', stub_ref env b s m = Some (v, m') /\ after m sc m'.
Proof.
  intros Hb Hs (c & Hg & Hc) Hr Hv. unfold stub_ref. rewrite (buf_call _ _ _ _ Hg Hc). cbn [foldl fst snd].
  pose proof (u32_range s). unfold buf_op. regs. rewrite i32_u32 by done. buf_ops. rewrite Hr. cbn [mbind option_bind].
  eexists. split.
  - do 2 f_equal. unfold a0_of. change (rv_get_reg (advance ?x 4)) with (rv_get_reg x). by regs.
  - by split; [exists c|].
Qed.

Lemma stub_ref_valid_spec b r m sc v :
  is_u32 b -> is_u32 r -> hosts m sc -> blyt_state_ref_valid sc b r = Some v ->
  exists m', stub_ref_valid env b r m = Some (v, m') /\ after m sc m'.
Proof.
  intros Hb Hs (c & Hg & Hc) Hr. unfold stub_ref_valid. rewrite (buf_call _ _ _ _ Hg Hc). cbn [foldl fst snd].
  unfold buf_op. regs. buf_ops. rewrite u32_i32, (u32_id r) by done. rewrite Hr. cbn [mbind option_bind].
  eexists. split.
  - do 2 f_equal. unfold a0_of. change (rv_get_reg (advance ?x 4)) with (rv_get_reg x).
    rewrite get_set by (done || by destruct v). by destruct v.
  - by split; [exists c|].
Qed.

(** *** Both sides *)

Lemma ctx_rel_tag (ctx ctx' : blyt_state_ctx_t) bi fi : ctx_rel ctx ctx' -> field_tag ctx' bi fi = field_tag ctx bi fi.
Proof.
  intros [Hn Hl _ Hin]. unfold field_tag. rewrite Hn. destruct ((0 <=? bi) && (bi <? n_buffers ctx)) eqn:E; [|done].
  destruct (zget (buffers ctx) bi) as [b|] eqn:Hb.
  - pose proof (zget_Some _ _ _ Hb) as [? _]. destruct (zget_is_Some (buffers ctx') bi) as [b' Hb']; [lia|].
    destruct (Hin bi b b') as (-> & _); [lia|done..|]. rewrite Hb'. cbn.
    destruct (Hin bi b b') as (Hs & _); [lia|done..|]. by rewrite Hs.
  - destruct (zget (buffers ctx') bi) as [b'|] eqn:Hb'; [|done]. pose proof (zget_Some _ _ _ Hb') as [? _].
    destruct (zget_is_Some (buffers ctx) bi) as [? ?]; [lia|congruence].
Qed.

Lemma call_ok_rel ctx ctx' c : ctx_rel ctx ctx' -> call_ok ctx c -> call_ok ctx' c.
Proof.
  intros Hr. unfold call_ok, declared, typed. destruct c; rewrite ?(cr_n _ _ Hr); try done; by rewrite (ctx_rel_tag _ _ _ _ Hr).
Qed.

Lemma cast_small t bits : 0 <= bits < 256 ^ width t ->
  tag_of t <> TYPE_F64 -> is_u32 bits.
Proof. intros Hb Ht. destruct t; cbn in Hb, Ht; unfold is_u32; pow_simp; lia || done. Qed.

Lemma emu_get_related t b s f m ctx bits :
  is_u32 b -> is_i32 s -> is_u32 f -> hosts m ctx -> host_bits ctx t b s f = Some bits -> 0 <= bits < 256 ^ width t ->
  exists m', emu_get env t b s f m = Some (cast_of t bits, m') /\ after m ctx m'.
Proof.
  intros Hb Hs Hf Hm Hbits Hr. unfold host_bits in Hbits. destruct (Z.eqb_spec (tag_of t) TYPE_F64) as [Ht|Ht].
  - destruct (blyt_state_get64 _ _ _ _) as [r|] eqn:E; [|done]. injection Hbits as <-. destruct t; try done.
    apply (stub_get64_spec b s f m ctx r); try done.
  - destruct (blyt_state_get _ _ _ _) as [r|] eqn:E; [|done]. injection Hbits as <-. pose proof (cast_small t _ Hr Ht) as Hu.
    assert (forall cast op, 1 <= op <= 16 -> Z.odd op = true -> exists m',
      STUB_GET env cast op b s f m = Some (cast (default 0 (snd r)), m') /\ after m ctx m') as Hstub.
    { intros cast op Hop Ho. by apply stub_get_spec. }
    destruct t; cbn [emu_get cast_of]; cbn in Hr; try done.
    + apply (Hstub i8 BUF_OP_GET_I8); done.
    + destruct (Hstub u8 BUF_OP_GET_U8) as (m' & E' & Ha); [done..|]. exists m'. split; [|done].
      unfold stub_get_u8. rewrite E'. by rewrite u8_id by (unfold is_u8; pow_simp; lia).
    + apply (Hstub i16 BUF_OP_GET_I16); done.
    + destruct (Hstub u16 BUF_OP_GET_U16) as (m' & E' & Ha); [done..|]. exists m'. split; [|done].
      unfold stub_get_u16. rewrite E'. by rewrite u16_id by (unfold is_u16; pow_simp; lia).
    + apply (Hstub i32 BUF_OP_GET_I32); done.
    + destruct (Hstub u32 BUF_OP_GET_U32) as (m' & E' & Ha); [done..|]. exists m'. split; [|done].
      unfold stub_get_u32. rewrite E'. by rewrite u32_id by done.
    + destruct (Hstub u32 BUF_OP_GET_F32) as (m' & E' & Ha); [done..|]. exists m'. split; [|done].
      unfold stub_get_f32. rewrite E'. by rewrite u32_id by done.
    + apply (Hstub (fun a0 => if negb (a0 =? 0) then 1 else 0) BUF_OP_GET_BOOL); done.
Qed.

Lemma bits_range t v : in_type t v -> if tag_of t =? TYPE_F64 then is_u64 (bits_of t v) else is_u32 (bits_of t v).
Proof.
  destruct t; cbn; unfold is_u8, is_u16, is_u32, is_u64; intros; pow_simp; try lia.
  - pose proof (u8_range v). unfold is_u8 in *. pow_simp. lia.
  - pose proof (u16_range v). unfold is_u16 in *. pow_simp. lia.
  - pose proof (u32_range v). unfold is_u32 in *. pow_simp. lia.
  - destruct (negb _); lia.
Qed.

Lemma emu_put_related t b s f v m ctx rc ctx' :
  is_u32 b -> is_i32 s -> is_u32 f -> in_type t v -> hosts m ctx -> host_put ctx t b s f (bits_of t v) = Some (rc, ctx') ->
  exists m', emu_put env t b s f v m = Some m' /\ after m ctx' m'.
Proof.
  intros Hb Hs Hf Hv Hm Hput. pose proof (bits_range t v Hv) as Hr. unfold host_put in Hput.
  destruct (Z.eqb_spec (tag_of t) TYPE_F64) as [Ht|Ht].
  - destruct t; try done. by apply (stub_set64_spec b s f v m ctx rc ctx').
  - assert (forall op, 1 <= op <= 16 -> Z.odd op = false -> exists m', STUB_SET env op b s f (bits_of t v) m = Some m' /\ after m ctx' m') as Hstub.
    { intros op Hop Ho. by apply (stub_set_spec op b s f (bits_of t v) m ctx rc ctx'). }
    destruct t; try done; cbn [emu_put];
      [apply (Hstub BUF_OP_SET_I8)|apply (Hstub BUF_OP_SET_U8)|apply (Hstub BUF_OP_SET_I16)|apply (Hstub BUF_OP_SET_U16)
      |apply (Hstub BUF_OP_SET_I32)|apply (Hstub BUF_OP_SET_U32)|apply (Hstub BUF_OP_SET_F32)|apply (Hstub BUF_OP_SET_BOOL)]; done.
Qed.

(** The calls on a handle that names no buffer. *)
Lemma no_buffer_calls st ctx b s :
  sim st ctx -> is_u32 b -> no_buffer b ->
  (blyt_buffer_alloc_slot st b = Some (BLYT_ERR_INVALID_ARG, None, st) /\ blyt_state_alloc_slot ctx b = Some (-1, None, ctx))
  /\ (blyt_buffer_free_slot st b s = Some (BLYT_ERR_INVALID_ARG, st) /\ blyt_state_free_slot ctx b s = Some (-1, ctx))
  /\ (blyt_buffer_ref st b s = Some 0 /\ blyt_state_ref ctx b s = Some 0)
  /\ (blyt_buffer_ref_valid st b s = Some false /\ blyt_state_ref_valid ctx b s = Some false).
Proof.
  intros Hsim Hb Hn. pose proof (no_buffer_index b Hb Hn) as Hi. pose proof (no_buffer_host _ _ Hsim b Hb Hn) as Hh.
  assert (find_buffer ctx b = None) as Hf.
  { unfold find_buffer, is_u32 in *. destruct (_ || _) eqn:E; [done|]. lia. }
  unfold blyt_buffer_alloc_slot, blyt_buffer_free_slot, blyt_buffer_ref, blyt_buffer_ref_valid, NATIVE_MAX_BUF.
  unfold blyt_state_alloc_slot, blyt_state_free_slot, blyt_state_ref, blyt_state_ref_valid. rewrite Hf.
  replace (buf_index b >=? 8) with true by lia. replace (buf_index b <? 8) with false by lia. cbn [negb orb].
  rewrite orb_true_r. by destruct (s =? 0).
Qed.

Lemma host_ref_total ctx b s : ctx_wf ctx -> declared ctx b -> exists v, blyt_state_ref ctx b s = Some v /\ is_u32 v.
Proof.
  intros Hwf Hd. destruct (allocated ctx (b - 1) s) eqn:Ea.
  - rewrite (ref_view ctx b s Hwf Hd Ea). eexists. split; [done|].
    pose proof (allocated_range _ _ _ Hwf Hd Ea). pose proof (limit_128 ctx (b - 1)).
    pose proof (gen_range ctx (b - 1) s Hwf Hd ltac:(lia)) as Hg. unfold is_u32, is_u16 in *. pow_simp. lia.
  - exists 0. split; [|done]. pose proof (wf_bufs _ Hwf). pose proof (wf_nb _ Hwf). unfold declared in Hd.
    destruct (zget_is_Some (buffers ctx) (b - 1)) as [b' Hb]; [lia|]. unfold blyt_state_ref, find_buffer.
    rewrite (proj2 (orb_false_iff _ _)) by lia. rewrite Hb. cbn [mbind option_bind].
    destruct (alloc_val b' s) as (v & Hv & _); [by eapply wf_buf|]. unfold allocated in Ea. rewrite Hb, Hv in Ea. cbn in Ea. subst v.
    by rewrite Hv.
Qed.

Lemma host_ref_valid_total ctx b r : ctx_wf ctx -> declared ctx b -> exists v, blyt_state_ref_valid ctx b r = Some v.
Proof.
  intros Hwf Hd. pose proof (wf_bufs _ Hwf). pose proof (wf_nb _ Hwf). unfold declared in Hd.
  destruct (zget_is_Some (buffers ctx) (b - 1)) as [b' Hb]; [lia|]. pose proof (wf_buf _ Hwf _ _ Hd Hb) as Hbw.
  unfold blyt_state_ref_valid, find_buffer. destruct (r =? 0); [by eexists|]. rewrite (proj2 (orb_false_iff _ _)) by lia.
  rewrite Hb. cbn [mbind option_bind]. destruct (alloc_val b' (Z.land r 65535) Hbw) as (v & -> & Hr). cbn [mbind option_bind].
  destruct v; cbn [negb]; [|by eexists]. destruct (wf_gens _ Hbw) as [Hl _].
  destruct (zget_is_Some (slot_gens b') (Z.land r 65535)) as [g ->]; [destruct (Hr eq_refl); lia|]. by eexists.
Qed.

Ltac finish Hs :=
  do 5 eexists; split; [reflexivity|]; split; [reflexivity|]; split; [done|]; split; [exact Hs|]; split; [eassumption|].

Lemma call_step c st m ctx :
  sim st ctx -> hosts m ctx -> 0 < out -> out + 4 <= ram_size (rv_mem m) -> is_u32 out -> call_ok ctx c ->
  exists r st' r' m' ctx', native_call c st = Some (r, st') /\ emu_call env out c m = Some (r', m') /\ r' = emulated_result r
    /\ sim st' ctx' /\ after m ctx' m' /\ ctx_rel ctx ctx'.
Proof.
  intros Hsim Hm Ho Hram Hou Hok. pose proof (sim_wf _ _ Hsim) as Hwf. destruct c as [t b s f|t b s f v|b|b s|b s|b r]; cbn [native_call emu_call].
  - destruct (get_related st ctx Hsim t b s f Hok) as (bits & Hh & -> & Hr). destruct Hok as (Hb & Hs & Hf & _).
    destruct (emu_get_related t b s f m ctx bits Hb Hs Hf Hm Hh Hr) as (m' & -> & Ha). cbn.
    finish Hsim; apply ctx_rel_refl.
  - destruct (put_related st ctx Hsim t b s f v Hok) as (rc & ctx' & st' & Hh & -> & Hsim' & Hrel). destruct Hok as (Hb & Hs & Hf & Hv & _).
    destruct (emu_put_related t b s f v m ctx rc ctx' Hb Hs Hf Hv Hm Hh) as (m' & -> & Ha). cbn.
    finish Hsim'; try done.
  - destruct Hok as (Hb & [Hn|Hd]).
    + destruct (no_buffer_calls st ctx b 0 Hsim Hb Hn) as [[-> Hh] _].
      destruct (stub_alloc_spec b m ctx _ _ _ Hb Ho Hram Hou Hm Hh) as (m' & -> & Ha & Hw); [done|]. cbn. rewrite Hw. cbn.
      finish Hsim; apply ctx_rel_refl.
    + destruct (alloc_slot_sim st ctx Hsim b Hd) as [[Hh ->]|(i & ctx' & st' & Hh & -> & Hi & Hsim')].
      * destruct (stub_alloc_spec b m ctx _ _ _ Hb Ho Hram Hou Hm Hh) as (m' & -> & Ha & Hw); [done|]. cbn. rewrite Hw. cbn.
        finish Hsim; apply ctx_rel_refl.
      * destruct (stub_alloc_spec b m ctx _ _ _ Hb Ho Hram Hou Hm Hh) as (m' & -> & Ha & Hw); [unfold is_i32; cbn; lia|]. cbn.
        rewrite Hw. cbn. rewrite i32_u32 by (unfold is_i32; pow_simp; lia).
        finish Hsim'; try done.
        apply (run_state_rel ctx (SAlloc b) 0). cbn. by rewrite Hh.
  - destruct Hok as (Hb & Hs & [Hn|Hd]).
    + destruct (no_buffer_calls st ctx b s Hsim Hb Hn) as (_ & [-> Hh] & _).
      destruct (stub_free_spec b s m ctx _ _ Hb Hs Hm Hh) as (m' & -> & Ha). cbn.
      finish Hsim; apply ctx_rel_refl.
    + destruct (free_slot_sim st ctx Hsim b s Hd Hs) as [[Hh ->]|(ctx' & st' & Hh & -> & Hsim')];
        destruct (stub_free_spec b s m ctx _ _ Hb Hs Hm Hh) as (m' & -> & Ha); cbn.
      * finish Hsim; apply ctx_rel_refl.
      * finish Hsim'; try done. by apply (run_state_rel ctx (SFree b s) 0).
  - destruct Hok as (Hb & Hs & Hd).
    assert (exists v, blyt_buffer_ref st b s = Some v /\ blyt_state_ref ctx b s = Some v /\ is_u32 v) as (v & -> & Hh & Hv).
    { destruct Hd as [Hn|Hd]; [destruct (no_buffer_calls st ctx b s Hsim Hb Hn) as (_ & _ & [-> ->] & _); by exists 0|].
      rewrite (ref_sim st ctx Hsim b s Hd Hs). destruct (host_ref_total ctx b s Hwf Hd) as (v & -> & Hv). by exists v. }
    destruct (stub_ref_spec b s m ctx v Hb Hs Hm Hh Hv) as (m' & -> & Ha). cbn.
    finish Hsim; apply ctx_rel_refl.
  - destruct Hok as (Hb & Hr & Hd).
    assert (exists v, blyt_buffer_ref_valid st b r = Some v /\ blyt_state_ref_valid ctx b r = Some v) as (v & -> & Hh).
    { destruct Hd as [Hn|Hd]; [destruct (no_buffer_calls st ctx b r Hsim Hb Hn) as (_ & _ & _ & [-> ->]); by exists false|].
      rewrite (ref_valid_sim st ctx Hsim b r Hd Hr). destruct (host_ref_valid_total ctx b r Hwf Hd) as (v & ->). by exists v. }
    destruct (stub_ref_valid_spec b r m ctx v Hb Hr Hm Hh) as (m' & -> & Ha). cbn.
    finish Hsim; apply ctx_rel_refl.
Qed.

(** C23: The bare-metal state buffers answer as the emulated ones, but for the codes of
    failing calls.  From related states, any sequence of gets and sets of the declared
    type, slot allocations and frees and entity refs runs to the end on both sides
    without undefined behaviour, and the states are related afterwards.  Call by call the
    emulated result is a function of the bare-metal one: the values read and the slots
    allocated are the same and a call succeeds on one side exactly when it does on the
    other.  A failing allocation or free answers -1 in the emulator whatever bare metal's code
    (1 for a bad argument, 2 for a full buffer), and a failing allocation stores -1 in the
    caller's slot where bare metal stores nothing; a cart that looks at these can tell. *)
Theorem native_state_parity cs st m ctx :
  sim st ctx -> hosts m ctx -> 0 < out -> out + 4 <= ram_size (rv_mem m) -> is_u32 out -> Forall (call_ok ctx) cs ->
  exists rs st' rs' m' ctx', run_calls native_call cs st = Some (rs, st') /\ run_calls (emu_call env out) cs m = Some (rs', m')
    /\ rs' = emulated_result <$> rs /\ sim st' ctx' /\ hosts m' ctx'.
Proof.
  intros Hsim Hm Ho Hram Hou Hcs. revert st m ctx Hsim Hm Hram Hcs.
  induction cs as [|c cs IH]; intros st m ctx Hsim Hm Hram Hcs; [by do 5 eexists|].
  rewrite Forall_cons in Hcs. destruct Hcs as [Hc Hcs]. cbn [run_calls].
  destruct (call_step c st m ctx Hsim Hm Ho Hram Hou Hc) as (r & st1 & r' & m1 & ctx1 & -> & -> & Ha & Hsim1 & [Hm1 Hr1] & Hrel).
  cbn [mbind option_bind]. destruct (IH st1 m1 ctx1 Hsim1 Hm1) as (rs & st' & rs' & m' & ctx' & -> & -> & Hall & Hs & Hh).
  { by rewrite Hr1. }
  { eapply Forall_impl; [exact Hcs|]. intros c'. by apply call_ok_rel. }
  cbn. do 5 eexists. split; [done|]. split; [done|]. split; [by subst|]. done.
Qed.
End machines.
