(* ===== verification/NativeLayouts.v ===== *)
(** * NativeLayouts: the bare-metal start-up reads the layouts the host reads

    A reference decoder [decode_layouts] for the FlatBuffers wire format of
    [schemas/cart_layouts.fbs] (tables, vtables, vectors and strings as the format defines
    them), and the theorem that [load_cart_buf_counts] leaves statics that simulate the
    context [blyt_state_ctx_init] builds from the same cart, for the layouts the
    hand-written parser can read. *)

From S2P Require Import Prelude StateBuffer StateBufferSpec ElfSection SessionLinkSpec NativeState NativeSpec.
From Stdlib Require Import ZArith Lia String.
From stdpp Require Import base tactics list.
Open Scope Z_scope.

(** ** The wire format *)

Section format.
Variable B : list Z.

(** The vtable of the table at [t] and its size. *)
Definition vtable_of (t : Z) : option (Z * Z) :=
  soff ← rd_le B t 4;
  let vt := t - i32 soff in
  vtsize ← rd_le B vt 2;
  if negb (soff =? 0) && (0 <=? vt) && (vt + 4 <=? len B) && (4 <=? vtsize) && (vt + vtsize <=? len B) then Some (vt, vtsize) else None.

(** The offset of a field in its table; 0 when absent. *)
Definition field_off (t voff : Z) : option Z :=
  '(vt, vtsize) ← vtable_of t;
  if vtsize <? voff + 2 then Some 0 else rd_le B (vt + voff) 2.

(** Follow an offset stored at [p]. *)
Definition follow (p : Z) : option Z :=
  uoff ← rd_le B p 4; if p + uoff + 4 <=? len B then Some (p + uoff) else None.

Definition ref_field (t voff : Z) : option (option Z) :=
  foff ← field_off t voff; if foff =? 0 then Some None else x ← follow (t + foff); Some (Some x).

Definition string_field (t voff : Z) : option (option (list Z)) :=
  r ← ref_field t voff;
  match r with
  | None => Some None
  | Some s => n ← rd_le B s 4; bytes ← rd B (s + 4) n; Some (Some bytes)
  end.

Definition scalar_field (n : Z) (t voff dflt : Z) : option Z :=
  foff ← field_off t voff; if foff =? 0 then Some dflt else rd_le B (t + foff) n.

(** The elements of the vector at [v]. *)
Definition elem_at (v i : Z) : option Z := follow (v + 4 + i * 4).
Fixpoint elems {A} (k : nat) (v i : Z) (f : Z -> option A) : option (list A) :=
  match k with
  | O => Some []
  | S k => x ← elem_at v i; a ← f x; rest ← elems k v (i + 1) f; Some (a :: rest)
  end.
Definition vector_field {A} (t voff : Z) (f : Z -> option A) : option (option (list A)) :=
  r ← ref_field t voff;
  match r with
  | None => Some None
  | Some v => n ← rd_le B v 4; l ← elems (Z.to_nat n) v 0 f; Some (Some l)
  end.

Definition decode_field (t : Z) : option (option FieldDecl) :=
  name ← string_field t 4; tag ← scalar_field 1 t 6 0; Some (Some (MkField name tag)).
Definition decode_record (t : Z) : option (option RecordDecl) :=
  name ← string_field t 4; fields ← vector_field t 6 decode_field; Some (Some (MkRecord name fields)).
Definition decode_buffer (t : Z) : option (option BufferDecl) :=
  name ← string_field t 4; rec ← string_field t 6; n ← scalar_field 4 t 8 0; Some (Some (MkBufDecl name rec n)).
Definition decode_layouts : option CartLayouts :=
  root ← rd_le B 0 4;
  if negb (root + 4 <=? len B) then None
  else
    recs ← vector_field root 4 decode_record;
    bufs ← vector_field root 6 decode_buffer;
    hash ← scalar_field 8 root 8 0;
    Some (MkLayouts recs bufs hash).

(** *** What the native parser needs *)

(** The vtable precedes the table. *)
Definition vtable_before (t : Z) : bool := match rd_le B t 4 with Some soff => 0 <? i32 soff | None => false end.
(** A buffer the parser does not skip: its vtable precedes it and it has a slot count. *)
Definition readable_buffer (t : Z) : option bool := n ← field_off t 8; Some (vtable_before t && negb (n =? 0)).
(** Which buffers these are, for a root the parser reads. *)
Definition readable_flags : option (list bool) :=
  root ← rd_le B 0 4;
  bufs ← vector_field root 6 readable_buffer;
  oks ← bufs;
  if vtable_before root then Some oks else None.
Definition native_readable : bool := match readable_flags with Some oks => forallb id oks | None => false end.
End format.

(** Within the native dimensions. *)
Definition fits_native (l : CartLayouts) : Prop :=
  len (default [] (cl_buffers l)) <= 8
  /\ (forall bd, Some bd ∈ default [] (cl_buffers l) -> bd_count bd <= 128 /\ len (default [] (bd_name bd)) <= 63)
  /\ (forall r, Some r ∈ default [] (cl_records l) -> len (default [] (rd_fields r)) <= 64).

Lemma elems_cons {A} B k v i (f : Z -> option A) l :
  elems B (S k) v i f = Some l ->
  exists x a rest, elem_at B v i = Some x /\ f x = Some a /\ elems B k v (i + 1) f = Some rest /\ l = a :: rest.
Proof.
  cbn. destruct (elem_at B v i) as [x|]; [|done]. cbn. destruct (f x) as [a|] eqn:Ea; [|done]. cbn.
  destruct (elems B k v (i + 1) f) as [rest|]; [|done]. intros [= <-]. eauto 10.
Qed.

(** ** Loads through the mapping *)

Section parse.
Context (m : list Z) (base off n : Z).
Context (Hbytes : bytes_ok m) (Hbase : 0 <= base) (Hend : base + len m < 2 ^ 32) (Hoff : 0 <= off) (Hn : 8 <= n) (Hsize : off + n <= len m).
Let B := sub m off n.
Let fb := base + off.

Lemma len_B : len B = n.
Proof. clear fb. unfold B. rewrite len_sub by lia. done. Qed.

Lemma rd_le_in p k v : rd_le B p k = Some v -> 0 <= p /\ 0 <= k /\ p + k <= n /\ 0 <= v < 256 ^ k.
Proof.
unfold rd_le. destruct (rd B p k) as [bs|] eqn:E; [|done]. cbn. intros [= <-].
  apply rd_inv in E as (? & ? & Hl & ->). rewrite len_B in Hl. split_and!; [done..| |].
  - apply le_val_range. by apply Forall_sub, Forall_sub.
  - assert (len (sub B p k) = k) as Hlk by (rewrite len_sub; rewrite ?len_B; lia). rewrite <-Hlk at 2.
    apply le_val_range. by apply Forall_sub, Forall_sub.
Qed.

Lemma load_at p k v : rd_le B p k = Some v -> load m base (fb + p) k = Some v.
Proof.
  intros H. pose proof (rd_le_in _ _ _ H) as (? & ? & ? & _). unfold load, fb. replace (base + off + p - base) with (off + p) by lia.
  unfold rd_le in *. rewrite rd_Some in H by (rewrite ?len_B; lia). rewrite rd_Some by lia. cbn in *. rewrite <-H. do 2 f_equal.
  unfold B. apply list_eq_zget.
  { rewrite !len_sub; rewrite ?len_sub; lia. }
  rewrite len_sub by lia. intros i Hi. rewrite !zget_sub by lia. f_equal. lia.
Qed.

Lemma load_i32_at p v : rd_le B p 4 = Some v -> load_i32 m base (fb + p) = Some (i32 v).
Proof. intros H. unfold load_i32. by rewrite (load_at _ _ _ H). Qed.

Lemma at_id p : 0 <= p <= n -> u32 (fb + p) = fb + p.
Proof. intros. unfold fb. apply u32_id. unfold is_u32. lia. Qed.

Lemma padd_at p k : 0 <= p + k <= n -> padd (fb + p) k = fb + (p + k).
Proof. intros. unfold padd. replace (fb + p + k) with (fb + (p + k)) by lia. by apply at_id. Qed.

Lemma padd_0 k : 0 <= k <= n -> padd fb k = fb + k.
Proof. intros. by apply at_id. Qed.

(** ** The readers agree *)

Lemma vtable_inv t vt vtsize :
  vtable_of B t = Some (vt, vtsize) ->
  exists soff, rd_le B t 4 = Some soff /\ soff <> 0 /\ vt = t - i32 soff /\ rd_le B vt 2 = Some vtsize
    /\ 0 <= vt /\ vt + 4 <= n /\ 4 <= vtsize /\ vt + vtsize <= n /\ 0 <= t /\ t + 4 <= n.
Proof.
  unfold vtable_of. destruct (rd_le B t 4) as [soff|] eqn:E1; [|done]. cbn [mbind option_bind].
  destruct (rd_le B (t - i32 soff) 2) as [sz|] eqn:E2; [|done]. cbn [mbind option_bind].
  destruct (_ && _ && _ && _ && _) eqn:E3; [|done]. intros [= <- <-]. rewrite len_B in E3.
  pose proof (rd_le_in _ _ _ E1). exists soff. split_and!; lia || done.
Qed.

Lemma soff_nonzero soff : is_u32 soff -> soff <> 0 -> i32 soff <> 0.
Proof. unfold i32. intros Hs. rewrite u32_id by done. unfold is_u32 in Hs. pow_simp. case_match; lia. Qed.

Lemma field_off_at t voff foff :
  field_off B t voff = Some foff -> 0 <= voff < 1024 -> fb_field_off m base fb n (fb + t) voff = Some foff.
Proof.
  intros H Hv. unfold field_off in H. destruct (vtable_of B t) as [[vt sz]|] eqn:E; [|done]. cbn in H.
  destruct (vtable_inv _ _ _ E) as (soff & Hs & Hs0 & -> & Hsz & ? & ? & ? & ? & ? & ?).
  pose proof (rd_le_in _ _ _ Hs) as (_ & _ & _ & Hu).
  assert (i32 soff <> 0) by (apply soff_nonzero; [unfold is_u32; lia|done]).
  unfold fb_field_off. rewrite (load_i32_at _ _ Hs). cbn [mbind option_bind]. rewrite (proj2 (Z.eqb_neq _ _)) by done.
  replace (padd (fb + t) (- i32 soff)) with (fb + (t - i32 soff)) by (symmetry; rewrite padd_at by lia; f_equal; lia).
  rewrite padd_0, padd_at by lia. rewrite (proj2 (orb_false_iff _ _)) by lia.
  rewrite (load_at _ _ _ Hsz). cbn [mbind option_bind]. rewrite padd_at by lia.
  destruct (sz <? voff + 2) eqn:E2; cbn [orb]; [by injection H as <-|].
  replace (fb + (t - i32 soff + sz) >? fb + n) with false by lia.
  rewrite padd_at by lia. by apply load_at.
Qed.

Lemma follow_inv p x : follow B p = Some x -> 0 <= p /\ p + 4 <= n /\ 0 <= x - p < 2 ^ 32 /\ x + 4 <= n /\ rd_le B p 4 = Some (x - p).
Proof.
  unfold follow. destruct (rd_le B p 4) as [u|] eqn:E; [|done]. cbn. destruct (_ <=? _) eqn:E2; [|done]. intros [= <-].
  rewrite len_B in E2. pose proof (rd_le_in _ _ _ E) as (? & _ & ? & ?). replace (p + u - p) with u by lia. split_and!; lia || done.
Qed.

Lemma field_off_range t voff foff : field_off B t voff = Some foff -> 0 <= t /\ 0 <= foff < 65536.
Proof.
  unfold field_off. destruct (vtable_of B t) as [[vt sz]|] eqn:E; [|done]. cbn.
  destruct (vtable_inv _ _ _ E) as (soff & _ & _ & _ & _ & _ & _ & _ & _ & ? & _).
  destruct (_ <? _); [intros [= <-]; lia|]. intros H0%rd_le_in. lia.
Qed.

Lemma ref_field_at t voff r :
  ref_field B t voff = Some r -> 0 <= voff < 1024 ->
  fb_uoffset_field m base fb n (fb + t) voff = Some (Z.add fb <$> r) /\ forall x, r = Some x -> 0 <= x /\ x + 4 <= n.
Proof.
  intros H Hv. unfold ref_field in H. destruct (field_off B t voff) as [foff|] eqn:E; [|done]. cbn [mbind option_bind] in H.
  pose proof (field_off_range _ _ _ E). unfold fb_uoffset_field. rewrite (field_off_at _ _ _ E Hv). cbn [mbind option_bind].
  destruct (foff =? 0); [by injection H as <-|].
  destruct (follow B (t + foff)) as [x|] eqn:Ef; [|done]. injection H as <-.
  destruct (follow_inv _ _ Ef) as (? & ? & ? & ? & Hx). split; [|by intros ? [= <-]; lia].
  rewrite (padd_at t foff), padd_0, padd_at by lia. replace (fb + (t + foff + 4) >? fb + n) with false by lia.
  rewrite (load_at _ _ _ Hx). cbn [mbind option_bind]. rewrite !padd_at by lia.
  replace (t + foff + (x - (t + foff))) with x by lia. by rewrite (proj2 (orb_false_iff _ _)) by lia.
Qed.

Lemma string_field_at t voff o :
  string_field B t voff = Some o -> 0 <= voff < 1024 ->
  match o with
  | None => fb_string m base fb n (fb + t) voff = Some None
  | Some bytes => exists s, fb_string m base fb n (fb + t) voff = Some (Some (fb + s, len bytes)) /\ rd B s (len bytes) = Some bytes
  end.
Proof.
  intros H Hv. unfold string_field in H. destruct (ref_field B t voff) as [r|] eqn:E; [|done]. cbn [mbind option_bind] in H.
  destruct (ref_field_at _ _ _ E Hv) as [Hf Hr]. unfold fb_string. rewrite Hf. cbn [mbind option_bind].
  destruct r as [s|]; cbn [fmap option_fmap option_map]; [|by injection H as <-]. destruct (Hr s eq_refl).
  destruct (rd_le B s 4) as [k|] eqn:Ek; [|done]. cbn [mbind option_bind] in H.
  destruct (rd B (s + 4) k) as [bytes|] eqn:Eb; [|done]. injection H as <-.
  apply rd_inv in Eb as Hb. destruct Hb as (? & ? & Hl & ->). rewrite len_B in Hl.
  assert (len (sub B (s + 4) k) = k) as Hlk by (rewrite len_sub; rewrite ?len_B; lia). rewrite Hlk.
  exists (s + 4). rewrite (load_at _ _ _ Ek). cbn [mbind option_bind]. rewrite !padd_at, padd_0 by lia.
  replace (fb + (s + 4 + k) >? fb + n) with false by lia. done.
Qed.

Lemma elem_at_at v i x :
  elem_at B v i = Some x -> 0 <= v -> 0 <= i ->
  fb_vec_at m base fb n (fb + v) i = Some (Some (fb + x)) /\ 0 <= x /\ x + 4 <= n
  /\ padd (padd (fb + v) 4) (u32 (i * 4)) = fb + (v + 4 + i * 4) /\ v + 4 + i * 4 + 4 <= n
  /\ load m base (fb + (v + 4 + i * 4)) 4 = Some (x - (v + 4 + i * 4)).
Proof.
  intros H Hv Hi. destruct (follow_inv _ _ H) as (? & ? & ? & ? & Hx).
  assert (padd (padd (fb + v) 4) (u32 (i * 4)) = fb + (v + 4 + i * 4)) as Ha.
  { rewrite (u32_id (i * 4)) by (unfold is_u32; lia). rewrite !padd_at by lia. f_equal. }
  unfold fb_vec_at. rewrite Ha, (load_at _ _ _ Hx). cbn [mbind option_bind]. rewrite !padd_at, padd_0 by lia.
  replace (v + 4 + i * 4 + (x - (v + 4 + i * 4))) with x by lia.
  replace (fb + (v + 4 + i * 4 + 4) >? fb + n) with false by lia.
  replace (v + 4 + i * 4 + (x - (v + 4 + i * 4)) + 4) with (x + 4) by lia.
  rewrite (proj2 (orb_false_iff _ _)) by lia. split_and!; lia || done.
Qed.

Lemma u8_field_at t voff v :
  scalar_field B 1 t voff 0 = Some v -> 0 <= voff < 1024 -> fb_u8_field m base fb n (fb + t) voff 0 = Some v.
Proof.
  intros H Hv. unfold scalar_field in H. destruct (field_off B t voff) as [foff|] eqn:E; [|done]. cbn [mbind option_bind] in H.
  pose proof (field_off_range _ _ _ E). unfold fb_u8_field. rewrite (field_off_at _ _ _ E Hv). cbn [mbind option_bind].
  destruct (foff =? 0); [done|]. pose proof (rd_le_in _ _ _ H) as (? & _ & ? & _).
  rewrite (padd_at t foff), padd_0, padd_at by lia. replace (fb + (t + foff + 1) >? fb + n) with false by lia. by apply load_at.
Qed.

Lemma u64_field_at t voff v :
  scalar_field B 8 t voff 0 = Some v -> 0 <= voff < 1024 -> fb_u64_field m base fb n (fb + t) voff 0 = Some v.
Proof.
  intros H Hv. unfold scalar_field in H. destruct (field_off B t voff) as [foff|] eqn:E; [|done]. cbn [mbind option_bind] in H.
  pose proof (field_off_range _ _ _ E). unfold fb_u64_field. rewrite (field_off_at _ _ _ E Hv). cbn [mbind option_bind].
  destruct (foff =? 0); [done|]. pose proof (rd_le_in _ _ _ H) as (? & _ & ? & _).
  rewrite (padd_at t foff), padd_0, padd_at by lia. replace (fb + (t + foff + 8) >? fb + n) with false by lia. by apply load_at.
Qed.

(** The byte loop compares the strings. *)
Lemma str_eq_at k a b x y :
  rd B a (len x) = Some x -> rd B b (len y) = Some y -> len x = len y -> k = length x ->
  str_eq_loop m base k (fb + a) (fb + b) = Some (bool_decide (x = y)).
Proof.
  revert a b x y. induction k as [|k IH]; intros a b x y Hx Hy Hl Hk.
  { destruct x; [|done]. destruct y; [|by unfold len in Hl; cbn in Hl; lia]. done. }
  destruct x as [|c x]; [done|]. destruct y as [|d y]; [by unfold len in Hl; cbn in Hl; lia|].
  rewrite !len_cons in *. injection Hk as Hk. pose proof (len_nonneg x). pose proof (len_nonneg y).
  assert (forall p c l, rd B p (1 + len l) = Some (c :: l) -> 0 <= p /\ p + 1 + len l <= n /\ rd_le B p 1 = Some c /\ rd B (p + 1) (len l) = Some l) as Hsplit.
  { clear -Hoff Hn Hsize. intros p c l H. pose proof (len_nonneg l). apply rd_inv in H as (? & _ & Hle & E). rewrite len_B in Hle.
    split_and!; [done|lia| |].
    - unfold rd_le. rewrite rd_Some by (rewrite ?len_B; lia). cbn. f_equal.
      assert (sub B p 1 = [c]) as ->; [|cbn; lia]. apply list_eq_zget; [rewrite len_sub; rewrite ?len_B; done || lia|].
      rewrite len_sub by (rewrite ?len_B; lia). intros i Hi. rewrite zget_sub by lia.
      assert (zget (c :: l) i = zget (sub B p (1 + len l)) i) as H1 by congruence. rewrite zget_sub in H1 by lia.
      rewrite <-H1. by replace i with 0 by lia.
    - rewrite rd_Some by (rewrite ?len_B; lia). f_equal. apply list_eq_zget; [rewrite len_sub; rewrite ?len_B; lia|].
      rewrite len_sub by (rewrite ?len_B; lia). intros i Hi. rewrite zget_sub by lia.
      assert (zget (c :: l) (1 + i) = zget (sub B p (1 + len l)) (1 + i)) as H1 by congruence. rewrite zget_sub in H1 by lia.
      replace (p + 1 + i) with (p + (1 + i)) by lia. rewrite <-H1. rewrite !zget_lookup by lia.
      by replace (Z.to_nat (1 + i)) with (S (Z.to_nat i)) by lia. }
  destruct (Hsplit _ _ _ Hx) as (? & ? & Hc & Hx'). destruct (Hsplit _ _ _ Hy) as (? & ? & Hd & Hy').
  cbn [str_eq_loop]. rewrite (load_at _ _ _ Hc), (load_at _ _ _ Hd). cbn [mbind option_bind].
  destruct (Z.eqb_spec c d) as [<-|Hne]; cbn [negb]; [|by rewrite bool_decide_false by congruence].
  rewrite !padd_at by lia. rewrite (IH (a + 1) (b + 1) x y) by (done || lia). f_equal. apply bool_decide_ext. naive_solver.
Qed.

Lemma str_eq_strings a b x y :
  rd B a (len x) = Some x -> rd B b (len y) = Some y ->
  fb_str_eq m base (fb + a) (len x) (fb + b) (len y) = Some (bool_decide (x = y)).
Proof.
  intros Hx Hy. unfold fb_str_eq. destruct (Z.eqb_spec (len x) (len y)) as [E|E]; cbn [negb].
  - apply str_eq_at; [done..|]. unfold len. lia.
  - rewrite bool_decide_false; [done|]. intros ->. done.
Qed.

(** ** The loops *)

Lemma len_tags fds : len (tags fds) = len fds.
Proof. unfold len, tags. by rewrite length_fmap. Qed.

(** [st] with the types and the field count of buffer [bi]. *)
Definition with_fields (st : native_state) (bi : Z) (row : list Z) (nf : Z) : native_state :=
  set_types (<[Z.to_nat bi := row]> (s_field_type st)) (<[Z.to_nat bi := nf]> (s_field_count st)) st.

Lemma with_fields_twice st bi row nf row' nf' : with_fields (with_fields st bi row nf) bi row' nf' = with_fields st bi row' nf'.
Proof. destruct st. unfold with_fields. cbn. f_equal; apply list_insert_insert_eq. Qed.

Lemma splice_step {A} (l ts : list A) i t :
  0 <= i -> i + 1 + len ts <= len l -> splice (<[Z.to_nat i := t]> l) (i + 1) ts = splice l i (t :: ts).
Proof.
  intros Hi Hl. pose proof (len_nonneg ts). apply list_eq_zget.
  { rewrite !len_splice; rewrite ?len_insert, ?len_cons; lia. }
  rewrite len_splice by (rewrite ?len_insert; lia). intros j Hj.
  rewrite !zget_splice by (rewrite ?len_insert, ?len_cons; lia). rewrite len_cons.
  destruct ((i + 1 <=? j) && (j <? i + 1 + len ts)) eqn:E1.
  - rewrite (proj2 (andb_true_iff _ _)) by lia. rewrite !zget_lookup by lia.
    by replace (Z.to_nat (j - i)) with (S (Z.to_nat (j - (i + 1)))) by lia.
  - destruct (decide (j = i)) as [->|Hne].
    + rewrite (proj2 (andb_true_iff _ _)) by lia. rewrite zget_insert_eq by lia. by replace (i - i) with 0 by lia.
    + rewrite (proj2 (andb_false_iff _ _)) by lia. by rewrite zget_insert_ne by lia.
Qed.

Lemma elems_length {A} k v i (f : Z -> option A) l : elems B k v i f = Some l -> length l = k.
Proof.
  revert i l; induction k as [|k IH]; intros i l; [by intros [= <-]|].
  intros (x & a & rest & _ & _ & Hr & ->)%elems_cons. cbn. by rewrite (IH _ _ Hr).
Qed.

Lemma type_loop_at k v i bi fds st row nf :
  elems B k v i (decode_field B) = Some fds -> 0 <= v -> 0 <= i -> i + len fds <= 64 ->
  zget (s_field_type st) bi = Some row -> len row = 64 -> zget (s_field_count st) bi = Some nf ->
  type_loop m base fb n k (fb + v) bi i st
  = Some (if k is O then st else with_fields st bi (splice row i (tags fds)) (i + len fds)).
Proof.
  intros He Hv. revert i fds st row nf He. induction k as [|k IH]; intros i fds st row nf He Hi Hl Hrow Hrl Hnf; [done|].
  apply elems_cons in He as (x & a & rest & Hx & Ha & Hr & ->). rewrite len_cons in *. pose proof (len_nonneg rest).
  unfold decode_field in Ha. destruct (string_field B x 4) as [nm|]; [|done]. cbn in Ha.
  destruct (scalar_field B 1 x 6 0) as [t|] eqn:Et; [|done]. injection Ha as <-.
  pose proof (zget_Some _ _ _ Hnf) as [? _]. pose proof (zget_Some _ _ _ Hrow) as [? _].
  destruct (elem_at_at _ _ _ Hx Hv Hi) as (Hva & _). cbn [type_loop]. rewrite Hva. cbn [mbind option_bind].
  change TYPE_I8 with 0. rewrite (u8_field_at _ _ _ Et) by lia. cbn [mbind option_bind].
  rewrite (zset2_row _ _ _ _ _ Hrow) by lia. cbn [mbind option_bind]. rewrite zset_Some by lia. cbn [mbind option_bind].
  change (set_types _ _ st) with (with_fields st bi (<[Z.to_nat i := t]> row) (i + 1)).
  rewrite (IH (i + 1) rest _ (<[Z.to_nat i := t]> row) (i + 1) Hr); [|lia|lia|..].
  - f_equal. destruct k as [|k].
    + cbn in Hr. injection Hr as <-. change (len []) with 0. cbn [tags fmap list_fmap fd_type_tag].
      replace (i + (1 + 0)) with (i + 1) by lia.
      rewrite <-splice_step by (change (len (@nil Z)) with 0; lia). unfold splice. cbn [length app].
      by rewrite Nat.add_0_r, take_drop.
    + rewrite with_fields_twice. change (tags (Some (MkField nm t) :: rest)) with (t :: tags rest).
      rewrite splice_step by (rewrite ?len_tags; lia). f_equal. lia.
  - destruct st; cbn in *. by apply zget_insert_eq.
  - by rewrite len_insert.
  - destruct st; cbn in *. by apply zget_insert_eq.
Qed.

(** The state after the fields of record [r] were flattened into buffer [bi]. *)
Definition with_record (st : native_state) (bi : Z) (r : RecordDecl) : native_state :=
  match default [] (rd_fields r), zget (s_field_type st) bi with
  | (_ :: _) as fds, Some row => with_fields st bi (splice row 0 (tags fds)) (len fds)
  | _, _ => st
  end.

Lemma record_loop_at k v i bi recs r rn name st row nf :
  elems B k v i (decode_record B) = Some recs -> 0 <= v -> 0 <= i -> rd B rn (len name) = Some name ->
  find_record recs (Some name) = Some (Some r) -> len (default [] (rd_fields r)) <= 64 ->
  zget (s_field_type st) bi = Some row -> len row = 64 -> zget (s_field_count st) bi = Some nf ->
  record_loop m base fb n k (Some (fb + v)) (fb + rn) (len name) bi i st = Some (with_record st bi r).
Proof.
  intros He Hv Hi Hname Hfind Hle Hrow Hrl Hnf. revert i recs He Hi Hfind. induction k as [|k IH]; intros i recs He Hi Hfind.
  { cbn in He. injection He as <-. done. }
  apply elems_cons in He as (x & a & rest & Hx & Ha & Hr & ->). unfold decode_record in Ha.
  destruct (string_field B x 4) as [rname|] eqn:En; [|done]. cbn [mbind option_bind] in Ha.
  destruct (vector_field B x 6 (decode_field B)) as [flds|] eqn:Ef; [|done]. injection Ha as <-.
  cbn [find_record rd_name] in Hfind. destruct rname as [rname|]; [|done]. cbn [mbind option_bind] in Hfind.
  destruct (elem_at_at _ _ _ Hx Hv Hi) as (Hva & _). destruct (string_field_at _ _ _ En) as (s & Hs & Hsb); [lia|].
  cbn [record_loop mbind option_bind]. rewrite Hva. cbn [mbind option_bind]. rewrite Hs. cbn [mbind option_bind].
  rewrite (str_eq_strings _ _ _ _ Hname Hsb). cbn [mbind option_bind].
  destruct (decide (rname = name)) as [->|Hne].
  - rewrite bool_decide_true in Hfind by done. injection Hfind as <-. rewrite bool_decide_true by done. cbn [negb rd_fields] in *.
    unfold vector_field in Ef. destruct (ref_field B x 6) as [ref|] eqn:Eref; [|done]. cbn [mbind option_bind] in Ef.
    destruct (ref_field_at _ _ _ Eref) as [Href Hrange]; [lia|]. rewrite Href. cbn [mbind option_bind].
    destruct ref as [fv|]; cbn [fmap option_fmap option_map]; [|injection Ef as <-; done]. destruct (Hrange fv eq_refl).
    destruct (rd_le B fv 4) as [kf|] eqn:Ek; [|done]. cbn [mbind option_bind] in Ef.
    destruct (elems B (Z.to_nat kf) fv 0 (decode_field B)) as [fds|] eqn:Eel; [|done]. injection Ef as <-. cbn [default id rd_fields] in *.
    pose proof (rd_le_in _ _ _ Ek) as (_ & _ & _ & ?). pose proof (elems_length _ _ _ _ _ Eel) as Hlen.
    assert (kf = len fds) as -> by (unfold len in *; lia).
    rewrite (load_at _ _ _ Ek). cbn [mbind option_bind]. change NATIVE_MAX_FIELDS with 64. replace (len fds >? 64) with false by lia.
    rewrite (type_loop_at _ _ _ _ fds st row nf Eel) by (done || lia). f_equal. unfold with_record. cbn [rd_fields default id]. rewrite Hrow.
    destruct fds as [|fd fds]; [done|]. cbn [length] in Hlen. destruct (Z.to_nat _) eqn:Ez; [unfold len in Ez; cbn in Ez; lia|].
    cbn [default id]. by rewrite Z.add_0_l.
  - rewrite bool_decide_false in Hfind |- * by done. cbn [negb]. apply (IH (i + 1) rest); [done|lia|done].
Qed.

(** ** One buffer *)

(** The statics of buffer [bi] are those of declaration [bd] with record [r]. *)
Record entry (st : native_state) (bi : Z) (bd : BufferDecl) (r : RecordDecl) : Prop := {
  en_count : zget (s_buf_count st) bi = Some (bd_count bd);
  en_name : exists row, zget (s_buf_name st) bi = Some row /\ len row = 64
    /\ sub row 0 (len (default [] (bd_name bd))) = default [] (bd_name bd);
  en_name_len : zget (s_buf_name_len st) bi = Some (len (default [] (bd_name bd)));
  en_nf : zget (s_field_count st) bi = Some (len (default [] (rd_fields r)));
  en_types : exists row, zget (s_field_type st) bi = Some row /\ len row = 64
    /\ forall fi, 0 <= fi < len (default [] (rd_fields r)) -> zget row fi = zget (tags (default [] (rd_fields r))) fi
}.

(** The statics before the buffer was parsed. *)
Record blank (st : native_state) (bi : Z) : Prop := {
  bl_count : zget (s_buf_count st) bi = Some 128;
  bl_name : zget (s_buf_name st) bi = Some (replicate 64 0);
  bl_name_len : zget (s_buf_name_len st) bi = Some 0;
  bl_nf : zget (s_field_count st) bi = Some 0;
  bl_types : zget (s_field_type st) bi = Some (replicate 64 0)
}.

(** What the buffer loop does not touch. *)
Definition same_rest (st st' : native_state) : Prop :=
  s_arena st' = s_arena st /\ s_slot_bits st' = s_slot_bits st /\ s_gen st' = s_gen st
  /\ s_n_buffers st' = s_n_buffers st /\ s_schema_hash st' = s_schema_hash st
  /\ s_save_version st' = s_save_version st /\ s_default_palette st' = s_default_palette st.

Lemma same_rest_trans st1 st2 st3 : same_rest st1 st2 -> same_rest st2 st3 -> same_rest st1 st3.
Proof. intros (?&?&?&?&?&?&?) (?&?&?&?&?&?&?). split_and!; congruence. Qed.

(** [st'] is [st] but for the declaration of buffer [bi]. *)
Record only (st st' : native_state) (bi : Z) : Prop := {
  on_rest : same_rest st st';
  on_rows : forall bj, bj <> bi -> zget (s_buf_count st') bj = zget (s_buf_count st) bj
    /\ zget (s_buf_name st') bj = zget (s_buf_name st) bj /\ zget (s_buf_name_len st') bj = zget (s_buf_name_len st) bj
    /\ zget (s_field_count st') bj = zget (s_field_count st) bj /\ zget (s_field_type st') bj = zget (s_field_type st) bj
}.

Lemma only_trans st1 st2 st3 bi : only st1 st2 bi -> only st2 st3 bi -> only st1 st3 bi.
Proof.
  intros [Hs1 Hr1] [Hs2 Hr2]. split; [by eapply same_rest_trans|]. intros bj Hj.
  destruct (Hr1 bj Hj) as (?&?&?&?&?), (Hr2 bj Hj) as (?&?&?&?&?). split_and!; congruence.
Qed.

Lemma entry_only st st' bi bj bd r : only st st' bi -> bj <> bi -> entry st bj bd r -> entry st' bj bd r.
Proof. intros [_ H] Hj []. destruct (H bj Hj) as (E1&E2&E3&E4&E5). split; rewrite ?E1, ?E2, ?E3, ?E4, ?E5; done. Qed.

Lemma blank_only st st' bi bj : only st st' bi -> bj <> bi -> blank st bj -> blank st' bj.
Proof. intros [_ H] Hj []. destruct (H bj Hj) as (E1&E2&E3&E4&E5). split; rewrite ?E1, ?E2, ?E3, ?E4, ?E5; done. Qed.

Lemma copy_name_at x bi st nm row :
  string_field B x 4 = Some nm -> len (default [] nm) <= 63 ->
  zget (s_buf_name st) bi = Some row -> len row = 64 -> zget (s_buf_name_len st) bi = Some 0 ->
  exists st', copy_name m base fb n (fb + x) bi st = Some st' /\ only st st' bi
    /\ (exists row, zget (s_buf_name st') bi = Some row /\ len row = 64 /\ sub row 0 (len (default [] nm)) = default [] nm)
    /\ zget (s_buf_name_len st') bi = Some (len (default [] nm)) /\ zget (s_buf_count st') bi = zget (s_buf_count st) bi
    /\ zget (s_field_count st') bi = zget (s_field_count st) bi /\ zget (s_field_type st') bi = zget (s_field_type st) bi.
Proof.
  intros Hs Hl Hname Hrl Hlen. pose proof (string_field_at _ _ _ Hs) as Hf. unfold copy_name. destruct nm as [nm|]; cbn [default id] in *.
  - destruct Hf as (s & Hfs & Hb); [lia|]. rewrite Hfs. cbn [mbind option_bind]. change (NATIVE_BUF_NAME_CAP - 1) with 63.
    replace (len nm >? 63) with false by lia.
    apply rd_inv in Hb as Hr. destruct Hr as (? & ? & Hle & Hsub). rewrite len_B in Hle.
    assert (rd m (fb + s - base) (len nm) = Some nm) as ->.
    { rewrite rd_Some by (unfold fb; lia). f_equal. rewrite Hsub at 2. unfold B, fb. apply list_eq_zget.
      { rewrite !len_sub; rewrite ?len_sub; lia. }
      rewrite len_sub by lia. intros i Hi. rewrite !zget_sub by lia. f_equal. lia. }
    pose proof (zget_Some _ _ _ Hname) as [? _]. pose proof (zget_Some _ _ _ Hlen) as [? _].
    rewrite Hname. cbn [mbind option_bind]. rewrite zset_Some by lia. cbn [mbind option_bind]. rewrite zset_Some by lia. cbn [mbind option_bind].
    eexists. split; [done|]. destruct st; cbn in *. split_and!; try done.
    + split; [done|]. intros bj Hj. cbn. by rewrite !zget_insert_ne by lia.
    + eexists. split; [by apply zget_insert_eq|]. assert (len (nm ++ [0]) = len nm + 1) as Hla by (rewrite len_app; done).
      split; [by rewrite len_splice by lia|].
      apply list_eq_zget; [rewrite len_sub; rewrite ?len_splice by lia; lia|].
      rewrite len_sub by (rewrite ?len_splice by lia; lia). intros i Hi.
      rewrite zget_sub, zget_splice by lia. rewrite (proj2 (andb_true_iff _ _)) by lia.
      rewrite zget_app_l by lia. f_equal. lia.
    + by apply zget_insert_eq.
  - rewrite Hf by lia. cbn [mbind option_bind]. eexists. split; [done|]. split; [by split|].
    split; [|split_and!; done]. by exists row.
Qed.

Lemma with_record_ok st bi r row :
  zget (s_field_count st) bi = Some 0 -> zget (s_field_type st) bi = Some row -> len row = 64 ->
  len (default [] (rd_fields r)) <= 64 ->
  let st' := with_record st bi r in
  only st st' bi /\ zget (s_buf_count st') bi = zget (s_buf_count st) bi /\ zget (s_buf_name st') bi = zget (s_buf_name st) bi
  /\ zget (s_buf_name_len st') bi = zget (s_buf_name_len st) bi
  /\ zget (s_field_count st') bi = Some (len (default [] (rd_fields r)))
  /\ exists row', zget (s_field_type st') bi = Some row' /\ len row' = 64
     /\ forall fi, 0 <= fi < len (default [] (rd_fields r)) -> zget row' fi = zget (tags (default [] (rd_fields r))) fi.
Proof.
  intros Hnf Hrow Hrl Hle. unfold with_record. rewrite Hrow. destruct (default [] (rd_fields r)) as [|fd fds].
  { cbn. split_and!; try done. exists row. split_and!; [done|done|]. intros fi. change (len []) with 0. lia. }
  pose proof (zget_Some _ _ _ Hnf) as [? _]. pose proof (zget_Some _ _ _ Hrow) as [? _].
  set (l := fd :: fds) in *. assert (len (tags l) = len l) as Ht by apply len_tags. pose proof (len_nonneg l).
  destruct st; unfold with_fields; cbn in *. split_and!; try done.
  - split; [done|]. intros bj Hj. cbn. by rewrite !zget_insert_ne by lia.
  - by apply zget_insert_eq.
  - eexists. split; [by apply zget_insert_eq|]. split; [by rewrite len_splice by lia|]. intros fi Hfi.
    rewrite zget_splice by lia. rewrite (proj2 (andb_true_iff _ _)) by lia. by rewrite Z.sub_0_r.
Qed.

Lemma find_record_named recs nm r : find_record recs nm = Some (Some r) -> is_Some nm.
Proof.
  induction recs as [|[r'|] recs IH]; cbn; [done| |done]. destruct (rd_name r'); [|done]. cbn. by destruct nm.
Qed.

Lemma load_decl_at x bi st bd r recs rv kr :
  decode_buffer B x = Some (Some bd) -> readable_buffer B x = Some true -> 0 <= x -> 0 <= bi < 8 ->
  bd_count bd <= 128 -> len (default [] (bd_name bd)) <= 63 -> len (default [] (rd_fields r)) <= 64 ->
  elems B (Z.to_nat kr) rv 0 (decode_record B) = Some recs -> 0 <= rv ->
  find_record recs (bd_record_name bd) = Some (Some r) -> blank st bi ->
  exists st', load_decl m base fb n (Some (fb + rv)) kr (fb + x) bi st = Some st' /\ only st st' bi /\ entry st' bi bd r.
Proof.
  intros Hd Hread Hx Hbi Hcnt Hname Hnf Hrecs Hrv Hfind Hbl. unfold decode_buffer in Hd.
  destruct (string_field B x 4) as [nm|] eqn:En; [|done]. cbn [mbind option_bind] in Hd.
  destruct (string_field B x 6) as [rec|] eqn:Erec; [|done]. cbn [mbind option_bind] in Hd.
  destruct (scalar_field B 4 x 8 0) as [cnt|] eqn:Ecnt; [|done]. injection Hd as <-. cbn [bd_count bd_name bd_record_name] in *.
  unfold readable_buffer in Hread. unfold scalar_field in Ecnt. destruct (field_off B x 8) as [coff|] eqn:Ecoff; [|done].
  cbn [mbind option_bind] in Hread, Ecnt. injection Hread as [Hbefore Hcoff]%andb_true_iff.
  destruct (Z.eqb_spec coff 0) as [|Hc0]; [done|]. clear Hcoff.
  unfold field_off in Ecoff. destruct (vtable_of B x) as [[vt sz]|] eqn:Evt; [|done]. cbn [mbind option_bind] in Ecoff.
  destruct (vtable_inv _ _ _ Evt) as (soff & Hs & _ & -> & Hsz & ? & ? & ? & ? & ? & ?).
  unfold vtable_before in Hbefore. rewrite Hs in Hbefore. destruct (sz <? 8 + 2) eqn:Esz; [by injection Ecoff as <-|].
  unfold load_decl. rewrite (load_i32_at _ _ Hs). cbn [mbind option_bind].
  replace (fb + x - fb) with x by lia. rewrite (u32_id x) by (unfold is_u32; lia).
  rewrite (proj2 (orb_false_iff (i32 soff <=? 0) _)) by lia.
  replace (padd (fb + x) (- i32 soff)) with (fb + (x - i32 soff)) by (symmetry; rewrite padd_at by lia; f_equal; lia).
  rewrite (load_at _ _ _ Hsz). cbn [mbind option_bind].
  replace (fb + (x - i32 soff) - fb) with (x - i32 soff) by lia.
  rewrite (u32_id (x - i32 soff)), (u32_id (x - i32 soff + sz)) by (unfold is_u32; lia).
  rewrite (proj2 (orb_false_iff (sz <? 10) _)) by lia. rewrite padd_at by lia.
  rewrite (load_at _ _ _ Ecoff). cbn [mbind option_bind]. rewrite (proj2 (Z.eqb_neq _ _)) by done.
  pose proof (rd_le_in _ _ _ Ecnt) as (? & _ & ? & ?). pose proof (rd_le_in _ _ _ Ecoff) as (_ & _ & _ & ?).
  rewrite (padd_at x coff), padd_0, padd_at by lia. replace (fb + (x + coff + 4) >? fb + n) with false by lia.
  rewrite (load_at _ _ _ Ecnt). cbn [mbind option_bind]. change NATIVE_MAX_SLOTS with 128.
  pose proof Hbl as []. pose proof (zget_Some _ _ _ bl_count0) as [? _]. rewrite zset_Some by lia. cbn [mbind option_bind].
  replace (if cnt <? 128 then cnt else 128) with cnt by (case_match; lia).
  set (st1 := set_counts (<[Z.to_nat bi := cnt]> (s_buf_count st)) st).
  assert (only st st1 bi) as Ho1.
  { unfold st1. destruct st; split; cbn; [done|]. intros bj Hj. by rewrite zget_insert_ne by lia. }
  assert (zget (s_buf_count st1) bi = Some cnt) as Hc1 by (unfold st1; destruct st; cbn in *; by apply zget_insert_eq).
  destruct (copy_name_at x bi st1 nm (replicate 64 0) En Hname) as (st2 & -> & Ho2 & Hnm2 & Hnl2 & Hc2 & Hnf2 & Hty2).
  { unfold st1. by destruct st. }
  { done. }
  { unfold st1. by destruct st. }
  assert (zget (s_field_count st1) bi = Some 0 /\ zget (s_field_type st1) bi = Some (replicate 64 0)) as [E1 E2] by (unfold st1; by destruct st).
  rewrite E1 in Hnf2. rewrite E2 in Hty2. cbn [mbind option_bind]. rewrite Hc1 in Hc2.
  destruct rec as [rec|]; [|by destruct (find_record_named _ _ _ Hfind)].
  destruct (string_field_at _ _ _ Erec) as (rn & Hrn & Hrb); [lia|]. rewrite Hrn. cbn [mbind option_bind].
  rewrite (record_loop_at _ _ _ _ recs r _ rec st2 _ 0 Hrecs) by done. eexists. split; [done|].
  destruct (with_record_ok st2 bi r (replicate 64 0)) as (Ho3 & Hr1 & Hr2 & Hr3 & Hr4 & Hr5); [done..|].
  split; [by eapply only_trans; [|eapply only_trans]|]. split; cbn [bd_count bd_name]; rewrite ?Hr1, ?Hr2, ?Hr3; done.
Qed.

(** The parser leaves any other buffer as it was. *)
Lemma load_decl_skip x bi st rec_vec kr :
  readable_buffer B x = Some false -> load_decl m base fb n rec_vec kr (fb + x) bi st = Some st.
Proof.
  unfold readable_buffer. destruct (field_off B x 8) as [coff|] eqn:Ecoff; [|done]. cbn [mbind option_bind]. intros [= Hread].
  unfold field_off in Ecoff. destruct (vtable_of B x) as [[vt sz]|] eqn:Evt; [|done]. cbn [mbind option_bind] in Ecoff.
  destruct (vtable_inv _ _ _ Evt) as (soff & Hs & _ & -> & Hsz & ? & ? & ? & ? & ? & ?).
  unfold vtable_before in Hread. rewrite Hs in Hread. unfold load_decl. rewrite (load_i32_at _ _ Hs). cbn [mbind option_bind].
  destruct (i32 soff <=? 0) eqn:E0; [done|]. replace (0 <? i32 soff) with true in Hread by lia.
  replace (fb + x - fb) with x by lia. rewrite (u32_id x) by (unfold is_u32; lia). replace (i32 soff >? x) with false by lia. cbn [orb].
  replace (padd (fb + x) (- i32 soff)) with (fb + (x - i32 soff)) by (symmetry; rewrite padd_at by lia; f_equal; lia).
  rewrite (load_at _ _ _ Hsz). cbn [mbind option_bind]. destruct (sz <? 8 + 2) eqn:Esz.
  { by replace (sz <? 10) with true by lia. }
  replace (fb + (x - i32 soff) - fb) with (x - i32 soff) by lia.
  rewrite (u32_id (x - i32 soff)), (u32_id (x - i32 soff + sz)) by (unfold is_u32; lia).
  rewrite (proj2 (orb_false_iff (sz <? 10) _)) by lia. rewrite padd_at by lia.
  rewrite (load_at _ _ _ Ecoff). cbn [mbind option_bind]. apply negb_false_iff in Hread. by rewrite Hread.
Qed.

(** ** All buffers *)

(** What the start-up makes of buffer [bi] declared as [bd] with record [r]. *)
Definition parsed (ok : bool) (st : native_state) (bi : Z) (bd : BufferDecl) (r : RecordDecl) : Prop :=
  if ok then entry st bi bd r else blank st bi.

Lemma parsed_only ok st st' bi bj bd r : only st st' bi -> bj <> bi -> parsed ok st bj bd r -> parsed ok st' bj bd r.
Proof. destruct ok; [apply entry_only|apply blank_only]. Qed.

Lemma decl_loop_at k v i decls oks recs rv kr st :
  elems B k v i (decode_buffer B) = Some decls -> elems B k v i (readable_buffer B) = Some oks ->
  0 <= v -> 0 <= i -> i + Z.of_nat k <= 8 ->
  (forall bd, Some bd ∈ decls -> bd_count bd <= 128 /\ len (default [] (bd_name bd)) <= 63
     /\ exists r, find_record recs (bd_record_name bd) = Some (Some r) /\ len (default [] (rd_fields r)) <= 64) ->
  elems B (Z.to_nat kr) rv 0 (decode_record B) = Some recs -> 0 <= rv ->
  (forall bi, i <= bi < 8 -> blank st bi) ->
  exists st', decl_loop m base fb n k (fb + v) (Some (fb + rv)) kr i st = Some st' /\ same_rest st st'
    /\ (forall ok bi bd r, bi < i -> parsed ok st bi bd r -> parsed ok st' bi bd r)
    /\ forall j ok bd r, 0 <= j < Z.of_nat k -> zget oks j = Some ok -> zget decls j = Some (Some bd) ->
         find_record recs (bd_record_name bd) = Some (Some r) -> parsed ok st' (i + j) bd r.
Proof.
  intros Hds Hok Hv Hi Hk Hlim Hrecs Hrv. revert i decls oks st Hds Hok Hi Hk Hlim.
  induction k as [|k IH]; intros i decls oks st Hds Hok Hi Hk Hlim Hbl.
  { exists st. split_and!; try done. intros. lia. }
  apply elems_cons in Hds as (x & a & rest & Hx & Ha & Hr & ->). apply elems_cons in Hok as (x' & ok & oks' & Hx' & Hb & Hr' & ->).
  rewrite Hx in Hx'. injection Hx' as <-.
  destruct (elem_at_at _ _ _ Hx Hv Hi) as (_ & Hx0 & Hxn & Ha1 & Hle & Hload).
  assert (exists bd, a = Some bd) as [bd ->].
  { unfold decode_buffer in Ha. destruct (string_field B x 4); [|done]. cbn in Ha. destruct (string_field B x 6); [|done]. cbn in Ha.
    destruct (scalar_field B 4 x 8 0); [|done]. injection Ha as <-. by eexists. }
  destruct (Hlim bd) as (Hcnt & Hnm & r & Hfind & Hnf); [left|].
  assert (exists st1, load_decl m base fb n (Some (fb + rv)) kr (fb + x) i st = Some st1 /\ only st st1 i /\ parsed ok st1 i bd r)
    as (st1 & Hrun & Ho & He).
  { destruct ok.
    - apply (load_decl_at x i st bd r recs rv kr); (done || lia || (apply Hbl; lia)).
    - exists st. split; [by apply load_decl_skip|]. split; [done|]. apply Hbl. lia. }
  cbn [decl_loop]. rewrite Ha1, Hload. cbn [mbind option_bind]. rewrite padd_0, !padd_at by lia.
  replace (fb + (v + 4 + i * 4 + 4) >? fb + n) with false by lia.
  replace (v + 4 + i * 4 + (x - (v + 4 + i * 4))) with x by lia. replace (fb + (x + 4) >? fb + n) with false by lia.
  rewrite Hrun. cbn [mbind option_bind].
  destruct (IH (i + 1) rest oks' st1 Hr Hr') as (st' & -> & Hsame & Hbefore & Hin); [lia|lia| |..].
  { intros bd' Hbd'. apply Hlim. by right. }
  { intros bi Hbi. eapply blank_only; [done|lia|]. apply Hbl. lia. }
  exists st'. split; [done|]. split; [|split].
  - eapply same_rest_trans; [by apply (on_rest _ _ _ Ho)|done].
  - intros ok' bi bd' r' Hbi Hen. apply Hbefore; [lia|]. eapply parsed_only; [done|lia|done].
  - intros j ok' bd' r' Hj Hok' Hbd Hfind'. destruct (decide (j = 0)) as [->|Hne].
    + injection Hok' as <-. injection Hbd as <-. rewrite Hfind in Hfind'. injection Hfind' as <-. replace (i + 0) with i by lia. apply Hbefore; [lia|done].
    + replace (i + j) with (i + 1 + (j - 1)) by lia. rewrite !zget_lookup in * by lia.
      replace (Z.to_nat j) with (S (Z.to_nat (j - 1))) in Hok', Hbd by lia. apply Hin; rewrite ?zget_lookup by lia; (lia || done).
Qed.

Lemma parse_root_at st l flags :
  decode_layouts B = Some l -> readable_flags B = Some flags -> fits_native l ->
  (forall bd, Some bd ∈ default [] (cl_buffers l) -> exists r, find_record (default [] (cl_records l)) (bd_record_name bd) = Some (Some r)) ->
  (forall bi, 0 <= bi < 8 -> blank st bi) ->
  exists st', parse_root m base fb n st = Some st'
    /\ same_rest (set_hash (cl_schema_hash l) (set_n_buffers (len (default [] (cl_buffers l))) st)) st'
    /\ len flags = len (default [] (cl_buffers l))
    /\ forall j ok bd r, zget flags j = Some ok -> zget (default [] (cl_buffers l)) j = Some (Some bd) ->
         find_record (default [] (cl_records l)) (bd_record_name bd) = Some (Some r) -> parsed ok st' j bd r.
Proof.
  intros Hd Hread (Hnb & Hlim & Hflds) Hrec Hbl. unfold decode_layouts in Hd. unfold readable_flags in Hread.
  destruct (rd_le B 0 4) as [root|] eqn:Eroot; [|done]. cbn [mbind option_bind] in Hd, Hread.
  destruct (root + 4 <=? len B) eqn:Er; [|done]. cbn [negb] in Hd. rewrite len_B in Er.
  pose proof (rd_le_in _ _ _ Eroot) as (_ & _ & _ & Hr0).
  destruct (vector_field B root 4 (decode_record B)) as [recs|] eqn:Erecs; [|done]. cbn [mbind option_bind] in Hd.
  destruct (vector_field B root 6 (decode_buffer B)) as [bufs|] eqn:Ebufs; [|done]. cbn [mbind option_bind] in Hd.
  destruct (scalar_field B 8 root 8 0) as [hash|] eqn:Ehash; [|done]. injection Hd as <-. cbn [cl_buffers cl_records cl_schema_hash] in *.
  destruct (vector_field B root 6 (readable_buffer B)) as [oks|] eqn:Eoks; [|done]. cbn [mbind option_bind] in Hread.
  destruct oks as [oks|]; [|done]. cbn [mbind option_bind] in Hread. destruct (vtable_before B root) eqn:Hbefore; [|done]. injection Hread as ->.
  unfold vector_field in Ebufs, Eoks. destruct (ref_field B root 6) as [bref|] eqn:Ebref; [|done]. cbn [mbind option_bind] in Ebufs, Eoks.
  destruct bref as [v|]; [|done]. destruct (ref_field_at _ _ _ Ebref) as [_ Hv]; [lia|]. destruct (Hv v eq_refl) as [Hv0 Hv4].
  destruct (rd_le B v 4) as [kn|] eqn:Ekn; [|done]. cbn [mbind option_bind] in Ebufs, Eoks.
  destruct (elems B (Z.to_nat kn) v 0 (decode_buffer B)) as [decls|] eqn:Edecls; [|done]. injection Ebufs as <-.
  destruct (elems B (Z.to_nat kn) v 0 (readable_buffer B)) as [oks'|] eqn:Eoks'; [|done]. injection Eoks as <-. cbn [default id] in *.
  pose proof (rd_le_in _ _ _ Ekn) as (_ & _ & _ & Hkn). pose proof (elems_length _ _ _ _ _ Edecls) as Hlen.
  pose proof (elems_length _ _ _ _ _ Eoks') as Hlen'. assert (kn = len decls) as -> by (unfold len in *; lia).
  assert (len oks' = len decls) as Hflen by (unfold len in *; lia).
  (* the root table *)
  unfold parse_root. pose proof (load_at _ _ _ Eroot) as Hl. rewrite Z.add_0_r in Hl. rewrite Hl. cbn [mbind option_bind].
  rewrite (u32_id (root + 4)) by (unfold is_u32; lia). replace (root + 4 >? n) with false by lia.
  unfold ref_field in Ebref. destruct (field_off B root 6) as [boff|] eqn:Eboff; [|done]. cbn [mbind option_bind] in Ebref.
  destruct (Z.eqb_spec boff 0) as [|Hb0]; [done|]. destruct (follow B (root + boff)) as [v'|] eqn:Ev; [|done]. injection Ebref as ->.
  destruct (follow_inv _ _ Ev) as (? & ? & ? & ? & Huo). pose proof (rd_le_in _ _ _ Huo) as (_ & _ & _ & ?).
  pose proof (field_off_range _ _ _ Eboff). unfold field_off in Eboff.
  destruct (vtable_of B root) as [[vt sz]|] eqn:Evt; [|done]. cbn [mbind option_bind] in Eboff.
  destruct (vtable_inv _ _ _ Evt) as (soff & Hs & _ & -> & Hsz & ? & ? & ? & ? & ? & ?).
  unfold vtable_before in Hbefore. rewrite Hs in Hbefore. destruct (sz <? 6 + 2) eqn:Esz; [by injection Eboff as <-|].
  rewrite padd_0 by lia. rewrite (load_i32_at _ _ Hs). cbn [mbind option_bind].
  replace (fb + root - fb) with root by lia. rewrite (u32_id root) by (unfold is_u32; lia).
  rewrite (proj2 (orb_false_iff (i32 soff <=? 0) _)) by lia.
  replace (padd (fb + root) (- i32 soff)) with (fb + (root - i32 soff)) by (symmetry; rewrite padd_at by lia; f_equal; lia).
  rewrite (load_at _ _ _ Hsz). cbn [mbind option_bind]. replace (fb + (root - i32 soff) - fb) with (root - i32 soff) by lia.
  rewrite (u32_id (root - i32 soff)), (u32_id (root - i32 soff + sz)) by (unfold is_u32; lia).
  rewrite (proj2 (orb_false_iff (sz <? 8) _)) by lia. rewrite padd_at by lia. rewrite (load_at _ _ _ Eboff). cbn [mbind option_bind].
  rewrite (proj2 (Z.eqb_neq _ _)) by done. rewrite (padd_at root boff), padd_0, padd_at by lia.
  replace (fb + (root + boff + 4) >? fb + n) with false by lia. rewrite (load_at _ _ _ Huo). cbn [mbind option_bind].
  rewrite !padd_at by lia. replace (root + boff + (v - (root + boff))) with v by lia. replace (fb + (v + 4) >? fb + n) with false by lia.
  rewrite (load_at _ _ _ Ekn). cbn [mbind option_bind]. rewrite (u64_field_at _ _ _ Ehash) by lia. cbn [mbind option_bind].
  change NATIVE_MAX_BUF with 8. replace (if len decls <? 8 then len decls else 8) with (len decls) by (case_match; lia).
  (* the records *)
  unfold vector_field in Erecs. destruct (ref_field B root 4) as [rref|] eqn:Erref; [|done]. cbn [mbind option_bind] in Erecs.
  destruct (ref_field_at _ _ _ Erref) as [Hrf Hrv]; [lia|]. rewrite Hrf. cbn [mbind option_bind].
  set (st1 := set_hash hash (set_n_buffers (len decls) st)).
  assert (forall bi, 0 <= bi < 8 -> blank st1 bi) as Hbl1.
  { intros bi Hbi. destruct (Hbl bi Hbi). unfold st1. destruct st. by split. }
  destruct rref as [rv|]; cbn [fmap option_fmap option_map].
  - destruct (Hrv rv eq_refl). destruct (rd_le B rv 4) as [kr|] eqn:Ekr; [|done]. cbn [mbind option_bind] in Erecs.
    destruct (elems B (Z.to_nat kr) rv 0 (decode_record B)) as [rl|] eqn:Erl; [|done]. injection Erecs as <-. cbn [default id] in *.
    rewrite (load_at _ _ _ Ekr). cbn [mbind option_bind].
    destruct (decl_loop_at (Z.to_nat (len decls)) v 0 decls oks' rl rv kr st1 Edecls Eoks') as (st' & -> & Hs' & _ & Hin); [lia..| |done|lia| |].
    + intros bd Hbd. destruct (Hlim bd Hbd) as [? ?]. split_and!; [done|done|]. destruct (Hrec bd Hbd) as [r Hr]. exists r. split; [done|].
      apply Hflds. clear -Hr. induction rl as [|[r'|] rl IH]; cbn in Hr; [done| |right; by apply IH].
      destruct (rd_name r'); [|done]. cbn in Hr. destruct (bd_record_name bd); [|done]. cbn in Hr. case_bool_decide; [injection Hr as <-; left|right; by apply IH].
    + intros bi Hbi. apply Hbl1. lia.
    + exists st'. split_and!; [done|done|done|]. intros j ok bd r Hok Hbd. apply (Hin j ok bd r); [|done..].
      apply zget_Some in Hbd as [? _]. lia.
  - injection Erecs as <-. cbn [default id] in *. cbn [mbind option_bind].
    destruct decls as [|[bd|] decls].
    + exists st1. split_and!; [done|done|done|]. intros j ok bd r _ [? _]%zget_Some. change (len []) with 0 in *. lia.
    + destruct (Hrec bd) as [r Hr]; [left|done].
    + exfalso. unfold len in Edecls. rewrite Nat2Z.id in Edecls. cbn [length] in Edecls. apply elems_cons in Edecls as (x & a & rest & _ & Ha & _ & E). injection E as <- _.
      unfold decode_buffer in Ha. destruct (string_field B x 4); [|done]. cbn in Ha. destruct (string_field B x 6); [|done]. cbn in Ha.
      by destruct (scalar_field B 4 x 8 0).
Qed.
End parse.

(** ** The host's context *)

(** Fresh statics and a fresh context of the same layouts are related. *)
Lemma fresh_sim st ctx hash decls recs :
  ctx_wf ctx -> all_fresh ctx -> n_buffers ctx = len decls -> len decls <= 8 -> s_n_buffers st = len decls ->
  (forall bd, Some bd ∈ decls -> bd_count bd <= 128) -> (forall r, Some r ∈ recs -> len (default [] (rd_fields r)) <= 64) ->
  s_arena st = s_arena bss -> s_slot_bits st = s_slot_bits bss -> s_gen st = replicate 8 (replicate 128 1) ->
  (forall d, d ∈ decls -> is_Some d) ->
  (forall j bd, 0 <= j -> zget decls j = Some (Some bd) ->
     exists r b, find_record recs (bd_record_name bd) = Some (Some r) /\ zget (buffers ctx) j = Some b /\ built hash b bd r) ->
  (forall j bd r, 0 <= j < len decls -> zget decls j = Some (Some bd) -> find_record recs (bd_record_name bd) = Some (Some r) -> entry st j bd r) ->
  sim st ctx /\ forall bi b, 0 <= bi < n_buffers ctx -> zget (buffers ctx) bi = Some b ->
    native_name st bi = Some (default [] (name b)) /\ schema_hash b = hash.
Proof.
  intros Hwf Hfresh Hn Hle8 Hsn Hcnt Hflds Har Hbits Hgens Hsome Hbuilt Hentry.
  assert (forall bi b, 0 <= bi < n_buffers ctx -> zget (buffers ctx) bi = Some b ->
    exists bd r, Some bd ∈ decls /\ Some r ∈ recs /\ built hash b bd r /\ entry st bi bd r /\ buf_fresh b) as Hall.
  { intros bi b Hbi Hb. destruct (zget_is_Some decls bi) as [d Hd]; [lia|]. destruct (Hsome d) as [bd ->]; [by eapply zget_elem|].
    destruct (Hbuilt bi bd) as (r & b' & Hf & Hb' & Hbu); [lia|done|]. rewrite Hb in Hb'. injection Hb' as <-. exists bd, r. split_and!.
    - by eapply zget_elem.
    - clear -Hf. induction recs as [|[r'|] rl IH]; cbn in Hf; [done| |right; by apply IH].
      destruct (rd_name r'); [|done]. cbn in Hf. destruct (bd_record_name bd); [|done]. cbn in Hf. case_bool_decide; [injection Hf as <-; left|right; by apply IH].
    - done.
    - apply Hentry; [lia|done|done].
    - by eapply Hfresh. }
  split; cycle 1.
  { intros bi b Hbi Hb. destruct (Hall bi b Hbi Hb) as (bd & r & _ & _ & Hbu & [] & _). destruct en_name0 as (row & Hr & _ & Hs).
    assert (len (default [] (bd_name bd)) <= len row) by (rewrite <-Hs; unfold sub, len; rewrite length_take, length_drop; lia).
    unfold native_name. rewrite Hr, en_name_len0. cbn. rewrite rd_Some by (pose proof (len_nonneg (default [] (bd_name bd))); lia). rewrite Hs, (bu_name _ _ _ _ Hbu). split; [done|apply Hbu]. }
  split; [done|lia|]. intros bi b Hbi Hb. destruct (Hall bi b Hbi Hb) as (bd & r & Hbd & Hr & Hbu & [] & Hf). pose proof (bu_count _ _ _ _ Hbu) as Ebc. pose proof (bu_nf _ _ _ _ Hbu) as Ebn. pose proof (bu_types _ _ _ _ Hbu) as Ebt.
  destruct Hf as [Hbw Hfb Hfg Hfz]. pose proof (wf_count _ Hbw). assert (0 <= bi < Z.of_nat 8) by lia.
  split.
  - rewrite Ebc, Ebn. split; [|by apply Hflds]. unfold is_u32 in *. specialize (Hcnt bd Hbd). lia.
  - by rewrite Ebc.
  - by rewrite Ebn.
  - destruct en_types0 as (row & Hrow & Hl & Ht). exists row. split_and!; [done|done|]. intros fi Hfi. rewrite Ht by lia. by rewrite Ebt.
  - rewrite Hbits, Hfb. change (s_slot_bits bss) with (replicate 8 (replicate 16 0)). by apply zget_replicate.
  - rewrite Hgens, Hfg. by apply zget_replicate.
  - rewrite Har. exists (replicate (Z.to_nat NATIVE_BUF_STRIDE) 0).
    assert (s_arena bss = replicate 8 (replicate (Z.to_nat NATIVE_BUF_STRIDE) 0)) as -> by reflexivity.
    split; [by apply zget_replicate|]. split; [by rewrite len_replicate|]. intros fi d Hfi Hd.
    destruct (Hfz fi Hfi) as (tag & Ht & Hz). rewrite Hd in Hz. injection Hz as ->. pose proof (sizeof_range tag).
    assert (0 <= count b <= 128) by (unfold is_u32 in *; specialize (Hcnt bd Hbd); lia).
    assert (n_fields b <= 64) by (rewrite Ebn; by apply Hflds).
    rewrite sub_zeros, len_replicate. f_equal. change NATIVE_BUF_STRIDE with 65536. nia.
Qed.

(** ** Start-up *)

(** [CartConfig]: [save_version] and [default_palette]. *)
Definition decode_config (B : list Z) : option (Z * Z) :=
  root ← rd_le B 0 4;
  if negb ((root + 4 <=? len B) && vtable_before B root) then None
  else v ← scalar_field B 4 root 6 0; p ← scalar_field B 4 root 8 0; Some (v, p).

(** The bytes of a section after its 8-byte preamble. *)
Definition body (m : list Z) (sect : Z * Z) : list Z := sub m (fst sect + 8) (snd sect - 8).
Definition LAYOUTS : list Z := text ".cart.layouts"%string ++ [0].
Definition CONFIG : list Z := text ".cart.config"%string ++ [0].

(** The version and the palette of a cart, whose [.cart.config] may be absent. *)
Definition cart_config (m : list Z) : option (Z * Z) :=
  found ← blyt_elf32_find_section (Some m) (Some CONFIG);
  match found with
  | None => Some (0, 0)
  | Some sect => if snd sect <? 16 then None else decode_config (body m sect)
  end.

Section startup.
Context (m : list Z) (base : Z).
Context (Hbytes : bytes_ok m) (Hbase : 0 <= base) (Hend : base + len m < 2 ^ 32).

Lemma find_section_range name off size :
  no_nul name -> blyt_elf32_find_section (Some m) (Some (name ++ [0])) = Some (Some (off, size)) ->
  0 <= off /\ 0 <= size /\ off + size <= len m.
Proof.
  intros Hn. destruct (SessionLinkSpec.find_section_total m name Hbytes Hn) as (r & -> & Hr). intros [= ->].
  destruct (Hr off size eq_refl) as (bytes & Hb & _). apply rd_inv in Hb. lia.
Qed.

Lemma parse_config_at st v p :
  cart_config m = Some (v, p) -> s_save_version st = 0 -> s_default_palette st = 0 ->
  parse_config m base st = Some (set_default_palette p (set_version v st)).
Proof.
  intros Hc Hv0 Hp0. unfold cart_config in Hc. unfold parse_config. fold CONFIG.
  destruct (blyt_elf32_find_section (Some m) (Some CONFIG)) as [[[coff csize]|]|] eqn:Ef; [| |done]; cbn [mbind option_bind] in *; cycle 1.
  { injection Hc as <- <-. destruct st. cbn in *. by subst. }
  cbn [fst snd] in Hc. destruct (csize <? 16) eqn:Esz; [done|].
  destruct (find_section_range (text ".cart.config") coff csize) as (Ho & Hs & Hle); [|done|].
  { unfold no_nul. by vm_compute; repeat constructor. }
  replace (csize >? 8) with true by lia. cbn [negb]. replace (csize - 8 >=? 8) with true by lia. cbn [negb].
  assert (padd base (coff + 8) = base + (coff + 8)) as -> by (unfold padd; rewrite u32_id by (unfold is_u32; lia); done).
  set (n := csize - 8) in *. set (off := coff + 8) in *. unfold body in Hc. cbn [fst snd] in Hc. fold off n in Hc.
  assert (off + n <= len m) as Hsize by (unfold off, n; lia). assert (8 <= n) as Hn by (unfold n; lia). assert (0 <= off) as Hoff by (unfold off; lia).
  clearbody n off. unfold decode_config in Hc.
  destruct (rd_le (sub m off n) 0 4) as [root|] eqn:Er; [|done]. cbn [mbind option_bind] in Hc.
  destruct (negb _) eqn:En in Hc; [done|]. apply negb_false_iff, andb_true_iff in En as [Hrn Hbefore].
  rewrite (len_B m off n Hoff Hn Hsize) in Hrn.
  destruct (scalar_field _ 4 root 6 0) as [v'|] eqn:Ev; [|done]. cbn [mbind option_bind] in Hc.
  destruct (scalar_field _ 4 root 8 0) as [p'|] eqn:Ep; [|done]. injection Hc as -> ->.
  pose proof (rd_le_in m base off n Hbytes Hoff Hn Hsize _ _ _ Er) as (_ & _ & _ & Hr0).
  pose proof (load_at m base off n Hbytes Hoff Hn Hsize _ _ _ Er) as Hl. rewrite Z.add_0_r in Hl. rewrite Hl. cbn [mbind option_bind].
  rewrite (u32_id (root + 4)) by (unfold is_u32; lia). replace (root + 4 <=? n) with true by lia. cbn [negb].
  pose proof (padd_at m base off n Hbase Hend Hoff Hsize) as Hpadd. pose proof (padd_0 m base off n Hbase Hend Hoff Hsize) as Hpadd0.
  unfold scalar_field, field_off in Ev, Ep.
  destruct (vtable_of (sub m off n) root) as [[vt sz]|] eqn:Evt; [|done]. cbn [mbind option_bind] in Ev, Ep.
  destruct (vtable_inv m base off n Hbytes Hoff Hn Hsize _ _ _ Evt) as (soff & Hs' & _ & -> & Hsz & ? & ? & ? & ? & ? & ?).
  unfold vtable_before in Hbefore. rewrite Hs' in Hbefore.
  rewrite Hpadd0 by lia. rewrite (load_i32_at m base off n Hbytes Hoff Hn Hsize _ _ Hs'). cbn [mbind option_bind].
  replace (base + off + root - (base + off)) with root by lia. rewrite (u32_id root) by (unfold is_u32; lia).
  rewrite (proj2 (andb_true_iff (i32 soff >? 0) _)) by lia. cbn [negb].
  replace (padd (base + off + root) (- i32 soff)) with (base + off + (root - i32 soff)) by (symmetry; rewrite Hpadd by lia; f_equal; lia).
  rewrite (load_at m base off n Hbytes Hoff Hn Hsize _ _ _ Hsz). cbn [mbind option_bind].
  replace (base + off + (root - i32 soff) - (base + off)) with (root - i32 soff) by lia.
  rewrite (u32_id (root - i32 soff)), (u32_id (root - i32 soff + sz)) by (unfold is_u32; lia).
  replace (root - i32 soff + sz <=? n) with true by lia. rewrite andb_true_r.
  replace (sz <? 6 + 2) with (negb (sz >=? 8)) in Ev by lia. destruct (sz >=? 8) eqn:E8; cbn [negb] in *; cycle 1.
  { replace (sz <? 8 + 2) with true in Ep by lia. cbn in Ev, Ep. injection Ev as <-. injection Ep as <-. destruct st. cbn in *. by subst. }
  rewrite (Hpadd (root - i32 soff) 6) by lia. destruct (rd_le (sub m off n) (root - i32 soff + 6) 2) as [sv|] eqn:Esv; [|done]. cbn [mbind option_bind] in Ev.
  rewrite (load_at m base off n Hbytes Hoff Hn Hsize _ _ _ Esv). cbn [mbind option_bind].
  assert (forall foff val, 0 <= foff -> rd_le (sub m off n) (root + foff) 4 = Some val ->
    (padd (padd (base + off + root) foff) 4 <=? padd (base + off) n) = true /\ load m base (padd (base + off + root) foff) 4 = Some val) as Hval.
  { intros foff val Hf0 Hval. pose proof (rd_le_in m base off n Hbytes Hoff Hn Hsize _ _ _ Hval) as (? & _ & ? & _).
    rewrite !Hpadd, Hpadd0 by lia. split; [lia|]. by apply (load_at m base off n). }
  pose proof (rd_le_in m base off n Hbytes Hoff Hn Hsize _ _ _ Esv) as (_ & _ & _ & Hsv0).
  assert ((if sv =? 0 then Some st
           else if padd (padd (base + off + root) sv) 4 <=? padd (base + off) n
                then v0 ← load m base (padd (base + off + root) sv) 4; Some (set_version v0 st) else Some st) = Some (set_version v st)) as ->.
  { destruct (sv =? 0); [injection Ev as <-; destruct st; cbn in *; by subst|]. destruct (Hval sv v) as [-> ->]; [lia|done|done]. }
  cbn [mbind option_bind]. replace (sz <? 8 + 2) with (negb (sz >=? 10)) in Ep by lia. destruct (sz >=? 10) eqn:E10; cbn [negb] in *; cycle 1.
  { cbn in Ep. injection Ep as <-. destruct st. cbn in *. by subst. }
  rewrite (Hpadd (root - i32 soff) 8) by lia. destruct (rd_le (sub m off n) (root - i32 soff + 8) 2) as [dp|] eqn:Edp; [|done]. cbn [mbind option_bind] in Ep.
  rewrite (load_at m base off n Hbytes Hoff Hn Hsize _ _ _ Edp). cbn [mbind option_bind].
  pose proof (rd_le_in m base off n Hbytes Hoff Hn Hsize _ _ _ Edp) as (_ & _ & _ & Hdp0).
  destruct (dp =? 0); [injection Ep as <-; destruct st; cbn in *; by subst|]. by destruct (Hval dp p) as [-> ->]; [lia|done|].
Qed.

Lemma decode_ok B l : bytes_ok B -> decode_layouts B = Some l -> Forall decl_ok (default [] (cl_buffers l)).
Proof.
  intros HB Hd. unfold decode_layouts in Hd. destruct (rd_le B 0 4) as [root|]; [|done]. cbn [mbind option_bind] in Hd.
  destruct (negb _); [done|]. destruct (vector_field B root 4 _) as [recs|]; [|done]. cbn [mbind option_bind] in Hd.
  destruct (vector_field B root 6 (decode_buffer B)) as [bufs|] eqn:Eb; [|done]. cbn [mbind option_bind] in Hd.
  destruct (scalar_field B 8 root 8 0); [|done]. injection Hd as <-. cbn [cl_buffers]. unfold vector_field in Eb.
  destruct (ref_field B root 6) as [[v|]|]; [|by injection Eb as <-|done]. cbn [mbind option_bind] in Eb.
  destruct (rd_le B v 4) as [k|]; [|done]. cbn [mbind option_bind] in Eb.
  destruct (elems B (Z.to_nat k) v 0 (decode_buffer B)) as [ds|] eqn:Ed; [|done]. injection Eb as <-. cbn [default id].
  clear -HB Ed. revert Ed. generalize (Z.to_nat k), 0. intros n. revert ds. induction n as [|n IH]; intros ds i.
  { by intros [= <-]. }
  intros (x & a & rest & _ & Ha & Hr & ->)%elems_cons. constructor; [|by eapply IH]. unfold decode_buffer in Ha.
  destruct (string_field B x 4); [|done]. cbn [mbind option_bind] in Ha. destruct (string_field B x 6); [|done]. cbn [mbind option_bind] in Ha.
  destruct (scalar_field B 4 x 8 0) as [c|] eqn:Ec; [|done]. injection Ha as <-. eexists. split; [done|]. cbn [bd_count].
  unfold scalar_field in Ec. destruct (field_off B x 8) as [f|]; [|done]. cbn [mbind option_bind] in Ec.
  destruct (f =? 0); [by injection Ec as <-|]. unfold rd_le in Ec. destruct (rd B (x + f) 4) as [bs|] eqn:Er; [|done].
  cbn in Ec. injection Ec as <-. apply rd_inv in Er as (? & _ & ? & ->). change (is_u32 (le_val (sub B (x + f) 4))).
  pose proof (le_val_range (sub B (x + f) 4)) as Hv. rewrite len_sub in Hv by lia. apply Hv. by apply Forall_sub.
Qed.

Lemma blank_defaults bi : 0 <= bi < 8 -> blank (layout_defaults bss) bi.
Proof. intros H. assert (0 <= bi < Z.of_nat 8) by lia. split; apply zget_replicate; done. Qed.

(** The start-up and the host's initialisation from the same cart.  [decls] and [recs] are
    the declarations of the layouts [l]. *)
Definition decls (l : CartLayouts) : list (option BufferDecl) := default [] (cl_buffers l).
Definition recs (l : CartLayouts) : list (option RecordDecl) := default [] (cl_records l).

(** The host's side: what a successful initialisation has built. *)
Lemma host_built off size l calloc_ok as_root ctx :
  16 <= size -> 0 <= off -> off + size <= len m ->
  decode_layouts (body m (off, size)) = Some l -> fits_native l -> as_root (body m (off, size)) = Some l ->
  blyt_state_ctx_init calloc_ok (Some (sub m off size)) as_root = Some (0, ctx) ->
  (forall d, d ∈ decls l -> is_Some d) /\ ctx_wf ctx /\ all_fresh ctx /\ n_buffers ctx = len (decls l)
  /\ forall j bd, 0 <= j -> zget (decls l) j = Some (Some bd) -> exists r b, find_record (recs l) (bd_record_name bd) = Some (Some r)
       /\ zget (buffers ctx) j = Some b /\ built (cl_schema_hash l) b bd r.
Proof.
  intros Hsize Ho Hle Hd (Hn8 & _) Hroot Hinit. set (B := body m (off, size)) in *.
  assert (B = sub m (off + 8) (size - 8)) as HB by done. assert (bytes_ok B) as HBok by (rewrite HB; by apply Forall_sub).
  assert (drop 8 (sub m off size) = B) as Hdrop.
  { rewrite HB. unfold sub. rewrite skipn_firstn_comm, drop_drop. f_equal; [lia|f_equal; lia]. }
  pose proof (decode_ok _ _ HBok Hd) as Hok. fold (decls l) in *. pose proof (len_nonneg (decls l)).
  assert (forall d, d ∈ decls l -> is_Some d) as Hsome.
  { intros d Hin. rewrite Forall_forall in Hok. destruct (Hok d Hin) as (bd & -> & _). by eexists. }
  assert (init_buffers calloc_ok (decls l) (recs l) (cl_schema_hash l) 0 0 zero_ctx = Some (0, ctx)) as Hrun.
  { unfold blyt_state_ctx_init in Hinit. rewrite len_sub in Hinit by lia. replace (size <=? 8) with false in Hinit by lia.
    rewrite Hdrop, Hroot in Hinit. fold (decls l) (recs l) in Hinit. destruct (Z.eqb_spec (len (decls l)) 0) as [E|]; [|done].
    injection Hinit as <-. destruct (decls l); [done|]. unfold len in E. cbn in E. lia. }
  destruct (init_buffers_spec calloc_ok _ _ _ 0 0 _ _ _ Hok ltac:(lia) init_inv_zero Hrun) as [[_ Hinv]|[? _]]; [|done].
  rewrite Z.add_0_l, Z.min_r in Hinv by lia. split; [done|]. split; [by apply (init_inv_wf (len (decls l))); [lia|]|].
  split; [apply (ii_done _ _ Hinv)|]. split; [apply (ii_n _ _ Hinv)|].
  destruct (init_buffers_built calloc_ok (decls l) (recs l) (cl_schema_hash l) 0 0 zero_ctx ctx ltac:(lia) Hsome Hrun) as [_ Hbuilt32].
  intros j bd Hj Hbd. apply Hbuilt32; [done| |done]. apply zget_Some in Hbd as [? _]. lia.
Qed.

(** The start-up's side: each buffer is parsed or left blank. *)
Lemma boot_at off size l flags v p calloc_ok as_root ctx :
  52 <= len m -> blyt_elf32_find_section (Some m) (Some LAYOUTS) = Some (Some (off, size)) -> 16 <= size ->
  let B := body m (off, size) in
  decode_layouts B = Some l -> readable_flags B = Some flags -> fits_native l -> as_root B = Some l ->
  cart_config m = Some (v, p) ->
  blyt_state_ctx_init calloc_ok (Some (sub m off size)) as_root = Some (0, ctx) ->
  exists st, load_cart_buf_counts (Some (m, base)) bss = Some st
    /\ same_rest (set_hash (cl_schema_hash l) (set_n_buffers (len (decls l))
         (set_default_palette p (set_version v (layout_defaults bss))))) st
    /\ len flags = len (decls l)
    /\ forall j ok bd r, zget flags j = Some ok -> zget (decls l) j = Some (Some bd) ->
         find_record (recs l) (bd_record_name bd) = Some (Some r) -> parsed ok st j bd r.
Proof.
  intros Hlen Hfind Hsize B Hd Hread Hfit Hroot Hcfg Hinit.
  destruct (find_section_range (text ".cart.layouts") off size) as (Ho & _ & Hle); [by unfold no_nul; vm_compute; repeat constructor|done|].
  destruct (host_built off size l calloc_ok as_root ctx) as (_ & _ & _ & _ & Hbuilt); [done..|].
  unfold load_cart_buf_counts. replace (len m <? 52) with false by lia.
  rewrite (parse_config_at _ v p Hcfg) by done. cbn [mbind option_bind]. set (st1 := set_default_palette p (set_version v (layout_defaults bss))).
  destruct (parse_root_at m base (off + 8) (size - 8) Hbytes Hbase Hend ltac:(lia) ltac:(lia) ltac:(lia) st1 l flags)
    as (st & Hst & Hrest & Hl & Hent); [done|done|done| | |].
  { intros bd Hbd. destruct (list_elem_of_lookup_1 _ _ Hbd) as [i Hi]. destruct (Hbuilt (Z.of_nat i) bd) as (r & _ & Hr & _); [lia| |by exists r].
    by rewrite zget_lookup, Nat2Z.id by lia. }
  { intros bi Hbi. destruct (blank_defaults bi Hbi). by split. }
  exists st. split; [|done].
  unfold parse_layouts. fold LAYOUTS. rewrite Hfind. cbn [mbind option_bind]. replace (size <=? 8) with false by lia.
  replace (size - 8 <? 8) with false by lia. unfold padd. by rewrite u32_id by (unfold is_u32; lia).
Qed.

(** When every buffer is read, the statics simulate the context. *)
Lemma startup_at off size l v p calloc_ok as_root ctx :
  52 <= len m -> blyt_elf32_find_section (Some m) (Some LAYOUTS) = Some (Some (off, size)) -> 16 <= size ->
  let B := body m (off, size) in
  decode_layouts B = Some l -> native_readable B = true -> fits_native l -> as_root B = Some l ->
  cart_config m = Some (v, p) ->
  blyt_state_ctx_init calloc_ok (Some (sub m off size)) as_root = Some (0, ctx) ->
  exists st, load_cart_buf_counts (Some (m, base)) bss = Some st /\ sim st ctx
    /\ same_rest (set_hash (cl_schema_hash l) (set_n_buffers (len (default [] (cl_buffers l)))
         (set_default_palette p (set_version v (layout_defaults bss))))) st
    /\ forall bi b, 0 <= bi < n_buffers ctx -> zget (buffers ctx) bi = Some b ->
         native_name st bi = Some (default [] (name b)) /\ schema_hash b = cl_schema_hash l.
Proof.
  intros Hlen Hfind Hsize B Hd Hread Hfit Hroot Hcfg Hinit. unfold native_readable in Hread.
  destruct (readable_flags B) as [flags|] eqn:Hflags; [|done].
  destruct (find_section_range (text ".cart.layouts") off size) as (Ho & _ & Hle); [by unfold no_nul; vm_compute; repeat constructor|done|].
  destruct (host_built off size l calloc_ok as_root ctx) as (Hsome & Hwf & Hfresh & Hn & Hbuilt); [done..|].
  destruct (boot_at off size l flags v p calloc_ok as_root ctx) as (st & Hst & Hrest & Hl & Hent); [done..|].
  exists st. split; [done|]. pose proof Hrest as (H1 & H2 & H3 & H4 & _). destruct Hfit as (Hn8 & Hlim & Hflds).
  destruct (fresh_sim st ctx (cl_schema_hash l) (decls l) (recs l)) as [Hsim Hnames]; try done.
  { intros bd Hbd. by apply Hlim. }
  intros j bd r Hj Hbd Hr. destruct (zget_is_Some flags j) as [ok Hok]; [lia|]. pose proof (Hent j ok bd r Hok Hbd Hr) as Hp.
  rewrite forallb_forall in Hread. assert (ok = true) as ->; [|done].
  apply (Hread ok), list_elem_of_In. by eapply zget_elem.
Qed.

(** C24: A cart's declarations mean the same to the bare-metal start-up, which parses them
    by hand, and to the host, which reads them through the FlatBuffers accessors.  For a
    mapped cart whose layouts decode, in the subset the hand-written parser handles and
    within its dimensions, if the host builds a context then [load_cart_buf_counts] completes without
    a load outside the file, and leaves statics that simulate the context, with the
    same buffer names and schema hash, and with the cart's save version and default palette. *)
Theorem native_startup off size l v p calloc_ok as_root ctx :
  52 <= len m -> blyt_elf32_find_section (Some m) (Some LAYOUTS) = Some (Some (off, size)) -> 16 <= size ->
  let B := body m (off, size) in
  decode_layouts B = Some l -> native_readable B = true -> fits_native l -> as_root B = Some l ->
  cart_config m = Some (v, p) ->
  blyt_state_ctx_init calloc_ok (Some (sub m off size)) as_root = Some (0, ctx) ->
  exists st, load_cart_buf_counts (Some (m, base)) bss = Some st /\ sim st ctx
    /\ s_schema_hash st = cl_schema_hash l /\ s_save_version st = v /\ blyt_native_default_palette st = p
    /\ forall bi b, 0 <= bi < n_buffers ctx -> zget (buffers ctx) bi = Some b ->
         native_name st bi = Some (default [] (name b)) /\ schema_hash b = s_schema_hash st.
Proof.
  intros. destruct (startup_at off size l v p calloc_ok as_root ctx) as (st & Hrun & Hsim & (_ & _ & _ & _ & Eh & Ev & Ep) & Hnames); [done..|].
  exists st. split; [done|]. split; [done|]. cbn in Eh, Ev, Ep. unfold blyt_native_default_palette. rewrite Eh. by split_and!.
Qed.

(** C29: The bare-metal start-up loses exactly the buffers whose vtable does not precede
    their table.  A FlatBuffers builder may store the vtable that several buffers share
    behind the table of one of them; the host reads such a declaration, the hand-written
    parser takes the signed offset to be out of bounds.  For any cart whose layouts decode
    and whose root the parser reads, within the native dimensions, if the host builds a
    context then the start-up completes and counts all the buffers.  The host has built each as it is
    declared.  On bare metal a buffer that [readable_flags] marks has the declared
    slots, fields and name; any other (a vtable at or behind the table, or no slot count) keeps the
    defaults: 128 slots, no fields and an empty name. *)
Theorem native_lost_buffers off size l flags v p calloc_ok as_root ctx :
  52 <= len m -> blyt_elf32_find_section (Some m) (Some LAYOUTS) = Some (Some (off, size)) -> 16 <= size ->
  let B := body m (off, size) in
  decode_layouts B = Some l -> readable_flags B = Some flags -> fits_native l -> as_root B = Some l ->
  cart_config m = Some (v, p) ->
  blyt_state_ctx_init calloc_ok (Some (sub m off size)) as_root = Some (0, ctx) ->
  exists st, load_cart_buf_counts (Some (m, base)) bss = Some st
    /\ s_n_buffers st = n_buffers ctx /\ n_buffers ctx = len (decls l) /\ len flags = len (decls l)
    /\ forall j bd, 0 <= j -> zget (decls l) j = Some (Some bd) -> exists r b, find_record (recs l) (bd_record_name bd) = Some (Some r)
         /\ zget (buffers ctx) j = Some b /\ built (cl_schema_hash l) b bd r
         /\ ((zget flags j = Some true /\ entry st j bd r)
             \/ (zget flags j = Some false /\ blank st j /\ native_name st j = Some [])).
Proof.
  intros Hlen Hfind Hsize B Hd Hflags Hfit Hroot Hcfg Hinit.
  destruct (find_section_range (text ".cart.layouts") off size) as (Ho & _ & Hle); [by unfold no_nul; vm_compute; repeat constructor|done|].
  destruct (host_built off size l calloc_ok as_root ctx) as (_ & _ & _ & Hn & Hbuilt); [done..|].
  destruct (boot_at off size l flags v p calloc_ok as_root ctx) as (st & Hst & (_ & _ & _ & En & _) & Hl & Hent); [done..|].
  exists st. cbn in En. split_and!; [done|congruence|done|done|]. intros j bd Hj Hbd.
  destruct (Hbuilt j bd Hj Hbd) as (r & b & Hr & Hb & Hbu). exists r, b. split_and!; [done..|].
  destruct (zget_is_Some flags j) as [[] Hok]; [apply zget_Some in Hbd as [? _]; lia|left|right]; pose proof (Hent j _ bd r Hok Hbd Hr) as Hp; cbn in Hp.
  - done.
  - split_and!; [done|done|]. destruct Hp. unfold native_name. by rewrite bl_name0, bl_name_len0.
Qed.
End startup.
