(* ===== verification/NativeImages.v ===== *)
(** * NativeImages: a cart's layouts as bytes, and a buffer the bare-metal start-up loses

    Images that meet the hypotheses of [NativeParity] and [NativeLayouts], and a cart whose
    second buffer is skipped because its table shares the vtable of the first. *)

From S2P Require Import Prelude Handle FpCanon MemBudget StateBuffer StateBufferSpec ElfSection ResourceTable RunCtx Ecall EcallTheorems CartImages DynLinkImages NativeState NativeSpec GuestStubs NativeParity NativeLayouts.
From Stdlib Require Import ZArith Lia Strings.String.
From stdpp Require Import base tactics list gmap.
Open Scope Z_scope.

(** ** A cart *)

(** An offset stored at [from] to [to], and a one-letter string. *)
Definition ref_to (from to : Z) : list Z := b32 (to - from).
Definition letter (s : string) : list Z := b32 1 ++ text s ++ [0; 0; 0].

(** [CartLayouts] with the record [p] of [x : i16] and [y : f32], and the first [k] of the
    buffers [b] of three and [c] of five slots.  As the FlatBuffers builder leaves equal
    vtables, the two buffers share one; it lies between their tables. *)
Definition layouts_bytes (k : Z) : list Z :=
  b32 16                                                        (* 0 *)
  ++ b16 10 ++ b16 20 ++ b16 4 ++ b16 8 ++ b16 12 ++ b16 0      (* 4: vtable of the root *)
  ++ b32 12 ++ ref_to 20 36 ++ ref_to 24 108 ++ le_bytes 8 0xfeedbeef   (* 16: root *)
  ++ b32 1 ++ ref_to 40 52                                      (* 36: records *)
  ++ b16 8 ++ b16 12 ++ b16 4 ++ b16 8                          (* 44: vtable of the record *)
  ++ b32 8 ++ ref_to 56 164 ++ ref_to 60 64                     (* 52: record *)
  ++ b32 2 ++ ref_to 68 84 ++ ref_to 72 96                      (* 64: fields *)
  ++ b16 8 ++ b16 9 ++ b16 4 ++ b16 8                           (* 76: vtable of the fields *)
  ++ b32 8 ++ ref_to 88 172 ++ b32 TYPE_I16                     (* 84: field x *)
  ++ b32 20 ++ ref_to 100 180 ++ b32 TYPE_F32                   (* 96: field y *)
  ++ b32 k ++ ref_to 112 148 ++ ref_to 116 120                  (* 108: buffers *)
  ++ le_bytes 4 (120 - 136) ++ ref_to 124 196 ++ ref_to 128 164 ++ b32 5   (* 120: buffer c *)
  ++ b16 10 ++ b16 16 ++ b16 4 ++ b16 8 ++ b16 12 ++ b16 0      (* 136: vtable of the buffers *)
  ++ b32 (148 - 136) ++ ref_to 152 188 ++ ref_to 156 164 ++ b32 3   (* 148: buffer b *)
  ++ letter "p" ++ letter "x" ++ letter "y" ++ letter "b" ++ letter "c".   (* 164, 172, ... *)

(** [CartConfig] with the save version 7 and the default palette 2. *)
Definition config_bytes : list Z :=
  b32 16 ++ b16 10 ++ b16 12 ++ b16 0 ++ b16 4 ++ b16 8 ++ b16 0 ++ b32 12 ++ b32 7 ++ b32 2.

(** A cart file; the sections begin with an eight-byte tag. *)
Definition tagged (bytes : list Z) : list Z := repeat 0 8 ++ bytes.
Definition native_cart (k : Z) : list Z :=
  elf (fun _ => 0) (fun _ => [])
    [MkSection ".cart.layouts" 1 0 0 0 (tagged (layouts_bytes k)); MkSection ".cart.config" 1 0 0 0 (tagged config_bytes)].
Definition the_layouts (k : Z) : CartLayouts := default (MkLayouts None None 0) (decode_layouts (layouts_bytes k)).
Definition layouts_at (k : Z) : Z * Z :=
  match blyt_elf32_find_section (Some (native_cart k)) (Some LAYOUTS) with Some (Some s) => s | _ => (0, 0) end.
(** What the host builds from it. *)
Definition host_init (k : Z) : option (Z * blyt_state_ctx_t) :=
  blyt_state_ctx_init (fun _ _ => true) (Some (sub (native_cart k) (fst (layouts_at k)) (snd (layouts_at k)))) decode_layouts.
Definition host_ctx (k : Z) : blyt_state_ctx_t := match host_init k with Some (_, c) => c | None => zero_ctx end.

Definition record_p : RecordDecl :=
  MkRecord (Some (text "p")) (Some [Some (MkField (Some (text "x")) TYPE_I16); Some (MkField (Some (text "y")) TYPE_F32)]).
Definition buffer_b : BufferDecl := MkBufDecl (Some (text "b")) (Some (text "p")) 3.
Definition buffer_c : BufferDecl := MkBufDecl (Some (text "c")) (Some (text "p")) 5.

Lemma layouts_1 : the_layouts 1 = MkLayouts (Some [Some record_p]) (Some [Some buffer_b]) 0xfeedbeef.
Proof. vm_compute. reflexivity. Qed.
Lemma layouts_2 : decode_layouts (layouts_bytes 2) = Some (MkLayouts (Some [Some record_p]) (Some [Some buffer_b; Some buffer_c]) 0xfeedbeef).
Proof. vm_compute. reflexivity. Qed.

Definition cart_base : Z := 0x10000000.
Definition native_boot (k : Z) : option native_state := load_cart_buf_counts (Some (native_cart k, cart_base)) bss.

(** ** The witnesses *)

Lemma native_cart_bytes : bytes_ok (native_cart 1) /\ 0 <= cart_base /\ cart_base + len (native_cart 1) < 2 ^ 32.
Proof. split; [|by vm_compute]. unfold bytes_ok, is_u8. vm_compute. repeat constructor; discriminate. Qed.

Lemma native_cart_fits : fits_native (the_layouts 1).
Proof.
  rewrite layouts_1. split; [by vm_compute|]. split; intros d Hin; cbn [cl_buffers cl_records default id] in Hin;
    apply elem_of_cons in Hin as [[= ->]|[]%elem_of_nil]; by vm_compute.
Qed.

Lemma native_startup_witness :
  exists st, native_boot 1 = Some st /\ sim st (host_ctx 1) /\ s_save_version st = 7.
Proof.
  destruct native_cart_bytes as (Hb & H0 & H1).
  destruct (native_startup (native_cart 1) cart_base Hb H0 H1 52 212 (the_layouts 1) 7 2 (fun _ _ => true) decode_layouts (host_ctx 1))
    as (st & Hrun & Hsim & _ & Hv & _); [vm_compute; congruence|vm_compute; reflexivity|lia|vm_compute; reflexivity|vm_compute; reflexivity
    |apply native_cart_fits|vm_compute; reflexivity|vm_compute; reflexivity|vm_compute; reflexivity|].
  exists st. split; [exact Hrun|]. by split.
Defined.

Definition native_machine (k : Z) : machine regs flat :=
  set_ctx (demo_machine BLYT_PHASE_UPDATE false 0 []) (set_state (Some (host_ctx k)) (demo_run BLYT_PHASE_UPDATE false)).
Definition slot_cell : Z := 0x05000000.

(** Allocate a slot, set and get both fields, free it, and use a handle of no buffer; free a
    slot that is not allocated, and allocate in no buffer. *)
Definition some_calls : list api_call :=
  [Alloc 1; Put I16 1 0 0x10001 (-7); Put F32 1 0 0x10002 0x7fa00000; Get F32 1 0 0x10002; Get I16 1 0 0x10001;
   Ref 1 0; FreeSlot 1 0; RefValid 1 0x10000; Get U8 9 0 1;
   FreeSlot 1 3; Alloc 9].

Lemma some_calls_ok : Forall (call_ok (host_ctx 1)) some_calls.
Proof.
  assert (declared (host_ctx 1) 1) as Hd by (split; vm_compute; congruence).
  assert (typed (host_ctx 1) I16 1 0x10001 /\ typed (host_ctx 1) F32 1 0x10002) as [Hx Hy] by (by vm_compute).
  assert (no_buffer 9) as Hn by (right; lia).
  unfold some_calls. repeat (apply Forall_cons; split); [..|apply Forall_nil; done]; cbn [call_ok in_type]; unfold is_u32, is_i32; pow_simp; split_and!; lia || auto.
Qed.

Lemma native_state_parity_witness :
  exists rs st' rs' m', (st ← native_boot 1; run_calls native_call some_calls st) = Some (rs, st')
    /\ run_calls (emu_call demo_ecall slot_cell) some_calls (native_machine 1) = Some (rs', m') /\ rs' = emulated_result <$> rs.
Proof.
  destruct native_cart_bytes as (Hb & H0 & H1).
  destruct (startup_at (native_cart 1) cart_base Hb H0 H1 52 212 (the_layouts 1) 7 2 (fun _ _ => true) decode_layouts (host_ctx 1))
    as (st & Hrun & Hsim & _); [vm_compute; congruence|vm_compute; reflexivity|lia|vm_compute; reflexivity|vm_compute; reflexivity
    |apply native_cart_fits|vm_compute; reflexivity|vm_compute; reflexivity|vm_compute; reflexivity|].
  destruct (native_state_parity demo_ecall slot_cell some_calls st (native_machine 1) (host_ctx 1)) as (rs & st' & rs' & m' & ctx' & Hn & He & Ha & _).
  - exact Hsim.
  - exists (set_state (Some (host_ctx 1)) (demo_run BLYT_PHASE_UPDATE false)). by split.
  - unfold slot_cell. lia.
  - change (slot_cell + 4 <= BLYT_EMU_MEM_SIZE). vm_compute. congruence.
  - unfold slot_cell, is_u32. lia.
  - apply some_calls_ok.
  - exists rs, st', rs', m'. unfold native_boot. rewrite Hrun. by split_and!.
Defined.

(** ** The lost buffer *)

(** The cart with both buffers: the second shares the vtable of the first, which lies behind it. *)
Lemma two_buffers : the_layouts 2 = MkLayouts (Some [Some record_p]) (Some [Some buffer_b; Some buffer_c]) 0xfeedbeef.
Proof. vm_compute. reflexivity. Qed.

Lemma two_buffers_fit : fits_native (the_layouts 2).
Proof.
  rewrite two_buffers. split; [by vm_compute|]. split; intros d Hin; cbn [cl_buffers cl_records default id] in Hin.
  - apply elem_of_cons in Hin as [[= ->]|Hin]; [by vm_compute|]. apply elem_of_cons in Hin as [[= ->]|[]%elem_of_nil]. by vm_compute.
  - apply elem_of_cons in Hin as [[= ->]|[]%elem_of_nil]. by vm_compute.
Qed.

Lemma two_buffers_bytes : bytes_ok (native_cart 2) /\ 0 <= cart_base /\ cart_base + len (native_cart 2) < 2 ^ 32.
Proof. split; [|by vm_compute]. unfold bytes_ok, is_u8. vm_compute. repeat constructor; discriminate. Qed.

Lemma native_lost_buffers_witness :
  exists st, native_boot 2 = Some st /\ blank st 1
    /\ exists b r, zget (buffers (host_ctx 2)) 1 = Some b /\ built 0xfeedbeef b buffer_c r.
Proof.
  destruct two_buffers_bytes as (Hb & H0 & H1).
  destruct (native_lost_buffers (native_cart 2) cart_base Hb H0 H1 52 212 (the_layouts 2) [true; false] 7 2 (fun _ _ => true) decode_layouts (host_ctx 2))
    as (st & Hrun & _ & _ & _ & Hall); [vm_compute; congruence|vm_compute; reflexivity|lia|vm_compute; reflexivity|vm_compute; reflexivity
    |apply two_buffers_fit|vm_compute; reflexivity|vm_compute; reflexivity|vm_compute; reflexivity|].
  exists st. split; [exact Hrun|]. rewrite two_buffers in Hall. clear Hb H0 H1 Hrun.
  destruct (Hall 1 buffer_c) as (r & b & _ & Hbb & Hbu & Hp); [lia|reflexivity|].
  split; [|exists b, r; split; [exact Hbb|exact Hbu]].
  destruct Hp as [[Hf _]|(_ & Hbl & _)]; [discriminate Hf|exact Hbl].
Defined.

(** What a cart sees of it: a sixth allocation fails in the emulator and succeeds natively. *)
Example native_second_buffer_lost :
  host_init 2 = Some (0, host_ctx 2)
  /\ (count <$> zget (buffers (host_ctx 2)) 1, n_fields <$> zget (buffers (host_ctx 2)) 1, name <$> zget (buffers (host_ctx 2)) 1)
     = (Some 5, Some 2, Some (Some (text "c")))
  /\ (st ← native_boot 2; Some (s_n_buffers st, zget (s_buf_count st) 1, zget (s_field_count st) 1, native_name st 1))
     = Some (2, Some 128, Some 0, Some [])
  /\ (st ← native_boot 2; fst <$> run_calls native_call (repeat (Alloc 2) 6) st)
     = Some [Slot 0 (Some 0); Slot 0 (Some 1); Slot 0 (Some 2); Slot 0 (Some 3); Slot 0 (Some 4); Slot 0 (Some 5)]
  /\ fst <$> run_calls (emu_call demo_ecall slot_cell) (repeat (Alloc 2) 6) (native_machine 2)
     = Some [Slot 0 (Some 0); Slot 0 (Some 1); Slot 0 (Some 2); Slot 0 (Some 3); Slot 0 (Some 4); Slot (-1) (Some (-1))].
Proof. split_and!; vm_compute; reflexivity. Qed.
