(* ===== verification/NativeSave.v ===== *)
(** * NativeSave: saving and loading on bare metal

    Models the save section of [frontends/native/src/libblytcommon/blytcommon.c]: the path
    of a slot, the loops over the [write] and [read] system calls, the descriptors over the
    statics, and [blyt_save_write] and [blyt_save_read].  The serializer is that of [Blys].

    A [native_kernel] is what the operating system decides: which path can be created, and
    how many bytes one system call transfers, which may be fewer than asked for.  Its laws
    are those of [write] and [read] on regular files; a read is taken not to fail.  The
    cart's [on_save_state] and [on_load_state] are functions on the statics. *)

From S2P Require Import Prelude Handle StateBuffer StateBufferSpec StateBufferTheorems Blys BlysSpec Save SaveTheorems NativeState NativeSpec.
From Stdlib Require Import ZArith Lia.
From stdpp Require Import base tactics list gmap.
Open Scope Z_scope.

Record native_kernel := MkKernel {
  k_creat : path -> bool;
  (** What [write] returns, given the bytes of the file and the count. *)
  k_write : list Z -> Z -> Z;
  (** What [read] returns, given the bytes from the position on and the count. *)
  k_read : list Z -> Z -> Z;
  k_write_le : forall f n, 0 < n -> k_write f n <= n;
  k_read_le : forall left n, 0 < n -> 0 <= k_read left n <= Z.min n (len left);
  k_read_some : forall left n, 0 < n -> left <> [] -> k_read left n <> 0
}.

(** ** Paths *)

(** [while (src[j] && i + 1 < cap) dst[i++] = src[j]]; [dst] is what was written so far. *)
Fixpoint put_chars (cap : Z) (src dst : list Z) : list Z :=
  match src with
  | [] => dst
  | c :: src => if len dst + 1 <? cap then put_chars cap src (dst ++ [c]) else dst
  end.

(** The [do]-[while] loop: the digits, the last one first. *)
Fixpoint digits (fuel : nat) (n : Z) : list Z :=
  match fuel with
  | O => []
  | S fuel => let c := 48 + n mod 10 in if n / 10 =? 0 then [c] else c :: digits fuel (n / 10)
  end.

(** The characters before the terminator, which always fits; [cap] is not 0. *)
Definition build_save_path (cap : Z) (save_dir : list Z) (slot_num : Z) : path :=
  let dst := put_chars cap save_dir [] in
  let dst := put_chars cap SLOT_PREFIX dst in
  let dst := put_chars cap (rev (digits 10 slot_num)) dst in
  put_chars cap BLYS_SUFFIX dst.

(** ** Descriptors *)

(** [k] from index [fi] on. *)
Fixpoint field_arrays (k : nat) (row types : list Z) (cnt fi : Z) : option (list (list Z)) :=
  match k with
  | O => Some []
  | S k =>
      t ← zget types fi;
      d ← rd row (field_base fi) (cnt * blys_field_width t);
      rest ← field_arrays k row types cnt (fi + 1);
      Some (d :: rest)
  end.

(** The view of buffer [bi]: of the array a pointer leads to, the bytes the serializer has
    the count for. *)
Definition native_view (st : native_state) (bi : Z) : option blys_buffer_t :=
  nf ← zget (s_field_count st) bi;
  types ← zget (s_field_type st) bi;
  cnt ← zget (s_buf_count st) bi;
  row ← zget (s_arena st) bi;
  data ← field_arrays (Z.to_nat nf) row types cnt 0;
  nm ← native_name st bi;
  tags ← rd types 0 nf;
  bits ← zget (s_slot_bits st) bi;
  gens ← zget (s_gen st) bi;
  Some (MkView nm tags cnt data bits (concat (le_bytes 2 <$> gens))).

Fixpoint native_views (k : nat) (st : native_state) (bi : Z) : option (list blys_buffer_t) :=
  match k with
  | O => Some []
  | S k => v ← native_view st bi; vs ← native_views k st (bi + 1); Some (v :: vs)
  end.
Definition fill_native_views (st : native_state) : option (list blys_buffer_t) :=
  native_views (Z.to_nat (s_n_buffers st)) st 0.

(** What the reader wrote through the pointers. *)
Fixpoint put_arrays (row : list Z) (fi : Z) (data : list (list Z)) : list Z :=
  match data with [] => row | d :: data => put_arrays (splice row (field_base fi) d) (fi + 1) data end.
Definition native_unview (st : native_state) (bi : Z) (v : blys_buffer_t) : native_state :=
  set_gens (<[Z.to_nat bi := u16s (v_slot_gens v)]> (s_gen st))
    (set_bits (<[Z.to_nat bi := v_slot_bitset v]> (s_slot_bits st))
      (set_arena (match zget (s_arena st) bi with
                  | Some row => <[Z.to_nat bi := put_arrays row 0 (v_field_data v)]> (s_arena st)
                  | None => s_arena st
                  end) st)).
Fixpoint store_native_views (st : native_state) (bi : Z) (vs : list blys_buffer_t) : native_state :=
  match vs with [] => st | v :: vs => store_native_views (native_unview st bi v) (bi + 1) vs end.

Section kernel.
Variable K : native_kernel.

(** ** System calls *)

(** An open file: its bytes and the position. *)
Record native_fd := MkFd { fd_bytes : list Z; fd_pos : nat }.
Definition fd_left (f : native_fd) : list Z := drop (fd_pos f) (fd_bytes f).

(** The chunk of one call. *)
Definition chunk_of (n : Z) : Z := if n >? 65536 then 65536 else n.

(** [None] when the fuel is spent: see [write_all_total] and [read_all_total]. *)
Fixpoint write_chunks (fuel : nat) (f : native_fd) (buf : list Z) : option (Z * native_fd) :=
  match fuel with
  | O => None
  | S fuel =>
      if len buf >? 0 then
        let a0 := k_write K (fd_bytes f) (chunk_of (len buf)) in
        if a0 <=? 0 then Some (-1, f)
        else write_chunks fuel (MkFd (fd_bytes f ++ sub buf 0 a0) (fd_pos f)) (drop (Z.to_nat a0) buf)
      else Some (0, f)
  end.
Definition write_all (f : native_fd) (buf : list Z) : option (Z * native_fd) := write_chunks (S (length buf)) f buf.

(** [n] bytes are left to read; the bytes stored. *)
Fixpoint read_chunks (fuel : nat) (f : native_fd) (n : Z) : option (Z * list Z * native_fd) :=
  match fuel with
  | O => None
  | S fuel =>
      if 0 <? n then
        let a0 := k_read K (fd_left f) (chunk_of n) in
        if a0 <=? 0 then Some ((if a0 =? 0 then 1 else -1), [], f)
        else
          '(r, bs, f') ← read_chunks fuel (MkFd (fd_bytes f) (fd_pos f + Z.to_nat a0)) (n - a0);
          Some (r, sub (fd_left f) 0 a0 ++ bs, f')
      else Some (0, [], f)
  end.
Definition read_all (f : native_fd) (n : Z) : option (Z * list Z * native_fd) := read_chunks (S (Z.to_nat n)) f n.

Definition native_sink (f : native_fd) (buf : list Z) : Z * native_fd := default (-1, f) (write_all f buf).
Definition native_source (f : native_fd) (n : Z) : Z * list Z * native_fd := default (-1, [], f) (read_all f n).

Lemma chunk_range n : 0 < n -> 0 < chunk_of n <= n.
Proof. unfold chunk_of. intros. case_match; lia. Qed.

(** The loop ends; it has written the whole buffer when it returns 0 and a prefix otherwise. *)
Lemma write_loop_total fuel f buf :
  (length buf < fuel)%nat -> exists r f', write_chunks fuel f buf = Some (r, f')
    /\ ((r = 0 /\ fd_bytes f' = fd_bytes f ++ buf) \/ (r = -1 /\ exists k, fd_bytes f' = fd_bytes f ++ take k buf)).
Proof.
  revert f buf. induction fuel as [|fuel IH]; intros f buf Hf; [lia|]. cbn [write_chunks].
  destruct (len buf >? 0) eqn:E; cycle 1.
  { exists 0, f. split; [done|left]. destruct buf; [by rewrite app_nil_r|rewrite len_cons in E; pose proof (len_nonneg buf); lia]. }
  pose proof (chunk_range (len buf) ltac:(lia)) as Hc. pose proof (k_write_le K (fd_bytes f) (chunk_of (len buf)) ltac:(lia)) as Ha.
  set (a0 := k_write _ _ _) in *. clearbody a0. destruct (a0 <=? 0) eqn:Ea.
  { exists (-1), f. split; [done|right]. split; [done|]. exists 0%nat. by rewrite app_nil_r. }
  destruct (IH (MkFd (fd_bytes f ++ sub buf 0 a0) (fd_pos f)) (drop (Z.to_nat a0) buf)) as (r & f' & -> & Hr).
  { rewrite length_drop. unfold len in *. lia. }
  exists r, f'. split; [done|]. cbn [fd_bytes] in Hr. assert (sub buf 0 a0 = take (Z.to_nat a0) buf) as Hs by done.
  destruct Hr as [[-> Hr]|[-> [k Hr]]]; [left|right]; (split; [done|]); rewrite Hr, Hs, <-app_assoc.
  - by rewrite take_drop.
  - exists (Z.to_nat a0 + k)%nat. f_equal. rewrite <-(take_drop (Z.to_nat a0) buf) at 3.
    rewrite take_app, take_take, Nat.min_r by lia. rewrite length_take. f_equal. unfold len in *. f_equal. lia.
Qed.

(** The loop ends with what is there, 1 when that was less than asked for. *)
Lemma read_loop_ends fuel f n :
  (Z.to_nat n < fuel)%nat -> 0 <= n ->
  read_chunks fuel f n
  = Some (if n <=? len (fd_left f) then 0 else 1, take (Z.to_nat n) (fd_left f),
          MkFd (fd_bytes f) (fd_pos f + Z.to_nat (Z.min n (len (fd_left f))))).
Proof.
  revert f n. induction fuel as [|fuel IH]; intros f n Hf Hn; [lia|]. cbn [read_chunks]. pose proof (len_nonneg (fd_left f)).
  destruct (0 <? n) eqn:E; cycle 1.
  { replace n with 0 by lia. replace (0 <=? len (fd_left f)) with true by lia. rewrite Z.min_l by lia. destruct f. cbn. by rewrite Nat.add_0_r. }
  pose proof (chunk_range n ltac:(lia)) as Hc. pose proof (k_read_le K (fd_left f) (chunk_of n) ltac:(lia)) as Ha.
  pose proof (k_read_some K (fd_left f) (chunk_of n) ltac:(lia)) as Hs. set (a0 := k_read _ _ _) in *. clearbody a0.
  destruct (a0 <=? 0) eqn:Ea.
  { assert (a0 = 0) as -> by lia. destruct (fd_left f) as [|c l] eqn:El; [|destruct Hs; done].
    change (len []) with 0. replace (n <=? 0) with false by lia. rewrite Z.min_r by lia. destruct f. cbn. by rewrite Nat.add_0_r, take_nil. }
  rewrite IH by lia.
  assert (fd_left (MkFd (fd_bytes f) (fd_pos f + Z.to_nat a0)) = drop (Z.to_nat a0) (fd_left f)) as Hl.
  { unfold fd_left. cbn. by rewrite drop_drop. }
  rewrite Hl. cbn [mbind option_bind fd_bytes fd_pos].
  assert (len (drop (Z.to_nat a0) (fd_left f)) = len (fd_left f) - a0) as Hld by (unfold len in *; rewrite length_drop; lia).
  rewrite Hld. do 2 f_equal; [f_equal|].
  - by replace (n - a0 <=? len (fd_left f) - a0) with (n <=? len (fd_left f)) by lia.
  - assert (sub (fd_left f) 0 a0 = take (Z.to_nat a0) (fd_left f)) as -> by done.
    rewrite take_take_drop. f_equal. lia.
  - f_equal. lia.
Qed.

Lemma native_source_spec f n :
  0 < n ->
  native_source f n
  = (if n <=? len (fd_left f) then 0 else 1, take (Z.to_nat n) (fd_left f),
     MkFd (fd_bytes f) (fd_pos f + Z.to_nat (Z.min n (len (fd_left f))))).
Proof. intros. unfold native_source, read_all. by rewrite read_loop_ends by lia. Qed.

Lemma native_sink_ok f bs r f' : native_sink f bs = (r, f') -> 0 <= r -> fd_bytes f' = fd_bytes f ++ bs.
Proof.
  unfold native_sink, write_all. destruct (write_loop_total (S (length bs)) f bs) as (r0 & f0 & -> & Hr); [lia|].
  cbn. intros [= <- <-] H0. destruct Hr as [[_ ?]|[-> _]]; [done|lia].
Qed.

Lemma native_sink_part f bs r f' : native_sink f bs = (r, f') -> exists k, fd_bytes f' = fd_bytes f ++ take k bs.
Proof.
  unfold native_sink, write_all. destruct (write_loop_total (S (length bs)) f bs) as (r0 & f0 & -> & Hr); [lia|].
  cbn. intros [= <- <-]. destruct Hr as [[_ ->]|[_ ?]]; [|done]. exists (length bs). by rewrite firstn_all.
Qed.

Lemma fd_left_advance f k : fd_left (MkFd (fd_bytes f) (fd_pos f + k)) = drop k (fd_left f).
Proof. unfold fd_left. cbn. by rewrite drop_drop. Qed.

Lemma native_source_full f n :
  0 < n <= len (fd_left f) ->
  exists f', native_source f n = (0, sub (fd_left f) 0 n, f') /\ fd_left f' = drop (Z.to_nat n) (fd_left f).
Proof.
  intros. rewrite native_source_spec by lia. replace (n <=? len (fd_left f)) with true by lia. eexists. split; [done|].
  rewrite fd_left_advance. f_equal. lia.
Qed.

Lemma native_source_eof f n : 0 < n -> fd_left f = [] -> exists f', native_source f n = (1, [], f').
Proof.
  intros Hn Hl. rewrite native_source_spec, Hl by lia. change (len []) with 0. replace (n <=? 0) with false by lia.
  rewrite take_nil. by eexists.
Qed.

Lemma native_source_short f n :
  0 < len (fd_left f) < n ->
  exists r bs f', native_source f n = (r, bs, f') /\ r <> 0 /\ len bs <= n /\ (bytes_ok (fd_left f) -> bytes_ok bs).
Proof.
  intros Hn. rewrite native_source_spec by lia. replace (n <=? len (fd_left f)) with false by lia. do 3 eexists. split; [done|].
  split; [done|]. split; [unfold len in *; rewrite length_take; lia|]. intros. by apply Forall_take.
Qed.

#[local] Instance native_byte_sink : ByteSink native_fd :=
  {| sink := native_sink; written := fd_bytes; sink_ok := native_sink_ok; sink_part := native_sink_part |}.
#[local] Instance native_byte_source : ByteSource native_fd :=
  {| source := native_source; pending := fd_left; source_full := native_source_full;
     source_eof := native_source_eof; source_short := native_source_short |}.

(** ** Save and load *)

Variables (blyt_cart_on_save_state : native_state -> option native_state)
          (blyt_cart_on_load_state : Z -> Z -> native_state -> option native_state).

Definition BLYT_LOAD_SAVE_GAME : Z := 0.

(** [getenv("BLYT_SAVE_DIR")], [None] when not set or empty. *)
Definition save_dir_of (env : option (list Z)) : option (list Z) :=
  match env with Some [] | None => None | Some dir => Some dir end.

(** The code, the statics and the files. *)
Definition blyt_save_write (env : option (list Z)) (slot : Z) (st : native_state) (files : fs) : option (Z * native_state * fs) :=
  st ← blyt_cart_on_save_state st;
  match save_dir_of env with
  | None => Some (BLYT_ERR_IO, st, files)
  | Some save_dir =>
      let p := build_save_path 512 save_dir slot in
      if negb (k_creat K p) then Some (BLYT_ERR_IO, st, files)
      else
        views ← fill_native_views st;
        '(rc, fd) ← blys_write (MkHeader (s_schema_hash st) (s_save_version st)) views (MkFd [] 0);
        let files := <[p := fd_bytes fd]> files in
        if negb (rc =? BLYS_OK) then Some (BLYT_ERR_IO, st, files) else Some (BLYT_OK, st, files)
  end.

(** The number of sections is bounded by the length of the file. *)
Definition blyt_save_read (env : option (list Z)) (slot : Z) (st : native_state) (files : fs) : option (Z * native_state) :=
  match save_dir_of env with
  | None => Some (BLYT_ERR_IO, st)
  | Some save_dir =>
      match files !! build_save_path 512 save_dir slot with
      | None => Some (BLYT_ERR_NOT_FOUND, st)
      | Some content =>
          views ← fill_native_views st;
          '(rc, saved_version, vs, _) ← blys_read (S (length content)) (s_schema_hash st) views (MkFd content 0);
          let st := store_native_views st 0 vs in
          if rc =? BLYS_ERR_SCHEMA then Some (BLYT_ERR_SCHEMA_MISMATCH, st)
          else if negb (rc =? BLYS_OK) then Some (BLYT_ERR_IO, st)
          else st ← blyt_cart_on_load_state BLYT_LOAD_SAVE_GAME saved_version st; Some (BLYT_OK, st)
      end
  end.
End kernel.
