(* ===== verification/NativeSaveTheorems.v ===== *)
(** * NativeSaveTheorems: bare-metal saves and the host's are interchangeable

    For statics and a state context that simulate each other, the bare-metal library writes
    the bytes the host writes and reads any file to a state that simulates the one the host reads,
    but for one case of a truncated file. *)

From S2P Require Import Prelude Handle StateBuffer StateBufferSpec StateBufferTheorems Blys BlysSpec Save SaveTheorems NativeState NativeSpec NativeSave.
From Stdlib Require Import ZArith Lia.
From stdpp Require Import base tactics list gmap.
Open Scope Z_scope.

(** ** Paths *)

Lemma put_chars_take cap src dst :
  0 < cap -> len dst < cap -> put_chars cap src dst = dst ++ take (Z.to_nat (cap - 1 - len dst)) src.
Proof.
  intros Hc. revert dst. induction src as [|c src IH]; intros dst Hd; cbn [put_chars]; [by rewrite take_nil, app_nil_r|].
  destruct (len dst + 1 <? cap) eqn:E.
  - rewrite IH by (rewrite len_app; change (len [c]) with 1; lia). rewrite len_app. change (len [c]) with 1.
    rewrite <-app_assoc. replace (Z.to_nat (cap - 1 - len dst)) with (S (Z.to_nat (cap - 1 - (len dst + 1)))) by lia. done.
  - replace (Z.to_nat (cap - 1 - len dst)) with 0%nat by lia. by rewrite app_nil_r.
Qed.

Lemma put_chars_more cap l src : 0 < cap ->
  put_chars cap src (take (Z.to_nat (cap - 1)) l) = take (Z.to_nat (cap - 1)) (l ++ src).
Proof.
  intros Hc. rewrite put_chars_take by (unfold len; rewrite ?length_take; lia). rewrite take_app. f_equal. f_equal.
  unfold len. rewrite length_take. lia.
Qed.

Lemma digits_dec fuel n : 0 <= n -> n < 10 ^ Z.of_nat fuel -> (0 < fuel)%nat -> rev (digits fuel n) = dec_loop fuel n.
Proof.
  revert n. induction fuel as [|fuel IH]; intros n Hn Hlt Hf; [lia|]. cbn [digits dec_loop].
  destruct (Z.ltb_spec n 10).
  - rewrite Z.div_small, Z.mod_small by lia. done.
  - destruct (Z.eqb_spec (n / 10) 0) as [E|E]; [Z.div_mod_to_equations; lia|]. cbn [rev].
    destruct fuel as [|fuel]; [cbn in Hlt; lia|].
    rewrite IH; [done|Z.div_mod_to_equations; lia| |lia].
    rewrite Nat2Z.inj_succ, Z.pow_succ_r in Hlt by lia. apply Z.div_lt_upper_bound; lia.
Qed.

(** The path, cut to what the buffer holds. *)
Lemma build_save_path_eq cap dir slot :
  0 < cap -> is_u32 slot ->
  build_save_path cap dir slot = take (Z.to_nat (cap - 1)) (dir ++ SLOT_PREFIX ++ dec slot ++ BLYS_SUFFIX).
Proof.
  intros Hc Hs. unfold build_save_path, dec. unfold is_u32 in Hs. rewrite digits_dec by (pow_simp; lia).
  assert (put_chars cap dir [] = take (Z.to_nat (cap - 1)) dir) as ->.
  { rewrite put_chars_take by (change (len []) with 0; lia). change (len []) with 0. by rewrite Z.sub_0_r. }
  rewrite !put_chars_more by done. by rewrite <-!app_assoc.
Qed.

(** ** Descriptors *)

(** The statics name the buffers and hash the schema as the context does. *)
Record declares (st : native_state) (ctx : blyt_state_ctx_t) : Prop := {
  de_name : forall bi b, 0 <= bi < n_buffers ctx -> zget (buffers ctx) bi = Some b ->
    native_name st bi = Some (default [] (name b));
  de_hash : s_schema_hash st = ctx_hash ctx
}.

Lemma field_arrays_sim st bi b row types k fi :
  buf_wf b -> buf_sim st bi b -> zget (s_arena st) bi = Some row -> zget (s_field_type st) bi = Some types ->
  0 <= fi -> fi + Z.of_nat k = n_fields b ->
  field_arrays k row types (count b) fi = mapM id (take k (drop (Z.to_nat fi) (field_data b))).
Proof.
  intros Hb Hs Hrow Hty. pose proof (wf_data _ Hb). pose proof (wf_nf _ Hb).
  destruct (bs_types _ _ _ Hs) as (ts & Hts & _ & Htypes). rewrite Hty in Hts. injection Hts as <-.
  destruct (bs_data _ _ _ Hs) as (row' & Hr & Hrl & Hd). rewrite Hrow in Hr. injection Hr as <-.
  destruct (bs_shape _ _ _ Hs) as [Hc Hnf].
  revert fi. induction k as [|k IH]; intros fi Hfi Hk; [done|]. cbn [field_arrays].
  destruct (wf_arrays _ Hb fi) as (tag & d & Htag & Hdata & Hl & _); [lia|]. pose proof (sizeof_range tag).
  rewrite Htypes, Htag by lia. cbn [mbind option_bind]. rewrite width_sizeof, <-Hl. unfold field_base. change NATIVE_FIELD_STRIDE with 1024.
  rewrite rd_Some by nia. rewrite (Hd fi d) by (done || lia). cbn [mbind option_bind]. rewrite (IH (fi + 1)) by lia.
  rewrite zget_lookup in Hdata by lia.
  rewrite (drop_S _ _ _ Hdata). cbn [take]. replace (Z.to_nat (fi + 1)) with (S (Z.to_nat fi)) by lia.
  cbn. by destruct (mapM id _).
Qed.

Lemma native_view_sim st bi b :
  buf_wf b -> buf_sim st bi b -> native_name st bi = Some (default [] (name b)) -> native_view st bi = view_of b.
Proof.
  intros Hb Hs Hn. destruct (bs_types _ _ _ Hs) as (ts & Hts & Htl & Htypes).
  destruct (bs_data _ _ _ Hs) as (arow & Hr & _ & _). destruct (bs_shape _ _ _ Hs) as [Hc Hnf]. pose proof (wf_nf _ Hb). pose proof (wf_types _ Hb).
  unfold native_view, view_of. rewrite (bs_nf _ _ _ Hs), Hts, (bs_count _ _ _ Hs), Hr. cbn [mbind option_bind].
  rewrite (field_arrays_sim st bi b arow ts _ 0 Hb Hs Hr Hts) by lia. change (Z.to_nat 0) with 0%nat. rewrite drop_0.
  destruct (mapM id _) as [data|]; [|done]. cbn [mbind option_bind]. rewrite Hn. cbn [mbind option_bind].
  rewrite rd_Some by lia. cbn [mbind option_bind]. rewrite (bs_bits _ _ _ Hs), (bs_gens _ _ _ Hs). cbn [mbind option_bind].
  assert (sub ts 0 (n_fields b) = take (Z.to_nat (n_fields b)) (field_types b)) as ->; [|done].
  change (sub ts 0 (n_fields b) = sub (field_types b) 0 (n_fields b)). apply list_eq_zget; [rewrite !len_sub by lia; done|].
  rewrite len_sub by lia. intros i Hi. rewrite !zget_sub by lia. apply Htypes. lia.
Qed.

Lemma native_views_sim st ctx k bi :
  sim st ctx -> declares st ctx -> 0 <= bi -> bi + Z.of_nat k <= n_buffers ctx ->
  native_views k st bi = mapM view_of (take k (drop (Z.to_nat bi) (buffers ctx))).
Proof.
  intros Hs Hd. revert bi. induction k as [|k IH]; intros bi Hbi Hk; [done|]. cbn [native_views].
  destruct (sim_at _ _ Hs bi) as (b & Hb & Hbw & Hbs); [lia|]. pose proof (de_name _ _ Hd bi b ltac:(lia) Hb).
  rewrite (native_view_sim st bi b) by done. rewrite (IH (bi + 1)) by lia. rewrite zget_lookup in Hb by lia.
  rewrite (drop_S _ _ _ Hb). replace (Z.to_nat (bi + 1)) with (S (Z.to_nat bi)) by lia. cbn. done.
Qed.

Lemma fill_native_views_sim st ctx : sim st ctx -> declares st ctx -> fill_native_views st = fill_views ctx.
Proof.
  intros Hs Hd. destruct (sim_n _ _ Hs) as [Hn _]. pose proof (wf_nb _ (sim_wf _ _ Hs)).
  unfold fill_native_views, fill_views. by rewrite Hn, (native_views_sim st ctx _ 0 Hs Hd) by lia.
Qed.

(** ** Storing what was read *)

Lemma put_arrays_spec data row fi :
  0 <= fi -> (fi + len data) * 1024 <= len row -> Forall (fun d => len d <= 1024) data ->
  len (put_arrays row fi data) = len row
  /\ (forall j n, 0 <= j < fi -> 0 <= n <= 1024 -> sub (put_arrays row fi data) (j * 1024) n = sub row (j * 1024) n)
  /\ forall j d, 0 <= j -> zget data j = Some d -> sub (put_arrays row fi data) ((fi + j) * 1024) (len d) = d.
Proof.
  revert row fi. induction data as [|d data IH]; intros row fi Hfi Hl Hd; cbn [put_arrays].
  { split; [done|]. split; [done|]. intros j d Hj H. by rewrite zget_lookup in H by done. }
  rewrite len_cons in Hl. apply Forall_cons in Hd as [Hd Hds]. pose proof (len_nonneg data). pose proof (len_nonneg d).
  unfold field_base. change NATIVE_FIELD_STRIDE with 1024. set (row1 := splice row (fi * 1024) d).
  assert (len row1 = len row) as Hl1 by (unfold row1; rewrite len_splice by lia; done).
  destruct (IH row1 (fi + 1)) as (Ha & Hlow & Hin); [lia|rewrite Hl1; lia|done|]. split; [by rewrite Ha|]. split.
  - intros j n Hj Hn. rewrite Hlow by lia. unfold row1. apply sub_splice_disjoint; lia.
  - intros j e Hj He. destruct (decide (j = 0)) as [->|Hne].
    + injection He as <-. rewrite Z.add_0_r, Hlow by lia. unfold row1. rewrite sub_splice_same by lia. done.
    + replace (fi + j) with (fi + 1 + (j - 1)) by lia. apply Hin; [lia|]. rewrite !zget_lookup in * by lia.
      by replace (Z.to_nat j) with (S (Z.to_nat (j - 1))) in He by lia.
Qed.

Lemma zget_neg {A} (l : list A) i : i < 0 -> zget l i = None.
Proof. intros. unfold zget. destruct (Z.leb_spec 0 i); [lia|done]. Qed.

Lemma unview_rows st bi v bj : 0 <= bi -> bj <> bi -> same_rows st (native_unview st bi v) bj.
Proof.
  intros Hbi Hne. unfold native_unview, same_rows. destruct (zget (s_arena st) bi); destruct st; cbn; rewrite !zget_insert_ne by lia; done.
Qed.

Lemma same_rows_trans st1 st2 st3 bi : same_rows st1 st2 bi -> same_rows st2 st3 bi -> same_rows st1 st3 bi.
Proof. intros (?&?&?&?&?&?) (?&?&?&?&?&?). unfold same_rows. split_and!; congruence. Qed.

(** Writing one buffer depends on its own rows only. *)
Lemma unview_cong st st' bi v :
  0 <= bi -> len (s_slot_bits st') = len (s_slot_bits st) -> len (s_gen st') = len (s_gen st) -> len (s_arena st') = len (s_arena st) ->
  same_rows st st' bi -> same_rows (native_unview st bi v) (native_unview st' bi v) bi.
Proof.
  intros Hbi L1 L2 L3 (H1 & H2 & H3 & H4 & H5 & H6).
  assert (forall A (l l' : list A) x, len l' = len l -> zget l' bi = zget l bi -> zget (<[Z.to_nat bi := x]> l') bi = zget (<[Z.to_nat bi := x]> l) bi) as Hins.
  { intros A l l' x Hl He. destruct (decide (bi < len l)); [by rewrite !zget_insert_eq by lia|].
    rewrite !list_insert_ge by (unfold len in *; lia). done. }
  unfold native_unview, same_rows. rewrite H6.
  destruct (zget (s_arena st) bi) eqn:Ea; destruct st, st'; cbn in *; split_and!; congruence || (apply Hins; congruence).
Qed.

Lemma unview_lens st bi v :
  let st' := native_unview st bi v in
  len (s_slot_bits st') = len (s_slot_bits st) /\ len (s_gen st') = len (s_gen st) /\ len (s_arena st') = len (s_arena st)
  /\ s_n_buffers st' = s_n_buffers st /\ s_buf_name st' = s_buf_name st /\ s_buf_name_len st' = s_buf_name_len st
  /\ s_schema_hash st' = s_schema_hash st /\ s_save_version st' = s_save_version st.
Proof. unfold native_unview. destruct (zget (s_arena st) bi); destruct st; cbn; by rewrite ?len_insert. Qed.

Lemma store_rows vs i st bi :
  0 <= i ->
  let st' := store_native_views st i vs in
  same_rows (match zget vs (bi - i) with Some v => native_unview st bi v | None => st end) st' bi
  /\ s_n_buffers st' = s_n_buffers st /\ s_buf_name st' = s_buf_name st /\ s_buf_name_len st' = s_buf_name_len st
  /\ s_schema_hash st' = s_schema_hash st /\ s_save_version st' = s_save_version st.
Proof.
  revert i st. induction vs as [|v vs IH]; intros i st Hi; cbn [store_native_views].
  { assert (zget (@nil blys_buffer_t) (bi - i) = None) as -> by (unfold zget; by case_match). unfold same_rows. by split_and!. }
  destruct (IH (i + 1) (native_unview st i v)) as (Hrows & IH'); [lia|].
  destruct (unview_lens st i v) as (L1 & L2 & L3 & E1 & E2 & E3 & E4 & E5). rewrite E1, E2, E3, E4, E5 in IH'.
  split; [|exact IH'].
  destruct (decide (bi = i)) as [->|Hne].
  - assert (zget vs (i - (i + 1)) = None) as E0 by (apply zget_neg; lia). rewrite E0 in Hrows.
    replace (i - i) with 0 by lia. exact Hrows.
  - assert (zget (v :: vs) (bi - i) = zget vs (bi - (i + 1))) as ->.
    { destruct (decide (bi < i)); [by rewrite !zget_neg by lia|].
      rewrite !zget_lookup by lia. by replace (Z.to_nat (bi - i)) with (S (Z.to_nat (bi - (i + 1)))) by lia. }
    pose proof (unview_rows st i v bi Hi Hne) as Hr. destruct (zget vs (bi - (i + 1))) as [w|] eqn:Ew.
    + eapply same_rows_trans; [|exact Hrows]. destruct (decide (0 <= bi)); [by apply unview_cong|].
      by rewrite zget_neg in Ew by lia.
    + by eapply same_rows_trans.
Qed.

Lemma unview_sim st bi b v v' :
  0 <= bi -> buf_wf b -> buf_sim st bi b -> view_of b = Some v -> view_ok v' -> same_decl v' v -> view_bytes v' ->
  buf_sim (native_unview st bi v') bi (unview v' b).
Proof.
  intros Hbi Hb Hs Hv Hok Hsd Hby. destruct (unview_wf b v v' Hb Hv Hok Hsd Hby) as [Hbw' _].
  destruct Hok as [_ Hd _ _ _]. destruct Hsd as (_ & Ht & Hc). pose proof (wf_nf _ Hb). pose proof (wf_types _ Hb). pose proof (wf_data _ Hb).
  unfold view_of in Hv. destruct (mapM id _) as [data|] eqn:Hm; [|done]. injection Hv as <-. cbn in Ht, Hc. rewrite Ht, Hc in Hd.
  pose proof (Forall2_length _ _ _ Hd) as Hl. rewrite length_take in Hl. assert (len (v_field_data v') = n_fields b) as Hln by (unfold len in *; lia).
  destruct (bs_shape _ _ _ Hs) as [Hcnt Hnf]. destruct (bs_data _ _ _ Hs) as (row & Hrow & Hrl & _).
  pose proof (zget_Some _ _ _ Hrow) as [? _]. pose proof (zget_Some _ _ _ (bs_bits _ _ _ Hs)) as [? _]. pose proof (zget_Some _ _ _ (bs_gens _ _ _ Hs)) as [? _].
  assert (Forall (fun d => len d <= 1024) (v_field_data v')) as Hsmall.
  { apply Forall_lookup. intros i d Hi. destruct (Forall2_lookup_r _ _ _ _ _ Hd Hi) as (tag & _ & ->). pose proof (width_pos tag). nia. }
  destruct (put_arrays_spec (v_field_data v') row 0) as (Hpl & _ & Hpin); [lia|lia|done|].
  unfold native_unview. rewrite Hrow.
  pose proof Hs as []. destruct st; split; cbn [count n_fields field_types slot_bitset slot_gens unview with_slots with_data] in *; cbn; try done;
    try (apply zget_insert_eq; cbn in *; lia).
  eexists. split; [apply zget_insert_eq; cbn in *; lia|]. split; [lia|]. intros fi d Hfi Hdd.
  assert (zget (v_field_data v') fi = Some d) as Hd'.
  { rewrite !zget_lookup in * by lia. rewrite lookup_app_l in Hdd by (rewrite length_fmap; unfold len in *; lia).
    rewrite list_lookup_fmap in Hdd. destruct (v_field_data v' !! _) as [e|]; [|done]. by injection Hdd as ->. }
  pose proof (Hpin fi d ltac:(lia) Hd') as Hp. by rewrite Z.add_0_l in Hp.
Qed.

Lemma store_sim st ctx vs vs' :
  sim st ctx -> declares st ctx ->
  Forall2 (fun b v => view_of b = Some v /\ buf_wf b /\ view_ok v) (take (Z.to_nat (n_buffers ctx)) (buffers ctx)) vs ->
  safe_views vs vs' ->
  sim (store_native_views st 0 vs') (store_views ctx vs') /\ declares (store_native_views st 0 vs') (store_views ctx vs').
Proof.
  intros Hs Hd Hvs Hsafe. pose proof (sim_wf _ _ Hs) as Hwf. destruct (store_views_ok ctx vs vs' Hwf Hvs Hsafe) as [Hwf' Hrel].
  pose proof (wf_nb _ Hwf). pose proof (wf_bufs _ Hwf). destruct (sim_n _ _ Hs) as [Hn Hn8].
  pose proof (Forall2_length _ _ _ Hvs) as L1. pose proof (Forall2_length _ _ _ Hsafe) as L2. rewrite length_take in L1.
  assert (forall bi b', 0 <= bi < n_buffers ctx -> zget (buffers (store_views ctx vs')) bi = Some b' ->
    exists b v v', zget (buffers ctx) bi = Some b /\ zget vs' bi = Some v' /\ view_of b = Some v /\ buf_wf b
      /\ view_ok v' /\ same_decl v' v /\ view_bytes v' /\ b' = unview v' b) as Hin.
  { intros bi b' Hbi Hb'. destruct (zget_is_Some (buffers ctx) bi) as [b Hb]; [lia|]. rewrite zget_lookup in Hb by lia.
    assert (take (Z.to_nat (n_buffers ctx)) (buffers ctx) !! Z.to_nat bi = Some b) as Ht by (by rewrite lookup_take_lt by lia).
    destruct (Forall2_lookup_l _ _ _ _ _ Hvs Ht) as (v & Hv & Hvo & Hbw & Hok).
    destruct (Forall2_lookup_l _ _ _ _ _ Hsafe Hv) as (v' & Hv' & Hok' & Hsd & Hby).
    exists b, v, v'. rewrite !zget_lookup by lia. rewrite zget_lookup in Hb' by lia. cbn in Hb'.
    rewrite lookup_app_l in Hb' by (rewrite length_zip_with; unfold len in *; lia). rewrite lookup_zip_with, Hv', Hb in Hb'. cbn in Hb'. injection Hb' as <-.
    split_and!; try done; [|apply Hby; by apply (view_of_bytes b)..]. apply Hby. by apply (view_of_bytes b). }
  assert (n_buffers (store_views ctx vs') = n_buffers ctx) as Hnn by done.
  split.
  - split; [done| |].
    + destruct (store_rows vs' 0 st 0 ltac:(lia)) as (_ & -> & _). by rewrite Hnn.
    + rewrite Hnn. intros bi b' Hbi Hb'. destruct (Hin bi b' Hbi Hb') as (b & v & v' & Hb & Hv' & Hvo & Hbw & Hok & Hsd & Hby & ->).
      destruct (store_rows vs' 0 st bi ltac:(lia)) as (Hr & _). rewrite Z.sub_0_r, Hv' in Hr. eapply buf_sim_same; [exact Hr|].
      apply (unview_sim st bi b v v'); try done; [lia|]. by apply (sim_buf _ _ Hs).
  - destruct (store_rows vs' 0 st 0 ltac:(lia)) as (_ & _ & E2 & E3 & E4 & _). destruct Hd as [Hdn Hdh]. split.
    + rewrite Hnn. intros bi b' Hbi Hb'. destruct (Hin bi b' Hbi Hb') as (b & v & v' & Hb & _ & _ & _ & _ & _ & _ & ->).
      unfold native_name. rewrite E2, E3. apply (Hdn bi b Hbi Hb).
    + rewrite E4, Hdh. unfold ctx_hash. rewrite Hnn. destruct (n_buffers ctx >? 0) eqn:E; [|done].
      destruct (zget_is_Some (buffers (store_views ctx vs')) 0) as [b' Hb']; [rewrite (wf_bufs _ Hwf'); lia|].
      destruct (Hin 0 b' ltac:(lia) Hb') as (b & v & v' & Hb & _ & _ & _ & _ & _ & _ & ->).
      rewrite zget_lookup in Hb, Hb' by lia. destruct (buffers ctx) as [|b1 l]; [done|]. injection Hb as ->.
      destruct (buffers (store_views ctx vs')) as [|b2 l']; [done|]. injection Hb' as ->. done.
Qed.

(** ** Two readers of the same input *)

Definition opt_rel {A B} (P : A -> B -> Prop) (x : option A) (y : option B) : Prop :=
  match x, y with Some a, Some b => P a b | None, None => True | _, _ => False end.

Lemma opt_rel_bind {A B A' B'} (P : A -> B -> Prop) (Q : A' -> B' -> Prop) x y f g :
  opt_rel P x y -> (forall a b, P a b -> opt_rel Q (f a) (g b)) -> opt_rel Q (x ≫= f) (y ≫= g).
Proof. destruct x, y; cbn; auto; done. Qed.

Lemma opt_rel_same {A A' B'} (Q : A' -> B' -> Prop) (x : option A) f g :
  (forall a, opt_rel Q (f a) (g a)) -> opt_rel Q (x ≫= f) (x ≫= g).
Proof. destruct x; cbn; auto. Qed.

Section readers.
Context {T1 T2 : Type} `{H1 : ByteSource T1} `{H2 : ByteSource T2} (R : T1 -> T2 -> Prop).
(** The two sources store the same and fail together; 1 of the first is 1 of the second. *)
Context (HR : forall t1 t2 n, R t1 t2 ->
  let '(r1, b1, t1') := source t1 n in let '(r2, b2, t2') := source t2 n in
  b1 = b2 /\ (r1 = 0 <-> r2 = 0) /\ (r1 = 1 -> r2 = 1) /\ (r2 = 0 \/ r2 = 1) /\ R t1' t2').

Lemma source_zero t1 t2 n : R t1 t2 ->
  let '(r1, b1, t1') := source t1 n in let '(r2, b2, t2') := source t2 n in b1 = b2 /\ (r1 =? 0) = (r2 =? 0) /\ R t1' t2'.
Proof.
  intros Ht. pose proof (HR t1 t2 n Ht) as H. destruct (source t1 n) as [[r1 b1] t1'], (source t2 n) as [[r2 b2] t2'].
  destruct H as (-> & H & _ & _ & ?). split_and!; [done| |done]. apply Bool.eq_true_iff_eq. by rewrite !Z.eqb_eq.
Qed.

Lemma take_n_rel t1 t2 n : R t1 t2 -> fst (take_n t1 n) = fst (take_n t2 n) /\ R (snd (take_n t1 n)) (snd (take_n t2 n)).
Proof.
  intros Ht. pose proof (source_zero t1 t2 n Ht) as H. unfold take_n. destruct (source t1 n) as [[r1 b1] t1'], (source t2 n) as [[r2 b2] t2'].
  destruct H as (-> & -> & ?). by destruct (r2 =? 0).
Qed.

Lemma skip_bytes_rel fuel t1 t2 n : R t1 t2 ->
  opt_rel (fun x y => fst x = fst y /\ R (snd x) (snd y)) (skip_bytes fuel t1 n) (skip_bytes fuel t2 n).
Proof.
  revert t1 t2 n. induction fuel as [|fuel IH]; intros t1 t2 n Ht; cbn [skip_bytes]; [done|]. destruct (n >? 0); [|done].
  pose proof (source_zero t1 t2 (if n >? 256 then 256 else n) Ht) as H.
  destruct (source t1 _) as [[r1 b1] t1'], (source t2 _) as [[r2 b2] t2']. destruct H as (-> & -> & ?).
  destruct (r2 =? 0); cbn [negb]; [by apply IH|done].
Qed.

Lemma read_into_rel t1 t2 dst n : R t1 t2 ->
  opt_rel (fun x y => fst x = fst y /\ R (snd x) (snd y)) (read_into t1 dst n) (read_into t2 dst n).
Proof.
  intros Ht. unfold read_into. pose proof (source_zero t1 t2 n Ht) as H.
  destruct (source t1 n) as [[r1 b1] t1'], (source t2 n) as [[r2 b2] t2']. destruct H as (-> & -> & ?).
  by destruct (rd dst 0 (len b2)).
Qed.

Lemma read_fields_rel v tags data t1 t2 : R t1 t2 ->
  opt_rel (fun x y => fst x = fst y /\ R (snd x) (snd y)) (read_fields v tags data t1) (read_fields v tags data t2).
Proof.
  revert data t1 t2. induction tags as [|tag tags IH]; intros data t1 t2 Ht; cbn [read_fields]; [done|].
  destruct data as [|d data]; [done|]. destruct (field_bytes v tag =? 0).
  - eapply opt_rel_bind; [by apply IH|]. intros [[? ?] ?] [[? ?] ?] [[= -> ->] ?]. done.
  - eapply opt_rel_bind; [by apply read_into_rel|]. intros [[ok1 d1] s1] [[ok2 d2] s2] [[= -> ->] Hs]. cbn in Hs.
    destruct ok2; cbn [negb]; [|done]. eapply opt_rel_bind; [by apply IH|]. intros [[? ?] ?] [[? ?] ?] [[= -> ->] ?]. done.
Qed.

Lemma read_buffer_rel v t1 t2 : R t1 t2 ->
  opt_rel (fun x y => fst x = fst y /\ R (snd x) (snd y)) (read_buffer v t1) (read_buffer v t2).
Proof.
  intros Ht. unfold read_buffer. eapply opt_rel_bind; [by apply read_fields_rel|]. intros [[ok ?] ?] [[? ?] ?] [[= -> ->] Hs].
  destruct b; cbn [negb]; [|done]. eapply opt_rel_bind; [by apply read_into_rel|]. intros [[? ?] ?] [[ok2 ?] ?] [[= -> ->] Hs2].
  destruct ok2; cbn [negb]; [|done]. eapply opt_rel_bind; [by apply read_into_rel|]. intros [[? ?] ?] [[ok3 ?] ?] [[= -> ->] Hs3]. done.
Qed.

(** The codes: equal, or an input error of the first that is an end of file to the second. *)
Definition codes (r1 r2 : Z) : Prop := r1 = r2 \/ (r1 = BLYS_ERR_IO /\ r2 = BLYS_OK).

Lemma read_sections_rel fuel bufs t1 t2 : R t1 t2 ->
  opt_rel (fun x y => codes x.1.1 y.1.1 /\ x.1.2 = y.1.2 /\ R x.2 y.2) (read_sections fuel bufs t1) (read_sections fuel bufs t2).
Proof.
  revert bufs t1 t2. induction fuel as [|fuel IH]; intros bufs t1 t2 Ht; cbn [read_sections]; [done|].
  pose proof (HR t1 t2 8 Ht) as H. destruct (source t1 8) as [[r1 b1] s1], (source t2 8) as [[r2 b2] s2].
  destruct H as (-> & Hz & Ho & Hr & Hs). destruct (Z.eqb_spec r1 1) as [->|N1].
  { rewrite (Ho eq_refl). cbn. split_and!; [by left|done|done]. }
  destruct Hr as [-> | ->].
  2: { replace (r1 =? 0) with false by (destruct (Z.eqb_spec r1 0); [naive_solver|done]). cbn. split_and!; [by right|done|done]. }
  rewrite (proj2 Hz eq_refl). cbn [Z.eqb negb]. apply opt_rel_same. intros payload.
  destruct (negb _).
  { eapply opt_rel_bind; [by apply skip_bytes_rel|]. intros [? ?] [rs ?] [E Hs2]. cbn in E, Hs2. subst z.
    destruct (negb _); [split_and!; [by left|done|done]|by apply IH]. }
  destruct (take_n_rel s1 s2 4 Hs) as [En Hs2]. destruct (take_n s1 4) as [nl1 u1], (take_n s2 4) as [nl u2]. cbn in En, Hs2. subst nl1.
  destruct nl as [nl|]; [|split_and!; [by left|done|done]]. apply opt_rel_same. intros name_len.
  destruct (name_len >=? 256); [split_and!; [by left|done|done]|].
  assert (exists name w1 w2, (if name_len =? 0 then (Some [], u1) else take_n u1 name_len) = (name, w1)
    /\ (if name_len =? 0 then (Some [], u2) else take_n u2 name_len) = (name, w2) /\ R w1 w2) as (name & w1 & w2 & -> & -> & Hw).
  { destruct (name_len =? 0); [by eexists _, _, _|]. destruct (take_n_rel u1 u2 name_len Hs2) as [E Hs3].
    destruct (take_n u1 name_len) as [x1 w1], (take_n u2 name_len) as [x2 w2]. cbn in E, Hs3. subst. by eexists _, _, _. }
  destruct name as [name|]; [|split_and!; [by left|done|done]]. destruct (find_view bufs name) as [i|].
  - apply opt_rel_same. intros b. eapply opt_rel_bind; [by apply read_buffer_rel|]. intros [[? ?] ?] [[ok b'] ?] [[= -> ->] Hs4].
    destruct ok; cbn [negb]; [by apply IH|split_and!; [by left|done|done]].
  - eapply opt_rel_bind; [by apply skip_bytes_rel|]. intros [? ?] [rs ?] [E Hs4]. cbn in E, Hs4. subst z.
    destruct (negb _); [split_and!; [by left|done|done]|by apply IH].
Qed.

Lemma blys_read_rel fuel expect bufs t1 t2 : R t1 t2 ->
  opt_rel (fun x y => codes x.1.1.1 y.1.1.1 /\ x.1.1.2 = y.1.1.2 /\ x.1.2 = y.1.2) (blys_read fuel expect bufs t1) (blys_read fuel expect bufs t2).
Proof.
  intros Ht. unfold blys_read. destruct (take_n_rel t1 t2 16 Ht) as [En Hs]. destruct (take_n t1 16) as [h1 s1], (take_n t2 16) as [h s2].
  cbn in En, Hs. subst h1. destruct h as [h|]; [|split_and!; [by left|done|done]]. destruct (negb _); [split_and!; [by left|done|done]|].
  apply opt_rel_same. intros minor. apply opt_rel_same. intros hash.
  assert (exists sv w1 w2, (if minor >=? 1 then take_n s1 4 else (Some (put_u32 0), s1)) = (sv, w1)
    /\ (if minor >=? 1 then take_n s2 4 else (Some (put_u32 0), s2)) = (sv, w2) /\ R w1 w2) as (sv & w1 & w2 & -> & -> & Hw).
  { destruct (minor >=? 1); [|by eexists _, _, _]. destruct (take_n_rel s1 s2 4 Hs) as [E Hs3].
    destruct (take_n s1 4) as [x1 w1], (take_n s2 4) as [x2 w2]. cbn in E, Hs3. subst. by eexists _, _, _. }
  destruct sv as [sv|]; [|split_and!; [by left|done|done]]. apply opt_rel_same. intros version.
  destruct (negb _); [split_and!; [by left|done|done]|].
  eapply opt_rel_bind; [by apply read_sections_rel|]. intros [[? ?] ?] [[? ?] ?] (? & ? & _). done.
Qed.
End readers.

(** ** The host's file and the kernel's *)

Section parity.
Variables (K : native_kernel) (on_save : native_state -> option native_state) (on_load : Z -> Z -> native_state -> option native_state).

Lemma sources_rel (f : FILE) (g : native_fd) n :
  f_bytes f = fd_bytes g /\ f_pos f = fd_pos g ->
  let '(r1, b1, f') := file_source f n in let '(r2, b2, g') := native_source K g n in
  b1 = b2 /\ (r1 = 0 <-> r2 = 0) /\ (r1 = 1 -> r2 = 1) /\ (r2 = 0 \/ r2 = 1) /\ f_bytes f' = fd_bytes g' /\ f_pos f' = fd_pos g'.
Proof.
  intros [Eb Ep]. unfold file_source. rewrite Eb, Ep. change (drop (fd_pos g) (fd_bytes g)) with (fd_left g).
  pose proof (len_nonneg (fd_left g)). destruct (Z.ltb_spec 0 n) as [Hn|Hn].
  - rewrite native_source_spec by done.
    assert (sub (fd_bytes g) (Z.of_nat (fd_pos g)) (Z.min n (len (fd_left g))) = take (Z.to_nat n) (fd_left g)) as ->.
    { unfold sub. rewrite Nat2Z.id. change (drop (fd_pos g) (fd_bytes g)) with (fd_left g).
      destruct (Z.le_gt_cases n (len (fd_left g))); [by rewrite Z.min_l by lia|].
      rewrite Z.min_r by lia. rewrite !take_ge by (unfold len in *; lia). done. }
    destruct (Z.leb_spec n (len (fd_left g))).
    + rewrite Z.min_l by lia. rewrite Z.eqb_refl. cbn. split_and!; try done. by left.
    + rewrite Z.min_r by lia. rewrite (proj2 (Z.eqb_neq _ n)) by lia.
      destruct (len (fd_left g) =? 0); cbn; split_and!; try done; by right.
  - rewrite Z.min_l by lia. rewrite Z.eqb_refl. unfold native_source, read_all. cbn [read_chunks].
    replace (0 <? n) with false by lia. cbn. replace (Z.to_nat n) with 0%nat by lia. rewrite Nat.add_0_r.
    split_and!; try done; [|by left]. unfold sub. by replace (Z.to_nat n) with 0%nat by lia.
Qed.

Lemma readers_agree expect vs content :
  Forall view_ok vs -> bytes_ok content ->
  exists rc rc' version vs' r r', blys_read (S (length content)) expect vs (open_r content) = Some (rc, version, vs', r)
    /\ @blys_read native_fd (native_byte_source K) (S (length content)) expect vs (MkFd content 0) = Some (rc', version, vs', r')
    /\ codes rc rc' /\ rc ∈ [BLYS_OK; BLYS_ERR_IO; BLYS_ERR_SCHEMA] /\ safe_views vs vs' /\ (rc = BLYS_ERR_SCHEMA -> vs' = vs).
Proof.
  intros Hok Hb. destruct (blys_read_total vs (open_r content) (S (length content)) expect) as (rc & v & vs' & r & E & Hrc & Hsafe & Hsch).
  { done. } { cbn. unfold file_pending. cbn. by rewrite drop_0. } { cbn. unfold file_pending, len. cbn. rewrite drop_0. lia. }
  pose proof (blys_read_rel (H2 := native_byte_source K) (fun (f : FILE) (g : native_fd) => f_bytes f = fd_bytes g /\ f_pos f = fd_pos g)
    (fun f g n Hfg => sources_rel f g n Hfg) (S (length content)) expect vs (open_r content) (MkFd content 0) ltac:(done)) as Hr.
  rewrite E in Hr. destruct (@blys_read native_fd _ _ expect vs (MkFd content 0)) as [[[[rc' v'] ws] r']|]; [|done].
  cbn in Hr. destruct Hr as (Hc & -> & ->). exists rc, rc', v', ws, r, r'. by split_and!.
Qed.

Lemma views_sized st ctx :
  sim st ctx -> declares st ctx -> ctx_sized ctx ->
  exists vs, fill_native_views st = Some vs /\ fill_views ctx = Some vs /\ Forall view_ok vs
    /\ Forall2 (fun b v => view_of b = Some v /\ buf_wf b /\ view_ok v) (take (Z.to_nat (n_buffers ctx)) (buffers ctx)) vs.
Proof.
  intros Hs Hd Hz. destruct (fill_views_sized ctx (sim_wf _ _ Hs) Hz) as (vs & E & Hvs & _). exists vs.
  rewrite (fill_native_views_sim st ctx Hs Hd). split_and!; try done.
  clear -Hvs. induction Hvs as [|b v bs vs (_ & _ & ?) _ IH]; by constructor.
Qed.

(** The statics after a save are those the callback left. *)
Lemma native_save_state env slot st0 files rc st files' :
  NativeSave.blyt_save_write K on_save env slot st0 files = Some (rc, st, files') -> on_save st0 = Some st.
Proof.
  unfold NativeSave.blyt_save_write. destruct (on_save st0) as [st1|]; [|done]. cbn [mbind option_bind].
  destruct (save_dir_of env) as [d|]; [|by intros [= _ -> _]]. destruct (negb (k_creat K _)); [by intros [= _ -> _]|].
  destruct (fill_native_views st1) as [vs|]; [|done]. cbn [mbind option_bind]. destruct (blys_write _ _ _) as [[r f]|]; [|done].
  cbn [mbind option_bind]. by destruct (negb _); intros [= _ -> _].
Qed.

(** C25: Bare-metal saves are the host's.  Whatever the kernel transfers per call,
    [blyt_save_write] runs the cart's callback and ends with [BLYT_OK] or an input/output
    error, changing no file but that of the slot; and when it reports success the
    file holds, byte for byte, the image the host writes for a state context that the statics
    simulate - of which the host's file holds as much as its device stores, since the host does not
    look at the results of flushing and closing. *)
Theorem native_save_bytes st0 st ctx dir slot files :
  on_save st0 = Some st -> sim st ctx -> declares st ctx -> ctx_sized ctx -> dir <> [] ->
  let p := build_save_path 512 dir slot in
  exists rc files', NativeSave.blyt_save_write K on_save (Some dir) slot st0 files = Some (rc, st, files')
    /\ (rc = BLYT_OK \/ rc = NativeState.BLYT_ERR_IO) /\ (forall q, q <> p -> files' !! q = files !! q)
    /\ (rc = BLYT_OK -> forall env cart hfs hfs',
          Save.blyt_save_write env ctx (Some dir) (Some cart) slot (s_save_version st) hfs = Some (0, hfs') ->
          exists hp image, build_path 1024 dir cart slot = Some hp /\ save_image ctx (s_save_version st) = Some image
            /\ files' !! p = Some image /\ hfs' !! hp = Some (take (Z.to_nat (e_space env)) image)).
Proof.
  intros Hcb Hs Hd Hz Hdir p. unfold NativeSave.blyt_save_write. rewrite Hcb. cbn [mbind option_bind].
  replace (save_dir_of (Some dir)) with (Some dir) by (by destruct dir). fold p.
  destruct (k_creat K p) eqn:Ecr; cbn [negb].
  2: { do 2 eexists. split; [done|]. split_and!; [by right|done|done]. }
  destruct (views_sized st ctx Hs Hd Hz) as (vs & -> & Hfv & Hok & _). cbn [mbind option_bind].
  destruct (@blys_write_spec native_fd (native_byte_sink K) (MkHeader (s_schema_hash st) (s_save_version st)) vs (MkFd [] 0) Hok) as (rc & fd & -> & Hrc). cbn [mbind option_bind].
  exists (if rc =? BLYS_OK then BLYT_OK else NativeState.BLYT_ERR_IO), (<[p := fd_bytes fd]> files).
  assert (forall q, q <> p -> <[p:=fd_bytes fd]> files !! q = files !! q) as Hother by (intros q Hq; by rewrite lookup_insert_ne).
  destruct Hrc as [[-> Hw]| ->]; cbn [Z.eqb negb BLYS_OK BLYS_ERR_IO]; (split; [done|]); cycle 1.
  { split_and!; [by right|done|done]. }
  split_and!; [by left|done|]. intros _ env cart hfs hfs' Hh. unfold Save.blyt_save_write in Hh.
  destruct (ensure_dir env dir cart <? 0); [done|]. destruct (build_path 1024 dir cart slot) as [hp|]; [|done].
  destruct (negb (e_open_w env hp)); [done|]. rewrite Hfv in Hh. cbn [mbind option_bind] in Hh.
  destruct (blys_write_spec (MkHeader (ctx_hash ctx) (s_save_version st)) vs (open_w env) Hok) as (rc2 & f2 & E2 & Hrc2).
  rewrite E2 in Hh. cbn [mbind option_bind] in Hh. destruct Hrc2 as [[-> Hw2]| ->]; [|done]. injection Hh as <-.
  change (fd_bytes fd = [] ++ file_image (MkHeader (s_schema_hash st) (s_save_version st)) vs) in Hw. rewrite app_nil_l in Hw.
  exists hp, (fd_bytes fd). rewrite !lookup_insert_eq, Hw. unfold save_image, stored. rewrite Hfv, (de_hash _ _ Hd). split_and!; [done..|].
  do 2 f_equal. exact Hw2.
Qed.

(** C26: The bare-metal library and the host read the same state from any file, malformed or
    not.  The host's load of a file ends with a code and a context; the native load of the
    same bytes ends with statics that simulate this context, and with the code that
    corresponds, except that where the host reports an input error the native load may report
    success (see [native_truncated_accepted]).  On success, and only then, the cart's callback
    is run, with the version the file carries. *)
Theorem native_load_parity st ctx dir cart slot files hfs hp content :
  sim st ctx -> declares st ctx -> ctx_sized ctx -> dir <> [] -> bytes_ok content ->
  files !! build_save_path 512 dir slot = Some content ->
  build_path 1024 dir cart slot = Some hp -> hfs !! hp = Some content ->
  exists rc version ctx' st', Save.blyt_save_read ctx (Some dir) (Some cart) slot hfs = Some (rc, version, ctx')
    /\ sim st' ctx' /\ declares st' ctx' /\ ctx_rel ctx ctx' /\
    let native := NativeSave.blyt_save_read K on_load (Some dir) slot st files in
    let called := st2 ← on_load BLYT_LOAD_SAVE_GAME version st'; Some (BLYT_OK, st2) in
    (rc = BLYS_OK /\ native = called)
    \/ (rc = BLYS_ERR_SCHEMA /\ native = Some (BLYT_ERR_SCHEMA_MISMATCH, st'))
    \/ (rc = BLYS_ERR_IO /\ (native = Some (NativeState.BLYT_ERR_IO, st') \/ native = called)).
Proof.
  intros Hs Hd Hz Hdir Hb Hf Hhp Hhf. destruct (views_sized st ctx Hs Hd Hz) as (vs & Hnv & Hfv & Hok & Hvs).
  destruct (readers_agree (ctx_hash ctx) vs content Hok Hb) as (rc & rc' & v & vs' & r & r' & E1 & E2 & Hc & Hrc & Hsafe & Hsch).
  destruct (store_sim st ctx vs vs' Hs Hd Hvs Hsafe) as [Hs' Hd'].
  destruct (store_views_ok ctx vs vs' (sim_wf _ _ Hs) Hvs Hsafe) as [_ Hrel].
  exists rc, v, (store_views ctx vs'), (store_native_views st 0 vs'). split.
  { unfold Save.blyt_save_read. rewrite Hhp, Hhf, Hfv. cbn [mbind option_bind]. by rewrite E1. }
  split; [done|]. split; [done|]. split; [done|]. unfold NativeSave.blyt_save_read.
  replace (save_dir_of (Some dir)) with (Some dir) by (by destruct dir). rewrite Hf, Hnv. cbn [mbind option_bind].
  rewrite (de_hash _ _ Hd), E2. cbn [mbind option_bind].
  apply elem_of_cons in Hrc as [-> |Hrc]; [left|right; apply elem_of_cons in Hrc as [-> |Hrc%list_elem_of_singleton]; [right|subst rc; left]].
  - destruct Hc as [<-|[? _]]; done.
  - destruct Hc as [<-|[_ ->]]; (split; [done|]); [by left|by right].
  - by destruct Hc as [<-|[? _]].
Qed.

(** Saving and loading on bare metal restores the game.  After a save that reported
    success, a load into the statics of the same cart in any later state hands
    the cart's callback the saved version and statics that simulate exactly the context that was
    saved. *)
Theorem native_save_restores st0 st ctx st2 ctx2 dir slot files files' :
  on_save st0 = Some st -> sim st ctx -> declares st ctx -> ctx_saveable ctx ->
  sim st2 ctx2 -> declares st2 ctx2 -> ctx_rel ctx ctx2 -> is_u64 (s_schema_hash st) -> is_u32 (s_save_version st) ->
  NativeSave.blyt_save_write K on_save (Some dir) slot st0 files = Some (BLYT_OK, st, files') ->
  exists st3, sim st3 ctx
    /\ NativeSave.blyt_save_read K on_load (Some dir) slot st2 files'
       = (st4 ← on_load BLYT_LOAD_SAVE_GAME (s_save_version st) st3; Some (BLYT_OK, st4)).
Proof.
  intros Hcb Hs Hd Hsv Hs2 Hd2 Hrel Hhash Hver. unfold NativeSave.blyt_save_write, NativeSave.blyt_save_read. rewrite Hcb. cbn [mbind option_bind].
  destruct (save_dir_of (Some dir)) as [d|]; [|done]. set (p := build_save_path 512 d slot). destruct (negb (k_creat K p)); [done|].
  pose proof (sim_wf _ _ Hs) as Hwf. pose proof (sim_wf _ _ Hs2) as Hwf2. rewrite (fill_native_views_sim _ _ Hs Hd).
  destruct (fill_views_ok ctx Hwf Hsv) as (vs & -> & Hvs). destruct (views_ok _ _ Hvs) as (Hok & _ & _). cbn [mbind option_bind].
  destruct (@blys_write_spec native_fd (native_byte_sink K) (MkHeader (s_schema_hash st) (s_save_version st)) vs (MkFd [] 0) Hok) as (rc & fd & -> & Hrc).
  cbn [mbind option_bind]. destruct Hrc as [[-> Hw]| ->]; [|done]. cbn [Z.eqb negb BLYS_OK]. intros [= <-]. rewrite lookup_insert_eq.
  change (fd_bytes fd = [] ++ file_image (MkHeader (s_schema_hash st) (s_save_version st)) vs) in Hw. rewrite Hw. cbn [app].
  rewrite (fill_native_views_sim _ _ Hs2 Hd2). pose proof (rel_wf_saveable _ _ Hrel Hsv) as Hsv2.
  destruct (fill_views_ok ctx2 Hwf2 Hsv2) as (vs2 & -> & Hvs2). cbn [mbind option_bind]. rewrite (de_hash _ _ Hd2).
  rewrite (de_hash _ _ Hd) in Hhash |- *.
  destruct (read_saved (H := native_byte_source K) ctx ctx2 vs vs2 (s_save_version st) (MkFd (file_image (MkHeader (ctx_hash ctx) (s_save_version st)) vs) 0)
    Hwf Hwf2 Hrel Hsv Hhash Hver Hvs Hvs2) as (r' & ->); [done|].
  cbn [mbind option_bind Z.eqb negb BLYS_OK BLYS_ERR_SCHEMA]. exists (store_native_views st2 0 vs). split; [|done].
  destruct (views_ok _ _ Hvs2) as (Hok2 & _ & _).
  pose proof (views_same_decl _ _ _ _ Hrel Hvs Hvs2) as Hsd.
  destruct (store_sim st2 ctx2 vs2 vs Hs2 Hd2) as [Hsim _].
  - clear -Hvs2 Hok2. induction Hvs2 as [|b v bs vs (? & ? & _) _ IH]; [constructor|]. apply Forall_cons in Hok2 as [? ?]. by constructor; [|apply IH].
  - apply Forall2_same_length_lookup. split; [exact (Forall2_length _ _ _ Hsd)|]. intros i v v' Hv Hv'.
    destruct (Forall2_lookup_lr _ _ _ _ _ _ Hsd Hv Hv') as (? & ? & ?). destruct (Forall2_lookup_r _ _ _ _ _ Hvs Hv') as (b & _ & Hvo & Hb & _).
    split; [exact (Forall_lookup_1 _ _ _ _ Hok Hv')|]. split; [done|]. intros _. by apply (view_of_bytes b).
  - by rewrite (store_views_rel ctx ctx2 vs Hwf Hwf2 Hrel Hvs) in Hsim.
Qed.
End parity.

(** ** Slots *)

(** Where the path fits, two slots have two files; a save directory of 511 bytes or more
    fills the path buffer, and all slots share one path. *)
Theorem native_slot_paths dir s s' :
  is_u32 s -> is_u32 s' ->
  (len dir + 21 < 512 -> build_save_path 512 dir s = build_save_path 512 dir s' -> s = s')
  /\ (511 <= len dir -> build_save_path 512 dir s = build_save_path 512 dir s').
Proof.
  intros Hs Hs'. rewrite !build_save_path_eq by (done || lia). split; intros Hl.
  - assert (forall v, is_u32 v -> len (dec v) <= 10) as Hdec.
    { intros v _. assert (forall k w, (length (dec_loop k w) <= k)%nat) as Hk.
      { intros k. induction k as [|k IH]; intros w; [done|]. cbn [dec_loop]. destruct (w <? 10); [cbn; lia|].
        rewrite length_app. cbn [length]. specialize (IH (w / 10)). lia. }
      specialize (Hk 10%nat v). unfold dec, len. lia. }
    rewrite !take_ge; cycle 1; [|..].
    1, 2: rewrite !length_app; pose proof (Hdec s Hs); pose proof (Hdec s' Hs'); unfold len in *; cbn [length SLOT_PREFIX BLYS_SUFFIX]; lia.
    intros E. apply app_inv_head in E. apply app_inv_head in E. apply app_inv_tail in E. unfold is_u32, dec in *.
    rewrite <-(undec_dec_loop 10 s), <-(undec_dec_loop 10 s') by (cbn; lia). by rewrite E.
  - rewrite !take_app_le by (unfold len in *; lia). done.
Qed.
