(* ===== verification/NativeSaveImages.v ===== *)
(** * NativeSaveImages: a kernel with short transfers, and a truncated save

    Instances that meet the hypotheses of [NativeSaveTheorems], with the cart of
    [NativeImages]; a truncated file that the bare-metal library accepts, and two slots in one
    file. *)

From S2P Require Import Prelude StateBuffer StateBufferSpec StateBufferTheorems Blys BlysSpec Save SaveTheorems CartImages NativeState NativeSpec NativeLayouts NativeImages NativeSave NativeSaveTheorems.
From Stdlib Require Import ZArith Lia Strings.String.
From stdpp Require Import base tactics list gmap.
Open Scope Z_scope.

(** Three bytes per [write], at most seven per [read]. *)
Program Definition short_kernel : native_kernel :=
  MkKernel (fun _ => true) (fun _ n => Z.min n 3) (fun left n => Z.min 7 (Z.min n (len left))) _ _ _.
Next Obligation. intros. cbn. lia. Qed.
Next Obligation. intros. cbn. pose proof (len_nonneg left). lia. Qed.
Next Obligation. intros left n Hn Hl. cbn. destruct left; [done|]. rewrite len_cons. pose proof (len_nonneg left). lia. Qed.

(** Callbacks that leave the statics alone. *)
Definition keep_save (st : native_state) : option native_state := Some st.
Definition keep_load (reason version : Z) (st : native_state) : option native_state := Some st.

Definition the_dir : list Z := text "saves".
Definition the_file : path := build_save_path 512 the_dir 3.
Definition the_host_file : path := default [] (build_path 1024 the_dir (text "demo") 3).

Lemma booted :
  exists st, native_boot 1 = Some st /\ sim st (host_ctx 1) /\ declares st (host_ctx 1) /\ ctx_sized (host_ctx 1)
    /\ ctx_saveable (host_ctx 1) /\ s_schema_hash st = 0xfeedbeef /\ s_save_version st = 7.
Proof.
  destruct native_cart_bytes as (Hb & H0 & H1).
  destruct (startup_at (native_cart 1) cart_base Hb H0 H1 52 212 (the_layouts 1) 7 2 (fun _ _ => true) decode_layouts (host_ctx 1))
    as (st & Hrun & Hsim & (_ & _ & _ & _ & Eh & Ev & _) & Hn); [vm_compute; congruence|vm_compute; reflexivity|lia|vm_compute; reflexivity|vm_compute; reflexivity
    |apply native_cart_fits|vm_compute; reflexivity|vm_compute; reflexivity|vm_compute; reflexivity|].
  exists st. split; [exact Hrun|]. split; [done|]. split.
  { split; [intros bi b Hbi Hb'; by apply Hn|]. rewrite Eh. vm_compute. reflexivity. }
  assert (forall bi b, 0 <= bi < n_buffers (host_ctx 1) -> zget (buffers (host_ctx 1)) bi = Some b ->
    b = default zero_buffer (zget (buffers (host_ctx 1)) 0)) as Honly.
  { intros bi b Hbi Hb'. assert (bi = 0) as -> by (change (n_buffers (host_ctx 1)) with 1 in Hbi; lia). by rewrite Hb'. }
  split; [|split; [split|by split]].
  - intros bi b Hbi Hb'. rewrite (Honly bi b Hbi Hb'). split; [unfold sized; vm_compute; reflexivity|].
    vm_compute. repeat constructor; discriminate.
  - intros bi b Hbi Hb'. rewrite (Honly bi b Hbi Hb'). split; [vm_compute; reflexivity|unfold sized; vm_compute; reflexivity].
  - vm_compute. apply NoDup_singleton.
Qed.

Definition native_save (st : native_state) : option (Z * native_state * fs) :=
  NativeSave.blyt_save_write short_kernel keep_save (Some the_dir) 3 st ∅.

(** The save succeeds and is the file of the host. *)
Example native_save_demo :
  (st ← native_boot 1; '(rc, _, files) ← native_save st; Some (rc, files !! the_file))
  = Some (0, Save.blyt_save_write demo_env (host_ctx 1) (Some the_dir) (Some (text "demo")) 3 7 ∅ ≫= fun r => r.2 !! the_host_file).
Proof. vm_compute. reflexivity. Qed.

Lemma native_save_bytes_witness :
  exists st rc files', native_boot 1 = Some st /\ native_save st = Some (rc, st, files') /\ (rc = BLYT_OK \/ rc = NativeState.BLYT_ERR_IO).
Proof.
  destruct booted as (st & Hboot & Hs & Hd & Hz & _).
  destruct (native_save_bytes short_kernel keep_save st st (host_ctx 1) the_dir 3 ∅) as (rc & files' & Hr & Hrc & _);
    [reflexivity|exact Hs|exact Hd|exact Hz|discriminate|].
  exists st, rc, files'. split; [exact Hboot|]. by split.
Defined.

(** A file that is too short even for its header. *)
Definition stub_file : list Z := [66; 76; 89; 83; 1].

Lemma stub_codes :
  fst <$> Save.blyt_save_read (host_ctx 1) (Some the_dir) (Some (text "demo")) 3 {[ the_host_file := stub_file ]} = Some (BLYS_ERR_IO, 0)
  /\ (st ← native_boot 1; fst <$> NativeSave.blyt_save_read short_kernel keep_load (Some the_dir) 3 st {[ the_file := stub_file ]})
     = Some NativeState.BLYT_ERR_IO.
Proof. split; vm_compute; reflexivity. Qed.

Lemma stub_bytes : bytes_ok stub_file.
Proof. unfold bytes_ok, is_u8. vm_compute. repeat constructor; discriminate. Qed.

Lemma native_load_parity_witness :
  exists st st' ctx', native_boot 1 = Some st
    /\ NativeSave.blyt_save_read short_kernel keep_load (Some the_dir) 3 st {[ the_file := stub_file ]} = Some (NativeState.BLYT_ERR_IO, st')
    /\ sim st' ctx'.
Proof.
  destruct booted as (st & Hboot & Hs & Hd & Hz & _). destruct stub_codes as [Ch Cn].
  destruct (native_load_parity short_kernel keep_load st (host_ctx 1) the_dir (text "demo") 3 {[ the_file := stub_file ]}
    {[ the_host_file := stub_file ]} the_host_file stub_file Hs Hd Hz) as (rc & v & ctx' & st' & Hh & Hs' & _ & _ & Hn);
    [discriminate|apply stub_bytes|by rewrite lookup_singleton_eq|vm_compute; reflexivity|by rewrite lookup_singleton_eq|].
  rewrite Hh in Ch. cbn in Ch. injection Ch as -> ->. rewrite Hboot in Cn. cbn [mbind option_bind] in Cn.
  exists st, st', ctx'. split; [exact Hboot|]. split; [|exact Hs'].
  destruct Hn as [[? _]|[[? _]|[_ [Hn|Hn]]]]; [discriminate|discriminate|exact Hn|]. rewrite Hn in Cn. unfold keep_load in Cn. cbn [mbind option_bind fmap option_fmap option_map fst] in Cn. discriminate Cn.
Defined.

Lemma native_save_restores_witness :
  exists st st3, native_boot 1 = Some st /\ sim st3 (host_ctx 1)
    /\ ('(_, _, files) ← native_save st; NativeSave.blyt_save_read short_kernel keep_load (Some the_dir) 3 st files) = Some (BLYT_OK, st3).
Proof.
  destruct booted as (st & Hboot & Hs & Hd & Hz & Hsv & Hh & Hv).
  assert (exists files, native_save st = Some (BLYT_OK, st, files)) as (files & E).
  { assert ((st ← native_boot 1; native_save st ≫= fun r => Some r.1.1) = Some BLYT_OK) as E by (vm_compute; reflexivity).
    rewrite Hboot in E. cbn [mbind option_bind] in E. destruct (native_save st) as [[[rc st1] files]|] eqn:En; [|discriminate E].
    injection E as ->. unfold native_save in En. apply native_save_state in En as Ek. injection Ek as <-. by exists files. }
  destruct (native_save_restores short_kernel keep_save keep_load st st (host_ctx 1) st (host_ctx 1) the_dir 3 ∅ files) as (st3 & Hs3 & Hr);
    [reflexivity|exact Hs|exact Hd|exact Hsv|exact Hs|exact Hd|apply ctx_rel_refl|rewrite Hh; by split|rewrite Hv; by split|exact E|].
  exists st, st3. split; [exact Hboot|]. split; [exact Hs3|]. rewrite E. cbn [mbind option_bind]. rewrite Hr. reflexivity.
Defined.

(** ** A truncated file *)

(** The file header of the cart's saves, and the first three bytes of a section header. *)
Definition truncated : list Z := header_image (MkHeader 0xfeedbeef 7) ++ [67; 65; 82].

(** A save cut inside a section header is a corrupt file to the host and a good one to
    the bare-metal library: [read_all] answers a short read with 1, which the reader of the
    format takes for the end of the file.  The load reports success, the cart's callback
    runs, and no buffer has been restored. *)
Theorem native_truncated_accepted :
  fst <$> Save.blyt_save_read (host_ctx 1) (Some the_dir) (Some (text "demo")) 3 {[ the_host_file := truncated ]} = Some (BLYS_ERR_IO, 7)
  /\ (st ← native_boot 1; fst <$> NativeSave.blyt_save_read short_kernel keep_load (Some the_dir) 3 st {[ the_file := truncated ]}) = Some BLYT_OK.
Proof. split; vm_compute; reflexivity. Qed.

Lemma native_slot_paths_witness : build_save_path 512 the_dir 3 <> build_save_path 512 the_dir 4.
Proof.
  intros E. destruct (native_slot_paths the_dir 3 4) as [H _]; [by split|by split|]. specialize (H ltac:(vm_compute; reflexivity) E). discriminate.
Defined.
