(* ===== verification/NativeResource.v ===== *)
(** * NativeResource: the resources of the bare-metal runtime

    Models the raw allocator, the resource table, its part of the budget accounting and the
    frame boundary of [frontends/native/src/libblytcommon/blytcommon.c].  The statics are the
    record [res_statics]; a pointer to an entry is its index.  The cart file stays mapped: it is
    [cart_map] of the environment, the same record the host's table takes, in which
    [malloc_ok n] says whether [mmap] grants [n] bytes.  The outer [None] of a result is an access
    outside the map or outside a mapping. *)

From S2P Require Import Prelude Handle MemBudget ElfSection ResourceTable.
From Stdlib Require Import ZArith Lia String.
From stdpp Require Import base tactics list.
Open Scope Z_scope.

(** ** The raw allocator *)

Definition NATIVE_RAW_HDR : Z := 16.

(** The bytes the mapping holds behind the header: the kernel maps whole pages. *)
Definition raw_malloc (env : res_env) (n : Z) : option Z :=
  let n := if n =? 0 then 1 else n in
  let total := u32 (n + NATIVE_RAW_HDR) in
  if (total =? 0) || negb (malloc_ok env total) then None
  else Some ((total + 4095) / 4096 * 4096 - NATIVE_RAW_HDR).

(** ** The table *)

Record native_res_t := MkRes {
  r_id : Z;
  r_data : option data_ptr;
  r_len : Z;
  r_algo : Z;
  r_cdata : option Z;
  r_clen : Z;
  r_owned : option (list Z);
  r_rl : blyt_rl_state_t;
  r_last_access : Z;
  r_persistent : bool
}.

#[export] Instance native_res_t_eq_dec : EqDecision native_res_t.
Proof. solve_decision. Defined.

(** [s_res] with [s_res_count], [s_lru_clock], [g_mem_acct] and [s_evict_every_frame]. *)
Record res_statics := MkStatics {
  s_res : list native_res_t;
  s_lru_clock : Z;
  g_mem_acct : blyt_mem_accounting_t;
  s_evict_every_frame : bool
}.

Definition res_bytes (d : option data_ptr) (o : option (list Z)) (e : native_res_t) : native_res_t :=
  MkRes (r_id e) d (r_len e) (r_algo e) (r_cdata e) (r_clen e) o (r_rl e) (r_last_access e) (r_persistent e).
Definition res_rl (r : blyt_rl_state_t) (e : native_res_t) : native_res_t :=
  MkRes (r_id e) (r_data e) (r_len e) (r_algo e) (r_cdata e) (r_clen e) (r_owned e) r (r_last_access e) (r_persistent e).
Definition res_stamp (n : Z) (e : native_res_t) : native_res_t :=
  MkRes (r_id e) (r_data e) (r_len e) (r_algo e) (r_cdata e) (r_clen e) (r_owned e) (r_rl e) n (r_persistent e).
Definition res_persist (b : bool) (e : native_res_t) : native_res_t :=
  MkRes (r_id e) (r_data e) (r_len e) (r_algo e) (r_cdata e) (r_clen e) (r_owned e) (r_rl e) (r_last_access e) b.

Definition set_res (l : list native_res_t) (st : res_statics) : res_statics :=
  MkStatics l (s_lru_clock st) (g_mem_acct st) (s_evict_every_frame st).
Definition set_acct (a : blyt_mem_accounting_t) (st : res_statics) : res_statics :=
  MkStatics (s_res st) (s_lru_clock st) a (s_evict_every_frame st).
Definition set_evict_hook (b : bool) (st : res_statics) : res_statics :=
  MkStatics (s_res st) (s_lru_clock st) (g_mem_acct st) b.

Definition res_bss : res_statics := MkStatics [] 0 (MkAcct 0 0 0 0) false.

(** ** Loading: count the sections, then fill *)

Definition NATIVE_RES_PREFIX : list Z := text ".cart.resource."%string.

Definition res_count_cb (suffix : list Z) (off size : Z) (n : Z) : option Z :=
  match blyt_elf32_parse_u32 (Some suffix) with Some _ => Some (u32 (n + 1)) | None => Some n end.

(** [arr] holds the [n] entries filled so far; [cap] is the room of the array. *)
Definition res_fill_cb (env : res_env) (cap : Z) (suffix : list Z) (off size : Z) (arr : list native_res_t)
    : option (list native_res_t) :=
  match blyt_elf32_parse_u32 (Some suffix) with
  | None => Some arr
  | Some id =>
      if len arr >=? cap then Some arr
      else
        header ← blyt_res_header_parse (cart_map env) off size;
        Some (arr ++
          [match header with
           | None => MkRes id (Some (InMap off)) size BLYT_RES_ALGO_NONE None 0 None (MkRl 0) 0 false
           | Some (algo, dsize, body, body_len) =>
               if algo =? BLYT_RES_ALGO_ZSTD
               then MkRes id None dsize algo (Some body) body_len None (MkRl 0) 0 false
               else MkRes id (Some (InMap body)) dsize algo None 0 None (MkRl 0) 0 false
           end])
  end.

(** [mapped] is whether the cart file was opened, held an ELF header and was mapped. *)
Definition resources_init (env : res_env) (mapped : bool) (st : res_statics) : option res_statics :=
  if negb mapped then Some st
  else
    '(_, n) ← blyt_elf32_for_each_section_prefix res_count_cb (Some (cart_map env)) (Some (NATIVE_RES_PREFIX ++ [0])) 0;
    if n =? 0 then Some st
    else
      match raw_malloc env (u32 (n * 40)) with
      | None => Some st
      | Some _ =>
          '(_, arr) ← blyt_elf32_for_each_section_prefix (res_fill_cb env n) (Some (cart_map env))
                        (Some (NATIVE_RES_PREFIX ++ [0])) [];
          Some (set_res arr st)
      end.

Fixpoint res_find_from (i : nat) (l : list native_res_t) (id : Z) : option nat :=
  match l with
  | [] => None
  | e :: l => if r_id e =? id then Some i else res_find_from (S i) l id
  end.
(** [None] is -1. *)
Definition res_find (st : res_statics) (id : Z) : option nat := res_find_from 0 (s_res st) id.

Definition res_resolve (st : res_statics) (handle : Z) : option nat :=
  if negb (blyt_handle_is_resource handle)
     || negb (blyt_resource_decode_provenance handle =? BLYT_RESOURCE_PROV_CART) then None
  else res_find st (blyt_resource_decode_id handle).

(** ** Bytes *)

(** The pointer, [None] for [NULL], and the entry with the bytes it has cached.  The decoder
    writes what it produces to a buffer of [room] bytes before its length is compared. *)
Definition native_res_data (env : res_env) (e : native_res_t) : option (option data_ptr * native_res_t) :=
  match r_data e with
  | Some p => Some (Some p, e)
  | None =>
      if negb (r_algo e =? BLYT_RES_ALGO_ZSTD) || (r_len e =? 0) then Some (None, e)
      else
        match raw_malloc env (r_len e) with
        | None => Some (None, e)
        | Some room =>
            cdata ← r_cdata e;
            body ← rd (cart_map env) cdata (r_clen e);
            if match zstd env body (r_len e) with Some got => len got >? room | None => false end then None
            else
              match blyt_res_decode env (r_algo e) body (r_len e) with
              | None => Some (None, e)
              | Some buf => Some (Some InOwned, res_bytes (Some InOwned) (Some buf) e)
              end
        end
  end.

(** What reading [n] bytes from the pointer gives. *)
Definition res_read (env : res_env) (e : native_res_t) (p : data_ptr) (n : Z) : option (list Z) :=
  match p with
  | InMap off => rd (cart_map env) off n
  | InOwned => buf ← r_owned e; rd buf 0 n
  end.

(** The 1024 bytes the caller reads, [None] for [NULL], and the statics. *)
Definition blyt_native_cart_palette_bytes (env : res_env) (st : res_statics) (handle : Z)
    : option (option (list Z) * res_statics) :=
  match res_resolve st handle with
  | None => Some (None, st)
  | Some i =>
      e ← s_res st !! i;
      if negb (r_len e =? 256 * 4) then Some (None, st)
      else
        '(p, e') ← native_res_data env e;
        let st' := set_res (<[i := e']> (s_res st)) st in
        match p with
        | None => Some (None, st')
        | Some p => bytes ← res_read env e' p (256 * 4); Some (Some bytes, st')
        end
  end.

(** ** Eviction *)

Definition native_res_evict (e : native_res_t) : Z * native_res_t :=
  if r_persistent e || negb (blyt_rl_is_evictable (r_rl e)) then (0, e)
  else match r_owned e with
       | None => (0, e)
       | Some _ => (r_len e, res_bytes None None e)
       end.

Fixpoint evict_each (l : list native_res_t) (total : Z) : Z * list native_res_t :=
  match l with
  | [] => (total, [])
  | e :: l =>
      let '(n, e') := native_res_evict e in
      let '(total', l') := evict_each l (u32 (total + n)) in
      (total', e' :: l')
  end.

Definition native_resources_evict_all_evictable (st : res_statics) : Z * res_statics :=
  let '(total, l) := evict_each (s_res st) 0 in (total, set_res l st).

(** The [uint32_t] sum of [len] over the entries that satisfy a test. *)
Definition sum_res (test : native_res_t -> bool) (l : list native_res_t) : Z :=
  foldl (fun total e => if test e then u32 (total + r_len e) else total) 0 l.

Definition has_owned (e : native_res_t) : bool := match r_owned e with Some _ => true | None => false end.

Definition native_res_footprint (st : res_statics) : Z :=
  sum_res (fun e => r_persistent e || negb (blyt_rl_is_evictable (r_rl e))) (s_res st).
Definition native_res_resident_evictable (st : res_statics) : Z :=
  sum_res (fun e => has_owned e && negb (r_persistent e) && blyt_rl_is_evictable (r_rl e)) (s_res st).
Definition native_res_resident_decompressed (st : res_statics) : Z := sum_res has_owned (s_res st).

Definition native_res_touch (i : nat) (st : res_statics) : res_statics :=
  let clock := u32 (s_lru_clock st + 1) in
  MkStatics (alter (res_stamp clock) i (s_res st)) clock (g_mem_acct st) (s_evict_every_frame st).

(** The scan for the oldest victim: its index and stamp. *)
Fixpoint victim_from (i : nat) (l : list native_res_t) (victim : option (nat * Z)) : option (nat * Z) :=
  match l with
  | [] => victim
  | e :: l =>
      if negb (has_owned e) || r_persistent e || negb (blyt_rl_is_evictable (r_rl e))
      then victim_from (S i) l victim
      else
        let better := match victim with None => true | Some (_, a) => r_last_access e <? a end in
        victim_from (S i) l (if better then Some (i, r_last_access e) else victim)
  end.

(** [None] when the fuel is spent. *)
Fixpoint fit_loop (fuel : nat) (st : res_statics) (max_resident_evictable : Z) : option res_statics :=
  match fuel with
  | O => None
  | S fuel =>
      if native_res_resident_evictable st <=? max_resident_evictable then Some st
      else
        match victim_from 0 (s_res st) None with
        | None => Some st
        | Some (i, _) =>
            e ← s_res st !! i;
            fit_loop fuel (set_res (<[i := snd (native_res_evict e)]> (s_res st)) st) max_resident_evictable
        end
  end.

(** The loop frees one entry a round. *)
Definition native_res_evict_to_fit (st : res_statics) (max_resident_evictable : Z) : option res_statics :=
  fit_loop (S (length (s_res st))) st max_resident_evictable.

(** ** The budget *)

Definition set_footprint (v : Z) (a : blyt_mem_accounting_t) : blyt_mem_accounting_t :=
  MkAcct (guest_heap_used a) v (resource_cache_used a) (guest_heap_baseline a).
Definition set_cache_used (v : Z) (a : blyt_mem_accounting_t) : blyt_mem_accounting_t :=
  MkAcct (guest_heap_used a) (non_evictable_footprint a) v (guest_heap_baseline a).

Definition native_mem_publish_footprint (st : res_statics) : option res_statics :=
  let footprint := native_res_footprint st in
  let st := set_acct (set_footprint footprint (g_mem_acct st)) st in
  st ← native_res_evict_to_fit st (blyt_mem_cache_room (guest_heap_used (g_mem_acct st)) footprint);
  Some (set_acct (set_cache_used (native_res_resident_decompressed st) (g_mem_acct st)) st).

Definition native_mem_reference_fits (st : res_statics) (e : native_res_t) (was_evictable : bool) : bool :=
  let incoming := if was_evictable then r_len e else 0 in
  blyt_mem_alloc_fits (guest_heap_used (g_mem_acct st)) (native_res_footprint st) incoming.

(** ** The cart's calls *)

(** The result code; [*out_ptr], the inner [None] being [NULL] and the outer no store;
    [*out_size]. *)
Definition blyt_resource_pin (env : res_env) (st : res_statics) (id : Z)
    : option (Z * option data_ptr * option Z * res_statics) :=
  match res_resolve st id with
  | None => Some (4, None, None, st)
  | Some i =>
      e ← s_res st !! i;
      let pin_was_evictable := blyt_rl_is_evictable (r_rl e) in
      if negb (native_mem_reference_fits st e pin_was_evictable) then Some (2, None, None, st)
      else
        '(bytes, e) ← native_res_data env e;
        let st := set_res (<[i := e]> (s_res st)) st in
        match bytes, r_len e =? 0 with
        | None, false => Some (3, None, None, st)
        | _, _ =>
            let st := set_res (alter (fun e => res_rl (blyt_rl_pin (r_rl e)) e) i (s_res st)) st in
            st ← native_mem_publish_footprint (native_res_touch i st);
            Some (0, bytes, Some (r_len e), st)
        end
  end.

Definition blyt_resource_unpin (st : res_statics) (id : Z) : option (Z * res_statics) :=
  match res_resolve st id with
  | None => Some (4, st)
  | Some i =>
      e ← s_res st !! i;
      let '(ok, rl) := blyt_rl_unpin (r_rl e) in
      if negb ok then Some (1, st)
      else st ← native_mem_publish_footprint (set_res (<[i := res_rl rl e]> (s_res st)) st); Some (0, st)
  end.

(** [resource_cache_used], [cart_allocations], [total_used], [budget_cap] *)
Definition blyt_mem_stats (st : res_statics) : list Z :=
  let cache := resource_cache_used (g_mem_acct st) in
  let heap := guest_heap_used (g_mem_acct st) in
  [cache; heap; u32 (heap + cache); BLYT_MEM_BUDGET_BYTES].

Definition res_resident (e : native_res_t) : bool :=
  r_persistent e || has_owned e || ((r_algo e =? BLYT_RES_ALGO_NONE) && (r_last_access e >? 0)).

(** The count and the array of the first [cap] ids and sizes, when there is an array. *)
Fixpoint mem_resources_loop (l : list native_res_t) (out : bool) (cap loaded : Z) : Z * list (Z * Z) :=
  match l with
  | [] => (loaded, [])
  | e :: l =>
      if negb (res_resident e) then mem_resources_loop l out cap loaded
      else
        let '(n, rest) := mem_resources_loop l out cap (u32 (loaded + 1)) in
        (n, if out && (loaded <? cap)
            then (blyt_resource_encode (r_id e) BLYT_RESOURCE_PROV_CART, r_len e) :: rest else rest)
  end.
Definition blyt_mem_resources (st : res_statics) (out : bool) (cap : Z) : Z * list (Z * Z) :=
  mem_resources_loop (s_res st) out cap 0.

(** ** Frame boundary and start-up *)

Definition resources_force_release_pins (st : res_statics) : res_statics :=
  set_res ((fun e => res_rl (blyt_rl_force_release_pins (r_rl e)) e) <$> s_res st) st.

(** What [blyt_frame_done] does to the resources. *)
Definition frame_done_resources (st : res_statics) : option res_statics :=
  let st := resources_force_release_pins st in
  let st := if s_evict_every_frame st then snd (native_resources_evict_all_evictable st) else st in
  native_mem_publish_footprint st.

(** [k] ids are left, from offset [b]. *)
Fixpoint persistent_loop (k : nat) (b : Z) (ids : list Z) (st : res_statics) : option res_statics :=
  match k with
  | O => Some st
  | S k =>
      w ← rd ids b 4;
      persistent_loop k (b + 4) ids
        (match res_find st (read_u32_le w) with
         | Some i => set_res (alter (res_persist true) i (s_res st)) st
         | None => st
         end)
  end.

(** The section lies in the map, so [b + 4] does not wrap. *)
Definition native_mark_persistent (env : res_env) (mapped : bool) (st : res_statics) : option res_statics :=
  if negb mapped then Some st
  else
    found ← blyt_elf32_find_section (Some (cart_map env)) (Some (text ".cart.persistent"%string ++ [0]));
    match found with
    | None => Some st
    | Some (off, size) => ids ← rd (cart_map env) off size; persistent_loop (Z.to_nat (size / 4)) 0 ids st
    end.

(** Materialise the persistent entries in order; [false] at the first [NULL]. *)
Fixpoint native_preload_loop (env : res_env) (l : list native_res_t) : option (bool * list native_res_t) :=
  match l with
  | [] => Some (true, [])
  | e :: l =>
      if negb (r_persistent e) then '(ok, l') ← native_preload_loop env l; Some (ok, e :: l')
      else
        '(p, e') ← native_res_data env e;
        match p with
        | None => Some (false, e' :: l)
        | Some _ => '(ok, l') ← native_preload_loop env l; Some (ok, e' :: l')
        end
  end.

(** [false] is -1. *)
Definition native_preload_persistent (env : res_env) (st : res_statics) : option (bool * res_statics) :=
  if native_res_footprint st >? BLYT_MEM_BUDGET_BYTES then Some (false, st)
  else '(ok, l) ← native_preload_loop env (s_res st); Some (ok, set_res l st).

(** The resource part of [blyt_runtime_startup]; the inner [None] is the exit with status
    127.  [evict_hook] is whether BLYT_RESOURCE_EVICT_EVERY_FRAME is set. *)
Definition startup_resources (env : res_env) (mapped evict_hook : bool) (st : res_statics)
    : option (option res_statics) :=
  st ← resources_init env mapped st;
  st ← native_mark_persistent env mapped st;
  '(ok, st) ← native_preload_persistent env st;
  if negb ok then Some None
  else st ← native_mem_publish_footprint st; Some (Some (set_evict_hook evict_hook st)).
