(* ===== verification/NativeResourceSpec.v ===== *)
(** * NativeResourceSpec: the bare-metal table refines the host's

    [to_host] reads a native entry as an entry of the host's table.  Under it every
    operation of [NativeResource] on the table is the host's operation of [ResourceTable]:
    lookup, eviction, the three sums, the LRU loop, the materialisation of an entry (as far as
    memory is granted), loading and the persistent marks. *)

From S2P Require Import Prelude Handle MemBudget ElfSection ResourceTable ResourceTheorems Ecall EcallSpec NativeResource.
From Stdlib Require Import ZArith Lia.
From stdpp Require Import base tactics list.
Open Scope Z_scope.

Definition to_host (e : native_res_t) : blyt_resource_entry_t :=
  MkEntry (r_id e) (r_data e) (r_len e) (r_owned e) (r_algo e) (r_cdata e) (r_clen e) None (r_rl e)
    (r_persistent e) (r_last_access e).

(** The host's table with the native one's entries. *)
Definition host_table (cap : Z) (st : res_statics) : blyt_resource_table_t :=
  MkTable (to_host <$> s_res st) cap (s_lru_clock st).

Definition lens_u32 (l : list native_res_t) : Prop := Forall (fun e => is_u32 (r_len e)) l.

(** ** Lookup *)

Lemma find_to_host l id i : find_from i (to_host <$> l) id = res_find_from i l id.
Proof. revert i; induction l as [|e l IH]; intros i; [done|]. cbn. destruct (r_id e =? id); [done|apply IH]. Qed.

Lemma resolve_to_host cap st h : blyt_resolve_resource (host_table cap st) h = res_resolve st h.
Proof.
  unfold blyt_resolve_resource, res_resolve, res_find, blyt_resource_table_find_mut. cbn [t_entries host_table].
  by rewrite find_to_host.
Qed.

Lemma res_resolve_inv st h i : res_resolve st h = Some i -> exists e, s_res st !! i = Some e.
Proof.
  rewrite <-(resolve_to_host 0). intros (e' & He & _)%resolve_resource_inv. cbn in He.
  rewrite list_lookup_fmap in He. destruct (s_res st !! i) as [e|]; [by exists e|done].
Qed.

(** ** Sums *)

Lemma sum_to_host test test' l :
  lens_u32 l -> (forall e, test (to_host e) = test' e) -> sum_len test (to_host <$> l) = sum_res test' l.
Proof.
  intros Hl Ht. unfold sum_len, sum_res. generalize 0 as t. induction Hl as [|e l He Hl IH]; intros t; [done|].
  cbn [fmap list_fmap foldl]. rewrite IH, Ht. by destruct (test' e); [cbn; rewrite (u32_id (r_len e))|].
Qed.

Lemma footprint_to_host cap st :
  lens_u32 (s_res st) -> blyt_resource_table_footprint (host_table cap st) = native_res_footprint st.
Proof. intros. by apply sum_to_host. Qed.
Lemma resident_to_host cap st :
  lens_u32 (s_res st) -> blyt_resource_table_resident_evictable (host_table cap st) = native_res_resident_evictable st.
Proof. intros. by apply sum_to_host. Qed.
Lemma decompressed_to_host cap st :
  lens_u32 (s_res st) -> blyt_resource_table_resident_decompressed (host_table cap st) = native_res_resident_decompressed st.
Proof. intros. by apply sum_to_host. Qed.

(** ** Updates *)

Lemma insert_to_host cap i e st :
  with_entries (<[i := to_host e]> (to_host <$> s_res st)) (host_table cap st)
  = host_table cap (set_res (<[i := e]> (s_res st)) st).
Proof. unfold host_table, with_entries, set_res. cbn. by rewrite list_fmap_insert. Qed.

Lemma alter_to_host f g i (l : list native_res_t) :
  (forall e, g (to_host e) = to_host (f e)) -> alter g i (to_host <$> l) = to_host <$> alter f i l.
Proof. intros Hfg. symmetry. apply list_fmap_alter. apply Forall_true. intros e. by rewrite Hfg. Qed.

Lemma touch_to_host cap i st :
  blyt_resource_table_touch (host_table cap st) i = host_table cap (native_res_touch i st).
Proof.
  unfold blyt_resource_table_touch, native_res_touch, host_table. cbn. f_equal. by apply alter_to_host.
Qed.

Lemma release_to_host cap st :
  blyt_resource_table_force_release_pins (host_table cap st) = host_table cap (resources_force_release_pins st).
Proof.
  unfold blyt_resource_table_force_release_pins, resources_force_release_pins, host_table, with_entries, set_res. cbn.
  f_equal. by rewrite <-!list_fmap_compose.
Qed.

Lemma lens_insert l i e e' : lens_u32 l -> l !! i = Some e -> r_len e' = r_len e -> lens_u32 (<[i := e']> l).
Proof. intros Hl He E. apply Forall_insert; [done|]. rewrite E. by apply (Forall_lookup_1 _ _ _ _ Hl He). Qed.

Lemma lens_alter f l i : (forall e, r_len (f e) = r_len e) -> lens_u32 l -> lens_u32 (alter f i l).
Proof. intros Hf Hl. unfold lens_u32. apply Forall_alter; [done|]. intros e _. by rewrite Hf. Qed.

(** ** Eviction *)

Lemma evict_to_host e :
  blyt_resource_entry_evict (to_host e) = (fst (native_res_evict e), to_host (snd (native_res_evict e))).
Proof.
  unfold blyt_resource_entry_evict, native_res_evict. cbn. destruct (r_persistent e || _); [done|].
  by destruct (r_owned e).
Qed.

Lemma evict_len e : r_len (snd (native_res_evict e)) = r_len e.
Proof. unfold native_res_evict. destruct (_ || _); [done|]. by destruct (r_owned e). Qed.

Lemma victim_to_host l i v : victim_loop i (to_host <$> l) v = victim_from i l v.
Proof. 
  revert i v; induction l as [|e l IH]; intros i v; [done|]. cbn [fmap list_fmap victim_loop victim_from].
  change (owned_bit (to_host e)) with (has_owned e). cbn [e_persistent e_rl e_last_access to_host].
  destruct (_ || _); apply IH.
Qed.

(** What eviction leaves of an entry. *)
Definition frame (e : native_res_t) : Z * Z * Z * blyt_rl_state_t * Z * bool :=
  (r_id e, r_len e, r_algo e, r_rl e, r_last_access e, r_persistent e).

Lemma evict_frame e : frame (snd (native_res_evict e)) = frame e.
Proof. unfold native_res_evict. destruct (_ || _); [done|]. by destruct (r_owned e). Qed.

Lemma frame_insert (l : list native_res_t) i e e' : l !! i = Some e -> frame e' = frame e -> frame <$> <[i := e']> l = frame <$> l.
Proof. intros He E. rewrite list_fmap_insert, E. apply list_insert_id. by rewrite list_lookup_fmap, He. Qed.

Lemma frame_Forall (P : native_res_t -> Prop) (l l' : list native_res_t) :
  (forall e e', frame e = frame e' -> P e -> P e') -> frame <$> l' = frame <$> l -> Forall P l -> Forall P l'.
Proof.
  intros HP E Hl. apply Forall_lookup. intros i e' He'.
  assert ((frame <$> l) !! i = Some (frame e')) as Hi by (rewrite <-E, list_lookup_fmap, He'; done).
  rewrite list_lookup_fmap in Hi. destruct (l !! i) as [e|] eqn:He; [|done]. apply (inj Some) in Hi.
  apply (HP e); [done|]. by apply (Forall_lookup_1 _ _ _ _ Hl He).
Qed.

Lemma frame_footprint st st' : frame <$> s_res st' = frame <$> s_res st -> native_res_footprint st' = native_res_footprint st.
Proof.
  unfold native_res_footprint, sum_res. generalize 0. generalize (s_res st) as l. generalize (s_res st') as l'.
  induction l' as [|e' l' IH]; intros [|e l] t E; try done. cbn [fmap list_fmap] in E. apply (inj2 cons) in E as [Ee El].
  cbn [foldl]. assert (r_len e' = r_len e /\ r_rl e' = r_rl e /\ r_persistent e' = r_persistent e) as (-> & -> & ->).
  { unfold frame in Ee. by simplify_eq. } by apply IH.
Qed.

(** The LRU loop leaves the same table; the byte count only the host keeps. *)
Lemma fit_to_host cap fuel st max freed :
  lens_u32 (s_res st) ->
  snd <$> evict_loop fuel (host_table cap st) max freed = host_table cap <$> fit_loop fuel st max.
Proof.
  revert st freed; induction fuel as [|fuel IH]; intros st freed Hl; [done|]. cbn [evict_loop fit_loop].
  rewrite resident_to_host by done. destruct (_ <=? max); [done|].
  cbn [t_entries host_table]. rewrite victim_to_host.
  destruct (victim_from 0 (s_res st) None) as [[i a]|]; [|done].
  rewrite list_lookup_fmap. destruct (s_res st !! i) as [e|] eqn:He; [|done]. cbn [fmap option_fmap option_map mbind option_bind].
  rewrite evict_to_host, insert_to_host. apply IH. cbn. eapply lens_insert; [done|done|apply evict_len].
Qed.

Lemma fit_keeps fuel st max st' :
  fit_loop fuel st max = Some st' ->
  frame <$> s_res st' = frame <$> s_res st /\ g_mem_acct st' = g_mem_acct st
  /\ s_evict_every_frame st' = s_evict_every_frame st /\ s_lru_clock st' = s_lru_clock st.
Proof.
  revert st; induction fuel as [|fuel IH]; intros st; [done|]. cbn [fit_loop].
  destruct (_ <=? max); [by intros [= <-]|]. destruct (victim_from 0 (s_res st) None) as [[i a]|]; [|by intros [= <-]].
  destruct (s_res st !! i) as [e|] eqn:He; [|done]. cbn [mbind option_bind].
  intros (E & ? & ? & ?)%IH. split_and!; [|done..]. rewrite E. cbn. apply (frame_insert _ _ e); [done|apply evict_frame].
Qed.

(** A loop that has ended is done. *)
Lemma fit_done fuel st max st' n : fit_loop fuel st max = Some st' -> fit_loop (S n) st' max = Some st'.
Proof.
  revert st; induction fuel as [|fuel IH]; intros st; [done|]. cbn [fit_loop].
  destruct (_ <=? max) eqn:E; [intros [= <-]; by rewrite E|].
  destruct (victim_from 0 (s_res st) None) as [[i a]|] eqn:Ev; [|intros [= <-]; by rewrite E, Ev].
  destruct (s_res st !! i) as [e|]; [|done]. apply IH.
Qed.

Lemma fit_acct fuel a st max : fit_loop fuel (set_acct a st) max = set_acct a <$> fit_loop fuel st max.
Proof.
  revert st; induction fuel as [|fuel IH]; intros st; [done|]. cbn [fit_loop].
  change (native_res_resident_evictable (set_acct a st)) with (native_res_resident_evictable st). cbn [s_res set_acct].
  destruct (_ <=? max); [done|]. destruct (victim_from 0 (s_res st) None) as [[i v]|]; [|done].
  destruct (s_res st !! i) as [e|]; [|done]. cbn [mbind option_bind].
  exact (IH (set_res (<[i := snd (native_res_evict e)]> (s_res st)) st)).
Qed.

Lemma publish_keeps st st' :
  native_mem_publish_footprint st = Some st' ->
  frame <$> s_res st' = frame <$> s_res st /\ guest_heap_used (g_mem_acct st') = guest_heap_used (g_mem_acct st)
  /\ s_evict_every_frame st' = s_evict_every_frame st.
Proof.
  unfold native_mem_publish_footprint, native_res_evict_to_fit. cbv zeta.
  destruct (fit_loop _ _ _) as [st1|] eqn:Hf; [|done]. intros [= <-]. apply fit_keeps in Hf as (? & Ha & ? & _).
  cbn. by rewrite Ha.
Qed.

(** Publishing twice is publishing once. *)
Lemma publish_idem st st' :
  native_mem_publish_footprint st = Some st' -> native_mem_publish_footprint st' = Some st'.
Proof.
  intros Hp. pose proof (publish_keeps _ _ Hp) as (Hfr & Hh & _). revert Hp.
  unfold native_mem_publish_footprint, native_res_evict_to_fit. cbv zeta.
  rewrite (frame_footprint st st' Hfr). set (foot := native_res_footprint st). cbn [g_mem_acct set_acct set_footprint guest_heap_used].
  rewrite Hh. set (room := blyt_mem_cache_room _ foot).
  destruct (fit_loop _ _ room) as [st1|] eqn:Hf; [|done]. cbn [mbind option_bind]. intros [= <-].
  destruct (fit_keeps _ _ _ _ Hf) as (_ & Ha & _). cbn [s_res set_acct g_mem_acct set_cache_used non_evictable_footprint].
  assert (set_footprint foot (set_cache_used (native_res_resident_decompressed st1) (g_mem_acct st1))
    = set_cache_used (native_res_resident_decompressed st1) (g_mem_acct st1)) as -> by by rewrite Ha.
  change (set_acct ?a (set_acct ?b ?s)) with (set_acct a s).
  rewrite fit_acct, (fit_done _ _ _ _ _ Hf). done.
Qed.

(** ** Bytes *)

(** The kernel grants every mapping, the decoder writes at most the length it is given, and both sides
    read the same file with the same decoder. *)
Record same_source (nenv henv : res_env) : Prop := MkSame {
  ss_map : cart_map henv = cart_map nenv;
  ss_zstd : zstd henv = zstd nenv;
  ss_native : forall n, malloc_ok nenv n = true;
  ss_host : forall n, malloc_ok henv n = true;
  ss_bound : forall body n got, zstd nenv body n = Some got -> len got <= n
}.

(** An entry whose length leaves room for the allocator's header, and which is not an empty
    compressed one. *)
Definition res_entry_ok (e : native_res_t) : Prop :=
  0 <= r_len e < 2 ^ 32 - 16 /\ (r_algo e = BLYT_RES_ALGO_ZSTD -> r_len e <> 0).

Lemma raw_malloc_room env n :
  0 < n < 2 ^ 32 - 16 -> (forall n, malloc_ok env n = true) -> exists room, raw_malloc env n = Some room /\ n <= room.
Proof.
  intros Hn Hm. unfold raw_malloc, NATIVE_RAW_HDR. rewrite (proj2 (Z.eqb_neq n 0)) by lia.
  rewrite u32_id by (unfold is_u32; lia). rewrite Hm, (proj2 (Z.eqb_neq _ 0)) by lia. cbn [negb orb].
  eexists. split; [done|]. Z.div_mod_to_equations. lia.
Qed.

Lemma data_to_host nenv henv e :
  same_source nenv henv -> res_entry_ok e ->
  blyt_resource_entry_data henv (to_host e)
  = (fun r => (fst r, to_host (snd r))) <$> native_res_data nenv e.
Proof.
  intros [Hmap Hz Hn Hh Hb] [Hl Hz0]. unfold blyt_resource_entry_data, native_res_data.
  cbn [e_data e_src_path e_algo e_len e_cdata e_clen to_host]. destruct (r_data e) as [p|]; [done|].
  destruct (Z.eqb_spec (r_algo e) BLYT_RES_ALGO_ZSTD) as [Ea|Ea]; cbn [negb orb]; [|done].
  specialize (Hz0 Ea). rewrite Hh, (proj2 (Z.eqb_neq (r_len e) 0)) by done. cbn [negb].
  destruct (raw_malloc_room nenv (r_len e)) as (room & -> & Hroom); [lia|done|]. rewrite Hmap.
  destruct (r_cdata e) as [cdata|]; [|done]. cbn [mbind option_bind].
  destruct (rd (cart_map nenv) cdata (r_clen e)) as [body|]; [|done]. cbn [mbind option_bind].
  unfold blyt_res_decode. rewrite Ea. change (BLYT_RES_ALGO_ZSTD =? BLYT_RES_ALGO_NONE) with false.
  change (BLYT_RES_ALGO_ZSTD =? BLYT_RES_ALGO_ZSTD) with true. cbv iota. rewrite Hz.
  destruct (zstd nenv body (r_len e)) as [got|] eqn:Eg; [|done]. cbn [mbind option_bind].
  pose proof (Hb _ _ _ Eg). replace (len got >? room) with false by lia. by destruct (negb _).
Qed.

(** What reading through the pointer gives is what the host copies from. *)
Lemma read_to_host nenv henv e p n : cart_map henv = cart_map nenv -> bytes_at henv (to_host e) p n = res_read nenv e p n.
Proof. intros E. unfold bytes_at, res_read. rewrite E. by destruct p. Qed.

Lemma native_data_keeps nenv e p e' : native_res_data nenv e = Some (p, e') -> frame e' = frame e.
Proof.
  unfold native_res_data. intros Hd. repeat (case_match || (apply bind_Some in Hd as (? & ? & Hd))); by simplify_eq.
Qed.
