(* ===== verification/NativeResourceParity.v ===== *)
(** * NativeResourceParity: a cart sees the same resources on bare metal and in the emulator

    The resource calls of a cart, its allocator's counter and the frame boundary, run
    against the two implementations: natively by [NativeResource], in the emulator by the stubs
    of [GuestStubs] on a session of [Session].  The theorem is that, while no surface is charged, a run gives
    the same codes, bytes and statistics on both sides, byte budget and cache evictions included. *)

From S2P Require Import Prelude Handle MemBudget StateBuffer ResourceTable ResourceTheorems RunCtx Surface SurfaceSpec SurfaceTheorems Ecall EcallSpec EcallTheorems Session SessionSpec GuestStubs NativeResource NativeResourceSpec.
From Stdlib Require Import ZArith Lia.
From stdpp Require Import base tactics list.
Open Scope Z_scope.

(** ** The calls *)

Inductive res_call :=
  | Pin (id : Z)
  | Unpin (id : Z)
  | MemStats
  | HeapUsed (n : Z)      (** the cart's allocator stores its counter *)
  | FrameDone.

(** The bytes behind the pointer, a code, or the statistics. *)
Inductive res_result :=
  | Bytes (bs : list Z)
  | ResCode (c : Z)
  | Stats (ws : list Z)
  | Quiet.

(** *** Natively *)

(** Reading [n] bytes through the pointer; the entry is the one the handle named before. *)
Definition pinned_bytes (env : res_env) (st st' : res_statics) (id : Z) (p : option data_ptr) (n : option Z) : option (list Z) :=
  n ← n;
  if n =? 0 then Some [] else p ← p; i ← res_resolve st id; e ← s_res st' !! i; res_read env e p n.

Definition native_res_call (env : res_env) (c : res_call) (st : res_statics) : option (res_result * res_statics) :=
  match c with
  | Pin id =>
      '(code, p, n, st') ← NativeResource.blyt_resource_pin env st id;
      if code =? 0 then bs ← pinned_bytes env st st' id p n; Some (Bytes bs, st') else Some (ResCode code, st')
  | Unpin id => '(code, st') ← NativeResource.blyt_resource_unpin st id; Some (ResCode code, st')
  | MemStats => Some (Stats (NativeResource.blyt_mem_stats st), st)
  | HeapUsed n => Some (Quiet, set_acct (set_guest_heap_used n (g_mem_acct st)) st)
  | FrameDone => st' ← frame_done_resources st; Some (Quiet, st')
  end.

(** *** In the emulator

    [outp], [outn] and [outs] are where the cart keeps [out_ptr], [out_size] and the statistics;
    a frame ends when the host enters the next one. *)

Section emulated.
Context {R M : Type} `{HR : RegFile R} `{HM : GuestMemory M} (env : ecall_env) (outp outn outs : Z).
Abbreviation mach := (machine R M).
Abbreviation session := (blyt_session R M).

Definition word (m : mach) (a : Z) : Z := mem_acct_read_u32 (rv_mem m) a.

Definition emu_res_call (c : res_call) (s : session) : option (res_result * session) :=
  let acct := mem_acct_vaddr (s_ctx s) in
  match c with
  | Pin id =>
      '(code, m) ← stub_resource_pin env id outp outn (enter s);
      let s' := leave m s in
      if code =? 0 then Some (Bytes (memory_read (rv_mem m) (word m outp) (word m outn)), s')
      else Some (ResCode code, s')
  | Unpin id => '(code, m) ← stub_resource_unpin env id (enter s); Some (ResCode code, leave m s)
  | MemStats =>
      let m := stub_mem_stats acct outs (enter s) in
      Some (Stats [word m outs; word m (outs + 4); word m (outs + 8); word m (outs + 12)], leave m s)
  | HeapUsed n =>
      Some (Quiet, on_rv (fun m => set_mem m (memory_write (rv_mem m) acct (write_u32_le n))) s)
  | FrameDone => s' ← frame_entry s; Some (Quiet, s')
  end.
End emulated.

(** Run a sequence of calls. *)
Fixpoint run_res {S} (step : res_call -> S -> option (res_result * S)) (cs : list res_call) (s : S)
    : option (list res_result * S) :=
  match cs with
  | [] => Some ([], s)
  | c :: cs => '(r, s1) ← step c s; '(rs, s2) ← run_res step cs s1; Some (r :: rs, s2)
  end.

Definition res_call_ok (c : res_call) : Prop :=
  match c with Pin id | Unpin id => is_u32 id | HeapUsed n => is_u32 n | MemStats | FrameDone => True end.

(** ** The simulation *)

Section sim.
Context {M : Type} `{HM : GuestMemory M}.

(** Related before the footprint is published. *)
Record res_pre (st : res_statics) (ctx : blyt_run_ctx_t) (mem : M) : Prop := MkPre {
  rp_table : resources ctx = host_table (t_cap (resources ctx)) st;
  rp_entries : Forall res_entry_ok (s_res st);
  rp_acct : 0 < mem_acct_vaddr ctx /\ mem_acct_vaddr ctx + 12 <= ram_size mem /\ mem_acct_vaddr ctx + 12 <= 2 ^ 32;
  rp_heap : mem_acct_read_u32 mem (mem_acct_vaddr ctx) = guest_heap_used (g_mem_acct st) /\ is_u32 (guest_heap_used (g_mem_acct st));
  rp_alone : only_screen (surfaces ctx) /\ peer_heap ctx = 0;
  rp_hook : s_evict_every_frame st = false
}.

(** The same table, and the same words in the accounting block. *)
Record res_sim (st : res_statics) (ctx : blyt_run_ctx_t) (mem : M) : Prop := MkResSim {
  rs_pre : res_pre st ctx mem;
  rs_foot : mem_acct_read_u32 mem (mem_acct_vaddr ctx + 4) = non_evictable_footprint (g_mem_acct st);
  rs_cache : mem_acct_read_u32 mem (mem_acct_vaddr ctx + 8) = resource_cache_used (g_mem_acct st) /\ is_u32 (resource_cache_used (g_mem_acct st))
}.

(** Fewer than [n] pins on every entry. *)
Definition pins_below (n : Z) (st : res_statics) : Prop := Forall (fun e => 0 <= pin_count (r_rl e) < n) (s_res st).

Lemma entries_u32 l : Forall res_entry_ok l -> lens_u32 l.
Proof. intros Hl. apply (Forall_impl _ _ _ Hl). intros e [He _]. unfold is_u32. lia. Qed.

Lemma sum_u32 test l : is_u32 (sum_res test l).
Proof.
  unfold sum_res. assert (is_u32 0) as H0 by done. revert H0. generalize 0.
  induction l as [|e l IH]; intros t Ht; [done|]. cbn [foldl]. apply IH. destruct (test e); [apply u32_range|done].
Qed.

Lemma only_screen_bytes reg : reg_ok reg -> only_screen reg -> surface_bytes reg = 0.
Proof.
  intros Hreg (_ & _ & Hall). rewrite (r_bytes _ Hreg).
  pose proof (zsum_bound off_bytes (slots reg) 0) as Hz. destruct Hz as [Hz1 Hz2]; [|lia].
  intros s (n & Hn)%list_elem_of_lookup. destruct (Hall (Z.of_nat n) s) as [_ Hd].
  { rewrite zget_lookup by lia. by rewrite Nat2Z.id. }
  unfold off_bytes. destruct Hd as [-> | ->]; [rewrite andb_false_r|cbn]; lia.
Qed.

Lemma host_footprint st ctx mem :
  ctx_ok ctx -> res_pre st ctx mem -> ctx_non_evictable_footprint ctx = native_res_footprint st.
Proof.
  intros (Hreg & _) [Ht He _ _ [Ho Hp] _]. unfold ctx_non_evictable_footprint.
  rewrite (only_screen_bytes _ Hreg Ho), Hp, Ht, footprint_to_host by by apply entries_u32.
  pose proof (sum_u32 (fun e => r_persistent e || negb (blyt_rl_is_evictable (r_rl e))) (s_res st)) as Hu.
  rewrite !Z.add_0_r, (u32_id (native_res_footprint st)) by done. by apply u32_id.
Qed.

Lemma read_word_write (mem : M) a v : is_u32 v -> 0 <= a -> a + 4 <= ram_size mem -> mem_acct_read_u32 (memory_write mem a (write_u32_le v)) a = v.
Proof.
  intros Hv Ha Hr. unfold mem_acct_read_u32. pose proof (memory_read_write mem a (write_u32_le v)) as Hw.
  rewrite len_write_u32_le in Hw. rewrite Hw by lia. by apply read_write_u32_le.
Qed.

Lemma read_word_other (mem : M) a b v : a + 4 <= b \/ b + 4 <= a -> mem_acct_read_u32 (memory_write mem b (write_u32_le v)) a = mem_acct_read_u32 mem a.
Proof. intros Hd. unfold mem_acct_read_u32. rewrite memory_read_other; [done|lia|]. rewrite len_write_u32_le. lia. Qed.

(** What the host publishes, in the native side's terms. *)
Definition foot_written (st : res_statics) (ctx : blyt_run_ctx_t) (mem : M) : M :=
  memory_write mem (mem_acct_vaddr ctx + 4) (write_u32_le (native_res_footprint st)).
Definition room_of (st : res_statics) : Z := blyt_mem_cache_room (guest_heap_used (g_mem_acct st)) (native_res_footprint st).

Lemma host_publish_eq st ctx mem :
  ctx_ok ctx -> res_pre st ctx mem ->
  mem_acct_publish_footprint ctx mem
  = ('(_, t) ← evict_loop (S (length (s_res st))) (host_table (t_cap (resources ctx)) st) (room_of st) 0;
     Some (set_resources t ctx, memory_write (foot_written st ctx mem) (mem_acct_vaddr ctx + 8)
             (write_u32_le (blyt_resource_table_resident_decompressed t)))).
Proof.
  intros Hctx Hpre. pose proof (host_footprint _ _ _ Hctx Hpre) as Hfoot. pose proof Hpre as [Ht He (Ha0 & Har & Ha) [Hh Hhu] _ _].
  unfold mem_acct_publish_footprint. rewrite (proj2 (Z.eqb_neq (mem_acct_vaddr ctx) 0)) by lia. cbv zeta. rewrite Hfoot.
  rewrite (u32_id (_ + 4)) by (unfold is_u32; lia). fold (foot_written st ctx mem).
  assert (mem_acct_guest_heap_used ctx (foot_written st ctx mem) = guest_heap_used (g_mem_acct st)) as ->.
  { unfold mem_acct_guest_heap_used. rewrite (proj2 (Z.eqb_neq (mem_acct_vaddr ctx) 0)) by lia.
    unfold foot_written. by rewrite read_word_other by lia. }
  fold (room_of st). unfold blyt_resource_table_evict_to_fit. rewrite Ht at 1 2. cbn [t_entries host_table]. rewrite length_fmap.
  destruct (evict_loop _ _ _ _) as [[f t]|]; [|done]. cbn [mbind option_bind snd]. autorewrite with run_ctx.
  by rewrite (u32_id (_ + 8)) by (unfold is_u32; lia).
Qed.

Lemma native_publish_eq st :
  native_mem_publish_footprint st
  = (st2 ← fit_loop (S (length (s_res st))) st (room_of st);
     Some (set_acct (MkAcct (guest_heap_used (g_mem_acct st)) (native_res_footprint st) (native_res_resident_decompressed st2)
                       (guest_heap_baseline (g_mem_acct st))) st2)).
Proof.
  unfold native_mem_publish_footprint, native_res_evict_to_fit. cbv zeta. rewrite fit_acct. cbn [s_res set_acct g_mem_acct set_footprint guest_heap_used].
  fold (room_of st). by destruct (fit_loop _ _ _).
Qed.

(** Publishing on both sides. *)
Lemma publish_sim (base : blyt_state_ctx_t) (env : res_env) st ctx (mem : M) :
  run_ok base env ctx -> res_pre st ctx mem ->
  exists st' mem', native_mem_publish_footprint st = Some st'
    /\ mem_acct_publish_footprint ctx mem = Some (set_resources (host_table (t_cap (resources ctx)) st') ctx, mem')
    /\ res_sim st' (set_resources (host_table (t_cap (resources ctx)) st') ctx) mem'
    /\ same_but_acct ctx mem mem'.
Proof.
  intros Hok Hpre. pose proof (run_ctx_ok _ _ _ Hok) as Hctx. pose proof Hctx as (_ & Hres & Hab).
  pose proof Hpre as [Ht He (Ha0 & Har & Ha) [Hh Hhu] Ho Hhook]. pose proof (entries_u32 _ He) as Hl.
  destruct (publish_spec ctx mem Hres Hab) as (t' & mem' & Hpub & _ & _ & _ & _ & Hsame).
  rewrite (host_publish_eq st ctx mem Hctx Hpre), native_publish_eq in *.
  pose proof (fit_to_host (t_cap (resources ctx)) (S (length (s_res st))) st (room_of st) 0 Hl) as Hfit.
  destruct (evict_loop _ _ _ _) as [[freed t2]|]; [|done].
  destruct (fit_loop _ st _) as [st2|] eqn:Est2; [|done]. cbn in Hfit. injection Hfit as ->.
  destruct (fit_keeps _ _ _ _ Est2) as (Hfr & Hacct & Hhk & Hclk). cbn [mbind option_bind] in *.
  assert (Forall res_entry_ok (s_res st2)) as He2.
  { apply (frame_Forall _ (s_res st)); [|done|done]. intros e e' E. unfold frame, res_entry_ok in *.
    assert (r_len e = r_len e' /\ r_algo e = r_algo e') as [-> ->] by by simplify_eq. done. }
  rewrite (decompressed_to_host _ st2) in * by by apply entries_u32.
  pose proof (sum_u32 has_owned (s_res st2)) as Hcu. fold (native_res_resident_decompressed st2) in Hcu.
  pose proof (sum_u32 (fun e => r_persistent e || negb (blyt_rl_is_evictable (r_rl e))) (s_res st)) as Hfu.
  fold (native_res_footprint st) in Hfu. injection Hpub as _ <-.
  assert (ram_size (foot_written st ctx mem) = ram_size mem) as Hr1 by apply memory_write_size.
  eexists _, _. split; [done|]. split; [done|]. split; [|done].
  set (t2 := host_table _ _). assert (mem_acct_vaddr (set_resources t2 ctx) = mem_acct_vaddr ctx) as Ev by by autorewrite with run_ctx.
  assert (peer_heap (set_resources t2 ctx) = peer_heap ctx) as Epr by by destruct ctx.
  split; [split| |]; rewrite ?Ev; cbn [g_mem_acct set_acct guest_heap_used non_evictable_footprint resource_cache_used].
  - by autorewrite with run_ctx.
  - done.
  - rewrite memory_write_size, Hr1. lia.
  - rewrite read_word_other by lia. unfold foot_written. by rewrite read_word_other by lia.
  - autorewrite with run_ctx. by rewrite Epr.
  - cbn. by rewrite Hhk.
  - rewrite read_word_other by lia. apply read_word_write; [done|lia|lia].
  - split; [|done]. apply read_word_write; [done|lia|]. rewrite Hr1. lia.
Qed.

(** The memory outside the accounting block does not matter. *)
Lemma res_sim_mem st ctx (mem mem' : M) :
  ram_size mem' = ram_size mem -> memory_read mem' (mem_acct_vaddr ctx) 12 = memory_read mem (mem_acct_vaddr ctx) 12 ->
  res_sim st ctx mem -> res_sim st ctx mem'.
Proof.
  intros Hr Hm [[Ht He Ha [Hh Hhu] Ho Hk] Hf [Hc Hcu]].
  assert (forall o, 0 <= o -> o + 4 <= 12 -> mem_acct_read_u32 mem' (mem_acct_vaddr ctx + o) = mem_acct_read_u32 mem (mem_acct_vaddr ctx + o)) as Hw.
  { intros o H0 H4. unfold mem_acct_read_u32. by rewrite <-!(memory_read_sub _ _ 12) by lia; rewrite Hm. }
  split; [split|..]; rewrite ?Hr; try done.
  - rewrite <-Hh, <-(Z.add_0_r (mem_acct_vaddr ctx)). split; [apply Hw; lia|]. by rewrite Z.add_0_r, Hh.
  - rewrite Hw by lia. done.
  - rewrite Hw by lia. done.
Qed.

(** Contexts that agree on what is related. *)
Lemma res_pre_ctx st ctx ctx' (mem : M) :
  resources ctx' = resources ctx -> mem_acct_vaddr ctx' = mem_acct_vaddr ctx -> surfaces ctx' = surfaces ctx ->
  peer_heap ctx' = peer_heap ctx -> res_pre st ctx mem -> res_pre st ctx' mem.
Proof. intros E1 E2 E3 E4 [H1 H2 H3 H4 H5 H6]. split; rewrite ?E1, ?E2, ?E3, ?E4; done. Qed.
End sim.

(** ** The machine *)

Section machine.
Context {R M : Type} `{HR : RegFile R} `{HM : GuestMemory M} (env : ecall_env) (base : blyt_state_ctx_t).
Abbreviation mach := (machine R M).
Abbreviation session := (blyt_session R M).
Implicit Types (m : mach).

Lemma reg_set m r v : 0 < r < 32 -> is_u32 v -> rv_get_reg (rv_set_reg m r v) r = v.
Proof. intros. unfold rv_get_reg. cbn. by apply rv_reg_put. Qed.
Lemma reg_set_ne m r r' v : r <> r' -> rv_get_reg (rv_set_reg m r v) r' = rv_get_reg m r'.
Proof. intros. unfold rv_get_reg. cbn. by apply rv_reg_put_ne. Qed.

(** The copy of a pin, with the publication at its end. *)
Lemma pin_copy_exact m ctx i e p bs outp outn :
  run_ok base (e_res env) ctx -> 0 <= e_len e <= BLYT_RESOURCE_SCRATCH_SIZE ->
  (e_len e <> 0 -> exists q, p = Some q /\ bytes_at (e_res env) e q (e_len e) = Some bs) ->
  let gptr := BLYT_RESOURCE_SCRATCH_BASE + scratch_slot ctx (e_len e) in
  pin_copy env m ctx i e p outp outn
  = ('(ctx', mem') ← mem_acct_publish_footprint (pinned_ctx ctx i e)
                       (if e_len e =? 0 then rv_mem m else memory_write (rv_mem m) gptr bs);
     Some (advance (rv_set_reg (out_u32 (out_u32 (set_mem (set_ctx m ctx') mem') outp gptr) outn (e_len e)) rv_reg_a0 0) 4)).
Proof.
  intros Hc Hlen Hp. cbv zeta. unfold pin_copy. cbv zeta.
  destruct (scratch_slot_fits base env ctx (e_len e) Hc Hlen) as [Ho1 Ho2]. pose proof (run_scratch _ _ _ Hc) as Hso.
  assert (BLYT_RESOURCE_SCRATCH_SIZE = 16777216 /\ BLYT_RESOURCE_SCRATCH_BASE = 100663296) as [Es Eb] by (split; reflexivity).
  assert (forall v, 0 <= v <= 117440512 -> u32 v = v) as Hu by (intros; apply u32_id; unfold is_u32; lia).
  rewrite (Hu (e_len e)), (Hu (resource_scratch_off ctx + e_len e)) by lia.
  destruct (Z.gtb_spec (e_len e) BLYT_RESOURCE_SCRATCH_SIZE); [lia|]. fold (scratch_slot ctx (e_len e)).
  rewrite (Hu (scratch_slot ctx (e_len e) + e_len e)), (Hu (BLYT_RESOURCE_SCRATCH_BASE + _)) by lia.
  assert (forall X, (if e_len e =? 0 then Some (rv_mem m) else
      p ← p; bs ← bytes_at (e_res env) e p (e_len e); Some (memory_write (rv_mem m) X bs))
    = Some (if e_len e =? 0 then rv_mem m else memory_write (rv_mem m) X bs)) as ->.
  { intros X. destruct (Z.eqb_spec (e_len e) 0) as [|Hne]; [done|]. destruct (Hp Hne) as (q & -> & Hb). cbn [mbind option_bind]. by rewrite Hb. }
  cbn [mbind option_bind]. reflexivity.
Qed.

(** A reap of no surface is a publication. *)
Lemma flush_from_idle reg (mem : option M) k i :
  reg_ok reg -> (forall i s, zget (slots reg) i = Some s -> s_locked s = false) -> 0 <= i -> i + Z.of_nat k <= 64 ->
  flush_from k i reg mem = Some reg.
Proof.
  intros Hreg Hun. revert i; induction k as [|k IH]; intros i Hi Hk; [done|]. cbn [flush_from].
  destruct (slot_at reg Hreg i ltac:(lia)) as [s Hs]. rewrite (flush_unlocked _ _ s) by (done || by eapply Hun).
  cbn [mbind option_bind]. apply IH; lia.
Qed.

Lemma free_from_idle reg k i :
  reg_ok reg -> (forall i s, zget (slots reg) i = Some s -> reaped s) -> 0 <= i -> i + Z.of_nat k <= 64 ->
  free_from k i reg = Some reg.
Proof.
  intros Hreg Hun. revert i; induction k as [|k IH]; intros i Hi Hk; [done|]. cbn [free_from].
  destruct (slot_at reg Hreg i ltac:(lia)) as [s Hs]. rewrite (free_noop _ _ s); [|done|].
  - cbn [mbind option_bind]. apply IH; lia.
  - destruct (Hun _ _ Hs) as [_ [?|?]]; [by right|by left].
Qed.

Lemma reap_idle ctx (mem : M) :
  reg_ok (surfaces ctx) -> only_screen (surfaces ctx) ->
  blyt_surface_reap_all ctx (Some mem) = ('(ctx, mem) ← mem_acct_publish_footprint ctx mem; Some (ctx, Some mem)).
Proof.
  intros Hreg (Hb & Ha & Hall). unfold blyt_surface_reap_all.
  rewrite flush_from_idle; [|done|by intros i s Hs; destruct (Hall _ _ Hs)|lia|lia]. cbn [mbind option_bind].
  rewrite free_from_idle by (done || lia). cbn [mbind option_bind].
  replace (MkReg _ _ 0 0 _) with (surfaces ctx) by (destruct (surfaces ctx); cbn in *; congruence).
  rewrite set_surfaces_id. by destruct (mem_acct_publish_footprint ctx mem) as [[]|].
Qed.
End machine.
