(* ===== verification/NativeResourceTheorems.v ===== *)
(** * NativeResourceTheorems: the two resource implementations agree

    One lemma per call of [NativeResourceParity], and the theorem about a run of them. *)

From S2P Require Import Prelude Handle MemBudget StateBuffer ResourceTable ResourceTheorems RunCtx Surface SurfaceSpec SurfaceTheorems Ecall EcallSpec EcallTheorems Session SessionSpec GuestStubs NativeResource NativeResourceSpec NativeResourceParity.
From Stdlib Require Import ZArith Lia.
From stdpp Require Import base tactics list.
Open Scope Z_scope.

(** Where the cart keeps its results: in RAM, apart from the accounting block, the scratch
    region and one another. *)
Record cells_ok (acct ram outp outn outs : Z) : Prop := MkCells {
  ce_ram : BLYT_RESOURCE_SCRATCH_BASE + BLYT_RESOURCE_SCRATCH_SIZE <= ram;
  ce_outp : 0 < outp /\ outp + 4 <= ram /\ is_u32 outp;
  ce_outn : 0 < outn /\ outn + 4 <= ram /\ is_u32 outn;
  ce_outs : 0 < outs /\ outs + 16 <= ram;
  ce_acct : clear_of BLYT_RESOURCE_SCRATCH_BASE BLYT_RESOURCE_SCRATCH_SIZE acct 12;
  ce_scratch : clear_of BLYT_RESOURCE_SCRATCH_BASE BLYT_RESOURCE_SCRATCH_SIZE outp 4
    /\ clear_of BLYT_RESOURCE_SCRATCH_BASE BLYT_RESOURCE_SCRATCH_SIZE outn 4;
  ce_block : clear_of outp 4 acct 12 /\ clear_of outn 4 acct 12 /\ clear_of outs 16 acct 12;
  ce_pair : clear_of outp 4 outn 4
}.

Section theorems.
Context {R M : Type} `{HR : RegFile R} `{HM : GuestMemory M} (env : ecall_env) (nenv : res_env) (base : blyt_state_ctx_t).
Context (acct ram outp outn outs : Z).
Hypothesis (Hsrc : same_source nenv (e_res env)) (Hcells : cells_ok acct ram outp outn outs).
Abbreviation mach := (machine R M).
Abbreviation session := (blyt_session R M).
Implicit Types (m : mach).

(** The statics and the session stand for the same cart. *)
Record linked (st : res_statics) (ss : session) : Prop := MkLinked {
  ln_ok : session_ok env base ss;
  ln_sim : res_sim st (s_ctx ss) (rv_mem (s_rv ss));
  ln_acct : mem_acct_vaddr (s_ctx ss) = acct;
  ln_ram : ram_size (rv_mem (s_rv ss)) = ram
}.

Lemma leave_linked m' ss st' ctx' :
  session_ok env base ss -> machine_ok base env m' -> g_run_ctx m' = Some ctx' -> res_sim st' ctx' (rv_mem m') ->
  mem_acct_vaddr ctx' = acct -> ram_size (rv_mem m') = ram -> linked st' (leave m' ss).
Proof.
  intros Hss Hm Hg Hsim Ha Hr. pose proof (leave_ok env base m' ss (frame_count ss) (trace_fn_addr ss) Hm (so_frames _ _ _ Hss)) as Hok.
  rewrite with_frame_count_id, with_trace_fn_id in Hok. assert (s_ctx (leave m' ss) = ctx') as Ec by by apply leave_ctx.
  split; rewrite ?Ec; try done.
Qed.

(** The argument registers of a call. *)
Definition call_regs (regs : list (Z * Z)) (num : Z) m : mach :=
  rv_set_reg (foldl (fun m p => rv_set_reg m (fst p) (snd p)) m regs) rv_reg_a7 num.

Lemma arg_regs_keep regs num m :
  g_run_ctx (call_regs regs num m) = g_run_ctx m /\ rv_mem (call_regs regs num m) = rv_mem m
  /\ (machine_ok base env m -> machine_ok base env (call_regs regs num m)).
Proof.
  unfold call_regs. assert (g_run_ctx (foldl (fun m p => rv_set_reg m (fst p) (snd p)) m regs) = g_run_ctx m
    /\ rv_mem (foldl (fun m p => rv_set_reg m (fst p) (snd p)) m regs) = rv_mem m
    /\ (machine_ok base env m -> machine_ok base env (foldl (fun m p => rv_set_reg m (fst p) (snd p)) m regs))) as (H1 & H2 & H3).
  { revert m; induction regs as [|[r v] regs IH]; intros m; [done|]. cbn [foldl fst snd].
    destruct (IH (rv_set_reg m r v)) as (E1 & E2 & E3). split; [done|]. split; [done|]. intros Hm. by apply E3, machine_ok_reg. }
  split; [done|]. split; [done|]. intros Hm. by apply machine_ok_reg, H3.
Qed.

(** Writing a result outside the accounting block keeps the simulation. *)
Lemma sim_out st ctx m v w :
  0 < acct -> mem_acct_vaddr ctx = acct -> clear_of v 4 acct 12 -> res_sim st ctx (rv_mem m) -> res_sim st ctx (rv_mem (out_u32 m v w)).
Proof.
  intros Ha0 Ha Hc. apply res_sim_mem; [apply out_u32_ram|]. rewrite Ha. apply out_u32_read; [lia|].
  intros _. unfold clear_of in *. lia.
Qed.

(** ** The gate *)

Lemma fits_agree st ctx (mem : M) e ev :
  ctx_ok ctx -> res_pre st ctx mem -> is_u32 (r_len e) ->
  mem_acct_reference_fits ctx mem (to_host e) ev = native_mem_reference_fits st e ev.
Proof.
  intros Hctx Hpre Hu. pose proof (host_footprint _ _ _ Hctx Hpre) as Hfoot. destruct Hpre as [_ _ (Ha & _) [Hh _] _ _].
  unfold mem_acct_reference_fits, native_mem_reference_fits, mem_acct_guest_heap_used.
  rewrite (proj2 (Z.eqb_neq (mem_acct_vaddr ctx) 0)) by lia. cbv zeta. rewrite Hh, Hfoot. cbn [e_len to_host].
  by rewrite u32_id.
Qed.

(** What passes the gate fits the scratch region. *)
Lemma fits_len st ctx (mem : M) i e :
  ctx_ok ctx -> res_pre st ctx mem -> s_res st !! i = Some e ->
  native_mem_reference_fits st e (blyt_rl_is_evictable (r_rl e)) = true -> 0 <= r_len e <= BLYT_RESOURCE_SCRATCH_SIZE.
Proof.
  intros Hctx Hpre He Hfit. pose proof Hctx as (_ & [Hlens Htot] & _). pose proof Hpre as [Ht Hall _ [_ Hhu] _ _].
  pose proof (Forall_lookup_1 _ _ _ _ Hall He) as [Hl _]. split; [lia|]. change BLYT_RESOURCE_SCRATCH_SIZE with 16777216.
  unfold native_mem_reference_fits in Hfit. pose proof (sum_u32 (fun e => r_persistent e || negb (blyt_rl_is_evictable (r_rl e))) (s_res st)) as Hfu.
  fold (native_res_footprint st) in Hfu. destruct (blyt_rl_is_evictable (r_rl e)) eqn:Ev.
  - apply alloc_fits_spec in Hfit; [unfold is_u32 in *; lia|done|done|unfold is_u32; lia].
  - apply alloc_fits_spec in Hfit; [|done|done|done].
    assert (r_len e <= native_res_footprint st) as Hle; [|unfold is_u32 in *; lia].
    rewrite <-(footprint_to_host (t_cap (resources ctx))) by by apply entries_u32. rewrite <-Ht, footprint_total.
    pose proof (total_le_all charged _ Hlens). pose proof (total_nonneg charged _ Hlens). rewrite u32_id by (unfold is_u32; lia).
    assert (t_entries (resources ctx) !! i = Some (to_host e)) as Hi by (rewrite Ht; cbn; by rewrite list_lookup_fmap, He).
    change (r_len e) with (e_len (to_host e)). eapply total_In; [done|exact Hi|].
    unfold charged. cbn. by rewrite Ev, orb_true_r.
Qed.

(** ** Pin *)

Ltac regs :=
  repeat first [rewrite reg_set_ne by done | rewrite reg_set by (done || (unfold rv_reg_a0, rv_reg_a1, rv_reg_a2, rv_reg_a3, rv_reg_a4, rv_reg_a5; lia))].

(** A refused pin: the out pointer cleared, a code in the result register. *)
Lemma refused st ss m1 ctx' code :
  session_ok env base ss -> machine_ok base env m1 -> g_run_ctx m1 = Some ctx' -> res_sim st ctx' (rv_mem m1) ->
  mem_acct_vaddr ctx' = acct -> ram_size (rv_mem m1) = ram -> 0 < code < 100 ->
  let m' := advance (rv_set_reg (out_u32 m1 outp 0) rv_reg_a0 code) 4 in
  i32 (a0_of m') = code /\ linked st (leave m' ss).
Proof.
  intros Hss Hm Hg Hsim Ha Hr Hc. cbv zeta. split.
  - unfold a0_of. change (rv_get_reg (advance ?x 4)) with (rv_get_reg x). rewrite reg_set by (done || (unfold is_u32; lia)).
    apply i32_id. unfold is_i32. lia.
  - apply (leave_linked _ _ _ ctx'); try done.
    + by apply machine_ok_advance, machine_ok_reg, machine_ok_out.
    + cbn. unfold out_u32. by destruct (outp =? 0).
    + apply sim_out; try done; [destruct (rp_acct _ _ _ (rs_pre _ _ _ Hsim)); lia|apply Hcells].
    + cbn. by rewrite out_u32_ram.
Qed.

(** The table with an entry replaced by one of the same length and codec. *)
Lemma put_pre st ctx (mem : M) cap i e e' :
  resources ctx = host_table cap st -> res_sim st ctx mem -> s_res st !! i = Some e -> r_len e' = r_len e /\ r_algo e' = r_algo e ->
  put_entry i (to_host e') ctx = set_resources (host_table cap (set_res (<[i := e']> (s_res st)) st)) ctx
  /\ res_sim (set_res (<[i := e']> (s_res st)) st) (put_entry i (to_host e') ctx) mem.
Proof.
  intros Ht [[Hrt He Ha Hh Ho Hk] Hf Hc] Hi [El Ea].
  assert (put_entry i (to_host e') ctx = set_resources (host_table cap (set_res (<[i := e']> (s_res st)) st)) ctx) as Hput.
  { unfold put_entry. rewrite Ht. cbn [t_entries host_table]. by rewrite (insert_to_host cap i e' st). }
  split; [done|]. rewrite Hput. set (t := host_table _ _).
  assert (peer_heap (set_resources t ctx) = peer_heap ctx) as Ep by by destruct ctx.
  assert (Forall res_entry_ok (<[i := e']> (s_res st))) as He'.
  { apply Forall_insert; [done|]. pose proof (Forall_lookup_1 _ _ _ _ He Hi) as Hok. unfold res_entry_ok in *. by rewrite El, Ea. }
  split; [split|..]; autorewrite with run_ctx; try done; by rewrite Ep.
Qed.

Lemma frame_len_algo e e' : frame e' = frame e -> r_len e' = r_len e /\ r_algo e' = r_algo e.
Proof. unfold frame. intros. by simplify_eq. Qed.

Lemma alter_at {A} (f : A -> A) (l : list A) i x : l !! i = Some x -> alter f i l = <[i := f x]> l.
Proof.
  intros Hx. apply list_eq. intros j. destruct (decide (i = j)) as [->|Hne].
  - rewrite list_lookup_alter_eq, Hx, list_lookup_insert_eq; [done|]. by eapply lookup_lt_Some.
  - by rewrite list_lookup_alter_ne, list_lookup_insert_ne.
Qed.

(** The native table with a pin taken and stamped. *)
Definition pinned_st (st : res_statics) (i : nat) (e : native_res_t) : res_statics :=
  native_res_touch i (set_res (<[i := res_rl (blyt_rl_pin (r_rl e)) e]> (s_res st)) st).

Lemma pinned_to_host st ctx cap i e :
  resources ctx = host_table cap st ->
  pinned_ctx ctx i (to_host e)
  = set_resources (host_table cap (pinned_st st i e)) (set_scratch_off (scratch_slot ctx (r_len e) + r_len e) ctx).
Proof.
  intros Ht. unfold pinned_ctx. cbv zeta. cbn [e_len e_rl to_host]. set (ctx1 := set_scratch_off _ ctx).
  assert (resources ctx1 = host_table cap st) as Ht1 by (rewrite <-Ht; by destruct ctx).
  assert (put_entry i (with_rl (blyt_rl_pin (r_rl e)) (to_host e)) ctx1
    = set_resources (host_table cap (set_res (<[i := res_rl (blyt_rl_pin (r_rl e)) e]> (s_res st)) st)) ctx1) as ->.
  { unfold put_entry. rewrite Ht1. cbn [t_entries host_table].
    change (with_rl (blyt_rl_pin (r_rl e)) (to_host e)) with (to_host (res_rl (blyt_rl_pin (r_rl e)) e)). by rewrite insert_to_host. }
  autorewrite with run_ctx. rewrite touch_to_host. by destruct ctx1.
Qed.

(** The entry of a pin just taken stays resident. *)
Lemma pinned_stays (st st' : res_statics) cap i e t' :
  s_res st !! i = Some e -> 0 < pin_count (r_rl e) -> t' = host_table cap st' ->
  evictions (to_host <$> s_res st) (t_entries t') ->
  exists e', s_res st' !! i = Some e' /\ to_host e' = to_host e.
Proof.
  intros Hi Hp -> Hev. assert ((to_host <$> s_res st) !! i = Some (to_host e)) as Hh by by rewrite list_lookup_fmap, Hi.
  destruct (Forall2_lookup_l _ _ _ _ _ Hev Hh) as (e1 & He1 & Hor). cbn in He1. rewrite list_lookup_fmap in He1.
  destruct (s_res st' !! i) as [e'|]; [|done]. injection He1 as <-. exists e'. split; [done|].
  destruct Hor as [?|[Hr _]]; [done|]. exfalso. unfold reclaimable, blyt_rl_is_evictable in Hr. cbn in Hr.
  destruct (Z.eqb_spec (pin_count (r_rl e)) 0); [lia|]. by rewrite andb_false_r in Hr.
Qed.

Lemma list_fmap_alter_same {A B} (f : A -> B) (g : A -> A) (l : list A) i :
  (forall x, f (g x) = f x) -> f <$> alter g i l = f <$> l.
Proof.
  intros Hfg. apply list_eq. intros j. rewrite !list_lookup_fmap. destruct (decide (i = j)) as [->|Hne].
  - rewrite list_lookup_alter_eq. destruct (l !! j); [|done]. cbn. by rewrite Hfg.
  - by rewrite list_lookup_alter_ne.
Qed.

Lemma pins_frame n (l l' : list native_res_t) :
  frame <$> l' = frame <$> l -> Forall (fun e => 0 <= pin_count (r_rl e) < n) l -> Forall (fun e => 0 <= pin_count (r_rl e) < n) l'.
Proof.
  apply frame_Forall. intros e e' E. unfold frame in E. assert (r_rl e = r_rl e') as -> by by simplify_eq. done.
Qed.

Lemma pins_mono n n' (l : list native_res_t) :
  n <= n' -> Forall (fun e => 0 <= pin_count (r_rl e) < n) l -> Forall (fun e => 0 <= pin_count (r_rl e) < n') l.
Proof. intros Hn Hl. apply (Forall_impl _ _ _ Hl). intros e He. cbn in *. lia. Qed.

Lemma native_data_total st ctx (mem : M) i e :
  run_ok base (e_res env) ctx -> res_pre st ctx mem -> s_res st !! i = Some e ->
  exists p e1, native_res_data nenv e = Some (p, e1)
    /\ blyt_resource_entry_data (e_res env) (to_host e) = Some (p, to_host e1)
    /\ match p with Some p => exists bs, res_read nenv e1 p (r_len e) = Some bs /\ len bs = r_len e | None => True end.
Proof.
  intros Hok [Ht He _ _ _ _] Hi. assert (t_entries (resources ctx) !! i = Some (to_host e)) as Hh
    by (rewrite Ht; cbn; by rewrite list_lookup_fmap, Hi).
  destruct (entry_data_ok base env ctx i _ Hok Hh) as (p & e' & Hd & _ & _ & _ & Hlen & Hb).
  pose proof (Forall_lookup_1 _ _ _ _ He Hi) as Heok. pose proof Hd as Hd'. rewrite (data_to_host nenv _ e Hsrc Heok) in Hd'.
  destruct (native_res_data nenv e) as [[p1 e1]|]; [|done]. cbn in Hd'. injection Hd' as -> <-.
  exists p, e1. split; [done|]. split; [done|]. destruct p as [p|]; [|done]. destruct Hb as (bs & Hb & _).
  rewrite (read_to_host nenv) in Hb by apply Hsrc. exists bs. split; [done|].
  change (e_len (to_host e)) with (r_len e) in *.
  unfold res_read in Hb. destruct p; [|destruct (r_owned e1); [cbn in Hb|done]];
    apply rd_inv in Hb as (? & ? & ? & ->); apply len_sub; lia.
Qed.

(** What a step must give. *)
Definition step_agrees (n : Z) (c : res_call) (st : res_statics) (ss : session) : Prop :=
  exists r st' ss', native_res_call nenv c st = Some (r, st') /\ emu_res_call env outp outn outs c ss = Some (r, ss')
    /\ linked st' ss' /\ pins_below (n + 1) st'.

Lemma stamp_ok st i e1 n :
  Forall res_entry_ok (s_res st) -> s_res st !! i = Some e1 -> pins_below n st -> 0 <= n < 2 ^ 32 - 1 ->
  exists e2, s_res (pinned_st st i e1) !! i = Some e2 /\ r_owned e2 = r_owned e1 /\ pin_count (r_rl e2) = pin_count (r_rl e1) + 1
    /\ Forall res_entry_ok (s_res (pinned_st st i e1)) /\ pins_below (n + 1) (pinned_st st i e1)
    /\ r_id <$> s_res (pinned_st st i e1) = r_id <$> s_res st.
Proof.
  intros Hok Hi Hp Hn. pose proof (Forall_lookup_1 _ _ _ _ Hp Hi) as Hpi. cbn in Hpi.
  pose proof (Forall_lookup_1 _ _ _ _ Hok Hi) as Heok.
  assert (pin_count (blyt_rl_pin (r_rl e1)) = pin_count (r_rl e1) + 1) as Hpc by (cbn; apply u32_id; unfold is_u32; lia).
  unfold pinned_st, native_res_touch. cbn [s_res set_res s_lru_clock].
  rewrite list_lookup_alter_eq, list_lookup_insert_eq by by eapply lookup_lt_Some.
  eexists. split; [done|]. split; [done|]. split; [done|]. split_and!.
  - apply Forall_alter; [by apply Forall_insert|]. intros e _ He. exact He.
  - unfold pins_below. cbn [s_res]. apply Forall_alter; [|by intros e _ He].
    apply Forall_insert; [by apply (pins_mono n); [lia|]|]. cbn [r_rl res_rl]. lia.
  - rewrite list_fmap_alter_same, list_fmap_insert by done. cbn. apply list_insert_id. by rewrite list_lookup_fmap, Hi.
Qed.

(** The related states after the stamp, the copy of the bytes included. *)
Lemma pinned_pre cap st1 ctx1 (mem mem1 : M) i e1 n bs :
  res_sim st1 ctx1 mem1 -> resources ctx1 = host_table cap st1 -> mem_acct_vaddr ctx1 = acct ->
  Forall res_entry_ok (s_res (pinned_st st1 i e1)) -> 0 <= scratch_slot ctx1 n -> scratch_slot ctx1 n + n <= BLYT_RESOURCE_SCRATCH_SIZE ->
  len bs = n -> mem = (if n =? 0 then mem1 else memory_write mem1 (BLYT_RESOURCE_SCRATCH_BASE + scratch_slot ctx1 n) bs) ->
  res_pre (pinned_st st1 i e1)
    (set_resources (host_table cap (pinned_st st1 i e1)) (set_scratch_off (scratch_slot ctx1 n + n) ctx1)) mem.
Proof.
  intros Hsim Ht Ha Hok H0 H1 Hl ->. destruct (rs_pre _ _ _ Hsim) as [_ _ Hacct [Hh Hhu] [Hos Hpeer] Hhook].
  assert (forall t c, surfaces (set_resources t (set_scratch_off c ctx1)) = surfaces ctx1
    /\ mem_acct_vaddr (set_resources t (set_scratch_off c ctx1)) = acct
    /\ peer_heap (set_resources t (set_scratch_off c ctx1)) = peer_heap ctx1) as E by (intros; rewrite <-Ha; by destruct ctx1).
  destruct (E (host_table cap (pinned_st st1 i e1)) (scratch_slot ctx1 n + n)) as (Es & Ea & Ep).
  rewrite Ha in Hacct, Hh. split; rewrite ?Ea, ?Es, ?Ep; try done.
  - by autorewrite with run_ctx.
  - destruct (n =? 0); rewrite ?memory_write_size; done.
  - split; [|done]. cbn [pinned_st native_res_touch g_mem_acct set_res]. rewrite <-Hh.
    destruct (Z.eqb_spec n 0); [done|]. unfold mem_acct_read_u32. rewrite memory_read_other; [done|lia|].
    pose proof (ce_acct _ _ _ _ _ Hcells) as Hc. unfold clear_of in Hc. lia.
Qed.

(** Publishing after the pin: both sides, and the pinned entry keeps its bytes. *)
Lemma published_pin cap st2 ctx2 (mem : M) i e2 :
  run_ok base (e_res env) ctx2 -> res_pre st2 ctx2 mem -> resources ctx2 = host_table cap st2 ->
  s_res st2 !! i = Some e2 -> 0 < pin_count (r_rl e2) ->
  exists st' mem', native_mem_publish_footprint st2 = Some st'
    /\ mem_acct_publish_footprint ctx2 mem = Some (set_resources (host_table cap st') ctx2, mem')
    /\ res_sim st' (set_resources (host_table cap st') ctx2) mem' /\ same_but_acct ctx2 mem mem'
    /\ run_ok base (e_res env) (set_resources (host_table cap st') ctx2)
    /\ exists e', s_res st' !! i = Some e' /\ to_host e' = to_host e2.
Proof.
  intros Hok Hpre Ht Hi Hpc.
  destruct (publish_sim base (e_res env) st2 ctx2 mem Hok Hpre) as (st' & mem' & Hnp & Hhp & Hsim & Hsame).
  destruct (publish_run_ok base env ctx2 mem Hok) as (ctx3 & mem3 & Hhp3 & Hok3 & (reg & t & E & Hev) & _ & _).
  rewrite Hhp in Hhp3. injection Hhp3 as <- <-. rewrite Ht in Hhp, Hsim, Hok3, E, Hev. cbn [t_cap t_entries host_table] in *.
  exists st', mem'. do 5 (split; [done|]).
  assert (t = host_table cap st') as -> by (apply (f_equal resources) in E; by autorewrite with run_ctx in E).
  by apply (pinned_stays st2 st' cap i e2 (host_table cap st')).
Qed.

(** The pin that passes the gate and has its bytes. *)
Lemma pin_taken n st ss i id p e e1 m1 cap :
  linked st ss -> pins_below n st -> 0 <= n < 2 ^ 32 - 1 ->
  machine_ok base env m1 -> g_run_ctx m1 = Some (s_ctx ss) -> rv_mem m1 = rv_mem (s_rv ss) ->
  resources (s_ctx ss) = host_table cap st ->
  s_res st !! i = Some e -> frame e1 = frame e -> 0 <= r_len e <= BLYT_RESOURCE_SCRATCH_SIZE ->
  match p with Some p => exists bs, res_read nenv e1 p (r_len e) = Some bs /\ len bs = r_len e | None => r_len e = 0 end ->
  res_resolve st id = Some i ->
  let st1 := set_res (<[i := e1]> (s_res st)) st in
  let ctx1 := put_entry i (to_host e1) (s_ctx ss) in
  run_ok base (e_res env) ctx1 ->
  exists bs st' m',
    native_mem_publish_footprint (pinned_st st1 i e1) = Some st' /\ pinned_bytes nenv st st' id p (Some (r_len e)) = Some bs
    /\ pin_copy env (set_ctx m1 ctx1) ctx1 i (to_host e1) p outp outn = Some m' /\ a0_of m' = 0
    /\ memory_read (rv_mem m') (word m' outp) (word m' outn) = bs
    /\ linked st' (leave m' ss) /\ pins_below (n + 1) st'.
Proof.
  intros [Hss Hsim Ha Hr] Hpins Hn Hm1 Hg Hmem Ht Hi Hfr Hlen Hp Hres st1 ctx1 Hok1.
  assert (r_len e1 = r_len e /\ r_rl e1 = r_rl e) as [El Erl] by (unfold frame in Hfr; by simplify_eq).
  destruct (put_pre st (s_ctx ss) _ cap i e e1 Ht Hsim Hi (frame_len_algo _ _ Hfr)) as [Hput Hsim1]. fold ctx1 st1 in Hput, Hsim1.
  assert (resources ctx1 = host_table cap st1) as Ht1 by (rewrite Hput; by autorewrite with run_ctx).
  assert (s_res st1 !! i = Some e1) as Hi1 by (cbn; apply list_lookup_insert_eq; by eapply lookup_lt_Some).
  assert (pins_below n st1) as Hp1 by (apply (pins_frame n (s_res st)); [by apply (frame_insert _ _ e)|done]).
  pose proof (rp_entries _ _ _ (rs_pre _ _ _ Hsim1)) as Hres1.
  destruct (stamp_ok st1 i e1 n Hres1 Hi1 Hp1 Hn) as (e2 & Hi2 & Ho2 & Hpc2 & Hok2 & Hpb2 & Hid2).
  set (st2 := pinned_st st1 i e1) in *.
  assert (exists bs, len bs = r_len e /\ (r_len e <> 0 -> exists q, p = Some q /\ res_read nenv e1 q (r_len e) = Some bs)) as (bs & Hbl & Hbs).
  { destruct p as [q|]; [destruct Hp as (bs & Hb & Hl); exists bs; split; [done|]; intros _; by exists q|].
    exists []. split; [by rewrite Hp|]. lia. }
  assert (t_entries (resources ctx1) !! i = Some (to_host e1)) as Hih by (rewrite Ht1; cbn [t_entries host_table]; by rewrite list_lookup_fmap, Hi1).
  set (gptr := BLYT_RESOURCE_SCRATCH_BASE + scratch_slot ctx1 (r_len e)).
  destruct (scratch_slot_fits base env ctx1 (r_len e) Hok1 Hlen) as [Hs1 Hs2].
  set (mem := if r_len e =? 0 then rv_mem m1 else memory_write (rv_mem m1) gptr bs).
  pose proof (pin_copy_exact env base (set_ctx m1 ctx1) ctx1 i (to_host e1) p bs outp outn Hok1) as Hcopy.
  cbn [e_len to_host] in Hcopy. rewrite El in Hcopy. cbv zeta in Hcopy. cbn [rv_mem set_ctx] in Hcopy. fold gptr mem in Hcopy.
  rewrite Hcopy by (done || (intros Hne; destruct (Hbs Hne) as (q & -> & Hq); exists q; by rewrite (read_to_host nenv) by apply Hsrc)).
  pose proof (pinned_ok base env ctx1 i (to_host e1) Hok1 Hih) as Hok2'. cbn [e_len to_host] in Hok2'. rewrite El in Hok2'. specialize (Hok2' Hlen).
  rewrite (pinned_to_host st1 ctx1 cap i e1 Ht1) in Hok2' |- *. fold st2 in Hok2' |- *.
  set (ctx2 := set_resources (host_table cap st2) _) in *.
  pose proof Hcells as [Cram Coutp Coutn Couts Cacct [Cs1 Cs2] (Cb1 & Cb2 & Cb3) Cpair].
  assert (mem_acct_vaddr ctx1 = acct) as Ea1 by (rewrite <-Ha; unfold ctx1, put_entry; by destruct (s_ctx ss)).
  assert (mem_acct_vaddr ctx2 = acct) as Ea2 by (rewrite <-Ea1; unfold ctx2; by destruct ctx1).
  assert (ram_size mem = ram) as Hrm by (unfold mem; destruct (r_len e =? 0); rewrite ?memory_write_size; congruence).
  assert (res_pre st2 ctx2 mem) as Hpre2.
  { unfold ctx2, st2. rewrite El. apply (pinned_pre cap st1 ctx1 mem (rv_mem (s_rv ss)) i e1 (r_len e) bs); try done. unfold mem. by rewrite Hmem. }
  assert (resources ctx2 = host_table cap st2) as Ht2 by (unfold ctx2; by autorewrite with run_ctx).
  assert (0 < pin_count (r_rl e2)) as Hpc by (pose proof (Forall_lookup_1 _ _ _ _ Hp1 Hi1) as Hq; cbn in Hq; lia).
  destruct (published_pin cap st2 ctx2 mem i e2 Hok2' Hpre2 Ht2 Hi2 Hpc) as (st' & mem' & Hnp & Hhp & Hsim' & Hsame & Hok3 & e' & He' & Heq).
  pose proof (publish_keeps _ _ Hnp) as (Hfr' & _ & _). set (ctx3 := set_resources (host_table cap st') ctx2) in *.
  rewrite Hhp. cbn [mbind option_bind].
  assert (ram_size (rv_mem (set_ctx (set_ctx m1 ctx1) ctx3)) = ram) as Hram by (cbn; congruence).
  destruct (pin_memory (set_ctx (set_ctx m1 ctx1) ctx3) ctx2 mem' (r_len e) bs gptr outp outn) as (Hr1 & Hr2 & Hr3);
    try (rewrite ?Hram, ?Ea2); try done; try tauto; try (unfold gptr; lia).
  set (m2 := out_u32 (out_u32 (set_mem (set_ctx (set_ctx m1 ctx1) ctx3) mem') outp gptr) outn (r_len e)) in *.
  exists bs, st', (advance (rv_set_reg m2 rv_reg_a0 0) 4). split; [done|].
  assert (forall a v, is_u32 v -> memory_read (rv_mem m2) a 4 = write_u32_le v -> word (advance (rv_set_reg m2 rv_reg_a0 0) 4) a = v) as Hword.
  { intros a v Hv Hw. unfold word, mem_acct_read_u32. cbn [rv_mem advance rv_set_reg]. rewrite Hw. by apply read_write_u32_le. }
  assert (BLYT_RESOURCE_SCRATCH_SIZE = 16777216 /\ BLYT_RESOURCE_SCRATCH_BASE = 100663296) as [Esz Ebs] by (split; reflexivity).
  split_and!.
  - unfold pinned_bytes. cbn [mbind option_bind]. destruct (Z.eqb_spec (r_len e) 0) as [E0|E0].
    + destruct bs; [done|]. unfold len in Hbl. cbn in Hbl. lia.
    + destruct (Hbs E0) as (q & -> & Hq). cbn [mbind option_bind]. rewrite Hres. cbn [mbind option_bind]. rewrite He'. cbn [mbind option_bind].
      rewrite <-Hq. unfold res_read. apply (f_equal e_owned) in Heq. cbn in Heq. by rewrite Heq, Ho2.
  - done.
  - unfold a0_of. change (rv_get_reg (advance ?x 4)) with (rv_get_reg x). by apply reg_set.
  - rewrite (Hword outp gptr), (Hword outn (r_len e)); [done|unfold is_u32; lia|done|unfold is_u32, gptr; lia|done].
  - apply (leave_linked _ _ _ ctx3); try done.
    + apply machine_ok_advance, machine_ok_reg, machine_ok_out, machine_ok_out. destruct Hm1 as [Q1 _ Q3].
      destruct Hsame as [Q4 _]. split; [cbn; rewrite Q4, Hrm; congruence|exact Hok3|done].
    + cbn. unfold m2, out_u32. by destruct (outp =? 0), (outn =? 0).
    + assert (mem_acct_vaddr ctx3 = acct) as Ea3 by (rewrite <-Ea2; unfold ctx3; by autorewrite with run_ctx).
      cbn [rv_mem advance rv_set_reg]. unfold m2. apply sim_out; [|done|done|apply sim_out; [|done|done|done]];
      destruct (rp_acct _ _ _ Hpre2); congruence || lia.
    + rewrite <-Ea2. unfold ctx3. by autorewrite with run_ctx.
    + cbn [rv_mem advance rv_set_reg]. unfold m2. rewrite !out_u32_ram. cbn. destruct Hsame as [Q4 _]. congruence.
  - by apply (pins_frame (n + 1) (s_res st2)).
Qed.

Lemma pinned_alter st i e :
  s_res st !! i = Some e ->
  native_res_touch i (set_res (alter (fun e => res_rl (blyt_rl_pin (r_rl e)) e) i (s_res st)) st) = pinned_st st i e.
Proof. intros Hi. unfold pinned_st. by rewrite (alter_at _ _ _ e). Qed.

(** The stub's call as the handler's. *)
Lemma pin_call ss id :
  session_ok env base ss -> is_u32 id ->
  exists m1, stub_resource_pin env id outp outn (enter ss) = (m' ← ecall_resource_pin env m1; Some (i32 (a0_of m'), m'))
    /\ rv_get_reg m1 rv_reg_a0 = id /\ rv_get_reg m1 rv_reg_a1 = outp /\ rv_get_reg m1 rv_reg_a2 = outn
    /\ g_run_ctx m1 = Some (s_ctx ss) /\ rv_mem m1 = rv_mem (s_rv ss) /\ machine_ok base env m1.
Proof.
  intros Hss Hid. unfold stub_resource_pin, ecall. set (m1 := rv_set_reg _ rv_reg_a7 _).
  destruct (arg_regs_keep [(rv_reg_a0, id); (rv_reg_a1, outp); (rv_reg_a2, outn)] BLYT_ECALL_RESOURCE_PIN (enter ss)) as (Hg & Hmem & Hm1).
  change (call_regs _ _ (enter ss)) with m1 in *.
  destruct (ce_outp _ _ _ _ _ Hcells) as (_ & _ & Hup). destruct (ce_outn _ _ _ _ _ Hcells) as (_ & _ & Hun).
  exists m1. split_and!; [|unfold m1; cbn [foldl fst snd]; by regs..|exact Hg|exact Hmem|apply Hm1, (so_machine _ _ _ Hss)].
  assert (blyt_ecall_handler env m1 = ecall_resource_pin env m1) as ->; [|done].
  unfold blyt_ecall_handler. assert (rv_get_reg m1 rv_reg_a7 = BLYT_ECALL_RESOURCE_PIN) as -> by (unfold m1; by regs). reflexivity.
Qed.

Lemma unpin_call ss id :
  session_ok env base ss -> is_u32 id ->
  exists m1, stub_resource_unpin env id (enter ss) = (m' ← ecall_resource_unpin m1; Some (i32 (a0_of m'), m'))
    /\ rv_get_reg m1 rv_reg_a0 = id
    /\ g_run_ctx m1 = Some (s_ctx ss) /\ rv_mem m1 = rv_mem (s_rv ss) /\ machine_ok base env m1.
Proof.
  intros Hss Hid. unfold stub_resource_unpin, ecall. set (m1 := rv_set_reg _ rv_reg_a7 _).
  destruct (arg_regs_keep [(rv_reg_a0, id)] BLYT_ECALL_RESOURCE_UNPIN (enter ss)) as (Hg & Hmem & Hm1).
  change (call_regs _ _ (enter ss)) with m1 in *.
  exists m1. split_and!; [|unfold m1; cbn [foldl fst snd]; by regs|done|done|apply Hm1, (so_machine _ _ _ Hss)].
  assert (blyt_ecall_handler env m1 = ecall_resource_unpin m1) as ->; [|done].
  unfold blyt_ecall_handler. assert (rv_get_reg m1 rv_reg_a7 = BLYT_ECALL_RESOURCE_UNPIN) as -> by (unfold m1; by regs). reflexivity.
Qed.

Lemma pin_step n st ss id :
  linked st ss -> pins_below n st -> 0 <= n < 2 ^ 32 - 1 -> is_u32 id -> step_agrees n (Pin id) st ss.
Proof.
  intros Hln Hpins Hn Hid. pose proof Hln as [Hss Hsim Ha Hr]. pose proof (so_run _ _ _ Hss) as Hok.
  pose proof (run_ctx_ok _ _ _ Hok) as Hctx. pose proof (rs_pre _ _ _ Hsim) as Hpre.
  pose proof (rp_table _ _ _ Hpre) as Ht. set (cap := t_cap (resources (s_ctx ss))) in Ht. clearbody cap.
  assert (forall st, pins_below n st -> pins_below (n + 1) st) as Hmono by (intros st0; apply pins_mono; lia).
  unfold step_agrees. cbn [native_res_call emu_res_call]. unfold NativeResource.blyt_resource_pin.
  destruct (pin_call ss id Hss Hid) as (m1 & -> & R0 & R1 & R2 & Hg & Hmem & Hm1).
  unfold ecall_resource_pin. rewrite R0, R1, R2, Hg. cbv zeta.
  assert (ram_size (rv_mem m1) = ram) as Hram by congruence.
  assert (res_sim st (s_ctx ss) (rv_mem m1)) as Hsim1 by by rewrite Hmem.
  assert (blyt_resolve_resource (resources (s_ctx ss)) id = res_resolve st id) as -> by (rewrite Ht; apply resolve_to_host).
  assert (t_entries (resources (s_ctx ss)) = to_host <$> s_res st) as Hte by by rewrite Ht.
  destruct (res_resolve st id) as [i|] eqn:Eres.
  2:{ destruct (refused st ss m1 (s_ctx ss) 4 Hss Hm1 Hg Hsim1 Ha Hram ltac:(lia)) as [Hc Hl]. cbn [mbind option_bind]. cbv zeta.
      cbn [mbind option_bind]. rewrite Hc. do 3 eexists. split; [done|]. split; [done|]. split; [exact Hl|]. by apply Hmono. }
  destruct (res_resolve_inv _ _ _ Eres) as (e & Hi). rewrite Hte, list_lookup_fmap, Hi.
  cbn [fmap option_fmap option_map mbind option_bind e_rl to_host].
  pose proof (Forall_lookup_1 _ _ _ _ (rp_entries _ _ _ Hpre) Hi) as [Hlen0 _].
  rewrite Hmem, (fits_agree st) by (done || (unfold is_u32; lia)).
  destruct (native_mem_reference_fits _ _ _) eqn:Hfit; cbn [negb].
  2:{ destruct (refused st ss m1 (s_ctx ss) 2 Hss Hm1 Hg Hsim1 Ha Hram ltac:(lia)) as [Hc Hl]. cbv zeta. cbn [mbind option_bind]. rewrite Hc.
      do 3 eexists. split; [done|]. split; [done|]. split; [exact Hl|]. by apply Hmono. }
  destruct (native_data_total st (s_ctx ss) _ i e Hok Hpre Hi) as (p & e1 & Hnd & Hhd & Hp). rewrite Hnd, Hhd. cbn [mbind option_bind].
  pose proof (native_data_keeps _ _ _ _ Hnd) as Hfr. assert (r_len e1 = r_len e /\ r_rl e1 = r_rl e) as [El Erl] by (unfold frame in Hfr; by simplify_eq).
  assert (run_ok base (e_res env) (put_entry i (to_host e1) (s_ctx ss))) as Hok1.
  { destruct (entry_data_ok base env (s_ctx ss) i (to_host e) Hok) as (p' & he & Hd & _ & _ & Hput & _).
    - by rewrite Hte, list_lookup_fmap, Hi.
    - rewrite Hhd in Hd. by injection Hd as _ <-. }
  set (st1 := set_res (<[i := e1]> (s_res st)) st). set (ctx1 := put_entry i (to_host e1) (s_ctx ss)) in *.
  assert (s_res st1 !! i = Some e1) as Hi1 by (cbn; apply list_lookup_insert_eq; by eapply lookup_lt_Some).
  assert (pins_below n st1) as Hp1 by (apply (pins_frame n (s_res st)); [by apply (frame_insert _ _ e)|done]).
  rewrite (pinned_alter st1 i e1 Hi1), El. cbn [e_len to_host]. rewrite ?El.
  assert (match p with Some p => exists bs, res_read nenv e1 p (r_len e) = Some bs /\ len bs = r_len e | None => r_len e = 0 end ->
    exists r st' ss', ('(code, p, n0, st'0) ← (st0 ← native_mem_publish_footprint (pinned_st st1 i e1); Some (0, p, Some (r_len e), st0));
        if code =? 0 then bs ← pinned_bytes nenv st st'0 id p n0; Some (Bytes bs, st'0) else Some (ResCode code, st'0)) = Some (r, st')
      /\ ('(code, m) ← (m' ← pin_copy env (set_ctx m1 ctx1) ctx1 i (to_host e1) p outp outn; Some (i32 (a0_of m'), m'));
          if code =? 0 then Some (Bytes (memory_read (rv_mem m) (word m outp) (word m outn)), leave m ss) else Some (ResCode code, leave m ss))
         = Some (r, ss') /\ linked st' ss' /\ pins_below (n + 1) st') as Htaken.
  { intros Hb.
    pose proof (pin_taken n st ss i id p e e1 m1 cap Hln Hpins Hn Hm1 Hg Hmem Ht Hi Hfr (fits_len _ _ _ _ _ Hctx Hpre Hi Hfit) Hb Eres Hok1) as Htk.
    cbv zeta in Htk. fold st1 ctx1 in Htk. destruct Htk as (bs & st' & m' & -> & Hpb & -> & Ha0 & Hread & Hl & Hpb'). cbn [mbind option_bind]. rewrite Ha0. cbn [Z.eqb].
    change (i32 0 =? 0) with true. cbv iota. rewrite Hpb, Hread. cbn [mbind option_bind]. by do 3 eexists. }
  destruct p as [q|]; [by apply Htaken|]. destruct (Z.eqb_spec (r_len e) 0) as [E0|E0]; [by apply Htaken|].
  destruct (put_pre st (s_ctx ss) (rv_mem (s_rv ss)) cap i e e1 Ht Hsim Hi (frame_len_algo _ _ Hfr)) as [_ Hsim2]. fold ctx1 st1 in Hsim2.
  destruct (refused st1 ss (set_ctx m1 ctx1) ctx1 3 Hss) as [Hc Hl].
  - by apply machine_ok_set.
  - done.
  - cbn [rv_mem set_ctx]. by rewrite Hmem.
  - rewrite <-Ha. unfold ctx1, put_entry. by autorewrite with run_ctx.
  - done.
  - lia.
  - cbn [mbind option_bind]. rewrite Hc. do 3 eexists. split; [done|]. split; [done|]. split; [exact Hl|]. by apply Hmono.
Qed.

(** ** The other calls *)

Lemma unpin_step n st ss id :
  linked st ss -> pins_below n st -> 0 <= n < 2 ^ 32 - 1 -> is_u32 id -> step_agrees n (Unpin id) st ss.
Proof.
  intros Hln Hpins Hn Hid. pose proof Hln as [Hss Hsim Ha Hr]. pose proof (so_run _ _ _ Hss) as Hok.
  pose proof (rs_pre _ _ _ Hsim) as Hpre.
  pose proof (rp_table _ _ _ Hpre) as Ht. set (cap := t_cap (resources (s_ctx ss))) in Ht. clearbody cap.
  assert (forall st, pins_below n st -> pins_below (n + 1) st) as Hmono by (intros st0; apply pins_mono; lia).
  unfold step_agrees. cbn [native_res_call emu_res_call]. unfold NativeResource.blyt_resource_unpin.
  destruct (unpin_call ss id Hss Hid) as (m1 & -> & R0 & Hg & Hmem & Hm1).
  unfold ecall_resource_unpin. rewrite R0, Hg. cbv zeta.
  assert (forall code m2, 0 <= code < 100 -> i32 (a0_of (advance (rv_set_reg m2 rv_reg_a0 code) 4)) = code) as Hcode.
  { intros code m2 Hc. unfold a0_of. change (rv_get_reg (advance ?x 4)) with (rv_get_reg x).
    rewrite reg_set by (done || (unfold is_u32; lia)). apply i32_id. unfold is_i32. lia. }
  assert (forall code, linked st (leave (advance (rv_set_reg m1 rv_reg_a0 code) 4) ss)) as Hsame.
  { intros code. apply (leave_linked _ _ _ (s_ctx ss)); [done|by apply machine_ok_advance, machine_ok_reg|done| |done|];
      change (rv_mem (advance _ 4)) with (rv_mem m1); by rewrite Hmem. }
  assert (blyt_resolve_resource (resources (s_ctx ss)) id = res_resolve st id) as -> by (rewrite Ht; apply resolve_to_host).
  assert (t_entries (resources (s_ctx ss)) = to_host <$> s_res st) as Hte by by rewrite Ht.
  destruct (res_resolve st id) as [i|] eqn:Eres.
  2:{ cbn [mbind option_bind]. rewrite Hcode by lia. do 3 eexists. split; [done|]. split; [done|]. split; [apply Hsame|]. by apply Hmono. }
  destruct (res_resolve_inv _ _ _ Eres) as (e & Hi). rewrite Hi, Hte, list_lookup_fmap, Hi.
  cbn [fmap option_fmap option_map mbind option_bind e_rl to_host].
  destruct (blyt_rl_unpin (r_rl e)) as [[] rl] eqn:Eun; cbn [negb mbind option_bind].
  2:{ rewrite Hcode by lia. do 3 eexists. split; [done|]. split; [done|]. split; [apply Hsame|]. by apply Hmono. }
  set (e1 := res_rl rl e). change (with_rl rl (to_host e)) with (to_host e1).
  destruct (put_pre st (s_ctx ss) (rv_mem (s_rv ss)) cap i e e1 Ht Hsim Hi (conj eq_refl eq_refl)) as [Hput Hsim1].
  set (st1 := set_res (<[i := e1]> (s_res st)) st) in *. set (ctx1 := put_entry i (to_host e1) (s_ctx ss)) in *.
  assert ((to_host <$> s_res st) !! i = Some (to_host e)) as Hih by by rewrite list_lookup_fmap, Hi.
  assert (run_ok base (e_res env) ctx1) as Hok1.
  { apply (put_entry_ok base env (s_ctx ss) i (to_host e)); [done|by rewrite Hte|apply entry_ok_rl|done].
    rewrite <-Hte in Hih. exact (Forall_lookup_1 _ _ _ _ (run_entries _ _ _ Hok) Hih). }
  destruct (publish_sim base (e_res env) st1 ctx1 (rv_mem (s_rv ss)) Hok1 (rs_pre _ _ _ Hsim1)) as (st' & mem' & Hnp & Hhp & Hsim' & Hsame').
  destruct (publish_run_ok base env ctx1 (rv_mem (s_rv ss)) Hok1) as (ctx3 & mem3 & Hhp3 & Hok3 & _).
  rewrite Hhp in Hhp3. injection Hhp3 as <- <-. rewrite Hmem, Hhp, Hnp. cbn [mbind option_bind]. rewrite Hcode by lia.
  set (ctx3 := set_resources _ ctx1) in *.
  assert (mem_acct_vaddr ctx3 = acct) as Ea3 by (rewrite <-Ha; unfold ctx3, ctx1, put_entry; by autorewrite with run_ctx).
  do 3 eexists. split; [done|]. split; [done|]. split.
  - apply (leave_linked _ _ _ ctx3); [done| |done|done|done|].
    + apply machine_ok_advance, machine_ok_reg. destruct Hm1 as [Q1 _ Q3]. destruct Hsame' as [Q4 _].
      split; [cbn; rewrite Q4, <-Hmem; done|exact Hok3|done].
    + destruct Hsame' as [Q4 _]. cbn. congruence.
  - destruct (publish_keeps _ _ Hnp) as (Hfr & _ & _). apply (pins_frame (n + 1) (s_res st1)); [done|]. cbn [s_res set_res st1].
    apply Forall_insert; [by apply Hmono|]. pose proof (Forall_lookup_1 _ _ _ _ Hpins Hi) as Hpi. cbn in Hpi.
    unfold blyt_rl_unpin in Eun. destruct (Z.eqb_spec (pin_count (r_rl e)) 0); [done|]. injection Eun as <-. cbn.
    rewrite u32_id by (unfold is_u32; lia). lia.
Qed.

Lemma stats_step n st ss : linked st ss -> pins_below n st -> step_agrees n MemStats st ss.
Proof.
  intros [Hss Hsim Ha Hr] Hpins. destruct (rs_pre _ _ _ Hsim) as [_ _ (Ha0 & Har & Ha32) [Hh Hhu] _ _]. destruct (rs_cache _ _ _ Hsim) as [Hc Hcu].
  pose proof Hcells as [_ _ _ (Ho0 & Ho) _ _ (_ & _ & Hob) _]. rewrite Ha in *.
  unfold step_agrees. cbn [native_res_call emu_res_call]. unfold stub_mem_stats. rewrite Ha, (proj2 (Z.eqb_neq outs 0)) by lia. cbv zeta.
  change (rv_mem (enter ss)) with (rv_mem (s_rv ss)). rewrite (u32_id (acct + 8)) by (unfold is_u32; lia). rewrite Hh, Hc.
  set (heap := guest_heap_used (g_mem_acct st)) in *. set (cache := resource_cache_used (g_mem_acct st)) in *.
  set (ws := [cache; heap; u32 (heap + cache); BLYT_MEM_BUDGET_BYTES]). set (m' := set_mem (enter ss) _).
  assert (forall o w, sub (concat (write_u32_le <$> ws)) o 4 = write_u32_le w -> 0 <= o -> o + 4 <= 16 -> is_u32 w -> word m' (outs + o) = w) as Hw.
  { intros o w Hs H0 H4 Hu. unfold word, mem_acct_read_u32, m'. cbn [rv_mem set_mem].
    rewrite <-(memory_read_sub _ outs 16 o 4) by lia. change 16 with (len (concat (write_u32_le <$> ws))).
    rewrite memory_read_write by (unfold len; cbn; lia). rewrite Hs. by apply read_write_u32_le. }
  assert (word m' outs = cache) as E0 by (rewrite <-(Z.add_0_r outs); by apply Hw).
  rewrite E0, (Hw 4 heap), (Hw 8 (u32 (heap + cache))), (Hw 12 BLYT_MEM_BUDGET_BYTES) by (done || lia || apply u32_range).
  do 3 eexists. split; [done|]. split; [done|]. split; [|by apply (pins_mono n); [lia|]].
  apply (leave_linked _ _ _ (s_ctx ss)); [done|apply machine_ok_mem; [apply memory_write_size|by destruct Hss]|done| |done|by cbn; rewrite memory_write_size].
  apply (res_sim_mem _ _ (rv_mem (s_rv ss))); [apply memory_write_size| |done]. rewrite Ha.
  apply memory_read_other; [lia|]. unfold len. cbn. unfold clear_of in Hob. lia.
Qed.

Lemma heap_step n st ss k : linked st ss -> pins_below n st -> is_u32 k -> step_agrees n (HeapUsed k) st ss.
Proof.
  intros [Hss Hsim Ha Hr] Hpins Hk. unfold step_agrees. cbn [native_res_call emu_res_call].
  do 3 eexists. split; [done|]. split; [done|]. split; [|by apply (pins_mono n); [lia|]].
  destruct Hsim as [[Ht He (Ha0 & Har & Ha32) [Hh Hhu] Ho Hhk] Hf [Hc Hcu]].
  split; cbn [s_ctx s_rv on_rv rv_mem set_mem]; [|split; [split|..]|done|by rewrite memory_write_size];
    cbn [g_mem_acct set_acct set_guest_heap_used guest_heap_used non_evictable_footprint resource_cache_used]; try done.
  - apply (session_ok_rv env base); [done| |done]. cbn [rv_mem set_mem]. by rewrite memory_write_size.
  - by rewrite memory_write_size.
  - split; [|done]. apply read_word_write; [done|lia|lia].
  - rewrite read_word_other by lia. done.
  - rewrite read_word_other by lia. done.
Qed.

Lemma frame_step n st ss : linked st ss -> pins_below n st -> 0 <= n -> step_agrees n FrameDone st ss.
Proof.
  intros [Hss Hsim Ha Hr] Hpins Hn. pose proof (so_run _ _ _ Hss) as Hok.
  pose proof (reset_ctx_ok env base _ Hok) as Hok1. destruct (reset_ctx_fields (s_ctx ss)) as (F1 & F2 & _). set (c1 := reset_ctx (s_ctx ss)) in *.
  unfold step_agrees. cbn [native_res_call emu_res_call]. unfold frame_done_resources. cbv zeta.
  destruct Hsim as [[Ht He Hacct Hh [Ho Hpe] Hhk] _ _]. change (s_evict_every_frame (resources_force_release_pins st)) with (s_evict_every_frame st).
  rewrite Hhk. set (st1 := resources_force_release_pins st).
  assert (resources c1 = host_table (t_cap (resources c1)) st1) as Ht1.
  { assert (resources c1 = blyt_resource_table_force_release_pins (resources (s_ctx ss))) as -> by (unfold c1; by destruct (s_ctx ss)).
    rewrite Ht at 1. rewrite release_to_host. done. }
  assert (peer_heap c1 = peer_heap (s_ctx ss)) as Fp by (unfold c1; by destruct (s_ctx ss)).
  assert (res_pre st1 c1 (rv_mem (s_rv ss))) as Hpre1.
  { split; rewrite ?F2, ?F1, ?Fp; try done. cbn. by apply Forall_fmap. }
  destruct (publish_sim base (e_res env) st1 c1 (rv_mem (s_rv ss)) Hok1 Hpre1) as (st' & mem' & Hnp & Hhp & Hsim' & Hsame').
  destruct (publish_run_ok base env c1 (rv_mem (s_rv ss)) Hok1) as (c2 & mem2 & Hhp2 & Hok2 & _ & Hsurf2 & _).
  rewrite Hhp in Hhp2. injection Hhp2 as <- <-. set (c2 := set_resources _ c1) in *.
  destruct (publish_sim base (e_res env) st' c2 mem' Hok2 (rs_pre _ _ _ Hsim')) as (st2 & mem3 & Hnp2 & Hhp3 & Hsim3 & Hsame3).
  rewrite (publish_idem _ _ Hnp) in Hnp2. injection Hnp2 as <-.
  assert (reg_ok (surfaces c1)) as Hreg1 by apply (run_ctx_ok _ _ _ Hok1).
  assert (only_screen (surfaces c1)) as Ho1 by by rewrite F1.
  assert (set_resources (host_table (t_cap (resources c2)) st') c2 = c2) as E3 by (unfold c2; by destruct c1).
  rewrite E3 in *. assert (frame_entry ss = Some (with_ctx c2
      (on_rv (fun m => with_halt false (set_mem m (if trace_fn_addr ss =? 0 then mem3 else mem'))) ss))) as ->.
  { rewrite frame_entry_eq. fold c1. destruct (trace_fn_addr ss =? 0).
    - rewrite reap_idle by done. rewrite Hhp. cbn [mbind option_bind fst snd default].
      fold c2. change (id mem') with mem'. by rewrite Hhp3.
    - cbn [mbind option_bind]. by rewrite Hhp. }
  rewrite Hnp. cbn [mbind option_bind].
  assert (mem_acct_vaddr c2 = acct) as Ea2 by (rewrite <-Ha, <-F2; unfold c2; by autorewrite with run_ctx).
  do 3 eexists. split; [done|]. split; [done|].
  assert (forall mem, res_sim st' c2 mem -> ram_size mem = ram_size (rv_mem (s_rv ss)) ->
    linked st' (with_ctx c2 (on_rv (fun m => with_halt false (set_mem m mem)) ss))) as Hlink.
  { intros mem Hs Hrm. split; cbn; try done; [|congruence].
    by apply (session_ok_intro env base (with_halt false (set_mem (s_rv ss) mem)) c2 ss). }
  split.
  - destruct Hsame' as [Q1 _], Hsame3 as [Q2 _]. destruct (trace_fn_addr ss =? 0); apply Hlink; congruence.
  - destruct (publish_keeps _ _ Hnp) as (Hfr & _ & _). apply (pins_frame (n + 1) (s_res st1)); [done|]. cbn.
    apply Forall_fmap. apply (Forall_impl _ _ _ Hpins). intros e Hp. cbn in *. lia.
Qed.

(** ** A run *)

Lemma res_step n c st ss :
  linked st ss -> pins_below n st -> 0 <= n < 2 ^ 32 - 1 -> res_call_ok c -> step_agrees n c st ss.
Proof.
  intros Hl Hp Hn Hc. destruct c as [id|id| |k|]; cbn in Hc.
  - by apply pin_step.
  - by apply unpin_step.
  - by apply stats_step.
  - by apply heap_step.
  - apply frame_step; [done|done|lia].
Qed.

(** C27: While no surface is charged, the bare-metal resources answer as the emulated ones.  From
    linked states in which no surface is charged on the host, any sequence of pins, unpins,
    statistics, updates of the cart's heap counter and frame boundaries, of fewer than 2^32 calls
    with the pins an entry already holds, runs to the end on both sides without undefined
    behaviour, and gives the same answers: the same codes (the byte budget refuses the same
    pins), the same bytes behind the pointer at the time of the pin, the same statistics to the byte (the
    same entries were evicted).  The tables are equal entry by entry afterwards, recency stamps
    included.  Not covered, because the two sides differ there: the bytes behind a pointer after
    later pins, which reuse the emulator's scratch region, and the budget once surfaces are charged,
    which only the emulator counts. *)
Theorem native_resource_parity cs n st ss :
  linked st ss -> pins_below n st -> 0 <= n -> n + Z.of_nat (length cs) < 2 ^ 32 -> Forall res_call_ok cs ->
  exists rs st' ss', run_res (native_res_call nenv) cs st = Some (rs, st')
    /\ run_res (emu_res_call env outp outn outs) cs ss = Some (rs, ss') /\ linked st' ss'.
Proof.
  intros Hl Hp Hn Hlen Hcs. revert n st ss Hl Hp Hn Hlen. induction Hcs as [|c cs Hc Hcs IH]; intros n st ss Hl Hp Hn Hlen.
  { by do 3 eexists. }
  cbn [length] in Hlen. cbn [run_res].
  destruct (res_step n c st ss Hl Hp ltac:(lia) Hc) as (r & st1 & ss1 & -> & -> & Hl1 & Hp1). cbn [mbind option_bind].
  destruct (IH (n + 1) st1 ss1 Hl1 Hp1) as (rs & st' & ss' & -> & -> & Hl'); [lia|lia|]. by do 3 eexists.
Qed.
End theorems.
