(* ===== verification/NativeResourceLoad.v ===== *)
(** * NativeResourceLoad: both sides build the same table from the same cart

    The bare-metal start-up counts the resource sections, fills an array of that size, marks the
    persistent ids and materialises them; the host grows a table section by section.  The
    theorem is that they end with the same entries, and refuse the same carts. *)

From S2P Require Import Prelude Handle MemBudget ElfSection ResourceTable ResourceTheorems SessionLinkSpec NativeResource NativeResourceSpec.
From Stdlib Require Import ZArith Lia String.
From stdpp Require Import base tactics list.
Open Scope Z_scope.

(** The entry the fill callback makes of a section. *)
Definition native_entry (map : list Z) (id off size : Z) : native_res_t :=
  let verbatim := MkRes id (Some (InMap off)) size BLYT_RES_ALGO_NONE None 0 None (MkRl 0) 0 false in
  if size <? 8 then verbatim
  else
    let algo := default 0 (zget map off) in
    let dsize := word_at map (off + 4) in
    if algo =? 1 then MkRes id None dsize 1 (Some (off + 8)) (size - 8) None (MkRl 0) 0 false
    else if algo =? 0 then MkRes id (Some (InMap (off + 8))) dsize 0 None 0 None (MkRl 0) 0 false
    else verbatim.

Lemma native_entry_host env id off size :
  to_host (native_entry (cart_map env) id off size) = section_entry env id off size.
Proof. unfold native_entry, section_entry. cbv zeta. by repeat case_match. Qed.

(** The sections whose suffix is an id. *)
Definition ids_of (l : list (list Z * Z * Z)) : list (Z * Z * Z) :=
  omap (fun '(suffix, off, size) => id ← blyt_elf32_parse_u32 (Some suffix); Some (id, off, size)) l.

Section load.
Context (env : res_env) (Hb : bytes_ok (cart_map env)).

Definition in_map (s : list Z * Z * Z) : Prop :=
  let '(_, off, size) := s in 0 <= off /\ 0 <= size /\ off + size <= len (cart_map env).

(** *** Two passes *)

Lemma visit_count l n :
  0 <= n -> n + len l < 2 ^ 32 -> visit res_count_cb l n = Some (n + len (ids_of l)).
Proof.
  revert n; induction l as [|[[suffix off] size] l IH]; intros n Hn Hl; [cbn; f_equal; unfold len; cbn; lia|].
  rewrite len_cons in Hl. pose proof (len_nonneg l). cbn [visit ids_of omap list_omap].
  assert (res_count_cb suffix off size n = match blyt_elf32_parse_u32 (Some suffix) with Some _ => Some (u32 (n + 1)) | None => Some n end) as -> by done.
  destruct (blyt_elf32_parse_u32 (Some suffix)) as [id|]; cbn [mbind option_bind].
  - rewrite u32_id by (unfold is_u32; lia). rewrite IH by lia. fold (ids_of l). rewrite len_cons. f_equal. lia.
  - apply IH; lia.
Qed.

Lemma fill_one cap suffix off size arr id :
  in_map (suffix, off, size) -> blyt_elf32_parse_u32 (Some suffix) = Some id -> len arr < cap ->
  res_fill_cb env cap suffix off size arr = Some (arr ++ [native_entry (cart_map env) id off size]).
Proof.
  intros (Ho & Hs & Hin) Hid Hcap. unfold res_fill_cb. rewrite Hid. replace (len arr >=? cap) with false by lia.
  unfold blyt_res_header_parse, native_entry, BLYT_RES_HEADER_LEN, BLYT_RES_ALGO_NONE, BLYT_RES_ALGO_ZSTD.
  destruct (Z.ltb_spec size 8); cbn [mbind option_bind]; [done|].
  destruct (zget_is_Some (cart_map env) off) as [a Ha]; [lia|]. rewrite Ha. cbn [mbind option_bind].
  change (default 0 (Some a)) with a.
  destruct (Z.eqb_spec a 0) as [E0|E0]; destruct (Z.eqb_spec a 1) as [E1|E1]; cbn [negb andb mbind option_bind];
    try lia; rewrite ?rd_word by (done || lia); cbn [mbind option_bind]; by subst.
Qed.

Lemma visit_fill cap l arr :
  Forall in_map l -> len arr + len (ids_of l) <= cap ->
  visit (res_fill_cb env cap) l arr
  = Some (arr ++ ((fun '(id, off, size) => native_entry (cart_map env) id off size) <$> ids_of l)).
Proof.
  intros Hl. revert arr; induction Hl as [|[[suffix off] size] l Hin Hl IH]; intros arr Hcap.
  { cbn. by rewrite app_nil_r. }
  cbn [visit ids_of omap list_omap] in *. fold (ids_of l) in *.
  destruct (blyt_elf32_parse_u32 (Some suffix)) as [id|] eqn:Hid; cbn [mbind option_bind] in *.
  - rewrite len_cons in Hcap. pose proof (len_nonneg (ids_of l)). rewrite (fill_one cap suffix off size arr id) by (done || lia).
    cbn [mbind option_bind]. rewrite IH by (rewrite len_app; unfold len at 2; cbn; lia). by rewrite <-app_assoc.
  - assert (res_fill_cb env cap suffix off size arr = Some arr) as -> by (unfold res_fill_cb; by rewrite Hid). cbn [mbind option_bind]. by apply IH.
Qed.

(** The header holds fewer than 65536 sections. *)
Lemma few_sections prefix : len (prefixed (cart_map env) prefix (sections (cart_map env))) < 65536.
Proof.
  assert (forall l, len (prefixed (cart_map env) prefix l) <= len l) as Hle.
  { induction l as [|[[n off] size] l IH]; [done|]. rewrite prefixed_cons, len_cons.
    destruct (n ≫= strip prefix); [|lia]. destruct (in_image _ _ _); rewrite ?len_cons; lia. }
  specialize (Hle (sections (cart_map env))). unfold sections in *. destruct (resolve_ok _ Hb) as (o & Hr & Hok). rewrite Hr in *.
  destruct o as [sht|]; [|unfold len in *; cbn in *; lia]. destruct (Hok _ eq_refl) as (_ & ? & _).
  unfold len in Hle at 2. rewrite length_fmap, length_seqZ in Hle. lia.
Qed.

Lemma resources_init_spec st :
  (forall n, malloc_ok env n = true) -> s_res st = [] ->
  exists st', resources_init env true st = Some st' /\ st' = set_res (s_res st') st
    /\ s_res st' = (fun '(id, off, size) => native_entry (cart_map env) id off size) <$> resource_sections env.
Proof.
  intros Hm H0. unfold resources_init. cbn [negb].
  assert (no_nul NATIVE_RES_PREFIX) as Hn by (apply no_nul_text; reflexivity).
  rewrite (elf_each_prefix_exact res_count_cb) by done. set (secs := prefixed _ _ _).
  pose proof (few_sections NATIVE_RES_PREFIX) as Hfew. fold secs in Hfew.
  rewrite visit_count by lia. cbn [mbind option_bind]. rewrite Z.add_0_l.
  change (resource_sections env) with (ids_of secs). pose proof (len_nonneg (ids_of secs)) as Hnn.
  destruct (Z.eqb_spec (len (ids_of secs)) 0) as [E|E].
  { exists st. split; [done|]. split; [by destruct st|]. rewrite H0. destruct (ids_of secs); [done|]. rewrite len_cons in E. pose proof (len_nonneg l). lia. }
  assert (len (ids_of secs) <= len secs) as Hle.
  { clear. induction secs as [|[[suffix off] size] l IH]; [done|]. cbn [ids_of omap list_omap]. fold (ids_of l). rewrite len_cons.
    destruct (blyt_elf32_parse_u32 _); cbn [mbind option_bind]; rewrite ?len_cons; lia. }
  rewrite u32_id by (unfold is_u32; lia).
  destruct (raw_malloc_room env (len (ids_of secs) * 40)) as (room & -> & _); [lia|done|].
  rewrite (elf_each_prefix_exact (res_fill_cb env _)) by done. fold secs.
  rewrite visit_fill; [|by apply prefixed_bounds|unfold len at 1; cbn; lia]. cbn [mbind option_bind].
  eexists. split; [done|]. by split.
Qed.
End load.

(** *** Marks *)

Lemma persistent_to_host cap k b ids st :
  mark_loop k b ids (host_table cap st) = host_table cap <$> persistent_loop k b ids st.
Proof.
  revert b st; induction k as [|k IH]; intros b st; [done|]. cbn [mark_loop persistent_loop].
  destruct (rd ids b 4) as [w|]; [|done]. cbn [mbind option_bind].
  unfold blyt_resource_table_find_mut, res_find. cbn [t_entries host_table]. rewrite find_to_host.
  destruct (res_find_from 0 (s_res st) (read_u32_le w)) as [i|]; [|apply IH]. rewrite <-IH. f_equal.
  unfold update, with_entries, host_table, set_res. cbn. f_equal. by apply alter_to_host.
Qed.

Lemma persistent_loop_total (P : native_res_t -> Prop) k b ids st :
  (forall e, P e -> P (res_persist true e)) -> Forall P (s_res st) -> 0 <= b -> b + 4 * Z.of_nat k <= len ids ->
  exists st', persistent_loop k b ids st = Some st' /\ Forall P (s_res st') /\ st' = set_res (s_res st') st.
Proof.
  intros HP. revert b st; induction k as [|k IH]; intros b st Hst Hb Hk; [exists st; split_and!; [done|done|by destruct st]|].
  cbn [persistent_loop]. rewrite rd_Some by lia. cbn [mbind option_bind].
  destruct (res_find st _) as [i|]; [|by apply IH; try lia].
  destruct (IH (b + 4) (set_res (alter (res_persist true) i (s_res st)) st)) as (st' & -> & Hp & Heq); [|lia|lia|].
  - cbn. apply Forall_alter; [done|]. intros e _. apply HP.
  - exists st'. split; [done|]. split; [done|]. rewrite Heq. by destruct st.
Qed.

(** *** Materialising the persistent set *)

Lemma preload_to_host nenv henv (l : list native_res_t) :
  same_source nenv henv -> Forall res_entry_ok l ->
  preload_loop henv (to_host <$> l) = (fun r : bool * list native_res_t => (fst r, to_host <$> snd r)) <$> native_preload_loop nenv l.
Proof.
  intros Hsrc. induction 1 as [|e l He _ IH]; [done|]. cbn [fmap list_fmap preload_loop native_preload_loop].
  cbn [e_persistent to_host]. destruct (r_persistent e); cbn [negb].
  - rewrite (data_to_host nenv) by done. destruct (native_res_data nenv e) as [[[p|] e1]|]; [|done..]. cbn. rewrite IH.
    by destruct (native_preload_loop nenv l) as [[ok l']|].
  - rewrite IH. by destruct (native_preload_loop nenv l) as [[ok l']|].
Qed.

(** What preloading leaves: only persistent entries own bytes. *)
Lemma preload_owned nenv (l : list native_res_t) ok l' :
  Forall (fun e => r_owned e = None) l -> native_preload_loop nenv l = Some (ok, l') ->
  Forall (fun e => has_owned e && negb (r_persistent e) = false) l'.
Proof.
  intros Hl. revert ok l'; induction Hl as [|e l He Hl IH]; intros ok l'; [by intros [= <- <-]|]. cbn [native_preload_loop].
  assert (Forall (fun e => has_owned e && negb (r_persistent e) = false) l) as Hrest.
  { apply (Forall_impl _ _ _ Hl). intros x Hx. unfold has_owned. by rewrite Hx. }
  destruct (r_persistent e) eqn:Ep; cbn [negb].
  - destruct (native_res_data nenv e) as [[p e1]|] eqn:Ed; [|done]. cbn [mbind option_bind].
    assert (has_owned e1 && negb (r_persistent e1) = false) as He1.
    { pose proof (native_data_keeps _ _ _ _ Ed) as Hf. assert (r_persistent e1 = r_persistent e) as -> by (unfold frame in Hf; by simplify_eq).
      rewrite Ep. by rewrite andb_false_r. }
    destruct p; [|by intros [= <- <-]; constructor].
    destruct (native_preload_loop nenv l) as [[ok1 l1]|] eqn:El; [|done]. intros [= <- <-]. constructor; [done|by eapply IH].
  - destruct (native_preload_loop nenv l) as [[ok1 l1]|] eqn:El; [|done]. intros [= <- <-]. constructor; [|by eapply IH].
    unfold has_owned. by rewrite He.
Qed.

(** *** Start-up *)

Section boot.
Context (nenv henv : res_env) (Hsrc : same_source nenv henv) (Hbytes : bytes_ok (cart_map nenv)).

Lemma host_sections : resource_sections henv = resource_sections nenv.
Proof. unfold resource_sections. by rewrite (ss_map _ _ Hsrc). Qed.

Lemma section_entry_map id off size : section_entry henv id off size = to_host (native_entry (cart_map nenv) id off size).
Proof. rewrite <-native_entry_host. by rewrite (ss_map _ _ Hsrc). Qed.

(** Marking on both sides. *)
Lemma mark_both cap (P : native_res_t -> Prop) st :
  (forall e, P e -> P (res_persist true e)) -> Forall P (s_res st) ->
  exists st', native_mark_persistent nenv true st = Some st' /\ Forall P (s_res st') /\ st' = set_res (s_res st') st
    /\ blyt_resource_table_load_persistent_from_cart henv (host_table cap st) true = Some (host_table cap st').
Proof.
  intros HP Hst. unfold native_mark_persistent, blyt_resource_table_load_persistent_from_cart. cbn [negb].
  rewrite (ss_map _ _ Hsrc). change PERSISTENT_SECTION with (text ".cart.persistent"%string).
  assert (no_nul (text ".cart.persistent"%string)) as Hn by (apply no_nul_text; reflexivity).
  destruct (SessionLinkSpec.find_section_total (cart_map nenv) _ Hbytes Hn) as (r & -> & Hr). cbn [mbind option_bind].
  destruct r as [[off size]|]; [|exists st; split_and!; [done|done|by destruct st|done]].
  destruct (Hr off size eq_refl) as (ids & Hids & _). rewrite Hids. cbn [mbind option_bind].
  pose proof Hids as (H0 & H1 & H2 & H3)%rd_inv. assert (len ids = size) as Hlen by (rewrite H3; apply len_sub; lia).
  destruct (persistent_loop_total P (Z.to_nat (size / 4)) 0 ids st HP Hst) as (st' & Hp & Hst' & Heq); [lia|rewrite Hlen; rewrite Z2Nat.id; Z.div_mod_to_equations; lia|].
  exists st'. split; [done|]. split; [done|]. split; [done|].
  unfold blyt_resource_table_mark_persistent. rewrite Hlen, persistent_to_host, Hp. done.
Qed.

(** What the start-up relies on of every entry. *)
Definition boot_ok (e : native_res_t) : Prop :=
  res_entry_ok e /\ coherent henv (to_host e) /\ r_owned e = None /\ pin_count (r_rl e) = 0.

Lemma boot_ok_persist e : boot_ok e -> boot_ok (res_persist true e).
Proof. done. Qed.

Lemma native_entry_ok id off size :
  0 <= off -> 0 <= size -> off + size <= len (cart_map nenv) -> res_entry_ok (native_entry (cart_map nenv) id off size) ->
  boot_ok (native_entry (cart_map nenv) id off size).
Proof.
  intros Ho Hs Hin Hok. split; [done|]. split.
  - rewrite <-section_entry_map. apply section_entry_coherent; by rewrite ?(ss_map _ _ Hsrc).
  - unfold native_entry. cbv zeta. by repeat case_match.
Qed.

Lemma preload_frame (l l' : list native_res_t) ok : native_preload_loop nenv l = Some (ok, l') -> frame <$> l' = frame <$> l.
Proof.
  revert ok l'; induction l as [|e l IH]; intros ok l'; [by intros [= <- <-]|]. cbn [native_preload_loop].
  destruct (r_persistent e); cbn [negb].
  - destruct (native_res_data nenv e) as [[p e1]|] eqn:Ed; [|done]. cbn [mbind option_bind]. pose proof (native_data_keeps _ _ _ _ Ed) as Hf.
    destruct p; [|intros [= <- <-]; cbn; by rewrite Hf].
    destruct (native_preload_loop nenv l) as [[ok1 l1]|] eqn:El; [|done]. intros [= <- <-]. cbn. by rewrite Hf, (IH _ _ eq_refl).
  - destruct (native_preload_loop nenv l) as [[ok1 l1]|] eqn:El; [|done]. intros [= <- <-]. cbn. by rewrite (IH _ _ eq_refl).
Qed.

(** Materialising on both sides. *)
Lemma preload_both cap st :
  Forall boot_ok (s_res st) ->
  exists ok st', native_preload_persistent nenv st = Some (ok, st') /\ st' = set_res (s_res st') st
    /\ blyt_resource_table_preload_persistent henv (host_table cap st) = Some (if ok : bool then 0 else -1, host_table cap st')
    /\ frame <$> s_res st' = frame <$> s_res st
    /\ (ok = true -> Forall (fun e => has_owned e && negb (r_persistent e) = false) (s_res st')).
Proof.
  intros Hst. assert (Forall res_entry_ok (s_res st)) as He by (apply (Forall_impl _ _ _ Hst); by intros e [? _]).
  assert (lens_u32 (s_res st)) as Hl by (apply (Forall_impl _ _ _ He); intros e [? _]; unfold is_u32; lia).
  unfold native_preload_persistent, blyt_resource_table_preload_persistent. rewrite footprint_to_host by done.
  destruct (_ >? _); [exists false, st; split_and!; [done|by destruct st|done|done|done]|].
  cbn [t_entries host_table]. assert (Forall (coherent henv) (to_host <$> s_res st)) as Hco.
  { apply Forall_fmap, (Forall_impl _ _ _ Hst). by intros e (_ & ? & _). }
  destruct (preload_loop_spec henv _ Hco) as (ok & l' & Hrun & _). pose proof Hrun as Hrun'.
  rewrite (preload_to_host nenv) in Hrun' by done. rewrite Hrun.
  destruct (native_preload_loop nenv (s_res st)) as [[ok1 l1]|] eqn:El; [|done]. cbn in Hrun'. injection Hrun' as -> <-.
  cbn [mbind option_bind]. exists ok, (set_res l1 st). split_and!; [done|done|done|by eapply preload_frame|].
  intros _. eapply preload_owned; [|done]. apply (Forall_impl _ _ _ Hst). by intros e (_ & _ & ? & _).
Qed.

Lemma sum_res_none test l : Forall (fun e => test e = false) l -> sum_res test l = 0.
Proof. unfold sum_res. generalize 0. induction 1 as [|e l He _ IH]; [done|]. cbn [foldl]. by rewrite He. Qed.

Lemma resource_sections_bounds :
  Forall (fun '(_, off, size) => 0 <= off /\ 0 <= size /\ off + size <= len (cart_map nenv)) (resource_sections nenv).
Proof.
  unfold resource_sections. pose proof (prefixed_bounds (cart_map nenv) RESOURCE_SECTION_PREFIX Hbytes) as Hbd.
  induction Hbd as [|[[suffix off] size] l Hs _ IH]; [constructor|]. cbn [omap list_omap].
  destruct (blyt_elf32_parse_u32 (Some suffix)); cbn [mbind option_bind]; [|done]. by constructor.
Qed.

(** With nothing to evict, publishing evicts nothing. *)
Lemma publish_nothing st :
  Forall (fun e => has_owned e && negb (r_persistent e) = false) (s_res st) ->
  exists st', native_mem_publish_footprint st = Some st' /\ s_res st' = s_res st
    /\ non_evictable_footprint (g_mem_acct st') = native_res_footprint st
    /\ s_evict_every_frame st' = s_evict_every_frame st.
Proof.
  intros Hn. unfold native_mem_publish_footprint, native_res_evict_to_fit. cbv zeta. cbn [fit_loop].
  set (st1 := set_acct (set_footprint _ _) st). set (room := blyt_mem_cache_room _ _).
  assert (native_res_resident_evictable st1 = 0) as ->.
  { apply sum_res_none, (Forall_impl _ _ _ Hn). intros e He. by rewrite He. }
  rewrite (proj2 (Z.leb_le _ _)) by apply SurfaceSpec.cache_room_nonneg. cbn [mbind option_bind]. by eexists.
Qed.

(** C28: The bare-metal start-up loads what the host loads.  From any cart image, when memory is
    granted and no resource is an empty compressed one, both sides run to an end: the host's load,
    marking and preloading of the persistent set, and the start-up of the library.  The library
    exits exactly when the host refuses the cart; otherwise the two tables hold the same
    entries in the same order, materialised ones included, no entry is pinned, and the reserved
    footprint is the host's. *)
Theorem native_resources_load hook :
  (forall n, realloc_ok henv n = true) ->
  Forall (fun '(id, off, size) => res_entry_ok (native_entry (cart_map nenv) id off size)) (resource_sections nenv) ->
  exists n t1 t2 r t3 out,
    blyt_resource_table_load_from_cart henv blyt_resource_table_init true = Some (n, t1)
    /\ blyt_resource_table_load_persistent_from_cart henv t1 true = Some t2
    /\ blyt_resource_table_preload_persistent henv t2 = Some (r, t3)
    /\ startup_resources nenv true hook res_bss = Some out
    /\ match out with
       | None => r = -1
       | Some st => r = 0 /\ t_entries t3 = to_host <$> s_res st
           /\ Forall (fun e => pin_count (r_rl e) = 0) (s_res st)
           /\ non_evictable_footprint (g_mem_acct st) = blyt_resource_table_footprint t3
           /\ s_evict_every_frame st = hook
       end.
Proof.
  intros Hre Hok. unfold startup_resources.
  destruct (resources_init_spec nenv Hbytes res_bss (ss_native _ _ Hsrc) eq_refl) as (st1 & -> & Hst1 & Hres1). cbn [mbind option_bind].
  assert (Forall boot_ok (s_res st1)) as Hb1.
  { rewrite Hres1. apply Forall_fmap. pose proof resource_sections_bounds as Hbd. revert Hok Hbd. clear -Hsrc Hbytes.
    generalize (resource_sections nenv). induction 1 as [|[[id off] size] l Ho _ IH]; intros Hbd; [constructor|].
    apply Forall_cons in Hbd as [(? & ? & ?) Hbd]. constructor; [by apply native_entry_ok|by apply IH]. }
  assert (exists cap, blyt_resource_table_load_from_cart henv blyt_resource_table_init true = Some (len (resource_sections nenv), host_table cap st1)) as [cap Hload].
  { unfold blyt_resource_table_load_from_cart. cbn [negb].
    assert (no_nul RESOURCE_SECTION_PREFIX) as Hn by (apply no_nul_text; reflexivity).
    assert (bytes_ok (cart_map henv)) as Hbh by by rewrite (ss_map _ _ Hsrc).
    rewrite (elf_each_prefix_exact (load_resource_section henv)) by done. set (t0 := blyt_resource_table_clear _).
    destruct (visit_load henv _ t0 Hre Hbh (prefixed_bounds _ RESOURCE_SECTION_PREFIX Hbh)) as [cap ->]. cbn [mbind option_bind].
    exists cap. change (omap _ (prefixed _ _ _)) with (resource_sections henv). rewrite host_sections. unfold t_count, host_table. cbn.
    assert (s_lru_clock st1 = 0) as -> by by rewrite Hst1.
    rewrite Hres1, <-list_fmap_compose. do 2 f_equal.
    - unfold len. by rewrite length_fmap.
    - f_equal. apply list_fmap_ext. intros i [[id off] size] _. cbn. apply section_entry_map. }
  destruct (mark_both cap boot_ok st1 boot_ok_persist Hb1) as (st2 & -> & Hb2 & Hst2 & Hmark). cbn [mbind option_bind].
  destruct (preload_both cap st2 Hb2) as (ok & st3 & -> & Hst3 & Hpre & Hfr & Hown). cbn [mbind option_bind].
  exists (len (resource_sections nenv)), (host_table cap st1), (host_table cap st2), (if ok then 0 else -1), (host_table cap st3).
  destruct ok; cbn [negb].
  2:{ exists None. by split_and!. }
  destruct (publish_nothing st3 (Hown eq_refl)) as (st4 & -> & Hr4 & Hf4 & _). cbn [mbind option_bind].
  eexists. split; [done|]. split; [done|]. split; [done|]. split; [done|]. cbn. split; [done|]. split; [|split; [|split; [|done]]].
  - by rewrite Hr4.
  - rewrite Hr4. apply (frame_Forall _ (s_res st2)); [|done|].
    + intros e e' E. unfold frame in E. assert (r_rl e = r_rl e') as -> by by simplify_eq. done.
    + apply (Forall_impl _ _ _ Hb2). by intros e (_ & _ & _ & ?).
  - rewrite Hf4. symmetry. apply (footprint_to_host cap st3). apply (frame_Forall _ (s_res st2)); [|done|].
    + intros e e' E. unfold frame in E. assert (r_len e = r_len e') as -> by by simplify_eq. done.
    + apply (Forall_impl _ _ _ Hb2). intros e ([He _] & _). unfold is_u32. lia.
Qed.
End boot.
