(* ===== verification/NativeResourceImages.v ===== *)
(** * NativeResourceImages: resources in a cart file

    A cart whose resources meet the hypotheses of [NativeResourceLoad] and
    [NativeResourceTheorems], and a run of calls with two budget refusals. *)

From S2P Require Import Prelude Handle MemBudget StateBuffer StateBufferSpec ElfSection ResourceTable ResourceTheorems RunCtx Surface SurfaceSpec SurfaceTheorems Ecall EcallSpec EcallTheorems Session SessionSpec SessionTheorems CartImages DynLinkImages GuestStubs NativeResource NativeResourceSpec NativeResourceParity NativeResourceTheorems NativeResourceLoad.
From Stdlib Require Import ZArith Lia Strings.String.
From stdpp Require Import base tactics list gmap.
Open Scope Z_scope.

(** ** A cart with three resources, one of them persistent *)

(** The compression header is the algorithm and the decompressed length. *)
Definition res_section (id : string) (algo n : Z) (body : list Z) : DynLinkImages.section :=
  MkSection (append ".cart.resource." id) 1 0 0 0 ([algo; 0; 0; 0] ++ le_bytes 4 n ++ body).
Definition res_cart : list Z :=
  elf (fun _ => 0) (fun _ => [])
    [res_section "7" 0 4 [1; 2; 3; 4]; res_section "9" 1 6 [50; 51]; res_section "12" 1 10 [60];
     MkSection ".cart.persistent" 1 0 0 0 (le_bytes 4 9)].

(** A decoder that repeats the first byte of the frame. *)
Definition toy_zstd (body : list Z) (n : Z) : option (list Z) :=
  if n <? 0 then None else Some (replicate (Z.to_nat n) (default 0 (zget body 0))).
Definition toy_env (map : list Z) (decoder : list Z -> Z -> option (list Z)) : res_env :=
  MkResEnv map decoder (fun _ => true) (fun _ => true) (fun _ => None).
Definition res_env_1 : res_env := toy_env res_cart toy_zstd.

Lemma toy_source map : same_source (toy_env map toy_zstd) (toy_env map toy_zstd).
Proof.
  split; try done. intros body n got. cbn [zstd toy_env]. unfold toy_zstd. destruct (Z.ltb_spec n 0); [done|].
  intros [= <-]. rewrite len_replicate. lia.
Qed.

Lemma res_cart_bytes : bytes_ok res_cart.
Proof. unfold bytes_ok, is_u8. vm_compute. repeat constructor; discriminate. Qed.

Lemma res_cart_sections : resource_sections res_env_1 = [(7, 52, 12); (9, 64, 10); (12, 74, 9)].
Proof. vm_compute. reflexivity. Qed.

(** The statics the start-up leaves. *)
Definition res_started : res_statics :=
  MkStatics
    [MkRes 7 (Some (InMap 60)) 4 0 None 0 None (MkRl 0) 0 false;
     MkRes 9 (Some InOwned) 6 1 (Some 72) 2 (Some (replicate 6 50)) (MkRl 0) 0 true;
     MkRes 12 None 10 1 (Some 82) 1 None (MkRl 0) 0 false]
    0 (MkAcct 0 6 6 0) false.

Lemma res_cart_starts : startup_resources res_env_1 true false res_bss = Some (Some res_started).
Proof. vm_compute. reflexivity. Qed.

Lemma res_cart_entries :
  Forall (fun '(id, off, size) => res_entry_ok (native_entry (cart_map res_env_1) id off size)) (resource_sections res_env_1).
Proof.
  rewrite res_cart_sections.
  assert (forall off size n a, r_len (native_entry res_cart off size n) = a -> 0 <= a < 100 -> a <> 0 -> res_entry_ok (native_entry res_cart off size n)) as Hok.
  { intros off size n a <-. split; [lia|by intros _]. }
  constructor; [apply (Hok _ _ _ 4); [vm_compute; reflexivity|lia|lia]|].
  constructor; [apply (Hok _ _ _ 6); [vm_compute; reflexivity|lia|lia]|].
  constructor; [apply (Hok _ _ _ 10); [vm_compute; reflexivity|lia|lia]|constructor].
Qed.

Lemma native_resources_load_witness :
  exists n t1 t2 t3,
    blyt_resource_table_load_from_cart res_env_1 blyt_resource_table_init true = Some (n, t1)
    /\ blyt_resource_table_load_persistent_from_cart res_env_1 t1 true = Some t2
    /\ blyt_resource_table_preload_persistent res_env_1 t2 = Some (0, t3)
    /\ t_entries t3 = to_host <$> s_res res_started.
Proof.
  destruct (native_resources_load res_env_1 res_env_1 (toy_source res_cart) res_cart_bytes false (fun _ => eq_refl) res_cart_entries)
    as (n & t1 & t2 & r & t3 & out & H1 & H2 & H3 & H4 & H5).
  rewrite res_cart_starts in H4. apply (inj Some) in H4. subst out. destruct H5 as (-> & Ht & _).
  exists n, t1, t2, t3. exact (conj H1 (conj H2 (conj H3 Ht))).
Defined.

(** ** A session over that table *)

(** The accounting block, and the words the cart passes by address. *)
Definition res_acct : Z := 0x3000000.
Definition res_mem : flat := memory_write demo_mem res_acct (concat (write_u32_le <$> [0; 6; 6])).
Definition res_ctx : blyt_run_ctx_t :=
  MkRun false false false false false (Some zero_ctx) None [] 0 (host_table 8 res_started) 0 false (replicate 256 0)
    (initial_registry blank_screen) BLYT_PHASE_UPDATE false false res_acct 0.
Definition res_machine_env : ecall_env := MkEcallEnv res_env_1 (e_fs demo_ecall) true true.
Definition res_session : blyt_session regs flat :=
  MkSession (set_mem demo_rv res_mem) res_ctx 0 0 [] 0 0 0 0 0 0 0 0 0 0 0 0 0.

Lemma res_started_entries : Forall res_entry_ok (s_res res_started).
Proof. repeat constructor; cbn; congruence || lia. Qed.

(** The entries of the table are coherent with the file. *)
Lemma res_started_ok : Forall (entry_ok res_env_1) (to_host <$> s_res res_started).
Proof.
  assert (forall e buf, is_Some (source res_env_1 (to_host e)) -> source res_env_1 (to_host e) = Some buf -> len buf = r_len e) as Hs.
  { intros e buf _. unfold source. cbn [e_src_path e_algo e_cdata e_clen e_len to_host]. destruct (negb _); [discriminate|].
    destruct (negb (malloc_ok _ _)); [discriminate|]. destruct (r_cdata e); [|discriminate]. cbn [mbind option_bind].
    destruct (rd _ _ _); [|discriminate]. cbn [mbind option_bind]. unfold blyt_res_decode.
    destruct (_ =? BLYT_RES_ALGO_NONE); [destruct (Z.eqb_spec (len l) (r_len e)); [intros [= <-]; assumption|discriminate]|].
    destruct (_ =? BLYT_RES_ALGO_ZSTD); [|discriminate]. destruct (zstd _ _ _) as [got|]; [|discriminate]. cbn [mbind option_bind].
    destruct (Z.eqb_spec (len got) (r_len e)); [intros [= <-]; assumption|discriminate]. }
  assert (forall e off, r_data e = Some (InMap off) -> r_owned e = None -> 0 <= r_len e -> r_algo e <> BLYT_RES_ALGO_ZSTD ->
    is_Some (rd (cart_map res_env_1) off (r_len e)) -> entry_ok res_env_1 (to_host e)) as Hmap.
  { intros e off Hd Ho Hl Ha Hr. split; [|split; [reflexivity|]].
    - split; [exact Hl|]. split; [intros _ E; contradiction|]. split; [intros buf E; exact (Hs e buf (mk_is_Some _ _ E) E)|].
      cbn [e_owned e_data to_host]. rewrite Ho, Hd. discriminate.
    - cbn [e_data e_len to_host]. rewrite Hd. intros off' [= <-]. exact Hr. }
  assert (forall e cdata, r_cdata e = Some cdata -> 0 <= r_len e -> is_Some (rd (cart_map res_env_1) cdata (r_clen e)) ->
    match r_owned e with Some buf => r_data e = Some InOwned /\ source res_env_1 (to_host e) = Some buf | None => r_data e = None end ->
    entry_ok res_env_1 (to_host e)) as Hz.
  { intros e cdata Hc Hl Hr Ho. split; [|split; [reflexivity|]].
    - split; [exact Hl|]. split; [intros _ _; exists cdata; exact (conj Hc Hr)|]. split; [intros buf E; exact (Hs e buf (mk_is_Some _ _ E) E)|].
      cbn [e_owned e_data to_host]. destruct (r_owned e); [exact Ho|]. rewrite Ho. discriminate.
    - cbn [e_data e_len to_host]. destruct (r_owned e); [destruct Ho as [-> _]|rewrite Ho]; discriminate. }
  constructor; [apply (Hmap _ 60); [reflexivity|reflexivity|cbn; lia|discriminate|eexists; vm_compute; reflexivity]|].
  constructor; [apply (Hz _ 72); [reflexivity|cbn; lia|eexists; vm_compute; reflexivity|split; vm_compute; reflexivity]|].
  constructor; [apply (Hz _ 82); [reflexivity|cbn; lia|eexists; vm_compute; reflexivity|vm_compute; reflexivity]|constructor].
Qed.

Lemma res_run_ok : run_ok zero_ctx res_env_1 res_ctx.
Proof.
  split; [|exact res_started_ok|unfold BLYT_RESOURCE_SCRATCH_SIZE; cbn; lia|reflexivity|].
  - split; [apply initial_registry_ok, blank_screen_len|]. split; [|split; vm_compute; congruence].
    split; [repeat constructor; vm_compute; congruence|vm_compute; reflexivity].
  - exact (run_state _ _ _ (demo_run_ok BLYT_PHASE_UPDATE false)).
Qed.

Lemma res_screen_only : only_screen (initial_registry blank_screen).
Proof.
  split; [reflexivity|]. split; [reflexivity|]. intros i s Hs%zget_elem. unfold initial_registry in Hs; cbn [slots] in Hs.
  apply elem_of_cons in Hs as [->|Hs]; [split; [reflexivity|left; reflexivity]|].
  apply elem_of_replicate in Hs as [-> _]. split; [reflexivity|right; reflexivity].
Qed.

(** The words of the block. *)
Lemma res_words : memory_read res_mem res_acct 12 = concat (write_u32_le <$> [0; 6; 6]).
Proof. vm_compute. reflexivity. Qed.

Lemma res_linked : linked res_machine_env zero_ctx res_acct BLYT_EMU_MEM_SIZE res_started res_session.
Proof.
  split; [|split; [split|..]|reflexivity|reflexivity].
  - split; [|split; [vm_compute; congruence|reflexivity]].
    split; [vm_compute; congruence|exact res_run_ok|apply map_Forall_empty].
  - reflexivity.
  - exact res_started_entries.
  - vm_compute. split_and!; congruence.
  - split; [vm_compute; reflexivity|split; vm_compute; congruence].
  - exact (conj res_screen_only eq_refl).
  - reflexivity.
  - vm_compute. reflexivity.
  - split; [vm_compute; reflexivity|split; vm_compute; congruence].
Qed.

(** The words the cart passes by address. *)
Lemma res_cells : cells_ok res_acct BLYT_EMU_MEM_SIZE 0x3100000 0x3100004 0x3100008.
Proof. split; unfold clear_of; vm_compute; split_and?; (congruence || (left; congruence) || (right; congruence)). Qed.

Definition res_handle (id : Z) : Z := blyt_resource_encode id BLYT_RESOURCE_PROV_CART.
Definition res_calls : list res_call :=
  [Pin (res_handle 9); Pin (res_handle 12); MemStats; HeapUsed (BLYT_MEM_BUDGET_BYTES - 8); Pin (res_handle 12); Unpin (res_handle 12);
   Pin (res_handle 12); Pin (res_handle 5); FrameDone; MemStats].

Lemma res_calls_ok : Forall res_call_ok res_calls.
Proof. repeat constructor; vm_compute; congruence. Qed.

Definition res_answers : list res_result :=
  [Bytes (replicate 6 50); Bytes (replicate 10 60); Stats [16; 0; 16; BLYT_MEM_BUDGET_BYTES]; Quiet; ResCode 2; ResCode 0; ResCode 2; ResCode 4;
   Quiet; Stats [6; BLYT_MEM_BUDGET_BYTES - 8; BLYT_MEM_BUDGET_BYTES - 2; BLYT_MEM_BUDGET_BYTES]].

Lemma res_calls_answers : fst <$> run_res (native_res_call res_env_1) res_calls res_started = Some res_answers.
Proof. vm_compute. reflexivity. Qed.

Lemma native_resource_parity_witness :
  exists ss', run_res (emu_res_call res_machine_env 0x3100000 0x3100004 0x3100008) res_calls res_session = Some (res_answers, ss').
Proof.
  assert (pins_below 1 res_started) as Hp by (repeat constructor; vm_compute; congruence).
  assert (1 + Z.of_nat (length res_calls) < 2 ^ 32) as Hn by (vm_compute; reflexivity).
  destruct (native_resource_parity res_machine_env res_env_1 zero_ctx res_acct BLYT_EMU_MEM_SIZE 0x3100000 0x3100004 0x3100008
    (toy_source res_cart) res_cells res_calls 1 res_started res_session res_linked Hp ltac:(lia) Hn res_calls_ok) as (rs & st' & ss' & H1 & H2 & _).
  pose proof res_calls_answers as Ha. rewrite H1 in Ha. apply (inj Some) in Ha. cbn [fst] in Ha. subst rs. exact (ex_intro _ ss' H2).
Defined.
